(* ===== verification/_CoqProject ===== *)
-Q . S2P
Prelude.v
CInt.v
Opcodes.v
State.v
Memory.v
Cregs.v
Elf.v
Dis.v
Asm.v
AsmPack.v
SimopsAlu.v
SimopsAcc.v
SimopsFlow.v
SimopsMem.v
SimopsTrap.v
Interp.v
Gdb.v
Tdep.v
Remote.v
Gcc.v
Rtl.v
Hash.v
HashSpec.v
OpcodeTable.v
GdbSpec.v
CallSpec.v
Logic.v
OpRules.v
Machine.v
Decode.v
MemProps.v
RemoteSpec.v
SimTarget.v
Effects.v
AluSpec.v
AccSpec.v
FlowSpec.v
NumSpec.v
MemSpec.v
Cycle.v
SysSpec.v
Step.v
Prologue.v
Epilogue.v
Saving.v
ReturnSpec.v
Unwind.v
Parallel.v
Footprint.v
AsmRegs.v
DisSpec.v
ElfSpec.v
AsmSpec.v
Branches.v
Emit.v
GccText.v
EpilogueText.v
GccSpec.v
Returns.v
Declares.v
PackSpec.v
Words.v
RegFile.v
Insns.v
InsnText.v
Mnemonics.v
Templates.v
Lines.v
Compare.v
Sums.v
Moves.v
Conditional.v
Split.v
