(* ===== verification/Prelude.v ===== *)
(** * The D10V tool chain of ecosSWtools: a verification library

    The repository is a source release of the GNU tools with a port to the
    Mitsubishi D10V, a 16-bit DSP.  This library models the parts of the port that
    carry its own logic (the instruction set, the simulator, the assembler's back end,
    the disassembler, the relocations, the debugger's target code, and the compiler's
    frames and calls), proves what makes each of them correct, and proves that they
    agree: what the assembler builds is what the simulator decodes, what the
    disassembler prints reads back, the order into which the assembler packs
    instructions does not change what they do, and the frames that the compiler writes
    are those in which the debugger finds a caller's registers and from which a
    function returns.

    ** The program

    The instruction set is a table, [d10v_opcodes] in opcodes/d10v-opc.c.  The
    program sim/d10v/gencode.c derives from it the table [Simops] and the names of
    the functions of sim/d10v/simops.c, one per instruction.  sim/d10v/interp.c
    hashes [Simops], fetches a 32-bit word, decodes it as one long instruction or as
    two short ones that run in parallel or in sequence, puts the operands into
    [OP[0..3]] and calls the functions.  A function reads registers directly and
    schedules its writes in the slots of [State.slot] ([SET_GPR], [SET_ACC], and
    [move_to_cr] for the control registers); [SLOT_FLUSH], once per word, makes them.
    Memory is written at once, through [dmem_addr], which maps data addresses to three
    memories; the mapping registers are themselves memory.  The debugger enters
    through [sim_open], [sim_read], [sim_write], [sim_fetch_register],
    [sim_store_register] and [sim_resume].

    The other users of the table are gas/config/tc-d10v.c and opcodes/d10v-dis.c.
    The assembler ([md_assemble]) reads the operands of a line, chooses an entry of the
    table by them ([find_opcode]), inserts them into the word ([build_insn]), and puts
    short instructions together two by two ([write_2_short]): an instruction waits in
    [prev_opcode] and [prev_insn] for the next line.  The names of the table are found
    through a hash table, the symbol table of gas/hash.c, which [md_begin] fills.  What it cannot resolve becomes a
    fix, which [md_apply_fix3] resolves later or [tc_gen_reloc] turns into a relocation
    of bfd/elf32-d10v.c, which the linker applies.

    The compiler lays out a function's frame ([d10v_stack_info] of
    gcc/config/d10v/d10v.c) and writes prologue and epilogue as text, which the
    assembler reads.  The debugger stops the simulator and follows the prologue's code
    without running it ([d10v_frame_find_saved_regs] of gdb/d10v-tdep.c) to find the
    caller's registers; it can leave a frame ([d10v_pop_frame]) and call a function
    ([d10v_push_arguments]).  It reads registers and memory through a target: the
    simulator, or a board, for which gdb/remote-d10v.c translates addresses.

    ** The files

    The model, read next to the C source:
    - CInt.v: the host's integers (i386: 32-bit [int] and [long]) as [Z] with the
      conversions written out; the SEXT macros of d10v_sim.h.
    - Opcodes.v: include/opcode/d10v.h, the tables of opcodes/d10v-opc.c, and
      [write_opcodes] of gencode.c as [Simops].
    - State.v: [struct _state] as the record [state]; the state monad [M], whose
      outcomes are a value, undefined behaviour of C, the exit of the program, and
      fuel that ran out; the slots; the class [Host] of what the host decides (the
      success of an allocation, the answer to a system call, errno).
    - Memory.v: endian.c, and the translation, allocation and transfers of interp.c.
    - Cregs.v: [move_to_cr] and the register and flag macros.
    - SimopsAlu.v, SimopsAcc.v, SimopsFlow.v, SimopsMem.v, SimopsTrap.v: the 157
      functions [OP_%X] of simops.c, and the system calls.
    - Interp.v: the hash table, operand extraction, the four formats, [sim_resume],
      and the entry points.
    - Elf.v: elf32-d10v.c, and the generic code of BFD that applies a relocation.
    - Dis.v: d10v-dis.c, as the list of calls it makes to print.
    - Asm.v, AsmPack.v: tc-d10v.c, operands and words in the first; packing, the entry
      points, fixes and data in the second.  The state is the record [asm] of the
      file's static variables; the outcomes are a value, a fatal error, undefined
      behaviour, and fuel that ran out.  What the back end calls of the rest of gas
      (expressions, symbols, the input line) is the class [Gas].
    - Hash.v: gas/hash.c, the table as an array of entries with its wall.
    - Gdb.v: the macros of gdb/config/d10v/tm-d10v.h, and the accesses of findvar.c
      and corefile.c.  The register cache and the target vector are the class
      [Target].  Tdep.v: d10v-tdep.c but for what it prints.  Its outcomes are a value,
      an error of the debugger, undefined behaviour, and fuel that ran out.  Remote.v:
      the translation of remote-d10v.c.
    - Gcc.v: the frame, the text of prologue and epilogue, and the registers of
      arguments of d10v.c and d10v.h.  What the rest of the compiler knows of a function
      is the record [compiling].

    The theorems:
    - Logic.v, OpRules.v, Machine.v: the type invariant [wf]; a judgement for
      operations that bounds the slots they take and relates their states, one rule
      per primitive, one lemma per instruction; from these the invariant of every
      reachable state ([reachable_inv]), that 16 slots are enough
      ([sim_body_no_overflow]), and that registers change at the flush only
      ([writes_wait_for_flush]).
    - Decode.v: the hash table against a linear search, the table's ambiguities, the
      ranges of operands, and decoding as the inverse of encoding.
    - MemProps.v: the memories as one array of cells; address translation against the
      function [translate]; round trips of words, of program accesses and of debugger
      transfers.
    - Effects.v: what an instruction does as a list of writes ([effects]), with a rule
      per primitive.  It is the specification language of AluSpec.v, AccSpec.v and
      FlowSpec.v, tables that give the writes of each instruction in terms of
      integers, and the theorems that the functions implement them.
    - FlowSpec.v also: the PSW and the two stack pointers, traps and their returns.
    - NumSpec.v: sixteen [divs] steps are a division, [exp] normalises, modulo
      addressing.  MemSpec.v: push and pop.  Cycle.v: the next PC, hardware loops, the
      debugger's registers.  SysSpec.v: a system call.
    - Step.v, Parallel.v: the execution of one word of each format in terms of the
      instructions in it ([execute]): long, in sequence, in parallel, conditional.
    - AsmRegs.v: the binary search of the register table.  DisSpec.v: the disassembler
      and the simulator find the same instruction, and printed operands read back.
      ElfSpec.v: the relocation of a branch.
    - AsmSpec.v: the operand checks, and the simulator decodes the words that
      [build_insn] makes.  Emit.v: the invariant of the assembler's state, kept by
      [md_assemble], and what it writes.
    - Footprint.v: which locations an instruction reads and writes, from its row in
      the tables of AluSpec.v and AccSpec.v.  Declares.v: the sets that [parallel_ok]
      computes from the opcode table cover them.  PackSpec.v: so two instructions that
      the assembler puts side by side do what they do in sequence.
    - HashSpec.v: the hash table implements a finite map ([table]) through collisions,
      searches that wrap around and growth, as long as nothing is deleted
      ([deletion_hides] is what goes wrong then).  OpcodeTable.v: the loop of [md_begin]
      over this table, and that it answers as the map [d10v_hash] of Asm.v.
    - GdbSpec.v: integers in target order, the accesses of the debugger.  CallSpec.v:
      where [d10v_push_arguments] and the compiler put arguments, and for which calls
      they agree.  RemoteSpec.v: the board's addresses are the simulator's.  Branches.v:
      a branch that the assembler resolves is what the linker makes of its relocation.
    - SimTarget.v: the simulator as the debugger's target, [sees].  Prologue.v: the
      instructions of a prologue, as the debugger classifies them and as the machine
      runs them ([classified_does]).  Unwind.v: following a prologue by rule, the
      invariant [tracks]; the frame found is the frame there is, and leaving it
      restores the caller.
    - Epilogue.v: the instructions of an epilogue on the machine.  Saving.v: pieces of
      saved registers ([saved]), their words on the stack, and that restoring them
      gives them back.  ReturnSpec.v: a whole frame as a [frame_plan]; entering it, and
      returning after any body that leaves the saved part alone.
    - GccText.v, EpilogueText.v: the compiler's lines are assembled to instructions
      ([assembles]), and the two loops over the registers give the same pieces.
      GccSpec.v: [d10v_stack_info] describes the frame; the debugger can follow every
      compiled prologue.  Returns.v: every compiled function returns.

    ** Bounds and fuel

    The only unbounded loop of the simulator is that of [sim_resume]; it has fuel,
    [sim_loop_fuel] shows that the fuel does not matter to a run that ends, and
    [sim_resume_step] that a single step needs one unit.  [dmem_addr] calls itself
    through [DMAP] once, so depth 2 is enough ([dmem_addr_unfold] in Memory.v).  The
    slots are the 16 of the source, and an overflow is an outcome of the model,
    [UB_slots].  In the assembler, [reg_name_search_loop] has the length of the table as
    its fuel ([reg_name_search_linear] shows it is enough), [match_loop] and the loop of
    the operand list the length of the table and of the text, which each step shortens;
    the loop of [.word] has fuel as an argument, because the text is consumed by a
    parameter.  In the debugger, the loops over code ([skip_loop], [find_regs_loop])
    read a word per round and have fuel as an argument; the theorems ask for as much as
    the prologue has words.  The loops of the compiler over registers ([save_gprs],
    [Gcc.restore_gprs]) have fuel 16, one round per register at most
    ([save_gprs_pieces], [restore_gprs_pieces]).  [hash_jam] and [hash_grow] call each
    other and have the depth as fuel; a table that has just grown does not grow again, so
    any fuel is enough ([jam_run], [grow_run]).  The theorems about the hash table are for
    at most 2 ^ 23 operations, which keeps its size an [int].

    ** Parameters

    [Host], [Gas] and [Target] are classes, arguments of the definitions that use them;
    theorems hold for every instance.  [GasLaws] states what the compiler's text needs
    of the rest of gas: that a decimal number is read as this constant, and that letters
    and digits do not end a line; [sees] what the debugger needs of a target that is the
    simulator.  Each has an instance at which the theorems are applied ([plain_host],
    [decimal_gas], [sim_target]).  The names in the hash table are addresses, and the
    strings there are an argument [text]: the callers do not change them while the table
    holds them.  [xmalloc] does not fail.

    ** What is not modelled

    Tracing and statistics that are only printed; the forwarding calls of the generic
    simulator library ([sim_load], [sim_do_command] and the like); [write_header] and
    [write_template] of gencode.c, which print C text; what host calls do; the
    target-independent parts of gas and BFD, apart from the symbol table and the
    application of relocations; the functions of gdb/d10v-tdep.c that print; the functions of
    gcc/config/d10v/d10v.c on RTL expressions and the machine description, so that the
    body of a compiled function is arbitrary code.  The rest of the repository is target-independent or for other
    targets. *)

From Stdlib Require Export ZArith List Lia Bool.
From stdpp Require Export base list strings gmap.
Export ListNotations.

#[global] Open Scope Z_scope.
#[global] Set Default Goal Selector "!".

(** ** Arithmetic facts shared by every component *)

(** Solves a goal about [mod] and [/] by constants after making the quotients
    explicit. *)
Ltac zdm := Z.div_mod_to_equations; nia.
Ltac zdml := Z.div_mod_to_equations; lia.

(** Case analysis on a small integer, given a bound *)
Lemma upto_in (n : Z) (k : nat) : 0 <= n < Z.of_nat k -> In n (map Z.of_nat (seq 0 k)).
Proof. intros Hn. apply in_map_iff. exists (Z.to_nat n). rewrite in_seq. lia. Qed.
(** One goal for each value of [n] below [k]; those that the context excludes are solved. *)
Ltac each_below n k :=
  let H := fresh in
  pose proof (upto_in n k ltac:(lia)) as H; cbv in H;
  repeat match type of H with _ \/ _ => destruct H as [<-|H]; [try lia|] end;
  try destruct H.

Lemma land_ones_mod (x n : Z) : 0 <= n -> Z.land x (Z.ones n) = x mod 2 ^ n.
Proof. intros. apply Z.land_ones. lia. Qed.

Lemma land_bound_l (x y : Z) : 0 <= y -> 0 <= Z.land x y <= y.
Proof.
  intros Hy. split; [apply Z.land_nonneg; lia|].
  assert (Z.land x y = y - Z.ldiff y x) as ->.
  { rewrite Z.sub_nocarry_ldiff.
    - apply Z.bits_inj'. intros n Hn.
      rewrite Z.ldiff_spec, Z.ldiff_spec, Z.land_spec.
      destruct (Z.testbit x n), (Z.testbit y n); reflexivity.
    - apply Z.bits_inj'. intros n Hn.
      rewrite Z.ldiff_spec, Z.ldiff_spec, Z.bits_0.
      destruct (Z.testbit x n), (Z.testbit y n); reflexivity. }
  enough (0 <= Z.ldiff y x) by lia. apply Z.ldiff_nonneg. lia.
Qed.

Lemma testbit_high (x n i : Z) : 0 <= n -> 0 <= x < 2 ^ n -> n <= i -> Z.testbit x i = false.
Proof.
  intros Hn Hx Hi. rewrite <- (Z.mod_small x (2 ^ n)) by lia.
  apply Z.mod_pow2_bits_high. lia.
Qed.

Lemma ldiff_ones_sub (x n : Z) :
  0 <= n -> 0 <= x < 2 ^ n -> Z.ldiff (Z.ones n) x = 2 ^ n - 1 - x.
Proof.
  intros Hn Hx. rewrite <- Z.sub_nocarry_ldiff; [rewrite Z.ones_equiv; lia|].
  apply Z.bits_inj'. intros i Hi. rewrite Z.ldiff_spec, Z.bits_0.
  rewrite Z.testbit_ones_nonneg by lia.
  destruct (Z.ltb_spec i n); [apply andb_false_r|].
  now rewrite (testbit_high x n i) by lia.
Qed.

Lemma lor_lt_pow2 (x y n : Z) :
  0 <= n -> 0 <= x < 2 ^ n -> 0 <= y < 2 ^ n -> 0 <= Z.lor x y < 2 ^ n.
Proof.
  intros Hn Hx Hy. split; [apply Z.lor_nonneg; lia|].
  assert (Z.lor x y = Z.lor x y mod 2 ^ n) as ->; [|apply Z.mod_pos_bound; lia].
  rewrite <- Z.land_ones by lia. rewrite Z.land_lor_distr_l.
  rewrite !Z.land_ones by lia. rewrite !Z.mod_small by lia. reflexivity.
Qed.

Lemma land_lt_pow2 (x y n : Z) :
  0 <= n -> 0 <= x < 2 ^ n -> 0 <= y -> 0 <= Z.land x y < 2 ^ n.
Proof.
  intros Hn Hx Hy. rewrite Z.land_comm.
  pose proof (land_bound_l y x). lia.
Qed.

Lemma lxor_lt_pow2 (x y n : Z) :
  0 <= n -> 0 <= x < 2 ^ n -> 0 <= y < 2 ^ n -> 0 <= Z.lxor x y < 2 ^ n.
Proof.
  intros Hn Hx Hy. split; [apply Z.lxor_nonneg; lia|].
  assert (Z.lxor x y = Z.lxor x y mod 2 ^ n) as ->; [|apply Z.mod_pos_bound; lia].
  rewrite <- Z.land_ones by lia. apply Z.bits_inj'. intros i Hi.
  rewrite Z.land_spec, Z.lxor_spec, Z.testbit_ones_nonneg by lia.
  destruct (Z.ltb_spec i n); [now rewrite andb_true_r|].
  rewrite andb_false_r, (testbit_high x n i), (testbit_high y n i) by lia.
  reflexivity.
Qed.

(** Disjoint bits: [or] is addition. *)
Lemma lor_add_disjoint (hi lo n : Z) :
  0 <= n -> 0 <= lo < 2 ^ n -> Z.lor (Z.shiftl hi n) lo = hi * 2 ^ n + lo.
Proof.
  intros Hn Hlo. rewrite <- Z.shiftl_mul_pow2 by lia.
  assert (Z.land (Z.shiftl hi n) lo = 0) as Hd.
  { apply Z.bits_inj'. intros i Hi. rewrite Z.land_spec, Z.bits_0.
    destruct (Z.ltb_spec i n).
    - now rewrite Z.shiftl_spec_low by lia.
    - rewrite (testbit_high lo n i) by lia. apply andb_false_r. }
  rewrite <- Z.lxor_lor, <- Z.add_nocarry_lxor by done. reflexivity.
Qed.

(** A field of a word, and a single bit of one. *)
Lemma land_field (x k n : Z) :
  0 <= k -> 0 <= n -> Z.land x (Z.shiftl (Z.ones n) k) = (x / 2 ^ k) mod 2 ^ n * 2 ^ k.
Proof.
  intros Hk Hn. rewrite <- Z.shiftl_mul_pow2, <- Z.land_ones, <- Z.shiftr_div_pow2 by lia.
  apply Z.bits_inj'. intros i Hi. rewrite Z.land_spec, !Z.shiftl_spec by lia.
  rewrite Z.land_spec. destruct (Z.ltb_spec i k).
  - rewrite (Z.testbit_neg_r (Z.ones n)) by lia. by rewrite !andb_false_r.
  - rewrite Z.shiftr_spec by lia. by replace (i - k + k) with i by lia.
Qed.

Lemma land_bit (x n : Z) :
  0 <= n -> Z.land x (2 ^ n) = if Z.testbit x n then 2 ^ n else 0.
Proof.
  intros Hn. assert (2 ^ n = Z.shiftl (Z.ones 1) n) as E
    by (rewrite Z.shiftl_mul_pow2 by lia; change (Z.ones 1) with 1; lia).
  rewrite E at 1. rewrite land_field by lia.
  pose proof (Z.testbit_spec' x n Hn) as B. change (2 ^ 1) with 2. rewrite <- B.
  destruct (Z.testbit x n); simpl; lia.
Qed.

Lemma land_bit_eqb (x n : Z) : 0 <= n -> (Z.land x (2 ^ n) =? 0) = negb (Z.testbit x n).
Proof.
  intros Hn. rewrite land_bit by done. pose proof (Z.pow_pos_nonneg 2 n).
  destruct (Z.testbit x n); simpl; [apply Z.eqb_neq; lia|done].
Qed.

(** ** Lists *)

Lemma Forall_insert {A} (P : A -> Prop) (l : list A) (i : nat) (x : A) :
  Forall P l -> P x -> Forall P (<[i := x]> l).
Proof.
  intros Hl Hx. rewrite Forall_lookup in *. intros j y Hy.
  destruct (decide (i = j)) as [->|Hne].
  - destruct (decide (j < length l)%nat) as [Hlt|Hge].
    + rewrite list_lookup_insert_eq in Hy by lia. congruence.
    + rewrite list_insert_ge in Hy by lia. eauto.
  - rewrite list_lookup_insert_ne in Hy by done. eauto.
Qed.

Lemma Forall_nth_default {A} (P : A -> Prop) (l : list A) (n : nat) (d : A) :
  Forall P l -> P d -> P (nth n l d).
Proof.
  intros Hl Hd. destruct (decide (n < length l)%nat) as [Hlt|Hge].
  - rewrite Forall_forall in Hl. apply Hl.
    apply list_elem_of_In, nth_In. lia.
  - rewrite nth_overflow by lia. done.
Qed.

(** ** Searches *)

Lemma find_filter {A} (p q : A -> bool) (l : list A) :
  (forall x, In x l -> p x = true -> q x = true) -> List.find p (List.filter q l) = List.find p l.
Proof.
  induction l as [|x l IH]; intros H; simpl; [done|].
  specialize (IH (fun y Hy => H y (or_intror Hy))). specialize (H x (or_introl eq_refl)).
  destruct (q x); simpl.
  - by rewrite IH.
  - destruct (p x); [by specialize (H eq_refl)|done].
Qed.

Lemma find_map {A B} (f : A -> B) (p : B -> bool) l :
  List.find p (map f l) = option_map f (List.find (fun x => p (f x)) l).
Proof. induction l as [|x l IH]; [done|]. simpl. by destruct (p (f x)). Qed.

Lemma find_ext {A} (p q : A -> bool) l : (forall x, In x l -> p x = q x) -> List.find p l = List.find q l.
Proof.
  induction l as [|x l IH]; intros Hpq; [done|]. simpl. rewrite Hpq by (by left).
  destruct (q x); [done|]. apply IH. intros y Hy. apply Hpq. by right.
Qed.
