(* ===== verification/CInt.v ===== *)
(** * C integers on the host

    The simulator is built for i386: [int] and [long] have 32 bits, [short] 16
    and [long long] 64, conversions to a narrower type keep the low bits, and
    [>>] on a negative value is arithmetic.  A value of any of these types is a
    [Z]; the functions below are the conversions.  The sign-extension macros are
    those of sim/d10v/d10v_sim.h, written as the source writes them. *)
From S2P Require Import Prelude.

(** ** Conversions *)

Definition u8 (x : Z) : Z := x mod 2 ^ 8.
Definition u16 (x : Z) : Z := x mod 2 ^ 16.
Definition u32 (x : Z) : Z := x mod 2 ^ 32.
Definition u64 (x : Z) : Z := x mod 2 ^ 64.

Definition wrap_signed (n x : Z) : Z := (x + 2 ^ (n - 1)) mod 2 ^ n - 2 ^ (n - 1).
Definition s16 (x : Z) : Z := wrap_signed 16 x.
Definition s32 (x : Z) : Z := wrap_signed 32 x.
Definition s64 (x : Z) : Z := wrap_signed 64 x.

(** The value of a C condition used as an [int]. *)
Definition b2z (b : bool) : Z := if b then 1 else 0.
(** The truth value of an [int]. *)
Definition truth (x : Z) : bool := negb (x =? 0).

(** ** d10v_sim.h: sign extension and the accumulator constants *)

Definition SEXT3 (x : Z) : Z := Z.lxor (Z.land x 0x7) (Z.lnot 3) + 4.
Definition SEXT4 (x : Z) : Z := Z.lxor (Z.land x 0xf) (Z.lnot 7) + 8.
Definition SEXT8 (x : Z) : Z := Z.lxor (Z.land x 0xff) (Z.lnot 0x7f) + 0x80.
Definition SEXT16 (x : Z) : Z := Z.lxor (Z.land x 0xffff) (Z.lnot 0x7fff) + 0x8000.
Definition SEXT32 (x : Z) : Z :=
  Z.lxor (Z.land x 0xffffffff) (Z.lnot 0x7fffffff) + 0x80000000.
Definition SEXT40 (x : Z) : Z :=
  Z.lxor (Z.land x 0xffffffffff) (Z.lnot 0x7fffffffff) + 0x8000000000.
Definition SEXT44 (x : Z) : Z :=
  Z.lxor (Z.land x 0xfffffffffff) (Z.lnot 0x7ffffffffff) + 0x80000000000.
Definition SEXT56 (x : Z) : Z :=
  Z.lxor (Z.land x 0xffffffffffffff) (Z.lnot 0x7fffffffffffff) + 0x80000000000000.
Definition SEXT60 (x : Z) : Z :=
  Z.lxor (Z.land x 0xfffffffffffffff) (Z.lnot 0x7ffffffffffffff) + 0x800000000000000.

Definition MAX32 : Z := 0x7fffffff.
Definition MIN32 : Z := 0xff80000000.
Definition MASK32 : Z := 0xffffffff.
Definition MASK40 : Z := 0xffffffffff.

(** ** Facts *)

Lemma u8_range x : 0 <= u8 x < 2 ^ 8. Proof. apply Z.mod_pos_bound. lia. Qed.
Lemma u16_range x : 0 <= u16 x < 2 ^ 16. Proof. apply Z.mod_pos_bound. lia. Qed.
Lemma u32_range x : 0 <= u32 x < 2 ^ 32. Proof. apply Z.mod_pos_bound. lia. Qed.
Lemma u16_small x : 0 <= x < 2 ^ 16 -> u16 x = x. Proof. apply Z.mod_small. Qed.
Lemma u32_small x : 0 <= x < 2 ^ 32 -> u32 x = x. Proof. apply Z.mod_small. Qed.
Lemma u8_small x : 0 <= x < 2 ^ 8 -> u8 x = x. Proof. apply Z.mod_small. Qed.

Lemma wrap_signed_range n x :
  1 <= n -> - 2 ^ (n - 1) <= wrap_signed n x < 2 ^ (n - 1).
Proof.
  intros Hn. unfold wrap_signed.
  assert (2 ^ n = 2 * 2 ^ (n - 1)) as E
    by (rewrite <- Z.pow_succ_r by lia; f_equal; lia).
  pose proof (Z.mod_pos_bound (x + 2 ^ (n - 1)) (2 ^ n)). lia.
Qed.

Lemma wrap_signed_small n x :
  1 <= n -> - 2 ^ (n - 1) <= x < 2 ^ (n - 1) -> wrap_signed n x = x.
Proof.
  intros Hn Hx. unfold wrap_signed.
  assert (2 ^ n = 2 * 2 ^ (n - 1)) as E
    by (rewrite <- Z.pow_succ_r by lia; f_equal; lia).
  rewrite Z.mod_small; lia.
Qed.

Lemma wrap_signed_mod n x : 1 <= n -> wrap_signed n x mod 2 ^ n = x mod 2 ^ n.
Proof.
  intros Hn. unfold wrap_signed. rewrite Zminus_mod_idemp_l. f_equal. lia.
Qed.

Lemma pow2_half n : 1 <= n -> 2 ^ n = 2 * 2 ^ (n - 1).
Proof. intros. rewrite <- Z.pow_succ_r by lia. f_equal. lia. Qed.

Lemma lxor_ones_low n y :
  0 <= n -> 0 <= y < 2 ^ n -> Z.lxor y (Z.ones n) = 2 ^ n - 1 - y.
Proof.
  intros Hn Hy. rewrite <- ldiff_ones_sub by lia.
  apply Z.bits_inj'. intros i Hi. rewrite Z.lxor_spec, Z.ldiff_spec.
  rewrite Z.testbit_ones_nonneg by lia.
  destruct (Z.ltb_spec i n); [now destruct (Z.testbit y i)|].
  now rewrite (testbit_high y n i) by lia.
Qed.

Lemma lxor_ones_top n y :
  0 <= n -> 0 <= y < 2 ^ n ->
  Z.lxor (2 ^ n + y) (Z.ones n) = 2 ^ n + (2 ^ n - 1 - y).
Proof.
  intros Hn Hy. rewrite <- ldiff_ones_sub by lia.
  assert (Hd := land_bound_l (Z.lnot y) (Z.ones n)).
  rewrite Z.land_comm, <- Z.ldiff_land, Z.ones_equiv in Hd.
  replace (2 ^ n + y) with (1 * 2 ^ n + y) by lia.
  replace (2 ^ n + Z.ldiff (Z.ones n) y) with (1 * 2 ^ n + Z.ldiff (Z.ones n) y) by lia.
  rewrite <- !lor_add_disjoint by (rewrite ?Z.ones_equiv; lia).
  apply Z.bits_inj'. intros i Hi.
  rewrite Z.lxor_spec, !Z.lor_spec, Z.ldiff_spec, Z.testbit_ones_nonneg by lia.
  destruct (Z.ltb_spec i n).
  - rewrite Z.shiftl_spec_low by lia. now destruct (Z.testbit y i).
  - rewrite (testbit_high y n i) by lia.
    now destruct (Z.testbit (Z.shiftl 1 n) i).
Qed.

(** [xor] with the complement of a power of two minus one, plus that power of
    two, is sign extension: the idiom behind every [SEXTn]. *)
Lemma sext_xor n y :
  1 <= n -> 0 <= y < 2 ^ n ->
  Z.lxor y (Z.lnot (2 ^ (n - 1) - 1)) + 2 ^ (n - 1) =
  if y <? 2 ^ (n - 1) then y else y - 2 ^ n.
Proof.
  intros Hn Hy. rewrite (pow2_half n) in * by lia. set (h := 2 ^ (n - 1)) in *.
  replace (h - 1) with (Z.ones (n - 1)) by (rewrite Z.ones_equiv; unfold h; lia).
  rewrite <- Z.lnot_lxor_r. unfold Z.lnot.
  destruct (Z.ltb_spec y h).
  - rewrite lxor_ones_low by (fold h; lia). fold h. lia.
  - replace y with (h + (y - h)) at 1 by lia. unfold h at 1.
    rewrite lxor_ones_top; fold h; lia.
Qed.

Lemma sext_wrap n x :
  1 <= n ->
  (if x mod 2 ^ n <? 2 ^ (n - 1) then x mod 2 ^ n else x mod 2 ^ n - 2 ^ n) =
  wrap_signed n x.
Proof.
  intros Hn. unfold wrap_signed. set (h := 2 ^ (n - 1)).
  assert (Hh : 0 < h) by (apply Z.pow_pos_nonneg; lia).
  assert (E : 2 ^ n = 2 * h) by (unfold h; rewrite <- Z.pow_succ_r by lia; f_equal; lia).
  rewrite E. pose proof (Z.mod_pos_bound x (2 * h)) as B.
  rewrite <- (Zplus_mod_idemp_l x h).
  destruct (Z.ltb_spec (x mod (2 * h)) h).
  - rewrite (Z.mod_small (x mod (2 * h) + h)); lia.
  - rewrite (Z.mod_eq (x mod (2 * h) + h)) by lia.
    assert ((x mod (2 * h) + h) / (2 * h) = 1) as ->; [|lia].
    symmetry. apply (Z.div_unique _ _ _ (x mod (2 * h) - h)); lia.
Qed.

(** Every macro is reduction to the signed [n]-bit range. *)
Ltac sext_tac n :=
  intros;
  match goal with |- ?m _ = _ => unfold m end;
  match goal with |- context [Z.land ?x ?k] =>
    change k with (Z.ones n); rewrite (Z.land_ones x n) by lia end;
  etransitivity; [|apply (sext_wrap n); lia];
  rewrite <- (sext_xor n) by (try apply Z.mod_pos_bound; lia);
  reflexivity.

Lemma SEXT3_wrap x : SEXT3 x = wrap_signed 3 x. Proof. sext_tac 3. Qed.
Lemma SEXT4_wrap x : SEXT4 x = wrap_signed 4 x. Proof. sext_tac 4. Qed.
Lemma SEXT8_wrap x : SEXT8 x = wrap_signed 8 x. Proof. sext_tac 8. Qed.
Lemma SEXT16_wrap x : SEXT16 x = wrap_signed 16 x. Proof. sext_tac 16. Qed.
Lemma SEXT32_wrap x : SEXT32 x = wrap_signed 32 x. Proof. sext_tac 32. Qed.
Lemma SEXT40_wrap x : SEXT40 x = wrap_signed 40 x. Proof. sext_tac 40. Qed.
Lemma SEXT44_wrap x : SEXT44 x = wrap_signed 44 x. Proof. sext_tac 44. Qed.
Lemma SEXT56_wrap x : SEXT56 x = wrap_signed 56 x. Proof. sext_tac 56. Qed.
Lemma SEXT60_wrap x : SEXT60 x = wrap_signed 60 x. Proof. sext_tac 60. Qed.

Lemma MASK40_mod x : Z.land x MASK40 = x mod 2 ^ 40.
Proof. change MASK40 with (Z.ones 40). apply Z.land_ones. lia. Qed.
Lemma MASK32_mod x : Z.land x MASK32 = x mod 2 ^ 32.
Proof. change MASK32 with (Z.ones 32). apply Z.land_ones. lia. Qed.

Lemma wrap_signed_congr n x y :
  1 <= n -> x mod 2 ^ n = y mod 2 ^ n -> wrap_signed n x = wrap_signed n y.
Proof.
  intros Hn E. unfold wrap_signed. by rewrite <- (Zplus_mod_idemp_l x), E, Zplus_mod_idemp_l.
Qed.

(** Putting two 32-bit halves together. *)
Lemma join_halves t b :
  0 <= b < 2 ^ 32 -> s64 (Z.lor (s64 (Z.shiftl t 32)) b) = s64 (t * 2 ^ 32 + b).
Proof.
  intros Hb. rewrite Z.shiftl_mul_pow2 by lia.
  assert (s64 (t * 2 ^ 32) = Z.shiftl (s32 t) 32) as ->.
  { rewrite Z.shiftl_mul_pow2 by lia. unfold s64, s32, wrap_signed.
    replace (t * 2 ^ 32 + 2 ^ (64 - 1)) with ((t + 2 ^ (32 - 1)) * 2 ^ 32) by lia.
    replace (2 ^ 64) with (2 ^ 32 * 2 ^ 32) at 1 by lia.
    rewrite Z.mul_mod_distr_r by lia. lia. }
  rewrite lor_add_disjoint by lia. apply wrap_signed_congr; [lia|].
  unfold s32, wrap_signed. zdml.
Qed.

(** ** Conversions of conversions *)

Lemma u16_u16 x : u16 (u16 x) = u16 x. Proof. unfold u16. by rewrite Z.mod_mod. Qed.
Lemma u16_s16 x : u16 (s16 x) = u16 x. Proof. by apply (wrap_signed_mod 16). Qed.
Lemma u16_s32 x : u16 (s32 x) = u16 x. Proof. unfold u16, s32, wrap_signed. zdml. Qed.
Lemma u16_u32 x : u16 (u32 x) = u16 x. Proof. unfold u16, u32. zdml. Qed.
Lemma s16_s32 x : s16 (s32 x) = s16 x.
Proof. apply (wrap_signed_congr 16); [lia|]. apply u16_s32. Qed.
Lemma u16_shiftr_s32 x : u16 (Z.shiftr (s32 x) 16) = u16 (Z.shiftr x 16).
Proof. rewrite !Z.shiftr_div_pow2 by lia. unfold u16, s32, wrap_signed. zdml. Qed.
Lemma u16_shiftr_u32 x : u16 (Z.shiftr (u32 x) 16) = u16 (Z.shiftr x 16).
Proof. rewrite !Z.shiftr_div_pow2 by lia. unfold u16, u32. zdml. Qed.
Lemma u32_s32 x : u32 (s32 x) = u32 x. Proof. by apply (wrap_signed_mod 32). Qed.
Lemma u16_land_ones x : u16 (Z.land x 0xFFFF) = u16 x.
Proof. unfold u16. change 0xFFFF with (Z.ones 16). rewrite Z.land_ones by lia. by rewrite Z.mod_mod. Qed.
Lemma s16_s16 x : s16 (s16 x) = s16 x.
Proof. apply (wrap_signed_congr 16); [lia|]. apply u16_s16. Qed.
Lemma s16_u16 x : s16 (u16 x) = s16 x.
Proof. apply (wrap_signed_congr 16); [lia|]. apply u16_u16. Qed.
Create Rewrite HintDb conv.
#[export] Hint Rewrite u16_u16 u16_s16 u16_s32 u16_u32 s16_s32 u16_shiftr_s32 u16_shiftr_u32
  u32_s32 u16_land_ones s16_s16 s16_u16 : conv.

(** The signed view of a 16-bit register *)
Lemma s16_cases x : 0 <= x < 2 ^ 16 -> s16 x = if x <? 2 ^ 15 then x else x - 2 ^ 16.
Proof.
  intros Hx. unfold s16, wrap_signed. destruct (Z.ltb_spec x (2 ^ 15)); zdml.
Qed.
