(* ===== verification/Opcodes.v ===== *)
(** * The D10V opcode table and the table the simulator is generated from

    include/opcode/d10v.h (constants and record types), opcodes/d10v-opc.c (the
    register, operand and opcode tables) and sim/d10v/gencode.c ([write_opcodes],
    which derives the simulator's [Simops] table from the opcode table). *)
From S2P Require Import Prelude.

(** ** include/opcode/d10v.h *)

(** Format specifier: the two top bits of an instruction word. *)
Definition FM00 : Z := 0.
Definition FM01 : Z := 0x40000000.
Definition FM10 : Z := 0x80000000.
Definition FM11 : Z := 0xC0000000.

Definition NOP : Z := 0x5e00.
Definition OPCODE_DIVS : Z := 0x14002800.

(** Opcode formats. *)
Definition SHORT_OPCODE : Z := 1.
Definition LONG_OPCODE : Z := 8.
Definition SHORT_2 : Z := 1.
Definition SHORT_B : Z := 3.
Definition LONG_B : Z := 8.
Definition LONG_L : Z := 10.
Definition LONG_R : Z := 12.
Definition OPCODE_FAKE : Z := 32.

(** Execution units. *)
Definition EITHER : Z := 0.
Definition IU : Z := 1.
Definition MU : Z := 2.
Definition BOTH : Z := 3.

(** Execution types. *)
Definition PARONLY : Z := 1.
Definition SEQ : Z := 2.
Definition PAR : Z := 4.
Definition BRANCH_LINK : Z := 8.
Definition RMEM : Z := 16.
Definition WMEM : Z := 32.
Definition RF0 : Z := 64.
Definition WF0 : Z := 128.
Definition WCAR : Z := 256.
Definition BRANCH : Z := 512.

(** Operand flags. *)
Definition OPERAND_EVEN : Z := 1.
Definition OPERAND_ODD : Z := 2.
Definition OPERAND_DEST : Z := 4.
Definition OPERAND_NUM : Z := 8.
Definition OPERAND_ADDR : Z := 0x10.
Definition OPERAND_REG : Z := 0x20.
Definition OPERAND_PLUS : Z := 0x40.
Definition OPERAND_MINUS : Z := 0x80.
Definition OPERAND_ATSIGN : Z := 0x100.
Definition OPERAND_ATPAR : Z := 0x200.
Definition OPERAND_ACC0 : Z := 0x400.
Definition OPERAND_ACC1 : Z := 0x800.
Definition OPERAND_FFLAG : Z := 0x1000.
Definition OPERAND_CFLAG : Z := 0x2000.
Definition OPERAND_CONTROL : Z := 0x4000.
Definition OPERAND_ATMINUS : Z := 0x8000.
Definition OPERAND_SIGNED : Z := 0x10000.
Definition OPERAND_SHIFT : Z := 0x20000.
Definition OPERAND_GPR : Z := 0x40000.
Definition REGISTER_MASK : Z := 0xFF.

(** [struct d10v_opcode]; [name] is [None] for the null pointer that ends the
    table, and [operands] always has its six elements. *)
Record d10v_opcode := Opcode {
  name : option string;
  format : Z;
  cycles : Z;
  unit_ : Z;
  exec_type : Z;
  opcode : Z;
  mask : Z;
  operands : list Z
}.

(** [struct d10v_operand] *)
Record d10v_operand := Operand { bits : Z; shift : Z; flags : Z }.

(** [struct pd_reg] *)
Record pd_reg := PdReg { reg_name : string; pname : option string; value : Z }.

(** ** opcodes/d10v-opc.c *)

Definition d10v_predefined_registers : list pd_reg := [
  PdReg "a0" None (OPERAND_ACC0 + 0);
  PdReg "a1" None (OPERAND_ACC1 + 1);
  PdReg "bpc" None (OPERAND_CONTROL + 3);
  PdReg "bpsw" None (OPERAND_CONTROL + 1);
  PdReg "c" None (OPERAND_CFLAG + 3);
  PdReg "cr0" (Some "psw") (OPERAND_CONTROL);
  PdReg "cr1" (Some "bpsw") (OPERAND_CONTROL + 1);
  PdReg "cr10" (Some "mod_s") (OPERAND_CONTROL + 10);
  PdReg "cr11" (Some "mod_e") (OPERAND_CONTROL + 11);
  PdReg "cr12" None (OPERAND_CONTROL + 12);
  PdReg "cr13" None (OPERAND_CONTROL + 13);
  PdReg "cr14" (Some "iba") (OPERAND_CONTROL + 14);
  PdReg "cr15" None (OPERAND_CONTROL + 15);
  PdReg "cr2" (Some "pc") (OPERAND_CONTROL + 2);
  PdReg "cr3" (Some "bpc") (OPERAND_CONTROL + 3);
  PdReg "cr4" (Some "dpsw") (OPERAND_CONTROL + 4);
  PdReg "cr5" (Some "dpc") (OPERAND_CONTROL + 5);
  PdReg "cr6" None (OPERAND_CONTROL + 6);
  PdReg "cr7" (Some "rpt_c") (OPERAND_CONTROL + 7);
  PdReg "cr8" (Some "rpt_s") (OPERAND_CONTROL + 8);
  PdReg "cr9" (Some "rpt_e") (OPERAND_CONTROL + 9);
  PdReg "dpc" None (OPERAND_CONTROL + 5);
  PdReg "dpsw" None (OPERAND_CONTROL + 4);
  PdReg "f0" None (OPERAND_FFLAG + 0);
  PdReg "f1" None (OPERAND_FFLAG + 1);
  PdReg "iba" None (OPERAND_CONTROL + 14);
  PdReg "link" (Some "r13") (OPERAND_GPR + 13);
  PdReg "mod_e" None (OPERAND_CONTROL + 11);
  PdReg "mod_s" None (OPERAND_CONTROL + 10);
  PdReg "pc" None (OPERAND_CONTROL + 2);
  PdReg "psw" None (OPERAND_CONTROL + 0);
  PdReg "r0" None (OPERAND_GPR + 0);
  PdReg "r0-r1" None (OPERAND_GPR + 0);
  PdReg "r1" None (OPERAND_GPR + 1);
  PdReg "r1" None (OPERAND_GPR + 1);
  PdReg "r10" None (OPERAND_GPR + 10);
  PdReg "r10-r11" None (OPERAND_GPR + 10);
  PdReg "r11" None (OPERAND_GPR + 11);
  PdReg "r12" None (OPERAND_GPR + 12);
  PdReg "r12-r13" None (OPERAND_GPR + 12);
  PdReg "r13" None (OPERAND_GPR + 13);
  PdReg "r14" None (OPERAND_GPR + 14);
  PdReg "r14-r15" None (OPERAND_GPR + 14);
  PdReg "r15" (Some "sp") (OPERAND_GPR + 15);
  PdReg "r2" None (OPERAND_GPR + 2);
  PdReg "r2-r3" None (OPERAND_GPR + 2);
  PdReg "r3" None (OPERAND_GPR + 3);
  PdReg "r4" None (OPERAND_GPR + 4);
  PdReg "r4-r5" None (OPERAND_GPR + 4);
  PdReg "r5" None (OPERAND_GPR + 5);
  PdReg "r6" None (OPERAND_GPR + 6);
  PdReg "r6-r7" None (OPERAND_GPR + 6);
  PdReg "r7" None (OPERAND_GPR + 7);
  PdReg "r8" None (OPERAND_GPR + 8);
  PdReg "r8-r9" None (OPERAND_GPR + 8);
  PdReg "r9" None (OPERAND_GPR + 9);
  PdReg "rpt_c" None (OPERAND_CONTROL + 7);
  PdReg "rpt_e" None (OPERAND_CONTROL + 9);
  PdReg "rpt_s" None (OPERAND_CONTROL + 8);
  PdReg "sp" None (OPERAND_GPR + 15)
]%string.

Definition d10v_reg_name_cnt : Z := Z.of_nat (length d10v_predefined_registers).

(** Indices into the operand table. *)
Definition UNUSED : Z := 0.
Definition RSRC : Z := UNUSED + 1.
Definition RDST : Z := RSRC + 1.
Definition ASRC : Z := RDST + 1.
Definition ASRC0ONLY : Z := ASRC + 1.
Definition ADST : Z := ASRC0ONLY + 1.
Definition RSRCE : Z := ADST + 1.
Definition RDSTE : Z := RSRCE + 1.
Definition NUM16 : Z := RDSTE + 1.
Definition NUM3 : Z := NUM16 + 1.
Definition NUM4 : Z := NUM3 + 1.
Definition UNUM4 : Z := NUM4 + 1.
Definition UNUM4S : Z := UNUM4 + 1.
Definition UNUM8 : Z := UNUM4S + 1.
Definition UNUM16 : Z := UNUM8 + 1.
Definition ANUM16 : Z := UNUM16 + 1.
Definition ANUM8 : Z := ANUM16 + 1.
Definition ASRC2 : Z := ANUM8 + 1.
Definition RSRC2 : Z := ASRC2 + 1.
Definition RSRC2E : Z := RSRC2 + 1.
Definition ASRC0 : Z := RSRC2E + 1.
Definition ADST0 : Z := ASRC0 + 1.
Definition FFSRC : Z := ADST0 + 1.
Definition CFSRC : Z := FFSRC + 1.
Definition FDST : Z := CFSRC + 1.
Definition ATSIGN : Z := FDST + 1.
Definition ATPAR : Z := ATSIGN + 1.
Definition PLUS : Z := ATPAR + 1.
Definition MINUS : Z := PLUS + 1.
Definition ATMINUS : Z := MINUS + 1.
Definition CSRC : Z := ATMINUS + 1.
Definition CDST : Z := CSRC + 1.

Definition d10v_operands : list d10v_operand := [
  Operand 0 0 (0);
  Operand 4 1 (Z.lor OPERAND_GPR OPERAND_REG);
  Operand 4 5 (Z.lor (Z.lor OPERAND_DEST OPERAND_GPR) OPERAND_REG);
  Operand 1 4 (Z.lor (Z.lor OPERAND_ACC0 OPERAND_ACC1) OPERAND_REG);
  Operand 1 4 (Z.lor OPERAND_ACC0 OPERAND_REG);
  Operand 1 8 (Z.lor (Z.lor (Z.lor OPERAND_DEST OPERAND_ACC0) OPERAND_ACC1) OPERAND_REG);
  Operand 4 1 (Z.lor (Z.lor OPERAND_EVEN OPERAND_GPR) OPERAND_REG);
  Operand 4 5 (Z.lor (Z.lor (Z.lor OPERAND_EVEN OPERAND_DEST) OPERAND_GPR) OPERAND_REG);
  Operand 16 0 (Z.lor OPERAND_NUM OPERAND_SIGNED);
  Operand 3 1 (Z.lor OPERAND_NUM OPERAND_SIGNED);
  Operand 4 1 (Z.lor OPERAND_NUM OPERAND_SIGNED);
  Operand 4 1 (OPERAND_NUM);
  Operand 4 1 (Z.lor OPERAND_NUM OPERAND_SHIFT);
  Operand 8 16 (OPERAND_NUM);
  Operand 16 0 (OPERAND_NUM);
  Operand 16 0 (Z.lor OPERAND_ADDR OPERAND_SIGNED);
  Operand 8 0 (Z.lor OPERAND_ADDR OPERAND_SIGNED);
  Operand 1 8 (Z.lor (Z.lor OPERAND_ACC0 OPERAND_ACC1) OPERAND_REG);
  Operand 4 5 (Z.lor OPERAND_GPR OPERAND_REG);
  Operand 4 5 (Z.lor (Z.lor OPERAND_GPR OPERAND_REG) OPERAND_EVEN);
  Operand 1 0 (Z.lor (Z.lor OPERAND_ACC0 OPERAND_ACC1) OPERAND_REG);
  Operand 1 0 (Z.lor (Z.lor (Z.lor OPERAND_ACC0 OPERAND_ACC1) OPERAND_REG) OPERAND_DEST);
  Operand 2 1 (Z.lor OPERAND_REG OPERAND_FFLAG);
  Operand 2 1 (Z.lor OPERAND_REG OPERAND_CFLAG);
  Operand 1 5 (Z.lor (Z.lor OPERAND_REG OPERAND_FFLAG) OPERAND_DEST);
  Operand 0 0 (OPERAND_ATSIGN);
  Operand 0 0 (OPERAND_ATPAR);
  Operand 0 0 (OPERAND_PLUS);
  Operand 0 0 (OPERAND_MINUS);
  Operand 0 0 (OPERAND_ATMINUS);
  Operand 4 1 (Z.lor OPERAND_REG OPERAND_CONTROL);
  Operand 4 5 (Z.lor (Z.lor OPERAND_REG OPERAND_CONTROL) OPERAND_DEST)
].

(** [d10v_operands[i]] *)
Definition operand_at (i : Z) : d10v_operand :=
  nth (Z.to_nat i) d10v_operands (Operand 0 0 0).

Definition d10v_opcodes : list d10v_opcode := [
  Opcode (Some "abs") SHORT_2 1 EITHER (Z.lor PAR WF0) 0x4607 0x7e1f [RDST; 0; 0; 0; 0; 0];
  Opcode (Some "abs") SHORT_2 1 IU (Z.lor PAR WF0) 0x5607 0x7eff [ADST; 0; 0; 0; 0; 0];
  Opcode (Some "add") SHORT_2 1 EITHER (Z.lor PAR WCAR) 0x0200 0x7e01 [RDST; RSRC; 0; 0; 0; 0];
  Opcode (Some "add") SHORT_2 1 IU PAR 0x1201 0x7ee3 [ADST; RSRCE; 0; 0; 0; 0];
  Opcode (Some "add") SHORT_2 1 IU PAR 0x1203 0x7eef [ADST; ASRC; 0; 0; 0; 0];
  Opcode (Some "add2w") SHORT_2 2 IU (Z.lor PAR WCAR) 0x1200 0x7e23 [RDSTE; RSRCE; 0; 0; 0; 0];
  Opcode (Some "add3") LONG_L 1 MU (Z.lor SEQ WCAR) 0x1000000 0x3f000000 [RDST; RSRC; NUM16; 0; 0; 0];
  Opcode (Some "addac3") LONG_R 1 IU SEQ 0x17000200 0x3ffffe22 [RDSTE; RSRCE; ASRC0; 0; 0; 0];
  Opcode (Some "addac3") LONG_R 1 IU SEQ 0x17000202 0x3ffffe2e [RDSTE; ASRC; ASRC0; 0; 0; 0];
  Opcode (Some "addac3s") LONG_R 1 IU SEQ 0x17001200 0x3ffffe22 [RDSTE; RSRCE; ASRC0; 0; 0; 0];
  Opcode (Some "addac3s") LONG_R 1 IU SEQ 0x17001202 0x3ffffe2e [RDSTE; ASRC; ASRC0; 0; 0; 0];
  Opcode (Some "addi") SHORT_2 1 EITHER (Z.lor PAR WCAR) 0x201 0x7e01 [RDST; UNUM4S; 0; 0; 0; 0];
  Opcode (Some "and") SHORT_2 1 EITHER PAR 0xc00 0x7e01 [RDST; RSRC; 0; 0; 0; 0];
  Opcode (Some "and3") LONG_L 1 MU SEQ 0x6000000 0x3f000000 [RDST; RSRC; NUM16; 0; 0; 0];
  Opcode (Some "bclri") SHORT_2 1 IU PAR 0xc01 0x7e01 [RDST; UNUM4; 0; 0; 0; 0];
  Opcode (Some "bl") OPCODE_FAKE 0 0 0 0 0 [0; 8; 16; 0; 0; 0];
  Opcode (Some "bl.s") SHORT_B 3 MU (Z.lor BRANCH_LINK PAR) 0x4900 0x7f00 [ANUM8; 0; 0; 0; 0; 0];
  Opcode (Some "bl.l") LONG_B 3 MU (Z.lor BRANCH_LINK SEQ) 0x24800000 0x3fff0000 [ANUM16; 0; 0; 0; 0; 0];
  Opcode (Some "bnoti") SHORT_2 1 IU PAR 0xa01 0x7e01 [RDST; UNUM4; 0; 0; 0; 0];
  Opcode (Some "bra") OPCODE_FAKE 0 0 0 0 0 [0; 8; 16; 0; 0; 0];
  Opcode (Some "bra.s") SHORT_B 3 MU (Z.lor BRANCH PAR) 0x4800 0x7f00 [ANUM8; 0; 0; 0; 0; 0];
  Opcode (Some "bra.l") LONG_B 3 MU (Z.lor BRANCH SEQ) 0x24000000 0x3fff0000 [ANUM16; 0; 0; 0; 0; 0];
  Opcode (Some "brf0f") OPCODE_FAKE 0 0 0 0 0 [0; 8; 16; 0; 0; 0];
  Opcode (Some "brf0f.s") SHORT_B 3 MU (Z.lor (Z.lor BRANCH PAR) RF0) 0x4a00 0x7f00 [ANUM8; 0; 0; 0; 0; 0];
  Opcode (Some "brf0f.l") LONG_B 3 MU SEQ 0x25000000 0x3fff0000 [ANUM16; 0; 0; 0; 0; 0];
  Opcode (Some "brf0t") OPCODE_FAKE 0 0 0 0 0 [0; 8; 16; 0; 0; 0];
  Opcode (Some "brf0t.s") SHORT_B 3 MU (Z.lor (Z.lor BRANCH PAR) RF0) 0x4b00 0x7f00 [ANUM8; 0; 0; 0; 0; 0];
  Opcode (Some "brf0t.l") LONG_B 3 MU SEQ 0x25800000 0x3fff0000 [ANUM16; 0; 0; 0; 0; 0];
  Opcode (Some "bseti") SHORT_2 1 IU PAR 0x801 0x7e01 [RDST; UNUM4; 0; 0; 0; 0];
  Opcode (Some "btsti") SHORT_2 1 IU (Z.lor PAR WF0) 0xe01 0x7e01 [RDST; UNUM4; 0; 0; 0; 0];
  Opcode (Some "clrac") SHORT_2 1 IU PAR 0x5601 0x7eff [ADST; 0; 0; 0; 0; 0];
  Opcode (Some "cmp") SHORT_2 1 EITHER (Z.lor PAR WF0) 0x600 0x7e01 [RSRC2; RSRC; 0; 0; 0; 0];
  Opcode (Some "cmp") SHORT_2 1 IU (Z.lor PAR WF0) 0x1603 0x7eef [ASRC2; ASRC; 0; 0; 0; 0];
  Opcode (Some "cmpeq") SHORT_2 1 EITHER (Z.lor PAR WF0) 0x400 0x7e01 [RSRC2; RSRC; 0; 0; 0; 0];
  Opcode (Some "cmpeq") SHORT_2 1 IU (Z.lor PAR WF0) 0x1403 0x7eef [ASRC2; ASRC; 0; 0; 0; 0];
  Opcode (Some "cmpeqi") OPCODE_FAKE 0 0 0 0 0 [1; 4; 16; 0; 0; 0];
  Opcode (Some "cmpeqi.s") SHORT_2 1 EITHER (Z.lor PAR WF0) 0x401 0x7e01 [RSRC2; NUM4; 0; 0; 0; 0];
  Opcode (Some "cmpeqi.l") LONG_L 1 MU SEQ 0x2000000 0x3f0f0000 [RSRC2; NUM16; 0; 0; 0; 0];
  Opcode (Some "cmpi") OPCODE_FAKE 0 0 0 0 0 [1; 4; 16; 0; 0; 0];
  Opcode (Some "cmpi.s") SHORT_2 1 EITHER (Z.lor PAR WF0) 0x601 0x7e01 [RSRC2; NUM4; 0; 0; 0; 0];
  Opcode (Some "cmpi.l") LONG_L 1 MU SEQ 0x3000000 0x3f0f0000 [RSRC2; NUM16; 0; 0; 0; 0];
  Opcode (Some "cmpu") SHORT_2 1 EITHER (Z.lor PAR WF0) 0x4600 0x7e01 [RSRC2; RSRC; 0; 0; 0; 0];
  Opcode (Some "cmpui") LONG_L 1 MU SEQ 0x23000000 0x3f0f0000 [RSRC2; UNUM16; 0; 0; 0; 0];
  Opcode (Some "cpfg") SHORT_2 1 MU PAR 0x4e09 0x7fd9 [FDST; FFSRC; 0; 0; 0; 0];
  Opcode (Some "cpfg") SHORT_2 1 MU PAR 0x4e09 0x7fd9 [FDST; CFSRC; 0; 0; 0; 0];
  Opcode (Some "dbt") SHORT_2 5 MU PAR 0x5f20 0x7fff [0; 0; 0; 0; 0; 0];
  Opcode (Some "divs") LONG_L 1 BOTH SEQ 0x14002800 0x3f10fe21 [RDSTE; RSRC; 0; 0; 0; 0];
  Opcode (Some "exef0f") SHORT_2 1 EITHER PARONLY 0x4e04 0x7fff [0; 0; 0; 0; 0; 0];
  Opcode (Some "exef0t") SHORT_2 1 EITHER PARONLY 0x4e24 0x7fff [0; 0; 0; 0; 0; 0];
  Opcode (Some "exef1f") SHORT_2 1 EITHER PARONLY 0x4e40 0x7fff [0; 0; 0; 0; 0; 0];
  Opcode (Some "exef1t") SHORT_2 1 EITHER PARONLY 0x4e42 0x7fff [0; 0; 0; 0; 0; 0];
  Opcode (Some "exefaf") SHORT_2 1 EITHER PARONLY 0x4e00 0x7fff [0; 0; 0; 0; 0; 0];
  Opcode (Some "exefat") SHORT_2 1 EITHER PARONLY 0x4e02 0x7fff [0; 0; 0; 0; 0; 0];
  Opcode (Some "exetaf") SHORT_2 1 EITHER PARONLY 0x4e20 0x7fff [0; 0; 0; 0; 0; 0];
  Opcode (Some "exetat") SHORT_2 1 EITHER PARONLY 0x4e22 0x7fff [0; 0; 0; 0; 0; 0];
  Opcode (Some "exp") LONG_R 1 IU SEQ 0x15002a00 0x3ffffe03 [RDST; RSRCE; 0; 0; 0; 0];
  Opcode (Some "exp") LONG_R 1 IU SEQ 0x15002a02 0x3ffffe0f [RDST; ASRC; 0; 0; 0; 0];
  Opcode (Some "jl") SHORT_2 3 MU (Z.lor BRANCH_LINK PAR) 0x4d00 0x7fe1 [RSRC; 0; 0; 0; 0; 0];
  Opcode (Some "jmp") SHORT_2 3 MU (Z.lor BRANCH PAR) 0x4c00 0x7fe1 [RSRC; 0; 0; 0; 0; 0];
  Opcode (Some "ld") LONG_L 1 MU SEQ 0x30000000 0x3f000000 [RDST; ATPAR; NUM16; RSRC; 0; 0];
  Opcode (Some "ld") SHORT_2 1 MU (Z.lor PAR RMEM) 0x6401 0x7e01 [RDST; ATSIGN; RSRC; MINUS; 0; 0];
  Opcode (Some "ld") SHORT_2 1 MU (Z.lor PAR RMEM) 0x6001 0x7e01 [RDST; ATSIGN; RSRC; PLUS; 0; 0];
  Opcode (Some "ld") SHORT_2 1 MU (Z.lor PAR RMEM) 0x6000 0x7e01 [RDST; ATSIGN; RSRC; 0; 0; 0];
  Opcode (Some "ld2w") LONG_L 1 MU SEQ 0x31000000 0x3f100000 [RDSTE; ATPAR; NUM16; RSRC; 0; 0];
  Opcode (Some "ld2w") SHORT_2 1 MU (Z.lor PAR RMEM) 0x6601 0x7e21 [RDSTE; ATSIGN; RSRC; MINUS; 0; 0];
  Opcode (Some "ld2w") SHORT_2 1 MU (Z.lor PAR RMEM) 0x6201 0x7e21 [RDSTE; ATSIGN; RSRC; PLUS; 0; 0];
  Opcode (Some "ld2w") SHORT_2 1 MU (Z.lor PAR RMEM) 0x6200 0x7e21 [RDSTE; ATSIGN; RSRC; 0; 0; 0];
  Opcode (Some "ldb") LONG_L 1 MU SEQ 0x38000000 0x3f000000 [RDST; ATPAR; NUM16; RSRC; 0; 0];
  Opcode (Some "ldb") SHORT_2 1 MU (Z.lor PAR RMEM) 0x7000 0x7e01 [RDST; ATSIGN; RSRC; 0; 0; 0];
  Opcode (Some "ldi") OPCODE_FAKE 0 0 0 0 0 [1; 4; 16; 0; 0; 0];
  Opcode (Some "ldi.s") SHORT_2 1 EITHER (Z.lor PAR RMEM) 0x4001 0x7e01 [RDST; NUM4; 0; 0; 0; 0];
  Opcode (Some "ldi.l") LONG_L 1 MU SEQ 0x20000000 0x3f0f0000 [RDST; NUM16; 0; 0; 0; 0];
  Opcode (Some "ldub") LONG_L 1 MU SEQ 0x39000000 0x3f000000 [RDST; ATPAR; NUM16; RSRC; 0; 0];
  Opcode (Some "ldub") SHORT_2 1 MU (Z.lor PAR RMEM) 0x7200 0x7e01 [RDST; ATSIGN; RSRC; 0; 0; 0];
  Opcode (Some "mac") SHORT_2 1 IU PAR 0x2a00 0x7e00 [ADST0; RSRC2; RSRC; 0; 0; 0];
  Opcode (Some "macsu") SHORT_2 1 IU PAR 0x1a00 0x7e00 [ADST0; RSRC2; RSRC; 0; 0; 0];
  Opcode (Some "macu") SHORT_2 1 IU PAR 0x3a00 0x7e00 [ADST0; RSRC2; RSRC; 0; 0; 0];
  Opcode (Some "max") SHORT_2 1 IU (Z.lor PAR WF0) 0x2600 0x7e01 [RDST; RSRC; 0; 0; 0; 0];
  Opcode (Some "max") SHORT_2 1 IU (Z.lor PAR WF0) 0x3600 0x7ee3 [ADST; RSRCE; 0; 0; 0; 0];
  Opcode (Some "max") SHORT_2 1 IU (Z.lor PAR WF0) 0x3602 0x7eef [ADST; ASRC; 0; 0; 0; 0];
  Opcode (Some "min") SHORT_2 1 IU (Z.lor PAR WF0) 0x2601 0x7e01 [RDST; RSRC; 0; 0; 0; 0];
  Opcode (Some "min") SHORT_2 1 IU (Z.lor PAR WF0) 0x3601 0x7ee3 [ADST; RSRCE; 0; 0; 0; 0];
  Opcode (Some "min") SHORT_2 1 IU (Z.lor PAR WF0) 0x3603 0x7eef [ADST; ASRC; 0; 0; 0; 0];
  Opcode (Some "msb") SHORT_2 1 IU PAR 0x2800 0x7e00 [ADST0; RSRC2; RSRC; 0; 0; 0];
  Opcode (Some "msbsu") SHORT_2 1 IU PAR 0x1800 0x7e00 [ADST0; RSRC2; RSRC; 0; 0; 0];
  Opcode (Some "msbu") SHORT_2 1 IU PAR 0x3800 0x7e00 [ADST0; RSRC2; RSRC; 0; 0; 0];
  Opcode (Some "mul") SHORT_2 1 IU PAR 0x2e00 0x7e01 [RDST; RSRC; 0; 0; 0; 0];
  Opcode (Some "mulx") SHORT_2 1 IU PAR 0x2c00 0x7e00 [ADST0; RSRC2; RSRC; 0; 0; 0];
  Opcode (Some "mulxsu") SHORT_2 1 IU PAR 0x1c00 0x7e00 [ADST0; RSRC2; RSRC; 0; 0; 0];
  Opcode (Some "mulxu") SHORT_2 1 IU PAR 0x3c00 0x7e00 [ADST0; RSRC2; RSRC; 0; 0; 0];
  Opcode (Some "mv") SHORT_2 1 EITHER PAR 0x4000 0x7e01 [RDST; RSRC; 0; 0; 0; 0];
  Opcode (Some "mv2w") SHORT_2 1 IU PAR 0x5000 0x7e23 [RDSTE; RSRCE; 0; 0; 0; 0];
  Opcode (Some "mv2wfac") SHORT_2 1 IU PAR 0x3e00 0x7e2f [RDSTE; ASRC; 0; 0; 0; 0];
  Opcode (Some "mv2wtac") SHORT_2 1 IU PAR 0x3e01 0x7ee3 [RSRCE; ADST; 0; 0; 0; 0];
  Opcode (Some "mvac") SHORT_2 1 IU PAR 0x3e03 0x7eef [ADST; ASRC; 0; 0; 0; 0];
  Opcode (Some "mvb") SHORT_2 1 IU PAR 0x5400 0x7e01 [RDST; RSRC; 0; 0; 0; 0];
  Opcode (Some "mvf0f") SHORT_2 1 EITHER (Z.lor PAR RF0) 0x4400 0x7e01 [RDST; RSRC; 0; 0; 0; 0];
  Opcode (Some "mvf0t") SHORT_2 1 EITHER (Z.lor PAR RF0) 0x4401 0x7e01 [RDST; RSRC; 0; 0; 0; 0];
  Opcode (Some "mvfacg") SHORT_2 1 IU PAR 0x1e04 0x7e0f [RDST; ASRC; 0; 0; 0; 0];
  Opcode (Some "mvfachi") SHORT_2 1 IU PAR 0x1e00 0x7e0f [RDST; ASRC; 0; 0; 0; 0];
  Opcode (Some "mvfaclo") SHORT_2 1 IU PAR 0x1e02 0x7e0f [RDST; ASRC; 0; 0; 0; 0];
  Opcode (Some "mvfc") SHORT_2 1 MU PAR 0x5200 0x7e01 [RDST; CSRC; 0; 0; 0; 0];
  Opcode (Some "mvtacg") SHORT_2 1 IU PAR 0x1e41 0x7ee1 [RSRC; ADST; 0; 0; 0; 0];
  Opcode (Some "mvtachi") SHORT_2 1 IU PAR 0x1e01 0x7ee1 [RSRC; ADST; 0; 0; 0; 0];
  Opcode (Some "mvtaclo") SHORT_2 1 IU PAR 0x1e21 0x7ee1 [RSRC; ADST; 0; 0; 0; 0];
  Opcode (Some "mvtc") SHORT_2 1 MU PAR 0x5600 0x7e01 [RSRC; CDST; 0; 0; 0; 0];
  Opcode (Some "mvub") SHORT_2 1 IU PAR 0x5401 0x7e01 [RDST; RSRC; 0; 0; 0; 0];
  Opcode (Some "neg") SHORT_2 1 EITHER PAR 0x4605 0x7e1f [RDST; 0; 0; 0; 0; 0];
  Opcode (Some "neg") SHORT_2 1 IU PAR 0x5605 0x7eff [ADST; 0; 0; 0; 0; 0];
  Opcode (Some "nop") SHORT_2 1 EITHER PAR 0x5e00 0x7fff [0; 0; 0; 0; 0; 0];
  Opcode (Some "not") SHORT_2 1 EITHER PAR 0x4603 0x7e1f [RDST; 0; 0; 0; 0; 0];
  Opcode (Some "or") SHORT_2 1 EITHER PAR 0x800 0x7e01 [RDST; RSRC; 0; 0; 0; 0];
  Opcode (Some "or3") LONG_L 1 MU SEQ 0x4000000 0x3f000000 [RDST; RSRC; NUM16; 0; 0; 0];
  Opcode (Some "rac") SHORT_2 1 IU (Z.lor PAR WF0) 0x5201 0x7e21 [RDSTE; ASRC0ONLY; NUM3; 0; 0; 0];
  Opcode (Some "rachi") SHORT_2 1 IU (Z.lor PAR WF0) 0x4201 0x7e01 [RDST; ASRC; NUM3; 0; 0; 0];
  Opcode (Some "rep") LONG_L 2 MU SEQ 0x27000000 0x3ff00000 [RSRC; ANUM16; 0; 0; 0; 0];
  Opcode (Some "repi") LONG_L 2 MU SEQ 0x2f000000 0x3f000000 [UNUM8; ANUM16; 0; 0; 0; 0];
  Opcode (Some "rtd") SHORT_2 3 MU PAR 0x5f60 0x7fff [0; 0; 0; 0; 0; 0];
  Opcode (Some "rte") SHORT_2 3 MU PAR 0x5f40 0x7fff [0; 0; 0; 0; 0; 0];
  Opcode (Some "sadd") SHORT_2 1 IU PAR 0x1223 0x7eef [ADST; ASRC; 0; 0; 0; 0];
  Opcode (Some "setf0f") SHORT_2 1 MU (Z.lor PAR RF0) 0x4611 0x7e1f [RDST; 0; 0; 0; 0; 0];
  Opcode (Some "setf0t") SHORT_2 1 MU (Z.lor PAR RF0) 0x4613 0x7e1f [RDST; 0; 0; 0; 0; 0];
  Opcode (Some "sleep") SHORT_2 1 MU PAR 0x5fc0 0x7fff [0; 0; 0; 0; 0; 0];
  Opcode (Some "sll") SHORT_2 1 IU PAR 0x2200 0x7e01 [RDST; RSRC; 0; 0; 0; 0];
  Opcode (Some "sll") SHORT_2 1 IU PAR 0x3200 0x7ee1 [ADST; RSRC; 0; 0; 0; 0];
  Opcode (Some "slli") SHORT_2 1 IU PAR 0x2201 0x7e01 [RDST; UNUM4; 0; 0; 0; 0];
  Opcode (Some "slli") SHORT_2 1 IU PAR 0x3201 0x7ee1 [ADST; UNUM4S; 0; 0; 0; 0];
  Opcode (Some "slx") SHORT_2 1 IU (Z.lor PAR RF0) 0x460b 0x7e1f [RDST; 0; 0; 0; 0; 0];
  Opcode (Some "sra") SHORT_2 1 IU PAR 0x2400 0x7e01 [RDST; RSRC; 0; 0; 0; 0];
  Opcode (Some "sra") SHORT_2 1 IU PAR 0x3400 0x7ee1 [ADST; RSRC; 0; 0; 0; 0];
  Opcode (Some "srai") SHORT_2 1 IU PAR 0x2401 0x7e01 [RDST; UNUM4; 0; 0; 0; 0];
  Opcode (Some "srai") SHORT_2 1 IU PAR 0x3401 0x7ee1 [ADST; UNUM4S; 0; 0; 0; 0];
  Opcode (Some "srl") SHORT_2 1 IU PAR 0x2000 0x7e01 [RDST; RSRC; 0; 0; 0; 0];
  Opcode (Some "srl") SHORT_2 1 IU PAR 0x3000 0x7ee1 [ADST; RSRC; 0; 0; 0; 0];
  Opcode (Some "srli") SHORT_2 1 IU PAR 0x2001 0x7e01 [RDST; UNUM4; 0; 0; 0; 0];
  Opcode (Some "srli") SHORT_2 1 IU PAR 0x3001 0x7ee1 [ADST; UNUM4S; 0; 0; 0; 0];
  Opcode (Some "srx") SHORT_2 1 IU (Z.lor PAR RF0) 0x4609 0x7e1f [RDST; 0; 0; 0; 0; 0];
  Opcode (Some "st") LONG_L 1 MU SEQ 0x34000000 0x3f000000 [RSRC2; ATPAR; NUM16; RSRC; 0; 0];
  Opcode (Some "st") SHORT_2 1 MU (Z.lor PAR WMEM) 0x6800 0x7e01 [RSRC2; ATSIGN; RSRC; 0; 0; 0];
  Opcode (Some "st") SHORT_2 1 MU (Z.lor PAR WMEM) 0x6c1f 0x7e1f [RSRC2; ATMINUS; RSRC; 0; 0; 0];
  Opcode (Some "st") SHORT_2 1 MU (Z.lor PAR WMEM) 0x6801 0x7e01 [RSRC2; ATSIGN; RSRC; PLUS; 0; 0];
  Opcode (Some "st") SHORT_2 1 MU (Z.lor PAR WMEM) 0x6c01 0x7e01 [RSRC2; ATSIGN; RSRC; MINUS; 0; 0];
  Opcode (Some "st2w") LONG_L 1 MU SEQ 0x35000000 0x3f100000 [RSRC2E; ATPAR; NUM16; RSRC; 0; 0];
  Opcode (Some "st2w") SHORT_2 1 MU (Z.lor PAR WMEM) 0x6a00 0x7e21 [RSRC2E; ATSIGN; RSRC; 0; 0; 0];
  Opcode (Some "st2w") SHORT_2 1 MU (Z.lor PAR WMEM) 0x6e1f 0x7e3f [RSRC2E; ATMINUS; RSRC; 0; 0; 0];
  Opcode (Some "st2w") SHORT_2 1 MU (Z.lor PAR WMEM) 0x6a01 0x7e21 [RSRC2E; ATSIGN; RSRC; PLUS; 0; 0];
  Opcode (Some "st2w") SHORT_2 1 MU (Z.lor PAR WMEM) 0x6e01 0x7e21 [RSRC2E; ATSIGN; RSRC; MINUS; 0; 0];
  Opcode (Some "stb") LONG_L 1 MU SEQ 0x3c000000 0x3f000000 [RSRC2; ATPAR; NUM16; RSRC; 0; 0];
  Opcode (Some "stb") SHORT_2 1 MU (Z.lor PAR WMEM) 0x7800 0x7e01 [RSRC2; ATSIGN; RSRC; 0; 0; 0];
  Opcode (Some "stop") SHORT_2 1 MU PAR 0x5fe0 0x7fff [0; 0; 0; 0; 0; 0];
  Opcode (Some "sub") SHORT_2 1 EITHER (Z.lor PAR WCAR) 0x0 0x7e01 [RDST; RSRC; 0; 0; 0; 0];
  Opcode (Some "sub") SHORT_2 1 IU PAR 0x1001 0x7ee3 [ADST; RSRC; 0; 0; 0; 0];
  Opcode (Some "sub") SHORT_2 1 IU PAR 0x1003 0x7eef [ADST; ASRC; 0; 0; 0; 0];
  Opcode (Some "sub2w") SHORT_2 1 IU (Z.lor PAR WCAR) 0x1000 0x7e23 [RDSTE; RSRCE; 0; 0; 0; 0];
  Opcode (Some "subac3") LONG_R 1 IU SEQ 0x17000000 0x3ffffe22 [RDSTE; RSRCE; ASRC0; 0; 0; 0];
  Opcode (Some "subac3") LONG_R 1 IU SEQ 0x17000002 0x3ffffe2e [RDSTE; ASRC; ASRC0; 0; 0; 0];
  Opcode (Some "subac3s") LONG_R 1 IU SEQ 0x17001000 0x3ffffe22 [RDSTE; RSRCE; ASRC0; 0; 0; 0];
  Opcode (Some "subac3s") LONG_R 1 IU SEQ 0x17001002 0x3ffffe2e [RDSTE; ASRC; ASRC0; 0; 0; 0];
  Opcode (Some "subi") SHORT_2 1 EITHER PAR 0x1 0x7e01 [RDST; UNUM4S; 0; 0; 0; 0];
  Opcode (Some "trap") SHORT_2 5 MU PAR 0x5f00 0x7fe1 [UNUM4; 0; 0; 0; 0; 0];
  Opcode (Some "tst0i") LONG_L 1 MU SEQ 0x7000000 0x3f0f0000 [RSRC2; NUM16; 0; 0; 0; 0];
  Opcode (Some "tst1i") LONG_L 1 MU SEQ 0xf000000 0x3f0f0000 [RSRC2; NUM16; 0; 0; 0; 0];
  Opcode (Some "wait") SHORT_2 1 MU PAR 0x5f80 0x7fff [0; 0; 0; 0; 0; 0];
  Opcode (Some "xor") SHORT_2 1 EITHER PAR 0xa00 0x7e01 [RDST; RSRC; 0; 0; 0; 0];
  Opcode (Some "xor3") LONG_L 1 MU SEQ 0x5000000 0x3f000000 [RDST; RSRC; NUM16; 0; 0; 0];
  Opcode None 0 0 0 0 0 0 [0; 0; 0; 0; 0; 0]
]%string.

(** ** sim/d10v/gencode.c *)

(** [struct simops] (d10v_sim.h); [so_func] is the number in the generated
    function name [OP_%X], [None] for the null pointer of the last entry. *)
Record simops := Simop {
  so_opcode : Z;
  so_is_long : Z;
  so_mask : Z;
  so_format : Z;
  so_cycles : Z;
  so_unit : Z;
  so_exec_type : Z;
  so_func : option Z;
  so_numops : Z;
  so_operands : list Z
}.

(** The test on an operand's flags that both loops of [write_opcodes] make. *)
Definition is_operand (fl : Z) : bool :=
  negb (Z.land fl OPERAND_REG =? 0) || negb (Z.land fl OPERAND_NUM =? 0)
  || negb (Z.land fl OPERAND_ADDR =? 0).

(** The triple printed for one operand, if any. *)
Definition gen_operand (fmt i : Z) : list Z :=
  let o := operand_at i in
  if is_operand (flags o) then
    let sh := if negb (Z.land (flags o) OPERAND_REG =? 0) && (fmt =? LONG_L)
              then shift o + 15 else shift o in
    [sh; bits o; flags o]
  else [].

Definition gen_numops (ops : list Z) : Z :=
  Z.of_nat (length (List.filter (fun i => is_operand (flags (operand_at i))) ops)).

Definition gen_simop (o : d10v_opcode) : simops :=
  {| so_opcode := opcode o;
     so_is_long := if negb (Z.land (format o) LONG_OPCODE =? 0) then 1 else 0;
     so_mask := mask o;
     so_format := format o;
     so_cycles := cycles o;
     so_unit := unit_ o;
     so_exec_type := exec_type o;
     so_func := Some (opcode o);
     so_numops := gen_numops (operands o);
     so_operands := flat_map (gen_operand (format o)) (operands o) |}.

(** The loop runs to the entry without a name; [OPCODE_FAKE] entries are
    skipped; a null entry ends the generated table. *)
Fixpoint write_opcodes (l : list d10v_opcode) : list simops :=
  match l with
  | [] => []
  | o :: l' =>
      match name o with
      | None => [Simop 0 0 0 0 0 0 0 None 0 [0; 0; 0]]
      | Some _ =>
          if format o =? OPCODE_FAKE then write_opcodes l'
          else gen_simop o :: write_opcodes l'
      end
  end.

(** [struct simops Simops[]] as the build generates it. *)
Definition Simops : list simops := write_opcodes d10v_opcodes.

(** [check_opcodes], run on every opcode before it is recorded: the duplicates
    it reports on stderr. *)
Fixpoint check_opcodes (seen : list Z) (l : list d10v_opcode) : list Z :=
  match l with
  | [] => []
  | o :: l' =>
      match name o with
      | None => []
      | Some _ =>
          if format o =? OPCODE_FAKE then check_opcodes seen l'
          else List.filter (Z.eqb (opcode o)) seen ++ check_opcodes (seen ++ [opcode o]) l'
      end
  end.
