(* ===== verification/State.v ===== *)
(** * The state of the D10V simulator, its effects, and the writeback slots

    sim/d10v/d10v_sim.h ([struct _state], [SLOT_PEND_MASK], [SLOT_FLUSH], the
    register accessors) and the file-scope variables of sim/d10v/interp.c.

    An operation is a function of type [M A]: it takes the state and returns a
    value and the next state, or ends the program ([Exit]), or performs an access
    outside the object accessed, which C leaves undefined ([Undefined]), or is a
    loop that its fuel did not suffice for ([NoFuel]). *)
From S2P Require Import Prelude CInt Opcodes.

(** ** Data *)

Inductive _ins_type :=
| INS_UNKNOWN | INS_COND_TRUE | INS_COND_FALSE | INS_COND_JUMP | INS_CYCLES
| INS_LONG | INS_LEFTRIGHT | INS_RIGHTLEFT | INS_PARALLEL
| INS_LEFT | INS_LEFT_PARALLEL | INS_LEFT_COND_TEST | INS_LEFT_COND_EXE
| INS_LEFT_NOPS
| INS_RIGHT | INS_RIGHT_PARALLEL | INS_RIGHT_COND_TEST | INS_RIGHT_COND_EXE
| INS_RIGHT_NOPS.
#[export] Instance ins_type_eq_dec : EqDecision _ins_type.
Proof. solve_decision. Defined.

(** The enumerator's value. *)
Definition ins_index (t : _ins_type) : nat :=
  match t with
  | INS_UNKNOWN => 0 | INS_COND_TRUE => 1 | INS_COND_FALSE => 2
  | INS_COND_JUMP => 3 | INS_CYCLES => 4 | INS_LONG => 5 | INS_LEFTRIGHT => 6
  | INS_RIGHTLEFT => 7 | INS_PARALLEL => 8 | INS_LEFT => 9
  | INS_LEFT_PARALLEL => 10 | INS_LEFT_COND_TEST => 11 | INS_LEFT_COND_EXE => 12
  | INS_LEFT_NOPS => 13 | INS_RIGHT => 14 | INS_RIGHT_PARALLEL => 15
  | INS_RIGHT_COND_TEST => 16 | INS_RIGHT_COND_EXE => 17 | INS_RIGHT_NOPS => 18
  end%nat.
Definition INS_MAX : nat := 19.

(** What a writeback slot points to: an element of [State.regs], [State.cregs],
    [State.sp] or [State.a]. *)
Inductive dest := D_reg (n : Z) | D_creg (n : Z) | D_sp (n : Z) | D_acc (n : Z).
#[export] Instance dest_eq_dec : EqDecision dest.
Proof. solve_decision. Defined.

(** [sizeof (DEST)] *)
Definition dest_size (d : dest) : Z := match d with D_acc _ => 8 | _ => 2 end.

(** [struct slot] *)
Record slot_t := Slot {
  slot_dest : dest; slot_size : Z; slot_data : Z; slot_mask : Z }.
Definition NR_SLOTS : nat := 16.

(** A [calloc]ed array of bytes: what was stored over the zeros. *)
Abbreviation block := (gmap Z Z).

(** A pointer of type [uint8 *] into the simulated memories, or an offset of the
    null pointer. *)
Inductive ptr := P_imem (off : Z) | P_dmem (off : Z) | P_umem (seg off : Z) | P_null (off : Z).
#[export] Instance ptr_eq_dec : EqDecision ptr.
Proof. solve_decision. Defined.

(** The section of the program file that [decode_pc] looks at. *)
Record section := Section_ { sec_name : string; sec_vma : Z; sec_size : Z }.

(** The system calls trap 15 makes on the host, with their arguments; pointer
    arguments are pointers into the simulated memory. *)
Inductive syscall :=
| Sc_fork | Sc_kill (pid sig : Z) | Sc_execve (path argv envp : ptr)
| Sc_execv (path argv : ptr) | Sc_pipe
| Sc_read (fd : Z) (buf : ptr) (len : Z) | Sc_write_stdout (buf : ptr) (len : Z)
| Sc_write (fd : Z) (buf : ptr) (len : Z) | Sc_lseek (fd off whence : Z)
| Sc_close (fd : Z) | Sc_open (path : ptr) (mode : Z) | Sc_stat (path : ptr)
| Sc_chown (path : ptr) (owner group : Z) | Sc_chmod (path : ptr) (mode : Z).
#[export] Instance syscall_eq_dec : EqDecision syscall.
Proof. solve_decision. Defined.

(** What the outside world sees of a run. *)
Inductive event := Printf (fmt : string) (args : list Z) | Host_call (c : syscall).

(** [State], and the file-scope variables of interp.c. *)
Record state := State {
  regs : list Z (* general-purpose registers, 16 of 16 bits *);
  cregs : list Z (* control registers, 16 of 16 bits *);
  sp : list Z (* holding area for SPI (0) and SPU (1) *);
  a : list Z (* accumulators, two int64 *);
  slot : list slot_t (* writeback slots; slot_nr is the length *);
  trace_psw : Z (* trace.psw *);
  exe : Z (* uint8: result of the last EXExxx *);
  exception : Z (* pending signal, or SIG_D10V_STOP / SIG_D10V_EXIT *);
  pc_changed : Z (* set by JMP *);
  imem : option block (* on-chip instruction memory, 2^18 bytes *);
  dmem : option block (* on-chip data memory, 2^16 bytes *);
  umem : gmap Z block (* unified memory: the non-null segments, 2^17 bytes each *);
  ins_type : _ins_type (* class of the instruction being executed *);
  OP : list Z (* uint16 OP[4]: the decoded operands *);
  ins_type_counters : list Z (* unsigned long, one per _ins_type *);
  stop_simulator : Z (* set by sim_stop *);
  init_text_p : bool (* whether the text section was looked up *);
  prog_bfd : option (list section) (* the program being simulated *);
  text_start : Z;
  text_end : Z;
  out : list event (* what was printed and which host calls were made *)
}.

Definition set_regs (v : list Z) (s : state) : state :=
  {|
     regs := v; cregs := cregs s; sp := sp s; a := a s; slot := slot s;
     trace_psw := trace_psw s; exe := exe s; exception := exception s;
     pc_changed := pc_changed s; imem := imem s; dmem := dmem s; umem :=
     umem s; ins_type := ins_type s; OP := OP s; ins_type_counters :=
     ins_type_counters s; stop_simulator := stop_simulator s; init_text_p :=
     init_text_p s; prog_bfd := prog_bfd s; text_start := text_start s;
     text_end := text_end s; out := out s |}.
Definition set_cregs (v : list Z) (s : state) : state :=
  {|
     regs := regs s; cregs := v; sp := sp s; a := a s; slot := slot s;
     trace_psw := trace_psw s; exe := exe s; exception := exception s;
     pc_changed := pc_changed s; imem := imem s; dmem := dmem s; umem :=
     umem s; ins_type := ins_type s; OP := OP s; ins_type_counters :=
     ins_type_counters s; stop_simulator := stop_simulator s; init_text_p :=
     init_text_p s; prog_bfd := prog_bfd s; text_start := text_start s;
     text_end := text_end s; out := out s |}.
Definition set_sp (v : list Z) (s : state) : state :=
  {|
     regs := regs s; cregs := cregs s; sp := v; a := a s; slot := slot s;
     trace_psw := trace_psw s; exe := exe s; exception := exception s;
     pc_changed := pc_changed s; imem := imem s; dmem := dmem s; umem :=
     umem s; ins_type := ins_type s; OP := OP s; ins_type_counters :=
     ins_type_counters s; stop_simulator := stop_simulator s; init_text_p :=
     init_text_p s; prog_bfd := prog_bfd s; text_start := text_start s;
     text_end := text_end s; out := out s |}.
Definition set_a (v : list Z) (s : state) : state :=
  {|
     regs := regs s; cregs := cregs s; sp := sp s; a := v; slot := slot s;
     trace_psw := trace_psw s; exe := exe s; exception := exception s;
     pc_changed := pc_changed s; imem := imem s; dmem := dmem s; umem :=
     umem s; ins_type := ins_type s; OP := OP s; ins_type_counters :=
     ins_type_counters s; stop_simulator := stop_simulator s; init_text_p :=
     init_text_p s; prog_bfd := prog_bfd s; text_start := text_start s;
     text_end := text_end s; out := out s |}.
Definition set_slot (v : list slot_t) (s : state) : state :=
  {|
     regs := regs s; cregs := cregs s; sp := sp s; a := a s; slot := v;
     trace_psw := trace_psw s; exe := exe s; exception := exception s;
     pc_changed := pc_changed s; imem := imem s; dmem := dmem s; umem :=
     umem s; ins_type := ins_type s; OP := OP s; ins_type_counters :=
     ins_type_counters s; stop_simulator := stop_simulator s; init_text_p :=
     init_text_p s; prog_bfd := prog_bfd s; text_start := text_start s;
     text_end := text_end s; out := out s |}.
Definition set_trace_psw (v : Z) (s : state) : state :=
  {|
     regs := regs s; cregs := cregs s; sp := sp s; a := a s; slot := slot s;
     trace_psw := v; exe := exe s; exception := exception s; pc_changed :=
     pc_changed s; imem := imem s; dmem := dmem s; umem := umem s; ins_type
     := ins_type s; OP := OP s; ins_type_counters := ins_type_counters s;
     stop_simulator := stop_simulator s; init_text_p := init_text_p s;
     prog_bfd := prog_bfd s; text_start := text_start s; text_end :=
     text_end s; out := out s |}.
Definition set_exe (v : Z) (s : state) : state :=
  {|
     regs := regs s; cregs := cregs s; sp := sp s; a := a s; slot := slot s;
     trace_psw := trace_psw s; exe := v; exception := exception s;
     pc_changed := pc_changed s; imem := imem s; dmem := dmem s; umem :=
     umem s; ins_type := ins_type s; OP := OP s; ins_type_counters :=
     ins_type_counters s; stop_simulator := stop_simulator s; init_text_p :=
     init_text_p s; prog_bfd := prog_bfd s; text_start := text_start s;
     text_end := text_end s; out := out s |}.
Definition set_exception (v : Z) (s : state) : state :=
  {|
     regs := regs s; cregs := cregs s; sp := sp s; a := a s; slot := slot s;
     trace_psw := trace_psw s; exe := exe s; exception := v; pc_changed :=
     pc_changed s; imem := imem s; dmem := dmem s; umem := umem s; ins_type
     := ins_type s; OP := OP s; ins_type_counters := ins_type_counters s;
     stop_simulator := stop_simulator s; init_text_p := init_text_p s;
     prog_bfd := prog_bfd s; text_start := text_start s; text_end :=
     text_end s; out := out s |}.
Definition set_pc_changed (v : Z) (s : state) : state :=
  {|
     regs := regs s; cregs := cregs s; sp := sp s; a := a s; slot := slot s;
     trace_psw := trace_psw s; exe := exe s; exception := exception s;
     pc_changed := v; imem := imem s; dmem := dmem s; umem := umem s;
     ins_type := ins_type s; OP := OP s; ins_type_counters :=
     ins_type_counters s; stop_simulator := stop_simulator s; init_text_p :=
     init_text_p s; prog_bfd := prog_bfd s; text_start := text_start s;
     text_end := text_end s; out := out s |}.
Definition set_imem (v : option block) (s : state) : state :=
  {|
     regs := regs s; cregs := cregs s; sp := sp s; a := a s; slot := slot s;
     trace_psw := trace_psw s; exe := exe s; exception := exception s;
     pc_changed := pc_changed s; imem := v; dmem := dmem s; umem := umem s;
     ins_type := ins_type s; OP := OP s; ins_type_counters :=
     ins_type_counters s; stop_simulator := stop_simulator s; init_text_p :=
     init_text_p s; prog_bfd := prog_bfd s; text_start := text_start s;
     text_end := text_end s; out := out s |}.
Definition set_dmem (v : option block) (s : state) : state :=
  {|
     regs := regs s; cregs := cregs s; sp := sp s; a := a s; slot := slot s;
     trace_psw := trace_psw s; exe := exe s; exception := exception s;
     pc_changed := pc_changed s; imem := imem s; dmem := v; umem := umem s;
     ins_type := ins_type s; OP := OP s; ins_type_counters :=
     ins_type_counters s; stop_simulator := stop_simulator s; init_text_p :=
     init_text_p s; prog_bfd := prog_bfd s; text_start := text_start s;
     text_end := text_end s; out := out s |}.
Definition set_umem (v : gmap Z block) (s : state) : state :=
  {|
     regs := regs s; cregs := cregs s; sp := sp s; a := a s; slot := slot s;
     trace_psw := trace_psw s; exe := exe s; exception := exception s;
     pc_changed := pc_changed s; imem := imem s; dmem := dmem s; umem := v;
     ins_type := ins_type s; OP := OP s; ins_type_counters :=
     ins_type_counters s; stop_simulator := stop_simulator s; init_text_p :=
     init_text_p s; prog_bfd := prog_bfd s; text_start := text_start s;
     text_end := text_end s; out := out s |}.
Definition set_ins_type (v : _ins_type) (s : state) : state :=
  {|
     regs := regs s; cregs := cregs s; sp := sp s; a := a s; slot := slot s;
     trace_psw := trace_psw s; exe := exe s; exception := exception s;
     pc_changed := pc_changed s; imem := imem s; dmem := dmem s; umem :=
     umem s; ins_type := v; OP := OP s; ins_type_counters :=
     ins_type_counters s; stop_simulator := stop_simulator s; init_text_p :=
     init_text_p s; prog_bfd := prog_bfd s; text_start := text_start s;
     text_end := text_end s; out := out s |}.
Definition set_OP (v : list Z) (s : state) : state :=
  {|
     regs := regs s; cregs := cregs s; sp := sp s; a := a s; slot := slot s;
     trace_psw := trace_psw s; exe := exe s; exception := exception s;
     pc_changed := pc_changed s; imem := imem s; dmem := dmem s; umem :=
     umem s; ins_type := ins_type s; OP := v; ins_type_counters :=
     ins_type_counters s; stop_simulator := stop_simulator s; init_text_p :=
     init_text_p s; prog_bfd := prog_bfd s; text_start := text_start s;
     text_end := text_end s; out := out s |}.
Definition set_ins_type_counters (v : list Z) (s : state) : state :=
  {|
     regs := regs s; cregs := cregs s; sp := sp s; a := a s; slot := slot s;
     trace_psw := trace_psw s; exe := exe s; exception := exception s;
     pc_changed := pc_changed s; imem := imem s; dmem := dmem s; umem :=
     umem s; ins_type := ins_type s; OP := OP s; ins_type_counters := v;
     stop_simulator := stop_simulator s; init_text_p := init_text_p s;
     prog_bfd := prog_bfd s; text_start := text_start s; text_end :=
     text_end s; out := out s |}.
Definition set_stop_simulator (v : Z) (s : state) : state :=
  {|
     regs := regs s; cregs := cregs s; sp := sp s; a := a s; slot := slot s;
     trace_psw := trace_psw s; exe := exe s; exception := exception s;
     pc_changed := pc_changed s; imem := imem s; dmem := dmem s; umem :=
     umem s; ins_type := ins_type s; OP := OP s; ins_type_counters :=
     ins_type_counters s; stop_simulator := v; init_text_p := init_text_p s;
     prog_bfd := prog_bfd s; text_start := text_start s; text_end :=
     text_end s; out := out s |}.
Definition set_init_text_p (v : bool) (s : state) : state :=
  {|
     regs := regs s; cregs := cregs s; sp := sp s; a := a s; slot := slot s;
     trace_psw := trace_psw s; exe := exe s; exception := exception s;
     pc_changed := pc_changed s; imem := imem s; dmem := dmem s; umem :=
     umem s; ins_type := ins_type s; OP := OP s; ins_type_counters :=
     ins_type_counters s; stop_simulator := stop_simulator s; init_text_p :=
     v; prog_bfd := prog_bfd s; text_start := text_start s; text_end :=
     text_end s; out := out s |}.
Definition set_prog_bfd (v : option (list section)) (s : state) : state :=
  {|
     regs := regs s; cregs := cregs s; sp := sp s; a := a s; slot := slot s;
     trace_psw := trace_psw s; exe := exe s; exception := exception s;
     pc_changed := pc_changed s; imem := imem s; dmem := dmem s; umem :=
     umem s; ins_type := ins_type s; OP := OP s; ins_type_counters :=
     ins_type_counters s; stop_simulator := stop_simulator s; init_text_p :=
     init_text_p s; prog_bfd := v; text_start := text_start s; text_end :=
     text_end s; out := out s |}.
Definition set_text_start (v : Z) (s : state) : state :=
  {|
     regs := regs s; cregs := cregs s; sp := sp s; a := a s; slot := slot s;
     trace_psw := trace_psw s; exe := exe s; exception := exception s;
     pc_changed := pc_changed s; imem := imem s; dmem := dmem s; umem :=
     umem s; ins_type := ins_type s; OP := OP s; ins_type_counters :=
     ins_type_counters s; stop_simulator := stop_simulator s; init_text_p :=
     init_text_p s; prog_bfd := prog_bfd s; text_start := v; text_end :=
     text_end s; out := out s |}.
Definition set_text_end (v : Z) (s : state) : state :=
  {|
     regs := regs s; cregs := cregs s; sp := sp s; a := a s; slot := slot s;
     trace_psw := trace_psw s; exe := exe s; exception := exception s;
     pc_changed := pc_changed s; imem := imem s; dmem := dmem s; umem :=
     umem s; ins_type := ins_type s; OP := OP s; ins_type_counters :=
     ins_type_counters s; stop_simulator := stop_simulator s; init_text_p :=
     init_text_p s; prog_bfd := prog_bfd s; text_start := text_start s;
     text_end := v; out := out s |}.
Definition set_out (v : list event) (s : state) : state :=
  {|
     regs := regs s; cregs := cregs s; sp := sp s; a := a s; slot := slot s;
     trace_psw := trace_psw s; exe := exe s; exception := exception s;
     pc_changed := pc_changed s; imem := imem s; dmem := dmem s; umem :=
     umem s; ins_type := ins_type s; OP := OP s; ins_type_counters :=
     ins_type_counters s; stop_simulator := stop_simulator s; init_text_p :=
     init_text_p s; prog_bfd := prog_bfd s; text_start := text_start s;
     text_end := text_end s; out := v |}.


(** Restores the defaults of the record: a state with every array zero and no
    memory allocated, as the C program starts. *)
Definition zero_state : state :=
  State (repeat 0 16) (repeat 0 16) (repeat 0 2) (repeat 0 2) [] 0 0 0 0
        None None ∅ INS_UNKNOWN (repeat 0 4) (repeat 0 INS_MAX) 0 false None 0 0 [].

(** ** Effects *)

(** Why C gives an execution no meaning: an access outside a memory block or
    through the null pointer; an entry past the writeback slots; an index past
    another array; a call through a null function pointer. *)
Inductive ub := UB_memory | UB_slots | UB_index | UB_null_call.
#[export] Instance ub_eq_dec : EqDecision ub.
Proof. solve_decision. Defined.

Inductive outcome (A : Type) :=
| Ret (x : A) (s : state)
| Exit (code : Z) (s : state)
| Undefined (u : ub) (s : state)
| NoFuel (s : state).
Arguments Ret {A} x s.
Arguments Exit {A} code s.
Arguments Undefined {A} u s.
Arguments NoFuel {A} s.

Definition M (A : Type) : Type := state -> outcome A.

Definition ret {A} (x : A) : M A := fun s => Ret x s.
Definition bind {A B} (m : M A) (k : A -> M B) : M B := fun s =>
  match m s with
  | Ret x s' => k x s'
  | Exit c s' => Exit c s'
  | Undefined u s' => Undefined u s'
  | NoFuel s' => NoFuel s'
  end.
Definition get : M state := fun s => Ret s s.
Definition modify (f : state -> state) : M unit := fun s => Ret tt (f s).
Definition undefined {A} (u : ub) : M A := fun s => Undefined u s.
Definition exit {A} (code : Z) : M A := fun s => Exit code s.
Definition skip : M unit := ret tt.

Declare Scope d10v_scope.
Delimit Scope d10v_scope with d10v.
#[global] Open Scope d10v_scope.
Notation "x <- m ;; k" := (bind m (fun x => k))
  (at level 100, m at next level, right associativity) : d10v_scope.
Notation "m ;; k" := (bind m (fun _ => k))
  (at level 100, right associativity) : d10v_scope.
(** [if (c) m], with no [else]. *)
Definition when (c : bool) (m : M unit) : M unit := if c then m else skip.

Definition printf_filtered (fmt : string) (args : list Z) : M unit :=
  modify (fun s => set_out (out s ++ [Printf fmt args]) s).

(** What the simulator relies on of the host: whether [calloc] of a unified
    memory segment succeeds, what a system call returns with the bytes or words
    it stores, and the host's [errno].  All may depend on the whole state, in
    particular on the calls made before. *)
Class Host := {
  host_calloc : state -> Z -> bool;
  host_call : state -> syscall -> Z * list Z;
  host_errno : state -> Z
}.

(** ** Register accessors of d10v_sim.h *)

(** [A[n]], for an array of integers *)
Definition znth (l : list Z) (n : Z) : Z := nth (Z.to_nat n) l 0.

Definition GPR (s : state) (n : Z) : Z := znth (regs s) n.
Definition GPR32 (s : state) (n : Z) : Z :=
  Z.lor (u32 (Z.shiftl (znth (regs s) (n + 0)) 16)) (u16 (znth (regs s) (n + 1))).
Definition CREG (s : state) (n : Z) : Z := znth (cregs s) n.
Definition HELD_SP (s : state) (n : Z) : Z := znth (sp s) n.
Definition ACC (s : state) (n : Z) : Z := znth (a s) n.
(** [OP[n]] *)
Definition op (s : state) (n : Z) : Z := znth (OP s) n.

Definition set_op (n v : Z) : M unit :=
  modify (fun s => set_OP (<[Z.to_nat n := u16 v]> (OP s)) s).

(** ** Writeback slots *)

Definition trunc_size (sz v : Z) : Z := v mod 2 ^ (8 * sz).

(** [SLOT_PEND_MASK]; the 17th entry would be written past the array. *)
Definition SLOT_PEND_MASK (d : dest) (msk val : Z) : M unit := fun s =>
  if decide (length (slot s) < NR_SLOTS)%nat then
    Ret tt (set_slot (slot s ++ [Slot d (dest_size d) (trunc_size (dest_size d) val)
                                   (trunc_size (dest_size d) msk)]) s)
  else Undefined UB_slots s.
Definition SLOT_PEND (d : dest) (val : Z) : M unit := SLOT_PEND_MASK d 0 val.
Definition SLOT_DISCARD : M unit := modify (set_slot []).

(** One iteration of [SLOT_FLUSH]: [*dest &= mask; *dest |= data].  The
    accumulators are [int64], accessed here as [unsigned_8]. *)
Definition masked_update (old : Z) (sl : slot_t) : Z :=
  Z.lor (Z.land old (slot_mask sl)) (slot_data sl).
Definition apply_slot (s : state) (sl : slot_t) : state :=
  match slot_dest sl with
  | D_reg n => set_regs (<[Z.to_nat n := masked_update (GPR s n) sl]> (regs s)) s
  | D_creg n => set_cregs (<[Z.to_nat n := masked_update (CREG s n) sl]> (cregs s)) s
  | D_sp n => set_sp (<[Z.to_nat n := masked_update (HELD_SP s n) sl]> (sp s)) s
  | D_acc n => set_a (<[Z.to_nat n := s64 (masked_update (u64 (ACC s n)) sl)]> (a s)) s
  end.
Definition SLOT_FLUSH : M unit :=
  modify (fun s => set_slot [] (fold_left apply_slot (slot s) s)).

Definition SET_GPR (n val : Z) : M unit := SLOT_PEND (D_reg n) val.
Definition SET_HELD_SP (n val : Z) : M unit := SLOT_PEND (D_sp n) val.
Definition SET_ACC (n val : Z) : M unit := SLOT_PEND (D_acc n) (Z.land val MASK40).
(** The macro's first argument is not used: it always writes the pair [OP[0]]. *)
Definition SET_GPR32 (n val : Z) : M unit :=
  s <- get ;;
  SET_GPR (op s 0 + 0) (Z.shiftr val 16) ;;
  s <- get ;;
  SET_GPR (op s 0 + 1) val.

(** ** Host signals and stop codes *)
Definition SIGINT : Z := 2.
Definition SIGILL : Z := 4.
Definition SIGTRAP : Z := 5.
Definition SIGBUS : Z := 7.
Definition SIG_D10V_STOP : Z := -1.
Definition SIG_D10V_EXIT : Z := -2.
