(* ===== verification/Memory.v ===== *)
(** * The simulated memories

    sim/d10v/endian.c (big-endian words in a byte array), and from
    sim/d10v/interp.c the address translation [dmem_addr] and [imem_addr] with
    the mapping registers, [sim_size], and the transfer routine [xfer_mem] that
    the debugger and the loader use.

    endian.c has a variant per host; they compute the same values, and the one
    translated is the portable one.  Reading or writing outside a memory block,
    or through the null pointer, is [Undefined]. *)
From S2P Require Import Prelude CInt Opcodes State.

Definition IMEM_SIZE : Z := 18.
Definition DMEM_SIZE : Z := 16.
Definition UMEM_SIZE : Z := 17.
Definition UMEM_SEGMENTS : Z := 128.

(** ** Bytes through pointers *)

Definition ptr_add (p : ptr) (n : Z) : ptr :=
  match p with
  | P_imem off => P_imem (off + n)
  | P_dmem off => P_dmem (off + n)
  | P_umem seg off => P_umem seg (off + n)
  | P_null off => P_null (off + n)
  end.
Definition is_NULL (p : ptr) : bool := match p with P_null off => off =? 0 | _ => false end.

(** The block a pointer points into with its size, and the offset in it. *)
Definition ptr_block (s : state) (p : ptr) : option (block * Z * Z) :=
  match p with
  | P_imem off => (fun b => (b, 2 ^ IMEM_SIZE, off)) <$> imem s
  | P_dmem off => (fun b => (b, 2 ^ DMEM_SIZE, off)) <$> dmem s
  | P_umem seg off => (fun b => (b, 2 ^ UMEM_SIZE, off)) <$> umem s !! seg
  | P_null _ => None
  end.
(** Whether C gives [*p] a meaning. *)
Definition ptr_ok (s : state) (p : ptr) : bool :=
  match ptr_block s p with
  | Some (_, sz, off) => (0 <=? off) && (off <? sz)
  | None => false
  end.
Definition ptr_get (s : state) (p : ptr) : Z :=
  match ptr_block s p with
  | Some (b, _, off) => default 0 (b !! off)
  | None => 0
  end.
Definition ptr_set (p : ptr) (v : Z) (s : state) : state :=
  match p with
  | P_imem off => set_imem (<[off := v]> <$> imem s) s
  | P_dmem off => set_dmem (<[off := v]> <$> dmem s) s
  | P_umem seg off => set_umem (alter (<[off := v]>) seg (umem s)) s
  | P_null _ => s
  end.

(** [*p] and [*p = v] for [uint8 *p] *)
Definition load_byte (p : ptr) : M Z := fun s =>
  if ptr_ok s p then Ret (ptr_get s p) s else Undefined UB_memory s.
Definition store_byte (p : ptr) (v : Z) : M unit := fun s =>
  if ptr_ok s p then Ret tt (ptr_set p (u8 v) s) else Undefined UB_memory s.

(** ** endian.c *)

Definition get_word (x : ptr) : M Z :=
  x0 <- load_byte x ;;
  x1 <- load_byte (ptr_add x 1) ;;
  ret (u16 (Z.shiftl x0 8 + x1)).
Definition get_longword (x : ptr) : M Z :=
  x0 <- load_byte x ;;
  x1 <- load_byte (ptr_add x 1) ;;
  x2 <- load_byte (ptr_add x 2) ;;
  x3 <- load_byte (ptr_add x 3) ;;
  ret (u32 (Z.shiftl x0 24 + Z.shiftl x1 16 + Z.shiftl x2 8 + x3)).
Definition get_longlong (x : ptr) : M Z :=
  top <- get_longword x ;;
  bottom <- get_longword (ptr_add x 4) ;;
  ret (s64 (Z.lor (s64 (Z.shiftl top 32)) bottom)).
Definition write_word (addr : ptr) (data : Z) : M unit :=
  store_byte addr (Z.land (Z.shiftr data 8) 0xff) ;;
  store_byte (ptr_add addr 1) (Z.land data 0xff).
Definition write_longword (addr : ptr) (data : Z) : M unit :=
  store_byte addr (Z.land (Z.shiftr data 24) 0xff) ;;
  store_byte (ptr_add addr 1) (Z.land (Z.shiftr data 16) 0xff) ;;
  store_byte (ptr_add addr 2) (Z.land (Z.shiftr data 8) 0xff) ;;
  store_byte (ptr_add addr 3) (Z.land data 0xff).
Definition write_longlong (addr : ptr) (data : Z) : M unit :=
  write_longword addr (u32 (Z.shiftr data 32)) ;;
  write_longword (ptr_add addr 4) (u32 data).

(** ** interp.c: address translation *)

(** The PC register (CR2). *)
Definition PC (s : state) : Z := CREG s 2.

(** [decode_pc]; the section is looked up once a program is loaded. *)
Definition decode_pc : M Z :=
  modify (fun s =>
    match prog_bfd s with
    | Some secs =>
        if init_text_p s then s else
        let s := set_init_text_p true s in
        match find (fun x => String.eqb (sec_name x) ".text") secs with
        | Some x => set_text_end (u32 (sec_vma x + sec_size x)) (set_text_start (sec_vma x) s)
        | None => s
        end
    | None => s
    end) ;;
  s <- get ;;
  ret (u32 (Z.shiftl (PC s) 2 + text_start s)).

Section WithHost.
Context `{Host}.

(** [State.umem[seg] = calloc (1, 1<<UMEM_SIZE)] *)
Definition calloc_umem (seg : Z) : M unit :=
  modify (fun s => if host_calloc s seg then set_umem (<[seg := ∅]> (umem s)) s
                   else set_umem (delete seg (umem s)) s).
(** [State.umem[seg] + off] *)
Definition umem_ptr (s : state) (seg off : Z) : ptr :=
  match umem s !! seg with Some _ => P_umem seg off | None => P_null off end.

(** The body of [dmem_addr], which reads the [DMAP] register through [dmem_addr]
    itself: the macro is an argument here. *)
Definition dmem_addr_body (DMAP : M Z) (addr : Z) : M ptr :=
  let addr := Z.land addr 0xffff in
  if 0xbfff <? addr then
    (if negb (Z.land addr 0xfff0 =? 0xff00) then
       pc <- decode_pc ;;
       printf_filtered "Data address 0x%lx is in I/O space, pc = 0x%lx.\n" [addr; pc] ;;
       modify (set_exception SIGBUS)
     else skip) ;;
    ret (P_dmem addr)
  else if 0x7fff <? addr then
    dmap <- DMAP ;;
    if truth (Z.land dmap 0x1000) then
      dmap <- DMAP ;;
      ret (P_imem (Z.land dmap 0xf * 0x4000 + (addr - 0x8000)))
    else
      dmap <- DMAP ;;
      let seg := Z.shiftr (Z.land dmap 0x3ff) 3 in
      s <- get ;;
      match umem s !! seg with
      | Some _ => skip
      | None =>
          printf_filtered "Allocating %d bytes unified memory to region %d\n"
                          [Z.shiftl 1 UMEM_SIZE; seg] ;;
          calloc_umem seg ;;
          s <- get ;;
          match umem s !! seg with
          | Some _ => skip
          | None =>
              pc <- decode_pc ;;
              printf_filtered "ERROR:  alloc failed. unified memory region %d unmapped, pc = 0x%lx\n"
                              [seg; pc] ;;
              modify (set_exception SIGBUS)
          end
      end ;;
      dmap <- DMAP ;;
      s <- get ;;
      ret (umem_ptr s seg (Z.land dmap 7 * 0x4000 + (addr - 0x8000)))
  else ret (P_dmem addr).

(** [dmem_addr]: reading [DMAP] calls it once more, on an address that needs no
    map, so a recursion depth of two is enough (see [dmem_addr_unfold]). *)
Fixpoint dmem_addr_rec (fuel : nat) (addr : Z) : M ptr :=
  match fuel with
  | O => fun s => NoFuel s
  | S fuel' => dmem_addr_body (p <- dmem_addr_rec fuel' 0xff04 ;; get_word p) addr
  end.
Definition dmem_addr (addr : Z) : M ptr := dmem_addr_rec 2 addr.

(** Bytes, words and long words of the data space. *)
Definition RB (x : Z) : M Z := p <- dmem_addr x ;; load_byte p.
Definition SB (addr data : Z) : M unit := p <- dmem_addr addr ;; store_byte p (Z.land data 0xff).
Definition RW (x : Z) : M Z := p <- dmem_addr x ;; get_word p.
Definition SW (addr data : Z) : M unit := p <- dmem_addr addr ;; write_word p (u16 data).
Definition RLW (x : Z) : M Z := p <- dmem_addr x ;; get_longword p.
Definition SLW (addr data : Z) : M unit := p <- dmem_addr addr ;; write_longword p (u32 data).

(** The mapping registers. *)
Definition IMAP0 : M Z := RW 0xff00.
Definition IMAP1 : M Z := RW 0xff02.
Definition DMAP : M Z := RW 0xff04.
Definition SET_IMAP0 (x : Z) : M unit := SW 0xff00 x.
Definition SET_IMAP1 (x : Z) : M unit := SW 0xff02 x.
Definition SET_DMAP (x : Z) : M unit := SW 0xff04 x.

(** [imem_addr]; [State.umem] has 128 elements, so reading the one an [IMAP]
    with bit 7 selects is outside the array. *)
Definition imem_addr (pc : Z) : M ptr :=
  imap <- (if truth (Z.land pc 0x20000) then IMAP1 else IMAP0) ;;
  if truth (Z.land imap 0x1000) then ret (P_imem pc)
  else
    let seg := Z.land imap 0xff in
    if UMEM_SEGMENTS <=? seg then undefined UB_index
    else
      s <- get ;;
      match umem s !! seg with
      | None => ret (P_null 0)
      | Some _ => ret (P_umem seg (Z.land pc (2 ^ UMEM_SIZE - 1)))
      end.

(** ** interp.c: [sim_size] and [xfer_mem] *)

(** Frees what was allocated and allocates anew; the program exits when one of
    the allocations fails, which [alloc_ok] decides. *)
Definition sim_size (alloc_ok : bool) : M unit :=
  modify (fun s =>
    let s := match imem s with Some _ => set_umem ∅ s | None => s end in
    set_umem (<[127 := ∅]> (<[2 := ∅]> (<[1 := ∅]> (<[0 := ∅]> ∅))))
      (set_dmem (Some ∅) (set_imem (Some ∅) s))) ;;
  if alloc_ok then skip
  else printf_filtered "Memory allocation failed.\n" [] ;; exit 1.

(** The byte loops of the two translated segments: the number of bytes done and
    the buffer. *)
Fixpoint xfer_bytes (translate : Z -> M ptr) (addr : Z) (n : nat) (byte : Z)
    (buffer : list Z) (write_p : bool) : M (Z * list Z) :=
  match n with
  | O => ret (byte, buffer)
  | S n' =>
      mem <- translate (u32 (addr + byte)) ;;
      if is_NULL mem then ret (byte, buffer)
      else if write_p then
        store_byte mem (znth buffer byte) ;;
        xfer_bytes translate addr n' (byte + 1) buffer write_p
      else
        v <- load_byte mem ;;
        xfer_bytes translate addr n' (byte + 1) (<[Z.to_nat byte := v]> buffer) write_p
  end.

(** [memcpy (memory, buffer, n)] and [memcpy (buffer, memory, n)] *)
Fixpoint memcpy_to (memory : ptr) (buffer : list Z) (i : Z) (n : nat) : M unit :=
  match n with
  | O => skip
  | S n' => store_byte (ptr_add memory i) (znth buffer i) ;; memcpy_to memory buffer (i + 1) n'
  end.
Fixpoint memcpy_from (memory : ptr) (buffer : list Z) (i : Z) (n : nat) : M (list Z) :=
  match n with
  | O => ret buffer
  | S n' =>
      v <- load_byte (ptr_add memory i) ;;
      memcpy_from memory (<[Z.to_nat i := v]> buffer) (i + 1) n'
  end.

(** The transfer at the end of [xfer_mem]. *)
Definition xfer_copy (memory : ptr) (buffer : list Z) (size : Z) (write_p : bool) :
    M (Z * list Z) :=
  if write_p then
    memcpy_to memory buffer 0 (Z.to_nat size) ;; ret (size, buffer)
  else
    buffer <- memcpy_from memory buffer 0 (Z.to_nat size) ;; ret (size, buffer).

(** [case 0x12] of the switch, with what follows it. *)
Definition xfer_unified (addr : Z) (buffer : list Z) (size : Z) (write_p : bool) :
    M (Z * list Z) :=
  let startsegment := Z.shiftr addr UMEM_SIZE in
  let startoffset := Z.land addr (2 ^ UMEM_SIZE - 1) in
  let endsegment := Z.shiftr (u32 (addr + size)) UMEM_SIZE in
  let endoffset := Z.land (u32 (addr + size)) (2 ^ UMEM_SIZE - 1) in
  if negb (startsegment =? endsegment)
     && negb ((endsegment =? startsegment + 1) && (endoffset =? 0)) then
    printf_filtered "ERROR: Unimplemented support for transfers across unified memory segment boundaries\n" [] ;;
    ret (0, buffer)
  else
    s <- get ;;
    match umem s !! startsegment with
    | Some _ => skip
    | None => calloc_umem startsegment
    end ;;
    s <- get ;;
    match umem s !! startsegment with
    | None =>
        printf_filtered "ERROR: Memory allocation of 0x%x bytes failed.\n" [2 ^ UMEM_SIZE] ;;
        ret (0, buffer)
    | Some _ => xfer_copy (P_umem startsegment startoffset) buffer size write_p
    end.

(** [xfer_mem].  There is no [break] at the end of [case 0x11]: control goes on
    into [case 0x12], with the address reduced to 18 bits. *)
Definition xfer_mem (addr : Z) (buffer : list Z) (size : Z) (write_p : bool) :
    M (Z * list Z) :=
  let segment := Z.land (Z.shiftr addr 24) 0xff in
  let addr := Z.land addr 0x00ffffff in
  if segment =? 0x00 then xfer_bytes dmem_addr addr (Z.to_nat size) 0 buffer write_p
  else if segment =? 0x01 then xfer_bytes imem_addr addr (Z.to_nat size) 0 buffer write_p
  else if segment =? 0x10 then
    let addr := Z.land addr (2 ^ DMEM_SIZE - 1) in
    if 2 ^ DMEM_SIZE <? u32 (addr + size) then
      printf_filtered "ERROR: data address 0x%x is outside range 0-0x%x.\n"
        [u32 (addr + size - 1); 2 ^ DMEM_SIZE - 1] ;;
      ret (0, buffer)
    else xfer_copy (P_dmem addr) buffer size write_p
  else if segment =? 0x11 then
    let addr := Z.land addr (2 ^ IMEM_SIZE - 1) in
    if 2 ^ IMEM_SIZE <? u32 (addr + size) then
      printf_filtered "ERROR: instruction address 0x%x is outside range 0-0x%x.\n"
        [u32 (addr + size - 1); 2 ^ IMEM_SIZE - 1] ;;
      ret (0, buffer)
    else xfer_unified addr buffer size write_p
  else if segment =? 0x12 then xfer_unified addr buffer size write_p
  else
    printf_filtered "ERROR: address 0x%lx is not in valid range\n" [addr] ;;
    printf_filtered "0x00xxxxxx:  Logical data address segment		(DMAP translated memory)\n" [] ;;
    printf_filtered "0x01xxxxxx:  Logical instruction address segment	(IMAP translated memory)\n" [] ;;
    printf_filtered "0x10xxxxxx:  Physical data memory segment		(On-chip data memory)\n" [] ;;
    printf_filtered "0x11xxxxxx:  Physical instruction memory segment	(On-chip insn memory)\n" [] ;;
    printf_filtered "0x12xxxxxx:  Phisical unified memory segment		(Unified memory)\n" [] ;;
    ret (0, buffer).

Definition sim_write (addr : Z) (buffer : list Z) (size : Z) : M Z :=
  r <- xfer_mem addr buffer size true ;; ret r.1.
Definition sim_read (addr : Z) (buffer : list Z) (size : Z) : M (Z * list Z) :=
  xfer_mem addr buffer size false.

End WithHost.

(** ** The recursion of [dmem_addr] *)

Section Unfold.
Context `{Host}.

(** [DMAP] itself is in I/O space, where no map is consulted: the recursion
    through [DMAP] ends at once, and [dmem_addr] never runs out of fuel. *)
Lemma dmem_addr_unfold addr :
  dmem_addr addr = dmem_addr_body (get_word (P_dmem 0xff04)) addr.
Proof. reflexivity. Qed.

Lemma DMAP_unfold : DMAP = get_word (P_dmem 0xff04).
Proof. reflexivity. Qed.
Lemma IMAP0_unfold : IMAP0 = get_word (P_dmem 0xff00).
Proof. reflexivity. Qed.
Lemma IMAP1_unfold : IMAP1 = get_word (P_dmem 0xff02).
Proof. reflexivity. Qed.

(** Addresses below 0x8000 and in the I/O page are on-chip, unmapped. *)
Lemma dmem_addr_low addr : 0 <= addr < 0x8000 -> dmem_addr addr = ret (P_dmem addr).
Proof.
  intros Ha. rewrite dmem_addr_unfold. unfold dmem_addr_body.
  change 0xffff with (Z.ones 16). rewrite Z.land_ones, Z.mod_small by lia.
  destruct (Z.ltb_spec 0xbfff addr); [lia|]. by destruct (Z.ltb_spec 0x7fff addr); [lia|].
Qed.
End Unfold.
