(* ===== verification/Cregs.v ===== *)
(** * Control registers

    [move_to_cr] of sim/d10v/simops.c, through which every control register is
    written, and the register and flag macros of sim/d10v/d10v_sim.h. *)
From S2P Require Import Prelude CInt Opcodes State Memory.

Definition SP_IDX : Z := 15.

Definition PSW_CR : Z := 0.
Definition BPSW_CR : Z := 1.
Definition PC_CR : Z := 2.
Definition BPC_CR : Z := 3.
Definition DPSW_CR : Z := 4.
Definition DPC_CR : Z := 5.
Definition RPT_C_CR : Z := 7.
Definition RPT_S_CR : Z := 8.
Definition RPT_E_CR : Z := 9.
Definition MOD_S_CR : Z := 10.
Definition MOD_E_CR : Z := 11.
Definition IBA_CR : Z := 14.

Definition PSW_SM_BIT : Z := 0x8000.
Definition PSW_EA_BIT : Z := 0x2000.
Definition PSW_DB_BIT : Z := 0x1000.
Definition PSW_DM_BIT : Z := 0x0800.
Definition PSW_IE_BIT : Z := 0x0400.
Definition PSW_RP_BIT : Z := 0x0200.
Definition PSW_MD_BIT : Z := 0x0100.
Definition PSW_FX_BIT : Z := 0x0080.
Definition PSW_ST_BIT : Z := 0x0040.
Definition PSW_F0_BIT : Z := 0x0008.
Definition PSW_F1_BIT : Z := 0x0004.
Definition PSW_C_BIT : Z := 0x0001.

Definition PSW_MASK : Z :=
  fold_left Z.lor [PSW_SM_BIT; PSW_EA_BIT; PSW_DB_BIT; PSW_DM_BIT; PSW_IE_BIT;
                   PSW_RP_BIT; PSW_MD_BIT; PSW_FX_BIT; PSW_ST_BIT; PSW_F0_BIT;
                   PSW_F1_BIT; PSW_C_BIT] 0.

(** ** Reading *)

Definition PSW (s : state) : Z := CREG s PSW_CR.
Definition BPSW (s : state) : Z := CREG s BPSW_CR.
Definition BPC (s : state) : Z := CREG s BPC_CR.
Definition DPSW (s : state) : Z := CREG s DPSW_CR.
Definition DPC (s : state) : Z := CREG s DPC_CR.
Definition RPT_C (s : state) : Z := CREG s RPT_C_CR.
Definition RPT_S (s : state) : Z := CREG s RPT_S_CR.
Definition RPT_E (s : state) : Z := CREG s RPT_E_CR.
Definition MOD_S (s : state) : Z := CREG s MOD_S_CR.
Definition MOD_E (s : state) : Z := CREG s MOD_E_CR.
Definition IBA (s : state) : Z := CREG s IBA_CR.

Definition psw_bit (s : state) (b : Z) : bool := negb (Z.land (PSW s) b =? 0).
Definition PSW_SM (s : state) : bool := psw_bit s PSW_SM_BIT.
Definition PSW_DB (s : state) : bool := psw_bit s PSW_DB_BIT.
Definition PSW_RP (s : state) : bool := psw_bit s PSW_RP_BIT.
Definition PSW_MD (s : state) : bool := psw_bit s PSW_MD_BIT.
Definition PSW_FX (s : state) : bool := psw_bit s PSW_FX_BIT.
Definition PSW_ST (s : state) : bool := psw_bit s PSW_ST_BIT.
Definition PSW_F0 (s : state) : bool := psw_bit s PSW_F0_BIT.
Definition PSW_F1 (s : state) : bool := psw_bit s PSW_F1_BIT.
Definition PSW_C (s : state) : bool := psw_bit s PSW_C_BIT.

(** ** Writing *)

(** [case PSW_CR] of the switch, after [val &= PSW_MASK]: switching the stack
    pointer when the SM bit is written, and the check that ST needs FX. *)
Definition move_to_psw (mask val : Z) : M unit :=
  when (Z.land mask PSW_SM_BIT =? 0)
    (let new_sm := truth (Z.land val PSW_SM_BIT) in
     s <- get ;;
     SET_HELD_SP (b2z (PSW_SM s)) (GPR s SP_IDX) ;;
     s <- get ;;
     when (negb (Bool.eqb (PSW_SM s) new_sm))
       (SET_GPR SP_IDX (HELD_SP s (b2z new_sm)))) ;;
  when (Z.land mask (Z.lor PSW_ST_BIT PSW_FX_BIT) =? 0)
    (when (truth (Z.land val PSW_ST_BIT) && negb (truth (Z.land val PSW_FX_BIT)))
       (s <- get ;;
        printf_filtered "ERROR at PC 0x%x: ST can only be set when FX is set.\n"
                        [Z.shiftl (PC s) 2] ;;
        modify (set_exception SIGILL))) ;;
  modify (fun s => set_trace_psw (Z.lor (Z.land (trace_psw s) mask) val) s).

(** The switch of [move_to_cr] on the value. *)
Definition cr_value (cr val : Z) : Z :=
  if (cr =? PSW_CR) || (cr =? BPSW_CR) || (cr =? DPSW_CR) then Z.land val PSW_MASK
  else if (cr =? MOD_S_CR) || (cr =? MOD_E_CR) then Z.land val (u16 (Z.lnot 1))
  else val.

(** [move_to_cr (cr, mask, val)], with [mask] and [val] already of type
    [reg_t]: a mask bit that is set leaves the register's bit alone. *)
Definition move_to_cr (cr mask val : Z) : M Z :=
  let val := cr_value cr val in
  when (cr =? PSW_CR) (move_to_psw mask val) ;;
  s <- get ;;
  when (negb (Z.land (CREG s cr) (Z.lnot mask) =? val))
    (SLOT_PEND_MASK (D_creg cr) mask val) ;;
  ret val.

Definition SET_CREG (n val : Z) : M Z := move_to_cr n 0 (u16 val).
(** The macros that discard the result. *)
Definition set_creg_ (n val : Z) : M unit := SET_CREG n val ;; skip.
Definition SET_PSW (val : Z) : M unit := set_creg_ PSW_CR val.
Definition SET_BPSW (val : Z) : M unit := set_creg_ BPSW_CR val.
Definition SET_PC (val : Z) : M unit := set_creg_ PC_CR val.
Definition SET_BPC (val : Z) : M unit := set_creg_ BPC_CR val.
Definition SET_DPSW (val : Z) : M unit := set_creg_ DPSW_CR val.
Definition SET_DPC (val : Z) : M unit := set_creg_ DPC_CR val.
Definition SET_RPT_C (val : Z) : M unit := set_creg_ RPT_C_CR val.
Definition SET_RPT_S (val : Z) : M unit := set_creg_ RPT_S_CR val.
Definition SET_RPT_E (val : Z) : M unit := set_creg_ RPT_E_CR val.

Definition SET_PSW_BIT (m : Z) (v : bool) : M unit :=
  move_to_cr PSW_CR (u16 (Z.lnot m)) (if v then m else 0) ;; skip.
Definition SET_PSW_IE (v : bool) : M unit := SET_PSW_BIT PSW_IE_BIT v.
Definition SET_PSW_RP (v : bool) : M unit := SET_PSW_BIT PSW_RP_BIT v.
Definition SET_PSW_F0 (v : bool) : M unit := SET_PSW_BIT PSW_F0_BIT v.
Definition SET_PSW_F1 (v : bool) : M unit := SET_PSW_BIT PSW_F1_BIT v.
Definition SET_PSW_C (v : bool) : M unit := SET_PSW_BIT PSW_C_BIT v.

(** [JMP (x)] *)
Definition JMP (x : Z) : M unit := SET_PC x ;; modify (set_pc_changed 1).

(** Post-modification of an address register, with modulo addressing. *)
Definition INC_ADDR (x i : Z) : M unit :=
  s <- get ;;
  if PSW_MD s && (GPR s x =? Z.land (MOD_E s) (Z.lnot (i - 1)))
  then SET_GPR x (MOD_S s)
  else SET_GPR x (GPR s x + i).

(** [ins_type_counters[t]++] and [--], on [unsigned long] *)
Definition count (t : _ins_type) (d : Z) : M unit :=
  modify (fun s =>
    set_ins_type_counters
      (<[ins_index t := u32 (znth (ins_type_counters s) (Z.of_nat (ins_index t)) + d)]>
         (ins_type_counters s)) s).
