(* ===== verification/Elf.v ===== *)
(** * The D10V object format: relocations

    bfd/elf32-d10v.c (the relocation types, the table of their descriptions and the
    two ways into it) and what applies them: [bfd_check_overflow],
    [bfd_perform_relocation] and [bfd_elf_generic_reloc] of BFD, which the generic
    linker and the assembler call because the D10V back end has no
    [relocate_section] of its own.  [bfd_vma] is 32 bits wide. *)
From S2P Require Import Prelude CInt.

(** ** Relocation codes of BFD (bfd/bfd-in2.h) *)

Definition BFD_RELOC_32 : Z := 2.
Definition BFD_RELOC_16 : Z := 5.
Definition BFD_RELOC_NONE : Z := 52.
Definition BFD_RELOC_D10V_10_PCREL_R : Z := 206.
Definition BFD_RELOC_D10V_10_PCREL_L : Z := 207.
Definition BFD_RELOC_D10V_18 : Z := 208.
Definition BFD_RELOC_D10V_18_PCREL : Z := 209.

(** ** The table of relocations *)

Inductive complain_overflow :=
  complain_overflow_dont | complain_overflow_bitfield | complain_overflow_signed
| complain_overflow_unsigned.

Inductive special_function := bfd_elf_generic_reloc_fn.

(** [struct reloc_howto_struct]; [howto_size] is 0 for a byte, 1 for two, 2 for four. *)
Record reloc_howto_type := HOWTO {
  howto_type : Z;
  rightshift : Z;
  howto_size : Z;
  bitsize : Z;
  pc_relative : bool;
  bitpos : Z;
  complain_on_overflow : complain_overflow;
  howto_function : option special_function;
  howto_name : string;
  partial_inplace : bool;
  src_mask : Z;
  dst_mask : Z;
  pcrel_offset : bool
}.

(** [enum reloc_type] *)
Definition R_D10V_NONE : Z := 0.
Definition R_D10V_10_PCREL_R : Z := 1.
Definition R_D10V_10_PCREL_L : Z := 2.
Definition R_D10V_16 : Z := 3.
Definition R_D10V_18 : Z := 4.
Definition R_D10V_18_PCREL : Z := 5.
Definition R_D10V_32 : Z := 6.
Definition R_D10V_max : Z := 7.

Definition elf_d10v_howto_table : list reloc_howto_type := [
  HOWTO R_D10V_NONE 0 2 32 false 0 complain_overflow_bitfield (Some bfd_elf_generic_reloc_fn)
    "R_D10V_NONE" false 0 0 false;
  HOWTO R_D10V_10_PCREL_R 2 2 10 true 0 complain_overflow_bitfield (Some bfd_elf_generic_reloc_fn)
    "R_D10V_10_PCREL_R" false 0xff 0xff true;
  HOWTO R_D10V_10_PCREL_L 2 2 10 true 15 complain_overflow_bitfield (Some bfd_elf_generic_reloc_fn)
    "R_D10V_10_PCREL_L" false 0x07f8000 0x07f8000 true;
  HOWTO R_D10V_16 0 1 16 false 0 complain_overflow_dont (Some bfd_elf_generic_reloc_fn)
    "R_D10V_16" false 0xffff 0xffff false;
  HOWTO R_D10V_18 2 1 18 false 0 complain_overflow_dont (Some bfd_elf_generic_reloc_fn)
    "R_D10V_18" false 0xffff 0xffff false;
  HOWTO R_D10V_18_PCREL 2 2 18 true 0 complain_overflow_signed (Some bfd_elf_generic_reloc_fn)
    "R_D10V_18_PCREL" false 0xffff 0xffff true;
  HOWTO R_D10V_32 0 2 32 false 0 complain_overflow_bitfield (Some bfd_elf_generic_reloc_fn)
    "R_D10V_32" false 0xffffffff 0xffffffff false
]%string.

(** [struct d10v_reloc_map]: both members are bytes. *)
Record d10v_reloc_map_entry := Reloc_map { bfd_reloc_val : Z; elf_reloc_val : Z }.

Definition d10v_reloc_map : list d10v_reloc_map_entry :=
  map (fun p => Reloc_map (u8 p.1) (u8 p.2)) [
    (BFD_RELOC_NONE, R_D10V_NONE);
    (BFD_RELOC_D10V_10_PCREL_R, R_D10V_10_PCREL_R);
    (BFD_RELOC_D10V_10_PCREL_L, R_D10V_10_PCREL_L);
    (BFD_RELOC_16, R_D10V_16);
    (BFD_RELOC_D10V_18, R_D10V_18);
    (BFD_RELOC_D10V_18_PCREL, R_D10V_18_PCREL);
    (BFD_RELOC_32, R_D10V_32)
  ].

(** [&elf_d10v_howto_table[i]]; [None] when the address is past the table. *)
Definition howto_at (i : Z) : option reloc_howto_type :=
  if i <? 0 then None else elf_d10v_howto_table !! Z.to_nat i.

Definition bfd_elf32_bfd_reloc_type_lookup (code : Z) : option reloc_howto_type :=
  match List.find (fun m => bfd_reloc_val m =? code) d10v_reloc_map with
  | Some m => howto_at (elf_reloc_val m)
  | None => None
  end.

Definition ELF32_R_TYPE (i : Z) : Z := Z.land i 0xff.

(** [BFD_ASSERT] reports and goes on; the first component says whether it reported,
    the second is the new [cache_ptr->howto]. *)
Definition d10v_info_to_howto_rel (r_info : Z) : bool * option reloc_howto_type :=
  let r_type := ELF32_R_TYPE r_info in
  (negb (r_type <? R_D10V_max), howto_at r_type).

(** ** Applying a relocation (bfd/reloc.c, bfd/elf.c) *)

Inductive bfd_reloc_status_type :=
  bfd_reloc_ok | bfd_reloc_overflow | bfd_reloc_outofrange | bfd_reloc_continue
| bfd_reloc_notsupported | bfd_reloc_other | bfd_reloc_undefined | bfd_reloc_dangerous.
#[export] Instance bfd_reloc_status_eq_dec : EqDecision bfd_reloc_status_type.
Proof. solve_decision. Defined.

(** The bits that a logical shift of a negative value loses *)
Definition lost_bits (n : Z) : Z := Z.land (u32 (-1)) (u32 (Z.lnot (Z.shiftr (u32 (-1)) n))).

(** [(((1 << (bitsize - 1)) - 1) << 1) | 1], computed in [int] *)
Definition reloc_bits_of (bitsize : Z) : Z :=
  u32 (Z.lor (s32 (Z.shiftl (s32 (s32 (Z.shiftl 1 (bitsize - 1)) - 1)) 1)) 1).

Definition bfd_check_overflow (how : complain_overflow) (bitsize rightshift relocation : Z)
  : bfd_reloc_status_type :=
  let check := Z.shiftr relocation rightshift in
  let negative := (0 <? rightshift) && (s32 relocation <? 0) in
  let forced := Z.lor check (lost_bits rightshift) in
  match how with
  | complain_overflow_dont => bfd_reloc_ok
  | complain_overflow_signed =>
      let reloc_signed_max := s32 (s32 (Z.shiftl 1 (bitsize - 1)) - 1) in
      let reloc_signed_min := Z.lnot reloc_signed_max in
      let check := if negative then forced else check in
      if (reloc_signed_max <? s32 check) || (s32 check <? reloc_signed_min)
      then bfd_reloc_overflow else bfd_reloc_ok
  | complain_overflow_unsigned =>
      if reloc_bits_of bitsize <? check then bfd_reloc_overflow else bfd_reloc_ok
  | complain_overflow_bitfield =>
      let outside := u32 (Z.lnot (reloc_bits_of bitsize)) in
      if negb (Z.land check outside =? 0) && negb (Z.land check outside =? outside) then
        if negative then
          if negb (Z.land forced outside =? outside) then bfd_reloc_overflow else bfd_reloc_ok
        else bfd_reloc_overflow
      else bfd_reloc_ok
  end.

(** The kinds of section a symbol can be in, as far as the code tells them apart *)
Inductive section_kind := abs_section | und_section | com_section | other_section.

(** The fields of [asymbol], [asection] and [arelent] that are read *)
Record asymbol := Symbol {
  sym_value : Z;
  sym_weak : bool;                 (* BSF_WEAK *)
  sym_is_section : bool;           (* BSF_SECTION_SYM *)
  sym_section : section_kind;
  sym_output_vma : Z;              (* symbol->section->output_section->vma *)
  sym_output_offset : Z            (* symbol->section->output_offset *)
}.
Record input_section := Input_section {
  in_output_vma : Z;               (* output_section->vma *)
  in_output_offset : Z;
  in_cooked_size : Z
}.
Record arelent := Arelent { rel_address : Z; rel_addend : Z; rel_howto : reloc_howto_type }.

Definition bfd_elf_generic_reloc (e : arelent) (sym : asymbol) (sec : input_section)
    (output_bfd : bool) : bfd_reloc_status_type * arelent :=
  if output_bfd && negb (sym_is_section sym)
     && (negb (partial_inplace (rel_howto e)) || (rel_addend e =? 0)) then
    (bfd_reloc_ok, Arelent (u32 (rel_address e + in_output_offset sec)) (rel_addend e) (rel_howto e))
  else (bfd_reloc_continue, e).

(** The [n] bytes at [addr], big-endian; [None] past the end of the buffer *)
Fixpoint from_bytes (l : list Z) (acc : Z) : Z :=
  match l with [] => acc | b :: l' => from_bytes l' (Z.lor (Z.shiftl acc 8) b) end.
Definition get_bytes (n : nat) (data : list Z) (addr : Z) : option (list Z) :=
  if (0 <=? addr) && (addr + Z.of_nat n <=? Z.of_nat (length data))
  then Some (take n (drop (Z.to_nat addr) data)) else None.
Definition put_bytes (bs : list Z) (data : list Z) (addr : Z) : list Z :=
  take (Z.to_nat addr) data ++ bs ++ drop (Z.to_nat addr + length bs) data.

Definition bfd_getb16 (bs : list Z) : Z := from_bytes bs 0.
Definition bfd_getb32 (bs : list Z) : Z := from_bytes bs 0.
Definition bfd_putb16 (x : Z) : list Z := [u8 (Z.shiftr x 8); u8 x].
Definition bfd_putb32 (x : Z) : list Z :=
  [u8 (Z.shiftr x 24); u8 (Z.shiftr x 16); u8 (Z.shiftr x 8); u8 x].

(** The macro [DOIT], in [bfd_vma] *)
Definition DOIT (h : reloc_howto_type) (relocation x : Z) : Z :=
  Z.lor (Z.land (u32 x) (u32 (Z.lnot (dst_mask h))))
        (Z.land (u32 (Z.land (u32 x) (src_mask h) + relocation)) (dst_mask h)).

(** The final [switch] on the size; [None] when the item is past the end of [data]. *)
Definition apply_howto (h : reloc_howto_type) (relocation : Z) (data : list Z) (addr : Z)
    (flag : bfd_reloc_status_type) : option (bfd_reloc_status_type * list Z) :=
  let sz := howto_size h in
  if sz =? 0 then
    bs ← get_bytes 1 data addr;
    Some (flag, put_bytes [u8 (DOIT h relocation (wrap_signed 8 (from_bytes bs 0)))] data addr)
  else if sz =? 1 then
    bs ← get_bytes 2 data addr;
    Some (flag, put_bytes (bfd_putb16 (s16 (DOIT h relocation (s16 (bfd_getb16 bs))))) data addr)
  else if sz =? 2 then
    bs ← get_bytes 4 data addr;
    Some (flag, put_bytes (bfd_putb32 (s32 (DOIT h relocation (s32 (bfd_getb32 bs))))) data addr)
  else if sz =? -2 then
    bs ← get_bytes 4 data addr;
    Some (flag, put_bytes (bfd_putb32 (s32 (DOIT h (u32 (- relocation)) (s32 (bfd_getb32 bs))))) data addr)
  else if sz =? -1 then
    bs ← get_bytes 2 data addr;
    Some (flag, put_bytes (bfd_putb16 (s16 (DOIT h (u32 (- relocation)) (s16 (bfd_getb16 bs))))) data addr)
  else if sz =? 3 then Some (flag, data)
  else Some (bfd_reloc_other, data).

(** The value that is put into the field, before it is shifted *)
Definition relocation_value (e : arelent) (sym : asymbol) (sec : input_section)
    (output_bfd : bool) : Z :=
  let h := rel_howto e in
  let relocation := match sym_section sym with com_section => 0 | _ => sym_value sym end in
  let output_base := if output_bfd && negb (partial_inplace h) then 0 else sym_output_vma sym in
  let relocation := u32 (relocation + (output_base + sym_output_offset sym)) in
  let relocation := u32 (relocation + rel_addend e) in
  if pc_relative h then
    let relocation := u32 (relocation - (in_output_vma sec + in_output_offset sec)) in
    if pcrel_offset h then u32 (relocation - rel_address e) else relocation
  else relocation.

(** The result: the status, the relocation entry and the contents.  [coff_inplace]
    is the test on the flavour and the name of the target of [abfd]. *)
Definition bfd_perform_relocation (coff_inplace : bool) (e : arelent) (sym : asymbol)
    (data : list Z) (sec : input_section) (output_bfd : bool)
  : option (bfd_reloc_status_type * arelent * list Z) :=
  let h := rel_howto e in
  let addr := rel_address e in
  let abs := match sym_section sym with abs_section => true | _ => false end in
  let moved a := u32 (a + in_output_offset sec) in
  if abs && output_bfd then
    Some (bfd_reloc_ok, Arelent (moved (rel_address e)) (rel_addend e) h, data)
  else
    let flag := match sym_section sym with
                | und_section => if negb (sym_weak sym) && negb output_bfd
                                 then bfd_reloc_undefined else bfd_reloc_ok
                | _ => bfd_reloc_ok end in
    let '(cont, e) := match howto_function h with
                      | Some bfd_elf_generic_reloc_fn => bfd_elf_generic_reloc e sym sec output_bfd
                      | None => (bfd_reloc_continue, e) end in
    if negb (bool_decide (cont = bfd_reloc_continue)) then Some (cont, e, data)
    else if in_cooked_size sec <? rel_address e then Some (bfd_reloc_outofrange, e, data)
    else
      let relocation := relocation_value e sym sec output_bfd in
      if output_bfd && negb (partial_inplace h) then
        Some (flag, Arelent (moved (rel_address e)) relocation h, data)
      else
        let '(relocation, e) :=
          if output_bfd then
            if coff_inplace then
              (u32 (relocation - rel_addend e), Arelent (moved (rel_address e)) 0 h)
            else (relocation, Arelent (moved (rel_address e)) relocation h)
          else (relocation, Arelent (rel_address e) 0 h) in
        let flag := match complain_on_overflow h, flag with
                    | complain_overflow_dont, _ => flag
                    | how, bfd_reloc_ok => bfd_check_overflow how (bitsize h) (rightshift h) relocation
                    | _, _ => flag end in
        let relocation := u32 (Z.shiftl (Z.shiftr relocation (rightshift h)) (bitpos h)) in
        '(flag, data) ← apply_howto h relocation data addr flag;
        Some (flag, e, data).
