(* ===== verification/Dis.v ===== *)
(** * The D10V disassembler

    opcodes/d10v-dis.c.  The disassembler writes through the callbacks of
    [struct disassemble_info]; the model is the list of the calls it makes, with their
    arguments.  [unsigned long] and [bfd_vma] are 32 bits wide. *)
From S2P Require Import Prelude CInt Opcodes Elf.

Definition PC_MASK : Z := 0x0303FFFF.
(** include/dis-asm.h *)
Definition INSN_HAS_RELOC : Z := 0x80000000.

(** The argument of a call of [fprintf_func] after the format *)
Inductive fprintf_arg := No_arg | Str (s : string) | Num (n : Z).
Inductive callback :=
| fprintf_func (fmt : string) (arg : fprintf_arg)
| print_address_func (addr : Z)
| memory_error_func (status memaddr : Z).
Arguments Str _%_string.
Arguments fprintf_func _%_string _.

Definition tab : string := String (Ascii.ascii_of_nat 9) EmptyString.

(** The first register in the table with the value [num], as it is printed *)
Definition reg_print_name (r : pd_reg) : string :=
  match pname r with Some p => p | None => reg_name r end.

Definition print_register (fl num : Z) : list callback :=
  match List.find (fun r => num =? value r) d10v_predefined_registers with
  | Some r => [fprintf_func "%s" (Str (reg_print_name r))]
  | None =>
      [fprintf_func
         (if truth (Z.land fl (Z.lor OPERAND_ACC0 OPERAND_ACC1)) then "a"
        else if truth (Z.land fl OPERAND_CONTROL) then "cr"
        else "r") No_arg;
       fprintf_func "%d" (Num num)]
  end.

Definition print_operand (oper : d10v_operand) (insn : Z) (op : d10v_opcode)
    (memaddr info_flags : Z) : list callback :=
  let fl := flags oper in
  if fl =? OPERAND_ATMINUS then [fprintf_func "@-" No_arg]
  else if fl =? OPERAND_MINUS then [fprintf_func "-" No_arg]
  else if fl =? OPERAND_PLUS then [fprintf_func "+" No_arg]
  else if fl =? OPERAND_ATSIGN then [fprintf_func "@" No_arg]
  else if fl =? OPERAND_ATPAR then [fprintf_func "@(" No_arg]
  else
    let shift_ := if (format op =? LONG_L) && truth (Z.land fl OPERAND_REG)
                  then shift oper + 15 else shift oper in
    let num := Z.land (Z.shiftr insn shift_) (Z.shiftr 0x7FFFFFFF (31 - bits oper)) in
    if truth (Z.land fl OPERAND_REG) then
      let num := num + Z.land fl (Z.lor OPERAND_GPR (Z.lor OPERAND_FFLAG
                                    (Z.lor OPERAND_CFLAG OPERAND_CONTROL))) in
      let num := if truth (Z.land fl (Z.lor OPERAND_ACC0 OPERAND_ACC1))
                 then num + (if truth num then OPERAND_ACC0 else OPERAND_ACC1) else num in
      print_register fl num
    else
      let max := Z.shiftl 1 (bits oper - 1) in
      let neg := truth (Z.land num max) in
      let negated := Z.land (- num) (Z.shiftl 1 (bits oper) - 1) in
      if truth (Z.land fl OPERAND_ADDR) then
        let num := Z.shiftl (if neg then negated else num) 2 in
        [print_address_func
           (if truth (Z.land info_flags INSN_HAS_RELOC) then Z.land num PC_MASK
            else if neg then Z.land (u32 (memaddr - num)) PC_MASK
            else Z.land (u32 (memaddr + num)) PC_MASK)]
      else if truth (Z.land fl OPERAND_SIGNED) && neg then
        [fprintf_func "-" No_arg; fprintf_func "0x%x" (Num negated)]
      else [fprintf_func "0x%x" (Num num)].

(** The loop over the operands of an opcode, up to the first zero *)
Fixpoint print_operands (ops : list Z) (insn : Z) (op : d10v_opcode)
    (memaddr info_flags : Z) : list callback :=
  match ops with
  | [] => []
  | i :: rest =>
      if i =? 0 then []
      else
        let oper := operand_at i in
        let next := hd 0 rest in
        let fnext := flags (operand_at next) in
        print_operand oper insn op memaddr info_flags ++
        (if truth next && truth (bits oper)
            && negb (fnext =? OPERAND_PLUS) && negb (fnext =? OPERAND_MINUS)
         then [fprintf_func ", " No_arg] else []) ++
        print_operands rest insn op memaddr info_flags
  end.

Fixpoint has_paren (ops : list Z) : bool :=
  match ops with
  | [] => false
  | i :: rest => if i =? 0 then false
                 else (flags (operand_at i) =? OPERAND_ATPAR) || has_paren rest
  end.

(** The search of the table, up to the entry without a name, for an opcode of the
    format class [cls] *)
Fixpoint dis_search (l : list d10v_opcode) (cls insn : Z) : option d10v_opcode :=
  match l with
  | [] => None
  | op :: l' =>
      match name op with
      | None => None
      | Some _ =>
          if truth (Z.land (format op) cls) && (Z.land (mask op) insn =? opcode op) then Some op
          else dis_search l' cls insn
      end
  end.

Definition op_text (op : d10v_opcode) (insn memaddr info_flags : Z) : list callback :=
  fprintf_func ("%s" +:+ tab) (Str (default "" (name op))) ::
  print_operands (operands op) insn op memaddr info_flags.

Definition long_text (insn : Z) : callback := fprintf_func (".long" +:+ tab +:+ "0x%08x") (Num insn).
Definition close_paren (need_paren : bool) : list callback :=
  if need_paren then [fprintf_func ")" No_arg] else [].

Definition dis_long (insn memaddr info_flags : Z) : list callback :=
  match dis_search d10v_opcodes LONG_OPCODE insn with
  | Some op => op_text op insn memaddr info_flags ++ close_paren (has_paren (operands op))
  | None => [long_text insn]
  end.

(** One of the two short instructions: what is printed, whether it matched, and
    whether it needs a parenthesis *)
Definition dis_short (ins memaddr info_flags : Z) : list callback * bool * bool :=
  match dis_search d10v_opcodes SHORT_OPCODE ins with
  | Some op => (op_text op ins memaddr info_flags, true, has_paren (operands op))
  | None => ([fprintf_func "unknown" No_arg], false, false)
  end.

Definition dis_2_short (insn memaddr info_flags order : Z) : list callback :=
  let ins0 := Z.shiftr (Z.land insn 0x3FFFFFFF) 15 in
  let ins1 := Z.land insn 0x00007FFF in
  let '(t0, m0, p0) := dis_short ins0 memaddr info_flags in
  let '(t1, m1, p1) := dis_short ins1 memaddr info_flags in
  (* the separator is printed after the first one only: [order] is -1 then *)
  let sep := if order =? 0 then [fprintf_func (tab +:+ "->" +:+ tab) No_arg]
             else if order =? 1 then [fprintf_func (tab +:+ "<-" +:+ tab) No_arg]
             else if order =? 2 then [fprintf_func (tab +:+ "||" +:+ tab) No_arg]
             else [] in
  t0 ++ sep ++ t1 ++
  (if negb m0 && negb m1 then [long_text insn] else []) ++
  close_paren (p0 || p1).

(** [read_memory] is the callback [read_memory_func]: a status and four bytes.  The
    result is what the function returns and the calls it makes. *)
Definition print_insn_d10v (read_memory : Z -> Z * list Z) (memaddr info_flags : Z)
  : Z * list callback :=
  let '(status, buffer) := read_memory memaddr in
  if truth status then (-1, [memory_error_func status memaddr])
  else
    let insn := bfd_getb32 buffer in
    let status := Z.land insn FM11 in
    (4, if status =? 0 then dis_2_short insn memaddr info_flags 2
        else if status =? FM01 then dis_2_short insn memaddr info_flags 0
        else if status =? FM10 then dis_2_short insn memaddr info_flags 1
        else dis_long insn memaddr info_flags).

(** ** What is printed for a few words *)

Definition no_reads (w : Z) : Z -> Z * list Z := fun _ => (0, bfd_putb32 w).

(** [st r2, @-sp] in parallel with [add r0, r1], and [add a0, a1], whose operands are
    accumulators *)
Example dis_store :
  print_insn_d10v (no_reads (Z.lor (Z.shiftl 0x6c5f 15) 0x0202)) 0 0 =
  (4, [fprintf_func ("%s" +:+ tab) (Str "st"); fprintf_func "%s" (Str "r2"); fprintf_func ", " No_arg;
       fprintf_func "@-" No_arg; fprintf_func "%s" (Str "sp");
       fprintf_func (tab +:+ "||" +:+ tab) No_arg;
       fprintf_func ("%s" +:+ tab) (Str "add"); fprintf_func "%s" (Str "r0"); fprintf_func ", " No_arg;
       fprintf_func "%s" (Str "r1")]).
Proof. vm_compute. reflexivity. Qed.
Example dis_accumulators :
  dis_short 0x1213 0 0 =
  ([fprintf_func ("%s" +:+ tab) (Str "add");
    fprintf_func "a" No_arg; fprintf_func "%d" (Num 0x800); fprintf_func ", " No_arg;
    fprintf_func "a" No_arg; fprintf_func "%d" (Num 0x401)], true, false).
Proof. vm_compute. reflexivity. Qed.
