(* ===== verification/Asm.v ===== *)
(** * The D10V assembler: registers, operands and instruction words

    The first half of gas/config/tc-d10v.c: the search for a register name, the range
    check, the parser of operand lists, the choice of an opcode and [build_insn], up to
    [do_assemble].  What the target-independent assembler decides (the parser of
    expressions, the symbol table, the address of the current fragment) is the class
    [Gas].  A pointer into the opcode table is an index, the text at
    [input_line_pointer] is a string, [long] is 32 bits wide, and writing past an
    array of the function is the outcome [Undef]. *)
From Stdlib Require Import Ascii.
From S2P Require Import Prelude CInt Opcodes Elf.

Definition AT_WORD_RIGHT_SHIFT : Z := 2.
Definition MAX_INSN_FIXUPS : Z := 5.

(** ** Expressions (gas/expr.h) *)

Inductive operatorT :=
  O_illegal | O_absent | O_constant | O_symbol | O_symbol_rva | O_register | O_big | O_uminus
| O_bit_not | O_logical_not | O_multiply | O_divide | O_modulus | O_left_shift | O_right_shift
| O_bit_inclusive_or | O_bit_or_not | O_bit_exclusive_or | O_bit_and | O_add | O_subtract
| O_eq | O_ne | O_lt | O_le | O_ge | O_gt | O_logical_and | O_logical_or | O_max.
#[export] Instance operatorT_eq_dec : EqDecision operatorT.
Proof. solve_decision. Defined.

(** A symbol of the symbol table, or one that [make_expr_symbol] makes for an
    expression; [Chars] is the [char *] that [register_name] stores in
    [X_op_symbol]. *)
Inductive expressionS :=
  Expr (add_symbol op_symbol : option symbolS) (add_number : Z) (op : operatorT) (uns : bool)
with symbolS := Symbol (nm : string) | Expr_symbol (e : expressionS) | Chars (s : string).

Definition X_add_symbol (e : expressionS) := let 'Expr s _ _ _ _ := e in s.
Definition X_op_symbol (e : expressionS) := let 'Expr _ s _ _ _ := e in s.
Definition X_add_number (e : expressionS) := let 'Expr _ _ n _ _ := e in n.
Definition X_op (e : expressionS) := let 'Expr _ _ _ op _ := e in op.
Definition X_unsigned (e : expressionS) := let 'Expr _ _ _ _ u := e in u.

Definition zero_expr : expressionS := Expr None None 0 O_illegal false.
Definition absent (n : Z) : expressionS := Expr None None n O_absent false.
Definition set_X_op (op : operatorT) (e : expressionS) : expressionS :=
  Expr (X_add_symbol e) (X_op_symbol e) (X_add_number e) op (X_unsigned e).
Definition set_X_add_number (n : Z) (e : expressionS) : expressionS :=
  Expr (X_add_symbol e) (X_op_symbol e) n (X_op e) (X_unsigned e).
Definition set_X_op_symbol (s : option symbolS) (e : expressionS) : expressionS :=
  Expr (X_add_symbol e) s (X_add_number e) (X_op e) (X_unsigned e).
Definition set_X_add_symbol (s : option symbolS) (e : expressionS) : expressionS :=
  Expr s (X_op_symbol e) (X_add_number e) (X_op e) (X_unsigned e).

Definition op_is (op : operatorT) (e : expressionS) : bool := bool_decide (X_op e = op).

(** ** The assembler's state *)

(** [struct d10v_fixup] *)
Record d10v_fixup := Fixup { fix_exp : expressionS; fix_operand : Z; fix_pcrel : Z; fix_size : Z; fix_reloc : Z }.

Inductive severity := Bad | Warn.

(** A fix that [fix_new_exp] records; the position is relative to the word. *)
Record fixS := Fix { fx_where : Z; fx_size : Z; fx_exp : expressionS; fx_pcrel : Z; fx_r_type : Z }.
(** What one [frag_more (4)] gives: the bytes and the fixes of the word *)
Record emitted := Emitted { em_seg : Z; em_subseg : Z; em_bytes : list Z; em_fixes : list fixS }.

(** The static variables.  [fixups] points to [FixUps[1]] when [fixups_second] is
    set; a segment is a number, 0 the null pointer. *)
Record asm := Asm {
  Optimizing : Z;
  flag_warn_suppress_instructionswap : Z;
  FixUps0 : list d10v_fixup;
  FixUps1 : list d10v_fixup;
  fixups_second : bool;
  prev_opcode : option d10v_opcode;
  prev_insn : Z;
  prev_seg : Z;
  prev_subseg : Z;
  etype : Z;
  now_seg : Z;
  now_subseg : Z;
  frags : list emitted;
  messages : list (severity * string)
}.

Inductive outcome (A : Type) : Type :=
| Ok (x : A) (s : asm)
| Fatal (msg : string) (s : asm)
| Undef (s : asm)
| Loops (s : asm).
Arguments Ok {A} _ _.
Arguments Fatal {A} _%_string _.
Arguments Undef {A} _.
Arguments Loops {A} _.

Definition A_ (A : Type) : Type := asm -> outcome A.
Definition aret {A} (x : A) : A_ A := fun s => Ok x s.
Definition abind {A B} (m : A_ A) (f : A -> A_ B) : A_ B := fun s =>
  match m s with
  | Ok x s' => f x s'
  | Fatal msg s' => Fatal msg s'
  | Undef s' => Undef s'
  | Loops s' => Loops s'
  end.
Declare Scope asm_scope.
Delimit Scope asm_scope with asm.
Notation "'let*' x ':=' m 'in' k" := (abind m (fun x => k))
  (at level 10, x binder, m at level 100, k at level 200) : asm_scope.
Notation "m '>>' k" := (abind m (fun _ => k)) (at level 100, right associativity) : asm_scope.
#[local] Open Scope asm_scope.

Definition aget : A_ asm := fun s => Ok s s.
Definition aput (s : asm) : A_ unit := fun _ => Ok tt s.
Definition as_fatal {A} (msg : string) : A_ A := fun s => Fatal msg s.
Definition undef {A} : A_ A := fun s => Undef s.
Definition add_message (m : severity * string) (s : asm) : asm :=
  Asm (Optimizing s) (flag_warn_suppress_instructionswap s) (FixUps0 s) (FixUps1 s)
    (fixups_second s) (prev_opcode s) (prev_insn s) (prev_seg s) (prev_subseg s) (etype s)
    (now_seg s) (now_subseg s) (frags s) (messages s ++ [m]).
Definition as_bad (msg : string) : A_ unit := fun s => Ok tt (add_message (Bad, msg) s).
Definition as_warn (msg : string) : A_ unit := fun s => Ok tt (add_message (Warn, msg) s).
Arguments as_fatal {A} _%_string.
Arguments as_bad _%_string.
Arguments as_warn _%_string.

(** What the target-independent assembler provides: [expression] reads an expression
    from the text and gives the rest; the properties of a symbol; the address that
    the next byte will have in its section, from what has been emitted; the
    characters that end a statement; the emission of a data expression, the check of the
    end of a line, and the conversion of a floating-point constant (the rest of the
    text, or [None] for the null pointer, and the 16-bit words). *)
Class Gas := {
  expression : string -> expressionS * string;
  symbol_find_or_make : string -> symbolS;
  S_IS_DEFINED : symbolS -> bool;
  S_GET_SEGMENT : symbolS -> Z;
  S_GET_VALUE : symbolS -> Z;
  sy_value : symbolS -> expressionS;
  here : asm -> Z;
  is_end_of_line : ascii -> bool;
  emit_expr : expressionS -> Z -> A_ unit;
  demand_empty_rest_of_line : string -> A_ string;
  atof_ieee : string -> ascii -> option string * list Z
}.

(** ** Characters and strings of the C library *)

Definition tolower (c : ascii) : ascii :=
  if ((65 <=? nat_of_ascii c) && (nat_of_ascii c <=? 90))%nat
  then ascii_of_nat (nat_of_ascii c + 32) else c.
(** The table of libiberty/strcasecmp.c, which also folds Latin letters *)
Definition charmap (c : ascii) : nat :=
  let n := nat_of_ascii c in
  if (((65 <=? n) && (n <=? 90)) || ((192 <=? n) && (n <=? 218)))%nat then (n + 32)%nat else n.
(** The sign of [strcasecmp]; the end of a string compares as 0. *)
Fixpoint strcasecmp (a b : string) : comparison :=
  match a, b with
  | EmptyString, EmptyString => Eq
  | EmptyString, String _ _ => Lt
  | String _ _, EmptyString => Gt
  | String x a', String y b' =>
      match Nat.compare (charmap x) (charmap y) with
      | Eq => strcasecmp a' b'
      | c => c
      end
  end.
(** [strncasecmp (s, p, strlen (p)) == 0] *)
Fixpoint starts_with (p s : string) : bool :=
  match p, s with
  | EmptyString, _ => true
  | String x p', String y s' => (charmap x =? charmap y)%nat && starts_with p' s'
  | String _ _, EmptyString => false
  end.
Fixpoint drop_string (n : nat) (s : string) : string :=
  match n, s with
  | S n', String _ s' => drop_string n' s'
  | _, _ => s
  end.
Definition NL : ascii := ascii_of_nat 10.
Definition CR : ascii := ascii_of_nat 13.
Definition TAB : ascii := ascii_of_nat 9.
Definition char_is (c d : ascii) : bool := Ascii.eqb c d.

(** ** Registers *)

Definition register_at (i : Z) : pd_reg :=
  nth (Z.to_nat i) d10v_predefined_registers (PdReg EmptyString None 0).

(** The binary search; [None] when the fuel ran out. *)
Fixpoint reg_name_search_loop (fuel : nat) (nm : string) (low high : Z) : option Z :=
  match fuel with
  | O => None
  | S fuel' =>
      let middle := Z.quot (low + high) 2 in
      match strcasecmp nm (reg_name (register_at middle)) with
      | Lt => let high := middle - 1 in
              if low <=? high then reg_name_search_loop fuel' nm low high else Some (-1)
      | Gt => let low := middle + 1 in
              if low <=? high then reg_name_search_loop fuel' nm low high else Some (-1)
      | Eq => Some (value (register_at middle))
      end
  end.
Definition reg_name_search (nm : string) : option Z :=
  reg_name_search_loop (length d10v_predefined_registers) nm 0 (d10v_reg_name_cnt - 1).

(** The name at the text: up to a delimiter, and what is left from there *)
Fixpoint take_name (s : string) : string * string :=
  match s with
  | EmptyString => (EmptyString, EmptyString)
  | String c s' =>
      if char_is c NL || char_is c CR || char_is c "," || char_is c " " || char_is c ")"
      then (EmptyString, s)
      else let '(n, r) := take_name s' in (String c n, r)
  end.

(** [register_name]: on success the delimiter is skipped too. *)
Definition register_name (text : string) : option (expressionS * string) :=
  let '(nm, rest) := take_name text in
  match reg_name_search nm with
  | Some reg_number =>
      if 0 <=? reg_number then
        Some (Expr None (Some (Chars nm)) reg_number O_register false,
              match rest with String _ r => r | EmptyString => EmptyString end)
      else None
  | None => None
  end.

(** ** Ranges and relocations of an operand *)

(** [num] is an [unsigned long]; 1 is "out of range". *)
Definition check_range (num bits flags : Z) : bool :=
  if bits =? 16 then false
  else if truth (Z.land flags OPERAND_SHIFT) then 16 <? num
  else if truth (Z.land flags OPERAND_SIGNED) then
    let max := Z.shiftl 1 (bits - 1) - 1 in
    let min := - Z.shiftl 1 (bits - 1) in
    (max <? s32 num) || (s32 num <? min)
  else
    let max := Z.shiftl 1 bits - 1 in
    (u32 max <? num) || (num <? 0).

Definition get_reloc (op : d10v_operand) : Z :=
  if bits op <=? 4 then 0
  else if truth (Z.land (flags op) OPERAND_ADDR) then
    if bits op =? 8 then BFD_RELOC_D10V_10_PCREL_R else BFD_RELOC_D10V_18_PCREL
  else BFD_RELOC_16.

(** [postfix]: the first '-' or '+' on the line is overwritten with a space. *)
Fixpoint postfix (p : string) : Z * string :=
  match p with
  | EmptyString => (0, EmptyString)
  | String c p' =>
      if char_is c "-" then (-1, String " " p')
      else if char_is c "+" then (1, String " " p')
      else if char_is c NL || char_is c CR then (0, p)
      else let '(r, q) := postfix p' in (r, String c q)
  end.

(** ** Operand lists *)

Section Parse.
Context `{Gas}.

Definition sym_expr (s : symbolS) : expressionS :=
  match s with Expr_symbol e => e | _ => sy_value s end.
(** [make_expr_symbol] of a constant *)
Definition make_expr_symbol (e : expressionS) : symbolS := Expr_symbol e.

Definition AT_WORD_P (e : expressionS) : bool :=
  op_is O_right_shift e &&
  match X_op_symbol e with
  | Some s => op_is O_constant (sym_expr s) && (X_add_number (sym_expr s) =? AT_WORD_RIGHT_SHIFT)
  | None => false
  end.

(** [symbol_find_or_make] of the string in [X_op_symbol] *)
Definition symbol_of_chars (s : option symbolS) : option symbolS :=
  match s with Some (Chars nm) => Some (symbol_find_or_make nm) | _ => s end.

(** The suffix [@word] after an operand *)
Definition at_word (e : expressionS) (text : string) : expressionS * string :=
  if starts_with "@word" text then
    let text := drop_string 5 text in
    let e := if op_is O_register e
             then set_X_add_symbol (symbol_of_chars (X_op_symbol e)) (set_X_op O_symbol e) else e in
    let '(e, text) :=
      match text with
      | String c _ =>
          if char_is c "-" || char_is c "+" then
            let '(new_exp, rest) := expression text in (set_X_add_number (X_add_number new_exp) e, rest)
          else (e, text)
      | EmptyString => (e, text)
      end in
    let shift_exp := Expr None None AT_WORD_RIGHT_SHIFT O_constant true in
    (set_X_op O_right_shift (set_X_op_symbol (Some (make_expr_symbol shift_exp)) e), text)
  else (e, text).

Fixpoint skip_separators (p : string) : string :=
  match p with
  | String c p' => if char_is c " " || char_is c TAB || char_is c "," then skip_separators p' else p
  | EmptyString => EmptyString
  end.

(** One round of the loop of [get_operands]: what is left of the text, the operand it
    added, if any, and the new [post]; [None] is the [break]. *)
Definition operand_step (p : string) (post : Z)
  : option (string * option expressionS * Z * list string) :=
  match skip_separators p with
  | EmptyString => None
  | String c p1 =>
      if char_is c NL || char_is c CR then None
      else if char_is c "@" then
        match p1 with
        | String d p2 =>
            if char_is d "(" then Some (p2, Some (absent OPERAND_ATPAR), post, [])
            else if char_is d "-" then Some (p2, Some (absent OPERAND_ATMINUS), post, [])
            else let '(r, q) := postfix p1 in Some (q, Some (absent OPERAND_ATSIGN), r, [])
        | EmptyString => Some (p1, Some (absent OPERAND_ATSIGN), 0, [])
        end
      else if char_is c ")" then Some (p1, None, post, [])
      else
        let text := String c p1 in
        let '(e, rest) := match register_name text with Some r => r | None => expression text end in
        let '(e, rest) := at_word e rest in
        Some (rest, Some e, post,
              if op_is O_illegal e then ["illegal operand"%string]
              else if op_is O_absent e then ["missing operand"%string] else [])
  end.

Fixpoint as_bads (l : list string) : A_ unit :=
  match l with [] => aret tt | m :: l' => as_bad m >> as_bads l' end.

Fixpoint get_operands_loop (fuel : nat) (p : string) (post : Z) (exps : list expressionS)
  : A_ (Z * list expressionS) :=
  match fuel with
  | O => fun s => Loops s
  | S fuel' =>
      match p with
      | EmptyString => aret (post, exps)
      | String _ _ =>
          match operand_step p post with
          | None => aret (post, exps)
          | Some (p', e, post', msgs) =>
              as_bads msgs >>
              get_operands_loop fuel' p' post' (exps ++ match e with Some e => [e] | None => [] end)
          end
      end
  end.

(** [exp] is the array [myops] of six elements; the result is what has been written
    of it, with the terminator. *)
Definition get_operands (text : string) : A_ (list expressionS) :=
  let* '(post, exps) := get_operands_loop (S (String.length text)) text 0 [] in
  let exps := exps ++ (if post =? -1 then [absent OPERAND_MINUS]
                       else if post =? 1 then [absent OPERAND_PLUS] else []) in
  if (6 <=? length exps)%nat then undef else aret (exps ++ [zero_expr]).

(** ** Instruction words *)

Definition cur_fixups (s : asm) : list d10v_fixup := if fixups_second s then FixUps1 s else FixUps0 s.
Definition next_fixups (s : asm) : list d10v_fixup := if fixups_second s then FixUps0 s else FixUps1 s.
Definition set_fixups (second : bool) (l : list d10v_fixup) (s : asm) : asm :=
  Asm (Optimizing s) (flag_warn_suppress_instructionswap s)
    (if second then FixUps0 s else l) (if second then l else FixUps1 s)
    (fixups_second s) (prev_opcode s) (prev_insn s) (prev_seg s) (prev_subseg s) (etype s)
    (now_seg s) (now_subseg s) (frags s) (messages s).
Definition add_fixup (f : d10v_fixup) (s : asm) : asm :=
  set_fixups (fixups_second s) (cur_fixups s ++ [f]) s.

(** [0x7FFFFFFF >> (31 - bits)] *)
Definition bits_mask (b : Z) : Z := Z.shiftr 0x7FFFFFFF (31 - b).

(** The fixup for an operand whose value is not known, the value to insert and the
    operand as the function leaves it *)
Definition make_fixup (idx : Z) (number : Z) (e : expressionS) : d10v_fixup * Z * expressionS :=
  let o := operand_at idx in
  let '(reloc, number, e) :=
    if AT_WORD_P e then
      let number := u32 (Z.shiftl number AT_WORD_RIGHT_SHIFT) in
      (BFD_RELOC_D10V_18, number,
       set_X_add_number (s32 number) (set_X_op_symbol None (set_X_op O_symbol e)))
    else (get_reloc o, number, e) in
  (Fixup e idx (b2z (truth (Z.land (flags o) OPERAND_ADDR)))
     (if (reloc =? BFD_RELOC_16) || (reloc =? BFD_RELOC_D10V_18) then 2 else 4) reloc,
   number, e).

Fixpoint build_insn_loop (fmt : Z) (ops : list Z) (opers : list expressionS) (insn : Z)
  : A_ (Z * list expressionS) :=
  match ops with
  | [] => aret (insn, opers)
  | idx :: ops' =>
      if idx =? 0 then aret (insn, opers)
      else
        match opers with
        | [] => undef
        | e :: opers' =>
            let o := operand_at idx in
            let number := u32 (X_add_number e) in
            let reg := truth (Z.land (flags o) OPERAND_REG) in
            let number := if reg then Z.land number REGISTER_MASK else number in
            let shift_ := if reg && (fmt =? LONG_L) then shift o + 15 else shift o in
            let* '(number, e) :=
              (if negb (op_is O_register e) && negb (op_is O_constant e) then
                 let* s := aget in
                 if (MAX_INSN_FIXUPS <=? Z.of_nat (length (cur_fixups s)))
                 then as_fatal "too many fixups"
                 else
                   let '(f, number, e) := make_fixup idx number e in
                   aput (add_fixup f s) >> aret (number, e)
               else aret (number, e)) in
            (if op_is O_constant e && check_range number (bits o) (flags o)
             then as_bad "operand out of range: %d" else aret tt) >>
            let number := Z.land number (bits_mask (bits o)) in
            let* '(insn, opers') :=
              build_insn_loop fmt ops' opers' (Z.lor insn (u32 (Z.shiftl number shift_))) in
            aret (insn, e :: opers')
        end
  end.

(** [insn] is nonzero in the second pass that the kludge for DIVS makes. *)
Definition build_insn (op : d10v_opcode) (opers : list expressionS) (insn : Z) : A_ Z :=
  let fmt := if truth insn then LONG_R else format op in
  let* '(insn, opers) := build_insn_loop fmt (operands op) opers (if truth insn then insn else opcode op) in
  if (opcode op =? OPCODE_DIVS) && (fmt =? LONG_L) then
    let* '(insn, _) := build_insn_loop (if truth insn then LONG_R else format op) (operands op) opers
                        (if truth insn then insn else opcode op) in
    aret insn
  else aret insn.

Definition d10v_insert_operand (insn op_type value_ : Z) (left : bool) : A_ Z :=
  let o := operand_at op_type in
  let shift_ := if left then shift o + 15 else shift o in
  (if check_range (u32 value_) (bits o) (flags o)
   then as_bad "operand out of range: %d" else aret tt) >>
  let value_ := Z.land value_ (bits_mask (bits o)) in
  aret (Z.lor insn (u32 (Z.shiftl value_ shift_))).

(** ** Choosing an opcode *)

Definition null_opcode : d10v_opcode := Opcode None 0 0 0 0 0 0 [0; 0; 0; 0; 0; 0].
Definition opcode_at (i : nat) : d10v_opcode := nth i d10v_opcodes null_opcode.
Definition operand_index (op : d10v_opcode) (i : nat) : Z := nth i (operands op) 0.

(** [num & ~flags & (OPERAND_GPR | ...)]: the register is of another class. *)
Definition register_classes : Z :=
  Z.lor OPERAND_GPR (Z.lor OPERAND_ACC0 (Z.lor OPERAND_ACC1
    (Z.lor OPERAND_FFLAG (Z.lor OPERAND_CFLAG OPERAND_CONTROL)))).
Definition wrong_class (num fl : Z) : bool :=
  truth (Z.land (Z.land num (Z.lnot fl)) register_classes).

(** An operand that was read as a register and is a symbol after all *)
Definition register_to_symbol (e : expressionS) : expressionS :=
  set_X_op_symbol None (set_X_add_number 0
    (set_X_add_symbol (symbol_of_chars (X_op_symbol e)) (set_X_op O_symbol e))).

(** The loop over the sizes of a fake opcode: the first that the value fits *)
Fixpoint fake_loop (rest : list Z) (opnum : nat) (e : expressionS) (next : nat) (s : asm)
  : option nat :=
  match rest with
  | [] => None
  | r :: rest' =>
      if r =? 0 then None
      else
        let o := operand_at (operand_index (opcode_at next) opnum) in
        let fl := flags o in
        let b := if truth (Z.land fl OPERAND_ADDR) then bits o + 2 else bits o in
        let fits :=
          if op_is O_constant e then negb (check_range (u32 (X_add_number e)) b fl)
          else
            let v := match X_add_symbol e with Some sy => S_GET_VALUE sy | None => 0 end in
            let v := if truth (Z.land fl OPERAND_ADDR) then v - here s else v in
            if AT_WORD_P e then (4 <? b) && negb (check_range (u32 v) (b + 2) fl)
            else negb (check_range (u32 v) b fl) in
        if fits then Some next else fake_loop rest' opnum e (S next) s
  end.

(** [S_IS_DEFINED] and the segment of the symbol of the operand *)
Definition local_symbol (e : expressionS) (s : asm) : bool :=
  op_is O_symbol e &&
  match X_add_symbol e with
  | Some sy => S_IS_DEFINED sy && (S_GET_SEGMENT sy =? now_seg s)
  | None => false
  end.

Definition find_fake (i : nat) (myops : list expressionS) : A_ (option (nat * list expressionS)) :=
  let op := opcode_at i in
  let opnum := Z.to_nat (operand_index op 0) in
  match myops !! opnum, myops !! 0%nat with
  | Some e, Some _ =>
      let e := if op_is O_register e then register_to_symbol e else e in
      let myops := <[opnum := e]> myops in
      let first := default zero_expr (myops !! 0%nat) in
      let fl := flags (operand_at (operand_index (opcode_at (S i)) 0)) in
      if truth (Z.land fl OPERAND_REG)
         && (negb (op_is O_register first) || wrong_class (X_add_number first) fl) then
        as_bad "bad opcode or operands" >> aret None
      else
        let* s := aget in
        if op_is O_constant e || local_symbol e s then
          match fake_loop (tl (operands op)) opnum e (S i) s with
          | Some j => aret (Some (j, myops))
          | None => as_fatal "value out of range"
          end
        else aret (Some (S (S i), myops))
  | _, _ => undef
  end.

(** Whether an operand is one that the opcode can take *)
Definition operand_matches (fl : Z) (e : expressionS) : bool :=
  let num := X_add_number e in
  let punct c := truth (Z.land fl c) && (negb (op_is O_absent e) || negb (num =? c)) in
  negb (op_is O_illegal e) &&
  negb (truth (Z.land fl OPERAND_REG) && (negb (op_is O_register e) || wrong_class num fl)) &&
  negb (punct OPERAND_MINUS || punct OPERAND_PLUS || punct OPERAND_ATMINUS
        || punct OPERAND_ATPAR || punct OPERAND_ATSIGN).

(** All operands match, and there are no more; [None] reads past the array. *)
Fixpoint operands_match (ops : list Z) (myops : list expressionS) : option bool :=
  match ops, myops with
  | [], e :: _ => Some (op_is O_illegal e)
  | i :: ops', e :: myops' =>
      if i =? 0 then Some (op_is O_illegal e)
      else if operand_matches (flags (operand_at i)) e then operands_match ops' myops'
      else Some false
  | _, [] => None
  end.

Definition same_name (a b : d10v_opcode) : bool := bool_decide (name a = name b).

(** The search, from [i] through the entries with the same name *)
Fixpoint match_loop (fuel : nat) (i : nat) (myops : list expressionS) : option (option nat) :=
  match fuel with
  | O => None
  | S fuel' =>
      b ← operands_match (operands (opcode_at i)) myops;
      if b : bool then Some (Some i)
      else if (opcode (opcode_at (S i)) =? 0) || negb (same_name (opcode_at (S i)) (opcode_at i))
      then Some None
      else match_loop fuel' (S i) myops
  end.

(** The checks after a match: even registers, and registers that are symbols *)
Fixpoint fix_operands (ops : list Z) (myops : list expressionS) : A_ (list expressionS) :=
  match ops, myops with
  | i :: ops', e :: myops' =>
      if i =? 0 then aret myops
      else
        let fl := flags (operand_at i) in
        if truth (Z.land fl OPERAND_EVEN) && truth (Z.land (X_add_number e) 1) then
          as_fatal "Register number must be EVEN"
        else
          let e := if op_is O_register e && negb (truth (Z.land fl OPERAND_REG))
                   then register_to_symbol e else e in
          let* rest := fix_operands ops' myops' in
          aret (e :: rest)
  | _, _ => aret myops
  end.

(** [None] is the null pointer, after a message. *)
Definition find_opcode (i : nat) (text : string) : A_ (option (nat * list expressionS)) :=
  let* myops := get_operands text in
  if format (opcode_at i) =? OPCODE_FAKE then find_fake i myops
  else
    match match_loop (length d10v_opcodes) i myops with
    | None => undef
    | Some None => as_bad "bad opcode or operands" >> aret None
    | Some (Some j) =>
        let* myops := fix_operands (operands (opcode_at j)) myops in
        aret (Some (j, myops))
    end.

(** ** [md_begin] and [do_assemble] *)

(** The loop of [md_begin]: the first opcode of each run of equal names, unless the
    name is in the table already ([hash_insert] does not replace). *)
Fixpoint md_begin_loop (prev_name : string) (i : nat) (l : list d10v_opcode)
    (h : gmap string nat) : gmap string nat :=
  match l with
  | [] => h
  | op :: l' =>
      match name op with
      | None => h
      | Some nm =>
          if bool_decide (prev_name = nm) then md_begin_loop prev_name (S i) l' h
          else md_begin_loop nm (S i) l'
                 (match h !! nm with Some _ => h | None => <[nm := i]> h end)
      end
  end.
Definition d10v_hash : gmap string nat := md_begin_loop EmptyString 0 d10v_opcodes ∅.

Fixpoint skip_spaces (str : string) : string :=
  match str with
  | String c s' => if char_is c " " then skip_spaces s' else str
  | EmptyString => EmptyString
  end.

(** The name of the opcode, in lower case, and what is left: at most [n] characters *)
Fixpoint opcode_name (n : nat) (str : string) : string * string :=
  match n, str with
  | S n', String c s' =>
      if is_end_of_line c || char_is c " " then (EmptyString, str)
      else let '(nm, rest) := opcode_name n' s' in (String (tolower c) nm, rest)
  | _, _ => (EmptyString, str)
  end.

(** The result is the word, all ones on an error, and the opcode. *)
Definition invalid_insn : Z := u32 (-1).
Definition do_assemble (str : string) : A_ (Z * option d10v_opcode) :=
  let '(nm, rest) := opcode_name 20 (skip_spaces str) in
  (* [name] has 20 elements *)
  if (String.length nm =? 20)%nat then undef
  else if (String.length nm =? 0)%nat then aret (invalid_insn, None)
  else
    match d10v_hash !! nm with
    | None => as_fatal "unknown opcode: %s"
    | Some i =>
        let* r := find_opcode i rest in
        match r with
        | None => aret (invalid_insn, None)
        | Some (j, myops) =>
            let* insn := build_insn (opcode_at j) myops 0 in
            aret (insn, Some (opcode_at j))
        end
    end.
End Parse.
