(* ===== verification/AsmPack.v ===== *)
(** * The D10V assembler: packing, fixes and the entry points

    The second half of gas/config/tc-d10v.c: writing one or two short instructions or
    a long one into a word, the test that two instructions can run in parallel,
    [md_assemble], [d10v_cleanup], and the functions that resolve fixes.  A pointer
    [fx] to a fixup buffer is a boolean, the buffer's number. *)
From Stdlib Require Import Ascii.
From S2P Require Import Prelude CInt Opcodes Elf Asm.
#[local] Open Scope asm_scope.

(** ** The state *)

Definition set_prev_opcode (o : option d10v_opcode) (s : asm) : asm :=
  Asm (Optimizing s) (flag_warn_suppress_instructionswap s) (FixUps0 s) (FixUps1 s)
    (fixups_second s) o (prev_insn s) (prev_seg s) (prev_subseg s) (etype s)
    (now_seg s) (now_subseg s) (frags s) (messages s).
Definition set_prev_insn (w : Z) (s : asm) : asm :=
  Asm (Optimizing s) (flag_warn_suppress_instructionswap s) (FixUps0 s) (FixUps1 s)
    (fixups_second s) (prev_opcode s) w (prev_seg s) (prev_subseg s) (etype s)
    (now_seg s) (now_subseg s) (frags s) (messages s).
Definition set_prev_section (seg subseg : Z) (s : asm) : asm :=
  Asm (Optimizing s) (flag_warn_suppress_instructionswap s) (FixUps0 s) (FixUps1 s)
    (fixups_second s) (prev_opcode s) (prev_insn s) seg subseg (etype s)
    (now_seg s) (now_subseg s) (frags s) (messages s).
Definition set_etype (e : Z) (s : asm) : asm :=
  Asm (Optimizing s) (flag_warn_suppress_instructionswap s) (FixUps0 s) (FixUps1 s)
    (fixups_second s) (prev_opcode s) (prev_insn s) (prev_seg s) (prev_subseg s) e
    (now_seg s) (now_subseg s) (frags s) (messages s).
(** [subseg_set] *)
Definition subseg_set (seg subseg : Z) (s : asm) : asm :=
  Asm (Optimizing s) (flag_warn_suppress_instructionswap s) (FixUps0 s) (FixUps1 s)
    (fixups_second s) (prev_opcode s) (prev_insn s) (prev_seg s) (prev_subseg s) (etype s)
    seg subseg (frags s) (messages s).
(** [fixups = fixups->next] *)
Definition swap_fixups (s : asm) : asm :=
  Asm (Optimizing s) (flag_warn_suppress_instructionswap s) (FixUps0 s) (FixUps1 s)
    (negb (fixups_second s)) (prev_opcode s) (prev_insn s) (prev_seg s) (prev_subseg s) (etype s)
    (now_seg s) (now_subseg s) (frags s) (messages s).
Definition set_options (opt nowarn : Z) (s : asm) : asm :=
  Asm opt nowarn (FixUps0 s) (FixUps1 s)
    (fixups_second s) (prev_opcode s) (prev_insn s) (prev_seg s) (prev_subseg s) (etype s)
    (now_seg s) (now_subseg s) (frags s) (messages s).
Definition add_frag (e : emitted) (s : asm) : asm :=
  Asm (Optimizing s) (flag_warn_suppress_instructionswap s) (FixUps0 s) (FixUps1 s)
    (fixups_second s) (prev_opcode s) (prev_insn s) (prev_seg s) (prev_subseg s) (etype s)
    (now_seg s) (now_subseg s) (frags s ++ [e]) (messages s).
Definition amodify (f : asm -> asm) : A_ unit := fun s => Ok tt (f s).

Definition fixups_of (fx : bool) (s : asm) : list d10v_fixup := if fx then FixUps1 s else FixUps0 s.
(** [fx->fc = 0] *)
Definition clear_fixups (fx : bool) (s : asm) : asm := set_fixups fx [] s.

(** ** Words *)

Definition number_to_chars_bigendian (val : Z) : list Z := bfd_putb32 val.

(** The fixes made from one buffer; [left] when a 10-bit branch is in the left
    container. *)
Definition new_fixes (left : bool) (l : list d10v_fixup) : list fixS :=
  map (fun f =>
         let op := fix_operand f in
         let op := if left && (fix_reloc f =? BFD_RELOC_D10V_10_PCREL_R) then Z.lor op 1024 else op in
         let op := if fix_reloc f =? BFD_RELOC_D10V_18 then Z.lor op 4096 else op in
         Fix (if fix_size f =? 2 then 2 else 0) (fix_size f) (fix_exp f) (fix_pcrel f) (Z.lor op 2048))
      (List.filter (fun f => truth (fix_reloc f)) l).

Definition emit (insn : Z) (fixes : list fixS) : A_ unit :=
  amodify (fun s => add_frag (Emitted (now_seg s) (now_subseg s) (number_to_chars_bigendian insn) fixes) s).

Definition write_long (op : d10v_opcode) (insn : Z) (fx : bool) : A_ unit :=
  let* s := aget in
  emit (Z.lor insn FM11) (new_fixes false (fixups_of fx s)) >>
  amodify (clear_fixups fx).

Definition write_1_short (op : d10v_opcode) (insn : Z) (fx : bool) : A_ unit :=
  if truth (Z.land (exec_type op) PARONLY)
  then as_fatal "Instruction must be executed in parallel with another instruction."
  else
    let iu := unit_ op =? IU in
    let insn := if iu then Z.lor insn (Z.lor FM00 (Z.shiftl NOP 15))
                else Z.lor (Z.lor FM00 (u32 (Z.shiftl insn 15))) NOP in
    let* s := aget in
    emit insn (new_fixes (negb iu) (fixups_of fx s)) >>
    amodify (clear_fixups fx).

(** ** The test for parallel execution *)

(** The registers of [parallel_ok]: r0-r15, a0-a1 as 16 and 17, the control registers
    as 18, the PSW with its flags as 19, memory as 20. *)
Definition parallel_regno (fl ins shift_ mask_ : Z) : Z :=
  let regno := Z.land (Z.shiftr ins shift_) mask_ in
  if truth (Z.land fl (Z.lor OPERAND_ACC0 OPERAND_ACC1)) then regno + 16
  else if truth (Z.land fl OPERAND_CONTROL) then (if regno =? 0 then 19 else 18)
  else if truth (Z.land fl (Z.lor OPERAND_FFLAG OPERAND_CFLAG)) then 19
  else regno.

(** The loop over the operands: the sets of registers modified and used *)
Fixpoint operand_sets (ops : list Z) (ins : Z) (mod_ used : Z) : Z * Z :=
  match ops with
  | [] => (mod_, used)
  | i :: ops' =>
      if i =? 0 then (mod_, used)
      else
        let o := operand_at i in
        let fl := flags o in
        let next := hd 0 ops' in
        let '(mod_, used) :=
          if truth (Z.land fl OPERAND_REG) then
            let regno := parallel_regno fl ins (shift o) (bits_mask (bits o)) in
            let pair := if truth (Z.land fl OPERAND_EVEN) then Z.shiftl 1 (regno + 1) else 0 in
            let set := Z.lor (Z.shiftl 1 regno) pair in
            if truth (Z.land fl OPERAND_DEST) then (Z.lor mod_ set, used)
            else
              (if truth next
                  && truth (Z.land (flags (operand_at next)) (Z.lor OPERAND_PLUS OPERAND_MINUS))
               then Z.lor mod_ (Z.shiftl 1 regno) else mod_,
               Z.lor used set)
          else if truth (Z.land fl OPERAND_ATMINUS) then
            (Z.lor mod_ (Z.shiftl 1 15), Z.lor used (Z.shiftl 1 15))
          else (mod_, used) in
        operand_sets ops' ins mod_ used
  end.

Definition insn_sets (op : d10v_opcode) (ins : Z) : Z * Z :=
  let has t := truth (Z.land (exec_type op) t) in
  let '(mod_, used) :=
    operand_sets (operands op) ins (if has BRANCH_LINK then Z.shiftl 1 13 else 0) 0 in
  if has RMEM then (mod_, Z.lor used (Z.shiftl 1 20))
  else if has WMEM then (Z.lor mod_ (Z.shiftl 1 20), used)
  else if has RF0 then (mod_, Z.lor used (Z.shiftl 1 19))
  else if has WF0 then (Z.lor mod_ (Z.shiftl 1 19), used)
  else if has WCAR then (Z.lor mod_ (Z.shiftl 1 19), used)
  else (mod_, used).

Definition parallel_ok (op1 : d10v_opcode) (insn1 : Z) (op2 : d10v_opcode) (insn2 exec_type_ : Z) : bool :=
  let has o t := truth (Z.land (exec_type o) t) in
  if has op1 SEQ || has op2 SEQ || negb (has op1 PAR) || negb (has op2 PAR)
     || (unit_ op1 =? BOTH) || (unit_ op2 =? BOTH)
     || ((unit_ op1 =? IU) && (unit_ op2 =? IU)) || ((unit_ op1 =? MU) && (unit_ op2 =? MU))
  then false
  else if (exec_type_ =? 0) && has op1 BRANCH then false
  else
    let '(mod0, used0) := insn_sets op1 insn1 in
    let '(mod1, used1) := insn_sets op2 insn2 in
    (Z.land mod0 mod1 =? 0) && (Z.land mod0 used1 =? 0).

(** ** Two short instructions *)

(** The word and the buffer of the left container: [false] is [fx], the fixups of
    the second instruction, [true] is [fx->next]. *)
Definition word_of (fm left right : Z) : Z := Z.lor (Z.lor fm (u32 (Z.shiftl left 15))) right.

Definition warn_swap : A_ unit :=
  let* s := aget in
  if truth (flag_warn_suppress_instructionswap s) then aret tt
  else as_warn "Swapping instruction order".

Definition pack_2_short (op1 : d10v_opcode) (insn1 : Z) (op2 : d10v_opcode) (insn2 exec_type_ : Z)
  : A_ (Z * bool) :=
  let* s := aget in
  if exec_type_ =? 0 then
    if truth (Optimizing s) && parallel_ok op1 insn1 op2 insn2 exec_type_ then
      if unit_ op1 =? IU then aret (word_of FM00 insn2 insn1, false)
      else if unit_ op2 =? MU then aret (word_of FM00 insn2 insn1, false)
      else aret (word_of FM00 insn1 insn2, true)
    else if unit_ op1 =? IU then aret (word_of FM10 insn2 insn1, false)
    else aret (word_of FM01 insn1 insn2, true)
  else if exec_type_ =? 1 then
    if truth (Z.land (exec_type op1) SEQ) || truth (Z.land (exec_type op2) SEQ)
    then as_fatal "One of these instructions may not be executed in parallel."
    else if unit_ op1 =? IU then
      if unit_ op2 =? IU then as_fatal "Two IU instructions may not be executed in parallel"
      else warn_swap >> aret (word_of FM00 insn2 insn1, false)
    else if unit_ op2 =? MU then
      if unit_ op1 =? MU then as_fatal "Two MU instructions may not be executed in parallel"
      else warn_swap >> aret (word_of FM00 insn2 insn1, false)
    else aret (word_of FM00 insn1 insn2, true)
  else if exec_type_ =? 2 then
    if unit_ op1 =? IU then as_fatal "IU instruction may not be in the left container"
    else aret (word_of FM01 insn1 insn2, true)
  else if exec_type_ =? 3 then
    if unit_ op2 =? MU then as_fatal "MU instruction may not be in the right container"
    else aret (word_of FM10 insn1 insn2, true)
  else as_fatal "unknown execution type passed to write_2_short()".

(** The number of instructions that were not written *)
Definition write_2_short (op1 : d10v_opcode) (insn1 : Z) (op2 : d10v_opcode) (insn2 exec_type_ : Z)
    (fx : bool) : A_ Z :=
  let has o t := truth (Z.land (exec_type o) t) in
  if negb (exec_type_ =? 1) && (has op1 PARONLY || has op2 PARONLY)
  then as_fatal "Instruction must be executed in parallel"
  else if truth (Z.land (format op1) LONG_OPCODE) || truth (Z.land (format op2) LONG_OPCODE)
  then as_fatal "Long instructions may not be combined."
  else if has op1 BRANCH_LINK && (exec_type_ =? 0)
  then write_1_short op1 insn1 (negb fx) >> aret 1
  else
    let* '(insn, next) := pack_2_short op1 insn1 op2 insn2 exec_type_ in
    let left := if next : bool then negb fx else fx in
    let* s := aget in
    emit insn (new_fixes true (fixups_of left s) ++ new_fixes false (fixups_of (negb left) s)) >>
    amodify (clear_fixups left) >>
    amodify (clear_fixups (negb left)) >>
    aret 0.

(** ** The entry points *)

(** [strstr (str, sep)]: what comes before the separator and what comes after *)
Fixpoint is_prefix (p s : string) : bool :=
  match p, s with
  | EmptyString, _ => true
  | String x p', String y s' => Ascii.eqb x y && is_prefix p' s'
  | String _ _, EmptyString => false
  end.
Fixpoint split_at (sep str : string) : option (string * string) :=
  if is_prefix sep str then Some (EmptyString, drop_string (String.length sep) str)
  else match str with
       | EmptyString => None
       | String c s' => '(a, b) ← split_at sep s'; Some (String c a, b)
       end.

Definition find_separator (str : string) : option (Z * string * string) :=
  match split_at "||" str with
  | Some (a, b) => Some (1, a, b)
  | None =>
      match split_at "->" str with
      | Some (a, b) => Some (2, a, b)
      | None => match split_at "<-" str with Some (a, b) => Some (3, a, b) | None => None end
      end
  end.

Definition d10v_cleanup : A_ Z :=
  let* s := aget in
  match prev_opcode s with
  | None => aret 1
  | Some op =>
      let seg := now_seg s in
      let subseg := now_subseg s in
      amodify (subseg_set (prev_seg s) (prev_subseg s)) >>
      write_1_short op (prev_insn s) (negb (fixups_second s)) >>
      amodify (subseg_set seg subseg) >>
      amodify (set_prev_opcode None) >>
      aret 1
  end.

Section Entry.
Context `{Gas}.

(** The first of two instructions on a line *)
Definition assemble_first (str : string) : A_ unit :=
  d10v_cleanup >>
  let* '(insn, op) := do_assemble str in
  amodify (set_prev_insn insn) >>
  (match op with Some o => amodify (set_prev_opcode (Some o)) | None => aret tt end) >>
  if insn =? invalid_insn then as_fatal "can't find opcode " else amodify swap_fixups.

(** What is done with an instruction that has been assembled *)
Definition place (op : d10v_opcode) (insn extype : Z) : A_ unit :=
  if truth (Z.land (format op) LONG_OPCODE) then
    if truth extype then as_fatal "Unable to mix instructions as specified"
    else
      d10v_cleanup >>
      let* s := aget in
      write_long op insn (fixups_second s) >>
      amodify (set_prev_opcode None)
  else
    let* s := aget in
    (match prev_opcode s with
     | Some _ =>
         if truth (prev_seg s)
            && (negb (prev_seg s =? now_seg s) || negb (prev_subseg s =? now_subseg s))
         then d10v_cleanup else aret 1
     | None => aret 1
     end) >>
    let* s := aget in
    let* unwritten := match prev_opcode s with
                 | Some p => write_2_short p (prev_insn s) op insn extype (fixups_second s)
                 | None => aret 1
                 end in
    if unwritten =? 0 then amodify (set_prev_opcode None)
    else if truth extype then as_fatal "Unable to mix instructions as specified"
    else
      amodify (set_prev_opcode (Some op)) >>
      amodify (set_prev_insn insn) >>
      let* s := aget in
      amodify (set_prev_section (now_seg s) (now_subseg s)) >>
      amodify swap_fixups.

Definition md_assemble (str : string) : A_ unit :=
  let* s := aget in
  let* '(extype, str) :=
    if etype s =? 0 then
      match find_separator str with
      | Some (t, a, b) => assemble_first a >> aret (t, b)
      | None => aret (0, str)
      end
    else aret (0, str) in
  let* '(insn, op) := do_assemble str in
  if insn =? invalid_insn then
    if truth extype then amodify (set_etype extype)
    else as_fatal "can't find opcode "
  else
    match op with
    | None => undef
    | Some op =>
        let* s := aget in
        let extype := if truth (etype s) then etype s else extype in
        amodify (set_etype 0) >>
        place op insn extype
    end.
End Entry.

(** The options ['O'] and [OPTION_NOWARNSWAP] ([OPTION_MD_BASE], 170 in gas/as.h) *)
Definition OPTION_NOWARNSWAP : Z := 170.
Definition md_parse_option (c : Z) : A_ Z :=
  let* s := aget in
  if c =? 79 then amodify (set_options 1 (flag_warn_suppress_instructionswap s)) >> aret 1
  else if c =? OPTION_NOWARNSWAP then amodify (set_options (Optimizing s) 1) >> aret 1
  else aret 0.

(** [valueT] is unsigned; [align] is the alignment of the section. *)
Definition md_section_align (align addr : Z) : Z :=
  Z.land (u32 (addr + s32 (Z.shiftl 1 align) - 1)) (u32 (Z.shiftl (-1) align)).

(** ** Fixes *)

(** What [md_apply_fix3] reads of a fix: the symbol to add and its offset, the symbol
    to subtract; and the two fields it changes. *)
Record fix_state := Fix_state {
  fx_addsy : option symbolS;
  fx_subsy : option symbolS;
  fx_offset : Z;
  fx_is_pcrel : bool;
  fx_bytes : Z;
  fx_reloc : Z;
  fx_done : bool
}.

Section Fixes.
Context `{Gas}.
Context (absolute_section : Z).

(** [frag_address] is [fixp->fx_frag->fr_address + fixp->fx_where]. *)
Definition md_pcrel_from_section (f : fix_state) (frag_address sec : Z) : Z :=
  match fx_addsy f with
  | Some sy => if negb (S_IS_DEFINED sy) || negb (S_GET_SEGMENT sy =? sec) then 0 else frag_address
  | None => frag_address
  end.

(** The value to insert; a symbol to subtract has to be absolute. *)
Definition fix_value (f : fix_state) (valuep : Z) : A_ Z :=
  match fx_addsy f with
  | None => aret (s32 valuep)
  | Some _ =>
      if fx_is_pcrel f then aret (s32 valuep)
      else
        match fx_subsy f with
        | None => aret (s32 (fx_offset f))
        | Some sub =>
            if S_GET_SEGMENT sub =? absolute_section
            then aret (s32 (fx_offset f - S_GET_VALUE sub))
            else as_bad "expression too complex" >> aret (s32 (fx_offset f))
        end
  end.

(** The relocation that the number of the fix stands for: its code, the operand, and
    whether it is in the left container *)
Definition fix_type (r : Z) : Z * Z * bool :=
  if truth (Z.land r 2048) then
    let op_type := r - 2048 in
    if truth (Z.land op_type 1024) then (BFD_RELOC_D10V_10_PCREL_L, op_type - 1024, true)
    else if truth (Z.land op_type 4096) then (BFD_RELOC_D10V_18, op_type - 4096, false)
    else (get_reloc (operand_at op_type), op_type, false)
  else (r, r, false).

Definition insn_reloc (r : Z) : bool :=
  (r =? BFD_RELOC_D10V_10_PCREL_L) || (r =? BFD_RELOC_D10V_10_PCREL_R)
  || (r =? BFD_RELOC_D10V_18_PCREL) || (r =? BFD_RELOC_D10V_18).

(** [literal] is the contents of the fragment from [fx_where] on, at least four
    bytes; the result is the fix and the contents. *)
Definition md_apply_fix3 (f : fix_state) (valuep : Z) (literal : list Z)
  : A_ (fix_state * list Z) :=
  let* value_ := fix_value f valuep in
  let done := fx_done f || match fx_addsy f with None => true | Some _ => false end in
  let '(r, op_type, left_) := fix_type (fx_reloc f) in
  let f := Fix_state (fx_addsy f) (fx_subsy f) (fx_offset f) (fx_is_pcrel f) (fx_bytes f) r done in
  match get_bytes 4 literal 0 with
  | None => undef
  | Some bs =>
      let insn := bfd_getb32 bs in
      if insn_reloc r then
        let value_ := Z.shiftr value_ AT_WORD_RIGHT_SHIFT in
        if fx_bytes f =? 2 then aret (f, put_bytes (bfd_putb16 value_) literal 0)
        else
          let* insn := d10v_insert_operand insn op_type value_ left_ in
          aret (f, put_bytes (bfd_putb32 insn) literal 0)
      else if r =? BFD_RELOC_32 then aret (f, put_bytes (bfd_putb32 value_) literal 0)
      else if r =? BFD_RELOC_16 then aret (f, put_bytes (bfd_putb16 value_) literal 0)
      else as_fatal "line %d: unknown relocation type: 0x%x"
  end.

(** The howto of the relocation written to the object file; [None] after a message *)
Definition tc_gen_reloc (r address addnumber : Z) : A_ (option arelent) :=
  match bfd_elf32_bfd_reloc_type_lookup r with
  | Some h => aret (Some (Arelent address addnumber h))
  | None => as_bad "reloc %d not supported by object file format" >> aret None
  end.
End Fixes.

(** ** Data *)

Section Data.
Context `{Gas}.

(** [SKIP_WHITESPACE]: at most one space, because the input has been scrubbed *)
Definition SKIP_WHITESPACE (text : string) : string :=
  match text with
  | String c rest => if char_is c " " then rest else text
  | EmptyString => text
  end.
Definition is_it_end_of_statement (text : string) : bool * string :=
  let text := SKIP_WHITESPACE text in
  (match text with String c _ => is_end_of_line c | EmptyString => is_end_of_line Ascii.zero end, text).

(** One operand of [.word]: two bytes, with a fix when it ends in [@word] *)
Definition dot_word_item (text : string) : A_ string :=
  let '(e, rest) := expression text in
  if starts_with "@word" rest then
    amodify (fun s => add_frag (Emitted (now_seg s) (now_subseg s) [0; 0]
      [Fix 0 2 (set_X_add_number 0 e) 0 BFD_RELOC_D10V_18]) s) >>
    aret (drop_string 5 rest)
  else emit_expr e 2 >> aret rest.

Fixpoint dot_word_loop (fuel : nat) (text : string) : A_ string :=
  match fuel with
  | O => fun s => Loops s
  | S fuel' =>
      let* rest := dot_word_item text in
      match rest with
      | String c rest' => if char_is c "," then dot_word_loop fuel' rest' else aret rest
      | EmptyString => aret rest
      end
  end.

Definition d10v_dot_word (fuel : nat) (text : string) : A_ string :=
  let '(fin, text) := is_it_end_of_statement text in
  if fin then demand_empty_rest_of_line text
  else let* rest := dot_word_loop fuel text in demand_empty_rest_of_line rest.

(** An operand may begin with '#', which is ignored. *)
Definition md_operand (e : expressionS) (text : string) : expressionS * string :=
  match text with
  | String c rest => if char_is c "#" then expression rest else (e, text)
  | EmptyString => (e, text)
  end.

(** The error message, if any, the size, the bytes, and the rest of the text *)
Definition md_atof (type_ : ascii) (text : string) : option string * Z * list Z * string :=
  let convert (prec : nat) :=
    let '(t, words) := atof_ieee text type_ in
    (None, Z.of_nat prec * 2, flat_map bfd_putb16 (take prec words), default text t) in
  if char_is type_ "f" then convert 2%nat
  else if char_is type_ "d" then convert 4%nat
  else (Some "bad call to md_atof"%string, 0, [], text).
End Data.
