(* ===== verification/SimopsAlu.v ===== *)
(** * Instructions on the general registers and the flags

    The functions of sim/d10v/simops.c for the 16- and 32-bit arithmetic, logic,
    comparison, shift, bit and move instructions.  Each reads the decoded
    operands [OP[0..3]] and schedules register writes in the writeback slots.
    The calls of [trace_input] and [trace_output_*] do nothing unless the
    simulator is traced ([d10v_debug]), which is not modelled. *)
From S2P Require Import Prelude CInt Opcodes State Memory Cregs.

(** [(GPR (n) << 16) | GPR (n + 1)], an [int] *)
Definition gpr_pair (s : state) (n : Z) : Z :=
  s32 (Z.lor (Z.shiftl (GPR s n) 16) (GPR s (n + 1))).

(** ** Arithmetic *)

Definition OP_4607 : M unit := (* abs *)
  s <- get ;;
  SET_PSW_F1 (PSW_F0 s) ;;
  s <- get ;;
  let tmp := s16 (GPR s (op s 0)) in
  if tmp <? 0 then
    let tmp := s16 (- tmp) in
    SET_PSW_F0 true ;;
    s <- get ;;
    SET_GPR (op s 0) tmp
  else
    SET_PSW_F0 false ;;
    s <- get ;;
    SET_GPR (op s 0) tmp.

Definition OP_200 : M unit := (* add *)
  s <- get ;;
  let a := u16 (GPR s (op s 0)) in
  let b := u16 (GPR s (op s 1)) in
  let tmp := u16 (a + b) in
  SET_PSW_C (tmp <? a) ;;
  s <- get ;;
  SET_GPR (op s 0) tmp.

Definition OP_1200 : M unit := (* add2w *)
  s <- get ;;
  let a := u32 (Z.lor (Z.shiftl (GPR s (op s 0)) 16) (GPR s (op s 0 + 1))) in
  let b := u32 (Z.lor (Z.shiftl (GPR s (op s 1)) 16) (GPR s (op s 1 + 1))) in
  let tmp := u32 (a + b) in
  SET_PSW_C (tmp <? a) ;;
  s <- get ;;
  SET_GPR (op s 0 + 0) (Z.shiftr tmp 16) ;;
  s <- get ;;
  SET_GPR (op s 0 + 1) (Z.land tmp 0xFFFF).

Definition OP_1000000 : M unit := (* add3 *)
  s <- get ;;
  let a := u16 (GPR s (op s 1)) in
  let b := u16 (op s 2) in
  let tmp := u16 (a + b) in
  SET_PSW_C (tmp <? a) ;;
  s <- get ;;
  SET_GPR (op s 0) tmp.

Definition OP_201 : M unit := (* addi *)
  s <- get ;;
  let a := u16 (GPR s (op s 0)) in
  when (op s 1 =? 0) (set_op 1 16) ;;
  s <- get ;;
  let b := u16 (op s 1) in
  let tmp := u16 (a + b) in
  SET_PSW_C (tmp <? a) ;;
  s <- get ;;
  SET_GPR (op s 0) tmp.

Definition OP_14002800 : M unit := (* divs *)
  s <- get ;;
  let foo := u16 (Z.lor (Z.shiftl (GPR s (op s 0)) 1) (Z.shiftr (GPR s (op s 0 + 1)) 15)) in
  let tmp := u16 (s16 foo - s16 (GPR s (op s 1))) in
  let tmpf := u16 (if GPR s (op s 1) <=? foo then 1 else 0) in
  let hi := u16 (if tmpf =? 1 then tmp else foo) in
  let lo := u16 (Z.lor (Z.shiftl (GPR s (op s 0 + 1)) 1) tmpf) in
  SET_GPR (op s 0 + 0) hi ;;
  s <- get ;;
  SET_GPR (op s 0 + 1) lo.

Definition OP_2E00 : M unit := (* mul *)
  s <- get ;;
  let tmp := s16 (s32 (GPR s (op s 0) * GPR s (op s 1))) in
  SET_GPR (op s 0) tmp.

Definition OP_4605 : M unit := (* neg *)
  s <- get ;;
  let tmp := s16 (- GPR s (op s 0)) in
  SET_GPR (op s 0) tmp.

Definition OP_0 : M unit := (* sub *)
  s <- get ;;
  let a := u16 (GPR s (op s 0)) in
  let b := u16 (GPR s (op s 1)) in
  let tmp := u16 (a - b) in
  SET_PSW_C (b <=? a) ;;
  s <- get ;;
  SET_GPR (op s 0) tmp.

Definition OP_1000 : M unit := (* sub2w *)
  s <- get ;;
  let a := u32 (gpr_pair s (op s 0)) in
  let b := u32 (gpr_pair s (op s 1)) in
  let tmp := u32 (a - b) in
  SET_PSW_C (b <=? a) ;;
  s <- get ;;
  SET_GPR32 (op s 0) tmp.

Definition OP_1 : M unit := (* subi *)
  s <- get ;;
  when (op s 1 =? 0) (set_op 1 16) ;;
  s <- get ;;
  let tmp := u32 (u16 (GPR s (op s 0)) + u16 (- op s 1)) in
  SET_PSW_C (Z.shiftl 1 16 <=? tmp) ;;
  s <- get ;;
  SET_GPR (op s 0) tmp.

(** ** Logic and single bits *)

Definition OP_C00 : M unit := (* and *)
  s <- get ;;
  let tmp := u16 (Z.land (GPR s (op s 0)) (GPR s (op s 1))) in
  SET_GPR (op s 0) tmp.

Definition OP_6000000 : M unit := (* and3 *)
  s <- get ;;
  let tmp := u16 (Z.land (GPR s (op s 1)) (op s 2)) in
  SET_GPR (op s 0) tmp.

Definition OP_C01 : M unit := (* bclri *)
  s <- get ;;
  let tmp := s16 (Z.land (GPR s (op s 0)) (Z.lnot (Z.shiftr 0x8000 (op s 1)))) in
  SET_GPR (op s 0) tmp.

Definition OP_A01 : M unit := (* bnoti *)
  s <- get ;;
  let tmp := s16 (Z.lxor (GPR s (op s 0)) (Z.shiftr 0x8000 (op s 1))) in
  SET_GPR (op s 0) tmp.

Definition OP_801 : M unit := (* bseti *)
  s <- get ;;
  let tmp := s16 (Z.lor (GPR s (op s 0)) (Z.shiftr 0x8000 (op s 1))) in
  SET_GPR (op s 0) tmp.

Definition OP_E01 : M unit := (* btsti *)
  s <- get ;;
  SET_PSW_F1 (PSW_F0 s) ;;
  s <- get ;;
  SET_PSW_F0 (truth (Z.land (GPR s (op s 0)) (Z.shiftr 0x8000 (op s 1)))).

Definition OP_4603 : M unit := (* not *)
  s <- get ;;
  let tmp := s16 (Z.lnot (GPR s (op s 0))) in
  SET_GPR (op s 0) tmp.

Definition OP_800 : M unit := (* or *)
  s <- get ;;
  let tmp := s16 (Z.lor (GPR s (op s 0)) (GPR s (op s 1))) in
  SET_GPR (op s 0) tmp.

Definition OP_4000000 : M unit := (* or3 *)
  s <- get ;;
  let tmp := s16 (Z.lor (GPR s (op s 1)) (op s 2)) in
  SET_GPR (op s 0) tmp.

Definition OP_7000000 : M unit := (* tst0i *)
  s <- get ;;
  SET_PSW_F1 (PSW_F0 s) ;;
  s <- get ;;
  SET_PSW_F0 (truth (Z.land (GPR s (op s 0)) (op s 1))).

Definition OP_F000000 : M unit := (* tst1i *)
  s <- get ;;
  SET_PSW_F1 (PSW_F0 s) ;;
  s <- get ;;
  SET_PSW_F0 (truth (Z.land (Z.lnot (GPR s (op s 0))) (op s 1))).

Definition OP_A00 : M unit := (* xor *)
  s <- get ;;
  let tmp := s16 (Z.lxor (GPR s (op s 0)) (GPR s (op s 1))) in
  SET_GPR (op s 0) tmp.

Definition OP_5000000 : M unit := (* xor3 *)
  s <- get ;;
  let tmp := s16 (Z.lxor (GPR s (op s 1)) (op s 2)) in
  SET_GPR (op s 0) tmp.

(** ** Comparisons: F1 receives the old F0, F0 the result *)

Definition OP_600 : M unit := (* cmp *)
  s <- get ;;
  SET_PSW_F1 (PSW_F0 s) ;;
  s <- get ;;
  SET_PSW_F0 (s16 (GPR s (op s 0)) <? s16 (GPR s (op s 1))).

Definition OP_400 : M unit := (* cmpeq *)
  s <- get ;;
  SET_PSW_F1 (PSW_F0 s) ;;
  s <- get ;;
  SET_PSW_F0 (GPR s (op s 0) =? GPR s (op s 1)).

Definition OP_401 : M unit := (* cmpeqi.s *)
  s <- get ;;
  SET_PSW_F1 (PSW_F0 s) ;;
  s <- get ;;
  SET_PSW_F0 (GPR s (op s 0) =? u16 (SEXT4 (op s 1))).

Definition OP_2000000 : M unit := (* cmpeqi.l *)
  s <- get ;;
  SET_PSW_F1 (PSW_F0 s) ;;
  s <- get ;;
  SET_PSW_F0 (GPR s (op s 0) =? u16 (op s 1)).

Definition OP_601 : M unit := (* cmpi.s *)
  s <- get ;;
  SET_PSW_F1 (PSW_F0 s) ;;
  s <- get ;;
  SET_PSW_F0 (s16 (GPR s (op s 0)) <? s16 (SEXT4 (op s 1))).

Definition OP_3000000 : M unit := (* cmpi.l *)
  s <- get ;;
  SET_PSW_F1 (PSW_F0 s) ;;
  s <- get ;;
  SET_PSW_F0 (s16 (GPR s (op s 0)) <? s16 (op s 1)).

Definition OP_4600 : M unit := (* cmpu *)
  s <- get ;;
  SET_PSW_F1 (PSW_F0 s) ;;
  s <- get ;;
  SET_PSW_F0 (GPR s (op s 0) <? GPR s (op s 1)).

Definition OP_23000000 : M unit := (* cmpui *)
  s <- get ;;
  SET_PSW_F1 (PSW_F0 s) ;;
  s <- get ;;
  SET_PSW_F0 (GPR s (op s 0) <? u16 (op s 1)).

Definition OP_4E09 : M unit := (* cpfg *)
  s <- get ;;
  let val := if op s 1 =? 0 then PSW_F0 s
             else if op s 1 =? 1 then PSW_F1 s
             else PSW_C s in
  if op s 0 =? 0 then SET_PSW_F0 val else SET_PSW_F1 val.

Definition OP_2600 : M unit := (* max *)
  s <- get ;;
  SET_PSW_F1 (PSW_F0 s) ;;
  s <- get ;;
  if s16 (GPR s (op s 0)) <? s16 (GPR s (op s 1)) then
    let tmp := s16 (GPR s (op s 1)) in
    SET_PSW_F0 true ;;
    s <- get ;;
    SET_GPR (op s 0) tmp
  else
    let tmp := s16 (GPR s (op s 0)) in
    SET_PSW_F0 false ;;
    s <- get ;;
    SET_GPR (op s 0) tmp.

Definition OP_2601 : M unit := (* min *)
  s <- get ;;
  SET_PSW_F1 (PSW_F0 s) ;;
  s <- get ;;
  if s16 (GPR s (op s 1)) <? s16 (GPR s (op s 0)) then
    let tmp := s16 (GPR s (op s 1)) in
    SET_PSW_F0 true ;;
    s <- get ;;
    SET_GPR (op s 0) tmp
  else
    let tmp := s16 (GPR s (op s 0)) in
    SET_PSW_F0 false ;;
    s <- get ;;
    SET_GPR (op s 0) tmp.

Definition OP_4611 : M unit := (* setf0f *)
  s <- get ;;
  let tmp := s16 (if negb (PSW_F0 s) then 1 else 0) in
  SET_GPR (op s 0) tmp.

Definition OP_4613 : M unit := (* setf0t *)
  s <- get ;;
  let tmp := s16 (if b2z (PSW_F0 s) =? 1 then 1 else 0) in
  SET_GPR (op s 0) tmp.

(** ** Shifts *)

Definition OP_15002A00_loop : nat -> Z -> Z -> Z -> Z :=
  fix loop n tmp foo i :=
    match n with
    | O => 16
    | S n' => if truth (Z.land tmp foo) then i - 1 else loop n' tmp (Z.shiftr foo 1) (i + 1)
    end.
Definition OP_15002A00 : M unit := (* exp *)
  s <- get ;;
  let tmp := if 0 <=? s16 (GPR s (op s 1)) then u32 (gpr_pair s (op s 1))
             else u32 (Z.lnot (gpr_pair s (op s 1))) in
  SET_GPR (op s 0) (OP_15002A00_loop 16 tmp 0x40000000 1).

Definition OP_2200 : M unit := (* sll *)
  s <- get ;;
  let tmp := s16 (Z.shiftl (GPR s (op s 0)) (Z.land (GPR s (op s 1)) 0xf)) in
  SET_GPR (op s 0) tmp.

Definition OP_2201 : M unit := (* slli *)
  s <- get ;;
  let tmp := s16 (Z.shiftl (GPR s (op s 0)) (op s 1)) in
  SET_GPR (op s 0) tmp.

Definition OP_460B : M unit := (* slx *)
  s <- get ;;
  let tmp := s16 (Z.lor (Z.shiftl (GPR s (op s 0)) 1) (b2z (PSW_F0 s))) in
  SET_GPR (op s 0) tmp.

Definition OP_2400 : M unit := (* sra *)
  s <- get ;;
  let tmp := s16 (Z.shiftr (s16 (GPR s (op s 0))) (Z.land (GPR s (op s 1)) 0xf)) in
  SET_GPR (op s 0) tmp.

Definition OP_2401 : M unit := (* srai *)
  s <- get ;;
  let tmp := s16 (Z.shiftr (s16 (GPR s (op s 0))) (op s 1)) in
  SET_GPR (op s 0) tmp.

Definition OP_2000 : M unit := (* srl *)
  s <- get ;;
  let tmp := s16 (Z.shiftr (GPR s (op s 0)) (Z.land (GPR s (op s 1)) 0xf)) in
  SET_GPR (op s 0) tmp.

Definition OP_2001 : M unit := (* srli *)
  s <- get ;;
  let tmp := s16 (Z.shiftr (GPR s (op s 0)) (op s 1)) in
  SET_GPR (op s 0) tmp.

Definition OP_4609 : M unit := (* srx *)
  s <- get ;;
  let tmp := u16 (Z.shiftl (b2z (PSW_F0 s)) 15) in
  let tmp := u16 (Z.lor (Z.shiftr (GPR s (op s 0)) 1) tmp) in
  SET_GPR (op s 0) tmp.

(** ** Moves *)

Definition OP_4001 : M unit := (* ldi.s *)
  s <- get ;;
  let tmp := s16 (SEXT4 (op s 1)) in
  SET_GPR (op s 0) tmp.

Definition OP_20000000 : M unit := (* ldi.l *)
  s <- get ;;
  let tmp := s16 (op s 1) in
  SET_GPR (op s 0) tmp.

Definition OP_4000 : M unit := (* mv *)
  s <- get ;;
  let tmp := s16 (GPR s (op s 1)) in
  SET_GPR (op s 0) tmp.

Definition OP_5000 : M unit := (* mv2w *)
  s <- get ;;
  let tmp := s32 (GPR32 s (op s 1)) in
  SET_GPR32 (op s 0) tmp.

Definition OP_5400 : M unit := (* mvb *)
  s <- get ;;
  let tmp := s16 (SEXT8 (Z.land (GPR s (op s 1)) 0xff)) in
  SET_GPR (op s 0) tmp.

Definition OP_4400 : M unit := (* mvf0f *)
  s <- get ;;
  when (negb (PSW_F0 s))
    (let tmp := s16 (GPR s (op s 1)) in SET_GPR (op s 0) tmp).

Definition OP_4401 : M unit := (* mvf0t *)
  s <- get ;;
  when (PSW_F0 s)
    (let tmp := s16 (GPR s (op s 1)) in SET_GPR (op s 0) tmp).

Definition OP_5200 : M unit := (* mvfc *)
  s <- get ;;
  let tmp := s16 (CREG s (op s 1)) in
  SET_GPR (op s 0) tmp.

Definition OP_5600 : M unit := (* mvtc *)
  s <- get ;;
  let tmp := s16 (GPR s (op s 0)) in
  SET_CREG (op s 1) tmp ;; skip.

Definition OP_5401 : M unit := (* mvub *)
  s <- get ;;
  let tmp := s16 (Z.land (GPR s (op s 1)) 0xff) in
  SET_GPR (op s 0) tmp.
