(* ===== verification/SimopsAcc.v ===== *)
(** * Instructions on the 40-bit accumulators

    The functions of sim/d10v/simops.c that read or write [State.a]: multiply and
    accumulate, accumulator arithmetic, shifts, comparisons and moves, and the
    three-operand and rounding instructions that write a register pair. *)
From S2P Require Import Prelude CInt Opcodes State Memory Cregs SimopsAlu.

(** [SEXT16 (GPR (n)) << 16 | GPR (n + 1)], an [int] *)
Definition sext_pair (s : state) (n : Z) : Z :=
  Z.lor (Z.shiftl (SEXT16 (GPR s n)) 16) (GPR s (n + 1)).

(** The saturation that ends every accumulator instruction:
    [if (PSW_ST) { if (tmp > MAX32) ... else if (tmp < MIN32) ... else ... } else ...]. *)
Definition saturate (st : bool) (tmp : Z) : Z :=
  if st then
    if MAX32 <? tmp then MAX32
    else if tmp <? MIN32 then MIN32
    else Z.land tmp MASK40
  else Z.land tmp MASK40.

(** The saturation of the [...3s] instructions, which records it in F0. *)
Definition saturate_F0 (tmp : Z) : M Z :=
  if MAX32 <? tmp then SET_PSW_F0 true ;; ret 0x7fffffff
  else if tmp <? MIN32 then SET_PSW_F0 true ;; ret 0x80000000
  else SET_PSW_F0 false ;; ret tmp.

(** [SET_GPR] of the two halves of a result, as the [addac3] functions write it. *)
Definition set_pair (tmp : Z) : M unit :=
  s <- get ;;
  SET_GPR (op s 0 + 0) (Z.land (Z.shiftr tmp 16) 0xffff) ;;
  s <- get ;;
  SET_GPR (op s 0 + 1) (Z.land tmp 0xffff).

(** ** Arithmetic *)

Definition OP_5607 : M unit := (* abs *)
  s <- get ;;
  SET_PSW_F1 (PSW_F0 s) ;;
  s <- get ;;
  let tmp := SEXT40 (ACC s (op s 0)) in
  if tmp <? 0 then
    let tmp := - tmp in
    let tmp := saturate (PSW_ST s) tmp in
    SET_PSW_F0 true ;;
    s <- get ;;
    SET_ACC (op s 0) tmp
  else
    let tmp := Z.land tmp MASK40 in
    SET_PSW_F0 false ;;
    s <- get ;;
    SET_ACC (op s 0) tmp.

Definition OP_1201 : M unit := (* add *)
  s <- get ;;
  let tmp := SEXT40 (ACC s (op s 0)) + sext_pair s (op s 1) in
  let tmp := saturate (PSW_ST s) tmp in
  SET_ACC (op s 0) tmp.

Definition OP_1203 : M unit := (* add *)
  s <- get ;;
  let tmp := SEXT40 (ACC s (op s 0)) + SEXT40 (ACC s (op s 1)) in
  let tmp := saturate (PSW_ST s) tmp in
  SET_ACC (op s 0) tmp.

Definition OP_17000200 : M unit := (* addac3 *)
  s <- get ;;
  let tmp := SEXT40 (ACC s (op s 2)) + SEXT40 (gpr_pair s (op s 1)) in
  set_pair tmp.

Definition OP_17000202 : M unit := (* addac3 *)
  s <- get ;;
  let tmp := SEXT40 (ACC s (op s 1)) + SEXT40 (ACC s (op s 2)) in
  set_pair tmp.

Definition OP_17001200 : M unit := (* addac3s *)
  s <- get ;;
  SET_PSW_F1 (PSW_F0 s) ;;
  s <- get ;;
  let tmp := SEXT40 (ACC s (op s 2)) + SEXT40 (gpr_pair s (op s 1)) in
  tmp <- saturate_F0 tmp ;;
  set_pair tmp.

Definition OP_17001202 : M unit := (* addac3s *)
  s <- get ;;
  SET_PSW_F1 (PSW_F0 s) ;;
  s <- get ;;
  let tmp := SEXT40 (ACC s (op s 1)) + SEXT40 (ACC s (op s 2)) in
  tmp <- saturate_F0 tmp ;;
  set_pair tmp.

Definition OP_5605 : M unit := (* neg *)
  s <- get ;;
  let tmp := - SEXT40 (ACC s (op s 0)) in
  let tmp := saturate (PSW_ST s) tmp in
  SET_ACC (op s 0) tmp.

Definition OP_1223 : M unit := (* sadd *)
  s <- get ;;
  let tmp := SEXT40 (ACC s (op s 0)) + Z.shiftr (SEXT40 (ACC s (op s 1))) 16 in
  let tmp := saturate (PSW_ST s) tmp in
  SET_ACC (op s 0) tmp.

Definition OP_1001 : M unit := (* sub *)
  s <- get ;;
  let tmp := SEXT40 (ACC s (op s 0)) - sext_pair s (op s 1) in
  let tmp := saturate (PSW_ST s) tmp in
  SET_ACC (op s 0) tmp.

Definition OP_1003 : M unit := (* sub *)
  s <- get ;;
  let tmp := SEXT40 (ACC s (op s 0)) - SEXT40 (ACC s (op s 1)) in
  let tmp := saturate (PSW_ST s) tmp in
  SET_ACC (op s 0) tmp.

Definition OP_17000000 : M unit := (* subac3 *)
  s <- get ;;
  let tmp := SEXT40 (gpr_pair s (op s 1)) - SEXT40 (ACC s (op s 2)) in
  SET_GPR32 (op s 0) tmp.

Definition OP_17000002 : M unit := (* subac3 *)
  s <- get ;;
  let tmp := SEXT40 (ACC s (op s 1)) - SEXT40 (ACC s (op s 2)) in
  SET_GPR32 (op s 0) tmp.

Definition OP_17001000 : M unit := (* subac3s *)
  s <- get ;;
  SET_PSW_F1 (PSW_F0 s) ;;
  s <- get ;;
  let tmp := SEXT40 (gpr_pair s (op s 1)) - SEXT40 (ACC s (op s 2)) in
  tmp <- saturate_F0 tmp ;;
  s <- get ;;
  SET_GPR32 (op s 0) tmp.

Definition OP_17001002 : M unit := (* subac3s *)
  s <- get ;;
  SET_PSW_F1 (PSW_F0 s) ;;
  s <- get ;;
  let tmp := SEXT40 (ACC s (op s 1)) - SEXT40 (ACC s (op s 2)) in
  tmp <- saturate_F0 tmp ;;
  s <- get ;;
  SET_GPR32 (op s 0) tmp.

(** ** Multiply and accumulate *)

(** [(tmp << 1) & MASK40], sign extended, when FX is set *)
Definition fx_shift (fx : bool) (tmp : Z) : Z :=
  if fx then SEXT40 (Z.land (s64 (Z.shiftl tmp 1)) MASK40) else tmp.

Definition OP_2A00 : M unit := (* mac *)
  s <- get ;;
  let tmp := SEXT40 (s32 (s16 (GPR s (op s 1)) * s16 (GPR s (op s 2)))) in
  let tmp := fx_shift (PSW_FX s) tmp in
  let tmp := if PSW_ST s && (MAX32 <? tmp) then MAX32 else tmp in
  let tmp := tmp + SEXT40 (ACC s (op s 0)) in
  let tmp := saturate (PSW_ST s) tmp in
  SET_ACC (op s 0) tmp.

Definition OP_1A00 : M unit := (* macsu *)
  s <- get ;;
  let tmp := SEXT40 (s32 (s16 (GPR s (op s 1)) * GPR s (op s 2))) in
  let tmp := fx_shift (PSW_FX s) tmp in
  let tmp := Z.land (SEXT40 (ACC s (op s 0)) + tmp) MASK40 in
  SET_ACC (op s 0) tmp.

Definition OP_3A00 : M unit := (* macu *)
  s <- get ;;
  let src1 := u16 (GPR s (op s 1)) in
  let src2 := u16 (GPR s (op s 2)) in
  let tmp := u32 (src1 * src2) in
  let tmp := if PSW_FX s then u64 (Z.shiftl tmp 1) else tmp in
  let tmp := Z.land (u64 (ACC s (op s 0) + tmp)) MASK40 in
  SET_ACC (op s 0) tmp.

Definition OP_2800 : M unit := (* msb *)
  s <- get ;;
  let tmp := SEXT40 (s32 (s16 (GPR s (op s 1)) * s16 (GPR s (op s 2)))) in
  let tmp := fx_shift (PSW_FX s) tmp in
  let tmp := if PSW_ST s && (MAX32 <? tmp) then MAX32 else tmp in
  let tmp := SEXT40 (ACC s (op s 0)) - tmp in
  let tmp := saturate (PSW_ST s) tmp in
  SET_ACC (op s 0) tmp.

Definition OP_1800 : M unit := (* msbsu *)
  s <- get ;;
  let tmp := SEXT40 (s32 (s16 (GPR s (op s 1)) * GPR s (op s 2))) in
  let tmp := fx_shift (PSW_FX s) tmp in
  let tmp := Z.land (SEXT40 (ACC s (op s 0)) - tmp) MASK40 in
  SET_ACC (op s 0) tmp.

Definition OP_3800 : M unit := (* msbu *)
  s <- get ;;
  let src1 := u16 (GPR s (op s 1)) in
  let src2 := u16 (GPR s (op s 2)) in
  let tmp := u32 (src1 * src2) in
  let tmp := if PSW_FX s then u64 (Z.shiftl tmp 1) else tmp in
  let tmp := Z.land (u64 (ACC s (op s 0) - tmp)) MASK40 in
  SET_ACC (op s 0) tmp.

Definition OP_2C00 : M unit := (* mulx *)
  s <- get ;;
  let tmp := SEXT40 (s32 (s16 (GPR s (op s 1)) * s16 (GPR s (op s 2)))) in
  let tmp := fx_shift (PSW_FX s) tmp in
  let tmp := if PSW_ST s && (MAX32 <? tmp) then MAX32 else Z.land tmp MASK40 in
  SET_ACC (op s 0) tmp.

Definition OP_1C00 : M unit := (* mulxsu *)
  s <- get ;;
  let tmp := SEXT40 (s32 (s16 (GPR s (op s 1)) * GPR s (op s 2))) in
  let tmp := if PSW_FX s then s64 (Z.shiftl tmp 1) else tmp in
  let tmp := Z.land tmp MASK40 in
  SET_ACC (op s 0) tmp.

Definition OP_3C00 : M unit := (* mulxu *)
  s <- get ;;
  let src1 := u16 (GPR s (op s 1)) in
  let src2 := u16 (GPR s (op s 2)) in
  let tmp := u32 (src1 * src2) in
  let tmp := if PSW_FX s then u64 (Z.shiftl tmp 1) else tmp in
  let tmp := Z.land tmp MASK40 in
  SET_ACC (op s 0) tmp.

(** ** Comparisons *)

Definition OP_1603 : M unit := (* cmp *)
  s <- get ;;
  SET_PSW_F1 (PSW_F0 s) ;;
  s <- get ;;
  SET_PSW_F0 (SEXT40 (ACC s (op s 0)) <? SEXT40 (ACC s (op s 1))).

Definition OP_1403 : M unit := (* cmpeq *)
  s <- get ;;
  SET_PSW_F1 (PSW_F0 s) ;;
  s <- get ;;
  SET_PSW_F0 (Z.land (ACC s (op s 0)) MASK40 =? Z.land (ACC s (op s 1)) MASK40).

Definition OP_3600 : M unit := (* max *)
  s <- get ;;
  SET_PSW_F1 (PSW_F0 s) ;;
  s <- get ;;
  let tmp := sext_pair s (op s 1) in
  if SEXT40 (ACC s (op s 0)) <? tmp then
    let tmp := Z.land tmp MASK40 in
    SET_PSW_F0 true ;;
    s <- get ;;
    SET_ACC (op s 0) tmp
  else
    let tmp := ACC s (op s 0) in
    SET_PSW_F0 false ;;
    s <- get ;;
    SET_ACC (op s 0) tmp.

Definition OP_3602 : M unit := (* max *)
  s <- get ;;
  SET_PSW_F1 (PSW_F0 s) ;;
  s <- get ;;
  if SEXT40 (ACC s (op s 0)) <? SEXT40 (ACC s (op s 1)) then
    let tmp := ACC s (op s 1) in
    SET_PSW_F0 true ;;
    s <- get ;;
    SET_ACC (op s 0) tmp
  else
    let tmp := ACC s (op s 0) in
    SET_PSW_F0 false ;;
    s <- get ;;
    SET_ACC (op s 0) tmp.

Definition OP_3601 : M unit := (* min *)
  s <- get ;;
  SET_PSW_F1 (PSW_F0 s) ;;
  s <- get ;;
  let tmp := sext_pair s (op s 1) in
  if tmp <? SEXT40 (ACC s (op s 0)) then
    let tmp := Z.land tmp MASK40 in
    SET_PSW_F0 true ;;
    s <- get ;;
    SET_ACC (op s 0) tmp
  else
    let tmp := ACC s (op s 0) in
    SET_PSW_F0 false ;;
    s <- get ;;
    SET_ACC (op s 0) tmp.

Definition OP_3603 : M unit := (* min *)
  s <- get ;;
  SET_PSW_F1 (PSW_F0 s) ;;
  s <- get ;;
  if SEXT40 (ACC s (op s 1)) <? SEXT40 (ACC s (op s 0)) then
    let tmp := ACC s (op s 1) in
    SET_PSW_F0 true ;;
    s <- get ;;
    SET_ACC (op s 0) tmp
  else
    let tmp := ACC s (op s 0) in
    SET_PSW_F0 false ;;
    s <- get ;;
    SET_ACC (op s 0) tmp.

(** ** Shifts and rounding *)

Definition OP_15002A02_loop : nat -> Z -> Z -> Z -> Z :=
  fix loop n tmp foo i :=
    match n with
    | O => 16
    | S n' => if truth (Z.land tmp foo) then i - 9 else loop n' tmp (Z.shiftr foo 1) (i + 1)
    end.
Definition OP_15002A02 : M unit := (* exp *)
  s <- get ;;
  let tmp := SEXT40 (ACC s (op s 1)) in
  let tmp := if tmp <? 0 then Z.land (Z.lnot tmp) MASK40 else tmp in
  SET_GPR (op s 0) (OP_15002A02_loop 24 tmp 0x4000000000 1).

Definition OP_5201 : M unit := (* rac *)
  s <- get ;;
  let shift := SEXT3 (op s 2) in
  when (negb (op s 1 =? 0))
    (printf_filtered "ERROR at PC 0x%x: instruction only valid for A0\n" [Z.shiftl (PC s) 2] ;;
     modify (set_exception SIGILL)) ;;
  s <- get ;;
  SET_PSW_F1 (PSW_F0 s) ;;
  s <- get ;;
  let tmp := SEXT56 (Z.lor (s64 (Z.shiftl (ACC s 0) 16)) (Z.land (ACC s 1) 0xffff)) in
  let tmp := if 0 <=? shift then s64 (Z.shiftl tmp shift) else Z.shiftr tmp (- shift) in
  let tmp := tmp + 0x8000 in
  let tmp := Z.shiftr tmp 16 in
  if SEXT44 0x0007fffffff <? tmp then
    SET_PSW_F0 true ;; s <- get ;; SET_GPR32 (op s 0) 0x7fffffff
  else if tmp <? SEXT44 0xfff80000000 then
    SET_PSW_F0 true ;; s <- get ;; SET_GPR32 (op s 0) 0x80000000
  else
    SET_PSW_F0 false ;; s <- get ;; SET_GPR32 (op s 0) tmp.

Definition OP_4201 : M unit := (* rachi *)
  s <- get ;;
  let shift := SEXT3 (op s 2) in
  SET_PSW_F1 (PSW_F0 s) ;;
  s <- get ;;
  let tmp := if 0 <=? shift then s64 (Z.shiftl (SEXT40 (ACC s (op s 1))) shift)
             else Z.shiftr (SEXT40 (ACC s (op s 1))) (- shift) in
  let tmp := tmp + 0x8000 in
  if SEXT44 0x0007fffffff <? tmp then
    SET_PSW_F0 true ;; s <- get ;; SET_GPR (op s 0) 0x7fff
  else if tmp <? SEXT44 0xfff80000000 then
    SET_PSW_F0 true ;; s <- get ;; SET_GPR (op s 0) 0x8000
  else
    let tmp := Z.shiftr tmp 16 in
    SET_PSW_F0 false ;; s <- get ;; SET_GPR (op s 0) tmp.

(** The saturation of the accumulator left shifts, which compares against its
    own constant. *)
Definition saturate_shl (st : bool) (tmp : Z) : Z :=
  if st then
    if MAX32 <? tmp then MAX32
    else if tmp <? 0xffffff80000000 then MIN32
    else Z.land tmp MASK40
  else Z.land tmp MASK40.

(** The error exit of the accumulator shifts by a register. *)
Definition shift_too_large (s : state) : M unit :=
  printf_filtered "ERROR: shift value %d too large.\n" [Z.land (GPR s (op s 1)) 31] ;;
  modify (set_exception SIGILL).

Definition OP_3200 : M unit := (* sll *)
  s <- get ;;
  if Z.land (GPR s (op s 1)) 31 <=? 16 then
    let tmp := s64 (Z.shiftl (SEXT40 (ACC s (op s 0))) (Z.land (GPR s (op s 1)) 31)) in
    let tmp := saturate_shl (PSW_ST s) tmp in
    SET_ACC (op s 0) tmp
  else shift_too_large s.

Definition OP_3201 : M unit := (* slli *)
  s <- get ;;
  when (op s 1 =? 0) (set_op 1 16) ;;
  s <- get ;;
  let tmp := s64 (Z.shiftl (SEXT40 (ACC s (op s 0))) (op s 1)) in
  let tmp := saturate_shl (PSW_ST s) tmp in
  SET_ACC (op s 0) tmp.

Definition OP_3400 : M unit := (* sra *)
  s <- get ;;
  if Z.land (GPR s (op s 1)) 31 <=? 16 then
    let tmp := Z.land (Z.shiftr (SEXT40 (ACC s (op s 0))) (Z.land (GPR s (op s 1)) 31)) MASK40 in
    SET_ACC (op s 0) tmp
  else shift_too_large s.

Definition OP_3401 : M unit := (* srai *)
  s <- get ;;
  when (op s 1 =? 0) (set_op 1 16) ;;
  s <- get ;;
  let tmp := Z.land (Z.shiftr (SEXT40 (ACC s (op s 0))) (op s 1)) MASK40 in
  SET_ACC (op s 0) tmp.

Definition OP_3000 : M unit := (* srl *)
  s <- get ;;
  if Z.land (GPR s (op s 1)) 31 <=? 16 then
    let tmp := Z.shiftr (Z.land (ACC s (op s 0)) MASK40) (Z.land (GPR s (op s 1)) 31) in
    SET_ACC (op s 0) tmp
  else shift_too_large s.

Definition OP_3001 : M unit := (* srli *)
  s <- get ;;
  when (op s 1 =? 0) (set_op 1 16) ;;
  s <- get ;;
  let tmp := Z.shiftr (Z.land (ACC s (op s 0)) MASK40) (op s 1) in
  SET_ACC (op s 0) tmp.

(** ** Moves *)

Definition OP_5601 : M unit := (* clrac *)
  s <- get ;;
  SET_ACC (op s 0) 0.

Definition OP_3E00 : M unit := (* mv2wfac *)
  s <- get ;;
  let tmp := s32 (ACC s (op s 1)) in
  SET_GPR32 (op s 0) tmp.

Definition OP_3E01 : M unit := (* mv2wtac *)
  s <- get ;;
  let tmp := Z.land (sext_pair s (op s 0)) MASK40 in
  SET_ACC (op s 1) tmp.

Definition OP_3E03 : M unit := (* mvac *)
  s <- get ;;
  let tmp := ACC s (op s 1) in
  SET_ACC (op s 0) tmp.

Definition OP_1E04 : M unit := (* mvfacg *)
  s <- get ;;
  let tmp := s16 (Z.land (Z.shiftr (ACC s (op s 1)) 32) 0xff) in
  SET_GPR (op s 0) tmp.

Definition OP_1E00 : M unit := (* mvfachi *)
  s <- get ;;
  let tmp := s16 (Z.shiftr (ACC s (op s 1)) 16) in
  SET_GPR (op s 0) tmp.

Definition OP_1E02 : M unit := (* mvfaclo *)
  s <- get ;;
  let tmp := s16 (ACC s (op s 1)) in
  SET_GPR (op s 0) tmp.

Definition OP_1E41 : M unit := (* mvtacg *)
  s <- get ;;
  let tmp := Z.lor (Z.land (ACC s (op s 1)) MASK32)
                   (Z.shiftl (Z.land (GPR s (op s 0)) 0xff) 32) in
  SET_ACC (op s 1) tmp.

Definition OP_1E01 : M unit := (* mvtachi *)
  s <- get ;;
  let tmp := u64 (Z.land (ACC s (op s 1)) 0xffff) in
  let tmp := Z.land (u64 (Z.lor (Z.shiftl (SEXT16 (GPR s (op s 0))) 16) tmp)) MASK40 in
  SET_ACC (op s 1) tmp.

Definition OP_1E21 : M unit := (* mvtaclo *)
  s <- get ;;
  let tmp := Z.land (SEXT16 (GPR s (op s 0))) MASK40 in
  SET_ACC (op s 1) tmp.
