(* ===== verification/SimopsFlow.v ===== *)
(** * Control flow and processor control

    The functions of sim/d10v/simops.c for branches, jumps, conditional
    execution, hardware loops, returns from exceptions, the debug break and the
    processor-state instructions. *)
From S2P Require Import Prelude CInt Opcodes State Memory Cregs.

Definition RIE_VECTOR_START : Z := 0xffc2.
Definition AE_VECTOR_START : Z := 0xffc3.
Definition TRAP_VECTOR_START : Z := 0xffc4.
Definition DBT_VECTOR_START : Z := 0xffd4.
Definition SDBT_VECTOR_START : Z := 0xffd5.

(** ** Branches and jumps *)

Definition OP_4900 : M unit := (* bl.s *)
  s <- get ;;
  SET_GPR 13 (PC s + 1) ;;
  s <- get ;;
  JMP (PC s + SEXT8 (op s 0)).

Definition OP_24800000 : M unit := (* bl.l *)
  s <- get ;;
  SET_GPR 13 (PC s + 1) ;;
  s <- get ;;
  JMP (PC s + op s 0).

Definition OP_4800 : M unit := (* bra.s *)
  s <- get ;;
  JMP (PC s + SEXT8 (op s 0)).

Definition OP_24000000 : M unit := (* bra.l *)
  s <- get ;;
  JMP (PC s + op s 0).

Definition OP_4A00 : M unit := (* brf0f.s *)
  s <- get ;;
  when (negb (PSW_F0 s)) (JMP (PC s + SEXT8 (op s 0))).

Definition OP_25000000 : M unit := (* brf0f.l *)
  s <- get ;;
  when (negb (PSW_F0 s)) (JMP (PC s + op s 0)).

Definition OP_4B00 : M unit := (* brf0t.s *)
  s <- get ;;
  when (PSW_F0 s) (JMP (PC s + SEXT8 (op s 0))).

Definition OP_25800000 : M unit := (* brf0t.l *)
  s <- get ;;
  when (PSW_F0 s) (JMP (PC s + op s 0)).

Definition OP_4D00 : M unit := (* jl *)
  s <- get ;;
  SET_GPR 13 (PC s + 1) ;;
  s <- get ;;
  JMP (GPR s (op s 0)).

Definition OP_4C00 : M unit := (* jmp *)
  s <- get ;;
  JMP (GPR s (op s 0)).

(** ** Conditional execution: EXExxx decides whether the other instruction of the
    pair runs *)

Definition set_exe_if (c : bool) : M unit := modify (set_exe (b2z c)).

Definition OP_4E04 : M unit := (* exef0f *)
  s <- get ;; set_exe_if (negb (PSW_F0 s)).
Definition OP_4E24 : M unit := (* exef0t *)
  s <- get ;; set_exe_if (PSW_F0 s).
Definition OP_4E40 : M unit := (* exef1f *)
  s <- get ;; set_exe_if (negb (PSW_F1 s)).
Definition OP_4E42 : M unit := (* exef1t *)
  s <- get ;; set_exe_if (PSW_F1 s).
Definition OP_4E00 : M unit := (* exefaf *)
  s <- get ;; set_exe_if (negb (PSW_F0 s) && negb (PSW_F1 s)).
Definition OP_4E02 : M unit := (* exefat *)
  s <- get ;; set_exe_if (negb (PSW_F0 s) && PSW_F1 s).
Definition OP_4E20 : M unit := (* exetaf *)
  s <- get ;; set_exe_if (PSW_F0 s && negb (PSW_F1 s)).
Definition OP_4E22 : M unit := (* exetat *)
  s <- get ;; set_exe_if (PSW_F0 s && PSW_F1 s).

(** ** Hardware loops *)

Definition rep_errors (name : string) (n len : Z) : M unit :=
  when (n =? 0)
    (printf_filtered ("ERROR: " +:+ name +:+ " with count=0 is illegal.\n") [] ;;
     modify (set_exception SIGILL)) ;;
  when (len <? 4)
    (printf_filtered ("ERROR: " +:+ name +:+ " must include at least 4 instructions.\n") [] ;;
     modify (set_exception SIGILL)).

Definition OP_27000000 : M unit := (* rep *)
  s <- get ;;
  SET_RPT_S (PC s + 1) ;;
  s <- get ;;
  SET_RPT_E (PC s + op s 1) ;;
  s <- get ;;
  SET_RPT_C (GPR s (op s 0)) ;;
  SET_PSW_RP true ;;
  s <- get ;;
  rep_errors "rep" (GPR s (op s 0)) (op s 1).

Definition OP_2F000000 : M unit := (* repi *)
  s <- get ;;
  SET_RPT_S (PC s + 1) ;;
  s <- get ;;
  SET_RPT_E (PC s + op s 1) ;;
  s <- get ;;
  SET_RPT_C (op s 0) ;;
  SET_PSW_RP true ;;
  s <- get ;;
  rep_errors "repi" (op s 0) (op s 1).

(** ** Exceptions and processor state *)

Definition OP_5F20 : M unit := (* dbt *)
  s <- get ;;
  if bool_decide (ins_type s = INS_LEFT) || bool_decide (ins_type s = INS_RIGHT) then
    SET_DPC (PC s + 1) ;;
    s <- get ;;
    SET_DPSW (PSW s) ;;
    s <- get ;;
    SET_PSW (Z.lor PSW_DM_BIT
               (Z.land (PSW s) (Z.lor (Z.lor PSW_F0_BIT PSW_F1_BIT) PSW_C_BIT))) ;;
    JMP DBT_VECTOR_START
  else modify (set_exception SIGTRAP).

Definition OP_5F60 : M unit := (* rtd *)
  s <- get ;;
  SET_CREG PSW_CR (DPSW s) ;;
  s <- get ;;
  JMP (DPC s).

Definition OP_5F40 : M unit := (* rte *)
  s <- get ;;
  SET_CREG PSW_CR (BPSW s) ;;
  s <- get ;;
  JMP (BPC s).

Definition OP_5FC0 : M unit := (* sleep *)
  SET_PSW_IE true.

Definition OP_5FE0 : M unit := (* stop *)
  modify (set_exception SIG_D10V_STOP).

Definition OP_5F80 : M unit := (* wait *)
  SET_PSW_IE true.

Definition OP_5E00 : M unit := (* nop *)
  s <- get ;;
  count (ins_type s) (-1) ;;
  match ins_type s with
  | INS_LEFT_PARALLEL =>
      count INS_RIGHT_PARALLEL (-1) ;; count INS_RIGHT 1 ;; count INS_LEFT_NOPS 1
  | INS_LEFT | INS_LEFT_COND_EXE => count INS_LEFT_NOPS 1
  | INS_RIGHT_PARALLEL =>
      count INS_LEFT_PARALLEL (-1) ;; count INS_LEFT 1 ;; count INS_RIGHT_NOPS 1
  | INS_RIGHT | INS_RIGHT_COND_EXE => count INS_RIGHT_NOPS 1
  | _ => count INS_UNKNOWN 1
  end.

(** [default:] of the switch of [OP_5F00]: a trap other than 15. *)
Definition trap_vector : M unit :=
  s <- get ;;
  let vec := u16 (op s 0 + TRAP_VECTOR_START) in
  SET_BPC (PC s + 1) ;;
  s <- get ;;
  SET_BPSW (PSW s) ;;
  s <- get ;;
  SET_PSW (Z.land (PSW s) PSW_SM_BIT) ;;
  JMP vec.
