(* ===== verification/SimopsMem.v ===== *)
(** * Loads and stores

    The functions of sim/d10v/simops.c that access the data space.  Register
    writes are scheduled in the writeback slots, memory writes take effect at
    once. *)
From S2P Require Import Prelude CInt Opcodes State Memory Cregs.

Section WithHost.
Context `{Host}.

(** ** Loads *)

Definition OP_30000000 : M unit := (* ld *)
  s <- get ;;
  tmp <- RW (u32 (op s 1 + GPR s (op s 2))) ;;
  s <- get ;;
  SET_GPR (op s 0) tmp.

Definition OP_6401 : M unit := (* ld *)
  s <- get ;;
  tmp <- RW (GPR s (op s 1)) ;;
  s <- get ;;
  SET_GPR (op s 0) tmp ;;
  s <- get ;;
  INC_ADDR (op s 1) (-2).

Definition OP_6001 : M unit := (* ld *)
  s <- get ;;
  tmp <- RW (GPR s (op s 1)) ;;
  s <- get ;;
  SET_GPR (op s 0) tmp ;;
  s <- get ;;
  INC_ADDR (op s 1) 2.

Definition OP_6000 : M unit := (* ld *)
  s <- get ;;
  tmp <- RW (GPR s (op s 1)) ;;
  s <- get ;;
  SET_GPR (op s 0) tmp.

Definition OP_31000000 : M unit := (* ld2w *)
  s <- get ;;
  let addr := u16 (GPR s (op s 2)) in
  tmp <- RLW (u32 (op s 1 + addr)) ;;
  s <- get ;;
  SET_GPR32 (op s 0) (s32 tmp).

Definition OP_6601 : M unit := (* ld2w *)
  s <- get ;;
  let addr := u16 (GPR s (op s 1)) in
  tmp <- RLW addr ;;
  s <- get ;;
  SET_GPR32 (op s 0) (s32 tmp) ;;
  s <- get ;;
  INC_ADDR (op s 1) (-4).

Definition OP_6201 : M unit := (* ld2w *)
  s <- get ;;
  let addr := u16 (GPR s (op s 1)) in
  tmp <- RLW addr ;;
  s <- get ;;
  SET_GPR32 (op s 0) (s32 tmp) ;;
  s <- get ;;
  INC_ADDR (op s 1) 4.

Definition OP_6200 : M unit := (* ld2w *)
  s <- get ;;
  let addr := u16 (GPR s (op s 1)) in
  tmp <- RLW (addr + 0) ;;
  s <- get ;;
  SET_GPR32 (op s 0) (s32 tmp).

Definition OP_38000000 : M unit := (* ldb *)
  s <- get ;;
  b <- RB (u32 (op s 1 + GPR s (op s 2))) ;;
  let tmp := s16 (SEXT8 b) in
  s <- get ;;
  SET_GPR (op s 0) tmp.

Definition OP_7000 : M unit := (* ldb *)
  s <- get ;;
  b <- RB (GPR s (op s 1)) ;;
  let tmp := s16 (SEXT8 b) in
  s <- get ;;
  SET_GPR (op s 0) tmp.

Definition OP_39000000 : M unit := (* ldub *)
  s <- get ;;
  b <- RB (u32 (op s 1 + GPR s (op s 2))) ;;
  let tmp := s16 b in
  s <- get ;;
  SET_GPR (op s 0) tmp.

Definition OP_7200 : M unit := (* ldub *)
  s <- get ;;
  b <- RB (GPR s (op s 1)) ;;
  let tmp := s16 b in
  s <- get ;;
  SET_GPR (op s 0) tmp.

(** ** Stores *)

Definition OP_34000000 : M unit := (* st *)
  s <- get ;;
  SW (u32 (op s 1 + GPR s (op s 2))) (GPR s (op s 0)).

Definition OP_6800 : M unit := (* st *)
  s <- get ;;
  SW (GPR s (op s 1)) (GPR s (op s 0)).

(** The error exits of the pre- and post-decrement stores. *)
Definition sp_error (fmt : string) : M unit :=
  printf_filtered fmt [] ;; modify (set_exception SIGILL).
Definition predec_error : M unit :=
  sp_error "ERROR: cannot pre-decrement any registers but r15 (SP).\n".
Definition postdec_error : M unit :=
  sp_error "ERROR: cannot post-decrement register r15 (SP).\n".

Definition OP_6C1F : M unit := (* st *)
  s <- get ;;
  let addr := u16 (GPR s (op s 1) - 2) in
  if negb (op s 1 =? 15) then predec_error
  else
    SW addr (GPR s (op s 0)) ;;
    s <- get ;;
    SET_GPR (op s 1) addr.

Definition OP_6801 : M unit := (* st *)
  s <- get ;;
  SW (GPR s (op s 1)) (GPR s (op s 0)) ;;
  s <- get ;;
  INC_ADDR (op s 1) 2.

Definition OP_6C01 : M unit := (* st *)
  s <- get ;;
  if op s 1 =? 15 then postdec_error
  else
    SW (GPR s (op s 1)) (GPR s (op s 0)) ;;
    s <- get ;;
    INC_ADDR (op s 1) (-2).

Definition OP_35000000 : M unit := (* st2w *)
  s <- get ;;
  SW (u32 (GPR s (op s 2) + op s 1 + 0)) (GPR s (op s 0 + 0)) ;;
  s <- get ;;
  SW (u32 (GPR s (op s 2) + op s 1 + 2)) (GPR s (op s 0 + 1)).

(** The two stores of the [st2w] forms that address by a register. *)
Definition st2w_at (addr : state -> Z) : M unit :=
  s <- get ;;
  SW (addr s + 0) (GPR s (op s 0 + 0)) ;;
  s <- get ;;
  SW (addr s + 2) (GPR s (op s 0 + 1)).

Definition OP_6A00 : M unit := (* st2w *)
  st2w_at (fun s => GPR s (op s 1)).

Definition OP_6E1F : M unit := (* st2w *)
  s <- get ;;
  let addr := u16 (GPR s (op s 1) - 4) in
  if negb (op s 1 =? 15) then predec_error
  else
    st2w_at (fun _ => addr) ;;
    s <- get ;;
    SET_GPR (op s 1) addr.

Definition OP_6A01 : M unit := (* st2w *)
  st2w_at (fun s => GPR s (op s 1)) ;;
  s <- get ;;
  INC_ADDR (op s 1) 4.

Definition OP_6E01 : M unit := (* st2w *)
  s <- get ;;
  if op s 1 =? 15 then postdec_error
  else
    st2w_at (fun s => GPR s (op s 1)) ;;
    s <- get ;;
    INC_ADDR (op s 1) (-4).

Definition OP_3C000000 : M unit := (* stb *)
  s <- get ;;
  SB (u32 (GPR s (op s 2) + op s 1)) (GPR s (op s 0)).

Definition OP_7800 : M unit := (* stb *)
  s <- get ;;
  SB (GPR s (op s 1)) (GPR s (op s 0)).

End WithHost.
