(* ===== verification/SimopsTrap.v ===== *)
(** * The trap instruction and the simulated system calls

    [OP_5F00] of sim/d10v/simops.c.  Trap 15 is a system call of the simulated
    program, made on the host; its numbers are those of
    newlib/libc/sys/d10v/sys/syscall.h.  What the host does is a parameter (the
    class [Host] of State.v), what the simulator passes to it and does with the
    answer is modelled. *)
From S2P Require Import Prelude CInt Opcodes State Memory Cregs SimopsFlow.

Definition SYS_exit : Z := 1.
Definition SYS_fork : Z := 2.
Definition SYS_read : Z := 3.
Definition SYS_write : Z := 4.
Definition SYS_open : Z := 5.
Definition SYS_close : Z := 6.
Definition SYS_execv : Z := 11.
Definition SYS_chmod : Z := 15.
Definition SYS_chown : Z := 16.
Definition SYS_lseek : Z := 19.
Definition SYS_getpid : Z := 20.
Definition SYS_stat : Z := 38.
Definition SYS_pipe : Z := 42.
Definition SYS_execve : Z := 59.
Definition SYS_kill : Z := 60.

(** [#define getpid() 47] *)
Definition getpid : Z := 47.

(** The host signal for a signal number of the simulated program, -1 for none;
    the host, i386 Linux, has neither SIGEMT nor SIGLOST. *)
Definition os_signal (n : Z) : Z :=
  if (n <? 0) || (31 <? n) then -1
  else znth [-1; 1; 2; 3; 4; 5; 6; -1; 8; 9; 7; 11; 31; 13; 14; 15; 23; 19; 20; 18;
             17; 21; 22; 29; 24; 25; 26; 27; 28; -1; 10; 12] n.

Section WithHost.
Context `{Host}.

Definition FUNC (s : state) : Z := GPR s 4.
Definition PARM1 (s : state) : Z := GPR s 0.
Definition PARM2 (s : state) : Z := GPR s 1.
Definition PARM3 (s : state) : Z := GPR s 2.
Definition PARM4 (s : state) : Z := GPR s 3.

(** [RETVAL] and [RETVAL32] set [result], which the functions below return. *)
Definition RETVAL (x : Z) : M Z := let result := u32 x in SET_GPR 0 result ;; ret result.
Definition RETVAL32 (x : Z) : M Z :=
  let result := u32 x in
  SET_GPR 0 (Z.shiftr result 16) ;; SET_GPR 1 result ;; ret result.
Definition RETERR (x : Z) : M unit := SET_GPR 4 x.

(** A call of a host function. *)
Definition call_host (c : syscall) : M (Z * list Z) :=
  s <- get ;;
  modify (fun s => set_out (out s ++ [Host_call c]) s) ;;
  ret (host_call s c).

(** [RETVAL (f (...))] for a host function that stores nothing. *)
Definition retval_host (c : syscall) : M Z := r <- call_host c ;; RETVAL r.1.

(** [MEMPTR (x)] *)
Definition MEMPTR (x : Z) : M ptr := dmem_addr x.

Definition sys_kill : M Z :=
  s <- get ;;
  if PARM1 s =? getpid then modify (set_exception (PARM2 s)) ;; ret 0
  else
    let os_sig := os_signal (PARM2 s) in
    if os_sig =? -1 then
      printf_filtered "Unknown signal %d\n" [PARM2 s] ;;
      modify (set_exception SIGILL) ;;
      ret 0
    else retval_host (Sc_kill (PARM1 s) (PARM2 s)).

Definition sys_execve : M Z :=
  s <- get ;;
  p1 <- MEMPTR (PARM1 s) ;;
  p2 <- MEMPTR (PARM2 s) ;;
  p3 <- MEMPTR (PARM3 s) ;;
  retval_host (Sc_execve p1 p2 p3).

Definition sys_execv : M Z :=
  s <- get ;;
  p1 <- MEMPTR (PARM1 s) ;;
  p2 <- MEMPTR (PARM2 s) ;;
  retval_host (Sc_execv p1 p2).

Definition sys_pipe : M Z :=
  s <- get ;;
  let buf := PARM1 s in
  r <- call_host Sc_pipe ;;
  result <- RETVAL r.1 ;;
  SW buf (znth r.2 0) ;;
  let buf := u16 (buf + 2) in
  SW buf (znth r.2 1) ;;
  ret result.

(** The host stores what it read, at most the length asked for. *)
Definition sys_read : M Z :=
  s <- get ;;
  p <- MEMPTR (PARM2 s) ;;
  r <- call_host (Sc_read (PARM1 s) p (PARM3 s)) ;;
  let data := firstn (Z.to_nat (PARM3 s)) r.2 in
  memcpy_to p data 0 (length data) ;;
  RETVAL r.1.

Definition sys_write : M Z :=
  s <- get ;;
  p <- MEMPTR (PARM2 s) ;;
  if PARM1 s =? 1 then retval_host (Sc_write_stdout p (PARM3 s))
  else retval_host (Sc_write (PARM1 s) p (PARM3 s)).

(** The offset is computed with [||], so it is 0 or 1. *)
Definition sys_lseek : M Z :=
  s <- get ;;
  let off := b2z (truth (u32 (Z.shiftl (PARM2 s) 16)) || truth (PARM3 s)) in
  r <- call_host (Sc_lseek (PARM1 s) off (PARM4 s)) ;;
  RETVAL32 r.1.

Definition sys_open : M Z :=
  s <- get ;;
  p <- MEMPTR (PARM1 s) ;;
  retval_host (Sc_open p (PARM2 s)).

(** The fields of [host_stat] in the order of the stores. *)
Definition sys_stat : M Z :=
  s <- get ;;
  p <- MEMPTR (PARM1 s) ;;
  r <- call_host (Sc_stat p) ;;
  result <- RETVAL r.1 ;;
  s <- get ;;
  let buf := PARM2 s in
  SW buf (znth r.2 0) ;;
  SW (buf + 2) (znth r.2 1) ;;
  SW (buf + 4) (znth r.2 2) ;;
  SW (buf + 6) (znth r.2 3) ;;
  SW (buf + 8) (znth r.2 4) ;;
  SW (buf + 10) (znth r.2 5) ;;
  SW (buf + 12) (znth r.2 6) ;;
  SLW (buf + 16) (znth r.2 7) ;;
  SLW (buf + 20) (znth r.2 8) ;;
  SLW (buf + 28) (znth r.2 9) ;;
  SLW (buf + 36) (znth r.2 10) ;;
  ret result.

Definition sys_chown : M Z :=
  s <- get ;;
  p <- MEMPTR (PARM1 s) ;;
  retval_host (Sc_chown p (PARM2 s) (PARM3 s)).

Definition sys_chmod : M Z :=
  s <- get ;;
  p <- MEMPTR (PARM1 s) ;;
  retval_host (Sc_chmod p (PARM2 s)).

(** [switch (FUNC)]; the callback [error] prints and ends the run. *)
Definition syscall_switch : M Z :=
  s <- get ;;
  let f := FUNC s in
  if f =? SYS_fork then retval_host Sc_fork
  else if f =? SYS_getpid then RETVAL getpid
  else if f =? SYS_kill then sys_kill
  else if f =? SYS_execve then sys_execve
  else if f =? SYS_execv then sys_execv
  else if f =? SYS_pipe then sys_pipe
  else if f =? SYS_read then sys_read
  else if f =? SYS_write then sys_write
  else if f =? SYS_lseek then sys_lseek
  else if f =? SYS_close then retval_host (Sc_close (PARM1 s))
  else if f =? SYS_open then sys_open
  else if f =? SYS_exit then modify (set_exception SIG_D10V_EXIT) ;; ret 0
  else if f =? SYS_stat then sys_stat
  else if f =? SYS_chown then sys_chown
  else if f =? SYS_chmod then sys_chmod
  else printf_filtered "Unknown syscall %d" [f] ;; exit 1.

(** [case 15] *)
Definition trap_syscall : M unit :=
  result <- syscall_switch ;;
  if u16 result =? u16 (-1) then
    s <- get ;; RETERR (host_errno s)
  else RETERR 0.

Definition OP_5F00 : M unit := (* trap *)
  s <- get ;;
  if op s 0 =? 15 then trap_syscall else trap_vector.

End WithHost.
