(* ===== verification/Interp.v ===== *)
(** * The D10V interpreter

    sim/d10v/interp.c: the opcode hash table, operand extraction, issuing one
    instruction word in its four formats, the run loop [sim_resume], and the
    entry points of the simulator interface.  The hash table is built once, by
    [sim_open], from the generated table [Simops], and never changes after. *)
From S2P Require Import Prelude CInt Opcodes State Memory Cregs.
From S2P Require Import SimopsAlu SimopsAcc SimopsFlow SimopsMem SimopsTrap.

Inductive _leftright := LEFT_FIRST | RIGHT_FIRST.

(** ** The opcode hash table *)

Definition MAX_HASH : Z := 63.

(** [struct hash_entry]; a chain of entries linked by [next] is a list. *)
Record hash_entry := HashEntry {
  he_opcode : Z; he_mask : Z; he_size : Z; he_ops : option simops }.

(** The element of a static array: no instruction, mask 0. *)
Definition empty_entry : hash_entry := HashEntry 0 0 0 None.

Definition hash (insn format : Z) : Z :=
  if truth (Z.land format LONG_OPCODE) then Z.shiftr (Z.land insn 0x3F000000) 24
  else Z.shiftr (Z.land insn 0x7E00) 9.

Definition entry_of (s : simops) : hash_entry :=
  HashEntry (so_opcode s) (so_mask s) (so_is_long s) (Some s).

(** The body of the loop of [sim_open]: go to the last entry of the chain; use it
    if it holds no instruction, else append an entry. *)
Fixpoint chain_insert (chain : list hash_entry) (s : simops) : list hash_entry :=
  match chain with
  | [] => []
  | [h] => match he_ops h with None => [entry_of s] | Some _ => [h; entry_of s] end
  | h :: rest => h :: chain_insert rest s
  end.

Definition insert_op (table : list (list hash_entry)) (s : simops) : list (list hash_entry) :=
  alter (fun chain => chain_insert chain s)
        (Z.to_nat (hash (so_opcode s) (so_format s))) table.

(** [for (s = Simops; s->func; s++)] *)
Fixpoint insert_ops (table : list (list hash_entry)) (l : list simops) : list (list hash_entry) :=
  match l with
  | [] => table
  | s :: l' =>
      match so_func s with
      | None => table
      | Some _ => insert_ops (insert_op table s) l'
      end
  end.

Definition hash_table : list (list hash_entry) :=
  insert_ops (repeat [empty_entry] (Z.to_nat (MAX_HASH + 1))) Simops.

Definition hash_matches (ins size : Z) (h : hash_entry) : bool :=
  (Z.land ins (he_mask h) =? he_opcode h) && (he_size h =? size).

(** The chain [lookup_hash] walks. *)
Definition hash_chain (ins size : Z) : list hash_entry :=
  nth (Z.to_nat (if truth size then Z.shiftr (Z.land ins 0x3F000000) 24
                 else Z.shiftr (Z.land ins 0x7E00) 9)) hash_table [].

(** [lookup_hash]: the program exits when no entry of the chain matches. *)
Definition lookup_hash (ins size : Z) : M hash_entry :=
  match find (hash_matches ins size) (hash_chain ins size) with
  | Some h => ret h
  | None =>
      s <- get ;;
      printf_filtered "ERROR looking up hash for %x at PC %x\n" [ins; PC s] ;;
      exit 1
  end.

(** [h->ops], which is null in an entry that was never filled. *)
Definition entry_ops (h : hash_entry) : M simops :=
  match he_ops h with Some s => ret s | None => undefined UB_null_call end.

(** ** Operands *)

(** [(ins >> shift) & (0x7FFFFFFF >> (31 - bits))] *)
Definition operand_value (ins sh b : Z) : Z :=
  Z.land (Z.shiftr ins sh) (Z.shiftr 0x7FFFFFFF (31 - b)).

(** The loop over [i < s->numops]. *)
Fixpoint get_operands_loop (n : nat) (i : Z) (operands : list Z) (ins : Z) : M unit :=
  match n with
  | O => skip
  | S n' =>
      let sh := znth operands (3 * i) in
      let b := znth operands (3 * i + 1) in
      set_op i (operand_value ins sh b) ;;
      get_operands_loop n' (i + 1) operands ins
  end.

Definition get_operands (s : simops) (ins : Z) : M unit :=
  get_operands_loop (Z.to_nat (so_numops s)) 0 (so_operands s) ins ;;
  modify (fun st => set_trace_psw (PSW st) st).

(** ** The instruction functions *)

Section WithHost.
Context `{Host}.

(** The function each generated name [OP_%X] stands for. *)
Definition simop_funcs : list (Z * M unit) := [
  (0x4607, OP_4607);
  (0x5607, OP_5607);
  (0x200, OP_200);
  (0x1201, OP_1201);
  (0x1203, OP_1203);
  (0x1200, OP_1200);
  (0x1000000, OP_1000000);
  (0x17000200, OP_17000200);
  (0x17000202, OP_17000202);
  (0x17001200, OP_17001200);
  (0x17001202, OP_17001202);
  (0x201, OP_201);
  (0xc00, OP_C00);
  (0x6000000, OP_6000000);
  (0xc01, OP_C01);
  (0x4900, OP_4900);
  (0x24800000, OP_24800000);
  (0xa01, OP_A01);
  (0x4800, OP_4800);
  (0x24000000, OP_24000000);
  (0x4a00, OP_4A00);
  (0x25000000, OP_25000000);
  (0x4b00, OP_4B00);
  (0x25800000, OP_25800000);
  (0x801, OP_801);
  (0xe01, OP_E01);
  (0x5601, OP_5601);
  (0x600, OP_600);
  (0x1603, OP_1603);
  (0x400, OP_400);
  (0x1403, OP_1403);
  (0x401, OP_401);
  (0x2000000, OP_2000000);
  (0x601, OP_601);
  (0x3000000, OP_3000000);
  (0x4600, OP_4600);
  (0x23000000, OP_23000000);
  (0x4e09, OP_4E09);
  (0x5f20, OP_5F20);
  (0x14002800, OP_14002800);
  (0x4e04, OP_4E04);
  (0x4e24, OP_4E24);
  (0x4e40, OP_4E40);
  (0x4e42, OP_4E42);
  (0x4e00, OP_4E00);
  (0x4e02, OP_4E02);
  (0x4e20, OP_4E20);
  (0x4e22, OP_4E22);
  (0x15002a00, OP_15002A00);
  (0x15002a02, OP_15002A02);
  (0x4d00, OP_4D00);
  (0x4c00, OP_4C00);
  (0x30000000, OP_30000000);
  (0x6401, OP_6401);
  (0x6001, OP_6001);
  (0x6000, OP_6000);
  (0x31000000, OP_31000000);
  (0x6601, OP_6601);
  (0x6201, OP_6201);
  (0x6200, OP_6200);
  (0x38000000, OP_38000000);
  (0x7000, OP_7000);
  (0x4001, OP_4001);
  (0x20000000, OP_20000000);
  (0x39000000, OP_39000000);
  (0x7200, OP_7200);
  (0x2a00, OP_2A00);
  (0x1a00, OP_1A00);
  (0x3a00, OP_3A00);
  (0x2600, OP_2600);
  (0x3600, OP_3600);
  (0x3602, OP_3602);
  (0x2601, OP_2601);
  (0x3601, OP_3601);
  (0x3603, OP_3603);
  (0x2800, OP_2800);
  (0x1800, OP_1800);
  (0x3800, OP_3800);
  (0x2e00, OP_2E00);
  (0x2c00, OP_2C00);
  (0x1c00, OP_1C00);
  (0x3c00, OP_3C00);
  (0x4000, OP_4000);
  (0x5000, OP_5000);
  (0x3e00, OP_3E00);
  (0x3e01, OP_3E01);
  (0x3e03, OP_3E03);
  (0x5400, OP_5400);
  (0x4400, OP_4400);
  (0x4401, OP_4401);
  (0x1e04, OP_1E04);
  (0x1e00, OP_1E00);
  (0x1e02, OP_1E02);
  (0x5200, OP_5200);
  (0x1e41, OP_1E41);
  (0x1e01, OP_1E01);
  (0x1e21, OP_1E21);
  (0x5600, OP_5600);
  (0x5401, OP_5401);
  (0x4605, OP_4605);
  (0x5605, OP_5605);
  (0x5e00, OP_5E00);
  (0x4603, OP_4603);
  (0x800, OP_800);
  (0x4000000, OP_4000000);
  (0x5201, OP_5201);
  (0x4201, OP_4201);
  (0x27000000, OP_27000000);
  (0x2f000000, OP_2F000000);
  (0x5f60, OP_5F60);
  (0x5f40, OP_5F40);
  (0x1223, OP_1223);
  (0x4611, OP_4611);
  (0x4613, OP_4613);
  (0x5fc0, OP_5FC0);
  (0x2200, OP_2200);
  (0x3200, OP_3200);
  (0x2201, OP_2201);
  (0x3201, OP_3201);
  (0x460b, OP_460B);
  (0x2400, OP_2400);
  (0x3400, OP_3400);
  (0x2401, OP_2401);
  (0x3401, OP_3401);
  (0x2000, OP_2000);
  (0x3000, OP_3000);
  (0x2001, OP_2001);
  (0x3001, OP_3001);
  (0x4609, OP_4609);
  (0x34000000, OP_34000000);
  (0x6800, OP_6800);
  (0x6c1f, OP_6C1F);
  (0x6801, OP_6801);
  (0x6c01, OP_6C01);
  (0x35000000, OP_35000000);
  (0x6a00, OP_6A00);
  (0x6e1f, OP_6E1F);
  (0x6a01, OP_6A01);
  (0x6e01, OP_6E01);
  (0x3c000000, OP_3C000000);
  (0x7800, OP_7800);
  (0x5fe0, OP_5FE0);
  (0x0, OP_0);
  (0x1001, OP_1001);
  (0x1003, OP_1003);
  (0x1000, OP_1000);
  (0x17000000, OP_17000000);
  (0x17000002, OP_17000002);
  (0x17001000, OP_17001000);
  (0x17001002, OP_17001002);
  (0x1, OP_1);
  (0x5f00, OP_5F00);
  (0x7000000, OP_7000000);
  (0xf000000, OP_F000000);
  (0x5f80, OP_5F80);
  (0xa00, OP_A00);
  (0x5000000, OP_5000000)
].

Definition simop_func (f : Z) : option (M unit) :=
  snd <$> find (fun p => p.1 =? f) simop_funcs.

(** [(h->ops->func) ()] *)
Definition run_func (s : simops) : M unit :=
  match so_func s with
  | Some f => match simop_func f with Some m => m | None => undefined UB_null_call end
  | None => undefined UB_null_call
  end.

(** Fetch the operands of an instruction, record its class, and run it. *)
Definition issue (ops : simops) (ins : Z) (t : _ins_type) : M unit :=
  get_operands ops ins ;;
  modify (set_ins_type t) ;;
  count t 1 ;;
  run_func ops.

Definition do_long (ins : Z) : M unit :=
  h <- lookup_hash ins 1 ;;
  ops <- entry_ops h ;;
  issue ops ins INS_LONG.

Definition do_2_short (ins1 ins2 : Z) (leftright : _leftright) : M unit :=
  let first := match leftright with LEFT_FIRST => INS_LEFT | RIGHT_FIRST => INS_RIGHT end in
  let second := match leftright with LEFT_FIRST => INS_RIGHT | RIGHT_FIRST => INS_LEFT end in
  count (match leftright with LEFT_FIRST => INS_LEFTRIGHT | RIGHT_FIRST => INS_RIGHTLEFT end) 1 ;;
  (* issue the first instruction *)
  h <- lookup_hash ins1 0 ;;
  ops <- entry_ops h ;;
  issue ops ins1 first ;;
  (* issue the second instruction, if the PC has not changed *)
  s <- get ;;
  if (pc_changed s =? 0) && (exception s =? 0) then
    SLOT_FLUSH ;;
    h <- lookup_hash ins2 0 ;;
    ops <- entry_ops h ;;
    get_operands ops ins2 ;;
    modify (set_ins_type second) ;;
    count second 1 ;;
    count INS_CYCLES 1 ;;
    run_func ops
  else when (exception s =? 0) (count INS_COND_JUMP 1).

(** The two symmetric branches of [do_parallel]: a conditional-execution test,
    and the other instruction if the test succeeded. *)
Definition do_conditional (ops_test : simops) (ins_test : Z) (t_test : _ins_type)
    (h_exe : hash_entry) (ins_exe : Z) (t_exe : _ins_type) : M unit :=
  issue ops_test ins_test t_test ;;
  s <- get ;;
  if truth (exe s) then
    count INS_COND_TRUE 1 ;;
    ops_exe <- entry_ops h_exe ;;
    issue ops_exe ins_exe t_exe
  else count INS_COND_FALSE 1.

Definition do_parallel (ins1 ins2 : Z) : M unit :=
  count INS_PARALLEL 1 ;;
  h1 <- lookup_hash ins1 0 ;;
  h2 <- lookup_hash ins2 0 ;;
  ops1 <- entry_ops h1 ;;
  if so_exec_type ops1 =? PARONLY then
    do_conditional ops1 ins1 INS_LEFT_COND_TEST h2 ins2 INS_RIGHT_COND_EXE
  else
    ops2 <- entry_ops h2 ;;
    if so_exec_type ops2 =? PARONLY then
      do_conditional ops2 ins2 INS_RIGHT_COND_TEST h1 ins1 INS_LEFT_COND_EXE
    else
      issue ops1 ins1 INS_LEFT_PARALLEL ;;
      s <- get ;;
      when (exception s =? 0) (issue ops2 ins2 INS_RIGHT_PARALLEL).

(** ** The run loop *)

(** The switch on the two format bits of the instruction word. *)
Definition dispatch (inst : Z) : M unit :=
  let f := Z.land inst 0xC0000000 in
  if f =? 0xC0000000 then do_long (Z.land inst 0x3FFFFFFF)
  else if f =? 0x80000000 then
    do_2_short (Z.land inst 0x7FFF) (Z.shiftr (Z.land inst 0x3FFF8000) 15) RIGHT_FIRST
  else if f =? 0x40000000 then
    do_2_short (Z.shiftr (Z.land inst 0x3FFF8000) 15) (Z.land inst 0x7FFF) LEFT_FIRST
  else
    do_parallel (Z.shiftr (Z.land inst 0x3FFF8000) 15) (Z.land inst 0x7FFF).

(** After the instruction: the hardware loop, or the next PC. *)
Definition next_pc : M unit :=
  s <- get ;;
  when (pc_changed s =? 0)
    (if PSW_RP s && (PC s =? RPT_E s) then
       if RPT_C s =? 1 then
         SET_PSW_RP false ;;
         SET_RPT_C 0 ;;
         s <- get ;;
         SET_PC (PC s + 1)
       else
         SET_RPT_C (RPT_C s - 1) ;;
         s <- get ;;
         SET_PC (RPT_S s)
     else SET_PC (PC s + 1)).

(** The breakpoint trap on the current instruction. *)
Definition ibreak : M unit :=
  s <- get ;;
  when (PSW_DB s && (PC s =? IBA s))
    (SET_BPC (PC s) ;;
     s <- get ;;
     SET_BPSW (PSW s) ;;
     s <- get ;;
     SET_PSW (Z.land (PSW s) PSW_SM_BIT) ;;
     SET_PC SDBT_VECTOR_START).

(** One iteration of the loop of [sim_resume]; [false] when it is left by
    [break]. *)
Definition sim_body : M bool :=
  s <- get ;;
  iaddr <- imem_addr (u32 (Z.shiftl (u32 (PC s)) 2)) ;;
  if is_NULL iaddr then
    modify (set_exception SIGBUS) ;; ret false
  else
    inst <- get_longword iaddr ;;
    modify (set_pc_changed 0) ;;
    count INS_CYCLES 1 ;;
    dispatch inst ;;
    next_pc ;;
    ibreak ;;
    SLOT_FLUSH ;;
    ret true.

Definition sim_stop : M unit := modify (set_stop_simulator 1).

(** [do { ... } while (!State.exception && !stop_simulator)] *)
Fixpoint sim_loop (fuel : nat) : M unit :=
  match fuel with
  | O => fun s => NoFuel s
  | S fuel' =>
      go <- sim_body ;;
      s <- get ;;
      when (go && (exception s =? 0) && (stop_simulator s =? 0)) (sim_loop fuel')
  end.

Definition sim_resume (fuel : nat) (step : bool) : M unit :=
  modify (set_exception 0) ;;
  when step sim_stop ;;
  sim_loop fuel ;;
  s <- get ;;
  when (step && (exception s =? 0)) (modify (set_exception SIGTRAP)).

(** ** The simulator interface *)

Inductive sim_stop_kind := sim_exited | sim_stopped.

Definition sim_stop_reason : M (sim_stop_kind * Z) :=
  s <- get ;;
  let r :=
    if exception s =? SIG_D10V_STOP then (sim_exited, 0)
    else if exception s =? SIG_D10V_EXIT then (sim_exited, GPR s 0)
    else if truth (stop_simulator s) && (exception s =? 0) then (sim_stopped, SIGINT)
    else (sim_stopped, exception s) in
  modify (set_stop_simulator 0) ;;
  ret r.

(** [memory] of the register transfers is a buffer of the caller, in target
    byte order. *)
Definition word_bytes (data : Z) : list Z := [Z.land (Z.shiftr data 8) 0xff; Z.land data 0xff].
Definition longword_bytes (data : Z) : list Z :=
  [Z.land (Z.shiftr data 24) 0xff; Z.land (Z.shiftr data 16) 0xff;
   Z.land (Z.shiftr data 8) 0xff; Z.land data 0xff].
Definition longlong_bytes (data : Z) : list Z :=
  longword_bytes (u32 (Z.shiftr data 32)) ++ longword_bytes (u32 data).
Definition READ_16 (x : list Z) : Z := u16 (Z.shiftl (znth x 0) 8 + znth x 1).
Definition READ_32 (x : list Z) : Z :=
  u32 (Z.shiftl (znth x 0) 24 + Z.shiftl (znth x 1) 16 + Z.shiftl (znth x 2) 8 + znth x 3).
Definition READ_64 (x : list Z) : Z :=
  s64 (Z.lor (s64 (Z.shiftl (READ_32 x) 32)) (READ_32 (skipn 4 x))).

(** Registers: 0-15 general, 16-31 control, 32 IMAP0, 33 IMAP1, 34 DMAP, 35 and
    36 accumulators.  Other numbers index past the arrays. *)
Definition reg_in_range (rn : Z) : bool := (0 <=? rn) && (rn <=? 36).

Definition sim_fetch_register (rn : Z) : M (list Z) :=
  s <- get ;;
  if negb (reg_in_range rn) then undefined UB_index
  else if 34 <? rn then ret (longlong_bytes (ACC s (rn - 35)))
  else if rn =? 32 then v <- IMAP0 ;; ret (word_bytes v)
  else if rn =? 33 then v <- IMAP1 ;; ret (word_bytes v)
  else if rn =? 34 then v <- DMAP ;; ret (word_bytes v)
  else if 16 <=? rn then ret (word_bytes (CREG s (rn - 16)))
  else ret (word_bytes (GPR s rn)).

Definition sim_store_register (rn : Z) (memory : list Z) : M unit :=
  (if negb (reg_in_range rn) then undefined UB_index
   else if 34 <? rn then SET_ACC (rn - 35) (Z.land (READ_64 memory) MASK40)
   else if rn =? 34 then SET_DMAP (READ_16 memory)
   else if rn =? 33 then SET_IMAP1 (READ_16 memory)
   else if rn =? 32 then SET_IMAP0 (READ_16 memory)
   else if 16 <=? rn then set_creg_ (rn - 16) (READ_16 memory)
   else SET_GPR rn (READ_16 memory)) ;;
  SLOT_FLUSH.

(** [memset (&State.regs, 0, ...)]: everything before [imem]. *)
Definition reset_state : M unit :=
  modify (fun s =>
    set_pc_changed 0 (set_exception 0 (set_exe 0 (set_trace_psw 0 (set_slot []
      (set_a (repeat 0 2) (set_sp (repeat 0 2) (set_cregs (repeat 0 16)
        (set_regs (repeat 0 16) s))))))))).

(** The loop over [argv[i]]; a string is the list of its bytes without the
    final zero.  The string goes to [addr + 0], not to [addr + p]. *)
Fixpoint store_argv (argv : list (list Z)) (addr p i : Z) : M Z :=
  match argv with
  | [] => ret i
  | arg :: rest =>
      let size := Z.of_nat (length arg) + 1 in
      SW (u32 (addr + 2 * i)) (addr + p) ;;
      sim_write (addr + 0) (arg ++ [0]) size ;;
      store_argv rest addr (p + size) (i + 1)
  end.

Definition sim_create_inferior (abfd_start : option Z) (argv : option (list (list Z))) : M unit :=
  reset_state ;;
  match argv with
  | Some args =>
      let addr := 0x7C00 in
      i <- store_argv args addr 20 0 ;;
      SET_GPR 0 addr ;;
      SET_GPR 1 i
  | None => skip
  end ;;
  let start_address := match abfd_start with Some x => x | None => Z.shiftl 0xffc0 2 end in
  set_creg_ PC_CR (Z.shiftr start_address 2) ;;
  SET_IMAP0 0x0000 ;;
  SET_IMAP1 0x007f ;;
  SET_DMAP 0x0000 ;;
  SLOT_FLUSH.

(** [sim_open]: the hash table is [hash_table]; memory is allocated the first
    time. *)
Definition sim_open (alloc_ok : bool) : M unit :=
  s <- get ;;
  match imem s with None => sim_size alloc_ok | Some _ => skip end ;;
  sim_create_inferior None None.

End WithHost.
