(* ===== verification/Gdb.v ===== *)
(** * The debugger: registers, memory and integers

    gdb/config/d10v/tm-d10v.h, the D10V's description for GDB, and what its
    target-dependent code uses of gdb/findvar.c and gdb/corefile.c: integers in target
    byte order (TARGET_BYTE_ORDER is BIG_ENDIAN), the register buffer, and memory of the
    debugged program.

    CORE_ADDR is [unsigned long], of 32 bits; LONGEST is [long long].  The register
    buffer of findvar.c is kept in step with the target by [target_fetch_registers] and
    [target_store_registers], so the two are one here: the buffer of each process.
    What reads and writes the target's memory, and GDB's symbol tables, are a parameter,
    the class [Target]. *)
From S2P Require Import Prelude CInt.

(** ** tm-d10v.h *)

Definition DMEM_START : Z := 0.
Definition IMEM_START : Z := 0x1000000.
Definition STACK_START : Z := 0x7ffe.

Definition NUM_REGS : Z := 37.
Definition R0_REGNUM : Z := 0.
Definition LR_REGNUM : Z := 13.
Definition SP_REGNUM : Z := 15.
Definition FP_REGNUM : Z := 11.
Definition PC_REGNUM : Z := 18.
Definition PSW_REGNUM : Z := 16.
Definition IMAP0_REGNUM : Z := 32.
Definition IMAP1_REGNUM : Z := 33.
Definition DMAP_REGNUM : Z := 34.
Definition A0_REGNUM : Z := 35.
Definition REGISTER_BYTES : Z := (NUM_REGS - 2) * 2 + 16.
Definition REGISTER_BYTE (n : Z) : Z :=
  if A0_REGNUM <? n then (n - A0_REGNUM) * 8 + A0_REGNUM * 2 else n * 2.
Definition REGISTER_RAW_SIZE (n : Z) : Z := if A0_REGNUM <=? n then 8 else 2.
Definition MAX_REGISTER_RAW_SIZE : Z := 8.

Definition D10V_MAKE_DADDR (x : Z) : Z := Z.lor x DMEM_START.
Definition D10V_MAKE_IADDR (x : Z) : Z := Z.lor (u32 (Z.shiftl x 2)) IMEM_START.
Definition D10V_DADDR_P (x : Z) : bool := Z.land x 0x3000000 =? DMEM_START.
Definition D10V_IADDR_P (x : Z) : bool := Z.land x 0x3000000 =? IMEM_START.
Definition D10V_CONVERT_IADDR_TO_RAW (x : Z) : Z := Z.land (Z.shiftr x 2) 0xffff.
Definition D10V_CONVERT_DADDR_TO_RAW (x : Z) : Z := Z.land x 0xffff.

Definition ARG1_REGNUM : Z := R0_REGNUM.
Definition ARGN_REGNUM : Z := 3.
Definition RET1_REGNUM : Z := R0_REGNUM.

(** [USE_STRUCT_CONVENTION]: a value of more than 8 bytes is returned in memory. *)
Definition USE_STRUCT_CONVENTION (len : Z) : bool := 8 <? len.
(** [FRAME_CHAIN_VALID], for a frame that is not null *)
Definition FRAME_CHAIN_VALID (chain frame_pc : Z) : bool := negb (chain =? 0) && (IMEM_START <? frame_pc).

(** ** The target and the state *)

Class Target := {
  memory : Type;
  (** the bytes; [None] is a nonzero status *)
  target_read_memory : memory -> Z -> Z -> option (list Z);
  target_write_memory : memory -> Z -> list Z -> option memory;
  (** the start and the end of the function *)
  find_pc_partial_function : Z -> option (Z * Z);
  (** [find_pc_line (pc, 0)].end *)
  find_pc_line_end : Z -> Z;
  get_pc_function_start : Z -> Z;
  inside_entry_file : Z -> bool;
  generic_pc_in_call_dummy : Z -> Z -> bool;
  entry_point_address : Z
}.

(** The instruction trace that the host has collected; the arrays have 65536 elements
    once they are allocated. *)
Record trace_buffer := Trace_buffer { size : Z; counts : option (list Z); addrs : option (list Z) }.

(** The debugged program, and the static variables of d10v-tdep.c that outlive a call *)
Record inferior `{Target} := Inferior {
  registers : Z -> list Z;
  inferior_pid : Z;
  mem : memory;
  tracing : Z;
  last_pc : Z;
  trace_display : Z;
  trace_data : trace_buffer
}.

(** A call returns, or ends in [error], or has no meaning in C, or has used up its fuel. *)
Inductive gdb_outcome `{Target} (A : Type) : Type :=
| Returns (x : A) (s : inferior)
| Gdb_error (s : inferior)
| Gdb_undefined
| Gdb_fuel.
Arguments Returns {_ A} _ _.
Arguments Gdb_error {_ A} _.
Arguments Gdb_undefined {_ A}.
Arguments Gdb_fuel {_ A}.

Declare Scope gdb_scope.
Delimit Scope gdb_scope with gdb.

Section Gdb.
Context `{Target}.

Definition G (A : Type) : Type := inferior -> gdb_outcome A.
Definition gret {A} (x : A) : G A := fun s => Returns x s.
Definition gbind {A B} (m : G A) (f : A -> G B) : G B := fun s =>
  match m s with
  | Returns x s' => f x s'
  | Gdb_error s' => Gdb_error s'
  | Gdb_undefined => Gdb_undefined
  | Gdb_fuel => Gdb_fuel
  end.
Definition gget : G inferior := fun s => Returns s s.
Definition gmodify (f : inferior -> inferior) : G unit := fun s => Returns tt (f s).
Definition gdb_error {A} : G A := fun s => Gdb_error s.
Definition gdb_undefined {A} : G A := fun _ => Gdb_undefined.
End Gdb.

Notation "'let*' x ':=' m 'in' k" := (gbind m (fun x => k))
  (at level 10, x binder, m at level 100, k at level 200) : gdb_scope.
Notation "m '>>' k" := (gbind m (fun _ => k)) (at level 100, right associativity) : gdb_scope.
#[local] Open Scope gdb_scope.

(** ** findvar.c: integers *)

(** [store_unsigned_integer] and [store_signed_integer]: the loop runs from the last
    byte to the first. *)
Fixpoint store_integer_loop (len : nat) (val : Z) (done : list Z) : list Z :=
  match len with
  | O => done
  | S len' => store_integer_loop len' (Z.shiftr val 8) (Z.land val 0xff :: done)
  end.
Definition store_unsigned_integer (len val : Z) : list Z := store_integer_loop (Z.to_nat len) (u64 val) [].
Definition store_signed_integer (len val : Z) : list Z := store_integer_loop (Z.to_nat len) (s64 val) [].
Definition store_address (len val : Z) : list Z := store_unsigned_integer len (u32 val).

(** The elements of a buffer from [at_] on; [None] when they are not all inside. *)
Definition slice (at_ len : Z) (l : list Z) : option (list Z) :=
  if (0 <=? at_) && (0 <=? len) && (at_ + len <=? Z.of_nat (length l))
  then Some (take (Z.to_nat len) (drop (Z.to_nat at_) l)) else None.
Definition overwrite (at_ : Z) (new l : list Z) : option (list Z) :=
  if (0 <=? at_) && (at_ + Z.of_nat (length new) <=? Z.of_nat (length l))
  then Some (take (Z.to_nat at_) l ++ new ++ drop (Z.to_nat at_ + length new) l) else None.

Section Operations.
Context `{Target}.

Definition gread {A} (o : option A) : G A := match o with Some x => gret x | None => gdb_undefined end.

(** The bytes are those of [addr]; reading none of them is reading past the end. *)
Definition extract_signed_integer (bs : list Z) : G Z :=
  if 8 <? Z.of_nat (length bs) then gdb_error
  else match bs with
       | [] => gdb_undefined
       | b :: rest =>
           gret (fold_left (fun retval p => Z.lor (s64 (Z.shiftl retval 8)) p) rest
                   (s64 (Z.lxor b 0x80 - 0x80)))
       end.
Definition extract_unsigned_integer (bs : list Z) : G Z :=
  if 8 <? Z.of_nat (length bs) then gdb_error
  else gret (fold_left (fun retval p => Z.lor (u64 (Z.shiftl retval 8)) p) bs 0).
Definition extract_address (bs : list Z) : G Z :=
  let* x := extract_unsigned_integer bs in gret (u32 x).

(** ** findvar.c: registers *)

Definition current (s : inferior) : list Z := registers s (inferior_pid s).
Definition set_registers (l : list Z) (s : inferior) : inferior :=
  Inferior _ (fun pid => if pid =? inferior_pid s then l else registers s pid) (inferior_pid s) (mem s)
    (tracing s) (last_pc s) (trace_display s) (trace_data s).
Definition set_inferior_pid (pid : Z) (s : inferior) : inferior :=
  Inferior _ (registers s) pid (mem s) (tracing s) (last_pc s) (trace_display s) (trace_data s).
Definition set_mem (m : memory) (s : inferior) : inferior :=
  Inferior _ (registers s) (inferior_pid s) m (tracing s) (last_pc s) (trace_display s) (trace_data s).

Definition read_register_gen (regno : Z) : G (list Z) :=
  let* s := gget in gread (slice (REGISTER_BYTE regno) (REGISTER_RAW_SIZE regno) (current s)).
Definition read_register (regno : Z) : G Z :=
  let* bs := read_register_gen regno in extract_address bs.
Definition write_register (regno val : Z) : G unit :=
  let buf := store_signed_integer (REGISTER_RAW_SIZE regno) val in
  let* s := gget in
  let* l := gread (overwrite (REGISTER_BYTE regno) buf (current s)) in
  gmodify (set_registers l).
(** The range starts at the first byte of a register in every use: whole registers and the
    first part of the last one are overwritten. *)
Definition write_register_bytes (myregstart : Z) (bytes : list Z) : G unit :=
  let* s := gget in
  let* l := gread (overwrite myregstart bytes (current s)) in
  gmodify (set_registers l).

(** ** corefile.c: memory *)

Definition read_memory (memaddr len : Z) : G (list Z) :=
  let* s := gget in
  match target_read_memory (mem s) memaddr len with Some bs => gret bs | None => gdb_error end.
Definition write_memory (memaddr : Z) (bytes : list Z) : G unit :=
  let* s := gget in
  match target_write_memory (mem s) memaddr bytes with
  | Some m => gmodify (set_mem m)
  | None => gdb_error
  end.
Definition read_memory_integer (memaddr len : Z) : G Z :=
  let* bs := read_memory memaddr len in extract_signed_integer bs.
Definition read_memory_unsigned_integer (memaddr len : Z) : G Z :=
  let* bs := read_memory memaddr len in extract_unsigned_integer bs.

(** ** tm-d10v.h: conversions of registers *)

Definition REGISTER_CONVERTIBLE (n : Z) : bool := (n =? PC_REGNUM) || (n =? SP_REGNUM).
Definition REGISTER_CONVERT_TO_VIRTUAL (regnum type_length : Z) (from : list Z) : G (list Z) :=
  let* x := extract_unsigned_integer from in
  let x := if regnum =? PC_REGNUM then Z.lor (u64 (Z.shiftl x 2)) IMEM_START else Z.lor x DMEM_START in
  gret (store_unsigned_integer type_length x).
Definition REGISTER_CONVERT_TO_RAW (regnum : Z) (from : list Z) : G (list Z) :=
  let* x := extract_unsigned_integer from in
  let x := Z.land x 0x3ffff in
  let x := if regnum =? PC_REGNUM then Z.shiftr x 2 else x in
  gret (store_unsigned_integer 2 x).
Definition STORE_STRUCT_RETURN (addr : Z) : G unit := write_register ARG1_REGNUM addr.
Definition STORE_RETURN_VALUE (valbuf : list Z) : G unit :=
  write_register_bytes (REGISTER_BYTE RET1_REGNUM) valbuf.
Definition EXTRACT_STRUCT_VALUE_ADDRESS (regbuf : list Z) : G Z :=
  let* bs := gread (slice (REGISTER_BYTE ARG1_REGNUM) (REGISTER_RAW_SIZE ARG1_REGNUM) regbuf) in
  let* x := extract_address bs in gret (Z.lor x DMEM_START).
Definition SAVED_PC_AFTER_CALL : G Z :=
  let* x := read_register LR_REGNUM in gret (D10V_MAKE_IADDR x).
End Operations.
