(* ===== verification/Tdep.v ===== *)
(** * The debugger's knowledge of the D10V

    gdb/d10v-tdep.c: function prologues and frames, the registers with addresses in
    them, calls of functions of the program, and the instruction trace.  The functions
    that only print are not modelled. *)
From S2P Require Import Prelude CInt Gdb.
#[local] Open Scope gdb_scope.

(** ** Recognising a prologue *)

Definition check_prologue (op : Z) : bool :=
  if Z.land op 0x7E1F =? 0x6C1F then true         (* st  rn, @-sp *)
  else if Z.land op 0x7E3F =? 0x6E1F then true    (* st2w  rn, @-sp *)
  else if Z.land op 0x7FE1 =? 0x01E1 then true    (* subi  sp, n *)
  else if op =? 0x417E then true                  (* mv  r11, sp *)
  else if op =? 0x5E00 then true                  (* nop *)
  else if Z.land op 0x7E1F =? 0x681E then true    (* st  rn, @sp *)
  else if Z.land op 0x7E3F =? 0x3A1E then true    (* st2w  rn, @sp *)
  else false.

(** The two short instructions of a word in the order of execution, [op1] first *)
Definition short_pair (op : Z) : Z * Z :=
  if Z.land op 0xC0000000 =? 0x80000000
  then (Z.land op 0x7FFF, Z.shiftr (Z.land op 0x3FFF8000) 15)
  else (Z.shiftr (Z.land op 0x3FFF8000) 15, Z.land op 0x7FFF).
Definition is_long (op : Z) : bool := Z.land op 0xC0000000 =? 0xC0000000.
(** [add3 sp,sp,n], [st rn,@(offset,sp)], [st2w rn,@(offset,sp)] *)
Definition is_add3_sp (op : Z) : bool := Z.land op 0x3FFF0000 =? 0x01FF0000.
Definition is_st_sp (op : Z) : bool := Z.land op 0x3F0F0000 =? 0x340F0000.
Definition is_st2w_sp (op : Z) : bool := Z.land op 0x3F1F0000 =? 0x350F0000.

(** ** Following a prologue *)

(** The static variables [next_addr] and [uses_frame], and the [struct
    frame_saved_regs] that is filled *)
Record prologue := Prologue_ { next_addr : Z; uses_frame : Z; regs : list Z }.
Definition set_reg (n v : Z) (p : prologue) : prologue :=
  Prologue_ (next_addr p) (uses_frame p) (<[Z.to_nat n := u32 v]> (regs p)).
Definition set_next_addr (v : Z) (p : prologue) : prologue := Prologue_ (s32 v) (uses_frame p) (regs p).
Definition reg (n : Z) (p : prologue) : Z := nth (Z.to_nat n) (regs p) 0.

(** The register numbers are at most 16, inside the array. *)
Definition prologue_find_regs (op : Z) (p : prologue) : bool * prologue :=
  let n := Z.shiftr (Z.land op 0x1E0) 5 in
  if Z.land op 0x7E1F =? 0x6C1F then
    let p := set_next_addr (next_addr p - 2) p in
    (true, set_reg n (next_addr p) p)
  else if Z.land op 0x7E3F =? 0x6E1F then
    let p := set_next_addr (next_addr p - 4) p in
    (true, set_reg (n + 1) (next_addr p + 2) (set_reg n (next_addr p) p))
  else if Z.land op 0x7FE1 =? 0x01E1 then
    let n := Z.shiftr (Z.land op 0x1E) 1 in
    let n := if n =? 0 then 16 else n in
    (true, set_next_addr (next_addr p - n) p)
  else if op =? 0x417E then (true, Prologue_ (next_addr p) 1 (regs p))
  else if op =? 0x5E00 then (true, p)
  else if Z.land op 0x7E1F =? 0x681E then (true, set_reg n (next_addr p) p)
  else if Z.land op 0x7E3F =? 0x3A1E then
    (true, set_reg (n + 1) (next_addr p + 2) (set_reg n (next_addr p) p))
  else (false, p).

(** The body of the loop of [d10v_frame_find_saved_regs]: whether it goes on *)
Definition find_regs_word (op : Z) (p : prologue) : bool * prologue :=
  let offset := s16 op in
  let n := Z.land (Z.shiftr op 20) 0xF in
  if is_long op then
    if is_add3_sp op then (true, set_next_addr (next_addr p + offset) p)
    else if is_st_sp op then (true, set_reg n (next_addr p + offset) p)
    else if is_st2w_sp op then
      (true, set_reg (n + 1) (next_addr p + offset + 2) (set_reg n (next_addr p + offset) p))
    else (false, p)
  else
    let '(op1, op2) := short_pair op in
    let '(c1, p) := prologue_find_regs op1 p in
    if negb c1 then (false, p) else prologue_find_regs op2 p.

(** [struct frame_info] with its EXTRA_FRAME_INFO *)
Record frame_info := Frame_info { frame : Z; pc : Z; return_pc : Z; frameless : Z; fi_size : Z }.

Section Frames.
Context `{Target}.

(** The [while (1)] of the search for the end of a prologue *)
Fixpoint skip_loop (fuel : nat) (pc : Z) : G Z :=
  match fuel with
  | O => fun _ => Gdb_fuel
  | S fuel' =>
      let* x := read_memory_integer pc 4 in
      let op := u32 x in
      if is_long op then
        if negb (is_add3_sp op) && negb (is_st_sp op) && negb (is_st2w_sp op) then gret pc
        else skip_loop fuel' (u32 (pc + 4))
      else
        let '(op1, op2) := short_pair op in
        if check_prologue op1 then
          if negb (check_prologue op2) then gret (if negb (op1 =? 0x5E00) then u32 (pc + 4) else pc)
          else skip_loop fuel' (u32 (pc + 4))
        else gret pc
  end.

Definition d10v_skip_prologue (fuel : nat) (pc : Z) : G Z :=
  let scan_code :=
    let* s := gget in
    match target_read_memory (mem s) pc 4 with None => gret pc | Some _ => skip_loop fuel pc end in
  match find_pc_partial_function pc with
  | Some (func_addr, func_end) =>
      let end_ := find_pc_line_end func_addr in
      if negb (end_ =? 0) && (end_ <? func_end) then gret end_ else scan_code
  | None => scan_code
  end.

Fixpoint find_regs_loop (fuel : nat) (pc : Z) (p : prologue) : G prologue :=
  match fuel with
  | O => fun _ => Gdb_fuel
  | S fuel' =>
      let* x := read_memory_integer pc 4 in
      let '(go_on, p) := find_regs_word (u32 x) p in
      if go_on then find_regs_loop fuel' (u32 (pc + 4)) p else gret p
  end.

(** The registers saved in the frame get their addresses; the last register is not
    looked at. *)
Definition relocate_regs (fp next : Z) (l : list Z) : list Z :=
  imap (fun i r => if (i <? 36)%nat && truth r then u32 (fp - u32 (next - r)) else r) l.

(** The frame and the saved registers, both changed in place *)
Definition d10v_frame_find_saved_regs (fuel : nat) (fi : frame_info) : G (frame_info * list Z) :=
  let fp := frame fi in
  let* p := find_regs_loop fuel (get_pc_function_start (pc fi)) (Prologue_ 0 0 (repeat 0 (Z.to_nat NUM_REGS))) in
  let size_ := s32 (- next_addr p) in
  let* fp := if Z.land fp 0xffff =? 0
             then let* sp := read_register SP_REGNUM in gret (D10V_MAKE_DADDR sp)
             else gret fp in
  let fsr := relocate_regs fp (next_addr p) (regs p) in
  let lr := nth (Z.to_nat LR_REGNUM) fsr 0 in
  let* ret_ := if truth lr
               then let* x := read_memory_unsigned_integer lr (REGISTER_RAW_SIZE LR_REGNUM) in gret (u32 x)
               else read_register LR_REGNUM in
  let fi := Frame_info (frame fi) (pc fi) (D10V_MAKE_IADDR ret_) (frameless fi) size_ in
  if truth (nth (Z.to_nat SP_REGNUM) fsr 0) then gret (fi, fsr)
  else if truth (uses_frame p) then
    let* x := read_register FP_REGNUM in
    gret (fi, <[Z.to_nat SP_REGNUM := u32 (x + size_)]> fsr)
  else
    gret (Frame_info (frame fi) (pc fi) (return_pc fi) 1 (fi_size fi),
          <[Z.to_nat FP_REGNUM := 0]> (<[Z.to_nat SP_REGNUM := u32 (fp + size_)]> fsr)).

Definition d10v_frame_chain (fuel : nat) (fi : frame_info) : G (frame_info * Z) :=
  let* '(fi, fsr) := d10v_frame_find_saved_regs fuel fi in
  let sp := nth (Z.to_nat SP_REGNUM) fsr 0 in
  let fp := nth (Z.to_nat FP_REGNUM) fsr 0 in
  if (return_pc fi =? IMEM_START) || inside_entry_file (return_pc fi) then gret (fi, 0)
  else if negb (truth fp) then
    if negb (truth sp) || (sp =? STACK_START) then gret (fi, 0) else gret (fi, sp)
  else
    let* x := read_memory_unsigned_integer fp (REGISTER_RAW_SIZE FP_REGNUM) in
    if negb (truth x) then gret (fi, 0)
    else
      let* x := read_memory_unsigned_integer fp (REGISTER_RAW_SIZE FP_REGNUM) in
      gret (fi, D10V_MAKE_DADDR (u32 x)).

Definition d10v_init_extra_frame_info (fuel : nat) (fi : frame_info) : G frame_info :=
  let fi := Frame_info (frame fi) (pc fi) 0 0 0 in
  if generic_pc_in_call_dummy (pc fi) (frame fi) then gret fi
  else let* '(fi, _) := d10v_frame_find_saved_regs fuel fi in gret fi.

(** ** Leaving a frame *)

Definition restore_acc (fsr : list Z) (regnum : Z) : G unit :=
  let a := nth (Z.to_nat regnum) fsr 0 in
  if truth a then
    let* raw_buffer := read_memory a (REGISTER_RAW_SIZE regnum) in
    write_register_bytes (REGISTER_BYTE regnum) raw_buffer
  else gret tt.
Definition restore_reg (fsr : list Z) (regnum : Z) : G unit :=
  let a := nth (Z.to_nat regnum) fsr 0 in
  if truth a then
    let* x := read_memory_unsigned_integer a (REGISTER_RAW_SIZE regnum) in
    write_register regnum (s64 x)
  else gret tt.
Fixpoint restore_all (restore : Z -> G unit) (l : list Z) : G unit :=
  match l with [] => gret tt | n :: l' => restore n >> restore_all restore l' end.

(** [target_store_registers] and [flush_cached_frames] concern caches. *)
Definition d10v_pop_frame (fuel : nat) (fi : frame_info) : G unit :=
  let fp := frame fi in
  let* '(fi, fsr) := d10v_frame_find_saved_regs fuel fi in
  restore_all (restore_acc fsr) [A0_REGNUM; A0_REGNUM + 1] >>
  restore_all (restore_reg fsr) (map Z.of_nat (seq 0 (Z.to_nat SP_REGNUM))) >>
  restore_reg fsr PSW_REGNUM >>
  let* lr := read_register LR_REGNUM in
  write_register PC_REGNUM lr >>
  write_register SP_REGNUM (u32 (fp + fi_size fi)).

(** ** Registers that hold addresses *)

Definition d10v_read_pc (pid : Z) : G Z :=
  let* s := gget in
  let save_pid := inferior_pid s in
  gmodify (set_inferior_pid pid) >>
  let* x := read_register PC_REGNUM in
  let pc := u32 (s32 x) in
  gmodify (set_inferior_pid save_pid) >>
  gret (D10V_MAKE_IADDR pc).
Definition d10v_write_pc (val pid : Z) : G unit :=
  let* s := gget in
  let save_pid := inferior_pid s in
  gmodify (set_inferior_pid pid) >>
  write_register PC_REGNUM (D10V_CONVERT_IADDR_TO_RAW val) >>
  gmodify (set_inferior_pid save_pid).
Definition d10v_read_sp : G Z := let* x := read_register SP_REGNUM in gret (D10V_MAKE_DADDR x).
Definition d10v_write_sp (val : Z) : G unit := write_register SP_REGNUM (D10V_CONVERT_DADDR_TO_RAW val).
Definition d10v_write_fp (val : Z) : G unit := write_register FP_REGNUM (D10V_CONVERT_DADDR_TO_RAW val).
Definition d10v_read_fp : G Z := let* x := read_register FP_REGNUM in gret (D10V_MAKE_DADDR x).
Definition d10v_push_return_address (pc sp : Z) : G Z :=
  write_register LR_REGNUM (D10V_CONVERT_IADDR_TO_RAW entry_point_address) >> gret sp.
End Frames.

(** ** Calling a function of the program *)

(** gdbtypes.h *)
Inductive type_code :=
| TYPE_CODE_UNDEF | TYPE_CODE_PTR | TYPE_CODE_ARRAY | TYPE_CODE_STRUCT | TYPE_CODE_UNION
| TYPE_CODE_ENUM | TYPE_CODE_FUNC | TYPE_CODE_INT | TYPE_CODE_FLT | TYPE_CODE_VOID | TYPE_CODE_SET
| TYPE_CODE_RANGE | TYPE_CODE_STRING | TYPE_CODE_BITSTRING | TYPE_CODE_ERROR | TYPE_CODE_MEMBER
| TYPE_CODE_METHOD | TYPE_CODE_REF | TYPE_CODE_CHAR | TYPE_CODE_BOOL | TYPE_CODE_COMPLEX
| TYPE_CODE_TYPEDEF.
#[export] Instance type_code_eq_dec : EqDecision type_code.
Proof. solve_decision. Defined.
(** What is read of [struct type], after [check_typedef]: the code, the length, and the
    code of the target type if there is one *)
Record gdb_type := Type_ { TYPE_CODE : type_code; TYPE_LENGTH : Z; TYPE_TARGET : option type_code }.
Definition is_pointer (t : gdb_type) : bool := bool_decide (TYPE_CODE t = TYPE_CODE_PTR).
Definition is_function_pointer (t : gdb_type) : bool :=
  is_pointer t && bool_decide (TYPE_TARGET t = Some TYPE_CODE_FUNC).
Record gdb_value := Value { VALUE_TYPE : gdb_type; VALUE_CONTENTS : list Z }.

Section Calls.
Context `{Target}.

Definition pointer_to_raw (type : gdb_type) (val : Z) : Z :=
  if is_function_pointer type then D10V_CONVERT_IADDR_TO_RAW val
  else if D10V_IADDR_P val then D10V_CONVERT_DADDR_TO_RAW val
  else Z.land val 0xFFFF.

(** The loop over the words of an argument in registers *)
Fixpoint push_words (words : nat) (b : Z) (contents : list Z) (regnum : Z) : G Z :=
  match words with
  | O => gret regnum
  | S words' =>
      let* bs := gread (slice b 2 contents) in
      let* val := extract_unsigned_integer bs in
      write_register regnum (s32 val) >>
      push_words words' (b + 2) contents (regnum + 1)
  end.

(** [char ptr[2]; ... store_address (ptr, val & 0xffff, 2)]: the last two arguments are
    exchanged, so that [len] is the pointer.  More than two bytes are written past the
    array, and of fewer the rest of the array, read next, has no value. *)
Definition store_in_ptr (len val : Z) : G (list Z) :=
  if len =? 2 then gret (store_address len val) else gdb_undefined.

Definition push_argument (arg : gdb_value) (regnum sp : Z) : G (Z * Z) :=
  let type := VALUE_TYPE arg in
  let contents := VALUE_CONTENTS arg in
  let len := TYPE_LENGTH type in
  if is_pointer type then
    let* bs := gread (slice 0 len contents) in
    let* val := extract_signed_integer bs in
    let val := pointer_to_raw type (s32 val) in
    if regnum <=? ARGN_REGNUM then
      write_register regnum (Z.land val 0xffff) >> gret (regnum + 1, sp)
    else
      let sp := u32 (sp - 2) in
      let* ptr := store_in_ptr (Z.land val 0xffff) 2 in
      write_memory sp ptr >> gret (regnum, sp)
  else
    let aligned_regnum := Z.land (regnum + 1) (Z.lnot 1) in
    if (len <=? 2) && (regnum <=? ARGN_REGNUM) then
      let* bs := gread (slice 0 len contents) in
      let* val := extract_unsigned_integer bs in
      write_register regnum (s32 val) >> gret (regnum + 1, sp)
    else if len <=? (ARGN_REGNUM - aligned_regnum + 1) * 2 then
      let even := Z.land len (Z.lnot 1) in
      let* regnum := push_words (Z.to_nat (even / 2)) 0 contents aligned_regnum in
      if even <? len then
        let* bs := gread (slice even 1 contents) in
        let* val := extract_unsigned_integer bs in
        write_register regnum (s32 (Z.shiftl (s32 val) 8)) >> gret (regnum + 1, sp)
      else gret (regnum, sp)
    else
      let sp := Z.land (u32 (sp - len)) (u32 (Z.lnot 1)) in
      let* bs := gread (slice 0 len contents) in
      write_memory sp bs >> gret (ARGN_REGNUM + 1, sp).

Fixpoint push_loop (args : list gdb_value) (regnum sp : Z) : G Z :=
  match args with
  | [] => gret sp
  | arg :: args' => let* '(regnum, sp) := push_argument arg regnum sp in push_loop args' regnum sp
  end.
Definition d10v_push_arguments (args : list gdb_value) (sp : Z) : G Z := push_loop args ARG1_REGNUM sp.

(** The bytes written to [valbuf] *)
Definition d10v_extract_return_value (type : gdb_type) (regbuf : list Z) : G (list Z) :=
  let ret1 := gread (slice (REGISTER_BYTE RET1_REGNUM) (REGISTER_RAW_SIZE RET1_REGNUM) regbuf) in
  if is_pointer type then
    let* bs := ret1 in
    let* x := extract_address bs in
    let snum := s16 x in
    gret (store_address 4 (if is_function_pointer type then D10V_MAKE_IADDR snum else D10V_MAKE_DADDR snum))
  else
    let len := TYPE_LENGTH type in
    if len =? 1 then
      let* bs := ret1 in
      let* x := extract_unsigned_integer bs in
      gret (store_unsigned_integer 1 (u16 x))
    else if Z.land len 1 =? 0 then gread (slice (REGISTER_BYTE RET1_REGNUM) len regbuf)
    else gread (slice (REGISTER_BYTE RET1_REGNUM + 1) len regbuf).
End Calls.

(** ** The instruction trace *)

Definition DBBC_ADDR : Z := 0xd80000.
Definition TRACE_BUFFER_BASE : Z := 0xf40000.
(** The elements of the host's arrays *)
Definition TRACE_SIZE : Z := 65536.

Section Trace.
Context `{Target}.

Definition set_trace (tr lp : Z) (data : trace_buffer) (s : inferior) : inferior :=
  Inferior _ (registers s) (inferior_pid s) (mem s) tr lp (trace_display s) data.

(** [xmalloc] gives memory with any contents, here zeros. *)
Definition fresh_array : list Z := repeat 0 (Z.to_nat TRACE_SIZE).
Definition trace_command : G unit :=
  gmodify (fun s =>
    let d := trace_data s in
    set_trace 1 (last_pc s)
      (Trace_buffer 0 (Some (default fresh_array (counts d))) (Some (default fresh_array (addrs d)))) s).
Definition untrace_command : G unit := gmodify (fun s => set_trace 0 (last_pc s) (trace_data s) s).

Definition d10v_eva_prepare_to_trace : G unit :=
  let* s := gget in
  if negb (truth (tracing s)) then gret tt
  else let* x := read_register PC_REGNUM in gmodify (fun s => set_trace (tracing s) x (trace_data s) s).

(** The first loop: the words of the target's buffer from the last one back to the one
    recorded when execution resumed; [tmpspace] is in the order in which they are read. *)
Fixpoint collect (fuel : nat) (last_trace : Z) (tmpspace : list Z) : G (list Z) :=
  if 0 <? last_trace then
    match fuel with
    | O => fun _ => Gdb_fuel
    | S fuel' =>
        let* x := read_memory_unsigned_integer (TRACE_BUFFER_BASE + last_trace) 4 in
        let trace_word := u32 x in
        let trace_addr := Z.land trace_word 0xffff in
        let last_trace := u32 (last_trace - 4) in
        if trace_addr =? 0xffd5 then collect fuel' last_trace tmpspace
        else
          let tmpspace := tmpspace ++ [trace_word] in
          let* s := gget in
          if trace_addr =? last_pc s then gret tmpspace
          else if 65535 <? Z.of_nat (length tmpspace) then gret tmpspace
          else collect fuel' last_trace tmpspace
    end
  else gret tmpspace.

(** The second loop, from [i] on *)
Fixpoint move_trace (n : nat) (i count old : Z) (tmpspace cs ads : list Z) : option (list Z * list Z) :=
  match n with
  | O => Some (cs, ads)
  | S n' =>
      let trace_word := nth (Z.to_nat i) tmpspace 0 in
      let next_word := if i =? 0 then 0 else nth (Z.to_nat (i - 1)) tmpspace 0 in
      let next_cnt := Z.land (Z.shiftr next_word 24) 0xff in
      let j := old + count - i - 1 in
      ads ← overwrite j [u32 (Z.shiftl (Z.land trace_word 0xffff) 2 + 0x1000000)] ads;
      cs ← overwrite j [s16 (next_cnt + 1)] cs;
      move_trace n' (i + 1) count old tmpspace cs ads
  end.

(** The display that may follow is not modelled. *)
Definition d10v_eva_get_trace_data (fuel : nat) : G unit :=
  let* s := gget in
  if negb (truth (tracing s)) then gret tt
  else
    let* x := read_memory_unsigned_integer DBBC_ADDR 2 in
    let* tmpspace := collect fuel (u32 (Z.shiftl x 2)) [] in
    let count := Z.of_nat (length tmpspace) in
    let d := trace_data s in
    match counts d, addrs d with
    | Some cs, Some ads =>
        let* '(cs, ads) := gread (move_trace (length tmpspace) 0 count (size d) tmpspace cs ads) in
        gmodify (fun s => set_trace (tracing s) (last_pc s)
                            (Trace_buffer (size d + count) (Some cs) (Some ads)) s)
    | _, _ => if count =? 0 then gret tt else gdb_undefined
    end.
End Trace.
