(* ===== verification/Remote.v ===== *)
(** * The remote board

    gdb/remote-d10v.c: the translation of GDB's addresses into those of the board's
    monitor. *)
From S2P Require Import Prelude CInt Gdb.
#[local] Open Scope gdb_scope.

Definition targ_unified : Z := 0x00000000.
Definition targ_insn : Z := 0x01000000.
Definition targ_data : Z := 0x02000000.

(** The number of bytes that can be transferred and the address; 0 bytes leave
    [*taddr] as it is. [imap0], [imap1] and [dmap] are [unsigned short], [map] is
    [short]. *)
Definition translate_address (imap0 imap1 dmap memaddr nr_bytes : Z) : Z * option Z :=
  let seg := Z.shiftr memaddr 24 in
  let off := Z.land memaddr 0xffffff in
  if seg =? 0x00 then
    if off <=? 0x7fff then
      (if 0x7fff <? off + nr_bytes then 0x7fff - off + 1 else nr_bytes, Some (targ_data + off))
    else if off <=? 0xbfff then
      let map := s16 dmap in
      let phys :=
        if truth (Z.land map 0x1000)
        then Z.lor (Z.lor targ_insn (Z.shiftl (Z.land map 0xf) 14)) (Z.land off 0x3fff)
        else Z.lor (Z.lor targ_unified (Z.shiftl (Z.land map 0x3ff) 14)) (Z.land off 0x3fff) in
      (if 0xbfff <? off + nr_bytes then 0xbfff - off + 1 else nr_bytes, Some phys)
    else (0, None)
  else if seg =? 0x01 then
    let translated (map : Z) :=
      let n := if 0x1ffff <? Z.land off 0x1ffff + nr_bytes
               then 0x1ffff - Z.land off 0x1ffff + 1 else nr_bytes in
      if truth (Z.land map 0x1000) then (n, Some (Z.lor targ_insn off))
      else
        let phys := u32 (Z.shiftl (Z.land map 0x7f) 17 + Z.land off 0x1ffff) in
        if 0xffffff <? phys then (0, None) else (n, Some (Z.lor phys targ_unified)) in
    if off <=? 0x1ffff then translated (s16 imap0)
    else if off <=? 0x3ffff then translated (s16 imap1)
    else (0, None)
  else if seg =? 0x10 then (nr_bytes, Some (Z.lor targ_data off))
  else if seg =? 0x11 then (nr_bytes, Some (Z.lor targ_insn off))
  else if seg =? 0x12 then (nr_bytes, Some (Z.lor targ_unified off))
  else (0, None).

Section Remote.
Context `{Target}.
Definition remote_d10v_translate_xfer_address (memaddr nr_bytes : Z) : G (Z * option Z) :=
  let* imap0 := read_register IMAP0_REGNUM in
  let* imap1 := read_register IMAP1_REGNUM in
  let* dmap := read_register DMAP_REGNUM in
  gret (translate_address (u16 imap0) (u16 imap1) (u16 dmap) memaddr nr_bytes).
End Remote.
