(* ===== verification/Gcc.v ===== *)
(** * The D10V compiler: stack frames and calls

    gcc/config/d10v/d10v.h and d10v.c: the registers, the layout of a function's stack
    frame, the text of its prologue and epilogue, and the registers in which arguments
    are passed.  What the rest of the compiler knows of the function that is being compiled
    is the record [compiling]; the functions on RTL expressions are not modelled.
    The sizes are [int]s that do not come near 2^31. *)
From S2P Require Import Prelude CInt.
From stdpp Require Import strings.
From Stdlib Require Import DecimalString.
#[local] Open Scope string_scope.
#[local] Open Scope list_scope.
#[local] Open Scope Z_scope.

(** ** d10v.h: registers *)

Definition GPR_FIRST : Z := 0.
Definition GPR_LAST : Z := 15.
Definition ACCUM_FIRST : Z := 32.
Definition ACCUM_LAST : Z := 33.
Definition FIRST_PSEUDO_REGISTER : Z := 38.
Definition ARG_FIRST : Z := GPR_FIRST.
Definition ARG_LAST : Z := GPR_FIRST + 3.
Definition SAVE_ACC_REGNUM : Z := GPR_FIRST + 12.
Definition SAVE_GUARD_REGNUM : Z := GPR_FIRST + 5.
Definition STACK_POINTER_REGNUM : Z := GPR_FIRST + 15.
Definition FRAME_POINTER_REGNUM : Z := GPR_FIRST + 11.
Definition ARG_POINTER_REGNUM : Z := 34.
Definition RETURN_ADDRESS_REGNUM : Z := GPR_FIRST + 13.
Definition UNITS_PER_WORD : Z := 2.
Definition BITS_PER_UNIT : Z := 8.
Definition BITS_PER_WORD : Z := 16.
Definition STACK_BOUNDARY : Z := 16.
Definition IN_RANGE_P (value low high : Z) : bool := u32 (value - low) <=? u32 (high - low).
Definition GPR_P (regno : Z) : bool := IN_RANGE_P regno GPR_FIRST GPR_LAST.
Definition GPR_EVEN_P (regno : Z) : bool := GPR_P regno && (Z.land (regno - GPR_FIRST) 1 =? 0).
Definition GPR_ODD_P (regno : Z) : bool := GPR_P regno && negb (Z.land (regno - GPR_FIRST) 1 =? 0).
Definition D10V_ALIGN (addr align : Z) : Z := Z.land (addr + align - 1) (Z.lnot (align - 1)).

Definition reg_names : list string :=
  ["r0"; "r1"; "r2"; "r3"; "r4"; "r5"; "r6"; "r7"; "r8"; "r9"; "r10"; "r11"; "r12"; "r13"; "r14"; "sp";
   "cr0"; "cr1"; "cr2"; "cr3"; "cr4"; "cr5"; "cr6"; "cr7"; "cr8"; "cr9"; "cr10"; "cr11"; "cr12"; "cr13"; "cr14"; "cr15";
   "a0"; "a1"; "ap"; "f0"; "f1"; "c"].
Definition reg_name (regno : Z) : string := nth (Z.to_nat regno) reg_names "".
(** [call_used_regs] as it is initialized, and as CONDITIONAL_REGISTER_USAGE leaves it *)
Definition CALL_USED_REGISTERS : list Z :=
  [1; 1; 1; 1; 1; 1; 0; 0; 0; 0; 0; 0; 1; 1; 1; 1] ++ repeat 1 22.
Definition CONDITIONAL_REGISTER_USAGE (TARGET_ACCUM : Z) (call_used_regs : list Z) : list Z :=
  if truth TARGET_ACCUM
  then <[Z.to_nat (ACCUM_FIRST + 1) := 0]> (<[Z.to_nat ACCUM_FIRST := 0]> call_used_regs)
  else call_used_regs.

(** ** The stack frame *)

Record d10v_stack_t := D10v_stack {
  varargs_p : Z;
  varargs_size : Z;
  vars_size : Z;
  parm_size : Z;
  gpr_size : Z;
  accum_size : Z;
  total_size : Z;
  save_p : list Z
}.
Definition zero_info : d10v_stack_t := D10v_stack 0 0 0 0 0 0 0 (repeat 0 (Z.to_nat FIRST_PSEUDO_REGISTER)).

(** The function that is being compiled: the compiler's flags and register tables;
    whether [TYPE_ARG_TYPES] is null, and if not, whether its last element is not [void];
    the names of [DECL_ARGUMENTS], where there are names; the codes of the last
    instructions *)
Inductive insn_code := NOTE | BARRIER | OTHER_INSN.
#[export] Instance insn_code_eq_dec : EqDecision insn_code.
Proof. solve_decision. Defined.
Record compiling := Compiling {
  profile_flag : Z;
  reload_completed : Z;
  frame_pointer_needed : Z;
  regs_ever_live : list Z;
  call_used_regs : list Z;
  last_arg_not_void : option bool;
  argument_names : list (option string);
  get_frame_size : Z;
  current_function_outgoing_args_size : Z;
  (** [get_last_insn ()], and [prev_nonnote_insn] of it *)
  last_insn : option insn_code;
  last_nonnote_insn : option insn_code;
  d10v_stack_cache : option d10v_stack_t
}.
Definition set_live (l : list Z) (c : compiling) : compiling :=
  Compiling (profile_flag c) (reload_completed c) (frame_pointer_needed c) l (call_used_regs c)
    (last_arg_not_void c) (argument_names c) (get_frame_size c) (current_function_outgoing_args_size c)
    (last_insn c) (last_nonnote_insn c) (d10v_stack_cache c).
Definition set_cache (i : option d10v_stack_t) (c : compiling) : compiling :=
  Compiling (profile_flag c) (reload_completed c) (frame_pointer_needed c) (regs_ever_live c) (call_used_regs c)
    (last_arg_not_void c) (argument_names c) (get_frame_size c) (current_function_outgoing_args_size c)
    (last_insn c) (last_nonnote_insn c) i.

Definition flag (l : list Z) (i : Z) : bool := truth (nth (Z.to_nat i) l 0).
Definition mark (l : list Z) (i : Z) : list Z := <[Z.to_nat i := 1]> l.

(** A loop over registers that fills [save_p] and counts *)
Fixpoint save_registers (wanted : Z -> bool) (l : list Z) (save : list Z) (count : Z) : list Z * Z :=
  match l with
  | [] => (save, count)
  | i :: l' => if wanted i then save_registers wanted l' (mark save i) (count + 1)
               else save_registers wanted l' save count
  end.
Definition registers_from (first last : Z) : list Z :=
  map (fun k => first + Z.of_nat k) (seq 0 (Z.to_nat (last - first + 1))).

Definition is_varargs (c : compiling) : bool :=
  match last_arg_not_void c with
  | Some true => true
  | _ => match last (argument_names c) with
         | Some (Some name) => bool_decide (name = "__builtin_va_alist")
         | _ => false
         end
  end.

Definition d10v_stack_info (c : compiling) : d10v_stack_t * compiling :=
  match d10v_stack_cache c with
  | Some info => (info, c)
  | None =>
      let live := regs_ever_live c in
      let live := if truth (profile_flag c) then mark live RETURN_ADDRESS_REGNUM else live in
      let '(save, saved_accs) :=
        save_registers (fun i => flag live i && negb (flag (call_used_regs c) i))
          (registers_from ACCUM_FIRST ACCUM_LAST) (save_p zero_info) 0 in
      let live := if truth saved_accs
                  then mark (mark (mark live SAVE_GUARD_REGNUM) SAVE_ACC_REGNUM) (SAVE_ACC_REGNUM + 1)
                  else live in
      let '(save, saved_gprs) :=
        save_registers (fun i => flag live i && (negb (flag (call_used_regs c) i) || (i =? RETURN_ADDRESS_REGNUM)))
          (registers_from GPR_FIRST GPR_LAST) save 0 in
      let varargs := is_varargs c in
      let varargs_size := D10V_ALIGN (if varargs then (ARG_LAST + 1 - ARG_FIRST) * UNITS_PER_WORD else 0) UNITS_PER_WORD in
      let gpr_size := D10V_ALIGN (UNITS_PER_WORD * saved_gprs) UNITS_PER_WORD in
      let accum_size := D10V_ALIGN (3 * UNITS_PER_WORD * saved_accs) UNITS_PER_WORD in
      let vars_size := D10V_ALIGN (get_frame_size c) UNITS_PER_WORD in
      let parm_size := D10V_ALIGN (current_function_outgoing_args_size c) UNITS_PER_WORD in
      let total_size := D10V_ALIGN (gpr_size + accum_size + vars_size + parm_size + varargs_size)
                                   (STACK_BOUNDARY / BITS_PER_UNIT) in
      let info := D10v_stack (Z.b2z varargs) varargs_size vars_size parm_size gpr_size accum_size total_size save in
      let c := set_live live c in
      (info, if truth (reload_completed c) then set_cache (Some info) c else c)
  end.

(** A null or one instruction epilogue *)
Definition direct_return (c : compiling) : bool * compiling :=
  if truth (reload_completed c) then
    let '(info, c) := d10v_stack_info c in
    ((total_size info =? 0) ||
     ((total_size info =? UNITS_PER_WORD) && flag (save_p info) RETURN_ADDRESS_REGNUM) ||
     ((total_size info =? vars_size info) && IN_RANGE_P (total_size info) 1 16), c)
  else (false, c).

(** [None] is [abort]. *)
Definition INITIAL_ELIMINATION_OFFSET (from to : Z) (c : compiling) : option Z * compiling :=
  let '(info, c) := d10v_stack_info c in
  (if (from =? FRAME_POINTER_REGNUM) && (to =? STACK_POINTER_REGNUM) then Some 0
   else if (from =? ARG_POINTER_REGNUM) && (to =? FRAME_POINTER_REGNUM) then Some (total_size info)
   else if (from =? ARG_POINTER_REGNUM) && (to =? STACK_POINTER_REGNUM) then Some (total_size info)
   else None, c).

(** ** The prologue *)

Definition tab : string := String (Ascii.ascii_of_nat 9) "".
Definition newline : string := String (Ascii.ascii_of_nat 10) "".
(** [%d] *)
Definition percent_d (n : Z) : string := NilZero.string_of_int (Z.to_int n).
(** The lines that [fprintf] writes *)
Definition line1 (insn op1 : string) : string := tab +:+ insn +:+ " " +:+ op1 +:+ newline.
Definition line2 (insn op1 op2 : string) : string := tab +:+ insn +:+ " " +:+ op1 +:+ "," +:+ op2 +:+ newline.
Definition line3 (insn op1 op2 op3 : string) : string :=
  tab +:+ insn +:+ " " +:+ op1 +:+ "," +:+ op2 +:+ "," +:+ op3 +:+ newline.
Definition sp_name : string := reg_name STACK_POINTER_REGNUM.

(** The variable arguments: [for (i = ARG_LAST-1; i >= ARG_FIRST; i -= 2)] *)
Fixpoint save_varargs (n : nat) (i total_size : Z) : list string * Z :=
  match n with
  | O => ([], total_size)
  | S n' => if ARG_FIRST <=? i
            then let '(out, total_size) := save_varargs n' (i - 2) (total_size - 2 * UNITS_PER_WORD) in
                 (line2 "st2w" (reg_name i) ("@-" +:+ sp_name) :: out, total_size)
            else ([], total_size)
  end.
(** The registers: [for (i = GPR_FIRST; i <= GPR_LAST; i++)], with an [i++] for a pair *)
Fixpoint save_gprs (n : nat) (save : list Z) (i total_size : Z) : list string * Z :=
  match n with
  | O => ([], total_size)
  | S n' =>
      if i <=? GPR_LAST then
        if flag save i then
          if GPR_EVEN_P i && flag save (i + 1) then
            let '(out, total_size) := save_gprs n' save (i + 1 + 1) (total_size - 2 * UNITS_PER_WORD) in
            (line2 "st2w" (reg_name i) ("@-" +:+ sp_name) :: out, total_size)
          else
            let '(out, total_size) := save_gprs n' save (i + 1) (total_size - UNITS_PER_WORD) in
            (line2 "st" (reg_name i) ("@-" +:+ sp_name) :: out, total_size)
        else save_gprs n' save (i + 1) total_size
      else ([], total_size)
  end.
(** The accumulators, through r5 and r12/r13 *)
Fixpoint save_accs (l : list Z) (save : list Z) (total_size : Z) : list string * Z :=
  match l with
  | [] => ([], total_size)
  | i :: l' =>
      if flag save i then
        let '(out, total_size) := save_accs l' save (total_size - 3 * UNITS_PER_WORD) in
        ([line2 "mvfacg" (reg_name SAVE_GUARD_REGNUM) (reg_name i);
          line2 "mv2wfac" (reg_name SAVE_ACC_REGNUM) (reg_name i);
          line2 "st" (reg_name SAVE_GUARD_REGNUM) ("@-" +:+ sp_name);
          line2 "st2w" (reg_name SAVE_ACC_REGNUM) ("@-" +:+ sp_name)] ++ out, total_size)
      else save_accs l' save total_size
  end.
(** Each loop makes at most 16 rounds. *)
Definition prologue_lines (info : d10v_stack_t) (frame_pointer_needed : Z) : list string :=
  let total_size := total_size info in
  let '(out1, total_size) := if truth (varargs_p info) then save_varargs 16 (ARG_LAST - 1) total_size
                             else ([], total_size) in
  let '(out2, total_size) := save_gprs 16 (save_p info) GPR_FIRST total_size in
  let '(out3, total_size) := save_accs (registers_from ACCUM_FIRST ACCUM_LAST) (save_p info) total_size in
  let out4 := if 0 <? total_size then
                if total_size <=? 16 then [line2 "subi" sp_name (percent_d total_size)]
                else [line3 "add3" sp_name sp_name (percent_d (- total_size))]
              else [] in
  let out5 := if truth frame_pointer_needed then [line2 "mv" (reg_name FRAME_POINTER_REGNUM) sp_name] else [] in
  out1 ++ out2 ++ out3 ++ out4 ++ out5.
Definition function_prologue (c : compiling) : list string * compiling :=
  let '(info, c) := d10v_stack_info c in (prologue_lines info (frame_pointer_needed c), c).

(** ** The epilogue *)

Fixpoint restore_accs (l : list Z) (save : list Z) : list string :=
  match l with
  | [] => []
  | i :: l' =>
      (if flag save i then
         [line2 "ld2w" (reg_name SAVE_ACC_REGNUM) ("@" +:+ sp_name +:+ "+");
          line2 "ld" (reg_name SAVE_GUARD_REGNUM) ("@" +:+ sp_name +:+ "+");
          line2 "mv2wtac" (reg_name SAVE_ACC_REGNUM) (reg_name i);
          line2 "mvtacg" (reg_name SAVE_GUARD_REGNUM) (reg_name i)]
       else []) ++ restore_accs l' save
  end.
(** [for (i = GPR_LAST; i >= GPR_FIRST; i--)], with a [--i] for a pair; the index before the
    first element is not read, since r0 is even. *)
Fixpoint restore_gprs (n : nat) (save : list Z) (i : Z) : list string :=
  match n with
  | O => []
  | S n' =>
      if GPR_FIRST <=? i then
        if flag save i then
          if GPR_ODD_P i && flag save (i - 1)
          then line2 "ld2w" (reg_name (i - 1)) ("@" +:+ sp_name +:+ "+") :: restore_gprs n' save (i - 1 - 1)
          else line2 "ld" (reg_name i) ("@" +:+ sp_name +:+ "+") :: restore_gprs n' save (i - 1)
        else restore_gprs n' save (i - 1)
      else []
  end.
Definition epilogue_lines (info : d10v_stack_t) (frame_pointer_needed : Z) : list string :=
  let stack_size := total_size info - varargs_size info in
  let '(stack_size, varargs_size) :=
    if truth (varargs_size info) && negb (truth (gpr_size info))
    then (stack_size + varargs_size info, 0) else (stack_size, varargs_size info) in
  let '(out1, stack_size) :=
    if truth frame_pointer_needed then
      let fp_name := reg_name FRAME_POINTER_REGNUM in
      if 0 <? stack_size
      then ([line3 "add3" sp_name fp_name (percent_d (stack_size - gpr_size info - accum_size info))],
            gpr_size info + accum_size info)
      else ([line2 "mv" sp_name fp_name], stack_size)
    else ([], stack_size) in
  let stack_size := stack_size - (gpr_size info + accum_size info) in
  let out2 := if 0 <? stack_size then
                if stack_size <=? 16 then [line2 "addi" sp_name (percent_d stack_size)]
                else [line3 "add3" sp_name sp_name (percent_d stack_size)]
              else [] in
  let out3 := restore_accs (registers_from ACCUM_FIRST ACCUM_LAST) (save_p info) in
  let out4 := restore_gprs 16 (save_p info) GPR_LAST in
  let out5 := if truth varargs_size then [line2 "addi" sp_name (percent_d varargs_size)] else [] in
  out1 ++ out2 ++ out3 ++ out4 ++ out5 ++ [line1 "jmp" (reg_name RETURN_ADDRESS_REGNUM)].
Definition function_epilogue (c : compiling) : list string * compiling :=
  let insn := if bool_decide (last_insn c = Some NOTE) then last_nonnote_insn c else last_insn c in
  let '(out, c) :=
    if bool_decide (insn = Some BARRIER) then ([], c)
    else let '(info, c) := d10v_stack_info c in (epilogue_lines info (frame_pointer_needed c), c) in
  (out, set_cache None c).

(** ** Passing arguments *)

Record d10v_cumulative_args := Cumulative { cum_reg : Z; cum_stack : Z }.
(** The mode of an argument, and the size of its type if it has one *)
Record argument := Argument { is_BLKmode : bool; int_size_in_bytes : option Z; GET_MODE_SIZE : Z }.

Definition init_cumulative_args : d10v_cumulative_args := Cumulative 0 4.
Definition arg_size (arg : argument) : Z :=
  match is_BLKmode arg, int_size_in_bytes arg with
  | true, Some size => size
  | _, _ => GET_MODE_SIZE arg
  end.
Definition function_arg_boundary (arg : argument) : Z :=
  if 2 * UNITS_PER_WORD <=? arg_size arg then 2 * BITS_PER_WORD else BITS_PER_WORD.
Definition arg_align (cum : d10v_cumulative_args) (arg : argument) : Z :=
  Z.b2z (negb (Z.land (cum_reg cum) 1 =? 0) && (2 * BITS_PER_WORD <=? function_arg_boundary arg)).
(** The register, or [None] for the stack *)
Definition function_arg (cum : d10v_cumulative_args) (arg : argument) : option Z :=
  let align := arg_align cum arg in
  let size := arg_size arg in
  if (ARG_LAST - ARG_FIRST + 1) * 2 <? (cum_reg cum + align) * 2 + size then None
  else Some (ARG_FIRST + cum_reg cum + align).
Definition function_arg_advance (cum : d10v_cumulative_args) (arg : argument) : d10v_cumulative_args :=
  let align := arg_align cum arg in
  let size := arg_size arg in
  let words := Z.quot (size + (UNITS_PER_WORD - 1)) UNITS_PER_WORD in
  if cum_reg cum + align + words <=? ARG_LAST - ARG_FIRST + 1
  then Cumulative (cum_reg cum + align + words) (cum_stack cum)
  else Cumulative (cum_reg cum) (cum_stack cum + (align + words)).
(** Where [function_arg] and [FUNCTION_ARG_ADVANCE] put a list of arguments *)
Fixpoint argument_registers (cum : d10v_cumulative_args) (args : list argument) : list (option Z) :=
  match args with
  | [] => []
  | arg :: args' => function_arg cum arg :: argument_registers (function_arg_advance cum arg) args'
  end.
