(* ===== verification/Rtl.v ===== *)
(** * The D10V compiler: instructions of several words

    gcc/config/d10v/d10v.c on RTL expressions: the splitting of constants into words, the
    printing of operands, and the text of comparisons, of moves and of arithmetic on values
    of two and four words; with [output_asm_insn] of gcc/final.c, which puts operands into a
    template.  [HOST_WIDE_INT] has 32 bits.  A result [None] is a call of [fatal_insn] or
    [abort], which end the compiler. *)
From S2P Require Import Prelude CInt Gcc.
From Stdlib Require Import Ascii DecimalString.
#[local] Open Scope string_scope.
#[local] Open Scope list_scope.
#[local] Open Scope Z_scope.

(** ** Expressions *)

Inductive machine_mode := VOIDmode | QImode | HImode | SImode | DImode | SFmode | DFmode | CCmode | CC_REVmode.
#[export] Instance machine_mode_eq_dec : EqDecision machine_mode.
Proof. solve_decision. Defined.
Definition GET_MODE_SIZE (m : machine_mode) : Z :=
  match m with VOIDmode => 0 | QImode => 1 | HImode => 2 | SImode | SFmode | CCmode | CC_REVmode => 4 | DImode | DFmode => 8 end.

(** The operators with one or two operands *)
Inductive rtx_code := EQ | NE | LT | LE | GT | GE | LTU | LEU | GTU | GEU | PLUS | MINUS | AND | IOR | XOR | NOT | ZERO_EXTEND | SIGN_EXTEND.
#[export] Instance rtx_code_eq_dec : EqDecision rtx_code.
Proof. solve_decision. Defined.
(** [SYMBOL_REF] with its flag: the address of a function, in words *)
Inductive rtx :=
  | REG (m : machine_mode) (regno : Z)
  | SUBREG (m : machine_mode) (reg : rtx) (word : Z)
  | MEM (m : machine_mode) (addr : rtx)
  | CONST_INT (v : Z)
  | CONST_DOUBLE (m : machine_mode) (low high : Z)
  | SYMBOL_REF (m : machine_mode) (name : string) (flag : bool)
  | LABEL_REF (m : machine_mode) (number : Z)
  | CONST (m : machine_mode) (x : rtx)
  | POST_INC (m : machine_mode) (x : rtx)
  | POST_DEC (m : machine_mode) (x : rtx)
  | PRE_DEC (m : machine_mode) (x : rtx)
  | UNARY (code : rtx_code) (m : machine_mode) (x : rtx)
  | BINARY (code : rtx_code) (m : machine_mode) (x y : rtx)
  | SET (x y : rtx).
Definition GET_MODE (x : rtx) : machine_mode :=
  match x with
  | REG m _ | SUBREG m _ _ | MEM m _ | CONST_DOUBLE m _ _ | SYMBOL_REF m _ _ | LABEL_REF m _ | CONST m _
  | POST_INC m _ | POST_DEC m _ | PRE_DEC m _ | UNARY _ m _ | BINARY _ m _ _ => m
  | CONST_INT _ | SET _ _ => VOIDmode
  end.
Definition CONSTANT_P (x : rtx) : bool :=
  match x with LABEL_REF _ _ | SYMBOL_REF _ _ _ | CONST_INT _ | CONST_DOUBLE _ _ _ | CONST _ _ => true | _ => false end.
Definition is_const_int (x : rtx) : bool := match x with CONST_INT _ => true | _ => false end.
(** Constants whose value is known *)
Definition is_number (x : rtx) : bool := match x with CONST_INT _ | CONST_DOUBLE _ _ _ => true | _ => false end.
Definition is_mem (x : rtx) : bool := match x with MEM _ _ => true | _ => false end.
Definition is_reg (x : rtx) : bool := match x with REG _ _ => true | _ => false end.
Definition is_zero (x : rtx) : bool := match x with CONST_INT v => v =? 0 | _ => false end.
(** [(GET_CODE (op) == REG) ? REGNO (op) : -1] *)
Definition regno_of (x : rtx) : Z := match x with REG _ r => r | _ => -1 end.
Fixpoint skip_subregs (x : rtx) : rtx := match x with SUBREG _ x' _ => skip_subregs x' | _ => x end.

(** ** Registers and constants *)

Definition GPR_ZERO_REGNUM : Z := GPR_FIRST + 14.
Definition CR_FIRST : Z := 16.
Definition CR_LAST : Z := 31.
Definition F0_REGNUM : Z := 35.
Definition CR_P (regno : Z) : bool := IN_RANGE_P regno CR_FIRST CR_LAST.
Definition ACCUM_P (regno : Z) : bool := IN_RANGE_P regno ACCUM_FIRST ACCUM_LAST.
Definition GPR_OR_PSEUDO_P (regno : Z) : bool := GPR_P regno || (FIRST_PSEUDO_REGISTER <=? regno).
Definition HARD_REGNO_NREGS (regno : Z) (m : machine_mode) : Z :=
  if ACCUM_P regno then (GET_MODE_SIZE m + 4 - 1) / 4 else (GET_MODE_SIZE m + 2 - 1) / 2.
Definition SIGN_EXTEND_SHORT (v : Z) : Z := s32 (Z.lxor (Z.land v 0xffff) 0x8000 - 0x8000).
(** -1 if [x] is not a power of two *)
Definition exact_log2 (x : Z) : Z :=
  let x := u32 x in
  if (x =? 0) || negb (x =? Z.land x (u32 (- x))) then -1 else Z.log2 x.

(** What the code uses of the rest of the compiler: the number of the current instruction;
    the letters that [output_asm_insn] treats itself; its options; [plus_constant] on
    expressions that are not integers; [d10v_output_addr_const], the text of a symbolic
    constant; whether the words of a memory operand have addresses; and the words of
    floating-point numbers; the register with the result of a library call; [change_address];
    and whether the registers have been assigned. *)
Class Compiler := {
  insn_counter : Z;
  output_special : ascii -> rtx -> option string;
  TARGET_SMALL_INSNS : bool;
  TARGET_ADDAC3 : bool;
  optimize : bool;
  plus_constant_rest : rtx -> Z -> rtx;
  d10v_output_addr_const : rtx -> string;
  offsettable_memref_p : rtx -> bool;
  REAL_VALUE_TO_TARGET_SINGLE : Z -> Z -> Z;
  REAL_VALUE_TO_TARGET_DOUBLE : Z -> Z -> Z * Z;
  emit_library_call_value : string -> machine_mode -> list (rtx * machine_mode) -> rtx;
  change_address : rtx -> machine_mode -> rtx -> rtx;
  reload_completed : bool
}.

Section Rtl.
Context `{Compiler}.

Definition plus_constant (x : rtx) (c : Z) : rtx :=
  if c =? 0 then x else match x with CONST_INT v => CONST_INT (s32 (v + c)) | _ => plus_constant_rest x c end.

(** No expression of this model is a [LO_SUM]. *)
Definition plus_constant_for_output (x : rtx) (c : Z) : rtx := plus_constant x c.

(** How far a constant can be shifted right to fit [ldi.s]; 0 if it need not or cannot *)
Fixpoint shift_loop (n : nat) (i value : Z) : Z :=
  match n with
  | O => 0
  | S n' =>
      if (s32 (Z.shiftl (Z.shiftr value i) i) =? value) && IN_RANGE_P (Z.shiftr value i) (-8) 7 then i
      else shift_loop n' (i + 1) value
  end.
Definition ldi_shift_operand (op : rtx) : Z :=
  match op with
  | CONST_INT value =>
      if TARGET_SMALL_INSNS && optimize then
        if IN_RANGE_P value (-8) 7 then 0 else shift_loop 15 1 value
      else 0
  | _ => 0
  end.
Definition parallel_ldi (value : Z) : bool :=
  let low := SIGN_EXTEND_SHORT value in
  let high := SIGN_EXTEND_SHORT (Z.shiftr value 16) in
  IN_RANGE_P low (-8) 7 && IN_RANGE_P high (-8) 7.

(** The two words of a 32-bit constant, the four of a 64-bit constant, the high one first *)
Definition two_words (v : Z) : list Z := [SIGN_EXTEND_SHORT (Z.shiftr v 16); SIGN_EXTEND_SHORT v].
Definition d10v_split_constant32 (x : rtx) : option (list Z) :=
  match x with
  | CONST_INT v => Some (two_words v)
  | CONST_DOUBLE SFmode low high => Some (two_words (REAL_VALUE_TO_TARGET_SINGLE low high))
  | _ => None
  end.
Definition d10v_split_constant64 (x : rtx) : option (list Z) :=
  match x with
  | CONST_INT v => Some ((if v <? 0 then [-1; -1] else [0; 0]) ++ two_words v)
  | CONST_DOUBLE DFmode low high =>
      let '(t0, t1) := REAL_VALUE_TO_TARGET_DOUBLE low high in Some (two_words t0 ++ two_words t1)
  | CONST_DOUBLE DImode low high | CONST_DOUBLE VOIDmode low high => Some (two_words high ++ two_words low)
  | _ => None
  end.

(** ** Printing operands *)

Definition putc (c : ascii) : string := String c "".
Definition print_operand_address (x : rtx) : option string :=
  let x := match x with MEM _ a => a | _ => x end in
  match x with
  | REG _ r => Some (reg_name r)
  | CONST_INT v => Some (percent_d (SIGN_EXTEND_SHORT v))
  | SYMBOL_REF _ _ _ | CONST _ _ | LABEL_REF _ _ => Some (d10v_output_addr_const x)
  | _ => None
  end.
(** The register inside, and the sum of the word numbers *)
Fixpoint subreg_base (x : rtx) (offset : Z) : rtx * Z :=
  match x with SUBREG _ x' w => subreg_base x' (offset + w) | _ => (x, offset) end.
Definition print_operand_memory_reference (x : rtx) : option string :=
  match x with
  | SUBREG _ _ _ =>
      match subreg_base x 0 with (REG _ r, offset) => Some ("@" +:+ reg_name (r + offset)) | _ => None end
  | REG _ r => Some ("@" +:+ reg_name r)
  | CONST_INT v => Some ("@(" +:+ percent_d (SIGN_EXTEND_SHORT v) +:+ "," +:+ reg_name GPR_ZERO_REGNUM +:+ ")")
  | SYMBOL_REF _ _ _ | CONST _ _ | LABEL_REF _ _ =>
      Some ("@(" +:+ d10v_output_addr_const x +:+ "," +:+ reg_name GPR_ZERO_REGNUM +:+ ")")
  | BINARY PLUS _ x0 x1 =>
      let '(x0, offset) := subreg_base x0 0 in
      match x0 with
      | REG _ r =>
          if CONSTANT_P x1 && GPR_P r then
            if is_zero x1 then Some ("@" +:+ reg_name (r + offset))
            else match x1 with
                 | CONST_INT v => Some ("@(" +:+ percent_d (SIGN_EXTEND_SHORT v) +:+ "," +:+ reg_name (r + offset) +:+ ")")
                 | _ => Some ("@(" +:+ d10v_output_addr_const x1 +:+ "," +:+ reg_name (r + offset) +:+ ")")
                 end
          else None
      | _ => None
      end
  | POST_INC _ (REG _ r) => if GPR_P r then Some ("@" +:+ reg_name r +:+ "+") else None
  | POST_DEC _ (REG _ r) =>
      if GPR_P r && negb (r =? STACK_POINTER_REGNUM) then Some ("@" +:+ reg_name r +:+ "-") else None
  | PRE_DEC _ (REG _ r) => if r =? STACK_POINTER_REGNUM then Some ("@-" +:+ reg_name r) else None
  | _ => None
  end.

(** The letters U and L: a word of two *)
Definition print_of_two (x : rtx) (regadd : Z) : option string :=
  match x with
  | CONST_INT _ | CONST_DOUBLE _ _ _ =>
      values ← d10v_split_constant32 x; Some (percent_d (SIGN_EXTEND_SHORT (nth (Z.to_nat regadd) values 0)))
  | REG _ r => Some (reg_name (r + regadd))
  | MEM _ a => if offsettable_memref_p x then print_operand_address (plus_constant a (regadd * UNITS_PER_WORD)) else None
  | _ => None
  end.
(** The letters A to D: a word of four *)
Definition print_of_four (x : rtx) (regadd : Z) : option string :=
  match x with
  | CONST_INT _ | CONST_DOUBLE _ _ _ => values ← d10v_split_constant64 x; Some (percent_d (nth (Z.to_nat regadd) values 0))
  | REG _ r => Some (reg_name (r + regadd))
  | MEM _ a =>
      if offsettable_memref_p x then print_operand_memory_reference (plus_constant a (regadd * UNITS_PER_WORD)) else None
  | _ => None
  end.
(** The letters F and T: a test of F0 *)
Definition print_true_false (x : rtx) (false_letter : bool) : option string :=
  match x with
  | BINARY code m (REG _ r) y =>
      if (bool_decide (code = NE) || bool_decide (code = EQ)) && (bool_decide (m = CCmode) || bool_decide (m = CC_REVmode))
         && (r =? F0_REGNUM) && is_zero y then
        let true_false := bool_decide (m = CC_REVmode) in
        let true_false := if false_letter then negb true_false else true_false in
        let true_false := if bool_decide (code = EQ) then negb true_false else true_false in
        Some (if true_false then "t" else "f")
      else None
  | _ => None
  end.
(** [letter] is [None] for 0; [x] is [None] for the null pointer. *)
Definition print_operand (x : option rtx) (letter : option ascii) : option string :=
  match letter with
  | None =>
      x ← x;
      match x with
      | REG _ r => Some (reg_name r)
      | CONST_INT v => Some (percent_d v)
      | MEM _ a => print_operand_address a
      | _ => if CONSTANT_P x then print_operand_address x else None
      end
  | Some "|"%char => Some " || "
  | Some "."%char => Some (reg_name GPR_ZERO_REGNUM)
  | Some "U"%char => x ← x; print_of_two x 0
  | Some "L"%char => x ← x; print_of_two x 1
  | Some "A"%char => x ← x; print_of_four x 0
  | Some "B"%char => x ← x; print_of_four x 1
  | Some "C"%char => x ← x; print_of_four x 2
  | Some "D"%char => x ← x; print_of_four x 3
  | Some "M"%char => x ← x; match x with MEM _ a => print_operand_memory_reference a | _ => None end
  | Some "F"%char => x ← x; print_true_false x true
  | Some "T"%char => x ← x; print_true_false x false
  | Some "b"%char =>
      x ← x;
      match x with
      | CONST_INT v =>
          if 0 <=? exact_log2 v then Some (percent_d (15 - exact_log2 v))
          else if 0 <=? exact_log2 (Z.lnot v) then Some (percent_d (15 - exact_log2 (Z.lnot v)))
          else None
      | _ => None
      end
  | Some "s"%char =>
      x ← x;
      match x with
      | CONST_INT v => if 0 <? ldi_shift_operand x then Some (percent_d (Z.shiftr v (ldi_shift_operand x))) else None
      | _ => None
      end
  | Some "S"%char =>
      x ← x;
      match x with
      | CONST_INT v => if 0 <? ldi_shift_operand x then Some (percent_d (ldi_shift_operand x)) else None
      | _ => None
      end
  | Some "u"%char => x ← x; Some (match x with UNARY ZERO_EXTEND _ _ => "u" | _ => "" end)
  | Some _ => None
  end.

(** ** Templates: gcc/final.c *)

Fixpoint alter_subreg (x : rtx) : rtx :=
  match x with
  | SUBREG m y w =>
      match alter_subreg y with
      | REG _ r => REG m (r + w)
      | MEM my a =>
          MEM m (plus_constant a (w * UNITS_PER_WORD
            - (Z.min UNITS_PER_WORD (GET_MODE_SIZE m) - Z.min UNITS_PER_WORD (GET_MODE_SIZE my))))
      | y => SUBREG m y w
      end
  | _ => x
  end.
Definition output_operand (x : option rtx) (code : option ascii) : option string :=
  let x := match x with Some (SUBREG _ _ _ as x) => Some (alter_subreg x) | _ => x end in
  match x with
  | Some (REG _ r) => if FIRST_PSEUDO_REGISTER <=? r then None else print_operand x code
  | _ => print_operand x code
  end.
Definition is_digit (c : ascii) : bool := ((48 <=? nat_of_ascii c) && (nat_of_ascii c <=? 57))%nat.
Definition is_letter (c : ascii) : bool :=
  (((97 <=? nat_of_ascii c) && (nat_of_ascii c <=? 122)) || ((65 <=? nat_of_ascii c) && (nat_of_ascii c <=? 90)))%nat.
(** [atoi], and what follows the digits *)
Fixpoint atoi (n : Z) (p : string) : Z * string :=
  match p with
  | String c p' => if is_digit c then atoi (10 * n + (Z.of_nat (nat_of_ascii c) - 48)) p' else (n, p)
  | EmptyString => (n, p)
  end.
(** The loop over the characters of the template; the fuel is its length. *)
Fixpoint expand (fuel : nat) (p : string) (operands : list rtx) : option string :=
  match fuel, p with
  | S fuel', String "%" p' =>
      match p' with
      | String c p'' =>
          if Ascii.eqb c "%" then t ← expand fuel' p'' operands; Some (putc "%" +:+ t)
          else if Ascii.eqb c "=" then t ← expand fuel' p'' operands; Some (percent_d insn_counter +:+ t)
          else if is_letter c then
            match p'' with
            | String d _ =>
                if is_digit d then
                  let '(n, rest) := atoi 0 p'' in
                  x ← operands !! Z.to_nat n;
                  o ← (if existsb (Ascii.eqb c) ["l"%char; "a"%char; "c"%char; "n"%char] then output_special c x
                       else output_operand (Some x) (Some c));
                  t ← expand fuel' rest operands; Some (o +:+ t)
                else None
            | EmptyString => None
            end
          else if is_digit c then
            let '(n, rest) := atoi 0 p' in
            x ← operands !! Z.to_nat n;
            o ← output_operand (Some x) None; t ← expand fuel' rest operands; Some (o +:+ t)
          else if Ascii.eqb c "|" || Ascii.eqb c "." then
            o ← output_operand None (Some c); t ← expand fuel' p'' operands; Some (o +:+ t)
          else None
      | EmptyString => None
      end
  | S fuel', String c p' => t ← expand fuel' p' operands; Some (putc c +:+ t)
  | _, EmptyString => Some ""
  | O, _ => None
  end.
(** An empty template makes no output. *)
Definition output_asm_insn (template : string) (operands : list rtx) : option string :=
  match template with
  | EmptyString => Some ""
  | _ => t ← expand (String.length template) template operands; Some (tab +:+ t +:+ newline)
  end.

(** ** Comparisons *)

(** A line break inside a template *)
Definition nl : string := newline +:+ tab.
(** The template, whether F0 is set when the condition holds, and [xop[3]] *)
Definition chosen : Type := string * bool * rtx.
(** 16-bit comparisons *)
Definition compare_16 (int_p : bool) (code : rtx_code) (op0 op1 : rtx) : option chosen :=
  let pick (a b : string) := if int_p then b else a in
  let next := plus_constant_for_output op1 1 in
  match code with
  | EQ => Some (pick "cmpeq %0,%1" "cmpeqi %0,%1", true, op1)
  | NE => Some (pick "cmpeq %0,%1" "cmpeqi %0,%1", false, op1)
  | LT => Some (pick "cmp %0,%1" "cmpi %0,%1", true, op1)
  | LE =>
      if negb int_p then Some ("cmp %1,%0", false, op1)
      else match op1 with
           | CONST_INT v => if v =? 32767 then Some ("cmpeqi %0,%1", true, op1) else Some ("cmpi %0,%3", true, next)
           | _ => Some ("cmpi %0,%3", true, next)
           end
  | GT =>
      if negb int_p then Some ("cmp %1,%0", true, op1)
      else match op1 with
           | CONST_INT v => if v =? 32767 then Some ("cmpeq %0,%0", false, op1) else Some ("cmpi %0,%3", false, next)
           | _ => Some ("cmpi %0,%3", false, next)
           end
  | GE => Some (pick "cmp %0,%1" "cmpi %0,%1", false, op1)
  | LTU => Some (pick "cmpu %0,%1" "cmpui %0,%1", true, op1)
  | LEU =>
      if negb int_p then Some ("cmpu %1,%0", false, op1)
      else match op1 with
           | CONST_INT v => if truth (Z.land (Z.lnot v) 65535) then Some ("cmpui %0,%3", true, next) else Some ("cmpeq %0,%0", true, op1)
           | _ => Some ("cmpui %0,%3", true, next)
           end
  | GTU =>
      if negb int_p then Some ("cmpu %1,%0", true, op1)
      else match op1 with
           | CONST_INT v => if truth (Z.land (Z.lnot v) 65535) then Some ("cmpui %0,%3", false, next) else Some ("cmpeq %0,%0", false, op1)
           | _ => Some ("cmpui %0,%3", false, next)
           end
  | GEU => Some (pick "cmpu %0,%1" "cmpui %0,%1", false, op1)
  | _ => None
  end.
(** 32-bit comparisons in the accumulators *)
Definition compare_acc (code : rtx_code) : option (string * bool) :=
  match code with
  | EQ => Some ("cmpeq %0,%1", true)
  | NE => Some ("cmpeq %0,%1", false)
  | LT => Some ("cmp %0,%1", true)
  | LE => Some ("cmp %1,%0", false)
  | GT => Some ("cmp %1,%0", true)
  | GE => Some ("cmp %0,%1", false)
  | _ => None
  end.
(** 32-bit comparisons in the general registers *)
Definition compare_32 (code : rtx_code) : option (string * bool) :=
  let equal := "cmpeq %U0,%U1" +:+ nl +:+ "exef0t || cmpeq %L0,%L1" in
  let less := "cmpeq %U0,%U1" +:+ nl +:+ "cmp %U0,%U1" +:+ nl +:+ "exef1t || cmpu %L0,%L1" in
  let greater := "cmpeq %U1,%U0" +:+ nl +:+ "cmp %U1,%U0" +:+ nl +:+ "exef1t || cmpu %L1,%L0" in
  let lessu := "cmpeq %U0,%U1" +:+ nl +:+ "cmpu %U0,%U1" +:+ nl +:+ "exef1t || cmpu %L0,%L1" in
  let greateru := "cmpeq %U1,%U0" +:+ nl +:+ "cmpu %U1,%U0" +:+ nl +:+ "exef1t || cmpu %L1,%L0" in
  match code with
  | EQ => Some (equal, true)
  | NE => Some (equal, false)
  | LT => Some (less, true)
  | LE => Some (greater, false)
  | GT => Some (greater, true)
  | GE => Some (less, false)
  | LTU => Some (lessu, true)
  | LEU => Some (greateru, false)
  | GTU => Some (greateru, true)
  | GEU => Some (lessu, false)
  | _ => None
  end.
(** 32-bit comparisons against 0 *)
Definition compare_zero (code : rtx_code) : option (string * bool) :=
  let equal := "cmpeqi %U0,0" +:+ nl +:+ "exef0t || cmpeqi %L0,0" in
  let not_above := "cmpeqi %U0,0" +:+ nl +:+ "cmpi %U0,0" +:+ nl +:+ "exef1t || cmpeqi %L0,0" in
  match code with
  | EQ | LEU => Some (equal, true)
  | NE | GTU => Some (equal, false)
  | LT => Some ("cmpi %U0,0", true)
  | LE => Some (not_above, true)
  | GT => Some (not_above, false)
  | GE => Some ("cmpi %U0,0" +:+ newline, false)
  | LTU => Some ("cmpeq %U0,%U0", false)
  | GEU => Some ("cmpeq %U0,%U0", true)
  | _ => None
  end.
(** 32-bit comparisons against a constant whose low half fits four bits *)
Definition compare_small (code : rtx_code) : option (string * bool) :=
  let equal := "cmpeqi %U0,%U1" +:+ nl +:+ "exef0t || cmpeqi %L0,%L1" in
  match code with
  | EQ => Some (equal, true)
  | NE => Some (equal, false)
  | _ => None
  end.
Definition reg_where (p : Z -> bool) (x : rtx) : bool := match x with REG _ r => p r | _ => false end.
Definition emit_comparison (code : rtx_code) (op0 op1 temp : rtx) (mode : machine_mode) (output_p : bool) : option (bool * string) :=
  let op1_int_p := CONSTANT_P op1 in
  let op0 := skip_subregs op0 in
  let op1 := skip_subregs op1 in
  let same (r : option (string * bool)) : option chosen := '(t, ret) ← r; Some (t, ret, op1) in
  '(template, ret, xop3) ←
    (if bool_decide (mode = HImode) then compare_16 op1_int_p code op0 op1
     else if bool_decide (mode = SImode) && reg_where ACCUM_P op0 && reg_where ACCUM_P op1 then same (compare_acc code)
     else if bool_decide (mode = SImode) && reg_where GPR_OR_PSEUDO_P op0 && reg_where GPR_OR_PSEUDO_P op1
     then same (compare_32 code)
     else if bool_decide (mode = SImode) && reg_where GPR_OR_PSEUDO_P op0 && is_zero op1 then same (compare_zero code)
     else if bool_decide (mode = SImode) && reg_where GPR_OR_PSEUDO_P op0
             && match op1 with CONST_INT v => IN_RANGE_P (SIGN_EXTEND_SHORT v) (-8) 7 | _ => false end
     then same (compare_small code)
     else None);
  if output_p then text ← output_asm_insn template [op0; op1; temp; xop3]; Some (ret, text) else Some (ret, "").

(** The mode of F0 says whether it is set when the condition holds. *)
Definition cc_mode (ret : bool) : machine_mode := if ret then CCmode else CC_REVmode.
Definition select_cc_mode (op : rtx_code) (x y : rtx) : option machine_mode :=
  '(ret, _) ← emit_comparison op x y (CONST_INT 0) (GET_MODE x) false; Some (cc_mode ret).
(** The instruction that sets F0, after the library call for 64 bits, and F0 *)
Definition expand_comparison (code : rtx_code) (op0 op1 : rtx) : option (rtx * rtx) :=
  let unsigned_p := bool_decide (code = GTU) || bool_decide (code = GEU) || bool_decide (code = LTU) || bool_decide (code = LEU) in
  let '(op0, op1) :=
    if bool_decide (GET_MODE op0 = DImode) then
      (if is_zero op1
       then emit_library_call_value (if unsigned_p then "__ucmpdi0" else "__cmpdi0") HImode [(op0, DImode)]
       else emit_library_call_value (if unsigned_p then "__ucmpdi" else "__cmpdi") HImode [(op0, DImode); (op1, DImode)],
       CONST_INT 1)
    else (op0, op1) in
  '(ret, _) ← emit_comparison code op0 op1 (CONST_INT 0) (GET_MODE op0) false;
  let f0 := REG (cc_mode ret) F0_REGNUM in
  Some (SET f0 (BINARY code (cc_mode ret) op0 op1), f0).

(** ** Sums and differences of several words *)

(** Several calls of [output_asm_insn] *)
Fixpoint output_all (templates : list string) (operands : list rtx) : option string :=
  match templates with
  | [] => Some ""
  | t :: ts => a ← output_asm_insn t operands; b ← output_all ts operands; Some (a +:+ b)
  end.
(** The carry out of the lowest word that has been added goes through the words above it. *)
Definition add_carries (three : bool) : list string :=
  ["cpfg f0,c"] ++ (if three then ["exef0t || addi %C0,1"; "cpfg f0,c || exef0t"] else []) ++
  ["exef0t || addi %B0,1"; "cpfg f0,c || exef0t"; "exef0t || addi %A0,1"].
(** A constant added to the lowest word of four *)
Definition add_lowest (value regno0 regno1 : Z) : list string :=
  if IN_RANGE_P value 1 16 && (regno0 =? regno1) then ["addi %D0,%2"]
  else if IN_RANGE_P value 1 16 && TARGET_SMALL_INSNS && optimize then ["mv %D0,%D1" +:+ nl +:+ "addi %D0,%2"]
  else ["add3 %D0,%D1,%2"].
(** What has been output, and the template that is returned to be output *)
Definition emit_add (operands : list rtx) : option (string * string) :=
  op0 ← operands !! 0%nat; op1 ← operands !! 1%nat; op2 ← operands !! 2%nat;
  let mode := GET_MODE op0 in
  let regno0 := regno_of op0 in
  let regno1 := regno_of op1 in
  let regno2 := regno_of op2 in
  if bool_decide (mode = SImode) then
    match op2 with
    | CONST_INT value =>
        if negb (regno0 =? regno1)
        then Some ("", "ldi %U0,%U2" +:+ nl +:+ "ldi %L0,%L2" +:+ nl +:+ "add2w %0,%1")
        else if value <? 0 then None
        else if GPR_P regno0 && GPR_P regno1 then
          if IN_RANGE_P value 1 16 && (regno0 =? regno1)
          then Some ("", "addi %L0,%2" +:+ nl +:+ "cpfg f0,c" +:+ nl +:+ "exef0t || addi %U0,1")
          else if regno0 =? regno1
          then Some ("", "add3 %L0,%L0,%2" +:+ nl +:+ "cpfg f0,c" +:+ nl +:+ "exef0t || addi %U0,1")
          else Some ("", "add3 %L0,%L1,%2" +:+ nl +:+ "cpfg f0,c || mv %U0,%U1" +:+ nl +:+ "exef0t || addi %U0,1")
        else None
    | _ =>
        if GPR_P regno0 && (regno0 =? regno1) && GPR_P regno2 then Some ("", "add2w %0,%2")
        else if ACCUM_P regno0 && (regno0 =? regno1) && (GPR_P regno2 || ACCUM_P regno2) then Some ("", "add %0,%2")
        else if GPR_P regno0 && (GPR_P regno1 || ACCUM_P regno1) && ACCUM_P regno2 && TARGET_ADDAC3
        then Some ("", "addac3 %0,%1,%2")
        else None
    end
  else if bool_decide (mode = DImode) && (regno0 =? regno1) && GPR_P regno0 then
    let output l := text ← output_all l operands; Some (text, "") in
    if GPR_P regno2 then output (["add2w %A0,%A2"; "add2w %C0,%C2"] ++ add_carries false)
    else match op2 with
         | CONST_INT value => if 0 <=? value then output (add_lowest value regno0 regno1 ++ add_carries true) else None
         | CONST_DOUBLE _ low high =>
             if (high =? 0) && (0 <=? low) then output (add_lowest low regno0 regno1 ++ add_carries true) else None
         | _ => None
         end
  else None.
Definition emit_subtract (operands : list rtx) : option string :=
  op0 ← operands !! 0%nat; op1 ← operands !! 1%nat; op2 ← operands !! 2%nat;
  let mode := GET_MODE op0 in
  let regno0 := regno_of op0 in
  let regno1 := regno_of op1 in
  let regno2 := regno_of op2 in
  if bool_decide (mode = SImode) then
    if GPR_P regno0 && (regno0 =? regno1) && GPR_P regno2 then Some "sub2w %0,%2"
    else if ACCUM_P regno0 && (regno0 =? regno1) && (GPR_P regno2 || ACCUM_P regno2) then Some "sub %0,%2"
    else if GPR_P regno0 && (GPR_P regno1 || ACCUM_P regno1) && ACCUM_P regno2 && TARGET_ADDAC3 then Some "subac3 %0,%1,%2"
    else None
  else if bool_decide (mode = DImode) && GPR_P regno0 && (regno0 =? regno1) && GPR_P regno2 then
    Some ("sub2w %A0,%A2" +:+ nl +:+ "sub2w %C0,%C2" +:+ nl +:+ "cpfg f0,c" +:+ nl +:+ "exef0f || subi %B0,1" +:+ nl +:+
          "cpfg f0,c || exef0f" +:+ nl +:+ "exef0f || subi %A0,1")
  else None.

(** ** Moves *)

(** [refers_to_regno_p] of gcc/rtlanal.c, without a location to leave out *)
Definition FIRST_VIRTUAL_REGISTER : Z := FIRST_PSEUDO_REGISTER.
Definition LAST_VIRTUAL_REGISTER : Z := FIRST_VIRTUAL_REGISTER + 3.
Fixpoint refers_to_regno_p (regno endregno : Z) (x : rtx) : bool :=
  match x with
  | REG m i =>
      if ((i =? STACK_POINTER_REGNUM) || (i =? ARG_POINTER_REGNUM) || (i =? FRAME_POINTER_REGNUM))
         && (FIRST_VIRTUAL_REGISTER <=? regno) && (regno <=? LAST_VIRTUAL_REGISTER)
      then true
      else (i <? endregno) && (regno <? i + (if i <? FIRST_PSEUDO_REGISTER then HARD_REGNO_NREGS i m else 1))
  | SUBREG m y w =>
      match y with
      | REG _ i =>
          if i <? FIRST_PSEUDO_REGISTER then
            let inner := i + w in
            (inner <? endregno) && (regno <? inner + (if inner <? FIRST_PSEUDO_REGISTER then HARD_REGNO_NREGS regno m else 1))
          else refers_to_regno_p regno endregno y
      | _ => refers_to_regno_p regno endregno y
      end
  | MEM _ y | CONST _ y | POST_INC _ y | POST_DEC _ y | PRE_DEC _ y | UNARY _ _ y => refers_to_regno_p regno endregno y
  | BINARY _ _ y z => refers_to_regno_p regno endregno z || refers_to_regno_p regno endregno y
  | SET d y =>
      match d with
      | SUBREG _ (REG _ i as r) _ => (FIRST_PSEUDO_REGISTER <=? i) && refers_to_regno_p regno endregno r
      | _ => false
      end || (negb (is_reg d) && refers_to_regno_p regno endregno d) || refers_to_regno_p regno endregno y
  | CONST_INT _ | CONST_DOUBLE _ _ _ | SYMBOL_REF _ _ _ | LABEL_REF _ _ => false
  end.

Definition emit_move_word (op0 op1 : rtx) : option string :=
  let gpr0 := reg_where GPR_P op0 in
  match op0, op1 with
  | REG _ reg0, REG _ reg1 =>
      if GPR_P reg0 && GPR_P reg1 then Some "mv %0,%1"
      else if GPR_P reg0 && CR_P reg1 then Some "mvfc %0,%1"
      else if CR_P reg0 && GPR_P reg1 then Some "mvtc %1,%0"
      else if GPR_P reg0 && (reg1 =? F0_REGNUM) then Some "setf0t %0"
      else None
  | _, _ =>
      if gpr0 && is_mem op1 then Some "ld %0,%M1"
      else if is_mem op0 && reg_where GPR_P op1 then Some "st %1,%M0"
      else if is_mem op0 && is_zero op1 then Some "st %.,%M0"
      else if gpr0 && match op1 with SYMBOL_REF _ _ flag => flag | _ => false end then Some "ldi %0,%1@word"
      else if gpr0 && is_const_int op1 && truth (ldi_shift_operand op1) then Some ("ldi %0,%s1" +:+ nl +:+ "slli %0,%S1")
      else if gpr0 && match op1 with CONST_INT _ | SYMBOL_REF _ _ _ | LABEL_REF _ _ | CONST _ _ => true | _ => false end
      then Some "ldi %0,%1"
      else None
  end.
(** The template # asks for a split. *)
Definition emit_move_2words (op0 op1 : rtx) : option string :=
  let gpr0 := reg_where GPR_P op0 in
  match op0, op1 with
  | REG _ reg0, REG _ reg1 =>
      if GPR_P reg0 && GPR_P reg1 then Some "mv2w %0,%1"
      else if GPR_P reg0 && ACCUM_P reg1 then Some "mv2wfac %0,%1"
      else if ACCUM_P reg0 && GPR_P reg1 then Some "mv2wtac %1,%0"
      else None
  | _, _ =>
      if gpr0 && is_mem op1 then Some "ld2w %0,%M1"
      else if is_mem op0 && reg_where GPR_P op1 then Some "st2w %1,%M0"
      else if gpr0 && is_number op1 then Some "#"
      else if reg_where ACCUM_P op0 && is_zero op1 then Some "clrac %0"
      else None
  end.

Definition mem_address (x : rtx) : rtx := match x with MEM _ a => a | _ => x end.
(** An address register for which automatic increments are used *)
Definition short_base (addr : rtx) : bool := reg_where (fun r => negb (r =? STACK_POINTER_REGNUM)) addr.
(** The scratch registers of a move from memory to memory: which of the two is used *)
Definition scratch_mode (m : machine_mode) (x : option rtx) : bool :=
  match x with Some (REG m' _) => bool_decide (m' = m) | _ => false end.
Definition choose_scratch (op0 op1 tmp_si tmp_hi : rtx) : option (option rtx * option rtx) :=
  let refers r e := refers_to_regno_p r e op0 || refers_to_regno_p r e op1 in
  let reg := regno_of tmp_si in
  if scratch_mode SImode (Some tmp_si) then
    if refers reg (reg + 2) then
      if negb (refers reg (reg + 1)) then Some (None, Some (REG HImode reg))
      else if negb (refers (reg + 1) (reg + 2)) then Some (None, Some (REG HImode (reg + 1)))
      else None
    else Some (Some tmp_si, Some tmp_hi)
  else if scratch_mode HImode (Some tmp_hi) then
    if refers (regno_of tmp_hi) (regno_of tmp_hi + 1) then None else Some (Some tmp_si, Some tmp_hi)
  else Some (Some tmp_si, Some tmp_hi).
(** The words of a constant that is stored *)
Definition stored_parts (op1 : rtx) : list Z :=
  let halves v := [Z.land (Z.shiftr v 16) 0xffff; Z.land v 0xffff] in
  match op1 with
  | CONST_INT value => (if value <? 0 then [0xffff; 0xffff] else [0; 0]) ++ halves value
  | CONST_DOUBLE _ low high => halves high ++ halves low
  | _ => []
  end.
Definition store_constant (parts : list Z) : string :=
  let part k := nth k parts 0 in
  let first := "ldi %U2,%A1" +:+ nl +:+ "ldi %L2,%B1" +:+ nl +:+ "st2w %2,%A0" in
  if (part 0%nat =? part 2%nat) && (part 1%nat =? part 3%nat) then first +:+ nl +:+ "st2w %2,%C0"
  else if part 0%nat =? part 2%nat then first +:+ nl +:+ "ldi %L2,%D1" +:+ nl +:+ "st2w %2,%C0"
  else if part 1%nat =? part 3%nat then first +:+ nl +:+ "ldi %U2,%C1" +:+ nl +:+ "st2w %2,%C0"
  else first +:+ nl +:+ "ldi %U2,%C1" +:+ nl +:+ "ldi %L2,%D1" +:+ nl +:+ "st2w %2,%C0".
Definition emit_move_4words (op0 op1 tmp_si tmp_hi : rtx) : option string :=
  let gpr0_p := reg_where GPR_P op0 in
  let gpr1_p := reg_where GPR_P op1 in
  let reg0 := regno_of op0 in
  let reg1 := regno_of op1 in
  let high_first := "mv2w %A0,%A1" +:+ nl +:+ "mv2w %C0,%C1" in
  let low_first := "mv2w %C0,%C1" +:+ nl +:+ "mv2w %A0,%A1" in
  if gpr0_p && refers_to_regno_p reg0 (reg0 + 2) op1 then
    if gpr1_p then Some (if reg0 =? reg1 + 2 then low_first else high_first)
    else if is_mem op1 then Some ("ld2w %C0,%C1" +:+ nl +:+ "ld2w %A0,%A1")
    else None
  else if gpr0_p && gpr1_p then Some (if reg0 =? reg1 + 2 then low_first else high_first)
  else if gpr0_p && is_mem op1 then
    let addr := mem_address op1 in
    if short_base addr && negb (IN_RANGE_P (regno_of addr) reg0 (reg0 + 3))
    then Some ("ld2w %A0,@%1+" +:+ nl +:+ "ld2w %C0,@%1-")
    else if short_base addr && IN_RANGE_P (regno_of addr) (reg0 + 2) (reg0 + 3)
    then Some ("ld2w %A0,@%1+" +:+ nl +:+ "ld2w %C0,@%1")
    else Some ("ld2w %A0,%A1" +:+ nl +:+ "ld2w %C0,%C1")
  else if is_mem op0 && gpr1_p then
    let addr := mem_address op0 in
    if short_base addr && negb (IN_RANGE_P (regno_of addr) reg1 (reg1 + 3))
    then Some ("st2w %A1,@%0+" +:+ nl +:+ "st2w %C1,@%0-")
    else Some ("st2w %A1,%A0" +:+ nl +:+ "st2w %C1,%C0")
  else if is_mem op0 && is_mem op1 then
    '(tmp_si, tmp_hi) ← choose_scratch op0 op1 tmp_si tmp_hi;
    if scratch_mode SImode tmp_si
    then Some ("ld2w %2,%A1" +:+ nl +:+ "st2w %2,%A0" +:+ nl +:+ "ld2w %2,%C1" +:+ nl +:+ "st2w %2,%C0")
    else if scratch_mode HImode tmp_hi
    then Some ("ld %3,%A1" +:+ newline +:+ "st %3,%A0" +:+ newline +:+ "ld %3,%B1" +:+ newline +:+ "st %3,%B0" +:+ newline +:+
               "ld %3,%C1" +:+ newline +:+ "st %3,%C0" +:+ newline +:+ "ld %3,%D1" +:+ newline +:+ "st %3,%D0" +:+ newline)
    else None
  else if gpr0_p && is_number op1 then
    Some ("ldi %A0,%A1" +:+ nl +:+ "ldi %B0,%B1" +:+ nl +:+ "ldi %C0,%C1" +:+ nl +:+ "ldi %D0,%D1")
  else if is_mem op0 && (is_zero op1 || match op1 with CONST_DOUBLE _ low high => (low =? 0) && (high =? 0) | _ => false end)
  then Some ("st %.,%A0" +:+ nl +:+ "st %.,%B0" +:+ nl +:+ "st %.,%C0" +:+ nl +:+ "st %.,%D0")
  else if is_mem op0 && is_number op1 && scratch_mode SImode (Some tmp_si) then Some (store_constant (stored_parts op1))
  else None.

(** ** Conditional moves *)

(** The mnemonics by mode: load, store, moves when F0 is clear and when it is set *)
Definition cond_mnemonics (m : machine_mode) : option (string * string * string * string) :=
  match m with
  | QImode => Some ("ldub", "stb", "mvf0f %0,%1", "mvf0t %0,%1")
  | HImode => Some ("ld", "st", "mvf0f %0,%1", "mvf0t %0,%1")
  | SImode | SFmode => Some ("ld2w", "st2w", "exef0f || mv2w %0,%1", "exef0t || mv2w %0,%1")
  | _ => None
  end.
(** The value [x] into the register [dest] when F0 is set, or is clear *)
Definition move_when (set : bool) (m : machine_mode) (dest x : rtx) : option string :=
  '(load, _, move_false, move_true) ← cond_mnemonics m;
  let test := if set then "exef0t" else "exef0f" in
  match x with
  | REG _ _ => output_asm_insn (if set then move_true else move_false) [dest; x]
  | MEM _ _ => output_asm_insn (load +:+ " %0,%M1 || " +:+ test) [dest; x]
  | CONST_INT _ => output_asm_insn (test +:+ " || ldi %0,%1") [dest; x]
  | _ => None
  end.
(** A register or, if it can be stored from the register that is 0, the constant 0 *)
Definition storable (m : machine_mode) (x : rtx) : bool := is_reg x || (is_zero x && (GET_MODE_SIZE m <=? 2)).
Definition emit_cond_move (operands : list rtx) : option string :=
  dest ← operands !! 0%nat; test ← operands !! 1%nat; op3 ← operands !! 3%nat; op4 ← operands !! 4%nat;
  let reversed := bool_decide (GET_MODE test = CC_REVmode) in
  let op_true := if reversed then op4 else op3 in
  let op_false := if reversed then op3 else op4 in
  let mode := GET_MODE dest in
  let r := regno_of dest in
  '(load, store, move_false, move_true) ← cond_mnemonics mode;
  if is_reg dest && is_const_int op_false && negb (refers_to_regno_p r (r + 1) op_true) then
    a ← output_asm_insn "ldi %0,%1" [dest; op_false];
    b ← move_when true mode dest op_true; Some (a +:+ b)
  else if is_reg dest && is_const_int op_true && negb (refers_to_regno_p r (r + 1) op_false) then
    a ← output_asm_insn "ldi %0,%1" [dest; op_true];
    b ← (if is_const_int op_false then None else move_when false mode dest op_false); Some (a +:+ b)
  else if is_reg dest then
    a ← (if is_reg op_false && (regno_of op_false =? r) then Some "" else move_when false mode dest op_false);
    b ← (if is_reg op_true && (regno_of op_true =? r) then Some "" else move_when true mode dest op_true);
    Some (a +:+ b)
  else if is_mem dest && storable mode op_false && storable mode op_true then
    let value x := if is_const_int x then "%." else "%1" in
    a ← output_asm_insn (store +:+ " " +:+ value op_false +:+ ",%M0 || exef0f") [dest; op_false];
    b ← output_asm_insn (store +:+ " " +:+ value op_true +:+ ",%M0 || exef0t") [dest; op_true];
    Some (a +:+ b)
  else None.

(** ** Logical operations of several words *)

(** The register inside a subreg, and its word *)
Definition subreg_reg (x : rtx) : rtx * Z := match x with SUBREG _ r w => (r, w) | _ => (x, 0) end.
Definition code_needs_op2 (code : rtx_code) : bool := negb (bool_decide (code = NOT)).
(** The words of a constant operand; [None]: the operand is not one that can be split. *)
Definition split_values (mode : machine_mode) (code : rtx_code) (op2 : rtx) : option (list Z) :=
  if negb (code_needs_op2 code) then Some []
  else if is_number op2 then
    match mode with
    | DImode => d10v_split_constant64 op2
    | SImode => d10v_split_constant32 op2
    | _ => None
    end
  else if is_reg op2 then Some [] else None.
(** One round of the loop: the word [i] *)
Definition split_word (code : rtx_code) (op0 op1 op2 : rtx) (off0 off1 off2 : Z) (values : list Z) (i : Z) : list rtx :=
  let split_op0 := SUBREG HImode op0 (i + off0) in
  let split_op1 := SUBREG HImode op1 (i + off1) in
  let value := nth (Z.to_nat i) values 0 in
  if negb (code_needs_op2 code) then [SET split_op0 (UNARY NOT HImode split_op1)]
  else if negb (is_reg op2) then
    let unchanged := ((value =? 0) && bool_decide (code = IOR)) || ((Z.land value 0xffff =? 0xffff) && bool_decide (code = AND)) in
    if (regno_of op0 + i + off0 =? regno_of op1 + i + off1) && unchanged then []
    else if negb (regno_of op0 + i + off0 =? regno_of op1 + i + off1) && unchanged then [SET split_op0 split_op1]
    else [SET split_op0 (BINARY code HImode split_op1 (CONST_INT value))]
  else [SET split_op0 (BINARY code HImode split_op1 (SUBREG HImode op2 (i + off2)))].
Definition d10v_split_logical_op (operands : list rtx) (code : rtx_code) : option (list rtx) :=
  op0 ← operands !! 0%nat; op1 ← operands !! 1%nat;
  op2 ← (if code_needs_op2 code then operands !! 2%nat else Some (CONST_INT 0));
  let mode := GET_MODE op0 in
  let '(op0, off0) := subreg_reg op0 in
  let '(op1, off1) := subreg_reg op1 in
  let '(op2, off2) := subreg_reg op2 in
  if negb (is_reg op0) || negb (is_reg op1) then None
  else
    values ← split_values mode code op2;
    let max_words := GET_MODE_SIZE mode / UNITS_PER_WORD in
    Some (concat (map (fun i => split_word code op0 op1 op2 off0 off1 off2 values (Z.of_nat i)) (seq 0 (Z.to_nat max_words)))).

(** ** Words of an operand *)

(** The messages of [error], which does not stop, and the word; [None]: a fatal error, or a
    word of the array that has not been set. *)
Definition subword_size_error (mode : machine_mode) (word_num : Z) : list string :=
  if GET_MODE_SIZE mode <=? UNITS_PER_WORD * word_num
  then ["div10_subword: Internal error -- word_num (%d) is too large for mode %s"] else [].
Definition subword_of (op : rtx) (word_num : Z) (target_mode source_mode : machine_mode) : list string * option rtx :=
  match op with
  | REG m r =>
      (subword_size_error m word_num,
       Some (if reload_completed then REG target_mode (r + word_num) else SUBREG target_mode op word_num))
  | SUBREG m _ _ =>
      (subword_size_error m word_num,
       if reload_completed
       then match subreg_base op word_num with (REG _ r, n) => Some (REG target_mode (r + n)) | _ => None end
       else Some (SUBREG target_mode op word_num))
  | MEM _ a =>
      ([], Some (if word_num =? 0 then op else change_address op target_mode (plus_constant a (word_num * 16))))
  | CONST_INT _ | CONST_DOUBLE _ _ _ =>
      let word (values : list Z) k := v ← values !! Z.to_nat k; Some (SIGN_EXTEND_SHORT v) in
      if GET_MODE_SIZE source_mode =? 2 then
        (if 1 <? word_num then ["div10_subword: Internal error -- word_num (%d) is too large for 32-bit constants"] else [],
         values ← d10v_split_constant32 op; v ← word values word_num; Some (CONST_INT v))
      else if GET_MODE_SIZE source_mode =? 4 then
        ([], values ← d10v_split_constant32 op; v ← word values word_num; Some (CONST_INT v))
      else if GET_MODE_SIZE source_mode =? 8 then
        ([], values ← d10v_split_constant64 op;
             v ← word values word_num;
             if GET_MODE_SIZE target_mode =? 4 then
               low ← values !! Z.to_nat (word_num + 1);
               Some (CONST_INT (Z.land (s32 (Z.shiftl v 16)) (Z.land low 0xffff)))
             else Some (CONST_INT v))
      else ([], None)
  | _ => ([], None)
  end.
Definition d10v_subword (op : rtx) (word_num : Z) (target_mode source_mode : machine_mode) : list string * option rtx :=
  let '(errors, x) := subword_of op word_num target_mode source_mode in
  ((if IN_RANGE_P word_num 0 3 then [] else ["div10_subword_mode: Internal error -- word_num (%d) should be >= 0 && <= 3"]) ++
   (if bool_decide (target_mode = SImode) && negb (word_num =? 0) && negb (word_num =? 2)
    then ["div10_subword_mode: Internal error -- word_num (%d) should be 0 or 2 for SImode"] else []) ++
   (if negb (bool_decide (target_mode = HImode)) && negb (bool_decide (target_mode = SImode))
    then ["d10v_subword_mode: Internal error -- target_mode (%s) must be HImode or SImode"] else []) ++ errors, x).
End Rtl.

(** A compiler with small instructions that optimizes, after reload *)
Definition plain_compiler : Compiler := {|
  insn_counter := 0;
  output_special := fun _ _ => None;
  TARGET_SMALL_INSNS := true;
  TARGET_ADDAC3 := false;
  optimize := true;
  plus_constant_rest := fun x n => BINARY PLUS HImode x (CONST_INT n);
  d10v_output_addr_const := fun x => match x with SYMBOL_REF _ name _ => name | _ => "" end;
  offsettable_memref_p := fun _ => true;
  REAL_VALUE_TO_TARGET_SINGLE := fun low _ => low;
  REAL_VALUE_TO_TARGET_DOUBLE := fun low high => (high, low);
  emit_library_call_value := fun _ mode _ => REG mode 0;
  change_address := fun _ mode a => MEM mode a;
  reload_completed := true
|}.
