(* ===== verification/Hash.v ===== *)
(** * The assembler's symbol table: gas/hash.c

    Open addressing with linear probing: an array of [2 ^ hash_sizelog] entries and one
    more, the wall, which is always empty and stops a search at the end of the array; the
    search then goes on at its beginning.  The array is doubled when it is more than half
    full.  [hash_new], [hash_find], [hash_insert], [hash_jam], [hash_replace],
    [hash_delete] and [hash_grow], with the statistics; what is compiled only for the
    test program is not modelled. *)
From S2P Require Import Prelude CInt.
#[local] Open Scope string_scope.
#[local] Open Scope list_scope.
#[local] Open Scope Z_scope.

Definition START_POWER : Z := 10.
Definition STAT_SIZE : nat := 0.
Definition STAT_ACCESS : nat := 1.
Definition STAT_COLLIDE : nat := 3.
Definition STAT_USED : nat := 5.
Definition STAT_STRCMP : nat := 6.
Definition STATLENGTH : nat := 8.
Definition STAT__READ : nat := 0.
Definition STAT__WRITE : nat := 1.
Definition GROW_FACTOR : Z := 1.
Definition FULL_VALUE (n : Z) : Z := Z.quot n 2.

(** A pointer to a name: [NULL], the address [DELETED], or the address of a string *)
Inductive name_ptr := NULL | DELETED | NAME (p : Z).
Record hash_entry := Entry { hash_string : name_ptr; hash_value : Z; h : Z }.
(** [hash_where] holds the entries and the wall, [hash_wall] is the wall's index. *)
Record hash_control := Control {
  hash_where : list hash_entry;
  hash_sizelog : Z;
  hash_mask : Z;
  hash_full : Z;
  hash_wall : Z;
  hash_stat : list Z
}.
Definition stat (k : nat) (c : hash_control) : Z := nth k (hash_stat c) 0.
Definition set_stat (k : nat) (v : Z) (c : hash_control) : hash_control :=
  Control (hash_where c) (hash_sizelog c) (hash_mask c) (hash_full c) (hash_wall c) (<[k := v]> (hash_stat c)).
Definition add_stat (k : nat) (n : Z) (c : hash_control) : hash_control := set_stat k (s32 (stat k c + n)) c.
Definition set_entry (slot : nat) (e : hash_entry) (c : hash_control) : hash_control :=
  Control (<[slot := e]> (hash_where c)) (hash_sizelog c) (hash_mask c) (hash_full c) (hash_wall c) (hash_stat c).

(** The strings that are not initialized are [NULL]; the other members of a new entry are
    not read before they are written. *)
Definition vacant (n : Z) : list hash_entry := repeat (Entry NULL 0 0) (Z.to_nat (n + 1)).
Definition hash_new : hash_control :=
  let size := Z.shiftl 1 START_POWER in
  Control (vacant size) START_POWER (size - 1) (FULL_VALUE size) size (<[STAT_SIZE := size]> (repeat 0 STATLENGTH)).

Section Table.
(** The strings at the addresses that the callers pass: they are preserved as long as the
    table holds them. *)
Context (text : Z -> string).

(** [char] is signed. *)
Definition char_value (c : Ascii.ascii) : Z := wrap_signed 8 (Z.of_nat (Ascii.nat_of_ascii c)).
Fixpoint hash_code_loop (n hc : Z) (string : string) : Z :=
  match string with
  | EmptyString => hc
  | String c string' =>
      let c := char_value c in
      let hc := s32 (hc + c) in
      hash_code_loop n (s32 (s32 (s32 (Z.shiftl hc 3) + Z.shiftr hc n) + c)) string'
  end.
Definition hash_code (c : hash_control) (string : Z) : Z := hash_code_loop (hash_sizelog c - 3) 0 (text string).

(** One of the two loops of [hash_ask]: how far it goes, whether it finds the name, and the
    collisions and comparisons on the way.  [None]: it runs out of the array. *)
Fixpoint hash_scan (string hcode : Z) (l : list hash_entry) : option (nat * bool * Z * Z) :=
  match l with
  | [] => None
  | slot :: l' =>
      match hash_string slot with
      | NULL | DELETED => Some (0%nat, false, 0, 0)
      | NAME s =>
          if string =? s then Some (0%nat, true, 0, 0)
          else
            let same_h := h slot =? u32 hcode in
            if same_h && bool_decide (text string = text s) then Some (0%nat, true, 0, 0)
            else
              match hash_scan string hcode l' with
              | None => None
              | Some (k, found, collision, strcmps) =>
                  Some (S k, found, collision + 1, if same_h then strcmps + 1 else strcmps)
              end
      end
  end.
(** The slot, and [hash_found] *)
Definition hash_ask (c : hash_control) (string : Z) (access_type : nat) : option (nat * bool * hash_control) :=
  let hcode := hash_code c string in
  let start := Z.to_nat (Z.land hcode (hash_mask c)) in
  let c := add_stat (STAT_ACCESS + access_type) 1 c in
  match hash_scan string hcode (drop start (hash_where c)) with
  | None => None
  | Some (k, found, collision, strcmps) =>
      let r :=
        if Z.of_nat (start + k) =? hash_wall c then
          match hash_scan string hcode (hash_where c) with
          | None => None
          | Some (k, found, collision', strcmps') => Some (k, found, collision + collision', strcmps + strcmps')
          end
        else Some ((start + k)%nat, found, collision, strcmps) in
      match r with
      | None => None
      | Some (slot, found, collision, strcmps) =>
          let c := add_stat (STAT_COLLIDE + access_type) collision c in
          let c := add_stat (STAT_STRCMP + access_type) strcmps c in
          let c := if found then c
                   else match hash_where c !! slot with
                        | Some e => set_entry slot (Entry (hash_string e) (hash_value e) (u32 hcode)) c
                        | None => c
                        end in
          Some (slot, found, c)
      end
  end.
Definition entry_value (c : hash_control) (slot : nat) : Z :=
  match hash_where c !! slot with Some e => hash_value e | None => 0 end.
(** Writing a member of the entry that [hash_ask] returned *)
Definition change_entry (slot : nat) (f : hash_entry -> hash_entry) (c : hash_control) : hash_control :=
  match hash_where c !! slot with Some e => set_entry slot (f e) c | None => c end.
Definition put_string (s : name_ptr) (e : hash_entry) : hash_entry := Entry s (hash_value e) (h e).
Definition put_value (v : Z) (e : hash_entry) : hash_entry := Entry (hash_string e) v (h e).

(** The value, 0 for NULL *)
Definition hash_find (c : hash_control) (string : Z) : option (Z * hash_control) :=
  match hash_ask c string STAT__READ with
  | None => None
  | Some (slot, found, c) => Some (if found then entry_value c slot else 0, c)
  end.
Definition hash_delete (c : hash_control) (string : Z) : option (Z * hash_control) :=
  match hash_ask c string STAT__WRITE with
  | None => None
  | Some (slot, found, c) =>
      if found then Some (entry_value c slot, add_stat STAT_USED (-1) (change_entry slot (put_string DELETED) c))
      else Some (0, c)
  end.
Definition hash_replace (c : hash_control) (string value : Z) : option (Z * hash_control) :=
  match hash_ask c string STAT__WRITE with
  | None => None
  | Some (slot, found, c) =>
      if found then Some (entry_value c slot, change_entry slot (put_value value) c) else Some (0, c)
  end.

(** [hash_grow] calls [hash_jam] for each entry of the old array, and [hash_jam] calls
    [hash_grow] when the table is full.  There is no error: [xmalloc] does not return
    without memory. *)
Fixpoint regrow (jam : hash_control -> Z -> Z -> option hash_control) (old : list hash_entry) (c : hash_control) : option hash_control :=
  match old with
  | [] => Some c
  | e :: old' =>
      match hash_string e with
      | NAME string => match jam c string (hash_value e) with Some c => regrow jam old' c | None => None end
      | _ => regrow jam old' c
      end
  end.
Definition hash_grow_with (jam : hash_control -> Z -> Z -> option hash_control) (c : hash_control) : option hash_control :=
  let newsize := s32 (Z.shiftl (stat STAT_SIZE c) GROW_FACTOR) in
  let c' := Control (vacant newsize) (hash_sizelog c + GROW_FACTOR) (s32 (Z.shiftl (hash_mask c + 1) GROW_FACTOR) - 1)
              (s32 (Z.shiftl (hash_full c) GROW_FACTOR)) newsize (<[STAT_SIZE := newsize]> (hash_stat c)) in
  regrow jam (take (Z.to_nat (hash_wall c)) (hash_where c)) (set_stat STAT_USED 0 c').
Fixpoint hash_jam (fuel : nat) (c : hash_control) (string value : Z) : option hash_control :=
  let grown :=
    if hash_full c <? stat STAT_USED c
    then match fuel with O => None | S fuel' => hash_grow_with (hash_jam fuel') c end
    else Some c in
  match grown with
  | None => None
  | Some c =>
      match hash_ask c string STAT__WRITE with
      | None => None
      | Some (slot, found, c) =>
          let c := if found then c else add_stat STAT_USED 1 (change_entry slot (put_string (NAME string)) c) in
          Some (change_entry slot (put_value value) c)
      end
  end.
Definition hash_grow (fuel : nat) (c : hash_control) : option hash_control := hash_grow_with (hash_jam fuel) c.
(** The error string, or [None] *)
Definition hash_insert (fuel : nat) (c : hash_control) (string value : Z) : option (option String.string * hash_control) :=
  match (if hash_full c <? stat STAT_USED c then hash_grow fuel c else Some c) with
  | None => None
  | Some c =>
      match hash_ask c string STAT__WRITE with
      | None => None
      | Some (slot, found, c) =>
          if found then Some (Some "exists", c)
          else Some (None, add_stat STAT_USED 1
                 (change_entry slot (put_string (NAME string)) (change_entry slot (put_value value) c)))
      end
  end.
End Table.
