(* ===== verification/HashSpec.v ===== *)
(** * The symbol table is a finite map

    As long as nothing is deleted, the hash table of gas/hash.c implements a finite map
    from names to values, through collisions, searches that go around the end of the
    array, and growth. *)
From S2P Require Import Prelude CInt Hash.
From Stdlib Require Import DecimalString.

Section Content.
Context (text : Z -> string).

(** ** The ring of slots *)

Definition ring (n i : nat) : nat := if (i <? n)%nat then i else (i - n)%nat.
Definition dist (n a i : nat) : nat := if (a <=? i)%nat then (i - a)%nat else (i + n - a)%nat.
Ltac ring_lia := unfold ring, dist in *; repeat match goal with
  | |- context [(?x <? ?y)%nat] => destruct (Nat.ltb_spec x y)
  | |- context [(?x <=? ?y)%nat] => destruct (Nat.leb_spec x y)
  | H : context [(?x <? ?y)%nat] |- _ => destruct (Nat.ltb_spec x y)
  | H : context [(?x <=? ?y)%nat] |- _ => destruct (Nat.leb_spec x y)
  end; lia.
Lemma ring_dist n a i : (a < n)%nat -> (i < n)%nat -> ring n (a + dist n a i) = i.
Proof. intros. ring_lia. Qed.
Lemma dist_ring n a j : (a < n)%nat -> (j < n)%nat -> dist n a (ring n (a + j)) = j.
Proof. intros. ring_lia. Qed.
Lemma dist_lt n a i : (a < n)%nat -> (i < n)%nat -> (dist n a i < n)%nat.
Proof. intros. ring_lia. Qed.

(** ** Entries *)

Definition named (e : hash_entry) (t : string) : Prop := exists p, hash_string e = NAME p /\ text p = t.
Definition is_live (e : hash_entry) : bool := match hash_string e with NAME _ => true | _ => false end.
Lemma live_named e : is_live e = true <-> exists t, named e t.
Proof.
  unfold is_live, named. destruct (hash_string e) as [| |p]; split; try done; try (intros (? & ? & ? & _); done).
  intros _. by exists (text p), p.
Qed.
Lemma named_live e t : named e t -> is_live e = true.
Proof. intros Hn. apply live_named. by exists t. Qed.
Lemma named_eq e t t' : named e t -> named e t' -> t = t'.
Proof. intros (p & E & <-) (p' & E' & <-). congruence. Qed.
Definition live_count (l : list hash_entry) : nat := length (List.filter is_live l).
Definition code (lg : Z) (t : string) : Z := hash_code_loop (lg - 3) 0 t.
Definition slots (lg : Z) : nat := Z.to_nat (2 ^ lg).
Definition home (lg : Z) (t : string) : nat := Z.to_nat (Z.land (code lg t) (2 ^ lg - 1)).

Lemma home_lt lg t : 0 <= lg -> (home lg t < slots lg)%nat.
Proof.
  intros Hl. unfold home, slots. replace (2 ^ lg - 1) with (Z.ones lg) by (rewrite Z.ones_equiv; lia).
  rewrite land_ones_mod by lia. pose proof (Z.mod_pos_bound (code lg t) (2 ^ lg)). lia.
Qed.

(** ** The content of an array *)

(** The entries of [l] hold the map [m]: every name is found on the way from its home slot,
    before a vacant one. *)
Record content (lg : Z) (l : list hash_entry) (m : gmap string Z) : Prop := {
  ct_len : length l = S (slots lg);
  ct_wall : exists w, l !! slots lg = Some w /\ is_live w = false;
  ct_kept : forall i e, l !! i = Some e -> hash_string e <> DELETED;
  ct_code : forall i e t, l !! i = Some e -> named e t -> h e = u32 (code lg t);
  ct_probe : forall i e t j, l !! i = Some e -> named e t -> (j < dist (slots lg) (home lg t) i)%nat ->
    exists e', l !! ring (slots lg) (home lg t + j) = Some e' /\ is_live e' = true;
  ct_map : forall t v, m !! t = Some v <-> exists i e, l !! i = Some e /\ named e t /\ hash_value e = v;
  ct_distinct : forall i j e e' t, l !! i = Some e -> l !! j = Some e' -> named e t -> named e' t -> i = j
}.
Lemma content_slot lg l m i e : content lg l m -> l !! i = Some e -> is_live e = true -> (i < slots lg)%nat.
Proof.
  intros Hc Hi Hl. destruct (ct_wall _ _ _ Hc) as (w & Hw & Hn). apply lookup_lt_Some in Hi as Hlt. rewrite (ct_len _ _ _ Hc) in Hlt.
  destruct (decide (i = slots lg)) as [->|]; [|lia]. rewrite Hw in Hi. injection Hi as ->. congruence.
Qed.

Lemma content_vacant lg : 0 <= lg -> content lg (vacant (2 ^ lg)) ∅.
Proof.
  intros Hl. assert (forall i e, vacant (2 ^ lg) !! i = Some e -> hash_string e = NULL) as Hn.
  { intros i e Hi. apply list_elem_of_lookup_2, list_elem_of_In in Hi. unfold vacant in Hi. by apply repeat_spec in Hi as ->. }
  assert (forall i e t, vacant (2 ^ lg) !! i = Some e -> ~ named e t) as Hno.
  { intros i e t Hi (p & E & _). by rewrite (Hn _ _ Hi) in E. }
  assert (length (vacant (2 ^ lg)) = S (slots lg)) as Hlen by (unfold vacant, slots; rewrite repeat_length; lia).
  split.
  - exact Hlen.
  - destruct (lookup_lt_is_Some_2 (vacant (2 ^ lg)) (slots lg)) as [w Hw]; [lia|]. exists w. split; [exact Hw|].
    unfold is_live. by rewrite (Hn _ _ Hw).
  - intros i e Hi. by rewrite (Hn _ _ Hi).
  - intros i e t Hi He. by destruct (Hno _ _ _ Hi He).
  - intros i e t j Hi He. by destruct (Hno _ _ _ Hi He).
  - intros t v. rewrite lookup_empty. split; [done|]. intros (i & e & Hi & He & _). by destruct (Hno _ _ _ Hi He).
  - intros i j e e' t Hi _ He. by destruct (Hno _ _ _ Hi He).
Qed.

(** Writing an entry that is not live: its hash code does not matter. *)
Lemma content_touch lg l m i e hc : content lg l m -> l !! i = Some e -> is_live e = false ->
  content lg (<[i := Entry (hash_string e) (hash_value e) hc]> l) m.
Proof.
  intros Hc Hi Hn. set (e' := Entry _ _ hc). apply lookup_lt_Some in Hi as Hlt.
  assert (forall t, ~ named e' t) as Hno.
  { intros t Ht. change (named e t) in Ht. apply named_live in Ht. congruence. }
  assert (forall j x, <[i := e']> l !! j = Some x -> is_live x = true -> l !! j = Some x) as Hback.
  { intros j x Hj Hx. apply list_lookup_insert_Some in Hj as [(<- & <- & _)|(Hne & Hj)]; [|done].
    change (is_live e = true) in Hx. congruence. }
  assert (forall j x, l !! j = Some x -> is_live x = true -> <[i := e']> l !! j = Some x) as Hforth.
  { intros j x Hj Hx. destruct (decide (i = j)) as [->|Hne]; [congruence|]. by rewrite list_lookup_insert_ne. }
  destruct Hc as [H1 H2 H3 H4 H5 H6 H7]. split.
  - by rewrite length_insert.
  - destruct H2 as (w & Hw & Hwn). destruct (decide (i = slots lg)) as [->|Hne].
    + exists e'. rewrite list_lookup_insert_eq by done. split; [done|]. exact Hn.
    + exists w. by rewrite list_lookup_insert_ne.
  - intros j x Hj. apply list_lookup_insert_Some in Hj as [(<- & <- & _)|(Hne & Hj)]; [by apply (H3 i e)|by apply (H3 j x)].
  - intros j x t Hj Hx. apply (H4 j); [|done]. apply Hback; [done|by eapply named_live].
  - intros j x t k Hj Hx Hk. destruct (H5 j x t k) as (y & Hy & Hl); [by apply Hback; [|eapply named_live]|done|done|].
    exists y. split; [by apply Hforth|done].
  - intros t v. rewrite H6. split; intros (j & x & Hj & Hx & Hv); exists j, x.
    + split; [by apply Hforth; [|eapply named_live]|done].
    + split; [by apply Hback; [|eapply named_live]|done].
  - intros j k x y t Hj Hk Hx Hy. apply (H7 j k x y t); try done; apply Hback; try done; by eapply named_live.
Qed.
(** Putting a name that is not there into the slot at which its search ends *)
Lemma content_insert lg l m i e p v : 0 <= lg -> content lg l m -> (i < slots lg)%nat -> l !! i = Some e -> is_live e = false ->
  m !! text p = None ->
  (forall j, (j < dist (slots lg) (home lg (text p)) i)%nat ->
     exists e', l !! ring (slots lg) (home lg (text p) + j) = Some e' /\ is_live e' = true) ->
  content lg (<[i := Entry (NAME p) v (u32 (code lg (text p)))]> l) (<[text p := v]> m).
Proof.
  intros Hlg Hc Hs Hi Hn Hm Hway. set (e' := Entry _ _ _). apply lookup_lt_Some in Hi as Hlt.
  assert (named e' (text p)) as He' by (by exists p).
  assert (forall j x t, <[i := e']> l !! j = Some x -> named x t -> (j = i /\ x = e' /\ t = text p) \/ (j <> i /\ l !! j = Some x /\ t <> text p)) as Hcases.
  { intros j x t Hj Hx. apply list_lookup_insert_Some in Hj as [(<- & <- & _)|(Hne & Hj)].
    - left. split; [done|split; [done|]]. symmetry. by apply (named_eq e').
    - right. split; [done|split; [done|]]. intros ->. assert (m !! text p = Some (hash_value x)) as Hf; [|congruence].
      apply (ct_map _ _ _ Hc). by exists j, x. }
  assert (forall j x, l !! j = Some x -> is_live x = true -> <[i := e']> l !! j = Some x) as Hforth.
  { intros j x Hj Hx. destruct (decide (i = j)) as [->|Hne]; [congruence|]. by rewrite list_lookup_insert_ne. }
  destruct Hc as [H1 H2 H3 H4 H5 H6 H7]. split.
  - by rewrite length_insert.
  - destruct H2 as (w & Hw & Hwn). exists w. rewrite list_lookup_insert_ne by lia. done.
  - intros j x Hj. apply list_lookup_insert_Some in Hj as [(<- & <- & _)|(Hne & Hj)]; [done|by apply (H3 j x)].
  - intros j x t Hj Hx. destruct (Hcases j x t Hj Hx) as [(-> & -> & ->)|(_ & Hj' & _)]; [done|by apply (H4 j)].
  - intros j x t k Hj Hx Hk. destruct (Hcases j x t Hj Hx) as [(-> & -> & ->)|(_ & Hj' & _)].
    + destruct (Hway k Hk) as (y & Hy & Hl). exists y. split; [by apply Hforth|done].
    + destruct (H5 j x t k Hj' Hx Hk) as (y & Hy & Hl). exists y. split; [by apply Hforth|done].
  - intros t w. destruct (decide (t = text p)) as [->|Hne].
    + rewrite lookup_insert_eq. split.
      * intros [= <-]. exists i, e'. split; [by apply list_lookup_insert_eq|done].
      * intros (j & x & Hj & Hx & Hv). destruct (Hcases j x _ Hj Hx) as [(_ & -> & _)|(_ & _ & Hf)]; [by rewrite <- Hv|done].
    + rewrite lookup_insert_ne by done. rewrite H6. split; intros (j & x & Hj & Hx & Hv); exists j, x.
      * split; [by apply Hforth; [|eapply named_live]|done].
      * destruct (Hcases j x t Hj Hx) as [(_ & _ & Hf)|(_ & Hj' & _)]; done.
  - intros j k x y t Hj Hk Hx Hy. destruct (Hcases j x t Hj Hx) as [(-> & _ & Et)|(_ & Hj' & Et)],
      (Hcases k y t Hk Hy) as [(-> & _ & Et')|(_ & Hk' & Et')]; try done. by apply (H7 j k x y t).
Qed.
(** Changing the value of a name *)
Lemma content_value lg l m i e t v : content lg l m -> l !! i = Some e -> named e t ->
  content lg (<[i := put_value v e]> l) (<[t := v]> m).
Proof.
  intros Hc Hi He. set (e' := put_value v e). apply lookup_lt_Some in Hi as Hlt.
  pose proof (named_live e t He) as Hl.
  assert (forall x, named e' x <-> named e x) as Hn by done.
  assert (forall j x, <[i := e']> l !! j = Some x -> exists x0, l !! j = Some x0 /\ hash_string x0 = hash_string x /\ h x0 = h x /\
    (j <> i -> x0 = x)) as Hback.
  { intros j x Hj. apply list_lookup_insert_Some in Hj as [(<- & <- & _)|(Hne & Hj)]; [by exists e|by exists x]. }
  assert (forall j x, l !! j = Some x -> exists x0, <[i := e']> l !! j = Some x0 /\ hash_string x0 = hash_string x /\ (j <> i -> x0 = x)) as Hforth.
  { intros j x Hj. destruct (decide (i = j)) as [->|Hne].
    - exists e'. rewrite list_lookup_insert_eq by done. assert (x = e) as -> by congruence. done.
    - exists x. by rewrite list_lookup_insert_ne. }
  assert (forall x y s, hash_string x = hash_string y -> named x s -> named y s) as Hsame.
  { intros x y s Exy (p & Ep & Et). exists p. by rewrite <- Exy. }
  assert (forall x y, hash_string x = hash_string y -> is_live x = is_live y) as Hlsame by (unfold is_live; by intros x y ->).
  destruct Hc as [H1 H2 H3 H4 H5 H6 H7]. split.
  - by rewrite length_insert.
  - destruct H2 as (w & Hw & Hwn). destruct (Hforth _ _ Hw) as (w' & Hw' & Es & _). exists w'. split; [done|]. by rewrite (Hlsame w' w).
  - intros j x Hj. destruct (Hback j x Hj) as (x0 & Hx0 & Es & _). rewrite <- Es. by apply (H3 j).
  - intros j x s Hj Hx. destruct (Hback j x Hj) as (x0 & Hx0 & Es & Eh & _). rewrite <- Eh. apply (H4 j); [done|]. by apply (Hsame x).
  - intros j x s k Hj Hx Hk. destruct (Hback j x Hj) as (x0 & Hx0 & Es & _).
    destruct (H5 j x0 s k Hx0) as (y & Hy & Hly); [by apply (Hsame x)|done|]. destruct (Hforth _ _ Hy) as (y' & Hy' & Esy & _).
    exists y'. split; [done|]. by rewrite (Hlsame y' y).
  - intros s w. destruct (decide (s = t)) as [->|Hne].
    + rewrite lookup_insert_eq. split.
      * intros [= <-]. exists i, e'. split; [by apply list_lookup_insert_eq|done].
      * intros (j & x & Hj & Hx & Hv). destruct (Hback j x Hj) as (x0 & Hx0 & Es & _).
        assert (j = i) as -> by (apply (H7 j i x0 e t); [done|done|by apply (Hsame x)|done]).
        rewrite list_lookup_insert_eq in Hj by done. injection Hj as <-. by rewrite <- Hv.
    + rewrite lookup_insert_ne by done. rewrite H6. split; intros (j & x & Hj & Hx & Hv).
      * assert (j <> i) as Hji by (intros ->; apply Hne; assert (x = e) as -> by congruence; by apply (named_eq e)).
        exists j, x. by rewrite list_lookup_insert_ne.
      * destruct (Hback j x Hj) as (x0 & Hx0 & Es & _ & Hsx). exists j, x0. split; [done|].
        assert (j <> i) as Hji.
        { intros ->. apply Hne. assert (x0 = e) as -> by congruence. apply (named_eq e); [by apply (Hsame x)|done]. }
        by rewrite Hsx.
  - intros j k x y s Hj Hk Hx Hy. destruct (Hback j x Hj) as (x0 & Hx0 & Es & _), (Hback k y Hk) as (y0 & Hy0 & Es' & _).
    apply (H7 j k x0 y0 s); [done|done|by apply (Hsame x)|by apply (Hsame y)].
Qed.

(** ** The number of live entries *)

Lemma live_count_put l i e : l !! i = Some e -> forall x,
  live_count (<[i := x]> l) = (live_count (take i l) + (if is_live x then 1 else 0) + live_count (drop (S i) l))%nat.
Proof.
  intros Hi x. unfold live_count. rewrite insert_take_drop by (by eapply lookup_lt_Some).
  rewrite List.filter_app, length_app. cbn [List.filter]. destruct (is_live x); cbn [length]; lia.
Qed.
Lemma live_count_insert l i e e' : l !! i = Some e -> is_live e = false ->
  live_count (<[i := e']> l) = (live_count l + if is_live e' then 1 else 0)%nat.
Proof.
  intros Hi Hn. pose proof (live_count_put l i e Hi e) as He. rewrite list_insert_id, Hn in He by done.
  rewrite (live_count_put l i e Hi e'), He. lia.
Qed.
Lemma live_count_same l i e e' : l !! i = Some e -> is_live e' = is_live e -> live_count (<[i := e']> l) = live_count l.
Proof.
  intros Hi Hn. pose proof (live_count_put l i e Hi e) as He. rewrite list_insert_id in He by done.
  by rewrite (live_count_put l i e Hi e'), Hn.
Qed.
(** There is a vacant slot. *)
Lemma vacant_slot l n : (live_count l < n)%nat -> (n <= length l)%nat ->
  exists i e, (i < n)%nat /\ l !! i = Some e /\ is_live e = false.
Proof.
  unfold live_count. revert n. induction l as [|x l IH]; intros n Hc Hn; cbn [length List.filter] in *; [lia|].
  destruct n as [|n]; [lia|]. destruct (is_live x) eqn:Ex.
  - cbn [length] in Hc. destruct (IH n) as (i & e & Hi & He & Hl); [lia|lia|]. exists (S i), e. split; [lia|done].
  - exists 0%nat, x. split; [lia|done].
Qed.

(** ** The search *)

Lemma scan_ends string hcode l i e : l !! i = Some e -> is_live e = false -> is_Some (hash_scan text string hcode l).
Proof.
  revert i. induction l as [|x l IH]; intros [|i] Hi Hn; try done; cbn [hash_scan].
  - injection Hi as ->. unfold is_live in Hn. destruct (hash_string e); done.
  - destruct (hash_string x) as [| |s]; [done..|]. destruct (string =? s); [done|].
    destruct ((h x =? u32 hcode) && _); [done|]. destruct (IH i Hi Hn) as [[[[k f] co] st] ->]. done.
Qed.
(** Before the slot at which it ends there are other names; at the slot there is the name,
    or none. *)
Lemma scan_finds string hcode l : (forall i e, l !! i = Some e -> named e (text string) -> h e = u32 hcode) ->
  forall k found co st, hash_scan text string hcode l = Some (k, found, co, st) ->
  (forall j, (j < k)%nat -> exists e, l !! j = Some e /\ is_live e = true /\ ~ named e (text string)) /\
  exists e, l !! k = Some e /\ if found then named e (text string) else is_live e = false.
Proof.
  induction l as [|x l IH]; intros Hh k found co st E; [done|]. cbn [hash_scan] in E.
  assert (forall i e, l !! i = Some e -> named e (text string) -> h e = u32 hcode) as Hh' by (intros i; apply (Hh (S i))).
  specialize (IH Hh'). destruct (hash_string x) as [| |s] eqn:Es.
  - injection E as <- <- <- <-. split; [intros j Hj; lia|]. exists x. unfold is_live. by rewrite Es.
  - injection E as <- <- <- <-. split; [intros j Hj; lia|]. exists x. unfold is_live. by rewrite Es.
  - assert (named x (text string) <-> text string = text s) as Hx.
    { split; [intros (p & Ep & Et); congruence|intros Et; by exists s]. }
    destruct (Z.eqb_spec string s) as [->|Hne].
    + injection E as <- <- <- <-. split; [intros j Hj; lia|]. exists x. split; [done|]. by apply Hx.
    + destruct ((h x =? u32 hcode) && bool_decide (text string = text s)) eqn:Em.
      * apply andb_prop in Em as [_ Em%bool_decide_eq_true]. injection E as <- <- <- <-. split; [intros j Hj; lia|].
        exists x. split; [done|]. by apply Hx.
      * destruct (hash_scan text string hcode l) as [[[[k0 f0] co0] st0]|] eqn:E0; [|done]. injection E as <- <- _ _.
        destruct (IH _ _ _ _ eq_refl) as (Hb & He). split; [|exact He]. intros [|j] Hj; [|apply Hb; lia].
        exists x. split; [done|split; [unfold is_live; by rewrite Es|]]. intros Hn.
        specialize (Hh 0%nat x eq_refl Hn). rewrite Hh, Z.eqb_refl in Em. cbn [andb] in Em.
        apply bool_decide_eq_false in Em. by apply Hx in Hn.
Qed.

(** ** The table *)

(** [c] holds the map [m]: its array does, its other members fit the array's size, and at
    most one more than half of the slots are live. *)
Record table (m : gmap string Z) (c : hash_control) : Prop := {
  tb_log : 10 <= hash_sizelog c <= 26;
  tb_content : content (hash_sizelog c) (hash_where c) m;
  tb_mask : hash_mask c = 2 ^ hash_sizelog c - 1;
  tb_wall : hash_wall c = 2 ^ hash_sizelog c;
  tb_full : hash_full c = 2 ^ (hash_sizelog c - 1);
  tb_size : stat STAT_SIZE c = 2 ^ hash_sizelog c;
  tb_stats : length (hash_stat c) = STATLENGTH;
  tb_used : stat STAT_USED c = Z.of_nat (live_count (hash_where c));
  tb_room : Z.of_nat (live_count (hash_where c)) <= 2 ^ (hash_sizelog c - 1) + 1
}.
(** Members that a search leaves alone *)
Record same_members (c c' : hash_control) : Prop := {
  sm_log : hash_sizelog c' = hash_sizelog c;
  sm_mask : hash_mask c' = hash_mask c;
  sm_wall : hash_wall c' = hash_wall c;
  sm_full : hash_full c' = hash_full c;
  sm_size : stat STAT_SIZE c' = stat STAT_SIZE c;
  sm_used : stat STAT_USED c' = stat STAT_USED c;
  sm_stats : length (hash_stat c') = length (hash_stat c)
}.
Lemma table_members m m' c c' : table m c -> same_members c c' -> content (hash_sizelog c) (hash_where c') m' ->
  live_count (hash_where c') = live_count (hash_where c) -> table m' c'.
Proof.
  intros [T1 T2 T3 T4 T5 T6 T7 T8 T9] [S1 S2 S3 S4 S5 S6 S7] Hc Hn.
  split; rewrite ?S1, ?S2, ?S3, ?S4, ?S5, ?S6, ?S7, ?Hn; done.
Qed.
Lemma stat_set k j v c : (k < length (hash_stat c))%nat -> stat j (set_stat k v c) = if (j =? k)%nat then v else stat j c.
Proof.
  intros Hk. unfold stat, set_stat. cbn [hash_stat]. rewrite !nth_lookup. destruct (Nat.eqb_spec j k) as [->|Hne].
  - by rewrite list_lookup_insert_eq.
  - by rewrite list_lookup_insert_ne by done.
Qed.
Lemma half_of lg : 10 <= lg -> 2 ^ lg = 2 * 2 ^ (lg - 1) /\ 2 ^ 9 <= 2 ^ (lg - 1).
Proof. intros Hl. split; [rewrite <- Z.pow_succ_r by lia; f_equal; lia|apply Z.pow_le_mono_r; lia]. Qed.
Lemma counted m c : table m c -> Z.of_nat (slots (hash_sizelog c)) = 2 ^ hash_sizelog c /\
  (live_count (hash_where c) < slots (hash_sizelog c))%nat.
Proof.
  intros [[T1 _] _ _ _ _ _ _ _ T9]. destruct (half_of _ T1). unfold slots. lia.
Qed.

(** The two loops of [hash_ask] follow the ring from the home slot on. *)
Lemma ring_search lg l m p : 0 <= lg -> content lg l m -> (live_count l < slots lg)%nat ->
  let n := slots lg in let a := home lg (text p) in let hcode := code lg (text p) in
  exists k f co st, hash_scan text p hcode (drop a l) = Some (k, f, co, st) /\
  exists slot found, (if (a + k =? n)%nat
    then exists co' st', hash_scan text p hcode l = Some (slot, found, co', st') else slot = (a + k)%nat /\ found = f) /\
  (slot < n)%nat /\
  (forall j, (j < dist n a slot)%nat -> exists e, l !! ring n (a + j) = Some e /\ is_live e = true /\ ~ named e (text p)) /\
  exists e, l !! slot = Some e /\ if found then named e (text p) else is_live e = false.
Proof.
  intros Hlg Hc Hroom n a hcode. pose proof (home_lt lg (text p) Hlg) as Ha. fold a in Ha. fold n in Ha, Hroom.
  destruct (ct_wall _ _ _ Hc) as (w & Hw & Hwn). fold n in Hw.
  assert (forall i e, l !! i = Some e -> named e (text p) -> h e = u32 hcode) as Hcode
    by (intros i e Hi He; by apply (ct_code _ _ _ Hc i e)).
  assert (forall i e, drop a l !! i = Some e -> named e (text p) -> h e = u32 hcode) as Hcode'
    by (intros i e Hi; rewrite lookup_drop in Hi; by apply (Hcode (a + i)%nat)).
  destruct (scan_ends p hcode (drop a l) (n - a) w) as [[[[k f] co] st] E1]; [rewrite lookup_drop; rewrite <- Hw; f_equal; lia|done|].
  destruct (scan_finds p hcode _ Hcode' _ _ _ _ E1) as (Hb & e & He & Hf). rewrite lookup_drop in He.
  exists k, f, co, st. split; [done|].
  assert (k <= n - a)%nat as Hk.
  { destruct (decide (k <= n - a)%nat); [done|]. destruct (Hb (n - a)%nat) as (x & Hx & Hl & _); [lia|].
    rewrite lookup_drop in Hx. replace (a + (n - a))%nat with n in Hx by lia. congruence. }
  destruct (Nat.eqb_spec (a + k) n) as [Ek|Ek].
  - destruct (scan_ends p hcode l n w Hw Hwn) as [[[[slot found] co'] st'] E2].
    destruct (scan_finds p hcode _ Hcode _ _ _ _ E2) as (Hb2 & e2 & He2 & Hf2).
    exists slot, found. split; [by exists co', st'|].
    destruct (vacant_slot l n Hroom) as (i & x & Hi & Hx & Hxn); [rewrite (ct_len _ _ _ Hc); unfold n; lia|].
    assert (i < a)%nat as Hia.
    { destruct (decide (i < a)%nat); [done|]. destruct (Hb (i - a)%nat) as (y & Hy & Hl & _); [lia|].
      rewrite lookup_drop in Hy. replace (a + (i - a))%nat with i in Hy by lia. congruence. }
    assert (slot <= i)%nat as Hsi.
    { destruct (decide (slot <= i)%nat); [done|]. destruct (Hb2 i) as (y & Hy & Hl & _); [lia|]. congruence. }
    split; [lia|split; [|by exists e2]]. intros j Hj. destruct (decide (a + j < n)%nat) as [Hlt|Hge].
    + destruct (Hb j) as (y & Hy & Hl & Hn); [lia|]. rewrite lookup_drop in Hy. exists y. split; [|done].
      rewrite <- Hy. f_equal. ring_lia.
    + destruct (Hb2 (a + j - n)%nat) as (y & Hy & Hl & Hn); [ring_lia|]. exists y. split; [|done]. rewrite <- Hy. f_equal. ring_lia.
  - exists (a + k)%nat, f. split; [done|]. split; [lia|split; [|by exists e]].
    intros j Hj. destruct (Hb j) as (y & Hy & Hl & Hn); [ring_lia|]. rewrite lookup_drop in Hy. exists y. split; [|done].
    rewrite <- Hy. f_equal. ring_lia.
Qed.
(** A search that ends at a vacant slot shows that the name is not there. *)
Lemma not_there lg l m p slot e : 0 <= lg -> content lg l m -> (slot < slots lg)%nat ->
  (forall j, (j < dist (slots lg) (home lg (text p)) slot)%nat ->
     exists e, l !! ring (slots lg) (home lg (text p) + j) = Some e /\ is_live e = true /\ ~ named e (text p)) ->
  l !! slot = Some e -> is_live e = false -> m !! text p = None.
Proof.
  intros Hlg Hc Hs Hway He Hn. destruct (m !! text p) as [v|] eqn:Em; [|done]. exfalso.
  apply (ct_map _ _ _ Hc) in Em as (i & x & Hi & Hx & _). pose proof (home_lt lg (text p) Hlg) as Ha.
  pose proof (content_slot _ _ _ _ _ Hc Hi (named_live _ _ Hx)) as Hin.
  set (n := slots lg) in *. set (a := home lg (text p)) in *.
  destruct (lt_eq_lt_dec (dist n a i) (dist n a slot)) as [[Hlt|Heq]|Hgt].
  - destruct (Hway _ Hlt) as (y & Hy & _ & Hno). rewrite ring_dist in Hy by done. apply Hno. congruence.
  - assert (i = slot) as -> by (rewrite <- (ring_dist n a i), <- (ring_dist n a slot), Heq by done; done).
    assert (x = e) as -> by congruence. apply named_live in Hx. congruence.
  - destruct (ct_probe _ _ _ Hc i x (text p) (dist n a slot) Hi Hx Hgt) as (y & Hy & Hl). fold n a in Hy.
    rewrite ring_dist in Hy by done. congruence.
Qed.

(** What [hash_ask] returns: the entry with the name; or the vacant slot that ends its
    search, with the name's hash code. *)
Definition asked (m : gmap string Z) (c : hash_control) (p : Z) (slot : nat) (found : bool) (c' : hash_control) : Prop :=
  let t := text p in
  if found then exists e, hash_where c !! slot = Some e /\ named e t /\ hash_where c' = hash_where c
  else (slot < slots (hash_sizelog c))%nat /\ m !! t = None /\
    (exists e, hash_where c !! slot = Some e /\ is_live e = false /\
       hash_where c' = <[slot := Entry (hash_string e) (hash_value e) (u32 (code (hash_sizelog c) t))]> (hash_where c)) /\
    (forall j, (j < dist (slots (hash_sizelog c)) (home (hash_sizelog c) t) slot)%nat ->
       exists e, hash_where c !! ring (slots (hash_sizelog c)) (home (hash_sizelog c) t + j) = Some e /\ is_live e = true).

Lemma counters_same c a x y z : length (hash_stat c) = STATLENGTH -> (a <= 1)%nat ->
  same_members c (add_stat (STAT_STRCMP + a) x (add_stat (STAT_COLLIDE + a) y (add_stat (STAT_ACCESS + a) z c))).
Proof.
  intros Hl Ha. unfold add_stat.
  split; try done; rewrite ?stat_set by (cbn [set_stat hash_stat]; rewrite ?length_insert, Hl; unfold STAT_STRCMP, STAT_COLLIDE, STAT_ACCESS, STATLENGTH; lia).
  - destruct a as [|[|a]]; [reflexivity|reflexivity|lia].
  - destruct a as [|[|a]]; [reflexivity|reflexivity|lia].
  - cbn [set_stat hash_stat]. by rewrite !length_insert.
Qed.
Lemma ask_result m c p slot (found : bool) e c2 : table m c -> (slot < slots (hash_sizelog c))%nat ->
  (forall j, (j < dist (slots (hash_sizelog c)) (home (hash_sizelog c) (text p)) slot)%nat ->
     exists e, hash_where c !! ring (slots (hash_sizelog c)) (home (hash_sizelog c) (text p) + j) = Some e /\
       is_live e = true /\ ~ named e (text p)) ->
  hash_where c !! slot = Some e -> (if found then named e (text p) else is_live e = false) ->
  same_members c c2 -> hash_where c2 = hash_where c ->
  let c' := if found then c2 else
    match hash_where c2 !! slot with
    | Some e => set_entry slot (Entry (hash_string e) (hash_value e) (u32 (hash_code text c p))) c2
    | None => c2
    end in
  asked m c p slot found c' /\ same_members c c'.
Proof.
  intros Ht Hs Hway He Hf Hsm Hw c'. unfold asked, c'. destruct found.
  - split; [|exact Hsm]. by exists e.
  - rewrite Hw, He. split.
    + pose proof Ht as [[Hlg _] Hc _ _ _ _ _ _ _]. split; [exact Hs|].
      split; [apply (not_there (hash_sizelog c) (hash_where c) m p slot e); (lia || done)|].
      split; [exists e; split; [done|split; [done|]]; cbn [set_entry hash_where]; by rewrite Hw|].
      intros j Hj. destruct (Hway j Hj) as (x & Hx & Hl & _). by exists x.
    + destruct Hsm as [S1 S2 S3 S4 S5 S6 S7]. by split.
Qed.
Lemma ask_run m c p a : table m c -> (a <= 1)%nat ->
  exists slot found c', hash_ask text c p a = Some (slot, found, c') /\ asked m c p slot found c' /\ same_members c c'.
Proof.
  intros Ht Ha. destruct (counted m c Ht) as [Hn Hroom]. pose proof Ht as [[Hlg _] Hc Hmask Hwall _ _ Hst _ _].
  destruct (ring_search (hash_sizelog c) (hash_where c) m p ltac:(lia) Hc Hroom) as (k & f & co & st & E1 & slot & found & E2 & Hs & Hway & e & He & Hf).
  unfold hash_ask. rewrite Hmask. fold (home (hash_sizelog c) (text p)).
  change (hash_code text c p) with (code (hash_sizelog c) (text p)).
  change (Z.to_nat (Z.land (code (hash_sizelog c) (text p)) (2 ^ hash_sizelog c - 1))) with (home (hash_sizelog c) (text p)).
  cbn [add_stat set_stat hash_where hash_wall]. rewrite E1, Hwall.
  set (m1 := home (hash_sizelog c) (text p)) in *.
  assert ((Z.of_nat (m1 + k) =? 2 ^ hash_sizelog c) = (m1 + k =? slots (hash_sizelog c))%nat) as ->.
  { rewrite <- Hn. destruct (Nat.eqb_spec (m1 + k) (slots (hash_sizelog c))); [apply Z.eqb_eq; lia|apply Z.eqb_neq; lia]. }
  destruct (m1 + k =? slots (hash_sizelog c))%nat.
  - destruct E2 as (co' & st' & E2). rewrite E2. eexists _, _, _. split; [reflexivity|].
    exact (ask_result m c p slot found e _ Ht Hs Hway He Hf (counters_same c a _ _ _ Hst Ha) eq_refl).
  - destruct E2 as [-> ->]. eexists _, _, _. split; [reflexivity|].
    exact (ask_result m c p (m1 + k)%nat f e _ Ht Hs Hway He Hf (counters_same c a _ _ _ Hst Ha) eq_refl).
Qed.

(** ** The operations *)

Lemma find_run m c p : table m c -> exists c', hash_find text c p = Some (default 0 (m !! text p), c') /\ table m c' /\
  hash_sizelog c' = hash_sizelog c /\ live_count (hash_where c') = live_count (hash_where c).
Proof.
  intros Ht. destruct (ask_run m c p STAT__READ Ht) as (slot & found & c' & E & Ha & Hs); [unfold STAT__READ; lia|].
  pose proof (tb_content _ _ Ht) as Hc. exists c'. unfold hash_find. rewrite E. destruct found.
  - destruct Ha as (e & He & Hn & Hw). split; [|split; [|split; [apply Hs|by rewrite Hw]]].
    + unfold entry_value. rewrite Hw, He. do 2 f_equal. assert (m !! text p = Some (hash_value e)) as ->; [|done].
      apply (ct_map _ _ _ Hc). by exists slot, e.
    + apply (table_members m m c); [done..|by rewrite Hw|by rewrite Hw].
  - destruct Ha as (_ & Hm & (e & He & Hn & Hw) & _). split; [by rewrite Hm|].
    assert (live_count (hash_where c') = live_count (hash_where c)) as Hl by (rewrite Hw; by apply (live_count_same _ slot e)).
    split; [|split; [apply Hs|exact Hl]]. apply (table_members m m c); [done..| |done].
    rewrite Hw. by apply content_touch.
Qed.

Lemma change_entry_eq slot f c e : hash_where c !! slot = Some e ->
  change_entry slot f c = set_entry slot (f e) c.
Proof. intros He. unfold change_entry. by rewrite He. Qed.
(** A new name has been written into the slot. *)
Lemma table_inserted m c p v slot c1 c2 : table m c -> stat STAT_USED c <= hash_full c ->
  asked m c p slot false c1 -> same_members c c1 ->
  hash_where c2 = <[slot := Entry (NAME p) v (u32 (code (hash_sizelog c) (text p)))]> (hash_where c1) ->
  hash_sizelog c2 = hash_sizelog c1 -> hash_mask c2 = hash_mask c1 -> hash_wall c2 = hash_wall c1 ->
  hash_full c2 = hash_full c1 -> hash_stat c2 = hash_stat (add_stat STAT_USED 1 c1) ->
  table (<[text p := v]> m) c2 /\ live_count (hash_where c2) = S (live_count (hash_where c)).
Proof.
  intros Ht Hu (Hs & Hm & (e & He & Hn & Hw) & Hway) [S1 S2 S3 S4 S5 S6 S7] Hw2 E1 E2 E3 E4 E5.
  pose proof Ht as [[T1 T1'] T2 T3 T4 T5 T6 T7 T8 T9].
  rewrite Hw, list_insert_insert_eq in Hw2. destruct (half_of _ T1) as [Hh H9].
  assert (live_count (hash_where c2) = S (live_count (hash_where c))) as Hl.
  { rewrite Hw2, (live_count_insert _ slot e) by done. cbn. lia. }
  split; [|exact Hl]. assert (2 ^ (hash_sizelog c - 1) <= 2 ^ 25) as H25 by (apply Z.pow_le_mono_r; lia).
  split; rewrite ?E1, ?E2, ?E3, ?E4, ?S1, ?S2, ?S3, ?S4, ?Hl; try done.
  - rewrite Hw2. apply (content_insert _ _ m slot e); try done. lia.
  - unfold stat at 1. rewrite E5. rewrite T7 in S7. fold (stat STAT_SIZE (add_stat STAT_USED 1 c1)). unfold add_stat.
    rewrite stat_set by (rewrite S7; unfold STAT_USED, STATLENGTH; lia). cbn [Nat.eqb STAT_SIZE STAT_USED]. by rewrite S5.
  - rewrite E5. unfold add_stat, set_stat. cbn [hash_stat]. by rewrite length_insert, S7.
  - unfold stat at 1. rewrite E5. rewrite T7 in S7. fold (stat STAT_USED (add_stat STAT_USED 1 c1)). unfold add_stat.
    rewrite stat_set by (rewrite S7; unfold STAT_USED, STATLENGTH; lia). rewrite Nat.eqb_refl, S6, T8.
    unfold s32. rewrite wrap_signed_small by lia. lia.
  - rewrite T5, T8 in Hu. lia.
Qed.
(** The two ways in which an entry is written *)
Lemma insert_writes slot p v c1 e hc : hash_where c1 !! slot = Some e -> h e = hc ->
  let c2 := add_stat STAT_USED 1 (change_entry slot (put_string (NAME p)) (change_entry slot (put_value v) c1)) in
  hash_where c2 = <[slot := Entry (NAME p) v hc]> (hash_where c1) /\
  hash_sizelog c2 = hash_sizelog c1 /\ hash_mask c2 = hash_mask c1 /\ hash_wall c2 = hash_wall c1 /\
  hash_full c2 = hash_full c1 /\ hash_stat c2 = hash_stat (add_stat STAT_USED 1 c1).
Proof.
  intros He <- c2. unfold c2. apply lookup_lt_Some in He as Hlt. rewrite (change_entry_eq slot _ c1 e He).
  rewrite (change_entry_eq slot _ _ (put_value v e)) by (cbn [set_entry hash_where]; by apply list_lookup_insert_eq).
  cbn [set_entry hash_where add_stat set_stat]. rewrite list_insert_insert_eq. done.
Qed.
Lemma jam_writes slot p v c1 e hc : hash_where c1 !! slot = Some e -> h e = hc ->
  let c2 := change_entry slot (put_value v) (add_stat STAT_USED 1 (change_entry slot (put_string (NAME p)) c1)) in
  hash_where c2 = <[slot := Entry (NAME p) v hc]> (hash_where c1) /\
  hash_sizelog c2 = hash_sizelog c1 /\ hash_mask c2 = hash_mask c1 /\ hash_wall c2 = hash_wall c1 /\
  hash_full c2 = hash_full c1 /\ hash_stat c2 = hash_stat (add_stat STAT_USED 1 c1).
Proof.
  intros He <- c2. unfold c2. apply lookup_lt_Some in He as Hlt. rewrite (change_entry_eq slot _ c1 e He).
  rewrite (change_entry_eq slot _ _ (put_string (NAME p) e)) by (cbn [set_entry hash_where add_stat set_stat]; by apply list_lookup_insert_eq).
  cbn [set_entry hash_where add_stat set_stat]. rewrite list_insert_insert_eq. done.
Qed.
(** Changing the value of the name that was found *)
Lemma table_replaced m c p v slot c1 : table m c -> asked m c p slot true c1 -> same_members c c1 ->
  let c2 := change_entry slot (put_value v) c1 in
  table (<[text p := v]> m) c2 /\ live_count (hash_where c2) = live_count (hash_where c) /\ same_members c c2 /\
  entry_value c1 slot = default 0 (m !! text p) /\ is_Some (m !! text p).
Proof.
  intros Ht (e & He & Hn & Hw) Hs c2. pose proof (tb_content _ _ Ht) as Hc.
  assert (c2 = set_entry slot (put_value v e) c1) as E2 by (apply change_entry_eq; by rewrite Hw).
  assert (live_count (hash_where c2) = live_count (hash_where c)) as Hl.
  { rewrite E2. cbn [set_entry hash_where]. rewrite Hw. by apply (live_count_same _ slot e). }
  assert (same_members c c2) as Hs2 by (rewrite E2; destruct Hs; by split).
  assert (m !! text p = Some (hash_value e)) as Em by (apply (ct_map _ _ _ Hc); by exists slot, e).
  split; [|split; [exact Hl|split; [exact Hs2|split; [|by rewrite Em]]]].
  - apply (table_members m _ c); [done|done| |done]. rewrite E2. cbn [set_entry hash_where]. rewrite Hw. by apply content_value.
  - unfold entry_value. by rewrite Hw, He, Em.
Qed.

Lemma not_full c : stat STAT_USED c <= hash_full c -> (hash_full c <? stat STAT_USED c) = false.
Proof. intros Hu. apply Z.ltb_ge. exact Hu. Qed.
(** The effect on the number of entries *)
Definition grown_by (m : gmap string Z) (t : string) : nat := match m !! t with Some _ => 0 | None => 1 end.
Lemma jam_run fuel m c p v : table m c -> stat STAT_USED c <= hash_full c ->
  exists c', hash_jam text fuel c p v = Some c' /\ table (<[text p := v]> m) c' /\ hash_sizelog c' = hash_sizelog c /\
    live_count (hash_where c') = (live_count (hash_where c) + grown_by m (text p))%nat.
Proof.
  intros Ht Hu. destruct (ask_run m c p STAT__WRITE Ht) as (slot & found & c1 & E & Ha & Hs); [unfold STAT__WRITE; lia|].
  assert (hash_jam text fuel c p v = Some (change_entry slot (put_value v)
    (if found then c1 else add_stat STAT_USED 1 (change_entry slot (put_string (NAME p)) c1)))) as ->.
  { destruct fuel; cbn [hash_jam]; rewrite not_full by done; by rewrite E. }
  eexists. split; [reflexivity|]. destruct found.
  - destruct (table_replaced m c p v slot c1 Ht Ha Hs) as (H1 & H2 & H3 & _ & [w Hw]).
    split; [exact H1|split; [apply H3|]]. unfold grown_by. rewrite Hw, H2. lia.
  - pose proof Ha as (_ & Hm & (e & He & _ & Hw) & _).
    destruct (jam_writes slot p v c1 (Entry (hash_string e) (hash_value e) (u32 (code (hash_sizelog c) (text p))))
      (u32 (code (hash_sizelog c) (text p)))) as (W1 & W2 & W3 & W4 & W5 & W6); [rewrite Hw; apply list_lookup_insert_eq; by eapply lookup_lt_Some|done|].
    destruct (table_inserted m c p v slot c1 _ Ht Hu Ha Hs W1 W2 W3 W4 W5 W6) as [H1 H2].
    split; [exact H1|split; [rewrite W2; apply Hs|]]. unfold grown_by. rewrite Hm, H2. lia.
Qed.

(** ** Growth *)

Definition entries (l : list hash_entry) (t : string) (v : Z) : Prop :=
  exists i e, l !! i = Some e /\ named e t /\ hash_value e = v.
Lemma entries_cons e l t v : entries (e :: l) t v <-> (named e t /\ hash_value e = v) \/ entries l t v.
Proof.
  split.
  - intros ([|i] & x & Hi & Hx & Hv); [injection Hi as ->; by left|]. right. by exists i, x.
  - intros [[Hn Hv]|(i & x & Hi & Hx & Hv)]; [by exists 0%nat, e|by exists (S i), x].
Qed.
Lemma regrow_run jam : (forall m c p v, table m c -> stat STAT_USED c <= hash_full c ->
    exists c', jam c p v = Some c' /\ table (<[text p := v]> m) c' /\ hash_sizelog c' = hash_sizelog c /\
      live_count (hash_where c') = (live_count (hash_where c) + grown_by m (text p))%nat) ->
  forall old c mk, table mk c ->
  (forall t v, entries old t v -> mk !! t = None) ->
  (forall i j e e' t, old !! i = Some e -> old !! j = Some e' -> named e t -> named e' t -> i = j) ->
  Z.of_nat (live_count (hash_where c) + live_count old) <= 2 ^ (hash_sizelog c - 1) + 1 ->
  exists c', regrow jam old c = Some c' /\ hash_sizelog c' = hash_sizelog c /\
    live_count (hash_where c') = (live_count (hash_where c) + live_count old)%nat /\
    exists m', table m' c' /\ forall t v, m' !! t = Some v <-> mk !! t = Some v \/ entries old t v.
Proof.
  intros Hjam. induction old as [|e old IH]; intros c mk Ht Hnew Hd Hroom.
  { exists c. split; [done|split; [done|split; [unfold live_count; simpl; lia|]]]. exists mk. split; [done|].
    intros t v. split; [by left|]. intros [Hv|(i & x & Hi & _)]; [done|]. by rewrite lookup_nil in Hi. }
  assert (forall i j e e' t, old !! i = Some e -> old !! j = Some e' -> named e t -> named e' t -> i = j) as Hd'.
  { intros i j x y t Hi Hj Hx Hy. assert (S i = S j) as [=]; [|done]. by apply (Hd (S i) (S j) x y t). }
  assert (is_live e = false /\ regrow jam (e :: old) c = regrow jam old c \/ exists s, hash_string e = NAME s) as [[Hn ->]|[s Es]].
  { unfold is_live. cbn [regrow]. destruct (hash_string e) as [| |s]; [by left..|right; by exists s]. }
  - assert (live_count (e :: old) = live_count old) as El by (unfold live_count; cbn [List.filter]; by rewrite Hn).
    rewrite El in *. destruct (IH c mk Ht) as (c' & E & E1 & E2 & m' & Hm & Hl); [|done..|].
    { intros t v Ho. apply (Hnew t v), entries_cons. by right. }
    exists c'. split; [done|split; [done|split; [done|]]]. exists m'. split; [done|]. intros t v. rewrite Hl, entries_cons.
    split; [tauto|]. intros [?|[[Hx _]|?]]; [tauto| |tauto]. apply named_live in Hx. congruence.
  - cbn [regrow]. rewrite Es. assert (named e (text s)) as Hs by (by exists s).
    assert (live_count (e :: old) = S (live_count old)) as El by (unfold live_count; cbn [List.filter]; by rewrite (named_live e _ Hs)).
    rewrite El in *. destruct (Hjam mk c s (hash_value e) Ht) as (c1 & E & Ht1 & E1 & L1).
    { rewrite (tb_used _ _ Ht), (tb_full _ _ Ht). lia. }
    assert (mk !! text s = None) as Hms by (apply (Hnew _ (hash_value e)), entries_cons; by left).
    unfold grown_by in L1. rewrite Hms in L1. rewrite E.
    destruct (IH c1 _ Ht1) as (c' & E' & E1' & L' & m' & Hm & Hl).
    { intros t v Ho. rewrite lookup_insert_ne; [apply (Hnew t v), entries_cons; by right|]. intros <-.
      destruct Ho as (i & x & Hi & Hx & _). assert (0%nat = S i) as [=]. by apply (Hd 0%nat (S i) e x (text s)). }
    { exact Hd'. }
    { rewrite E1, L1. lia. }
    exists c'. split; [done|split; [by rewrite E1'|split; [lia|]]]. exists m'. split; [done|]. intros t v. rewrite Hl, entries_cons.
    destruct (decide (t = text s)) as [->|Hne].
    + rewrite lookup_insert_eq, Hms. split.
      * intros [[= <-]|Ho]; [right; by left|right; by right].
      * intros [Hf|[[_ <-]|Ho]]; [done|by left|by right].
    + rewrite lookup_insert_ne by done. split; [tauto|]. intros [?|[[Hx _]|?]]; [by left| |by right].
      exfalso. apply Hne. by apply (named_eq e).
Qed.

Lemma grow_run fuel m c : table m c -> hash_full c < stat STAT_USED c -> hash_sizelog c < 26 ->
  exists c', hash_grow text fuel c = Some c' /\ table m c' /\ hash_sizelog c' = hash_sizelog c + 1 /\
    live_count (hash_where c') = live_count (hash_where c) /\ stat STAT_USED c' <= hash_full c'.
Proof.
  intros Ht Hu Hlg. pose proof Ht as [[T1 _] Hc T2 T3 T4 T5 T6 T7 T8]. set (lg := hash_sizelog c) in *.
  destruct (half_of lg T1) as [Hh H9]. assert (2 ^ (lg + 1) = 2 * 2 ^ lg) as H2 by (rewrite <- Z.pow_succ_r by lia; f_equal; lia).
  assert (2 ^ lg <= 2 ^ 25) as H25 by (apply Z.pow_le_mono_r; lia).
  unfold hash_grow, hash_grow_with. unfold GROW_FACTOR. rewrite T2, T3, T4, T5.
  assert (s32 (Z.shiftl (2 ^ lg) 1) = 2 ^ (lg + 1)) as ->.
  { rewrite Z.shiftl_mul_pow2 by lia. change (2 ^ 1) with 2. unfold s32. rewrite wrap_signed_small by lia. lia. }
  replace (2 ^ lg - 1 + 1) with (2 ^ lg) by lia.
  assert (s32 (Z.shiftl (2 ^ lg) 1) = 2 ^ (lg + 1)) as ->.
  { rewrite Z.shiftl_mul_pow2 by lia. change (2 ^ 1) with 2. unfold s32. rewrite wrap_signed_small by lia. lia. }
  assert (s32 (Z.shiftl (2 ^ (lg - 1)) 1) = 2 ^ lg) as ->.
  { rewrite Z.shiftl_mul_pow2 by lia. change (2 ^ 1) with 2. unfold s32. rewrite wrap_signed_small by lia. lia. }
  set (c0 := set_stat STAT_USED 0 _).
  assert (live_count (vacant (2 ^ (lg + 1))) = 0%nat) as Hv.
  { unfold live_count, vacant. induction (Z.to_nat (2 ^ (lg + 1) + 1)) as [|n IH]; [done|]. exact IH. }
  assert (table ∅ c0) as Ht0.
  { split; cbn [c0 set_stat hash_sizelog hash_where hash_mask hash_wall hash_full]; fold lg.
    - lia.
    - apply content_vacant. lia.
    - done.
    - done.
    - by replace (lg + 1 - 1) with lg by lia.
    - unfold c0. rewrite stat_set by (cbn [hash_stat]; rewrite length_insert, T6; unfold STAT_USED, STATLENGTH; lia).
      cbn [Nat.eqb STAT_SIZE STAT_USED]. unfold stat. cbn [hash_stat]. rewrite nth_lookup, list_lookup_insert_eq; [done|].
      rewrite T6. unfold STAT_SIZE, STATLENGTH. lia.
    - unfold c0. cbn [set_stat hash_stat]. by rewrite !length_insert.
    - unfold c0. rewrite stat_set by (cbn [hash_stat]; rewrite length_insert, T6; unfold STAT_USED, STATLENGTH; lia).
      by rewrite Nat.eqb_refl, Hv.
    - rewrite Hv. lia. }
  set (old := take (Z.to_nat (2 ^ lg)) (hash_where c)).
  assert (forall i e, is_live e = true -> old !! i = Some e <-> hash_where c !! i = Some e) as Hold.
  { intros i e Hl. unfold old. rewrite lookup_take_Some. split; [tauto|]. intros Hi. split; [done|].
    by apply (content_slot lg (hash_where c) m i e). }
  assert (live_count old = live_count (hash_where c)) as Hlo.
  { unfold old. destruct (ct_wall _ _ _ Hc) as (w & Hw & Hwn). unfold live_count.
    rewrite <- (take_drop (Z.to_nat (2 ^ lg)) (hash_where c)) at 2. rewrite List.filter_app, length_app.
    assert (drop (Z.to_nat (2 ^ lg)) (hash_where c) = [w]) as ->; [|cbn [List.filter]; rewrite Hwn; simpl; lia].
    apply list_eq. intros [|i]; rewrite lookup_drop.
    - rewrite Nat.add_0_r. exact Hw.
    - apply lookup_ge_None_2. rewrite (ct_len _ _ _ Hc). unfold slots. lia. }
  assert (hash_sizelog c0 = lg + 1) as Elg by done.
  destruct (regrow_run (hash_jam text fuel) (fun m c p v => jam_run fuel m c p v) old c0 ∅ Ht0) as (c' & E & E1 & L1 & m' & Hm & Hl).
  { intros t v _. apply lookup_empty. }
  { intros i j x y t Hi Hj Hx Hy. apply (ct_distinct _ _ _ Hc i j x y t); [apply Hold| apply Hold| |]; try done; by eapply named_live. }
  { rewrite Elg, Hlo. change (live_count (hash_where c0)) with (live_count (vacant (2 ^ (lg + 1)))). rewrite Hv.
    replace (lg + 1 - 1) with lg by lia. rewrite Nat.add_0_l. lia. }
  assert (m' = m) as ->.
  { apply map_eq. intros t. apply option_eq. intros v. rewrite Hl, (ct_map _ _ _ Hc), lookup_empty.
    split.
    - intros [Hf|(i & e & Hi & He & Hvl)]; [done|]. exists i, e. split; [apply Hold; [by eapply named_live|done]|done].
    - intros (i & e & Hi & He & Hvl). right. exists i, e. split; [apply Hold; [by eapply named_live|done]|done]. }
  change (live_count (hash_where c0)) with (live_count (vacant (2 ^ (lg + 1)))) in L1. rewrite Hv, Hlo in L1.
  exists c'. split; [exact E|split; [exact Hm|split; [by rewrite E1|split; [by rewrite L1|]]]].
  rewrite (tb_used _ _ Hm), (tb_full _ _ Hm), E1, Elg, L1. replace (lg + 1 - 1) with lg by lia. lia.
Qed.

(** ** Refinement *)

(** At most [n] names have been inserted. *)
Definition holds_at_most (n : Z) (c : hash_control) : Prop :=
  Z.of_nat (live_count (hash_where c)) <= n /\ (hash_sizelog c = 10 \/ 2 ^ (hash_sizelog c - 2) < n).
Lemma small_log n c : n <= 2 ^ 23 -> holds_at_most n c -> hash_sizelog c < 26.
Proof.
  intros Hn [_ [->|Hl]]; [lia|]. destruct (decide (hash_sizelog c < 26)) as [|Hge]; [done|].
  assert (2 ^ 24 <= 2 ^ (hash_sizelog c - 2)) by (apply Z.pow_le_mono_r; lia). lia.
Qed.
Lemma make_room fuel m c n : table m c -> holds_at_most n c -> n <= 2 ^ 23 ->
  exists c', (if hash_full c <? stat STAT_USED c then hash_grow text fuel c else Some c) = Some c' /\ table m c' /\
    stat STAT_USED c' <= hash_full c' /\ holds_at_most n c'.
Proof.
  intros Ht Hn Hb. destruct (Z.ltb_spec (hash_full c) (stat STAT_USED c)) as [Hu|Hu].
  - destruct (grow_run fuel m c Ht Hu) as (c' & E & Ht' & E1 & L1 & Hu'); [by apply (small_log n)|].
    exists c'. split; [done|split; [done|split; [done|]]]. destruct Hn as [Hn _]. split; [by rewrite L1|]. right.
    rewrite E1. replace (hash_sizelog c + 1 - 2) with (hash_sizelog c - 1) by lia.
    rewrite (tb_used _ _ Ht), (tb_full _ _ Ht) in Hu. lia.
  - by exists c.
Qed.

Inductive operation := Find (p : Z) | Insert (p v : Z) | Jam (p v : Z) | Replace (p v : Z).
Inductive answer := Value (v : Z) | Message (m : option string).
Definition run_op (fuel : nat) (c : hash_control) (o : operation) : option (answer * hash_control) :=
  match o with
  | Find p => '(v, c) ← hash_find text c p; Some (Value v, c)
  | Insert p v => '(msg, c) ← hash_insert text fuel c p v; Some (Message msg, c)
  | Jam p v => c ← hash_jam text (S fuel) c p v; Some (Message None, c)
  | Replace p v => '(v, c) ← hash_replace text c p v; Some (Value v, c)
  end.
Fixpoint run_ops (fuel : nat) (c : hash_control) (l : list operation) : option (list answer * hash_control) :=
  match l with
  | [] => Some ([], c)
  | o :: l' => '(a, c) ← run_op fuel c o; '(r, c) ← run_ops fuel c l'; Some (a :: r, c)
  end.
(** The same operations on a finite map *)
Definition map_op (m : gmap string Z) (o : operation) : answer * gmap string Z :=
  match o with
  | Find p => (Value (default 0 (m !! text p)), m)
  | Insert p v => match m !! text p with
                  | Some _ => (Message (Some "exists"%string), m)
                  | None => (Message None, <[text p := v]> m)
                  end
  | Jam p v => (Message None, <[text p := v]> m)
  | Replace p v => (Value (default 0 (m !! text p)), match m !! text p with Some _ => <[text p := v]> m | None => m end)
  end.
Fixpoint map_ops (m : gmap string Z) (l : list operation) : list answer * gmap string Z :=
  match l with
  | [] => ([], m)
  | o :: l' => let '(a, m) := map_op m o in let '(r, m) := map_ops m l' in (a :: r, m)
  end.

Lemma at_most_more n c c' m : holds_at_most n c -> hash_sizelog c' = hash_sizelog c -> 0 <= n ->
  (live_count (hash_where c') <= live_count (hash_where c) + m)%nat -> (m <= 1)%nat -> holds_at_most (n + 1) c'.
Proof. intros [H1 H2] E H0 Hl Hm. split; [lia|]. rewrite E. destruct H2; [by left|right; lia]. Qed.
Lemma insert_run fuel m c n p v : table m c -> holds_at_most n c -> 0 <= n < 2 ^ 23 ->
  exists c', hash_insert text fuel c p v = Some (if m !! text p is Some _ then Some "exists"%string else None, c') /\
    table (if m !! text p is Some _ then m else <[text p := v]> m) c' /\ holds_at_most (n + 1) c'.
Proof.
  intros Ht Hn Hb. destruct (make_room fuel m c n Ht Hn ltac:(lia)) as (c0 & E0 & Ht0 & Hu & Hn0).
  destruct (ask_run m c0 p STAT__WRITE Ht0) as (slot & found & c1 & E & Ha & Hs); [unfold STAT__WRITE; lia|].
  unfold hash_insert. rewrite E0, E. destruct found.
  - destruct Ha as (e & He & Hnm & Hw). assert (m !! text p = Some (hash_value e)) as Em
      by (apply (ct_map _ _ _ (tb_content _ _ Ht0)); by exists slot, e).
    rewrite Em. eexists. split; [reflexivity|]. split.
    + apply (table_members m m c0); [done|done|rewrite Hw; apply Ht0|by rewrite Hw].
    + apply (at_most_more n c0 c1 0); [done|apply Hs|lia|rewrite Hw; lia|lia].
  - pose proof Ha as (_ & Hm & (e & He & _ & Hw) & _). rewrite Hm. eexists. split; [reflexivity|].
    destruct (insert_writes slot p v c1 (Entry (hash_string e) (hash_value e) (u32 (code (hash_sizelog c0) (text p))))
      (u32 (code (hash_sizelog c0) (text p)))) as (W1 & W2 & W3 & W4 & W5 & W6); [rewrite Hw; apply list_lookup_insert_eq; by eapply lookup_lt_Some|done|].
    destruct (table_inserted m c0 p v slot c1 _ Ht0 Hu Ha Hs W1 W2 W3 W4 W5 W6) as [H1 H2].
    split; [exact H1|]. apply (at_most_more n c0 _ 1); [done|rewrite W2; apply Hs|lia|lia|lia].
Qed.
Lemma jam_grows fuel m c n p v : table m c -> holds_at_most n c -> 0 <= n < 2 ^ 23 ->
  exists c', hash_jam text (S fuel) c p v = Some c' /\ table (<[text p := v]> m) c' /\ holds_at_most (n + 1) c'.
Proof.
  intros Ht Hn Hb. destruct (make_room fuel m c n Ht Hn ltac:(lia)) as (c0 & E0 & Ht0 & Hu & Hn0).
  destruct (jam_run fuel m c0 p v Ht0 Hu) as (c' & E & Ht' & E1 & L1).
  exists c'. split; [|split; [exact Ht'|apply (at_most_more n c0 c' (grown_by m (text p))); [done|done|lia|lia|unfold grown_by; destruct (m !! text p); lia]]].
  assert (hash_jam text (S fuel) c p v = match (if hash_full c <? stat STAT_USED c then hash_grow text fuel c else Some c) with
    | None => None | Some c => match hash_ask text c p STAT__WRITE with None => None | Some (slot, found, c) =>
        Some (change_entry slot (put_value v) (if found then c else add_stat STAT_USED 1 (change_entry slot (put_string (NAME p)) c))) end end) as -> by reflexivity.
  rewrite E0. revert E. destruct fuel; cbn [hash_jam]; rewrite not_full by done; by intros E.
Qed.
Lemma replace_run m c n p v : table m c -> holds_at_most n c -> 0 <= n ->
  exists c', hash_replace text c p v = Some (default 0 (m !! text p), c') /\
    table (if m !! text p is Some _ then <[text p := v]> m else m) c' /\ holds_at_most (n + 1) c'.
Proof.
  intros Ht Hn Hb. destruct (ask_run m c p STAT__WRITE Ht) as (slot & found & c1 & E & Ha & Hs); [unfold STAT__WRITE; lia|].
  unfold hash_replace. rewrite E. destruct found.
  - destruct (table_replaced m c p v slot c1 Ht Ha Hs) as (H1 & H2 & H3 & H4 & [w Hw]). rewrite H4, Hw.
    eexists. split; [reflexivity|]. split; [exact H1|]. apply (at_most_more n c _ 0); [done|apply H3|lia|lia|lia].
  - destruct Ha as (_ & Hm & (e & He & Hnl & Hw) & _). rewrite Hm. eexists. split; [reflexivity|].
    assert (live_count (hash_where c1) = live_count (hash_where c)) as Hl by (rewrite Hw; by apply (live_count_same _ slot e)).
    split; [|apply (at_most_more n c _ 0); [done|apply Hs|lia|lia|lia]].
    apply (table_members m m c); [done|done| |done]. rewrite Hw. apply content_touch; [apply Ht|done|done].
Qed.
Lemma op_refines fuel m c n o : table m c -> holds_at_most n c -> 0 <= n < 2 ^ 23 ->
  exists c', run_op fuel c o = Some ((map_op m o).1, c') /\ table (map_op m o).2 c' /\ holds_at_most (n + 1) c'.
Proof.
  intros Ht Hn Hb. destruct o as [p|p v|p v|p v]; cbn [run_op map_op].
  - destruct (find_run m c p Ht) as (c' & E & Ht' & E1 & L1). rewrite E. exists c'. split; [done|split; [done|]].
    apply (at_most_more n c c' 0); [done|done|lia|lia|lia].
  - destruct (insert_run fuel m c n p v Ht Hn Hb) as (c' & E & H1 & H2). rewrite E. exists c'.
    destruct (m !! text p); done.
  - destruct (jam_grows fuel m c n p v Ht Hn Hb) as (c' & E & H1 & H2). rewrite E. by exists c'.
  - destruct (replace_run m c n p v Ht Hn ltac:(lia)) as (c' & E & H1 & H2). rewrite E. exists c'.
    destruct (m !! text p); done.
Qed.
Lemma ops_refine fuel l : forall m c n, table m c -> holds_at_most n c -> 0 <= n -> n + Z.of_nat (length l) <= 2 ^ 23 ->
  exists c', run_ops fuel c l = Some ((map_ops m l).1, c') /\ table (map_ops m l).2 c' /\ holds_at_most (n + Z.of_nat (length l)) c'.
Proof.
  induction l as [|o l IH]; intros m c n Ht Hn H0 Hb.
  { exists c. split; [done|split; [done|]]. by rewrite Z.add_0_r. }
  cbn [length] in Hb |- *. destruct (op_refines fuel m c n o Ht Hn) as (c1 & E1 & Ht1 & Hn1); [lia|].
  cbn [run_ops map_ops]. rewrite E1. destruct (map_op m o) as [a m1]. cbn [fst snd mbind option_bind] in *.
  destruct (IH m1 c1 (n + 1) Ht1 Hn1) as (c2 & E2 & Ht2 & Hn2); [lia|lia|]. rewrite E2.
  destruct (map_ops m1 l) as [r m2]. cbn [fst snd mbind option_bind] in *. exists c2. split; [done|split; [done|]].
  by replace (n + Z.of_nat (S (length l))) with (n + 1 + Z.of_nat (length l)) by lia.
Qed.
Lemma new_table : table ∅ hash_new /\ holds_at_most 0 hash_new.
Proof.
  assert (live_count (vacant (2 ^ 10)) = 0%nat) as Hv by (vm_compute; reflexivity).
  split; [|split; [|by left]].
  - split; try reflexivity; change (hash_sizelog hash_new) with 10; change (hash_where hash_new) with (vacant (2 ^ 10)).
    + lia.
    + apply content_vacant. lia.
    + rewrite Hv. lia.
  - change (hash_where hash_new) with (vacant (2 ^ 10)). by rewrite Hv.
Qed.

(** C20: The hash table of gas/hash.c implements a finite map. Any sequence of up to 2^23
    calls of [hash_find], [hash_insert], [hash_jam] and [hash_replace] on a new table gives
    the answers that a finite map from names to values gives: the value of a name or NULL,
    "exists" for a second insertion, the old value on replacement.  Names are compared as
    strings, whatever their addresses; collisions, searches that go around the end of the
    array and any number of growths do not matter; no search leaves the array, and growing
    never calls itself. *)
Theorem hash_table_refines fuel l : Z.of_nat (length l) <= 2 ^ 23 ->
  exists c, run_ops fuel hash_new l = Some ((map_ops ∅ l).1, c) /\ table (map_ops ∅ l).2 c.
Proof.
  intros Hl. destruct new_table as [Ht Hn]. destruct (ops_refine fuel l ∅ hash_new 0 Ht Hn) as (c & E & Ht' & _); [lia..|].
  by exists c.
Qed.
End Content.

(** ** A witness, and deletion *)

(** The strings at the first addresses: the decimal numbers *)
Definition numerals (p : Z) : string := NilZero.string_of_int (Z.to_int p).
(** More than half of the first array, so that it grows; then searches, one through another
    address of an equal string *)
Definition many_operations : list operation :=
  map (fun k => Insert (Z.of_nat k) (7 * Z.of_nat k)) (seq 1 514) ++ [Find 500; Find 600; Insert 500 1; Jam 500 2; Replace 500 3; Find 500].
Lemma hash_table_refines_witness : exists c, run_ops numerals 0 hash_new many_operations =
    Some (repeat (Message None) 514 ++ [Value 3500; Value 0; Message (Some "exists"%string); Message None; Value 2; Value 3], c) /\
  hash_sizelog c = 11.
Proof.
  destruct (hash_table_refines numerals 0 many_operations) as (c & E & _); [vm_compute; discriminate|].
  exists c. split; [rewrite E; do 2 f_equal; vm_compute; reflexivity|].
  assert (hash_sizelog <$> (snd <$> run_ops numerals 0 hash_new many_operations) = Some 11) as E2 by (vm_compute; reflexivity).
  rewrite E in E2. by injection E2 as ->.
Defined.

(** A search ends at a deleted entry, so that a name behind it is no longer found, and can be
    inserted a second time: "bb" and "aj" have the same home slot. *)
Definition two_names (p : Z) : string := if p =? 1 then "bb"%string else "aj"%string.
Lemma deletion_hides : 
  match run_ops two_names 0 hash_new [Insert 1 10; Insert 2 20] with
  | Some (_, c) =>
      match hash_delete two_names c 1 with
      | Some (old, c) => old = 10 /\ fst <$> run_ops two_names 0 c [Find 2; Insert 2 30] = Some [Value 0; Message None]
      | None => False
      end
  | None => False
  end.
Proof. vm_compute. split; reflexivity. Qed.
