(* ===== verification/OpcodeTable.v ===== *)
(** * The assembler's table of opcode names

    [md_begin] of gas/config/tc-d10v.c puts the names of the opcodes into a hash table, in
    which [do_assemble] looks up the name of an instruction.  Asm.v has the finite map
    [d10v_hash] in its place; the table that gas/hash.c builds answers every search as
    this map does. *)
From S2P Require Import Prelude CInt Opcodes Asm Hash HashSpec.
#[local] Open Scope string_scope.
#[local] Open Scope list_scope.
#[local] Open Scope Z_scope.

Section Names.
(** The strings in memory; the addresses of the names of the opcodes and of their entries *)
Context (text : Z -> string) (name_at opcode_ptr : nat -> Z).

(** The loop of [md_begin] from the opcode [i] on *)
Fixpoint md_begin_table (fuel : nat) (prev_name : string) (i : nat) (l : list d10v_opcode) (c : hash_control) : option hash_control :=
  match l with
  | [] => Some c
  | op :: l' =>
      match name op with
      | None => Some c
      | Some nm =>
          if bool_decide (prev_name = nm) then md_begin_table fuel prev_name (S i) l' c
          else '(_, c) ← hash_insert text fuel c (name_at i) (opcode_ptr i); md_begin_table fuel nm (S i) l' c
      end
  end.

Context (Hnames : forall i op nm, d10v_opcodes !! i = Some op -> name op = Some nm -> text (name_at i) = nm).

Lemma md_begin_refines fuel l : forall i prev m c n, drop i d10v_opcodes = l ->
  table text (opcode_ptr <$> m) c -> holds_at_most n c -> 0 <= n -> n + Z.of_nat (length l) <= 2 ^ 23 ->
  exists c', md_begin_table fuel prev i l c = Some c' /\ table text (opcode_ptr <$> md_begin_loop prev i l m) c'.
Proof.
  induction l as [|op l IH]; intros i prev m c n Hd Ht Hn H0 Hb; cbn [md_begin_table md_begin_loop]; [by exists c|].
  cbn [length] in Hb. assert (d10v_opcodes !! i = Some op) as Hi by (rewrite <- (Nat.add_0_r i), <- lookup_drop, Hd; done).
  assert (drop (S i) d10v_opcodes = l) as Hd' by (rewrite <- Nat.add_1_r, <- drop_drop, Hd; done).
  destruct (name op) as [nm|] eqn:En; [|by exists c].
  case_bool_decide as Ep; [apply (IH (S i) prev m c n); (done || lia)|].
  destruct (insert_run text fuel _ c n (name_at i) (opcode_ptr i) Ht Hn) as (c1 & E & Ht1 & Hn1); [lia|].
  rewrite E. cbn [mbind option_bind]. rewrite (Hnames i op nm Hi En), lookup_fmap in Ht1.
  apply (IH (S i) nm _ c1 (n + 1)); [done| |done|lia|lia].
  destruct (m !! nm); cbn [fmap option_fmap option_map] in Ht1; [exact Ht1|]. by rewrite fmap_insert.
Qed.

(** C21: The assembler finds every opcode name. The hash table that [md_begin] builds with
    [hash_new] and [hash_insert] from the opcode table answers [hash_find] for any name, at
    any address, with the entry that [d10v_hash] has for it, the first of its run of equal
    names, and with NULL if no opcode has the name. *)
Theorem opcode_names_found fuel : exists c, md_begin_table fuel "" 0 d10v_opcodes hash_new = Some c /\
  forall p, exists c', hash_find text c p = Some (default 0 (opcode_ptr <$> d10v_hash !! text p), c') /\
    table text (opcode_ptr <$> d10v_hash) c'.
Proof.
  destruct (new_table text) as [Ht Hn].
  destruct (md_begin_refines fuel d10v_opcodes 0 "" ∅ hash_new 0) as (c & E & Ht'); [done|by rewrite fmap_empty|done|lia|vm_compute; discriminate|].
  exists c. split; [exact E|]. intros p. destruct (find_run text _ c p Ht') as (c' & E' & Ht2 & _).
  exists c'. split; [|exact Ht2]. rewrite E'. unfold d10v_hash. by rewrite lookup_fmap.
Qed.
End Names.

(** ** A witness *)

(** The name of the opcode [i] is at the address [i + 1], what the user writes from 0x1000
    on. *)
Definition user_names : list string := ["add"; "bra.l"; "ldb"; "nonsense"].
Definition memory_text (p : Z) : string :=
  if p <? 0x1000 then match d10v_opcodes !! Z.to_nat (p - 1) with
                      | Some op => default "" (name op)
                      | None => ""
                      end
  else default "" (user_names !! Z.to_nat (p - 0x1000)).
Lemma opcode_names_found_witness : exists c,
  md_begin_table memory_text (fun i => Z.of_nat i + 1) (fun i => 0x2000 + 16 * Z.of_nat i) 0 "" 0 d10v_opcodes hash_new = Some c /\
  (fst <$> hash_find memory_text c 0x1000) = Some (0x2000 + 16 * 2) /\ (fst <$> hash_find memory_text c 0x1003) = Some 0.
Proof.
  destruct (opcode_names_found memory_text (fun i => Z.of_nat i + 1) (fun i => 0x2000 + 16 * Z.of_nat i)) with (fuel := 0%nat)
    as (c & E & Hf).
  - intros i op nm Hi Hn. unfold memory_text. apply lookup_lt_Some in Hi as Hlt. change (length d10v_opcodes) with 166%nat in Hlt.
    rewrite (proj2 (Z.ltb_lt (Z.of_nat i + 1) 0x1000)) by lia.
    replace (Z.to_nat (Z.of_nat i + 1 - 1)) with i by lia. by rewrite Hi, Hn.
  - exists c. split; [exact E|]. destruct (Hf 0x1000) as (c1 & E1 & _), (Hf 0x1003) as (c2 & E2 & _). rewrite E1, E2.
    split; vm_compute; reflexivity.
Defined.
