(* ===== verification/GdbSpec.v ===== *)
(** * The debugger's registers and memory

    The register buffer as a function from numbers to values, and the laws that GDB
    relies on of the target's memory, with a target that obeys them. *)
From S2P Require Import Prelude CInt Gdb.
#[local] Open Scope gdb_scope.

(** ** Integers in the target's byte order *)

Lemma store_loop_app len : forall val tail,
  store_integer_loop len val tail = store_integer_loop len val [] ++ tail.
Proof.
  induction len as [|len IH]; intros val tail; [done|]. cbn [store_integer_loop].
  rewrite IH, (IH _ [_]), <- app_assoc. done.
Qed.
Lemma store_loop_length len : forall val, length (store_integer_loop len val []) = len.
Proof.
  induction len as [|len IH]; intros val; [done|]. cbn [store_integer_loop].
  rewrite store_loop_app, length_app, IH. simpl. lia.
Qed.
Definition is_byte (b : Z) : Prop := 0 <= b < 256.
Lemma store_loop_bytes len : forall val, Forall is_byte (store_integer_loop len val []).
Proof.
  induction len as [|len IH]; intros val; [constructor|]. cbn [store_integer_loop].
  rewrite store_loop_app. apply Forall_app. split; [apply IH|]. apply Forall_singleton.
  unfold is_byte. change 0xff with (Z.ones 8). rewrite land_ones_mod by lia. zdml.
Qed.
Lemma store_signed_2 v : store_signed_integer 2 v = [v mod 2 ^ 16 / 256; v mod 256].
Proof.
  unfold store_signed_integer. change (Z.to_nat 2) with 2%nat. cbn [store_integer_loop].
  change 0xff with (Z.ones 8). rewrite !land_ones_mod, Z.shiftr_div_pow2 by lia.
  assert (s64 v mod 2 ^ 16 = v mod 2 ^ 16) as E by (unfold s64, wrap_signed; zdml).
  f_equal; [zdml|]. f_equal. zdml.
Qed.

(** ** Integers that are read *)

Lemma sign_byte b : 0 <= b < 2 ^ 8 -> s64 (Z.lxor b 0x80 - 0x80) = if b <? 128 then b else b - 2 ^ 8.
Proof.
  intros Hb. assert (forallb (fun b => s64 (Z.lxor b 0x80 - 0x80) =? if b <? 128 then b else b - 2 ^ 8)
    (map Z.of_nat (seq 0 256)) = true) as Ha by (vm_compute; reflexivity).
  rewrite forallb_forall in Ha. apply Z.eqb_eq, Ha, in_map_iff. exists (Z.to_nat b).
  split; [lia|]. apply in_seq. lia.
Qed.
Section Extract.
Context `{Target}.

Lemma gbind_returns {A B} (m : G A) (f : A -> G B) g x g' : m g = Returns x g' -> gbind m f g = f x g'.
Proof. intros E. unfold gbind. by rewrite E. Qed.

(** Four bytes as a signed integer *)
Lemma extract_signed_4 b0 b1 b2 b3 g : is_byte b0 -> is_byte b1 -> is_byte b2 -> is_byte b3 ->
  exists x, extract_signed_integer [b0; b1; b2; b3] g = Returns x g /\
    u32 x = b0 * 2 ^ 24 + b1 * 2 ^ 16 + b2 * 2 ^ 8 + b3.
Proof.
  unfold is_byte. intros H0 H1 H2 H3. unfold extract_signed_integer, gret. cbn [length].
  rewrite (proj2 (Z.ltb_ge 8 _)) by lia. eexists. split; [reflexivity|]. cbn [fold_left].
  assert (forall r b, 0 <= b < 2 ^ 8 -> - 2 ^ 40 <= r < 2 ^ 40 ->
    Z.lor (s64 (Z.shiftl r 8)) b = r * 2 ^ 8 + b) as El.
  { intros r b Hb Hr. assert (s64 (Z.shiftl r 8) = Z.shiftl r 8) as ->
      by (rewrite Z.shiftl_mul_pow2 by lia; unfold s64, wrap_signed; zdml).
    by apply lor_add_disjoint. }
  set (r0 := s64 (Z.lxor b0 0x80 - 0x80)). assert ((r0 = b0 \/ r0 = b0 - 2 ^ 8) /\ - 2 ^ 8 <= r0 < 2 ^ 8) as [Hr0 ?].
  { unfold r0. rewrite sign_byte by lia. destruct (Z.ltb_spec b0 128); lia. }
  rewrite (El r0) by lia. rewrite (El (r0 * 2 ^ 8 + _)) by lia. rewrite El by lia.
  unfold u32. destruct Hr0 as [-> | ->]; zdml.
Qed.
(** One and two bytes as an unsigned integer *)
Lemma extract_unsigned_1 b g : is_byte b -> extract_unsigned_integer [b] g = Returns b g.
Proof.
  unfold is_byte. intros Hb. unfold extract_unsigned_integer, gret. cbn [length].
  rewrite (proj2 (Z.ltb_ge 8 _)) by lia. reflexivity.
Qed.
Lemma extract_unsigned_2 b0 b1 g : is_byte b0 -> is_byte b1 ->
  extract_unsigned_integer [b0; b1] g = Returns (256 * b0 + b1) g.
Proof.
  unfold is_byte. intros H0 H1. unfold extract_unsigned_integer, gret. cbn [length].
  rewrite (proj2 (Z.ltb_ge 8 _)) by lia. cbn [fold_left]. change (Z.lor (u64 (Z.shiftl 0 8)) b0) with b0.
  assert (u64 (Z.shiftl b0 8) = Z.shiftl b0 8) as -> by (rewrite Z.shiftl_mul_pow2 by lia; unfold u64; zdml).
  rewrite lor_add_disjoint by lia. f_equal. lia.
Qed.
End Extract.

(** ** The buffer *)

Lemma slice_some at_ len l : 0 <= at_ -> 0 <= len -> at_ + len <= Z.of_nat (length l) ->
  slice at_ len l = Some (take (Z.to_nat len) (drop (Z.to_nat at_) l)).
Proof. intros. unfold slice. by rewrite !(proj2 (Z.leb_le _ _)) by lia. Qed.
Lemma overwrite_some at_ new l : 0 <= at_ -> at_ + Z.of_nat (length new) <= Z.of_nat (length l) ->
  overwrite at_ new l = Some (take (Z.to_nat at_) l ++ new ++ drop (Z.to_nat at_ + length new) l).
Proof. intros. unfold overwrite. by rewrite !(proj2 (Z.leb_le _ _)) by lia. Qed.
Lemma overwrite_length at_ new l l' : overwrite at_ new l = Some l' -> length l' = length l.
Proof.
  unfold overwrite. destruct (Z.leb_spec 0 at_); [|done]. simpl.
  destruct (Z.leb_spec (at_ + Z.of_nat (length new)) (Z.of_nat (length l))); [|done]. intros [= <-].
  rewrite !length_app, length_take, length_drop. lia.
Qed.
Lemma overwrite_nth at_ new l l' i : overwrite at_ new l = Some l' ->
  nth i l' 0 = if (Z.to_nat at_ <=? i)%nat && (i <? Z.to_nat at_ + length new)%nat
               then nth (i - Z.to_nat at_) new 0 else nth i l 0.
Proof.
  unfold overwrite. destruct (Z.leb_spec 0 at_); [|done]. simpl.
  destruct (Z.leb_spec (at_ + Z.of_nat (length new)) (Z.of_nat (length l))); [|done]. intros [= <-].
  assert (length (take (Z.to_nat at_) l) = Z.to_nat at_) as Ht by (rewrite length_take; lia).
  destruct (Nat.leb_spec (Z.to_nat at_) i); simpl.
  - rewrite app_nth2 by lia. rewrite Ht. destruct (Nat.ltb_spec i (Z.to_nat at_ + length new)).
    + by rewrite app_nth1 by lia.
    + rewrite app_nth2 by lia. rewrite !nth_lookup, lookup_drop. do 2 f_equal. lia.
  - rewrite app_nth1 by lia. rewrite !nth_lookup, lookup_take_lt by lia. done.
Qed.

Section Registers.
Context `{Target}.

(** The value of a 16-bit register *)
Definition reg_value (g : inferior) (n : Z) : Z :=
  256 * nth (Z.to_nat (n * 2)) (current g) 0 + nth (Z.to_nat (n * 2 + 1)) (current g) 0.
Definition buffer_ok (g : inferior) : Prop :=
  Z.of_nat (length (current g)) = REGISTER_BYTES /\ Forall is_byte (current g).

Lemma read_register_eq g n : buffer_ok g -> 0 <= n < A0_REGNUM ->
  read_register n g = Returns (reg_value g n) g /\ 0 <= reg_value g n < 2 ^ 16.
Proof.
  intros [Hl Hb] Hn. unfold A0_REGNUM, REGISTER_BYTES, NUM_REGS in *.
  assert (forall i, is_byte (nth i (current g) 0)) as Hbyte.
  { intros i. destruct (nth_in_or_default i (current g) 0) as [Hin| ->]; [|split; lia].
    rewrite List.Forall_forall in Hb. by apply Hb. }
  unfold read_register, read_register_gen, gbind, gget, REGISTER_BYTE, REGISTER_RAW_SIZE, A0_REGNUM.
  destruct (Z.ltb_spec 35 n); [lia|]. destruct (Z.leb_spec 35 n); [lia|].
  rewrite slice_some by lia. simpl gread.
  assert (take 2 (drop (Z.to_nat (n * 2)) (current g)) =
    [nth (Z.to_nat (n * 2)) (current g) 0; nth (Z.to_nat (n * 2 + 1)) (current g) 0]) as E.
  { apply list_eq. intros i. destruct i as [|[|i]].
    - rewrite lookup_take_lt, lookup_drop by lia. simpl. rewrite Nat.add_0_r.
      rewrite nth_lookup. destruct (lookup_lt_is_Some_2 (current g) (Z.to_nat (n * 2))) as [x E]; [lia|].
      by rewrite E.
    - rewrite lookup_take_lt, lookup_drop by lia. simpl. replace (Z.to_nat (n * 2 + 1)) with (Z.to_nat (n * 2) + 1)%nat by lia.
      rewrite nth_lookup. destruct (lookup_lt_is_Some_2 (current g) (Z.to_nat (n * 2) + 1)) as [x E]; [lia|].
      by rewrite E.
    - by rewrite lookup_take_ge by lia. }
  change (Z.to_nat 2) with 2%nat. unfold gret. rewrite E. unfold extract_address, extract_unsigned_integer.
  simpl. unfold gbind, gret. pose proof (Hbyte (Z.to_nat (n * 2))) as Hb0.
  pose proof (Hbyte (Z.to_nat (n * 2 + 1))) as Hb1. unfold is_byte, reg_value in *.
  set (b0 := nth (Z.to_nat (n * 2)) (current g) 0) in *. set (b1 := nth (Z.to_nat (n * 2 + 1)) (current g) 0) in *.
  change (Z.lor (u64 (Z.shiftl 0 8)) b0) with b0.
  assert (u64 (Z.shiftl b0 8) = Z.shiftl b0 8) as ->
    by (rewrite Z.shiftl_mul_pow2 by lia; unfold u64; apply Z.mod_small; lia).
  rewrite lor_add_disjoint, u32_small by lia. split; [f_equal; lia|lia].
Qed.

Lemma current_set l g : current (set_registers l g) = l.
Proof. unfold current, set_registers. simpl. by rewrite Z.eqb_refl. Qed.

(** A register that is written has the value; the others keep theirs. *)
Lemma write_register_eq g n v : buffer_ok g -> 0 <= n < A0_REGNUM ->
  exists g', write_register n v g = Returns tt g' /\ buffer_ok g' /\
    inferior_pid g' = inferior_pid g /\ mem g' = mem g /\
    forall k, 0 <= k < A0_REGNUM -> reg_value g' k = if k =? n then v mod 2 ^ 16 else reg_value g k.
Proof.
  intros [Hl Hb] Hn. unfold A0_REGNUM, REGISTER_BYTES, NUM_REGS in *.
  unfold write_register, gbind, gget, gmodify, REGISTER_BYTE, REGISTER_RAW_SIZE, A0_REGNUM.
  destruct (Z.ltb_spec 35 n); [lia|]. destruct (Z.leb_spec 35 n); [lia|].
  rewrite store_signed_2. destruct (overwrite (n * 2) _ (current g)) as [l|] eqn:Eo.
  2: { rewrite overwrite_some in Eo by (simpl; lia). done. }
  exists (set_registers l g). split; [reflexivity|]. split.
  { split; rewrite current_set; [rewrite (overwrite_length _ _ _ _ Eo); exact Hl|].
    rewrite overwrite_some in Eo by (simpl; lia). injection Eo as <-.
    apply Forall_app. split; [by apply Forall_take|]. simpl app.
    constructor; [unfold is_byte; zdml|]. constructor; [unfold is_byte; zdml|by apply Forall_drop]. }
  split; [done|split; [done|]]. intros k Hk. unfold reg_value. rewrite current_set, !(overwrite_nth _ _ _ _ _ Eo).
  simpl length. destruct (Z.eqb_spec k n) as [->|Hne].
  - rewrite !(proj2 (Nat.leb_le _ _)), !(proj2 (Nat.ltb_lt _ _)) by lia. simpl andb. cbv iota.
    replace (Z.to_nat (n * 2) - Z.to_nat (n * 2))%nat with 0%nat by lia.
    replace (Z.to_nat (n * 2 + 1) - Z.to_nat (n * 2))%nat with 1%nat by lia. simpl nth. zdml.
  - destruct (Nat.leb_spec (Z.to_nat (n * 2)) (Z.to_nat (k * 2))),
      (Nat.ltb_spec (Z.to_nat (k * 2)) (Z.to_nat (n * 2) + 2)); try lia; simpl andb; cbv iota;
    destruct (Nat.leb_spec (Z.to_nat (n * 2)) (Z.to_nat (k * 2 + 1))),
      (Nat.ltb_spec (Z.to_nat (k * 2 + 1)) (Z.to_nat (n * 2) + 2)); try lia; done.
Qed.
End Registers.

(** ** Memory *)

(** What GDB relies on: a write of some bytes is read back, and changes no others; what
    can be read at once can be read in parts.  *)
Class TargetLaws `{Target} := {
  written_read : forall m a bs m', target_write_memory m a bs = Some m' ->
    target_read_memory m' a (Z.of_nat (length bs)) = Some bs;
  written_apart : forall m a bs m' a' n, target_write_memory m a bs = Some m' ->
    a' + n <= a \/ a + Z.of_nat (length bs) <= a' ->
    target_read_memory m' a' n = target_read_memory m a' n
}.

(** A memory of 2^32 bytes, all of them accessible, and a program without symbols *)
Definition byte_at (m : gmap Z Z) (a : Z) : Z := default 0 (m !! a).
Definition read_cells (m : gmap Z Z) (a n : Z) : list Z :=
  map (fun i => byte_at m (a + Z.of_nat i)) (seq 0 (Z.to_nat n)).
Fixpoint write_cells (m : gmap Z Z) (a : Z) (bs : list Z) : gmap Z Z :=
  match bs with [] => m | b :: bs' => <[a := b]> (write_cells m (a + 1) bs') end.
Definition plain_target : Target := {|
  memory := gmap Z Z;
  target_read_memory := fun m a n => Some (read_cells m a n);
  target_write_memory := fun m a bs => Some (write_cells m a bs);
  find_pc_partial_function := fun _ => None;
  find_pc_line_end := fun _ => 0;
  get_pc_function_start := fun pc => pc;
  inside_entry_file := fun _ => false;
  generic_pc_in_call_dummy := fun _ _ => false;
  entry_point_address := IMEM_START
|}.

Lemma byte_at_write bs : forall m a x,
  byte_at (write_cells m a bs) x =
  if (a <=? x) && (x <? a + Z.of_nat (length bs)) then nth (Z.to_nat (x - a)) bs 0 else byte_at m x.
Proof.
  induction bs as [|b bs IH]; intros m a x; cbn [write_cells].
  { simpl. rewrite Z.add_0_r. destruct (Z.leb_spec a x), (Z.ltb_spec x a); simpl; done || lia. }
  unfold byte_at. destruct (decide (a = x)) as [->|Hne].
  - rewrite lookup_insert_eq, Z.leb_refl, Z.sub_diag. simpl length.
    rewrite (proj2 (Z.ltb_lt x _)) by lia. done.
  - rewrite lookup_insert_ne by done. fold (byte_at (write_cells m (a + 1) bs) x). rewrite IH.
    simpl length. destruct (Z.leb_spec (a + 1) x), (Z.leb_spec a x); try lia; simpl andb; [|done].
    replace (a + 1 + Z.of_nat (length bs)) with (a + Z.of_nat (S (length bs))) by lia.
    destruct (_ <? _); [|done]. replace (Z.to_nat (x - a)) with (S (Z.to_nat (x - (a + 1)))) by lia. done.
Qed.
#[export] Instance plain_target_laws : @TargetLaws plain_target.
Proof.
  split.
  - intros m a bs m' [= <-]. simpl. f_equal. unfold read_cells. rewrite Nat2Z.id.
    apply (nth_ext _ _ 0 0); [by rewrite length_map, length_seq|]. rewrite length_map, length_seq. intros i Hi.
    rewrite (nth_indep _ 0 (byte_at (write_cells m a bs) (a + Z.of_nat 0))) by (rewrite length_map, length_seq; lia).
    rewrite (map_nth (fun i => byte_at (write_cells m a bs) (a + Z.of_nat i))), seq_nth by lia.
    rewrite byte_at_write. rewrite (proj2 (Z.leb_le _ _)), (proj2 (Z.ltb_lt _ _)) by lia. simpl andb. cbv iota.
    f_equal. lia.
  - intros m a bs m' a' n [= <-] Hd. simpl. f_equal. unfold read_cells. apply map_ext_in. intros i Hi.
    apply in_seq in Hi. rewrite byte_at_write.
    destruct (Z.leb_spec a (a' + Z.of_nat i)), (Z.ltb_spec (a' + Z.of_nat i) (a + Z.of_nat (length bs)));
      simpl; done || lia.
Qed.
(** A program that has just been loaded, with a value for each 16-bit register *)
Section Loaded.
Context `{Target}.
Definition loaded (l : list Z) (m : memory) : inferior :=
  Inferior _ (fun _ => flat_map (fun v => [v / 256; v mod 256]) l ++ repeat 0 16) 0 m 0 0 0
    (Trace_buffer 0 None None).
Lemma pair_bytes_length l : length (flat_map (fun v : Z => [v / 256; v mod 256]) l) = (2 * length l)%nat.
Proof. induction l as [|v l IH]; [done|]. simpl. rewrite IH. lia. Qed.
Lemma loaded_ok l m : length l = 35%nat -> Forall (fun v => 0 <= v < 2 ^ 16) l -> buffer_ok (loaded l m).
Proof.
  intros Hl Hb. unfold buffer_ok, current, loaded. cbn [registers inferior_pid]. split.
  - by rewrite length_app, repeat_length, pair_bytes_length, Hl.
  - apply Forall_app. split.
    + clear Hl. induction Hb as [|v l Hv _ IH]; simpl; [constructor|].
      constructor; [unfold is_byte; zdml|]. constructor; [unfold is_byte; zdml|exact IH].
    + apply List.Forall_forall. intros x ->%repeat_spec. unfold is_byte. lia.
Qed.
Lemma pair_bytes_nth l tail : forall k, (k < length l)%nat ->
  256 * nth (2 * k) (flat_map (fun v : Z => [v / 256; v mod 256]) l ++ tail) 0 +
  nth (2 * k + 1) (flat_map (fun v : Z => [v / 256; v mod 256]) l ++ tail) 0 = nth k l 0.
Proof.
  induction l as [|v l IH]; intros k Hk; [simpl in Hk; lia|]. destruct k as [|k].
  - simpl. pose proof (Z.div_mod v 256). lia.
  - replace (2 * S k)%nat with (S (S (2 * k))) by lia. simpl in Hk |- *. rewrite <- IH by lia.
    do 2 f_equal; f_equal; lia.
Qed.
Lemma loaded_value l m k : 0 <= k < Z.of_nat (length l) -> reg_value (loaded l m) k = nth (Z.to_nat k) l 0.
Proof.
  intros Hk. rewrite <- (pair_bytes_nth l (repeat 0 16)) by lia. unfold reg_value, current, loaded.
  cbn [registers inferior_pid]. do 2 f_equal; f_equal; lia.
Qed.
End Loaded.
