(* ===== verification/CallSpec.v ===== *)
(** * Calls: where GDB puts arguments and where the compiler expects them *)
From S2P Require Import Prelude CInt Gdb Tdep GdbSpec Gcc.
#[local] Open Scope gdb_scope.

(** ** The words of an argument *)

Definition be_word (b0 b1 : Z) : Z := 256 * b0 + b1.
(** Left aligned: an odd byte at the end is the high byte of its register. *)
Fixpoint words_of (l : list Z) : list Z :=
  match l with
  | b0 :: b1 :: l' => be_word b0 b1 :: words_of l'
  | [b] => [be_word b 0]
  | [] => []
  end.
Definition be_value (l : list Z) : Z := fold_left (fun v b => 256 * v + b) l 0.
(** The registers that an argument takes: a pointer in one word; one or two bytes as an
    integer; and else left aligned *)
Definition arg_words (arg : gdb_value) : list Z :=
  let l := VALUE_CONTENTS arg in
  if is_pointer (VALUE_TYPE arg) then [Z.land (pointer_to_raw (VALUE_TYPE arg) (s32 (be_value l))) 0xffff]
  else if TYPE_LENGTH (VALUE_TYPE arg) <=? 2 then [be_value l]
  else words_of l.

(** The arguments considered: pointers have four bytes in GDB; other values are not empty,
    and have not three bytes. *)
Record arg_ok (arg : gdb_value) : Prop := {
  ao_contents : Z.of_nat (length (VALUE_CONTENTS arg)) = TYPE_LENGTH (VALUE_TYPE arg);
  ao_bytes : Forall is_byte (VALUE_CONTENTS arg);
  ao_length : if is_pointer (VALUE_TYPE arg) then TYPE_LENGTH (VALUE_TYPE arg) = 4
              else 1 <= TYPE_LENGTH (VALUE_TYPE arg) /\ TYPE_LENGTH (VALUE_TYPE arg) <> 3
}.
(** What the compiler knows of the same argument: pointers have two bytes. *)
Definition gcc_argument (arg : gdb_value) : argument :=
  Argument false None (if is_pointer (VALUE_TYPE arg) then 2 else TYPE_LENGTH (VALUE_TYPE arg)).

Lemma words_of_length l : Z.of_nat (length (words_of l)) = (Z.of_nat (length l) + 1) / 2.
Proof.
  assert (forall n l, (length l <= n)%nat -> Z.of_nat (length (words_of l)) = (Z.of_nat (length l) + 1) / 2) as Hn.
  { induction n as [|n IH]; intros [|b0 [|b1 k]] Hl; simpl in Hl; try lia; try done.
    cbn [words_of length]. rewrite !Nat2Z.inj_succ, IH by lia. zdml. }
  by eapply Hn.
Qed.
Definition word_of (l : list Z) (k : nat) : Z := be_word (nth (2 * k) l 0) (nth (2 * k + 1) l 0).
Lemma words_of_map n : forall l, (length l = 2 * n \/ length l = 2 * n + 1)%nat ->
  words_of l = map (word_of l) (seq 0 n) ++ if (length l =? 2 * n)%nat then [] else [be_word (nth (2 * n) l 0) 0].
Proof.
  induction n as [|n IH]; intros l Hl.
  { destruct l as [|b [|? ?]]; simpl in Hl; try lia; done. }
  destruct l as [|b0 [|b1 l]]; simpl in Hl; try lia. cbn [words_of seq map app]. f_equal.
  rewrite <- seq_shift, map_map, IH by lia. f_equal.
  - apply map_ext. intros k. unfold word_of. replace (2 * S k)%nat with (S (S (2 * k))) by lia. done.
  - replace (2 * S n)%nat with (S (S (2 * n))) by lia. done.
Qed.

Section Push.
Context `{Target}.

(** Registers from [r] on have got the values [vs]. *)
Record sets (g g' : inferior) (r : Z) (vs : list Z) : Prop := {
  st_ok : buffer_ok g';
  st_mem : mem g' = mem g;
  st_value : forall k, 0 <= k < A0_REGNUM -> reg_value g' k =
    if (r <=? k) && (k <? r + Z.of_nat (length vs)) then nth (Z.to_nat (k - r)) vs 0 else reg_value g k
}.
Lemma sets_nothing g r : buffer_ok g -> sets g g r [].
Proof.
  intros Hb. split; [done|done|]. intros k _. cbn [length]. rewrite Z.add_0_r.
  destruct (Z.leb_spec r k), (Z.ltb_spec k r); done || lia.
Qed.
Lemma sets_one g r v : buffer_ok g -> 0 <= r < A0_REGNUM -> 0 <= v < 2 ^ 16 ->
  exists g', write_register r v g = Returns tt g' /\ sets g g' r [v].
Proof.
  intros Hb Hr Hv. destruct (write_register_eq g r v Hb Hr) as (g' & E & Hb' & _ & Hm & Hval).
  exists g'. split; [exact E|]. split; [done|done|]. intros k Hk. rewrite Hval by done. cbn [length].
  destruct (Z.eqb_spec k r) as [->|Hne].
  - rewrite Z.leb_refl, (proj2 (Z.ltb_lt r _)), Z.sub_diag by lia. cbn [andb nth Z.to_nat]. by apply Z.mod_small.
  - destruct (Z.leb_spec r k), (Z.ltb_spec k (r + Z.of_nat 1)); done || lia.
Qed.
Lemma sets_app g g1 g2 r vs ws : 0 <= r -> sets g g1 r vs -> sets g1 g2 (r + Z.of_nat (length vs)) ws -> sets g g2 r (vs ++ ws).
Proof.
  intros Hr [_ Hm1 H1] [Hb2 Hm2 H2]. split; [done|congruence|]. intros k Hk. rewrite H2, H1 by done.
  rewrite length_app, Nat2Z.inj_add.
  destruct (Z.leb_spec r k), (Z.leb_spec (r + Z.of_nat (length vs)) k), (Z.ltb_spec k (r + Z.of_nat (length vs))),
    (Z.ltb_spec k (r + Z.of_nat (length vs) + Z.of_nat (length ws))),
    (Z.ltb_spec k (r + (Z.of_nat (length vs) + Z.of_nat (length ws)))); try lia; cbn [andb]; try done.
  - rewrite app_nth2 by lia. f_equal. lia.
  - by rewrite app_nth1 by lia.
Qed.

Lemma slice_two b l : 0 <= b -> b + 2 <= Z.of_nat (length l) ->
  slice b 2 l = Some [nth (Z.to_nat b) l 0; nth (Z.to_nat b + 1) l 0].
Proof.
  intros Hb Hl. rewrite slice_some by lia. change (Z.to_nat 2) with 2%nat. f_equal.
  apply list_eq. intros i. destruct i as [|[|i]].
  - rewrite lookup_take_lt, lookup_drop, Nat.add_0_r by lia. simpl. rewrite nth_lookup.
    destruct (lookup_lt_is_Some_2 l (Z.to_nat b)) as [x E]; [lia|]. by rewrite E.
  - rewrite lookup_take_lt, lookup_drop by lia. simpl. rewrite nth_lookup.
    destruct (lookup_lt_is_Some_2 l (Z.to_nat b + 1)) as [x E]; [lia|]. by rewrite E.
  - by rewrite lookup_take_ge by lia.
Qed.
Lemma slice_one b l : 0 <= b -> b + 1 <= Z.of_nat (length l) -> slice b 1 l = Some [nth (Z.to_nat b) l 0].
Proof.
  intros Hb Hl. rewrite slice_some by lia. change (Z.to_nat 1) with 1%nat. f_equal.
  apply list_eq. intros i. destruct i as [|i].
  - rewrite lookup_take_lt, lookup_drop, Nat.add_0_r by lia. simpl. rewrite nth_lookup.
    destruct (lookup_lt_is_Some_2 l (Z.to_nat b)) as [x E]; [lia|]. by rewrite E.
  - by rewrite lookup_take_ge by lia.
Qed.
Lemma nth_byte l i : Forall is_byte l -> is_byte (nth i l 0).
Proof.
  intros Hl. destruct (nth_in_or_default i l 0) as [Hin| ->]; [|split; lia].
  rewrite List.Forall_forall in Hl. by apply Hl.
Qed.

(** The loop over whole words *)
Lemma push_words_run l n : forall b r g,
  buffer_ok g -> Forall is_byte l -> 0 <= b -> b + 2 * Z.of_nat n <= Z.of_nat (length l) ->
  0 <= r -> r + Z.of_nat n <= A0_REGNUM ->
  exists g', push_words n b l r g = Returns (r + Z.of_nat n) g' /\
    sets g g' r (map (fun k => be_word (nth (Z.to_nat b + 2 * k) l 0) (nth (Z.to_nat b + 2 * k + 1) l 0)) (seq 0 n)).
Proof.
  induction n as [|n IH]; intros b r g Hb Hl H0 Hlen Hr Hrn.
  { exists g. split; [cbn [push_words]; unfold gret; by rewrite Z.add_0_r|by apply sets_nothing]. }
  cbn [push_words]. rewrite slice_two by lia. cbn [gread].
  pose proof (nth_byte l (Z.to_nat b) Hl) as Hb0. pose proof (nth_byte l (Z.to_nat b + 1) Hl) as Hb1.
  rewrite (gbind_returns _ _ g _ g eq_refl).
  rewrite (gbind_returns _ _ g _ g (extract_unsigned_2 _ _ g Hb0 Hb1)). unfold is_byte in *.
  assert (s32 (256 * nth (Z.to_nat b) l 0 + nth (Z.to_nat b + 1) l 0) = be_word (nth (Z.to_nat b) l 0) (nth (Z.to_nat b + 1) l 0)) as ->
    by (unfold be_word, s32, wrap_signed; zdml).
  destruct (sets_one g r (be_word (nth (Z.to_nat b) l 0) (nth (Z.to_nat b + 1) l 0)) Hb) as (g1 & E1 & Hs1);
    [lia|unfold be_word; lia|]. rewrite (gbind_returns _ _ _ _ _ E1).
  destruct (IH (b + 2) (r + 1) g1) as (g2 & E2 & Hs2); [apply Hs1|done|lia|lia|lia|lia|].
  exists g2. split; [rewrite E2; f_equal; lia|]. cbn [seq map]. rewrite Nat.mul_0_r, !Nat.add_0_r, <- seq_shift, map_map.
  eapply (sets_app g g1 g2 r [_]); [done|exact Hs1|]. cbn [length]. change (Z.of_nat 1) with 1.
  erewrite map_ext; [exact Hs2|]. intros k. cbv beta. do 2 f_equal; lia.
Qed.

Lemma slice_all l : slice 0 (Z.of_nat (length l)) l = Some l.
Proof. rewrite slice_some by lia. rewrite Nat2Z.id. change (Z.to_nat 0) with 0%nat. by rewrite drop_0, take_ge by lia. Qed.
Lemma land_even x : Z.land x (Z.lnot 1) = 2 * (x / 2).
Proof.
  change 1 with (Z.ones 1). rewrite <- Z.ldiff_land, Z.ldiff_ones_r, Z.shiftr_div_pow2, Z.shiftl_mul_pow2 by lia.
  change (2 ^ 1) with 2. apply Z.mul_comm.
Qed.

(** A value of at least two words or three bytes *)
Lemma push_long_value (t : gdb_type) l r sp g :
  buffer_ok g -> Forall is_byte l -> Z.of_nat (length l) = TYPE_LENGTH t -> is_pointer t = false ->
  3 <= TYPE_LENGTH t -> 0 <= r -> let a := 2 * ((r + 1) / 2) in TYPE_LENGTH t <= 8 - 2 * a ->
  exists g', push_argument (Value t l) r sp g = Returns (a + (TYPE_LENGTH t + 1) / 2, sp) g' /\ sets g g' a (words_of l).
Proof.
  intros Hb Hl Hlen Hp H3 Hr a Hfit. unfold push_argument. cbn [VALUE_TYPE VALUE_CONTENTS]. rewrite Hp.
  rewrite !land_even. fold a. unfold ARGN_REGNUM. rewrite (proj2 (Z.leb_gt (TYPE_LENGTH t) 2)) by lia. cbn [andb].
  rewrite (proj2 (Z.leb_le (TYPE_LENGTH t) _)) by lia.
  set (n := TYPE_LENGTH t / 2). assert (2 * n / 2 = n) as -> by (rewrite Z.mul_comm; apply Z.div_mul; lia).
  assert (0 <= n /\ 2 * n <= TYPE_LENGTH t <= 2 * n + 1) as [Hn0 Hn] by (unfold n; zdml).
  assert (0 <= a) by (unfold a; zdml).
  destruct (push_words_run l (Z.to_nat n) 0 a g Hb Hl) as (g1 & E1 & Hs1); [lia|lia|lia|unfold A0_REGNUM; lia|].
  rewrite (gbind_returns _ _ _ _ _ E1). rewrite Z2Nat.id in * by lia. change (Z.to_nat 0) with 0%nat in Hs1.
  change (map _ (seq 0 (Z.to_nat n))) with (map (word_of l) (seq 0 (Z.to_nat n))) in Hs1.
  rewrite (words_of_map (Z.to_nat n)) by lia.
  destruct (Z.ltb_spec (2 * n) (TYPE_LENGTH t)) as [Hodd|Heven].
  - rewrite slice_one by lia. cbn [gread]. rewrite (gbind_returns _ _ g1 _ g1 eq_refl).
    pose proof (nth_byte l (Z.to_nat (2 * n)) Hl) as Hbyte. rewrite (gbind_returns _ _ g1 _ g1 (extract_unsigned_1 _ g1 Hbyte)).
    unfold is_byte in Hbyte. replace (2 * Z.to_nat n)%nat with (Z.to_nat (2 * n)) by lia.
    rewrite (proj2 (Nat.eqb_neq _ _)) by lia. set (x := nth (Z.to_nat (2 * n)) l 0) in *.
    assert (s32 (Z.shiftl (s32 x) 8) = be_word x 0) as ->
      by (rewrite Z.shiftl_mul_pow2 by lia; unfold be_word, s32, wrap_signed; zdml).
    destruct (sets_one g1 (a + n) (be_word x 0)) as (g2 & E2 & Hs2); [apply Hs1|unfold A0_REGNUM; lia|unfold be_word; lia|].
    rewrite (gbind_returns _ _ _ _ _ E2). exists g2. split; [unfold gret; do 2 f_equal; zdml|].
    eapply sets_app; [lia|exact Hs1|]. rewrite length_map, length_seq, Z2Nat.id by lia. exact Hs2.
  - exists g1. split; [unfold gret; do 2 f_equal; zdml|].
    rewrite (proj2 (Nat.eqb_eq _ _)) by lia. by rewrite app_nil_r.
Qed.

(** One word as an integer *)
Lemma push_short_value (t : gdb_type) l r sp g :
  buffer_ok g -> Forall is_byte l -> Z.of_nat (length l) = TYPE_LENGTH t -> is_pointer t = false ->
  1 <= TYPE_LENGTH t <= 2 -> 0 <= r <= 3 ->
  exists g', push_argument (Value t l) r sp g = Returns (r + 1, sp) g' /\ sets g g' r [be_value l].
Proof.
  intros Hb Hl Hlen Hp H12 Hr. unfold push_argument. cbn [VALUE_TYPE VALUE_CONTENTS]. rewrite Hp.
  unfold ARGN_REGNUM. rewrite (proj2 (Z.leb_le (TYPE_LENGTH t) 2)), (proj2 (Z.leb_le r 3)) by lia. cbn [andb].
  rewrite <- Hlen, slice_all. cbn [gread]. rewrite (gbind_returns _ _ g _ g eq_refl).
  assert (extract_unsigned_integer l g = Returns (be_value l) g /\ 0 <= be_value l < 2 ^ 16) as [Ex Hv].
  { destruct l as [|b0 [|b1 [|? ?]]]; simpl in Hlen; try lia.
    - apply List.Forall_inv in Hl. rewrite extract_unsigned_1 by done. unfold is_byte in Hl.
      change (be_value [b0]) with (256 * 0 + b0). split; [f_equal; lia|lia].
    - pose proof (List.Forall_inv Hl) as H0. pose proof (List.Forall_inv (List.Forall_inv_tail Hl)) as H1.
      rewrite extract_unsigned_2 by done. unfold is_byte in *.
      change (be_value [b0; b1]) with (256 * (256 * 0 + b0) + b1). split; [f_equal; lia|lia]. }
  rewrite (gbind_returns _ _ _ _ _ Ex). assert (s32 (be_value l) = be_value l) as -> by (unfold s32, wrap_signed; zdml).
  destruct (sets_one g r (be_value l) Hb) as (g' & E & Hs); [unfold A0_REGNUM; lia|lia|].
  exists g'. split; [by rewrite (gbind_returns _ _ _ _ _ E)|exact Hs].
Qed.
(** A pointer *)
Lemma pointer_value (t : gdb_type) l g :
  Forall is_byte l -> length l = 4%nat -> exists x, extract_signed_integer l g = Returns x g /\ s32 x = s32 (be_value l).
Proof.
  intros Hl H4. destruct l as [|b0 [|b1 [|b2 [|b3 [|? ?]]]]]; simpl in H4; try lia.
  rewrite List.Forall_forall in Hl. destruct (extract_signed_4 b0 b1 b2 b3 g) as (x & E & Eu); [apply Hl; simpl; auto..|].
  exists x. split; [exact E|]. assert (be_value [b0; b1; b2; b3] = u32 x) as ->.
  { rewrite Eu. unfold be_value. cbn [fold_left]. lia. }
  unfold s32, u32, wrap_signed. zdml.
Qed.
Lemma push_pointer (t : gdb_type) l r sp g :
  buffer_ok g -> Forall is_byte l -> Z.of_nat (length l) = TYPE_LENGTH t -> is_pointer t = true ->
  TYPE_LENGTH t = 4 -> 0 <= r <= 3 ->
  exists g', push_argument (Value t l) r sp g = Returns (r + 1, sp) g' /\ sets g g' r (arg_words (Value t l)).
Proof.
  intros Hb Hl Hlen Hp H4 Hr. unfold push_argument, arg_words. cbn [VALUE_TYPE VALUE_CONTENTS]. rewrite Hp.
  rewrite <- Hlen, slice_all. cbn [gread]. rewrite (gbind_returns _ _ g _ g eq_refl).
  destruct (pointer_value t l g Hl) as (x & Ex & Ev); [lia|]. rewrite (gbind_returns _ _ _ _ _ Ex), Ev.
  unfold ARGN_REGNUM. rewrite (proj2 (Z.leb_le r 3)) by lia.
  destruct (sets_one g r (Z.land (pointer_to_raw t (s32 (be_value l))) 0xffff) Hb) as (g' & E & Hs); [unfold A0_REGNUM; lia| |].
  - change 0xffff with (Z.ones 16). rewrite land_ones_mod by lia. apply Z.mod_pos_bound. lia.
  - exists g'. split; [by rewrite (gbind_returns _ _ _ _ _ E)|exact Hs].
Qed.

(** An argument for which the compiler has a register *)
Lemma push_register arg r sp g r' stack :
  buffer_ok g -> arg_ok arg -> 0 <= r <= 4 -> function_arg (Cumulative r stack) (gcc_argument arg) = Some r' ->
  let words := Z.of_nat (length (arg_words arg)) in
  (exists g', push_argument arg r sp g = Returns (r' + words, sp) g' /\ sets g g' r' (arg_words arg)) /\
  cum_reg (function_arg_advance (Cumulative r stack) (gcc_argument arg)) = r' + words /\
  r <= r' /\ 1 <= words /\ r' + words <= 4.
Proof.
  destruct arg as [t l]. intros Hb [Hlen Hl Hlength] Hr Hf. cbn [VALUE_TYPE VALUE_CONTENTS] in *.
  unfold function_arg, function_arg_advance, arg_align, function_arg_boundary, arg_size, gcc_argument in *.
  cbn [VALUE_TYPE VALUE_CONTENTS is_BLKmode int_size_in_bytes GET_MODE_SIZE cum_reg cum_stack] in *.
  unfold ARG_LAST, ARG_FIRST, GPR_FIRST, UNITS_PER_WORD, BITS_PER_WORD in *.
  assert (Z.land r 1 = r mod 2) as El by (change 1 with (Z.ones 1); by rewrite land_ones_mod by lia).
  rewrite El in *.
  destruct (is_pointer t) eqn:Hp; [|destruct (Z.leb_spec (TYPE_LENGTH t) 2) as [H2|H2]].
  - simpl (2 * 2 <=? 2) in *. cbv iota in *. simpl (2 * 16 <=? 16) in *. rewrite andb_false_r in *. cbn [Z.b2z] in *.
    destruct (Z.ltb_spec ((0 + 3 - 0 + 1) * 2) ((r + 0) * 2 + 2)); [done|]. injection Hf as <-.
    assert (arg_words (Value t l) = [Z.land (pointer_to_raw t (s32 (be_value l))) 0xffff]) as Ew
      by (unfold arg_words; cbn [VALUE_TYPE VALUE_CONTENTS]; by rewrite Hp).
    rewrite Ew. cbn [length]. replace (0 + r + 0) with r by lia. split; [|].
    + rewrite <- Ew. apply push_pointer; done || lia.
    + change (Z.quot (2 + (2 - 1)) 2) with 1. rewrite (proj2 (Z.leb_le _ _)) by lia. cbn [cum_reg]. lia.
  - rewrite (proj2 (Z.leb_gt (2 * 2) _)) in * by lia. simpl (2 * 16 <=? 16) in *. rewrite andb_false_r in *. cbn [Z.b2z] in *.
    destruct (Z.ltb_spec ((0 + 3 - 0 + 1) * 2) ((r + 0) * 2 + TYPE_LENGTH t)); [done|]. injection Hf as <-.
    assert (arg_words (Value t l) = [be_value l]) as ->
      by (unfold arg_words; cbn [VALUE_TYPE VALUE_CONTENTS]; by rewrite Hp, (proj2 (Z.leb_le _ _)) by lia).
    cbn [length]. replace (0 + r + 0) with r by lia. split; [|].
    + apply push_short_value; done || lia.
    + rewrite Z.quot_div_nonneg by lia. assert ((TYPE_LENGTH t + (2 - 1)) / 2 = 1) as -> by zdml.
      rewrite (proj2 (Z.leb_le _ _)) by lia. cbn [cum_reg]. lia.
  - rewrite (proj2 (Z.leb_le (2 * 2) _)) in * by lia. simpl (2 * 16 <=? 2 * 16) in *. rewrite andb_true_r in *.
    set (al := Z.b2z (negb (r mod 2 =? 0))) in *.
    assert (r + al = 2 * ((r + 1) / 2)) as Ea by (unfold al; destruct (Z.eqb_spec (r mod 2) 0); cbn [negb Z.b2z]; zdml).
    destruct (Z.ltb_spec ((0 + 3 - 0 + 1) * 2) ((r + al) * 2 + TYPE_LENGTH t)); [done|]. injection Hf as <-.
    assert (arg_words (Value t l) = words_of l) as ->
      by (unfold arg_words; cbn [VALUE_TYPE VALUE_CONTENTS]; by rewrite Hp, (proj2 (Z.leb_gt _ _)) by lia).
    pose proof (words_of_length l) as Hwl. rewrite Hlen in Hwl. rewrite Hwl.
    replace (0 + r + al) with (r + al) by lia.
    assert (0 <= al <= 1) by (unfold al; destruct (_ =? _); simpl; lia). split; [|].
    + rewrite Ea. apply push_long_value; (done || lia).
    + rewrite Z.quot_div_nonneg by lia. change (2 - 1) with 1.
      rewrite (proj2 (Z.leb_le _ _)) by zdml. cbn [cum_reg]. split; [lia|zdml].
Qed.

(** Where the arguments are *)
Definition placed (g : inferior) (arg : gdb_value) (where_ : option Z) : Prop :=
  match where_ with
  | Some r => forall j v, arg_words arg !! j = Some v -> reg_value g (r + Z.of_nat j) = v
  | None => False
  end.
Definition cum_after (cum : d10v_cumulative_args) (args : list gdb_value) : d10v_cumulative_args :=
  fold_left (fun cum arg => function_arg_advance cum (gcc_argument arg)) args cum.

Lemma push_all args : forall r stack sp g,
  buffer_ok g -> Forall arg_ok args -> 0 <= r <= 4 ->
  Forall (fun w => w <> None) (argument_registers (Cumulative r stack) (map gcc_argument args)) ->
  exists r' g', (forall rest, push_loop (args ++ rest) r sp g = push_loop rest r' sp g') /\
    r' = cum_reg (cum_after (Cumulative r stack) args) /\ 0 <= r' <= 4 /\ buffer_ok g' /\ mem g' = mem g /\
    Forall2 (placed g') args (argument_registers (Cumulative r stack) (map gcc_argument args)) /\
    forall k, 0 <= k < A0_REGNUM -> k < r \/ 4 <= k -> reg_value g' k = reg_value g k.
Proof.
  induction args as [|arg args IH]; intros r stack sp g Hb Hok Hr Hregs.
  { exists r, g. split; [done|split; [done|split; [done|split; [done|split; [done|split; [constructor|done]]]]]]. }
  apply List.Forall_cons_iff in Hok as [Ha Hok]. cbn [map argument_registers] in Hregs.
  apply List.Forall_cons_iff in Hregs as [H0 Hregs].
  destruct (function_arg (Cumulative r stack) (gcc_argument arg)) as [r1|] eqn:Ef; [clear H0|done].
  destruct (push_register arg r sp g r1 stack Hb Ha Hr Ef) as ((g1 & E1 & Hs1) & Ec & Hr1 & Hw & Hr2).
  set (w := Z.of_nat (length (arg_words arg))) in *.
  destruct (function_arg_advance (Cumulative r stack) (gcc_argument arg)) as [r2 stack2] eqn:Eadv.
  cbn [cum_reg] in Ec. subst r2.
  destruct (IH (r1 + w) stack2 sp g1) as (r' & g' & E & Er & Hr' & Hb' & Hm & Hp & Hk); [apply Hs1|done|lia|done|].
  exists r', g'. split; [|split; [|split; [done|split; [done|split; [|split]]]]].
  - intros rest. cbn [app push_loop]. rewrite (gbind_returns _ _ _ _ _ E1). apply E.
  - unfold cum_after in *. cbn [fold_left]. by rewrite Eadv.
  - rewrite Hm. apply Hs1.
  - cbn [map argument_registers]. rewrite Ef, Eadv. constructor; [|exact Hp]. intros j v Hj.
    pose proof (lookup_lt_Some _ _ _ Hj) as Hlt. rewrite Hk by (unfold A0_REGNUM; lia).
    rewrite (st_value _ _ _ _ Hs1) by (unfold A0_REGNUM; lia). fold w.
    rewrite (proj2 (Z.leb_le _ _)), (proj2 (Z.ltb_lt _ _)) by lia. cbn [andb].
    rewrite nth_lookup. replace (Z.to_nat (r1 + Z.of_nat j - r1)) with j by lia. by rewrite Hj.
  - intros k Hk0 Hkr. rewrite Hk by lia. rewrite (st_value _ _ _ _ Hs1) by done. fold w.
    destruct (Z.leb_spec r1 k), (Z.ltb_spec k (r1 + w)); cbn [andb]; done || lia.
Qed.

(** The word that the debugger passes for a pointer *)
Definition raw_pointer (arg : gdb_value) : Z :=
  Z.land (pointer_to_raw (VALUE_TYPE arg) (s32 (be_value (VALUE_CONTENTS arg)))) 0xffff.
Lemma land_even_u32 x : 0 <= x < 2 ^ 32 -> x mod 2 = 0 -> Z.land x (u32 (Z.lnot 1)) = x.
Proof.
  intros Hx He. change (u32 (Z.lnot 1)) with (Z.shiftl (Z.ones 31) 1). rewrite land_field by lia.
  rewrite Z.mod_small by zdml. zdml.
Qed.
Lemma push_pointer_on_stack arg r sp g stack :
  arg_ok arg -> is_pointer (VALUE_TYPE arg) = true -> 0 <= r <= 4 ->
  function_arg (Cumulative r stack) (gcc_argument arg) = None -> raw_pointer arg <> 2 ->
  push_argument arg r sp g = Gdb_undefined.
Proof.
  destruct arg as [t l]. intros [Hlen Hl Hlength] Hp Hr Hf Hv.
  unfold function_arg, arg_align, function_arg_boundary, arg_size, gcc_argument, raw_pointer, push_argument in *.
  cbn [VALUE_TYPE VALUE_CONTENTS is_BLKmode int_size_in_bytes GET_MODE_SIZE cum_reg] in *. rewrite Hp in *.
  unfold ARG_LAST, ARG_FIRST, GPR_FIRST, UNITS_PER_WORD, BITS_PER_WORD, ARGN_REGNUM in *.
  simpl (2 * 2 <=? 2) in Hf. cbv iota in Hf. simpl (2 * 16 <=? 16) in Hf. rewrite andb_false_r in Hf. cbn [Z.b2z] in Hf.
  destruct (Z.ltb_spec ((0 + 3 - 0 + 1) * 2) ((r + 0) * 2 + 2)); [|done].
  rewrite <- Hlen, slice_all. cbn [gread]. rewrite (gbind_returns _ _ g _ g eq_refl).
  destruct (pointer_value t l g Hl) as (x & Ex & Ev); [lia|]. rewrite (gbind_returns _ _ _ _ _ Ex), Ev.
  rewrite (proj2 (Z.leb_gt r 3)) by lia. unfold store_in_ptr. by rewrite (proj2 (Z.eqb_neq _ _) Hv).
Qed.
Lemma push_on_stack arg r sp g stack m :
  buffer_ok g -> arg_ok arg -> is_pointer (VALUE_TYPE arg) = false -> 0 <= r <= 4 ->
  function_arg (Cumulative r stack) (gcc_argument arg) = None ->
  let len := Z.of_nat (length (VALUE_CONTENTS arg)) in
  len mod 2 = 0 -> sp mod 2 = 0 -> len <= sp < 2 ^ 32 ->
  target_write_memory (mem g) (sp - len) (VALUE_CONTENTS arg) = Some m ->
  exists r', push_argument arg r sp g = Returns (r', sp - len) (set_mem m g).
Proof.
  destruct arg as [t l]. intros Hb [Hlen Hl Hlength] Hp Hr Hf len He Hse Hsp Hw.
  unfold function_arg, arg_align, function_arg_boundary, arg_size, gcc_argument, push_argument in *.
  cbn [VALUE_TYPE VALUE_CONTENTS is_BLKmode int_size_in_bytes GET_MODE_SIZE cum_reg] in *.
  unfold ARG_LAST, ARG_FIRST, GPR_FIRST, UNITS_PER_WORD, BITS_PER_WORD, ARGN_REGNUM in *.
  assert (Z.land r 1 = r mod 2) as El by (change 1 with (Z.ones 1); by rewrite land_ones_mod by lia).
  rewrite El in Hf. rewrite Hp in *.
  assert (len = TYPE_LENGTH t) as Elen by done. rewrite Elen in *. rewrite !land_even.
  set (b := if 2 * 2 <=? TYPE_LENGTH t then 2 * 16 else 16) in *.
  assert (3 < TYPE_LENGTH t -> b = 32) as Hb4 by (intros; unfold b; by rewrite (proj2 (Z.leb_le _ _)) by lia).
  assert (TYPE_LENGTH t <= 3 -> b = 16) as Hb3 by (intros; unfold b; by rewrite (proj2 (Z.leb_gt _ _)) by lia).
  set (al := Z.b2z (negb (r mod 2 =? 0) && (2 * 16 <=? b))) in *.
  destruct (Z.ltb_spec ((0 + 3 - 0 + 1) * 2) ((r + al) * 2 + TYPE_LENGTH t)) as [Hgt|]; [|done].
  assert (TYPE_LENGTH t <= 3 -> al = 0) as Hal3
    by (intros; unfold al; rewrite Hb3 by lia; by rewrite andb_false_r).
  assert (3 < TYPE_LENGTH t -> r + al = 2 * ((r + 1) / 2)) as Hal4.
  { intros; unfold al; rewrite Hb4 by lia. rewrite andb_true_r. destruct (Z.eqb_spec (r mod 2) 0); cbn [negb Z.b2z]; zdml. }
  assert ((TYPE_LENGTH t <=? 2) && (r <=? 3) = false) as ->.
  { destruct (Z.leb_spec (TYPE_LENGTH t) 2), (Z.leb_spec r 3); try done. rewrite Hal3 in Hgt by lia. zdml. }
  rewrite (proj2 (Z.leb_gt (TYPE_LENGTH t) _)) by zdml.
  rewrite u32_small by lia. rewrite land_even_u32 by (lia || zdml).
  rewrite <- Hlen, slice_all. cbn [gread]. rewrite (gbind_returns _ _ g _ g eq_refl).
  exists (3 + 1). rewrite <- Hlen in Hw. unfold write_memory, gbind, gget, gmodify. by rewrite Hw.
Qed.

End Push.

(** Two integers of one word, a pointer, and a structure of six bytes *)
Definition int_type : gdb_type := Type_ TYPE_CODE_INT 2 None.
Definition call_arguments : list gdb_value :=
  [Value int_type [0; 7]; Value (Type_ TYPE_CODE_PTR 4 (Some TYPE_CODE_FUNC)) [1; 0; 4; 0]].
Definition call_inferior : @inferior plain_target := @loaded plain_target (repeat 0 35) ∅.
Definition big_argument : gdb_value := Value (Type_ TYPE_CODE_STRUCT 6 None) [1; 2; 3; 4; 5; 6].

(** After an argument on the stack the two differ: in a call with three [int]s, a [long] and
    one more [int], the compiler passes the last one in r3, and GDB on the stack. *)
Lemma after_stack_argument :
  let long_type := Type_ TYPE_CODE_INT 4 None in
  let args := [Value int_type [0; 1]; Value int_type [0; 2]; Value int_type [0; 3];
               Value long_type [0; 0; 0; 4]; Value int_type [0; 5]] in
  argument_registers init_cumulative_args (map gcc_argument args) = [Some 0; Some 1; Some 2; None; Some 3] /\
  exists g', @d10v_push_arguments plain_target args 0x7ffe call_inferior = Returns 0x7ff8 g' /\
    @reg_value plain_target g' 3 = 0 /\ @target_read_memory plain_target (@mem plain_target g') 0x7ff8 2 = Some [0; 5].
Proof. split; [reflexivity|]. eexists. split; [vm_compute; reflexivity|]. split; vm_compute; reflexivity. Qed.
(** A structure of three bytes after one word: in r1 and r2 for the compiler, in r2 and r3 for
    GDB *)
Lemma three_bytes_differ :
  let args := [Value int_type [0; 1]; Value (Type_ TYPE_CODE_STRUCT 3 None) [2; 3; 4]] in
  argument_registers init_cumulative_args (map gcc_argument args) = [Some 0; Some 1] /\
  exists g', @d10v_push_arguments plain_target args 0x7ffe call_inferior = Returns 0x7ffe g' /\
    @reg_value plain_target g' 1 = 0 /\ @reg_value plain_target g' 2 = 0x203 /\ @reg_value plain_target g' 3 = 0x400.
Proof. split; [reflexivity|]. eexists. split; [vm_compute; reflexivity|]. split; [|split]; vm_compute; reflexivity. Qed.
