(* ===== verification/Logic.v ===== *)
(** * The machine invariant and a logic for operations

    [wf] is the type invariant of the simulator's state.  The judgement
    [judge R k kj m] says of an operation [m] started in a well-formed state with
    room for [kj] more writeback slots: the invariant is kept, the slots cannot
    overflow, at most [k] slots are taken if the PC was not changed and at most
    [kj] in any case, and the start and final states are related by [R].  With
    [R] the relation [frame] ([runs]) the register arrays are not touched: they
    change when the slots are flushed, and only then.  There is one rule per
    primitive, collected in the hint database [runs]; the tactic [runs_tac]
    applies them along an operation's body and infers the bounds. *)
From S2P Require Import Prelude CInt Opcodes State Memory Cregs.

Create HintDb runs discriminated.
#[export] Hint Constants Opaque : runs.

(** ** The invariant *)

Definition fits (n v : Z) : Prop := 0 <= v < 2 ^ n.
Definition bytes_ok (b : block) : Prop := map_Forall (fun _ v => fits 8 v) b.

(** The bits a control register can hold: the reserved bits of the PSW and its
    two copies, and bit 0 of the modulo addresses, are always zero. *)
Definition cr_mask (n : Z) : Z :=
  if (n =? PSW_CR) || (n =? BPSW_CR) || (n =? DPSW_CR) then PSW_MASK
  else if (n =? MOD_S_CR) || (n =? MOD_E_CR) then 0xfffe
  else 0xffff.
Definition cr_ok (n v : Z) : Prop := Z.land v (cr_mask n) = v.

(** A pending write keeps the range of what it writes. *)
Definition slot_ok (sl : slot_t) : Prop :=
  match slot_dest sl with
  | D_reg _ | D_sp _ => fits 16 (slot_data sl) /\ fits 16 (slot_mask sl)
  | D_creg n => 0 <= n /\ cr_ok n (slot_data sl)
  | D_acc _ => fits 40 (slot_data sl) /\ slot_mask sl = 0
  end.

Record wf (s : state) : Prop := {
  wf_regs : length (regs s) = 16%nat /\ Forall (fits 16) (regs s);
  wf_cregs : length (cregs s) = 16%nat /\
             forall n : nat, (n < 16)%nat -> cr_ok (Z.of_nat n) (nth n (cregs s) 0);
  wf_sp : length (sp s) = 2%nat /\ Forall (fits 16) (sp s);
  wf_acc : length (a s) = 2%nat /\ Forall (fits 40) (a s);
  wf_op : length (OP s) = 4%nat /\ Forall (fits 16) (OP s);
  wf_slot : Forall slot_ok (slot s);
  wf_imem : exists b, imem s = Some b /\ bytes_ok b;
  wf_dmem : exists b, dmem s = Some b /\ bytes_ok b;
  wf_umem : map_Forall (fun _ b => bytes_ok b) (umem s)
}.

(** ** The judgement *)

(** No operation resets the jump flag, or stops the simulator. *)
Definition jumps (s s' : state) : Prop :=
  (pc_changed s' = 0 -> pc_changed s = 0) /\ stop_simulator s' = stop_simulator s.

(** What an operation leaves alone. *)
Record frame (s s' : state) : Prop := {
  fr_regs : regs s' = regs s;
  fr_cregs : cregs s' = cregs s;
  fr_sp : sp s' = sp s;
  fr_acc : a s' = a s;
  fr_slot : exists l, slot s' = slot s ++ l;
  fr_jump : jumps s s'
}.

Definition room (k : nat) (s : state) : Prop := (length (slot s) + k <= NR_SLOTS)%nat.

Definition post (R : state -> state -> Prop) (k kj : nat) (s : state) {A} (o : outcome A) : Prop :=
  match o with
  | Ret _ s' =>
      wf s' /\ R s s' /\
      (length (slot s') <= length (slot s) + kj)%nat /\
      (pc_changed s' = 0 -> (length (slot s') <= length (slot s) + k)%nat)
  | Undefined u _ => u <> UB_slots
  | Exit _ _ => True
  | NoFuel _ => False
  end.
Definition judge (R : state -> state -> Prop) (k kj : nat) {A} (m : M A) : Prop :=
  forall s, wf s -> room kj s -> post R k kj s (m s).
Abbreviation runs := (judge frame).
(** The weaker judgement, for code that flushes the slots. *)
Abbreviation safe := (judge jumps).

#[export] Instance jumps_preorder : PreOrder jumps.
Proof.
  unfold jumps. split; [done|]. intros ??? [? ?] [? ?]. split; [auto|congruence].
Qed.

#[export] Instance frame_preorder : PreOrder frame.
Proof.
  split.
  - intros s. split; try done. exists []. by rewrite app_nil_r.
  - intros s1 s2 s3 [? ? ? ? [l1 H1] J1] [? ? ? ? [l2 H2] J2].
    split; try congruence; [|by etransitivity].
    exists (l1 ++ l2). rewrite H2, H1. by rewrite app_assoc.
Qed.

(** The relations the rules hold for. *)
Class Framing (R : state -> state -> Prop) := {
  framing_preorder :: PreOrder R;
  framing_jumps s s' : R s s' -> jumps s s';
  framing_frame s s' : frame s s' -> R s s'
}.
#[export] Instance frame_framing : Framing frame.
Proof. split; [apply _| |done]. by intros ?? []. Qed.
#[export] Instance jumps_framing : Framing jumps.
Proof. split; [apply _|done|]. by intros ?? []. Qed.

(** ** Structural rules *)

Section Rules.
Context `{HR : Framing R} {A B : Type}.
Implicit Types m : M A.

Lemma judge_weaken k kj k' kj' m :
  judge R k kj m -> (k <= k')%nat -> (kj <= kj')%nat -> judge R k' kj' m.
Proof.
  intros Hm Hk Hkj s Hs Hr. specialize (Hm s Hs). unfold room, post in *.
  destruct (m s); try (apply Hm; lia).
  destruct Hm as (? & ? & ? & L); [lia|].
  split; [done|split; [done|split; [lia|]]]. intros Hp. specialize (L Hp). lia.
Qed.

Lemma judge_ret (x : A) : judge R 0 0 (ret x).
Proof.
  intros s Hs Hr. simpl. split; [done|split; [reflexivity|lia]].
Qed.

Lemma judge_bind k1 kj1 k2 kj2 m (f : A -> M B) :
  judge R k1 kj1 m -> (forall x, judge R k2 kj2 (f x)) ->
  judge R (k1 + k2) (kj1 + kj2) (bind m f).
Proof.
  intros Hm Hf s Hs Hr. unfold bind, room, post in *. specialize (Hm s Hs).
  unfold room, post in Hm.
  destruct (m s) as [x s1| | |]; try (apply Hm; lia).
  destruct Hm as (Hs1 & F1 & L1 & L1'); [lia|].
  specialize (Hf x s1 Hs1). unfold room, post in Hf.
  destruct (f x s1) as [y s2| | |]; try (apply Hf; lia).
  destruct Hf as (Hs2 & F2 & L2 & L2'); [lia|].
  split; [done|split; [by etransitivity|split; [lia|]]].
  intros Hpc. specialize (L2' Hpc). specialize (L1' (proj1 (framing_jumps _ _ F2) Hpc)). lia.
Qed.

Lemma judge_get k kj (f : state -> M B) :
  (forall s, wf s -> judge R k kj (f s)) -> judge R k kj (bind get f).
Proof. intros Hf s Hs Hr. by apply (Hf s Hs). Qed.

Lemma judge_exit c : judge R 0 0 (exit c : M A).
Proof. intros s Hs Hr. exact I. Qed.

Lemma judge_undefined u : u <> UB_slots -> judge R 0 0 (undefined u : M A).
Proof. intros Hu s Hs Hr. exact Hu. Qed.

Lemma judge_if k1 kj1 k2 kj2 (c : bool) m1 m2 :
  judge R k1 kj1 m1 -> judge R k2 kj2 m2 ->
  judge R (k1 `max` k2) (kj1 `max` kj2) (if c then m1 else m2).
Proof. intros. destruct c; (eapply judge_weaken; [eassumption|lia|lia]). Qed.

Lemma judge_runs k kj m : runs k kj m -> judge R k kj m.
Proof.
  intros Hm s Hs Hr. specialize (Hm s Hs Hr). unfold post in *. destruct (m s); try done.
  destruct Hm as (? & ? & ?). split; [done|split; [by apply framing_frame|done]].
Qed.

(** An operation that takes the jump whatever happens. *)
Lemma judge_jump k kj m :
  judge R k kj m -> (forall s x s', m s = Ret x s' -> pc_changed s' <> 0) -> judge R 0 kj m.
Proof.
  intros Hm Hj s Hs Hr. specialize (Hm s Hs Hr). specialize (Hj s). unfold post in *.
  destruct (m s) as [x s'| | |] eqn:E; try done.
  destruct Hm as (? & ? & ? & ?). split; [done|split; [done|split; [done|]]].
  intros Hpc. exfalso. by eapply Hj.
Qed.
End Rules.

Lemma judge_when `{Framing R} k kj c m : judge R k kj m -> judge R k kj (when c m).
Proof.
  intros Hm. destruct c; [done|]. eapply judge_weaken; [apply judge_ret|lia|lia].
Qed.

(** A write that changes neither the registers nor the slots nor the jump flag. *)
Definition silent (f : state -> state) : Prop :=
  forall s, wf s -> wf (f s) /\ frame s (f s) /\ slot (f s) = slot s.

Lemma runs_modify f : silent f -> runs 0 0 (modify f).
Proof.
  intros Hf s Hs Hr. simpl. destruct (Hf s Hs) as (? & ? & E). rewrite E.
  split; [done|split; [done|lia]].
Qed.

(** ** Silent writes *)

Ltac frame_silent :=
  split; try reflexivity; try (exists []; by rewrite app_nil_r); by split.
Ltac wf_silent :=
  intros s []; split; [split; assumption|split; [frame_silent|reflexivity]].

Lemma silent_exception v : silent (set_exception v). Proof. wf_silent. Qed.
Lemma silent_exe v : silent (set_exe v). Proof. wf_silent. Qed.
Lemma silent_ins_type v : silent (set_ins_type v). Proof. wf_silent. Qed.
Lemma silent_jump : silent (set_pc_changed 1). Proof. wf_silent. Qed.
Lemma silent_out f : silent (fun s => set_out (f s) s). Proof. wf_silent. Qed.
Lemma silent_trace f : silent (fun s => set_trace_psw (f s) s). Proof. wf_silent. Qed.
Lemma silent_counters f : silent (fun s => set_ins_type_counters (f s) s).
Proof. wf_silent. Qed.

Lemma silent_set_op n v : silent (fun s => set_OP (<[Z.to_nat n := u16 v]> (OP s)) s).
Proof.
  intros s []; split; [|split; [frame_silent|reflexivity]]. split; try assumption.
  simpl. destruct wf_op0. rewrite length_insert. split; [done|].
  apply Forall_insert; [done|apply u16_range].
Qed.

#[export] Hint Resolve silent_exception silent_exe silent_ins_type silent_out
  silent_trace silent_counters silent_jump silent_set_op : runs.

(** ** What the invariant gives for reads *)

Section Reads.
Context (s : state) (Hs : wf s).

Lemma fits_0 n : 0 <= n -> fits n 0. Proof. unfold fits. intros. lia. Qed.

Lemma wf_znth_regs n : fits 16 (GPR s n).
Proof. apply (Forall_nth_default (fits _)); [apply Hs|by apply fits_0]. Qed.
Lemma wf_znth_sp n : fits 16 (HELD_SP s n).
Proof. apply (Forall_nth_default (fits _)); [apply Hs|by apply fits_0]. Qed.
Lemma wf_znth_acc n : fits 40 (ACC s n).
Proof. apply (Forall_nth_default (fits _)); [apply Hs|by apply fits_0]. Qed.
Lemma wf_znth_op n : fits 16 (op s n).
Proof. apply (Forall_nth_default (fits _)); [apply Hs|by apply fits_0]. Qed.
Lemma wf_op_nonneg n : 0 <= op s n.
Proof. apply wf_znth_op. Qed.

Lemma cr_mask_fits n : 0 <= cr_mask n < 2 ^ 16.
Proof. unfold cr_mask. repeat case_match; by compute. Qed.
Lemma cr_ok_fits n v : cr_ok n v -> fits 16 v.
Proof.
  unfold cr_ok, fits. intros <-. pose proof (cr_mask_fits n).
  pose proof (land_bound_l v (cr_mask n)). lia.
Qed.
Lemma cr_ok_0 n : cr_ok n 0. Proof. done. Qed.

Lemma wf_znth_cregs n : 0 <= n -> cr_ok n (CREG s n).
Proof.
  intros Hn. unfold CREG, znth. destruct (decide (Z.to_nat n < 16)%nat) as [Hlt|].
  - destruct (wf_cregs s Hs) as [_ H]. specialize (H _ Hlt). by rewrite Z2Nat.id in H by lia.
  - destruct (wf_cregs s Hs) as [Hl _]. by rewrite nth_overflow by lia.
Qed.
Lemma wf_fits_creg n : 0 <= n -> fits 16 (CREG s n).
Proof. intros. by eapply cr_ok_fits, wf_znth_cregs. Qed.
End Reads.

(** ** Slots *)

Lemma fits_mod n x : 0 <= n -> fits n (x mod 2 ^ n).
Proof. intros. apply Z.mod_pos_bound. lia. Qed.

Lemma runs_SLOT_PEND_MASK d msk val :
  slot_ok (Slot d (dest_size d) (trunc_size (dest_size d) val)
             (trunc_size (dest_size d) msk)) ->
  runs 1 1 (SLOT_PEND_MASK d msk val).
Proof.
  intros Hsl s Hs Hr. unfold SLOT_PEND_MASK. unfold room in Hr.
  rewrite decide_True by lia. simpl. rewrite length_app. simpl.
  split; [|split; [|lia]].
  - destruct Hs. split; try done. simpl. apply Forall_app_2; [done|by apply Forall_singleton].
  - split; try done; by eexists.
Qed.

Lemma runs_SET_GPR n v : runs 1 1 (SET_GPR n v).
Proof. apply runs_SLOT_PEND_MASK. split; simpl; by apply fits_mod. Qed.
Lemma runs_SET_HELD_SP n v : runs 1 1 (SET_HELD_SP n v).
Proof. apply runs_SLOT_PEND_MASK. split; simpl; by apply fits_mod. Qed.

Lemma fits_MASK40 v : fits 40 (trunc_size 8 (Z.land v MASK40)).
Proof.
  rewrite MASK40_mod. unfold trunc_size. change (2 ^ (8 * 8)) with (2 ^ 64).
  pose proof (Z.mod_pos_bound v (2 ^ 40)). rewrite Z.mod_small by lia. by apply fits_mod.
Qed.
Lemma runs_SET_ACC n v : runs 1 1 (SET_ACC n v).
Proof. apply runs_SLOT_PEND_MASK. split; [apply fits_MASK40|done]. Qed.

Lemma cr_mask_PSW : cr_mask PSW_CR = PSW_MASK. Proof. done. Qed.

Lemma cr_value_ok cr v : fits 16 v -> cr_ok cr (cr_value cr v).
Proof.
  intros Hv. unfold cr_ok, cr_value, cr_mask. repeat case_match; try done.
  - by rewrite <- Z.land_assoc, Z.land_diag.
  - by rewrite <- Z.land_assoc, Z.land_diag.
  - change 0xffff with (Z.ones 16). rewrite Z.land_ones by lia. by apply Z.mod_small.
Qed.

Lemma runs_ret {A} (x : A) : runs 0 0 (ret x). Proof. apply judge_ret. Qed.
Lemma runs_exit {A} c : runs 0 0 (exit c : M A). Proof. apply judge_exit. Qed.

#[export] Hint Resolve runs_SET_GPR runs_SET_HELD_SP runs_SET_ACC runs_ret runs_exit
  runs_modify wf_op_nonneg : runs.
#[export] Hint Extern 1 (0 <= PSW_CR) => reflexivity || done : runs.
#[export] Hint Extern 4 (runs _ _ skip) => apply judge_ret : runs.
#[export] Hint Extern 4 (runs _ _ (undefined _)) => apply judge_undefined; discriminate : runs.

(** A case on an option whose branches take no slot. *)
Lemma runs_option {A B} (o : option A) (m : A -> M B) m' :
  (forall x, runs 0 0 (m x)) -> runs 0 0 m' ->
  runs 0 0 (match o with Some x => m x | None => m' end).
Proof. by destruct o. Qed.

(** ** The tactic *)

Ltac runs_step :=
  lazymatch goal with
  | |- forall _, _ => intros ?
  | |- judge _ _ _ (bind get _) => apply judge_get; intros ? ?
  | |- judge _ _ _ (bind _ _) => eapply judge_bind
  | |- judge _ _ _ (match _ with Some _ => _ | None => _ end) =>
      apply judge_runs, runs_option; [|eapply judge_weaken]
  | |- (_ <= _)%nat => simpl; lia
  | |- judge _ _ _ (if _ then _ else _) => eapply judge_if
  | |- judge _ _ _ (when _ _) => eapply judge_when
  | |- _ => first [ solve [eauto with runs] | apply judge_runs; solve [eauto with runs] ]
  end.
Ltac runs_infer := cbv beta zeta; repeat runs_step.
(** Infers the bounds of an operation and compares them with the stated ones. *)
Ltac runs_tac := intros; eapply judge_weaken; [solve [runs_infer]|simpl; lia|simpl; lia].

(** ** Control registers *)

Lemma fits_cr_value cr v : fits 16 v -> fits 16 (cr_value cr v).
Proof. intros. by eapply cr_ok_fits, cr_value_ok. Qed.

Lemma runs_printf fmt args : runs 0 0 (printf_filtered fmt args).
Proof. apply runs_modify, (silent_out (fun s => out s ++ [Printf fmt args])). Qed.
Lemma runs_set_op n v : runs 0 0 (set_op n v).
Proof. apply runs_modify, silent_set_op. Qed.
Lemma runs_count t d : runs 0 0 (count t d).
Proof. apply runs_modify, silent_counters. Qed.
#[export] Hint Resolve runs_printf runs_set_op runs_count : runs.

Lemma runs_move_to_psw msk v : runs 2 2 (move_to_psw msk v).
Proof. unfold move_to_psw. runs_tac. Qed.

(** The part of [move_to_psw] that switches the stack pointer is skipped when the
    mask keeps SM. *)
Lemma runs_move_to_psw_keep msk v :
  (Z.land msk PSW_SM_BIT =? 0) = false -> runs 0 0 (move_to_psw msk v).
Proof. intros E. unfold move_to_psw. rewrite E. simpl. runs_tac. Qed.

Lemma runs_pend_cr cr msk v :
  0 <= cr -> fits 16 v -> runs 1 1 (SLOT_PEND_MASK (D_creg cr) msk (cr_value cr v)).
Proof.
  intros Hcr Hv. apply runs_SLOT_PEND_MASK. split; simpl; [done|].
  unfold trunc_size. rewrite Z.mod_small by apply (fits_cr_value cr v Hv).
  by apply cr_value_ok.
Qed.
#[export] Hint Resolve runs_move_to_psw runs_pend_cr : runs.

Lemma runs_move_to_cr cr msk v : 0 <= cr -> fits 16 v -> runs 3 3 (move_to_cr cr msk v).
Proof. intros. unfold move_to_cr. runs_tac. Qed.

Lemma runs_move_to_cr_other cr msk v :
  cr <> PSW_CR -> 0 <= cr -> fits 16 v -> runs 1 1 (move_to_cr cr msk v).
Proof.
  intros Hne%Z.eqb_neq ? ?. unfold move_to_cr. rewrite Hne. simpl. runs_tac.
Qed.

Lemma runs_move_to_cr_keep msk v :
  (Z.land msk PSW_SM_BIT =? 0) = false -> fits 16 v -> runs 1 1 (move_to_cr PSW_CR msk v).
Proof.
  intros E Hv. unfold move_to_cr. simpl.
  pose proof (runs_move_to_psw_keep msk) as Hp.
  assert (0 <= PSW_CR) by done. eapply judge_weaken.
  - eapply judge_bind; [by apply Hp|]. runs_infer.
  - simpl. lia.
  - simpl. lia.
Qed.

Lemma runs_SET_CREG cr v : 0 <= cr -> runs 3 3 (SET_CREG cr v).
Proof. intros. apply runs_move_to_cr; [done|apply u16_range]. Qed.

Lemma runs_set_creg_other cr v : cr <> PSW_CR -> 0 <= cr -> runs 1 1 (set_creg_ cr v).
Proof.
  intros. unfold set_creg_. eapply judge_weaken.
  - eapply judge_bind; [apply runs_move_to_cr_other; [done|done|apply u16_range]|].
    runs_infer.
  - simpl; lia.
  - simpl; lia.
Qed.
Lemma runs_SET_PSW v : runs 3 3 (SET_PSW v).
Proof.
  pose proof (runs_SET_CREG PSW_CR v). unfold SET_PSW, set_creg_.
  assert (0 <= PSW_CR) by done. eapply judge_weaken; [eapply judge_bind; [auto|runs_infer]|..];
    simpl; lia.
Qed.
#[export] Hint Resolve runs_SET_CREG runs_SET_PSW : runs.
#[export] Hint Extern 4 (runs _ _ (set_creg_ _ _)) =>
  apply runs_set_creg_other; [discriminate|done] : runs.

Lemma runs_SET_BPSW v : runs 1 1 (SET_BPSW v). Proof. by apply runs_set_creg_other. Qed.
Lemma runs_SET_PC v : runs 1 1 (SET_PC v). Proof. by apply runs_set_creg_other. Qed.
Lemma runs_SET_BPC v : runs 1 1 (SET_BPC v). Proof. by apply runs_set_creg_other. Qed.
Lemma runs_SET_DPSW v : runs 1 1 (SET_DPSW v). Proof. by apply runs_set_creg_other. Qed.
Lemma runs_SET_DPC v : runs 1 1 (SET_DPC v). Proof. by apply runs_set_creg_other. Qed.
Lemma runs_SET_RPT_C v : runs 1 1 (SET_RPT_C v). Proof. by apply runs_set_creg_other. Qed.
Lemma runs_SET_RPT_S v : runs 1 1 (SET_RPT_S v). Proof. by apply runs_set_creg_other. Qed.
Lemma runs_SET_RPT_E v : runs 1 1 (SET_RPT_E v). Proof. by apply runs_set_creg_other. Qed.

Lemma runs_SET_PSW_BIT m v :
  (Z.land (u16 (Z.lnot m)) PSW_SM_BIT =? 0) = false -> fits 16 m -> runs 1 1 (SET_PSW_BIT m v).
Proof.
  intros. unfold SET_PSW_BIT. eapply judge_weaken.
  - eapply judge_bind; [apply runs_move_to_cr_keep; [done|by destruct v]|]. runs_infer.
  - simpl; lia.
  - simpl; lia.
Qed.
#[export] Hint Extern 4 (runs _ _ (SET_PSW_BIT _ _)) =>
  apply runs_SET_PSW_BIT; [reflexivity|by compute] : runs.
Lemma runs_SET_PSW_IE v : runs 1 1 (SET_PSW_IE v). Proof. by apply runs_SET_PSW_BIT. Qed.
Lemma runs_SET_PSW_RP v : runs 1 1 (SET_PSW_RP v). Proof. by apply runs_SET_PSW_BIT. Qed.
Lemma runs_SET_PSW_F0 v : runs 1 1 (SET_PSW_F0 v). Proof. by apply runs_SET_PSW_BIT. Qed.
Lemma runs_SET_PSW_F1 v : runs 1 1 (SET_PSW_F1 v). Proof. by apply runs_SET_PSW_BIT. Qed.
Lemma runs_SET_PSW_C v : runs 1 1 (SET_PSW_C v). Proof. by apply runs_SET_PSW_BIT. Qed.
#[export] Hint Resolve runs_SET_BPSW runs_SET_PC runs_SET_BPC runs_SET_DPSW runs_SET_DPC
  runs_SET_RPT_C runs_SET_RPT_S runs_SET_RPT_E runs_SET_PSW_IE runs_SET_PSW_RP
  runs_SET_PSW_F0 runs_SET_PSW_F1 runs_SET_PSW_C : runs.

(** The PC write of a jump is one slot, and it counts as jumped. *)
Lemma runs_JMP x : runs 0 1 (JMP x).
Proof.
  apply judge_jump with (k := 1%nat); [unfold JMP; runs_tac|].
  intros s [] s'. unfold JMP, bind. destruct (SET_PC x s); [|done..]. intros [= <-]. done.
Qed.
Lemma runs_INC_ADDR x i : runs 1 1 (INC_ADDR x i).
Proof. unfold INC_ADDR. runs_tac. Qed.
Lemma runs_SET_GPR32 n v : runs 2 2 (SET_GPR32 n v).
Proof. unfold SET_GPR32. runs_tac. Qed.
#[export] Hint Resolve runs_JMP runs_INC_ADDR runs_SET_GPR32 : runs.

(** Dropping every flag but SM switches no stack pointer: two slots, not three. *)
Lemma psw_sm_val x :
  truth (Z.land (cr_value PSW_CR (u16 (Z.land x PSW_SM_BIT))) PSW_SM_BIT)
  = negb (Z.land x PSW_SM_BIT =? 0).
Proof.
  unfold cr_value, PSW_SM_BIT. simpl. pose proof (land_bound_l x 32768).
  rewrite u16_small by lia. unfold truth. by rewrite <- !Z.land_assoc.
Qed.

(** What [move_to_psw] does when the new SM is the old one. *)
Definition keep_sm (v : Z) : M unit :=
  s <- get ;;
  SET_HELD_SP (b2z (PSW_SM s)) (GPR s SP_IDX) ;;
  when (truth (Z.land v PSW_ST_BIT) && negb (truth (Z.land v PSW_FX_BIT)))
    (s <- get ;;
     printf_filtered "ERROR at PC 0x%x: ST can only be set when FX is set.\n"
                     [Z.shiftl (PC s) 2] ;;
     modify (set_exception SIGILL)) ;;
  modify (fun s => set_trace_psw (Z.lor (Z.land (trace_psw s) 0) v) s).

Lemma move_to_psw_same v s :
  truth (Z.land v PSW_SM_BIT) = PSW_SM s -> move_to_psw 0 v s = keep_sm v s.
Proof.
  intros E. unfold move_to_psw, keep_sm. rewrite E. cbv [when Z.land Z.eqb].
  unfold bind, get, SET_HELD_SP, SLOT_PEND, SLOT_PEND_MASK. case_decide; [|done].
  match goal with |- context [PSW_SM (set_slot ?l s)] =>
    change (PSW_SM (set_slot l s)) with (PSW_SM s) end.
  by rewrite eqb_reflx.
Qed.

Lemma judge_ext {A} R k kj (m m' : M A) :
  (forall s, m s = m' s) -> judge R k kj m' -> judge R k kj m.
Proof. intros E Hm s Hs Hr. rewrite E. by apply Hm. Qed.

Lemma runs_keep_sm v : runs 1 1 (keep_sm v).
Proof. unfold keep_sm. runs_tac. Qed.
#[export] Hint Resolve runs_keep_sm : runs.

Lemma runs_SET_PSW_SM :
  runs 2 2 (s <- get ;; SET_PSW (Z.land (PSW s) PSW_SM_BIT)).
Proof.
  assert (0 <= PSW_CR) by done.
  assert (forall s, fits 16 (u16 (Z.land (PSW s) PSW_SM_BIT))) by (intros; apply u16_range).
  apply (judge_ext _ _ _ _ (s <- get ;;
    let v := cr_value PSW_CR (u16 (Z.land (PSW s) PSW_SM_BIT)) in
    (keep_sm v ;;
     s <- get ;;
     when (negb (Z.land (CREG s PSW_CR) (Z.lnot 0) =? v))
       (SLOT_PEND_MASK (D_creg PSW_CR) 0 v)) ;; skip)); [|runs_tac].
  intros s. unfold bind at 1, get at 1, SET_PSW, set_creg_, SET_CREG, move_to_cr.
  simpl when. unfold bind at 1 2. rewrite move_to_psw_same; [|apply psw_sm_val].
  unfold bind, get. destruct (keep_sm _ s); [|done..]. by destruct (when _ _ _).
Qed.

Lemma judge_SET_PSW_SM {A} `{Framing R} k kj (m : M A) :
  judge R k kj m ->
  judge R (2 + k) (2 + kj)
    (s <- get ;; (SET_PSW (Z.land (PSW s) PSW_SM_BIT) ;; m)).
Proof.
  intros Hm. apply (judge_ext _ _ _ _ (bind (bind get (fun s =>
    SET_PSW (Z.land (PSW s) PSW_SM_BIT))) (fun _ => m))); [done|].
  eapply judge_bind; [apply judge_runs, runs_SET_PSW_SM|done].
Qed.
