(* ===== verification/OpRules.v ===== *)
(** * The rules for the memories and for every instruction

    The judgement of Logic.v, proved for the memory accesses and for each of the
    157 instruction functions: the largest number of writeback slots one of them
    takes, and that none of them touches a register before the flush. *)
From S2P Require Import Prelude CInt Opcodes State Memory Cregs.
From S2P Require Import SimopsAlu SimopsAcc SimopsFlow SimopsMem SimopsTrap Interp Logic.

(** ** Memory *)

Lemma runs_load_byte p : runs 0 0 (load_byte p).
Proof.
  intros s Hs Hr. unfold load_byte. destruct (ptr_ok s p); [|done].
  by apply (runs_ret (ptr_get s p)).
Qed.

Lemma bytes_ok_insert b off v : bytes_ok b -> fits 8 v -> bytes_ok (<[off := v]> b).
Proof. intros. by apply map_Forall_insert_2. Qed.

Lemma ptr_set_wf s p v : wf s -> fits 8 v -> wf (ptr_set p v s).
Proof.
  intros [? ? ? ? ? ? [b [Eb Hb]] [d [Ed Hd]] Hu] Hv. destruct p as [off|off|seg off|off]; simpl.
  - split; try done; [|by eexists]. simpl. rewrite Eb. simpl. eexists. split; [done|].
    by apply bytes_ok_insert.
  - split; try done; [by eexists|]. simpl. rewrite Ed. simpl. eexists. split; [done|].
    by apply bytes_ok_insert.
  - split; try done; [by eexists|by eexists|]. simpl. intros i x.
    rewrite lookup_alter_Some. intros [(-> & b' & E & ->)|[Hne E]]; [|by eapply Hu].
    apply bytes_ok_insert; [by eapply Hu|done].
  - split; try done; by eexists.
Qed.

Lemma ptr_set_frame s p v : frame s (ptr_set p v s) /\ slot (ptr_set p v s) = slot s.
Proof. destruct p; (split; [frame_silent|reflexivity]). Qed.

Lemma runs_store_byte p v : runs 0 0 (store_byte p v).
Proof.
  intros s Hs Hr. unfold store_byte. destruct (ptr_ok s p); [|done].
  apply (runs_modify (ptr_set p (u8 v))); [|done|done].
  intros s' Hs'. split; [apply ptr_set_wf; [done|apply u8_range]|apply ptr_set_frame].
Qed.
#[export] Hint Resolve runs_load_byte runs_store_byte : runs.

Lemma runs_get_word p : runs 0 0 (get_word p). Proof. unfold get_word. runs_tac. Qed.
Lemma runs_get_longword p : runs 0 0 (get_longword p).
Proof. unfold get_longword. runs_tac. Qed.
Lemma runs_write_word p v : runs 0 0 (write_word p v).
Proof. unfold write_word. runs_tac. Qed.
Lemma runs_write_longword p v : runs 0 0 (write_longword p v).
Proof. unfold write_longword. runs_tac. Qed.
#[export] Hint Resolve runs_get_word runs_get_longword runs_write_word
  runs_write_longword : runs.

Lemma runs_decode_pc : runs 0 0 decode_pc.
Proof.
  unfold decode_pc. assert (silent (fun s => match prog_bfd s with
    | Some secs => if init_text_p s then s else
        let s := set_init_text_p true s in
        match find (fun x => String.eqb (sec_name x) ".text") secs with
        | Some x => set_text_end (u32 (sec_vma x + sec_size x)) (set_text_start (sec_vma x) s)
        | None => s
        end
    | None => s end)); [|runs_tac].
  intros s Hs. assert (frame s s) by reflexivity.
  destruct (prog_bfd s); [|done]. destruct (init_text_p s); [done|]. cbv zeta.
  destruct Hs. by destruct (find _ _);
    (split; [split; assumption|split; [frame_silent|reflexivity]]).
Qed.
#[export] Hint Resolve runs_decode_pc : runs.

Section WithHost.
Context `{Host}.

Lemma runs_calloc_umem seg : runs 0 0 (calloc_umem seg).
Proof.
  apply runs_modify. intros s [].
  destruct (host_calloc s seg); (split; [|split; [frame_silent|reflexivity]]);
    split; try done; simpl.
  - by apply map_Forall_insert_2.
  - by apply map_Forall_delete.
Qed.
#[local] Hint Resolve runs_calloc_umem : runs.

Lemma runs_dmem_addr addr : runs 0 0 (dmem_addr addr).
Proof. rewrite dmem_addr_unfold. unfold dmem_addr_body. runs_tac. Qed.
#[local] Hint Resolve runs_dmem_addr : runs.

Lemma runs_RB x : runs 0 0 (RB x). Proof. unfold RB. runs_tac. Qed.
Lemma runs_SB x v : runs 0 0 (SB x v). Proof. unfold SB. runs_tac. Qed.
Lemma runs_RW x : runs 0 0 (RW x). Proof. unfold RW. runs_tac. Qed.
Lemma runs_SW x v : runs 0 0 (SW x v). Proof. unfold SW. runs_tac. Qed.
Lemma runs_RLW x : runs 0 0 (RLW x). Proof. unfold RLW. runs_tac. Qed.
Lemma runs_SLW x v : runs 0 0 (SLW x v). Proof. unfold SLW. runs_tac. Qed.
#[local] Hint Resolve runs_RB runs_SB runs_RW runs_SW runs_RLW runs_SLW : runs.

Lemma runs_imem_addr pc : runs 0 0 (imem_addr pc).
Proof.
  unfold imem_addr, IMAP0, IMAP1. eapply judge_weaken.
  - eapply judge_bind; [runs_infer|]. intros x. cbv zeta.
    instantiate (1 := 0%nat). instantiate (1 := 0%nat).
    destruct (truth _); [apply runs_ret|].
    destruct (_ <=? _); [by apply judge_undefined|].
    apply judge_get. intros s Hs. destruct (umem s !! _); apply runs_ret.
  - simpl; lia.
  - simpl; lia.
Qed.

Lemma runs_memcpy_to p buf n : forall i, runs 0 0 (memcpy_to p buf i n).
Proof.
  induction n as [|n IH]; intros i; simpl; [apply runs_ret|].
  apply (judge_bind 0 0 0 0); [apply runs_store_byte|done].
Qed.
#[local] Hint Resolve runs_imem_addr runs_memcpy_to : runs.
End WithHost.
#[export] Hint Resolve runs_calloc_umem runs_dmem_addr runs_RB runs_SB runs_RW runs_SW
  runs_RLW runs_SLW runs_imem_addr runs_memcpy_to : runs.

(** ** Helpers of the instruction functions *)

Lemma runs_set_pair t : runs 2 2 (set_pair t). Proof. unfold set_pair. runs_tac. Qed.
Lemma runs_saturate_F0 t : runs 1 1 (saturate_F0 t).
Proof. unfold saturate_F0. runs_tac. Qed.
Lemma runs_shift_too_large s : runs 0 0 (shift_too_large s).
Proof. unfold shift_too_large. runs_tac. Qed.
Lemma runs_rep_errors nm n len : runs 0 0 (rep_errors nm n len).
Proof. unfold rep_errors. runs_tac. Qed.
Lemma runs_set_exe_if c : runs 0 0 (set_exe_if c).
Proof. unfold set_exe_if. runs_tac. Qed.
Lemma runs_sp_error fmt : runs 0 0 (sp_error fmt). Proof. unfold sp_error. runs_tac. Qed.
Lemma runs_predec_error : runs 0 0 predec_error. Proof. apply runs_sp_error. Qed.
Lemma runs_postdec_error : runs 0 0 postdec_error. Proof. apply runs_sp_error. Qed.
#[export] Hint Resolve runs_predec_error runs_postdec_error runs_set_pair runs_saturate_F0 runs_shift_too_large runs_rep_errors
  runs_set_exe_if runs_sp_error : runs.

(** A trap takes four slots, and the jump one more. *)
Lemma runs_trap_vector : runs 4 5 trap_vector.
Proof.
  unfold trap_vector. eapply judge_weaken.
  - apply judge_get; intros s0 ?. cbv zeta.
    eapply judge_bind; [runs_infer|intros _]. apply judge_get; intros s1 ?.
    eapply judge_bind; [runs_infer|intros _]. apply judge_SET_PSW_SM. runs_infer.
  - simpl; lia.
  - simpl; lia.
Qed.

Section WithHost.
Context `{Host}.

Lemma runs_st2w_at addr : runs 0 0 (st2w_at addr).
Proof. unfold st2w_at. runs_tac. Qed.
#[local] Hint Resolve runs_st2w_at : runs.

(** ** System calls *)

Lemma runs_RETVAL x : runs 1 1 (RETVAL x). Proof. unfold RETVAL. runs_tac. Qed.
Lemma runs_RETVAL32 x : runs 2 2 (RETVAL32 x). Proof. unfold RETVAL32. runs_tac. Qed.
Lemma runs_RETERR x : runs 1 1 (RETERR x). Proof. unfold RETERR. runs_tac. Qed.
Lemma runs_call_host c : runs 0 0 (call_host c).
Proof.
  unfold call_host. assert (silent (fun s => set_out (out s ++ [Host_call c]) s))
    by apply (silent_out (fun s => out s ++ [Host_call c])). runs_tac.
Qed.
#[local] Hint Resolve runs_RETVAL runs_RETVAL32 runs_RETERR runs_call_host : runs.
Lemma runs_retval_host c : runs 1 1 (retval_host c).
Proof. unfold retval_host. runs_tac. Qed.
Lemma runs_MEMPTR x : runs 0 0 (MEMPTR x). Proof. apply runs_dmem_addr. Qed.
#[local] Hint Resolve runs_retval_host runs_MEMPTR : runs.

Lemma runs_syscall_switch : runs 2 2 syscall_switch.
Proof.
  unfold syscall_switch, sys_kill, sys_execve, sys_execv, sys_pipe, sys_read, sys_write,
    sys_lseek, sys_open, sys_stat, sys_chown, sys_chmod.
  runs_tac.
Qed.
#[local] Hint Resolve runs_syscall_switch runs_trap_vector : runs.

Lemma runs_trap : runs 4 5 OP_5F00.
Proof. unfold OP_5F00, trap_syscall. runs_tac. Qed.
#[local] Hint Resolve runs_trap : runs.

Lemma runs_nop : runs 0 0 OP_5E00.
Proof.
  unfold OP_5E00. apply judge_get. intros s Hs. apply (judge_bind 0 0 0 0); [runs_tac|].
  intros _. destruct (ins_type s); runs_tac.
Qed.
#[local] Hint Resolve runs_nop : runs.

(** ** Every instruction function *)

Ltac runs_op :=
  lazymatch goal with
  | |- runs _ _ OP_5F00 => apply runs_trap
  | |- runs _ _ OP_5E00 => eapply judge_weaken; [apply runs_nop|lia|lia]
  | |- runs _ _ (?f _) => unfold f; runs_tac
  | |- runs _ _ ?f => unfold f; runs_tac
  end.

Lemma runs_dbt : runs 5 6 OP_5F20.
Proof. unfold OP_5F20. runs_tac. Qed.

Lemma runs_simop_funcs : Forall (fun p => p.1 <> 0x5f20 -> runs 4 5 p.2) simop_funcs.
Proof.
  unfold simop_funcs. repeat apply List.Forall_cons; [..|apply List.Forall_nil];
    intros Hne; cbv [snd]; solve [runs_op|by destruct Hne].
Qed.
End WithHost.
