(* ===== verification/Machine.v ===== *)
(** * The machine: the invariant of every reachable state

    The judgement of Logic.v carried from the instruction functions to the issue
    of an instruction word, the run loop and the entry points of the simulator
    interface.  Between instructions the writeback slots are empty ([inv]). *)
From S2P Require Import Prelude CInt Opcodes State Memory Cregs.
From S2P Require Import SimopsAlu SimopsAcc SimopsFlow SimopsMem SimopsTrap Interp Logic OpRules.

(** The state between two instructions. *)
Definition inv (s : state) : Prop := wf s /\ slot s = [].

(** ** The flush *)

Lemma Forall_fold_left {A B} (P : A -> Prop) (Q : B -> Prop) (f : A -> B -> A) l x :
  P x -> Forall Q l -> (forall x y, P x -> Q y -> P (f x y)) -> P (fold_left f l x).
Proof. intros Hx Hl Hf. revert x Hx. by induction Hl; simpl; eauto. Qed.

Lemma masked_fits n old sl :
  0 <= n -> fits n old -> fits n (slot_mask sl) -> fits n (slot_data sl) ->
  fits n (masked_update old sl).
Proof.
  intros ? ? ? ?. apply lor_lt_pow2; [done| |done]. apply land_lt_pow2; [done|done|].
  unfold fits in *. lia.
Qed.

Lemma masked_cr_ok n old sl :
  cr_ok n old -> cr_ok n (slot_data sl) -> cr_ok n (masked_update old sl).
Proof.
  unfold cr_ok, masked_update. intros Ho Hd. rewrite Z.land_lor_distr_l, Hd. f_equal.
  rewrite <- Z.land_assoc, (Z.land_comm (slot_mask sl)), Z.land_assoc. by rewrite Ho.
Qed.

Lemma apply_slot_wf s sl : wf s -> slot_ok sl -> wf (apply_slot s sl).
Proof.
  intros Hs Hsl. pose proof Hs as Hs'. destruct Hs as [[? ?] [? Hc] [? ?] [? ?] ? ? ? ? ?].
  unfold apply_slot, slot_ok in *. destruct (slot_dest sl) as [n|n|n|n]; destruct Hsl as [Hd Hm].
  - split; try done. simpl. rewrite length_insert. split; [done|].
    apply Forall_insert; [done|]. apply masked_fits; try done. by apply wf_znth_regs.
  - split; try done. simpl. rewrite length_insert. split; [done|]. intros k Hk.
    rewrite !nth_lookup. destruct (decide (Z.to_nat n = k)) as [<-|Hne].
    + rewrite list_lookup_insert_eq by lia. simpl. rewrite Z2Nat.id by done.
      apply masked_cr_ok; [by apply wf_znth_cregs|done].
    + rewrite list_lookup_insert_ne by done. rewrite <- nth_lookup. by apply Hc.
  - split; try done. simpl. rewrite length_insert. split; [done|].
    apply Forall_insert; [done|]. apply masked_fits; try done. by apply wf_znth_sp.
  - split; try done. simpl. rewrite length_insert. split; [done|].
    apply Forall_insert; [done|]. unfold masked_update. rewrite Hm, Z.land_0_r, Z.lor_0_l.
    unfold s64. unfold fits in *. rewrite wrap_signed_small; lia.
Qed.

Lemma apply_slot_pc s sl : pc_changed (apply_slot s sl) = pc_changed s.
Proof. unfold apply_slot. by destruct (slot_dest sl). Qed.

Lemma flush_stop l : forall s,
  stop_simulator (fold_left apply_slot l s) = stop_simulator s.
Proof.
  induction l as [|sl l IH]; intros s; simpl; [done|]. rewrite IH. unfold apply_slot.
  by destruct (slot_dest sl).
Qed.
Lemma flush_pc l : forall s, pc_changed (fold_left apply_slot l s) = pc_changed s.
Proof. induction l as [|sl l IH]; intros s; simpl; [done|]. by rewrite IH, apply_slot_pc. Qed.

Lemma SLOT_FLUSH_inv s :
  wf s -> exists s', SLOT_FLUSH s = Ret tt s' /\ inv s' /\ pc_changed s' = pc_changed s /\
    stop_simulator s' = stop_simulator s.
Proof.
  intros Hs. eexists. split; [reflexivity|]. split; [split; [|done]|].
  - assert (wf (fold_left apply_slot (slot s) s)) as [].
    { apply (Forall_fold_left wf slot_ok); [done|apply Hs|apply apply_slot_wf]. }
    split; done.
  - simpl. split; [apply flush_pc|apply flush_stop].
Qed.

(** Code that flushes on one of its ways on, and jumps past the rest otherwise. *)
Lemma safe_flush {A} k kj (m1 : M A) (c : state -> bool) (m2 : M unit) (m3 : state -> M unit) :
  (kj <= NR_SLOTS)%nat -> runs k kj m1 -> safe k kj m2 -> (forall s, safe 0 0 (m3 s)) ->
  safe k kj (m1 ;; s <- get ;; if c s then SLOT_FLUSH ;; m2 else m3 s).
Proof.
  intros Hkj H1 H2 H3 s Hs Hr. specialize (H1 s Hs Hr). unfold bind at 1.
  destruct (m1 s) as [x s1| | |]; simpl in H1; try done.
  destruct H1 as (Hs1 & F1 & L1 & L1'). unfold bind at 1, get.
  destruct (c s1).
  - destruct (SLOT_FLUSH_inv s1 Hs1) as (s2 & E & [Hs2 Hn] & Hpc & Hst). unfold bind. rewrite E.
    assert (room kj s2) as Hr2 by (unfold room; rewrite Hn; simpl; lia).
    specialize (H2 s2 Hs2 Hr2). destruct (m2 s2) as [y s3| | |]; simpl in *; try done.
    destruct H2 as (? & J & L2 & L2'). rewrite Hn in L2, L2'. simpl in L2, L2'.
    split; [done|]. split; [|split; [lia|intros Hp; specialize (L2' Hp); lia]].
    destruct J as [J1 J2], (fr_jump _ _ F1). split; [|congruence].
    intros Hp. specialize (J1 Hp). rewrite Hpc in J1. auto.
  - assert (room 0 s1) as Hr1 by (unfold room in *; lia).
    specialize (H3 s1 s1 Hs1 Hr1). destruct (m3 s1 s1) as [y s3| | |]; simpl in *; try done.
    destruct H3 as (? & J & L3 & L3').
    split; [done|]. split; [etransitivity; [apply (fr_jump _ _ F1)|done]|].
    split; [lia|]. intros Hp. specialize (L3' Hp). specialize (L1' (proj1 J Hp)). lia.
Qed.

(** ** Issuing instructions *)

Lemma runs_get_operands_loop n ops ins : forall i, runs 0 0 (get_operands_loop n i ops ins).
Proof.
  induction n as [|n IH]; intros i; simpl; [apply runs_ret|].
  apply (judge_bind 0 0 0 0); [apply runs_set_op|done].
Qed.
#[export] Hint Resolve runs_get_operands_loop : runs.

Lemma runs_get_operands ops ins : runs 0 0 (get_operands ops ins).
Proof. unfold get_operands. runs_tac. Qed.
Lemma runs_lookup_hash ins size : runs 0 0 (lookup_hash ins size).
Proof.
  unfold lookup_hash. destruct (find _ _); [apply runs_ret|]. runs_tac.
Qed.
Lemma runs_entry_ops h : runs 0 0 (entry_ops h).
Proof. unfold entry_ops. destruct (he_ops h); [apply runs_ret|by apply judge_undefined]. Qed.
#[export] Hint Resolve runs_get_operands runs_lookup_hash runs_entry_ops : runs.

Lemma judge_bind_0 {A B} R `{Framing R} k kj (m : M A) (f : A -> M B) :
  runs 0 0 m -> (forall x, judge R k kj (f x)) -> judge R k kj (bind m f).
Proof. intros Hm Hf. eapply (judge_bind 0 0 k kj); [by apply judge_runs|done]. Qed.

Section WithHost.
Context `{Host}.

Lemma runs_run_func_other ops : so_func ops <> Some 0x5f20 -> runs 4 5 (run_func ops).
Proof.
  intros Hf. unfold run_func, simop_func. destruct (so_func ops) as [f|].
  - destruct (find _ simop_funcs) as [[f' m]|] eqn:E; simpl.
    + apply find_some in E as [Hin E]. apply Z.eqb_eq in E. simpl in E. subst f'.
      pose proof runs_simop_funcs as HF. rewrite List.Forall_forall in HF.
      apply (HF _ Hin). simpl. congruence.
    + eapply judge_weaken; [by apply judge_undefined|lia|lia].
  - eapply judge_weaken; [by apply judge_undefined|lia|lia].
Qed.

Lemma run_func_dbt ops : so_func ops = Some 0x5f20 -> run_func ops = OP_5F20.
Proof. unfold run_func. by intros ->. Qed.

Lemma runs_run_func ops : runs 5 6 (run_func ops).
Proof.
  destruct (decide (so_func ops = Some 0x5f20)) as [E|E].
  - rewrite run_func_dbt by done. apply runs_dbt.
  - eapply judge_weaken; [by apply runs_run_func_other|lia|lia].
Qed.
#[local] Hint Resolve runs_run_func : runs.

Lemma runs_issue ops ins t : runs 5 6 (issue ops ins t).
Proof. unfold issue. runs_tac. Qed.

(** In a pair issued in parallel [dbt] is an error, so it writes nothing. *)
Lemma runs_issue_parallel ops ins t :
  t <> INS_LEFT -> t <> INS_RIGHT -> runs 4 5 (issue ops ins t).
Proof.
  intros Hl Hr. unfold issue. destruct (decide (so_func ops = Some 0x5f20)) as [E|E].
  - rewrite run_func_dbt by done.
    assert (runs 0 0 (modify (set_ins_type t) ;; count t 1 ;; modify (set_exception SIGTRAP)))
      as Hm by runs_tac.
    apply (judge_weaken 0 0); [|lia|lia]. apply judge_bind_0; [apply _|runs_tac|intros _].
    eapply judge_ext; [|exact Hm]. by destruct t.
  - pose proof (runs_run_func_other ops E). runs_tac.
Qed.

Lemma runs_do_long ins : runs 5 6 (do_long ins).
Proof. pose proof runs_issue. unfold do_long. runs_tac. Qed.

Lemma safe_do_2_short ins1 ins2 lr : safe 5 6 (do_2_short ins1 ins2 lr).
Proof.
  unfold do_2_short. cbv zeta. apply judge_bind_0; [apply _|runs_tac|intros _].
  apply judge_bind_0; [apply _|runs_tac|intros h].
  apply judge_bind_0; [apply _|runs_tac|intros ops].
  apply (safe_flush _ _ _ (fun s => (pc_changed s =? 0) && (exception s =? 0)) _
           (fun s => when (exception s =? 0) (count INS_COND_JUMP 1)));
    [unfold NR_SLOTS; lia|apply runs_issue|runs_tac|runs_tac].
Qed.

Lemma runs_do_conditional ops i t h j u :
  t <> INS_LEFT -> t <> INS_RIGHT -> u <> INS_LEFT -> u <> INS_RIGHT ->
  runs 8 10 (do_conditional ops i t h j u).
Proof.
  intros. pose proof (fun ops i => runs_issue_parallel ops i t ltac:(done) ltac:(done)).
  pose proof (fun ops i => runs_issue_parallel ops i u ltac:(done) ltac:(done)).
  unfold do_conditional. runs_tac.
Qed.

Lemma runs_do_parallel ins1 ins2 : runs 8 10 (do_parallel ins1 ins2).
Proof.
  assert (forall o1 i h j, runs 8 10 (do_conditional o1 i INS_LEFT_COND_TEST h j INS_RIGHT_COND_EXE))
    by (intros; by apply runs_do_conditional).
  assert (forall o1 i h j, runs 8 10 (do_conditional o1 i INS_RIGHT_COND_TEST h j INS_LEFT_COND_EXE))
    by (intros; by apply runs_do_conditional).
  assert (forall o i, runs 4 5 (issue o i INS_LEFT_PARALLEL))
    by (intros; by apply runs_issue_parallel).
  assert (forall o i, runs 4 5 (issue o i INS_RIGHT_PARALLEL))
    by (intros; by apply runs_issue_parallel).
  unfold do_parallel. runs_tac.
Qed.

Lemma safe_dispatch inst : safe 8 10 (dispatch inst).
Proof.
  unfold dispatch. cbv zeta. destruct (_ =? _).
  { eapply judge_weaken; [apply judge_runs, runs_do_long|lia|lia]. }
  destruct (_ =? _).
  { eapply judge_weaken; [apply safe_do_2_short|lia|lia]. }
  destruct (_ =? _).
  { eapply judge_weaken; [apply safe_do_2_short|lia|lia]. }
  apply judge_runs, runs_do_parallel.
Qed.

(** ** The end of the cycle *)

(** [next_pc] takes slots only if the instruction did not jump. *)
Lemma runs_next_pc_body : runs 3 3 next_pc.
Proof. unfold next_pc. runs_tac. Qed.

Lemma safe_dispatch_next inst : safe 11 11 (dispatch inst ;; next_pc).
Proof.
  intros s Hs Hr. unfold bind. pose proof (safe_dispatch inst s Hs) as Hd.
  assert (room 10 s) as Hr' by (unfold room in *; lia). specialize (Hd Hr').
  destruct (dispatch inst s) as [x s1| | |]; simpl in Hd; try done.
  destruct Hd as (Hs1 & J & L & L'). unfold room in *.
  destruct (decide (pc_changed s1 = 0)) as [Hz|Hnz].
  - specialize (L' Hz). pose proof (runs_next_pc_body s1 Hs1) as Hn.
    assert (room 3 s1) as Hr1 by (unfold room; lia). specialize (Hn Hr1).
    destruct (next_pc s1); simpl in *; try done. destruct Hn as (? & F & ? & ?).
    split; [done|]. split; [etransitivity; [done|apply (fr_jump _ _ F)]|lia].
  - assert (next_pc s1 = Ret tt s1) as ->.
    { unfold next_pc, bind, get. apply Z.eqb_neq in Hnz. by rewrite Hnz. }
    simpl. split; [done|split; [done|lia]].
Qed.

Lemma runs_ibreak : runs 5 5 ibreak.
Proof.
  unfold ibreak. eapply judge_weaken.
  - apply judge_get; intros s0 ?. eapply judge_when.
    eapply judge_bind; [runs_infer|intros _]. apply judge_get; intros s1 ?.
    eapply judge_bind; [runs_infer|intros _]. apply judge_SET_PSW_SM. runs_infer.
  - simpl; lia.
  - simpl; lia.
Qed.

Lemma safe_cycle inst : safe 16 16 (dispatch inst ;; next_pc ;; ibreak).
Proof.
  eapply judge_ext; [|apply (judge_bind 11 11 5 5 (dispatch inst ;; next_pc) (fun _ => ibreak));
    [apply safe_dispatch_next|intros; apply judge_runs, runs_ibreak]].
  intros s. unfold bind. by destruct (dispatch inst s).
Qed.
End WithHost.

(** ** Code that runs between instructions *)

(** The invariant is kept, the slots do not overflow, the fuel is enough, and the
    stop request is left alone. *)
Definition keeps {A} (m : M A) : Prop :=
  forall s, inv s ->
  match m s with
  | Ret _ s' => inv s' /\ stop_simulator s' = stop_simulator s
  | Undefined u _ => u <> UB_slots
  | Exit _ _ => True
  | NoFuel _ => False
  end.

Lemma keeps_bind {A B} (m : M A) (f : A -> M B) :
  keeps m -> (forall x, keeps (f x)) -> keeps (bind m f).
Proof.
  intros Hm Hf s Hs. specialize (Hm s Hs). unfold bind.
  destruct (m s) as [x s1| | |]; try done. destruct Hm as [Hm E].
  specialize (Hf x s1 Hm). destruct (f x s1); try done. rewrite <- E. apply Hf.
Qed.
Lemma keeps_get {B} (f : state -> M B) : (forall s, keeps (f s)) -> keeps (bind get f).
Proof. intros Hf s Hs. by apply (Hf s). Qed.
Lemma keeps_if {A} (c : bool) (m m' : M A) :
  keeps m -> keeps m' -> keeps (if c then m else m').
Proof. by destruct c. Qed.
Lemma keeps_ret {A} (x : A) : keeps (ret x).
Proof. by intros s Hs. Qed.
Lemma keeps_when c m : keeps m -> keeps (when c m).
Proof. destruct c; [done|]. intros _. apply (keeps_ret tt). Qed.

Lemma inv_room k s : inv s -> (k <= NR_SLOTS)%nat -> room k s.
Proof. intros [_ E] ?. unfold room. by rewrite E. Qed.

(** Operations that take no slot, and operations followed by a flush. *)
Lemma runs_keeps {A} (m : M A) : runs 0 0 m -> keeps m.
Proof.
  intros Hm s Hs. assert (room 0 s) as Hr by (apply inv_room; [done|lia]).
  specialize (Hm s (proj1 Hs) Hr). destruct (m s); simpl in Hm; try done.
  destruct Hm as (? & F & L & _). destruct Hs as [_ E]. rewrite E in L.
  split; [|apply (fr_jump _ _ F)]. split; [done|]. apply length_zero_iff_nil. simpl in L. lia.
Qed.

Lemma safe_flush_keeps {A} k (m : M A) :
  safe k k m -> (k <= NR_SLOTS)%nat -> keeps (m ;; SLOT_FLUSH).
Proof.
  intros Hm Hk s Hs. assert (room k s) as Hr by (by apply inv_room).
  specialize (Hm s (proj1 Hs) Hr). unfold bind. destruct (m s) as [x s1| | |]; simpl in Hm; try done.
  destruct Hm as (Hs1 & J & _). destruct (SLOT_FLUSH_inv s1 Hs1) as (s2 & -> & ? & _ & ->).
  split; [done|apply J].
Qed.

(** Direct writes to the other fields. *)
Lemma keeps_modify f :
  (forall s, inv s -> inv (f s) /\ stop_simulator (f s) = stop_simulator s) -> keeps (modify f).
Proof. intros Hf s Hs. by apply Hf. Qed.

Section Entry.
Context `{Host}.

Lemma keeps_sim_body : keeps sim_body.
Proof.
  unfold sim_body. apply keeps_get; intros s0.
  apply keeps_bind; [apply runs_keeps; runs_tac|intros p]. apply keeps_if.
  { apply runs_keeps. runs_tac. }
  apply keeps_bind; [apply runs_keeps; runs_tac|intros inst].
  apply keeps_bind; [apply keeps_modify; by intros s [[] ?]|intros _].
  apply keeps_bind; [apply runs_keeps; runs_tac|intros _].
  assert (keeps ((dispatch inst ;; next_pc ;; ibreak) ;; SLOT_FLUSH)) as Hc
    by (by apply (safe_flush_keeps 16); [apply safe_cycle|]).
  intros s Hs. specialize (Hc s Hs). revert Hc. unfold bind.
  destruct (dispatch inst s) as [x s1| | |]; try done.
  destruct (next_pc s1) as [y s2| | |]; try done. by destruct (ibreak s2).
Qed.

Lemma runs_xfer_bytes tr addr n buf w :
  (forall x, runs 0 0 (tr x)) -> forall i, runs 0 0 (xfer_bytes tr addr n i buf w).
Proof.
  intros Htr. revert buf. induction n as [|n IH]; intros buf i; simpl; [apply runs_ret|].
  specialize (Htr (u32 (addr + i))). runs_tac.
Qed.
Lemma runs_memcpy_from p n : forall buf i, runs 0 0 (memcpy_from p buf i n).
Proof.
  induction n as [|n IH]; intros buf i; simpl; [apply runs_ret|]. runs_tac.
Qed.
#[local] Hint Resolve runs_xfer_bytes runs_memcpy_from : runs.

Lemma runs_xfer_copy p buf n w : runs 0 0 (xfer_copy p buf n w).
Proof. unfold xfer_copy. runs_tac. Qed.
#[local] Hint Resolve runs_xfer_copy : runs.

Lemma runs_xfer_unified addr buf n w : runs 0 0 (xfer_unified addr buf n w).
Proof. unfold xfer_unified. runs_tac. Qed.
#[local] Hint Resolve runs_xfer_unified : runs.

Lemma runs_xfer_mem addr buf n w : runs 0 0 (xfer_mem addr buf n w).
Proof. unfold xfer_mem. runs_tac. Qed.
#[local] Hint Resolve runs_xfer_mem : runs.

Lemma runs_sim_write addr buf n : runs 0 0 (sim_write addr buf n).
Proof. unfold sim_write. runs_tac. Qed.
#[local] Hint Resolve runs_sim_write : runs.

Lemma runs_SET_IMAP0 x : runs 0 0 (SET_IMAP0 x). Proof. apply runs_SW. Qed.
Lemma runs_SET_IMAP1 x : runs 0 0 (SET_IMAP1 x). Proof. apply runs_SW. Qed.
Lemma runs_SET_DMAP x : runs 0 0 (SET_DMAP x). Proof. apply runs_SW. Qed.
Lemma runs_IMAP0 : runs 0 0 IMAP0. Proof. apply runs_RW. Qed.
Lemma runs_IMAP1 : runs 0 0 IMAP1. Proof. apply runs_RW. Qed.
Lemma runs_DMAP : runs 0 0 DMAP. Proof. apply runs_RW. Qed.
#[local] Hint Resolve runs_SET_IMAP0 runs_SET_IMAP1 runs_SET_DMAP runs_IMAP0 runs_IMAP1
  runs_DMAP : runs.

Lemma runs_store_argv args addr : forall p i, runs 0 0 (store_argv args addr p i).
Proof.
  induction args as [|x args IH]; intros p i; simpl; [apply runs_ret|].
  cbv zeta. runs_tac.
Qed.
#[local] Hint Resolve runs_store_argv : runs.

(** ** The entry points *)

Lemma keeps_sim_fetch_register rn : keeps (sim_fetch_register rn).
Proof. apply runs_keeps. unfold sim_fetch_register. runs_tac. Qed.

Lemma keeps_sim_store_register rn mem : keeps (sim_store_register rn mem).
Proof.
  unfold sim_store_register. apply (safe_flush_keeps 3); [|unfold NR_SLOTS; lia].
  apply judge_runs. destruct (negb (reg_in_range rn)) eqn:E; [runs_tac|].
  unfold reg_in_range in E. unfold set_creg_.
  destruct (34 <? rn), (rn =? 34), (rn =? 33), (rn =? 32); cbv iota; [runs_tac..|].
  destruct (Z.leb_spec 16 rn); [|runs_tac]. assert (0 <= rn - 16) by lia. runs_tac.
Qed.

Lemma reset_state_wf s x s' :
  (exists b, imem s = Some b /\ bytes_ok b) -> (exists b, dmem s = Some b /\ bytes_ok b) ->
  map_Forall (fun _ b => bytes_ok b) (umem s) -> length (OP s) = 4%nat /\ Forall (fits 16) (OP s) ->
  reset_state s = Ret x s' -> inv s'.
Proof.
  intros ? ? ? ? [= _ <-]. split; [|done]. split; simpl; try done.
  - split; [done|]. by repeat constructor.
  - split; [done|]. intros n Hn. change (cr_ok (Z.of_nat n) (nth n (repeat 0 16) 0)). by rewrite nth_repeat.
  - split; [done|]. by repeat constructor.
  - split; [done|]. by repeat constructor.
Qed.

Lemma keeps_reset_state : keeps reset_state.
Proof.
  intros s [[] ?]. split; [|done]. by apply (reset_state_wf s tt).
Qed.

Lemma keeps_sim_create_inferior start argv : keeps (sim_create_inferior start argv).
Proof.
  unfold sim_create_inferior. apply keeps_bind; [apply keeps_reset_state|intros _].
  cbv zeta. set (pc := set_creg_ PC_CR _).
  assert (runs 1 1 pc) as Hpc by runs_tac.
  assert (forall m : M unit, runs 2 2 m -> keeps (m ;; pc ;; SET_IMAP0 0 ;; SET_IMAP1 127 ;;
    SET_DMAP 0 ;; SLOT_FLUSH)) as Hk.
  { intros m Hm.
    assert (keeps ((m ;; pc ;; SET_IMAP0 0 ;; SET_IMAP1 127 ;; SET_DMAP 0) ;; SLOT_FLUSH)) as Hc.
    { apply (safe_flush_keeps 3); [|unfold NR_SLOTS; lia]. apply judge_runs. runs_tac. }
    intros s Hs. specialize (Hc s Hs). revert Hc. unfold bind.
    destruct (m s) as [? s1| | |]; try done. destruct (pc s1) as [? s2| | |]; try done.
    destruct (SET_IMAP0 0 s2) as [? s3| | |]; try done.
    destruct (SET_IMAP1 127 s3) as [? s4| | |]; done. }
  apply Hk. destruct argv; runs_tac.
Qed.

End Entry.

(** ** Reachable states *)

Section Reachable.
Context `{Host}.

(** The calls a debugger makes, and the instructions a run is made of. *)
Inductive step : state -> state -> Prop :=
| step_open ok (s s' : state) : sim_open ok s = Ret tt s' -> step s s'
| step_create start argv (s s' : state) : sim_create_inferior start argv s = Ret tt s' -> step s s'
| step_write addr buf n r (s s' : state) : sim_write addr buf n s = Ret r s' -> step s s'
| step_read addr buf n r (s s' : state) : sim_read addr buf n s = Ret r s' -> step s s'
| step_fetch rn r (s s' : state) : sim_fetch_register rn s = Ret r s' -> step s s'
| step_store rn mem (s s' : state) : sim_store_register rn mem s = Ret tt s' -> step s s'
| step_stop (s s' : state) : sim_stop s = Ret tt s' -> step s s'
| step_reason r (s s' : state) : sim_stop_reason s = Ret r s' -> step s s'
| step_resume (s s' : state) : modify (set_exception 0) s = Ret tt s' -> step s s'
| step_insn go (s s' : state) : sim_body s = Ret go s' -> step s s'
| step_trap sig (s s' : state) : modify (set_exception sig) s = Ret tt s' -> step s s'
| step_load secs (s s' : state) : modify (set_prog_bfd secs) s = Ret tt s' -> step s s'.

(** What the program has done since [sim_open] allocated its memory. *)
Inductive reachable : state -> Prop :=
| reach_open (s : state) : sim_open true zero_state = Ret tt s -> reachable s
| reach_step (s s' : state) : reachable s -> step s s' -> reachable s'.

Lemma sim_open_inv s' : sim_open true zero_state = Ret tt s' -> inv s'.
Proof.
  unfold sim_open. unfold bind at 1, get at 1. simpl (imem zero_state).
  unfold sim_size, bind at 1, bind at 1, modify at 1. cbv beta iota.
  set (s1 := set_umem _ _). simpl. intros E.
  assert (keeps (sim_create_inferior None None)) as Hk by apply keeps_sim_create_inferior.
  assert (inv s1) as H1.
  { subst s1. split; [|done]. split; simpl; try done.
    - split; [done|]. by repeat constructor.
    - split; [done|]. intros n Hn.
      change (cr_ok (Z.of_nat n) (nth n (repeat 0 16) 0)). by rewrite nth_repeat.
    - split; [done|]. by repeat constructor.
    - split; [done|]. by repeat constructor.
    - split; [done|]. by repeat constructor.
    - eexists. split; [done|]. apply map_Forall_empty.
    - eexists. split; [done|]. apply map_Forall_empty.
    - repeat apply map_Forall_insert_2; apply map_Forall_empty. }
  specialize (Hk s1 H1). unfold skip, ret in E. rewrite E in Hk. apply Hk.
Qed.

Lemma keeps_sim_open ok : keeps (sim_open ok).
Proof.
  intros s Hs. unfold sim_open, bind at 1, get at 1.
  destruct (wf_imem s (proj1 Hs)) as (b & -> & _).
  by apply (keeps_sim_create_inferior None None).
Qed.

Lemma step_inv s s' : step s s' -> inv s -> inv s'.
Proof.
  assert (forall A (m : M A) x, keeps m -> m s = Ret x s' -> inv s -> inv s') as K.
  { intros A m x Hm E Hs. specialize (Hm s Hs). rewrite E in Hm. apply Hm. }
  destruct 1 as [ok ? ? E|st av ? ? E|ad bu n r ? ? E|ad bu n r ? ? E|rn r ? ? E|rn me ? ? E
    |? ? E|r ? ? E|? ? E|go ? ? E|sg ? ? E|se ? ? E].
  7: { injection E as <-. by intros [[] ?]. }
  7: { injection E as _ <-. by intros [[] ?]. }
  all: eapply K; [|exact E].
  - apply keeps_sim_open.
  - apply keeps_sim_create_inferior.
  - apply runs_keeps, runs_sim_write.
  - apply runs_keeps, runs_xfer_mem.
  - apply keeps_sim_fetch_register.
  - apply keeps_sim_store_register.
  - apply runs_keeps. runs_tac.
  - apply keeps_sim_body.
  - apply runs_keeps. runs_tac.
  - apply keeps_modify. by intros ? [[] ?].
Qed.

Lemma reachable_is_inv s : reachable s -> inv s.
Proof. induction 1; [by eapply sim_open_inv|by eapply step_inv]. Qed.

End Reachable.

(** ** Properties *)

Section Properties.
Context `{Host}.

(** C1: Every state that a debugger's calls and the execution of instructions can
    reach from [sim_open] is well formed: register arrays of the right length
    with values of their width, no reserved bit set in a control register,
    accumulators of 40 bits, bytes in the memories, and no write pending. *)
Theorem reachable_inv s : reachable s -> inv s.
Proof. apply reachable_is_inv. Qed.

(** C17: From a reachable state the execution of an instruction word, whatever it
    is, never writes past the 16 writeback slots, and always ends. *)
Theorem sim_body_no_overflow s :
  reachable s ->
  forall s', sim_body s <> Undefined UB_slots s' /\ sim_body s <> NoFuel s'.
Proof.
  intros Hs s'. pose proof (keeps_sim_body s (reachable_is_inv s Hs)) as Hk.
  split; intros E; by rewrite E in Hk.
Qed.

(** C18: An instruction function leaves the general registers, the control
    registers, the held stack pointers and the accumulators as they are: what it
    writes waits in at most six slots for the flush, so that the two halves of a
    parallel pair read the same registers. *)
Theorem writes_wait_for_flush ops s x s' :
  inv s -> run_func ops s = Ret x s' ->
  regs s' = regs s /\ cregs s' = cregs s /\ sp s' = sp s /\ a s' = a s /\
  (length (slot s') <= 6)%nat.
Proof.
  intros Hs E. assert (room 6 s) as Hr by (apply inv_room; [done|unfold NR_SLOTS; lia]).
  pose proof (runs_run_func ops s (proj1 Hs) Hr) as Hp. rewrite E in Hp. simpl in Hp.
  destruct Hp as (_ & [] & L & _). destruct Hs as [_ En]. rewrite En in L. done.
Qed.

(** Stepping ([sim_resume] with [step] set) ends, with any positive fuel: it
    executes one instruction word and, if that raised no exception, reports
    SIGTRAP. *)
Theorem sim_resume_step n s :
  inv s ->
  sim_resume (S n) true s =
  (modify (set_exception 0) ;; sim_stop ;; sim_body ;;
   s <- get ;; when (exception s =? 0) (modify (set_exception SIGTRAP))) s.
Proof.
  intros Hs. unfold sim_resume, bind, modify, when at 1, sim_stop. cbv beta iota.
  set (s1 := set_stop_simulator 1 (set_exception 0 s)).
  assert (inv s1) as H1 by (by destruct Hs as [[] ?]).
  pose proof (keeps_sim_body s1 H1) as Hk. simpl. unfold bind, get.
  fold s1. destruct (sim_body s1) as [go s2| | |]; try done.
  destruct Hk as [_ ->]. rewrite andb_false_r. done.
Qed.

(** Fuel only decides whether a run is followed to its end: more of it does not
    change the outcome of a run that ends. *)
Theorem sim_loop_fuel n k s :
  (forall s', sim_loop n s <> NoFuel s') -> sim_loop (n + k) s = sim_loop n s.
Proof.
  revert s. induction n as [|n IH]; intros s Hn; [by destruct (Hn s)|].
  simpl in *. unfold bind, get in *. destruct (sim_body s) as [go s1| | |]; try done.
  destruct (go && (exception s1 =? 0) && (stop_simulator s1 =? 0)); [|done].
  by apply IH.
Qed.
End Properties.

(** ** Witnesses *)

(** A host on which every allocation succeeds and every call returns 0. *)
Definition plain_host : Host := {|
  host_calloc _ _ := true; host_call _ _ := (0, []); host_errno _ := 0 |}.

(** The state after [sim_open]. *)
Definition booted : state :=
  match @sim_open plain_host true zero_state with Ret _ s => s | _ => zero_state end.

Lemma booted_reachable : @reachable plain_host booted.
Proof. apply reach_open. vm_compute. reflexivity. Qed.

Lemma booted_inv : inv booted.
Proof. apply (@reachable_is_inv plain_host), booted_reachable. Qed.

Lemma reachable_inv_witness : inv booted.
Proof. apply (@reachable_inv plain_host). apply booted_reachable. Defined.

Lemma sim_body_no_overflow_witness :
  @sim_body plain_host booted <> Undefined UB_slots booted /\
  @sim_body plain_host booted <> NoFuel booted.
Proof. apply (@sim_body_no_overflow plain_host booted). apply booted_reachable. Defined.

Lemma inv_set_OP s l : inv s -> length l = 4%nat -> Forall (fits 16) l -> inv (set_OP l s).
Proof. intros [[] ?] ? ?. split; [|done]. by constructor. Qed.

(** [ldi.l r0, #5], whose operands are decoded. *)
Definition ldi_state : state := set_OP [0; 5; 0; 0] booted.
Definition ldi_op : simops :=
  Simop 0x20000000 1 0x3f0f0000 LONG_L 1 MU SEQ (Some 0x20000000) 2 [].

Lemma writes_wait_for_flush_witness :
  exists s', @run_func plain_host ldi_op ldi_state = Ret tt s' /\ regs s' = regs ldi_state.
Proof.
  eexists. split; [vm_compute; reflexivity|].
  apply (@writes_wait_for_flush plain_host ldi_op ldi_state tt).
  - apply inv_set_OP; [apply booted_inv|done|]. by repeat constructor.
  - vm_compute. reflexivity.
Defined.

Lemma sim_resume_step_witness :
  @sim_resume plain_host 1 true booted =
  (modify (set_exception 0) ;; sim_stop ;; @sim_body plain_host ;;
   s <- get ;; when (exception s =? 0) (modify (set_exception SIGTRAP))) booted.
Proof. apply (@sim_resume_step plain_host 0). apply booted_inv. Defined.

(** The run ends after one instruction word when a stop was requested. *)
Lemma sim_loop_fuel_witness :
  @sim_loop plain_host (1 + 41) (set_stop_simulator 1 booted) =
  @sim_loop plain_host 1 (set_stop_simulator 1 booted).
Proof.
  apply (@sim_loop_fuel plain_host 1 41). intros s'. vm_compute. discriminate.
Defined.
