(* ===== verification/Decode.v ===== *)
(** * The instruction decoder

    The hash table of sim/d10v/interp.c against the generated table it is built
    from: [lookup_hash] finds what a search of the whole table would find, the
    table is unambiguous but for known pairs, the operand fields it extracts are in
    range, and decoding a word gives back what was encoded. *)
From S2P Require Import Prelude CInt Opcodes State Memory Cregs.
From S2P Require Import SimopsAlu SimopsAcc SimopsFlow SimopsMem SimopsTrap Interp.

#[export] Instance simops_eq_dec : EqDecision simops.
Proof. solve_decision. Defined.
#[export] Instance hash_entry_eq_dec : EqDecision hash_entry.
Proof. solve_decision. Defined.

(** The table without hashing: the entries of [Simops] that are instructions, in
    order. *)
Definition real_simops : list simops :=
  List.filter (fun o => match so_func o with Some _ => true | None => false end) Simops.
Definition linear_table : list hash_entry := map entry_of real_simops.

(** The bucket an instruction word of a size belongs to. *)
Definition bucket_of (ins size : Z) : Z :=
  if truth size then Z.shiftr (Z.land ins 0x3F000000) 24
  else Z.shiftr (Z.land ins 0x7E00) 9.
Definition entry_bucket (h : hash_entry) : Z := bucket_of (he_opcode h) (he_size h).

Definition bucket_chain (b : Z) : list hash_entry :=
  List.filter (fun h => entry_bucket h =? b) linear_table.

(** The table built by [sim_open] holds in each bucket the instructions that hash
    to it, in the order of [Simops]; an empty bucket holds the empty entry. *)
Definition chain_ok (b : nat) : bool :=
  bool_decide (nth b hash_table [] =
    match bucket_chain (Z.of_nat b) with [] => [empty_entry] | l => l end).

Lemma hash_table_chains : forallb chain_ok (seq 0 64) = true.
Proof. vm_compute. reflexivity. Qed.

(** Every mask includes the bits that are hashed. *)
Definition mask_hashed (h : hash_entry) : bool :=
  if he_size h =? 1 then Z.land 0x3F000000 (he_mask h) =? 0x3F000000
  else (he_size h =? 0) && (Z.land 0x7E00 (he_mask h) =? 0x7E00).
Lemma masks_hashed : forallb mask_hashed linear_table = true.
Proof. vm_compute. reflexivity. Qed.

Lemma hash_table_chain b :
  0 <= b < 64 ->
  nth (Z.to_nat b) hash_table [] =
  match bucket_chain b with [] => [empty_entry] | l => l end.
Proof.
  intros Hb. pose proof hash_table_chains as H. rewrite forallb_forall in H.
  specialize (H (Z.to_nat b)). rewrite in_seq in H.
  assert (chain_ok (Z.to_nat b) = true) as E by (apply H; lia).
  unfold chain_ok in E. apply bool_decide_eq_true in E. by rewrite Z2Nat.id in E by lia.
Qed.

Lemma bucket_range ins size : 0 <= bucket_of ins size < 64.
Proof.
  unfold bucket_of. destruct (truth size).
  - pose proof (land_bound_l ins 0x3F000000). rewrite Z.shiftr_div_pow2 by lia. zdml.
  - pose proof (land_bound_l ins 0x7E00). rewrite Z.shiftr_div_pow2 by lia. zdml.
Qed.

(** An instruction word that matches an entry is in the entry's bucket. *)
Lemma match_bucket ins size h :
  In h linear_table -> hash_matches ins size h = true -> entry_bucket h = bucket_of ins size.
Proof.
  intros Hin Hm. pose proof masks_hashed as H. rewrite forallb_forall in H.
  specialize (H h Hin). unfold hash_matches in Hm.
  apply andb_prop in Hm as [Hop%Z.eqb_eq Hsz%Z.eqb_eq]. unfold entry_bucket.
  unfold mask_hashed in H. rewrite Hsz in *. rewrite <- Hop. clear Hop.
  unfold bucket_of. destruct (Z.eqb_spec size 1) as [->|_].
  - apply Z.eqb_eq in H. simpl truth. cbv iota. f_equal.
    by rewrite <- Z.land_assoc, (Z.land_comm (he_mask h)), H.
  - apply andb_prop in H as [->%Z.eqb_eq H%Z.eqb_eq]. simpl truth. cbv iota. f_equal.
    by rewrite <- Z.land_assoc, (Z.land_comm (he_mask h)), H.
Qed.

Lemma hash_chain_linear ins size :
  find (hash_matches ins size) (bucket_chain (bucket_of ins size)) =
  find (hash_matches ins size) linear_table.
Proof.
  apply find_filter. intros h Hin Hm. apply Z.eqb_eq. by apply match_bucket.
Qed.

(** What a lookup does: the instruction found by a linear search; with none, the
    error exit, except in an empty bucket with a 15-bit word, where the empty
    entry matches. *)
Definition lookup_spec (ins size : Z) : M hash_entry :=
  match find (hash_matches ins size) linear_table with
  | Some h => ret h
  | None =>
      if (size =? 0) && bool_decide (bucket_chain (bucket_of ins size) = []) then ret empty_entry
      else
        s <- get ;;
        printf_filtered "ERROR looking up hash for %x at PC %x\n" [ins; PC s] ;;
        exit 1
  end.

Lemma lookup_hash_run ins size : lookup_hash ins size = lookup_spec ins size.
Proof.
  unfold lookup_hash, lookup_spec, hash_chain. rewrite <- hash_chain_linear.
  change (if truth size then Z.shiftr (Z.land ins 0x3F000000) 24
          else Z.shiftr (Z.land ins 0x7E00) 9) with (bucket_of ins size).
  rewrite hash_table_chain by apply bucket_range.
  destruct (bucket_chain (bucket_of ins size)) as [|h l] eqn:E.
  - simpl. unfold hash_matches. simpl. rewrite Z.land_0_r. simpl.
    by destruct size.
  - rewrite bool_decide_eq_false_2 by done. by rewrite andb_false_r.
Qed.

(** The hash table is an implementation of a linear search of the generated
    table: [lookup_hash] returns the first entry that matches, and otherwise
    reports the error, but for the 15-bit words of an empty bucket. *)
Theorem lookup_hash_linear ins size : lookup_hash ins size = lookup_spec ins size.
Proof. apply lookup_hash_run. Qed.

(** ** The table is unambiguous *)

(** Two entries that some word could match both. *)
Definition overlap (x y : hash_entry) : bool :=
  (he_size x =? he_size y) &&
  (Z.land (Z.lxor (he_opcode x) (he_opcode y)) (Z.land (he_mask x) (he_mask y)) =? 0).

Lemma matches_overlap ins size x y :
  hash_matches ins size x = true -> hash_matches ins size y = true -> overlap x y = true.
Proof.
  unfold hash_matches, overlap. intros Hx Hy.
  apply andb_prop in Hx as [Hx%Z.eqb_eq Hsx%Z.eqb_eq].
  apply andb_prop in Hy as [Hy%Z.eqb_eq Hsy%Z.eqb_eq].
  rewrite Hsx, Hsy, Z.eqb_refl. simpl. apply Z.eqb_eq, Z.bits_inj'. intros i Hi.
  rewrite Z.land_spec, Z.lxor_spec, Z.land_spec, Z.bits_0, <- Hx, <- Hy, !Z.land_spec.
  by destruct (Z.testbit ins i), (Z.testbit (he_mask x) i), (Z.testbit (he_mask y) i).
Qed.

(** The pairs of functions that share words: the pre-decrement stores, which come
    first in the table, and the post-decrement stores with the register r15. *)
Definition store_pair (f g : Z) : bool :=
  ((f =? 0x6c1f) && (g =? 0x6c01)) || ((f =? 0x6e1f) && (g =? 0x6e01)).

Fixpoint no_overlap (l : list hash_entry) : bool :=
  match l with
  | [] => true
  | x :: l' =>
      forallb (fun y => negb (overlap x y) || (he_opcode x =? he_opcode y)
                        || store_pair (he_opcode x) (he_opcode y)) l'
      && no_overlap l'
  end.
Lemma table_no_overlap : no_overlap linear_table = true.
Proof. vm_compute. reflexivity. Qed.

Lemma no_overlap_nth l i j x y :
  no_overlap l = true -> l !! i = Some x -> l !! j = Some y -> (i < j)%nat ->
  overlap x y = true -> he_opcode x = he_opcode y \/ store_pair (he_opcode x) (he_opcode y) = true.
Proof.
  revert i j. induction l as [|z l IH]; intros [|i] [|j] Hn Hi Hj Hlt Ho; try done; try lia;
    simpl in Hn; apply andb_prop in Hn as [Hz Hn].
  - simpl in Hi, Hj. injection Hi as ->. rewrite forallb_forall in Hz.
    assert (In y l) as Hin by (by eapply list_elem_of_In, list_elem_of_lookup_2).
    specialize (Hz y Hin). rewrite Ho in Hz. simpl in Hz.
    apply orb_prop in Hz as [?%Z.eqb_eq|?]; auto.
  - apply (IH i j Hn Hi Hj); [lia|done].
Qed.

Lemma table_unambiguous ins size i j x y :
  linear_table !! i = Some x -> linear_table !! j = Some y -> (i < j)%nat ->
  hash_matches ins size x = true -> hash_matches ins size y = true ->
  he_opcode x = he_opcode y \/
  (he_opcode x = 0x6c1f /\ he_opcode y = 0x6c01) \/ (he_opcode x = 0x6e1f /\ he_opcode y = 0x6e01).
Proof.
  intros Hi Hj Hlt Hx Hy. pose proof (matches_overlap ins size x y Hx Hy) as Ho.
  destruct (no_overlap_nth _ i j x y table_no_overlap Hi Hj Hlt Ho) as [?|Hs]; [auto|right].
  unfold store_pair in Hs.
  apply orb_prop in Hs as [Hs|Hs]; apply andb_prop in Hs as [?%Z.eqb_eq ?%Z.eqb_eq]; auto.
Qed.

(** A word that two entries of the table match is given the same function by
    both, with the exception of the pre-decrement stores to r15, which the order of
    the table prefers to the post-decrement forms. *)
Theorem decode_unambiguous ins size i j x y :
  linear_table !! i = Some x -> linear_table !! j = Some y -> (i < j)%nat ->
  hash_matches ins size x = true -> hash_matches ins size y = true ->
  he_opcode x = he_opcode y \/
  (he_opcode x = 0x6c1f /\ he_opcode y = 0x6c01) \/ (he_opcode x = 0x6e1f /\ he_opcode y = 0x6e01).
Proof. apply table_unambiguous. Qed.

(** ** Operand fields *)

Lemma operand_value_mod ins sh b :
  0 <= sh -> 0 <= b <= 31 -> operand_value ins sh b = (ins / 2 ^ sh) mod 2 ^ b.
Proof.
  intros Hsh Hb. unfold operand_value. change 0x7FFFFFFF with (Z.ones 31).
  replace (Z.shiftr (Z.ones 31) (31 - b)) with (Z.ones b).
  - by rewrite Z.land_ones, Z.shiftr_div_pow2 by lia.
  - rewrite Z.shiftr_div_pow2, Z.ones_div_pow2 by lia. f_equal. lia.
Qed.

(** What the table says of one operand field. *)
Definition operand_ok (o : simops) (i : Z) : bool :=
  let sh := znth (so_operands o) (3 * i) in
  let b := znth (so_operands o) (3 * i + 1) in
  let fl := znth (so_operands o) (3 * i + 2) in
  (0 <=? sh) && (1 <=? b) && (b <=? 16)
  && implb (truth (Z.land fl OPERAND_GPR) || truth (Z.land fl OPERAND_CONTROL)) (b <=? 4)
  && implb (truth (Z.land fl OPERAND_ACC0)) (b <=? 1)
  && implb (truth (Z.land fl OPERAND_EVEN))
       (Z.testbit (so_mask o) sh && negb (Z.testbit (so_opcode o) sh)).
Definition operands_ok (o : simops) : bool :=
  (0 <=? so_numops o) && (so_numops o <=? 4)
  && forallb (fun i => operand_ok o (Z.of_nat i)) (seq 0 (Z.to_nat (so_numops o))).
Lemma all_operands_ok : forallb operands_ok real_simops = true.
Proof. vm_compute. reflexivity. Qed.

Lemma get_operand_ok o i :
  In o real_simops -> 0 <= i < so_numops o -> so_numops o <= 4 /\ operand_ok o i = true.
Proof.
  intros Hin Hi. pose proof all_operands_ok as H. rewrite forallb_forall in H.
  specialize (H o Hin). unfold operands_ok in H.
  apply andb_prop in H as [[_ H4%Z.leb_le]%andb_prop Ho]. split; [done|].
  rewrite forallb_forall in Ho. specialize (Ho (Z.to_nat i)).
  rewrite Z2Nat.id in Ho by lia. apply Ho, in_seq. lia.
Qed.

Lemma get_operands_loop_spec n : forall i ops ins s,
  0 <= i -> length (OP s) = 4%nat -> i + Z.of_nat n <= 4 ->
  exists l, get_operands_loop n i ops ins s = Ret tt (set_OP l s) /\ length l = 4%nat /\
    forall j, 0 <= j ->
      znth l j = if (i <=? j) && (j <? i + Z.of_nat n)
                 then u16 (operand_value ins (znth ops (3 * j)) (znth ops (3 * j + 1)))
                 else op s j.
Proof.
  induction n as [|n IH]; intros i ops ins s Hi Hl Hn.
  - exists (OP s). split; [by destruct s|split; [done|]]. intros j Hj.
    destruct (Z.leb_spec i j), (Z.ltb_spec j (i + Z.of_nat 0)); simpl; done || lia.
  - simpl. set (v := operand_value _ _ _).
    set (s1 := set_OP (<[Z.to_nat i:=u16 v]> (OP s)) s).
    destruct (IH (i + 1) ops ins s1) as (l & E & Hll & Hj); [lia| |lia|].
    { subst s1. simpl. by rewrite length_insert. }
    exists l. split; [exact E|split; [done|]]. intros j Hj0. rewrite Hj by done.
    assert (forall b c : bool, b = c -> forall x y : Z, (if b then x else y) = (if c then x else y))
      as Hif by (by intros ? ? ->).
    destruct (Z.eq_dec i j) as [->|Hne].
    + destruct (Z.leb_spec (j + 1) j); [lia|]. simpl.
      destruct (Z.leb_spec j j); [|lia]. destruct (Z.ltb_spec j (j + Z.of_nat (S n))); [|lia].
      simpl. subst s1. unfold op, znth. simpl. rewrite nth_lookup.
      by rewrite list_lookup_insert_eq by lia.
    + assert (op s1 j = op s j) as ->.
      { subst s1. unfold op, znth. simpl. rewrite !nth_lookup.
        by rewrite list_lookup_insert_ne by lia. }
      apply Hif. destruct (Z.leb_spec (i + 1) j), (Z.leb_spec i j),
        (Z.ltb_spec j (i + 1 + Z.of_nat n)), (Z.ltb_spec j (i + Z.of_nat (S n))); simpl; done || lia.
Qed.

Lemma implb_elim b c : implb b c = true -> b = true -> c = true.
Proof. by destruct b. Qed.

(** The bit of a word that the mask fixes. *)
Lemma match_testbit ins size o i :
  hash_matches ins size (entry_of o) = true -> Z.testbit (so_mask o) i = true ->
  Z.testbit ins i = Z.testbit (so_opcode o) i.
Proof.
  intros Hm Hb. unfold hash_matches in Hm. apply andb_prop in Hm as [Hm%Z.eqb_eq _].
  simpl in Hm. by rewrite <- Hm, Z.land_spec, Hb, andb_true_r.
Qed.

Lemma get_operands_run o ins s :
  In o real_simops -> hash_matches ins (so_is_long o) (entry_of o) = true ->
  length (OP s) = 4%nat ->
  exists s', get_operands o ins s = Ret tt s' /\
    s' = set_trace_psw (PSW s) (set_OP (OP s') s) /\
    forall i, 0 <= i < so_numops o ->
      let sh := znth (so_operands o) (3 * i) in
      let b := znth (so_operands o) (3 * i + 1) in
      let fl := znth (so_operands o) (3 * i + 2) in
      op s' i = (ins / 2 ^ sh) mod 2 ^ b /\
      (Z.land fl OPERAND_GPR <> 0 \/ Z.land fl OPERAND_CONTROL <> 0 -> op s' i < 16) /\
      (Z.land fl OPERAND_ACC0 <> 0 -> op s' i < 2) /\
      (Z.land fl OPERAND_EVEN <> 0 -> Z.even (op s' i) = true).
Proof.
  intros Hin Hm Hl. pose proof all_operands_ok as Ha. rewrite forallb_forall in Ha.
  assert (so_numops o <= 4) as H4.
  { specialize (Ha o Hin). unfold operands_ok in Ha.
    by apply andb_prop in Ha as [[_ ?%Z.leb_le]%andb_prop _]. }
  destruct (get_operands_loop_spec (Z.to_nat (so_numops o)) 0 (so_operands o) ins s)
    as (l & E & Hll & Hj); [lia|done|lia|].
  exists (set_trace_psw (PSW s) (set_OP l s)). unfold get_operands, bind. rewrite E.
  split; [done|split; [done|]]. intros i Hi. cbv zeta.
  destruct (get_operand_ok o i Hin Hi) as [_ Hok]. unfold operand_ok in Hok. cbv zeta in Hok.
  set (sh := znth _ (3 * i)) in *. set (b := znth _ (3 * i + 1)) in *.
  set (fl := znth _ (3 * i + 2)) in *.
  apply andb_prop in Hok as [[[[[Hsh%Z.leb_le Hb1%Z.leb_le]%andb_prop Hb2%Z.leb_le]%andb_prop
    Hreg]%andb_prop Hacc]%andb_prop Hev].
  assert (op (set_trace_psw (PSW s) (set_OP l s)) i = (ins / 2 ^ sh) mod 2 ^ b) as Ev.
  { unfold op. simpl. rewrite Hj by lia.
    destruct (Z.leb_spec 0 i); [|lia].
    destruct (Z.ltb_spec i (0 + Z.of_nat (Z.to_nat (so_numops o)))); [|lia]. simpl.
    fold sh b. rewrite operand_value_mod by lia. apply u16_small.
    pose proof (Z.mod_pos_bound (ins / 2 ^ sh) (2 ^ b)).
    assert (2 ^ b <= 2 ^ 16) by (apply Z.pow_le_mono_r; lia). lia. }
  rewrite Ev. pose proof (Z.mod_pos_bound (ins / 2 ^ sh) (2 ^ b)) as Bv.
  assert (forall x, x <> 0 -> truth x = true) as Ht
    by (intros x Hx; unfold truth; by apply negb_true_iff, Z.eqb_neq).
  split; [done|split; [|split]].
  - intros Hf. assert (b <= 4) as Hb.
    { apply Z.leb_le. apply (implb_elim _ _ Hreg).
      destruct Hf as [Hf|Hf]; rewrite (Ht _ Hf); [done|by rewrite orb_true_r]. }
    assert (2 ^ b <= 2 ^ 4) by (apply Z.pow_le_mono_r; lia). lia.
  - intros Hf. assert (b <= 1) as Hb by (apply Z.leb_le, (implb_elim _ _ Hacc), Ht, Hf).
    assert (2 ^ b <= 2 ^ 1) by (apply Z.pow_le_mono_r; lia). lia.
  - intros Hf. pose proof (implb_elim _ _ Hev (Ht _ Hf)) as Hbit.
    apply andb_prop in Hbit as [Hmb Hob%negb_true_iff].
    rewrite <- Z.negb_odd, <- Z.bit0_odd, Z.mod_pow2_bits_low, Z.div_pow2_bits, Z.add_0_l by lia.
    by rewrite (match_testbit _ _ _ _ Hm Hmb), Hob.
Qed.

(** [get_operands] puts in [OP[i]] the bits that operand [i] names, and nothing
    but [OP] and the PSW kept for tracing changes; for a word that the entry
    matches, register and control register numbers are below 16, accumulator
    numbers below 2, and the first register of a pair is even, so that no
    instruction indexes past a register array. *)
Theorem get_operands_spec o ins s :
  In o real_simops -> hash_matches ins (so_is_long o) (entry_of o) = true ->
  length (OP s) = 4%nat ->
  exists s', get_operands o ins s = Ret tt s' /\
    s' = set_trace_psw (PSW s) (set_OP (OP s') s) /\
    forall i, 0 <= i < so_numops o ->
      let sh := znth (so_operands o) (3 * i) in
      let b := znth (so_operands o) (3 * i + 1) in
      let fl := znth (so_operands o) (3 * i + 2) in
      op s' i = (ins / 2 ^ sh) mod 2 ^ b /\
      (Z.land fl OPERAND_GPR <> 0 \/ Z.land fl OPERAND_CONTROL <> 0 -> op s' i < 16) /\
      (Z.land fl OPERAND_ACC0 <> 0 -> op s' i < 2) /\
      (Z.land fl OPERAND_EVEN <> 0 -> Z.even (op s' i) = true).
Proof. apply get_operands_run. Qed.

(** ** Encoding *)

(** The fields of an instruction: the shift and the width of each operand *)
Fixpoint fields (l : list Z) : list (Z * Z) :=
  match l with sh :: b :: _ :: l' => (sh, b) :: fields l' | _ => [] end.
Definition so_fields (o : simops) : list (Z * Z) := fields (so_operands o).
Definition field_mask (f : Z * Z) : Z := Z.shiftl (Z.ones f.2) f.1.

(** The word of an instruction with given operand values *)
Definition encode (o : simops) (vals : list Z) : Z :=
  fold_right Z.lor (so_opcode o) (zip_with (fun f v => Z.shiftl v f.1) (so_fields o) vals).
(** The values fit their fields, and agree with the bits of a field that the opcode
    fixes (an even register number, or r15). *)
Definition encodable (o : simops) (vals : list Z) : Prop :=
  Forall2 (fun f v => 0 <= v < 2 ^ f.2 /\
    Z.land (Z.shiftl v f.1) (so_mask o) = Z.land (so_opcode o) (field_mask f)) (so_fields o) vals.

Fixpoint disjoint_fields (l : list (Z * Z)) : bool :=
  match l with
  | [] => true
  | f :: l' => forallb (fun g => Z.land (field_mask f) (field_mask g) =? 0) l' && disjoint_fields l'
  end.
Definition fields_ok (o : simops) : bool :=
  disjoint_fields (so_fields o) && (Z.land (so_opcode o) (so_mask o) =? so_opcode o)
  && (Z.of_nat (length (so_fields o)) =? so_numops o)
  && forallb (fun f => (0 <=? f.1) && (1 <=? f.2) && (f.2 <=? 16)) (so_fields o).
Lemma all_fields_ok : forallb fields_ok real_simops = true.
Proof. vm_compute. reflexivity. Qed.

Lemma field_mask_bit f k : 0 <= f.1 -> 0 <= f.2 -> 0 <= k ->
  Z.testbit (field_mask f) k = (f.1 <=? k) && (k <? f.1 + f.2).
Proof.
  intros Hs Hb Hk. unfold field_mask. rewrite Z.shiftl_spec by done.
  destruct (Z.leb_spec f.1 k); simpl.
  - rewrite Z.testbit_ones by lia. destruct (Z.leb_spec 0 (k - f.1)); [|lia]. simpl.
    destruct (Z.ltb_spec (k - f.1) f.2), (Z.ltb_spec k (f.1 + f.2)); done || lia.
  - apply Z.testbit_neg_r. lia.
Qed.
(** A value's bits are in its field. *)
Lemma value_bit f v k : 0 <= f.1 -> 0 <= f.2 -> 0 <= v < 2 ^ f.2 -> 0 <= k ->
  Z.testbit (Z.shiftl v f.1) k = true -> Z.testbit (field_mask f) k = true.
Proof.
  intros Hs Hb Hv Hk E. rewrite field_mask_bit by done. rewrite Z.shiftl_spec in E by done.
  destruct (Z.leb_spec f.1 k); simpl; [|by rewrite Z.testbit_neg_r in E by lia].
  apply Z.ltb_lt. destruct (Z.lt_ge_cases k (f.1 + f.2)); [done|].
  by rewrite (testbit_high v f.2) in E by lia.
Qed.

Lemma encode_bit o l vals k : 0 <= k ->
  Z.testbit (fold_right Z.lor (so_opcode o) (zip_with (fun f v => Z.shiftl v f.1) l vals)) k =
  Z.testbit (so_opcode o) k ||
  existsb (fun p : Z * Z * Z => Z.testbit (Z.shiftl p.2 (fst p.1)) k) (zip l vals).
Proof.
  intros Hk. revert vals. induction l as [|f l IH]; intros [|v vals]; simpl;
    rewrite ?orb_false_r; try done.
  rewrite Z.lor_spec, IH. destruct (Z.testbit (Z.shiftl v f.1) k); [by rewrite orb_true_r|done].
Qed.
Lemma disjoint_fields_lookup l : disjoint_fields l = true ->
  forall i j f g, l !! i = Some f -> l !! j = Some g -> i <> j -> Z.land (field_mask f) (field_mask g) = 0.
Proof.
  induction l as [|h l IH]; intros Hd i j f g Hi Hj Hne; [done|].
  simpl in Hd. apply andb_prop in Hd as [Hh Hd]. rewrite forallb_forall in Hh.
  assert (forall n x, l !! n = Some x -> Z.land (field_mask h) (field_mask x) = 0) as Hl.
  { intros n x Hn. by apply Z.eqb_eq, Hh, list_elem_of_In, list_elem_of_lookup_2 with n. }
  destruct i as [|i], j as [|j]; simpl in *; [done|..].
  - injection Hi as <-. by apply (Hl j).
  - injection Hj as <-. rewrite Z.land_comm. by apply (Hl i).
  - apply (IH Hd i j); [done..|congruence].
Qed.

Section Encode.
Context (o : simops) (vals : list Z) (Hin : In o real_simops) (Hv : encodable o vals).

Lemma encode_fields_ok :
  disjoint_fields (so_fields o) = true /\ Z.land (so_opcode o) (so_mask o) = so_opcode o /\
  Z.of_nat (length (so_fields o)) = so_numops o /\
  forall f, In f (so_fields o) -> 0 <= f.1 /\ 1 <= f.2 <= 16.
Proof.
  pose proof all_fields_ok as H. rewrite forallb_forall in H. specialize (H o Hin). unfold fields_ok in H.
  apply andb_prop in H as [[[Hd Hm%Z.eqb_eq]%andb_prop Hn%Z.eqb_eq]%andb_prop Hf].
  split; [done|split; [done|split; [done|]]]. intros f Hi. rewrite forallb_forall in Hf.
  specialize (Hf f Hi). apply andb_prop in Hf as [[?%Z.leb_le ?%Z.leb_le]%andb_prop ?%Z.leb_le]. lia.
Qed.

(** Where the bits of an encoded word come from *)
Lemma encoded_bit k : 0 <= k ->
  Z.testbit (encode o vals) k = true <->
  Z.testbit (so_opcode o) k = true \/
  exists i f v, so_fields o !! i = Some f /\ vals !! i = Some v /\ Z.testbit (Z.shiftl v f.1) k = true.
Proof.
  intros Hk. unfold encode. rewrite encode_bit, orb_true_iff, existsb_exists by done.
  split; (intros [H|H]; [by left|right]).
  - destruct H as ([f v] & Hi & Hb). apply list_elem_of_In, list_elem_of_lookup in Hi as [i Hi].
    apply lookup_zip_Some in Hi as [? ?]. by exists i, f, v.
  - destruct H as (i & f & v & Hf & Hvi & Hb). exists (f, v). split; [|done].
    apply list_elem_of_In, list_elem_of_lookup. exists i. by apply lookup_zip_Some.
Qed.

Lemma encodable_lookup i f v :
  so_fields o !! i = Some f -> vals !! i = Some v ->
  0 <= f.1 /\ 1 <= f.2 <= 16 /\ 0 <= v < 2 ^ f.2 /\
  forall k, 0 <= k ->
    Z.testbit (Z.shiftl v f.1) k && Z.testbit (so_mask o) k = Z.testbit (so_opcode o) k && Z.testbit (field_mask f) k.
Proof.
  intros Hf Hi. destruct (Forall2_lookup_lr _ _ _ _ _ _ Hv Hf Hi) as [Hr Ha].
  destruct encode_fields_ok as (_ & _ & _ & Hs).
  destruct (Hs f) as [? ?]; [by apply list_elem_of_In, list_elem_of_lookup_2 with i|].
  split; [done|split; [done|split; [done|]]]. intros k Hk. by rewrite <- !Z.land_spec, Ha.
Qed.

Lemma encode_matches : hash_matches (encode o vals) (so_is_long o) (entry_of o) = true.
Proof.
  unfold hash_matches. simpl. rewrite Z.eqb_refl, andb_true_r. apply Z.eqb_eq.
  destruct encode_fields_ok as (_ & Hm & _ & _). apply Z.bits_inj'. intros k Hk.
  rewrite Z.land_spec. apply eq_true_iff_eq. rewrite andb_true_iff, encoded_bit by done.
  split; [intros [[H|(i & f & v & Hf & Hi & Hb)] Hmk]|intros H].
  - done.
  - destruct (encodable_lookup i f v Hf Hi) as (_ & _ & _ & H). specialize (H k Hk).
    rewrite Hb, Hmk in H. symmetry in H. by apply andb_true_iff in H as [? _].
  - split; [by left|]. rewrite <- Hm, Z.land_spec in H. by apply andb_true_iff in H as [_ ?].
Qed.

Lemma encode_field i f v :
  so_fields o !! i = Some f -> vals !! i = Some v -> (encode o vals / 2 ^ f.1) mod 2 ^ f.2 = v.
Proof.
  intros Hf Hi. destruct (encodable_lookup i f v Hf Hi) as (Hs & Hb & Hr & Ha).
  destruct encode_fields_ok as (Hd & Hm & _ & _).
  apply Z.bits_inj'. intros k Hk. destruct (Z.lt_ge_cases k f.2) as [Hlt|Hge].
  2: { rewrite Z.mod_pow2_bits_high by lia. by rewrite (testbit_high v f.2) by lia. }
  rewrite Z.mod_pow2_bits_low, Z.div_pow2_bits by lia.
  assert (Z.testbit v k = Z.testbit (Z.shiftl v f.1) (k + f.1)) as ->
    by (rewrite Z.shiftl_spec by lia; f_equal; lia).
  assert (Z.testbit (field_mask f) (k + f.1) = true) as Hfm.
  { rewrite field_mask_bit by lia. destruct (Z.leb_spec f.1 (k + f.1)), (Z.ltb_spec (k + f.1) (f.1 + f.2)); done || lia. }
  apply eq_true_iff_eq. rewrite encoded_bit by lia. split; [|intros H; right; by exists i, f, v].
  intros [H|(j & g & w & Hg & Hj & Hw)].
  - specialize (Ha (k + f.1) ltac:(lia)). rewrite H, Hfm in Ha. by apply andb_true_iff in Ha as [? _].
  - destruct (decide (i = j)) as [->|Hne]; [congruence|]. exfalso.
    pose proof (disjoint_fields_lookup _ Hd i j f g Hf Hg Hne) as H0.
    destruct (encodable_lookup j g w Hg Hj) as (? & ? & ? & _).
    assert (Z.testbit (Z.land (field_mask f) (field_mask g)) (k + f.1) = true) as Hbit.
    { rewrite Z.land_spec, Hfm. by rewrite (value_bit g w) by (done || lia). }
    by rewrite H0, Z.bits_0 in Hbit.
Qed.
End Encode.

Lemma fields_lookup l : forall i f, fields l !! i = Some f ->
  f = (znth l (3 * Z.of_nat i), znth l (3 * Z.of_nat i + 1)).
Proof.
  assert (forall n l, (length l <= n)%nat -> forall i f, fields l !! i = Some f ->
    f = (nth (3 * i) l 0, nth (3 * i + 1) l 0)) as H.
  { induction n as [|n IH]; intros [|x [|y [|z k]]] Hl i f Hf; try done; [simpl in Hl; lia|].
    destruct i as [|i]; [by injection Hf as <-|]. simpl in Hl.
    rewrite (IH k ltac:(lia) i f Hf). by replace (3 * S i)%nat with (3 + 3 * i)%nat by lia. }
  intros i f Hf. rewrite (H (length l) l ltac:(lia) i f Hf). unfold znth. f_equal; f_equal; lia.
Qed.

Lemma find_first {A} (p : A -> bool) l x j h :
  find p l = Some h -> l !! j = Some x -> p x = true -> exists i, (i <= j)%nat /\ l !! i = Some h.
Proof.
  revert j. induction l as [|y l IH]; intros j Hf Hj Hp; simpl in *; [done|].
  destruct (p y) eqn:Ey; [exists 0%nat; split; [lia|by injection Hf as ->]|].
  destruct j as [|j]; [injection Hj as ->; congruence|].
  destruct (IH j Hf Hj Hp) as (i & Hi & E). exists (S i). split; [lia|done].
Qed.

(** The first entry that matches a word that the entry of [o] matches *)
Lemma lookup_first o ins s :
  In o real_simops -> hash_matches ins (so_is_long o) (entry_of o) = true ->
  exists h, lookup_hash ins (so_is_long o) s = Ret h s /\
    (he_opcode h = so_opcode o \/ store_pair (he_opcode h) (so_opcode o) = true).
Proof.
  intros Hin Hm. rewrite lookup_hash_run. unfold lookup_spec.
  assert (In (entry_of o) linear_table) as Hi by (by apply in_map).
  destruct (find (hash_matches ins (so_is_long o)) linear_table) as [h|] eqn:E.
  2: { exfalso. by rewrite (find_none _ _ E _ Hi) in Hm. }
  exists h. split; [done|]. destruct (find_some _ _ E) as [Hh Hhm].
  apply list_elem_of_In, list_elem_of_lookup in Hi as [j Hj].
  destruct (find_first _ _ _ _ _ E Hj Hm) as (i & Hij & Ei).
  destruct (decide (i = j)) as [->|Hne]; [left; rewrite Hj in Ei; by injection Ei as <-|].
  destruct (table_unambiguous ins (so_is_long o) i j h (entry_of o)) as [?|[[E1 E2]|[E1 E2]]];
    try done; [lia|by left|right..]; simpl in E2; unfold store_pair; by rewrite E1, E2.
Qed.

(** C19: Decoding inverts encoding, for every instruction of the table: a word made of
    the opcode and operand values that fit their fields is looked up to that
    instruction (the pre-decrement stores come before the post-decrement ones of
    r15), and [get_operands] gives the values back. *)
Theorem encode_decode o vals s :
  In o real_simops -> encodable o vals -> length (OP s) = 4%nat ->
  let ins := encode o vals in
  (exists h, lookup_hash ins (so_is_long o) s = Ret h s /\
     (he_opcode h = so_opcode o \/ store_pair (he_opcode h) (so_opcode o) = true)) /\
  exists s', get_operands o ins s = Ret tt s' /\
    forall i v, vals !! i = Some v -> op s' (Z.of_nat i) = v.
Proof.
  intros Hin Hv Hl ins. pose proof (encode_matches o vals Hin Hv) as Hm.
  split; [by apply lookup_first|].
  destruct (get_operands_run o ins s Hin Hm Hl) as (s' & E & _ & Hop).
  exists s'. split; [done|]. intros i v Hi.
  destruct (encode_fields_ok o Hin) as (_ & _ & Hn & _).
  destruct (Forall2_lookup_r _ _ _ _ _ Hv Hi) as (f & Hf & _).
  destruct (Hop (Z.of_nat i)) as [Ei _]; [pose proof (lookup_lt_Some _ _ _ Hf); lia|].
  pose proof (encode_field o vals Hin Hv i f v Hf Hi) as Ev.
  rewrite (fields_lookup _ i f Hf) in Ev. cbn [fst snd] in Ev. by rewrite Ei.
Qed.

(** ** Witnesses *)

(** [st r0, @-sp] is also a word of [st r0, @sp-]. *)
Definition st_predec : hash_entry := nth 132 linear_table empty_entry.
Definition st_postdec : hash_entry := nth 134 linear_table empty_entry.
Lemma decode_unambiguous_witness :
  hash_matches 0x6c1f 0 st_predec = true /\ hash_matches 0x6c1f 0 st_postdec = true /\
  (he_opcode st_predec = he_opcode st_postdec \/
   (he_opcode st_predec = 0x6c1f /\ he_opcode st_postdec = 0x6c01) \/
   (he_opcode st_predec = 0x6e1f /\ he_opcode st_postdec = 0x6e01)).
Proof.
  split; [reflexivity|split; [reflexivity|]].
  apply (decode_unambiguous 0x6c1f 0 132 134 st_predec st_postdec);
    solve [vm_compute; reflexivity|lia].
Defined.

(** [add2w r4, r6] *)
Definition add2w_op : simops := nth 5 real_simops (Simop 0 0 0 0 0 0 0 None 0 []).
Lemma get_operands_spec_witness :
  exists s', get_operands add2w_op 0x128c zero_state = Ret tt s' /\ Z.even (op s' 0) = true.
Proof.
  destruct (get_operands_spec add2w_op 0x128c zero_state) as (s' & E & _ & H).
  - apply nth_In. vm_compute. lia.
  - vm_compute. reflexivity.
  - reflexivity.
  - exists s'. split; [exact E|]. apply (H 0); [vm_compute; split; congruence|].
    vm_compute. discriminate.
Defined.

(** The same instruction, from its operands *)
Lemma encode_decode_witness :
  encode add2w_op [4; 6] = 0x128c /\
  exists s', get_operands add2w_op 0x128c zero_state = Ret tt s' /\ op s' 0 = 4 /\ op s' 1 = 6.
Proof.
  split; [vm_compute; reflexivity|].
  destruct (encode_decode add2w_op [4; 6] zero_state) as (_ & s' & E & H).
  - apply nth_In. vm_compute. lia.
  - repeat constructor; vm_compute; congruence.
  - reflexivity.
  - exists s'. split; [exact E|]. split; [by apply (H 0%nat)|by apply (H 1%nat)].
Defined.
