(* ===== verification/MemProps.v ===== *)
(** * Properties of the simulated memories

    Pointers as cells of one memory, the big-endian accesses of endian.c, the
    address translation against a functional specification, and the debugger's
    transfers. *)
From S2P Require Import Prelude CInt Opcodes State Memory Cregs.
From S2P Require Import SimopsAlu SimopsAcc SimopsFlow SimopsMem SimopsTrap Interp Logic OpRules.
From S2P Require Import Machine.

(** ** Cells *)

(** The pointers C gives a meaning are those of the allocated blocks: a store
    changes one cell, and no block appears or goes. *)
Lemma ptr_ok_set s p v q : ptr_ok (ptr_set p v s) q = ptr_ok s q.
Proof.
  unfold ptr_ok, ptr_block, ptr_set. destruct p as [o|o|g o|o], q as [o'|o'|g' o'|o']; simpl; try done.
  - by destruct (imem s).
  - by destruct (dmem s).
  - destruct (decide (g = g')) as [->|Hne].
    + rewrite lookup_alter_eq. by destruct (umem s !! g').
    + by rewrite lookup_alter_ne by done.
Qed.

Lemma ptr_get_set_eq s p v : ptr_ok s p = true -> ptr_get (ptr_set p v s) p = v.
Proof.
  unfold ptr_ok, ptr_get, ptr_block, ptr_set. destruct p as [o|o|g o|o]; simpl; [| | |done].
  - destruct (imem s); simpl; [|done]. by rewrite lookup_insert_eq.
  - destruct (dmem s); simpl; [|done]. by rewrite lookup_insert_eq.
  - rewrite lookup_alter_eq. destruct (umem s !! g); simpl; [|done]. by rewrite lookup_insert_eq.
Qed.

Lemma ptr_get_set_ne s p v q : q <> p -> ptr_get (ptr_set p v s) q = ptr_get s q.
Proof.
  unfold ptr_get, ptr_block, ptr_set. intros Hne.
  destruct p as [o|o|g o|o], q as [o'|o'|g' o'|o']; simpl; try done.
  - destruct (imem s); simpl; [|done]. by rewrite lookup_insert_ne by congruence.
  - destruct (dmem s); simpl; [|done]. by rewrite lookup_insert_ne by congruence.
  - destruct (decide (g = g')) as [->|Hg]; [|by rewrite lookup_alter_ne by done].
    rewrite lookup_alter_eq. destruct (umem s !! g'); simpl; [|done].
    by rewrite lookup_insert_ne by congruence.
Qed.

Lemma store_byte_Ret p v s x s' :
  store_byte p v s = Ret x s' <-> ptr_ok s p = true /\ s' = ptr_set p (u8 v) s.
Proof.
  unfold store_byte. destruct x, (ptr_ok s p); (split; [by intros [= <-]|]); [|by intros []].
  by intros [_ ->].
Qed.
Lemma store_byte_ok p v s : ptr_ok s p = true -> store_byte p v s = Ret tt (ptr_set p (u8 v) s).
Proof. intros. by apply store_byte_Ret. Qed.
Lemma load_byte_ok p s : ptr_ok s p = true -> load_byte p s = Ret (ptr_get s p) s.
Proof. unfold load_byte. by intros ->. Qed.

Lemma ptr_add_add p m n : ptr_add (ptr_add p m) n = ptr_add p (m + n).
Proof. destruct p; simpl; f_equal; lia. Qed.
Lemma ptr_add_0 p : ptr_add p 0 = p.
Proof. destruct p; simpl; f_equal; lia. Qed.
Lemma ptr_add_inj p m n : ptr_add p m = ptr_add p n -> m = n.
Proof. destruct p; simpl; intros [=]; lia. Qed.
Lemma ptr_add_ne p m n : m <> n -> ptr_add p m <> ptr_add p n.
Proof. intros H E. by apply H, (ptr_add_inj p). Qed.

(** ** Sequences of bytes *)

Definition byte_at (s : state) (p : ptr) (i : Z) : Z := ptr_get s (ptr_add p i).
Definition bytes_in (s : state) (p : ptr) (n : Z) : Prop :=
  forall i, 0 <= i < n -> ptr_ok s (ptr_add p i) = true.

Lemma get_word_ok p s :
  bytes_in s p 2 ->
  get_word p s = Ret (u16 (Z.shiftl (byte_at s p 0) 8 + byte_at s p 1)) s.
Proof.
  intros H. unfold get_word, bind. rewrite <- (ptr_add_0 p) at 1.
  rewrite load_byte_ok by (apply H; lia). by rewrite load_byte_ok by (apply H; lia).
Qed.
Lemma get_longword_ok p s :
  bytes_in s p 4 ->
  get_longword p s = Ret (u32 (Z.shiftl (byte_at s p 0) 24 + Z.shiftl (byte_at s p 1) 16
                               + Z.shiftl (byte_at s p 2) 8 + byte_at s p 3)) s.
Proof.
  intros H. unfold get_longword, bind. rewrite <- (ptr_add_0 p) at 1.
  rewrite load_byte_ok by (apply H; lia). rewrite load_byte_ok by (apply H; lia).
  rewrite load_byte_ok by (apply H; lia). by rewrite load_byte_ok by (apply H; lia).
Qed.

(** What a store of [n] bytes at [p] leaves: the bytes [f 0 .. f (n-1)] at [p] and
    the rest as it was. *)
Definition stored (p : ptr) (n : Z) (f : Z -> Z) (s s' : state) : Prop :=
  (forall q, ptr_ok s' q = ptr_ok s q) /\
  (forall i, 0 <= i < n -> ptr_ok s (ptr_add p i) = true /\ byte_at s' p i = f i) /\
  (forall q, (forall i, 0 <= i < n -> q <> ptr_add p i) -> ptr_get s' q = ptr_get s q).

Lemma stored_0 p f s : stored p 0 f s s.
Proof. split; [done|split; [lia|done]]. Qed.

Lemma stored_snoc p n f v s s1 x s2 :
  0 <= n -> stored p n f s s1 -> store_byte (ptr_add p n) v s1 = Ret x s2 -> u8 v = f n ->
  stored p (n + 1) f s s2.
Proof.
  intros Hn (Hok & Hin & Hout) [Hp ->]%store_byte_Ret Hv. split; [|split].
  - intros q. by rewrite ptr_ok_set.
  - intros i Hi. unfold byte_at. destruct (Z.eq_dec i n) as [->|Hne].
    + rewrite <- Hok. split; [done|]. by rewrite ptr_get_set_eq.
    + rewrite ptr_get_set_ne by (by apply ptr_add_ne). apply Hin. lia.
  - intros q Hq. rewrite ptr_get_set_ne by (apply Hq; lia). apply Hout. intros i Hi. apply Hq. lia.
Qed.

Lemma stored_app p m n f s s1 s2 :
  0 <= m -> 0 <= n -> stored p m f s s1 -> stored (ptr_add p m) n (fun i => f (m + i)) s1 s2 ->
  stored p (m + n) f s s2.
Proof.
  intros Hm Hn (Hok & Hin & Hout) (Hok' & Hin' & Hout'). split; [|split].
  - intros q. by rewrite Hok', Hok.
  - intros i Hi. destruct (decide (i < m)) as [Hlt|Hge].
    + destruct (Hin i) as [? <-]; [lia|]. split; [done|]. apply Hout'.
      intros j Hj. rewrite ptr_add_add. apply ptr_add_ne. lia.
    + destruct (Hin' (i - m)) as [Hp Hb]; [lia|]. unfold byte_at in *.
      rewrite ptr_add_add in Hp, Hb. replace (m + (i - m)) with i in * by lia.
      by rewrite <- Hok.
  - intros q Hq. rewrite Hout', Hout; [done| |].
    + intros i Hi. apply Hq. lia.
    + intros i Hi. rewrite ptr_add_add. apply Hq. lia.
Qed.

Lemma stored_ext p n f g s s' :
  (forall i, 0 <= i < n -> f i = g i) -> stored p n f s s' -> stored p n g s s'.
Proof.
  intros E (? & Hin & ?). split; [done|split; [|done]]. intros i Hi.
  destruct (Hin i Hi). rewrite <- E; auto.
Qed.

(** Byte [i] of the big-endian form of [v] in [n] bytes. *)
Definition be_byte (n v i : Z) : Z := (v / 2 ^ (8 * (n - 1 - i))) mod 2 ^ 8.

Lemma u8_byte v k : 0 <= k -> u8 (Z.land (Z.shiftr v k) 0xff) = (v / 2 ^ k) mod 2 ^ 8.
Proof.
  intros Hk. unfold u8. change 0xff with (Z.ones 8). rewrite Z.land_ones by lia.
  by rewrite Z.mod_mod, Z.shiftr_div_pow2 by lia.
Qed.
Lemma u8_byte_0 v : u8 (Z.land v 0xff) = (v / 2 ^ 0) mod 2 ^ 8.
Proof. rewrite <- u8_byte by lia. by rewrite Z.shiftr_0_r. Qed.

Lemma bind_Ret {A B} (m : M A) (f : A -> M B) s y s' :
  bind m f s = Ret y s' -> exists x s1, m s = Ret x s1 /\ f x s1 = Ret y s'.
Proof. unfold bind. destruct (m s) as [x s1| | |]; try done. by eexists _, _. Qed.

Lemma write_word_stored p v s x s' : write_word p v s = Ret x s' -> stored p 2 (be_byte 2 v) s s'.
Proof.
  unfold write_word. intros (? & s1 & E1 & E2)%bind_Ret. rewrite <- (ptr_add_0 p) in E1.
  eapply (stored_snoc p 1); [lia|eapply (stored_snoc p 0); [lia|apply stored_0|exact E1|]|exact E2|].
  - by apply u8_byte.
  - by apply u8_byte_0.
Qed.
Lemma write_longword_stored p v s x s' :
  write_longword p v s = Ret x s' -> stored p 4 (be_byte 4 v) s s'.
Proof.
  unfold write_longword. intros (? & s1 & E1 & (? & s2 & E2 & (? & s3 & E3 & E4)%bind_Ret)%bind_Ret)%bind_Ret.
  rewrite <- (ptr_add_0 p) in E1.
  eapply (stored_snoc p 3); [lia|eapply (stored_snoc p 2); [lia|eapply (stored_snoc p 1);
    [lia|eapply (stored_snoc p 0); [lia|apply stored_0|exact E1|]|exact E2|]|exact E3|]|exact E4|].
  - by apply u8_byte.
  - by apply u8_byte.
  - by apply u8_byte.
  - by apply u8_byte_0.
Qed.
Lemma write_longlong_stored p v s x s' :
  write_longlong p v s = Ret x s' -> stored p 8 (be_byte 8 v) s s'.
Proof.
  unfold write_longlong. intros (? & s1 & E1%write_longword_stored & E2%write_longword_stored)%bind_Ret.
  assert (Hb : forall w k, 0 <= k <= 24 -> (u32 w / 2 ^ k) mod 2 ^ 8 = (w / 2 ^ k) mod 2 ^ 8).
  { intros w k Hk. unfold u32. apply Z.bits_inj'. intros i Hi.
    destruct (Z.ltb_spec i 8); [|by rewrite !Z.mod_pow2_bits_high by lia].
    rewrite !Z.mod_pow2_bits_low, !Z.div_pow2_bits by lia. apply Z.mod_pow2_bits_low. lia. }
  apply (stored_app p 4 4 _ s s1 s'); [lia|lia| |].
  - eapply stored_ext; [|exact E1]. intros i Hi. unfold be_byte.
    rewrite Hb by lia. rewrite Z.shiftr_div_pow2, Zdiv_Zdiv by lia.
    rewrite <- Z.pow_add_r by lia. do 3 f_equal. lia.
  - eapply stored_ext; [|exact E2]. intros i Hi. unfold be_byte. cbv beta.
    rewrite Hb by lia. do 3 f_equal. lia.
Qed.

(** ** Reading back *)

Lemma stored_byte p n f s s' i : stored p n f s s' -> 0 <= i < n -> byte_at s' p i = f i.
Proof. intros (_ & H & _) Hi. by apply H. Qed.
Lemma stored_bytes_in p n f s s' : stored p n f s s' -> bytes_in s' p n.
Proof. intros (Hok & H & _) i Hi. rewrite Hok. by apply H. Qed.

Lemma be_join_2 v : u16 (Z.shiftl (be_byte 2 v 0) 8 + be_byte 2 v 1) = u16 v.
Proof. unfold u16, be_byte. rewrite Z.shiftl_mul_pow2 by lia. simpl. zdml. Qed.
Lemma be_join_4 v :
  u32 (Z.shiftl (be_byte 4 v 0) 24 + Z.shiftl (be_byte 4 v 1) 16 + Z.shiftl (be_byte 4 v 2) 8
       + be_byte 4 v 3) = u32 v.
Proof. unfold u32, be_byte. rewrite !Z.shiftl_mul_pow2 by lia. simpl. zdml. Qed.

Lemma read_back_word p v s s' :
  stored p 2 (be_byte 2 v) s s' -> get_word p s' = Ret (u16 v) s'.
Proof.
  intros H. rewrite get_word_ok by (by eapply stored_bytes_in).
  rewrite !(stored_byte _ _ _ _ _ _ H) by lia. by rewrite be_join_2.
Qed.
Lemma read_back_longword p v s s' :
  stored p 4 (be_byte 4 v) s s' -> get_longword p s' = Ret (u32 v) s'.
Proof.
  intros H. rewrite get_longword_ok by (by eapply stored_bytes_in).
  rewrite !(stored_byte _ _ _ _ _ _ H) by lia. by rewrite be_join_4.
Qed.

Lemma be_byte_8_hi v i : 0 <= i < 4 -> be_byte 8 v i = be_byte 4 (v / 2 ^ 32) i.
Proof.
  intros Hi. unfold be_byte. rewrite Zdiv_Zdiv by lia. rewrite <- Z.pow_add_r by lia.
  do 3 f_equal. lia.
Qed.
Lemma be_byte_8_lo v i : be_byte 8 v (4 + i) = be_byte 4 v i.
Proof. unfold be_byte. do 3 f_equal. lia. Qed.

Lemma read_back_longlong p v s s' :
  stored p 8 (be_byte 8 v) s s' -> get_longlong p s' = Ret (s64 v) s'.
Proof.
  intros H. unfold get_longlong, bind. pose proof (stored_bytes_in _ _ _ _ _ H) as Hin.
  rewrite get_longword_ok by (intros i Hi; apply Hin; lia).
  rewrite get_longword_ok by (intros i Hi; rewrite ptr_add_add; apply Hin; lia).
  unfold byte_at. rewrite !ptr_add_add.
  do 8 (match goal with |- context [ptr_get s' (ptr_add p ?k)] =>
    change (ptr_get s' (ptr_add p k)) with (byte_at s' p k) end).
  rewrite !(stored_byte _ _ _ _ _ _ H) by lia.
  rewrite !be_byte_8_hi by lia. rewrite !be_byte_8_lo, !be_join_4.
  rewrite join_halves by apply u32_range. unfold ret. f_equal.
  apply wrap_signed_congr; [lia|]. unfold u32. zdml.
Qed.

(** Stores inside a block succeed. *)
Lemma store_byte_in p n i v s :
  bytes_in s p n -> 0 <= i < n -> exists s', store_byte (ptr_add p i) v s = Ret tt s' /\ bytes_in s' p n.
Proof.
  intros Hin Hi. rewrite store_byte_ok by (by apply Hin). eexists. split; [reflexivity|].
  intros j Hj. rewrite ptr_ok_set. by apply Hin.
Qed.
Lemma write_longword_in p n i v s :
  bytes_in s p n -> 0 <= i -> i + 4 <= n ->
  exists s', write_longword (ptr_add p i) v s = Ret tt s' /\ bytes_in s' p n.
Proof.
  intros Hin Hi Hn. unfold write_longword, bind. rewrite !ptr_add_add.
  destruct (store_byte_in p n i (Z.land (Z.shiftr v 24) 0xff) s Hin) as (s1 & -> & H1); [lia|].
  destruct (store_byte_in p n (i + 1) (Z.land (Z.shiftr v 16) 0xff) s1 H1) as (s2 & -> & H2); [lia|].
  destruct (store_byte_in p n (i + 2) (Z.land (Z.shiftr v 8) 0xff) s2 H2) as (s3 & -> & H3); [lia|].
  destruct (store_byte_in p n (i + 3) (Z.land v 0xff) s3 H3) as (s4 & -> & H4); [lia|].
  by exists s4.
Qed.
Lemma write_word_in p v s : bytes_in s p 2 -> exists s', write_word p v s = Ret tt s'.
Proof.
  intros Hin. unfold write_word, bind.
  destruct (store_byte_in p 2 0 (Z.land (Z.shiftr v 8) 0xff) s Hin) as (s1 & E1 & H1); [lia|].
  rewrite ptr_add_0 in E1. rewrite E1.
  destruct (store_byte_in p 2 1 (Z.land v 0xff) s1 H1) as (s2 & -> & _); [lia|]. by exists s2.
Qed.

(** The big-endian accesses of endian.c are inverse to each other: a store of 16,
    32 or 64 bits whose bytes are inside a memory block succeeds, and what it stored
    is read back, truncated to that width. *)
Theorem endian_roundtrip p v s :
  (bytes_in s p 2 -> exists s', write_word p v s = Ret tt s' /\ get_word p s' = Ret (u16 v) s') /\
  (bytes_in s p 4 -> exists s', write_longword p v s = Ret tt s' /\ get_longword p s' = Ret (u32 v) s') /\
  (bytes_in s p 8 -> exists s', write_longlong p v s = Ret tt s' /\ get_longlong p s' = Ret (s64 v) s').
Proof.
  split; [|split]; intros Hin.
  - destruct (write_word_in p v s Hin) as [s' E]. exists s'. split; [done|].
    by eapply read_back_word, write_word_stored.
  - destruct (write_longword_in p 4 0 v s Hin) as (s' & E & _); [lia..|]. rewrite ptr_add_0 in E.
    exists s'. split; [done|]. by eapply read_back_longword, write_longword_stored.
  - assert (exists s', write_longlong p v s = Ret tt s') as [s' E].
    { unfold write_longlong, bind.
      match goal with |- context [write_longword p ?w s] =>
        destruct (write_longword_in p 8 0 w s Hin) as (s1 & E1 & H1); [lia..|] end.
      rewrite ptr_add_0 in E1. rewrite E1.
      match goal with |- context [write_longword (ptr_add p 4) ?w s1] =>
        destruct (write_longword_in p 8 4 w s1 H1) as (s2 & -> & _); [lia..|] end. by exists s2. }
    exists s'. split; [done|]. by eapply read_back_longlong, write_longlong_stored.
Qed.

(** ** Address translation *)

(** The register [DMAP], as the program sees it. *)
Definition word_at (s : state) (p : ptr) : Z :=
  u16 (Z.shiftl (byte_at s p 0) 8 + byte_at s p 1).
Definition dmap (s : state) : Z := word_at s (P_dmem 0xff04).

(** The translation of a data address: on-chip memory, except for the 16K window at
    0x8000, which shows the part of instruction memory or of unified memory that
    [DMAP] selects. *)
Definition translate (s : state) (addr : Z) : ptr :=
  let x := addr mod 2 ^ 16 in
  if (0x8000 <=? x) && (x <? 0xc000) then
    if Z.testbit (dmap s) 12 then P_imem (dmap s mod 16 * 0x4000 + (x - 0x8000))
    else P_umem (dmap s mod 1024 / 8) (dmap s mod 8 * 0x4000 + (x - 0x8000))
  else P_dmem x.
(** The I/O page, but for the mapping registers, is not simulated. *)
Definition in_io (addr : Z) : bool :=
  let x := addr mod 2 ^ 16 in (0xc000 <=? x) && negb ((0xff00 <=? x) && (x <? 0xff10)).

Lemma dmap_range s : 0 <= dmap s < 2 ^ 16.
Proof. apply u16_range. Qed.

Lemma dmap_get s : (exists b, dmem s = Some b) -> get_word (P_dmem 0xff04) s = Ret (dmap s) s.
Proof.
  intros [b E]. apply get_word_ok. intros i Hi.
  assert (i = 0 \/ i = 1) as [-> | ->] by lia; unfold ptr_ok, ptr_block; simpl; by rewrite E.
Qed.

Lemma io_mask x : 0 <= x < 2 ^ 16 ->
  (Z.land x 0xfff0 =? 0xff00) = (0xff00 <=? x) && (x <? 0xff10).
Proof.
  intros Hx. change 0xfff0 with (Z.shiftl (Z.ones 12) 4). rewrite land_field by lia.
  destruct (Z.eqb_spec (x / 2 ^ 4 mod 2 ^ 12 * 2 ^ 4) 0xff00), (Z.leb_spec 0xff00 x),
    (Z.ltb_spec x 0xff10); simpl; try done; exfalso; zdml.
Qed.

(** Where the translation points is inside the block it points to. *)
Lemma translate_in_block s addr :
  wf s ->
  (forall seg off, translate s addr = P_umem seg off -> exists b, umem s !! seg = Some b) ->
  ptr_ok s (translate s addr) = true.
Proof.
  intros Hs. destruct (wf_imem s Hs) as (bi & Ei & _), (wf_dmem s Hs) as (bd & Ed & _).
  unfold translate. cbv zeta. pose proof (Z.mod_pos_bound addr (2 ^ 16)) as Hx.
  pose proof (dmap_range s) as Hd. intros Hu. revert Hu.
  set (x := addr mod 2 ^ 16) in *. set (d := dmap s) in *.
  assert (forall off sz, 0 <= off < sz -> (0 <=? off) && (off <? sz) = true) as Hb.
  { intros off sz Ho. apply andb_true_intro. split; [apply Z.leb_le|apply Z.ltb_lt]; lia. }
  destruct (Z.leb_spec 0x8000 x), (Z.ltb_spec x 0xc000); cbn [andb];
    try (intros _; unfold ptr_ok, ptr_block; rewrite Ed; apply Hb; unfold DMEM_SIZE; lia).
  destruct (Z.testbit d 12); intros Hu.
  - unfold ptr_ok, ptr_block. rewrite Ei. apply Hb. unfold IMEM_SIZE. zdml.
  - destruct (Hu _ _ eq_refl) as [b E]. unfold ptr_ok, ptr_block. rewrite E. apply Hb. unfold UMEM_SIZE. zdml.
Qed.

(** [s'] is [s] but for what a translation may do: print, allocate zeroed memory,
    and note an exception. *)
Definition same_memory (s s' : state) : Prop :=
  (forall q, ptr_get s' q = ptr_get s q) /\ imem s' = imem s /\ dmem s' = dmem s /\
  (forall seg, is_Some (umem s !! seg) -> is_Some (umem s' !! seg)).

Lemma decode_pc_run s :
  exists s', decode_pc s = Ret (u32 (Z.shiftl (PC s) 2 + text_start s')) s' /\
    same_memory s s' /\ exception s' = exception s /\ umem s' = umem s.
Proof.
  unfold decode_pc, bind, modify, get, ret.
  destruct (prog_bfd s) as [secs|].
  2: { eexists. split; [reflexivity|]. done. }
  destruct (init_text_p s).
  { eexists. split; [reflexivity|]. done. }
  cbv zeta. destruct (find _ secs); eexists; (split; [reflexivity|]); done.
Qed.

Lemma truth_land_bit x n : 0 <= n -> truth (Z.land x (2 ^ n)) = Z.testbit x n.
Proof. intros. unfold truth. rewrite land_bit_eqb by done. apply negb_involutive. Qed.

Lemma dmap_same s s' : same_memory s s' -> dmap s' = dmap s.
Proof. intros (H & _). unfold dmap, word_at, byte_at. by rewrite !H. Qed.

Section Translate.
Context `{Host}.

(** The part of [dmem_addr] that makes sure the segment is there. *)
Lemma umem_alloc seg s :
  (forall s, host_calloc s seg = true) ->
  exists s' b,
    (match umem s !! seg with
     | Some _ => skip
     | None =>
         printf_filtered "Allocating %d bytes unified memory to region %d\n"
                         [Z.shiftl 1 UMEM_SIZE; seg] ;;
         calloc_umem seg ;;
         s <- get ;;
         match umem s !! seg with
         | Some _ => skip
         | None =>
             pc <- decode_pc ;;
             printf_filtered "ERROR:  alloc failed. unified memory region %d unmapped, pc = 0x%lx\n"
                             [seg; pc] ;;
             modify (set_exception SIGBUS)
         end
     end) s = Ret tt s' /\
    umem s' !! seg = Some b /\ same_memory s s' /\ exception s' = exception s.
Proof.
  intros Hc. destruct (umem s !! seg) as [b|] eqn:E; [by exists s, b|].
  cbv beta iota delta [bind printf_filtered modify calloc_umem get skip ret]. rewrite Hc. simpl.
  rewrite lookup_insert_eq. eexists _, ∅. split; [reflexivity|]. simpl.
  split; [by rewrite lookup_insert_eq|split; [|done]].
  split; [|split; [done|split; [done|]]].
  - intros [off|off|g off|off]; try done. unfold ptr_get, ptr_block. simpl.
    destruct (decide (seg = g)) as [->|Hne].
    + rewrite lookup_insert_eq, E. simpl. by rewrite lookup_empty.
    + by rewrite lookup_insert_ne by done.
  - intros g Hg. simpl. destruct (decide (seg = g)) as [->|Hne].
    + by rewrite lookup_insert_eq.
    + by rewrite lookup_insert_ne by done.
Qed.

Lemma dmem_addr_spec_run addr s :
  wf s -> (forall s seg, host_calloc s seg = true) ->
  exists s', dmem_addr addr s = Ret (translate s addr) s' /\
    ptr_ok s' (translate s addr) = true /\ same_memory s s' /\
    exception s' = if in_io addr then SIGBUS else exception s.
Proof.
  intros Hs Hc. rewrite dmem_addr_unfold. unfold dmem_addr_body. cbv zeta.
  change 0xffff with (Z.ones 16). rewrite Z.land_ones by lia.
  pose proof (translate_in_block s addr Hs) as Hok. revert Hok. unfold translate, in_io. cbv zeta.
  pose proof (Z.mod_pos_bound addr (2 ^ 16) ltac:(lia)) as Hx. set (x := addr mod 2 ^ 16) in *.
  destruct (wf_dmem s Hs) as (bd & Ed & _).
  destruct (Z.ltb_spec 0xbfff x) as [Hhi|Hhi].
  { destruct (Z.ltb_spec x 0xc000) as [?|_]; [lia|]. rewrite andb_false_r. intros Hok.
    destruct (Z.leb_spec 0xc000 x) as [_|?]; [|lia]. rewrite io_mask by done. cbn [andb].
    assert (ptr_ok s (P_dmem x) = true) as Hp by (apply Hok; congruence).
    destruct (negb ((0xff00 <=? x) && (x <? 0xff10))); [|by eexists].
    destruct (decode_pc_run s) as (s1 & E & Hm & He & Hu). unfold bind at 1 2. rewrite E.
    eexists. split; [reflexivity|]. destruct Hm as (Hq & Hi & Hd & Hum).
    split; [|done]. revert Hp. unfold ptr_ok, ptr_block. simpl. by rewrite Hd. }
  destruct (Z.ltb_spec 0x7fff x) as [Hlo|Hlo].
  2: { destruct (Z.leb_spec 0x8000 x) as [?|_]; [lia|]. destruct (Z.leb_spec 0xc000 x); [lia|].
       cbn [andb]. intros Hok. exists s. split; [done|].
       split; [apply Hok; congruence|done]. }
  destruct (Z.leb_spec 0x8000 x) as [_|?]; [|lia]. destruct (Z.ltb_spec x 0xc000) as [_|?]; [|lia].
  destruct (Z.leb_spec 0xc000 x) as [?|_]; [lia|]. cbn [andb].
  unfold bind at 1. rewrite dmap_get by eauto. change 0x1000 with (2 ^ 12).
  rewrite truth_land_bit by lia. destruct (Z.testbit (dmap s) 12); intros Hok.
  { unfold bind. rewrite dmap_get by eauto. change 0xf with (Z.ones 4). rewrite Z.land_ones by lia.
    exists s. split; [done|]. split; [apply Hok; congruence|done]. }
  unfold bind at 1. rewrite dmap_get by eauto.
  change 0x3ff with (Z.ones 10). rewrite Z.land_ones, Z.shiftr_div_pow2 by lia.
  set (seg := dmap s mod 2 ^ 10 / 2 ^ 3). destruct (umem_alloc seg s) as (s1 & b & E & Hb & Hm & He).
  { intros. apply Hc. }
  unfold bind at 1, get at 1. unfold bind at 1. rewrite E. unfold bind at 1.
  assert (dmem s1 = Some bd) as Ed1 by (destruct Hm as (_ & _ & -> & _); done).
  rewrite dmap_get by eauto. rewrite (dmap_same s s1 Hm). unfold bind, get, ret, umem_ptr. rewrite Hb.
  change 7 with (Z.ones 3). rewrite Z.land_ones by lia.
  exists s1. split; [done|]. split; [|done].
  clear Hok. unfold ptr_ok, ptr_block. change (dmap s mod 1024 / 8) with seg. rewrite Hb. simpl fmap.
  apply andb_true_intro. pose proof (dmap_range s). unfold UMEM_SIZE.
  split; [apply Z.leb_le|apply Z.ltb_lt]; zdml.
Qed.

(** C25: Data addresses are translated as [translate] says, to a cell inside its
    memory block; the translation changes no cell (a segment of unified memory
    that it allocates reads as zeros, as it did before), and reports SIGBUS for the
    addresses of the I/O page and no others.  The host's allocation is assumed to
    succeed. *)
Theorem dmem_addr_spec addr s :
  wf s -> (forall s seg, host_calloc s seg = true) ->
  exists s', dmem_addr addr s = Ret (translate s addr) s' /\
    ptr_ok s' (translate s addr) = true /\ same_memory s s' /\
    exception s' = if in_io addr then SIGBUS else exception s.
Proof. apply dmem_addr_spec_run. Qed.
End Translate.

Section Fetch.
Context `{Host}.

(** The mapping register that an instruction address selects. *)
Definition imap (s : state) (pc : Z) : Z :=
  if Z.testbit pc 17 then word_at s (P_dmem 0xff02) else word_at s (P_dmem 0xff00).

Lemma imem_addr_run pc s :
  wf s ->
  imem_addr pc s =
  (if Z.testbit (imap s pc) 12 then ret (P_imem pc)
   else if UMEM_SEGMENTS <=? Z.land (imap s pc) 0xff then undefined UB_index
   else match umem s !! Z.land (imap s pc) 0xff with
        | None => ret (P_null 0)
        | Some _ => ret (P_umem (Z.land (imap s pc) 0xff) (Z.land pc (2 ^ UMEM_SIZE - 1)))
        end) s.
Proof.
  intros Hs. unfold imem_addr. rewrite IMAP0_unfold, IMAP1_unfold.
  change 0x20000 with (2 ^ 17). rewrite truth_land_bit by lia.
  destruct (wf_dmem s Hs) as (bd & Ed & _).
  assert (forall o, 0 <= o < 0xffff -> bytes_in s (P_dmem o) 2) as Hb.
  { intros o Ho i Hi. unfold ptr_ok, ptr_block. simpl. rewrite Ed. simpl.
    apply andb_true_intro. unfold DMEM_SIZE. split; [apply Z.leb_le|apply Z.ltb_lt]; lia. }
  unfold bind at 1, imap, word_at.
  destruct (Z.testbit pc 17); rewrite get_word_ok by (apply Hb; lia); cbv zeta;
    change 0x1000 with (2 ^ 12); rewrite truth_land_bit by lia;
    (destruct (Z.testbit _ 12); [done|]); (destruct (_ <=? _); [done|]);
    unfold bind, get; by destruct (umem s !! _).
Qed.

(** C27: Fetching the instruction word at a PC either finds all four bytes inside a
    memory block, or the null pointer of an unmapped region (which ends the run with
    SIGBUS), and changes nothing; the one exception is a mapping register with bit
    12 clear and bit 7 set, where the simulator indexes past its 128 segments. *)
Theorem fetch_spec s pc :
  wf s -> 0 <= pc < 2 ^ 16 ->
  let m := imap s (pc * 4) in
  imem_addr (u32 (Z.shiftl (u32 pc) 2)) s =
    (if negb (Z.testbit m 12) && Z.testbit m 7 then Undefined UB_index s
     else if Z.testbit m 12 then Ret (P_imem (pc * 4)) s
     else match umem s !! (m mod 256) with
          | None => Ret (P_null 0) s
          | Some _ => Ret (P_umem (m mod 256) ((pc * 4) mod 2 ^ 17)) s
          end) /\
  forall p s', imem_addr (u32 (Z.shiftl (u32 pc) 2)) s = Ret p s' ->
    s' = s /\ (is_NULL p = true \/ exists inst, get_longword p s = Ret inst s).
Proof.
  intros Hs Hpc m. rewrite (u32_small pc), Z.shiftl_mul_pow2 by lia.
  change (2 ^ 2) with 4. rewrite u32_small by lia.
  rewrite imem_addr_run by done. fold m.
  assert (Z.land m 0xff = m mod 256) as -> by (change 0xff with (Z.ones 8); by apply Z.land_ones).
  assert (Z.land (pc * 4) (2 ^ UMEM_SIZE - 1) = (pc * 4) mod 2 ^ 17) as ->
    by (by apply (Z.land_ones (pc * 4) 17)).
  assert ((UMEM_SEGMENTS <=? m mod 256) = Z.testbit m 7) as ->.
  { rewrite Z.testbit_odd, Z.shiftr_div_pow2 by lia. unfold UMEM_SEGMENTS.
    change (2 ^ 7) with 128. destruct (Z.leb_spec 128 (m mod 256)).
    - replace (m / 128) with (1 + 2 * (m / 256)) by zdml. by rewrite Z.odd_add_mul_2.
    - replace (m / 128) with (0 + 2 * (m / 256)) by zdml. by rewrite Z.odd_add_mul_2. }
  destruct (wf_imem s Hs) as (bi & Ei & _).
  assert (forall b sz off, 0 <= off -> off + 4 <= sz -> forall i, 0 <= i < 4 ->
    match Some (b : block, sz, off + i) with
    | Some (_, sz, off) => (0 <=? off) && (off <? sz) | None => false end = true) as Hb.
  { intros b sz off ? ? i Hi. apply andb_true_intro. split; [apply Z.leb_le|apply Z.ltb_lt]; lia. }
  destruct (Z.testbit m 12); cbn [negb andb].
  { split; [done|]. intros p s' [= <- <-]. split; [done|right]. eexists. apply get_longword_ok.
    intros i Hi. unfold ptr_ok, ptr_block. simpl ptr_add. cbv iota. rewrite Ei.
    apply (Hb bi _ (pc * 4)); [lia|unfold IMEM_SIZE; lia|done]. }
  destruct (Z.testbit m 7); [by split|].
  destruct (umem s !! (m mod 256)) as [b|] eqn:Eu; (split; [done|]); intros p s' [= <- <-];
    (split; [done|]); [right|by left].
  eexists. apply get_longword_ok. intros i Hi. unfold ptr_ok, ptr_block. simpl ptr_add. cbv iota.
  rewrite Eu. apply (Hb b _ ((pc * 4) mod 2 ^ 17)); [zdml|unfold UMEM_SIZE; zdml|done].
Qed.
End Fetch.

(** ** The debugger's transfers *)

Lemma memcpy_to_run p buf n : forall i s0 s,
  0 <= i -> bytes_in s0 p (i + Z.of_nat n) -> stored p i (fun j => u8 (znth buf j)) s0 s ->
  exists s', memcpy_to p buf i n s = Ret tt s' /\
    stored p (i + Z.of_nat n) (fun j => u8 (znth buf j)) s0 s'.
Proof.
  induction n as [|n IH]; intros i s0 s Hi Hin Hst; simpl.
  - exists s. split; [done|]. by rewrite Z.add_0_r.
  - assert (ptr_ok s (ptr_add p i) = true) as Hp.
    { destruct Hst as (-> & _). apply Hin. lia. }
    pose proof (store_byte_ok (ptr_add p i) (znth buf i) s Hp) as E.
    unfold bind. rewrite E.
    destruct (IH (i + 1) s0 (ptr_set (ptr_add p i) (u8 (znth buf i)) s)) as (s' & E' & Hs').
    + lia.
    + intros j Hj. apply Hin. lia.
    + eapply stored_snoc; [exact Hi|exact Hst|exact E|done].
    + exists s'. split; [done|].
      replace (i + 1 + Z.of_nat n) with (i + Z.of_nat (S n)) in Hs' by lia. exact Hs'.
Qed.

Lemma memcpy_from_run p s n : forall i buf,
  0 <= i -> bytes_in s p (i + Z.of_nat n) -> length buf = Z.to_nat (i + Z.of_nat n) ->
  exists buf', memcpy_from p buf i n s = Ret buf' s /\ length buf' = length buf /\
    forall j, 0 <= j -> znth buf' j = if (i <=? j) && (j <? i + Z.of_nat n) then byte_at s p j
                                      else znth buf j.
Proof.
  induction n as [|n IH]; intros i buf Hi Hin Hl; simpl memcpy_from.
  - exists buf. split; [done|split; [done|]]. intros j Hj.
    destruct (Z.leb_spec i j), (Z.ltb_spec j (i + Z.of_nat 0)); done || lia.
  - unfold bind. rewrite load_byte_ok by (apply Hin; lia).
    set (buf1 := <[Z.to_nat i:=ptr_get s (ptr_add p i)]> buf).
    destruct (IH (i + 1) buf1) as (buf' & E & Hl' & Hj); [lia| | |].
    { intros j Hj. apply Hin. lia. }
    { subst buf1. rewrite length_insert. lia. }
    exists buf'. split; [done|]. split; [by rewrite Hl'; subst buf1; rewrite length_insert|].
    intros j Hj0. rewrite Hj by done.
    assert (znth buf1 j = if Z.eqb i j then byte_at s p j else znth buf j) as ->.
    { subst buf1. unfold znth. rewrite !nth_lookup. destruct (Z.eqb_spec i j) as [<-|Hne].
      - by rewrite list_lookup_insert_eq by lia.
      - by rewrite list_lookup_insert_ne by lia. }
    destruct (Z.leb_spec (i + 1) j), (Z.leb_spec i j), (Z.ltb_spec j (i + 1 + Z.of_nat n)),
      (Z.ltb_spec j (i + Z.of_nat (S n))), (Z.eqb_spec i j); simpl; done || lia.
Qed.

Lemma znth_ext (l k : list Z) :
  length l = length k -> (forall j, 0 <= j < Z.of_nat (length l) -> znth l j = znth k j) -> l = k.
Proof.
  intros Hl H. apply (nth_ext l k 0 0); [done|]. intros n Hn.
  specialize (H (Z.of_nat n)). unfold znth in H. rewrite Nat2Z.id in H. apply H. lia.
Qed.

(** The address split that [xfer_mem] starts with. *)
Lemma xfer_split seg x : 0 <= seg < 256 -> 0 <= x < 2 ^ 24 ->
  Z.land (Z.shiftr (seg * 2 ^ 24 + x) 24) 0xff = seg /\
  Z.land (seg * 2 ^ 24 + x) 0x00ffffff = x.
Proof.
  intros Hs Hx. change 0xff with (Z.ones 8). change 0x00ffffff with (Z.ones 24).
  rewrite Z.shiftr_div_pow2, !Z.land_ones by lia. split; zdml.
Qed.

Section Xfer.
Context `{Host}.

Lemma bytes_in_dmem s x n : wf s -> 0 <= x -> x + n <= 2 ^ 16 -> bytes_in s (P_dmem x) n.
Proof.
  intros Hs Hx Hn i Hi. destruct (wf_dmem s Hs) as (bd & Ed & _).
  unfold ptr_ok, ptr_block. cbn [ptr_add]. rewrite Ed. cbn [fmap option_fmap option_map].
  unfold DMEM_SIZE. apply andb_true_intro. split; [apply Z.leb_le|apply Z.ltb_lt]; lia.
Qed.

(** What the debugger writes to on-chip data memory (segment 0x10) *)
Lemma xfer_dmem x buf n w s :
  0 <= x -> 0 <= n -> x + n <= 2 ^ 16 -> x < 2 ^ 16 ->
  xfer_mem (0x10 * 2 ^ 24 + x) buf n w s = xfer_copy (P_dmem x) buf n w s.
Proof.
  intros Hx Hn Hxn Hx'. unfold xfer_mem. cbv zeta.
  destruct (xfer_split 0x10 x) as [-> ->]; [lia|lia|]. cbn [Z.eqb Pos.eqb].
  assert (Z.land x (2 ^ DMEM_SIZE - 1) = x) as ->.
  { change (2 ^ DMEM_SIZE - 1) with (Z.ones 16). rewrite Z.land_ones by lia. by apply Z.mod_small. }
  rewrite u32_small by lia. unfold DMEM_SIZE. by destruct (Z.ltb_spec (2 ^ 16) (x + n)); [lia|].
Qed.

(** C28: A transfer of the debugger or the loader to on-chip data memory (segment
    0x10) stores exactly the bytes of the buffer, at their places and nowhere else,
    and reading the same range back gives the buffer again. *)
Theorem sim_write_read x buf n s :
  wf s -> 0 <= x < 2 ^ 16 -> x + n <= 2 ^ 16 -> n = Z.of_nat (length buf) -> Forall (fits 8) buf ->
  exists s', sim_write (0x10 * 2 ^ 24 + x) buf n s = Ret n s' /\
    stored (P_dmem x) n (znth buf) s s' /\
    forall old, length old = length buf ->
      sim_read (0x10 * 2 ^ 24 + x) old n s' = Ret (n, buf) s'.
Proof.
  intros Hs Hx Hxn -> Hb. set (n := Z.of_nat (length buf)) in *.
  assert (Z.to_nat n = length buf) as Hn by (unfold n; lia).
  destruct (memcpy_to_run (P_dmem x) buf (length buf) 0 s s) as (s' & E & Hst);
    [lia|apply bytes_in_dmem; [done|lia|lia]|apply stored_0|].
  rewrite Z.add_0_l in Hst. fold n in Hst.
  exists s'. split; [|split].
  - unfold sim_write. unfold bind at 1. rewrite xfer_dmem by lia. unfold xfer_copy, bind.
    by rewrite Hn, E.
  - eapply stored_ext; [|exact Hst]. intros i Hi. apply u8_small.
    apply (Forall_nth_default (fits 8) buf); [done|by apply fits_0].
  - intros old Hold. unfold sim_read. rewrite xfer_dmem by lia. unfold xfer_copy, bind.
    rewrite Hn. destruct (memcpy_from_run (P_dmem x) s' (length buf) 0 old) as (buf' & -> & Hl & Hj);
      [lia|rewrite Z.add_0_l; by eapply stored_bytes_in|lia|].
    unfold ret. do 2 f_equal. apply znth_ext; [congruence|]. intros j Hjr.
    rewrite Hj by lia. rewrite Z.add_0_l. fold n.
    destruct (Z.leb_spec 0 j); [|lia]. destruct (Z.ltb_spec j n); [|lia]. cbn [andb].
    rewrite (stored_byte _ _ _ _ _ _ Hst) by lia. apply u8_small.
    apply (Forall_nth_default (fits 8) buf); [done|by apply fits_0].
Qed.

(** Code that leaves instruction memory alone *)
Definition imem_kept {A} (m : M A) : Prop :=
  forall s x s', m s = Ret x s' -> imem s' = imem s.
Lemma imem_kept_bind {A B} (m : M A) (f : A -> M B) :
  imem_kept m -> (forall x, imem_kept (f x)) -> imem_kept (bind m f).
Proof.
  intros Hm Hf s y s' (x & s1 & E1 & E2)%bind_Ret. etransitivity; [by eapply Hf|by eapply Hm].
Qed.
Lemma imem_kept_modify f : (forall s, imem (f s) = imem s) -> imem_kept (modify f).
Proof. by intros Hf s x s' [= _ <-]. Qed.
Lemma imem_kept_ret {A} (x : A) : imem_kept (ret x).
Proof. by intros s y s' [= _ <-]. Qed.
Lemma imem_kept_get : imem_kept get.
Proof. by intros s y s' [= _ <-]. Qed.

Lemma imem_memcpy_to seg off buf n : forall i, imem_kept (memcpy_to (P_umem seg off) buf i n).
Proof.
  induction n as [|n IH]; intros i; [apply imem_kept_ret|].
  apply imem_kept_bind; [|done]. by intros s x s' [_ ->]%store_byte_Ret.
Qed.
Lemma imem_memcpy_from p n : forall buf i, imem_kept (memcpy_from p buf i n).
Proof.
  induction n as [|n IH]; intros buf i; [apply imem_kept_ret|].
  apply imem_kept_bind; [|done]. intros s x s'. unfold load_byte. by case_match; intros [= _ <-].
Qed.

Lemma imem_xfer_unified x buf n w : imem_kept (xfer_unified x buf n w).
Proof.
  unfold xfer_unified. cbv zeta. destruct (_ && _).
  { apply imem_kept_bind; [by apply imem_kept_modify|intros; apply imem_kept_ret]. }
  apply imem_kept_bind; [apply imem_kept_get|intros s0].
  apply imem_kept_bind.
  { destruct (umem s0 !! _); [apply imem_kept_ret|]. apply imem_kept_modify. intros s1.
    by destruct (host_calloc _ _). }
  intros _. apply imem_kept_bind; [apply imem_kept_get|intros s1].
  destruct (umem s1 !! _).
  - unfold xfer_copy. destruct w; (apply imem_kept_bind; [|intros; apply imem_kept_ret]);
      [apply imem_memcpy_to|apply imem_memcpy_from].
  - apply imem_kept_bind; [by apply imem_kept_modify|intros; apply imem_kept_ret].
Qed.

(** A transfer to on-chip instruction memory (segment 0x11) goes to unified
    memory: it does what the same transfer to segment 0x12 does, and instruction
    memory stays as it was. *)
Theorem xfer_0x11_unified x buf n w s :
  0 <= x -> 0 <= n -> x + n <= 2 ^ 18 -> x < 2 ^ 18 ->
  xfer_mem (0x11 * 2 ^ 24 + x) buf n w s = xfer_mem (0x12 * 2 ^ 24 + x) buf n w s /\
  forall r s', xfer_mem (0x11 * 2 ^ 24 + x) buf n w s = Ret r s' -> imem s' = imem s.
Proof.
  intros Hx Hn Hxn Hx'.
  assert (xfer_mem (0x11 * 2 ^ 24 + x) buf n w s = xfer_unified x buf n w s) as E1.
  { unfold xfer_mem. cbv zeta. destruct (xfer_split 0x11 x) as [-> ->]; [lia|lia|].
    cbn [Z.eqb Pos.eqb]. assert (Z.land x (2 ^ IMEM_SIZE - 1) = x) as ->.
    { change (2 ^ IMEM_SIZE - 1) with (Z.ones 18). rewrite Z.land_ones by lia. by apply Z.mod_small. }
    rewrite u32_small by lia. unfold IMEM_SIZE. by destruct (Z.ltb_spec (2 ^ 18) (x + n)); [lia|]. }
  rewrite E1. split; [|intros r s'; apply imem_xfer_unified].
  unfold xfer_mem. cbv zeta. by destruct (xfer_split 0x12 x) as [-> ->]; [lia|lia|].
Qed.
End Xfer.

Section Data.
Context `{Host}.

Lemma same_memory_ok s s' q : same_memory s s' -> ptr_ok s q = true -> ptr_ok s' q = true.
Proof.
  intros (_ & Hi & Hd & Hu). unfold ptr_ok, ptr_block.
  destruct q as [o|o|g o|o]; [by rewrite Hi|by rewrite Hd| |done].
  destruct (umem s !! g) as [b|] eqn:E; simpl; [|done].
  destruct (Hu g) as [b' ->]; [by rewrite E|done].
Qed.

Lemma same_memory_word s s' p :
  same_memory s s' -> bytes_in s p 2 -> get_word p s' = Ret (word_at s p) s'.
Proof.
  intros Hm Hin. rewrite get_word_ok.
  - unfold word_at, byte_at. by rewrite !(proj1 Hm).
  - intros i Hi. by eapply same_memory_ok, Hin.
Qed.

(** A store outside on-chip data memory leaves [DMAP] as it is. *)
Lemma stored_translate p n f s s' addr :
  stored p n f s s' -> p = translate s addr -> translate s' addr = translate s addr.
Proof.
  intros (_ & _ & Hout). unfold translate. cbv zeta. set (x := addr mod 2 ^ 16).
  destruct ((0x8000 <=? x) && (x <? 0xc000)); [|done]. intros Hp.
  assert (dmap s' = dmap s) as ->; [|done].
  unfold dmap, word_at, byte_at. rewrite !Hout; [done| |];
    intros i _ E; subst p; by destruct (Z.testbit (dmap s) 12).
Qed.

Lemma runs_wf {A} (m : M A) s x s' :
  runs 0 0 m -> wf s -> slot s = [] -> m s = Ret x s' -> wf s'.
Proof.
  intros Hm Hs Hsl E. assert (room 0 s) as Hr by (apply inv_room; [done|lia]).
  specialize (Hm s Hs Hr). rewrite E in Hm. apply Hm.
Qed.

(** The second byte of a word is in the same block, but at the end of a 16K page. *)
Lemma translate_next s s' addr :
  (addr + 1) mod 2 ^ 14 <> 0 -> ptr_ok s' (translate s addr) = true ->
  ptr_ok s' (ptr_add (translate s addr) 1) = true.
Proof.
  intros Hp. unfold translate. cbv zeta. pose proof (Z.mod_pos_bound addr (2 ^ 16) ltac:(lia)) as Hx.
  set (d := dmap s). assert (Hnext : forall base sz, sz mod 2 ^ 14 = 0 -> base mod 2 ^ 14 = 0 ->
    (0 <=? base + addr mod 2 ^ 16) && (base + addr mod 2 ^ 16 <? sz) = true ->
    (0 <=? base + addr mod 2 ^ 16 + 1) && (base + addr mod 2 ^ 16 + 1 <? sz) = true).
  { intros base sz Hsz Hb [H1%Z.leb_le H2%Z.ltb_lt]%andb_prop. apply andb_true_intro.
    split; [apply Z.leb_le; lia|apply Z.ltb_lt; zdml]. }
  set (x := addr mod 2 ^ 16) in *. unfold ptr_ok, ptr_block.
  destruct ((0x8000 <=? x) && (x <? 0xc000)); [destruct (Z.testbit d 12)|]; cbn [ptr_add];
    [destruct (imem s') as [b|]|destruct (umem s' !! _) as [b|]|destruct (dmem s') as [b|]];
    simpl fmap; try done; unfold IMEM_SIZE, DMEM_SIZE, UMEM_SIZE.
  - specialize (Hnext (d mod 16 * 0x4000 - 0x8000) (2 ^ 18) eq_refl).
    rewrite Z.add_sub_assoc, (Z.add_sub_swap _ x). apply Hnext. zdml.
  - specialize (Hnext (d mod 8 * 0x4000 - 0x8000) (2 ^ 17) eq_refl).
    rewrite Z.add_sub_assoc, (Z.add_sub_swap _ x). apply Hnext. zdml.
  - apply (Hnext 0 (2 ^ 16)); done.
Qed.

Lemma write_word_ok p v s :
  ptr_ok s p = true -> ptr_ok s (ptr_add p 1) = true -> exists s', write_word p v s = Ret tt s'.
Proof.
  intros H0 H1. apply write_word_in. intros i Hi.
  assert (i = 0 \/ i = 1) as [-> | ->] by lia; [by rewrite ptr_add_0|done].
Qed.

Lemma SW_run addr v s :
  inv s -> (forall s seg, host_calloc s seg = true) -> (addr + 1) mod 2 ^ 14 <> 0 ->
  exists s1, SW addr v s = Ret tt s1 /\ wf s1 /\ bytes_in s1 (translate s1 addr) 2 /\
    word_at s1 (translate s1 addr) = u16 v.
Proof.
  intros [Hs Hsl] Hc Ha. destruct (dmem_addr_spec_run addr s Hs Hc) as (s0 & E0 & Hok & Hm & _).
  destruct (write_word_ok (translate s addr) (u16 v) s0 Hok) as [s1 E1];
    [by apply (translate_next s)|].
  assert (SW addr v s = Ret tt s1) as Es by (unfold SW, bind; by rewrite E0).
  pose proof (write_word_stored _ _ _ _ _ E1) as Hst.
  assert (translate s1 addr = translate s addr) as Ht.
  { assert (translate s0 addr = translate s addr) as Ht0
      by (unfold translate; by rewrite (dmap_same _ _ Hm)).
    rewrite <- Ht0. eapply stored_translate; [exact Hst|done]. }
  exists s1. split; [done|split; [by eapply runs_wf; [apply runs_SW|exact Hs| |exact Es]|]].
  rewrite Ht. split; [by eapply stored_bytes_in|].
  pose proof (read_back_word _ _ _ _ Hst) as Hr. rewrite get_word_ok in Hr by (by eapply stored_bytes_in).
  injection Hr as Hr. unfold word_at. rewrite Hr. unfold u16. by rewrite Z.mod_mod by lia.
Qed.
Lemma RW_run addr s :
  wf s -> (forall s seg, host_calloc s seg = true) -> bytes_in s (translate s addr) 2 ->
  exists s', RW addr s = Ret (word_at s (translate s addr)) s' /\ same_memory s s'.
Proof.
  intros Hs Hc Hin. destruct (dmem_addr_spec_run addr s Hs Hc) as (s' & E & _ & Hm & _).
  exists s'. split; [|done]. unfold RW, bind. rewrite E. by apply same_memory_word.
Qed.

(** A word that the simulated program stores at any data address, mapped or
    not, is what it loads from that address afterwards.  Both accesses succeed but
    for a word that starts at the last byte of a 16K page, which C does not give a
    meaning where the page ends its memory block. *)
Theorem store_load_word addr v s :
  inv s -> (forall s seg, host_calloc s seg = true) -> (addr + 1) mod 2 ^ 14 <> 0 ->
  exists s1 s2, SW addr v s = Ret tt s1 /\ RW addr s1 = Ret (u16 v) s2 /\ same_memory s1 s2.
Proof.
  intros Hs Hc Ha. destruct (SW_run addr v s Hs Hc Ha) as (s1 & E1 & Hs1 & Hin & Ew).
  destruct (RW_run addr s1 Hs1 Hc Hin) as (s2 & E2 & Hm). rewrite Ew in E2. by exists s1, s2.
Qed.
End Data.

(** ** Witnesses *)

Lemma endian_roundtrip_witness :
  exists s', write_longlong (P_dmem 16) (-2) booted = Ret tt s' /\
    get_longlong (P_dmem 16) s' = Ret (-2) s'.
Proof.
  apply (endian_roundtrip (P_dmem 16) (-2) booted). apply bytes_in_dmem; [apply booted_inv|lia|lia].
Defined.

(** An address of the window, with [DMAP] 0: the start of unified memory. *)
Lemma dmem_addr_spec_witness :
  translate booted 0x8004 = P_umem 0 4 /\
  exists s', @dmem_addr plain_host 0x8004 booted = Ret (translate booted 0x8004) s' /\
    ptr_ok s' (translate booted 0x8004) = true /\ same_memory booted s' /\
    exception s' = if in_io 0x8004 then SIGBUS else exception booted.
Proof.
  split; [vm_compute; reflexivity|].
  apply (@dmem_addr_spec plain_host 0x8004 booted); [apply booted_inv|reflexivity].
Defined.

(** The reset vector is fetched from unified memory segment 127. *)
Lemma fetch_spec_witness :
  imap booted (0xffc0 * 4) = 0x7f /\
  forall p s', @imem_addr plain_host (u32 (Z.shiftl (u32 0xffc0) 2)) booted = Ret p s' ->
    s' = booted /\ (is_NULL p = true \/ exists inst, get_longword p booted = Ret inst booted).
Proof.
  split; [vm_compute; reflexivity|].
  apply (@fetch_spec plain_host booted 0xffc0); [apply booted_inv|lia].
Defined.

Lemma sim_write_read_witness :
  exists s', @sim_write plain_host (0x10 * 2 ^ 24 + 100) [1; 2; 255] 3 booted = Ret 3 s' /\
    stored (P_dmem 100) 3 (znth [1; 2; 255]) booted s' /\
    forall old, length old = 3%nat ->
      @sim_read plain_host (0x10 * 2 ^ 24 + 100) old 3 s' = Ret (3, [1; 2; 255]) s'.
Proof.
  apply (@sim_write_read plain_host 100 [1; 2; 255] 3 booted);
    [apply booted_inv|lia|lia|reflexivity|].
  repeat (apply Forall_cons_2; [by compute|]). apply Forall_nil_2.
Defined.

Lemma xfer_0x11_unified_witness :
  exists s', @xfer_mem plain_host (0x12 * 2 ^ 24 + 8) [7] 1 true booted = Ret (1, [7]) s' /\
    imem s' = imem booted.
Proof.
  destruct (@xfer_0x11_unified plain_host 8 [7] 1 true booted) as [E Hi]; [lia..|].
  eexists. rewrite <- E. split; [vm_compute; reflexivity|].
  eapply Hi. vm_compute. reflexivity.
Defined.

Lemma store_load_word_witness :
  exists s1 s2, @SW plain_host 0x9000 0x12345 booted = Ret tt s1 /\
    @RW plain_host 0x9000 s1 = Ret 0x2345 s2 /\ same_memory s1 s2.
Proof.
  apply (@store_load_word plain_host 0x9000 0x12345 booted);
    [apply booted_inv|reflexivity|vm_compute; discriminate].
Defined.
