(* ===== verification/RemoteSpec.v ===== *)
(** * The remote board and the simulator

    GDB gives both the same addresses.  The board's monitor works with physical
    addresses, into which remote-d10v.c translates; the simulator translates by itself.
    The two agree. *)
From S2P Require Import Prelude CInt Opcodes State Memory Cregs Logic OpRules Machine MemProps Gdb Remote GdbSpec.

(** What the board's addresses stand for *)
Definition board_ptr (a : Z) : ptr :=
  let off := a mod 2 ^ 24 in
  if a / 2 ^ 24 =? 2 then P_dmem off
  else if a / 2 ^ 24 =? 1 then P_imem off
  else P_umem (off / 2 ^ 17) (off mod 2 ^ 17).
(** The cell of an instruction address, for a mapping register without bit 7 *)
Definition translate_insn (s : state) (pc : Z) : ptr :=
  if Z.testbit (imap s pc) 12 then P_imem pc else P_umem (imap s pc mod 2 ^ 7) (pc mod 2 ^ 17).

Lemma s16_bit x n : 0 <= x < 2 ^ 16 -> 0 <= n < 16 -> truth (Z.land (s16 x) (2 ^ n)) = Z.testbit x n.
Proof.
  intros Hx Hn. unfold truth. rewrite land_bit_eqb, negb_involutive by lia.
  rewrite <- (Z.mod_pow2_bits_low (s16 x) 16), <- (Z.mod_pow2_bits_low x 16) by lia.
  f_equal. unfold s16, wrap_signed. zdml.
Qed.
Lemma s16_low x k : 0 <= x < 2 ^ 16 -> 0 <= k <= 15 -> Z.land (s16 x) (Z.ones k) = x mod 2 ^ k.
Proof.
  intros Hx Hk. rewrite land_ones_mod by lia.
  assert (s16 x = x \/ s16 x = x - 2 ^ 16) as [->| ->] by (unfold s16, wrap_signed; zdml); [done|].
  replace (2 ^ 16) with (2 ^ (16 - k) * 2 ^ k) by (rewrite <- Z.pow_add_r by lia; f_equal; lia).
  rewrite <- (Z.mod_add x (- 2 ^ (16 - k)) (2 ^ k)) by (apply Z.pow_nonzero; lia). f_equal. ring.
Qed.
Lemma imap_range s pc : 0 <= imap s pc < 2 ^ 16.
Proof. unfold imap. destruct (Z.testbit pc 17); apply u16_range. Qed.

(** The segment and the offset of a board address *)
Lemma board_seg k off : 0 <= off < 2 ^ 24 -> 0 <= k ->
  (k * 2 ^ 24 + off) / 2 ^ 24 = k /\ (k * 2 ^ 24 + off) mod 2 ^ 24 = off.
Proof. intros. split; zdml. Qed.
Lemma board_dmem off : 0 <= off < 2 ^ 24 -> board_ptr (targ_data + off) = P_dmem off.
Proof. intros H. unfold board_ptr, targ_data. change 0x02000000 with (2 * 2 ^ 24). by destruct (board_seg 2 off H) as [-> ->]. Qed.
Lemma board_imem off : 0 <= off < 2 ^ 24 -> board_ptr (targ_insn + off) = P_imem off.
Proof. intros H. unfold board_ptr, targ_insn. change 0x01000000 with (1 * 2 ^ 24). by destruct (board_seg 1 off H) as [-> ->]. Qed.
Lemma board_umem seg off : 0 <= seg < 2 ^ 7 -> 0 <= off < 2 ^ 17 -> board_ptr (seg * 2 ^ 17 + off) = P_umem seg off.
Proof.
  intros. unfold board_ptr. assert ((seg * 2 ^ 17 + off) / 2 ^ 24 = 0) as -> by zdml.
  cbv zeta. simpl (0 =? _). f_equal; zdml.
Qed.
Lemma lor_base k x : 0 <= k -> 0 <= x < 2 ^ 24 -> Z.lor (k * 2 ^ 24) x = k * 2 ^ 24 + x.
Proof. intros. rewrite <- Z.shiftl_mul_pow2 by lia. rewrite lor_add_disjoint by lia. by rewrite Z.shiftl_mul_pow2. Qed.

(** The window at 0x8000 *)
Lemma window_phys s off : 0 <= off < 2 ^ 16 ->
  let map := s16 (dmap s) in
  (if truth (Z.land map 0x1000)
   then Z.lor (Z.lor targ_insn (Z.shiftl (Z.land map 0xf) 14)) (Z.land off 0x3fff)
   else Z.lor (Z.lor targ_unified (Z.shiftl (Z.land map 0x3ff) 14)) (Z.land off 0x3fff)) =
  if Z.testbit (dmap s) 12 then targ_insn + (dmap s mod 16 * 2 ^ 14 + off mod 2 ^ 14)
  else targ_unified + (dmap s mod 1024 * 2 ^ 14 + off mod 2 ^ 14).
Proof.
  intros Ho map. pose proof (dmap_range s) as Hd. change 0x1000 with (2 ^ 12). unfold map.
  rewrite s16_bit by lia. change 0xf with (Z.ones 4). change 0x3ff with (Z.ones 10).
  change 0x3fff with (Z.ones 14). rewrite !s16_low, land_ones_mod by lia.
  pose proof (Z.mod_pos_bound off (2 ^ 14) ltac:(lia)).
  destruct (Z.testbit (dmap s) 12); rewrite <- Z.lor_assoc, lor_add_disjoint by lia.
  - change targ_insn with (1 * 2 ^ 24). rewrite lor_base by zdml. done.
  - done.
Qed.

(** A transfer from the logical data space *)
Lemma data_transfer s i0 i1 off n : 0 <= off < 2 ^ 24 -> 0 < n < 2 ^ 24 ->
  let '(k, phys) := translate_address i0 i1 (dmap s) off n in
  0 <= k <= n /\ (0 < k <-> off < 0xc000) /\
  forall i, 0 <= i < k -> exists a, phys = Some a /\ board_ptr (a + i) = translate s (off + i).
Proof.
  intros Ho Hn. unfold translate_address. cbv zeta.
  assert (Z.shiftr off 24 = 0) as -> by (rewrite Z.shiftr_div_pow2 by lia; zdml).
  assert (Z.land off 0xffffff = off) as -> by (change 0xffffff with (Z.ones 24); rewrite land_ones_mod by lia; zdml).
  simpl (0 =? 0). cbv iota. destruct (Z.leb_spec off 0x7fff).
  - split; [destruct (Z.ltb_spec 0x7fff (off + n)); lia|]. split; [destruct (Z.ltb_spec 0x7fff (off + n)); lia|].
    intros i Hi. eexists. split; [reflexivity|]. rewrite <- Z.add_assoc.
    assert (off + i < 0x8000) by (destruct (Z.ltb_spec 0x7fff (off + n)); lia).
    rewrite board_dmem by lia. unfold translate. rewrite Z.mod_small by lia.
    by destruct (Z.leb_spec 0x8000 (off + i)); [lia|].
  - destruct (Z.leb_spec off 0xbfff); [|split; [lia|split; [lia|intros; lia]]].
    rewrite (window_phys s off) by lia. cbv zeta.
    split; [destruct (Z.ltb_spec 0xbfff (off + n)); lia|]. split; [destruct (Z.ltb_spec 0xbfff (off + n)); lia|].
    intros i Hi. eexists. split; [reflexivity|].
    assert (off + i < 0xc000) by (destruct (Z.ltb_spec 0xbfff (off + n)); lia).
    assert (off mod 2 ^ 14 + i = off + i - 0x8000) as Ei by zdml.
    unfold translate. rewrite (Z.mod_small (off + i)) by lia.
    destruct (Z.leb_spec 0x8000 (off + i)); [|lia]. destruct (Z.ltb_spec (off + i) 0xc000); [|lia].
    simpl andb. cbv iota. pose proof (dmap_range s). destruct (Z.testbit (dmap s) 12).
    + rewrite <- !Z.add_assoc, Ei, board_imem by zdml. done.
    + change targ_unified with 0. rewrite Z.add_0_l, <- Z.add_assoc, Ei.
      replace (dmap s mod 1024 * 2 ^ 14 + (off + i - 0x8000))
        with (dmap s mod 1024 / 8 * 2 ^ 17 + (dmap s mod 8 * 0x4000 + (off + i - 0x8000))) by zdml.
      apply board_umem; zdml.
Qed.

(** The mapping register is the same in the whole of a half of the space. *)
Lemma imap_same s off i : 0 <= off -> 0 <= i -> off mod 2 ^ 17 + i < 2 ^ 17 -> imap s (off + i) = imap s off.
Proof.
  intros Ho Hi Hb. unfold imap. rewrite !Z.testbit_odd, !Z.shiftr_div_pow2 by lia.
  by replace ((off + i) / 2 ^ 17) with (off / 2 ^ 17) by zdml.
Qed.

(** A transfer from the logical instruction space *)
Lemma insn_transfer s d off n : 0 <= off < 2 ^ 24 -> 0 < n < 2 ^ 24 ->
  let '(k, phys) := translate_address (imap s 0) (imap s 0x20000) d (0x1000000 + off) n in
  0 <= k <= n /\ (0 < k <-> off < 0x40000) /\
  forall i, 0 <= i < k -> exists a, phys = Some a /\ board_ptr (a + i) = translate_insn s (off + i).
Proof.
  intros Ho Hn. unfold translate_address. cbv zeta.
  assert (Z.shiftr (0x1000000 + off) 24 = 1) as -> by (rewrite Z.shiftr_div_pow2 by lia; zdml).
  assert (Z.land (0x1000000 + off) 0xffffff = off) as ->
    by (change 0xffffff with (Z.ones 24); rewrite land_ones_mod by lia; zdml).
  simpl (1 =? _). cbv iota. change 0x1ffff with (Z.ones 17). rewrite !land_ones_mod by lia.
  change (Z.ones 17) with 0x1ffff.
  set (k := if 0x1ffff <? off mod 2 ^ 17 + n then _ else n).
  assert (0 < k <= n /\ off mod 2 ^ 17 + k <= 2 ^ 17) as [Hk Hkb]
    by (unfold k; destruct (Z.ltb_spec 0x1ffff (off mod 2 ^ 17 + n)); zdml).
  assert (forall m, imap s off = m -> off < 0x40000 ->
    let '(k, phys) := if truth (Z.land (s16 m) 0x1000) then (k, Some (Z.lor targ_insn off))
      else if 0xffffff <? u32 (Z.shiftl (Z.land (s16 m) 0x7f) 17 + off mod 2 ^ 17) then (0, None)
      else (k, Some (Z.lor (u32 (Z.shiftl (Z.land (s16 m) 0x7f) 17 + off mod 2 ^ 17)) targ_unified)) in
    0 <= k <= n /\ (0 < k <-> off < 0x40000) /\
    forall i, 0 <= i < k -> exists a, phys = Some a /\ board_ptr (a + i) = translate_insn s (off + i)) as Hm.
  { intros m Em Hlim. pose proof (imap_range s off) as Hr. rewrite Em in Hr.
    change 0x1000 with (2 ^ 12). rewrite s16_bit by lia.
    change 0x7f with (Z.ones 7). rewrite s16_low, Z.shiftl_mul_pow2 by lia.
    pose proof (Z.mod_pos_bound m (2 ^ 7) ltac:(lia)). pose proof (Z.mod_pos_bound off (2 ^ 17) ltac:(lia)).
    rewrite u32_small by lia. rewrite (proj2 (Z.ltb_ge _ _)) by lia.
    destruct (Z.testbit m 12) eqn:Eb; (split; [lia|split; [lia|]]); intros i Hi;
      (eexists; split; [reflexivity|]); unfold translate_insn; rewrite imap_same, Em, Eb by lia.
    - change targ_insn with (1 * 2 ^ 24). rewrite lor_base, <- Z.add_assoc by lia. by apply board_imem; lia.
    - change targ_unified with 0. rewrite Z.lor_0_r, <- Z.add_assoc, board_umem by lia. f_equal. zdml. }
  destruct (Z.leb_spec off 0x1ffff).
  - apply Hm; [|lia]. unfold imap. change (Z.testbit 0 17) with false.
    rewrite Z.testbit_odd, Z.shiftr_div_pow2 by lia. by replace (off / 2 ^ 17) with 0 by zdml.
  - destruct (Z.leb_spec off 0x3ffff); [|split; [lia|split; [lia|intros; lia]]].
    apply Hm; [|lia]. unfold imap. change (Z.testbit 0x20000 17) with true.
    rewrite Z.testbit_odd, Z.shiftr_div_pow2 by lia. by replace (off / 2 ^ 17) with 1 by zdml.
Qed.

Lemma insn_addr `{Host} s pc : wf s ->
  Z.testbit (imap s pc) 12 = true \/
    (Z.testbit (imap s pc) 7 = false /\ umem s !! (imap s pc mod 2 ^ 7) <> None) ->
  imem_addr pc s = Ret (translate_insn s pc) s.
Proof.
  intros Hs Hm. rewrite imem_addr_run by done. unfold translate_insn. pose proof (imap_range s pc) as Hr.
  destruct (Z.testbit (imap s pc) 12); [done|]. destruct Hm as [|[Hb Hu]]; [done|].
  assert (Z.land (imap s pc) 0xff = imap s pc mod 2 ^ 7) as ->.
  { change 0xff with (Z.ones 8). rewrite land_ones_mod by lia.
    rewrite Z.testbit_odd, Z.shiftr_div_pow2 in Hb by lia.
    pose proof (Z.odd_spec (imap s pc / 2 ^ 7)) as Hodd. rewrite Hb in Hodd.
    pose proof (Zmod_odd (imap s pc / 2 ^ 7)) as H2. rewrite Hb in H2. zdml. }
  pose proof (Z.mod_pos_bound (imap s pc) (2 ^ 7) ltac:(lia)).
  rewrite (proj2 (Z.leb_gt _ _)) by (unfold UMEM_SEGMENTS; lia).
  unfold bind, get. destruct (umem s !! _); [|done].
  by change (2 ^ UMEM_SIZE - 1) with (Z.ones 17); rewrite land_ones_mod by lia.
Qed.
Section Agree.
Context `{Host} (Hcalloc : forall s seg, host_calloc s seg = true) `{Target}.
#[local] Open Scope gdb_scope.

End Agree.

(** The booted machine: 16 bytes from 0xbffc, of which the first four are in the
    window *)
Definition booted_debugger : @inferior plain_target :=
  @loaded plain_target (repeat 0 32 ++ [imap booted 0; imap booted 0x20000; dmap booted]) ∅.
