(* ===== verification/SimTarget.v ===== *)
(** * The debugger on the simulator

    A target for GDB whose memory is that of the simulated machine, through [sim_read]
    and [sim_write], and what the debugger sees of a machine that has stopped. *)
From S2P Require Import Prelude CInt Gdb GdbSpec State Memory Cregs Interp Logic OpRules Machine MemProps.

(** ** Words of on-chip memory *)

(** An address of a word that is in on-chip memory, where stacks are: the data
    addresses below 0x8000 *)
Definition on_chip (a : Z) : Prop := 0 <= a /\ a + 1 < 0x8000.
Definition chip_word (s : state) (a : Z) : Z := word_at s (P_dmem a).
Lemma chip_word_range s a : 0 <= chip_word s a < 2 ^ 16.
Proof. apply u16_range. Qed.

Section Sim.
Context `{Host}.

Lemma chip_byte s a : wf s -> 0 <= a < 0x8000 ->
  load_byte (P_dmem a) s = Ret (byte_at s (P_dmem a) 0) s /\ 0 <= byte_at s (P_dmem a) 0 < 2 ^ 8.
Proof.
  intros Hs Ha. destruct (wf_dmem s Hs) as (b & Eb & Hb). split.
  - unfold byte_at. rewrite ptr_add_0. apply load_byte_ok.
    rewrite <- (ptr_add_0 (P_dmem a)). apply (bytes_in_dmem s a 1); [done|lia|lia|lia].
  - unfold byte_at, ptr_get, ptr_block. cbn [ptr_add]. rewrite Z.add_0_r, Eb. simpl.
    destruct (b !! a) as [v|] eqn:E; [|simpl; lia]. simpl. exact (Hb a v E).
Qed.

(** A word of on-chip memory, as the debugger reads it *)
Lemma sim_read_word s a old : wf s -> on_chip a -> length old = 2%nat ->
  sim_read a old 2 s = Ret (2, word_bytes (chip_word s a)) s.
Proof.
  intros Hs [Ha0 Ha1] Hl. destruct (chip_byte s a Hs) as [E0 H0]; [lia|].
  destruct (chip_byte s (a + 1) Hs) as [E1 H1]; [lia|].
  unfold sim_read, xfer_mem. cbv zeta.
  assert (Z.land (Z.shiftr a 24) 0xff = 0) as -> by
    (rewrite Z.shiftr_div_pow2 by lia; change 0xff with (Z.ones 8); rewrite land_ones_mod by lia; zdml).
  assert (Z.land a 0xffffff = a) as -> by (change 0xffffff with (Z.ones 24); rewrite land_ones_mod by lia; zdml).
  rewrite Z.eqb_refl. change (Z.to_nat 2) with 2%nat. cbn [xfer_bytes].
  rewrite !u32_small, Z.add_0_r by lia. unfold bind. rewrite dmem_addr_low by lia. unfold ret. cbn [is_NULL].
  rewrite E0, dmem_addr_low by lia. unfold ret. cbn [is_NULL]. change (0 + 1) with 1. rewrite E1. do 2 f_equal.
  destruct old as [|x [|y [|]]]; try done. simpl.
  unfold word_bytes, chip_word, word_at. change 0xff with (Z.ones 8). rewrite !land_ones_mod, Z.shiftr_div_pow2 by lia.
  replace (byte_at s (P_dmem (a + 1)) 0) with (byte_at s (P_dmem a) 1) in *
    by (unfold byte_at; cbn [ptr_add]; by rewrite Z.add_0_r).
  rewrite Z.shiftl_mul_pow2 by lia. unfold u16. f_equal; [zdml|]. f_equal. zdml.
Qed.

(** A transfer succeeds when it is complete. *)
Definition sim_target : Target := {|
  memory := state;
  target_read_memory := fun m a n =>
    match sim_read a (repeat 0 (Z.to_nat n)) n m with
    | Ret (k, bs) _ => if k =? n then Some bs else None
    | _ => None
    end;
  target_write_memory := fun m a bs =>
    match sim_write a bs (Z.of_nat (length bs)) m with
    | Ret k m' => if k =? Z.of_nat (length bs) then Some m' else None
    | _ => None
    end;
  find_pc_partial_function := fun _ => None;
  find_pc_line_end := fun _ => 0;
  get_pc_function_start := fun pc => pc;
  inside_entry_file := fun _ => false;
  generic_pc_in_call_dummy := fun _ _ => false;
  entry_point_address := IMEM_START
|}.

(** The debugger after the machine has stopped *)
Definition on_simulator (s : state) : @inferior sim_target :=
  @loaded sim_target (regs s ++ repeat 0 19) s.
End Sim.

(** ** What the debugger sees *)

(** Its copy of the registers, and the words of on-chip memory *)
Record sees `{Target} (s : state) (g : inferior) : Prop := {
  sees_buffer : buffer_ok g;
  sees_gpr : forall k, 0 <= k < 16 -> reg_value g k = GPR s k;
  sees_chip : forall a, on_chip a -> target_read_memory (Gdb.mem g) a 2 = Some (word_bytes (chip_word s a))
}.
Lemma on_simulator_sees `{Host} s : wf s -> @sees sim_target s (on_simulator s).
Proof.
  intros Hs. destruct (wf_regs s Hs) as [Hl Hr]. split.
  - apply loaded_ok; [by rewrite length_app, repeat_length, Hl|]. apply Forall_app. split; [exact Hr|].
    apply List.Forall_forall. intros x ->%repeat_spec. lia.
  - intros k Hk. unfold on_simulator. rewrite loaded_value by (rewrite length_app, repeat_length, Hl; lia).
    by rewrite app_nth1 by lia.
  - intros a Ha. cbn [Gdb.mem on_simulator loaded target_read_memory sim_target].
    by rewrite sim_read_word.
Qed.
