(* ===== verification/Effects.v ===== *)
(** * What an instruction does, as a list of writes

    The specification language for instructions: an instruction [issues] a list of
    register writes, to be made at the flush, on a state that differs from the start
    by what the instruction changes at once; its [effects] are the state after the
    flush.  Everything else, and the memory
    in particular, stays as it was.  The rules [wp_*] derive the effects of a body
    from those of its primitives; that [move_to_cr] leaves out a write that changes
    nothing, and that writes wait in slots, is dealt with here once. *)
From S2P Require Import Prelude CInt Opcodes State Memory Cregs.
From S2P Require Import SimopsAlu SimopsAcc SimopsFlow SimopsMem SimopsTrap Interp Logic OpRules.
From S2P Require Import Machine.

(** ** Writes *)

Inductive write :=
| W_reg (n v : Z)          (* general register *)
| W_creg (n v : Z)         (* control register, whole *)
| W_flag (m : Z) (b : bool) (* bit [m] of the PSW *)
| W_sp (n v : Z)           (* held stack pointer *)
| W_acc (n v : Z).         (* accumulator *)

Definition set_flag (psw m : Z) (b : bool) : Z :=
  Z.lor (Z.land psw (u16 (Z.lnot m))) (if b then m else 0).

Definition apply_write (s : state) (w : write) : state :=
  match w with
  | W_reg n v => set_regs (<[Z.to_nat n := v]> (regs s)) s
  | W_creg n v => set_cregs (<[Z.to_nat n := v]> (cregs s)) s
  | W_flag m b => set_cregs (<[0%nat := set_flag (PSW s) m b]> (cregs s)) s
  | W_sp n v => set_sp (<[Z.to_nat n := v]> (sp s)) s
  | W_acc n v => set_a (<[Z.to_nat n := v]> (a s)) s
  end.
Definition apply_writes (ws : list write) (s : state) : state := fold_left apply_write ws s.

Lemma apply_writes_app ws ws' s : apply_writes (ws ++ ws') s = apply_writes ws' (apply_writes ws s).
Proof. apply fold_left_app. Qed.

(** The effects of [m] at [s]: with [s1] the state after the immediate changes. *)
Definition effects (m : M unit) (s s1 : state) (ws : list write) : Prop :=
  exists t, (m ;; SLOT_FLUSH) s = Ret tt (set_trace_psw t (apply_writes ws s1)).

(** ** Pending writes *)

(** [s] is [s1] with the writes [ws] pending. *)
Definition pend (s1 : state) (ws : list write) (s : state) : Prop :=
  exists l t, s = set_slot l (set_trace_psw t s1) /\
    fold_left apply_slot l s1 = apply_writes ws s1 /\ slot s1 = [] /\
    (length l <= length ws)%nat.

Lemma pend_refl s : slot s = [] -> pend s [] s.
Proof.
  intros E. exists [], (trace_psw s). repeat split; try done.
  destruct s. simpl in *. by subst.
Qed.

Lemma apply_slot_comm l t s sl :
  apply_slot (set_slot l (set_trace_psw t s)) sl = set_slot l (set_trace_psw t (apply_slot s sl)).
Proof. unfold apply_slot. by destruct (slot_dest sl). Qed.
Lemma apply_slots_comm k : forall l t s,
  fold_left apply_slot k (set_slot l (set_trace_psw t s)) =
  set_slot l (set_trace_psw t (fold_left apply_slot k s)).
Proof.
  induction k as [|sl k IH]; intros l t s; simpl; [done|]. by rewrite apply_slot_comm, IH.
Qed.

Lemma apply_writes_slot ws : forall s, slot (apply_writes ws s) = slot s.
Proof. induction ws as [|w ws IH]; intros s; simpl; [done|]. rewrite IH. by destruct w. Qed.

Lemma pend_flush s1 ws s :
  pend s1 ws s -> exists t, SLOT_FLUSH s = Ret tt (set_trace_psw t (apply_writes ws s1)).
Proof.
  intros (l & t & -> & E & Hsl & _). exists t. unfold SLOT_FLUSH, modify. f_equal.
  simpl slot. rewrite apply_slots_comm, E.
  pose proof (apply_writes_slot ws s1) as Hs. rewrite Hsl in Hs.
  destruct (apply_writes ws s1). simpl in *. by subst.
Qed.

(** ** Weakest preconditions *)

Definition wp {A} (m : M A) (s : state) (Q : A -> state -> Prop) : Prop :=
  match m s with Ret x s' => Q x s' | _ => False end.

Lemma wp_bind {A B} (m : M A) (f : A -> M B) s Q :
  wp m s (fun x s' => wp (f x) s' Q) -> wp (bind m f) s Q.
Proof. unfold wp, bind. by destruct (m s). Qed.
Lemma wp_get {B} (f : state -> M B) s Q : wp (f s) s Q -> wp (bind get f) s Q.
Proof. done. Qed.
Lemma wp_ret {A} (x : A) s (Q : A -> state -> Prop) : Q x s -> wp (ret x) s Q.
Proof. done. Qed.
Lemma wp_skip s (Q : unit -> state -> Prop) : Q tt s -> wp skip s Q.
Proof. done. Qed.
Lemma wp_if {A} (c : bool) (m m' : M A) s Q :
  (c = true -> wp m s Q) -> (c = false -> wp m' s Q) -> wp (if c then m else m') s Q.
Proof. destruct c; auto. Qed.
Lemma wp_when (c : bool) m s (Q : unit -> state -> Prop) :
  (c = true -> wp m s Q) -> (c = false -> Q tt s) -> wp (when c m) s Q.
Proof. destruct c; intros H1 H2; [by apply H1|by apply H2]. Qed.
Lemma wp_mono {A} (m : M A) s (Q R : A -> state -> Prop) :
  wp m s Q -> (forall x s', Q x s' -> R x s') -> wp m s R.
Proof. unfold wp. destruct (m s); auto. Qed.

(** [m] returns, and leaves the writes [ws] pending on [s1]. *)
Definition issues (m : M unit) (s s1 : state) (ws : list write) : Prop :=
  wp m s (fun _ s' => pend s1 ws s').

Lemma issues_effects m s s1 ws : issues m s s1 ws -> effects m s s1 ws.
Proof.
  unfold issues, wp, effects, bind. destruct (m s) as [[] s'| | |]; try done. apply pend_flush.
Qed.
Lemma effects_intro m s s1 ws : wp m s (fun _ s' => pend s1 ws s') -> effects m s s1 ws.
Proof. apply issues_effects. Qed.

(** ** The primitives *)

Lemma masked_full n old v : masked_update old (Slot n 2 (trunc_size 2 v) (trunc_size 2 0)) = u16 v.
Proof. unfold masked_update. simpl slot_mask. rewrite Z.land_0_r. apply Z.lor_0_l. Qed.

(** A slot that has the effect of a write *)
Lemma wp_SLOT_PEND_MASK s1 ws s d msk v w (Q : unit -> state -> Prop) :
  pend s1 ws s -> (length ws < NR_SLOTS)%nat ->
  apply_slot (apply_writes ws s1) (Slot d (dest_size d) (trunc_size (dest_size d) v)
                                     (trunc_size (dest_size d) msk)) =
    apply_write (apply_writes ws s1) w ->
  (forall s', pend s1 (ws ++ [w]) s' -> Q tt s') ->
  wp (SLOT_PEND_MASK d msk v) s Q.
Proof.
  intros (l & t & -> & E & Hsl & Hlen) Hws Hw HQ. unfold wp, SLOT_PEND_MASK.
  simpl slot. rewrite decide_True by lia. apply HQ. eexists _, t. split; [reflexivity|].
  split; [|split; [done|]].
  - rewrite fold_left_app, apply_writes_app, E. simpl. apply Hw.
  - rewrite !length_app. simpl. lia.
Qed.

Lemma wp_SET_GPR s1 ws s n v (Q : unit -> state -> Prop) :
  pend s1 ws s -> (length ws < NR_SLOTS)%nat ->
  (forall s', pend s1 (ws ++ [W_reg n (u16 v)]) s' -> Q tt s') -> wp (SET_GPR n v) s Q.
Proof.
  intros Hp Hl HQ. eapply wp_SLOT_PEND_MASK; [exact Hp|done| |exact HQ].
  simpl. unfold apply_slot. simpl. by rewrite masked_full.
Qed.
Lemma wp_SET_HELD_SP s1 ws s n v (Q : unit -> state -> Prop) :
  pend s1 ws s -> (length ws < NR_SLOTS)%nat ->
  (forall s', pend s1 (ws ++ [W_sp n (u16 v)]) s' -> Q tt s') -> wp (SET_HELD_SP n v) s Q.
Proof.
  intros Hp Hl HQ. eapply wp_SLOT_PEND_MASK; [exact Hp|done| |exact HQ].
  simpl. unfold apply_slot. simpl. by rewrite masked_full.
Qed.
Lemma wp_SET_ACC s1 ws s n v (Q : unit -> state -> Prop) :
  pend s1 ws s -> (length ws < NR_SLOTS)%nat ->
  (forall s', pend s1 (ws ++ [W_acc n (v mod 2 ^ 40)]) s' -> Q tt s') -> wp (SET_ACC n v) s Q.
Proof.
  intros Hp Hl HQ. eapply wp_SLOT_PEND_MASK; [exact Hp|done| |exact HQ].
  simpl. unfold apply_slot. simpl slot_dest. cbv iota. unfold masked_update.
  simpl slot_mask. rewrite Z.land_0_r, Z.lor_0_l. simpl slot_data. rewrite MASK40_mod.
  unfold trunc_size. pose proof (Z.mod_pos_bound v (2 ^ 40) ltac:(lia)).
  rewrite (Z.mod_small (v mod 2 ^ 40)) by lia. unfold s64. by rewrite wrap_signed_small by lia.
Qed.

(** ** Control registers *)

Lemma pend_read s1 ws s : pend s1 ws s -> cregs s = cregs s1.
Proof. by intros (l & t & -> & _). Qed.

(** No pending write touches control register [n]. *)
Definition creg_fresh (n : Z) (ws : list write) : bool :=
  forallb (fun w => match w with
    | W_creg k _ => negb (Z.to_nat k =? Z.to_nat n)%nat
    | W_flag _ _ => negb (Z.to_nat n =? 0)%nat
    | _ => true end) ws.
(** No pending write touches the bits [m] of the PSW. *)
Definition flag_fresh (m : Z) (ws : list write) : bool :=
  forallb (fun w => match w with
    | W_creg k _ => negb (Z.to_nat k =? 0)%nat
    | W_flag m' _ => (0 <=? m') && (m' <? 2 ^ 16) && (Z.land m m' =? 0)
    | _ => true end) ws.

Lemma apply_writes_creg n ws : forall s, creg_fresh n ws = true ->
  cregs (apply_writes ws s) !! Z.to_nat n = cregs s !! Z.to_nat n.
Proof.
  induction ws as [|w ws IH]; intros s Hf; simpl in *; [done|].
  apply andb_prop in Hf as [Hw Hf]. rewrite IH by done. destruct w as [k v|k v|k b|k v|k v]; try done.
  - apply negb_true_iff, Nat.eqb_neq in Hw. simpl. by rewrite list_lookup_insert_ne by done.
  - apply negb_true_iff, Nat.eqb_neq in Hw. simpl. by rewrite list_lookup_insert_ne by done.
Qed.

Lemma CREG_lookup s n v : cregs s !! Z.to_nat n = Some v -> CREG s n = v.
Proof. unfold CREG, znth. rewrite nth_lookup. by intros ->. Qed.
Lemma lookup_CREG s n :
  wf s -> 0 <= n < 16 -> cregs s !! Z.to_nat n = Some (CREG s n).
Proof.
  intros Hs Hn. destruct (wf_cregs s Hs) as [Hl _]. unfold CREG, znth. rewrite nth_lookup.
  destruct (cregs s !! Z.to_nat n) eqn:E; [done|]. apply lookup_ge_None in E. lia.
Qed.

Lemma pend_same s1 ws s w :
  pend s1 ws s -> apply_write (apply_writes ws s1) w = apply_writes ws s1 -> pend s1 (ws ++ [w]) s.
Proof.
  intros (l & t & Es & E & Hsl & Hlen) Hw. exists l, t. split; [done|].
  split; [by rewrite apply_writes_app; simpl; rewrite Hw|split; [done|]].
  rewrite length_app. simpl. lia.
Qed.

Lemma insert_same s k v : cregs s !! k = Some v -> set_cregs (<[k:=v]> (cregs s)) s = s.
Proof. intros E. rewrite list_insert_id by done. by destruct s. Qed.

Lemma trunc_cr_value cr v : fits 16 v -> trunc_size 2 (cr_value cr v) = cr_value cr v.
Proof. intros Hv. apply Z.mod_small, (fits_cr_value cr v Hv). Qed.

Lemma wp_SET_CREG s1 ws s n v (Q : Z -> state -> Prop) :
  pend s1 ws s -> (length ws < NR_SLOTS)%nat -> wf s1 -> 0 < n < 16 ->
  creg_fresh n ws = true ->
  (forall x s', pend s1 (ws ++ [W_creg n (cr_value n (u16 v))]) s' -> Q x s') ->
  wp (SET_CREG n v) s Q.
Proof.
  intros Hp Hl Hs Hn Hf HQ. unfold SET_CREG, move_to_cr. cbv zeta.
  assert ((n =? PSW_CR) = false) as -> by (apply Z.eqb_neq; unfold PSW_CR; lia).
  apply wp_bind, wp_skip. apply wp_get, wp_bind. pose proof (u16_range v) as Hv.
  apply wp_when; intros Hc.
  - eapply wp_SLOT_PEND_MASK; [exact Hp|done| |intros s' Hs'; apply wp_ret, HQ; exact Hs'].
    simpl. unfold apply_slot, masked_update. simpl slot_dest. cbv iota. simpl slot_mask.
    rewrite Z.land_0_r, Z.lor_0_l. simpl slot_data. by rewrite trunc_cr_value.
  - apply wp_ret, HQ, pend_same; [done|]. apply negb_false_iff, Z.eqb_eq in Hc.
    simpl. apply insert_same. rewrite apply_writes_creg by done.
    rewrite lookup_CREG by (done || lia). f_equal. rewrite <- Hc.
    unfold CREG. rewrite (pend_read _ _ _ Hp). by rewrite Z.land_m1_r.
Qed.

(** ** Flags *)

Lemma PSW_set_flag s m b :
  (0 < length (cregs s))%nat ->
  PSW (apply_write s (W_flag m b)) = set_flag (PSW s) m b.
Proof.
  intros Hl. unfold PSW at 1, CREG, znth. rewrite nth_lookup. simpl.
  by rewrite list_lookup_insert_eq by lia.
Qed.

Lemma set_flag_fits psw m b : fits 16 psw -> fits 16 m -> fits 16 (set_flag psw m b).
Proof.
  intros Hp Hm. apply lor_lt_pow2; [lia| |by destruct b]. apply land_lt_pow2; [lia|done|].
  apply u16_range.
Qed.

(** Bits above 16 aside, a cleared bit is a bit of the complement. *)
Lemma u16_lnot_testbit m i :
  0 <= i -> Z.testbit (u16 (Z.lnot m)) i = (i <? 16) && negb (Z.testbit m i).
Proof.
  intros Hi. unfold u16. destruct (Z.ltb_spec i 16).
  - by rewrite Z.mod_pow2_bits_low, Z.lnot_spec by lia.
  - by rewrite Z.mod_pow2_bits_high by lia.
Qed.

Lemma fits_testbit n x i : 0 <= n -> fits n x -> n <= i -> Z.testbit x i = false.
Proof. intros. by eapply testbit_high. Qed.

Lemma set_flag_disjoint psw m m' b :
  fits 16 psw -> Z.land m m' = 0 -> fits 16 m -> Z.land (set_flag psw m' b) m = Z.land psw m.
Proof.
  intros Hp Hd Hm. apply Z.bits_inj'. intros i Hi. unfold set_flag.
  rewrite !Z.land_spec, Z.lor_spec, Z.land_spec, u16_lnot_testbit by done.
  assert (Z.testbit m i && Z.testbit m' i = false) as Hb by (by rewrite <- Z.land_spec, Hd, Z.bits_0).
  assert (Z.testbit (if b then m' else 0) i = b && Z.testbit m' i) as ->
    by (destruct b; simpl; [done|apply Z.bits_0]).
  destruct (Z.ltb_spec i 16).
  - destruct (Z.testbit m i), (Z.testbit m' i), (Z.testbit psw i), b; done.
  - rewrite (fits_testbit 16 m i) by (done || lia). by rewrite !andb_false_r.
Qed.

Lemma set_flag_same (psw m : Z) (b : bool) :
  fits 16 psw -> fits 16 m -> Z.land psw m = (if b then m else 0) -> set_flag psw m b = psw.
Proof.
  intros Hp Hm E. apply Z.bits_inj'. intros i Hi. unfold set_flag. rewrite <- E.
  rewrite Z.lor_spec, !Z.land_spec, u16_lnot_testbit by done. destruct (Z.ltb_spec i 16).
  - by destruct (Z.testbit m i), (Z.testbit psw i).
  - by rewrite (fits_testbit 16 psw i) by (done || lia).
Qed.

Lemma apply_writes_psw m ws : forall s,
  flag_fresh m ws = true -> (0 < length (cregs s))%nat -> fits 16 (PSW s) -> fits 16 m ->
  Z.land (PSW (apply_writes ws s)) m = Z.land (PSW s) m /\ fits 16 (PSW (apply_writes ws s)) /\
  (0 < length (cregs (apply_writes ws s)))%nat.
Proof.
  induction ws as [|w ws IH]; intros s Hf Hl Hp Hm; simpl in *; [done|].
  apply andb_prop in Hf as [Hw Hf].
  assert (Z.land (PSW (apply_write s w)) m = Z.land (PSW s) m /\ fits 16 (PSW (apply_write s w)) /\
          (0 < length (cregs (apply_write s w)))%nat) as (E & ? & ?).
  { destruct w as [k v|k v|k b|k v|k v]; try done.
    - apply negb_true_iff, Nat.eqb_neq in Hw. simpl. rewrite length_insert.
      assert (PSW (set_cregs (<[Z.to_nat k:=v]> (cregs s)) s) = PSW s) as ->; [|done].
      unfold PSW, CREG, znth. simpl. rewrite !nth_lookup. by rewrite list_lookup_insert_ne.
    - apply andb_prop in Hw as [[?%Z.leb_le ?%Z.ltb_lt]%andb_prop Hd%Z.eqb_eq].
      rewrite PSW_set_flag by done. split; [by apply set_flag_disjoint|].
      split; [by apply set_flag_fits|]. simpl. by rewrite length_insert. }
  destruct (IH (apply_write s w)) as (E' & ? & ?); [done..|]. split; [congruence|done].
Qed.

Lemma pend_trace s1 ws s f : pend s1 ws s -> pend s1 ws (set_trace_psw (f s) s).
Proof. intros (l & t & -> & H). by eexists l, _. Qed.

(** The bits that [SET_PSW_BIT] is used for *)
Definition plain_flag (m : Z) : bool :=
  negb (Z.land (u16 (Z.lnot m)) PSW_SM_BIT =? 0)
  && negb (Z.land (u16 (Z.lnot m)) (Z.lor PSW_ST_BIT PSW_FX_BIT) =? 0)
  && (Z.land m PSW_MASK =? m) && (0 <=? m) && (m <? 2 ^ 16).

Lemma wp_SET_PSW_BIT s1 ws s m b (Q : unit -> state -> Prop) :
  pend s1 ws s -> (length ws < NR_SLOTS)%nat -> wf s1 -> plain_flag m = true ->
  flag_fresh m ws = true ->
  (forall s', pend s1 (ws ++ [W_flag m b]) s' -> Q tt s') -> wp (SET_PSW_BIT m b) s Q.
Proof.
  intros Hp Hl Hs Hm Hf HQ. unfold plain_flag in Hm.
  apply andb_prop in Hm as [[[[Hsm%negb_true_iff Hst%negb_true_iff]%andb_prop Hk%Z.eqb_eq]%andb_prop
    Hm0%Z.leb_le]%andb_prop Hm1%Z.ltb_lt].
  assert (fits 16 m) as Hm by done. unfold SET_PSW_BIT. apply wp_bind. unfold move_to_cr. cbv zeta.
  set (v := if b then m else 0).
  assert (cr_value PSW_CR v = v) as -> by (unfold cr_value; simpl; by destruct b).
  change (PSW_CR =? PSW_CR) with true. apply wp_bind. unfold when at 1, move_to_psw.
  rewrite Hsm, Hst. apply wp_bind, wp_skip, wp_bind, wp_skip.
  unfold modify at 1, wp at 1. apply (pend_trace _ _ _ (fun s => Z.lor (Z.land (trace_psw s)
    (u16 (Z.lnot m))) v)) in Hp. revert Hp. set (s' := set_trace_psw _ s). intros Hp.
  apply wp_get, wp_bind.
  assert (0 < length (cregs s1))%nat as Hlen by (rewrite (proj1 (wf_cregs s1 Hs)); lia).
  assert (fits 16 (PSW s1)) as Hpsw by (by apply wf_fits_creg).
  destruct (apply_writes_psw m ws s1 Hf Hlen Hpsw Hm) as (E & Hfit & Hlen').
  apply wp_when; intros Hc.
  - eapply wp_SLOT_PEND_MASK; [exact Hp|done| |intros s'' Hs''; apply wp_ret, wp_skip, HQ; exact Hs''].
    simpl. unfold apply_slot, masked_update. simpl slot_dest. cbv iota. simpl slot_mask.
    simpl slot_data. simpl dest_size.
    assert (trunc_size 2 (u16 (Z.lnot m)) = u16 (Z.lnot m)) as -> by (apply Z.mod_small, u16_range).
    by assert (trunc_size 2 v = v) as -> by (apply Z.mod_small; unfold v; by destruct b).
  - apply wp_ret, wp_skip, HQ, pend_same; [done|]. apply negb_false_iff, Z.eqb_eq in Hc.
    assert (Z.land (PSW s1) m = v) as Ev.
    { rewrite <- Hc. unfold PSW, CREG at 2. rewrite (pend_read _ _ _ Hp).
      apply Z.bits_inj'. intros i Hi. rewrite !Z.land_spec, Z.lnot_spec, u16_lnot_testbit by done.
      destruct (Z.ltb_spec i 16); [by rewrite andb_true_l, negb_involutive|].
      rewrite (fits_testbit 16 m i) by (done || lia).
      change (znth (cregs s1) PSW_CR) with (PSW s1).
      change (CREG s1 PSW_CR) with (PSW s1).
      rewrite (fits_testbit 16 (PSW s1) i) by (done || lia). done. }
    simpl. rewrite set_flag_same; [|done|done|by rewrite E].
    apply insert_same. destruct (lookup_lt_is_Some_2 _ _ Hlen') as [z E0]. rewrite E0.
    f_equal. unfold PSW. symmetry. by apply CREG_lookup.
Qed.

(** ** Immediate changes *)

(** A change of a field that is neither a register nor pending. *)
Record direct (f : state -> state) : Prop := {
  dir_frame l t s : f (set_slot l (set_trace_psw t s)) = set_slot l (set_trace_psw t (f s));
  dir_apply sl s : apply_slot (f s) sl = f (apply_slot s sl);
  dir_write w s : apply_write (f s) w = f (apply_write s w);
  dir_slot s : slot (f s) = slot s;
  dir_wf s : wf s -> wf (f s)
}.

Lemma pend_direct f s1 ws s : direct f -> pend s1 ws s -> pend (f s1) ws (f s).
Proof.
  intros [Hfr Ha Hw Hsl _] (l & t & -> & E & Hs & Hl). exists l, t.
  split; [done|split; [|split; [by rewrite Hsl|done]]].
  assert (forall k s, fold_left apply_slot k (f s) = f (fold_left apply_slot k s)) as Hk
    by (induction k as [|sl k IH]; intros s; simpl; [done|by rewrite Ha, IH]).
  assert (forall ws s, apply_writes ws (f s) = f (apply_writes ws s)) as Hws
    by (intros k; induction k as [|w k IH]; intros s; simpl; [done|by rewrite Hw, IH]).
  by rewrite Hk, Hws, E.
Qed.

Lemma wp_modify f s1 ws s (Q : unit -> state -> Prop) :
  direct f -> pend s1 ws s -> (forall s', pend (f s1) ws s' -> Q tt s') -> wp (modify f) s Q.
Proof. intros Hf Hp HQ. by apply HQ, pend_direct. Qed.

Ltac direct_tac :=
  split; [reflexivity|intros [[] ? ? ?] ?; reflexivity|intros [] ?; reflexivity|reflexivity|].

Lemma direct_pc_changed v : direct (set_pc_changed v).
Proof. direct_tac. by intros s []. Qed.
Lemma direct_exe v : direct (set_exe v).
Proof. direct_tac. by intros s []. Qed.
Lemma direct_exception v : direct (set_exception v).
Proof. direct_tac. by intros s []. Qed.
Lemma direct_op n v : direct (fun s => set_OP (<[Z.to_nat n := u16 v]> (OP s)) s).
Proof. direct_tac. intros s Hs. by apply silent_set_op. Qed.

Lemma direct_printf fmt args : direct (fun s => set_out (out s ++ [Printf fmt args]) s).
Proof. direct_tac. by intros s []. Qed.

Lemma wp_printf s1 ws s fmt args (Q : unit -> state -> Prop) :
  pend s1 ws s ->
  (forall s', pend (set_out (out s1 ++ [Printf fmt args]) s1) ws s' -> Q tt s') ->
  wp (printf_filtered fmt args) s Q.
Proof.
  intros Hp HQ. apply (wp_modify (fun s => set_out (out s ++ [Printf fmt args]) s) s1 ws s);
    [apply direct_printf|done|done].
Qed.
Lemma wp_exception s1 ws s v (Q : unit -> state -> Prop) :
  pend s1 ws s -> (forall s', pend (set_exception v s1) ws s' -> Q tt s') ->
  wp (modify (set_exception v)) s Q.
Proof. apply wp_modify, direct_exception. Qed.
Lemma wp_set_op s1 ws s n v (Q : unit -> state -> Prop) :
  pend s1 ws s ->
  (forall s', pend (set_OP (<[Z.to_nat n := u16 v]> (OP s1)) s1) ws s' -> Q tt s') ->
  wp (set_op n v) s Q.
Proof.
  intros Hp HQ. apply (wp_modify (fun s => set_OP (<[Z.to_nat n := u16 v]> (OP s)) s) s1 ws s);
    [apply direct_op|done|done].
Qed.

Lemma wp_JMP s1 ws s x (Q : unit -> state -> Prop) :
  pend s1 ws s -> (length ws < NR_SLOTS)%nat -> wf s1 -> creg_fresh PC_CR ws = true ->
  (forall s', pend (set_pc_changed 1 s1) (ws ++ [W_creg PC_CR (u16 x)]) s' -> Q tt s') ->
  wp (JMP x) s Q.
Proof.
  intros Hp Hl Hs Hf HQ. unfold JMP, SET_PC, set_creg_. apply wp_bind, wp_bind.
  eapply wp_SET_CREG; [exact Hp|done|done|unfold PC_CR; lia|done|].
  intros _ s' Hs'. apply wp_skip. eapply wp_modify; [apply direct_pc_changed|exact Hs'|done].
Qed.

(** ** Reading while writes are pending *)

Lemma op_pend l t s n : op (set_slot l (set_trace_psw t s)) n = op s n. Proof. done. Qed.
Lemma GPR_pend l t s n : GPR (set_slot l (set_trace_psw t s)) n = GPR s n. Proof. done. Qed.
Lemma GPR32_pend l t s n : GPR32 (set_slot l (set_trace_psw t s)) n = GPR32 s n. Proof. done. Qed.
Lemma gpr_pair_pend l t s n : gpr_pair (set_slot l (set_trace_psw t s)) n = gpr_pair s n.
Proof. done. Qed.
Lemma sext_pair_pend l t s n : sext_pair (set_slot l (set_trace_psw t s)) n = sext_pair s n.
Proof. done. Qed.
Lemma CREG_pend l t s n : CREG (set_slot l (set_trace_psw t s)) n = CREG s n. Proof. done. Qed.
Lemma ACC_pend l t s n : ACC (set_slot l (set_trace_psw t s)) n = ACC s n. Proof. done. Qed.
Lemma HELD_SP_pend l t s n : HELD_SP (set_slot l (set_trace_psw t s)) n = HELD_SP s n.
Proof. done. Qed.
Lemma psw_bit_pend l t s m : psw_bit (set_slot l (set_trace_psw t s)) m = psw_bit s m.
Proof. done. Qed.
Create Rewrite HintDb reads.
Create HintDb reads.
#[export] Hint Rewrite op_pend GPR_pend GPR32_pend gpr_pair_pend sext_pair_pend CREG_pend ACC_pend
  HELD_SP_pend psw_bit_pend : reads.
Lemma GPR_set_OP l s n : GPR (set_OP l s) n = GPR s n. Proof. done. Qed.
Lemma CREG_set_OP l s n : CREG (set_OP l s) n = CREG s n. Proof. done. Qed.
Lemma ACC_set_OP l s n : ACC (set_OP l s) n = ACC s n. Proof. done. Qed.
Lemma psw_bit_set_OP l s n : psw_bit (set_OP l s) n = psw_bit s n. Proof. done. Qed.
Lemma op0_set_OP v s : op (set_OP (<[Z.to_nat 1:=v]> (OP s)) s) 0 = op s 0.
Proof. unfold op, znth. simpl. by destruct (OP s). Qed.
Lemma op1_set_OP v s : wf s -> op (set_OP (<[Z.to_nat 1:=v]> (OP s)) s) 1 = v.
Proof.
  intros Hs. unfold op, znth. simpl. rewrite nth_lookup. rewrite list_lookup_insert_eq; [done|].
  rewrite (proj1 (wf_op s Hs)). lia.
Qed.
#[export] Hint Rewrite GPR_set_OP CREG_set_OP ACC_set_OP psw_bit_set_OP op0_set_OP : reads.
#[export] Hint Rewrite op1_set_OP using assumption : reads.

(** Reads do not see what an error exit changes. *)
Lemma GPR_err v o s n : GPR (set_exception v (set_out o s)) n = GPR s n. Proof. done. Qed.
Lemma op_err v o s n : op (set_exception v (set_out o s)) n = op s n. Proof. done. Qed.
Lemma ACC_err v o s n : ACC (set_exception v (set_out o s)) n = ACC s n. Proof. done. Qed.
Lemma CREG_err v o s n : CREG (set_exception v (set_out o s)) n = CREG s n. Proof. done. Qed.
Lemma psw_bit_err v o s n : psw_bit (set_exception v (set_out o s)) n = psw_bit s n.
Proof. done. Qed.
Lemma wf_err v o s : wf s -> wf (set_exception v (set_out o s)).
Proof. by intros []. Qed.
#[export] Hint Rewrite GPR_err op_err ACC_err CREG_err psw_bit_err : reads.
#[export] Hint Resolve wf_err : reads.

Ltac unfold_reads :=
  unfold PSW_F0, PSW_F1, PSW_C, PSW_ST, PSW_FX, PSW_MD, PSW_SM, PSW_RP, PSW_DB, PC, PSW,
    BPSW, BPC, DPSW, DPC, RPT_C, RPT_S, RPT_E, MOD_S, MOD_E, IBA in *.

Lemma pend_read_all s1 ws s :
  pend s1 ws s -> exists l t, s = set_slot l (set_trace_psw t s1).
Proof. intros (l & t & -> & _). by exists l, t. Qed.

(** ** Running while other writes are pending *)

Definition is_flag (w : write) : bool := match w with W_flag _ _ => true | _ => false end.
Definition ALL_FLAGS : Z := Z.lor PSW_F0_BIT (Z.lor PSW_F1_BIT PSW_C_BIT).
(** If [ws] sets flags, then [ws0] does not. *)
Definition quiet (ws0 ws : list write) : bool :=
  negb (existsb is_flag ws) || flag_fresh ALL_FLAGS ws0.

(** [m] adds the writes [ws] to those that are pending: [move_to_cr] compares with the
    value in the register, and leaves out a write that seems to change nothing, so that
    flags must not be pending. *)
Definition queues (m : M unit) (s s1 : state) (ws : list write) : Prop :=
  forall ws0 s', pend s ws0 s' -> (length ws0 <= 8)%nat -> quiet ws0 ws = true ->
    wp m s' (fun _ s'' => pend s1 (ws0 ++ ws) s'').

Lemma queues_issues m s s1 ws : queues m s s1 ws -> slot s = [] -> issues m s s1 ws.
Proof.
  intros Hq Hs. apply (Hq [] s); [by apply pend_refl|simpl; lia|].
  unfold quiet. simpl. apply orb_true_r.
Qed.
Lemma flag_fresh_app m ws ws' :
  flag_fresh m ws = true -> flag_fresh m ws' = true -> flag_fresh m (ws ++ ws') = true.
Proof. unfold flag_fresh. rewrite forallb_app. by intros -> ->. Qed.
Lemma flag_fresh_part m m' ws :
  Z.land m m' = m -> flag_fresh m' ws = true -> flag_fresh m ws = true.
Proof.
  intros Hm. unfold flag_fresh. rewrite !forallb_forall. intros Hf w Hin. specialize (Hf w Hin).
  destruct w as [k v|k v|k b|k v|k v]; try done.
  apply andb_prop in Hf as [-> Hk%Z.eqb_eq]. apply Z.eqb_eq.
  by rewrite <- Hm, <- Z.land_assoc, Hk, Z.land_0_r.
Qed.
Lemma quiet_fresh m ws0 row ws :
  quiet ws0 row = true -> existsb is_flag row = true -> Z.land m ALL_FLAGS = m ->
  flag_fresh m ws = true -> flag_fresh m (ws0 ++ ws) = true.
Proof.
  unfold quiet. intros Hq E Hm Hf. rewrite E in Hq. by apply flag_fresh_app; [eapply flag_fresh_part|].
Qed.

Ltac side :=
  lazymatch goal with
  | |- (_ < _)%nat => rewrite ?length_app; simpl; unfold NR_SLOTS; lia
  | |- flag_fresh _ (_ ++ _) = true =>
      eapply quiet_fresh; [eassumption|reflexivity|reflexivity|reflexivity]
  | |- _ => first [reflexivity | assumption | simpl; unfold NR_SLOTS; lia | solve [eauto with reads]]
  end.
(** Goes on with the new state: what is read in it is what is read in the base state. *)
Ltac next :=
  let s' := fresh "s" in let Hp := fresh "Hp" in
  intros s' Hp; cbv beta; rewrite <- ?app_assoc in Hp; cbn [app] in Hp;
  let l := fresh "l" in let t := fresh "t" in let E := fresh "E" in
  destruct (pend_read_all _ _ _ Hp) as (l & t & E); subst s';
  unfold_reads; autorewrite with reads.
Ltac eff_step :=
  lazymatch goal with
  | |- wp (bind get _) _ _ => apply wp_get; cbv beta zeta; unfold_reads; autorewrite with reads
  | |- wp (bind _ _) _ _ => apply wp_bind
  | |- wp (if _ then _ else _) _ _ => apply wp_if; intros ?
  | |- wp (when _ _) _ _ => apply wp_when; intros ?
  | |- wp skip _ _ => apply wp_skip
  | |- wp (ret _) _ _ => apply wp_ret
  | |- wp (SET_GPR _ _) _ _ => eapply wp_SET_GPR; [eassumption|side|next]
  | |- wp (SET_ACC _ _) _ _ => eapply wp_SET_ACC; [eassumption|side|next]
  | |- wp (SET_CREG _ _) _ _ => eapply wp_SET_CREG; [eassumption|side|side|side|side|intros ?; next]
  | |- wp (set_op ?n ?v) _ _ => eapply wp_set_op; [eassumption|next];
      match goal with Hs : wf ?s |- _ =>
        assert (wf (set_OP (<[Z.to_nat n := u16 v]> (OP s)) s))
          by (apply silent_set_op; assumption) end
  | |- wp (printf_filtered _ _) _ _ => eapply wp_printf; [eassumption|next]
  | |- wp (modify (set_exception _)) _ _ => eapply wp_exception; [eassumption|next]
  | |- wp (JMP _) _ _ => eapply wp_JMP; [eassumption|side|side|side|next]
  | |- wp (SET_PSW_BIT _ _) _ _ => eapply wp_SET_PSW_BIT; [eassumption|side|side|side|side|next]
  | |- wp (SET_GPR32 _ _) _ _ => unfold SET_GPR32
  | |- wp (SET_PSW_F0 _) _ _ => unfold SET_PSW_F0
  | |- wp (SET_PSW_F1 _) _ _ => unfold SET_PSW_F1
  | |- wp (SET_PSW_C _) _ _ => unfold SET_PSW_C
  | |- wp (SET_PSW_RP _) _ _ => unfold SET_PSW_RP
  | |- wp (SET_PSW_IE _) _ _ => unfold SET_PSW_IE
  | |- wp (set_creg_ _ _) _ _ => unfold set_creg_
  end.
(** Runs a body; what is left is that the writes it made are those stated. *)
Ltac effects_tac Hs :=
  first [apply effects_intro | unfold issues];
  match goal with |- wp _ ?s _ =>
    let Hp := fresh "Hp" in pose proof (pend_refl s (proj2 Hs)) as Hp;
    let Hwf := fresh "Hwf" in pose proof (proj1 Hs) as Hwf
  end;
  repeat eff_step.

(** The same while other writes are pending *)
Ltac queues_tac Hs :=
  let ws0 := fresh "ws" in let Hp := fresh "Hp" in let Hl := fresh "Hl" in
  intros ws0 ? Hp Hl ?; rewrite <- (app_nil_r ws0) in Hp;
  let l := fresh "l" in let t := fresh "t" in let E := fresh "E" in
  destruct (pend_read_all _ _ _ Hp) as (l & t & E); subst;
  let Hwf := fresh "Hwf" in pose proof (proj1 Hs) as Hwf;
  unfold_reads; autorewrite with reads; repeat eff_step.

Lemma pend_eq s1 s2 ws ws' s : pend s1 ws s -> s1 = s2 -> ws = ws' -> pend s2 ws' s.
Proof. by intros ? -> ->. Qed.
Lemma pend_app_eq s1 s2 ws0 ws ws' s :
  pend s1 (ws0 ++ ws) s -> s1 = s2 -> ws = ws' -> pend s2 (ws0 ++ ws') s.
Proof. by intros ? -> ->. Qed.

(** ** Concrete states *)

(** A state with the given registers, accumulators, operands and PSW. *)
Definition with_values (r acc o : list Z) (psw : Z) (s : state) : state :=
  set_OP o (set_a acc (set_regs r (set_cregs (<[0%nat := psw]> (cregs s)) s))).
Definition at_values (r acc o : list Z) (psw : Z) : state := with_values r acc o psw booted.
Definition all_fit (n : Z) (len : nat) (l : list Z) : bool :=
  (length l =? len)%nat && forallb (fun v => (0 <=? v) && (v <? 2 ^ n)) l.

Lemma all_fit_spec n len l : all_fit n len l = true -> length l = len /\ Forall (fits n) l.
Proof.
  intros [?%Nat.eqb_eq Hl]%andb_prop. split; [done|]. apply List.Forall_forall. intros v Hv.
  rewrite forallb_forall in Hl. apply Hl in Hv as [?%Z.leb_le ?%Z.ltb_lt]%andb_prop. done.
Qed.
Lemma inv_with_values r acc o psw s :
  inv s ->
  all_fit 16 16 r && all_fit 40 2 acc && all_fit 16 4 o && (Z.land psw PSW_MASK =? psw) = true ->
  inv (with_values r acc o psw s).
Proof.
  intros [[? [Hl Hc] ? ? ? ? ? ? ?] Hsl]
    [[[?%all_fit_spec ?%all_fit_spec]%andb_prop ?%all_fit_spec]%andb_prop Hp%Z.eqb_eq]%andb_prop.
  split; [|done]. constructor; try done.
  simpl. split; [by rewrite length_insert|]. intros n Hn. destruct n as [|n].
  - by rewrite nth_lookup, list_lookup_insert_eq by (rewrite Hl; lia).
  - rewrite nth_lookup, list_lookup_insert_ne, <- nth_lookup by lia. by apply Hc.
Qed.
Lemma inv_at_values r acc o psw :
  all_fit 16 16 r && all_fit 40 2 acc && all_fit 16 4 o && (Z.land psw PSW_MASK =? psw) = true ->
  inv (at_values r acc o psw).
Proof. apply inv_with_values, booted_inv. Qed.
