(* ===== verification/AluSpec.v ===== *)
(** * What the register and flag instructions compute

    A specification of the instructions of SimopsAlu.v in terms of integers: the
    value of a register is a number below [2 ^ 16], its signed view is [s16], and a
    carry or a comparison is a comparison of such numbers.  [alu_table] gives the
    writes of each instruction; [alu_refines] shows that the functions of
    sim/d10v/simops.c, with their casts and bit masks, make those writes and no
    other change. *)
From S2P Require Import Prelude CInt Opcodes State Memory Cregs.
From S2P Require Import SimopsAlu SimopsAcc SimopsFlow SimopsMem SimopsTrap Interp Logic OpRules.
From S2P Require Import Machine Effects.

(** ** The specification *)

Section Spec.
Context (s : state).

(** The first two operands as registers, and the register they name. *)
Definition rD : Z := op s 0.
Definition rA : Z := GPR s (op s 0).
Definition rB : Z := GPR s (op s 1).
(** The pair that starts at register [n], as a 32-bit number. *)
Definition rpair (n : Z) : Z := GPR s n * 2 ^ 16 + GPR s (n + 1).
(** Immediate operands; where zero stands for 16, [imm16]. *)
Definition imm (n : Z) : Z := op s n.
Definition imm16 : Z := if op s 1 =? 0 then 16 else op s 1.
Definition imm4s : Z := wrap_signed 4 (op s 1).
(** The bit an operand numbers from the left. *)
Definition bit_of : Z := 2 ^ (15 - op s 1).

Definition compare (b : bool) : list write :=
  [W_flag PSW_F1_BIT (PSW_F0 s); W_flag PSW_F0_BIT b].
Definition to_pair (v : Z) : list write :=
  [W_reg (rD + 0) (v / 2 ^ 16 mod 2 ^ 16); W_reg (rD + 1) (v mod 2 ^ 16)].
End Spec.

(** The immediate changes: only the instructions whose immediate 0 means 16 have
    one, to [OP[1]]. *)
Definition plain (s : state) : state := s.
Definition with_imm16 (s : state) : state :=
  if op s 1 =? 0 then set_OP (<[1%nat := 16]> (OP s)) s else s.

Definition alu_table : list (M unit * ((state -> state) * (state -> list write))) := [
  (OP_4607, (plain, fun s => compare s (2 ^ 15 <=? rA s) ++
     [W_reg (rD s) (if 2 ^ 15 <=? rA s then 2 ^ 16 - rA s else rA s)]));
  (OP_200, (plain, fun s =>
     [W_flag PSW_C_BIT (2 ^ 16 <=? rA s + rB s); W_reg (rD s) ((rA s + rB s) mod 2 ^ 16)]));
  (OP_1200, (plain, fun s =>
     W_flag PSW_C_BIT (2 ^ 32 <=? rpair s (op s 0) + rpair s (op s 1)) ::
     to_pair s (rpair s (op s 0) + rpair s (op s 1))));
  (OP_1000000, (plain, fun s =>
     [W_flag PSW_C_BIT (2 ^ 16 <=? rB s + imm s 2); W_reg (rD s) ((rB s + imm s 2) mod 2 ^ 16)]));
  (OP_201, (with_imm16, fun s =>
     [W_flag PSW_C_BIT (2 ^ 16 <=? rA s + imm16 s); W_reg (rD s) ((rA s + imm16 s) mod 2 ^ 16)]));
  (OP_2E00, (plain, fun s => [W_reg (rD s) ((rA s * rB s) mod 2 ^ 16)]));
  (OP_4605, (plain, fun s => [W_reg (rD s) ((- rA s) mod 2 ^ 16)]));
  (OP_0, (plain, fun s =>
     [W_flag PSW_C_BIT (rB s <=? rA s); W_reg (rD s) ((rA s - rB s) mod 2 ^ 16)]));
  (OP_1000, (plain, fun s =>
     W_flag PSW_C_BIT (rpair s (op s 1) <=? rpair s (op s 0)) ::
     to_pair s (rpair s (op s 0) - rpair s (op s 1))));
  (OP_1, (with_imm16, fun s =>
     [W_flag PSW_C_BIT (imm16 s <=? rA s); W_reg (rD s) ((rA s - imm16 s) mod 2 ^ 16)]));
  (OP_C00, (plain, fun s => [W_reg (rD s) (Z.land (rA s) (rB s))]));
  (OP_6000000, (plain, fun s => [W_reg (rD s) (Z.land (rB s) (imm s 2))]));
  (OP_C01, (plain, fun s => [W_reg (rD s) (Z.ldiff (rA s) (bit_of s))]));
  (OP_A01, (plain, fun s => [W_reg (rD s) (Z.lxor (rA s) (bit_of s))]));
  (OP_801, (plain, fun s => [W_reg (rD s) (Z.lor (rA s) (bit_of s))]));
  (OP_E01, (plain, fun s => compare s (Z.testbit (rA s) (15 - op s 1))));
  (OP_4603, (plain, fun s => [W_reg (rD s) (2 ^ 16 - 1 - rA s)]));
  (OP_800, (plain, fun s => [W_reg (rD s) (Z.lor (rA s) (rB s))]));
  (OP_4000000, (plain, fun s => [W_reg (rD s) (Z.lor (rB s) (imm s 2))]));
  (OP_7000000, (plain, fun s => compare s (negb (Z.land (rA s) (imm s 1) =? 0))));
  (OP_F000000, (plain, fun s => compare s (negb (Z.land (rA s) (imm s 1) =? imm s 1))));
  (OP_A00, (plain, fun s => [W_reg (rD s) (Z.lxor (rA s) (rB s))]));
  (OP_5000000, (plain, fun s => [W_reg (rD s) (Z.lxor (rB s) (imm s 2))]));
  (OP_600, (plain, fun s => compare s (s16 (rA s) <? s16 (rB s))));
  (OP_400, (plain, fun s => compare s (rA s =? rB s)));
  (OP_401, (plain, fun s => compare s (s16 (rA s) =? imm4s s)));
  (OP_2000000, (plain, fun s => compare s (rA s =? imm s 1)));
  (OP_601, (plain, fun s => compare s (s16 (rA s) <? imm4s s)));
  (OP_3000000, (plain, fun s => compare s (s16 (rA s) <? s16 (imm s 1))));
  (OP_4600, (plain, fun s => compare s (rA s <? rB s)));
  (OP_23000000, (plain, fun s => compare s (rA s <? imm s 1)));
  (OP_4E09, (plain, fun s =>
     [W_flag (if op s 0 =? 0 then PSW_F0_BIT else PSW_F1_BIT)
        (if op s 1 =? 0 then PSW_F0 s else if op s 1 =? 1 then PSW_F1 s else PSW_C s)]));
  (OP_2600, (plain, fun s => compare s (s16 (rA s) <? s16 (rB s)) ++
     [W_reg (rD s) (if s16 (rA s) <? s16 (rB s) then rB s else rA s)]));
  (OP_2601, (plain, fun s => compare s (s16 (rB s) <? s16 (rA s)) ++
     [W_reg (rD s) (if s16 (rB s) <? s16 (rA s) then rB s else rA s)]));
  (OP_4611, (plain, fun s => [W_reg (rD s) (if PSW_F0 s then 0 else 1)]));
  (OP_4613, (plain, fun s => [W_reg (rD s) (if PSW_F0 s then 1 else 0)]));
  (OP_2200, (plain, fun s => [W_reg (rD s) ((rA s * 2 ^ (rB s mod 16)) mod 2 ^ 16)]));
  (OP_2201, (plain, fun s => [W_reg (rD s) ((rA s * 2 ^ imm s 1) mod 2 ^ 16)]));
  (OP_460B, (plain, fun s => [W_reg (rD s) ((2 * rA s + if PSW_F0 s then 1 else 0) mod 2 ^ 16)]));
  (OP_2400, (plain, fun s => [W_reg (rD s) ((s16 (rA s) / 2 ^ (rB s mod 16)) mod 2 ^ 16)]));
  (OP_2401, (plain, fun s => [W_reg (rD s) ((s16 (rA s) / 2 ^ imm s 1) mod 2 ^ 16)]));
  (OP_2000, (plain, fun s => [W_reg (rD s) (rA s / 2 ^ (rB s mod 16))]));
  (OP_2001, (plain, fun s => [W_reg (rD s) (rA s / 2 ^ imm s 1)]));
  (OP_4609, (plain, fun s => [W_reg (rD s) (rA s / 2 + if PSW_F0 s then 2 ^ 15 else 0)]));
  (OP_4001, (plain, fun s => [W_reg (rD s) (imm4s s mod 2 ^ 16)]));
  (OP_20000000, (plain, fun s => [W_reg (rD s) (imm s 1)]));
  (OP_4000, (plain, fun s => [W_reg (rD s) (rB s)]));
  (OP_5000, (plain, fun s => [W_reg (rD s + 0) (rB s); W_reg (rD s + 1) (GPR s (op s 1 + 1))]));
  (OP_5400, (plain, fun s => [W_reg (rD s) (wrap_signed 8 (rB s) mod 2 ^ 16)]));
  (OP_4400, (plain, fun s => if PSW_F0 s then [] else [W_reg (rD s) (rB s)]));
  (OP_4401, (plain, fun s => if PSW_F0 s then [W_reg (rD s) (rB s)] else []));
  (OP_5200, (plain, fun s => [W_reg (rD s) (CREG s (op s 1))]));
  (OP_5401, (plain, fun s => [W_reg (rD s) (rB s mod 2 ^ 8)]))
].

(** ** Arithmetic of the bodies *)

Lemma lor_pair a b :
  fits 16 a -> fits 16 b -> u32 (Z.lor (Z.shiftl a 16) b) = a * 2 ^ 16 + b.
Proof.
  intros Ha Hb. unfold fits in *. rewrite lor_add_disjoint by lia. apply u32_small. lia.
Qed.
Lemma rpair_range s n : wf s -> 0 <= rpair s n < 2 ^ 32.
Proof.
  intros Hs. pose proof (wf_znth_regs s Hs n). pose proof (wf_znth_regs s Hs (n + 1)).
  unfold rpair, fits in *. lia.
Qed.
Lemma u32_gpr_pair s n : wf s -> u32 (gpr_pair s n) = rpair s n.
Proof.
  intros Hs. unfold gpr_pair. rewrite u32_s32. apply lor_pair; by apply wf_znth_regs.
Qed.
Lemma GPR32_rpair s n : wf s -> GPR32 s n = rpair s n.
Proof.
  intros Hs. unfold GPR32. change (znth (regs s)) with (GPR s). rewrite Z.add_0_r.
  pose proof (wf_znth_regs s Hs n) as Ha. pose proof (wf_znth_regs s Hs (n + 1)) as Hb.
  unfold fits in *. rewrite (u16_small (GPR s (n + 1))) by done.
  rewrite Z.shiftl_mul_pow2 by lia. rewrite u32_small by lia.
  rewrite <- Z.shiftl_mul_pow2 by lia. by apply lor_add_disjoint.
Qed.

Lemma shiftr_bit n : 0 <= n -> Z.shiftr 0x8000 n = 2 ^ (15 - n).
Proof.
  intros Hn. rewrite Z.shiftr_div_pow2 by lia. change 0x8000 with (2 ^ 15).
  destruct (Z.leb_spec n 15).
  - rewrite <- Z.pow_sub_r by lia. done.
  - rewrite (Z.pow_neg_r 2 (15 - n)) by lia. apply Z.div_small. split; [lia|].
    apply Z.pow_lt_mono_r; lia.
Qed.
Lemma bit_range n : 0 <= n -> 0 <= 2 ^ (15 - n) < 2 ^ 16.
Proof.
  intros Hn. split; [apply Z.pow_nonneg; lia|]. destruct (Z.leb_spec n 15).
  - apply Z.pow_lt_mono_r; lia.
  - rewrite Z.pow_neg_r by lia. lia.
Qed.
Lemma truth_bit x n : truth (Z.land x (2 ^ n)) = Z.testbit x n.
Proof.
  unfold truth. destruct (Z.leb_spec 0 n).
  - rewrite land_bit_eqb by done. apply negb_involutive.
  - rewrite Z.pow_neg_r, Z.land_0_r, Z.testbit_neg_r by lia. done.
Qed.
Lemma truth_nand x y :
  truth (Z.land (Z.lnot x) y) = negb (Z.land x y =? y).
Proof.
  unfold truth. f_equal. assert (Z.land (Z.lnot x) y = Z.lxor (Z.land x y) y) as ->.
  { apply Z.bits_inj'. intros i Hi. rewrite Z.lxor_spec, !Z.land_spec, Z.lnot_spec by done.
    by destruct (Z.testbit x i), (Z.testbit y i). }
  destruct (Z.eqb_spec (Z.lxor (Z.land x y) y) 0) as [E|E], (Z.eqb_spec (Z.land x y) y) as [F|F];
    try done.
  - by apply Z.lxor_eq in E.
  - rewrite F, Z.lxor_nilpotent in E. done.
Qed.

Lemma s16_neg x : 0 <= x < 2 ^ 16 -> (s16 x <? 0) = (2 ^ 15 <=? x).
Proof.
  intros Hx. rewrite s16_cases by done.
  destruct (Z.ltb_spec x (2 ^ 15)), (Z.leb_spec (2 ^ 15) x); lia.
Qed.
Lemma s16_sext4 x : s16 (SEXT4 x) = wrap_signed 4 x.
Proof.
  rewrite SEXT4_wrap. apply wrap_signed_small; [lia|]. pose proof (wrap_signed_range 4 x). lia.
Qed.
Lemma eqb_sext4 x y : 0 <= x < 2 ^ 16 -> (x =? u16 (SEXT4 y)) = (s16 x =? wrap_signed 4 y).
Proof.
  intros Hx. rewrite SEXT4_wrap. pose proof (wrap_signed_range 4 y ltac:(lia)) as Hr.
  rewrite s16_cases by done. set (v := wrap_signed 4 y) in *. unfold u16.
  destruct (Z.ltb_spec x (2 ^ 15)), (Z.eqb_spec x (v mod 2 ^ 16)); symmetry;
    (apply Z.eqb_eq || apply Z.eqb_neq); zdml.
Qed.
Lemma land15 x : Z.land x 0xf = x mod 16.
Proof. change 0xf with (Z.ones 4). by apply Z.land_ones. Qed.
Lemma land255 x : Z.land x 0xff = x mod 2 ^ 8.
Proof. change 0xff with (Z.ones 8). by apply Z.land_ones. Qed.

(** A result of the bit operations of two 16-bit numbers is one. *)
Lemma u16_land x y : fits 16 x -> 0 <= y -> u16 (Z.land x y) = Z.land x y.
Proof. intros. apply u16_small, land_lt_pow2; [lia|done|done]. Qed.
Lemma u16_lor x y : fits 16 x -> fits 16 y -> u16 (Z.lor x y) = Z.lor x y.
Proof. intros. apply u16_small, lor_lt_pow2; [lia|done|done]. Qed.
Lemma u16_lxor x y : fits 16 x -> fits 16 y -> u16 (Z.lxor x y) = Z.lxor x y.
Proof. intros. apply u16_small, lxor_lt_pow2; [lia|done|done]. Qed.
Lemma u16_andnot x y : fits 16 x -> u16 (Z.land x (Z.lnot y)) = Z.ldiff x y.
Proof.
  intros Hx. rewrite <- Z.ldiff_land. apply u16_small.
  split; [apply Z.ldiff_nonneg; left; apply Hx|].
  rewrite Z.ldiff_land. pose proof (land_bound_l (Z.lnot y) x (proj1 Hx)).
  rewrite Z.land_comm. unfold fits in Hx. lia.
Qed.
Lemma u16_lnot x : fits 16 x -> u16 (Z.lnot x) = 2 ^ 16 - 1 - x.
Proof. intros Hx. unfold u16, Z.lnot, fits in *. zdml. Qed.
Lemma u16_div x k : fits 16 x -> 0 <= k -> u16 (x / 2 ^ k) = x / 2 ^ k.
Proof.
  intros [Hx0 Hx] Hk. apply u16_small. assert (0 < 2 ^ k) by (apply Z.pow_pos_nonneg; lia).
  split; [apply Z.div_pos; lia|]. apply Z.div_lt_upper_bound; [lia|]. nia.
Qed.
Lemma u16_slx x b : u16 (Z.lor (x * 2 ^ 1) (b2z b)) = (2 * x + if b then 1 else 0) mod 2 ^ 16.
Proof.
  rewrite <- Z.shiftl_mul_pow2, lor_add_disjoint by (destruct b; simpl; lia).
  unfold u16. f_equal. destruct b; simpl; lia.
Qed.
Lemma u16_srx x b :
  fits 16 x -> u16 (Z.lor (x / 2 ^ 1) (u16 (b2z b * 2 ^ 15))) = x / 2 + if b then 2 ^ 15 else 0.
Proof.
  unfold fits. intros Hx. change (2 ^ 1) with 2.
  assert (u16 (b2z b * 2 ^ 15) = Z.shiftl (b2z b) 15) as ->
    by (by destruct b).
  rewrite Z.lor_comm, lor_add_disjoint by zdml.
  rewrite u16_small; destruct b; simpl; zdml.
Qed.
Lemma u16_sext8 x : u16 (SEXT8 (x mod 2 ^ 8)) = wrap_signed 8 x mod 2 ^ 16.
Proof.
  rewrite SEXT8_wrap. unfold u16. f_equal. apply wrap_signed_congr; [lia|].
  by rewrite Z.mod_mod by lia.
Qed.
Lemma u16_sext4 x : u16 (SEXT4 x) = wrap_signed 4 x mod 2 ^ 16.
Proof. by rewrite SEXT4_wrap. Qed.
Lemma u16_setf_f (b : bool) : u16 (if negb b then 1 else 0) = if b then 0 else 1.
Proof. by destruct b. Qed.
Lemma u16_setf_t (b : bool) : u16 (if b2z b =? 1 then 1 else 0) = if b then 1 else 0.
Proof. by destruct b. Qed.

(** ** Proving a row of a table *)

Ltac use_conditions :=
  repeat match goal with
  | H : ?c = true |- context [?c] => rewrite H
  | H : ?c = false |- context [?c] => rewrite H
  | H : negb _ = true |- _ => apply negb_true_iff in H
  | H : negb _ = false |- _ => apply negb_false_iff in H
  end.
(** The ranges of the operands *)
Ltac reg_facts Hs :=
  let Hg := fresh "Hg" in let Ho := fresh "Ho" in
  pose proof (wf_znth_regs _ (proj1 Hs)) as Hg; pose proof (wf_znth_op _ (proj1 Hs)) as Ho;
  match type of Hs with inv ?s =>
    pose proof (Hg (op s 0)); pose proof (Hg (op s 1)); pose proof (Hg (op s 1 + 1));
    pose proof (Ho 1); pose proof (Ho 2);
    pose proof (wf_fits_creg s (proj1 Hs) (op s 1) (proj1 (Ho 1)));
    pose proof (rpair_range s (op s 0) (proj1 Hs)); pose proof (rpair_range s (op s 1) (proj1 Hs))
  end; clear Hg Ho.
(** One value against its specification *)
Ltac value :=
  first
  [ reflexivity
  | apply u16_land; [assumption|first [by apply wf_op_nonneg|unfold fits in *; lia]]
  | apply u16_lor; [assumption|first [assumption|by apply bit_range, wf_op_nonneg]]
  | apply u16_lxor; [assumption|first [assumption|by apply bit_range, wf_op_nonneg]]
  | by apply u16_andnot
  | by apply u16_lnot
  | by apply u16_div; [|first [by apply wf_op_nonneg|apply Z.mod_pos_bound; lia]]
  | by apply u16_srx
  | apply truth_bit | apply truth_nand | apply u16_slx | apply u16_sext8 | apply u16_sext4
  | apply u16_setf_f | apply u16_setf_t
  | unfold fits, u16, u32 in *; zdml
  | unfold fits, u16, u32, rpair in *; zdml
  | unfold fits, u16, s16, wrap_signed, rpair in *; zdml ].
Ltac split_writes :=
  repeat match goal with
  | |- @eq (list write) (_ :: _) (_ :: _) => f_equal
  | |- @eq write _ _ => f_equal
  end.
Ltac normalise Hs :=
  rewrite ?lor_pair by (apply wf_znth_regs; assumption);
  rewrite ?u32_gpr_pair, ?GPR32_rpair by assumption;
  rewrite ?(u16_small (GPR _ _)), ?(u16_small (op _ _)) in * by assumption;
  autorewrite with conv in *;
  rewrite ?s16_neg in * by assumption; rewrite ?s16_sext4 in *;
  rewrite ?shiftr_bit by (by apply wf_op_nonneg, Hs);
  use_conditions; cbn [app];
  rewrite ?eqb_sext4 by assumption; rewrite ?land15, ?land255;
  rewrite ?Z.shiftl_mul_pow2, ?Z.shiftr_div_pow2
    by (first [lia|by apply wf_op_nonneg, Hs|apply Z.mod_pos_bound; lia]).
Ltac row Hs :=
  try (apply queues_issues; [|apply Hs]);
  match goal with |- queues ?m _ _ _ => unfold m end; queues_tac Hs;
  (eapply pend_app_eq; [eassumption| |]);
  unfold plain, with_imm16, compare, to_pair, rD, rA, rB, imm, imm4s, imm16, bit_of,
    PSW_F0, PSW_F1, PSW_C in *;
  reg_facts Hs;
  repeat match goal with H : pend _ _ _ |- _ => clear H end;
  normalise Hs; split_writes; value.

(** Each row, also while other writes are pending *)
Lemma alu_queues :
  Forall (fun row => forall s, inv s -> queues row.1 s (row.2.1 s) (row.2.2 s)) alu_table.
Proof.
  unfold alu_table. repeat apply List.Forall_cons; [..|apply List.Forall_nil];
    intros s Hs; cbn [fst snd]; row Hs.
Qed.

(** C2: Each arithmetic, logic, comparison, bit, shift and move instruction on
    general registers and flags makes exactly the writes its row of [alu_table]
    states in terms of integers: the carry of an addition or subtraction, the signed
    and unsigned comparisons with F1 receiving the old F0, results modulo 2^16 or
    2^32; and it changes nothing else. *)
Theorem alu_refines :
  Forall (fun row => forall s, inv s -> issues row.1 s (row.2.1 s) (row.2.2 s)) alu_table.
Proof.
  eapply List.Forall_impl; [|exact alu_queues]. intros row Hq s Hs.
  apply queues_issues; [by apply Hq|apply Hs].
Qed.

(** [add r0, r1] of 0xffff and 2: the sum wraps and the carry is set. *)
Lemma alu_refines_witness :
  let s := at_values [0xffff; 2; 0; 0; 0; 0; 0; 0; 0; 0; 0; 0; 0; 0; 0; 0] [0; 0] [0; 1; 0; 0] 0 in
  issues OP_200 s s [W_flag PSW_C_BIT true; W_reg 0 1].
Proof.
  intros s. apply (List.Forall_inv (List.Forall_inv_tail alu_refines) s).
  apply inv_at_values. vm_compute. reflexivity.
Defined.
