(* ===== verification/AccSpec.v ===== *)
(** * What the accumulator instructions compute

    The instructions of SimopsAcc.v in terms of integers: an accumulator is a
    number below [2 ^ 40], its signed view [sacc]; products are those of the signed
    or unsigned views, doubled in fixed-point mode; [rac] and [rachi] round and
    clamp.  [acc_refines] is the theorem.  What saturation does is stated as it is:
    [sat] has two values (see [saturation_two_values]). *)
From S2P Require Import Prelude CInt Opcodes State Memory Cregs.
From S2P Require Import SimopsAlu SimopsAcc SimopsFlow SimopsMem SimopsTrap Interp Logic OpRules.
From S2P Require Import Machine Effects AluSpec.

(** ** The specification *)

Section Spec.
Context (s : state).

Definition sacc (n : Z) : Z := wrap_signed 40 (ACC s n).
(** A register pair as a signed number *)
Definition spair (n : Z) : Z := s16 (GPR s n) * 2 ^ 16 + GPR s (n + 1).

Definition sat (v : Z) : Z :=
  if PSW_ST s then if MAX32 <? v then 2 ^ 31 - 1 else 2 ^ 40 - 2 ^ 31 else v mod 2 ^ 40.

(** Products, in fixed-point mode doubled, and with ST at most [MAX32]. *)
Definition fx (p : Z) : Z := if PSW_FX s then 2 * p else p.
Definition prod_ss : Z := fx (s16 (GPR s (op s 1)) * s16 (GPR s (op s 2))).
Definition prod_su : Z := fx (s16 (GPR s (op s 1)) * GPR s (op s 2)).
Definition prod_uu : Z := fx (GPR s (op s 1) * GPR s (op s 2)).
Definition prod_st : Z := if PSW_ST s then Z.min prod_ss MAX32 else prod_ss.

(** The saturation of the [...3s] forms, which sets F0 *)
Definition sat_pair (v : Z) : list write :=
  compare s true ++ to_pair s (if MAX32 <? v then 2 ^ 31 - 1 else 2 ^ 31).

(** Shifting by a signed amount *)
Definition scale (v sh : Z) : Z := if 0 <=? sh then v * 2 ^ sh else v / 2 ^ (- sh).
Definition clamp32 (v : Z) : Z := Z.max (- 2 ^ 31) (Z.min v (2 ^ 31 - 1)).
Definition round_shift : Z := wrap_signed 3 (op s 2).
Definition rac_value : Z :=
  (scale (sacc 0 * 2 ^ 16 + ACC s 1 mod 2 ^ 16) round_shift + 2 ^ 15) / 2 ^ 16.
Definition rachi_value : Z := scale (sacc (op s 1)) round_shift + 2 ^ 15.

(** The shift amount of a register, at most 16 *)
Definition shift_amount : Z := GPR s (op s 1) mod 32.
Definition if_amount (ws : list write) : list write :=
  if shift_amount <=? 16 then ws else [].
End Spec.

(** The immediate changes of the error exits *)
Definition error_state (fmt : string) (args : list Z) (s : state) : state :=
  set_exception SIGILL (set_out (out s ++ [Printf fmt args]) s).
Definition amount_state (s : state) : state :=
  if shift_amount s <=? 16 then s
  else error_state "ERROR: shift value %d too large.\n" [shift_amount s] s.
Definition rac_state (s : state) : state :=
  if op s 1 =? 0 then s
  else error_state "ERROR at PC 0x%x: instruction only valid for A0\n" [PC s * 4] s.

Definition acc_table : list (M unit * ((state -> state) * (state -> list write))) := [
  (OP_5607, (plain, fun s => compare s (sacc s (op s 0) <? 0) ++
     [W_acc (op s 0) (if sacc s (op s 0) <? 0 then sat s (- sacc s (op s 0)) else ACC s (op s 0))]));
  (OP_1201, (plain, fun s => [W_acc (op s 0) (sat s (sacc s (op s 0) + spair s (op s 1)))]));
  (OP_1203, (plain, fun s => [W_acc (op s 0) (sat s (sacc s (op s 0) + sacc s (op s 1)))]));
  (OP_17000200, (plain, fun s => to_pair s (sacc s (op s 2) + spair s (op s 1))));
  (OP_17000202, (plain, fun s => to_pair s (sacc s (op s 1) + sacc s (op s 2))));
  (OP_17001200, (plain, fun s => sat_pair s (sacc s (op s 2) + spair s (op s 1))));
  (OP_17001202, (plain, fun s => sat_pair s (sacc s (op s 1) + sacc s (op s 2))));
  (OP_5605, (plain, fun s => [W_acc (op s 0) (sat s (- sacc s (op s 0)))]));
  (OP_1223, (plain, fun s =>
     [W_acc (op s 0) (sat s (sacc s (op s 0) + sacc s (op s 1) / 2 ^ 16))]));
  (OP_1001, (plain, fun s => [W_acc (op s 0) (sat s (sacc s (op s 0) - spair s (op s 1)))]));
  (OP_1003, (plain, fun s => [W_acc (op s 0) (sat s (sacc s (op s 0) - sacc s (op s 1)))]));
  (OP_17000000, (plain, fun s => to_pair s (spair s (op s 1) - sacc s (op s 2))));
  (OP_17000002, (plain, fun s => to_pair s (sacc s (op s 1) - sacc s (op s 2))));
  (OP_17001000, (plain, fun s => sat_pair s (spair s (op s 1) - sacc s (op s 2))));
  (OP_17001002, (plain, fun s => sat_pair s (sacc s (op s 1) - sacc s (op s 2))));
  (OP_2A00, (plain, fun s => [W_acc (op s 0) (sat s (prod_st s + sacc s (op s 0)))]));
  (OP_1A00, (plain, fun s => [W_acc (op s 0) ((sacc s (op s 0) + prod_su s) mod 2 ^ 40)]));
  (OP_3A00, (plain, fun s => [W_acc (op s 0) ((ACC s (op s 0) + prod_uu s) mod 2 ^ 40)]));
  (OP_2800, (plain, fun s => [W_acc (op s 0) (sat s (sacc s (op s 0) - prod_st s))]));
  (OP_1800, (plain, fun s => [W_acc (op s 0) ((sacc s (op s 0) - prod_su s) mod 2 ^ 40)]));
  (OP_3800, (plain, fun s => [W_acc (op s 0) ((ACC s (op s 0) - prod_uu s) mod 2 ^ 40)]));
  (OP_2C00, (plain, fun s => [W_acc (op s 0) (prod_st s mod 2 ^ 40)]));
  (OP_1C00, (plain, fun s => [W_acc (op s 0) (prod_su s mod 2 ^ 40)]));
  (OP_3C00, (plain, fun s => [W_acc (op s 0) (prod_uu s mod 2 ^ 40)]));
  (OP_1603, (plain, fun s => compare s (sacc s (op s 0) <? sacc s (op s 1))));
  (OP_1403, (plain, fun s => compare s (ACC s (op s 0) =? ACC s (op s 1))));
  (OP_3600, (plain, fun s => compare s (sacc s (op s 0) <? spair s (op s 1)) ++
     [W_acc (op s 0) (Z.max (sacc s (op s 0)) (spair s (op s 1)) mod 2 ^ 40)]));
  (OP_3602, (plain, fun s => compare s (sacc s (op s 0) <? sacc s (op s 1)) ++
     [W_acc (op s 0) (Z.max (sacc s (op s 0)) (sacc s (op s 1)) mod 2 ^ 40)]));
  (OP_3601, (plain, fun s => compare s (spair s (op s 1) <? sacc s (op s 0)) ++
     [W_acc (op s 0) (Z.min (sacc s (op s 0)) (spair s (op s 1)) mod 2 ^ 40)]));
  (OP_3603, (plain, fun s => compare s (sacc s (op s 1) <? sacc s (op s 0)) ++
     [W_acc (op s 0) (Z.min (sacc s (op s 0)) (sacc s (op s 1)) mod 2 ^ 40)]));
  (OP_5201, (rac_state, fun s => compare s (negb (clamp32 (rac_value s) =? rac_value s)) ++
     to_pair s (clamp32 (rac_value s))));
  (OP_4201, (plain, fun s => compare s (negb (clamp32 (rachi_value s) =? rachi_value s)) ++
     [W_reg (op s 0) (clamp32 (rachi_value s) / 2 ^ 16 mod 2 ^ 16)]));
  (OP_3200, (amount_state, fun s =>
     if_amount s [W_acc (op s 0) (sat s (sacc s (op s 0) * 2 ^ shift_amount s))]));
  (OP_3201, (with_imm16, fun s => [W_acc (op s 0) (sat s (sacc s (op s 0) * 2 ^ imm16 s))]));
  (OP_3400, (amount_state, fun s =>
     if_amount s [W_acc (op s 0) ((sacc s (op s 0) / 2 ^ shift_amount s) mod 2 ^ 40)]));
  (OP_3401, (with_imm16, fun s => [W_acc (op s 0) ((sacc s (op s 0) / 2 ^ imm16 s) mod 2 ^ 40)]));
  (OP_3000, (amount_state, fun s =>
     if_amount s [W_acc (op s 0) (ACC s (op s 0) / 2 ^ shift_amount s)]));
  (OP_3001, (with_imm16, fun s => [W_acc (op s 0) (ACC s (op s 0) / 2 ^ imm16 s)]));
  (OP_5601, (plain, fun s => [W_acc (op s 0) 0]));
  (OP_3E00, (plain, fun s => to_pair s (ACC s (op s 1))));
  (OP_3E01, (plain, fun s => [W_acc (op s 1) (spair s (op s 0) mod 2 ^ 40)]));
  (OP_3E03, (plain, fun s => [W_acc (op s 0) (ACC s (op s 1))]));
  (OP_1E04, (plain, fun s => [W_reg (op s 0) (ACC s (op s 1) / 2 ^ 32)]));
  (OP_1E00, (plain, fun s => [W_reg (op s 0) (ACC s (op s 1) / 2 ^ 16 mod 2 ^ 16)]));
  (OP_1E02, (plain, fun s => [W_reg (op s 0) (ACC s (op s 1) mod 2 ^ 16)]));
  (OP_1E41, (plain, fun s =>
     [W_acc (op s 1) (ACC s (op s 1) mod 2 ^ 32 + GPR s (op s 0) mod 2 ^ 8 * 2 ^ 32)]));
  (OP_1E01, (plain, fun s =>
     [W_acc (op s 1) ((s16 (GPR s (op s 0)) * 2 ^ 16 + ACC s (op s 1) mod 2 ^ 16) mod 2 ^ 40)]));
  (OP_1E21, (plain, fun s => [W_acc (op s 1) (s16 (GPR s (op s 0)) mod 2 ^ 40)]))
].

(** ** Arithmetic of the bodies *)

Lemma sacc_range s n : - 2 ^ 39 <= sacc s n < 2 ^ 39.
Proof. apply (wrap_signed_range 40). lia. Qed.
Lemma s16_range x : - 2 ^ 15 <= s16 x < 2 ^ 15.
Proof. apply (wrap_signed_range 16). lia. Qed.
Lemma SEXT40_sacc s n : SEXT40 (ACC s n) = sacc s n.
Proof. apply SEXT40_wrap. Qed.
Lemma SEXT40_small v : - 2 ^ 39 <= v < 2 ^ 39 -> SEXT40 v = v.
Proof. intros. rewrite SEXT40_wrap. by apply (wrap_signed_small 40). Qed.
Lemma s64_small v : - 2 ^ 63 <= v < 2 ^ 63 -> s64 v = v.
Proof. intros. by apply (wrap_signed_small 64). Qed.
Lemma s32_small v : - 2 ^ 31 <= v < 2 ^ 31 -> s32 v = v.
Proof. intros. by apply (wrap_signed_small 32). Qed.
Lemma sacc_mod s n : wf s -> sacc s n mod 2 ^ 40 = ACC s n.
Proof.
  intros Hs. unfold sacc. rewrite wrap_signed_mod by lia. apply Z.mod_small.
  by apply wf_znth_acc.
Qed.
Lemma ACC_eqb s n m : wf s ->
  (Z.land (ACC s n) MASK40 =? Z.land (ACC s m) MASK40) = (ACC s n =? ACC s m).
Proof.
  intros Hs. rewrite !MASK40_mod. pose proof (wf_znth_acc s Hs n). pose proof (wf_znth_acc s Hs m).
  unfold fits in *. by rewrite !Z.mod_small.
Qed.

Lemma spair_range s n : wf s -> - 2 ^ 31 <= spair s n < 2 ^ 31.
Proof.
  intros Hs. pose proof (wf_znth_regs s Hs (n + 1)). pose proof (s16_range (GPR s n)).
  unfold spair, fits in *. lia.
Qed.
Lemma sext_pair_spair s n : wf s -> sext_pair s n = spair s n.
Proof.
  intros Hs. unfold sext_pair, spair. rewrite SEXT16_wrap.
  apply lor_add_disjoint; [lia|by apply wf_znth_regs].
Qed.
Lemma gpr_pair_eq s n : wf s -> gpr_pair s n = spair s n.
Proof.
  intros Hs. pose proof (wf_znth_regs s Hs n). pose proof (wf_znth_regs s Hs (n + 1)).
  unfold fits in *. unfold gpr_pair, spair. rewrite lor_add_disjoint by lia.
  rewrite s16_cases by lia. unfold s32, wrap_signed.
  destruct (Z.ltb_spec (GPR s n) (2 ^ 15)); zdml.
Qed.
Lemma gpr_pair_spair s n : wf s -> SEXT40 (gpr_pair s n) = spair s n.
Proof.
  intros Hs. rewrite gpr_pair_eq by done. pose proof (spair_range s n Hs). apply SEXT40_small. lia.
Qed.

Lemma sat_saturate s v : saturate (psw_bit s PSW_ST_BIT) v mod 2 ^ 40 = sat s v.
Proof.
  unfold saturate, sat, PSW_ST. rewrite MASK40_mod. destruct (psw_bit s PSW_ST_BIT).
  - unfold MAX32, MIN32. destruct (Z.ltb_spec 0x7fffffff v); [done|].
    by destruct (Z.ltb_spec v 0xff80000000); [|lia].
  - by rewrite Z.mod_mod.
Qed.
Lemma sat_saturate_shl s v : saturate_shl (psw_bit s PSW_ST_BIT) v mod 2 ^ 40 = sat s v.
Proof.
  unfold saturate_shl, sat, PSW_ST. rewrite MASK40_mod. destruct (psw_bit s PSW_ST_BIT).
  - unfold MAX32, MIN32. destruct (Z.ltb_spec 0x7fffffff v); [done|].
    by destruct (Z.ltb_spec v 0xffffff80000000); [|lia].
  - by rewrite Z.mod_mod.
Qed.

(** Products *)
Lemma prod_ss_bound x y : - 2 ^ 30 <= s16 x * s16 y <= 2 ^ 30.
Proof. pose proof (s16_range x). pose proof (s16_range y). nia. Qed.
Lemma prod_su_bound x y : fits 16 y -> - 2 ^ 31 < s16 x * y < 2 ^ 31.
Proof. intros. pose proof (s16_range x). unfold fits in *. nia. Qed.
Lemma prod_uu_bound x y : fits 16 x -> fits 16 y -> 0 <= x * y < 2 ^ 32.
Proof. unfold fits. intros. nia. Qed.

Lemma ext_prod_ss x y : SEXT40 (s32 (s16 x * s16 y)) = s16 x * s16 y.
Proof. pose proof (prod_ss_bound x y). rewrite s32_small, SEXT40_small; lia. Qed.
Lemma ext_prod_su x y : fits 16 y -> SEXT40 (s32 (s16 x * y)) = s16 x * y.
Proof. intros H. pose proof (prod_su_bound x y H). rewrite s32_small, SEXT40_small; lia. Qed.
Lemma ext_prod_uu x y : fits 16 x -> fits 16 y -> u32 (x * y) = x * y.
Proof. intros Hx Hy. pose proof (prod_uu_bound x y Hx Hy). by apply u32_small. Qed.

Lemma fx_shift_eq (f : bool) p : - 2 ^ 38 <= p < 2 ^ 38 -> fx_shift f p = if f then 2 * p else p.
Proof.
  intros Hp. unfold fx_shift. destruct f; [|done]. rewrite Z.shiftl_mul_pow2 by lia.
  rewrite s64_small by lia. rewrite MASK40_mod, SEXT40_wrap.
  rewrite <- (wrap_signed_congr 40 (p * 2 ^ 1)) by (rewrite ?Z.mod_mod; lia).
  rewrite wrap_signed_small by lia. lia.
Qed.
Lemma fx_if (f : bool) p : - 2 ^ 38 <= p < 2 ^ 38 ->
  (if f then s64 (Z.shiftl p 1) else p) = if f then 2 * p else p.
Proof.
  intros Hp. destruct f; [|done]. rewrite Z.shiftl_mul_pow2 by lia. rewrite s64_small; lia.
Qed.
Lemma fx_if_u (f : bool) p : 0 <= p < 2 ^ 38 ->
  (if f then u64 (Z.shiftl p 1) else p) = if f then 2 * p else p.
Proof.
  intros Hp. destruct f; [|done]. rewrite Z.shiftl_mul_pow2 by lia.
  unfold u64. rewrite Z.mod_small; lia.
Qed.

Lemma u16_shiftr16 v : u16 (Z.shiftr v 16) = v / 2 ^ 16 mod 2 ^ 16.
Proof. unfold u16. by rewrite Z.shiftr_div_pow2. Qed.
Lemma u64_mod40 v : u64 v mod 2 ^ 40 = v mod 2 ^ 40.
Proof. unfold u64. zdml. Qed.
Lemma land31 x : Z.land x 31 = x mod 32.
Proof. change 31 with (Z.ones 5). by apply Z.land_ones. Qed.
Lemma land65535 x : Z.land x 0xffff = x mod 2 ^ 16.
Proof. change 0xffff with (Z.ones 16). by apply Z.land_ones. Qed.

(** The doubled products of the bodies, under the state's FX *)
Lemma fx_shift_fx s p : - 2 ^ 38 <= p < 2 ^ 38 -> fx_shift (psw_bit s PSW_FX_BIT) p = fx s p.
Proof. apply fx_shift_eq. Qed.
Lemma fx_signed s p : - 2 ^ 38 <= p < 2 ^ 38 ->
  (if psw_bit s PSW_FX_BIT then s64 (Z.shiftl p 1) else p) = fx s p.
Proof. apply fx_if. Qed.
Lemma fx_unsigned s p : 0 <= p < 2 ^ 38 ->
  (if psw_bit s PSW_FX_BIT then u64 (Z.shiftl p 1) else p) = fx s p.
Proof. apply fx_if_u. Qed.
Lemma fx_range s p : - 2 ^ 38 <= p < 2 ^ 38 -> - 2 ^ 39 <= fx s p < 2 ^ 39.
Proof. unfold fx. destruct (PSW_FX s); lia. Qed.
Lemma st_min (st : bool) v : (if st && (MAX32 <? v) then MAX32 else v) = if st then Z.min v MAX32 else v.
Proof. destruct st; [|done]. destruct (Z.ltb_spec MAX32 v); simpl; lia. Qed.
(** [mulx] masks its product in the other branch only. *)
Lemma st_min_mod (st : bool) v :
  (if st && (MAX32 <? v) then MAX32 else v mod 2 ^ 40) mod 2 ^ 40 =
  (if st then Z.min v MAX32 else v) mod 2 ^ 40.
Proof.
  rewrite <- st_min. destruct (st && (MAX32 <? v)); [done|]. by rewrite Z.mod_mod.
Qed.

(** ** Rounding *)

Lemma SEXT3_round s : SEXT3 (op s 2) = round_shift s.
Proof. unfold round_shift. apply SEXT3_wrap. Qed.
Lemma round_shift_range s : - 4 <= round_shift s < 4.
Proof. apply (wrap_signed_range 3). lia. Qed.
Lemma pow_small k : 0 <= k <= 16 -> 1 <= 2 ^ k <= 2 ^ 16.
Proof.
  intros Hk. split; [|apply Z.pow_le_mono_r; lia].
  change 1 with (2 ^ 0). apply Z.pow_le_mono_r; lia.
Qed.
Lemma scale_eq v sh : - 2 ^ 55 <= v < 2 ^ 55 -> -4 <= sh < 4 ->
  (if 0 <=? sh then s64 (Z.shiftl v sh) else Z.shiftr v (- sh)) = scale v sh.
Proof.
  intros Hv Hs. unfold scale. destruct (Z.leb_spec 0 sh).
  - rewrite Z.shiftl_mul_pow2 by lia. apply s64_small.
    assert (2 ^ sh <= 2 ^ 3) by (apply Z.pow_le_mono_r; lia).
    pose proof (pow_small sh). nia.
  - by rewrite Z.shiftr_div_pow2 by lia.
Qed.

(** The 56-bit value [rac] starts from *)
Definition rac_source (s : state) : Z := sacc s 0 * 2 ^ 16 + ACC s 1 mod 2 ^ 16.
Lemma rac_source_eq s : wf s ->
  SEXT56 (Z.lor (s64 (Z.shiftl (ACC s 0) 16)) (Z.land (ACC s 1) 0xffff)) = rac_source s.
Proof.
  intros Hs. pose proof (wf_znth_acc s Hs 0) as H0. unfold fits in H0.
  pose proof (Z.mod_pos_bound (ACC s 1) (2 ^ 16) ltac:(lia)) as H1. pose proof (sacc_range s 0).
  rewrite land65535, Z.shiftl_mul_pow2, s64_small by lia. rewrite <- Z.shiftl_mul_pow2 by lia.
  rewrite lor_add_disjoint, SEXT56_wrap by lia. unfold rac_source.
  rewrite <- (wrap_signed_small 56 (sacc s 0 * 2 ^ 16 + _)) by lia. apply wrap_signed_congr; [lia|].
  rewrite <- (sacc_mod s 0) by done. zdml.
Qed.
Lemma rac_value_eq s : wf s ->
  Z.shiftr ((if 0 <=? round_shift s then s64 (Z.shiftl (rac_source s) (round_shift s))
             else Z.shiftr (rac_source s) (- round_shift s)) + 0x8000) 16 = rac_value s.
Proof.
  intros Hs. pose proof (sacc_range s 0). pose proof (round_shift_range s).
  pose proof (Z.mod_pos_bound (ACC s 1) (2 ^ 16) ltac:(lia)).
  rewrite scale_eq by (unfold rac_source; lia). by rewrite Z.shiftr_div_pow2.
Qed.
Lemma rachi_value_eq s :
  (if 0 <=? round_shift s then s64 (Z.shiftl (sacc s (op s 1)) (round_shift s))
   else Z.shiftr (sacc s (op s 1)) (- round_shift s)) + 0x8000 = rachi_value s.
Proof.
  pose proof (sacc_range s (op s 1)). pose proof (round_shift_range s).
  by rewrite scale_eq by lia.
Qed.

Lemma clamp_high v : (SEXT44 0x7fffffff <? v) = true -> clamp32 v = 2 ^ 31 - 1 /\ clamp32 v <> v.
Proof. change (SEXT44 _) with (2 ^ 31 - 1). unfold clamp32. intros ?%Z.ltb_lt. lia. Qed.
Lemma clamp_low v : (v <? SEXT44 0xfff80000000) = true -> clamp32 v = - 2 ^ 31 /\ clamp32 v <> v.
Proof. change (SEXT44 _) with (- 2 ^ 31). unfold clamp32. intros ?%Z.ltb_lt. lia. Qed.
Lemma clamp_in v :
  (SEXT44 0x7fffffff <? v) = false -> (v <? SEXT44 0xfff80000000) = false -> clamp32 v = v.
Proof.
  change (SEXT44 0x7fffffff) with (2 ^ 31 - 1). change (SEXT44 _) with (- 2 ^ 31).
  unfold clamp32. intros ?%Z.ltb_ge ?%Z.ltb_ge. lia.
Qed.

(** ** Shifts and moves *)

Lemma sat_shl s n k : 0 <= k <= 16 -> sat s (s64 (Z.shiftl (sacc s n) k)) = sat s (sacc s n * 2 ^ k).
Proof.
  intros Hk. pose proof (sacc_range s n). pose proof (pow_small k Hk).
  rewrite Z.shiftl_mul_pow2 by lia. rewrite s64_small by nia. done.
Qed.
Lemma acc_srl s n k : wf s -> 0 <= k ->
  Z.shiftr (ACC s n mod 2 ^ 40) k mod 2 ^ 40 = ACC s n / 2 ^ k.
Proof.
  intros Hs Hk. pose proof (wf_znth_acc s Hs n) as Ha. unfold fits in Ha.
  assert (0 < 2 ^ k) by (apply Z.pow_pos_nonneg; lia).
  rewrite (Z.mod_small (ACC s n)), Z.shiftr_div_pow2 by lia. apply Z.mod_small.
  split; [apply Z.div_pos; lia|]. apply Z.div_lt_upper_bound; [lia|]. nia.
Qed.
Lemma ACC_mod s n : wf s -> ACC s n mod 2 ^ 40 = ACC s n.
Proof. intros Hs. apply Z.mod_small. by apply wf_znth_acc. Qed.
Lemma PC_shl s : Z.shiftl (CREG s PC_CR) 2 = PC s * 4.
Proof. by rewrite Z.shiftl_mul_pow2. Qed.
Lemma SEXT16_mod40 x : SEXT16 x mod 2 ^ 40 = s16 x mod 2 ^ 40.
Proof. by rewrite SEXT16_wrap. Qed.
Lemma mvtacg_value s : wf s ->
  Z.lor (Z.land (ACC s (op s 1)) MASK32) (Z.shiftl (GPR s (op s 0) mod 2 ^ 8) 32) mod 2 ^ 40 =
  ACC s (op s 1) mod 2 ^ 32 + GPR s (op s 0) mod 2 ^ 8 * 2 ^ 32.
Proof.
  intros Hs. change MASK32 with (Z.ones 32). rewrite Z.land_ones by lia.
  rewrite Z.lor_comm, lor_add_disjoint by zdml. zdml.
Qed.
Lemma mvtachi_value x y :
  Z.lor (Z.shiftl (SEXT16 x) 16) (u64 (Z.land y 0xffff)) mod 2 ^ 40 =
  (s16 x * 2 ^ 16 + y mod 2 ^ 16) mod 2 ^ 40.
Proof.
  rewrite land65535, SEXT16_wrap. pose proof (Z.mod_pos_bound y (2 ^ 16) ltac:(lia)).
  unfold u64. rewrite (Z.mod_small (y mod _)) by lia. by rewrite lor_add_disjoint by lia.
Qed.
Lemma mvfacg_value s n : wf s ->
  u16 (Z.shiftr (ACC s n) 32 mod 2 ^ 8) = ACC s n / 2 ^ 32.
Proof.
  intros Hs. pose proof (wf_znth_acc s Hs n) as Ha. unfold fits, u16 in *.
  rewrite Z.shiftr_div_pow2 by lia. zdml.
Qed.

(** ** Proving a row *)

Ltac prod_facts s Hs :=
  pose proof (wf_znth_regs s (proj1 Hs) (op s 1)); pose proof (wf_znth_regs s (proj1 Hs) (op s 2));
  pose proof (prod_ss_bound (GPR s (op s 1)) (GPR s (op s 2)));
  pose proof (prod_su_bound (GPR s (op s 1)) (GPR s (op s 2)) ltac:(assumption));
  pose proof (prod_uu_bound (GPR s (op s 1)) (GPR s (op s 2)) ltac:(assumption) ltac:(assumption)).
Ltac acc_normalise s Hs :=
  rewrite ?SEXT40_sacc in *;
  rewrite ?sext_pair_spair, ?gpr_pair_spair in * by assumption;
  rewrite ?(u16_small (GPR _ _)) in * by assumption;
  rewrite ?ext_prod_ss, ?ext_prod_su, ?ext_prod_uu by assumption;
  rewrite ?sat_saturate, ?sat_saturate_shl, ?MASK40_mod, ?Z.mod_mod in * by lia;
  autorewrite with conv in *; rewrite ?u16_s16, ?land255, ?land31 in *;
  rewrite ?SEXT3_round in *; rewrite ?rac_source_eq, ?rac_value_eq, ?rachi_value_eq in * by assumption;
  rewrite ?fx_shift_fx, ?fx_signed, ?fx_unsigned by lia; fold (PSW_ST s) in *;
  rewrite ?st_min, ?st_min_mod, ?u64_mod40.
(** A clamped result, from the comparisons the code has made *)
Ltac clamp :=
  match goal with
  | H : (SEXT44 _ <? ?v) = true |- _ => destruct (clamp_high v H)
  | H : (?v <? SEXT44 _) = true |- _ => destruct (clamp_low v H)
  | H : (SEXT44 _ <? ?v) = false, H' : (?v <? SEXT44 _) = false |- _ =>
      pose proof (clamp_in v H H')
  end;
  first
  [ symmetry; apply negb_true_iff, Z.eqb_neq; assumption
  | symmetry; apply negb_false_iff, Z.eqb_eq; assumption
  | match goal with H : clamp32 _ = _ |- _ => rewrite H end;
    first [reflexivity | apply u16_shiftr16] ].
(** The greater or lesser of two numbers *)
Ltac extremum s :=
  rewrite <- ?(sacc_mod s) by assumption; rewrite ?Z.mod_mod by lia; f_equal; lia.
Ltac amount :=
  first [ lia | by apply wf_op_nonneg | apply Z.mod_pos_bound; lia
        | split; [by apply wf_op_nonneg|lia]
        | split; [apply Z.mod_pos_bound; lia|lia] ].
Ltac acc_value s :=
  first
  [ reflexivity
  | apply u16_shiftr16
  | by apply sacc_mod
  | by apply ACC_mod
  | by rewrite !ACC_mod by assumption
  | by rewrite Z.shiftr_div_pow2 by amount
  | by rewrite PC_shl
  | clamp
  | apply sat_shl; amount
  | apply acc_srl; [assumption|amount]
  | by apply mvtacg_value | by apply mvtachi_value | by apply mvfacg_value | by apply SEXT16_mod40
  | extremum s ].
Ltac acc_row s Hs :=
  try (apply queues_issues; [|apply Hs]);
  match goal with |- queues ?m _ _ _ => unfold m, saturate_F0, set_pair, shift_too_large end;
  queues_tac Hs; (try (exfalso; unfold MAX32, MIN32 in *; lia));
  (eapply pend_app_eq; [eassumption| |]);
  unfold plain, with_imm16, amount_state, rac_state, error_state, sat_pair, if_amount, shift_amount,
    compare, to_pair, rD, imm16, prod_st, prod_ss, prod_su, prod_uu, PSW_F0, PSW_F1, PSW_C in *;
  repeat match goal with H : pend _ _ _ |- _ => clear H end;
  prod_facts s Hs; acc_normalise s Hs; use_conditions; cbn [app]; split_writes; acc_value s.

(** Each row, also while other writes are pending *)
Lemma acc_queues :
  Forall (fun row => forall s, inv s -> op s 1 < 16 ->
    queues row.1 s (row.2.1 s) (row.2.2 s)) acc_table.
Proof.
  unfold acc_table. repeat apply List.Forall_cons; [..|apply List.Forall_nil];
    intros s Hs Hop; cbn [fst snd]; acc_row s Hs.
Qed.

(** C3: Each instruction on the accumulators makes exactly the writes its row of
    [acc_table] states in terms of integers, for operands that are 4-bit fields:
    sums, products (doubled in fixed-point mode), comparisons, shifts, extrema and
    moves of 40-bit numbers, rounding with its clamp to 32 bits, and the error exits
    that raise SIGILL; and it changes nothing else. *)
Theorem acc_refines :
  Forall (fun row => forall s, inv s -> op s 1 < 16 ->
    issues row.1 s (row.2.1 s) (row.2.2 s)) acc_table.
Proof.
  eapply List.Forall_impl; [|exact acc_queues]. intros row Hq s Hs Hop.
  apply queues_issues; [by apply Hq|apply Hs].
Qed.

(** [add a0, a1] of -1 and 2^35 *)
Lemma acc_refines_witness :
  let s := at_values (replicate 16 0) [2 ^ 40 - 1; 2 ^ 35] [0; 1; 0; 0] 0 in
  issues OP_1203 s s [W_acc 0 (2 ^ 35 - 1)].
Proof.
  intros s. assert (inv s) as Hs by (apply inv_at_values; vm_compute; reflexivity).
  assert (op s 0 = 0 /\ op s 1 = 1 /\ sat s (sacc s 0 + sacc s 1) = 2 ^ 35 - 1) as (E0 & E1 & Ev)
    by (vm_compute; done).
  clearbody s. rewrite <- Ev, <- E1, <- E0 at 1. rewrite <- E0 at 2.
  apply (List.Forall_inv (List.Forall_inv_tail (List.Forall_inv_tail acc_refines)) s Hs). lia.
Defined.

(** What [saturate] meant to compute, with the bound [MIN32] at [-2^31]. *)
Definition saturate_ideal (v : Z) : Z := clamp32 v mod 2 ^ 40.

(** With ST set, an accumulator addition leaves one of two values, whatever the
    operands: 0x7fffffff if the sum is above it and 0xff80000000 otherwise, because
    [MIN32] is a positive constant; so a sum that needs no saturation, such as
    1 + 1, is replaced by -2^31.  Without ST the sum is exact modulo 2^40. *)
Theorem saturation_two_values s :
  inv s -> exists v,
    issues OP_1203 s s [W_acc (op s 0) v] /\
    (PSW_ST s = true -> v = (if MAX32 <? sacc s (op s 0) + sacc s (op s 1) then 0x7fffffff else 0xff80000000)) /\
    (PSW_ST s = true -> - 2 ^ 31 < sacc s (op s 0) + sacc s (op s 1) <= MAX32 ->
       v <> saturate_ideal (sacc s (op s 0) + sacc s (op s 1))) /\
    (PSW_ST s = false -> v = (ACC s (op s 0) + ACC s (op s 1)) mod 2 ^ 40).
Proof.
  intros Hs. exists (sat s (sacc s (op s 0) + sacc s (op s 1))). split; [acc_row s Hs|].
  pose proof (sacc_mod s (op s 0) (proj1 Hs)). pose proof (sacc_mod s (op s 1) (proj1 Hs)).
  unfold sat, saturate_ideal, clamp32, MAX32.
  split; [by intros ->|split; intros ->].
  - intros Hv. destruct (Z.ltb_spec 0x7fffffff (sacc s (op s 0) + sacc s (op s 1))); zdml.
  - zdml.
Qed.

(** 1 + 1 with ST *)
Lemma saturation_two_values_witness :
  let s := at_values (replicate 16 0) [1; 1] [0; 1; 0; 0] PSW_ST_BIT in
  PSW_ST s = true /\ exists v, issues OP_1203 s s [W_acc 0 v] /\ v = 0xff80000000.
Proof.
  intros s. split; [vm_compute; reflexivity|].
  destruct (saturation_two_values s) as (v & He & Hst & _).
  - apply inv_at_values. vm_compute. reflexivity.
  - exists v. split; [exact He|]. apply Hst. vm_compute. reflexivity.
Defined.
