(* ===== verification/FlowSpec.v ===== *)
(** * Control flow, the PSW and the two stack pointers

    What the instructions of SimopsFlow.v and the vectored trap do, as the writes
    they make ([flow_refines]).  A write of the whole PSW also switches between the
    two stack pointers: [stacks] is the abstract view (a user and an interrupt stack
    pointer, one of them visible as r15), which no PSW write changes. *)
From S2P Require Import Prelude CInt Opcodes State Memory Cregs.
From S2P Require Import SimopsAlu SimopsAcc SimopsFlow SimopsMem SimopsTrap Interp Logic OpRules.
From S2P Require Import Machine Effects AluSpec AccSpec.

(** ** Writing the PSW *)

Section Psw.
Context (s : state).

(** The held stack pointer is saved, and the other one becomes r15 if SM changes. *)
Definition switch_sp (v : Z) : list write :=
  W_sp (b2z (PSW_SM s)) (GPR s 15) ::
  (if Bool.eqb (PSW_SM s) (Z.testbit v 15) then []
   else [W_reg 15 (HELD_SP s (b2z (Z.testbit v 15)))]).
Definition psw_writes (v : Z) : list write :=
  switch_sp v ++ [W_creg PSW_CR (Z.land v PSW_MASK)].
(** ST without FX is an error. *)
Definition psw_state (v : Z) : state :=
  if Z.testbit v 6 && negb (Z.testbit v 7) then
    error_state "ERROR at PC 0x%x: ST can only be set when FX is set.\n" [PC s * 4] s
  else s.
End Psw.

Lemma psw_mask_bit v i :
  (i =? 15) || (i =? 7) || (i =? 6) = true ->
  truth (Z.land (Z.land v PSW_MASK) (2 ^ i)) = Z.testbit v i.
Proof.
  intros Hi. rewrite truth_bit, Z.land_spec.
  assert (Z.testbit PSW_MASK i = true) as ->; [|by rewrite andb_true_r].
  by apply orb_prop in Hi as [[->%Z.eqb_eq| ->%Z.eqb_eq]%orb_prop| ->%Z.eqb_eq].
Qed.

Lemma wf_psw_state s v : wf s -> wf (psw_state s v).
Proof. unfold psw_state. destruct (_ && _); [apply wf_err|done]. Qed.

Lemma wp_move_to_psw s1 ws s v (Q : unit -> state -> Prop) :
  pend s1 ws s -> (length ws <= 5)%nat -> wf s1 ->
  (forall s', pend (psw_state s1 v) (ws ++ switch_sp s1 v) s' -> Q tt s') ->
  wp (move_to_psw 0 (Z.land v PSW_MASK)) s Q.
Proof.
  intros Hp Hl Hs HQ. destruct (pend_read_all _ _ _ Hp) as (l & t & ->).
  unfold move_to_psw. change (Z.land 0 _ =? 0) with true. cbv beta zeta.
  change PSW_SM_BIT with (2 ^ 15). change PSW_ST_BIT with (2 ^ 6). change PSW_FX_BIT with (2 ^ 7).
  rewrite !psw_mask_bit by done.
  pose proof (u16_small _ (wf_znth_regs s1 Hs 15)) as E1. change (znth (regs s1) 15) with (GPR s1 15) in E1.
  pose proof (u16_small _ (wf_znth_sp s1 Hs (b2z (Z.testbit v 15)))) as E2.
  change (znth (sp s1) ?n) with (HELD_SP s1 n) in E2.
  apply wp_bind. apply (wp_mono _ _ (fun _ s' => pend s1 (ws ++ switch_sp s1 v) s')).
  - unfold when at 1, switch_sp. unfold_reads. apply wp_get, wp_bind. autorewrite with reads.
    eapply wp_SET_HELD_SP; [exact Hp|unfold NR_SLOTS; lia|].
    intros s' Hp'. destruct (pend_read_all _ _ _ Hp') as (l' & t' & ->). apply wp_get.
    autorewrite with reads. change (GPR s1 SP_IDX) with (GPR s1 15) in Hp'. rewrite E1 in Hp'.
    apply wp_when; intros Hc; [apply negb_true_iff in Hc|apply negb_false_iff in Hc]; rewrite Hc.
    + eapply wp_SET_GPR; [exact Hp'|rewrite length_app; simpl; unfold NR_SLOTS; lia|].
      intros s'' Hp''. rewrite E2, <- app_assoc in Hp''. exact Hp''.
    + exact Hp'.
  - clear Hp. intros _ s' Hp. apply wp_bind.
    apply (wp_mono _ _ (fun _ s' => pend (psw_state s1 v) (ws ++ switch_sp s1 v) s')).
    + unfold when at 1, psw_state. apply wp_when; intros ->; [|done].
      apply wp_get, wp_bind. destruct (pend_read_all _ _ _ Hp) as (l' & t' & ->).
      eapply wp_printf; [exact Hp|]. intros s'' Hp''. eapply wp_exception; [exact Hp''|].
      unfold PC. rewrite PC_shl. done.
    + intros _ s'' Hp'. apply HQ. by apply (pend_trace _ _ _ (fun s => Z.lor (Z.land (trace_psw s) 0)
        (Z.land v PSW_MASK))) in Hp'.
Qed.

Lemma apply_switch_sp_cregs s v : forall s', cregs (apply_writes (switch_sp s v) s') = cregs s'.
Proof. intros s'. unfold switch_sp. by destruct (Bool.eqb _ _). Qed.

Lemma cr_value_psw v : cr_value PSW_CR v = Z.land v PSW_MASK.
Proof. done. Qed.

Lemma wp_SET_PSW_CR s1 ws s v (Q : Z -> state -> Prop) :
  pend s1 ws s -> (length ws <= 5)%nat -> wf s1 -> creg_fresh PSW_CR ws = true ->
  (forall x s', pend (psw_state s1 (u16 v)) (ws ++ psw_writes s1 (u16 v)) s' -> Q x s') ->
  wp (SET_CREG PSW_CR v) s Q.
Proof.
  intros Hp Hl Hs Hf HQ. unfold SET_CREG, move_to_cr. cbv zeta.
  rewrite cr_value_psw. change (PSW_CR =? PSW_CR) with true. apply wp_bind. unfold when at 1.
  eapply wp_move_to_psw; [exact Hp|done|done|]. clear Hp. intros s' Hp.
  pose proof (wf_psw_state s1 (u16 v) Hs) as Hs'.
  assert (cregs (psw_state s1 (u16 v)) = cregs s1) as Ec by (unfold psw_state; by destruct (_ && _)).
  assert (fits 16 (Z.land (u16 v) PSW_MASK)) as Hfit by (apply land_lt_pow2; [lia|apply u16_range|done]).
  apply wp_get, wp_bind. unfold psw_writes in HQ. rewrite app_assoc in HQ.
  set (ws' := ws ++ switch_sp s1 (u16 v)) in *.
  assert (length ws' <= 7)%nat as Hl'.
  { unfold ws', switch_sp. rewrite length_app. simpl. destruct (Bool.eqb _ _); simpl; lia. }
  apply wp_when; intros Hc.
  - eapply wp_SLOT_PEND_MASK; [exact Hp|unfold NR_SLOTS; lia| |].
    2: intros s'' Hs''; apply wp_ret; eapply HQ; exact Hs''.
    simpl. unfold apply_slot, masked_update. simpl slot_dest. cbv iota. simpl slot_mask.
    rewrite Z.land_0_r, Z.lor_0_l. simpl slot_data. unfold trunc_size. by rewrite Z.mod_small.
  - apply wp_ret. eapply HQ, pend_same; [exact Hp|]. apply negb_false_iff, Z.eqb_eq in Hc.
    simpl. apply insert_same. unfold ws'. rewrite apply_writes_app, apply_switch_sp_cregs.
    change 0%nat with (Z.to_nat PSW_CR). rewrite apply_writes_creg by done.
    rewrite lookup_CREG by (done || unfold PSW_CR; lia). f_equal. rewrite <- Hc.
    unfold CREG. rewrite (pend_read _ _ _ Hp). by rewrite Z.land_m1_r.
Qed.

(** ** The specification *)

Section Spec.
Context (s : state).

Definition next_word : Z := (PC s + 1) mod 2 ^ 16.
Definition to (target : Z) : list write := [W_creg PC_CR (target mod 2 ^ 16)].
Definition link : write := W_reg 13 next_word.
(** Branch targets: an 8-bit or a 16-bit offset from the PC, in words. *)
Definition near : Z := PC s + wrap_signed 8 (op s 0).
Definition far : Z := PC s + op s 0.
(** A hardware loop over the [len] words after this one *)
Definition loop_writes (n len : Z) : list write :=
  [W_creg RPT_S_CR next_word; W_creg RPT_E_CR ((PC s + len) mod 2 ^ 16);
   W_creg RPT_C_CR n; W_flag PSW_RP_BIT true].
Definition dbt_psw : Z := Z.lor PSW_DM_BIT (Z.land (PSW s) (Z.lor (Z.lor PSW_F0_BIT PSW_F1_BIT) PSW_C_BIT)).
Definition trap_psw : Z := Z.land (PSW s) PSW_SM_BIT.
Definition in_pair : bool := bool_decide (ins_type s = INS_LEFT) || bool_decide (ins_type s = INS_RIGHT).
End Spec.

Definition jump (s : state) : state := set_pc_changed 1 s.
Definition jump_if (c : state -> bool) (s : state) : state := if c s then jump s else s.
Definition exe_if (c : state -> bool) (s : state) : state := set_exe (b2z (c s)) s.
Definition error_if (c : bool) (fmt : string) (s : state) : state := if c then error_state fmt [] s else s.
Definition loop_state (name : string) (n len : Z) (s : state) : state :=
  error_if (len <? 4) ("ERROR: " +:+ name +:+ " must include at least 4 instructions.\n")
    (error_if (n =? 0) ("ERROR: " +:+ name +:+ " with count=0 is illegal.\n") s).

Definition flow_table : list (M unit * ((state -> state) * (state -> list write))) := [
  (OP_4900, (jump, fun s => link s :: to (near s)));
  (OP_24800000, (jump, fun s => link s :: to (far s)));
  (OP_4800, (jump, fun s => to (near s)));
  (OP_24000000, (jump, fun s => to (far s)));
  (OP_4A00, (jump_if (fun s => negb (PSW_F0 s)), fun s => if PSW_F0 s then [] else to (near s)));
  (OP_25000000, (jump_if (fun s => negb (PSW_F0 s)), fun s => if PSW_F0 s then [] else to (far s)));
  (OP_4B00, (jump_if PSW_F0, fun s => if PSW_F0 s then to (near s) else []));
  (OP_25800000, (jump_if PSW_F0, fun s => if PSW_F0 s then to (far s) else []));
  (OP_4D00, (jump, fun s => link s :: to (GPR s (op s 0))));
  (OP_4C00, (jump, fun s => to (GPR s (op s 0))));
  (OP_4E04, (exe_if (fun s => negb (PSW_F0 s)), fun _ => []));
  (OP_4E24, (exe_if PSW_F0, fun _ => []));
  (OP_4E40, (exe_if (fun s => negb (PSW_F1 s)), fun _ => []));
  (OP_4E42, (exe_if PSW_F1, fun _ => []));
  (OP_4E00, (exe_if (fun s => negb (PSW_F0 s || PSW_F1 s)), fun _ => []));
  (OP_4E02, (exe_if (fun s => negb (PSW_F0 s) && PSW_F1 s), fun _ => []));
  (OP_4E20, (exe_if (fun s => PSW_F0 s && negb (PSW_F1 s)), fun _ => []));
  (OP_4E22, (exe_if (fun s => PSW_F0 s && PSW_F1 s), fun _ => []));
  (OP_27000000, (fun s => loop_state "rep" (GPR s (op s 0)) (op s 1) s,
                 fun s => loop_writes s (GPR s (op s 0)) (op s 1)));
  (OP_2F000000, (fun s => loop_state "repi" (op s 0) (op s 1) s,
                 fun s => loop_writes s (op s 0) (op s 1)));
  (OP_5FC0, (plain, fun s => [W_flag PSW_IE_BIT true]));
  (OP_5F80, (plain, fun s => [W_flag PSW_IE_BIT true]));
  (OP_5FE0, (set_exception SIG_D10V_STOP, fun s => []));
  (OP_5F20, (fun s => if in_pair s then jump s else set_exception SIGTRAP s,
             fun s => if in_pair s then
               W_creg DPC_CR (next_word s) :: W_creg DPSW_CR (PSW s) ::
               psw_writes s (dbt_psw s) ++ to DBT_VECTOR_START else []));
  (OP_5F60, (fun s => jump (psw_state s (DPSW s)), fun s => psw_writes s (DPSW s) ++ to (DPC s)));
  (OP_5F40, (fun s => jump (psw_state s (BPSW s)), fun s => psw_writes s (BPSW s) ++ to (BPC s)));
  (trap_vector, (jump, fun s =>
     W_creg BPC_CR (next_word s) :: W_creg BPSW_CR (PSW s) ::
     psw_writes s (trap_psw s) ++ to (op s 0 + TRAP_VECTOR_START)))
].

(** ** Proving a row *)

Lemma CREG_psw_state s v n : CREG (psw_state s v) n = CREG s n.
Proof. unfold psw_state. by destruct (_ && _). Qed.
Lemma PC_psw_state s v : PC (psw_state s v) = PC s.
Proof. apply CREG_psw_state. Qed.
Lemma psw_state_no_st s v : Z.testbit v 6 = false -> psw_state s v = s.
Proof. unfold psw_state. by intros ->. Qed.
#[export] Hint Rewrite CREG_psw_state : reads.

Lemma creg_fresh_app n ws ws' : creg_fresh n (ws ++ ws') = creg_fresh n ws && creg_fresh n ws'.
Proof. apply forallb_app. Qed.
Lemma creg_fresh_psw n s v ws : creg_fresh n ws = true -> (Z.to_nat n <> 0)%nat ->
  creg_fresh n (ws ++ psw_writes s v) = true.
Proof.
  intros Hf Hn. rewrite creg_fresh_app, Hf. unfold psw_writes, switch_sp, creg_fresh.
  destruct (Z.to_nat n); [done|]. by destruct (Bool.eqb _ _).
Qed.
Lemma length_psw_writes s v : (length (psw_writes s v) <= 3)%nat.
Proof. unfold psw_writes, switch_sp. by destruct (Bool.eqb _ _); simpl; lia. Qed.

Lemma cr_value_plain n v :
  forallb (fun k => negb (n =? k)) [PSW_CR; BPSW_CR; DPSW_CR; MOD_S_CR; MOD_E_CR] = true ->
  cr_value n v = v.
Proof.
  simpl. rewrite andb_true_r. unfold cr_value.
  intros (?%negb_true_iff & (?%negb_true_iff & (?%negb_true_iff & [?%negb_true_iff ?%negb_true_iff]%andb_prop)%andb_prop)%andb_prop)%andb_prop.
  by use_conditions.
Qed.
(** A copy of the PSW is the PSW. *)
Lemma cr_value_copy n s : n = BPSW_CR \/ n = DPSW_CR -> wf s -> cr_value n (PSW s) = PSW s.
Proof. intros [->| ->] Hs; apply (proj2 (wf_cregs s Hs) 0%nat); lia. Qed.
Lemma u16_PSW s n : wf s -> 0 <= n -> u16 (CREG s n) = CREG s n.
Proof. intros Hs Hn. by apply u16_small, wf_fits_creg. Qed.

Ltac flow_side :=
  first
  [ side
  | split; reflexivity
  | apply wf_psw_state; assumption
  | match goal with |- context [length ?ws] =>
      match ws with context [psw_writes ?s ?v] => pose proof (length_psw_writes s v) end end;
    cbn [length]; unfold NR_SLOTS; lia
  | match goal with
    | |- creg_fresh ?n (psw_writes ?s ?v) = true => apply (creg_fresh_psw n s v [])
    | |- creg_fresh ?n (?w :: ?w' :: psw_writes ?s ?v) = true => apply (creg_fresh_psw n s v [w; w'])
    end; [reflexivity|discriminate] ].
Ltac flow_step :=
  lazymatch goal with
  | |- wp (SET_CREG PSW_CR _) _ _ =>
      eapply wp_SET_PSW_CR; [eassumption|flow_side|flow_side|flow_side|intros ?; next]
  | |- wp (SET_CREG _ _) _ _ =>
      eapply wp_SET_CREG; [eassumption|flow_side|flow_side|flow_side|flow_side|intros ?; next]
  | |- wp (JMP _) _ _ => eapply wp_JMP; [eassumption|flow_side|flow_side|flow_side|next]
  | |- wp (set_exe_if _) _ _ => eapply wp_modify; [apply direct_exe|eassumption|next]
  | |- wp (trap_vector) _ _ => unfold trap_vector
  | |- wp (rep_errors _ _ _) _ _ => unfold rep_errors
  | |- wp (SET_RPT_S _) _ _ => unfold SET_RPT_S
  | |- wp (SET_RPT_E _) _ _ => unfold SET_RPT_E
  | |- wp (SET_RPT_C _) _ _ => unfold SET_RPT_C
  | |- wp (SET_DPC _) _ _ => unfold SET_DPC
  | |- wp (SET_BPC _) _ _ => unfold SET_BPC
  | |- wp (SET_DPSW _) _ _ => unfold SET_DPSW
  | |- wp (SET_BPSW _) _ _ => unfold SET_BPSW
  | |- wp (SET_PSW _) _ _ => unfold SET_PSW
  | |- _ => eff_step
  end.
Ltac flow_run Hs :=
  first [apply effects_intro | unfold issues];
  match goal with |- wp ?m ?s _ =>
    try unfold m;
    let Hp := fresh "Hp" in pose proof (pend_refl s (proj2 Hs)) as Hp;
    let Hwf := fresh "Hwf" in pose proof (proj1 Hs) as Hwf
  end;
  repeat flow_step.

(** The PSWs of the debug and trap vectors *)
Lemma land_fits_r x m : fits 16 m -> fits 16 (Z.land x m).
Proof. intros [H1 H2]. pose proof (land_bound_l x m H1). unfold fits. lia. Qed.
Lemma u16_dbt_psw s : u16 (dbt_psw s) = dbt_psw s.
Proof. by apply u16_small, lor_lt_pow2; [lia|done|apply land_fits_r]. Qed.
Lemma dbt_psw_no_st s : Z.testbit (dbt_psw s) 6 = false.
Proof. unfold dbt_psw. rewrite Z.lor_spec, Z.land_spec. by rewrite andb_false_r. Qed.
Lemma u16_trap_psw s : u16 (trap_psw s) = trap_psw s.
Proof. by apply u16_small, land_fits_r. Qed.
Lemma trap_psw_no_st s : Z.testbit (trap_psw s) 6 = false.
Proof. unfold trap_psw. rewrite Z.land_spec. by rewrite andb_false_r. Qed.

(** One value, state or list of writes against its specification *)
Ltac flow_value s :=
  change (Z.lor PSW_DM_BIT (Z.land (CREG s PSW_CR) (Z.lor (Z.lor PSW_F0_BIT PSW_F1_BIT) PSW_C_BIT)))
    with (dbt_psw s);
  change (Z.land (CREG s PSW_CR) PSW_SM_BIT) with (trap_psw s);
  rewrite ?u16_dbt_psw, ?u16_trap_psw, ?psw_state_no_st by (apply dbt_psw_no_st || apply trap_psw_no_st);
  unfold loop_writes, link, to, next_word, near, far, jump, jump_if, exe_if,
    loop_state, error_if, error_state, in_pair in *; unfold_reads;
  use_conditions; autorewrite with conv; rewrite ?SEXT8_wrap;
  repeat match goal with |- context [?x mod 2 ^ 16] => change (x mod 2 ^ 16) with (u16 x) end;
  rewrite ?(u16_small (op s _)), ?(u16_small (GPR s _))
    by (apply wf_znth_op || apply wf_znth_regs; assumption);
  rewrite ?(u16_PSW s) by (assumption || discriminate);
  rewrite ?cr_value_plain by reflexivity;
  change (CREG s PSW_CR) with (PSW s);
  rewrite ?cr_value_copy by (assumption || (left; reflexivity) || (right; reflexivity)).
Ltac flow_row s Hs :=
  flow_run Hs; (eapply pend_eq; [eassumption| |]); flow_value s;
  rewrite ?negb_orb; reflexivity.

(** C4: Branches, jumps, conditional-execution tests, hardware-loop set-up, returns
    from exceptions, the debug break and the vectored trap make exactly the writes
    their row of [flow_table] states: PC-relative targets modulo 2^16, the link
    register, the saved PC and PSW, the switch of the stack pointer, SIGILL for an
    illegal loop; and they change nothing else. *)
Theorem flow_refines :
  Forall (fun row => forall s, inv s -> issues row.1 s (row.2.1 s) (row.2.2 s)) flow_table.
Proof.
  unfold flow_table. repeat apply List.Forall_cons; [..|apply List.Forall_nil];
    intros s Hs; cbn [fst snd]; flow_row s Hs.
Qed.

Lemma effects_SET_PSW s v :
  inv s -> effects (SET_PSW v) s (psw_state s (u16 v)) (psw_writes s (u16 v)).
Proof. intros Hs. flow_run Hs. eapply pend_eq; [eassumption|done..]. Qed.

(** [mvtc] to a control register other than the PSW writes the register's value
    with the reserved bits cleared, and to the PSW also switches the stack pointer
    and rejects ST without FX. *)
Theorem mvtc_writes s :
  inv s -> op s 1 < 16 ->
  issues OP_5600 s (if op s 1 =? PSW_CR then psw_state s (GPR s (op s 0)) else s)
    (if op s 1 =? PSW_CR then psw_writes s (GPR s (op s 0))
     else [W_creg (op s 1) (cr_value (op s 1) (GPR s (op s 0)))]).
Proof.
  intros Hs Hop. pose proof (wf_op_nonneg s (proj1 Hs) 1) as Hn.
  assert (u16 (s16 (GPR s (op s 0))) = GPR s (op s 0)) as Ev
    by (rewrite u16_s16; apply u16_small, wf_znth_regs, Hs).
  destruct (Z.eqb_spec (op s 1) PSW_CR) as [E|E]; flow_run Hs;
    revert Ev; generalize (s16 (GPR s (op s 0))); intros v <-.
  - rewrite E. eapply wp_SET_PSW_CR; [eassumption|flow_side..|]. by intros _ s' Hs'.
  - unfold PSW_CR in E.
    eapply wp_SET_CREG; [eassumption|flow_side|flow_side|lia|done|]. by intros _ s' Hs'.
Qed.

(** ** Reading after writes *)

Definition sized (s : state) : Prop :=
  length (regs s) = 16%nat /\ length (cregs s) = 16%nat /\ length (sp s) = 2%nat.
Lemma wf_sized s : wf s -> sized s.
Proof. intros Hs. split; [apply Hs|split; apply Hs]. Qed.
Lemma sized_write s w : sized s -> sized (apply_write s w).
Proof. unfold sized. destruct w; simpl; by rewrite ?length_insert. Qed.
Lemma sized_writes ws : forall s, sized s -> sized (apply_writes ws s).
Proof. induction ws as [|w ws IH]; intros s Hs; simpl; [done|]. by apply IH, sized_write. Qed.

Lemma znth_insert l n k v : 0 <= n < Z.of_nat (length l) -> 0 <= k ->
  znth (<[Z.to_nat n := v]> l) k = if k =? n then v else znth l k.
Proof.
  intros Hn Hk. unfold znth. rewrite !nth_lookup. destruct (Z.eqb_spec k n) as [->|E].
  - by rewrite list_lookup_insert_eq by lia.
  - by rewrite list_lookup_insert_ne by lia.
Qed.
Lemma GPR_write s w k : sized s -> 0 <= k ->
  match w with W_reg n _ => 0 <= n < 16 | _ => True end ->
  GPR (apply_write s w) k = match w with W_reg n v => if k =? n then v else GPR s k | _ => GPR s k end.
Proof.
  intros (Hr & _) Hk Hw. destruct w; try done. unfold GPR. simpl. apply znth_insert; [|done].
  rewrite Hr. lia.
Qed.
Lemma HELD_SP_write s w k : sized s -> 0 <= k ->
  match w with W_sp n _ => 0 <= n < 2 | _ => True end ->
  HELD_SP (apply_write s w) k =
    match w with W_sp n v => if k =? n then v else HELD_SP s k | _ => HELD_SP s k end.
Proof.
  intros (_ & _ & Hr) Hk Hw. destruct w; try done. unfold HELD_SP. simpl. apply znth_insert; [|done].
  rewrite Hr. lia.
Qed.
Lemma CREG_write s w k : sized s -> 0 <= k ->
  match w with W_creg n _ => 0 <= n < 16 | W_flag _ _ => False | _ => True end ->
  CREG (apply_write s w) k =
    match w with W_creg n v => if k =? n then v else CREG s k | _ => CREG s k end.
Proof.
  intros (_ & Hr & _) Hk Hw. destruct w; try done. unfold CREG. simpl. apply znth_insert; [|done].
  rewrite Hr. lia.
Qed.

(** ** The two stack pointers *)

(** The stack pointer of the mode SM = [k]: r15 in that mode, held otherwise. *)
Definition stacks (s : state) (k : bool) : Z :=
  if Bool.eqb (PSW_SM s) k then GPR s 15 else HELD_SP s (b2z k).

Lemma SM_of_psw s v : PSW s = Z.land v PSW_MASK -> PSW_SM s = Z.testbit v 15.
Proof. intros E. unfold PSW_SM, psw_bit. rewrite E. by apply (psw_mask_bit v 15). Qed.

Ltac write_side :=
  unfold PSW_CR, PC_CR, BPC_CR, BPSW_CR, DPC_CR, DPSW_CR in *;
  first [repeat apply sized_write; assumption | lia | exact I | done].

(** The registers after a write of the PSW *)
Lemma after_psw_writes s s0 v :
  sized s0 -> regs s0 = regs s -> sp s0 = sp s ->
  let s' := apply_writes (psw_writes s v) s0 in
  PSW s' = Z.land v PSW_MASK /\
  (forall k, stacks s' k = stacks s k) /\
  (forall k, 0 <= k -> k <> 15 -> GPR s' k = GPR s k) /\
  (forall k, 0 < k -> CREG s' k = CREG s0 k) /\ sized s'.
Proof.
  intros Hz Er Es s'. assert (sized s') as Hz' by (by apply sized_writes).
  assert (PSW s' = Z.land v PSW_MASK) as Ep.
  { unfold s', psw_writes. rewrite apply_writes_app. unfold apply_writes at 1.
    cbn [fold_left]. unfold PSW at 1. rewrite CREG_write; [done| |unfold PSW_CR; lia..].
    by apply sized_writes. }
  split; [done|]. pose proof (SM_of_psw s' v Ep) as Em.
  assert (forall n, GPR s0 n = GPR s n) as Hg by (intros n; unfold GPR; by rewrite Er).
  assert (forall n, HELD_SP s0 n = HELD_SP s n) as Hh by (intros n; unfold HELD_SP; by rewrite Es).
  assert (0 <= b2z (PSW_SM s) < 2) as Hb by (destruct (PSW_SM s); simpl; lia).
  split; [|split; [|split; [|done]]]; intros k.
  - unfold stacks. rewrite Em. subst s'. unfold psw_writes, switch_sp.
    assert (forall (b : bool), (b2z k =? b2z b) = Bool.eqb k b) as Hk by (by destruct k, b).
    assert (0 <= b2z k) by (by destruct k).
    unfold apply_writes. destruct (PSW_SM s) eqn:Esm, (Z.testbit v 15), k; cbn [Bool.eqb b2z app fold_left];
      repeat (rewrite ?GPR_write, ?HELD_SP_write by write_side); simpl; by rewrite ?Hg, ?Hh.
  - intros Hk Hne. subst s'. unfold psw_writes, switch_sp. apply Z.eqb_neq in Hne.
    unfold apply_writes.
    destruct (Bool.eqb _ _); cbn [app fold_left]; repeat (rewrite GPR_write by write_side); cbv iota;
      by rewrite ?Hne, Hg.
  - intros Hk. subst s'. unfold psw_writes, switch_sp.
    assert ((k =? PSW_CR) = false) as E by (apply Z.eqb_neq; unfold PSW_CR; lia).
    unfold apply_writes.
    destruct (Bool.eqb _ _); cbn [app fold_left]; repeat (rewrite CREG_write by write_side); cbv iota;
      by rewrite E.
Qed.

(** ** Exceptions and their returns *)

Lemma trap_effects s : inv s -> effects trap_vector s (jump s)
  (W_creg BPC_CR (next_word s) :: W_creg BPSW_CR (PSW s) ::
   psw_writes s (trap_psw s) ++ to (op s 0 + TRAP_VECTOR_START)).
Proof. intros Hs. flow_row s Hs. Qed.
Lemma dbt_effects s : inv s -> in_pair s = true -> effects OP_5F20 s (jump s)
  (W_creg DPC_CR (next_word s) :: W_creg DPSW_CR (PSW s) ::
   psw_writes s (dbt_psw s) ++ to DBT_VECTOR_START).
Proof.
  intros Hs Hi. apply effects_intro. unfold OP_5F20.
  pose proof (pend_refl s (proj2 Hs)). pose proof (proj1 Hs). unfold in_pair in Hi.
  repeat flow_step; [|congruence]. eapply pend_eq; [eassumption| |]; flow_value s; reflexivity.
Qed.
Lemma rte_effects s : inv s ->
  effects OP_5F40 s (jump (psw_state s (BPSW s))) (psw_writes s (BPSW s) ++ to (BPC s)).
Proof. intros Hs. flow_row s Hs. Qed.
Lemma rtd_effects s : inv s ->
  effects OP_5F60 s (jump (psw_state s (DPSW s))) (psw_writes s (DPSW s) ++ to (DPC s)).
Proof. intros Hs. flow_row s Hs. Qed.

(** The registers after the entry to a vector *)
Lemma after_entry s cpc cpsw v vec :
  wf s -> 2 < cpc < 16 -> 0 < cpsw < 16 -> cpsw <> 2 -> cpc <> cpsw -> PC_CR = 2 ->
  let s' := apply_writes (W_creg cpc (next_word s) :: W_creg cpsw (PSW s) ::
              psw_writes s v ++ to vec) (jump s) in
  PSW s' = Z.land v PSW_MASK /\ PC s' = vec mod 2 ^ 16 /\
  CREG s' cpc = next_word s /\ CREG s' cpsw = PSW s /\
  (forall k, stacks s' k = stacks s k) /\ (forall k, 0 <= k -> k <> 15 -> GPR s' k = GPR s k).
Proof.
  intros Hs Hc Hp Hp2 Hne _ s'.
  set (s0 := apply_write (apply_write (jump s) (W_creg cpc (next_word s))) (W_creg cpsw (PSW s))).
  assert (sized (jump s)) as Hj by apply (wf_sized s Hs).
  assert (sized s0) as Hz by (by repeat apply sized_write).
  destruct (after_psw_writes s s0 v Hz eq_refl eq_refl) as (Ep & Est & Eg & Ec & Hz').
  assert (s' = apply_write (apply_writes (psw_writes s v) s0) (W_creg PC_CR (vec mod 2 ^ 16))) as Es.
  { unfold s'. change (_ :: _ :: ?l) with ([W_creg cpc (next_word s); W_creg cpsw (PSW s)] ++ l).
    by rewrite !apply_writes_app. }
  set (s1 := apply_writes (psw_writes s v) s0) in *.
  assert (forall k, 0 <= k -> k <> 2 -> CREG s' k = CREG s1 k) as Ek.
  { intros k Hk Hk2. rewrite Es, CREG_write by write_side. by rewrite (proj2 (Z.eqb_neq _ _)). }
  assert (PSW s' = PSW s1) as Epp by (by apply (Ek 0)).
  split; [by rewrite Epp|]. split.
  { unfold PC. rewrite Es. by rewrite CREG_write by write_side. }
  split; [|split; [|split; intros k]].
  - rewrite Ek, Ec by lia. unfold s0. rewrite !CREG_write by write_side.
    by rewrite (proj2 (Z.eqb_neq cpc cpsw)), Z.eqb_refl by lia.
  - rewrite Ek, Ec by lia. unfold s0. rewrite CREG_write by write_side. by rewrite Z.eqb_refl.
  - rewrite <- Est. unfold stacks, PSW_SM, psw_bit. rewrite Epp, Es. done.
  - intros Hk Hk'. rewrite <- Eg by done. by rewrite Es.
Qed.

(** The registers after a return *)
Lemma after_return s w pc :
  wf s -> let s' := apply_writes (psw_writes s w ++ to pc) (jump (psw_state s w)) in
  PSW s' = Z.land w PSW_MASK /\ PC s' = pc mod 2 ^ 16 /\
  (forall k, stacks s' k = stacks s k) /\ (forall k, 0 <= k -> k <> 15 -> GPR s' k = GPR s k).
Proof.
  intros Hs s'. set (s0 := jump (psw_state s w)).
  assert (sized s0 /\ regs s0 = regs s /\ sp s0 = sp s) as (Hz & Er & Es).
  { pose proof (wf_sized s Hs) as Hz. unfold s0, psw_state. by destruct (_ && _). }
  destruct (after_psw_writes s s0 w Hz Er Es) as (Ep & Est & Eg & Ec & Hz').
  assert (s' = apply_write (apply_writes (psw_writes s w) s0) (W_creg PC_CR (pc mod 2 ^ 16))) as E
    by (unfold s'; by rewrite apply_writes_app).
  set (s1 := apply_writes (psw_writes s w) s0) in *.
  assert (PSW s' = PSW s1) as Epp by (rewrite E; by apply CREG_write; write_side).
  split; [by rewrite Epp|]. split; [unfold PC; rewrite E; by rewrite CREG_write by write_side|].
  split; intros k.
  - rewrite <- Est. unfold stacks, PSW_SM, psw_bit. rewrite Epp, E. done.
  - intros Hk Hk'. rewrite <- Eg by done. by rewrite E.
Qed.

Lemma psw_masked s : wf s -> Z.land (PSW s) PSW_MASK = PSW s.
Proof. intros Hs. apply (proj2 (wf_cregs s Hs) 0%nat). lia. Qed.
Lemma same_registers s s' :
  PSW s' = PSW s -> (forall k, stacks s' k = stacks s k) ->
  (forall k, 0 <= k -> k <> 15 -> GPR s' k = GPR s k) -> forall k, 0 <= k -> GPR s' k = GPR s k.
Proof.
  intros Ep Est Eg k Hk. destruct (decide (k = 15)) as [->|]; [|by apply Eg].
  specialize (Est (PSW_SM s)). unfold stacks, PSW_SM, psw_bit in Est. rewrite Ep in Est.
  by rewrite eqb_reflx in Est.
Qed.

(** An entry and its return: the state after both. *)
Lemma enter_return m m' s (k : nat) cpc cpsw v vec :
  inv s -> 2 < cpc < 16 -> 0 < cpsw < 16 -> cpsw <> 2 -> cpc <> cpsw ->
  effects m s (jump s) (W_creg cpc (next_word s) :: W_creg cpsw (PSW s) ::
    psw_writes s v ++ to vec) ->
  runs k k m -> (k <= NR_SLOTS)%nat ->
  (forall s, inv s -> effects m' s (jump (psw_state s (CREG s cpsw)))
     (psw_writes s (CREG s cpsw) ++ to (CREG s cpc))) ->
  exists s', (m ;; SLOT_FLUSH ;; m' ;; SLOT_FLUSH) s = Ret tt s' /\
    PSW s' = PSW s /\ PC s' = next_word s /\
    (forall k, 0 <= k -> GPR s' k = GPR s k) /\ (forall k, stacks s' k = stacks s k).
Proof.
  intros Hs Hc Hp Hp2 Hne [t E] Hr Hk Hret.
  assert (keeps (m ;; SLOT_FLUSH)) as Hkeep by (by apply (safe_flush_keeps k); [apply judge_runs|]).
  specialize (Hkeep s Hs). rewrite E in Hkeep. destruct Hkeep as [Hi _].
  destruct (after_entry s cpc cpsw v vec (proj1 Hs) Hc Hp Hp2 Hne eq_refl)
    as (_ & _ & E3 & E4 & E5 & E6).
  set (s0 := apply_writes _ _) in *. set (s1 := set_trace_psw t s0) in *.
  destruct (Hret s1 Hi) as [t' E'].
  change (CREG s1 ?n) with (CREG s0 n) in E'. rewrite E3, E4 in E'.
  destruct (after_return s1 (PSW s) (next_word s) (proj1 Hi)) as (F1 & F2 & F3 & F4).
  set (s2 := apply_writes (psw_writes s1 (PSW s) ++ to (next_word s)) (jump (psw_state s1 (PSW s)))) in *.
  exists (set_trace_psw t' s2). split.
  { revert E E'. unfold bind. destruct (m s) as [[] s3| | |]; try done.
    destruct (SLOT_FLUSH s3) as [[] s4| | |]; try done. intros [= <-] E'. exact E'. }
  rewrite psw_masked in F1 by apply Hs.
  assert (forall k, stacks s2 k = stacks s k) as Hst by (intros b; rewrite F3; apply E5).
  split; [done|split; [|split; [|done]]].
  - change (PC s2 = next_word s). rewrite F2. unfold next_word. by rewrite Z.mod_mod.
  - change (GPR (set_trace_psw t' s2)) with (GPR s2). apply same_registers; [done..|].
    intros j Hj Hj'. rewrite F4 by done. by apply E6.
Qed.

(** A write of the PSW is total, leaves in it the bits of the mask, and changes
    neither stack pointer: r15 is the stack pointer of the new mode, the other one is
    held, and the other general registers are unchanged. *)
Theorem psw_write_keeps_stacks s v :
  inv s -> exists s', (SET_PSW v ;; SLOT_FLUSH) s = Ret tt s' /\
    PSW s' = Z.land (u16 v) PSW_MASK /\ (forall k, stacks s' k = stacks s k) /\
    GPR s' 15 = stacks s (PSW_SM s') /\ (forall k, 0 <= k -> k <> 15 -> GPR s' k = GPR s k).
Proof.
  intros Hs. destruct (effects_SET_PSW s v Hs) as [t E]. eexists. split; [exact E|].
  set (s0 := psw_state s (u16 v)).
  assert (sized s0 /\ regs s0 = regs s /\ sp s0 = sp s) as (Hz & Er & Es).
  { pose proof (wf_sized s (proj1 Hs)) as Hz. unfold s0, psw_state. by destruct (_ && _). }
  destruct (after_psw_writes s s0 (u16 v) Hz Er Es) as (Ep & Est & Eg & _).
  split; [done|split; [done|split; [|done]]].
  set (s1 := apply_writes _ _) in *. change (GPR s1 15 = stacks s (PSW_SM s1)).
  rewrite <- Est. unfold stacks. by rewrite eqb_reflx.
Qed.

(** C23: Returning from a trap with [rte], and from a debug break with [rtd], restores
    what the entry changed: the PSW, all general registers with both stack pointers,
    and the PC is the word after the one that trapped. *)
Theorem exception_return :
  Forall (fun p => forall s, inv s -> in_pair s = true ->
    exists s', (p.1 ;; SLOT_FLUSH ;; p.2 ;; SLOT_FLUSH) s = Ret tt s' /\
      PSW s' = PSW s /\ PC s' = (PC s + 1) mod 2 ^ 16 /\
      (forall k, 0 <= k -> GPR s' k = GPR s k) /\ (forall k, stacks s' k = stacks s k))
  [(trap_vector, OP_5F40); (OP_5F20, OP_5F60)].
Proof.
  repeat apply List.Forall_cons; [..|apply List.Forall_nil]; intros s Hs Hi; cbn [fst snd].
  - apply (enter_return _ _ s 5 BPC_CR BPSW_CR (trap_psw s) (op s 0 + TRAP_VECTOR_START));
      try done; [by apply trap_effects| |unfold NR_SLOTS; lia|apply rte_effects].
    eapply judge_weaken; [apply runs_trap_vector|lia..].
  - apply (enter_return _ _ s 6 DPC_CR DPSW_CR (dbt_psw s) DBT_VECTOR_START);
      try done; [by apply dbt_effects| |unfold NR_SLOTS; lia|apply rtd_effects].
    eapply judge_weaken; [apply runs_dbt|lia..].
Qed.

(** ** Witnesses *)

Lemma inv_set_ins_type t s : inv s -> inv (set_ins_type t s).
Proof. by intros [[] ?]. Qed.
(** In user mode (SM set), with different stack pointers *)
Definition user_state : state :=
  set_ins_type INS_LEFT (at_values (map Z.of_nat (seq 100 16)) [1; 2] [5; 6; 0; 0]
    (Z.lor PSW_SM_BIT PSW_F0_BIT)).
Lemma user_inv : inv user_state.
Proof. apply inv_set_ins_type, inv_at_values. vm_compute. reflexivity. Qed.

(** [brf0t] by -2 words, taken *)
Lemma flow_refines_witness :
  let s := set_OP [0xfe; 0; 0; 0] user_state in
  issues OP_4B00 s (set_pc_changed 1 s) [W_creg PC_CR (0xffc0 - 2)].
Proof.
  intros s. assert (inv s) as Hs.
  { apply inv_set_OP; [apply user_inv|done|by repeat constructor]. }
  assert (PSW_F0 s = true /\ near s mod 2 ^ 16 = 0xffc0 - 2) as [Ef En] by (vm_compute; done).
  pose proof (Forall_lookup_1 _ _ 6%nat _ flow_refines eq_refl s Hs) as H.
  cbn [fst snd] in H. unfold jump_if, jump, to in H. by rewrite Ef, En in H.
Defined.

Lemma mvtc_writes_witness :
  let s := set_OP [3; 11; 0; 0] user_state in
  issues OP_5600 s s [W_creg MOD_E_CR 102].
Proof.
  intros s. assert (inv s) as Hs.
  { apply inv_set_OP; [apply user_inv|done|by repeat constructor]. }
  assert (op s 1 = 11 /\ cr_value 11 (GPR s (op s 0)) = 102) as [E1 E2] by (vm_compute; done).
  pose proof (mvtc_writes s Hs) as H. rewrite E1 in H. rewrite E2 in H. apply H. lia.
Defined.

(** Leaving user mode *)
Lemma psw_write_keeps_stacks_witness :
  exists s', (SET_PSW 0 ;; SLOT_FLUSH) user_state = Ret tt s' /\ GPR s' 15 = HELD_SP user_state 0.
Proof.
  destruct (psw_write_keeps_stacks user_state 0 user_inv) as (s' & E & Ep & _ & Eg & _).
  exists s'. split; [exact E|]. rewrite Eg. rewrite (SM_of_psw s' 0) by exact Ep. vm_compute. reflexivity.
Defined.

Lemma exception_return_witness :
  exists s', (OP_5F20 ;; SLOT_FLUSH ;; OP_5F60 ;; SLOT_FLUSH) user_state = Ret tt s' /\
    GPR s' 15 = 115 /\ PSW s' = 0x8008.
Proof.
  destruct (List.Forall_inv (List.Forall_inv_tail exception_return) user_state user_inv eq_refl)
    as (s' & E & Ep & _ & Eg & _).
  exists s'. split; [exact E|]. rewrite Eg, Ep by done. vm_compute. done.
Defined.
