(* ===== verification/NumSpec.v ===== *)
(** * Division, normalisation and modulo addressing

    Instructions whose meaning is more than one arithmetic operation: sixteen
    [divs] steps divide a 32-bit number by a 16-bit one; [exp] finds the shift that
    normalises a number; the post-increments wrap at the end of a circular buffer. *)
From S2P Require Import Prelude CInt Opcodes State Memory Cregs.
From S2P Require Import SimopsAlu SimopsAcc SimopsFlow SimopsMem SimopsTrap Interp Logic OpRules.
From S2P Require Import Machine Effects AluSpec AccSpec FlowSpec.

(** ** One division step *)

(** The remainder and the pair's low half, which collects the quotient *)
Definition divs_step (d : Z) (p : Z * Z) : Z * Z :=
  let foo := 2 * p.1 + p.2 / 2 ^ 15 in
  if d <=? foo then (foo - d, (2 * p.2 + 1) mod 2 ^ 16) else (foo, (2 * p.2) mod 2 ^ 16).

Lemma divs_effects s :
  inv s -> GPR s (op s 0) < 2 ^ 15 ->
  let p := divs_step (GPR s (op s 1)) (GPR s (op s 0), GPR s (op s 0 + 1)) in
  effects OP_14002800 s s [W_reg (op s 0 + 0) p.1; W_reg (op s 0 + 1) p.2].
Proof.
  intros Hs Hhi p. unfold OP_14002800. effects_tac Hs. eapply pend_eq; [eassumption|done|].
  pose proof (wf_znth_regs s (proj1 Hs) (op s 0)) as H0.
  pose proof (wf_znth_regs s (proj1 Hs) (op s 0 + 1)) as H1.
  pose proof (wf_znth_regs s (proj1 Hs) (op s 1)) as H2.
  unfold p, divs_step. cbn [fst snd]. unfold GPR in *.
  set (hi := znth (regs s) (op s 0)) in *. set (lo := znth (regs s) (op s 0 + 1)) in *.
  set (d := znth (regs s) (op s 1)) in *. unfold fits in *.
  assert (u16 (Z.lor (Z.shiftl hi 1) (Z.shiftr lo 15)) = 2 * hi + lo / 2 ^ 15) as ->.
  { rewrite Z.shiftr_div_pow2, lor_add_disjoint by zdml. unfold u16. zdml. }
  autorewrite with conv. set (foo := 2 * hi + lo / 2 ^ 15).
  assert (0 <= foo < 2 ^ 16) by (unfold foo; zdml).
  assert (forall b : bool, u16 (Z.lor (Z.shiftl lo 1) (u16 (b2z b))) = (2 * lo + b2z b) mod 2 ^ 16) as El.
  { intros b. rewrite (u16_small (b2z b)) by (destruct b; simpl; lia).
    rewrite lor_add_disjoint by (destruct b; simpl; lia). unfold u16. f_equal. lia. }
  destruct (Z.leb_spec d foo).
  - specialize (El true). simpl in *. rewrite El. repeat f_equal. unfold u16, s16, wrap_signed. zdml.
  - specialize (El false). simpl in *. rewrite El. repeat f_equal; [|lia].
    by apply u16_small.
Qed.

(** Between the steps, with [k] to go: [q] is the quotient so far, [a] the part of
    the dividend still in the low half. *)
Definition divs_inv (N d : Z) (k : nat) (p : Z * Z) : Prop :=
  exists a q, let P := 2 ^ Z.of_nat k in let Q := 2 ^ (16 - Z.of_nat k) in
    0 <= a < P /\ 0 <= q < Q /\ 0 <= p.1 < d /\ p.2 = a * Q + q /\ N = (q * d + p.1) * P + a.

Lemma divs_inv_step N d k p :
  (k < 16)%nat -> 0 < d <= 2 ^ 15 -> divs_inv N d (S k) p -> divs_inv N d k (divs_step d p).
Proof.
  intros Hk Hd (a & q & Ha & Hq & Hhi & Elo & EN). destruct p as [hi lo]. cbn [fst snd] in *.
  rewrite Nat2Z.inj_succ, Z.pow_succ_r in * by lia.
  assert (2 ^ (16 - Z.of_nat k) = 2 * 2 ^ (16 - Z.succ (Z.of_nat k))) as EQ
    by (rewrite <- Z.pow_succ_r by lia; f_equal; lia).
  assert (2 ^ Z.of_nat k * 2 ^ (16 - Z.succ (Z.of_nat k)) = 2 ^ 15) as EPQ
    by (rewrite <- Z.pow_add_r by lia; f_equal; lia).
  set (P := 2 ^ Z.of_nat k) in *. set (Q := 2 ^ (16 - Z.succ (Z.of_nat k))) in *.
  set (b := a / P). set (a' := a mod P).
  assert (a = P * b + a' /\ 0 <= a' < P) as [Ea Ha'] by (split; [apply Z.div_mod|apply Z.mod_pos_bound]; lia).
  assert (0 <= b < 2) as Hb by nia.
  assert (0 <= a' * Q + q < 2 ^ 15) as Hr by nia.
  assert (lo = b * 2 ^ 15 + (a' * Q + q)) as El by nia.
  assert (lo / 2 ^ 15 = b) as Eb by (rewrite El; zdm).
  assert (forall t, 0 <= t < 2 -> (2 * lo + t) mod 2 ^ 16 = a' * (2 * Q) + (2 * q + t)) as Em.
  { intros t Ht. rewrite El. replace (a' * (2 * Q) + (2 * q + t)) with (2 * (a' * Q + q) + t) by ring.
    zdml. }
  unfold divs_step. cbn [fst snd]. rewrite Eb. destruct (Z.leb_spec d (2 * hi + b)).
  - exists a', (2 * q + 1). cbn [fst snd]. cbv zeta. rewrite EQ, Em by lia. repeat split; first [lia|nia].
  - exists a', (2 * q). cbn [fst snd]. cbv zeta. rewrite EQ, <- (Z.add_0_r (2 * lo)), Em by lia.
    repeat split; first [lia|nia].
Qed.

Lemma divs_inv_start d hi lo : 0 <= hi < d -> fits 16 lo -> divs_inv (hi * 2 ^ 16 + lo) d 16 (hi, lo).
Proof. intros Hhi Hlo. exists lo, 0. unfold fits in *. simpl in *. lia. Qed.
Lemma divs_inv_end N d p : 0 < d -> divs_inv N d 0 p -> p.1 = N mod d /\ p.2 = N / d.
Proof.
  intros Hd (a & q & Ha & Hq & Hhi & Elo & EN). simpl in *. assert (a = 0) as -> by lia.
  assert (N = d * q + p.1) as E by lia.
  split; [apply (Z.mod_unique_pos _ _ q)|rewrite Elo; apply (Z.div_unique_pos _ _ _ p.1)]; lia.
Qed.

(** ** Sixteen steps *)

Fixpoint repeat_op (n : nat) (m : M unit) : M unit :=
  match n with O => skip | S n' => m ;; SLOT_FLUSH ;; repeat_op n' m end.

Lemma divs_steps N d n m : forall k s,
  n = op s 0 -> 0 <= n < 15 -> 0 <= op s 1 < 16 -> m = op s 1 -> m <> n -> m <> n + 1 ->
  0 < d <= 2 ^ 15 -> (k <= 16)%nat ->
  inv s -> GPR s m = d -> divs_inv N d k (GPR s n, GPR s (n + 1)) ->
  exists s', repeat_op k OP_14002800 s = Ret tt s' /\ inv s' /\
    divs_inv N d 0 (GPR s' n, GPR s' (n + 1)) /\
    (forall j, 0 <= j -> j <> n -> j <> n + 1 -> GPR s' j = GPR s j).
Proof.
  induction k as [|k IH]; intros s -> Hn Hm -> Hmn Hmn' Hd Hk Hs Ed Hi; [by exists s|].
  pose proof Hi as (a & q & _ & _ & Hhi & _). cbn [fst] in Hhi.
  destruct (divs_effects s Hs ltac:(lia)) as [t E]. rewrite Ed, Z.add_0_r in E.
  apply divs_inv_step in Hi; [|lia|done].
  assert (keeps (OP_14002800 ;; SLOT_FLUSH)) as Hkeep
    by (apply (safe_flush_keeps 4); [apply judge_runs; unfold OP_14002800; runs_tac|unfold NR_SLOTS; lia]).
  specialize (Hkeep s Hs). rewrite E in Hkeep. destruct Hkeep as [Hs' _].
  set (s0 := apply_writes _ _) in *.
  assert (forall j, 0 <= j -> GPR s0 j =
    if j =? op s 0 + 1 then (divs_step d (GPR s (op s 0), GPR s (op s 0 + 1))).2
    else if j =? op s 0 then (divs_step d (GPR s (op s 0), GPR s (op s 0 + 1))).1
    else GPR s j) as Eg.
  { intros j Hj. pose proof (wf_sized s (proj1 Hs)). unfold s0, apply_writes. cbn [fold_left].
    by rewrite !GPR_write by write_side. }
  destruct (IH (set_trace_psw t s0)) as (s' & E' & Hinv & Hi' & Hf); try done; try lia.
  - change (GPR s0 (op s 1) = d). rewrite Eg by lia. by rewrite !(proj2 (Z.eqb_neq _ _)) by lia.
  - change (divs_inv N d k (GPR s0 (op s 0), GPR s0 (op s 0 + 1))). rewrite !Eg by lia.
    rewrite !Z.eqb_refl, (proj2 (Z.eqb_neq (op s 0) _)) by lia.
    by destruct (divs_step d (GPR s (op s 0), GPR s (op s 0 + 1))).
  - exists s'. split; [|split; [done|split; [done|]]].
    + simpl. revert E. unfold bind at 1 2. destruct (OP_14002800 s) as [[] s2| | |]; try done.
      unfold bind. intros ->. exact E'.
    + intros j Hj Hj1 Hj2. rewrite Hf by done. change (GPR s0 j = GPR s j). rewrite Eg by done.
      by rewrite !(proj2 (Z.eqb_neq _ _)) by lia.
Qed.

(** C24: Sixteen [divs] steps divide: a pair holding [N] and a divisor [d] at most
    2^15 that exceeds the high half leave the quotient of [N] by [d] in the low
    register and the remainder in the high one, and the other registers unchanged. *)
Theorem divs_divides s :
  inv s -> 0 <= op s 0 < 15 -> op s 1 < 16 -> op s 1 <> op s 0 -> op s 1 <> op s 0 + 1 ->
  let d := GPR s (op s 1) in let N := rpair s (op s 0) in
  GPR s (op s 0) < d <= 2 ^ 15 ->
  exists s', repeat_op 16 OP_14002800 s = Ret tt s' /\
    GPR s' (op s 0 + 1) = N / d /\ GPR s' (op s 0) = N mod d /\
    (forall j, 0 <= j -> j <> op s 0 -> j <> op s 0 + 1 -> GPR s' j = GPR s j).
Proof.
  intros Hs H0 H1 Hne Hne' d N Hd. pose proof (wf_op_nonneg s (proj1 Hs) 1).
  pose proof (wf_znth_regs s (proj1 Hs) (op s 0)) as Hf. unfold fits in Hf.
  destruct (divs_steps N d (op s 0) (op s 1) 16 s) as (s' & E & _ & Hi & Hf'); try done; try lia.
  - apply divs_inv_start; [lia|apply wf_znth_regs, Hs].
  - exists s'. apply divs_inv_end in Hi as [E1 E2]; [done|lia].
Qed.

(** ** Normalisation *)

(** [v] shifted left by [r], or right by [-r], fits in 32 bits as a signed number. *)
Definition fits32 (v r : Z) : Prop := - 2 ^ (31 - r) <= v < 2 ^ (31 - r).
(** The magnitude whose leading bit the loops look for *)
Definition magnitude (v : Z) : Z := if v <? 0 then - v - 1 else v.
Lemma fits32_magnitude v r : r <= 31 -> fits32 v r <-> 0 <= magnitude v < 2 ^ (31 - r).
Proof.
  intros Hr. unfold fits32, magnitude. assert (0 < 2 ^ (31 - r)) by (apply Z.pow_pos_nonneg; lia).
  destruct (Z.ltb_spec v 0); lia.
Qed.

Lemma testbit_le x b : 0 <= b -> 0 <= x -> Z.testbit x b = true -> 2 ^ b <= x.
Proof.
  intros Hb Hx E. destruct (Z.lt_ge_cases x (2 ^ b)); [|done].
  by rewrite (testbit_high x b b) in E by lia.
Qed.
Lemma testbit_clear_top x b : 0 <= b -> 0 <= x < 2 ^ (b + 1) -> Z.testbit x b = false -> x < 2 ^ b.
Proof.
  intros Hb Hx E. rewrite Z.pow_add_r in Hx by lia. rewrite Z.testbit_eqb in E by done.
  apply Z.eqb_neq in E. assert (0 < 2 ^ b) by (apply Z.pow_pos_nonneg; lia).
  destruct (Z.lt_ge_cases x (2 ^ b)); [done|]. exfalso. apply E.
  rewrite <- (Z.div_unique x (2 ^ b) 1 (x - 2 ^ b)) by lia. done.
Qed.
(** How many of the [n] bits from [b] down are clear before the first that is set *)
Fixpoint scan (n : nat) (tmp b : Z) : option Z :=
  match n with
  | O => None
  | S n' => if Z.testbit tmp b then Some 0 else Z.succ <$> scan n' tmp (b - 1)
  end.

Lemma scan_spec n tmp : forall b,
  Z.of_nat n <= b + 1 -> 0 <= tmp < 2 ^ (b + 1) ->
  match scan n tmp b with
  | None => tmp < 2 ^ (b + 1 - Z.of_nat n)
  | Some j => 0 <= j < Z.of_nat n /\ 2 ^ (b - j) <= tmp < 2 ^ (b + 1 - j)
  end.
Proof.
  induction n as [|n IH]; intros b Hb Ht; [simpl scan; rewrite Z.sub_0_r; lia|].
  cbn [scan]. destruct (Z.testbit tmp b) eqn:E.
  - rewrite !Z.sub_0_r. split; [lia|]. split; [|lia]. apply testbit_le; [lia..|done].
  - assert (tmp < 2 ^ b) by (apply testbit_clear_top; [lia|lia|done]).
    specialize (IH (b - 1) ltac:(lia) ltac:(rewrite Z.sub_add; lia)).
    destruct (scan n tmp (b - 1)) as [j|]; simpl.
    + replace (b - Z.succ j) with (b - 1 - j) by lia.
      replace (b + 1 - Z.succ j) with (b - 1 + 1 - j) by lia. lia.
    + by replace (b + 1 - Z.of_nat (S n)) with (b - 1 + 1 - Z.of_nat n) by lia.
Qed.

(** Both loops scan, and differ in what they subtract. *)
Lemma shiftr_bit_1 b : 0 < b -> Z.shiftr (2 ^ b) 1 = 2 ^ (b - 1).
Proof. intros Hb. rewrite Z.shiftr_div_pow2, <- Z.pow_sub_r by lia. done. Qed.
Lemma OP_15002A00_loop_scan n tmp : forall b i, Z.of_nat n <= b + 1 ->
  OP_15002A00_loop n tmp (2 ^ b) i = from_option (fun j => i + j - 1) 16 (scan n tmp b).
Proof.
  induction n as [|n IH]; intros b i Hb; [done|]. cbn [OP_15002A00_loop scan].
  rewrite truth_bit. destruct (Z.testbit tmp b); [simpl; lia|]. destruct n as [|n]; [done|].
  rewrite shiftr_bit_1, IH by lia. destruct (scan (S n) tmp (b - 1)); simpl; lia.
Qed.
Lemma OP_15002A02_loop_scan n tmp : forall b i, Z.of_nat n <= b + 1 ->
  OP_15002A02_loop n tmp (2 ^ b) i = from_option (fun j => i + j - 9) 16 (scan n tmp b).
Proof.
  induction n as [|n IH]; intros b i Hb; [done|]. cbn [OP_15002A02_loop scan].
  rewrite truth_bit. destruct (Z.testbit tmp b); [simpl; lia|]. destruct n as [|n]; [done|].
  rewrite shiftr_bit_1, IH by lia. destruct (scan (S n) tmp (b - 1)); simpl; lia.
Qed.

(** [r] is the largest shift, up to 16, after which [v] still fits. *)
Definition normalises (v r : Z) : Prop := fits32 v r /\ r <= 16 /\ (r = 16 \/ ~ fits32 v (r + 1)).

Lemma magnitude_normalises v r :
  r <= 16 -> magnitude v < 2 ^ (31 - r) -> (r = 16 \/ 2 ^ (30 - r) <= magnitude v) -> normalises v r.
Proof.
  intros Hr Hv Hl. assert (0 <= magnitude v) by (unfold magnitude; destruct (Z.ltb_spec v 0); lia).
  split; [apply fits32_magnitude; lia|split; [done|]]. destruct Hl as [->|Hl]; [by left|right].
  rewrite fits32_magnitude by lia. replace (31 - (r + 1)) with (30 - r) by lia. lia.
Qed.
Lemma exp_pair_normalises v :
  - 2 ^ 31 <= v < 2 ^ 31 -> let r := OP_15002A00_loop 16 (magnitude v) (2 ^ 30) 1 in
  normalises v r /\ 0 <= r.
Proof.
  intros Hv r. assert (0 <= magnitude v < 2 ^ (30 + 1)) as Hm
    by (unfold magnitude; destruct (Z.ltb_spec v 0); simpl; lia).
  unfold r. rewrite OP_15002A00_loop_scan by lia.
  pose proof (scan_spec 16 (magnitude v) 30 ltac:(lia) Hm) as Hs.
  destruct (scan 16 (magnitude v) 30) as [j|]; simpl from_option.
  - destruct Hs as [Hj Hs]. replace (1 + j - 1) with j by lia. split; [|lia].
    apply magnitude_normalises; [lia| |right; lia]. replace (31 - j) with (30 + 1 - j) by lia. lia.
  - split; [|lia]. apply magnitude_normalises; [lia|exact Hs|by left].
Qed.
Lemma exp_acc_normalises v :
  - 2 ^ 39 <= v < 2 ^ 39 -> let r := OP_15002A02_loop 24 (magnitude v) (2 ^ 38) 1 in
  normalises v r /\ -8 <= r.
Proof.
  intros Hv r. assert (0 <= magnitude v < 2 ^ (38 + 1)) as Hm
    by (unfold magnitude; destruct (Z.ltb_spec v 0); simpl; lia).
  unfold r. rewrite OP_15002A02_loop_scan by lia.
  pose proof (scan_spec 24 (magnitude v) 38 ltac:(lia) Hm) as Hs.
  destruct (scan 24 (magnitude v) 38) as [j|]; simpl from_option.
  - destruct Hs as [Hj Hs]. split; [|lia]. apply magnitude_normalises; [lia| |right].
    + replace (31 - (1 + j - 9)) with (38 + 1 - j) by lia. lia.
    + replace (30 - (1 + j - 9)) with (38 - j) by lia. lia.
  - split; [|lia]. apply magnitude_normalises; [lia|exact Hs|by left].
Qed.

Lemma exp_pair_effects s : inv s ->
  issues OP_15002A00 s s
    [W_reg (op s 0) (OP_15002A00_loop 16 (magnitude (spair s (op s 1))) (2 ^ 30) 1 mod 2 ^ 16)].
Proof.
  intros Hs. unfold OP_15002A00. effects_tac Hs. eapply pend_eq; [eassumption|done|].
  rewrite gpr_pair_eq by apply Hs. pose proof (spair_range s (op s 1) (proj1 Hs)) as Hv.
  pose proof (wf_znth_regs s (proj1 Hs) (op s 1 + 1)) as H2. change (znth (regs s)) with (GPR s) in H2.
  assert ((0 <=? s16 (GPR s (op s 1))) = (0 <=? spair s (op s 1))) as ->
    by (unfold spair, fits in *; destruct (Z.leb_spec 0 (s16 (GPR s (op s 1)))); symmetry;
        (apply Z.leb_le || apply Z.leb_gt); lia).
  unfold magnitude. set (v := spair s (op s 1)) in *.
  destruct (Z.leb_spec 0 v), (Z.ltb_spec v 0); try lia; rewrite u32_small by (unfold Z.lnot; lia); [done|].
  by replace (Z.lnot v) with (- v - 1) by (unfold Z.lnot; lia).
Qed.
Lemma exp_acc_effects s : inv s ->
  issues OP_15002A02 s s
    [W_reg (op s 0) (OP_15002A02_loop 24 (magnitude (sacc s (op s 1))) (2 ^ 38) 1 mod 2 ^ 16)].
Proof.
  intros Hs. unfold OP_15002A02. effects_tac Hs. eapply pend_eq; [eassumption|done|].
  rewrite SEXT40_sacc. pose proof (sacc_range s (op s 1)) as Hv.
  unfold magnitude. set (v := sacc s (op s 1)) in *. destruct (Z.ltb_spec v 0); [|done].
  rewrite MASK40_mod, Z.mod_small by (unfold Z.lnot; lia).
  by replace (Z.lnot v) with (- v - 1) by (unfold Z.lnot; lia).
Qed.

(** C26: [exp] gives the largest shift, at most 16, after which its operand, a register
    pair or an accumulator, still fits in 32 bits: from 0 for a pair and from -8, a
    right shift, for an accumulator. *)
Theorem exp_normalises s :
  inv s ->
  (exists r, issues OP_15002A00 s s [W_reg (op s 0) (r mod 2 ^ 16)] /\
     normalises (spair s (op s 1)) r /\ 0 <= r) /\
  (exists r, issues OP_15002A02 s s [W_reg (op s 0) (r mod 2 ^ 16)] /\
     normalises (sacc s (op s 1)) r /\ -8 <= r).
Proof.
  intros Hs. split; eexists; (split; [by apply exp_pair_effects || by apply exp_acc_effects|]).
  - apply exp_pair_normalises, spair_range, Hs.
  - apply exp_acc_normalises, sacc_range.
Qed.

Lemma exp_normalises_witness :
  exists r, issues OP_15002A02 booted booted [W_reg (op booted 0) (r mod 2 ^ 16)] /\
    normalises (sacc booted (op booted 1)) r /\ -8 <= r.
Proof. apply (exp_normalises booted). apply booted_inv. Defined.

(** ** Post-increment and modulo addressing *)

(** What [INC_ADDR] compares the register with: for a post-increment the end address
    rounded to the size of the access, for a post-decrement a single bit of it. *)
Definition modulo_end (s : state) (i : Z) : Z :=
  if 0 <? i then MOD_E s / i * i else MOD_E s / (- i) mod 2 * (- i).

Lemma MOD_E_even s : wf s -> MOD_E s mod 2 = 0.
Proof.
  intros Hs. assert (cr_ok MOD_E_CR (MOD_E s)) as H by (apply wf_znth_cregs; [done|unfold MOD_E_CR; lia]).
  unfold cr_ok in H. rewrite <- H. change (cr_mask MOD_E_CR) with 0xfffe.
  rewrite <- (Z.land_ones _ 1), <- Z.land_assoc by lia. by rewrite Z.land_0_r.
Qed.

Lemma modulo_end_eq s i :
  wf s -> i = 2 \/ i = 4 \/ i = -2 \/ i = -4 -> Z.land (MOD_E s) (Z.lnot (i - 1)) = modulo_end s i.
Proof.
  intros Hs [->|[->|[->| ->]]]; unfold modulo_end; simpl (0 <? _); cbv iota.
  - change (Z.lnot (2 - 1)) with (Z.lnot (Z.ones 1)). rewrite <- Z.ldiff_land, Z.ldiff_ones_r by lia.
    by rewrite Z.shiftr_div_pow2, Z.shiftl_mul_pow2 by lia.
  - change (Z.lnot (4 - 1)) with (Z.lnot (Z.ones 2)). rewrite <- Z.ldiff_land, Z.ldiff_ones_r by lia.
    by rewrite Z.shiftr_div_pow2, Z.shiftl_mul_pow2 by lia.
  - change (Z.lnot (-2 - 1)) with (2 ^ 1). rewrite land_bit by lia.
    change (- -2) with (2 ^ 1). rewrite <- Z.testbit_spec' by lia. by destruct (Z.testbit _ _).
  - change (Z.lnot (-4 - 1)) with (2 ^ 2). rewrite land_bit by lia.
    change (- -4) with (2 ^ 2). rewrite <- Z.testbit_spec' by lia. by destruct (Z.testbit _ _).
Qed.

(** A post-increment of an address register by 2 or 4 goes back to MOD_S when
    modulo addressing is on and the register is at MOD_E, rounded down to the size of
    the access.  A post-decrement compares the register with one bit of MOD_E instead
    of with MOD_E, so that no address above 4 ever wraps. *)
Theorem inc_addr_modulo s x i :
  inv s -> i = 2 \/ i = 4 \/ i = -2 \/ i = -4 ->
  issues (INC_ADDR x i) s s
    [W_reg x (if PSW_MD s && (GPR s x =? modulo_end s i) then MOD_S s else (GPR s x + i) mod 2 ^ 16)] /\
  (i = 2 -> modulo_end s i = MOD_E s) /\
  (i < 0 -> 4 < GPR s x -> issues (INC_ADDR x i) s s [W_reg x ((GPR s x + i) mod 2 ^ 16)]).
Proof.
  intros Hs Hi.
  assert (issues (INC_ADDR x i) s s
    [W_reg x (if PSW_MD s && (GPR s x =? modulo_end s i) then MOD_S s else (GPR s x + i) mod 2 ^ 16)]) as He.
  { unfold INC_ADDR. rewrite <- modulo_end_eq by (done || apply Hs).
    effects_tac Hs; (eapply pend_eq; [eassumption|done|]); unfold_reads; use_conditions; [|done].
    by rewrite u16_PSW by (done || apply Hs). }
  split; [done|split; [intros ->|intros Hneg Hx]].
  - unfold modulo_end. change (0 <? 2) with true. cbv iota. pose proof (MOD_E_even s (proj1 Hs)). zdml.
  - assert ((GPR s x =? modulo_end s i) = false) as E.
    { apply Z.eqb_neq. unfold modulo_end. destruct (Z.ltb_spec 0 i); [lia|].
      pose proof (Z.mod_pos_bound (MOD_E s / - i) 2 ltac:(lia)).
      set (b := MOD_E s / - i mod 2) in *. destruct Hi as [->|[->|[->| ->]]]; lia. }
    by rewrite E, andb_false_r in He.
Qed.

(** A decrement of r1 = 0x100 with modulo addressing on: it does not wrap. *)
Lemma inc_addr_modulo_witness :
  let s := at_values (replicate 16 0x100) [0; 0] [0; 0; 0; 0] PSW_MD_BIT in
  issues (INC_ADDR 1 (-2)) s s [W_reg 1 0xfe].
Proof.
  intros s. assert (inv s) as Hs by (apply inv_at_values; vm_compute; reflexivity).
  assert (GPR s 1 = 0x100) as E by (vm_compute; done). clearbody s.
  pose proof (inc_addr_modulo s 1 (-2) Hs ltac:(by right; right; left)) as (_ & _ & H).
  rewrite E in H. apply H; lia.
Defined.

(** 1000000 / 1000 *)
Lemma divs_divides_witness :
  let s := at_values [15; 16960; 1000; 0; 0; 0; 0; 0; 0; 0; 0; 0; 0; 0; 0; 0] [0; 0] [0; 2; 0; 0] 0 in
  exists s', repeat_op 16 OP_14002800 s = Ret tt s' /\ GPR s' 1 = 1000 /\ GPR s' 0 = 0.
Proof.
  intros s. assert (inv s) as Hs by (apply inv_at_values; vm_compute; reflexivity).
  assert (op s 0 = 0 /\ op s 1 = 2 /\ GPR s 0 = 15 /\ GPR s 2 = 1000 /\ rpair s 0 = 1000000)
    as (E0 & E1 & E2 & E3 & E4) by (vm_compute; done).
  clearbody s. pose proof (divs_divides s Hs) as H. rewrite E0, E1, E2, E3, E4 in H.
  destruct H as (s' & E & Eq & Er & _); [lia..|]. exists s'. done.
Defined.
