(* ===== verification/MemSpec.v ===== *)
(** * The stack instructions

    Loads and stores at the level of instructions: what they transfer, and what they
    do to the address register.  A push followed by a pop is the theorem. *)
From S2P Require Import Prelude CInt Opcodes State Memory Cregs.
From S2P Require Import SimopsAlu SimopsAcc SimopsFlow SimopsMem SimopsTrap Interp Logic OpRules.
From S2P Require Import Machine MemProps Effects AluSpec AccSpec FlowSpec NumSpec.

Section Stack.
Context `{Host} (Hcalloc : forall s seg, host_calloc s seg = true).

(** An access keeps the registers, and the invariant. *)
Lemma access_frame {A} (m : M A) s x s' :
  runs 0 0 m -> inv s -> m s = Ret x s' -> inv s' /\ frame s s'.
Proof.
  intros Hm [Hs Hsl] E. assert (room 0 s) as Hr by (by apply inv_room; [split|lia]).
  specialize (Hm s Hs Hr). rewrite E in Hm. destruct Hm as (Hs' & Hf & L & _).
  split; [split; [done|]|done]. rewrite Hsl in L. apply length_zero_iff_nil. simpl in L. lia.
Qed.

Lemma frame_GPR s s' n : frame s s' -> GPR s' n = GPR s n.
Proof. intros []. unfold GPR. congruence. Qed.
Lemma frame_CREG s s' n : frame s s' -> CREG s' n = CREG s n.
Proof. intros []. unfold CREG. congruence. Qed.
Lemma frame_psw_bit s s' b : frame s s' -> psw_bit s' b = psw_bit s b.
Proof. intros Hf. unfold psw_bit, PSW. by rewrite (frame_CREG s s'). Qed.

(** Accesses keep the decoded operands. *)
Definition op_kept {A} (m : M A) : Prop := forall s x s', m s = Ret x s' -> OP s' = OP s.
Lemma op_kept_bind {A B} (m : M A) (f : A -> M B) :
  op_kept m -> (forall x, op_kept (f x)) -> op_kept (bind m f).
Proof.
  intros Hm Hf s y s' (x & s1 & E1 & E2)%bind_Ret. etransitivity; [by eapply Hf|by eapply Hm].
Qed.
Lemma op_kept_modify f : (forall s, OP (f s) = OP s) -> op_kept (modify f).
Proof. by intros Hf s x s' [= _ <-]. Qed.
Lemma op_kept_ret {A} (x : A) : op_kept (ret x).
Proof. by intros s y s' [= _ <-]. Qed.
Lemma op_kept_get : op_kept get.
Proof. by intros s y s' [= _ <-]. Qed.
Lemma op_kept_load p : op_kept (load_byte p).
Proof. intros s x s'. unfold load_byte. by destruct (ptr_ok s p); intros [= _ <-]. Qed.
Lemma op_kept_store p v : op_kept (store_byte p v).
Proof. intros s x s' [_ ->]%store_byte_Ret. by destruct p. Qed.
Lemma op_kept_decode_pc : op_kept decode_pc.
Proof.
  unfold decode_pc. apply op_kept_bind; [apply op_kept_modify|intros; apply op_kept_bind;
    [apply op_kept_get|intros; apply op_kept_ret]].
  intros s. destruct (prog_bfd s) as [secs|]; [|done]. destruct (init_text_p s); [done|].
  by destruct (find _ _).
Qed.
Ltac op_kept_tac :=
  repeat first
  [ apply op_kept_decode_pc | apply op_kept_load | apply op_kept_store | apply op_kept_ret
  | apply op_kept_get | apply op_kept_bind; [|intros ?]
  | apply op_kept_modify; intros s0; cbv beta; try (destruct (host_calloc _ _)); reflexivity
  | match goal with |- op_kept (if ?c then _ else _) => destruct c end
  | match goal with |- op_kept (match ?o with _ => _ end) => destruct o end ].
Lemma op_kept_dmem_addr addr : op_kept (dmem_addr addr).
Proof.
  rewrite dmem_addr_unfold. unfold dmem_addr_body, get_word, printf_filtered, calloc_umem, skip.
  op_kept_tac.
Qed.
Lemma op_kept_SW addr v : op_kept (SW addr v).
Proof. apply op_kept_bind; [apply op_kept_dmem_addr|intros p]. unfold write_word. op_kept_tac. Qed.
Lemma op_kept_RW addr : op_kept (RW addr).
Proof. apply op_kept_bind; [apply op_kept_dmem_addr|intros p]. unfold get_word. op_kept_tac. Qed.

(** The rest of an instruction after an access *)
Lemma effects_after {A} (m : M A) (f : A -> M unit) s x s' ws :
  m s = Ret x s' -> effects (f x) s' s' ws ->
  exists t, (bind m f ;; SLOT_FLUSH) s = Ret tt (set_trace_psw t (apply_writes ws s')).
Proof. intros E [t E']. exists t. rewrite <- E'. unfold bind. by rewrite E. Qed.

Lemma keeps_flushed (m : M unit) k s s' :
  runs k k m -> (k <= NR_SLOTS)%nat -> inv s -> (m ;; SLOT_FLUSH) s = Ret tt s' -> inv s'.
Proof.
  intros Hm Hk Hs E. assert (keeps (m ;; SLOT_FLUSH)) as Hkeep
    by (by apply (safe_flush_keeps k); [apply judge_runs|]).
  specialize (Hkeep s Hs). rewrite E in Hkeep. apply Hkeep.
Qed.

(** A word of the stack *)
Definition stack_word (s : state) (addr : Z) : Z := word_at s (translate s addr).
Definition stack_ok (s : state) (addr : Z) : Prop := bytes_in s (translate s addr) 2.

(** [st rN, @-sp] *)
Lemma push_run s :
  inv s -> op s 1 = 15 -> let addr := (GPR s 15 - 2) mod 2 ^ 16 in (addr + 1) mod 2 ^ 14 <> 0 ->
  exists s', (OP_6C1F ;; SLOT_FLUSH) s = Ret tt s' /\ inv s' /\ GPR s' 15 = addr /\
    (forall k, 0 <= k -> k <> 15 -> GPR s' k = GPR s k) /\ (forall k, CREG s' k = CREG s k) /\
    stack_ok s' addr /\ stack_word s' addr = GPR s (op s 0).
Proof.
  intros Hs E1 addr Ha.
  destruct (SW_run addr (GPR s (op s 0)) s Hs Hcalloc Ha) as (s1 & E & _ & Hin & Ew).
  destruct (access_frame _ _ _ _ (runs_SW _ _) Hs E) as [Hs1 Hf].
  pose proof (op_kept_SW _ _ _ _ _ E) as Eo.
  assert (effects (s <- get ;; SET_GPR (op s 1) addr) s1 s1 [W_reg 15 addr]) as He.
  { effects_tac Hs1. eapply pend_eq; [eassumption|done|].
    assert (op s1 1 = 15) as -> by (rewrite <- E1; unfold op; by rewrite Eo).
    rewrite u16_small; [done|]. apply Z.mod_pos_bound. lia. }
  assert (exists t, (OP_6C1F ;; SLOT_FLUSH) s =
    Ret tt (set_trace_psw t (apply_writes [W_reg 15 addr] s1))) as [t Et].
  { destruct He as [t He]. exists t. rewrite <- He. unfold OP_6C1F. unfold bind at 1 2, get at 1.
    rewrite E1. change (negb (15 =? 15)) with false. cbv beta iota zeta.
    change (u16 (GPR s 15 - 2)) with addr. unfold bind at 1. rewrite E. done. }
  pose proof (wf_sized s1 (proj1 Hs1)) as Hz.
  eexists. split; [exact Et|]. split.
  { eapply (keeps_flushed OP_6C1F 4); [unfold OP_6C1F; runs_tac|unfold NR_SLOTS; lia|exact Hs|exact Et]. }
  set (s2 := apply_writes [W_reg 15 addr] s1).
  assert (forall k, 0 <= k -> GPR s2 k = if k =? 15 then addr else GPR s k) as Eg.
  { intros k Hk. unfold s2, apply_writes. cbn [fold_left]. rewrite GPR_write by write_side.
    by rewrite (frame_GPR s s1). }
  split; [by apply (Eg 15)|]. split.
  { intros k Hk Hne. change (GPR s2 k = GPR s k). rewrite Eg by done. by rewrite (proj2 (Z.eqb_neq k 15)). }
  split; [intros k; by apply (frame_CREG s s1)|]. split; [exact Hin|].
  unfold stack_word. change (word_at s1 (translate s1 addr) = GPR s (op s 0)).
  rewrite Ew. apply u16_small, wf_znth_regs, Hs.
Qed.

(** [ld rN, @sp+] *)
Lemma pop_run s :
  inv s -> op s 1 = 15 -> 0 <= op s 0 < 15 ->
  PSW_MD s && (GPR s 15 =? MOD_E s) = false -> stack_ok s (GPR s 15) ->
  exists s', (OP_6001 ;; SLOT_FLUSH) s = Ret tt s' /\
    GPR s' (op s 0) = stack_word s (GPR s 15) /\ GPR s' 15 = (GPR s 15 + 2) mod 2 ^ 16 /\
    (forall k, 0 <= k -> k <> 15 -> k <> op s 0 -> GPR s' k = GPR s k).
Proof.
  intros Hs E1 E0 Hmd Hin.
  destruct (RW_run (GPR s 15) s (proj1 Hs) Hcalloc Hin) as (s1 & E & Hm).
  destruct (access_frame _ _ _ _ (runs_RW _) Hs E) as [Hs1 Hf].
  pose proof (op_kept_RW _ _ _ _ E) as Eo.
  assert (forall n, op s1 n = op s n) as Eop by (intros n; unfold op; by rewrite Eo).
  set (v := word_at s (translate s (GPR s 15))) in *.
  assert (effects (s <- get ;; SET_GPR (op s 0) v ;; s <- get ;; INC_ADDR (op s 1) 2) s1 s1
    [W_reg (op s 0) v; W_reg 15 ((GPR s 15 + 2) mod 2 ^ 16)]) as He.
  { assert (PSW_MD s1 && (GPR s1 15 =? Z.land (MOD_E s1) (Z.lnot (2 - 1))) = false) as Hmd1.
    { rewrite modulo_end_eq by (apply Hs1 || by left). unfold modulo_end. change (0 <? 2) with true.
      cbv iota. pose proof (MOD_E_even s1 (proj1 Hs1)) as He.
      replace (MOD_E s1 / 2 * 2) with (MOD_E s1) by zdml. unfold PSW_MD, MOD_E in *.
      by rewrite (frame_psw_bit s s1), (frame_CREG s s1), (frame_GPR s s1). }
    unfold INC_ADDR. effects_tac Hs1; [|eapply pend_eq; [eassumption|done|]];
      rewrite ?Eop, ?E1 in *; unfold_reads; [congruence|].
    rewrite (frame_GPR s s1) by done. unfold v, word_at. by rewrite u16_u16. }
  assert (exists t, (OP_6001 ;; SLOT_FLUSH) s = Ret tt (set_trace_psw t (apply_writes
    [W_reg (op s 0) v; W_reg 15 ((GPR s 15 + 2) mod 2 ^ 16)] s1))) as [t Et].
  { destruct He as [t He]. exists t. rewrite <- He. unfold OP_6001. unfold bind at 1 2, get at 1.
    rewrite E1. unfold bind at 1. rewrite E. done. }
  pose proof (wf_sized s1 (proj1 Hs1)) as Hz.
  eexists. split; [exact Et|].
  set (s2 := apply_writes _ s1).
  assert (forall k, 0 <= k -> GPR s2 k =
    if k =? 15 then (GPR s 15 + 2) mod 2 ^ 16 else if k =? op s 0 then v else GPR s k) as Eg.
  { intros k Hk. unfold s2, apply_writes. cbn [fold_left]. rewrite !GPR_write by write_side.
    by rewrite (frame_GPR s s1). }
  split; [change (GPR s2 (op s 0) = v)|split; [by apply (Eg 15)|]].
  - rewrite Eg by lia. rewrite (proj2 (Z.eqb_neq (op s 0) 15)) by lia. by rewrite Z.eqb_refl.
  - intros k Hk Hne Hne'. change (GPR s2 k = GPR s k). rewrite Eg by done. by rewrite !(proj2 (Z.eqb_neq _ _)).
Qed.

(** A push ([st rN, @-sp]) followed by a pop ([ld rD, @sp+]) succeeds and copies
    the register, leaves the stack pointer where it was, and changes no other
    register: the decrement is made before the access and the increment after it, and
    the word survives in whatever memory the address maps to.  The new stack pointer
    must not be the last byte of a 16K page, nor the end of a circular buffer. *)
Theorem push_pop s d :
  inv s -> op s 1 = 15 -> 0 <= d < 15 ->
  let addr := (GPR s 15 - 2) mod 2 ^ 16 in
  (addr + 1) mod 2 ^ 14 <> 0 -> PSW_MD s && (addr =? MOD_E s) = false ->
  exists s', (OP_6C1F ;; SLOT_FLUSH ;; modify (set_OP [d; 15; 0; 0]) ;; OP_6001 ;; SLOT_FLUSH) s =
               Ret tt s' /\
    GPR s' d = GPR s (op s 0) /\ GPR s' 15 = GPR s 15 /\
    (forall k, 0 <= k -> k <> 15 -> k <> d -> GPR s' k = GPR s k).
Proof.
  intros Hs E1 Hd addr Ha Hmd.
  destruct (push_run s Hs E1 Ha) as (s1 & Ep & Hs1 & Esp & Eg & Ec & Hok & Ew).
  set (s2 := set_OP [d; 15; 0; 0] s1).
  assert (inv s2) as Hs2.
  { apply inv_set_OP; [done|done|]. repeat constructor; unfold fits; lia. }
  destruct (pop_run s2 Hs2 eq_refl Hd) as (s3 & E3 & F1 & F2 & F3).
  - unfold PSW_MD, psw_bit, PSW, MOD_E in *. change (CREG s2 ?n) with (CREG s1 n).
    change (GPR s2 15) with (GPR s1 15). by rewrite !Ec, Esp.
  - change (stack_ok s1 (GPR s1 15)). by rewrite Esp.
  - exists s3. split.
    { revert Ep. unfold bind. destruct (OP_6C1F s) as [[] s0| | |]; try done.
      destruct (SLOT_FLUSH s0) as [[] s0'| | |]; try done. intros [= ->]. exact E3. }
    change (op s2 0) with d in F1, F3.
    split; [rewrite F1; change (GPR s2 15) with (GPR s1 15); by rewrite Esp|split].
    + rewrite F2. change (GPR s2 15) with (GPR s1 15). rewrite Esp. unfold addr.
      pose proof (wf_znth_regs s (proj1 Hs) 15) as Hr. unfold fits, GPR in *. zdml.
    + intros k Hk Hne Hne'. rewrite F3 by done. by apply Eg.
Qed.
End Stack.

(** Pushing r3 and popping it into r4 *)
Lemma push_pop_witness :
  let s := at_values (map Z.of_nat (seq 100 16)) [0; 0] [3; 15; 0; 0] 0 in
  exists s', (@OP_6C1F plain_host ;; SLOT_FLUSH ;; modify (set_OP [4; 15; 0; 0]) ;;
              @OP_6001 plain_host ;; SLOT_FLUSH) s = Ret tt s' /\ GPR s' 4 = 103.
Proof.
  intros s. assert (inv s) as Hs by (apply inv_at_values; vm_compute; reflexivity).
  destruct (@push_pop plain_host (fun _ _ => eq_refl) s 4 Hs) as (s' & E & E4 & _).
  - reflexivity.
  - lia.
  - vm_compute. discriminate.
  - vm_compute. reflexivity.
  - exists s'. split; [exact E|]. rewrite E4. vm_compute. reflexivity.
Defined.
