(* ===== verification/Cycle.v ===== *)
(** * The program counter, hardware loops, and the debugger's registers

    What happens between two instruction words: [next_pc] advances the program
    counter or goes round a hardware loop, which runs its body exactly as often as
    its counter says; and what the debugger reads of a register is what it wrote. *)
From S2P Require Import Prelude CInt Opcodes State Memory Cregs.
From S2P Require Import SimopsAlu SimopsAcc SimopsFlow SimopsMem SimopsTrap Interp Logic OpRules.
From S2P Require Import Machine Effects AluSpec AccSpec FlowSpec NumSpec.

(** ** The next program counter *)

(** At the last word of an active hardware loop *)
Definition at_loop_end (s : state) : bool := PSW_RP s && (PC s =? RPT_E s).

Definition next_pc_writes (s : state) : list write :=
  if negb (pc_changed s =? 0) then []
  else if at_loop_end s then
    if RPT_C s =? 1 then
      [W_flag PSW_RP_BIT false; W_creg RPT_C_CR 0; W_creg PC_CR (next_word s)]
    else [W_creg RPT_C_CR ((RPT_C s - 1) mod 2 ^ 16); W_creg PC_CR (RPT_S s)]
  else [W_creg PC_CR (next_word s)].

(** The registers of the loop, and the flag that the PC was written *)
Definition loop_regs : list Z := [PC_CR; RPT_C_CR; RPT_S_CR; RPT_E_CR].
(** Pending writes that leave them alone *)
Definition loop_fresh (ws : list write) : bool :=
  forallb (fun n => creg_fresh n ws) loop_regs && flag_fresh PSW_RP_BIT ws.

Lemma loop_fresh_spec ws : loop_fresh ws = true ->
  creg_fresh PC_CR ws = true /\ creg_fresh RPT_C_CR ws = true /\ creg_fresh RPT_S_CR ws = true /\
  creg_fresh RPT_E_CR ws = true /\ flag_fresh PSW_RP_BIT ws = true.
Proof.
  unfold loop_fresh, loop_regs. simpl. rewrite andb_true_r. intros [H ?]%andb_prop.
  apply andb_prop in H as [? [? [? ?]%andb_prop]%andb_prop]. done.
Qed.

Ltac cycle_side :=
  first [ flow_side
        | rewrite !length_app; cbn [length]; unfold NR_SLOTS; lia
        | rewrite ?creg_fresh_app;
          repeat match goal with H : creg_fresh _ _ = true |- _ => rewrite H; clear H end; reflexivity ].
Ltac cycle_step :=
  lazymatch goal with
  | |- wp (SET_CREG _ _) _ _ =>
      eapply wp_SET_CREG; [eassumption|cycle_side|cycle_side|cycle_side|cycle_side|intros ?; next]
  | |- _ => flow_step
  end.

Lemma wp_next_pc s1 ws s (Q : unit -> state -> Prop) :
  pend s1 ws s -> wf s1 ->
  (pc_changed s1 = 0 -> (length ws <= 12)%nat /\ loop_fresh ws = true) ->
  (forall s', pend s1 (ws ++ next_pc_writes s1) s' -> Q tt s') -> wp next_pc s Q.
Proof.
  intros Hp Hs Hj HQ.
  destruct (pend_read_all _ _ _ Hp) as (l & t & ->).
  unfold next_pc, next_pc_writes, at_loop_end, next_word in *. apply wp_get. unfold_reads.
  autorewrite with reads. change (pc_changed (set_slot l (set_trace_psw t s1))) with (pc_changed s1).
  apply wp_when; intros Hpc; rewrite Hpc in HQ; simpl negb in HQ; cbv iota in HQ.
  2: { apply HQ. by rewrite app_nil_r. }
  destruct Hj as [Hl (Fpc & Fc & Fs & Fe & Frp)%loop_fresh_spec]; [by apply Z.eqb_eq|].
  unfold SET_PC, SET_RPT_C. apply wp_if; intros Hend; rewrite Hend in HQ; [apply wp_if; intros Hc; rewrite Hc in HQ|]; repeat cycle_step;
    apply HQ; (eapply pend_eq; [eassumption|done|]); rewrite <- ?app_assoc;
    rewrite ?cr_value_plain by reflexivity; autorewrite with conv;
    rewrite ?(u16_PSW s1) by (done || discriminate); reflexivity.
Qed.

(** C29: After an instruction word that did not jump, the PC goes to the next word,
    and at the last word of a hardware loop to the first one, with the counter one
    less, until the counter is 1, which ends the loop; after a jump nothing happens. *)
Theorem next_pc_refines s : inv s -> issues next_pc s s (next_pc_writes s).
Proof.
  intros Hs. apply (wp_next_pc s []).
  - by apply pend_refl, Hs.
  - apply Hs.
  - intros _. split; [simpl; lia|done].
  - done.
Qed.

(** ** Hardware loops *)

(** A loop: PC, counter, start, end, activity, and whether the PC was written *)
Definition loop_view (s : state) : Z * Z * Z * Z * bool * bool :=
  (PC s, RPT_C s, RPT_S s, RPT_E s, PSW_RP s, pc_changed s =? 0).
Definition next_view (v : Z * Z * Z * Z * bool * bool) : Z * Z * Z * Z * bool * bool :=
  let '(pc, c, b, e, rp, seq) := v in
  if rp && (pc =? e) then
    if c =? 1 then ((pc + 1) mod 2 ^ 16, 0, b, e, false, seq)
    else (b, (c - 1) mod 2 ^ 16, b, e, rp, seq)
  else ((pc + 1) mod 2 ^ 16, c, b, e, rp, seq).

Lemma CREG_write_flag s m b k : 0 < k -> CREG (apply_write s (W_flag m b)) k = CREG s k.
Proof.
  intros Hk. unfold CREG, znth.
  change (cregs (apply_write s (W_flag m b))) with (<[0%nat := set_flag (PSW s) m b]> (cregs s)).
  rewrite !nth_lookup, list_lookup_insert_ne by lia. done.
Qed.
Lemma RP_off s : sized s -> psw_bit (apply_write s (W_flag PSW_RP_BIT false)) PSW_RP_BIT = false.
Proof.
  intros (_ & Hl & _). unfold psw_bit. rewrite PSW_set_flag by lia. unfold set_flag.
  rewrite Z.lor_0_r, <- Z.land_assoc. change (Z.land (u16 (Z.lnot PSW_RP_BIT)) PSW_RP_BIT) with 0.
  by rewrite Z.land_0_r.
Qed.

Lemma creg_fresh_read n ws s : sized s -> 0 <= n < 16 -> creg_fresh n ws = true ->
  CREG (apply_writes ws s) n = CREG s n.
Proof.
  intros Hz Hn Hf. unfold CREG, znth. rewrite !nth_lookup. by rewrite apply_writes_creg.
Qed.

Lemma apply_writes_pc_changed ws : forall s, pc_changed (apply_writes ws s) = pc_changed s.
Proof. induction ws as [|w ws IH]; intros s; simpl; [done|]. rewrite IH. by destruct w. Qed.
Ltac loop_side :=
  unfold PSW_CR, PC_CR, RPT_C_CR, RPT_S_CR, RPT_E_CR in *;
  first [repeat apply sized_write; assumption | lia | exact I].

Lemma next_pc_view s1 ws s2 t :
  wf s1 -> loop_fresh ws = true -> pc_changed s1 = 0 ->
  s2 = set_trace_psw t (apply_writes (ws ++ next_pc_writes s1) s1) ->
  loop_view s2 = next_view (loop_view s1).
Proof.
  intros Hs Hf Hj ->. pose proof (wf_sized s1 Hs) as Hz.
  pose proof (wf_fits_creg s1 Hs PC_CR ltac:(unfold PC_CR; lia)) as Hpc.
  destruct (loop_fresh_spec ws Hf) as (Fpc & Fc & Fs & Fe & Frp).
  destruct (apply_writes_psw PSW_RP_BIT ws s1 Frp) as (Erp & _ & _);
    [destruct Hz as (_ & -> & _); lia|by apply wf_fits_creg|done|].
  rewrite apply_writes_app. pose proof (sized_writes ws s1 Hz) as Hz'.
  pose proof (creg_fresh_read PC_CR _ s1 Hz ltac:(unfold PC_CR; lia) Fpc) as Epc.
  pose proof (creg_fresh_read RPT_C_CR _ s1 Hz ltac:(unfold RPT_C_CR; lia) Fc) as Ec.
  pose proof (creg_fresh_read RPT_S_CR _ s1 Hz ltac:(unfold RPT_S_CR; lia) Fs) as Es.
  pose proof (creg_fresh_read RPT_E_CR _ s1 Hz ltac:(unfold RPT_E_CR; lia) Fe) as Ee.
  set (s3 := apply_writes ws s1) in *.
  change (loop_view (set_trace_psw t ?x)) with (loop_view x).
  unfold loop_view, next_view, next_pc_writes, at_loop_end, next_word. rewrite Hj.
  rewrite !apply_writes_pc_changed. change (negb (0 =? 0)) with false. cbv iota.
  assert (pc_changed s3 = 0) as -> by (unfold s3; by rewrite apply_writes_pc_changed).
  unfold PSW_RP, PC, RPT_C, RPT_S, RPT_E in *. 
  repeat match goal with |- context [CREG ?x 2] => change (CREG x 2) with (CREG x PC_CR) end.
  set (rp := psw_bit s1 PSW_RP_BIT).
  assert (forall x, CREG x PSW_CR = CREG s3 PSW_CR -> psw_bit x PSW_RP_BIT = rp) as Erp'.
  { intros x Ex. unfold rp, psw_bit, PSW in *. by rewrite Ex, Erp. }
  destruct (rp && (CREG s1 PC_CR =? CREG s1 RPT_E_CR)) eqn:Eend;
    [destruct (CREG s1 RPT_C_CR =? 1)|]; unfold apply_writes; cbn [fold_left].
  - assert (psw_bit (apply_write (apply_write (apply_write s3 (W_flag PSW_RP_BIT false))
      (W_creg RPT_C_CR 0)) (W_creg PC_CR ((CREG s1 PC_CR + 1) mod 2 ^ 16))) PSW_RP_BIT = false) as ->.
    { rewrite <- (RP_off s3 Hz') at 2. unfold psw_bit, PSW.
      by rewrite !(CREG_write _ (W_creg _ _)) by loop_side. }
    rewrite !(CREG_write _ (W_creg _ _)) by loop_side. rewrite !CREG_write_flag by loop_side. simpl.
    by rewrite Es, Ee.
  - rewrite Erp' by (by rewrite !(CREG_write _ (W_creg _ _)) by loop_side). rewrite !(CREG_write _ (W_creg _ _)) by loop_side. simpl.
    by rewrite Es, Ee.
  - rewrite Erp' by (by rewrite !(CREG_write _ (W_creg _ _)) by loop_side). rewrite !(CREG_write _ (W_creg _ _)) by loop_side. simpl.
    by rewrite Ec, Es, Ee.
Qed.

(** An instruction word that neither jumps nor writes the registers of the loop *)
Definition neutral (m : M unit) : Prop :=
  runs 4 5 m /\
  forall s, inv s -> wp m s (fun _ s' => exists s1 ws, pend s1 ws s' /\ (length ws <= 4)%nat /\
    loop_fresh ws = true /\ cregs s1 = cregs s /\ pc_changed s1 = pc_changed s /\ wf s1).

(** The words at the successive values of the PC *)
Fixpoint words (body : Z -> M unit) (n : nat) : M unit :=
  match n with
  | O => skip
  | S n' => s <- get ;; body (PC s) ;; next_pc ;; SLOT_FLUSH ;; words body n'
  end.

Lemma word_view m s : neutral m -> inv s -> pc_changed s = 0 ->
  exists s', (m ;; next_pc ;; SLOT_FLUSH) s = Ret tt s' /\ inv s' /\
    loop_view s' = next_view (loop_view s).
Proof.
  intros [Hr Hm] Hs Hj. specialize (Hm s Hs).
  assert (keeps ((m ;; next_pc) ;; SLOT_FLUSH)) as Hk.
  { apply (safe_flush_keeps 10); [|unfold NR_SLOTS; lia]. apply judge_runs.
    eapply judge_weaken; [eapply judge_bind; [exact Hr|intros _; apply runs_next_pc_body]|lia..]. }
  specialize (Hk s Hs). revert Hm Hk. unfold wp, bind. destruct (m s) as [[] s0| | |]; try done.
  intros (s1 & ws & Hp & Hl & Hf & Ec & Ej & Hs1).
  assert (wp next_pc s0 (fun _ s' => pend s1 (ws ++ next_pc_writes s1) s')) as Hn
    by (eapply wp_next_pc; [exact Hp|done|split; [lia|done]|done]).
  revert Hn. unfold wp. destruct (next_pc s0) as [[] s2| | |]; try done. intros Hp2.
  destruct (pend_flush _ _ _ Hp2) as [t E]. rewrite E. intros [Hi _].
  eexists. split; [reflexivity|split; [done|]].
  rewrite (next_pc_view s1 ws _ t); [|done|done|congruence|reflexivity].
  unfold loop_view, PC, RPT_C, RPT_S, RPT_E, PSW_RP, psw_bit, PSW, CREG. by rewrite Ec, Ej.
Qed.

Lemma next_view_seq v : (next_view v).2 = v.2.
Proof. destruct v as [[[[[? ?] ?] ?] ?] ?]. simpl. by repeat case_match. Qed.

Lemma words_view body n : (forall pc, neutral (body pc)) -> forall s, inv s -> pc_changed s = 0 ->
  exists s', words body n s = Ret tt s' /\ inv s' /\ loop_view s' = Nat.iter n next_view (loop_view s).
Proof.
  intros Hb. induction n as [|n IH]; intros s Hs Hj; [by exists s|].
  destruct (word_view (body (PC s)) s (Hb _) Hs Hj) as (s1 & E & Hs1 & Hv).
  assert (pc_changed s1 = 0) as Hj1.
  { pose proof (next_view_seq (loop_view s)) as H. rewrite <- Hv in H. simpl in H.
    rewrite Hj in H. by apply Z.eqb_eq. }
  destruct (IH s1 Hs1 Hj1) as (s' & E' & Hs' & Hv'). exists s'.
  split; [|split; [done|]].
  - simpl. unfold bind, get in *. destruct (body (PC s) s) as [[] s2| | |]; try done.
    destruct (next_pc s2) as [[] s3| | |]; try done. by rewrite E.
  - by rewrite Hv', Hv, Nat.iter_succ_r.
Qed.

(** The views of a loop of [c] rounds of [len + 1] words *)
Section Rounds.
Context (b c len : Z) (Hb : 0 <= b) (Hlen : 0 <= len) (He : b + len < 2 ^ 16) (Hc : 0 < c < 2 ^ 16).

Definition round_view (i j : Z) : Z * Z * Z * Z * bool * bool := (b + j, c - i, b, b + len, true, true).

Lemma next_round i j : 0 <= i < c -> 0 <= j <= len -> (i < c - 1 \/ j < len) ->
  next_view (round_view i j) = if j =? len then round_view (i + 1) 0 else round_view i (j + 1).
Proof.
  intros Hi Hj Hij. unfold next_view, round_view. simpl andb.
  destruct (Z.eqb_spec j len) as [->|Hne].
  - rewrite Z.eqb_refl. destruct (Z.eqb_spec (c - i) 1); [lia|].
    rewrite Z.mod_small by lia. replace (c - i - 1) with (c - (i + 1)) by lia. by rewrite Z.add_0_r.
  - rewrite (proj2 (Z.eqb_neq (b + j) _)) by lia. rewrite Z.mod_small by lia.
    by replace (b + j + 1) with (b + (j + 1)) by lia.
Qed.
Lemma iter_rounds n : Z.of_nat n < c * (len + 1) ->
  Nat.iter n next_view (round_view 0 0) =
  round_view (Z.of_nat n / (len + 1)) (Z.of_nat n mod (len + 1)).
Proof.
  induction n as [|n IH]; intros Hn; [by rewrite Z.mod_0_l, Z.div_0_l by lia|].
  simpl Nat.iter. rewrite IH by lia. rewrite Nat2Z.inj_succ in *. set (k := Z.of_nat n) in *.
  pose proof (Z.div_mod k (len + 1) ltac:(lia)) as Ek.
  pose proof (Z.mod_pos_bound k (len + 1) ltac:(lia)) as Hr.
  set (q := k / (len + 1)) in *. set (r := k mod (len + 1)) in *.
  assert (0 <= q) by (apply Z.div_pos; lia). assert (q < c) by nia.
  rewrite next_round by (lia || nia). destruct (Z.eqb_spec r len) as [Er|Er].
  - f_equal; [apply (Z.div_unique_pos _ _ _ 0)|apply (Z.mod_unique_pos _ _ (q + 1))]; lia.
  - f_equal; [apply (Z.div_unique_pos _ _ _ (r + 1))|apply (Z.mod_unique_pos _ _ q)]; lia.
Qed.
Lemma iter_loop_end n : Z.of_nat n = c * (len + 1) ->
  Nat.iter n next_view (round_view 0 0) = ((b + len + 1) mod 2 ^ 16, 0, b, b + len, false, true).
Proof.
  intros Hn. destruct n as [|n]; [lia|]. simpl Nat.iter. rewrite iter_rounds by lia.
  assert (Z.of_nat n = (c - 1) * (len + 1) + len) as E by lia.
  rewrite E, <- (Z.div_unique_pos _ (len + 1) (c - 1) len) by lia.
  rewrite <- (Z.mod_unique_pos _ (len + 1) (c - 1) len) by lia.
  unfold next_view, round_view. simpl andb. rewrite Z.eqb_refl.
  rewrite (proj2 (Z.eqb_eq _ 1)) by lia. done.
Qed.
End Rounds.


(** ** A loop that sums *)

Lemma neutral_add : neutral OP_200.
Proof.
  split; [unfold OP_200; runs_tac|]. intros s Hs.
  pose proof (pend_refl s (proj2 Hs)) as Hp. pose proof (proj1 Hs) as Hwf.
  unfold OP_200. repeat eff_step. eexists s, _. split; [eassumption|]. split; [simpl; lia|done].
Qed.

Lemma inv_set_cregs l s :
  inv s -> length l = 16%nat ->
  forallb (fun n => Z.land (nth n l 0) (cr_mask (Z.of_nat n)) =? nth n l 0) (seq 0 16) = true ->
  inv (set_cregs l s).
Proof.
  intros [[] Hsl] Hl Hc. split; [|done]. constructor; try done. split; [done|]. intros n Hn.
  rewrite forallb_forall in Hc. apply Z.eqb_eq, Hc, in_seq. lia.
Qed.

(** Three rounds of four words from address 0x10, each adding r1 to r0 *)
Definition looping_state : state :=
  set_cregs [PSW_RP_BIT; 0; 0x10; 0; 0; 0; 0; 3; 0x10; 0x13; 0; 0; 0; 0; 0; 0]
    (at_values [0; 5; 0; 0; 0; 0; 0; 0; 0; 0; 0; 0; 0; 0; 0; 0] [0; 0] [0; 1; 0; 0] 0).
Lemma looping_inv : inv looping_state.
Proof.
  apply inv_set_cregs; [|done|vm_compute; reflexivity]. apply inv_at_values. vm_compute. reflexivity.
Qed.

Lemma next_pc_refines_witness :
  issues next_pc looping_state looping_state [W_creg PC_CR 0x11].
Proof. apply (next_pc_refines looping_state looping_inv). Defined.

(** ** The debugger's view of the registers *)

(** The value a register keeps of the 16 bits written to it *)
Definition stored_word (rn v : Z) : Z := if 16 <=? rn then cr_value (rn - 16) v else v.

Lemma READ_16_bytes b0 b1 : fits 8 b0 -> fits 8 b1 -> READ_16 [b0; b1] = b0 * 2 ^ 8 + b1.
Proof.
  intros H0 H1. unfold fits, READ_16, znth in *. simpl nth. rewrite Z.shiftl_mul_pow2 by lia.
  apply u16_small. lia.
Qed.
Lemma word_bytes_eq v : fits 16 v -> word_bytes v = [v / 2 ^ 8; v mod 2 ^ 8].
Proof.
  intros Hv. unfold word_bytes, fits in *. rewrite !land255, Z.shiftr_div_pow2 by lia.
  by rewrite (Z.mod_small (v / 2 ^ 8)) by zdml.
Qed.
Lemma longword_bytes_eq b0 b1 b2 b3 :
  fits 8 b0 -> fits 8 b1 -> fits 8 b2 -> fits 8 b3 ->
  longword_bytes (b0 * 2 ^ 24 + b1 * 2 ^ 16 + b2 * 2 ^ 8 + b3) = [b0; b1; b2; b3] /\
  READ_32 [b0; b1; b2; b3] = b0 * 2 ^ 24 + b1 * 2 ^ 16 + b2 * 2 ^ 8 + b3.
Proof.
  intros H0 H1 H2 H3. unfold fits in *. split.
  - unfold longword_bytes. rewrite !land255, !Z.shiftr_div_pow2 by lia.
    f_equal; [zdml|f_equal; [zdml|f_equal; [zdml|f_equal; zdml]]].
  - unfold READ_32, znth. simpl nth. rewrite !Z.shiftl_mul_pow2 by lia. apply u32_small. lia.
Qed.
Lemma longlong_roundtrip c3 c4 c5 c6 c7 :
  Forall (fits 8) [c3; c4; c5; c6; c7] ->
  longlong_bytes (READ_64 [0; 0; 0; c3; c4; c5; c6; c7] mod 2 ^ 40) = [0; 0; 0; c3; c4; c5; c6; c7].
Proof.
  intros H. repeat match goal with H : Forall _ (_ :: _) |- _ => inversion H; clear H; subst end.
  unfold READ_64. simpl skipn. unfold fits in *.
  assert (READ_32 [0; 0; 0; c3; c4; c5; c6; c7] = c3) as ->.
  { unfold READ_32, znth. simpl nth. rewrite !Z.shiftl_mul_pow2 by lia. apply u32_small. lia. }
  destruct (longword_bytes_eq c4 c5 c6 c7) as [El Er]; [done..|].
  destruct (longword_bytes_eq 0 0 0 c3) as [Eh _]; [done..|].
  rewrite Er. set (lo := _ + c7) in *. assert (0 <= lo < 2 ^ 32) by (unfold lo; lia).
  rewrite (s64_small (Z.shiftl c3 32)) by (rewrite Z.shiftl_mul_pow2; lia).
  rewrite lor_add_disjoint by lia. rewrite s64_small, Z.mod_small by lia.
  unfold longlong_bytes. rewrite Z.shiftr_div_pow2 by lia.
  assert (u32 ((c3 * 2 ^ 32 + lo) / 2 ^ 32) = 0 * 2 ^ 24 + 0 * 2 ^ 16 + 0 * 2 ^ 8 + c3) as ->
    by (unfold u32; zdml).
  assert (u32 (c3 * 2 ^ 32 + lo) = lo) as -> by (unfold u32; zdml).
  by rewrite Eh, El.
Qed.

Section Registers.
Context `{Host}.

Lemma store_GPR rn v s : inv s -> 0 <= rn < 16 -> fits 16 v ->
  exists s', (SET_GPR rn v ;; SLOT_FLUSH) s = Ret tt s' /\ GPR s' rn = v.
Proof.
  intros Hs Hrn Hv. assert (effects (SET_GPR rn v) s s [W_reg rn (u16 v)]) as [t E].
  { effects_tac Hs. eapply pend_eq; [eassumption|done..]. }
  eexists. split; [exact E|]. change (GPR (apply_write s (W_reg rn (u16 v))) rn = v).
  pose proof (wf_sized s (proj1 Hs)). rewrite GPR_write by write_side.
  rewrite Z.eqb_refl. by apply u16_small.
Qed.
Lemma store_CREG n v s : inv s -> 0 < n < 16 -> fits 16 v ->
  exists s', (set_creg_ n v ;; SLOT_FLUSH) s = Ret tt s' /\ CREG s' n = cr_value n v.
Proof.
  intros Hs Hn Hv. assert (effects (set_creg_ n v) s s [W_creg n (cr_value n (u16 v))]) as [t E].
  { apply effects_intro. pose proof (pend_refl s (proj2 Hs)) as Hp. pose proof (proj1 Hs) as Hwf.
    unfold set_creg_. apply wp_bind.
    eapply wp_SET_CREG; [eassumption|side|side|done|done|intros ? s' Hs']. by apply wp_skip. }
  eexists. split; [exact E|].
  change (CREG (apply_write s (W_creg n (cr_value n (u16 v)))) n = cr_value n v).
  pose proof (wf_sized s (proj1 Hs)). rewrite CREG_write by write_side.
  rewrite Z.eqb_refl. by rewrite u16_small.
Qed.
Lemma store_PSW v s : inv s -> fits 16 v ->
  exists s', (set_creg_ PSW_CR v ;; SLOT_FLUSH) s = Ret tt s' /\ PSW s' = cr_value PSW_CR v.
Proof.
  intros Hs Hv. destruct (effects_SET_PSW s v Hs) as [t E]. eexists. split; [exact E|].
  assert (sized (psw_state s (u16 v)) /\ regs (psw_state s (u16 v)) = regs s /\
          sp (psw_state s (u16 v)) = sp s) as (Hz & Er & Es).
  { pose proof (wf_sized s (proj1 Hs)). unfold psw_state. by destruct (_ && _). }
  destruct (after_psw_writes s _ (u16 v) Hz Er Es) as (Ep & _).
  rewrite u16_small in * by done. exact Ep.
Qed.
Lemma store_ACC n v s : inv s -> 0 <= n < 2 ->
  exists s', (SET_ACC n (Z.land v MASK40) ;; SLOT_FLUSH) s = Ret tt s' /\ ACC s' n = v mod 2 ^ 40.
Proof.
  intros Hs Hn. assert (effects (SET_ACC n (Z.land v MASK40)) s s [W_acc n (v mod 2 ^ 40)]) as [t E].
  { effects_tac Hs. eapply pend_eq; [eassumption|done|]. by rewrite MASK40_mod, Z.mod_mod. }
  eexists. split; [exact E|]. unfold ACC, znth. simpl. rewrite nth_lookup.
  rewrite list_lookup_insert_eq; [done|]. rewrite (proj1 (wf_acc s (proj1 Hs))). lia.
Qed.

(** What the debugger reads of a register is what it wrote: for the general
    registers the two bytes, for the control registers the two bytes without the
    reserved bits, for the accumulators the low five of the eight bytes. *)
Theorem register_roundtrip s :
  inv s ->
  (forall rn b0 b1, 0 <= rn < 32 -> fits 8 b0 -> fits 8 b1 ->
     exists s', sim_store_register rn [b0; b1] s = Ret tt s' /\
       sim_fetch_register rn s' = Ret (word_bytes (stored_word rn (b0 * 2 ^ 8 + b1))) s' /\
       (rn < 16 -> sim_fetch_register rn s' = Ret [b0; b1] s')) /\
  (forall rn l, rn = 35 \/ rn = 36 -> length l = 5%nat -> Forall (fits 8) l ->
     exists s', sim_store_register rn ([0; 0; 0] ++ l) s = Ret tt s' /\
       sim_fetch_register rn s' = Ret ([0; 0; 0] ++ l) s').
Proof.
  intros Hs. split.
  - intros rn b0 b1 Hrn H0 H1. unfold sim_store_register, sim_fetch_register, stored_word.
    assert (reg_in_range rn = true) as -> by (apply andb_true_intro; split; apply Z.leb_le; lia).
    rewrite READ_16_bytes by done. set (v := b0 * 2 ^ 8 + b1).
    assert (fits 16 v) as Hv by (unfold v, fits in *; lia).
    rewrite (proj2 (Z.ltb_ge 34 rn)), !(proj2 (Z.eqb_neq rn _)) by lia. cbn [negb].
    destruct (Z.leb_spec 16 rn).
    + assert (exists s', (set_creg_ (rn - 16) v ;; SLOT_FLUSH) s = Ret tt s' /\
        CREG s' (rn - 16) = cr_value (rn - 16) v) as (s' & E & Ec).
      { destruct (Z.eq_dec rn 16) as [->|]; [by apply store_PSW|apply store_CREG; [done|lia|done]]. }
      exists s'. split; [done|]. unfold bind, get. rewrite Ec. split; [done|lia].
    + destruct (store_GPR rn v s Hs ltac:(lia) Hv) as (s' & E & Eg). exists s'. split; [done|].
      unfold bind, get. rewrite Eg. split; [done|intros _]. rewrite word_bytes_eq by done.
      unfold v, ret, fits in *. do 3 f_equal; [zdml|f_equal; zdml].
  - intros rn l Hrn Hl Hb. unfold sim_store_register, sim_fetch_register.
    assert (reg_in_range rn = true) as -> by (by destruct Hrn as [->| ->]).
    assert ((34 <? rn) = true) as -> by (by destruct Hrn as [->| ->]). cbn [negb].
    destruct (store_ACC (rn - 35) (READ_64 ([0; 0; 0] ++ l)) s Hs ltac:(lia)) as (s' & E & Ea).
    exists s'. split; [done|]. unfold bind, get, ret. rewrite Ea.
    destruct l as [|c3 [|c4 [|c5 [|c6 [|c7 [|]]]]]]; try done. simpl app. by rewrite longlong_roundtrip.
Qed.
End Registers.

Lemma register_roundtrip_witness :
  exists s', @sim_store_register plain_host 16 [0xff; 0xff] booted = Ret tt s' /\
    @sim_fetch_register plain_host 16 s' = Ret [0xbf; 0xcd] s'.
Proof.
  destruct (@register_roundtrip plain_host booted booted_inv) as [Hw _].
  destruct (Hw 16 0xff 0xff) as (s' & E1 & E2 & _); [lia|done..|].
  exists s'. split; [exact E1|exact E2].
Defined.
