(* ===== verification/SysSpec.v ===== *)
(** * System calls of the simulated program

    What a system call passes to the host and returns to the program, for the calls
    whose arguments are registers only. *)
From S2P Require Import Prelude CInt Opcodes State Memory Cregs.
From S2P Require Import SimopsAlu SimopsAcc SimopsFlow SimopsMem SimopsTrap Interp Logic OpRules.
From S2P Require Import Machine Effects AluSpec AccSpec FlowSpec.

Section Calls.
Context `{Host}.

Definition called (c : syscall) (s : state) : state := set_out (out s ++ [Host_call c]) s.

Lemma direct_called c : direct (called c).
Proof. split; [reflexivity|intros [[] ? ? ?] ?; reflexivity|intros [] ?; reflexivity|reflexivity|by intros s []]. Qed.

Lemma wp_call_host s1 ws s c (Q : Z * list Z -> state -> Prop) :
  pend s1 ws s -> (forall s', pend (called c s1) ws s' -> Q (host_call s c) s') ->
  wp (call_host c) s Q.
Proof.
  intros Hp HQ. unfold call_host. apply wp_get, wp_bind.
  eapply (wp_modify (called c)); [apply direct_called|exact Hp|]. intros s' Hp'. by apply wp_ret, HQ.
Qed.

(** The error number of a result, in the program's r4 *)
Definition failed (r : Z) : bool := r mod 2 ^ 16 =? 0xffff.

Lemma wp_reterr s1 ws s r (Q : unit -> state -> Prop) :
  pend s1 ws s -> (length ws <= 4)%nat ->
  (forall e s', (failed r = false -> e = 0) -> pend s1 (ws ++ [W_reg 4 e]) s' -> Q tt s') ->
  wp (if u16 r =? u16 (-1) then s <- get ;; RETERR (host_errno s) else RETERR 0) s Q.
Proof.
  intros Hp Hl HQ. unfold RETERR. change (u16 r =? u16 (-1)) with (failed r).
  apply wp_if; intros E; [apply wp_get|];
    (eapply wp_SET_GPR; [exact Hp|unfold NR_SLOTS; lia|]); intros s' Hs'; eapply HQ; try exact Hs';
    [congruence|done].
Qed.

(** The offset the host is asked for *)
Definition lseek_offset (s : state) : Z := if (PARM2 s =? 0) && (PARM3 s =? 0) then 0 else 1.

Lemma lseek_offset_eq s : wf s ->
  b2z (truth (u32 (Z.shiftl (PARM2 s) 16)) || truth (PARM3 s)) = lseek_offset s.
Proof.
  intros Hs. pose proof (wf_znth_regs s Hs 1) as Hp. change (GPR s 1) with (PARM2 s) in Hp.
  unfold fits in Hp. rewrite Z.shiftl_mul_pow2, u32_small by lia. unfold truth, lseek_offset.
  destruct (Z.eqb_spec (PARM2 s * 2 ^ 16) 0), (Z.eqb_spec (PARM2 s) 0), (Z.eqb_spec (PARM3 s) 0);
    simpl; lia.
Qed.

(** [SYS_lseek] seeks to offset 0 or 1, whatever offset the program asked for: the
    halves of the offset are joined with [||] instead of [|].  The 32-bit result goes
    to r0 and r1, and r4 is 0 unless the low half of the result is 0xffff, which is
    taken for an error even when the position is a valid one. *)
Theorem lseek_boolean_offset s :
  inv s -> op s 0 = 15 -> FUNC s = SYS_lseek ->
  let c := Sc_lseek (PARM1 s) (lseek_offset s) (PARM4 s) in
  let r := u32 (host_call s c).1 in
  exists e, effects OP_5F00 s (called c s) [W_reg 0 (r / 2 ^ 16); W_reg 1 (r mod 2 ^ 16); W_reg 4 e] /\
    (r mod 2 ^ 16 <> 0xffff -> e = 0) /\ lseek_offset s <= 1.
Proof.
  intros Hs Hop Hf c r.
  assert (wp OP_5F00 s (fun _ s' => exists e,
    pend (called c s) [W_reg 0 (r / 2 ^ 16); W_reg 1 (r mod 2 ^ 16); W_reg 4 e] s' /\
    (failed r = false -> e = 0))) as Hw.
  { unfold OP_5F00. apply wp_get. rewrite Hop, Z.eqb_refl. unfold trap_syscall. apply wp_bind.
    unfold syscall_switch. apply wp_get. rewrite Hf. cbv zeta.
    change (wp sys_lseek s (fun x s' => wp (if u16 x =? u16 (-1) then s <- get ;; RETERR (host_errno s)
      else RETERR 0) s' (fun _ s' => exists e,
        pend (called c s) [W_reg 0 (r / 2 ^ 16); W_reg 1 (r mod 2 ^ 16); W_reg 4 e] s' /\
        (failed r = false -> e = 0)))).
    unfold sys_lseek. apply wp_get. cbv zeta. rewrite lseek_offset_eq by apply Hs. fold c.
    apply wp_bind. eapply wp_call_host; [apply pend_refl, Hs|]. intros s1 Hp1.
    unfold RETVAL32. cbv zeta. fold r. rewrite Z.shiftr_div_pow2 by lia.
    apply wp_bind. eapply wp_SET_GPR; [exact Hp1|simpl; unfold NR_SLOTS; lia|]. intros s2 Hp2.
    apply wp_bind. eapply wp_SET_GPR; [exact Hp2|simpl; unfold NR_SLOTS; lia|]. intros s3 Hp3.
    apply wp_ret. eapply wp_reterr; [exact Hp3|simpl; lia|]. intros e s4 He Hp4.
    exists e. split; [|done]. eapply pend_eq; [exact Hp4|done|].
    pose proof (u32_range (host_call s c).1) as Hr. fold r in Hr.
    simpl app. rewrite u16_small by zdml. done. }
  unfold wp in Hw. destruct (OP_5F00 s) as [[] s'| | |] eqn:E; try done.
  destruct Hw as (e & Hp & He). exists e. split; [|split].
  - unfold effects, bind. rewrite E. by apply pend_flush.
  - intros Hne. apply He. by apply Z.eqb_neq.
  - unfold lseek_offset. destruct (_ && _); lia.
Qed.
End Calls.

(** Seeking to offset 0x1000 of file 3, on a host that returns 0 *)
Lemma lseek_boolean_offset_witness :
  let s := at_values [3; 0; 0x1000; 0; 19; 0; 0; 0; 0; 0; 0; 0; 0; 0; 0; 0] [0; 0] [15; 0; 0; 0] 0 in
  exists e, effects (@OP_5F00 plain_host) s (called (Sc_lseek 3 1 0) s) [W_reg 0 0; W_reg 1 0; W_reg 4 e].
Proof.
  intros s. assert (inv s) as Hs by (apply inv_at_values; vm_compute; reflexivity).
  destruct (@lseek_boolean_offset plain_host s Hs eq_refl eq_refl) as (e & He & _).
  exists e. exact He.
Defined.
