(* ===== verification/Step.v ===== *)
(** * One instruction word

    The run loop's body as a whole: fetch, decode, issue, the next PC and the flush.
    The theorems connect the decoder, the tables of AluSpec.v, AccSpec.v and
    FlowSpec.v, and [next_pc]: given what the instruction's function issues on the
    decoded state, they say what state the machine is in after the word. *)
From S2P Require Import Prelude CInt Opcodes State Memory Cregs.
From S2P Require Import SimopsAlu SimopsAcc SimopsFlow SimopsMem SimopsTrap Interp Logic OpRules.
From S2P Require Import Machine Decode Effects AluSpec AccSpec FlowSpec NumSpec MemSpec Cycle.

(** ** Decoding *)

(** The operands after decoding: the fields of the instruction, and what was there
    before in the places it does not use *)
Definition operands_of (o : simops) (ins : Z) (s : state) : list Z :=
  map (fun i => if i <? so_numops o
                then (ins / 2 ^ znth (so_operands o) (3 * i)) mod 2 ^ znth (so_operands o) (3 * i + 1)
                else op s i) [0; 1; 2; 3].
Definition counted (t : _ins_type) (s : state) : state :=
  set_ins_type_counters
    (<[ins_index t := u32 (znth (ins_type_counters s) (Z.of_nat (ins_index t)) + 1)]>
       (ins_type_counters s)) s.
(** The state in which the function of the instruction is called *)
Definition decoded (o : simops) (ins : Z) (t : _ins_type) (s : state) : state :=
  counted t (set_ins_type t (set_trace_psw (PSW s) (set_OP (operands_of o ins s) s))).

Lemma operand_field o ins i :
  In o real_simops -> 0 <= i < so_numops o ->
  u16 (operand_value ins (znth (so_operands o) (3 * i)) (znth (so_operands o) (3 * i + 1))) =
  (ins / 2 ^ znth (so_operands o) (3 * i)) mod 2 ^ znth (so_operands o) (3 * i + 1).
Proof.
  intros Hin Hi. destruct (get_operand_ok o i Hin Hi) as [_ Hok]. unfold operand_ok in Hok. cbv zeta in Hok.
  set (sh := znth _ (3 * i)) in *. set (b := znth _ (3 * i + 1)) in *.
  apply andb_prop in Hok as [[[[[Hsh%Z.leb_le Hb1%Z.leb_le]%andb_prop Hb2%Z.leb_le]%andb_prop
    _]%andb_prop _]%andb_prop _].
  rewrite operand_value_mod by lia. apply u16_small.
  pose proof (Z.mod_pos_bound (ins / 2 ^ sh) (2 ^ b)).
  assert (2 ^ b <= 2 ^ 16) by (apply Z.pow_le_mono_r; lia). lia.
Qed.
Lemma list4_eq (l : list Z) : length l = 4%nat -> l = map (znth l) [0; 1; 2; 3].
Proof. destruct l as [|a [|b [|c [|d [|]]]]]; done. Qed.
Lemma numops_range o : In o real_simops -> 0 <= so_numops o <= 4.
Proof.
  intros Hin. pose proof all_operands_ok as Ha. rewrite forallb_forall in Ha. specialize (Ha o Hin).
  unfold operands_ok in Ha. by apply andb_prop in Ha as [[?%Z.leb_le ?%Z.leb_le]%andb_prop _].
Qed.

Lemma get_operands_eq o ins s :
  In o real_simops -> length (OP s) = 4%nat ->
  get_operands o ins s = Ret tt (set_trace_psw (PSW s) (set_OP (operands_of o ins s) s)).
Proof.
  intros Hin Hl. pose proof (numops_range o Hin).
  destruct (get_operands_loop_spec (Z.to_nat (so_numops o)) 0 (so_operands o) ins s)
    as (l & E & Hll & Hj); [lia|done|lia|].
  assert (l = operands_of o ins s) as El.
  { rewrite (list4_eq l Hll). unfold operands_of. apply map_ext_in. intros i Hi.
    assert (0 <= i) by (simpl in Hi; lia). rewrite Hj by done. rewrite Z2Nat.id, Z.add_0_l by lia.
    destruct (Z.leb_spec 0 i); [|lia]. simpl andb.
    destruct (Z.ltb_spec i (so_numops o)); [|done]. by apply operand_field. }
  unfold get_operands, bind. rewrite E, El. done.
Qed.

Lemma decoded_inv o ins t s : In o real_simops -> inv s -> inv (decoded o ins t s).
Proof.
  intros Hin Hs. assert (inv (set_OP (operands_of o ins s) s)) as H.
  { apply inv_set_OP; [done|done|]. unfold operands_of. apply List.Forall_map, List.Forall_forall.
    intros i Hi. assert (0 <= i) by (simpl in Hi; lia). destruct (Z.ltb_spec i (so_numops o)).
    - rewrite <- operand_field by (done || lia). apply u16_range.
    - by apply wf_znth_op, Hs. }
  by destruct H as [[] ?].
Qed.

Section Step.
Context `{Host}.

Lemma issue_decoded o ins t s :
  In o real_simops -> length (OP s) = 4%nat -> issue o ins t s = run_func o (decoded o ins t s).
Proof. intros Hin Hl. unfold issue, bind, modify. by rewrite get_operands_eq. Qed.

Lemma in_linear_table h : In h linear_table -> exists o, entry_of o = h /\ In o real_simops.
Proof. apply in_map_iff. Qed.
Lemma lookup_found ins size o s :
  find (hash_matches ins size) linear_table = Some (entry_of o) ->
  lookup_hash ins size s = Ret (entry_of o) s /\ In o real_simops.
Proof.
  intros E. split.
  - rewrite lookup_hash_run. unfold lookup_spec. by rewrite E.
  - destruct (in_linear_table (entry_of o)) as (o' & Eo & Hin).
    { exact (proj1 (find_some _ _ E)). }
    injection Eo as _ _ _ Eo. rewrite <- Eo. exact Hin.
Qed.

Lemma count_eq t s : count t 1 s = Ret tt (counted t s).
Proof. done. Qed.

(** No breakpoint: the debug flag is off, or the PC is elsewhere. *)
Definition no_break (s : state) : Prop := PSW_DB s && (PC s =? IBA s) = false.
Lemma wp_ibreak s1 ws s (Q : unit -> state -> Prop) :
  pend s1 ws s -> no_break s1 -> Q tt s -> wp ibreak s Q.
Proof.
  intros Hp Hb HQ. destruct (pend_read_all _ _ _ Hp) as (l & t & ->).
  unfold ibreak. apply wp_get. change (PSW_DB (set_slot l (set_trace_psw t s1))) with (PSW_DB s1).
  change (PC (set_slot l (set_trace_psw t s1))) with (PC s1).
  change (IBA (set_slot l (set_trace_psw t s1))) with (IBA s1). unfold no_break in Hb.
  rewrite Hb. by apply wp_skip.
Qed.

(** The word at the PC *)
Definition fetched (s : state) (inst : Z) : Prop :=
  exists p, imem_addr (u32 (Z.shiftl (u32 (PC s)) 2)) s = Ret p s /\ is_NULL p = false /\
    get_longword p s = Ret inst s.

(** The run loop's body once the word has been fetched *)
Definition execute (inst : Z) : M bool :=
  modify (set_pc_changed 0) ;;
  count INS_CYCLES 1 ;;
  dispatch inst ;;
  next_pc ;;
  ibreak ;;
  SLOT_FLUSH ;;
  ret true.
Definition execute_start (s : state) : state := counted INS_CYCLES (set_pc_changed 0 s).

Lemma sim_body_execute s inst : fetched s inst -> sim_body s = execute inst s.
Proof.
  intros (p & Ep & Hn & Ei). unfold sim_body. unfold bind at 1, get at 1.
  unfold bind at 1. rewrite Ep, Hn. unfold bind at 1. by rewrite Ei.
Qed.

(** The frame around [dispatch] *)
Lemma execute_dispatch s inst s1 ws :
  wf s1 -> wp (dispatch inst) (execute_start s) (fun _ s' => pend s1 ws s') ->
  (pc_changed s1 = 0 -> (length ws <= 12)%nat /\ loop_fresh ws = true) -> no_break s1 ->
  exists t, execute inst s = Ret true (set_trace_psw t (apply_writes (ws ++ next_pc_writes s1) s1)).
Proof.
  intros Hs Hd Hf Hb. unfold execute. unfold bind at 1, modify at 1.
  unfold bind at 1. rewrite count_eq. fold (execute_start s). revert Hd. unfold wp. unfold bind at 1.
  destruct (dispatch inst _) as [[] s2| | |]; try done. intros Hp.
  assert (wp next_pc s2 (fun _ s' => pend s1 (ws ++ next_pc_writes s1) s')) as Hp3
    by (eapply wp_next_pc; [exact Hp|done|done|done]).
  unfold wp in Hp3. unfold bind at 1. destruct (next_pc s2) as [[] s3| | |]; try done.
  assert (wp ibreak s3 (fun _ s' => pend s1 (ws ++ next_pc_writes s1) s')) as Hp4
    by (eapply wp_ibreak; [exact Hp3|done|done]).
  unfold wp in Hp4. unfold bind at 1. destruct (ibreak s3) as [[] s4| | |]; try done.
  destruct (pend_flush _ _ _ Hp4) as [t E]. exists t. unfold bind. by rewrite E.
Qed.
Lemma sim_body_dispatch s inst s1 ws :
  fetched s inst -> wf s1 -> wp (dispatch inst) (execute_start s) (fun _ s' => pend s1 ws s') ->
  (pc_changed s1 = 0 -> (length ws <= 12)%nat /\ loop_fresh ws = true) -> no_break s1 ->
  exists t, sim_body s = Ret true (set_trace_psw t (apply_writes (ws ++ next_pc_writes s1) s1)).
Proof. intros Hfetch. rewrite (sim_body_execute s inst Hfetch). apply execute_dispatch. Qed.

(** C30: The execution of a long instruction word: if the word at the PC has the long
    format, the table's first match is [o], and the function of [o] issues the writes
    [ws] on the decoded state, then after the run loop's body the machine is in the
    state with those writes and the new PC, and nothing else has changed. *)
Theorem long_word s inst o s1 ws :
  inv s -> fetched s inst -> Z.land inst 0xC0000000 = 0xC0000000 ->
  find (hash_matches (Z.land inst 0x3FFFFFFF) 1) linear_table = Some (entry_of o) ->
  issues (run_func o) (decoded o (Z.land inst 0x3FFFFFFF) INS_LONG (execute_start s)) s1 ws ->
  wf s1 -> (pc_changed s1 = 0 -> (length ws <= 12)%nat /\ loop_fresh ws = true) -> no_break s1 ->
  exists t, sim_body s = Ret true (set_trace_psw t (apply_writes (ws ++ next_pc_writes s1) s1)).
Proof.
  intros Hs Hfetch Hlong Hfind Hi Hs1 Hf Hb.
  eapply sim_body_dispatch; [exact Hfetch|done| |done|done].
  set (s0 := execute_start s) in *.
  destruct (lookup_found _ _ _ s0 Hfind) as [El Hin].
  assert (length (OP s0) = 4%nat) as Hl by apply (wf_op s (proj1 Hs)).
  unfold dispatch. cbv zeta. rewrite Hlong. change (0xC0000000 =? 0xC0000000) with true. cbv iota.
  unfold do_long, wp. unfold bind at 1. rewrite El. unfold bind at 1, entry_ops, entry_of at 1.
  cbn [he_ops]. unfold ret at 1. by rewrite issue_decoded.
Qed.

(** ** Two short instructions in sequence *)

Definition left_ins (inst : Z) : Z := Z.shiftr (Z.land inst 0x3FFF8000) 15.
Definition right_ins (inst : Z) : Z := Z.land inst 0x7FFF.
Definition order_format (lr : _leftright) : Z :=
  match lr with LEFT_FIRST => 0x40000000 | RIGHT_FIRST => 0x80000000 end.
Definition first_ins (lr : _leftright) (inst : Z) : Z :=
  match lr with LEFT_FIRST => left_ins inst | RIGHT_FIRST => right_ins inst end.
Definition second_ins (lr : _leftright) (inst : Z) : Z :=
  match lr with LEFT_FIRST => right_ins inst | RIGHT_FIRST => left_ins inst end.
Definition first_type (lr : _leftright) : _ins_type :=
  match lr with LEFT_FIRST => INS_LEFT | RIGHT_FIRST => INS_RIGHT end.
Definition second_type (lr : _leftright) : _ins_type :=
  match lr with LEFT_FIRST => INS_RIGHT | RIGHT_FIRST => INS_LEFT end.
Definition pair_type (lr : _leftright) : _ins_type :=
  match lr with LEFT_FIRST => INS_LEFTRIGHT | RIGHT_FIRST => INS_RIGHTLEFT end.

Lemma dispatch_sequence lr inst :
  Z.land inst 0xC0000000 = order_format lr ->
  dispatch inst = do_2_short (first_ins lr inst) (second_ins lr inst) lr.
Proof. intros E. unfold dispatch. cbv zeta. rewrite E. by destruct lr. Qed.

(** What the second instruction starts from: the writes of the first are made. *)
Definition second_state (lr : _leftright) (o : simops) (inst : Z) (s : state) : state :=
  counted INS_CYCLES (decoded o (second_ins lr inst) (second_type lr) s).

Lemma apply_writes_OP ws : forall s, OP (apply_writes ws s) = OP s.
Proof. induction ws as [|w ws IH]; intros s; simpl; [done|]. rewrite IH. by destruct w. Qed.

Lemma dispatch_sequential s lr inst o1 o2 s1 ws1 s2 ws2 :
  wf s -> Z.land inst 0xC0000000 = order_format lr ->
  find (hash_matches (first_ins lr inst) 0) linear_table = Some (entry_of o1) ->
  find (hash_matches (second_ins lr inst) 0) linear_table = Some (entry_of o2) ->
  issues (run_func o1) (decoded o1 (first_ins lr inst) (first_type lr)
    (counted (pair_type lr) (execute_start s))) s1 ws1 ->
  wf s1 -> pc_changed s1 = 0 -> exception s1 = 0 ->
  issues (run_func o2) (second_state lr o2 inst (apply_writes ws1 s1)) s2 ws2 ->
  wp (dispatch inst) (execute_start s) (fun _ s' => pend s2 ws2 s').
Proof.
  intros Hs Hfmt Hf1 Hf2 Hi1 Hs1 Hj1 He1 Hi2.
  rewrite (dispatch_sequence lr) by done.
  set (s0 := counted (pair_type lr) (execute_start s)) in *.
  destruct (lookup_found _ _ _ s0 Hf1) as [El1 Hin1].
  assert (length (OP s0) = 4%nat) as Hl by apply (wf_op s Hs).
  unfold do_2_short, wp. unfold bind at 1.
  assert (forall x, count (match lr with LEFT_FIRST => INS_LEFTRIGHT | RIGHT_FIRST => INS_RIGHTLEFT end) 1 x
    = Ret tt (counted (pair_type lr) x)) as -> by (by destruct lr).
  fold s0. unfold bind at 1. rewrite El1. unfold bind at 1, entry_ops at 1, entry_of at 1.
  cbn [he_ops]. unfold ret at 1. unfold bind at 1.
  assert (match lr with LEFT_FIRST => INS_LEFT | RIGHT_FIRST => INS_RIGHT end = first_type lr) as ->
    by (by destruct lr).
  rewrite issue_decoded by done. revert Hi1. unfold issues, wp at 1.
  destruct (run_func o1 (decoded o1 (first_ins lr inst) (first_type lr) s0)) as [[] s1'| | |]; try done.
  intros Hp1. unfold bind at 1, get at 1.
  assert (pc_changed s1' = 0 /\ exception s1' = 0) as [-> ->]
    by (by destruct (pend_read_all _ _ _ Hp1) as (l & t & ->)).
  change ((0 =? 0) && (0 =? 0)) with true. cbv iota.
  destruct (pend_flush _ _ _ Hp1) as [t Et]. unfold bind at 1. rewrite Et.
  set (sm := apply_writes ws1 s1) in *.
  destruct (lookup_found _ _ _ (set_trace_psw t sm) Hf2) as [El2 Hin2].
  unfold bind at 1. rewrite El2. unfold bind at 1, entry_ops, entry_of at 1.
  cbn [he_ops]. unfold ret at 1. unfold bind at 1. rewrite get_operands_eq; [|done|].
  2: { change (length (OP sm) = 4%nat). unfold sm. rewrite apply_writes_OP. apply (wf_op s1 Hs1). }
  unfold issues, wp, second_state in Hi2. by destruct lr.
Qed.

(** Two short instructions in sequence, in either order: the second one is decoded
    and run on the state in which the first one's writes have been made, and the PC
    advances once, after both. *)
Theorem sequential_word s lr inst o1 o2 s1 ws1 s2 ws2 :
  inv s -> fetched s inst -> Z.land inst 0xC0000000 = order_format lr ->
  find (hash_matches (first_ins lr inst) 0) linear_table = Some (entry_of o1) ->
  find (hash_matches (second_ins lr inst) 0) linear_table = Some (entry_of o2) ->
  issues (run_func o1) (decoded o1 (first_ins lr inst) (first_type lr)
    (counted (pair_type lr) (execute_start s))) s1 ws1 ->
  wf s1 -> pc_changed s1 = 0 -> exception s1 = 0 ->
  issues (run_func o2) (second_state lr o2 inst (apply_writes ws1 s1)) s2 ws2 ->
  wf s2 -> (pc_changed s2 = 0 -> (length ws2 <= 12)%nat /\ loop_fresh ws2 = true) -> no_break s2 ->
  exists t, sim_body s = Ret true (set_trace_psw t (apply_writes (ws2 ++ next_pc_writes s2) s2)).
Proof.
  intros Hs Hfetch Hfmt Hf1 Hf2 Hi1 Hs1 Hj1 He1 Hi2 Hs2 Hf Hb.
  eapply sim_body_dispatch; [exact Hfetch|done| |done|done].
  by eapply (dispatch_sequential s lr inst o1 o2 s1 ws1); [apply Hs|..].
Qed.
Lemma inv_set_trace_psw t s : inv (set_trace_psw t s) -> inv s.
Proof. destruct s. by intros [[] ?]. Qed.
(** The state with an instruction's writes made satisfies the invariant. *)
Lemma issued_inv o s s1 ws :
  inv s -> issues (run_func o) s s1 ws -> inv (apply_writes ws s1).
Proof.
  intros Hs Hi. destruct (issues_effects _ _ _ _ Hi) as [t E]. apply (inv_set_trace_psw t).
  eapply (keeps_flushed (run_func o) 6); [|unfold NR_SLOTS; lia|exact Hs|exact E].
  eapply judge_weaken; [apply runs_run_func|lia|lia].
Qed.
End Step.

(** ** Witnesses *)

(** A program of one word at the start address, 0xffc0, which [IMAP1] maps to the last
    segment of unified memory; r1 is 2. *)
Definition with_program (inst : Z) : state :=
  match @sim_write plain_host (0x12 * 2 ^ 24 + 0xffff00) (longword_bytes inst) 4
          (at_values [0; 2; 0; 0; 0; 0; 0; 0; 0; 0; 0; 0; 0; 0; 0; 0] [0; 0] [0; 0; 0; 0] 0) with
  | Ret _ s => s
  | _ => booted
  end.
Lemma with_program_inv inst : inv (with_program inst).
Proof.
  unfold with_program.
  pose proof (runs_keeps _ (@runs_sim_write plain_host (0x12 * 2 ^ 24 + 0xffff00) (longword_bytes inst) 4)) as Hk.
  match goal with |- context [sim_write ?a ?b ?n ?s] => specialize (Hk s) end.
  destruct (sim_write _ _ _ _); try apply booted_inv.
  apply Hk. apply inv_at_values. vm_compute. reflexivity.
Qed.

Definition simop_named (f : Z) : simops :=
  default (Simop 0 0 0 0 0 0 0 None 0 []) (find (fun o => so_opcode o =? f) real_simops).

(** [add3 r0, r1, #5] *)
Definition add3_state : state := with_program (0xC0000000 + encode (simop_named 0x1000000) [0; 1; 5]).

Lemma add3_issues s : inv s ->
  issues OP_1000000 s s
    [W_flag PSW_C_BIT (2 ^ 16 <=? rB s + imm s 2); W_reg (rD s) ((rB s + imm s 2) mod 2 ^ 16)].
Proof. intros Hs. row Hs. Qed.
Lemma simop_named_in f :
  find (fun o => so_opcode o =? f) real_simops <> None -> In (simop_named f) real_simops.
Proof.
  unfold simop_named. destruct (find _ _) eqn:E; [|by intros []].
  intros _. apply find_some in E as [Hin _]. exact Hin.
Qed.
Lemma inv_counted t s : inv s -> inv (counted t s).
Proof. by intros [[] ?]. Qed.
Lemma inv_start s : inv s -> inv (execute_start s).
Proof. by intros [[] ?]. Qed.

Definition add3_word : Z := 3238068229.
Definition add3_decoded : state :=
  decoded (simop_named 0x1000000) (Z.land add3_word 0x3FFFFFFF) INS_LONG
    (counted INS_CYCLES (set_pc_changed 0 add3_state)).

Lemma add3_fetched : @fetched plain_host add3_state add3_word.
Proof.
  exists (P_umem 127 130816).
  split; [vm_compute; reflexivity|split; [reflexivity|vm_compute; reflexivity]].
Qed.
Lemma add3_decoded_inv : inv add3_decoded.
Proof.
  apply decoded_inv; [apply simop_named_in; vm_compute; discriminate|].
  apply inv_start, with_program_inv.
Qed.

Lemma long_word_witness : exists s',
  @sim_body plain_host add3_state = Ret true s' /\ GPR s' 0 = 7 /\ PC s' = 0xffc1.
Proof.
  set (sd := add3_decoded). pose proof add3_decoded_inv as Hd. fold sd in Hd.
  destruct (@long_word plain_host add3_state add3_word (simop_named 0x1000000) sd
     [W_flag PSW_C_BIT (2 ^ 16 <=? rB sd + imm sd 2);
      W_reg (rD sd) ((rB sd + imm sd 2) mod 2 ^ 16)]) as [t E].
  - apply with_program_inv.
  - apply add3_fetched.
  - reflexivity.
  - vm_compute. reflexivity.
  - apply (add3_issues sd Hd).
  - apply Hd.
  - intros _. split; [simpl; lia|vm_compute; reflexivity].
  - vm_compute. reflexivity.
  - eexists. split; [exact E|]. split; vm_compute; reflexivity.
Defined.

(** [add r0, r1] and then [add r0, r0]: the second one reads what the first wrote. *)
Definition adds_word : Z :=
  0x40000000 + Z.shiftl (encode (simop_named 0x200) [0; 1]) 15 + encode (simop_named 0x200) [0; 0].
Definition adds_state : state := with_program adds_word.
Definition add_writes (s : state) : list write :=
  [W_flag PSW_C_BIT (2 ^ 16 <=? rA s + rB s); W_reg (rD s) ((rA s + rB s) mod 2 ^ 16)].
Lemma add_issues s : inv s -> issues OP_200 s s (add_writes s).
Proof. intros Hs. unfold add_writes. row Hs. Qed.

Definition adds_first : state :=
  decoded (simop_named 0x200) (first_ins LEFT_FIRST adds_word) (first_type LEFT_FIRST)
    (counted (pair_type LEFT_FIRST) (counted INS_CYCLES (set_pc_changed 0 adds_state))).
Definition adds_second : state :=
  second_state LEFT_FIRST (simop_named 0x200) adds_word
    (apply_writes (add_writes adds_first) adds_first).
Lemma adds_fetched : @fetched plain_host adds_state adds_word.
Proof.
  exists (P_umem 127 130816).
  split; [vm_compute; reflexivity|split; [reflexivity|vm_compute; reflexivity]].
Qed.
Lemma adds_first_inv : inv adds_first.
Proof.
  apply decoded_inv; [apply simop_named_in; vm_compute; discriminate|].
  apply inv_counted, inv_start, with_program_inv.
Qed.

Lemma adds_second_inv : inv adds_second.
Proof.
  apply inv_counted, decoded_inv; [apply simop_named_in; vm_compute; discriminate|].
  eapply (@issued_inv plain_host (simop_named 0x200)); [apply adds_first_inv|].
  apply (add_issues adds_first adds_first_inv).
Qed.
Lemma sequential_word_witness : exists s',
  @sim_body plain_host adds_state = Ret true s' /\ GPR s' 0 = 4 /\ PC s' = 0xffc1.
Proof.
  destruct (@sequential_word plain_host adds_state LEFT_FIRST adds_word (simop_named 0x200)
    (simop_named 0x200) adds_first (add_writes adds_first) adds_second (add_writes adds_second))
    as [t E].
  - apply with_program_inv.
  - apply adds_fetched.
  - reflexivity.
  - vm_compute. reflexivity.
  - vm_compute. reflexivity.
  - apply (add_issues adds_first adds_first_inv).
  - apply adds_first_inv.
  - vm_compute. reflexivity.
  - vm_compute. reflexivity.
  - apply (add_issues adds_second adds_second_inv).
  - apply adds_second_inv.
  - intros _. split; [simpl; lia|vm_compute; reflexivity].
  - vm_compute. reflexivity.
  - eexists. split; [exact E|]. split; vm_compute; reflexivity.
Defined.
