(* ===== verification/Prologue.v ===== *)
(** * Prologues: what the debugger reads and what the machine does

    The debugger follows a function's prologue in gdb/d10v-tdep.c without running it.
    Here the instructions it recognises are run on the simulator, and the addresses at
    which it believes the registers to be saved are where they are. *)
From S2P Require Import Prelude CInt Opcodes State Memory Cregs Gdb Tdep.
From S2P Require Import SimopsAlu SimopsAcc SimopsFlow SimopsMem SimopsTrap Interp Logic OpRules.
From S2P Require Import Machine Decode MemProps Effects AluSpec AccSpec FlowSpec NumSpec MemSpec Cycle Step SimTarget.

(** ** Words of on-chip memory *)

(** Words that have no byte in common *)
Definition disjoint_words (a b : Z) : Prop := a + 2 <= b \/ b + 2 <= a.

Lemma translate_chip s a : on_chip a -> translate s a = P_dmem a.
Proof.
  intros [H0 H1]. unfold translate. rewrite Z.mod_small by lia.
  by destruct (Z.leb_spec 0x8000 a); [lia|].
Qed.

(** [s'] is [s] after the stores of some words: registers as [g] says *)
Record moved (s : state) (g : Z -> Z) (stores : list (Z * Z)) (s' : state) : Prop := {
  mv_gpr : forall k, 0 <= k < 16 -> GPR s' k = g k;
  mv_stored : forall a v, In (a, v) stores -> chip_word s' a = v;
  mv_kept : forall b, on_chip b -> (forall a v, In (a, v) stores -> disjoint_words a b) ->
    chip_word s' b = chip_word s b;
  mv_acc : forall k, ACC s' k = ACC s k;
  mv_modulo : PSW_MD s' = PSW_MD s
}.

Lemma moved_nothing s : moved s (GPR s) [] s.
Proof. by split; [| | | |]. Qed.
Lemma moved_store s g l s1 a v s2 :
  moved s g l s1 -> moved s1 (GPR s1) [(a, v)] s2 -> on_chip a ->
  (forall b w, In (b, w) l -> on_chip b /\ disjoint_words a b) -> moved s g ((a, v) :: l) s2.
Proof.
  intros [Hg Hst Hk Hac Hmd] [Hg2 Hst2 Hk2 Hac2 Hmd2] Ha Hl. split.
  - intros k Hr. by rewrite Hg2, Hg.
  - intros b w [[= <- <-]|Hin]; [apply Hst2; by left|]. destruct (Hl b w Hin) as [Hb Hd].
    rewrite <- (Hst b w Hin). apply Hk2; [done|]. intros a' v' [[= <- <-]|[]]. exact Hd.
  - intros b Hb Hd. rewrite Hk2; [apply Hk; [done|]|done|].
    + intros a' v' Hin. apply (Hd a' v'). by right.
    + intros a' v' [[= <- <-]|[]]. apply (Hd a v). by left.
  - intros k. by rewrite Hac2, Hac.
  - by rewrite Hmd2.
Qed.

Section Run.
Context `{Host} (Hcalloc : forall s seg, host_calloc s seg = true).

(** A store in the stack *)
Lemma SW_moved addr a v s : inv s -> addr mod 2 ^ 16 = a -> on_chip a ->
  exists s1, SW addr v s = Ret tt s1 /\ inv s1 /\ OP s1 = OP s /\ moved s (GPR s) [(a, u16 v)] s1.
Proof.
  intros Hs Ea Ha. pose proof Ha as [Ha0 Ha1].
  assert (forall x, translate x addr = P_dmem a) as Ht.
  { intros x. rewrite <- (translate_chip x a Ha). unfold translate. rewrite Ea. by rewrite (Z.mod_small a) by lia. }
  destruct (dmem_addr_spec_run addr s (proj1 Hs) Hcalloc) as (s0 & E0 & _ & Hm & _).
  rewrite Ht in E0. pose proof (proj1 (access_frame _ _ _ _ (runs_dmem_addr addr) Hs E0)) as Hs0.
  destruct (write_word_in (P_dmem a) (u16 v) s0) as [s1 E]; [apply bytes_in_dmem; [apply Hs0|lia|lia]|].
  assert (SW addr v s = Ret tt s1) as Es by (unfold SW, bind; by rewrite E0).
  destruct (access_frame _ _ _ _ (runs_SW addr v) Hs Es) as [Hs1 Hf].
  exists s1. split; [exact Es|]. split; [exact Hs1|]. split; [by eapply op_kept_SW|].
  pose proof (write_word_stored _ _ _ _ _ E) as Hst. split.
  - intros k _. by apply frame_GPR.
  - intros b w [[= <- <-]|[]]. unfold chip_word, word_at.
    rewrite (stored_byte _ _ _ _ _ 0 Hst), (stored_byte _ _ _ _ _ 1 Hst) by lia.
    rewrite be_join_2. unfold u16. by rewrite Z.mod_mod.
  - intros b _ Hd. specialize (Hd a _ (or_introl eq_refl)). destruct Hst as (_ & _ & Hout).
    unfold chip_word, word_at, byte_at. destruct Hm as (Hm & _).
    rewrite !Hout by (intros i Hi; simpl; intros [= Ei]; unfold disjoint_words in Hd; lia). by rewrite !Hm.
  - intros k. unfold ACC. by rewrite (fr_acc _ _ Hf).
  - unfold PSW_MD. by rewrite (frame_psw_bit s s1).
Qed.
End Run.

(** ** Decoding *)

Lemma find_refine {A} (p q : A -> bool) l x :
  find q l = Some x -> p x = true -> (forall y, p y = true -> q y = true) -> find p l = Some x.
Proof.
  intros Hq Hp Hpq. induction l as [|y l IH]; [done|]. simpl in *. destruct (p y) eqn:Ey.
  - by rewrite (Hpq y Ey) in Hq.
  - destruct (q y); [|by apply IH]. injection Hq as ->. congruence.
Qed.
(** No entry before that of [o] shares a word with it. *)
Definition first_of_its_words (f : Z) : bool :=
  match find (fun e => overlap e (entry_of (simop_named f))) linear_table with
  | Some e => (he_opcode e =? f) && (so_opcode (simop_named f) =? f) &&
              bool_decide (he_ops e = Some (simop_named f))
  | None => false
  end.
Lemma find_first_of_its_words f ins size :
  first_of_its_words f = true -> hash_matches ins size (entry_of (simop_named f)) = true ->
  find (hash_matches ins size) linear_table = Some (entry_of (simop_named f)).
Proof.
  unfold first_of_its_words. destruct (find _ _) as [e|] eqn:E; [|done]. intros Hf Hm.
  apply andb_prop in Hf as [_ Ho%bool_decide_eq_true].
  destruct (in_linear_table e) as (o & Eo & _); [exact (proj1 (find_some _ _ E))|].
  assert (e = entry_of (simop_named f)) as ->.
  { rewrite <- Eo in Ho |- *. unfold entry_of in Ho. simpl in Ho. by injection Ho as ->. }
  eapply find_refine; [exact E|exact Hm|]. intros y Hy. by eapply matches_overlap.
Qed.

Section Exec.
Context `{Host} (Hcalloc : forall s seg, host_calloc s seg = true).

(** The instructions of a word one by one, as [do_long] and the halves of [do_2_short] do
    it, each with its writes made *)
Definition exec_insn (i : bool * Z) : M unit :=
  h <- lookup_hash i.2 (if i.1 then 1 else 0) ;;
  ops <- entry_ops h ;;
  issue ops i.2 (if i.1 then INS_LONG else INS_LEFT) ;;
  SLOT_FLUSH.
Definition exec_all (l : list (bool * Z)) : M unit :=
  fold_right (fun i (m : M unit) => exec_insn i ;; m) skip l.

Definition start_of (f : Z) (i : bool * Z) (s : state) : state :=
  decoded (simop_named f) i.2 (if i.1 then INS_LONG else INS_LEFT) s.
Lemma exec_found f (i : bool * Z) s :
  first_of_its_words f = true -> inv s ->
  hash_matches i.2 (if i.1 then 1 else 0) (entry_of (simop_named f)) = true ->
  exec_insn i s = (run_func (simop_named f) ;; SLOT_FLUSH) (start_of f i s) /\ inv (start_of f i s).
Proof.
  intros Hf Hs Hm. pose proof (find_first_of_its_words f _ _ Hf Hm) as E.
  destruct (lookup_found _ _ _ s E) as [El Hin]. split; [|exact (decoded_inv _ _ _ s Hin Hs)].
  assert (forall o, entry_ops (entry_of o) s = Ret o s) as Eo by reflexivity.
  unfold exec_insn, bind. rewrite El, Eo. rewrite issue_decoded by (done || apply Hs). done.
Qed.
Lemma exec_inv f (i : bool * Z) s s' :
  first_of_its_words f = true -> inv s ->
  hash_matches i.2 (if i.1 then 1 else 0) (entry_of (simop_named f)) = true ->
  exec_insn i s = Ret tt s' -> inv s'.
Proof.
  intros Hf Hs Hm E. destruct (exec_found f i s Hf Hs Hm) as [Ee Hi]. rewrite Ee in E.
  eapply (keeps_flushed _ 6); [|unfold NR_SLOTS; lia|exact Hi|exact E].
  eapply judge_weaken; [apply runs_run_func|lia|lia].
Qed.

(** ** Instructions on registers *)

Lemma chip_word_writes ws : forall s b, chip_word (apply_writes ws s) b = chip_word s b.
Proof.
  induction ws as [|w ws IH]; intros s b; [done|]. unfold apply_writes. cbn [fold_left].
  fold (apply_writes ws (apply_write s w)). rewrite IH. by destruct w.
Qed.

Definition no_acc (ws : list write) : bool := forallb (fun w => match w with W_acc _ _ => false | _ => true end) ws.
Lemma ACC_writes ws : forall s k, no_acc ws = true -> ACC (apply_writes ws s) k = ACC s k.
Proof.
  induction ws as [|w ws IH]; intros s k Hw; [done|]. apply andb_prop in Hw as [Hw Hws].
  unfold apply_writes. cbn [fold_left]. fold (apply_writes ws (apply_write s w)). rewrite IH by done. by destruct w.
Qed.

(** An instruction that writes registers and perhaps the carry *)
Lemma md_flag s b ws : inv s -> forallb (fun w => match w with W_reg _ _ | W_acc _ _ => true | _ => false end) ws = true ->
  PSW_MD (apply_writes ws s) = PSW_MD s /\ PSW_MD (apply_writes (W_flag PSW_C_BIT b :: ws) s) = PSW_MD s.
Proof.
  intros Hs Hw.
  assert (forall s1, PSW_MD (apply_writes ws s1) = PSW_MD s1) as Hr.
  { induction ws as [|w ws IH]; intros s1; [done|]. apply andb_prop in Hw as [Hw Hws].
    unfold apply_writes. cbn [fold_left]. fold (apply_writes ws (apply_write s1 w)). rewrite IH by done. by destruct w. }
  split; [apply Hr|]. change (apply_writes (W_flag PSW_C_BIT b :: ws) s) with (apply_writes ws (apply_write s (W_flag PSW_C_BIT b))).
  rewrite Hr. unfold PSW_MD, psw_bit. pose proof (wf_sized s (proj1 Hs)) as (_ & Hl & _).
  rewrite PSW_set_flag by lia. unfold set_flag.
  assert (Z.land (Z.lor (Z.land (PSW s) (u16 (Z.lnot PSW_C_BIT))) (if b then PSW_C_BIT else 0)) PSW_MD_BIT = Z.land (PSW s) PSW_MD_BIT) as ->; [|done].
  apply set_flag_disjoint; [exact (wf_fits_creg s (proj1 Hs) 0 ltac:(lia))|reflexivity|vm_compute; split; [discriminate|reflexivity]].
Qed.

(** An instruction that only writes registers *)
Lemma exec_writes f (i : bool * Z) s m s1 ws g :
  first_of_its_words f = true -> inv s ->
  hash_matches i.2 (if i.1 then 1 else 0) (entry_of (simop_named f)) = true ->
  run_func (simop_named f) = m -> issues m (start_of f i s) s1 ws ->
  (forall b, chip_word s1 b = chip_word s b) ->
  (forall k, 0 <= k < 16 -> GPR (apply_writes ws s1) k = g k) ->
  (forall k, ACC s1 k = ACC s k) -> no_acc ws = true -> PSW_MD (apply_writes ws s1) = PSW_MD s ->
  exists s', exec_insn i s = Ret tt s' /\ inv s' /\ moved s g [] s'.
Proof.
  intros Hf Hs Hm Er Hq Hc Hg Ha Hno Hmd. destruct (exec_found f i s Hf Hs Hm) as [Ee Hi].
  destruct (issues_effects _ _ _ _ Hq) as [t Et].
  rewrite Er in Ee. rewrite Et in Ee. exists (set_trace_psw t (apply_writes ws s1)).
  split; [exact Ee|]. split; [exact (exec_inv f i s _ Hf Hs Hm Ee)|]. split.
  - exact Hg.
  - intros a v [].
  - intros b _ _. change (chip_word (apply_writes ws s1) b = chip_word s b). by rewrite chip_word_writes.
  - intros k. change (ACC (apply_writes ws s1) k = ACC s k). by rewrite ACC_writes.
  - exact Hmd.
Qed.
End Exec.

(** ** The fields of the instructions *)

Lemma land_part x m c m' : Z.land x m = c -> Z.land m m' = m' -> Z.land x m' = Z.land c m'.
Proof. intros <- Hm. by rewrite <- Z.land_assoc, Hm. Qed.
Lemma pattern_field x m c sh b : Z.land x m = c -> 0 <= sh -> 0 <= b ->
  Z.land (Z.shiftr m sh) (Z.ones b) = Z.ones b ->
  (x / 2 ^ sh) mod 2 ^ b = Z.land (Z.shiftr c sh) (Z.ones b).
Proof.
  intros <- Hs Hb Hm. rewrite <- Z.shiftr_div_pow2, <- land_ones_mod by lia.
  by rewrite Z.shiftr_land, <- Z.land_assoc, Hm.
Qed.
Lemma pattern_matches x m c f size : Z.land x m = c ->
  Z.land m (so_mask (simop_named f)) = so_mask (simop_named f) ->
  Z.land c (so_mask (simop_named f)) = so_opcode (simop_named f) ->
  so_is_long (simop_named f) = size -> hash_matches x size (entry_of (simop_named f)) = true.
Proof.
  intros Hx Hm Hc Hl. unfold hash_matches, entry_of. cbn [he_mask he_opcode he_size].
  rewrite (land_part x m c _ Hx Hm), Hc, Hl. by rewrite !Z.eqb_refl.
Qed.

(** What an instruction of a prologue does *)
Inductive prologue_insn :=
| P_nop
| P_frame (* mv r11, sp *)
| P_adjust (d : Z) (* sp changes by [d] *)
| P_save (pre n off : Z) (two : bool) (* sp changes by [pre], and register [n], or a pair,
                                         is stored at [off] from there *).

Definition reg_field (op : Z) : Z := (op / 2 ^ 5) mod 2 ^ 4.
Definition long_field (op : Z) : Z := (op / 2 ^ 20) mod 2 ^ 4.
Definition sub_amount (op : Z) : Z := let n := (op / 2 ^ 1) mod 2 ^ 4 in if n =? 0 then 16 else n.
(** The instructions that the debugger takes for those of a prologue, but for [macu] *)
Definition classify (i : bool * Z) : option prologue_insn :=
  let op := i.2 in
  if i.1 then
    if is_add3_sp op then Some (P_adjust (s16 op))
    else if is_st_sp op then Some (P_save 0 (long_field op) (s16 op) false)
    else if is_st2w_sp op then Some (P_save 0 (long_field op) (s16 op) true)
    else None
  else if Z.land op 0x7E1F =? 0x6C1F then Some (P_save (-2) (reg_field op) 0 false)
  else if Z.land op 0x7E3F =? 0x6E1F then Some (P_save (-4) (reg_field op) 0 true)
  else if Z.land op 0x7FE1 =? 0x01E1 then Some (P_adjust (- sub_amount op))
  else if op =? 0x417E then Some P_frame
  else if op =? 0x5E00 then Some P_nop
  else if Z.land op 0x7E1F =? 0x681E then Some (P_save 0 (reg_field op) 0 false)
  else None.

(** ** What the debugger makes of them *)

Definition scan_insn (i : bool * Z) (p : prologue) : bool * prologue :=
  if i.1 then find_regs_word (Z.lor 0xC0000000 i.2) p else prologue_find_regs i.2 p.
(** A register saved at [off], and the next one after it *)
Definition scan_save (n off : Z) (two : bool) (p : prologue) : prologue :=
  if two then set_reg (n + 1) (off + 2) (set_reg n off p) else set_reg n off p.
Definition scan_pro (c : prologue_insn) (p : prologue) : prologue :=
  match c with
  | P_nop => p
  | P_frame => Prologue_ (next_addr p) 1 (regs p)
  | P_adjust d => set_next_addr (next_addr p + d) p
  | P_save pre n off two =>
      let p := if pre =? 0 then p else set_next_addr (next_addr p + pre) p in
      scan_save n (next_addr p + off) two p
  end.

Lemma reg_field_eq op : Z.shiftr (Z.land op 0x1E0) 5 = reg_field op.
Proof.
  change 0x1E0 with (Z.shiftl (Z.ones 4) 5). rewrite land_field, Z.shiftr_div_pow2 by lia.
  by rewrite Z.div_mul by lia.
Qed.
Lemma sub_field_eq op : Z.shiftr (Z.land op 0x1E) 1 = (op / 2 ^ 1) mod 2 ^ 4.
Proof.
  change 0x1E with (Z.shiftl (Z.ones 4) 1). rewrite land_field, Z.shiftr_div_pow2 by lia.
  by rewrite Z.div_mul by lia.
Qed.
Lemma fm11_land x m : 0 <= x < 2 ^ 30 -> Z.land m 0xC0000000 = 0 -> Z.land (Z.lor 0xC0000000 x) m = Z.land x m.
Proof. intros Hx Hm. rewrite Z.land_lor_distr_l, (Z.land_comm _ m), Hm. apply Z.lor_0_l. Qed.
Lemma fm11_long x : Z.land (Z.lor 0xC0000000 x) 0xC0000000 = 0xC0000000.
Proof.
  apply Z.bits_inj'. intros k Hk. rewrite Z.land_spec, Z.lor_spec.
  by destruct (Z.testbit x k), (Z.testbit 0xC0000000 k).
Qed.

Lemma scan_classified i c p : classify i = Some c -> 0 <= i.2 < 2 ^ 30 -> scan_insn i p = (true, scan_pro c p).
Proof.
  destruct i as [[] op]; unfold classify, scan_insn; cbn [fst snd]; intros E Hop.
  - unfold find_regs_word, is_long, is_add3_sp, is_st_sp, is_st2w_sp in *.
    rewrite fm11_long, (fm11_land op 0x3FFF0000), (fm11_land op 0x3F0F0000), (fm11_land op 0x3F1F0000) by done.
    assert (Z.lor 0xC0000000 op = 0xC0000000 + op) as Eo.
    { change 0xC0000000 with (Z.shiftl 3 30). by rewrite lor_add_disjoint by lia. }
    assert (s16 (Z.lor 0xC0000000 op) = s16 op) as -> by (rewrite Eo; unfold s16, wrap_signed; zdml).
    assert (Z.land (Z.shiftr (Z.lor 0xC0000000 op) 20) 0xF = long_field op) as ->.
    { rewrite Eo. change 0xF with (Z.ones 4). rewrite land_ones_mod, Z.shiftr_div_pow2 by lia. unfold long_field. zdml. }
    rewrite Z.eqb_refl. destruct (_ =? 0x01FF0000); [by injection E as <-|].
    destruct (_ =? 0x340F0000); [by injection E as <-|].
    destruct (_ =? 0x350F0000); [by injection E as <-|done].
  - unfold prologue_find_regs. rewrite reg_field_eq, sub_field_eq.
    destruct (_ =? 0x6C1F); [injection E as <-; unfold scan_pro, scan_save; simpl; by rewrite Z.add_0_r|].
    destruct (_ =? 0x6E1F); [injection E as <-; unfold scan_pro, scan_save; simpl; by rewrite Z.add_0_r|].
    destruct (_ =? 0x01E1); [by injection E as <-|].
    destruct (op =? 0x417E); [by injection E as <-|]. destruct (op =? 0x5E00); [by injection E as <-|].
    destruct (_ =? 0x681E); [injection E as <-; unfold scan_pro, scan_save; simpl; by rewrite Z.add_0_r|done].
Qed.
(** The debugger recognises these, and the [macu] whose pattern it has for [st2w]. *)
Lemma scan_recognised i p : 0 <= i.2 < 2 ^ 30 -> (scan_insn i p).1 = true ->
  classify i <> None \/ (i.1 = false /\ Z.land i.2 0x7E3F = 0x3A1E).
Proof.
  destruct i as [[] op]; unfold classify, scan_insn; cbn [fst snd]; intros Hop E.
  - left. unfold find_regs_word, is_long, is_add3_sp, is_st_sp, is_st2w_sp in *.
    rewrite fm11_long, (fm11_land op 0x3FFF0000), (fm11_land op 0x3F0F0000), (fm11_land op 0x3F1F0000) in E by done.
    destruct (Z.land op _ =? 0x01FF0000); [done|]. destruct (Z.land op _ =? 0x340F0000); [done|].
    by destruct (Z.land op _ =? 0x350F0000).
  - unfold prologue_find_regs in E. destruct (_ =? 0x6C1F); [by left|]. destruct (_ =? 0x6E1F); [by left|].
    destruct (_ =? 0x01E1); [by left|]. destruct (op =? 0x417E); [by left|].
    destruct (op =? 0x5E00); [by left|]. destruct (_ =? 0x681E); [by left|].
    destruct (Z.eqb_spec (Z.land op 0x7E3F) 0x3A1E); [by right|done].
Qed.

(** ** What the machine makes of them *)

(** The registers afterwards, and the words stored *)
Definition pro_gpr (c : prologue_insn) (s : state) (k : Z) : Z :=
  match c with
  | P_nop => GPR s k
  | P_frame => if k =? FP_REGNUM then GPR s SP_REGNUM else GPR s k
  | P_adjust d | P_save d _ _ _ => if k =? SP_REGNUM then (GPR s SP_REGNUM + d) mod 2 ^ 16 else GPR s k
  end.
Definition pro_stores (c : prologue_insn) (s : state) : list (Z * Z) :=
  match c with
  | P_save pre n off two =>
      let a := GPR s SP_REGNUM + pre + off in
      if two then [(a + 2, GPR s (n + 1)); (a, GPR s n)] else [(a, GPR s n)]
  | _ => []
  end.
Definition stores_on_chip (l : list (Z * Z)) : Prop := Forall (fun x => on_chip x.1) l.

(** The bit at the bottom of the number of a register pair is fixed to 0. *)
Lemma pair_field ins sh m c : Z.land ins m = c -> 0 <= sh -> Z.testbit m sh = true -> Z.testbit c sh = false ->
  0 <= (ins / 2 ^ sh) mod 2 ^ 4 < 15.
Proof.
  intros <- Hs Hm Hc. rewrite Z.land_spec, Hm, andb_true_r in Hc.
  pose proof (Z.mod_pos_bound (ins / 2 ^ sh) (2 ^ 4) ltac:(lia)).
  destruct (decide ((ins / 2 ^ sh) mod 2 ^ 4 = 15)) as [E|]; [|lia].
  apply (f_equal (fun z => Z.testbit z 0)) in E. rewrite Z.mod_pow2_bits_low, Z.div_pow2_bits in E by lia.
  rewrite Z.add_0_l, Hc in E. discriminate.
Qed.
Lemma u32_low x : u32 x mod 2 ^ 16 = x mod 2 ^ 16.
Proof. unfold u32. zdml. Qed.
(** A stack pointer that stays *)
Lemma same_sp s s1 k : inv s -> GPR s1 k = GPR s k ->
  GPR (apply_writes [] s1) k = if k =? SP_REGNUM then (GPR s SP_REGNUM + 0) mod 2 ^ 16 else GPR s k.
Proof.
  intros Hs E. unfold apply_writes. cbn [fold_left]. rewrite E. destruct (Z.eqb_spec k SP_REGNUM) as [->|]; [|done].
  rewrite Z.add_0_r. symmetry. apply Z.mod_small, (wf_znth_regs s (proj1 Hs) SP_REGNUM).
Qed.

Section Steps.
Context `{Host} (Hcalloc : forall s seg, host_calloc s seg = true).

(** The function of a table entry *)
Ltac named_func f :=
  unfold run_func; replace (so_func (simop_named f)) with (Some f) by (vm_compute; reflexivity).

(** The instruction [i] does on the machine what [c] says. *)
Definition does_pro (i : bool * Z) (c : prologue_insn) : Prop :=
  forall s, inv s -> stores_on_chip (pro_stores c s) ->
    exists s', exec_insn i s = Ret tt s' /\ inv s' /\ moved s (pro_gpr c s) (pro_stores c s) s'.

(** The operands that the decoder finds *)
Lemma op_start f i s k n l : so_numops (simop_named f) = n -> so_operands (simop_named f) = l ->
  0 <= k <= 2 -> k < n ->
  op (start_of f i s) k = (i.2 / 2 ^ znth l (3 * k)) mod 2 ^ znth l (3 * k + 1).
Proof.
  intros En El Hk Hn. unfold op, start_of, decoded.
  change (OP _) with (operands_of (simop_named f) i.2 s). unfold operands_of. rewrite En, El.
  assert (k = 0 \/ k = 1 \/ k = 2) as [-> |[-> | ->]] by lia; unfold znth; simpl;
    by rewrite (proj2 (Z.ltb_lt _ _)) by lia.
Qed.
Lemma GPR_start f i s k : GPR (start_of f i s) k = GPR s k.
Proof. done. Qed.
Lemma chip_start f i s b : chip_word (start_of f i s) b = chip_word s b.
Proof. done. Qed.

(** [nop] only counts. *)
Lemma nop_does : does_pro (false, 0x5E00) P_nop.
Proof.
  intros s Hs _. pose proof (proj2 Hs) as Hsl.
  set (st := start_of 0x5e00 (false, 0x5E00) s).
  destruct (OP_5E00 st) as [[] s1| | |] eqn:E; try (by unfold OP_5E00, bind, get, count, modify in E).
  assert (GPR s1 = GPR s /\ (forall b, chip_word s1 b = chip_word s b) /\ slot s1 = [] /\ (forall k, ACC s1 k = ACC s k) /\ PSW_MD s1 = PSW_MD s)
    as (Eg & Ec & El & Ea & Em).
  { unfold OP_5E00, bind, get, count, modify in E. cbn [ins_type] in E.
    change (ins_type st) with INS_LEFT in E. injection E as <-. done. }
  apply (exec_writes 0x5e00 (false, 0x5E00) s OP_5E00 s1 []).
  - vm_compute. reflexivity.
  - exact Hs.
  - vm_compute. reflexivity.
  - by named_func 0x5e00.
  - unfold issues, wp. fold st. rewrite E. by apply pend_refl.
  - exact Ec.
  - intros k _. change (GPR s1 k = GPR s k). by rewrite Eg.
  - exact Ea.
  - done.
  - exact Em.
Qed.

Lemma subi_queues s : inv s ->
  queues OP_1 s (with_imm16 s) [W_flag PSW_C_BIT (imm16 s <=? rA s); W_reg (rD s) ((rA s - imm16 s) mod 2 ^ 16)].
Proof. intros Hs. row Hs. Qed.
Lemma mv_row s : inv s -> queues OP_4000 s s [W_reg (rD s) (rB s)].
Proof. intros Hs. row Hs. Qed.

Lemma inv_op_state t : inv t -> inv (set_OP (<[1%nat := 16]> (OP t)) t).
Proof.
  intros Ht. apply (inv_set_OP t _ Ht); destruct (wf_op t (proj1 Ht)) as [Hl Hf].
  - by rewrite length_insert.
  - apply Forall_insert; [exact Hf|vm_compute; split; [discriminate|reflexivity]].
Qed.
Lemma with_imm16_keeps s : inv s -> inv (with_imm16 s) /\ PSW_MD (with_imm16 s) = PSW_MD s /\
  (forall k, GPR (with_imm16 s) k = GPR s k) /\ (forall k, ACC (with_imm16 s) k = ACC s k) /\
  (forall b, chip_word (with_imm16 s) b = chip_word s b).
Proof.
  intros Hs. unfold with_imm16. destruct (op s 1 =? 0); [|done]. split; [by apply inv_op_state|done].
Qed.

(** The stack pointer is written, and perhaps a flag. *)
Lemma GPR_flag_reg s m b n v k : sized s -> 0 <= n < 16 -> 0 <= k ->
  GPR (apply_writes [W_flag m b; W_reg n v] s) k = if k =? n then v else GPR s k.
Proof.
  intros Hz Hn Hk. unfold apply_writes. cbn [fold_left].
  rewrite GPR_write by (first [apply sized_write; exact Hz|done|exact Hn]).
  destruct (k =? n); [done|]. by rewrite GPR_write by (done || exact Hz).
Qed.

(** [subi sp, n] *)
Lemma subi_does ins : Z.land ins 0x7FE1 = 0x01E1 -> does_pro (false, ins) (P_adjust (- sub_amount ins)).
Proof.
  intros Hop s Hs _.
  assert (hash_matches ins 0 (entry_of (simop_named 0x1)) = true) as Hm
    by (apply (pattern_matches ins 0x7FE1 0x01E1); [done|vm_compute; reflexivity..]).
  assert (first_of_its_words 0x1 = true) as Hf by (vm_compute; reflexivity).
  pose proof (proj2 (exec_found 0x1 (false, ins) s Hf Hs Hm)) as Hst. set (st := start_of 0x1 (false, ins) s) in *.
  assert (op st 0 = 15) as E0.
  { unfold st. rewrite (op_start 0x1 _ s 0 2 [5; 4; 262180; 1; 4; 131080]) by (first [lia | vm_compute; reflexivity]).
    exact (pattern_field ins 0x7FE1 0x01E1 5 4 Hop ltac:(lia) ltac:(lia) eq_refl). }
  assert (op st 1 = (ins / 2 ^ 1) mod 2 ^ 4) as E1.
  { unfold st. by rewrite (op_start 0x1 _ s 1 2 [5; 4; 262180; 1; 4; 131080]) by (first [lia | vm_compute; reflexivity]). }
  assert (rA st = GPR s SP_REGNUM) as EA by (unfold rA; rewrite E0; done).
  assert (imm16 st = sub_amount ins) as Ei by (unfold imm16, sub_amount; by rewrite E1).
  apply (exec_writes 0x1 (false, ins) s OP_1 (with_imm16 st)
           [W_flag PSW_C_BIT (imm16 st <=? rA st); W_reg (rD st) ((rA st - imm16 st) mod 2 ^ 16)]).
  - exact Hf.
  - exact Hs.
  - exact Hm.
  - by named_func 0x1.
  - apply queues_issues; [by apply subi_queues|apply Hst].
  - intros b. unfold with_imm16. by destruct (_ =? 0).
  - intros k Hk. assert (sized (with_imm16 st)) as Hz.
    { unfold with_imm16. destruct (_ =? 0); [|apply wf_sized, Hst].
      exact (wf_sized st (proj1 Hst)). }
    rewrite GPR_flag_reg by (first [exact Hz | unfold rD; rewrite E0; lia | lia]).
    unfold rD, pro_gpr. rewrite E0, EA, Ei. unfold SP_REGNUM. destruct (k =? 15); [f_equal; lia|].
    unfold with_imm16. by destruct (_ =? 0).
  - intros k. unfold with_imm16. by destruct (_ =? 0).
  - done.
  - destruct (with_imm16_keeps st Hst) as (Hi & Ki & _). rewrite (proj2 (md_flag _ _ [W_reg (rD st) _] Hi eq_refl)), Ki. reflexivity.
Qed.

(** [add3 sp, sp, n] *)
Lemma add3_does ins : is_add3_sp ins = true -> 0 <= ins < 2 ^ 30 -> does_pro (true, ins) (P_adjust (s16 ins)).
Proof.
  intros Hop%Z.eqb_eq Hr s Hs _.
  assert (hash_matches ins 1 (entry_of (simop_named 0x1000000)) = true) as Hm
    by (apply (pattern_matches ins 0x3FFF0000 0x01FF0000); [done|vm_compute; reflexivity..]).
  assert (first_of_its_words 0x1000000 = true) as Hf by (vm_compute; reflexivity).
  pose proof (proj2 (exec_found 0x1000000 (true, ins) s Hf Hs Hm)) as Hst.
  set (st := start_of 0x1000000 (true, ins) s) in *.
  set (l := [20; 4; 262180; 16; 4; 262176; 0; 16; 65544]).
  assert (forall k, 0 <= k <= 2 -> op st k = (ins / 2 ^ znth l (3 * k)) mod 2 ^ znth l (3 * k + 1)) as Eop.
  { intros k Hk. unfold st. apply (op_start 0x1000000 (true, ins) s k 3 l); [vm_compute; reflexivity..|lia|lia]. }
  assert (rD st = 15) as ED.
  { unfold rD. rewrite Eop by lia. exact (pattern_field ins 0x3FFF0000 0x01FF0000 20 4 Hop ltac:(lia) ltac:(lia) eq_refl). }
  assert (rB st = GPR s SP_REGNUM) as EB.
  { unfold rB. rewrite Eop by lia.
    replace ((ins / 2 ^ znth l (3 * 1)) mod 2 ^ znth l (3 * 1 + 1)) with 15; [done|]. symmetry.
    exact (pattern_field ins 0x3FFF0000 0x01FF0000 16 4 Hop ltac:(lia) ltac:(lia) eq_refl). }
  assert (imm st 2 = ins mod 2 ^ 16) as Ei.
  { unfold imm. rewrite Eop by lia. change (ins / 2 ^ 0 mod 2 ^ 16 = ins mod 2 ^ 16). by rewrite Z.div_1_r. }
  apply (exec_writes 0x1000000 (true, ins) s OP_1000000 st
    [W_flag PSW_C_BIT (2 ^ 16 <=? rB st + imm st 2); W_reg (rD st) ((rB st + imm st 2) mod 2 ^ 16)]).
  - exact Hf.
  - exact Hs.
  - exact Hm.
  - by named_func 0x1000000.
  - by apply add3_issues.
  - intros b. apply chip_start.
  - intros k Hk. rewrite GPR_flag_reg by (rewrite ?ED; first [lia | apply wf_sized, Hst]).
    unfold pro_gpr. rewrite ED, EB, Ei. unfold SP_REGNUM. destruct (k =? 15); [|done].
    unfold s16, wrap_signed. zdml.
  - done.
  - done.
  - exact (proj2 (md_flag _ _ [W_reg (rD st) _] Hst eq_refl)).
Qed.

(** [mv r11, sp] *)
Lemma mv_does : does_pro (false, 0x417E) P_frame.
Proof.
  intros s Hs _. set (i := (false, 0x417E)).
  assert (hash_matches i.2 0 (entry_of (simop_named 0x4000)) = true) as Hm by (vm_compute; reflexivity).
  assert (first_of_its_words 0x4000 = true) as Hf by (vm_compute; reflexivity).
  pose proof (proj2 (exec_found 0x4000 i s Hf Hs Hm)) as Hst. set (st := start_of 0x4000 i s) in *.
  set (l := [5; 4; 262180; 1; 4; 262176]).
  assert (op st 0 = 11) as E0
    by (unfold st; rewrite (op_start 0x4000 _ s 0 2 l) by (first [lia | vm_compute; reflexivity]); reflexivity).
  assert (op st 1 = 15) as E1
    by (unfold st; rewrite (op_start 0x4000 _ s 1 2 l) by (first [lia | vm_compute; reflexivity]); reflexivity).
  apply (exec_writes 0x4000 i s OP_4000 st [W_reg (rD st) (rB st)]).
  - exact Hf.
  - exact Hs.
  - exact Hm.
  - by named_func 0x4000.
  - apply queues_issues; [by apply mv_row|apply Hst].
  - intros b. apply chip_start.
  - intros k Hk. unfold apply_writes. cbn [fold_left]. unfold rD, rB. rewrite E0, E1.
    rewrite GPR_write by (first [apply wf_sized, Hst | lia]). reflexivity.
  - done.
  - done.
  - exact (proj1 (md_flag _ false [W_reg (rD st) _] Hst eq_refl)).
Qed.

(** ** Instructions that store registers *)

Lemma moved_start f i s g l s1 : moved (start_of f i s) g l s1 -> moved s g l s1.
Proof.
  intros [Hg Hst Hk Ha Hmd]. split; [exact Hg|exact Hst| |exact Ha|exact Hmd].
  intros b Hb Hd. rewrite <- (chip_start f i s b). by apply Hk.
Qed.

(** After the stores come the writes of registers. *)
Lemma exec_stores f (i : bool * Z) s m s1 l ws g :
  first_of_its_words f = true -> inv s ->
  hash_matches i.2 (if i.1 then 1 else 0) (entry_of (simop_named f)) = true ->
  run_func (simop_named f) = m ->
  (exists t, (m ;; SLOT_FLUSH) (start_of f i s) = Ret tt (set_trace_psw t (apply_writes ws s1))) ->
  moved (start_of f i s) (GPR s) l s1 -> (forall k, 0 <= k < 16 -> GPR (apply_writes ws s1) k = g k) ->
  no_acc ws = true -> PSW_MD (apply_writes ws s1) = PSW_MD s1 ->
  exists s', exec_insn i s = Ret tt s' /\ inv s' /\ moved s g l s'.
Proof.
  intros Hf Hs Hm Er [t Et] Hmv Hg Hno Hmd. destruct (exec_found f i s Hf Hs Hm) as [Ee Hi].
  rewrite Er in Ee. rewrite Et in Ee. exists (set_trace_psw t (apply_writes ws s1)).
  split; [exact Ee|]. split; [exact (exec_inv f i s _ Hf Hs Hm Ee)|].
  apply moved_start in Hmv as [_ Hst Hk Hac Hmd1].
  assert (forall b, chip_word (set_trace_psw t (apply_writes ws s1)) b = chip_word s1 b) as Hc
    by (intros b; apply (chip_word_writes ws s1 b)).
  split; [exact Hg| | | |by rewrite <- Hmd1, <- Hmd]; intros b; rewrite ?Hc.
  - intros v Hin. by apply Hst.
  - intros Hb Hd. by apply Hk.
  - change (ACC (apply_writes ws s1) b = ACC s b). by rewrite ACC_writes.
Qed.

Lemma GPR_u16 s k : inv s -> u16 (GPR s k) = GPR s k.
Proof. intros Hs. apply u16_small, (wf_znth_regs s (proj1 Hs) k). Qed.

(** The two stores of a register pair *)
Lemma pair_moved (A B : state -> Z) s n a :
  inv s -> op s 0 = n -> 0 <= n < 15 -> on_chip a -> on_chip (a + 2) -> A s mod 2 ^ 16 = a ->
  (forall s1, OP s1 = OP s -> (forall k, 0 <= k < 16 -> GPR s1 k = GPR s k) -> B s1 mod 2 ^ 16 = a + 2) ->
  exists s2, (s <- get ;; SW (A s) (GPR s (op s 0 + 0)) ;; s <- get ;; SW (B s) (GPR s (op s 0 + 1))) s = Ret tt s2 /\
    inv s2 /\ OP s2 = OP s /\ moved s (GPR s) [(a + 2, GPR s (n + 1)); (a, GPR s n)] s2.
Proof.
  intros Hs En Hn Ha Ha2 EA EB.
  destruct (SW_moved Hcalloc (A s) a (GPR s (op s 0 + 0)) s Hs EA Ha) as (s1 & E1 & Hs1 & Eo & Hm1).
  assert (forall k, 0 <= k < 16 -> GPR s1 k = GPR s k) as Eg by apply Hm1.
  assert (op s1 0 = n) as En1 by (unfold op; by rewrite Eo).
  destruct (SW_moved Hcalloc (B s1) (a + 2) (GPR s1 (op s1 0 + 1)) s1 Hs1 (EB s1 Eo Eg) Ha2)
    as (s2 & E2 & Hs2 & Eo2 & Hm2).
  exists s2. split; [unfold bind, get; by rewrite E1|]. split; [done|]. split; [by rewrite Eo2|].
  rewrite En, Z.add_0_r, GPR_u16 in Hm1 by done. rewrite En1, Eg, GPR_u16 in Hm2 by (done || lia).
  eapply moved_store; [exact Hm1|exact Hm2|exact Ha2|].
  intros b w [[= <- <-]|[]]. split; [done|]. unfold disjoint_words. lia.
Qed.

Lemma tail_none (m : M unit) st s1 : m st = Ret tt s1 -> inv s1 ->
  exists t, (m ;; SLOT_FLUSH) st = Ret tt (set_trace_psw t (apply_writes [] s1)).
Proof.
  intros E Hs. apply (issues_effects m st s1 []). unfold issues, wp. rewrite E. apply pend_refl, Hs.
Qed.
Lemma tail_sp (m : M unit) st s1 addr : m st = Ret tt s1 -> inv s1 -> op s1 1 = 15 -> 0 <= addr < 2 ^ 16 ->
  exists t, ((m ;; s <- get ;; SET_GPR (op s 1) addr) ;; SLOT_FLUSH) st =
    Ret tt (set_trace_psw t (apply_writes [W_reg 15 addr] s1)).
Proof.
  intros E Hs E1 Ha.
  assert (effects (s <- get ;; SET_GPR (op s 1) addr) s1 s1 [W_reg 15 addr]) as [t Et].
  { effects_tac Hs. eapply pend_eq; [eassumption|done|]. by rewrite E1, u16_small. }
  exists t. rewrite <- Et. unfold bind. by rewrite E.
Qed.
Lemma GPR_sp_write s addr k : inv s -> 0 <= k ->
  GPR (apply_writes [W_reg 15 addr] s) k = if k =? 15 then addr else GPR s k.
Proof.
  intros Hs Hk. unfold apply_writes. cbn [fold_left]. rewrite GPR_write by (first [apply wf_sized, Hs | done | lia]). done.
Qed.

(** The operands of a short store to the stack *)
Lemma short_operands f ins s l : so_numops (simop_named f) = 2 -> so_operands (simop_named f) = l ->
  znth l 0 = 5 -> znth l 1 = 4 -> znth l 3 = 1 -> znth l 4 = 4 -> (ins / 2 ^ 1) mod 2 ^ 4 = 15 ->
  op (start_of f (false, ins) s) 0 = reg_field ins /\ op (start_of f (false, ins) s) 1 = 15.
Proof.
  intros Hn Hl E0 E1 E3 E4 E15. rewrite !(op_start f _ s _ 2 l) by (done || lia).
  change (3 * 0) with 0. change (3 * 1) with 3. change (0 + 1) with 1. change (3 + 1) with 4.
  by rewrite E0, E1, E3, E4.
Qed.
Lemma on_chip_small a : on_chip a -> a mod 2 ^ 16 = a.
Proof. intros []. apply Z.mod_small. lia. Qed.

(** [st rn, @-sp] *)
Lemma push_does ins : Z.land ins 0x7E1F = 0x6C1F -> does_pro (false, ins) (P_save (-2) (reg_field ins) 0 false).
Proof.
  intros Hi s Hs Hst%List.Forall_inv. cbn [fst] in Hst. set (a := GPR s SP_REGNUM + -2 + 0) in *.
  assert (hash_matches ins 0 (entry_of (simop_named 0x6c1f)) = true) as Hm
    by (apply (pattern_matches ins 0x7E1F 0x6C1F); [done|vm_compute; reflexivity..]).
  assert (first_of_its_words 0x6c1f = true) as Hf by (vm_compute; reflexivity).
  pose proof (proj2 (exec_found 0x6c1f (false, ins) s Hf Hs Hm)) as Hi0.
  destruct (short_operands 0x6c1f ins s [5; 4; 262176; 1; 4; 262176]) as [E0 E1];
    [vm_compute; reflexivity..| |]; [exact (pattern_field ins 0x7E1F 0x6C1F 1 4 Hi ltac:(lia) ltac:(lia) eq_refl)|].
  set (st := start_of 0x6c1f (false, ins) s) in *.
  assert (u16 (GPR st 15 - 2) = a) as Ea
    by (unfold u16; rewrite <- (on_chip_small a Hst); f_equal; unfold a; change (GPR st 15) with (GPR s 15); unfold SP_REGNUM; lia).
  destruct (SW_moved Hcalloc a a (GPR st (op st 0)) st Hi0 (on_chip_small a Hst) Hst) as (s1 & E & Hs1 & Eo & Hmv).
  assert (forall k, 0 <= k < 16 -> GPR s1 k = GPR s k) as Eg by apply Hmv.
  rewrite GPR_u16 in Hmv by done. rewrite E0 in Hmv.
  apply (exec_stores 0x6c1f (false, ins) s OP_6C1F s1 [(a, GPR s (reg_field ins))] [W_reg 15 a]).
  - exact Hf.
  - exact Hs.
  - exact Hm.
  - by named_func 0x6c1f.
  - fold st. destruct (tail_sp (SW a (GPR st (op st 0))) st s1 a E Hs1) as [t Et];
      [unfold op; by rewrite Eo|destruct Hst; lia|].
    exists t. rewrite <- Et. unfold OP_6C1F, bind, get. rewrite E1. simpl (negb (15 =? 15)). cbv iota zeta.
    rewrite Ea. by destruct (SW a _ st) as [[] ?| | |].
  - exact Hmv.
  - intros k Hk. rewrite GPR_sp_write by (first [exact Hs1 | lia]). unfold pro_gpr, SP_REGNUM.
    destruct (k =? 15); [|by apply Eg]. rewrite <- (on_chip_small a Hst). f_equal. unfold a, SP_REGNUM. lia.
  - reflexivity.
  - reflexivity.
Qed.

(** [st2w rn, @-sp] *)
Lemma push_pair_does ins : Z.land ins 0x7E3F = 0x6E1F -> does_pro (false, ins) (P_save (-4) (reg_field ins) 0 true).
Proof.
  intros Hi s Hs Hst. pose proof (List.Forall_inv (List.Forall_inv_tail Hst)) as Ha.
  apply List.Forall_inv in Hst as Ha2. cbn [fst] in Ha, Ha2. set (a := GPR s SP_REGNUM + -4 + 0) in *.
  assert (hash_matches ins 0 (entry_of (simop_named 0x6e1f)) = true) as Hm
    by (apply (pattern_matches ins 0x7E3F 0x6E1F); [done|vm_compute; reflexivity..]).
  assert (first_of_its_words 0x6e1f = true) as Hf by (vm_compute; reflexivity).
  pose proof (proj2 (exec_found 0x6e1f (false, ins) s Hf Hs Hm)) as Hi0.
  destruct (short_operands 0x6e1f ins s [5; 4; 262177; 1; 4; 262176]) as [E0 E1];
    [vm_compute; reflexivity..| |]; [exact (pattern_field ins 0x7E3F 0x6E1F 1 4 Hi ltac:(lia) ltac:(lia) eq_refl)|].
  assert (0 <= reg_field ins < 15) as Hn by (apply (pair_field ins 5 0x7E3F 0x6E1F); [exact Hi|lia|reflexivity..]).
  set (st := start_of 0x6e1f (false, ins) s) in *.
  assert (u16 (GPR st 15 - 4) = a) as Ea
    by (unfold u16; rewrite <- (on_chip_small a Ha); f_equal; unfold a; change (GPR st 15) with (GPR s 15); unfold SP_REGNUM; lia).
  destruct (pair_moved (fun _ => a + 0) (fun _ => a + 2) st (reg_field ins) a Hi0 E0 Hn Ha Ha2)
    as (s1 & E & Hs1 & Eo & Hmv); [by rewrite Z.add_0_r, on_chip_small|intros; by apply on_chip_small|].
  assert (forall k, 0 <= k < 16 -> GPR s1 k = GPR s k) as Eg by apply Hmv.
  apply (exec_stores 0x6e1f (false, ins) s OP_6E1F s1
           [(a + 2, GPR s (reg_field ins + 1)); (a, GPR s (reg_field ins))] [W_reg 15 a]).
  - exact Hf.
  - exact Hs.
  - exact Hm.
  - by named_func 0x6e1f.
  - fold st. destruct (tail_sp (st2w_at (fun _ => a)) st s1 a E Hs1) as [t Et];
      [unfold op; by rewrite Eo|destruct Ha; lia|].
    exists t. rewrite <- Et. unfold OP_6E1F. unfold bind at 1 2 3 5, get at 1. rewrite E1. simpl (negb (15 =? 15)).
    cbv iota zeta. rewrite Ea. done.
  - exact Hmv.
  - intros k Hk. rewrite GPR_sp_write by (first [exact Hs1 | lia]). unfold pro_gpr, SP_REGNUM.
    destruct (k =? 15); [|by apply Eg]. rewrite <- (on_chip_small a Ha). f_equal. unfold a, SP_REGNUM. lia.
  - reflexivity.
  - reflexivity.
Qed.

(** [st rn, @sp] *)
Lemma store_does ins : Z.land ins 0x7E1F = 0x681E -> does_pro (false, ins) (P_save 0 (reg_field ins) 0 false).
Proof.
  intros Hi s Hs Ha%List.Forall_inv. cbn [fst] in Ha. set (a := GPR s SP_REGNUM + 0 + 0) in *.
  assert (hash_matches ins 0 (entry_of (simop_named 0x6800)) = true) as Hm
    by (apply (pattern_matches ins 0x7E1F 0x681E); [done|vm_compute; reflexivity..]).
  assert (first_of_its_words 0x6800 = true) as Hf by (vm_compute; reflexivity).
  pose proof (proj2 (exec_found 0x6800 (false, ins) s Hf Hs Hm)) as Hi0.
  destruct (short_operands 0x6800 ins s [5; 4; 262176; 1; 4; 262176]) as [E0 E1];
    [vm_compute; reflexivity..| |]; [exact (pattern_field ins 0x7E1F 0x681E 1 4 Hi ltac:(lia) ltac:(lia) eq_refl)|].
  set (st := start_of 0x6800 (false, ins) s) in *.
  assert (GPR st (op st 1) = a) as Ea by (rewrite E1; unfold a, SP_REGNUM; change (GPR st 15) with (GPR s 15); lia).
  destruct (SW_moved Hcalloc (GPR st (op st 1)) a (GPR st (op st 0)) st Hi0) as (s1 & E & Hs1 & _ & Hmv);
    [rewrite Ea; by apply on_chip_small|exact Ha|].
  rewrite GPR_u16, E0 in Hmv by exact Hi0.
  apply (exec_stores 0x6800 (false, ins) s OP_6800 s1 [(a, GPR s (reg_field ins))] []).
  - exact Hf.
  - exact Hs.
  - exact Hm.
  - by named_func 0x6800.
  - apply tail_none; [exact E|exact Hs1].
  - exact Hmv.
  - intros k Hk. apply same_sp; [done|by apply Hmv].
  - reflexivity.
  - reflexivity.
Qed.

(** The operands of a long store to the stack *)
Lemma long_operands f ins s l : so_numops (simop_named f) = 3 -> so_operands (simop_named f) = l ->
  map (znth l) [0; 1; 3; 4; 6; 7] = [20; 4; 0; 16; 16; 4] -> (ins / 2 ^ 16) mod 2 ^ 4 = 15 ->
  let st := start_of f (true, ins) s in
  op st 0 = long_field ins /\ op st 1 = ins mod 2 ^ 16 /\ op st 2 = 15.
Proof.
  intros Hn Hl Em E15. injection Em as E0 E1 E3 E4 E6 E7. cbv zeta.
  rewrite !(op_start f _ s _ 3 l) by (done || lia).
  change (3 * 0) with 0. change (3 * 1) with 3. change (3 * 2) with 6. change (0 + 1) with 1.
  change (3 + 1) with 4. change (6 + 1) with 7. rewrite E0, E1, E3, E4, E6, E7, Z.div_1_r. done.
Qed.
Lemma offset_address x ins a : a = x + 0 + s16 ins -> on_chip a -> (ins mod 2 ^ 16 + x) mod 2 ^ 16 = a.
Proof. intros -> Ha. rewrite <- (on_chip_small _ Ha). unfold s16, wrap_signed. zdml. Qed.

(** [st rn, @(offset, sp)] *)
Lemma st_offset_does ins : is_st_sp ins = true ->
  does_pro (true, ins) (P_save 0 (long_field ins) (s16 ins) false).
Proof.
  intros Hi%Z.eqb_eq s Hs Ha%List.Forall_inv. cbn [fst] in Ha. set (a := GPR s SP_REGNUM + 0 + s16 ins) in *.
  assert (hash_matches ins 1 (entry_of (simop_named 0x34000000)) = true) as Hm
    by (apply (pattern_matches ins 0x3F0F0000 0x340F0000); [done|vm_compute; reflexivity..]).
  assert (first_of_its_words 0x34000000 = true) as Hf by (vm_compute; reflexivity).
  pose proof (proj2 (exec_found 0x34000000 (true, ins) s Hf Hs Hm)) as Hi0.
  destruct (long_operands 0x34000000 ins s [20; 4; 262176; 0; 16; 65544; 16; 4; 262176]) as (E0 & E1 & E2);
    [vm_compute; reflexivity..| |];
    [exact (pattern_field ins 0x3F0F0000 0x340F0000 16 4 Hi ltac:(lia) ltac:(lia) eq_refl)|].
  set (st := start_of 0x34000000 (true, ins) s) in *.
  destruct (SW_moved Hcalloc (u32 (op st 1 + GPR st (op st 2))) a (GPR st (op st 0)) st Hi0) as (s1 & E & Hs1 & _ & Hmv);
    [|exact Ha|].
  { rewrite E1, E2. rewrite u32_low. by apply (offset_address (GPR s 15)). }
  rewrite GPR_u16, E0 in Hmv by exact Hi0.
  apply (exec_stores 0x34000000 (true, ins) s OP_34000000 s1 [(a, GPR s (long_field ins))] []).
  - exact Hf.
  - exact Hs.
  - exact Hm.
  - by named_func 0x34000000.
  - apply tail_none; [exact E|exact Hs1].
  - exact Hmv.
  - intros k Hk. apply same_sp; [done|by apply Hmv].
  - reflexivity.
  - reflexivity.
Qed.

(** [st2w rn, @(offset, sp)] *)
Lemma st2w_offset_does ins : is_st2w_sp ins = true ->
  does_pro (true, ins) (P_save 0 (long_field ins) (s16 ins) true).
Proof.
  intros Hi%Z.eqb_eq s Hs Hst. pose proof (List.Forall_inv (List.Forall_inv_tail Hst)) as Ha.
  apply List.Forall_inv in Hst as Ha2. cbn [fst] in Ha, Ha2. set (a := GPR s SP_REGNUM + 0 + s16 ins) in *.
  assert (hash_matches ins 1 (entry_of (simop_named 0x35000000)) = true) as Hm
    by (apply (pattern_matches ins 0x3F1F0000 0x350F0000); [done|vm_compute; reflexivity..]).
  assert (first_of_its_words 0x35000000 = true) as Hf by (vm_compute; reflexivity).
  pose proof (proj2 (exec_found 0x35000000 (true, ins) s Hf Hs Hm)) as Hi0.
  destruct (long_operands 0x35000000 ins s [20; 4; 262177; 0; 16; 65544; 16; 4; 262176]) as (E0 & E1 & E2);
    [vm_compute; reflexivity..| |];
    [exact (pattern_field ins 0x3F1F0000 0x350F0000 16 4 Hi ltac:(lia) ltac:(lia) eq_refl)|].
  assert (0 <= long_field ins < 15) as Hn
    by (apply (pair_field ins 20 0x3F1F0000 0x350F0000); [exact Hi|lia|reflexivity..]).
  set (st := start_of 0x35000000 (true, ins) s) in *.
  destruct (pair_moved (fun s => u32 (GPR s (op s 2) + op s 1 + 0)) (fun s => u32 (GPR s (op s 2) + op s 1 + 2))
              st (long_field ins) a Hi0 E0 Hn Ha Ha2) as (s1 & E & Hs1 & _ & Hmv).
  - rewrite E1, E2. rewrite u32_low, Z.add_0_r, Z.add_comm.
    by apply (offset_address (GPR s 15)).
  - intros s1 Eo Eg. unfold op in *. rewrite Eo, E1, E2. rewrite u32_low, Eg by lia.
    rewrite <- (on_chip_small _ Ha2), <- (offset_address (GPR s 15) ins a eq_refl Ha).
    change (GPR st 15) with (GPR s 15). zdml.
  - apply (exec_stores 0x35000000 (true, ins) s OP_35000000 s1
      [(a + 2, GPR s (long_field ins + 1)); (a, GPR s (long_field ins))] []).
    + exact Hf.
    + exact Hs.
    + exact Hm.
    + by named_func 0x35000000.
    + apply tail_none; [exact E|exact Hs1].
    + exact Hmv.
    + intros k Hk. apply same_sp; [done|by apply Hmv].
    + reflexivity.
    + reflexivity.
Qed.

(** Every instruction that is classified does what its class says. *)
Lemma classified_does i c : classify i = Some c -> 0 <= i.2 < 2 ^ 30 -> does_pro i c.
Proof.
  destruct i as [[] ins]; unfold classify; cbn [fst snd]; intros E Hr.
  - destruct (is_add3_sp ins) eqn:Ea; [injection E as <-; by apply add3_does|].
    destruct (is_st_sp ins) eqn:Es; [injection E as <-; by apply st_offset_does|].
    destruct (is_st2w_sp ins) eqn:E2; [injection E as <-; by apply st2w_offset_does|done].
  - destruct (Z.eqb_spec (Z.land ins 0x7E1F) 0x6C1F); [injection E as <-; by apply push_does|].
    destruct (Z.eqb_spec (Z.land ins 0x7E3F) 0x6E1F); [injection E as <-; by apply push_pair_does|].
    destruct (Z.eqb_spec (Z.land ins 0x7FE1) 0x01E1); [injection E as <-; by apply subi_does|].
    destruct (Z.eqb_spec ins 0x417E) as [->|]; [injection E as <-; apply mv_does|].
    destruct (Z.eqb_spec ins 0x5E00) as [->|]; [injection E as <-; apply nop_does|].
    destruct (Z.eqb_spec (Z.land ins 0x7E1F) 0x681E); [injection E as <-; by apply store_does|done].
Qed.
End Steps.

(** ** The instructions that the compiler writes *)

Lemma push_class r : 0 <= r < 15 -> classify (false, 0x6C1F + r * 2 ^ 5) = Some (P_save (-2) r 0 false).
Proof.
  intros Hr. each_below r 15%nat; vm_compute; reflexivity.
Qed.
Lemma push_pair_class r : 0 <= r < 15 -> Z.land r 1 = 0 ->
  classify (false, 0x6E1F + r * 2 ^ 5) = Some (P_save (-4) r 0 true).
Proof.
  intros Hr He. each_below r 15%nat; first [discriminate He | vm_compute; reflexivity].
Qed.
Lemma subi_class n : 1 <= n <= 16 -> classify (false, 0x1E1 + 2 * (n mod 16)) = Some (P_adjust (- n)).
Proof.
  intros Hn. each_below n 17%nat; vm_compute; reflexivity.
Qed.
Lemma add3_class n : - 2 ^ 15 <= n < 2 ^ 15 -> classify (true, 0x01FF0000 + n mod 2 ^ 16) = Some (P_adjust n).
Proof.
  intros Hn. unfold classify. cbn [fst snd]. pose proof (Z.mod_pos_bound n (2 ^ 16) ltac:(lia)).
  assert (is_add3_sp (0x01FF0000 + n mod 2 ^ 16) = true) as ->.
  { unfold is_add3_sp. change 0x3FFF0000 with (Z.shiftl (Z.ones 14) 16). rewrite land_field by lia.
    apply Z.eqb_eq. replace ((0x01FF0000 + n mod 2 ^ 16) / 2 ^ 16) with 0x01FF by zdml. reflexivity. }
  do 2 f_equal. unfold s16, wrap_signed. zdml.
Qed.
