(* ===== verification/Epilogue.v ===== *)
(** * Epilogues: what the machine does

    The instructions with which the compiler's functions end, and those that move the
    accumulators to and from the stack, run on the simulator: registers, accumulators and
    on-chip memory afterwards. *)
From S2P Require Import Prelude CInt Opcodes State Memory Cregs Gdb.
From S2P Require Import SimopsAlu SimopsAcc SimopsFlow SimopsMem SimopsTrap Interp Logic OpRules.
From S2P Require Import Machine Decode MemProps Effects AluSpec AccSpec FlowSpec NumSpec MemSpec Cycle Step SimTarget Prologue.

(** Registers and accumulators are as [g] and [ac] say, the memory on the chip and the mode
    of modulo addressing are as they were. *)
Record changed (s : state) (g ac : Z -> Z) (s' : state) : Prop := {
  ch_inv : inv s';
  ch_gpr : forall k, 0 <= k < 16 -> GPR s' k = g k;
  ch_acc : forall k, 0 <= k < 2 -> ACC s' k = ac k;
  ch_chip : forall b, on_chip b -> chip_word s' b = chip_word s b;
  ch_modulo : PSW_MD s' = PSW_MD s
}.
Definition set (n v : Z) (g : Z -> Z) (k : Z) : Z := if k =? n then v else g k.

Lemma ACC_write s w k : length (a s) = 2%nat -> 0 <= k ->
  match w with W_acc n _ => 0 <= n < 2 | _ => True end ->
  ACC (apply_write s w) k = match w with W_acc n v => if k =? n then v else ACC s k | _ => ACC s k end.
Proof.
  intros Ha Hk Hw. destruct w; try done. unfold ACC. simpl. apply znth_insert; [|done]. rewrite Ha. lia.
Qed.

Section Exec.
Context `{Host} (Hcalloc : forall s seg, host_calloc s seg = true).
Ltac named_func f :=
  unfold run_func; replace (so_func (simop_named f)) with (Some f) by (vm_compute; reflexivity).

Lemma exec_changed f (i : bool * Z) s m s1 ws g ac :
  first_of_its_words f = true -> inv s ->
  hash_matches i.2 (if i.1 then 1 else 0) (entry_of (simop_named f)) = true ->
  run_func (simop_named f) = m ->
  (exists t, (m ;; SLOT_FLUSH) (start_of f i s) = Ret tt (set_trace_psw t (apply_writes ws s1))) ->
  (forall b, on_chip b -> chip_word s1 b = chip_word s b) ->
  PSW_MD (apply_writes ws s1) = PSW_MD s ->
  (forall k, 0 <= k < 16 -> GPR (apply_writes ws s1) k = g k) ->
  (forall k, 0 <= k < 2 -> ACC (apply_writes ws s1) k = ac k) ->
  exists s', exec_insn i s = Ret tt s' /\ changed s g ac s'.
Proof.
  intros Hf Hs Hm Er [t Et] Hc Hmd Hg Ha. destruct (exec_found f i s Hf Hs Hm) as [Ee Hi].
  rewrite Er in Ee. rewrite Et in Ee. exists (set_trace_psw t (apply_writes ws s1)).
  split; [exact Ee|]. split; [exact (exec_inv f i s _ Hf Hs Hm Ee)|exact Hg|exact Ha| |exact Hmd].
  intros b Hb. change (chip_word (apply_writes ws s1) b = chip_word s b). rewrite chip_word_writes. by apply Hc.
Qed.

(** ** Loads from the stack *)

Lemma RW_chip a s : inv s -> on_chip a -> exists s1, RW a s = Ret (chip_word s a) s1 /\ inv s1 /\ frame s s1 /\
  OP s1 = OP s /\ (forall b, on_chip b -> chip_word s1 b = chip_word s b).
Proof.
  intros Hs Ha. pose proof Ha as [Ha0 Ha1].
  destruct (RW_run a s (proj1 Hs) Hcalloc) as (s1 & E & Hm).
  { rewrite translate_chip by done. apply bytes_in_dmem; [apply Hs|lia|lia]. }
  rewrite translate_chip in E by done. destruct (access_frame _ _ _ _ (runs_RW a) Hs E) as [Hs1 Hf].
  exists s1. split; [exact E|split; [exact Hs1|split; [exact Hf|split; [exact (op_kept_RW _ _ _ _ E)|]]]].
  intros b Hb. unfold chip_word, word_at, byte_at. by rewrite !(proj1 Hm).
Qed.
Lemma op_kept_RLW addr : op_kept (RLW addr).
Proof.
  apply op_kept_bind; [apply op_kept_dmem_addr|intros p]. unfold get_longword.
  repeat first [apply op_kept_load | apply op_kept_ret | apply op_kept_bind; [|intros ?]].
Qed.
Lemma chip_byte_range s a i : wf s -> 0 <= a + i < 0x8000 -> 0 <= byte_at s (P_dmem a) i < 2 ^ 8.
Proof.
  intros Hs Ha. pose proof (proj2 (chip_byte s (a + i) Hs Ha)) as Hb. unfold byte_at in *.
  rewrite ptr_add_0 in Hb. exact Hb.
Qed.
Lemma RLW_chip a s : inv s -> on_chip a -> on_chip (a + 2) ->
  exists s1, RLW a s = Ret (chip_word s a * 2 ^ 16 + chip_word s (a + 2)) s1 /\ inv s1 /\ frame s s1 /\
  OP s1 = OP s /\ (forall b, on_chip b -> chip_word s1 b = chip_word s b).
Proof.
  intros Hs Ha Ha2. pose proof Ha as [Ha0 Ha1]. destruct Ha2 as [_ Ha2].
  destruct (dmem_addr_spec_run a s (proj1 Hs) Hcalloc) as (s1 & E & _ & Hm & _).
  rewrite translate_chip in E by done.
  assert (bytes_in s1 (P_dmem a) 4) as Hin.
  { intros i Hi. apply (same_memory_ok s s1); [done|]. exact (bytes_in_dmem s a 4 (proj1 Hs) ltac:(lia) ltac:(lia) i Hi). }
  assert (RLW a s = Ret (chip_word s a * 2 ^ 16 + chip_word s (a + 2)) s1) as Er.
  { unfold RLW, bind. rewrite E, get_longword_ok by done. f_equal.
    assert (forall i, byte_at s1 (P_dmem a) i = byte_at s (P_dmem a) i) as Eb by (intros i; unfold byte_at; by rewrite (proj1 Hm)).
    rewrite !Eb. unfold chip_word, word_at.
    assert (forall i, byte_at s (P_dmem (a + 2)) i = byte_at s (P_dmem a) (2 + i)) as E2.
    { intros i. unfold byte_at. cbn [ptr_add]. by rewrite Z.add_assoc. }
    rewrite !E2. change (2 + 0) with 2. change (2 + 1) with 3.
    pose proof (chip_byte_range s a 0 (proj1 Hs) ltac:(lia)). pose proof (chip_byte_range s a 1 (proj1 Hs) ltac:(lia)).
    pose proof (chip_byte_range s a 2 (proj1 Hs) ltac:(lia)). pose proof (chip_byte_range s a 3 (proj1 Hs) ltac:(lia)).
    rewrite !Z.shiftl_mul_pow2 by lia. rewrite !u16_small, u32_small by lia. lia. }
  destruct (access_frame _ _ _ _ (runs_RLW a) Hs Er) as [Hs1 Hf].
  exists s1. split; [exact Er|split; [exact Hs1|split; [exact Hf|split; [exact (op_kept_RLW _ _ _ _ Er)|]]]].
  intros b Hb. unfold chip_word, word_at, byte_at. by rewrite !(proj1 Hm).
Qed.

(** The register written, and the stack pointer *)
Lemma pop_effects s n v bytes : inv s -> op s 1 = 15 -> op s 0 = n -> PSW_MD s = false -> 0 <= v < 2 ^ 16 ->
  effects (SET_GPR (op s 0) v ;; s <- get ;; INC_ADDR (op s 1) bytes) s s
    [W_reg n v; W_reg 15 ((GPR s 15 + bytes) mod 2 ^ 16)].
Proof.
  intros Hs E1 E0 Hmd Hv. unfold INC_ADDR. effects_tac Hs; [|eapply pend_eq; [eassumption|done|]];
    unfold_reads; rewrite ?E1, ?E0 in *.
  - match goal with Hc : _ && _ = true |- _ => apply andb_prop in Hc as [Hc _]; congruence end.
  - by rewrite u16_small by done.
Qed.
Lemma pop_pair_effects s n v w bytes : inv s -> op s 1 = 15 -> op s 0 = n -> PSW_MD s = false ->
  0 <= v < 2 ^ 16 -> 0 <= w < 2 ^ 16 ->
  effects (SET_GPR32 (op s 0) (s32 (v * 2 ^ 16 + w)) ;; s <- get ;; INC_ADDR (op s 1) bytes) s s
    [W_reg n v; W_reg (n + 1) w; W_reg 15 ((GPR s 15 + bytes) mod 2 ^ 16)].
Proof.
  intros Hs E1 E0 Hmd Hv Hw. unfold INC_ADDR. effects_tac Hs; [|eapply pend_eq; [eassumption|done|]];
    unfold_reads; rewrite ?E1, ?E0 in *.
  - match goal with Hc : _ && _ = true |- _ => apply andb_prop in Hc as [Hc _]; congruence end.
  - rewrite u16_shiftr_s32, u16_s32, Z.add_0_r, Z.shiftr_div_pow2 by lia.
    replace (u16 ((v * 2 ^ 16 + w) / 2 ^ 16)) with v by (unfold u16; zdml).
    replace (u16 (v * 2 ^ 16 + w)) with w by (unfold u16; zdml). done.
Qed.

(** ** Writes of registers *)

Lemma GPR_one s n v k : sized s -> 0 <= n < 16 -> 0 <= k -> GPR (apply_writes [W_reg n v] s) k = set n v (GPR s) k.
Proof. intros Hz Hn Hk. unfold apply_writes. cbn [fold_left]. by rewrite GPR_write by (done || lia). Qed.
Lemma GPR_two s n v m w k : sized s -> 0 <= n < 16 -> 0 <= m < 16 -> 0 <= k ->
  GPR (apply_writes [W_reg n v; W_reg m w] s) k = set m w (set n v (GPR s)) k.
Proof.
  intros Hz Hn Hm Hk. unfold apply_writes. cbn [fold_left].
  rewrite GPR_write by (first [apply sized_write; exact Hz | done | lia]). unfold set.
  destruct (k =? m); [done|]. by rewrite GPR_write by (done || lia).
Qed.
Lemma GPR_three s n v m w q x k : sized s -> 0 <= n < 16 -> 0 <= m < 16 -> 0 <= q < 16 -> 0 <= k ->
  GPR (apply_writes [W_reg n v; W_reg m w; W_reg q x] s) k = set q x (set m w (set n v (GPR s))) k.
Proof.
  intros Hz Hn Hm Hq Hk. change [W_reg n v; W_reg m w; W_reg q x] with ([W_reg n v; W_reg m w] ++ [W_reg q x]).
  rewrite apply_writes_app. unfold apply_writes at 1. cbn [fold_left].
  rewrite GPR_write by (first [unfold apply_writes; cbn [fold_left]; do 2 apply sized_write; exact Hz | done | lia]).
  unfold set at 1. destruct (k =? q); [done|]. by apply GPR_two.
Qed.
Lemma sp_range s : inv s -> 0 <= GPR s 15 < 2 ^ 16.
Proof. intros Hs. apply (wf_znth_regs s (proj1 Hs) 15). Qed.

(** [ld rn, @sp+] *)
Lemma pop_does ins s : Z.land ins 0x7E1F = 0x601F -> inv s -> PSW_MD s = false -> on_chip (GPR s 15) ->
  exists s', exec_insn (false, ins) s = Ret tt s' /\
    changed s (set 15 ((GPR s 15 + 2) mod 2 ^ 16) (set (reg_field ins) (chip_word s (GPR s 15)) (GPR s))) (ACC s) s'.
Proof.
  intros Hi Hs Hmd Ha.
  assert (hash_matches ins 0 (entry_of (simop_named 0x6001)) = true) as Hm
    by (apply (pattern_matches ins 0x7E1F 0x601F); [done|vm_compute; reflexivity..]).
  assert (first_of_its_words 0x6001 = true) as Hf by (vm_compute; reflexivity).
  pose proof (proj2 (exec_found 0x6001 (false, ins) s Hf Hs Hm)) as Hi0.
  destruct (short_operands 0x6001 ins s [5; 4; 262180; 1; 4; 262176]) as [E0 E1];
    [vm_compute; reflexivity..| |]; [exact (pattern_field ins 0x7E1F 0x601F 1 4 Hi ltac:(lia) ltac:(lia) eq_refl)|].
  set (st := start_of 0x6001 (false, ins) s) in *.
  assert (0 <= reg_field ins < 16) as Hn by apply Z.mod_pos_bound, eq_refl.
  destruct (RW_chip (GPR st 15) st Hi0 Ha) as (s1 & E & Hs1 & Hfr & Eo & Hc).
  pose proof (wf_sized s1 (proj1 Hs1)) as Hz.
  assert (op s1 0 = reg_field ins /\ op s1 1 = 15) as [F0 F1]
    by (rewrite <- E0, <- E1; unfold op; rewrite Eo; split; reflexivity).
  pose proof (pop_effects s1 (reg_field ins) (chip_word st (GPR st 15)) 2 Hs1 F1 F0) as He.
  rewrite (frame_GPR st s1 15 Hfr) in He.
  apply (exec_changed 0x6001 (false, ins) s OP_6001 s1
    [W_reg (reg_field ins) (chip_word s (GPR s 15)); W_reg 15 ((GPR s 15 + 2) mod 2 ^ 16)]).
  - exact Hf.
  - exact Hs.
  - exact Hm.
  - by named_func 0x6001.
  - fold st. destruct He as [t Et]; [unfold PSW_MD; by rewrite (frame_psw_bit st s1)|apply chip_word_range|].
    exists t. refine (eq_trans _ Et). unfold OP_6001. unfold bind at 1 2, get at 1. rewrite E1.
    unfold bind at 1. rewrite E. reflexivity.
  - intros b Hb. by rewrite Hc.
  - change (PSW_MD s1 = PSW_MD s). unfold PSW_MD. by rewrite (frame_psw_bit st s1).
  - intros k Hk. rewrite GPR_two by (first [exact Hz | lia]). unfold set. by rewrite (frame_GPR st s1).
  - intros k Hk. rewrite ACC_writes by done. unfold ACC. by rewrite (fr_acc _ _ Hfr).
Qed.

(** [ld2w rn, @sp+] *)
Lemma pop_pair_does ins s : Z.land ins 0x7E3F = 0x621F -> inv s -> PSW_MD s = false ->
  on_chip (GPR s 15) -> on_chip (GPR s 15 + 2) ->
  exists s', exec_insn (false, ins) s = Ret tt s' /\
    changed s (set 15 ((GPR s 15 + 4) mod 2 ^ 16) (set (reg_field ins + 1) (chip_word s (GPR s 15 + 2))
                 (set (reg_field ins) (chip_word s (GPR s 15)) (GPR s)))) (ACC s) s'.
Proof.
  intros Hi Hs Hmd Ha Ha2.
  assert (hash_matches ins 0 (entry_of (simop_named 0x6201)) = true) as Hm
    by (apply (pattern_matches ins 0x7E3F 0x621F); [done|vm_compute; reflexivity..]).
  assert (first_of_its_words 0x6201 = true) as Hf by (vm_compute; reflexivity).
  pose proof (proj2 (exec_found 0x6201 (false, ins) s Hf Hs Hm)) as Hi0.
  destruct (short_operands 0x6201 ins s [5; 4; 262181; 1; 4; 262176]) as [E0 E1];
    [vm_compute; reflexivity..| |]; [exact (pattern_field ins 0x7E3F 0x621F 1 4 Hi ltac:(lia) ltac:(lia) eq_refl)|].
  assert (0 <= reg_field ins < 15) as Hn by (apply (pair_field ins 5 0x7E3F 0x621F); [exact Hi|lia|reflexivity..]).
  set (st := start_of 0x6201 (false, ins) s) in *.
  destruct (RLW_chip (GPR st 15) st Hi0 Ha Ha2) as (s1 & E & Hs1 & Hfr & Eo & Hc).
  pose proof (wf_sized s1 (proj1 Hs1)) as Hz.
  assert (op s1 0 = reg_field ins /\ op s1 1 = 15) as [F0 F1]
    by (rewrite <- E0, <- E1; unfold op; rewrite Eo; split; reflexivity).
  pose proof (pop_pair_effects s1 (reg_field ins) (chip_word st (GPR st 15)) (chip_word st (GPR st 15 + 2)) 4 Hs1 F1 F0) as He.
  rewrite (frame_GPR st s1 15 Hfr) in He.
  apply (exec_changed 0x6201 (false, ins) s OP_6201 s1
    [W_reg (reg_field ins) (chip_word s (GPR s 15)); W_reg (reg_field ins + 1) (chip_word s (GPR s 15 + 2));
     W_reg 15 ((GPR s 15 + 4) mod 2 ^ 16)]).
  - exact Hf.
  - exact Hs.
  - exact Hm.
  - by named_func 0x6201.
  - fold st. destruct He as [t Et]; [unfold PSW_MD; by rewrite (frame_psw_bit st s1)|apply chip_word_range..|].
    exists t. refine (eq_trans _ Et). unfold OP_6201. unfold bind at 1 2, get at 1. rewrite E1. cbv zeta.
    rewrite GPR_u16 by exact Hi0. unfold bind at 1. rewrite E. reflexivity.
  - intros b Hb. by rewrite Hc.
  - change (PSW_MD s1 = PSW_MD s). unfold PSW_MD. by rewrite (frame_psw_bit st s1).
  - intros k Hk. rewrite GPR_three by (first [exact Hz | lia]). unfold set. by rewrite (frame_GPR st s1).
  - intros k Hk. rewrite ACC_writes by done. unfold ACC. by rewrite (fr_acc _ _ Hfr).
Qed.

(** ** The stack pointer *)

(** A row of a table *)
Lemma Forall_row {A} (P : A -> Prop) l k x : Forall P l -> nth_error l k = Some x -> P x.
Proof. intros Hl Hk. rewrite List.Forall_forall in Hl. by eapply Hl, nth_error_In. Qed.

Lemma GPR_flag_two s b n v k : sized s -> 0 <= n < 16 -> 0 <= k ->
  GPR (apply_writes [W_flag PSW_C_BIT b; W_reg n v] s) k = set n v (GPR s) k.
Proof. intros. by apply GPR_flag_reg. Qed.

Lemma addi_queues s : inv s ->
  queues OP_201 s (with_imm16 s) [W_flag PSW_C_BIT (2 ^ 16 <=? rA s + imm16 s); W_reg (rD s) ((rA s + imm16 s) mod 2 ^ 16)].
Proof. intros Hs. row Hs. Qed.
(** [addi sp, n] *)
Lemma addi_does ins s : Z.land ins 0x7FE1 = 0x03E1 -> inv s ->
  exists s', exec_insn (false, ins) s = Ret tt s' /\
    changed s (set 15 ((GPR s 15 + sub_amount ins) mod 2 ^ 16) (GPR s)) (ACC s) s'.
Proof.
  intros Hop Hs.
  assert (hash_matches ins 0 (entry_of (simop_named 0x201)) = true) as Hm
    by (apply (pattern_matches ins 0x7FE1 0x03E1); [done|vm_compute; reflexivity..]).
  assert (first_of_its_words 0x201 = true) as Hf by (vm_compute; reflexivity).
  pose proof (proj2 (exec_found 0x201 (false, ins) s Hf Hs Hm)) as Hst. set (st := start_of 0x201 (false, ins) s) in *.
  assert (op st 0 = 15) as E0.
  { unfold st. rewrite (op_start 0x201 _ s 0 2 [5; 4; 262180; 1; 4; 131080]) by (first [lia | vm_compute; reflexivity]).
    exact (pattern_field ins 0x7FE1 0x03E1 5 4 Hop ltac:(lia) ltac:(lia) eq_refl). }
  assert (op st 1 = (ins / 2 ^ 1) mod 2 ^ 4) as E1.
  { unfold st. by rewrite (op_start 0x201 _ s 1 2 [5; 4; 262180; 1; 4; 131080]) by (first [lia | vm_compute; reflexivity]). }
  assert (rA st = GPR s 15) as EA by (unfold rA; rewrite E0; done).
  assert (imm16 st = sub_amount ins) as Ei by (unfold imm16, sub_amount; by rewrite E1).
  destruct (with_imm16_keeps st Hst) as (Hi & Ki & Kg & Ka & Kc).
  apply (exec_changed 0x201 (false, ins) s OP_201 (with_imm16 st)
           [W_flag PSW_C_BIT (2 ^ 16 <=? rA st + imm16 st); W_reg (rD st) ((rA st + imm16 st) mod 2 ^ 16)]).
  - exact Hf.
  - exact Hs.
  - exact Hm.
  - by named_func 0x201.
  - apply issues_effects, queues_issues; [by apply addi_queues|apply Hst].
  - intros b _. rewrite Kc. apply chip_start.
  - rewrite (proj2 (md_flag _ _ [W_reg (rD st) _] Hi eq_refl)), Ki. reflexivity.
  - intros k Hk. rewrite GPR_flag_two by (first [apply wf_sized, Hi | unfold rD; rewrite E0; lia | lia]).
    unfold rD, set. rewrite E0, EA, Ei, Kg. reflexivity.
  - intros k Hk. rewrite ACC_writes by reflexivity. rewrite Ka. reflexivity.
Qed.

(** [add3 sp, rN, n] *)
Lemma add3_sp_does n src s : - 2 ^ 15 <= n < 2 ^ 15 -> 0 <= src < 16 -> inv s ->
  exists s', exec_insn (true, 0x01F00000 + src * 2 ^ 16 + n mod 2 ^ 16) s = Ret tt s' /\
    changed s (set 15 ((GPR s src + n) mod 2 ^ 16) (GPR s)) (ACC s) s'.
Proof.
  intros Hn Hsrc Hs. pose proof (Z.mod_pos_bound n (2 ^ 16) ltac:(lia)) as Hm16. set (m := n mod 2 ^ 16) in *.
  set (ins := 0x01F00000 + src * 2 ^ 16 + m).
  assert (Z.land ins 0x3FF00000 = 0x01F00000) as Hop.
  { change 0x3FF00000 with (Z.shiftl (Z.ones 10) 20). rewrite land_field by lia.
    replace (ins / 2 ^ 20) with 0x1F by (unfold ins; zdml). reflexivity. }
  assert (hash_matches ins 1 (entry_of (simop_named 0x1000000)) = true) as Hm
    by (apply (pattern_matches ins 0x3FF00000 0x01F00000); [done|vm_compute; reflexivity..]).
  assert (first_of_its_words 0x1000000 = true) as Hf by (vm_compute; reflexivity).
  pose proof (proj2 (exec_found 0x1000000 (true, ins) s Hf Hs Hm)) as Hst.
  set (st := start_of 0x1000000 (true, ins) s) in *.
  set (l := [20; 4; 262180; 16; 4; 262176; 0; 16; 65544]).
  assert (forall k, 0 <= k <= 2 -> op st k = (ins / 2 ^ znth l (3 * k)) mod 2 ^ znth l (3 * k + 1)) as Eop.
  { intros k Hk. unfold st. apply (op_start 0x1000000 (true, ins) s k 3 l); [vm_compute; reflexivity..|lia|lia]. }
  assert (rD st = 15) as ED.
  { unfold rD. rewrite Eop by lia. change ((ins / 2 ^ 20) mod 2 ^ 4 = 15). unfold ins. zdml. }
  assert (rB st = GPR s src) as EB.
  { unfold rB. rewrite Eop by lia. change (GPR s ((ins / 2 ^ 16) mod 2 ^ 4) = GPR s src). f_equal. unfold ins. zdml. }
  assert (imm st 2 = m) as Ei.
  { unfold imm. rewrite Eop by lia. change ((ins / 2 ^ 0) mod 2 ^ 16 = m). unfold ins. zdml. }
  eapply (exec_changed 0x1000000 (true, ins) s OP_1000000 st [W_flag PSW_C_BIT _; W_reg (rD st) _]).
  - exact Hf.
  - exact Hs.
  - exact Hm.
  - by named_func 0x1000000.
  - apply issues_effects, add3_issues, Hst.
  - intros b _. apply chip_start.
  - exact (proj2 (md_flag _ _ [W_reg (rD st) _] Hst eq_refl)).
  - intros k Hk. rewrite GPR_flag_two by (first [apply wf_sized, Hst | rewrite ED; lia | lia]).
    unfold set. rewrite ED, EB, Ei. destruct (k =? 15); [unfold m; zdml|done].
  - intros k Hk. by rewrite ACC_writes.
Qed.

(** [mv sp, r11] *)
Lemma mv_sp_does s : inv s -> exists s', exec_insn (false, 0x41F6) s = Ret tt s' /\
  changed s (set 15 (GPR s 11) (GPR s)) (ACC s) s'.
Proof.
  intros Hs. set (i := (false, 0x41F6)).
  assert (hash_matches i.2 0 (entry_of (simop_named 0x4000)) = true) as Hm by (vm_compute; reflexivity).
  assert (first_of_its_words 0x4000 = true) as Hf by (vm_compute; reflexivity).
  pose proof (proj2 (exec_found 0x4000 i s Hf Hs Hm)) as Hst. set (st := start_of 0x4000 i s) in *.
  set (l := [5; 4; 262180; 1; 4; 262176]).
  assert (op st 0 = 15) as E0
    by (unfold st; rewrite (op_start 0x4000 _ s 0 2 l) by (first [lia | vm_compute; reflexivity]); reflexivity).
  assert (op st 1 = 11) as E1
    by (unfold st; rewrite (op_start 0x4000 _ s 1 2 l) by (first [lia | vm_compute; reflexivity]); reflexivity).
  apply (exec_changed 0x4000 i s OP_4000 st [W_reg (rD st) (rB st)]).
  - exact Hf.
  - exact Hs.
  - exact Hm.
  - by named_func 0x4000.
  - apply issues_effects, queues_issues; [by apply mv_row|apply Hst].
  - intros b _. apply chip_start.
  - exact (proj1 (md_flag _ false [W_reg (rD st) _] Hst eq_refl)).
  - intros k Hk. rewrite GPR_one by (first [apply wf_sized, Hst | unfold rD; rewrite E0; lia | lia]).
    unfold rD, rB, set. rewrite E0, E1. done.
  - intros k Hk. by rewrite ACC_writes.
Qed.

(** ** Accumulators *)

Definition acc_insn (f r n : Z) : bool * Z := (false, encode (simop_named f) [r; n]).
Lemma acc_insn_found f r n s : inv s -> first_of_its_words f = true ->
  (so_numops (simop_named f) =? 2) = true ->
  hash_matches (acc_insn f r n).2 0 (entry_of (simop_named f)) &&
  (let l := so_operands (simop_named f) in let x := (acc_insn f r n).2 in
   ((x / 2 ^ znth l 0) mod 2 ^ znth l 1 =? r) && ((x / 2 ^ znth l 3) mod 2 ^ znth l 4 =? n)) = true ->
  let st := start_of f (acc_insn f r n) s in
  hash_matches (acc_insn f r n).2 0 (entry_of (simop_named f)) = true /\ inv st /\ op st 0 = r /\ op st 1 = n.
Proof.
  intros Hs Hf Hn%Z.eqb_eq [Hm [H0%Z.eqb_eq H1%Z.eqb_eq]%andb_prop]%andb_prop st.
  split; [exact Hm|]. split; [exact (proj2 (exec_found f (acc_insn f r n) s Hf Hs Hm))|].
  unfold st. rewrite !(op_start f (acc_insn f r n) s _ 2 _ Hn eq_refl) by lia. split; [exact H0|exact H1].
Qed.
(** [mvfacg r5, aN], [mv2wfac r12, aN], [mv2wtac r12, aN] and [mvtacg r5, aN] *)
Lemma mvfacg_does n s : n = 0 \/ n = 1 -> inv s ->
  exists s', exec_insn (acc_insn 0x1E04 5 n) s = Ret tt s' /\
    changed s (set 5 (ACC s n / 2 ^ 32) (GPR s)) (ACC s) s'.
Proof.
  intros Hn Hs. assert (first_of_its_words 0x1E04 = true) as Hf by (vm_compute; reflexivity).
  destruct (acc_insn_found 0x1E04 5 n s Hs Hf) as (Hm & Hst & E0 & E1);
    [vm_compute; reflexivity|destruct Hn as [-> | ->]; vm_compute; reflexivity|].
  set (st := start_of 0x1E04 (acc_insn 0x1E04 5 n) s) in *.
  pose proof (Forall_row _ _ 42 _ acc_queues eq_refl st Hst ltac:(lia)) as Hq. cbn [fst snd] in Hq.
  apply (exec_changed 0x1E04 _ s OP_1E04 st [W_reg (op st 0) (ACC st (op st 1) / 2 ^ 32)]).
  - exact Hf.
  - exact Hs.
  - exact Hm.
  - by named_func 0x1E04.
  - apply issues_effects, queues_issues; [exact Hq|apply Hst].
  - intros b _. apply chip_start.
  - exact (proj1 (md_flag _ false [W_reg (op st 0) _] Hst eq_refl)).
  - intros k Hk. rewrite GPR_one by (first [apply wf_sized, Hst | rewrite E0; lia | lia]). by rewrite E0, E1.
  - intros k Hk. by rewrite ACC_writes.
Qed.
Lemma mv2wfac_does n s : n = 0 \/ n = 1 -> inv s ->
  exists s', exec_insn (acc_insn 0x3E00 12 n) s = Ret tt s' /\
    changed s (set 13 (ACC s n mod 2 ^ 16) (set 12 (ACC s n / 2 ^ 16 mod 2 ^ 16) (GPR s))) (ACC s) s'.
Proof.
  intros Hn Hs. assert (first_of_its_words 0x3E00 = true) as Hf by (vm_compute; reflexivity).
  destruct (acc_insn_found 0x3E00 12 n s Hs Hf) as (Hm & Hst & E0 & E1);
    [vm_compute; reflexivity|destruct Hn as [-> | ->]; vm_compute; reflexivity|].
  set (st := start_of 0x3E00 (acc_insn 0x3E00 12 n) s) in *.
  pose proof (Forall_row _ _ 39 _ acc_queues eq_refl st Hst ltac:(lia)) as Hq. cbn [fst snd] in Hq.
  apply (exec_changed 0x3E00 _ s OP_3E00 st (to_pair st (ACC st (op st 1)))).
  - exact Hf.
  - exact Hs.
  - exact Hm.
  - by named_func 0x3E00.
  - apply issues_effects, queues_issues; [exact Hq|apply Hst].
  - intros b _. apply chip_start.
  - exact (proj1 (md_flag _ false (to_pair st _) Hst eq_refl)).
  - intros k Hk. unfold to_pair, rD. rewrite E0, E1.
    by rewrite GPR_two by (first [apply wf_sized, Hst | lia]).
  - intros k Hk. by rewrite ACC_writes.
Qed.
Lemma acc_written s n v : wf s -> 0 <= n < 2 -> forall k, 0 <= k < 2 -> ACC (apply_writes [W_acc n v] s) k = set n v (ACC s) k.
Proof.
  intros Hs Hn k Hk. unfold apply_writes. cbn [fold_left]. by rewrite ACC_write by (first [apply Hs | lia]).
Qed.
Lemma mv2wtac_does n s : n = 0 \/ n = 1 -> inv s ->
  exists s', exec_insn (acc_insn 0x3E01 12 n) s = Ret tt s' /\
    changed s (GPR s) (set n (spair s 12 mod 2 ^ 40) (ACC s)) s'.
Proof.
  intros Hn Hs. assert (first_of_its_words 0x3E01 = true) as Hf by (vm_compute; reflexivity).
  destruct (acc_insn_found 0x3E01 12 n s Hs Hf) as (Hm & Hst & E0 & E1);
    [vm_compute; reflexivity|destruct Hn as [-> | ->]; vm_compute; reflexivity|].
  set (st := start_of 0x3E01 (acc_insn 0x3E01 12 n) s) in *.
  pose proof (Forall_row _ _ 40 _ acc_queues eq_refl st Hst ltac:(lia)) as Hq. cbn [fst snd] in Hq.
  apply (exec_changed 0x3E01 _ s OP_3E01 st [W_acc (op st 1) (spair st (op st 0) mod 2 ^ 40)]).
  - exact Hf.
  - exact Hs.
  - exact Hm.
  - by named_func 0x3E01.
  - apply issues_effects, queues_issues; [exact Hq|apply Hst].
  - intros b _. apply chip_start.
  - exact (proj1 (md_flag _ false [W_acc (op st 1) _] Hst eq_refl)).
  - done.
  - intros k Hk. rewrite acc_written by (first [apply Hst | rewrite E1; lia | lia]). by rewrite E0, E1.
Qed.
Lemma mvtacg_does n s : n = 0 \/ n = 1 -> inv s ->
  exists s', exec_insn (acc_insn 0x1E41 5 n) s = Ret tt s' /\
    changed s (GPR s) (set n (ACC s n mod 2 ^ 32 + GPR s 5 mod 2 ^ 8 * 2 ^ 32) (ACC s)) s'.
Proof.
  intros Hn Hs. assert (first_of_its_words 0x1E41 = true) as Hf by (vm_compute; reflexivity).
  destruct (acc_insn_found 0x1E41 5 n s Hs Hf) as (Hm & Hst & E0 & E1);
    [vm_compute; reflexivity|destruct Hn as [-> | ->]; vm_compute; reflexivity|].
  set (st := start_of 0x1E41 (acc_insn 0x1E41 5 n) s) in *.
  pose proof (Forall_row _ _ 45 _ acc_queues eq_refl st Hst ltac:(lia)) as Hq. cbn [fst snd] in Hq.
  apply (exec_changed 0x1E41 _ s OP_1E41 st
    [W_acc (op st 1) (ACC st (op st 1) mod 2 ^ 32 + GPR st (op st 0) mod 2 ^ 8 * 2 ^ 32)]).
  - exact Hf.
  - exact Hs.
  - exact Hm.
  - by named_func 0x1E41.
  - apply issues_effects, queues_issues; [exact Hq|apply Hst].
  - intros b _. apply chip_start.
  - exact (proj1 (md_flag _ false [W_acc (op st 1) _] Hst eq_refl)).
  - done.
  - intros k Hk. rewrite acc_written by (first [apply Hst | rewrite E1; lia | lia]). by rewrite E0, E1.
Qed.

(** ** The return *)

Lemma jmp_row s : inv s -> issues OP_4C00 s (jump s) (to (GPR s (op s 0))).
Proof. intros Hs. flow_row s Hs. Qed.

(** [jmp r13] *)
Lemma jmp_does s : inv s -> exists s', exec_insn (false, 0x4C1A) s = Ret tt s' /\ inv s' /\
  CREG s' PC_CR = GPR s 13 /\ (forall k, 0 <= k < 16 -> GPR s' k = GPR s k) /\
  (forall k, ACC s' k = ACC s k) /\ (forall b, on_chip b -> chip_word s' b = chip_word s b).
Proof.
  intros Hs. set (i := (false, 0x4C1A)).
  assert (hash_matches i.2 0 (entry_of (simop_named 0x4c00)) = true) as Hm by (vm_compute; reflexivity).
  assert (first_of_its_words 0x4c00 = true) as Hf by (vm_compute; reflexivity).
  destruct (exec_found 0x4c00 i s Hf Hs Hm) as [Ee Hst]. set (st := start_of 0x4c00 i s) in *.
  assert (op st 0 = 13) as E0.
  { unfold st. rewrite (op_start 0x4c00 _ s 0 1 [1; 4; 262176]) by (first [lia | vm_compute; reflexivity]). reflexivity. }
  assert (issues OP_4C00 st (set_pc_changed 1 st) [W_creg PC_CR (GPR s 13 mod 2 ^ 16)]) as Hq.
  { pose proof (jmp_row st Hst) as Hq. unfold to in Hq. rewrite E0 in Hq. exact Hq. }
  destruct (issues_effects _ _ _ _ Hq) as [t Et].
  assert (run_func (simop_named 0x4c00) = OP_4C00) as Er by (by named_func 0x4c00). rewrite Er in Ee.
  set (s1 := apply_writes [W_creg PC_CR (GPR s 13 mod 2 ^ 16)] (set_pc_changed 1 st)) in *.
  exists (set_trace_psw t s1). assert (exec_insn i s = Ret tt (set_trace_psw t s1)) as E by (rewrite Ee; exact Et).
  split; [exact E|]. split; [exact (exec_inv 0x4c00 i s _ Hf Hs Hm E)|]. split; [|split; [done|split; [done|]]].
  - change (CREG s1 PC_CR = GPR s 13). unfold s1, apply_writes. cbn [fold_left].
    rewrite CREG_write by (first [exact (wf_sized st (proj1 Hst)) | unfold PC_CR; lia]). rewrite Z.eqb_refl.
    apply Z.mod_small, (wf_znth_regs s (proj1 Hs) 13).
  - intros b _. reflexivity.
Qed.
End Exec.
