(* ===== verification/Saving.v ===== *)
(** * Saving and restoring registers on the stack

    The sequences with which the compiler's functions save registers and accumulators and
    restore them, and that restoring gives back what was saved. *)
From S2P Require Import Prelude CInt Opcodes State Memory Cregs Gdb.
From S2P Require Import SimopsAlu SimopsAcc SimopsFlow SimopsMem SimopsTrap Interp Logic OpRules.
From S2P Require Import Machine Decode MemProps Effects AluSpec AccSpec FlowSpec NumSpec MemSpec Cycle Step SimTarget Prologue Epilogue.

(** What is saved in one go: a register, a register pair, an accumulator *)
Inductive saved := S_reg (n : Z) | S_pair (n : Z) | S_acc (n : Z).
Definition saved_ok (k : saved) : Prop :=
  match k with S_reg n => 0 <= n < 15 | S_pair n => 0 <= n < 14 /\ Z.land n 1 = 0 | S_acc n => n = 0 \/ n = 1 end.
Definition is_acc (k : saved) : bool := match k with S_acc _ => true | _ => false end.
Definition push_reg (n : Z) : bool * Z := (false, 0x6C1F + n * 2 ^ 5).
Definition push_pair (n : Z) : bool * Z := (false, 0x6E1F + n * 2 ^ 5).
Definition pop_reg (n : Z) : bool * Z := (false, 0x601F + n * 2 ^ 5).
Definition pop_pair (n : Z) : bool * Z := (false, 0x621F + n * 2 ^ 5).
Definition save_insns (k : saved) : list (bool * Z) :=
  match k with
  | S_reg n => [push_reg n]
  | S_pair n => [push_pair n]
  | S_acc n => [acc_insn 0x1E04 5 n; acc_insn 0x3E00 12 n; push_reg 5; push_pair 12]
  end.
Definition restore_insns (k : saved) : list (bool * Z) :=
  match k with
  | S_reg n => [pop_reg n]
  | S_pair n => [pop_pair n]
  | S_acc n => [pop_pair 12; pop_reg 5; acc_insn 0x3E01 12 n; acc_insn 0x1E41 5 n]
  end.
(** The words on the stack, from the lowest address on *)
Definition words (g ac : Z -> Z) (k : saved) : list Z :=
  match k with
  | S_reg n => [g n]
  | S_pair n => [g n; g (n + 1)]
  | S_acc n => [ac n / 2 ^ 16 mod 2 ^ 16; ac n mod 2 ^ 16; ac n / 2 ^ 32]
  end.
Definition bytes_of (k : saved) : Z := match k with S_reg _ => 2 | S_pair _ => 4 | S_acc _ => 6 end.
Definition total_of (l : list saved) : Z := fold_right (fun k n => bytes_of k + n) 0 l.

Definition holds (s : state) (a : Z) (ws : list Z) : Prop :=
  forall i v, ws !! i = Some v -> chip_word s (a + 2 * Z.of_nat i) = v.
Lemma holds_app s a l1 l2 : holds s a (l1 ++ l2) <-> holds s a l1 /\ holds s (a + 2 * Z.of_nat (length l1)) l2.
Proof.
  split.
  - intros Hh. split.
    + intros i v Hi. apply Hh. by apply lookup_app_l_Some.
    + intros i v Hi. rewrite <- (Hh (length l1 + i)%nat v).
      * f_equal. lia.
      * rewrite lookup_app_r by lia. by replace (length l1 + i - length l1)%nat with i by lia.
  - intros [H1 H2] i v Hi. apply lookup_app_Some in Hi as [Hi|[Hl Hi]]; [by apply H1|].
    rewrite <- (H2 _ v Hi). f_equal. lia.
Qed.
Lemma holds_nil s a : holds s a [].
Proof. intros i v Hi. done. Qed.
Lemma holds_cons s a v l : holds s a (v :: l) <-> chip_word s a = v /\ holds s (a + 2) l.
Proof.
  change (v :: l) with ([v] ++ l). rewrite holds_app. change (2 * Z.of_nat (length [v])) with 2. split; intros [H1 H2]; split; try done.
  - rewrite <- (H1 0%nat v eq_refl). f_equal. lia.
  - intros i w Hi. destruct i; [|done]. injection Hi as <-. rewrite <- H1. f_equal. lia.
Qed.
Lemma holds_same s s' a l : (forall i, (i < length l)%nat -> chip_word s' (a + 2 * Z.of_nat i) = chip_word s (a + 2 * Z.of_nat i)) ->
  holds s a l -> holds s' a l.
Proof. intros Hc Hh i v Hi. rewrite Hc by (by eapply lookup_lt_Some). by apply Hh. Qed.
Lemma words_length g ac k : 2 * Z.of_nat (length (words g ac k)) = bytes_of k.
Proof. by destruct k. Qed.

Section Stack.
Context `{Host} (Hcalloc : forall s seg, host_calloc s seg = true).

Lemma exec_two i1 i2 l s s1 : exec_insn i1 s = Ret tt s1 -> exec_all (i1 :: i2 :: l) s = exec_all (i2 :: l) s1.
Proof. intros E. cbn [exec_all fold_right]. unfold bind. by rewrite E. Qed.
Lemma exec_step i l s s1 : exec_insn i s = Ret tt s1 -> exec_all (i :: l) s = exec_all l s1.
Proof. intros E. cbn [exec_all fold_right]. unfold bind. by rewrite E. Qed.
Lemma exec_app l1 l2 : forall s s1, exec_all l1 s = Ret tt s1 -> exec_all (l1 ++ l2) s = exec_all l2 s1.
Proof.
  induction l1 as [|i l1 IH]; intros s s1 E.
  { by injection E as <-. }
  cbn [exec_all fold_right app] in *. unfold bind in *. destruct (exec_insn i s) as [[] s2| | |]; try done. by apply IH.
Qed.

(** The state after registers have been saved in [l], with the stack pointer at [a] before *)
Record pushed (s : state) (a : Z) (ws : list Z) (same : Z -> bool) (s' : state) : Prop := {
  pu_inv : inv s';
  pu_sp : GPR s' 15 = a - 2 * Z.of_nat (length ws);
  pu_gpr : forall n, 0 <= n < 15 -> same n = true -> GPR s' n = GPR s n;
  pu_acc : forall n, 0 <= n < 2 -> ACC s' n = ACC s n;
  pu_words : holds s' (a - 2 * Z.of_nat (length ws)) ws;
  pu_above : forall b, on_chip b -> a <= b -> chip_word s' b = chip_word s b;
  pu_modulo : PSW_MD s' = PSW_MD s
}.
Lemma push_reg_run n s : 0 <= n < 15 -> inv s -> 2 < GPR s 15 <= 0x8000 ->
  exists s', exec_insn (push_reg n) s = Ret tt s' /\ pushed s (GPR s 15) [GPR s n] (fun _ => true) s'.
Proof.
  intros Hn Hs Hsp.
  assert (Z.land (0x6C1F + n * 2 ^ 5) 0x7E1F = 0x6C1F /\ reg_field (0x6C1F + n * 2 ^ 5) = n) as [Hc Hf].
  { unfold reg_field. split; [|zdml].
    clear - Hn. each_below n 15%nat; reflexivity. }
  destruct (push_does Hcalloc _ Hc s Hs) as (s' & E & Hs' & [Hg Hst Hk Ha Hmd]).
  { constructor; [|constructor]. cbn [fst]. unfold on_chip, SP_REGNUM. lia. }
  rewrite Hf in *. exists s'. split; [exact E|]. unfold pro_gpr, SP_REGNUM in Hg. cbn [pro_stores] in Hst, Hk. unfold SP_REGNUM in *.
  split; cbn [length]; change (2 * Z.of_nat 1) with 2.
  - exact Hs'.
  - rewrite Hg by lia. change (15 =? 15) with true. cbv iota. zdml.
  - intros m Hm _. rewrite Hg by lia. by rewrite (proj2 (Z.eqb_neq m 15)) by lia.
  - intros m _. apply Ha.
  - apply holds_cons. split; [|apply holds_nil]. apply Hst. left. f_equal. lia.
  - intros b Hb Hle. apply Hk; [exact Hb|]. intros a v [[= <- <-]|[]]. unfold disjoint_words. lia.
  - exact Hmd.
Qed.
Lemma push_pair_run n s : 0 <= n < 14 -> Z.land n 1 = 0 -> inv s -> 4 < GPR s 15 <= 0x8000 ->
  exists s', exec_insn (push_pair n) s = Ret tt s' /\ pushed s (GPR s 15) [GPR s n; GPR s (n + 1)] (fun _ => true) s'.
Proof.
  intros Hn He Hs Hsp.
  assert (Z.land (0x6E1F + n * 2 ^ 5) 0x7E3F = 0x6E1F /\ reg_field (0x6E1F + n * 2 ^ 5) = n) as [Hc Hf].
  { unfold reg_field. split; [|zdml].
    clear - Hn He. each_below n 14%nat; first [discriminate He | reflexivity]. }
  destruct (push_pair_does Hcalloc _ Hc s Hs) as (s' & E & Hs' & [Hg Hst Hk Ha Hmd]).
  { unfold stores_on_chip, pro_stores, SP_REGNUM. repeat constructor; cbn [fst]; unfold on_chip; lia. }
  rewrite Hf in *. exists s'. split; [exact E|]. unfold pro_gpr, SP_REGNUM in Hg. unfold pro_stores, SP_REGNUM in Hst, Hk.
  split; cbn [length]; change (2 * Z.of_nat 2) with 4.
  - exact Hs'.
  - rewrite Hg by lia. change (15 =? 15) with true. cbv iota. zdml.
  - intros m Hm _. rewrite Hg by lia. by rewrite (proj2 (Z.eqb_neq m 15)) by lia.
  - intros m _. apply Ha.
  - apply holds_cons. split; [apply Hst; right; left; f_equal; lia|]. apply holds_cons. split; [|apply holds_nil].
    apply Hst. left. f_equal. lia.
  - intros b Hb Hle. apply Hk; [exact Hb|]. intros a v [[= <- <-]|[[= <- <-]|[]]]; unfold disjoint_words; lia.
  - exact Hmd.
Qed.

(** [mvfacg r5, aN], [mv2wfac r12, aN], [st r5, @-sp], [st2w r12, @-sp] *)
Definition not_clobbered (n : Z) : bool := negb ((n =? 5) || (n =? 12) || (n =? 13)).
Lemma pushed_then s a s1 ws1 s2 ws2 same1 same2 (same : Z -> bool) :
  pushed s a ws1 same1 s1 -> pushed s1 (GPR s1 15) ws2 same2 s2 ->
  (forall n, same n = true -> same1 n = true /\ same2 n = true) -> 0 <= GPR s1 15 -> a <= 0x8000 ->
  pushed s a (ws2 ++ ws1) same s2.
Proof.
  intros [H1 H2 H3 H4 H5 H6 H7] [K1 K2 K3 K4 K5 K6 K7] Hsame H0 Ha. rewrite H2 in *.
  split; rewrite ?length_app.
  - exact K1.
  - rewrite K2. lia.
  - intros n Hn Hs. destruct (Hsame n Hs). rewrite K3 by done. by apply H3.
  - intros n Hn. by rewrite K4, H4.
  - replace (a - 2 * Z.of_nat (length ws2 + length ws1)) with (a - 2 * Z.of_nat (length ws1) - 2 * Z.of_nat (length ws2)) by lia.
    apply holds_app. split; [exact K5|].
    replace (a - 2 * Z.of_nat (length ws1) - 2 * Z.of_nat (length ws2) + 2 * Z.of_nat (length ws2)) with (a - 2 * Z.of_nat (length ws1)) by lia.
    eapply holds_same; [|exact H5]. intros i Hi. apply K6; [unfold on_chip; lia|lia].
  - intros b Hb Hle. rewrite K6 by (done || lia). by apply H6.
  - by rewrite K7.
Qed.
Lemma set_ne n v g k : k <> n -> set n v g k = g k.
Proof. intros Hk. unfold set. by rewrite (proj2 (Z.eqb_neq k n) Hk). Qed.
Lemma set_eq n v g : set n v g n = v.
Proof. unfold set. by rewrite Z.eqb_refl. Qed.
Lemma clobbered_ne n : not_clobbered n = true -> n <> 5 /\ n <> 12 /\ n <> 13.
Proof. unfold not_clobbered. intros Hn%negb_true_iff. apply orb_false_iff in Hn as [[?%Z.eqb_neq ?%Z.eqb_neq]%orb_false_iff ?%Z.eqb_neq]. done. Qed.
Lemma push_acc_run n s : n = 0 \/ n = 1 -> inv s -> 6 < GPR s 15 <= 0x8000 ->
  exists s', exec_all (save_insns (S_acc n)) s = Ret tt s' /\ pushed s (GPR s 15) (words (GPR s) (ACC s) (S_acc n)) not_clobbered s'.
Proof.
  intros Hn Hs Hsp. assert (0 <= n < 2) as Hn2 by lia.
  destruct (mvfacg_does n s Hn Hs) as (s1 & E1 & [I1 G1 A1 C1 M1]).
  destruct (mv2wfac_does n s1 Hn I1) as (s2 & E2 & [I2 G2 A2 C2 M2]).
  assert (GPR s2 15 = GPR s 15) as Esp by (rewrite G2, !set_ne, G1, set_ne by lia; done).
  destruct (push_reg_run 5 s2) as (s3 & E3 & P3); [lia|exact I2|lia|].
  assert (GPR s3 15 = GPR s 15 - 2) as Esp3 by (rewrite (pu_sp _ _ _ _ _ P3), Esp; simpl; lia).
  destruct (push_pair_run 12 s3) as (s4 & E4 & P4); [lia|done|apply P3|lia|].
  assert (pushed s2 (GPR s2 15) (words (GPR s) (ACC s) (S_acc n)) (fun _ => true) s4) as P.
  { pose proof (pushed_then _ _ _ _ _ _ _ _ (fun _ => true) P3 P4 ltac:(intros; split; reflexivity) ltac:(lia) ltac:(lia)) as P. cbn [app] in P.
    rewrite !(pu_gpr _ _ _ _ _ P3) in P by (reflexivity || lia). cbn [words].
    assert (GPR s2 12 = ACC s n / 2 ^ 16 mod 2 ^ 16) as F12 by (rewrite G2, set_ne, set_eq, A1 by lia; done).
    assert (GPR s2 (12 + 1) = ACC s n mod 2 ^ 16) as F13 by (rewrite G2 by lia; change (12 + 1) with 13; rewrite set_eq, A1 by lia; done).
    assert (GPR s2 5 = ACC s n / 2 ^ 32) as F5 by (rewrite G2, !set_ne, G1, set_eq by lia; done).
    by rewrite F12, F13, F5 in P. }
  exists s4. split.
  - cbn [save_insns]. rewrite (exec_step _ _ _ _ E1), (exec_step _ _ _ _ E2), (exec_step _ _ _ _ E3). cbn [exec_all fold_right].
    unfold bind. by rewrite E4.
  - destruct P as [Q1 Q2 Q3 Q4 Q5 Q6 Q7]. rewrite Esp in *. split; [exact Q1|exact Q2| | |exact Q5| |by rewrite Q7, M2].
    + intros m Hm Hc. destruct (clobbered_ne m Hc) as (? & ? & ?).
      rewrite Q3, G2, !set_ne, G1, set_ne by lia. done.
    + intros m Hm. by rewrite Q4, A2, A1.
    + intros b Hb Hle. by rewrite Q6, C2, C1.
Qed.

(** One after another: registers, or accumulators *)
Definition same_of (k : saved) : Z -> bool := if is_acc k then not_clobbered else fun _ => true.
Lemma save_run k s : saved_ok k -> inv s -> bytes_of k < GPR s 15 <= 0x8000 ->
  exists s', exec_all (save_insns k) s = Ret tt s' /\ pushed s (GPR s 15) (words (GPR s) (ACC s) k) (same_of k) s'.
Proof.
  intros Hk Hs Hsp. destruct k as [n|n|n]; cbn [saved_ok bytes_of] in *.
  - destruct (push_reg_run n s Hk Hs Hsp) as (s' & E & P). exists s'. split; [|exact P].
    cbn [save_insns]. rewrite (exec_step _ _ _ _ E). reflexivity.
  - destruct (push_pair_run n s (proj1 Hk) (proj2 Hk) Hs Hsp) as (s' & E & P). exists s'. split; [|exact P].
    cbn [save_insns]. rewrite (exec_step _ _ _ _ E). reflexivity.
  - by apply push_acc_run.
Qed.
Definition all_words (g ac : Z -> Z) (l : list saved) : list Z := flat_map (words g ac) l.
Lemma all_words_length g ac l : 2 * Z.of_nat (length (all_words g ac l)) = total_of l.
Proof.
  induction l as [|k l IH]; [done|]. unfold all_words in *. cbn [flat_map total_of fold_right]. rewrite length_app.
  pose proof (words_length g ac k). unfold total_of in IH. lia.
Qed.
Lemma total_nonneg l : 0 <= total_of l.
Proof. induction l as [|k l IH]; [done|]. cbn [total_of fold_right]. fold (total_of l). destruct k; simpl; lia. Qed.
Lemma total_app l1 l2 : total_of (l1 ++ l2) = total_of l1 + total_of l2.
Proof. unfold total_of. induction l1 as [|k l1 IH]; cbn [app fold_right]; lia. Qed.
Lemma total_rev l : total_of (rev l) = total_of l.
Proof. induction l as [|k l IH]; [done|]. cbn [rev]. rewrite total_app, IH. cbn [total_of fold_right]. fold (total_of l). lia. Qed.
Lemma all_words_rev g ac k l : all_words g ac (rev (k :: l)) = all_words g ac (rev l) ++ words g ac k.
Proof. unfold all_words. cbn [rev]. rewrite flat_map_app. simpl. by rewrite app_nil_r. Qed.
Lemma words_ext g ac g' ac' k : saved_ok k -> (is_acc k = false -> forall n, 0 <= n < 15 -> g' n = g n) ->
  (forall n, 0 <= n < 2 -> ac' n = ac n) -> words g' ac' k = words g ac k.
Proof.
  destruct k as [n|n|n]; intros Hk Hg Ha; cbn [words saved_ok is_acc] in *.
  - by rewrite Hg by (done || lia).
  - by rewrite !Hg by (done || lia).
  - by rewrite !Ha by lia.
Qed.
Lemma all_words_ext g ac g' ac' l : Forall saved_ok l -> (forallb is_acc l = true \/ forall n, 0 <= n < 15 -> g' n = g n) ->
  (forall n, 0 <= n < 2 -> ac' n = ac n) -> all_words g' ac' l = all_words g ac l.
Proof.
  intros Hl Hg Ha. induction Hl as [|k l Hk Hl IH]; [done|]. unfold all_words in *. cbn [flat_map]. f_equal.
  - apply words_ext; [done| |done]. intros Hn n Hr. destruct Hg as [Hg|Hg]; [|by apply Hg].
    cbn [forallb] in Hg. by rewrite Hn in Hg.
  - apply IH. destruct Hg as [Hg|Hg]; [left|by right]. by apply andb_prop in Hg as [_ Hg].
Qed.
Definition same_all (l : list saved) : Z -> bool := if existsb is_acc l then not_clobbered else fun _ => true.

Lemma saves_run l : Forall saved_ok l -> forallb is_acc l = true \/ existsb is_acc l = false -> forall s,
  inv s -> total_of l < GPR s 15 <= 0x8000 ->
  exists s', exec_all (flat_map save_insns l) s = Ret tt s' /\
    pushed s (GPR s 15) (all_words (GPR s) (ACC s) (rev l)) (same_all l) s'.
Proof.
  induction 1 as [|k l Hk Hl IH]; intros Hone s Hs Hsp.
  { exists s. split; [done|]. split; try done; unfold all_words; cbn [length rev flat_map]; by rewrite Z.sub_0_r. }
  cbn [total_of fold_right] in Hsp. fold (total_of l) in Hsp. pose proof (total_nonneg l) as Hnn.
  destruct (save_run k s Hk Hs) as (s1 & E1 & P1); [lia|].
  assert (GPR s1 15 = GPR s 15 - bytes_of k) as Esp1.
  { rewrite (pu_sp _ _ _ _ _ P1). by rewrite words_length. }
  assert (0 < bytes_of k) as Hb by (by destruct k).
  destruct (IH) with (s := s1) as (s2 & E2 & P2).
  { destruct Hone as [Hone|Hone]; [left; by apply andb_prop in Hone as [_ Hone]|right; by apply orb_false_elim in Hone as [_ Hone]]. }
  { apply P1. }
  { lia. }
  exists s2. split; [cbn [flat_map]; by rewrite (exec_app _ _ _ _ E1)|].
  assert (all_words (GPR s1) (ACC s1) (rev l) = all_words (GPR s) (ACC s) (rev l)) as Ew.
  { apply all_words_ext; [by apply Forall_rev| |apply P1].
    destruct Hone as [Hone|Hone].
    - left. apply andb_prop in Hone as [_ Hone]. apply forallb_forall. intros x Hx%in_rev. exact (proj1 (forallb_forall is_acc l) Hone x Hx).
    - right. apply orb_false_elim in Hone as [Hone _]. intros n Hn. apply (pu_gpr _ _ _ _ _ P1 n Hn).
      unfold same_of. by rewrite Hone. }
  rewrite Ew in P2. rewrite all_words_rev.
  apply (pushed_then _ _ _ _ _ _ _ _ (same_all (k :: l)) P1 P2); [|lia|lia].
  intros n. unfold same_of, same_all. cbn [existsb]. destruct (is_acc k), (existsb is_acc l); cbn [orb]; by intros.
Qed.

(** ** Restoring *)

(** The state after registers have been restored from [bytes] bytes *)
Record popped (s : state) (bytes : Z) (g ac : Z -> Z) (s' : state) : Prop := {
  po_inv : inv s';
  po_modulo : PSW_MD s' = false;
  po_sp : GPR s' 15 = GPR s 15 + bytes;
  po_gpr : forall n, 0 <= n < 15 -> GPR s' n = g n;
  po_acc : forall n, 0 <= n < 2 -> ACC s' n = ac n;
  po_chip : forall b, on_chip b -> chip_word s' b = chip_word s b
}.
(** The registers and the accumulators that get the words [ws] *)
Definition into_gpr (k : saved) (ws : list Z) (g : Z -> Z) : Z -> Z :=
  match k, ws with
  | S_reg n, [v] => set n v g
  | S_pair n, [v; w] => set (n + 1) w (set n v g)
  | S_acc _, [hi; lo; guard] => set 5 guard (set 13 lo (set 12 hi g))
  | _, _ => g
  end.
Definition into_acc (k : saved) (ws : list Z) (ac : Z -> Z) : Z -> Z :=
  match k, ws with
  | S_acc n, [hi; lo; guard] => set n (hi * 2 ^ 16 + lo + guard mod 2 ^ 8 * 2 ^ 32) ac
  | _, _ => ac
  end.
Lemma pop_bits n : 0 <= n < 15 -> Z.land (0x601F + n * 2 ^ 5) 0x7E1F = 0x601F /\ reg_field (0x601F + n * 2 ^ 5) = n.
Proof.
  intros Hn. unfold reg_field. split; [|zdml].
  clear - Hn. each_below n 15%nat; reflexivity.
Qed.
Lemma pop_pair_bits n : 0 <= n < 14 -> Z.land n 1 = 0 ->
  Z.land (0x621F + n * 2 ^ 5) 0x7E3F = 0x621F /\ reg_field (0x621F + n * 2 ^ 5) = n.
Proof.
  intros Hn He. unfold reg_field. split; [|zdml].
  clear - Hn He. each_below n 14%nat; first [discriminate He | reflexivity].
Qed.
Lemma pop_reg_run n s v : 0 <= n < 15 -> inv s -> PSW_MD s = false -> 0 <= GPR s 15 -> GPR s 15 + 2 <= 0x8000 ->
  holds s (GPR s 15) [v] ->
  exists s', exec_insn (pop_reg n) s = Ret tt s' /\ popped s 2 (set n v (GPR s)) (ACC s) s'.
Proof.
  intros Hn Hs Hmd H0 H1 [Hv _]%holds_cons. destruct (pop_bits n Hn) as [Hc Hf].
  destruct (pop_does Hcalloc _ s Hc Hs Hmd) as (s' & E & [I G A C M]); [unfold on_chip; lia|].
  rewrite Hf, Hv in G. exists s'. split; [exact E|]. split; [exact I|by rewrite M| | |exact A|exact C].
  - rewrite G, set_eq by lia. zdml.
  - intros m Hm. by rewrite G, set_ne by lia.
Qed.
Lemma pop_pair_run n s v w : 0 <= n < 14 -> Z.land n 1 = 0 -> inv s -> PSW_MD s = false -> 0 <= GPR s 15 ->
  GPR s 15 + 4 <= 0x8000 -> holds s (GPR s 15) [v; w] ->
  exists s', exec_insn (pop_pair n) s = Ret tt s' /\ popped s 4 (set (n + 1) w (set n v (GPR s))) (ACC s) s'.
Proof.
  intros Hn He Hs Hmd H0 H1 [Hv [Hw _]%holds_cons]%holds_cons. destruct (pop_pair_bits n Hn He) as [Hc Hf].
  destruct (Epilogue.pop_pair_does Hcalloc _ s Hc Hs Hmd) as (s' & E & [I G A C M]); [unfold on_chip; lia..|].
  rewrite Hf, Hv, Hw in G. exists s'. split; [exact E|]. split; [exact I|by rewrite M| | |exact A|exact C].
  - rewrite G, set_eq by lia. zdml.
  - intros m Hm. by rewrite G, set_ne by lia.
Qed.
(** [ld2w r12, @sp+], [ld r5, @sp+], [mv2wtac r12, aN], [mvtacg r5, aN] *)
Lemma pop_acc_run n s hi lo guard : n = 0 \/ n = 1 -> inv s -> PSW_MD s = false -> 0 <= GPR s 15 ->
  GPR s 15 + 6 <= 0x8000 -> holds s (GPR s 15) [hi; lo; guard] -> 0 <= hi < 2 ^ 16 -> 0 <= lo < 2 ^ 16 ->
  exists s', exec_all (restore_insns (S_acc n)) s = Ret tt s' /\
    popped s 6 (into_gpr (S_acc n) [hi; lo; guard] (GPR s)) (into_acc (S_acc n) [hi; lo; guard] (ACC s)) s'.
Proof.
  intros Hn Hs Hmd H0 H1 Hh Hhi Hlo. assert (0 <= n < 2) as Hn2 by lia.
  change [hi; lo; guard] with ([hi; lo] ++ [guard]) in Hh. apply holds_app in Hh as [Hh Hg].
  change (2 * Z.of_nat (length [hi; lo])) with 4 in Hg.
  destruct (pop_pair_run 12 s hi lo ltac:(lia) eq_refl Hs Hmd H0 ltac:(lia) Hh) as (s1 & E1 & [I1 M1 P1 G1 A1 C1]).
  assert (holds s1 (GPR s1 15) [guard]) as Hg1.
  { rewrite P1. eapply holds_same; [|exact Hg]. intros i Hi. apply C1. simpl in Hi. unfold on_chip. lia. }
  destruct (pop_reg_run 5 s1 guard ltac:(lia) I1 M1 ltac:(lia) ltac:(lia) Hg1) as (s2 & E2 & [I2 M2 P2 G2 A2 C2]).
  destruct (mv2wtac_does n s2 Hn I2) as (s3 & E3 & [I3 G3 A3 C3 M3]).
  destruct (mvtacg_does n s3 Hn I3) as (s4 & E4 & [I4 G4 A4 C4 M4]).
  exists s4. split.
  { cbn [restore_insns]. rewrite (exec_step _ _ _ _ E1), (exec_step _ _ _ _ E2), (exec_step _ _ _ _ E3), (exec_step _ _ _ _ E4).
    reflexivity. }
  assert (GPR s2 12 = hi) as F12 by (rewrite G2, set_ne, G1, set_ne, set_eq by lia; done).
  assert (GPR s2 13 = lo) as F13 by (rewrite G2, set_ne, G1 by lia; by rewrite set_eq).
  assert (GPR s3 5 = guard) as F5 by (rewrite G3, G2, set_eq by lia; done).
  split.
  - exact I4.
  - by rewrite M4, M3.
  - rewrite G4, G3, P2, P1 by lia. lia.
  - intros m Hm. rewrite G4, G3, G2 by lia. cbn [into_gpr]. unfold set at 1 2. destruct (m =? 5); [done|]. by rewrite G1.
  - intros m Hm. rewrite A4 by done. cbn [into_acc]. destruct (Z.eqb_spec m n) as [->|Hne].
    + rewrite !set_eq, A3, set_eq, F5 by done. unfold spair. rewrite F12. change (12 + 1) with 13. rewrite F13.
      f_equal. unfold s16, wrap_signed. zdml.
    + by rewrite !set_ne, A3, set_ne, A2, A1.
  - intros b Hb. by rewrite C4, C3, C2, C1.
Qed.

Lemma restore_run k s ws : saved_ok k -> inv s -> PSW_MD s = false -> 0 <= GPR s 15 ->
  GPR s 15 + bytes_of k <= 0x8000 -> 2 * Z.of_nat (length ws) = bytes_of k -> holds s (GPR s 15) ws ->
  Forall (fun v => 0 <= v < 2 ^ 16) ws ->
  exists s', exec_all (restore_insns k) s = Ret tt s' /\
    popped s (bytes_of k) (into_gpr k ws (GPR s)) (into_acc k ws (ACC s)) s'.
Proof.
  intros Hk Hs Hmd H0 H1 Hl Hh Hr. destruct k as [n|n|n]; cbn [saved_ok bytes_of] in *.
  - destruct ws as [|v [|? ?]]; cbn [length] in Hl; try lia.
    destruct (pop_reg_run n s v Hk Hs Hmd H0 H1 Hh) as (s' & E & P). exists s'. split; [|exact P].
    cbn [restore_insns]. rewrite (exec_step _ _ _ _ E). reflexivity.
  - destruct ws as [|v [|w [|? ?]]]; cbn [length] in Hl; try lia.
    destruct (pop_pair_run n s v w (proj1 Hk) (proj2 Hk) Hs Hmd H0 H1 Hh) as (s' & E & P). exists s'. split; [|exact P].
    cbn [restore_insns]. rewrite (exec_step _ _ _ _ E). reflexivity.
  - destruct ws as [|hi [|lo [|gd [|? ?]]]]; cbn [length] in Hl; try lia.
    apply List.Forall_cons_iff in Hr as [Hhi [Hlo _]%List.Forall_cons_iff].
    by apply pop_acc_run.
Qed.
(** A list of them *)
Fixpoint all_into (l : list saved) (ws : list Z) (f : (Z -> Z) * (Z -> Z)) : (Z -> Z) * (Z -> Z) :=
  match l with
  | [] => f
  | k :: l' =>
      let n := Z.to_nat (bytes_of k / 2) in
      all_into l' (drop n ws) (into_gpr k (take n ws) f.1, into_acc k (take n ws) f.2)
  end.
(** The functions matter only at the numbers of registers. *)
Definition agree (f f' : (Z -> Z) * (Z -> Z)) : Prop :=
  (forall n, 0 <= n < 15 -> f.1 n = f'.1 n) /\ (forall n, 0 <= n < 2 -> f.2 n = f'.2 n).
Lemma into_agree k ws f f' : agree f f' ->
  agree (into_gpr k ws f.1, into_acc k ws f.2) (into_gpr k ws f'.1, into_acc k ws f'.2).
Proof.
  intros [Hg Ha]. split; cbn [fst snd]; intros n Hn; destruct k as [m|m|m]; cbn [into_gpr into_acc];
    destruct ws as [|v [|w [|x [|? ?]]]]; unfold set; try by (auto);
    repeat (destruct (n =? _); [done|]); auto.
Qed.
Lemma all_into_agree l : forall ws f f', agree f f' -> agree (all_into l ws f) (all_into l ws f').
Proof. induction l as [|k l IH]; intros ws f f' Hf; [exact Hf|]. cbn [all_into]. apply IH, into_agree, Hf. Qed.

Lemma restores_run l : Forall saved_ok l -> forall s ws,
  inv s -> PSW_MD s = false -> 0 <= GPR s 15 -> GPR s 15 + total_of l <= 0x8000 ->
  2 * Z.of_nat (length ws) = total_of l -> holds s (GPR s 15) ws -> Forall (fun v => 0 <= v < 2 ^ 16) ws ->
  exists s', exec_all (flat_map restore_insns l) s = Ret tt s' /\
    popped s (total_of l) (all_into l ws (GPR s, ACC s)).1 (all_into l ws (GPR s, ACC s)).2 s'.
Proof.
  induction 1 as [|k l Hk Hl IH]; intros s ws Hs Hmd H0 H1 Hlen Hh Hr.
  { exists s. split; [done|]. split; try done. cbn [total_of fold_right]. lia. }
  cbn [total_of fold_right] in *. fold (total_of l) in *. pose proof (total_nonneg l) as Hnn.
  set (n := Z.to_nat (bytes_of k / 2)).
  assert (2 * Z.of_nat n = bytes_of k) as Hnk by (by destruct k).
  rewrite <- (take_drop n ws) in Hh. apply holds_app in Hh as [Hh1 Hh2].
  assert (length (take n ws) = n) as Ln by (rewrite length_take; lia).
  destruct (restore_run k s (take n ws) Hk Hs Hmd H0 ltac:(lia) ltac:(lia) Hh1 (Forall_take _ _ _ Hr))
    as (s1 & E1 & [I1 M1 P1 G1 A1 C1]).
  destruct (IH s1 (drop n ws) I1 M1) as (s2 & E2 & [I2 M2 P2 G2 A2 C2]); [lia|lia|rewrite length_drop; lia| |by apply Forall_drop|].
  { rewrite P1. eapply holds_same.
    - intros i Hi. apply C1. rewrite length_drop in Hi. unfold on_chip. lia.
    - by rewrite Ln, Hnk in Hh2. }
  exists s2. split; [cbn [flat_map]; by rewrite (exec_app _ _ _ _ E1)|]. cbn [all_into]. fold n.
  assert (agree (GPR s1, ACC s1) (into_gpr k (take n ws) (GPR s), into_acc k (take n ws) (ACC s))) as Hag by done.
  apply (all_into_agree l (drop n ws)) in Hag as [Hg Ha]. cbn [fst snd] in *. split.
  - exact I2.
  - exact M2.
  - lia.
  - intros m Hm. by rewrite G2, Hg.
  - intros m Hm. by rewrite A2, Ha.
  - intros b Hb. by rewrite C2, C1.
Qed.
End Stack.

(** ** What was saved is restored *)

Definition regs_of (k : saved) : list Z := match k with S_reg n => [n] | S_pair n => [n; n + 1] | S_acc _ => [] end.
Definition saves (l : list saved) (n : Z) : bool := existsb (Z.eqb n) (flat_map regs_of l).
Definition accs_of (k : saved) : list Z := match k with S_acc n => [n] | _ => [] end.

Lemma words_range g ac k : saved_ok k -> (forall n, 0 <= n < 16 -> 0 <= g n < 2 ^ 16) -> (forall n, 0 <= n < 2 -> 0 <= ac n < 2 ^ 40) ->
  Forall (fun v => 0 <= v < 2 ^ 16) (words g ac k).
Proof.
  intros Hk Hg Ha. destruct k as [n|n|n]; cbn [words saved_ok] in *.
  - repeat constructor; apply Hg; lia.
  - constructor; [apply Hg; lia|]. constructor; [apply Hg; lia|constructor].
  - specialize (Ha n ltac:(lia)). constructor; [apply Z.mod_pos_bound; lia|].
    constructor; [apply Z.mod_pos_bound; lia|]. constructor; [zdml|constructor].
Qed.
Lemma all_into_cons k l g ac f : all_into (k :: l) (all_words g ac (k :: l)) f =
  all_into l (all_words g ac l) (into_gpr k (words g ac k) f.1, into_acc k (words g ac k) f.2).
Proof.
  unfold all_words. cbn [flat_map all_into].
  assert (Z.to_nat (bytes_of k / 2) = length (words g ac k)) as -> by (by destruct k).
  by rewrite take_app_length, drop_app_length.
Qed.
Lemma saves_cons k l n : saves (k :: l) n = existsb (Z.eqb n) (regs_of k) || saves l n.
Proof. unfold saves. cbn [flat_map]. apply existsb_app. Qed.
(** The registers: those saved get their values back, in whatever order. *)
Lemma regs_restored g ac l : existsb is_acc l = false -> forall f,
  (forall n, (all_into l (all_words g ac l) f).1 n = if saves l n then g n else f.1 n) /\
  (all_into l (all_words g ac l) f).2 = f.2.
Proof.
  induction l as [|k l IH]; intros Hl f; [done|]. apply orb_false_elim in Hl as [Hk Hl]. rewrite all_into_cons.
  destruct (IH Hl (into_gpr k (words g ac k) f.1, into_acc k (words g ac k) f.2)) as [Eg Ea].
  destruct k as [m|m|m]; [| |done]; (split; [|exact Ea]).
  - intros n. rewrite Eg, saves_cons. cbn [fst words into_gpr regs_of existsb]. unfold set.
    destruct (Z.eqb_spec n m) as [->|]; cbn [orb]; by destruct (saves l _).
  - intros n. rewrite Eg, saves_cons. cbn [fst words into_gpr regs_of existsb]. unfold set.
    destruct (Z.eqb_spec n m) as [E|]; destruct (Z.eqb_spec n (m + 1)) as [E'|]; cbn [orb]; destruct (saves l n);
      first [reflexivity | by rewrite E' | by rewrite E].
Qed.
Lemma acc_parts x : 0 <= x < 2 ^ 40 -> x / 2 ^ 16 mod 2 ^ 16 * 2 ^ 16 + x mod 2 ^ 16 + x / 2 ^ 32 mod 2 ^ 8 * 2 ^ 32 = x.
Proof. intros Hx. zdml. Qed.
Lemma all_into_app l1 : forall l2 w1 w2 f, 2 * Z.of_nat (length w1) = total_of l1 ->
  all_into (l1 ++ l2) (w1 ++ w2) f = all_into l2 w2 (all_into l1 w1 f).
Proof.
  induction l1 as [|k l1 IH]; intros l2 w1 w2 f Hl; cbn [total_of fold_right] in Hl.
  { by destruct w1. }
  fold (total_of l1) in Hl. pose proof (total_nonneg l1) as Hnn. cbn [app all_into]. set (n := Z.to_nat (bytes_of k / 2)).
  assert (2 * Z.of_nat n = bytes_of k) as Hn by (by destruct k).
  rewrite drop_app_le, take_app_le by lia. apply IH. rewrite length_drop. lia.
Qed.
(** The accumulators are restored in the order in which they were saved: a single one gets
    its value back, but two get each other's. *)
Definition acc_back (l : list saved) (ac ac2 : Z -> Z) (n : Z) : Z :=
  match l with
  | [] => ac2 n
  | [S_acc m] => if n =? m then ac n else ac2 n
  | _ => ac (1 - n)
  end.
Definition acc_list (l : list saved) : Prop := l = [] \/ l = [S_acc 0] \/ l = [S_acc 1] \/ l = [S_acc 0; S_acc 1].
Lemma accs_restored g ac l f : acc_list l -> (forall n, 0 <= n < 2 -> 0 <= ac n < 2 ^ 40) ->
  let f' := all_into l (all_words g ac (rev l)) f in
  (forall n, not_clobbered n = true -> f'.1 n = f.1 n) /\
  (forall n, 0 <= n < 2 -> f'.2 n = acc_back l ac f.2 n).
Proof.
  intros Hl Ha. pose proof (acc_parts (ac 0) (Ha 0 ltac:(lia))) as H0. pose proof (acc_parts (ac 1) (Ha 1 ltac:(lia))) as H1.
  destruct Hl as [-> |[-> |[-> | ->]]]; (split; [intros n Hn; apply clobbered_ne in Hn as (H5 & H12 & H13)|intros n Hn]);
    cbn [rev app all_words flat_map words all_into bytes_of acc_back];
    change (Z.to_nat (6 / 2)) with 3%nat; cbn [take drop into_gpr into_acc fst snd]; rewrite ?H0, ?H1; try done;
    try (by rewrite !set_ne).
  - unfold set. by destruct (Z.eqb_spec n 0) as [->|].
  - unfold set. by destruct (Z.eqb_spec n 1) as [->|].
  - unfold set. by assert (n = 0 \/ n = 1) as [-> | ->] by lia.
Qed.

(** ** Frames *)

(** What a function's prologue does: it may save the four argument registers, it saves
    registers and accumulators, makes room for [locals] bytes, and may set the frame
    pointer. *)
Record frame_plan := Plan { f_varargs : bool; f_regs : list saved; f_accs : list saved; f_locals : Z; f_frame : bool }.
Record plan_ok (p : frame_plan) : Prop := {
  pl_regs : Forall saved_ok (f_regs p) /\ existsb is_acc (f_regs p) = false;
  pl_accs : acc_list (f_accs p);
  pl_locals : 0 <= f_locals p < 0x8000;
  pl_link : f_accs p <> [] -> saves (f_regs p) 13 = true
}.
Definition arg_regs (p : frame_plan) : list saved := if f_varargs p then [S_pair 2; S_pair 0] else [].
Definition frame_size (p : frame_plan) : Z :=
  total_of (arg_regs p) + total_of (f_regs p) + total_of (f_accs p) + f_locals p.
Definition lower (n : Z) : list (bool * Z) :=
  if 0 <? n then if n <=? 16 then [(false, 0x1E1 + 2 * (n mod 16))] else [(true, 0x01FF0000 + (- n) mod 2 ^ 16)] else [].
Definition raise (n : Z) : list (bool * Z) :=
  if 0 <? n then if n <=? 16 then [(false, 0x3E1 + 2 * (n mod 16))] else [(true, 0x01FF0000 + n mod 2 ^ 16)] else [].
Definition entry_insns (p : frame_plan) : list (bool * Z) :=
  flat_map save_insns (arg_regs p) ++ flat_map save_insns (f_regs p) ++ flat_map save_insns (f_accs p) ++
  lower (f_locals p) ++ (if f_frame p then [(false, 0x417E)] else []).
(** A function without saved registers leaves the argument registers with its locals. *)
Definition folded (p : frame_plan) : bool := match f_regs p with [] => true | _ => false end.
Definition exit_locals (p : frame_plan) : Z := if folded p then f_locals p + total_of (arg_regs p) else f_locals p.
Definition exit_args (p : frame_plan) : Z := if folded p then 0 else total_of (arg_regs p).
Definition exit_insns (p : frame_plan) : list (bool * Z) :=
  (if f_frame p
   then if 0 <? exit_locals p + total_of (f_regs p) + total_of (f_accs p)
        then [(true, 0x01F00000 + 11 * 2 ^ 16 + exit_locals p mod 2 ^ 16)] else [(false, 0x41F6)]
   else raise (exit_locals p)) ++
  flat_map restore_insns (f_accs p) ++ flat_map restore_insns (rev (f_regs p)) ++ raise (exit_args p) ++ [(false, 0x4C1A)].
