(* ===== verification/ReturnSpec.v ===== *)
(** * Frames: entering a function and returning from it

    The instructions of a compiled function's prologue and epilogue as a whole, on the
    simulator: whatever happens in between, as long as the saved words, the frame and the
    stack pointer are kept, the epilogue returns to the caller with the stack pointer and
    the saved registers as they were. *)
From S2P Require Import Prelude CInt Opcodes State Memory Cregs Gdb Tdep.
From S2P Require Import SimopsAlu SimopsAcc SimopsFlow SimopsMem SimopsTrap Interp Logic OpRules.
From S2P Require Import Machine Decode MemProps Effects AluSpec AccSpec FlowSpec NumSpec MemSpec Cycle Step SimTarget.
From S2P Require Import Prologue Epilogue Saving.

(** Registers are as [g] says, accumulators and the memory on the chip as before. *)
Record regs_only (s : state) (g : Z -> Z) (s' : state) : Prop := {
  ro_inv : inv s';
  ro_gpr : forall n, 0 <= n < 16 -> GPR s' n = g n;
  ro_acc : forall n, 0 <= n < 2 -> ACC s' n = ACC s n;
  ro_chip : forall b, on_chip b -> chip_word s' b = chip_word s b;
  ro_modulo : PSW_MD s' = PSW_MD s
}.
Lemma regs_only_refl s : inv s -> regs_only s (GPR s) s.
Proof. by split. Qed.

Section Frames.
Context `{Host} (Hcalloc : forall s seg, host_calloc s seg = true).

Lemma exec_one i s s1 : exec_insn i s = Ret tt s1 -> exec_all [i] s = Ret tt s1.
Proof. intros E. by rewrite (exec_step _ _ _ _ E). Qed.

(** Instructions of the prologue that store nothing *)
Lemma storeless_run i c s : classify i = Some c -> 0 <= i.2 < 2 ^ 30 -> pro_stores c s = [] -> inv s ->
  exists s', exec_all [i] s = Ret tt s' /\ regs_only s (pro_gpr c s) s'.
Proof.
  intros Hc Hr Hst Hs. destruct (classified_does Hcalloc i c Hc Hr s Hs) as (s' & E & Hs' & [Hg _ Hk Ha Hmd]); [rewrite Hst; constructor|].
  exists s'. split; [by apply exec_one|]. split; [exact Hs'|exact Hg|by intros; apply Ha| |exact Hmd].
  intros b Hb. apply Hk; [exact Hb|]. rewrite Hst. by intros.
Qed.
Lemma lower_run n s : 0 <= n < 0x8000 -> n <= GPR s 15 -> inv s ->
  exists s', exec_all (lower n) s = Ret tt s' /\ regs_only s (set 15 (GPR s 15 - n) (GPR s)) s'.
Proof.
  intros Hn Hsp Hs. pose proof (sp_range s Hs) as Hr. unfold lower.
  assert (forall i, classify i = Some (P_adjust (- n)) -> 0 <= i.2 < 2 ^ 30 ->
    exists s', exec_all [i] s = Ret tt s' /\ regs_only s (set 15 (GPR s 15 - n) (GPR s)) s') as Hi.
  { intros i Hc Hi. destruct (storeless_run i _ s Hc Hi eq_refl Hs) as (s' & E & [I G A C M]).
    exists s'. split; [exact E|]. split; [exact I| |exact A|exact C|exact M].
    intros k Hk. rewrite G by done. unfold pro_gpr, set, SP_REGNUM. by rewrite Z.mod_small by lia. }
  destruct (Z.ltb_spec 0 n) as [H0|H0].
  - destruct (Z.leb_spec n 16) as [H16|H16].
    + apply Hi; [apply subi_class; lia|]. cbn [snd]. pose proof (Z.mod_pos_bound n 16 ltac:(lia)). lia.
    + apply Hi; [apply add3_class; lia|]. cbn [snd]. pose proof (Z.mod_pos_bound (- n) (2 ^ 16) ltac:(lia)). lia.
  - exists s. split; [done|]. split; try done. intros k _. unfold set. destruct (Z.eqb_spec k 15) as [->|]; [lia|done].
Qed.
Lemma set_frame_run s (f : bool) : inv s ->
  exists s', exec_all (if f then [(false, 0x417E)] else []) s = Ret tt s' /\
    regs_only s (if f then set 11 (GPR s 15) (GPR s) else GPR s) s'.
Proof.
  intros Hs. destruct f.
  - destruct (storeless_run (false, 0x417E) P_frame s eq_refl ltac:(cbn [snd]; lia) eq_refl Hs) as (s' & E & R).
    by exists s'.
  - exists s. split; [done|by apply regs_only_refl].
Qed.
Lemma addi_bits n : 1 <= n <= 16 -> Z.land (0x3E1 + 2 * (n mod 16)) 0x7FE1 = 0x03E1 /\ sub_amount (0x3E1 + 2 * (n mod 16)) = n.
Proof.
  intros Hn. each_below n 17%nat; split; reflexivity.
Qed.
Lemma changed_popped s n g s' : changed s (set 15 ((GPR s 15 + n) mod 2 ^ 16) g) (ACC s) s' -> PSW_MD s = false ->
  0 <= GPR s 15 + n < 2 ^ 16 -> popped s n g (ACC s) s'.
Proof.
  intros [I G A C M] Hmd Hr. split; [exact I|by rewrite M| | |exact A|exact C].
  - rewrite G, set_eq, Z.mod_small by lia. done.
  - intros k Hk. by rewrite G, set_ne by lia.
Qed.
Lemma raise_run n s : 0 <= n < 0x8000 -> GPR s 15 + n <= 0x8000 -> inv s -> PSW_MD s = false ->
  exists s', exec_all (raise n) s = Ret tt s' /\ popped s n (GPR s) (ACC s) s'.
Proof.
  intros Hn Hsp Hs Hmd. pose proof (sp_range s Hs) as Hr. unfold raise. destruct (Z.ltb_spec 0 n) as [H0|H0].
  - destruct (Z.leb_spec n 16) as [H16|H16].
    + destruct (addi_bits n) as [Hc Ha]; [lia|]. destruct (addi_does _ s Hc Hs) as (s' & E & C).
      exists s'. split; [by apply exec_one|]. rewrite Ha in C. apply changed_popped; [exact C|exact Hmd|lia].
    + destruct (add3_sp_does n 15 s) as (s' & E & C); [lia|lia|exact Hs|].
      exists s'. split; [by apply exec_one|]. apply changed_popped; [exact C|exact Hmd|lia].
  - exists s. split; [done|]. split; try done. lia.
Qed.

(** ** Entering *)

(** What is on the stack above the locals, from the lowest address on *)
Definition frame_words (p : frame_plan) (s : state) : list Z :=
  all_words (GPR s) (ACC s) (rev (f_accs p)) ++ all_words (GPR s) (ACC s) (rev (f_regs p)) ++
  all_words (GPR s) (ACC s) (rev (arg_regs p)).
Record entered (p : frame_plan) (s0 s1 : state) : Prop := {
  en_inv : inv s1;
  en_sp : GPR s1 15 = GPR s0 15 - frame_size p;
  en_frame : f_frame p = true -> GPR s1 11 = GPR s1 15;
  en_gpr : forall n, 0 <= n < 15 -> same_all (f_accs p) n = true -> (f_frame p = true -> n <> 11) -> GPR s1 n = GPR s0 n;
  en_acc : forall n, 0 <= n < 2 -> ACC s1 n = ACC s0 n;
  en_words : holds s1 (GPR s1 15 + f_locals p) (frame_words p s0);
  en_above : forall b, on_chip b -> GPR s0 15 <= b -> chip_word s1 b = chip_word s0 b;
  en_modulo : PSW_MD s1 = PSW_MD s0
}.
Lemma arg_regs_ok p : Forall saved_ok (arg_regs p) /\ existsb is_acc (arg_regs p) = false.
Proof. unfold arg_regs. destruct (f_varargs p); (split; [repeat constructor; lia|done]). Qed.
Lemma acc_list_ok l : acc_list l -> Forall saved_ok l /\ forallb is_acc l = true.
Proof. intros [-> |[-> |[-> | ->]]]; (split; [repeat constructor; cbn [saved_ok]; lia|done]). Qed.
Lemma frame_words_length p s : 2 * Z.of_nat (length (frame_words p s)) = frame_size p - f_locals p.
Proof.
  unfold frame_words, frame_size. rewrite !length_app, !Nat2Z.inj_add, !Z.mul_add_distr_l, !all_words_length, !total_rev. lia.
Qed.

Lemma enter_run p s0 : plan_ok p -> inv s0 -> frame_size p < GPR s0 15 <= 0x8000 ->
  exists s1, exec_all (entry_insns p) s0 = Ret tt s1 /\ entered p s0 s1.
Proof.
  intros [[Hr Hra] Hac Hl _] Hs0 Hsp. unfold frame_size in Hsp.
  destruct (arg_regs_ok p) as [Ho Hoa]. destruct (acc_list_ok _ Hac) as [Hc Hca].
  pose proof (total_nonneg (arg_regs p)) as Na. pose proof (total_nonneg (f_regs p)) as Nr. pose proof (total_nonneg (f_accs p)) as Nc.
  destruct (saves_run Hcalloc (arg_regs p) Ho (or_intror Hoa) s0 Hs0) as (s1 & E1 & P1); [lia|].
  assert (GPR s1 15 = GPR s0 15 - total_of (arg_regs p)) as W1 by (rewrite (pu_sp _ _ _ _ _ P1), all_words_length, total_rev; lia).
  destruct (saves_run Hcalloc (f_regs p) Hr (or_intror Hra) s1 (pu_inv _ _ _ _ _ P1)) as (s2 & E2 & P2); [lia|].
  assert (GPR s2 15 = GPR s1 15 - total_of (f_regs p)) as W2 by (rewrite (pu_sp _ _ _ _ _ P2), all_words_length, total_rev; lia).
  destruct (saves_run Hcalloc (f_accs p) Hc (or_introl Hca) s2 (pu_inv _ _ _ _ _ P2)) as (s3 & E3 & P3); [lia|].
  assert (GPR s3 15 = GPR s2 15 - total_of (f_accs p)) as W3 by (rewrite (pu_sp _ _ _ _ _ P3), all_words_length, total_rev; lia).
  destruct (lower_run (f_locals p) s3) as (s4 & E4 & [I4 G4 A4 C4 M4]); [lia|lia|apply P3|].
  destruct (set_frame_run s4 (f_frame p) I4) as (s5 & E5 & [I5 G5 A5 C5 M5]).
  exists s5. split.
  { unfold entry_insns. rewrite (exec_app _ _ _ _ E1), (exec_app _ _ _ _ E2), (exec_app _ _ _ _ E3), (exec_app _ _ _ _ E4). exact E5. }
  pose proof (frame_words_length p s0) as Lw.
  assert (pushed s0 (GPR s0 15) (frame_words p s0) (same_all (f_accs p)) s3) as [I G0 G A Hw C M].
  { assert (same_all (arg_regs p) = (fun _ => true) /\ same_all (f_regs p) = (fun _ => true)) as [F1 F2]
      by (unfold same_all; rewrite Hoa, Hra; done). rewrite F1 in P1. rewrite F2 in P2.
    rewrite (all_words_ext (GPR s0) (ACC s0)) in P2; [|by apply Forall_rev|right; intros; by apply P1|apply P1].
    pose proof (pushed_then _ _ _ _ _ _ _ _ (fun _ => true) P1 P2 ltac:(intros; split; reflexivity) ltac:(lia) ltac:(lia)) as P12.
    rewrite (all_words_ext (GPR s0) (ACC s0)) in P3;
      [|by apply Forall_rev|right; intros; by apply P12|apply P12].
    unfold frame_words. apply (pushed_then _ _ _ _ _ _ _ _ _ P12 P3); [done|lia|lia]. }
  unfold frame_size in *. assert (GPR s5 15 = GPR s0 15 - (total_of (arg_regs p) + total_of (f_regs p) + total_of (f_accs p) + f_locals p)) as Esp.
  { rewrite G5 by lia. assert ((if f_frame p then set 11 (GPR s4 15) (GPR s4) else GPR s4) 15 = GPR s4 15) as -> by (by destruct (f_frame p)).
    rewrite G4, set_eq by lia. lia. }
  split.
  - exact I5.
  - exact Esp.
  - intros Hf. rewrite !G5, Hf by lia. by rewrite set_eq, set_ne by lia.
  - intros n Hn Hsame Hne. rewrite G5 by lia.
    assert ((if f_frame p then set 11 (GPR s4 15) (GPR s4) else GPR s4) n = GPR s4 n) as ->.
    { destruct (f_frame p); [|done]. rewrite set_ne; [done|by apply Hne]. }
    rewrite G4, set_ne by lia. by apply G.
  - intros n Hn. by rewrite A5, A4, A.
  - rewrite Esp. replace (GPR s0 15 - (_ + _ + _ + _) + _) with (GPR s0 15 - 2 * Z.of_nat (length (frame_words p s0))) by lia.
    eapply holds_same; [|exact Hw]. intros i Hi. rewrite C5, C4; [done|unfold on_chip; lia..].
  - intros b Hb Hle. rewrite C5, C4 by done. by apply C.
  - by rewrite M5, M4.
Qed.

(** ** Returning *)

(** What the body of the function has to leave: the saved words, the frame or the stack
    pointer, the return address if it is not saved; modulo addressing is off. *)
Record left_alone (p : frame_plan) (s0 s1 s2 : state) : Prop := {
  la_inv : inv s2;
  la_modulo : PSW_MD s2 = false;
  la_frame : GPR s2 (if f_frame p then 11 else 15) = GPR s1 15;
  la_words : forall b, GPR s1 15 + f_locals p <= b -> b + 2 <= GPR s0 15 - total_of (arg_regs p) -> chip_word s2 b = chip_word s1 b;
  la_link : saves (f_regs p) 13 = false -> GPR s2 13 = GPR s0 13
}.
Record returned (p : frame_plan) (s0 s2 s3 : state) : Prop := {
  rt_inv : inv s3;
  rt_pc : CREG s3 PC_CR = GPR s0 13;
  rt_sp : GPR s3 15 = GPR s0 15;
  rt_saved : forall n, 0 <= n < 15 -> saves (f_regs p) n = true -> GPR s3 n = GPR s0 n;
  rt_other : forall n, 0 <= n < 15 -> saves (f_regs p) n = false -> same_all (f_accs p) n = true -> GPR s3 n = GPR s2 n;
  rt_acc : forall n, 0 <= n < 2 -> ACC s3 n = acc_back (f_accs p) (ACC s0) (ACC s2) n;
  rt_chip : forall b, on_chip b -> chip_word s3 b = chip_word s2 b
}.

Lemma saves_rev l n : saves (rev l) n = saves l n.
Proof.
  induction l as [|k l IH]; [done|]. rewrite saves_cons. cbn [rev]. unfold saves in *.
  rewrite flat_map_app, existsb_app, IH. cbn [flat_map]. rewrite app_nil_r. apply orb_comm.
Qed.
Lemma no_acc_rev l : existsb is_acc l = false -> existsb is_acc (rev l) = false.
Proof.
  intros Hl. destruct (existsb is_acc (rev l)) eqn:E; [|done]. apply existsb_exists in E as (k & Hk%in_rev & Ha).
  rewrite <- Hl. symmetry. apply existsb_exists. by exists k.
Qed.
Lemma all_words_range s l : inv s -> Forall saved_ok l -> Forall (fun v => 0 <= v < 2 ^ 16) (all_words (GPR s) (ACC s) l).
Proof.
  intros Hs. induction 1 as [|k l Hk Hl IH]; [constructor|]. unfold all_words. cbn [flat_map]. apply Forall_app. split; [|exact IH].
  apply words_range; [exact Hk|intros n _; apply (wf_znth_regs s (proj1 Hs))|intros n _]. apply (wf_znth_acc s (proj1 Hs)).
Qed.
(** The stack pointer is set to the saved words. *)
Lemma unlocal_run p s0 s1 s2 : plan_ok p -> inv s0 -> frame_size p < GPR s0 15 <= 0x8000 -> entered p s0 s1 ->
  left_alone p s0 s1 s2 ->
  exists s3, exec_all (if f_frame p
     then if 0 <? exit_locals p + total_of (f_regs p) + total_of (f_accs p)
          then [(true, 0x01F00000 + 11 * 2 ^ 16 + exit_locals p mod 2 ^ 16)] else [(false, 0x41F6)]
     else raise (exit_locals p)) s2 = Ret tt s3 /\
    changed s2 (set 15 (GPR s1 15 + exit_locals p) (GPR s2)) (ACC s2) s3.
Proof.
  intros [_ _ Hl _] Hs0 Hsp [_ Esp _ _ _ _ _ _] [I2 Hmd Hf _ _].
  pose proof (total_nonneg (arg_regs p)) as Na. pose proof (total_nonneg (f_regs p)) as Nr. pose proof (total_nonneg (f_accs p)) as Nc.
  assert (0 <= exit_locals p /\ GPR s1 15 + exit_locals p <= GPR s0 15) as [Hx Hx'].
  { unfold exit_locals, frame_size in *. destruct (folded p); lia. }
  unfold frame_size in *. destruct (f_frame p).
  - destruct (Z.ltb_spec 0 (exit_locals p + total_of (f_regs p) + total_of (f_accs p))) as [H0|H0].
    + destruct (add3_sp_does (exit_locals p) 11 s2) as (s3 & E & C); [lia|lia|exact I2|].
      exists s3. split; [by apply exec_one|]. by rewrite Hf, Z.mod_small in C by lia.
    + destruct (mv_sp_does s2 I2) as (s3 & E & C). exists s3. split; [by apply exec_one|].
      rewrite Hf in C. by replace (GPR s1 15 + exit_locals p) with (GPR s1 15) by lia.
  - destruct (raise_run (exit_locals p) s2) as (s3 & E & [I M P G A C]); [lia|lia|exact I2|exact Hmd|].
    exists s3. split; [exact E|]. split; [exact I| |exact A|exact C|by rewrite M].
    intros n Hn. unfold set. destruct (Z.eqb_spec n 15) as [->|]; [by rewrite P, Hf|apply G; lia].
Qed.
Lemma folded_nothing p : plan_ok p -> folded p = true -> f_regs p = [] /\ f_accs p = [].
Proof.
  intros [_ _ _ Hlink] Hf. unfold folded in Hf. destruct (f_regs p) eqn:Er; [|done]. split; [done|].
  destruct (f_accs p); [done|]. by specialize (Hlink ltac:(done)).
Qed.

Lemma return_run p s0 s1 s2 : plan_ok p -> inv s0 -> frame_size p < GPR s0 15 <= 0x8000 -> entered p s0 s1 ->
  left_alone p s0 s1 s2 ->
  exists s3, exec_all (exit_insns p) s2 = Ret tt s3 /\ returned p s0 s2 s3.
Proof.
  intros Hp Hs0 Hsp He Hla. pose proof Hp as [[Hr Hra] Hac Hl Hlink]. destruct (acc_list_ok _ Hac) as [Hc Hca].
  pose proof (total_nonneg (arg_regs p)) as Na. pose proof (total_nonneg (f_regs p)) as Nr. pose proof (total_nonneg (f_accs p)) as Nc.
  destruct (unlocal_run p s0 s1 s2 Hp Hs0 Hsp He Hla) as (s3 & E3 & [I3 G3 A3 C3 M3]).
  destruct He as [_ Esp _ _ _ Hw _ _], Hla as [I2 Hmd _ Hkept Hl13]. rewrite Hmd in M3.
  pose proof (frame_words_length p s0) as Lw.
  unfold frame_words in Hw, Lw. rewrite app_assoc in Hw, Lw. apply holds_app in Hw as [Hw _].
  rewrite length_app, Nat2Z.inj_add, Z.mul_add_distr_l, (all_words_length _ _ (rev (arg_regs p))), total_rev in Lw.
  assert (holds s3 (GPR s1 15 + f_locals p) (all_words (GPR s0) (ACC s0) (rev (f_accs p)) ++ all_words (GPR s0) (ACC s0) (rev (f_regs p)))) as Hw3.
  { eapply holds_same; [|exact Hw]. intros i Hi. rewrite C3 by (unfold on_chip, frame_size in *; lia).
    apply Hkept; unfold frame_size in *; lia. }
  apply holds_app in Hw3 as [Ha Hg].
  rewrite all_words_length, total_rev in Hg.
  assert (GPR s3 15 = GPR s1 15 + exit_locals p) as P3 by (rewrite G3, set_eq by lia; done).
  assert (exit_locals p + total_of (f_accs p) + total_of (f_regs p) + exit_args p = frame_size p /\
    (folded p = false -> exit_locals p = f_locals p) /\ 0 <= exit_args p <= 8 /\ 0 <= exit_locals p) as (Et & Eu & Ex & Ey).
  { assert (total_of (arg_regs p) <= 8) by (unfold arg_regs; by destruct (f_varargs p)).
    unfold exit_locals, exit_args, frame_size. destruct (folded p); (split; [lia|split; [done|lia]]). }
  assert (holds s3 (GPR s3 15) (all_words (GPR s0) (ACC s0) (rev (f_accs p)))) as Ha3.
  { destruct (folded p) eqn:Ef; [|by rewrite P3, Eu].
    destruct (folded_nothing p Hp Ef) as [_ ->]. apply holds_nil. }
  destruct (restores_run Hcalloc (f_accs p) Hc s3 _ I3 M3 ltac:(lia) ltac:(unfold frame_size in *; lia)
    ltac:(by rewrite all_words_length, total_rev) Ha3) as (s4 & E4 & [I4 M4 P4 G4 A4 C4]).
  { apply all_words_range; [done|by apply Forall_rev]. }
  assert (holds s4 (GPR s4 15) (all_words (GPR s0) (ACC s0) (rev (f_regs p)))) as Hg4.
  { destruct (folded p) eqn:Ef; [by destruct (folded_nothing p Hp Ef) as [-> _]; apply holds_nil|].
    eapply holds_same; [|rewrite P4, P3, Eu by done; exact Hg]. intros i Hi.
    apply C4. pose proof (all_words_length (GPR s0) (ACC s0) (rev (f_regs p))) as Lr. rewrite total_rev in Lr.
    rewrite Eu in Et by done. unfold on_chip, frame_size in *. lia. }
  destruct (restores_run Hcalloc (rev (f_regs p)) ltac:(by apply Forall_rev) s4 _ I4 M4 ltac:(lia)
    ltac:(rewrite total_rev; unfold frame_size in *; lia) ltac:(by rewrite all_words_length) Hg4) as (s5 & E5 & [I5 M5 P5 G5 A5 C5]).
  { apply all_words_range; [done|by apply Forall_rev]. }
  rewrite total_rev in P5.
  destruct (raise_run (exit_args p) s5 ltac:(lia) ltac:(lia) I5 M5) as (s6 & E6 & [I6 M6 P6 G6 A6 C6]).
  destruct (jmp_does s6 I6) as (s7 & E7 & I7 & Epc & G7 & A7 & C7).
  exists s7. split.
  { unfold exit_insns. rewrite (exec_app _ _ _ _ E3), (exec_app _ _ _ _ E4), (exec_app _ _ _ _ E5), (exec_app _ _ _ _ E6).
    by apply exec_one. }
  destruct (accs_restored (GPR s0) (ACC s0) (f_accs p) (GPR s3, ACC s3) Hac) as [Fg Fa]; [intros n _; apply (wf_znth_acc s0 (proj1 Hs0))|].
  destruct (regs_restored (GPR s0) (ACC s0) (rev (f_regs p))) with (f := (GPR s4, ACC s4)) as [Fr Fra].
  { by apply no_acc_rev. }
  assert (forall n, 0 <= n < 15 -> same_all (f_accs p) n = true -> GPR s4 n = GPR s2 n) as Hother.
  { intros n Hn Hsame. rewrite G4 by done. transitivity (GPR s3 n); [|by rewrite G3, set_ne by lia].
    unfold same_all in Hsame. destruct (f_accs p) as [|k l] eqn:El; [done|]. rewrite <- El in *.
    assert (existsb is_acc (f_accs p) = true) as Hex by (rewrite El in Hca |- *; apply andb_prop in Hca as [Hk _]; simpl; by rewrite Hk).
    rewrite Hex in Hsame. by rewrite Fg. }
  assert (forall n, 0 <= n < 15 -> GPR s7 n = if saves (f_regs p) n then GPR s0 n else GPR s4 n) as Hregs.
  { intros n Hn. by rewrite G7, G6, G5, Fr, saves_rev by lia. }
  assert (forall n, 0 <= n < 15 -> saves (f_regs p) n = true -> GPR s7 n = GPR s0 n) as Hsaved.
  { intros n Hn Hsv. by rewrite Hregs, Hsv. }
  split.
  - exact I7.
  - rewrite Epc, <- G7 by lia. destruct (saves (f_regs p) 13) eqn:E13; [by apply Hsaved|].
    rewrite Hregs, E13, Hother by first [lia | destruct (f_accs p); [done|by specialize (Hlink ltac:(done))]]. by apply Hl13.
  - rewrite G7, P6, P5, P4, P3, Esp by lia. lia.
  - exact Hsaved.
  - intros n Hn Hsv Hsame. by rewrite Hregs, Hsv, Hother.
  - intros n Hn. rewrite A7, A6, A5, Fra by done. cbn [snd]. rewrite A4, Fa by done.
    cbn [snd]. unfold acc_back. destruct (f_accs p) as [|[m|m|m] [|? ?]]; first [reflexivity | by rewrite A3 by done].
  - intros b Hb. by rewrite C7, C6, C5, C4, C3.
Qed.
End Frames.
