(* ===== verification/Unwind.v ===== *)
(** * Frames: the debugger finds what the prologue saved

    A function's prologue, as the machine executes it and as [d10v_frame_find_saved_regs]
    follows it in the code. *)
From S2P Require Import Prelude CInt Opcodes State Memory Cregs Gdb Tdep GdbSpec.
From S2P Require Import SimopsAlu SimopsAcc SimopsFlow SimopsMem SimopsTrap Interp Logic OpRules.
From S2P Require Import Machine Decode MemProps Effects AluSpec AccSpec FlowSpec NumSpec MemSpec Cycle Step SimTarget Prologue.
#[local] Open Scope gdb_scope.

(** ** Well-formed prologues *)

(** The words that an instruction stores, relative to the stack pointer on entry *)
Definition save_slots (c : prologue_insn) (p : prologue) : list (Z * Z) :=
  match c with
  | P_save pre n off two =>
      let a := next_addr p + pre + off in if two then [(n + 1, a + 2); (n, a)] else [(n, a)]
  | _ => []
  end.
(** By how much an instruction moves the stack pointer *)
Definition pro_move (c : prologue_insn) : Z :=
  match c with P_adjust d | P_save d _ _ _ => d | _ => 0 end.

(** An instruction that a prologue may have after those that led to [p]: the stack stays in
    on-chip memory below the stack pointer on entry, [cfa]; the stack pointer does not move
    once the frame pointer is set; a register that is saved still has its value, and does
    not overwrite another one. *)
Record step_ok (cfa : Z) (c : prologue_insn) (p : prologue) : Prop := {
  ok_move : 0 <= cfa + next_addr p + pro_move c;
  ok_below : next_addr p + pro_move c <= 0;
  ok_frame : uses_frame p <> 0 -> pro_move c = 0;
  ok_slots : forall n off, In (n, off) (save_slots c p) ->
    0 <= n < 15 /\ (n = FP_REGNUM -> uses_frame p = 0) /\ 0 < cfa + off /\ off + 2 <= 0;
  ok_apart : forall n off m, In (n, off) (save_slots c p) -> 0 <= m < 15 -> reg m p <> 0 ->
    (forall o, ~ In (m, o) (save_slots c p)) -> disjoint_words (cfa + off) (cfa + s32 (reg m p))
}.
Fixpoint prologue_ok (cfa : Z) (l : list (bool * Z)) (p : prologue) : Prop :=
  match l with
  | [] => True
  | i :: l' => exists c, classify i = Some c /\ step_ok cfa c p /\ prologue_ok cfa l' (scan_pro c p)
  end.
(** The same as a test *)
Definition step_test (cfa : Z) (c : prologue_insn) (p : prologue) : bool :=
  let slots := save_slots c p in
  (0 <=? cfa + next_addr p + pro_move c) && (next_addr p + pro_move c <=? 0) &&
  ((uses_frame p =? 0) || (pro_move c =? 0)) &&
  forallb (fun x => (0 <=? x.1) && (x.1 <? 15) && (negb (x.1 =? FP_REGNUM) || (uses_frame p =? 0)) &&
                    (0 <? cfa + x.2) && (x.2 + 2 <=? 0)) slots &&
  forallb (fun x => forallb (fun m => existsb (fun y => y.1 =? m) slots || (reg m p =? 0) ||
      (x.2 + 2 <=? s32 (reg m p)) || (s32 (reg m p) + 2 <=? x.2)) (map Z.of_nat (seq 0 15))) slots.
Fixpoint prologue_test (cfa : Z) (l : list (bool * Z)) (p : prologue) : bool :=
  match l with
  | [] => true
  | i :: l' => match classify i with
               | Some c => step_test cfa c p && prologue_test cfa l' (scan_pro c p)
               | None => false
               end
  end.
Lemma step_test_ok cfa c p : step_test cfa c p = true -> step_ok cfa c p.
Proof.
  unfold step_test. intros [[[[?%Z.leb_le ?%Z.leb_le]%andb_prop Hf]%andb_prop Hs]%andb_prop Ha]%andb_prop.
  rewrite forallb_forall in Hs, Ha. split; [done|done| | |].
  - apply orb_prop in Hf as [?%Z.eqb_eq|?%Z.eqb_eq]; done.
  - intros n off Hin. apply Hs in Hin.
    apply andb_prop in Hin as [[[[?%Z.leb_le ?%Z.ltb_lt]%andb_prop Hfp]%andb_prop ?%Z.ltb_lt]%andb_prop ?%Z.leb_le].
    cbn [fst snd] in *. split; [done|]. split; [|done]. intros ->. rewrite Z.eqb_refl in Hfp. by apply Z.eqb_eq in Hfp.
  - intros n off m Hin Hm Hr Hno. apply Ha in Hin. rewrite forallb_forall in Hin.
    specialize (Hin m). cbn [fst snd] in Hin. unfold disjoint_words.
    assert (In m (map Z.of_nat (seq 0 15))) as Hl.
    { apply in_map_iff. exists (Z.to_nat m). split; [lia|]. apply in_seq. lia. }
    apply Hin in Hl. apply orb_prop in Hl as [[[Hl|?%Z.eqb_eq]%orb_prop|?%Z.leb_le]%orb_prop|?%Z.leb_le]; [|done|lia|lia].
    apply existsb_exists in Hl as ([k o] & Hk & E%Z.eqb_eq). cbn [fst] in E. subst k. by destruct (Hno o).
Qed.
Lemma prologue_test_ok cfa l : forall p, prologue_test cfa l p = true -> prologue_ok cfa l p.
Proof.
  induction l as [|i l IH]; intros p Ht; [done|]. cbn [prologue_test] in Ht.
  destruct (classify i) as [c|] eqn:E; [|done]. apply andb_prop in Ht as [Hc Ht].
  exists c. split; [exact E|]. split; [by apply step_test_ok|by apply IH].
Qed.
Definition scan_start : prologue := Prologue_ 0 0 (repeat 0 (Z.to_nat NUM_REGS)).
(** Whether it goes on to the end, and what it has found *)
Fixpoint scan_all (l : list (bool * Z)) (p : prologue) : bool * prologue :=
  match l with
  | [] => (true, p)
  | i :: l' => let '(go_on, p) := scan_insn i p in if go_on then scan_all l' p else (false, p)
  end.

(** ** The invariant *)

(** The machine is in [s], where [s0] was the state on entry, and the debugger has come to
    [p]. *)
Record tracks (cfa : Z) (s0 s : state) (p : prologue) : Prop := {
  tr_inv : inv s;
  tr_len : length (regs p) = 37%nat;
  tr_next : 0 <= cfa + next_addr p /\ next_addr p <= 0;
  tr_sp : GPR s SP_REGNUM = cfa + next_addr p;
  tr_gpr : forall k, 0 <= k < 15 -> (k = FP_REGNUM -> uses_frame p = 0) -> GPR s k = GPR s0 k;
  tr_frame : uses_frame p <> 0 -> GPR s FP_REGNUM = GPR s SP_REGNUM;
  tr_saved : forall n, 0 <= n < 15 -> reg n p <> 0 ->
    0 < cfa + s32 (reg n p) /\ s32 (reg n p) + 2 <= 0 /\ chip_word s (cfa + s32 (reg n p)) = GPR s0 n;
  tr_rest : forall m, 15 <= m < NUM_REGS -> reg m p = 0
}.

Lemma reg_set_reg m n v p : length (regs p) = 37%nat -> 0 <= m < 37 -> 0 <= n < 37 ->
  reg m (set_reg n v p) = if m =? n then u32 v else reg m p.
Proof.
  intros Hl Hm Hn. unfold reg, set_reg. cbn [regs]. rewrite !nth_lookup.
  destruct (Z.eqb_spec m n) as [->|Hne].
  - rewrite list_lookup_insert_eq by lia. done.
  - by rewrite list_lookup_insert_ne by lia.
Qed.
Lemma scan_save_fields n off two p : next_addr (scan_save n off two p) = next_addr p /\
  uses_frame (scan_save n off two p) = uses_frame p /\ length (regs (scan_save n off two p)) = length (regs p).
Proof. unfold scan_save, set_reg. destruct two; cbn; by rewrite ?length_insert. Qed.

Lemma s32_u32 v : - 2 ^ 31 <= v < 2 ^ 31 -> s32 (u32 v) = v.
Proof. intros H. unfold s32, u32, wrap_signed. zdml. Qed.
Lemma next_scan c p : - 2 ^ 31 <= next_addr p + pro_move c < 2 ^ 31 ->
  next_addr (scan_pro c p) = next_addr p + pro_move c.
Proof.
  intros H. destruct c as [| |d|pre n off two]; cbn [scan_pro pro_move next_addr set_next_addr] in *; try lia.
  - unfold s32, wrap_signed. zdml.
  - rewrite (proj1 (scan_save_fields _ _ _ _)). destruct (Z.eqb_spec pre 0) as [->|]; [lia|].
    cbn [next_addr set_next_addr]. unfold s32, wrap_signed. zdml.
Qed.
Lemma frame_scan c p : uses_frame (scan_pro c p) = match c with P_frame => 1 | _ => uses_frame p end.
Proof.
  destruct c as [| | |pre n off two]; [done..|]. cbn [scan_pro].
  rewrite (proj1 (proj2 (scan_save_fields _ _ _ _))). by destruct (pre =? 0).
Qed.
Lemma length_scan c p : length (regs (scan_pro c p)) = length (regs p).
Proof.
  destruct c as [| | |pre n off two]; [done..|]. cbn [scan_pro].
  rewrite (proj2 (proj2 (scan_save_fields _ _ _ _))). by destruct (pre =? 0).
Qed.

(** What is recorded of a register: where the instruction stores it, or as before *)
Lemma reg_scan cfa c p m : length (regs p) = 37%nat -> step_ok cfa c p ->
  - 2 ^ 31 <= next_addr p + pro_move c < 2 ^ 31 -> 0 <= m < NUM_REGS ->
  (exists off, In (m, off) (save_slots c p) /\ reg m (scan_pro c p) = u32 off) \/
  ((forall off, ~ In (m, off) (save_slots c p)) /\ reg m (scan_pro c p) = reg m p).
Proof.
  intros Hl Hok Hr Hm. unfold NUM_REGS in Hm. destruct c as [| | |pre n off two]; try by (right; split; [intros ? []|]).
  pose proof (ok_slots _ _ _ Hok) as Hs. cbn [scan_pro save_slots pro_move] in *.
  set (p1 := if pre =? 0 then p else _). assert (regs p1 = regs p) as Er by (unfold p1; by destruct (pre =? 0)).
  assert (length (regs p1) = 37%nat) as Hl1 by (by rewrite Er).
  assert (next_addr p1 = next_addr p + pre) as En.
  { unfold p1. destruct (Z.eqb_spec pre 0) as [->|]; [lia|]. cbn [next_addr set_next_addr].
    unfold s32, wrap_signed. zdml. }
  assert (reg m p1 = reg m p) as Em by (unfold reg; by rewrite Er).
  rewrite En. destruct two; unfold scan_save.
  - destruct (Hs (n + 1) _ (or_introl eq_refl)) as [Hn1 _].
    destruct (Hs n _ (or_intror (or_introl eq_refl))) as [Hn _].
    rewrite !reg_set_reg by (first [lia | cbn [regs set_reg]; by rewrite length_insert]).
    destruct (Z.eqb_spec m (n + 1)) as [->|H1]; [left; eexists; split; [by left|done]|].
    destruct (Z.eqb_spec m n) as [->|H2]; [left; eexists; split; [by right; left|done]|].
    right. split; [|done]. intros o [[= E _]|[[= E _]|[]]]; lia.
  - destruct (Hs n _ (or_introl eq_refl)) as [Hn _]. rewrite reg_set_reg by lia.
    destruct (Z.eqb_spec m n) as [->|H2]; [left; eexists; split; [by left|done]|].
    right. split; [|done]. intros o [[= E _]|[]]; lia.
Qed.

(** The stores are those of the slots. *)
Lemma stores_slots cfa c p s : GPR s SP_REGNUM = cfa + next_addr p ->
  pro_stores c s = map (fun x => (cfa + x.2, GPR s x.1)) (save_slots c p).
Proof.
  intros E. destruct c as [| | |pre n off []]; try done; unfold pro_stores, save_slots; rewrite E;
    cbn [map fst snd]; by rewrite !Z.add_assoc.
Qed.

Section Follow.
Context `{Host} (Hcalloc : forall s seg, host_calloc s seg = true).

Lemma tracks_saved cfa s0 s p c s' :
  0 <= cfa <= 0x8000 -> tracks cfa s0 s p -> step_ok cfa c p -> moved s (pro_gpr c s) (pro_stores c s) s' ->
  forall n, 0 <= n < 15 -> reg n (scan_pro c p) <> 0 ->
    let off := s32 (reg n (scan_pro c p)) in
    0 < cfa + off /\ off + 2 <= 0 /\ chip_word s' (cfa + off) = GPR s0 n.
Proof.
  intros Hc Ht Hok Hmv n Hn Hr. cbv zeta. destruct Ht, Hok.
  destruct (reg_scan cfa c p n) as [(off & Hin & E)|[Hno E]]; [done|by split|lia|unfold NUM_REGS; lia| |].
  - destruct (ok_slots0 n off Hin) as (_ & Hfp & H0 & H2). rewrite E, s32_u32 by lia.
    split; [done|split; [done|]]. rewrite <- (tr_gpr0 n Hn Hfp). apply (mv_stored _ _ _ _ Hmv).
    rewrite (stores_slots cfa c p) by done. apply in_map_iff. by exists (n, off).
  - rewrite E in *. destruct (tr_saved0 n Hn Hr) as (H0 & H2 & Ev). split; [done|split; [done|]].
    rewrite <- Ev. apply (mv_kept _ _ _ _ Hmv); [split; lia|]. intros a v Hin.
    rewrite (stores_slots cfa c p) in Hin by done. apply in_map_iff in Hin as ([m o] & [= <- <-] & Hin).
    by apply (ok_apart0 m o n Hin).
Qed.

(** One instruction *)
Lemma tracks_step cfa s0 s p i c :
  0 <= cfa <= 0x8000 -> tracks cfa s0 s p -> classify i = Some c -> 0 <= i.2 < 2 ^ 30 -> step_ok cfa c p ->
  exists s', exec_insn i s = Ret tt s' /\ tracks cfa s0 s' (scan_pro c p).
Proof.
  intros Hc Ht Hi Hr Hok. pose proof (tr_sp _ _ _ _ Ht) as Hsp.
  destruct (classified_does Hcalloc i c Hi Hr s (tr_inv _ _ _ _ Ht)) as (s' & E & Hs' & Hmv).
  { unfold stores_on_chip. rewrite (stores_slots cfa c p) by done. apply List.Forall_forall.
    intros x Hx. apply in_map_iff in Hx as ([n off] & <- & Hin).
    destruct (ok_slots _ _ _ Hok n off Hin) as (_ & _ & ? & ?). cbn [fst snd]. split; lia. }
  exists s'. split; [exact E|]. pose proof (tracks_saved cfa s0 s p c s' Hc Ht Hok Hmv) as Hsaved.
  destruct Ht, Hok, Hmv as [Hg _ _ _ _].
  assert (next_addr (scan_pro c p) = next_addr p + pro_move c) as En by (apply next_scan; lia).
  split; [exact Hs'|by rewrite length_scan|rewrite En; lia| | | |exact Hsaved|].
  - rewrite Hg, En by (unfold SP_REGNUM; lia).
    assert ((SP_REGNUM =? FP_REGNUM) = false) as Ef by done.
    destruct c as [| |d|d n off two]; cbn [pro_gpr pro_move] in *; rewrite ?Ef, ?Z.eqb_refl, Hsp; zdml.
  - intros k Hk Hfp. rewrite frame_scan in Hfp. rewrite Hg by lia.
    assert ((k =? SP_REGNUM) = false) as Ek by (unfold SP_REGNUM; lia).
    destruct c as [| |d|d n off two]; cbn [pro_gpr] in *; rewrite ?Ek; try by apply tr_gpr0.
    destruct (Z.eqb_spec k FP_REGNUM) as [->|]; [by specialize (Hfp eq_refl)|]. by apply tr_gpr0.
  - intros Hfp. rewrite frame_scan in Hfp. rewrite !Hg by (unfold SP_REGNUM, FP_REGNUM; lia).
    destruct c as [| |d|d n off two]; cbn [pro_gpr pro_move] in *; try by auto.
    + rewrite (tr_frame0 Hfp), (ok_frame0 Hfp), Z.add_0_r. simpl. rewrite Z.mod_small by lia. done.
    + rewrite (tr_frame0 Hfp), (ok_frame0 Hfp), Z.add_0_r. simpl. rewrite Z.mod_small by lia. done.
  - intros m Hm. destruct (reg_scan cfa c p m) as [(off & Hin & _)|[_ ->]]; [done|by split|lia|lia| |by apply tr_rest0].
    destruct (ok_slots0 _ _ Hin) as [Hn _]. lia.
Qed.

(** A whole prologue *)
Lemma tracks_all cfa s0 l : forall s p,
  0 <= cfa <= 0x8000 -> tracks cfa s0 s p -> Forall (fun i => 0 <= i.2 < 2 ^ 30) l -> prologue_ok cfa l p ->
  exists s' p', exec_all l s = Ret tt s' /\ scan_all l p = (true, p') /\ tracks cfa s0 s' p'.
Proof.
  induction l as [|i l IH]; intros s p Hc Ht Hr Hok.
  { exists s, p. done. }
  destruct Hok as (c & Hi & Hstep & Hok). apply List.Forall_cons_iff in Hr as [Hr Hrl].
  destruct (tracks_step cfa s0 s p i c Hc Ht Hi Hr Hstep) as (s1 & E & Ht1).
  destruct (IH s1 (scan_pro c p) Hc Ht1 Hrl Hok) as (s' & p' & E' & Es & Ht').
  exists s', p'. split; [|split; [|exact Ht']].
  - cbn [exec_all fold_right]. unfold bind. rewrite E. exact E'.
  - cbn [scan_all]. by rewrite (scan_classified i c p Hi Hr).
Qed.
Lemma tracks_start s : inv s -> tracks (GPR s SP_REGNUM) s s scan_start.
Proof.
  intros Hs. pose proof (wf_znth_regs s (proj1 Hs) SP_REGNUM) as Hsp. split; try done.
  - cbn [next_addr scan_start]. split; [|lia]. rewrite Z.add_0_r. apply Hsp.
  - cbn [next_addr scan_start]. lia.
  - intros n Hn Hr. exfalso. apply Hr. unfold reg, scan_start. cbn [regs].
    apply nth_repeat.
  - intros m Hm. apply nth_repeat.
Qed.
End Follow.

(** ** The debugger reads the code *)

(** The instructions of a word, in the order of execution *)
Definition word_insns (w : Z) : list (bool * Z) :=
  if is_long w then [(true, Z.land w 0x3FFFFFFF)]
  else let '(op1, op2) := short_pair w in [(false, op1); (false, op2)].

Lemma long_parts w : 0 <= w < 2 ^ 32 -> is_long w = true -> Z.lor 0xC0000000 (Z.land w 0x3FFFFFFF) = w.
Proof.
  intros Hw Hl%Z.eqb_eq. rewrite <- Hl at 1. rewrite <- Z.land_lor_distr_r.
  change (Z.lor 0xC0000000 0x3FFFFFFF) with (Z.ones 32). rewrite land_ones_mod by lia. by apply Z.mod_small.
Qed.
Lemma scan_word w p : 0 <= w < 2 ^ 32 -> find_regs_word w p = scan_all (word_insns w) p.
Proof.
  intros Hw. unfold word_insns. destruct (is_long w) eqn:E.
  - cbn [scan_all]. unfold scan_insn. cbn [fst snd]. rewrite long_parts by done.
    destruct (find_regs_word w p) as [[] p1]; reflexivity.
  - unfold find_regs_word. rewrite E. destruct (short_pair w) as [op1 op2]. cbn [scan_all].
    unfold scan_insn. cbn [fst snd]. destruct (prologue_find_regs op1 p) as [[] p1]; [|reflexivity]. simpl negb. cbv iota.
    destruct (prologue_find_regs op2 p1) as [[] p2]; reflexivity.
Qed.
Lemma scan_app l1 : forall l2 p,
  scan_all (l1 ++ l2) p = let '(go_on, p1) := scan_all l1 p in if go_on then scan_all l2 p1 else (false, p1).
Proof.
  induction l1 as [|i l1 IH]; intros l2 p; [done|]. cbn [app scan_all].
  destruct (scan_insn i p) as [[] p1]; [apply IH|done].
Qed.
(** Whether an instruction is recognised does not depend on what was before it, and one
    that is not changes nothing. *)
Lemma scan_stops i p q : (scan_insn i q).1 = false -> scan_insn i p = (false, p).
Proof.
  destruct i as [[] op]; unfold scan_insn, find_regs_word, prologue_find_regs; cbn [fst snd].
  - rewrite (proj2 (Z.eqb_eq _ _) (fm11_long op) : is_long (Z.lor 0xC0000000 op) = true).
    destruct (is_add3_sp _); [discriminate|]. destruct (is_st_sp _); [discriminate|].
    destruct (is_st2w_sp _); [discriminate|reflexivity].
  - repeat (destruct (_ =? _); [discriminate|]). reflexivity.
Qed.

Section Debugger.
Context `{Target}.

(** The code at an address *)
Fixpoint code_at (g : inferior) (a : Z) (ws : list Z) : Prop :=
  match ws with
  | [] => True
  | w :: ws' => target_read_memory (mem g) a 4 = Some (longword_bytes w) /\ 0 <= w < 2 ^ 32 /\
                code_at g (u32 (a + 4)) ws'
  end.

Lemma read_code g a w : target_read_memory (mem g) a 4 = Some (longword_bytes w) -> 0 <= w < 2 ^ 32 ->
  exists x, read_memory_integer a 4 g = Returns x g /\ u32 x = w.
Proof.
  intros E Hw. unfold read_memory_integer, read_memory, gbind, gget. rewrite E. unfold longword_bytes, gret.
  change 0xff with (Z.ones 8). rewrite !land_ones_mod, !Z.shiftr_div_pow2 by lia.
  destruct (extract_signed_4 ((w / 2 ^ 24) mod 2 ^ 8) ((w / 2 ^ 16) mod 2 ^ 8) ((w / 2 ^ 8) mod 2 ^ 8) (w mod 2 ^ 8) g)
    as (x & Ex & Eu); [unfold is_byte; zdml..|].
  exists x. split; [exact Ex|]. rewrite Eu. zdml.
Qed.

(** The loop over the words of a prologue ends where it ends. *)
Lemma find_regs_code g ws : forall fuel a p p',
  code_at g a ws -> scan_all (flat_map word_insns ws) p = (false, p') -> (length ws <= fuel)%nat ->
  find_regs_loop fuel a p g = Returns p' g.
Proof.
  induction ws as [|w ws IH]; intros fuel a p p' Hc Hs Hf; [done|].
  destruct fuel as [|fuel]; [simpl in Hf; lia|]. destruct Hc as (Hr & Hw & Hc).
  destruct (read_code g a w Hr Hw) as (x & E & Ex). cbn [find_regs_loop]. unfold gbind at 1. rewrite E, Ex.
  cbn [flat_map] in Hs. rewrite scan_app, <- scan_word in Hs by done.
  destruct (find_regs_word w p) as [[] p1].
  - apply IH; [done|done|simpl in Hf; lia].
  - injection Hs as <-. done.
Qed.
End Debugger.

(** ** The frame *)

Section Frame.
Context `{Target}.

Lemma read_word g a v : target_read_memory (mem g) a 2 = Some (word_bytes v) -> 0 <= v < 2 ^ 16 ->
  read_memory_unsigned_integer a 2 g = Returns v g.
Proof.
  intros E Hv. unfold read_memory_unsigned_integer, read_memory, gbind, gget. rewrite E. unfold word_bytes.
  unfold extract_unsigned_integer, gret. cbn [length]. rewrite (proj2 (Z.ltb_ge 8 _)) by lia. cbn [fold_left].
  change 0xff with (Z.ones 8). rewrite !land_ones_mod, !Z.shiftr_div_pow2 by lia. f_equal.
  change (Z.shiftl 0 8) with 0. change (u64 0) with 0. rewrite Z.lor_0_l.
  assert (u64 (Z.shiftl ((v / 2 ^ 8) mod 2 ^ 8) 8) = Z.shiftl ((v / 2 ^ 8) mod 2 ^ 8) 8) as ->
    by (rewrite Z.shiftl_mul_pow2 by lia; unfold u64; zdml).
  rewrite lor_add_disjoint by zdml. zdml.
Qed.
Lemma sees_register s g k : sees s g -> 0 <= k < 16 -> read_register k g = Returns (GPR s k) g.
Proof.
  intros [Hb Hg _] Hk. rewrite <- Hg by done. apply read_register_eq; [done|unfold A0_REGNUM; lia].
Qed.

(** The entry of a register *)
Lemma relocated cfa s0 s p n :
  tracks cfa s0 s p -> 0 <= cfa <= 0x8000 -> 0 <= n < NUM_REGS ->
  nth (Z.to_nat n) (relocate_regs (GPR s SP_REGNUM) (next_addr p) (regs p)) 0 =
  if reg n p =? 0 then 0 else cfa + s32 (reg n p).
Proof.
  intros Ht Hc Hn. assert (reg n p <> 0 -> n < 15 /\ 0 < cfa + s32 (reg n p) /\ s32 (reg n p) + 2 <= 0) as Hr.
  { intros Hr. destruct (decide (n < 15)) as [Hn'|]; [|by rewrite (tr_rest _ _ _ _ Ht) in Hr by lia].
    destruct (tr_saved _ _ _ _ Ht n ltac:(lia) Hr) as (? & ? & _). by split. }
  unfold relocate_regs. rewrite nth_lookup, list_lookup_imap. rewrite (tr_sp _ _ _ _ Ht).
  unfold reg in *. rewrite nth_lookup in *. destruct (regs p !! Z.to_nat n) as [r|]; [|done]. simpl in *.
  unfold truth. destruct (Z.eqb_spec r 0) as [->|Hr0]; [by rewrite andb_false_r|].
  destruct (Hr Hr0) as (Hlt & H1 & H2). pose proof (tr_next _ _ _ _ Ht).
  rewrite (proj2 (Nat.ltb_lt _ _)) by lia. simpl. unfold u32, s32, wrap_signed in *. zdml.
Qed.
Lemma saved_word cfa s0 s p n :
  tracks cfa s0 s p -> 0 <= cfa <= 0x8000 -> 0 <= n < 15 -> reg n p <> 0 ->
  let a := cfa + s32 (reg n p) in a <> 0 /\ on_chip a /\ chip_word s a = GPR s0 n.
Proof.
  intros Ht Hc Hn Hr. destruct (tr_saved _ _ _ _ Ht n Hn Hr) as (H0 & H1 & E). cbv zeta.
  split; [lia|]. split; [split; lia|done].
Qed.

(** Where the debugger finds a register of the caller *)
Definition finds (s0 s : state) (fsr : list Z) (n : Z) : Prop :=
  let a := nth (Z.to_nat n) fsr 0 in
  if a =? 0 then GPR s n = GPR s0 n \/ (n = FP_REGNUM /\ GPR s n = GPR s SP_REGNUM)
  else on_chip a /\ chip_word s a = GPR s0 n.

Lemma finds_tracked cfa s0 s p fsr n :
  tracks cfa s0 s p -> 0 <= cfa <= 0x8000 -> 0 <= n < 15 ->
  nth (Z.to_nat n) fsr 0 = (if reg n p =? 0 then 0 else cfa + s32 (reg n p)) -> finds s0 s fsr n.
Proof.
  intros Ht Hc Hn E. unfold finds. cbv zeta. rewrite E. destruct (Z.eqb_spec (reg n p) 0) as [|Hr]; simpl.
  - destruct (decide (n = FP_REGNUM)) as [->|]; [|left; by apply (tr_gpr _ _ _ _ Ht)].
    destruct (decide (uses_frame p = 0)); [left; by apply (tr_gpr _ _ _ _ Ht)|].
    right. split; [done|]. by apply (tr_frame _ _ _ _ Ht).
  - destruct (saved_word cfa s0 s p n Ht Hc Hn Hr) as (Ha & ? & ?).
    by rewrite (proj2 (Z.eqb_neq _ _) Ha).
Qed.


(** The return address, from the stack or from the register *)
Lemma read_return s0 s g fsr : sees s g -> finds s0 s fsr LR_REGNUM ->
  (if truth (nth (Z.to_nat LR_REGNUM) fsr 0)
   then let* x := read_memory_unsigned_integer (nth (Z.to_nat LR_REGNUM) fsr 0) (REGISTER_RAW_SIZE LR_REGNUM) in gret (u32 x)
   else read_register LR_REGNUM) g = Returns (GPR s0 LR_REGNUM) g.
Proof.
  intros Hg Hlr. unfold finds in Hlr. cbv zeta in Hlr. unfold truth.
  destruct (Z.eqb_spec (nth (Z.to_nat LR_REGNUM) fsr 0) 0) as [_|_]; cbn [negb].
  - destruct Hlr as [E|[[=] _]]. rewrite <- E. apply sees_register; [done|unfold LR_REGNUM; lia].
  - destruct Hlr as [Ha E]. change (REGISTER_RAW_SIZE LR_REGNUM) with 2.
    pose proof (chip_word_range s (nth (Z.to_nat LR_REGNUM) fsr 0)) as Hr.
    rewrite (gbind_returns _ _ g (GPR s0 LR_REGNUM) g).
    + unfold gret. by rewrite u32_small by lia.
    + rewrite <- E. apply read_word; [by apply Hg|done].
Qed.

(** What the debugger finds out about a frame that was entered in [s0] *)
Record frame_found (s0 s : state) (fi fi' : frame_info) (fsr : list Z) : Prop := {
  ff_frame : Tdep.frame fi' = Tdep.frame fi;
  ff_pc : Tdep.pc fi' = Tdep.pc fi;
  ff_return : return_pc fi' = D10V_MAKE_IADDR (GPR s0 LR_REGNUM);
  ff_size : fi_size fi' = GPR s0 SP_REGNUM - GPR s SP_REGNUM;
  ff_sp : nth (Z.to_nat SP_REGNUM) fsr 0 = GPR s0 SP_REGNUM;
  ff_saved : forall n, 0 <= n < 15 -> finds s0 s fsr n;
  ff_rest : forall m, 16 <= m < NUM_REGS -> nth (Z.to_nat m) fsr 0 = 0
}.

(** The frame, once the prologue has been followed to [p] *)
Lemma find_saved s0 s p g fuel fi :
  let cfa := GPR s0 SP_REGNUM in
  tracks cfa s0 s p -> 0 <= cfa <= 0x8000 -> sees s g -> Tdep.frame fi = GPR s SP_REGNUM ->
  find_regs_loop fuel (get_pc_function_start (Tdep.pc fi)) scan_start g = Returns p g ->
  exists fi' fsr, d10v_frame_find_saved_regs fuel fi g = Returns (fi', fsr) g /\ frame_found s0 s fi fi' fsr.
Proof.
  intros cfa Ht Hc Hg Hfi Hp. pose proof (tr_next _ _ _ _ Ht) as Hnext. pose proof (tr_sp _ _ _ _ Ht) as Hsp.
  pose proof (fun n => relocated cfa s0 s p n Ht Hc) as Hrel.
  pose proof (fun n => finds_tracked cfa s0 s p (relocate_regs (GPR s SP_REGNUM) (next_addr p) (regs p)) n Ht Hc) as Hfind.
  unfold d10v_frame_find_saved_regs. cbv zeta. rewrite (gbind_returns _ _ g p g Hp).
  assert (s32 (- next_addr p) = cfa - GPR s SP_REGNUM) as -> by (rewrite Hsp; unfold s32, wrap_signed; zdml).
  rewrite (gbind_returns _ _ g (GPR s SP_REGNUM) g).
  2: { rewrite Hfi. destruct (Z.land _ 0xffff =? 0); [|done].
       rewrite (gbind_returns _ _ g (GPR s SP_REGNUM) g) by (apply sees_register; [done|unfold SP_REGNUM; lia]).
       unfold gret, D10V_MAKE_DADDR, DMEM_START. by rewrite Z.lor_0_r. }
  set (fsr := relocate_regs _ _ _) in *.
  rewrite (gbind_returns _ _ g (GPR s0 LR_REGNUM) g).
  2: { apply (read_return s0 s); [exact Hg|]. apply Hfind, Hrel; unfold LR_REGNUM, NUM_REGS; lia. }
  assert (nth (Z.to_nat SP_REGNUM) fsr 0 = 0) as Enosp.
  { rewrite Hrel by (unfold SP_REGNUM, NUM_REGS; lia). by rewrite (tr_rest _ _ _ _ Ht) by (unfold SP_REGNUM, NUM_REGS; lia). }
  assert (forall m, 16 <= m < NUM_REGS -> nth (Z.to_nat m) fsr 0 = 0) as Hunsaved.
  { intros m Hm. rewrite Hrel by lia. by rewrite (tr_rest _ _ _ _ Ht) by lia. }
  assert (length fsr = 37%nat) as Hlen by (unfold fsr, relocate_regs; rewrite length_imap; apply Ht).
  rewrite Enosp. unfold truth at 1. rewrite Z.eqb_refl. cbn [negb]. unfold truth.
  destruct (Z.eqb_spec (uses_frame p) 0) as [Huf|Huf]; cbn [negb]; unfold gret.
  - eexists _, _. split; [reflexivity|]. split; [done..| | |].
    + rewrite nth_lookup, list_lookup_insert_ne by done. rewrite list_lookup_insert_eq by (rewrite Hlen; unfold SP_REGNUM; lia).
      simpl. rewrite u32_small; lia.
    + intros n Hn. destruct (decide (n = FP_REGNUM)) as [->|Hne].
      * unfold finds. cbv zeta. rewrite nth_lookup, list_lookup_insert_eq by (rewrite length_insert, Hlen; unfold FP_REGNUM; lia).
        left. by apply (tr_gpr _ _ _ _ Ht).
      * apply (finds_tracked cfa s0 s p _ n Ht Hc Hn). rewrite <- Hrel by (unfold NUM_REGS; lia). rewrite !nth_lookup.
        by rewrite !list_lookup_insert_ne by (unfold FP_REGNUM, SP_REGNUM in *; lia).
    + intros m Hm. transitivity (nth (Z.to_nat m) fsr 0); [|by apply Hunsaved]. rewrite !nth_lookup.
      by rewrite !list_lookup_insert_ne by (unfold FP_REGNUM, SP_REGNUM in *; lia).
  - rewrite (gbind_returns _ _ g (GPR s FP_REGNUM) g) by (apply sees_register; [done|unfold FP_REGNUM; lia]).
    rewrite (tr_frame _ _ _ _ Ht Huf).
    eexists _, _. split; [reflexivity|]. split; [done..| | |].
    + rewrite nth_lookup, list_lookup_insert_eq by (rewrite Hlen; unfold SP_REGNUM; lia). simpl. rewrite u32_small; lia.
    + intros n Hn. apply (finds_tracked cfa s0 s p _ n Ht Hc Hn). rewrite <- Hrel by (unfold NUM_REGS; lia). rewrite !nth_lookup.
      by rewrite !list_lookup_insert_ne by (unfold SP_REGNUM in *; lia).
    + intros m Hm. transitivity (nth (Z.to_nat m) fsr 0); [|by apply Hunsaved]. rewrite !nth_lookup.
      by rewrite !list_lookup_insert_ne by (unfold SP_REGNUM in *; lia).
Qed.
(** ** Leaving a frame *)

(** A register is restored from the address recorded for it. *)
Lemma restore_reg_run s fsr n g1 :
  buffer_ok g1 -> 0 <= n < A0_REGNUM ->
  (forall a, on_chip a -> target_read_memory (mem g1) a 2 = Some (word_bytes (chip_word s a))) ->
  let a := nth (Z.to_nat n) fsr 0 in (a = 0 \/ on_chip a) ->
  exists g2, restore_reg fsr n g1 = Returns tt g2 /\ buffer_ok g2 /\ mem g2 = mem g1 /\
    forall k, 0 <= k < A0_REGNUM ->
      reg_value g2 k = if k =? n then if a =? 0 then reg_value g1 k else chip_word s a else reg_value g1 k.
Proof.
  intros Hb Hn Hread a Ha. unfold restore_reg. cbv zeta. fold a. unfold truth.
  destruct (Z.eqb_spec a 0) as [->|Hne]; cbn [negb].
  { exists g1. split; [done|split; [done|split; [done|]]]. intros k _. by destruct (k =? n). }
  destruct Ha as [->|Ha]; [done|]. pose proof (chip_word_range s a) as Hr.
  assert (REGISTER_RAW_SIZE n = 2) as -> by
    (unfold REGISTER_RAW_SIZE, A0_REGNUM in *; by rewrite (proj2 (Z.leb_gt _ _)) by lia).
  rewrite (gbind_returns _ _ g1 (chip_word s a) g1) by (by apply read_word; [apply Hread|]).
  assert (s64 (chip_word s a) = chip_word s a) as -> by (unfold s64, wrap_signed; zdml).
  destruct (write_register_eq g1 n (chip_word s a) Hb Hn) as (g2 & E & Hb2 & _ & Hm & Hv).
  exists g2. split; [done|split; [done|split; [done|]]]. intros k Hk. rewrite Hv by done.
  destruct (k =? n); [|done]. by rewrite Z.mod_small.
Qed.
Lemma restore_all_run s fsr l : forall g1,
  buffer_ok g1 -> Forall (fun n => 0 <= n < A0_REGNUM) l ->
  (forall a, on_chip a -> target_read_memory (mem g1) a 2 = Some (word_bytes (chip_word s a))) ->
  Forall (fun n => let a := nth (Z.to_nat n) fsr 0 in a = 0 \/ on_chip a) l ->
  exists g2, restore_all (restore_reg fsr) l g1 = Returns tt g2 /\ buffer_ok g2 /\ mem g2 = mem g1 /\
    forall k, 0 <= k < A0_REGNUM -> reg_value g2 k =
      let a := nth (Z.to_nat k) fsr 0 in
      if existsb (Z.eqb k) l then if a =? 0 then reg_value g1 k else chip_word s a else reg_value g1 k.
Proof.
  induction l as [|n l IH]; intros g1 Hb Hl Hread Ha.
  { exists g1. done. }
  apply List.Forall_cons_iff in Hl as [Hn Hl]. apply List.Forall_cons_iff in Ha as [Han Ha].
  destruct (restore_reg_run s fsr n g1 Hb Hn Hread Han) as (g2 & E & Hb2 & Hm2 & Hv2).
  destruct (IH g2 Hb2 Hl) as (g3 & E3 & Hb3 & Hm3 & Hv3); [by rewrite Hm2|done|].
  exists g3. split; [cbn [restore_all]; by rewrite (gbind_returns _ _ _ _ _ E)|].
  split; [done|split; [congruence|]]. intros k Hk. rewrite Hv3, Hv2 by done. cbv zeta. cbn [existsb].
  destruct (Z.eqb_spec k n) as [->|]; simpl; [|done].
  by destruct (existsb (Z.eqb n) l), (nth (Z.to_nat n) fsr 0 =? 0).
Qed.

(** The registers below the stack pointer *)
Lemma restore_gprs s0 s g fsr : sees s g -> (forall n, 0 <= n < 15 -> finds s0 s fsr n) ->
  exists g', restore_all (restore_reg fsr) (map Z.of_nat (seq 0 (Z.to_nat SP_REGNUM))) g = Returns tt g' /\
    buffer_ok g' /\ mem g' = mem g /\
    (forall n, 0 <= n < 15 -> reg_value g' n = GPR s0 n \/ (n = FP_REGNUM /\ reg_value g' n = GPR s SP_REGNUM)) /\
    (forall n, 15 <= n < A0_REGNUM -> reg_value g' n = reg_value g n).
Proof.
  intros [Hb Hgpr Hread] Hsaved. set (l := map Z.of_nat (seq 0 (Z.to_nat SP_REGNUM))).
  assert (forall n, In n l <-> 0 <= n < 15) as Hl.
  { intros n. unfold l. change (Z.to_nat SP_REGNUM) with 15%nat. rewrite in_map_iff. split.
    - intros (m & <- & Hm%in_seq). lia.
    - intros Hn. exists (Z.to_nat n). split; [lia|]. apply in_seq. lia. }
  destruct (restore_all_run s fsr l g Hb) as (g' & E & Hb' & Hm & Hv).
  { apply List.Forall_forall. intros n Hn%Hl. unfold A0_REGNUM. lia. }
  { exact Hread. }
  { apply List.Forall_forall. intros n Hn%Hl. specialize (Hsaved n Hn). unfold finds in Hsaved. cbv zeta in *.
    destruct (Z.eqb_spec (nth (Z.to_nat n) fsr 0) 0); [by left|right; apply Hsaved]. }
  exists g'. split; [exact E|split; [exact Hb'|split; [exact Hm|]]].
  split; intros n Hn; rewrite Hv by (unfold A0_REGNUM in *; lia); cbv zeta.
  - assert (existsb (Z.eqb n) l = true) as -> by (apply existsb_exists; exists n; split; [by apply Hl|lia]).
    specialize (Hsaved n Hn). unfold finds in Hsaved. cbv zeta in Hsaved.
    destruct (nth (Z.to_nat n) fsr 0 =? 0); [rewrite Hgpr by lia; exact Hsaved|left; apply Hsaved].
  - destruct (existsb (Z.eqb n) l) eqn:Ex; [|done]. apply existsb_exists in Ex as (k & Hk%Hl & Ek). lia.
Qed.

Lemma pop_found s0 s g fuel fi fi' fsr :
  0 <= GPR s0 SP_REGNUM <= 0x8000 -> sees s g -> Tdep.frame fi = GPR s SP_REGNUM ->
  d10v_frame_find_saved_regs fuel fi g = Returns (fi', fsr) g -> frame_found s0 s fi fi' fsr ->
  exists g', d10v_pop_frame fuel fi g = Returns tt g' /\ mem g' = mem g /\
    reg_value g' SP_REGNUM = GPR s0 SP_REGNUM /\ reg_value g' PC_REGNUM = GPR s0 LR_REGNUM /\
    (forall n, 0 <= n < 15 -> reg_value g' n = GPR s0 n \/ (n = FP_REGNUM /\ reg_value g' n = GPR s SP_REGNUM)) /\
    (forall n, 16 <= n < A0_REGNUM -> n <> PC_REGNUM -> reg_value g' n = reg_value g n).
Proof.
  intros Hsp Hg Hfi E [_ _ _ Hsize _ Hsaved Hrest].
  unfold d10v_pop_frame. cbv zeta. rewrite (gbind_returns _ _ _ _ _ E).
  assert (forall n, 35 <= n < NUM_REGS -> restore_acc fsr n g = Returns tt g) as Hacc
    by (intros n Hn; unfold restore_acc; by rewrite Hrest by lia).
  rewrite (gbind_returns _ _ g tt g).
  2: { unfold restore_all. rewrite !(gbind_returns _ _ g tt g) by (by apply Hacc; unfold NUM_REGS, A0_REGNUM; lia). done. }
  destruct (restore_gprs s0 s g fsr Hg Hsaved) as (g1 & E1 & Hb1 & Hm1 & Hgpr & Hkept).
  rewrite (gbind_returns _ _ _ _ _ E1).
  assert (restore_reg fsr PSW_REGNUM g1 = Returns tt g1) as Epsw
    by (unfold restore_reg; by rewrite Hrest by (unfold PSW_REGNUM, NUM_REGS; lia)).
  rewrite (gbind_returns _ _ _ _ _ Epsw). unfold A0_REGNUM, SP_REGNUM, PC_REGNUM, LR_REGNUM in *.
  destruct (read_register_eq g1 13 Hb1) as [Elr Hlr]; [unfold A0_REGNUM; lia|].
  rewrite (gbind_returns _ _ _ _ _ Elr).
  destruct (write_register_eq g1 18 (reg_value g1 13) Hb1) as (g2 & E2 & Hb2 & _ & Hm2 & Hv2);
    [unfold A0_REGNUM; lia|]. rewrite (gbind_returns _ _ _ _ _ E2).
  destruct (write_register_eq g2 15 (u32 (Tdep.frame fi + fi_size fi')) Hb2) as (g3 & E3 & _ & _ & Hm3 & Hv3);
    [unfold A0_REGNUM; lia|]. exists g3. split; [exact E3|split; [congruence|]]. unfold A0_REGNUM in *.
  assert (forall n, 0 <= n < 35 -> n <> 15 -> n <> 18 -> reg_value g3 n = reg_value g1 n) as Hv.
  { intros n Hn H1 H2. rewrite Hv3, Hv2 by done. by rewrite !(proj2 (Z.eqb_neq _ _)) by done. }
  split; [|split; [|split]].
  - rewrite Hv3 by lia. rewrite Z.eqb_refl, Hfi, Hsize, u32_small; [rewrite Z.mod_small|]; lia.
  - rewrite Hv3, Hv2 by lia. simpl. destruct (Hgpr 13) as [<-|[[=] _]]; [lia|]. by apply Z.mod_small.
  - intros n Hn. rewrite Hv by lia. by apply Hgpr.
  - intros n Hn Hne. rewrite Hv by lia. apply Hkept. lia.
Qed.
End Frame.

Section Unwinding.
Context `{Host} (Hcalloc : forall s seg, host_calloc s seg = true).

Lemma frame_found_after s0 l :
  inv s0 -> 0 <= GPR s0 SP_REGNUM <= 0x8000 -> Forall (fun i => 0 <= i.2 < 2 ^ 30) l ->
  prologue_ok (GPR s0 SP_REGNUM) l scan_start ->
  exists s, exec_all l s0 = Ret tt s /\ inv s /\
    forall (T : Target) g fi fuel ws i rest,
      sees s g -> Tdep.frame fi = GPR s SP_REGNUM ->
      code_at g (get_pc_function_start (Tdep.pc fi)) ws -> flat_map word_insns ws = l ++ i :: rest ->
      (scan_insn i scan_start).1 = false -> (length ws <= fuel)%nat ->
      exists fi' fsr, d10v_frame_find_saved_regs fuel fi g = Returns (fi', fsr) g /\ frame_found s0 s fi fi' fsr.
Proof.
  intros Hs Hsp Hl Hok.
  destruct (tracks_all Hcalloc (GPR s0 SP_REGNUM) s0 l s0 scan_start Hsp (tracks_start s0 Hs) Hl Hok) as (s & p & E & Es & Ht).
  exists s. split; [exact E|split; [exact (tr_inv _ _ _ _ Ht)|]]. intros T g fi fuel ws i rest Hg Hfi Hcode Hws Hi Hfuel.
  apply (find_saved _ _ p _ _ _ Ht Hsp Hg Hfi). eapply find_regs_code; [exact Hcode| |exact Hfuel].
  rewrite Hws, scan_app, Es. cbn [scan_all]. by rewrite (scan_stops i p _ Hi).
Qed.


End Unwinding.

(** The pattern that check_prologue and prologue_find_regs have for [st2w rn, @sp] is that of
    [macu]; the code of [st2w r0, @sp] is 0x6A1E, at which they stop. *)
Lemma macu_taken : (prologue_find_regs 0x3A1E scan_start).1 = true /\
  he_opcode <$> find (hash_matches 0x3A1E 0) linear_table = Some 0x3A00.
Proof. split; vm_compute; reflexivity. Qed.
Lemma st2w_not_taken : (prologue_find_regs 0x6A1E scan_start).1 = false /\ check_prologue 0x6A1E = false /\
  he_opcode <$> find (hash_matches 0x6A1E 0) linear_table = Some 0x6A00.
Proof. split; [|split]; vm_compute; reflexivity. Qed.

(** ** A witness *)

(** [st r13,@-sp -> st r11,@-sp], [subi sp,4 -> mv r11,sp], [st2w r6,@(0,sp)], and
    [add3 r0,r1,5], which ends the prologue; in the last segment of unified memory. *)
Definition function_words : list Z :=
  [0x40000000 + Z.shiftl 0x6DBF 15 + 0x6D7F; 0x40000000 + Z.shiftl 0x01E9 15 + 0x417E; 0xF56F0000; add3_word].
Definition entry_state : state :=
  match @sim_write plain_host (0x12 * 2 ^ 24 + 0xffff00) (flat_map longword_bytes function_words) 16
          (at_values [0; 1; 2; 3; 4; 5; 6; 7; 8; 9; 10; 11; 12; 0x1234; 14; 0x7ffe] [0; 0] [0; 0; 0; 0] 0) with
  | Ret _ s => s
  | _ => booted
  end.
Definition prologue_insns : list (bool * Z) := flat_map word_insns (take 3 function_words).
Definition stopped_state : state :=
  match @exec_all plain_host prologue_insns entry_state with Ret _ s => s | _ => booted end.
Lemma entry_state_inv : inv entry_state.
Proof.
  unfold entry_state.
  match goal with |- context [sim_write ?a ?b ?n ?s] => set (st := s); set (bs := b) end.
  assert (inv st) as Hst by (apply inv_at_values; vm_compute; reflexivity).
  pose proof (runs_keeps _ (@runs_sim_write plain_host (0x12 * 2 ^ 24 + 0xffff00) bs 16) st) as Hk.
  destruct (sim_write _ bs _ st); [by apply Hk|apply booted_inv..].
Qed.


