(* ===== verification/Parallel.v ===== *)
(** * Two short instructions in parallel

    The third format of an instruction word.  The right instruction starts while the
    writes of the left one are pending, so that it reads the registers as they were
    before the word; an instruction with the execution type PARONLY is a test, and
    decides whether the other one is run. *)
From S2P Require Import Prelude CInt Opcodes State Memory Cregs.
From S2P Require Import SimopsAlu SimopsAcc SimopsFlow SimopsMem SimopsTrap Interp Logic OpRules.
From S2P Require Import Machine Decode Effects AluSpec AccSpec FlowSpec Cycle Step.

(** ** Decoding while writes are pending *)

Lemma direct_set_ins_type t : direct (set_ins_type t).
Proof. direct_tac. by intros s []. Qed.
Lemma direct_counted t : direct (counted t).
Proof. direct_tac. by intros s []. Qed.
Lemma direct_operands o ins : In o real_simops -> direct (fun s => set_OP (operands_of o ins s) s).
Proof.
  intros Hin. direct_tac. intros s Hs.
  assert (inv (set_slot [] s)) as Hi by (split; [by destruct Hs|done]).
  pose proof (decoded_inv o ins INS_LONG _ Hin Hi) as [[] _]. by destruct Hs.
Qed.
Lemma apply_slots_trace k : forall t s,
  fold_left apply_slot k (set_trace_psw t s) = set_trace_psw t (fold_left apply_slot k s).
Proof.
  induction k as [|sl k IH]; intros t s; simpl; [done|]. rewrite <- IH. f_equal.
  unfold apply_slot. by destruct (slot_dest sl).
Qed.
Lemma apply_writes_trace ws : forall t s,
  apply_writes ws (set_trace_psw t s) = set_trace_psw t (apply_writes ws s).
Proof. induction ws as [|w ws IH]; intros t s; simpl; [done|]. rewrite <- IH. by destruct w. Qed.
Lemma pend_trace_base t s1 ws s : pend s1 ws s -> pend (set_trace_psw t s1) ws s.
Proof.
  intros (l & t' & -> & E & Hs & Hl). exists l, t'.
  by rewrite apply_slots_trace, apply_writes_trace, E.
Qed.

Lemma pend_decoded o ins t s1 ws s :
  In o real_simops -> pend s1 ws s -> pend (decoded o ins t s1) ws (decoded o ins t s).
Proof.
  intros Hin Hp. unfold decoded. apply pend_direct; [apply direct_counted|].
  apply pend_direct; [apply direct_set_ins_type|].
  apply pend_trace_base, (pend_trace _ _ _ (fun s' => PSW s)).
  by apply (pend_direct (fun s => set_OP (operands_of o ins s) s)); [apply direct_operands|].
Qed.

Section Parallel.
Context `{Host}.

Lemma dispatch_parallel inst : Z.land inst 0xC0000000 = 0 ->
  dispatch inst = do_parallel (left_ins inst) (right_ins inst).
Proof. intros E. unfold dispatch. cbv zeta. by rewrite E. Qed.

(** The state from which the left instruction is decoded *)
Definition parallel_start (s : state) : state :=
  counted INS_PARALLEL (execute_start s).

(** An instruction that is issued on top of pending writes *)
Lemma wp_issue o ins t s1 ws0 s s2 ws (Q : unit -> state -> Prop) :
  In o real_simops -> length (OP s1) = 4%nat -> pend s1 ws0 s ->
  queues (run_func o) (decoded o ins t s1) s2 ws ->
  (length ws0 <= 8)%nat -> quiet ws0 ws = true ->
  (forall s', pend s2 (ws0 ++ ws) s' -> Q tt s') -> wp (issue o ins t) s Q.
Proof.
  intros Hin Hl Hp Hq Hlen Hqu HQ. unfold wp. rewrite issue_decoded; [|done|].
  2: { by destruct (pend_read_all _ _ _ Hp) as (l & t' & ->). }
  eapply wp_mono; [by apply (Hq ws0); [apply pend_decoded|..]|]. intros [] s'. apply HQ.
Qed.

Lemma dispatch_both s inst o1 o2 s1 ws1 s2 ws2 :
  wf s -> Z.land inst 0xC0000000 = 0 ->
  find (hash_matches (left_ins inst) 0) linear_table = Some (entry_of o1) ->
  find (hash_matches (right_ins inst) 0) linear_table = Some (entry_of o2) ->
  so_exec_type o1 <> PARONLY -> so_exec_type o2 <> PARONLY ->
  issues (run_func o1) (decoded o1 (left_ins inst) INS_LEFT_PARALLEL (parallel_start s)) s1 ws1 ->
  wf s1 -> exception s1 = 0 ->
  queues (run_func o2) (decoded o2 (right_ins inst) INS_RIGHT_PARALLEL s1) s2 ws2 ->
  (length ws1 <= 8)%nat -> quiet ws1 ws2 = true ->
  wp (dispatch inst) (execute_start s) (fun _ s' => pend s2 (ws1 ++ ws2) s').
Proof.
  intros Hs Hfmt Hf1 Hf2 Hp1 Hp2 Hi1 Hs1 He1 Hq2 Hl1 Hqu.
  rewrite dispatch_parallel by done. apply Z.eqb_neq in Hp1, Hp2.
  destruct (lookup_found _ _ _ (parallel_start s) Hf1) as [El1 Hin1].
  destruct (lookup_found _ _ _ (parallel_start s) Hf2) as [El2 Hin2].
  assert (length (OP (parallel_start s)) = 4%nat) as Hl by apply (wf_op s Hs).
  unfold do_parallel, wp. unfold bind at 1. rewrite count_eq. fold (parallel_start s).
  unfold bind at 1. rewrite El1. unfold bind at 1. rewrite El2.
  unfold bind at 1, entry_ops at 1, entry_of at 1. cbn [he_ops]. unfold ret at 1. rewrite Hp1.
  unfold bind at 1, entry_ops at 1, entry_of at 1. cbn [he_ops]. unfold ret at 1. rewrite Hp2.
  unfold bind at 1. rewrite issue_decoded by done. revert Hi1. unfold issues, wp at 1.
  destruct (run_func o1 _) as [[] s1'| | |]; try done. intros Hpend.
  unfold bind at 1, get at 1.
  assert (exception s1' = 0) as -> by (by destruct (pend_read_all _ _ _ Hpend) as (l & t & ->)).
  unfold when. change (0 =? 0) with true. cbv iota.
  eapply wp_issue; [done|apply (wf_op s1 Hs1)|exact Hpend|exact Hq2|done|done|done].
Qed.


(** ** Conditional execution *)

Definition test_type (lr : _leftright) : _ins_type :=
  match lr with LEFT_FIRST => INS_LEFT_COND_TEST | RIGHT_FIRST => INS_RIGHT_COND_TEST end.
Definition exe_type (lr : _leftright) : _ins_type :=
  match lr with LEFT_FIRST => INS_RIGHT_COND_EXE | RIGHT_FIRST => INS_LEFT_COND_EXE end.

(** The instruction after a test, in the state [s1] that the test leaves *)
Definition guarded (o : simops) (ins : Z) (t : _ins_type) (s1 s2 : state) (ws : list write) : Prop :=
  if truth (exe s1)
  then queues (run_func o) (decoded o ins t (counted INS_COND_TRUE s1)) s2 ws
  else s2 = counted INS_COND_FALSE s1 /\ ws = [].

Lemma wp_conditional lr o1 ins1 o2 ins2 s s1 s2 ws (Q : unit -> state -> Prop) :
  In o1 real_simops -> In o2 real_simops -> length (OP s) = 4%nat ->
  issues (run_func o1) (decoded o1 ins1 (test_type lr) s) s1 [] -> wf s1 ->
  guarded o2 ins2 (exe_type lr) s1 s2 ws ->
  (forall s', pend s2 ws s' -> Q tt s') ->
  wp (do_conditional o1 ins1 (test_type lr) (entry_of o2) ins2 (exe_type lr)) s Q.
Proof.
  intros Hin1 Hin2 Hl Hi Hs1 Hg HQ. unfold do_conditional, wp. unfold bind at 1.
  rewrite issue_decoded by done. revert Hi. unfold issues, wp at 1.
  destruct (run_func o1 _) as [[] s'| | |]; try done. intros Hp. unfold bind at 1, get at 1.
  assert (exe s' = exe s1) as -> by (by destruct (pend_read_all _ _ _ Hp) as (l & t & ->)).
  unfold guarded in Hg. destruct (truth (exe s1)).
  - unfold bind at 1. rewrite count_eq. unfold bind at 1, entry_ops, entry_of at 1. cbn [he_ops]. unfold ret at 1.
    eapply (wp_issue _ _ _ (counted INS_COND_TRUE s1) []); [done|apply (wf_op s1 Hs1)| |exact Hg|simpl; lia| |done].
    + apply pend_direct; [apply direct_counted|done].
    + unfold quiet. simpl. apply orb_true_r.
  - destruct Hg as [-> ->]. rewrite count_eq. apply HQ, pend_direct; [apply direct_counted|done].
Qed.

(** A test and a short instruction in parallel, the test in either container: the
    test sets [exe] and makes no writes; the other instruction runs when [exe] is set,
    on the registers as they were before the word, and has no effect otherwise; the PC
    advances in both cases. *)
Theorem conditional_word s lr inst o1 o2 s1 s2 ws :
  inv s -> fetched s inst -> Z.land inst 0xC0000000 = 0 ->
  find (hash_matches (first_ins lr inst) 0) linear_table = Some (entry_of o1) ->
  find (hash_matches (second_ins lr inst) 0) linear_table = Some (entry_of o2) ->
  so_exec_type o1 = PARONLY -> so_exec_type o2 <> PARONLY ->
  issues (run_func o1) (decoded o1 (first_ins lr inst) (test_type lr) (parallel_start s)) s1 [] ->
  wf s1 -> guarded o2 (second_ins lr inst) (exe_type lr) s1 s2 ws -> wf s2 ->
  (pc_changed s2 = 0 -> (length ws <= 12)%nat /\ loop_fresh ws = true) -> no_break s2 ->
  exists t, sim_body s = Ret true (set_trace_psw t (apply_writes (ws ++ next_pc_writes s2) s2)).
Proof.
  intros Hs Hfetch Hfmt Hf1 Hf2 Hp1 Hp2 Hi Hs1 Hg Hs2 Hf Hb.
  eapply sim_body_dispatch; [exact Hfetch|done| |done|done].
  rewrite dispatch_parallel by done. apply Z.eqb_eq in Hp1. apply Z.eqb_neq in Hp2.
  destruct (lookup_found _ _ _ (parallel_start s) Hf1) as [El1 Hin1].
  destruct (lookup_found _ _ _ (parallel_start s) Hf2) as [El2 Hin2].
  assert (length (OP (parallel_start s)) = 4%nat) as Hl by apply (wf_op s (proj1 Hs)).
  pose proof (wp_conditional lr o1 (first_ins lr inst) o2 (second_ins lr inst) (parallel_start s)
    s1 s2 ws (fun _ s' => pend s2 ws s') Hin1 Hin2 Hl Hi Hs1 Hg (fun _ Hp => Hp)) as Hw.
  unfold do_parallel, wp. unfold bind at 1. rewrite count_eq. fold (parallel_start s).
  destruct lr; cbn [first_ins second_ins] in *;
    unfold bind at 1; rewrite ?El1, ?El2; unfold bind at 1; rewrite ?El1, ?El2;
    unfold bind at 1, entry_ops at 1, entry_of at 1; cbn [he_ops]; unfold ret at 1;
    rewrite ?Hp1, ?Hp2.
  - exact Hw.
  - unfold bind at 1, entry_ops at 1, entry_of at 1. cbn [he_ops]. unfold ret at 1. rewrite Hp1.
    exact Hw.
Qed.
End Parallel.

(** ** Witnesses *)

(** [mv r0, r1 || mv r1, r0] swaps the registers: r1 is 2 and r0 is 0. *)
Definition mv (d n : Z) : Z := encode (simop_named 0x4000) [d; n].
Definition swap_word : Z := Z.shiftl (mv 0 1) 15 + mv 1 0.
Definition swap_state : state := with_program swap_word.
Lemma mv_queues s : inv s -> queues OP_4000 s s [W_reg (rD s) (rB s)].
Proof. intros Hs. row Hs. Qed.
Lemma run_mv : @run_func plain_host (simop_named 0x4000) = OP_4000.
Proof.
  unfold run_func. replace (so_func (simop_named 0x4000)) with (Some 0x4000) by (vm_compute; reflexivity).
  reflexivity.
Qed.
Definition swap_left : state :=
  decoded (simop_named 0x4000) (left_ins swap_word) INS_LEFT_PARALLEL (parallel_start swap_state).
Definition swap_right : state :=
  decoded (simop_named 0x4000) (right_ins swap_word) INS_RIGHT_PARALLEL swap_left.
Lemma swap_fetched : @fetched plain_host swap_state swap_word.
Proof.
  exists (P_umem 127 130816).
  split; [vm_compute; reflexivity|split; [reflexivity|vm_compute; reflexivity]].
Qed.
Lemma swap_left_inv : inv swap_left.
Proof.
  apply decoded_inv; [apply simop_named_in; vm_compute; discriminate|].
  apply inv_counted, inv_start, with_program_inv.
Qed.
Lemma swap_right_inv : inv swap_right.
Proof.
  apply decoded_inv; [apply simop_named_in; vm_compute; discriminate|apply swap_left_inv].
Qed.


(** [exef0t || mv r0, r1] with F0 clear leaves r0. *)
Definition test_word : Z := Z.shiftl (encode (simop_named 0x4E24) []) 15 + mv 0 1.
Definition test_state : state := with_program test_word.
Lemma exef0t_issues s : inv s -> issues OP_4E24 s (exe_if PSW_F0 s) [].
Proof. intros Hs. flow_row s Hs. Qed.
Definition test_left : state :=
  decoded (simop_named 0x4E24) (left_ins test_word) INS_LEFT_COND_TEST (parallel_start test_state).
Definition test_done : state := exe_if PSW_F0 test_left.
Lemma test_fetched : @fetched plain_host test_state test_word.
Proof.
  exists (P_umem 127 130816).
  split; [vm_compute; reflexivity|split; [reflexivity|vm_compute; reflexivity]].
Qed.
Lemma test_left_inv : inv test_left.
Proof.
  apply decoded_inv; [apply simop_named_in; vm_compute; discriminate|].
  apply inv_counted, inv_start, with_program_inv.
Qed.
Lemma wf_exe_if c s : wf s -> wf (exe_if c s).
Proof. by intros []. Qed.
Lemma wf_counted t s : wf s -> wf (counted t s).
Proof. by intros []. Qed.
Lemma test_done_wf : wf test_done.
Proof. apply wf_exe_if, test_left_inv. Qed.

Lemma conditional_word_witness : exists s',
  @sim_body plain_host test_state = Ret true s' /\ GPR s' 0 = 0 /\ PC s' = 0xffc1.
Proof.
  destruct (@conditional_word plain_host test_state LEFT_FIRST test_word (simop_named 0x4E24)
    (simop_named 0x4000) test_done (counted INS_COND_FALSE test_done) []) as [t E].
  - apply with_program_inv.
  - apply test_fetched.
  - reflexivity.
  - vm_compute. reflexivity.
  - vm_compute. reflexivity.
  - vm_compute. reflexivity.
  - vm_compute. discriminate.
  - apply (exef0t_issues test_left test_left_inv).
  - apply test_done_wf.
  - unfold guarded. assert (truth (exe test_done) = false) as -> by (vm_compute; reflexivity). done.
  - apply wf_counted, test_done_wf.
  - intros _. split; [simpl; lia|reflexivity].
  - vm_compute. reflexivity.
  - eexists. split; [exact E|]. split; vm_compute; reflexivity.
Defined.
