(* ===== verification/Footprint.v ===== *)
(** * What an instruction reads and writes

    The registers that each row of [alu_table] and [acc_table] depends on and the ones
    it writes, named by the positions of the operands, with the proof that the row
    depends on and writes nothing else.  [same] compares two states without what
    decoding leaves behind. *)
From S2P Require Import Prelude CInt Opcodes State Memory Cregs.
From S2P Require Import SimopsAlu SimopsAcc SimopsFlow SimopsMem SimopsTrap Interp Logic OpRules.
From S2P Require Import Machine Decode Effects AluSpec AccSpec FlowSpec Cycle Step.

(** ** States up to the traces of decoding *)

(** The operands, the class of the instruction and the counters are overwritten by the
    next instruction or only printed. *)
Definition erase (s : state) : state :=
  set_OP [] (set_ins_type INS_UNKNOWN (set_ins_type_counters [] (set_trace_psw 0 s))).
Definition same (s s' : state) : Prop := erase s = erase s'.
#[export] Instance same_equiv : Equivalence same.
Proof. unfold same. split; [done|by intros ? ? ->|by intros ? ? ? -> ->]. Qed.

Lemma erase_write w s : erase (apply_write s w) = apply_write (erase s) w.
Proof. by destruct w. Qed.
#[export] Instance apply_writes_same ws : Proper (same ==> same) (apply_writes ws).
Proof.
  unfold same. induction ws as [|w ws IH]; intros s s' E; simpl; [done|].
  apply IH. by rewrite !erase_write, E.
Qed.
#[export] Instance set_trace_psw_same t : Proper (same ==> same) (set_trace_psw t).
Proof. unfold same, erase. intros s s' E. by destruct s, s'. Qed.
Lemma same_decoded o ins t s : same (decoded o ins t s) s.
Proof. done. Qed.
Lemma same_counted t s : same (counted t s) s.
Proof. done. Qed.
Lemma same_set_OP l s : same (set_OP l s) s.
Proof. done. Qed.
Lemma same_trace t s : same (set_trace_psw t s) s.
Proof. done. Qed.

(** What is read is not erased. *)
Lemma same_read {A} (f : state -> A) s s' :
  (forall s, f (erase s) = f s) -> same s s' -> f s = f s'.
Proof. intros Hf E. by rewrite <- (Hf s), <- (Hf s'), E. Qed.
Lemma same_GPR n s s' : same s s' -> GPR s n = GPR s' n.
Proof. apply (same_read (fun s => GPR s n)). done. Qed.
Lemma same_CREG n s s' : same s s' -> CREG s n = CREG s' n.
Proof. apply (same_read (fun s => CREG s n)). done. Qed.
Lemma same_a s s' : same s s' -> a s = a s'.
Proof. by apply same_read. Qed.
Lemma same_exception s s' : same s s' -> exception s = exception s'.
Proof. by apply same_read. Qed.
Lemma same_pc_changed s s' : same s s' -> pc_changed s = pc_changed s'.
Proof. by apply same_read. Qed.
Lemma same_next_pc s s' : same s s' -> next_pc_writes s = next_pc_writes s'.
Proof. by apply same_read. Qed.
Lemma same_no_break s s' : same s s' -> no_break s -> no_break s'.
Proof. unfold no_break. by intros <-%(same_read (fun s => PSW_DB s && (PC s =? IBA s))). Qed.

(** ** Footprints *)

(** General register number [op k + p], the flags F0, F1 and C, control register
    number [op k], the accumulators *)
Inductive loc := L_reg (k p : Z) | L_flags | L_creg (k : Z) | L_accs.
#[export] Instance loc_eq_dec : EqDecision loc.
Proof. solve_decision. Defined.

(** The opcode, the number of operands, what is read and what is written *)
Record footprint := Footprint {
  fp_code : Z; fp_numops : Z; fp_reads : list loc; fp_writes : list loc }.

Definition alu_footprints : list footprint := [
  Footprint 0x4607 1 [L_reg 0 0; L_flags] [L_flags; L_reg 0 0];
  Footprint 0x200 2 [L_reg 0 0; L_reg 1 0] [L_flags; L_reg 0 0];
  Footprint 0x1200 2 [L_reg 0 0; L_reg 0 1; L_reg 1 0; L_reg 1 1] [L_flags; L_reg 0 0; L_reg 0 1];
  Footprint 0x1000000 3 [L_reg 1 0] [L_flags; L_reg 0 0];
  Footprint 0x201 2 [L_reg 0 0] [L_flags; L_reg 0 0];
  Footprint 0x2E00 2 [L_reg 0 0; L_reg 1 0] [L_reg 0 0];
  Footprint 0x4605 1 [L_reg 0 0] [L_reg 0 0];
  Footprint 0x0 2 [L_reg 0 0; L_reg 1 0] [L_flags; L_reg 0 0];
  Footprint 0x1000 2 [L_reg 0 0; L_reg 0 1; L_reg 1 0; L_reg 1 1] [L_flags; L_reg 0 0; L_reg 0 1];
  Footprint 0x1 2 [L_reg 0 0] [L_flags; L_reg 0 0];
  Footprint 0xC00 2 [L_reg 0 0; L_reg 1 0] [L_reg 0 0];
  Footprint 0x6000000 3 [L_reg 1 0] [L_reg 0 0];
  Footprint 0xC01 2 [L_reg 0 0] [L_reg 0 0];
  Footprint 0xA01 2 [L_reg 0 0] [L_reg 0 0];
  Footprint 0x801 2 [L_reg 0 0] [L_reg 0 0];
  Footprint 0xE01 2 [L_reg 0 0; L_flags] [L_flags];
  Footprint 0x4603 1 [L_reg 0 0] [L_reg 0 0];
  Footprint 0x800 2 [L_reg 0 0; L_reg 1 0] [L_reg 0 0];
  Footprint 0x4000000 3 [L_reg 1 0] [L_reg 0 0];
  Footprint 0x7000000 2 [L_reg 0 0; L_flags] [L_flags];
  Footprint 0xF000000 2 [L_reg 0 0; L_flags] [L_flags];
  Footprint 0xA00 2 [L_reg 0 0; L_reg 1 0] [L_reg 0 0];
  Footprint 0x5000000 3 [L_reg 1 0] [L_reg 0 0];
  Footprint 0x600 2 [L_reg 0 0; L_reg 1 0; L_flags] [L_flags];
  Footprint 0x400 2 [L_reg 0 0; L_reg 1 0; L_flags] [L_flags];
  Footprint 0x401 2 [L_reg 0 0; L_flags] [L_flags];
  Footprint 0x2000000 2 [L_reg 0 0; L_flags] [L_flags];
  Footprint 0x601 2 [L_reg 0 0; L_flags] [L_flags];
  Footprint 0x3000000 2 [L_reg 0 0; L_flags] [L_flags];
  Footprint 0x4600 2 [L_reg 0 0; L_reg 1 0; L_flags] [L_flags];
  Footprint 0x23000000 2 [L_reg 0 0; L_flags] [L_flags];
  Footprint 0x4E09 2 [L_flags] [L_flags];
  Footprint 0x2600 2 [L_reg 0 0; L_reg 1 0; L_flags] [L_flags; L_reg 0 0];
  Footprint 0x2601 2 [L_reg 0 0; L_reg 1 0; L_flags] [L_flags; L_reg 0 0];
  Footprint 0x4611 1 [L_flags] [L_reg 0 0];
  Footprint 0x4613 1 [L_flags] [L_reg 0 0];
  Footprint 0x2200 2 [L_reg 0 0; L_reg 1 0] [L_reg 0 0];
  Footprint 0x2201 2 [L_reg 0 0] [L_reg 0 0];
  Footprint 0x460B 1 [L_reg 0 0; L_flags] [L_reg 0 0];
  Footprint 0x2400 2 [L_reg 0 0; L_reg 1 0] [L_reg 0 0];
  Footprint 0x2401 2 [L_reg 0 0] [L_reg 0 0];
  Footprint 0x2000 2 [L_reg 0 0; L_reg 1 0] [L_reg 0 0];
  Footprint 0x2001 2 [L_reg 0 0] [L_reg 0 0];
  Footprint 0x4609 1 [L_reg 0 0; L_flags] [L_reg 0 0];
  Footprint 0x4001 2 [] [L_reg 0 0];
  Footprint 0x20000000 2 [] [L_reg 0 0];
  Footprint 0x4000 2 [L_reg 1 0] [L_reg 0 0];
  Footprint 0x5000 2 [L_reg 1 0; L_reg 1 1] [L_reg 0 0; L_reg 0 1];
  Footprint 0x5400 2 [L_reg 1 0] [L_reg 0 0];
  Footprint 0x4400 2 [L_reg 1 0; L_flags] [L_reg 0 0];
  Footprint 0x4401 2 [L_reg 1 0; L_flags] [L_reg 0 0];
  Footprint 0x5200 2 [L_creg 1] [L_reg 0 0];
  Footprint 0x5401 2 [L_reg 1 0] [L_reg 0 0]
].
Definition acc_footprints : list footprint := [
  Footprint 0x5607 1 [L_accs; L_flags] [L_flags; L_accs];
  Footprint 0x1201 2 [L_accs; L_reg 1 0; L_reg 1 1] [L_accs];
  Footprint 0x1203 2 [L_accs] [L_accs];
  Footprint 0x17000200 3 [L_accs; L_reg 1 0; L_reg 1 1] [L_reg 0 0; L_reg 0 1];
  Footprint 0x17000202 3 [L_accs] [L_reg 0 0; L_reg 0 1];
  Footprint 0x17001200 3 [L_accs; L_reg 1 0; L_reg 1 1; L_flags] [L_flags; L_reg 0 0; L_reg 0 1];
  Footprint 0x17001202 3 [L_accs; L_flags] [L_flags; L_reg 0 0; L_reg 0 1];
  Footprint 0x5605 1 [L_accs] [L_accs];
  Footprint 0x1223 2 [L_accs] [L_accs];
  Footprint 0x1001 2 [L_accs; L_reg 1 0; L_reg 1 1] [L_accs];
  Footprint 0x1003 2 [L_accs] [L_accs];
  Footprint 0x17000000 3 [L_accs; L_reg 1 0; L_reg 1 1] [L_reg 0 0; L_reg 0 1];
  Footprint 0x17000002 3 [L_accs] [L_reg 0 0; L_reg 0 1];
  Footprint 0x17001000 3 [L_accs; L_reg 1 0; L_reg 1 1; L_flags] [L_flags; L_reg 0 0; L_reg 0 1];
  Footprint 0x17001002 3 [L_accs; L_flags] [L_flags; L_reg 0 0; L_reg 0 1];
  Footprint 0x2A00 3 [L_accs; L_reg 1 0; L_reg 2 0] [L_accs];
  Footprint 0x1A00 3 [L_accs; L_reg 1 0; L_reg 2 0] [L_accs];
  Footprint 0x3A00 3 [L_accs; L_reg 1 0; L_reg 2 0] [L_accs];
  Footprint 0x2800 3 [L_accs; L_reg 1 0; L_reg 2 0] [L_accs];
  Footprint 0x1800 3 [L_accs; L_reg 1 0; L_reg 2 0] [L_accs];
  Footprint 0x3800 3 [L_accs; L_reg 1 0; L_reg 2 0] [L_accs];
  Footprint 0x2C00 3 [L_reg 1 0; L_reg 2 0] [L_accs];
  Footprint 0x1C00 3 [L_reg 1 0; L_reg 2 0] [L_accs];
  Footprint 0x3C00 3 [L_reg 1 0; L_reg 2 0] [L_accs];
  Footprint 0x1603 2 [L_accs; L_flags] [L_flags];
  Footprint 0x1403 2 [L_accs; L_flags] [L_flags];
  Footprint 0x3600 2 [L_accs; L_reg 1 0; L_reg 1 1; L_flags] [L_flags; L_accs];
  Footprint 0x3602 2 [L_accs; L_flags] [L_flags; L_accs];
  Footprint 0x3601 2 [L_accs; L_reg 1 0; L_reg 1 1; L_flags] [L_flags; L_accs];
  Footprint 0x3603 2 [L_accs; L_flags] [L_flags; L_accs];
  Footprint 0x5201 3 [L_accs; L_flags] [L_flags; L_reg 0 0; L_reg 0 1];
  Footprint 0x4201 3 [L_accs; L_flags] [L_flags; L_reg 0 0];
  Footprint 0x3200 2 [L_accs; L_reg 1 0] [L_accs];
  Footprint 0x3201 2 [L_accs] [L_accs];
  Footprint 0x3400 2 [L_accs; L_reg 1 0] [L_accs];
  Footprint 0x3401 2 [L_accs] [L_accs];
  Footprint 0x3000 2 [L_accs; L_reg 1 0] [L_accs];
  Footprint 0x3001 2 [L_accs] [L_accs];
  Footprint 0x5601 1 [] [L_accs];
  Footprint 0x3E00 2 [L_accs] [L_reg 0 0; L_reg 0 1];
  Footprint 0x3E01 2 [L_reg 0 0; L_reg 0 1] [L_accs];
  Footprint 0x3E03 2 [L_accs] [L_accs];
  Footprint 0x1E04 2 [L_accs] [L_reg 0 0];
  Footprint 0x1E00 2 [L_accs] [L_reg 0 0];
  Footprint 0x1E02 2 [L_accs] [L_reg 0 0];
  Footprint 0x1E41 2 [L_accs; L_reg 0 0] [L_accs];
  Footprint 0x1E01 2 [L_accs; L_reg 0 0] [L_accs];
  Footprint 0x1E21 2 [L_reg 0 0] [L_accs]
].
(** Two states that agree on a location *)
Definition agree (s s' : state) (l : loc) : Prop :=
  match l with
  | L_reg k p => GPR s (op s k + p) = GPR s' (op s' k + p)
  | L_flags => PSW_F0 s = PSW_F0 s' /\ PSW_F1 s = PSW_F1 s' /\ PSW_C s = PSW_C s'
  | L_creg k => CREG s (op s k) = CREG s' (op s' k)
  | L_accs => a s = a s'
  end.
(** The modes of the accumulator instructions *)
Definition same_modes (s s' : state) : Prop := PSW_ST s = PSW_ST s' /\ PSW_FX s = PSW_FX s'.

(** A write to one of the locations *)
Definition write_in (s : state) (ls : list loc) (w : write) : Prop :=
  match w with
  | W_reg n _ => exists k p, In (L_reg k p) ls /\ n = op s k + p
  | W_flag m _ => In L_flags ls /\ Z.land m ALL_FLAGS = m /\ 0 <= m < 2 ^ 16
  | W_acc _ _ => In L_accs ls
  | W_creg _ _ | W_sp _ _ => False
  end.

Definition row_t : Type := M unit * ((state -> state) * (state -> list write)).
Record row_footprint (row : row_t) (f : footprint) : Prop := {
  fp_function `{Host} : simop_func (fp_code f) = Some row.1;
  fp_writes_ok s : Forall (write_in s (fp_writes f)) (row.2.2 s) /\ (length (row.2.2 s) <= 4)%nat;
  fp_reads_ok s s' :
    (forall k, 0 <= k < fp_numops f -> op s k = op s' k) -> Forall (agree s s') (fp_reads f) ->
    same_modes s s' -> row.2.2 s = row.2.2 s';
  fp_state_ok s : exception (row.2.1 s) = 0 -> same (row.2.1 s) s;
  fp_state_wf s : wf s -> wf (row.2.1 s);
  fp_state_reads s s' :
    (forall k, 0 <= k < fp_numops f -> op s k = op s' k) -> Forall (agree s s') (fp_reads f) ->
    exception s = exception s' -> exception (row.2.1 s) = exception (row.2.1 s')
}.

(** ** Every row *)

Ltac spec_unfold :=
  unfold plain, with_imm16, amount_state, rac_state, error_state, sat_pair, compare, to_pair, if_amount,
    sat, prod_st, prod_ss, prod_su, prod_uu, fx, rac_value, rachi_value, round_shift, sacc, spair,
    rpair, shift_amount, bit_of, imm, imm16, imm4s, rD, rA, rB, ACC in *.
Ltac one_write :=
  cbn [write_in fp_writes];
  first
  [ split; [simpl; tauto|split; [reflexivity|vm_compute; split; congruence]]
  | exists 0, 0; split; [simpl; tauto|lia]
  | exists 0, 1; split; [simpl; tauto|lia]
  | simpl; tauto ].
Ltac split_list :=
  cbn [app];
  repeat match goal with
  | |- Forall _ (if ?c then _ else _) => destruct c
  | |- Forall _ (_ :: _) => apply List.Forall_cons; [cbn [write_in]|]
  | |- Forall _ [] => apply List.Forall_nil
  | |- context [if ?c then PSW_F0_BIT else _] => destruct c
  end.
Ltac writes_tac :=
  intros s; cbn [snd]; spec_unfold; split;
  [ split_list; one_write
  | repeat match goal with |- context [length (if ?c then _ else _)] => destruct c end;
    simpl; lia ].
(** Rewrites what is read with the hypotheses about it. *)
Ltac use_agreement Ho :=
  cbn [snd fst fp_numops fp_reads] in *;
  repeat match goal with H : Forall _ (_ :: _) |- _ => apply List.Forall_cons_iff in H as [? ?] end;
  cbn [agree] in *; spec_unfold;
  repeat match goal with H : _ /\ _ |- _ => destruct H end;
  rewrite ?Z.add_0_r in *;
  repeat first [rewrite (Ho 0) by lia | rewrite (Ho 1) by lia | rewrite (Ho 2) by lia];
  repeat first [rewrite (Ho 0) in * by lia | rewrite (Ho 1) in * by lia | rewrite (Ho 2) in * by lia];
  repeat match goal with H : _ = _ :> Z |- _ => rewrite H | H : _ = _ :> bool |- _ => rewrite H
                       | H : a _ = a _ |- _ => rewrite H end.
Ltac reads_tac :=
  let Ho := fresh "Ho" in intros s s' Ho ? ?; unfold same_modes in *; use_agreement Ho; reflexivity.
Ltac case_state := repeat match goal with |- context [if ?c then _ else _] => destruct c end.
Ltac state_tac :=
  intros s; cbn [snd fst]; spec_unfold; case_state; try done; intros _; apply same_set_OP.
Ltac state_wf_tac :=
  intros s Hs; cbn [snd fst]; spec_unfold; case_state; try done;
  first [by apply wf_err | by apply (silent_set_op 1 16)].
Ltac state_reads_tac :=
  let Ho := fresh "Ho" in
  intros s s' Ho ? ?; use_agreement Ho; case_state; (done || assumption).
Ltac footprint_tac :=
  constructor; [intros; reflexivity|writes_tac|reads_tac|state_tac|state_wf_tac|state_reads_tac].

Lemma alu_rows : Forall2 row_footprint alu_table alu_footprints.
Proof.
  unfold alu_table, alu_footprints.
  repeat apply List.Forall2_cons; [..|apply List.Forall2_nil]; footprint_tac.
Qed.
Lemma acc_rows : Forall2 row_footprint acc_table acc_footprints.
Proof.
  unfold acc_table, acc_footprints.
  repeat apply List.Forall2_cons; [..|apply List.Forall2_nil]; footprint_tac.
Qed.

(** ** Rows and footprints together *)

(** A row with its footprint: what it issues, for operands that fit the field of a
    register *)
Definition row_ok `{Host} (row : row_t) (f : footprint) : Prop :=
  row_footprint row f /\
  forall s, inv s -> (1 < fp_numops f -> op s 1 < 16) -> queues row.1 s (row.2.1 s) (row.2.2 s).

(** The three rows with one operand need no bound. *)
Lemma acc_unary s : inv s ->
  queues OP_5607 s s (compare s (sacc s (op s 0) <? 0) ++
    [W_acc (op s 0) (if sacc s (op s 0) <? 0 then sat s (- sacc s (op s 0)) else ACC s (op s 0))]) /\
  queues OP_5605 s s [W_acc (op s 0) (sat s (- sacc s (op s 0)))] /\
  queues OP_5601 s s [W_acc (op s 0) 0].
Proof. intros Hs. split; [acc_row s Hs|split; acc_row s Hs]. Qed.

Section Rows.
Context `{Host}.

Definition footprints : list footprint := alu_footprints ++ acc_footprints.

Lemma alu_row f : In f alu_footprints -> exists row, row_ok row f.
Proof.
  intros Hin. pose proof alu_rows as Hr. pose proof alu_queues as Hq.
  revert Hin Hq. induction Hr as [|row f' l k Hf _ IH]; intros Hin Hq; [done|].
  apply List.Forall_cons_iff in Hq as [Hrow Hq]. destruct Hin as [<-|Hin]; [|by apply IH].
  exists row. split; [exact Hf|]. intros s Hs _. by apply Hrow.
Qed.
Lemma acc_row_ok f : In f acc_footprints -> exists row, row_ok row f.
Proof.
  intros Hin. apply list_elem_of_In, list_elem_of_lookup_1 in Hin as [i Hi].
  destruct (Forall2_lookup_r _ _ _ _ _ acc_rows Hi) as (row & Hrow & Hf).
  exists row. split; [exact Hf|]. intros s Hs Hop.
  destruct (Z.ltb_spec 1 (fp_numops f)) as [Hn|Hn].
  - apply (proj1 (Forall_lookup _ _) acc_queues i row Hrow s Hs). by apply Hop.
  - clear Hop Hf. destruct (acc_unary s Hs) as (H1 & H2 & H3).
    do 49 (destruct i as [|i];
      [cbn in Hi, Hrow; simplify_eq; first [exfalso; cbn in Hn; lia|assumption]|]).
    discriminate.
Qed.
Lemma footprint_row f : In f footprints -> exists row, row_ok row f.
Proof. intros [Hin|Hin]%in_app_or; [by apply alu_row|by apply acc_row_ok]. Qed.
End Rows.
