(* ===== verification/AsmRegs.v ===== *)
(** * Register names

    [strcasecmp] is a total order up to case, the register table is sorted by it, and
    so the binary search of [reg_name_search] finds what a linear search would. *)
From Stdlib Require Import Ascii.
From S2P Require Import Prelude CInt Opcodes Elf Asm.

(** ** The order *)

Lemma strcasecmp_refl a : strcasecmp a a = Eq.
Proof. induction a as [|x a IH]; simpl; [done|]. by rewrite Nat.compare_refl. Qed.

Lemma strcasecmp_antisym a b : strcasecmp b a = CompOpp (strcasecmp a b).
Proof.
  revert b. induction a as [|x a IH]; intros [|y b]; simpl; try done.
  rewrite Nat.compare_antisym. destruct (Nat.compare _ _); simpl; [apply IH|done|done].
Qed.

(** [Lt] and [Eq] compose as the orders they are. *)
Lemma strcasecmp_trans a b c :
  strcasecmp a b <> Gt -> strcasecmp b c <> Gt ->
  strcasecmp a c = match strcasecmp a b with Eq => strcasecmp b c | _ => Lt end.
Proof.
  revert b c. induction a as [|x a IH]; intros [|y b] [|z c]; simpl; try done.
  destruct (Nat.compare_spec (charmap x) (charmap y)) as [E1|L1|G1];
  destruct (Nat.compare_spec (charmap y) (charmap z)) as [E2|L2|G2];
  intros H1 H2; try done.
  - rewrite E1, E2, Nat.compare_refl. exact (IH b c H1 H2).
  - rewrite E1. apply Nat.compare_lt_iff in L2. rewrite L2. by destruct (strcasecmp a b).
  - rewrite <- E2. apply Nat.compare_lt_iff in L1. by rewrite L1.
  - assert (L3 : (charmap x < charmap z)%nat) by lia.
    apply Nat.compare_lt_iff in L3. by rewrite L3.
Qed.
Lemma strcasecmp_le_lt a b c : strcasecmp a b <> Gt -> strcasecmp b c = Lt -> strcasecmp a c = Lt.
Proof. intros H1 H2. rewrite (strcasecmp_trans a b c), H2 by congruence. by destruct (strcasecmp a b). Qed.
Lemma strcasecmp_lt_le a b c : strcasecmp a b = Lt -> strcasecmp b c <> Gt -> strcasecmp a c = Lt.
Proof. intros H1 H2. rewrite (strcasecmp_trans a b c), H1 by congruence. done. Qed.
Lemma strcasecmp_Gt a b : strcasecmp a b = Gt <-> strcasecmp b a = Lt.
Proof. rewrite (strcasecmp_antisym b a). destruct (strcasecmp b a); simpl; split; congruence. Qed.

(** ** The table *)

Definition reg_count : nat := length d10v_predefined_registers.
Definition name_at (i : Z) : string := reg_name (register_at i).
#[local] Instance comparison_eq_dec : EqDecision comparison.
Proof. solve_decision. Defined.

(** The table is sorted, and equal names have equal values ([r1] is there twice). *)
Definition pair_ok (i j : nat) : bool :=
  let i := Z.of_nat i in
  let j := Z.of_nat j in
  bool_decide (strcasecmp (name_at i) (name_at j) <> Gt) &&
  (bool_decide (strcasecmp (name_at i) (name_at j) <> Eq)
   || (value (register_at i) =? value (register_at j))).
Lemma registers_sorted :
  forallb (fun j => forallb (fun i => pair_ok i j) (seq 0 (S j))) (seq 0 reg_count) = true.
Proof. vm_compute. reflexivity. Qed.

Lemma sorted_pair i j : 0 <= i <= j -> j < d10v_reg_name_cnt ->
  strcasecmp (name_at i) (name_at j) <> Gt /\
  (strcasecmp (name_at i) (name_at j) = Eq -> value (register_at i) = value (register_at j)).
Proof.
  intros Hi Hj. pose proof registers_sorted as Hs. rewrite forallb_forall in Hs.
  specialize (Hs (Z.to_nat j)). rewrite in_seq in Hs. unfold d10v_reg_name_cnt, reg_count in *.
  specialize (Hs ltac:(lia)). rewrite forallb_forall in Hs. specialize (Hs (Z.to_nat i)).
  rewrite in_seq in Hs. specialize (Hs ltac:(lia)). unfold pair_ok in Hs. cbv zeta in Hs.
  rewrite !Z2Nat.id in Hs by lia.
  apply andb_prop in Hs as [H1%bool_decide_eq_true [H2%bool_decide_eq_true|H2%Z.eqb_eq]%orb_prop]; done.
Qed.

(** ** The binary search *)

Section Search.
Context (nm : string).
Let cmp (i : Z) : comparison := strcasecmp nm (name_at i).

(** Before a smaller name everything is smaller, after a greater one greater. *)
Lemma cmp_below i j : 0 <= i <= j -> j < d10v_reg_name_cnt -> cmp j = Gt -> cmp i = Gt.
Proof.
  intros Hi Hj. unfold cmp. rewrite !strcasecmp_Gt. intros L.
  destruct (sorted_pair i j Hi Hj) as [Hs _]. by apply strcasecmp_le_lt with (name_at j).
Qed.
Lemma cmp_above i j : 0 <= i <= j -> j < d10v_reg_name_cnt -> cmp i = Lt -> cmp j = Lt.
Proof.
  intros Hi Hj L. destruct (sorted_pair i j Hi Hj) as [Hs _].
  by apply strcasecmp_lt_le with (name_at i).
Qed.

(** What the search returns: the value of a register of that name, or -1 when there
    is none *)
Definition found (v : Z) : Prop :=
  (exists i, 0 <= i < d10v_reg_name_cnt /\ cmp i = Eq /\ v = value (register_at i)) \/
  (v = -1 /\ forall i, 0 <= i < d10v_reg_name_cnt -> cmp i <> Eq).

Lemma none_found low high :
  (forall i, 0 <= i < low -> cmp i = Gt) ->
  (forall i, high < i < d10v_reg_name_cnt -> cmp i = Lt) -> high < low -> found (-1).
Proof.
  intros Hlo Hhi Hlt. right. split; [done|]. intros i Hi E.
  destruct (Z.lt_ge_cases i low); [rewrite Hlo in E by lia|rewrite Hhi in E by lia]; done.
Qed.

Lemma search_loop_found fuel : forall low high,
  0 <= low <= high -> high < d10v_reg_name_cnt -> high - low < Z.of_nat fuel ->
  (forall i, 0 <= i < low -> cmp i = Gt) ->
  (forall i, high < i < d10v_reg_name_cnt -> cmp i = Lt) ->
  exists v, reg_name_search_loop fuel nm low high = Some v /\ found v.
Proof.
  induction fuel as [|fuel IH]; intros low high Hr Hh Hf Hlo Hhi; [lia|].
  cbn [reg_name_search_loop]. cbv zeta. rewrite Z.quot_div_nonneg by lia.
  set (m := (low + high) / 2). assert (low <= m <= high) as Hm by (subst m; zdml).
  change (strcasecmp nm (reg_name (register_at m))) with (cmp m). destruct (cmp m) eqn:E.
  - exists (value (register_at m)). split; [done|]. left. exists m. split; [lia|done].
  - assert (forall i, m - 1 < i < d10v_reg_name_cnt -> cmp i = Lt) as Hhi'.
    { intros i Hi. apply (cmp_above m); [lia..|done]. }
    destruct (Z.leb_spec low (m - 1)); [apply IH; (lia || done)|].
    exists (-1). split; [done|]. by apply (none_found low (m - 1)).
  - assert (forall i, 0 <= i < m + 1 -> cmp i = Gt) as Hlo'.
    { intros i Hi. apply (cmp_below i m); [lia..|done]. }
    destruct (Z.leb_spec (m + 1) high); [apply IH; (lia || done)|].
    exists (-1). split; [done|]. by apply (none_found (m + 1) high).
Qed.

Lemma search_found : exists v, reg_name_search nm = Some v /\ found v.
Proof.
  unfold reg_name_search. apply search_loop_found; unfold d10v_reg_name_cnt; try lia.
  - simpl. lia.
Qed.
End Search.

(** The search as a linear one *)
Definition find_register (nm : string) : option pd_reg :=
  List.find (fun r => bool_decide (strcasecmp nm (reg_name r) = Eq)) d10v_predefined_registers.

Lemma register_index r : In r d10v_predefined_registers ->
  exists i, 0 <= i < d10v_reg_name_cnt /\ register_at i = r.
Proof.
  intros Hin. destruct (In_nth _ _ (PdReg EmptyString None 0) Hin) as (n & Hn & E).
  exists (Z.of_nat n). unfold register_at, d10v_reg_name_cnt. rewrite Nat2Z.id. split; [lia|done].
Qed.
Lemma register_at_in i : 0 <= i < d10v_reg_name_cnt -> In (register_at i) d10v_predefined_registers.
Proof. intros Hi. unfold register_at. apply nth_In. unfold d10v_reg_name_cnt in Hi. lia. Qed.

(** Registers with the same name have the same value. *)
Lemma same_name_value nm i j : 0 <= i < d10v_reg_name_cnt -> 0 <= j < d10v_reg_name_cnt ->
  strcasecmp nm (name_at i) = Eq -> strcasecmp nm (name_at j) = Eq ->
  value (register_at i) = value (register_at j).
Proof.
  assert (forall i j, 0 <= i <= j -> j < d10v_reg_name_cnt ->
    strcasecmp nm (name_at i) = Eq -> strcasecmp nm (name_at j) = Eq ->
    value (register_at i) = value (register_at j)) as Hle.
  { intros i' j' Hi Hj Ei Ej. apply (sorted_pair i' j'); [lia..|].
    assert (strcasecmp (name_at i') nm = Eq) as Ei' by (by rewrite strcasecmp_antisym, Ei).
    rewrite (strcasecmp_trans _ nm), Ei' by congruence. done. }
  intros Hi Hj Ei Ej. destruct (Z.le_ge_cases i j); [|symmetry]; apply Hle; (lia || done).
Qed.

(** C40: [reg_name_search] ends, and its binary search of the register table gives what
    a linear search up to case would: the value of the register of that name, or -1
    when there is none. *)
Theorem reg_name_search_linear nm :
  reg_name_search nm = Some (match find_register nm with Some r => value r | None => -1 end).
Proof.
  destruct (search_found nm) as (v & -> & [(i & Hi & E & ->)|[-> Hno]]); f_equal; unfold find_register.
  - destruct (List.find _ _) as [r|] eqn:Ef.
    + apply find_some in Ef as [Hin Eq%bool_decide_eq_true].
      destruct (register_index r Hin) as (j & Hj & <-). by apply (same_name_value nm).
    + pose proof (find_none _ _ Ef _ (register_at_in i Hi)) as Hc.
      by apply bool_decide_eq_false in Hc.
  - destruct (List.find _ _) as [r|] eqn:Ef; [|done]. exfalso.
    apply find_some in Ef as [Hin Eq%bool_decide_eq_true].
    destruct (register_index r Hin) as (j & Hj & <-). by apply (Hno j).
Qed.
