(* ===== verification/DisSpec.v ===== *)
(** * What the disassembler prints

    It picks the opcode that the simulator executes, and what it prints for an operand
    is read back by the assembler as the same value, but for the accumulators. *)
From Stdlib Require Import Ascii.
From S2P Require Import Prelude CInt Opcodes State Memory Cregs.
From S2P Require Import SimopsAlu SimopsAcc SimopsFlow SimopsMem SimopsTrap Interp.
From S2P Require Import Elf Dis Asm Decode AsmRegs.

(** ** The instruction *)

(** The generated table in the order of the opcode table *)
Definition is_real (op : d10v_opcode) : bool :=
  match name op with Some _ => negb (format op =? OPCODE_FAKE) | None => false end.
Definition table_ops : list d10v_opcode := List.filter is_real d10v_opcodes.

Lemma real_simops_gen : real_simops = map gen_simop table_ops.
Proof. vm_compute. reflexivity. Qed.
Definition op_entry (op : d10v_opcode) : hash_entry := entry_of (gen_simop op).
Lemma linear_table_ops : linear_table = map op_entry table_ops.
Proof. vm_compute. reflexivity. Qed.

Definition class_matches (cls insn : Z) (op : d10v_opcode) : bool :=
  truth (Z.land (format op) cls) && (Z.land (mask op) insn =? opcode op).

(** The table ends at its only entry without a name, and neither that one nor the fake
    entries are of a class. *)
Definition scanned (op : d10v_opcode) : bool := match name op with Some _ => true | None => false end.
Lemma table_shape : d10v_opcodes = List.filter scanned d10v_opcodes ++ [null_opcode].
Proof. vm_compute. reflexivity. Qed.

Lemma dis_search_scan cls insn l : (forall op, In op l -> scanned op = true) ->
  dis_search (l ++ [null_opcode]) cls insn = List.find (class_matches cls insn) l.
Proof.
  induction l as [|op l IH]; intros Hl; [done|]. simpl.
  assert (scanned op = true) as Hop by (apply Hl; by left). unfold scanned in Hop.
  destruct (name op); [|done]. fold (class_matches cls insn op).
  destruct (class_matches cls insn op); [done|]. apply IH. intros o Ho. apply Hl. by right.
Qed.

(** The class of an opcode is the length of its words. *)
Definition class_of_length (long : Z) : Z := if truth long then LONG_OPCODE else SHORT_OPCODE.
Definition op_ok (op : d10v_opcode) : bool :=
  (Z.land (mask op) 0x3FFFFFFF =? mask op) &&
  (match name op with Some _ => true | None => format op =? 0 end) &&
  ((format op =? OPCODE_FAKE) || negb (scanned op)
   || eqb (truth (Z.land (format op) LONG_OPCODE)) (negb (truth (Z.land (format op) SHORT_OPCODE)))).
Lemma all_op_ok op : In op d10v_opcodes -> op_ok op = true.
Proof.
  assert (forallb op_ok d10v_opcodes = true) as H by (vm_compute; reflexivity).
  rewrite forallb_forall in H. apply H.
Qed.

Lemma search_real cls insn l : cls = LONG_OPCODE \/ cls = SHORT_OPCODE ->
  (forall op, In op l -> op_ok op = true) ->
  dis_search (List.filter scanned l ++ [null_opcode]) cls insn =
  List.find (class_matches cls insn) (List.filter is_real l).
Proof.
  intros Hc Hok. assert (forall op, In op l -> class_matches cls insn op = true ->
    scanned op = true /\ is_real op = true) as Hreal.
  { intros op Hin Hm. apply Hok in Hin. unfold op_ok in Hin.
    apply andb_prop in Hin as [[_ Hn]%andb_prop _]. unfold class_matches, scanned, is_real in *.
    apply andb_prop in Hm as [Hm _]. destruct (name op).
    - split; [done|]. apply negb_true_iff, Z.eqb_neq. intros E. rewrite E in Hm. by destruct Hc as [-> | ->].
    - apply Z.eqb_eq in Hn. by rewrite Hn in Hm. }
  rewrite dis_search_scan, !find_filter; [done| | |].
  - intros op Hin Hm. by apply (Hreal op Hin Hm).
  - intros op Hin Hm. by apply (Hreal op Hin Hm).
  - intros op Hin. by apply filter_In in Hin as [_ ?].
Qed.
Lemma dis_search_find cls insn : cls = LONG_OPCODE \/ cls = SHORT_OPCODE ->
  dis_search d10v_opcodes cls insn = List.find (class_matches cls insn) table_ops.
Proof.
  intros Hc. pose proof (search_real cls insn d10v_opcodes Hc all_op_ok) as H.
  rewrite <- table_shape in H. exact H.
Qed.

Lemma in_table_ops op : In op table_ops <-> In op d10v_opcodes /\ is_real op = true.
Proof. exact (filter_In is_real op d10v_opcodes). Qed.
Lemma table_op op : In op table_ops -> op_ok op = true /\ scanned op = true /\ format op <> OPCODE_FAKE.
Proof.
  intros [Hin Hf]%in_table_ops. split; [exact (all_op_ok op Hin)|]. unfold scanned, is_real in *.
  clear Hin. destruct (name op); [|discriminate]. split; [reflexivity|].
  by apply negb_true_iff, Z.eqb_neq in Hf.
Qed.

(** The two tests for a match *)
Lemma matches_agree op insn long : In op table_ops -> long = 0 \/ long = 1 ->
  hash_matches (Z.land insn 0x3FFFFFFF) long (op_entry op) = class_matches (class_of_length long) insn op.
Proof.
  intros (Hok & Hs & Hf)%table_op Hl. unfold op_ok in Hok. rewrite Hs in Hok.
  apply Z.eqb_neq in Hf. rewrite Hf in Hok. simpl in Hok.
  apply andb_prop in Hok as [[Hm%Z.eqb_eq _]%andb_prop Hc%eqb_prop].
  unfold class_matches, hash_matches, op_entry, entry_of, gen_simop.
  cbn [he_mask he_opcode he_size so_mask so_opcode so_is_long].
  rewrite <- Z.land_assoc, (Z.land_comm 0x3FFFFFFF), Hm, (Z.land_comm insn), andb_comm.
  f_equal. unfold class_of_length, truth in *.
  destruct Hl as [-> | ->]; cbn;
    destruct (Z.land (format op) LONG_OPCODE =? 0), (Z.land (format op) SHORT_OPCODE =? 0); done.
Qed.

(** C35: The disassembler and the simulator agree on the instruction: of every word, the
    opcode entry whose name is printed is the one from which the entry was generated
    that the search of the simulator's table gives, and there is none in the same
    cases. *)
Theorem dis_same_instruction insn long : long = 0 \/ long = 1 ->
  option_map op_entry (dis_search d10v_opcodes (class_of_length long) insn) =
  List.find (hash_matches (Z.land insn 0x3FFFFFFF) long) linear_table.
Proof.
  intros Hl. rewrite dis_search_find by (destruct Hl as [-> | ->]; [by right|by left]).
  rewrite linear_table_ops, find_map. f_equal. apply find_ext. intros op Hin.
  symmetry. by apply matches_agree.
Qed.

(** ** The operands *)

(** Where an operand is in the word, and its field *)
Definition operand_shift (op : d10v_opcode) (o : d10v_operand) : Z :=
  if (format op =? LONG_L) && truth (Z.land (flags o) OPERAND_REG) then shift o + 15 else shift o.
Definition operand_field (op : d10v_opcode) (o : d10v_operand) (insn : Z) : Z :=
  (insn / 2 ^ operand_shift op o) mod 2 ^ bits o.

(** The value that the text of an operand stands for when the assembler reads it: the
    number of the register that [reg_name_search] finds, the number, or the address *)
Definition reads (l : list callback) : option Z :=
  match l with
  | [fprintf_func fmt (Str nm)] =>
      if bool_decide (fmt = "%s"%string)
      then match reg_name_search nm with Some v => if v <? 0 then None else Some v | None => None end
      else None
  | [fprintf_func fmt (Num n)] => if bool_decide (fmt = "0x%x"%string) then Some n else None
  | [fprintf_func sgn No_arg; fprintf_func fmt (Num n)] =>
      if bool_decide (sgn = "-"%string) && bool_decide (fmt = "0x%x"%string) then Some (- n) else None
  | [print_address_func a] => Some a
  | _ => None
  end.

Definition is_register (o : d10v_operand) : bool := truth (Z.land (flags o) OPERAND_REG).
Definition is_accumulator (o : d10v_operand) : bool :=
  truth (Z.land (flags o) (Z.lor OPERAND_ACC0 OPERAND_ACC1)).
Definition register_class (o : d10v_operand) : Z :=
  Z.land (flags o) (Z.lor OPERAND_GPR (Z.lor OPERAND_FFLAG (Z.lor OPERAND_CFLAG OPERAND_CONTROL))).
Definition register_exists (n : Z) : bool := existsb (fun r => value r =? n) d10v_predefined_registers.

(** What an operand's text should read as *)
Definition operand_value_text (o : d10v_operand) (v memaddr : Z) : option Z :=
  if is_register o then
    if is_accumulator o then None
    else if register_exists (register_class o + v) then Some (register_class o + v) else None
  else if truth (Z.land (flags o) OPERAND_ADDR)
  then Some (Z.land (u32 (memaddr + 4 * wrap_signed (bits o) v)) PC_MASK)
  else Some (if truth (Z.land (flags o) OPERAND_SIGNED) then wrap_signed (bits o) v else v).

(** Registers: all fields of all register operands *)
Definition operand_indices : list Z := map Z.of_nat (seq 1 31).
Definition field_values (o : d10v_operand) : list Z := map Z.of_nat (seq 0 (Z.to_nat (2 ^ bits o))).
Definition print_register_operand (o : d10v_operand) (num : Z) : list callback :=
  let num := num + register_class o in
  print_register (flags o)
    (if is_accumulator o then num + (if truth num then OPERAND_ACC0 else OPERAND_ACC1) else num).
Lemma registers_read :
  forallb (fun i => let o := operand_at i in
    if is_register o then
      forallb (fun v => bool_decide (reads (print_register_operand o v) = operand_value_text o v 0))
        (field_values o)
    else true) operand_indices = true.
Proof. vm_compute. reflexivity. Qed.

Definition operand_shape (i : Z) : bool :=
  let o := operand_at i in
  (1 <=? bits o) && (bits o <=? 16) &&
  forallb (fun f => negb (flags o =? f)) [OPERAND_ATMINUS; OPERAND_MINUS; OPERAND_PLUS; OPERAND_ATSIGN; OPERAND_ATPAR].
Lemma operand_shapes :
  forallb (fun i => negb (is_operand (flags (operand_at i))) || operand_shape i) operand_indices = true.
Proof. vm_compute. reflexivity. Qed.
Lemma operand_index_range i : is_operand (flags (operand_at i)) = true -> In i operand_indices.
Proof.
  intros H. assert (0 < i < 32) as Hi.
  { destruct (Z.leb_spec i 0) as [Hle|]; [|destruct (Z.leb_spec 32 i)]; [| |lia].
    - unfold operand_at in H. replace (Z.to_nat i) with 0%nat in H by lia. discriminate.
    - unfold operand_at in H. rewrite nth_overflow in H; [discriminate|].
      change (length d10v_operands) with 32%nat. lia. }
  unfold operand_indices. apply in_map_iff. exists (Z.to_nat i). rewrite in_seq. lia.
Qed.
Lemma operand_shape_ok i : is_operand (flags (operand_at i)) = true -> operand_shape i = true.
Proof.
  intros H. pose proof operand_shapes as Ha. rewrite forallb_forall in Ha.
  specialize (Ha i (operand_index_range i H)). by rewrite H in Ha.
Qed.

Lemma operand_shift_nonneg i : 0 <= shift (operand_at i).
Proof.
  unfold operand_at. apply Forall_nth_default with (P := fun x => 0 <= shift x);
    [repeat constructor; vm_compute; discriminate|done].
Qed.
Lemma bits_mask_ones b : 0 <= b <= 31 -> Z.shiftr 0x7FFFFFFF (31 - b) = Z.ones b.
Proof.
  intros Hb. change 0x7FFFFFFF with (Z.ones 31). rewrite Z.shiftr_div_pow2, Z.ones_div_pow2 by lia.
  f_equal. lia.
Qed.
Lemma field_eq insn sh b : 0 <= sh -> 0 <= b <= 31 ->
  Z.land (Z.shiftr insn sh) (Z.shiftr 0x7FFFFFFF (31 - b)) = (insn / 2 ^ sh) mod 2 ^ b.
Proof. intros. rewrite bits_mask_ones, Z.shiftr_div_pow2, land_ones_mod by lia. done. Qed.

(** Numbers: the sign bit and the magnitude *)
Lemma sign_bit b v : 1 <= b -> 0 <= v < 2 ^ b ->
  truth (Z.land v (Z.shiftl 1 (b - 1))) = (2 ^ (b - 1) <=? v).
Proof.
  intros Hb Hv. rewrite Z.shiftl_1_l. unfold truth. rewrite land_bit_eqb, negb_involutive by lia.
  pose proof (pow2_half b Hb). destruct (Z.leb_spec (2 ^ (b - 1)) v).
  - apply Z.testbit_true; [lia|]. rewrite Z.mod_small; [|split]; zdm.
  - apply testbit_high with (b - 1); lia.
Qed.
Lemma magnitude b v : 1 <= b -> 2 ^ (b - 1) <= v < 2 ^ b ->
  Z.land (- v) (Z.shiftl 1 b - 1) = - wrap_signed b v.
Proof.
  intros Hb Hv. pose proof (pow2_half b Hb). rewrite Z.shiftl_1_l.
  replace (2 ^ b - 1) with (Z.ones b) by (rewrite Z.ones_equiv; lia). rewrite land_ones_mod by lia.
  unfold wrap_signed. replace (v + 2 ^ (b - 1)) with (v - 2 ^ (b - 1) + 1 * 2 ^ b) by lia.
  rewrite Z.mod_add, (Z.mod_small (v - _)) by lia.
  replace (- v) with (2 ^ b - v + (-1) * 2 ^ b) by lia. rewrite Z.mod_add, Z.mod_small by lia. lia.
Qed.

Lemma register_text i v : is_register (operand_at i) = true -> 0 <= v < 2 ^ bits (operand_at i) ->
  reads (print_register_operand (operand_at i) v) = operand_value_text (operand_at i) v 0.
Proof.
  intros Hr Hv. pose proof registers_read as Ha. rewrite forallb_forall in Ha.
  assert (is_operand (flags (operand_at i)) = true) as Ho.
  { unfold is_operand. unfold is_register, truth in Hr. by rewrite Hr. }
  specialize (Ha i (operand_index_range i Ho)). cbv zeta in Ha. rewrite Hr, forallb_forall in Ha.
  specialize (Ha v). rewrite bool_decide_eq_true in Ha. apply Ha. unfold field_values.
  apply in_map_iff. exists (Z.to_nat v). rewrite in_seq. lia.
Qed.

(** The text of a number or of an address *)
Lemma number_text o v memaddr info : 1 <= bits o -> 0 <= v < 2 ^ bits o -> is_register o = false ->
  Z.land info INSN_HAS_RELOC = 0 ->
  let neg := truth (Z.land v (Z.shiftl 1 (bits o - 1))) in
  let negated := Z.land (- v) (Z.shiftl 1 (bits o) - 1) in
  reads (if truth (Z.land (flags o) OPERAND_ADDR) then
           let num := Z.shiftl (if neg then negated else v) 2 in
           [print_address_func
              (if truth (Z.land info INSN_HAS_RELOC) then Z.land num PC_MASK
               else if neg then Z.land (u32 (memaddr - num)) PC_MASK
               else Z.land (u32 (memaddr + num)) PC_MASK)]
         else if truth (Z.land (flags o) OPERAND_SIGNED) && neg then
           [fprintf_func "-" No_arg; fprintf_func "0x%x" (Num negated)]
         else [fprintf_func "0x%x" (Num v)]) = operand_value_text o v memaddr.
Proof.
  intros Hb Hv Hr Hi neg negated. unfold operand_value_text. rewrite Hr, Hi.
  change (truth 0) with false. cbv iota zeta.
  assert (neg = (2 ^ (bits o - 1) <=? v)) as En by (by apply sign_bit).
  assert (if neg then negated = - wrap_signed (bits o) v else wrap_signed (bits o) v = v) as Hn.
  { rewrite En. pose proof (pow2_half (bits o) Hb). destruct (Z.leb_spec (2 ^ (bits o - 1)) v).
    - apply magnitude; lia.
    - apply wrap_signed_small; lia. }
  rewrite !Z.shiftl_mul_pow2 by lia. destruct (truth (Z.land (flags o) OPERAND_ADDR)).
  - destruct neg; rewrite ?Hn; cbn [reads]; do 3 f_equal; lia.
  - destruct (truth (Z.land (flags o) OPERAND_SIGNED)), neg; rewrite ?Hn; cbn [reads andb];
      rewrite ?bool_decide_eq_true_2 by done; cbn [andb]; try done. f_equal. lia.
Qed.

(** C36: What the disassembler prints for an operand reads back as the value in the
    word, for every opcode and every operand: the assembler's search finds the register
    that was printed, with the number of the field; a number is the field, with its
    sign when the operand is signed; an address is the displacement, times four, from
    the address of the word.  The exceptions are the accumulators, which are printed as
    [a2048] and [a1025], and fields that are no register ([r4099] for the carry of
    [cpfg], whose entry is shadowed). *)
Theorem dis_reads_back op i insn memaddr info :
  is_operand (flags (operand_at i)) = true -> Z.land info INSN_HAS_RELOC = 0 ->
  reads (print_operand (operand_at i) insn op memaddr info) =
  operand_value_text (operand_at i) (operand_field op (operand_at i) insn) memaddr.
Proof.
  intros Ho Hi. pose proof (operand_shape_ok i Ho) as Hs. unfold operand_shape in Hs. cbv zeta in Hs.
  set (o := operand_at i) in *.
  apply andb_prop in Hs as [[Hb1%Z.leb_le Hb2%Z.leb_le]%andb_prop Hp]. simpl in Hp.
  repeat match type of Hp with _ && _ = true => apply andb_prop in Hp as [?H%negb_true_iff Hp] end.
  assert (0 <= operand_shift op o) as Hsh.
  { pose proof (operand_shift_nonneg i : 0 <= shift o).
    unfold operand_shift. destruct (_ && _); lia. }
  set (v := operand_field op o insn).
  assert (0 <= v < 2 ^ bits o) as Hv by (apply Z.mod_pos_bound; lia).
  unfold print_operand. cbv zeta. rewrite H, H0, H1, H2, H3.
  fold (operand_shift op o). rewrite field_eq by lia. fold (operand_field op o insn). fold v.
  destruct (truth (Z.land (flags o) OPERAND_REG)) eqn:Er.
  - pose proof (register_text i v Er Hv) as Ht. fold o in Ht. unfold operand_value_text in *.
    unfold is_register in *. rewrite Er in *. exact Ht.
  - by apply number_text.
Qed.

(** ** Witnesses *)

(** [bra.s] back by one word from 0x100: the word is found, and the text reads 0xfc. *)
Definition bra_s : d10v_opcode := nth 20 d10v_opcodes null_opcode.
Lemma dis_same_instruction_witness :
  dis_search d10v_opcodes SHORT_OPCODE 0x48ff = Some bra_s /\
  List.find (hash_matches 0x48ff 0) linear_table = Some (op_entry bra_s).
Proof.
  assert (dis_search d10v_opcodes SHORT_OPCODE 0x48ff = Some bra_s) as E by (vm_compute; reflexivity).
  split; [exact E|].
  pose proof (dis_same_instruction 0x48ff 0 (or_introl eq_refl)) as H.
  change (class_of_length 0) with SHORT_OPCODE in H. rewrite E in H. symmetry. exact H.
Defined.
Lemma dis_reads_back_witness :
  reads (print_operand (operand_at ANUM8) 0x48ff bra_s 0x100 0) = Some 0xfc.
Proof.
  rewrite (dis_reads_back bra_s ANUM8 0x48ff 0x100 0); [vm_compute; reflexivity|reflexivity|reflexivity].
Defined.
