(* ===== verification/ElfSpec.v ===== *)
(** * Relocations

    The relocation table against the codes of BFD and of the object file, and what a
    relocation of a branch does to the word. *)
From S2P Require Import Prelude CInt Elf.

(** ** The table *)

(** A relocation survives the object file: the descriptor that the code of BFD
    selects is the one that is read back from its number, whatever the symbol, and
    reading reports nothing. *)
Theorem reloc_roundtrip code h sym :
  bfd_elf32_bfd_reloc_type_lookup code = Some h -> 0 <= sym ->
  d10v_info_to_howto_rel (Z.shiftl sym 8 + Z.land (howto_type h) 0xff) = (false, Some h).
Proof.
  unfold bfd_elf32_bfd_reloc_type_lookup. intros Hl Hsym.
  assert (forall t, 0 <= t < 256 -> ELF32_R_TYPE (Z.shiftl sym 8 + t) = t) as Ht.
  { intros t Ht. unfold ELF32_R_TYPE. change 0xff with (Z.ones 8).
    rewrite land_ones_mod, Z.shiftl_mul_pow2 by lia. zdml. }
  unfold d10v_info_to_howto_rel. cbv zeta. simpl in Hl.
  repeat match type of Hl with
  | (match (if ?c then _ else _) with _ => _ end) = _ => destruct c
  end; try discriminate; injection Hl as <-; rewrite Ht by (vm_compute; split; congruence); reflexivity.
Qed.

(** ** The field of a relocation *)

(** The bits of the word that the relocation changes *)
Definition field_of (h : reloc_howto_type) (w x : Z) : Z := (x / 2 ^ bitpos h) mod 2 ^ w.

Lemma field_land h w x : 0 <= bitpos h -> 0 <= w ->
  field_of h w x = Z.land (Z.shiftr x (bitpos h)) (Z.ones w).
Proof. intros. unfold field_of. by rewrite land_ones_mod, Z.shiftr_div_pow2 by lia. Qed.

Lemma shifted_mask_bit w pos n : 0 <= w -> 0 <= pos -> 0 <= n ->
  Z.testbit (Z.shiftl (Z.ones w) pos) n = (pos <=? n) && (n <? pos + w).
Proof.
  intros. rewrite Z.shiftl_spec by done. destruct (Z.leb_spec pos n); simpl.
  - rewrite Z.testbit_ones by lia. destruct (Z.leb_spec 0 (n - pos)); [|lia]. simpl.
    destruct (Z.ltb_spec (n - pos) w), (Z.ltb_spec n (pos + w)); done || lia.
  - apply Z.testbit_neg_r. lia.
Qed.

Section Field.
Context (h : reloc_howto_type) (w : Z).
Context (Hw : 1 <= w) (Hpos : 0 <= bitpos h) (Hfit : bitpos h + w <= 32).
Context (Hsrc : src_mask h = Z.shiftl (Z.ones w) (bitpos h)).
Context (Hdst : dst_mask h = Z.shiftl (Z.ones w) (bitpos h)).

Lemma mask_bit n : 0 <= n -> Z.testbit (Z.shiftl (Z.ones w) (bitpos h)) n = (bitpos h <=? n) && (n <? bitpos h + w).
Proof. intros. apply shifted_mask_bit; lia. Qed.

(** The bits that stay *)
Lemma DOIT_outside r x n : 0 <= x < 2 ^ 32 -> 0 <= n < 32 -> ~ (bitpos h <= n < bitpos h + w) ->
  Z.testbit (DOIT h r x) n = Z.testbit x n.
Proof.
  intros Hx Hn Ho. unfold DOIT. rewrite Hdst, Z.lor_spec, !Z.land_spec, mask_bit by lia.
  replace ((bitpos h <=? n) && (n <? bitpos h + w)) with false.
  2: { destruct (Z.leb_spec (bitpos h) n), (Z.ltb_spec n (bitpos h + w)); simpl; lia. }
  rewrite andb_false_r, orb_false_r. rewrite (u32_small x) by lia. unfold u32.
  rewrite <- (land_ones_mod (Z.lnot _)), Z.land_spec, Z.lnot_spec, Z.ones_spec_low, mask_bit by lia.
  destruct (Z.leb_spec (bitpos h) n), (Z.ltb_spec n (bitpos h + w)); simpl; rewrite ?andb_true_r; done || lia.
Qed.

Lemma DOIT_range r x : 0 <= x < 2 ^ 32 -> 0 <= DOIT h r x < 2 ^ 32.
Proof.
  intros Hx. unfold DOIT.
  assert (0 <= dst_mask h) by (rewrite Hdst, Z.shiftl_nonneg, Z.ones_equiv; pose proof (Z.pow_pos_nonneg 2 w); lia).
  apply lor_lt_pow2; [lia| |]; apply land_lt_pow2; first [lia | apply u32_range].
Qed.

(** The field is added to. *)
Lemma DOIT_field r x : 0 <= x < 2 ^ 32 ->
  field_of h w (DOIT h (u32 (Z.shiftl r (bitpos h))) x) = (field_of h w x + r) mod 2 ^ w.
Proof.
  intros Hx. set (p := bitpos h) in *. set (A := u32 (Z.land (u32 x) (src_mask h) + u32 (Z.shiftl r p))).
  assert (field_of h w (DOIT h (u32 (Z.shiftl r p)) x) = (A / 2 ^ p) mod 2 ^ w) as ->.
  { rewrite field_land by lia. fold p. rewrite <- Z.shiftr_div_pow2, <- land_ones_mod by lia.
    apply Z.bits_inj'. intros n Hn. rewrite !Z.land_spec, Z.testbit_ones by lia.
    destruct (Z.ltb_spec n w); [|by rewrite andb_false_r, !andb_false_r].
    rewrite !Z.shiftr_spec by lia. unfold DOIT. fold A. rewrite Z.lor_spec, !Z.land_spec, Hdst.
    assert (Z.testbit (Z.shiftl (Z.ones w) p) (n + p) = (p <=? n + p) && (n + p <? p + w)) as Hm
      by (apply mask_bit; lia).
    assert (Z.testbit (u32 (Z.lnot (Z.shiftl (Z.ones w) p))) (n + p) = false) as ->.
    { unfold u32. rewrite <- land_ones_mod, Z.land_spec, Z.lnot_spec, Hm by lia.
      destruct (Z.leb_spec p (n + p)), (Z.ltb_spec (n + p) (p + w)); simpl; done || lia. }
    rewrite Hm. destruct (Z.leb_spec p (n + p)); [|lia]. destruct (Z.ltb_spec (n + p) (p + w)); [|lia].
    simpl. by rewrite andb_false_r, andb_true_r. }
  subst A. rewrite (u32_small x), Hsrc, land_field by lia. fold p.
  change ((x / 2 ^ p) mod 2 ^ w) with (field_of h w x). rewrite Z.shiftl_mul_pow2 by lia.
  set (f := field_of h w x). unfold u32. rewrite Zplus_mod_idemp_r, <- Z.mul_add_distr_r.
  replace (2 ^ 32) with (2 ^ p * 2 ^ (32 - p)) by (rewrite <- Z.pow_add_r by lia; f_equal; lia).
  rewrite (Z.mul_comm (f + r)), Zmult_mod_distr_l, Z.mul_comm, Z.div_mul by (apply Z.pow_nonzero; lia).
  replace (32 - p) with (w + (32 - p - w)) by lia. rewrite Z.pow_add_r by lia.
  pose proof (Z.pow_pos_nonneg 2 w). pose proof (Z.pow_pos_nonneg 2 (32 - p - w)).
  rewrite Z.rem_mul_r by lia. rewrite Z.mul_comm, Z.mod_add by lia. apply Z.mod_mod. lia.
Qed.
End Field.

(** ** The bytes of the contents *)

Lemma get_put bs data addr : 0 <= addr -> addr + Z.of_nat (length bs) <= Z.of_nat (length data) ->
  get_bytes (length bs) (put_bytes bs data addr) addr = Some bs.
Proof.
  intros Ha Hl. unfold get_bytes, put_bytes. rewrite !length_app, length_drop.
  rewrite length_take_le by lia.
  rewrite (proj2 (Z.leb_le 0 addr)), (proj2 (Z.leb_le _ _)) by lia. simpl. f_equal.
  rewrite drop_app_length' by (rewrite length_take_le; lia). by rewrite take_app_length.
Qed.

Lemma get_bytes_fits n data addr bs : get_bytes n data addr = Some bs ->
  0 <= addr /\ addr + Z.of_nat n <= Z.of_nat (length data).
Proof.
  unfold get_bytes. destruct (Z.leb_spec 0 addr); [|done].
  by destruct (Z.leb_spec (addr + Z.of_nat n) (Z.of_nat (length data))).
Qed.

Lemma bfd_getb32_putb32 x : bfd_getb32 (bfd_putb32 x) = u32 x.
Proof.
  unfold bfd_getb32, bfd_putb32, from_bytes.
  rewrite Z.shiftl_0_l, Z.lor_0_l.
  rewrite !lor_add_disjoint by (first [lia | apply u8_range]).
  unfold u8, u32. rewrite !Z.shiftr_div_pow2 by lia. zdml.
Qed.
Lemma u32_of_s32 x : 0 <= x < 2 ^ 32 -> u32 (s32 x) = x.
Proof. intros. by rewrite u32_s32, u32_small. Qed.

(** ** The range check of a branch *)

(** The distance of a branch in words, from the relocation value *)
Definition distance (rel : Z) : Z := s32 rel / 4.

Lemma forced_bits rel : 0 <= rel < 2 ^ 32 ->
  Z.lor (Z.shiftr rel 2) (lost_bits 2) = rel / 4 + 3 * 2 ^ 30.
Proof.
  intros Hr. change (lost_bits 2) with (Z.shiftl 3 30). rewrite Z.shiftr_div_pow2 by lia.
  rewrite Z.lor_comm, lor_add_disjoint by (try lia; change (2 ^ 2) with 4; zdml).
  change (2 ^ 2) with 4. lia.
Qed.
Lemma distance_cases rel : 0 <= rel < 2 ^ 32 ->
  (rel < 2 ^ 31 /\ s32 rel = rel /\ distance rel = rel / 4) \/
  (2 ^ 31 <= rel /\ s32 rel = rel - 2 ^ 32 /\ distance rel = rel / 4 - 2 ^ 30).
Proof. intros Hr. unfold distance, s32, wrap_signed. zdml. Qed.

Lemma check_signed_18 rel : 0 <= rel < 2 ^ 32 ->
  bfd_check_overflow complain_overflow_signed 18 2 rel = bfd_reloc_ok <->
  - 2 ^ 17 <= distance rel < 2 ^ 17.
Proof.
  intros Hr. unfold bfd_check_overflow. cbv zeta. rewrite forced_bits by done.
  change (s32 (s32 (Z.shiftl 1 (18 - 1)) - 1)) with 131071. change (Z.lnot 131071) with (-131072).
  rewrite (Z.shiftr_div_pow2 rel 2) by lia. change (2 ^ 2) with 4. change (0 <? 2) with true.
  destruct (distance_cases rel Hr) as [(H1 & -> & ->)|(H1 & -> & ->)]; simpl.
  - rewrite (proj2 (Z.ltb_ge rel 0)) by lia.
    assert (s32 (rel / 4) = rel / 4) as -> by (unfold s32, wrap_signed; zdml).
    destruct (Z.ltb_spec 131071 (rel / 4)), (Z.ltb_spec (rel / 4) (-131072)); simpl;
      (split; [intros E; try discriminate E; zdml|intros; try reflexivity; exfalso; zdml]).
  - rewrite (proj2 (Z.ltb_lt (rel - 2 ^ 32) 0)) by lia.
    assert (s32 (rel / 4 + 3 * 2 ^ 30) = rel / 4 - 2 ^ 30) as -> by (unfold s32, wrap_signed; zdml).
    destruct (Z.ltb_spec 131071 (rel / 4 - 2 ^ 30)), (Z.ltb_spec (rel / 4 - 2 ^ 30) (-131072)); simpl;
      (split; [intros E; try discriminate E; zdml|intros; try reflexivity; exfalso; zdml]).
Qed.

Lemma land_above x : 0 <= x < 2 ^ 32 -> Z.land x (2 ^ 32 - 1024) = x / 1024 * 1024.
Proof.
  intros Hx. change (2 ^ 32 - 1024) with (Z.shiftl (Z.ones 22) 10). rewrite land_field by lia.
  change (2 ^ 10) with 1024. rewrite Z.mod_small by zdml. done.
Qed.
Lemma check_bitfield_10 rel : 0 <= rel < 2 ^ 32 ->
  bfd_check_overflow complain_overflow_bitfield 10 2 rel = bfd_reloc_ok <->
  - 2 ^ 10 <= distance rel < 2 ^ 10.
Proof.
  intros Hr. unfold bfd_check_overflow. cbv zeta. rewrite forced_bits by done.
  change (u32 (Z.lnot (reloc_bits_of 10))) with (2 ^ 32 - 1024).
  rewrite (Z.shiftr_div_pow2 rel 2) by lia. change (2 ^ 2) with 4. change (0 <? 2) with true.
  assert (0 <= rel / 4 < 2 ^ 30) by zdml. rewrite !land_above by lia.
  rewrite (proj2 (Z.eqb_neq (rel / 4 / 1024 * 1024) (2 ^ 32 - 1024))) by zdml. rewrite andb_true_r.
  destruct (distance_cases rel Hr) as [(H1 & -> & ->)|(H1 & -> & ->)]; simpl.
  - rewrite (proj2 (Z.ltb_ge rel 0)) by lia.
    destruct (Z.eqb_spec (rel / 4 / 1024 * 1024) 0); simpl;
      (split; [intros E; try discriminate E; zdml|intros; try reflexivity; exfalso; zdml]).
  - rewrite (proj2 (Z.ltb_lt (rel - 2 ^ 32) 0)) by lia.
    rewrite (proj2 (Z.eqb_neq (rel / 4 / 1024 * 1024) 0)) by zdml. simpl.
    destruct (Z.eqb_spec ((rel / 4 + 3 * 2 ^ 30) / 1024 * 1024) (2 ^ 32 - 1024)); simpl;
      (split; [intros E; try discriminate E; zdml|intros; try reflexivity; exfalso; zdml]).
Qed.

(** ** Linking a branch *)

(** The relocations of branches, the width of their field, and the distances in words
    that the range check lets through *)
Definition branch_reloc (h : reloc_howto_type) (w k : Z) : Prop :=
  (howto_at R_D10V_10_PCREL_R = Some h /\ w = 8 /\ k = 2 ^ 10) \/
  (howto_at R_D10V_10_PCREL_L = Some h /\ w = 8 /\ k = 2 ^ 10) \/
  (howto_at R_D10V_18_PCREL = Some h /\ w = 16 /\ k = 2 ^ 17).

Lemma branch_reloc_fields h w k : branch_reloc h w k ->
  (w = 8 \/ w = 16) /\ (bitpos h = 0 \/ bitpos h = 15) /\ bitpos h + w <= 32 /\
  src_mask h = Z.shiftl (Z.ones w) (bitpos h) /\ dst_mask h = Z.shiftl (Z.ones w) (bitpos h) /\
  howto_size h = 2 /\ rightshift h = 2 /\ pc_relative h = true /\ pcrel_offset h = true /\
  partial_inplace h = false /\ howto_function h = Some bfd_elf_generic_reloc_fn /\
  (forall rel, 0 <= rel < 2 ^ 32 ->
     match complain_on_overflow h with
     | complain_overflow_dont => False
     | how => bfd_check_overflow how (bitsize h) 2 rel = bfd_reloc_ok <-> - k <= distance rel < k
     end).
Proof.
  intros [(Eh & -> & ->)|[(Eh & -> & ->)|(Eh & -> & ->)]]; injection Eh as <-;
    (split; [first [by left | by right]|]); (split; [first [by left | by right]|]);
    do 9 (split; [vm_compute; first [reflexivity | discriminate]|]);
    intros rel Hr; cbn [complain_on_overflow bitsize];
    first [exact (check_bitfield_10 rel Hr) | exact (check_signed_18 rel Hr)].
Qed.

(** The distance from the word to the target, in bytes *)
Definition branch_offset (e : arelent) (sym : asymbol) (sec : input_section) : Z :=
  u32 (sym_value sym + sym_output_vma sym + sym_output_offset sym
       - (in_output_vma sec + in_output_offset sec + rel_address e)).

Lemma branch_relocation_value e sym sec :
  pc_relative (rel_howto e) = true -> pcrel_offset (rel_howto e) = true -> rel_addend e = 0 ->
  sym_section sym = other_section ->
  relocation_value e sym sec false = branch_offset e sym sec.
Proof.
  intros Hp Ho Ha Hs. unfold relocation_value, branch_offset, u32. cbv zeta.
  rewrite Hp, Ho, Ha, Hs. simpl andb. cbv iota. zdml.
Qed.

(** Where the branch goes, relative to itself: the simulator adds the sign-extended
    field to the PC, which counts words of four bytes. *)
Definition branch_reach (h : reloc_howto_type) (w word : Z) : Z := 4 * wrap_signed w (field_of h w word).

Lemma reach_iff w d : 1 <= w -> wrap_signed w (d mod 2 ^ w) = d <-> - 2 ^ (w - 1) <= d < 2 ^ (w - 1).
Proof.
  intros Hw. rewrite (wrap_signed_congr w _ d) by (try lia; by rewrite Z.mod_mod by (apply Z.pow_nonzero; lia)).
  split; [intros <-; by apply wrap_signed_range|by apply wrap_signed_small].
Qed.

(** What [bfd_perform_relocation] comes to for a branch in the final link *)
Definition branch_word (h : reloc_howto_type) (rel x : Z) : Z :=
  DOIT h (u32 (Z.shiftl (Z.shiftr rel 2) (bitpos h))) x.
Definition branch_flag (h : reloc_howto_type) (rel : Z) : bfd_reloc_status_type :=
  match complain_on_overflow h with
  | complain_overflow_dont => bfd_reloc_ok
  | how => bfd_check_overflow how (bitsize h) 2 rel
  end.

Lemma perform_branch h w k e sym sec data bs :
  branch_reloc h w k -> rel_howto e = h -> rel_addend e = 0 -> sym_section sym = other_section ->
  0 <= rel_address e <= in_cooked_size sec ->
  get_bytes 4 data (rel_address e) = Some bs -> 0 <= bfd_getb32 bs < 2 ^ 32 ->
  let rel := branch_offset e sym sec in
  bfd_perform_relocation false e sym data sec false =
    Some (branch_flag h rel, Arelent (rel_address e) 0 h,
          put_bytes (bfd_putb32 (s32 (branch_word h rel (bfd_getb32 bs)))) data (rel_address e)).
Proof.
  intros Hb He Ha Hs Hadr Hget Hx rel.
  destruct (branch_reloc_fields h w k Hb) as (_ & _ & _ & _ & _ & Hsz & Hrs & Hpc & Hpo & Hpi & Hfn & _).
  assert (relocation_value e sym sec false = rel) as Ev
    by (apply branch_relocation_value; by rewrite ?He).
  unfold bfd_perform_relocation. cbv zeta. rewrite Hs, He, Hfn. simpl andb. cbv iota.
  unfold bfd_elf_generic_reloc. rewrite He, Hpi. simpl andb. cbv iota beta.
  rewrite bool_decide_eq_true_2 by done. simpl negb. cbv iota.
  rewrite (proj2 (Z.ltb_ge _ _)) by lia. rewrite Ev, Hrs.
  assert (forall f, apply_howto h (u32 (Z.shiftl (Z.shiftr rel 2) (bitpos h))) data (rel_address e) f =
    Some (f, put_bytes (bfd_putb32 (s32 (branch_word h rel (bfd_getb32 bs)))) data (rel_address e))) as Happ.
  { intros f. unfold apply_howto. cbv zeta. rewrite Hsz, Hget. simpl. do 3 f_equal. unfold branch_word.
    do 2 f_equal. unfold DOIT. by rewrite (u32_of_s32 (bfd_getb32 bs)), (u32_small (bfd_getb32 bs)). }
  rewrite Happ. unfold branch_flag. cbn [mbind option_bind].
  destruct (complain_on_overflow h); reflexivity.
Qed.

(** The field of the new word *)
Lemma branch_word_field h w k rel x : branch_reloc h w k -> 0 <= rel < 2 ^ 32 -> 0 <= x < 2 ^ 32 ->
  field_of h w (branch_word h rel x) = (field_of h w x + distance rel) mod 2 ^ w.
Proof.
  intros Hb Hr Hx. destruct (branch_reloc_fields h w k Hb) as (Hw & Hpos & Hfit & Hsrc & Hdst & _).
  unfold branch_word. rewrite (DOIT_field h w) by (done || lia). rewrite Z.shiftr_div_pow2 by lia.
  change (2 ^ 2) with 4. destruct (distance_cases rel Hr) as [(_ & _ & ->)|(_ & _ & ->)]; [done|].
  replace (2 ^ 30) with (2 ^ (30 - w) * 2 ^ w) by (rewrite <- Z.pow_add_r by lia; f_equal; lia).
  replace (field_of h w x + (rel / 4 - 2 ^ (30 - w) * 2 ^ w))
    with (field_of h w x + rel / 4 + (- 2 ^ (30 - w)) * 2 ^ w) by ring.
  rewrite Z.mod_add by (apply Z.pow_nonzero; lia). done.
Qed.

(** C37: Linking a branch.  The relocation changes the field of the branch only, and
    adds the distance to the target to it, in words; a branch that was assembled with
    an empty field then reaches its target exactly when the distance fits the field.
    The range check accepts more: it takes the size of the distance in bytes for the
    size of the field in words, so that a distance of 128 to 1023 words is accepted for
    an 8-bit field, and the branch goes elsewhere. *)
Theorem link_branch h w k e sym sec data bs :
  branch_reloc h w k -> rel_howto e = h -> rel_addend e = 0 -> sym_section sym = other_section ->
  0 <= rel_address e <= in_cooked_size sec ->
  get_bytes 4 data (rel_address e) = Some bs -> 0 <= bfd_getb32 bs < 2 ^ 32 ->
  let d := distance (branch_offset e sym sec) in
  exists flag data' bs',
    bfd_perform_relocation false e sym data sec false =
      Some (flag, Arelent (rel_address e) 0 h, data') /\
    (flag = bfd_reloc_ok <-> - k <= d < k) /\
    get_bytes 4 data' (rel_address e) = Some bs' /\
    field_of h w (bfd_getb32 bs') = (field_of h w (bfd_getb32 bs) + d) mod 2 ^ w /\
    (forall n, 0 <= n < 32 -> ~ (bitpos h <= n < bitpos h + w) ->
       Z.testbit (bfd_getb32 bs') n = Z.testbit (bfd_getb32 bs) n) /\
    (field_of h w (bfd_getb32 bs) = 0 ->
       (branch_reach h w (bfd_getb32 bs') = 4 * d <-> - 2 ^ (w - 1) <= d < 2 ^ (w - 1))).
Proof.
  intros Hb He Ha Hs Hadr Hget Hx d. set (rel := branch_offset e sym sec) in *.
  destruct (branch_reloc_fields h w k Hb) as (Hw & Hpos & Hfit & Hsrc & Hdst & _ & _ & _ & _ & _ & _ & Hchk).
  assert (1 <= w) as Hw1 by lia. assert (0 <= bitpos h) as Hpos0 by lia.
  assert (0 <= rel < 2 ^ 32) as Hr by apply u32_range.
  set (x := bfd_getb32 bs) in *. set (y := branch_word h rel x).
  exists (branch_flag h rel), (put_bytes (bfd_putb32 (s32 y)) data (rel_address e)), (bfd_putb32 (s32 y)).
  assert (0 <= y < 2 ^ 32) as Hy by (apply (DOIT_range h w); done).
  rewrite bfd_getb32_putb32, u32_of_s32 by done.
  assert (field_of h w y = (field_of h w x + d) mod 2 ^ w) as Ef by (by apply (branch_word_field h w k)).
  split; [exact (perform_branch h w k e sym sec data bs Hb He Ha Hs Hadr Hget Hx)|].
  split; [specialize (Hchk rel Hr); unfold branch_flag; by destruct (complain_on_overflow h)|].
  split; [apply (get_put (bfd_putb32 (s32 y))); [lia|exact (proj2 (get_bytes_fits _ _ _ _ Hget))]|].
  split; [done|split; [intros n Hn Ho; by apply (DOIT_outside h w)|]].
  intros E0. unfold branch_reach. rewrite Ef, E0, Z.add_0_l, <- reach_iff by done. lia.
Qed.

(** ** Witnesses *)

Definition howto_R : reloc_howto_type :=
  default (HOWTO 0 0 0 0 false 0 complain_overflow_dont None EmptyString false 0 0 false)
    (howto_at R_D10V_10_PCREL_R).
Lemma reloc_roundtrip_witness :
  d10v_info_to_howto_rel (Z.shiftl 77 8 + 1) = (false, Some howto_R).
Proof.
  exact (reloc_roundtrip BFD_RELOC_D10V_10_PCREL_R howto_R 77 eq_refl ltac:(lia)).
Defined.

(** [nop || bra.s target] with the target 128 words ahead: the link succeeds, and the
    branch goes 128 words back. *)
Definition far_word : Z := Z.lor (Z.shiftl 0x5e00 15) 0x4800.
Definition far_entry : arelent := Arelent 0 0 howto_R.
Definition far_symbol : asymbol := Symbol 512 false false other_section 0 0.
Definition far_section : input_section := Input_section 0 0 4.
Lemma link_branch_witness : exists e' data' bs',
  bfd_perform_relocation false far_entry far_symbol (bfd_putb32 far_word) far_section false =
    Some (bfd_reloc_ok, e', data') /\
  get_bytes 4 data' 0 = Some bs' /\ branch_reach howto_R 8 (bfd_getb32 bs') = -512.
Proof.
  destruct (link_branch howto_R 8 (2 ^ 10) far_entry far_symbol far_section (bfd_putb32 far_word)
              (bfd_putb32 far_word)) as (flag & data' & bs' & E & Hflag & Hget & Hfield & _).
  - left. split; [reflexivity|split; reflexivity].
  - reflexivity.
  - reflexivity.
  - reflexivity.
  - vm_compute. split; discriminate.
  - reflexivity.
  - vm_compute. split; [discriminate|reflexivity].
  - assert (flag = bfd_reloc_ok) as -> by (apply Hflag; vm_compute; split; [discriminate|reflexivity]).
    exists (Arelent 0 0 howto_R), data', bs'. split; [exact E|split; [exact Hget|]].
    unfold branch_reach. rewrite Hfield. vm_compute. reflexivity.
Defined.
