(* ===== verification/AsmSpec.v ===== *)
(** * Operands and instruction words

    The range check, the insertion of a resolved operand, and the words that
    [build_insn] makes: the simulator decodes them back. *)
From Stdlib Require Import Ascii.
From S2P Require Import Prelude CInt Opcodes State Memory Cregs.
From S2P Require Import SimopsAlu SimopsAcc SimopsFlow SimopsMem SimopsTrap Interp.
From S2P Require Import Elf Dis Asm AsmPack Decode DisSpec ElfSpec.

(** ** The range check *)

Definition has_flag (o : d10v_operand) (f : Z) : bool := truth (Z.land (flags o) f).

(** The values that an operand can hold *)
Definition fits_operand (o : d10v_operand) (v : Z) : Prop :=
  if has_flag o OPERAND_SHIFT then 0 <= v <= 16
  else if has_flag o OPERAND_SIGNED then - 2 ^ (bits o - 1) <= v < 2 ^ (bits o - 1)
  else 0 <= v < 2 ^ bits o.

Lemma check_range_exact o v : 1 <= bits o <= 16 -> - 2 ^ 31 <= v < 2 ^ 31 ->
  check_range (u32 v) (bits o) (flags o) = false <-> bits o = 16 \/ fits_operand o v.
Proof.
  intros Hb Hv. unfold check_range, fits_operand, has_flag.
  destruct (Z.eqb_spec (bits o) 16) as [E|Hne]; [tauto|].
  assert (2 ^ bits o <= 2 ^ 15) by (apply Z.pow_le_mono_r; lia).
  assert (0 < 2 ^ (bits o - 1)) by (apply Z.pow_pos_nonneg; lia).
  pose proof (pow2_half (bits o) ltac:(lia)).
  assert (s32 (u32 v) = v) as Es by (unfold s32, u32, wrap_signed; zdml).
  assert (u32 v = if v <? 0 then v + 2 ^ 32 else v) as Eu.
  { unfold u32. destruct (Z.ltb_spec v 0); zdml. }
  cbv zeta. rewrite !Z.shiftl_1_l, Es, Eu. destruct (truth (Z.land (flags o) OPERAND_SHIFT)).
  - rewrite Z.ltb_ge. destruct (Z.ltb_spec v 0); lia.
  - destruct (truth (Z.land (flags o) OPERAND_SIGNED)); rewrite orb_false_iff, !Z.ltb_ge; [lia|].
    rewrite (u32_small (2 ^ bits o - 1)) by lia. destruct (Z.ltb_spec v 0); lia.
Qed.

(** ** Inserting an operand *)

Definition out_of_range : severity * string := (Bad, "operand out of range: %d"%string).
(** What the field of an operand says *)
Definition field_meaning (o : d10v_operand) (f : Z) : Z :=
  if has_flag o OPERAND_SIGNED then wrap_signed (bits o) f else f.
Definition container_shift (left : bool) (o : d10v_operand) : Z := if left then shift o + 15 else shift o.

Lemma insert_operand_eq insn i v left s : 0 <= bits (operand_at i) <= 16 ->
  d10v_insert_operand insn i v left s =
  Ok (Z.lor insn (u32 (Z.shiftl (v mod 2 ^ bits (operand_at i)) (container_shift left (operand_at i)))))
     (if check_range (u32 v) (bits (operand_at i)) (flags (operand_at i)) then add_message out_of_range s else s).
Proof.
  intros Hb. unfold d10v_insert_operand, abind, aret, as_bad, bits_mask. cbv zeta.
  rewrite bits_mask_ones, land_ones_mod by lia. fold (container_shift left (operand_at i)).
  by destruct (check_range _ _ _).
Qed.

Lemma insert_field insn sh b v : 0 <= sh -> 0 <= b -> sh + b <= 32 ->
  (insn / 2 ^ sh) mod 2 ^ b = 0 ->
  (Z.lor insn (u32 (Z.shiftl (v mod 2 ^ b) sh)) / 2 ^ sh) mod 2 ^ b = v mod 2 ^ b.
Proof.
  intros Hs Hb Hf H0. assert (0 <= v mod 2 ^ b < 2 ^ b) as Hv by (apply Z.mod_pos_bound; lia).
  rewrite u32_small.
  2: { rewrite Z.shiftl_mul_pow2 by lia. assert (2 ^ (sh + b) <= 2 ^ 32) by (apply Z.pow_le_mono_r; lia).
       rewrite Z.pow_add_r in * by lia. nia. }
  rewrite <- !Z.shiftr_div_pow2, <- !land_ones_mod in * by lia.
  rewrite Z.shiftr_lor, Z.land_lor_distr_l, H0, Z.lor_0_l.
  rewrite Z.shiftr_shiftl_l, Z.sub_diag, Z.shiftl_0_r by lia.
  rewrite <- Z.land_assoc. by rewrite Z.land_diag.
Qed.

Lemma shift_operands :
  forallb (fun i => let o := operand_at i in
    if has_flag o OPERAND_SHIFT then negb (has_flag o OPERAND_SIGNED) && (bits o =? 4) else true)
    operand_indices = true.
Proof. vm_compute. reflexivity. Qed.


(** ** Instruction words *)

(** The operand indices of an opcode, up to the first zero *)
Fixpoint active (ops : list Z) : list Z :=
  match ops with [] => [] | i :: ops' => if i =? 0 then [] else i :: active ops' end.

(** The field that [build_insn] makes of an operand *)
Definition operand_number (o : d10v_operand) (e : expressionS) : Z :=
  let n := u32 (X_add_number e) in if is_register o then Z.land n REGISTER_MASK else n.
Definition operand_bits (i : Z) (e : expressionS) : Z :=
  operand_number (operand_at i) e mod 2 ^ bits (operand_at i).
Definition format_shift (fmt : Z) (o : d10v_operand) : Z :=
  if is_register o && (fmt =? LONG_L) then shift o + 15 else shift o.

(** Operands without symbols: registers and constants in range, and punctuation *)
Definition plain_operand {G : Gas} (i : Z) (e : expressionS) : bool :=
  let o := operand_at i in
  if is_operand (flags o)
  then op_is O_register e ||
       (op_is O_constant e && negb (check_range (operand_number o e) (bits o) (flags o)))
  else op_is O_absent e && (bits o =? 0).
Definition plain_operands {G : Gas} (l : list Z) (es : list expressionS) : Prop :=
  Forall2 (fun i e => plain_operand i e = true) l es.

(** The fixups that punctuation leaves behind: they make no relocation. *)
Definition no_reloc (l : list d10v_fixup) : Prop := Forall (fun f => fix_reloc f = 0) l.
Definition with_fixups (l : list d10v_fixup) (s : asm) : asm :=
  set_fixups (fixups_second s) (cur_fixups s ++ l) s.
Definition punctuation (l : list Z) : list Z := List.filter (fun i => negb (is_operand (flags (operand_at i)))) l.

Lemma with_fixups_nil s : with_fixups [] s = s.
Proof. unfold with_fixups, set_fixups, cur_fixups. rewrite app_nil_r. by destruct s as [? ? ? ? [] ]. Qed.
Lemma with_fixups_app l1 l2 s : with_fixups l2 (with_fixups l1 s) = with_fixups (l1 ++ l2) s.
Proof. unfold with_fixups, set_fixups, cur_fixups. destruct s as [? ? ? ? [] ]; simpl; by rewrite app_assoc. Qed.
Lemma cur_with_fixups l s : cur_fixups (with_fixups l s) = cur_fixups s ++ l.
Proof. by destruct s as [? ? ? ? [] ]. Qed.
Lemma add_fixup_with f s : add_fixup f s = with_fixups [f] s.
Proof. done. Qed.

Definition or_field (fmt : Z) (w : Z) (p : Z * expressionS) : Z :=
  Z.lor w (Z.shiftl (operand_bits p.1 p.2) (format_shift fmt (operand_at p.1))).

Section Build.
Context `{G : Gas}.

Lemma format_shift_fits fmt i : is_operand (flags (operand_at i)) = true ->
  0 <= format_shift fmt (operand_at i) /\ format_shift fmt (operand_at i) + bits (operand_at i) <= 32.
Proof.
  intros Ho. pose proof (operand_shift_nonneg i).
  assert (forallb (fun i => let o := operand_at i in
    shift o + bits o + (if is_register o then 15 else 0) <=? 32) operand_indices = true) as Ha
    by (vm_compute; reflexivity).
  rewrite forallb_forall in Ha. specialize (Ha i (operand_index_range i Ho)). apply Z.leb_le in Ha.
  unfold format_shift. destruct (is_register _), (fmt =? LONG_L); simpl; lia.
Qed.
Lemma u32_field fmt i e : is_operand (flags (operand_at i)) = true ->
  u32 (Z.shiftl (operand_bits i e) (format_shift fmt (operand_at i))) =
  Z.shiftl (operand_bits i e) (format_shift fmt (operand_at i)).
Proof.
  intros Ho. destruct (format_shift_fits fmt i Ho) as [Hs Hf]. set (sh := format_shift _ _) in *.
  pose proof (operand_shape_ok i Ho) as Hsh. unfold operand_shape in Hsh.
  apply andb_prop in Hsh as [[Hb1%Z.leb_le Hb2%Z.leb_le]%andb_prop _].
  assert (0 <= operand_bits i e < 2 ^ bits (operand_at i)) as Hv by (apply Z.mod_pos_bound; lia).
  apply u32_small. rewrite Z.shiftl_mul_pow2 by lia.
  assert (2 ^ (sh + bits (operand_at i)) <= 2 ^ 32) by (apply Z.pow_le_mono_r; lia).
  rewrite Z.pow_add_r in * by lia. nia.
Qed.

Lemma plain_value i e : is_operand (flags (operand_at i)) = true -> plain_operand i e = true ->
  op_is O_register e = true \/
  (op_is O_register e = false /\ op_is O_constant e = true /\
   check_range (operand_number (operand_at i) e) (bits (operand_at i)) (flags (operand_at i)) = false).
Proof.
  unfold plain_operand. cbv zeta. intros ->. destruct (op_is O_register e); [by left|]. simpl.
  intros [? ?%negb_true_iff]%andb_prop. by right.
Qed.
Lemma punctuation_operand i e : is_operand (flags (operand_at i)) = false -> plain_operand i e = true ->
  op_is O_absent e = true /\ bits (operand_at i) = 0 /\ is_register (operand_at i) = false.
Proof.
  unfold plain_operand. cbv zeta. intros Ho. rewrite Ho. intros [? ?%Z.eqb_eq]%andb_prop.
  split; [done|split; [done|]]. unfold is_operand in Ho.
  apply orb_false_iff in Ho as [[Ho _]%orb_false_iff _]. exact Ho.
Qed.
Lemma op_is_other a b e : a <> b -> op_is a e = true -> op_is b e = false.
Proof.
  unfold op_is. intros Hn E%bool_decide_eq_true. apply bool_decide_eq_false. congruence.
Qed.

Lemma operand_mask i n e : plain_operand i e = true ->
  Z.land n (bits_mask (bits (operand_at i))) = n mod 2 ^ bits (operand_at i).
Proof.
  intros Hi. assert (0 <= bits (operand_at i) <= 31) as Hb.
  { destruct (is_operand (flags (operand_at i))) eqn:Ho.
    - pose proof (operand_shape_ok i Ho) as Hsh. unfold operand_shape in Hsh.
      apply andb_prop in Hsh as [[?%Z.leb_le ?%Z.leb_le]%andb_prop _]. lia.
    - destruct (punctuation_operand i e Ho Hi) as (_ & -> & _). lia. }
  unfold bits_mask. by rewrite bits_mask_ones, land_ones_mod by lia.
Qed.

(** One round of the loop *)
Definition add_operand (fmt i : Z) (e : expressionS) (ops : list Z) (es : list expressionS) (w : Z)
  : A_ (Z * list expressionS) :=
  abind (build_insn_loop fmt ops es (or_field fmt w (i, e))) (fun '(insn, es') => aret (insn, e :: es')).

Lemma step_value fmt i ops e es w s : i <> 0 ->
  is_operand (flags (operand_at i)) = true -> plain_operand i e = true ->
  build_insn_loop fmt (i :: ops) (e :: es) w s = add_operand fmt i e ops es w s.
Proof.
  intros Hi0 Ho Hi. cbn [build_insn_loop]. rewrite (proj2 (Z.eqb_neq i 0)) by done. cbv zeta.
  fold (is_register (operand_at i)). fold (operand_number (operand_at i) e).
  fold (format_shift fmt (operand_at i)).
  assert (negb (op_is O_register e) && negb (op_is O_constant e) = false /\
    op_is O_constant e && check_range (operand_number (operand_at i) e) (bits (operand_at i))
      (flags (operand_at i)) = false) as [-> Hc].
  { destruct (plain_value i e Ho Hi) as [Hr|(Hr & Hc & Hk)].
    - by rewrite Hr, (op_is_other O_register O_constant e).
    - by rewrite Hr, Hc, Hk. }
  unfold add_operand, abind, aret. rewrite Hc, (operand_mask i _ e) by done.
  fold (operand_bits i e). by rewrite u32_field.
Qed.

Lemma step_punctuation fmt i ops e es w s : i <> 0 ->
  is_operand (flags (operand_at i)) = false -> plain_operand i e = true ->
  (length (cur_fixups s) < 5)%nat ->
  exists f, fix_reloc f = 0 /\
    build_insn_loop fmt (i :: ops) (e :: es) w s = add_operand fmt i e ops es w (with_fixups [f] s).
Proof.
  intros Hi0 Ho Hi Hroom. destruct (punctuation_operand i e Ho Hi) as (Ha & Hb0 & Hr).
  exists (make_fixup i (operand_number (operand_at i) e) e).1.1. set (f := fst _).
  assert (make_fixup i (operand_number (operand_at i) e) e = (f, operand_number (operand_at i) e, e)
    /\ fix_reloc f = 0) as [Em Hf].
  { unfold f, make_fixup. cbv zeta. unfold AT_WORD_P.
    rewrite (op_is_other O_absent O_right_shift e) by done. simpl. unfold get_reloc. by rewrite Hb0. }
  split; [done|]. cbn [build_insn_loop]. rewrite (proj2 (Z.eqb_neq i 0)) by done. cbv zeta.
  fold (is_register (operand_at i)). fold (operand_number (operand_at i) e).
  fold (format_shift fmt (operand_at i)).
  rewrite (op_is_other O_absent O_register e), (op_is_other O_absent O_constant e) by done. simpl andb.
  unfold add_operand, abind, aret, aget, aput, or_field. cbv iota beta.
  rewrite (proj2 (Z.leb_gt _ _)) by (unfold MAX_INSN_FIXUPS; lia). rewrite Em. cbv iota beta.
  rewrite (operand_mask i _ e) by done. cbn [fst snd]. fold (operand_bits i e).
  assert (operand_bits i e = 0) as -> by (unfold operand_bits; rewrite Hb0; apply Z.mod_1_r).
  rewrite Z.shiftl_0_l, add_fixup_with. by rewrite (op_is_other O_absent O_constant e).
Qed.

(** The loop: each operand is put into its field, and nothing else changes. *)
Lemma build_loop fmt : forall ops es rest w s,
  plain_operands (active ops) es ->
  (length (cur_fixups s) + length (punctuation (active ops)) <= 5)%nat ->
  exists extra, no_reloc extra /\
    build_insn_loop fmt ops (es ++ rest) w s =
      Ok (fold_left (or_field fmt) (zip (active ops) es) w, es ++ rest) (with_fixups extra s).
Proof.
  induction ops as [|i ops IH]; intros es rest w s He Hroom.
  { inversion He; subst. exists []. split; [constructor|]. simpl. by rewrite with_fixups_nil. }
  cbn [active] in *. destruct (Z.eqb_spec i 0) as [->|Hi0].
  { inversion He; subst. exists []. split; [constructor|]. simpl. by rewrite with_fixups_nil. }
  inversion He as [|? e ? es' Hi Hes]; subst. cbn [app zip zip_with fold_left].
  destruct (is_operand (flags (operand_at i))) eqn:Ho.
  - assert (length (punctuation (i :: active ops)) = length (punctuation (active ops))) as Hp
      by (unfold punctuation; simpl; by rewrite Ho).
    rewrite Hp in Hroom. destruct (IH es' rest (or_field fmt w (i, e)) s Hes Hroom) as (extra & Hx & E).
    exists extra. split; [done|]. rewrite step_value by done. unfold add_operand, abind. by rewrite E.
  - assert (length (punctuation (i :: active ops)) = S (length (punctuation (active ops)))) as Hp
      by (unfold punctuation; simpl; by rewrite Ho).
    rewrite Hp in Hroom.
    destruct (step_punctuation fmt i ops e (es' ++ rest) w s) as (f & Hf & ->); [done..|lia|].
    destruct (IH es' rest (or_field fmt w (i, e)) (with_fixups [f] s) Hes) as (extra & Hx & E).
    { rewrite cur_with_fixups, length_app. simpl. lia. }
    exists (f :: extra). split; [by constructor|]. unfold add_operand, abind. rewrite E.
    by rewrite with_fixups_app.
Qed.
End Build.

(** The values of the operands, in the order in which the simulator numbers them *)
Definition is_operand_at (i : Z) : bool := is_operand (flags (operand_at i)).
Fixpoint operand_values (l : list Z) (es : list expressionS) : list Z :=
  match l, es with
  | i :: l', e :: es' => (if is_operand_at i then [operand_bits i e] else []) ++ operand_values l' es'
  | _, _ => []
  end.
Definition op_fields (d : d10v_opcode) : list (Z * Z) :=
  map (fun i => (format_shift (format d) (operand_at i), bits (operand_at i)))
    (List.filter is_operand_at (active (operands d))).

(** The fields of the generated table are those that the assembler fills. *)
Lemma gen_fields d : In d table_ops -> so_fields (gen_simop d) = op_fields d.
Proof.
  assert (forallb (fun d => bool_decide (so_fields (gen_simop d) = op_fields d)) table_ops = true) as Ha
    by (vm_compute; reflexivity).
  intros Hin. rewrite forallb_forall in Ha. specialize (Ha d Hin).
  by apply bool_decide_eq_true in Ha.
Qed.

Lemma gen_simop_real d : In d table_ops -> In (gen_simop d) real_simops.
Proof. rewrite real_simops_gen. apply in_map. Qed.
Lemma no_reloc_filter l : no_reloc l -> List.filter (fun f => truth (fix_reloc f)) l = [].
Proof. induction 1 as [|f l Hf _ IH]; [done|]. cbn [List.filter]. rewrite Hf. exact IH. Qed.
Lemma fold_lor_start w a (l : list Z) : fold_right Z.lor (Z.lor w a) l = Z.lor a (fold_right Z.lor w l).
Proof.
  induction l as [|b l IH]; simpl; [apply Z.lor_comm|]. rewrite IH.
  by rewrite !Z.lor_assoc, (Z.lor_comm a b).
Qed.

Section Words.
Context `{G : Gas}.

Lemma fold_fields fmt : forall l es w, plain_operands l es ->
  fold_left (or_field fmt) (zip l es) w =
  fold_right Z.lor w (zip_with (fun f v => Z.shiftl v f.1)
    (map (fun i => (format_shift fmt (operand_at i), bits (operand_at i))) (List.filter is_operand_at l))
    (operand_values l es)).
Proof.
  induction l as [|i l IH]; intros es w He; inversion He as [|? e ? es' Hi Hes]; subst; [done|].
  cbn [zip zip_with fold_left operand_values List.filter]. rewrite IH by done.
  unfold or_field. cbn [fst snd]. destruct (is_operand_at i) eqn:Ho.
  - cbn [map app zip_with fold_right fst]. rewrite fold_lor_start. done.
  - destruct (punctuation_operand i e Ho Hi) as (_ & Hb & _).
    assert (operand_bits i e = 0) as -> by (unfold operand_bits; rewrite Hb; apply Z.mod_1_r).
    by rewrite Z.shiftl_0_l, Z.lor_0_r.
Qed.

(** [build_insn] encodes. *)
Lemma build_insn_encodes d es rest s :
  In d table_ops -> opcode d <> OPCODE_DIVS -> plain_operands (active (operands d)) es ->
  (length (cur_fixups s) + length (punctuation (active (operands d))) <= 5)%nat ->
  exists extra, no_reloc extra /\
    build_insn d (es ++ rest) 0 s =
      Ok (encode (gen_simop d) (operand_values (active (operands d)) es)) (with_fixups extra s).
Proof.
  intros Hin Hd He Hroom.
  destruct (build_loop (format d) (operands d) es rest (opcode d) s He Hroom) as (extra & Hx & E).
  exists extra. split; [done|]. unfold build_insn. cbv zeta. change (truth 0) with false. cbv iota.
  unfold abind. rewrite E. rewrite (proj2 (Z.eqb_neq (opcode d) _)) by done. simpl andb. cbv iota.
  unfold aret. f_equal. rewrite fold_fields by done. unfold encode. rewrite (gen_fields d Hin). done.
Qed.
End Words.

(** C33: The simulator decodes what the assembler builds, for every opcode of the table
    but DIVS.  From operands that are registers, constants in range and punctuation,
    and that agree with the bits the opcode fixes, [build_insn] makes a word without a
    message and without a relocation; the simulator's table gives the same instruction
    for it (or the pre-decrement store that shares its words), and its operands are the
    assembler's. *)
Theorem assemble_decode {G : Gas} d es rest s ss :
  In d table_ops -> opcode d <> OPCODE_DIVS -> plain_operands (active (operands d)) es ->
  let vals := operand_values (active (operands d)) es in
  encodable (gen_simop d) vals ->
  (length (cur_fixups s) + length (punctuation (active (operands d))) <= 5)%nat ->
  length (OP ss) = 4%nat ->
  exists insn s', build_insn d (es ++ rest) 0 s = Ok insn s' /\
    messages s' = messages s /\ frags s' = frags s /\
    (forall left, new_fixes left (cur_fixups s') = new_fixes left (cur_fixups s)) /\
    (exists h, lookup_hash insn (so_is_long (gen_simop d)) ss = Ret h ss /\
       (he_opcode h = opcode d \/ store_pair (he_opcode h) (opcode d) = true)) /\
    exists ss', Interp.get_operands (gen_simop d) insn ss = Ret tt ss' /\
      forall k v, vals !! k = Some v -> op ss' (Z.of_nat k) = v.
Proof.
  intros Hin Hd He vals Hv Hroom Hop.
  destruct (build_insn_encodes d es rest s Hin Hd He Hroom) as (extra & Hx & E).
  exists (encode (gen_simop d) vals), (with_fixups extra s).
  split; [exact E|]. split; [by destruct s as [? ? ? ? [] ]|]. split; [by destruct s as [? ? ? ? [] ]|].
  split.
  - intros lf. rewrite cur_with_fixups. unfold new_fixes. rewrite List.filter_app.
    by rewrite (no_reloc_filter extra), app_nil_r.
  - apply (encode_decode (gen_simop d) vals ss); [|done|done]. by apply gen_simop_real.
Qed.

(** ** Witnesses *)

(** A target-independent assembler that reads every expression as 0 and knows no
    symbol *)
Definition plain_gas : Gas := {|
  expression := fun _ => (Expr None None 0 O_constant false, EmptyString);
  symbol_find_or_make := Symbol;
  S_IS_DEFINED := fun _ => false;
  S_GET_SEGMENT := fun _ => 0;
  S_GET_VALUE := fun _ => 0;
  sy_value := fun _ => zero_expr;
  here := fun _ => 0;
  is_end_of_line := fun c => Ascii.eqb c NL;
  emit_expr := fun _ _ => aret tt;
  demand_empty_rest_of_line := fun text => aret text;
  atof_ieee := fun text _ => (Some text, [])
|}.
(** The state after [md_begin], in section 1 *)
Definition asm_start : asm := Asm 0 0 [] [] false None 0 0 0 0 1 0 [] [].

Definition register_operand (v : Z) : expressionS := Expr None None v O_register false.
Definition constant_operand (v : Z) : expressionS := Expr None None v O_constant false.

(** [st r2, @r5+] *)
Definition st_postinc : d10v_opcode := nth 140 d10v_opcodes null_opcode.
Definition st_postinc_operands : list expressionS :=
  [register_operand (OPERAND_GPR + 2); absent OPERAND_ATSIGN; register_operand (OPERAND_GPR + 5);
   absent OPERAND_PLUS].

Lemma in_table_nth n d : nth n d10v_opcodes null_opcode = d -> is_real d = true -> In d table_ops.
Proof.
  intros <- Hr. apply in_table_ops. split; [|exact Hr]. apply nth_In.
  destruct (Nat.lt_ge_cases n (length d10v_opcodes)) as [|Hge]; [done|].
  rewrite nth_overflow in Hr by done. discriminate.
Qed.
Lemma st_postinc_plain : @plain_operands plain_gas (active (operands st_postinc)) st_postinc_operands.
Proof. repeat constructor. Qed.
Lemma st_postinc_encodable :
  encodable (gen_simop st_postinc) (operand_values (active (operands st_postinc)) st_postinc_operands).
Proof.
  unfold encodable. replace (so_fields (gen_simop st_postinc)) with [(5, 4); (1, 4)] by reflexivity.
  replace (operand_values (active (operands st_postinc)) st_postinc_operands) with [2; 5] by reflexivity.
  repeat constructor; (lia || reflexivity).
Qed.

Lemma assemble_decode_witness : exists insn s' ss',
  @build_insn plain_gas st_postinc (st_postinc_operands ++ [zero_expr]) 0 asm_start = Ok insn s' /\
  Interp.get_operands (gen_simop st_postinc) insn zero_state = Ret tt ss' /\
  op ss' 0 = 2 /\ op ss' 1 = 5.
Proof.
  destruct (@assemble_decode plain_gas st_postinc st_postinc_operands [zero_expr] asm_start zero_state)
    as (insn & s' & E & _ & _ & _ & _ & ss' & E' & Hv).
  - apply (in_table_nth 140); reflexivity.
  - vm_compute. discriminate.
  - exact st_postinc_plain.
  - exact st_postinc_encodable.
  - vm_compute. lia.
  - reflexivity.
  - exists insn, s', ss'. split; [exact E|split; [exact E'|]].
    split; [exact (Hv 0%nat 2 eq_refl)|exact (Hv 1%nat 5 eq_refl)].
Defined.

