(* ===== verification/Branches.v ===== *)
(** * Branches, from the fix to the word

    A branch whose target the assembler knows is resolved by [md_apply_fix3]; one whose
    target it does not know leaves a relocation to the linker.  Both write the same
    word. *)
From S2P Require Import Prelude CInt Opcodes Elf Asm AsmPack DisSpec ElfSpec AsmSpec.
#[local] Open Scope asm_scope.

(** The operand [i] of a branch in the left container or not, and the relocation for it:
    its descriptor and the width of its field *)
Definition branch_operand (left : bool) (i : Z) (h : reloc_howto_type) (w k : Z) : Prop :=
  (left = false /\ i = ANUM8 /\ howto_at R_D10V_10_PCREL_R = Some h /\ w = 8 /\ k = 2 ^ 10) \/
  (left = true /\ i = ANUM8 /\ howto_at R_D10V_10_PCREL_L = Some h /\ w = 8 /\ k = 2 ^ 10) \/
  (left = false /\ i = ANUM16 /\ howto_at R_D10V_18_PCREL = Some h /\ w = 16 /\ k = 2 ^ 17).
Lemma branch_operand_reloc left i h w k : branch_operand left i h w k -> branch_reloc h w k.
Proof. unfold branch_reloc. intros [?|[?|?]]; tauto. Qed.

(** The fix that the assembler makes for the operand in a container *)
Definition made_fix (left : bool) (i : Z) (f : fix_state) : Prop :=
  exists e pcrel x, new_fixes left [Fixup e i pcrel 4 (get_reloc (operand_at i))] = [x] /\
    fx_reloc f = fx_r_type x /\ fx_bytes f = fx_size x.

(** Making the fix and reading its number are inverse. *)
Lemma made_fix_type left i h w k f : branch_operand left i h w k -> made_fix left i f ->
  fx_bytes f = 4 /\ exists r, fix_type (fx_reloc f) = (r, i, left) /\ insn_reloc r = true /\
    bfd_elf32_bfd_reloc_type_lookup r = Some h.
Proof.
  intros Hb (e & pcrel & x & En & Er & Es).
  destruct Hb as [(-> & -> & Eh & _)|[(-> & -> & Eh & _)|(-> & -> & Eh & _)]];
    injection En as <-; rewrite Er, Es; injection Eh as <-;
    (split; [reflexivity|]); eexists; (split; [vm_compute; reflexivity|]); by split.
Qed.

(** A word is determined by a field and the bits outside. *)
Lemma word_by_field pos w x y : 0 <= pos -> 0 <= w -> 0 <= x < 2 ^ 32 -> 0 <= y < 2 ^ 32 ->
  (x / 2 ^ pos) mod 2 ^ w = (y / 2 ^ pos) mod 2 ^ w ->
  (forall n, 0 <= n < 32 -> ~ (pos <= n < pos + w) -> Z.testbit x n = Z.testbit y n) -> x = y.
Proof.
  intros Hp Hw Hx Hy Hf Ho. apply Z.bits_inj'. intros n Hn.
  destruct (Z.ltb_spec n 32); [|by rewrite (testbit_high x 32 n), (testbit_high y 32 n) by lia].
  destruct (decide (pos <= n < pos + w)); [|apply Ho; lia].
  apply (f_equal (fun z => Z.testbit z (n - pos))) in Hf.
  rewrite !Z.mod_pow2_bits_low, !Z.div_pow2_bits in Hf by lia.
  by replace (n - pos + pos) with n in Hf by lia.
Qed.

Lemma insert_outside insn sh b v n : 0 <= sh -> 0 <= b -> sh + b <= 32 -> 0 <= n ->
  ~ (sh <= n < sh + b) ->
  Z.testbit (Z.lor insn (u32 (Z.shiftl (v mod 2 ^ b) sh))) n = Z.testbit insn n.
Proof.
  intros Hs Hb Hf Hn Ho. pose proof (Z.mod_pos_bound v (2 ^ b) ltac:(lia)) as Hv.
  rewrite Z.lor_spec. unfold u32.
  assert (Z.testbit (Z.shiftl (v mod 2 ^ b) sh mod 2 ^ 32) n = false) as ->; [|apply orb_false_r].
  destruct (Z.ltb_spec n 32); [|apply Z.mod_pow2_bits_high; lia].
  rewrite Z.mod_pow2_bits_low by lia. destruct (Z.ltb_spec n sh); [by apply Z.shiftl_spec_low|].
  rewrite Z.shiftl_spec by lia. apply (testbit_high _ b); lia.
Qed.
Lemma insert_range insn sh b v : 0 <= insn < 2 ^ 32 ->
  0 <= Z.lor insn (u32 (Z.shiftl (v mod 2 ^ b) sh)) < 2 ^ 32.
Proof. intros. apply lor_lt_pow2; [lia|done|apply u32_range]. Qed.

(** What [md_apply_fix3] comes to for a resolved branch *)
Lemma apply_branch_fix abs `{Gas} left i h w k f rel bs s :
  branch_operand left i h w k -> made_fix left i f -> fx_addsy f = None -> length bs = 4%nat ->
  0 <= rel < 2 ^ 32 -> exists f' s',
  md_apply_fix3 abs f rel bs s =
    Ok (f', bfd_putb32 (Z.lor (bfd_getb32 bs) (u32 (Z.shiftl (distance rel mod 2 ^ w) (bitpos h))))) s' /\
  fx_done f' = true /\ bfd_elf32_bfd_reloc_type_lookup (fx_reloc f') = Some h /\
  (messages s' = messages s <-> w = 16 \/ - 2 ^ (w - 1) <= distance rel < 2 ^ (w - 1)).
Proof.
  intros Hb Hm Ha Hlen Hr. destruct (made_fix_type _ _ _ _ _ _ Hb Hm) as (Esz & r & Et & Eins & Elook).
  set (o := operand_at i). set (d := distance rel).
  assert (bits o = w /\ container_shift left o = bitpos h /\ 1 <= bits o <= 16 /\
          (fits_operand o d <-> - 2 ^ (w - 1) <= d < 2 ^ (w - 1))) as (Ew & Esh & Hbits & Hfits).
  { destruct Hb as [(-> & -> & Eh & -> & _)|[(-> & -> & Eh & -> & _)|(-> & -> & Eh & -> & _)]];
      injection Eh as <-; split; [reflexivity| |reflexivity| |reflexivity|];
      (split; [reflexivity|split; [vm_compute; split; discriminate|reflexivity]]). }
  assert (Z.shiftr (s32 rel) AT_WORD_RIGHT_SHIFT = d) as Ed by (apply Z.shiftr_div_pow2; done).
  assert (- 2 ^ 31 <= d < 2 ^ 31) as Hd
    by (pose proof (wrap_signed_range 32 rel ltac:(lia)); unfold d, distance, s32 in *; zdml).
  assert (get_bytes 4 bs 0 = Some bs) as Eg.
  { unfold get_bytes. rewrite Hlen. simpl. by rewrite drop_0, <- Hlen, firstn_all. }
  unfold md_apply_fix3, fix_value. rewrite Ha. unfold abind at 1, aret at 1. rewrite Et. cbv zeta.
  rewrite Eg, Eins, Ed. cbn [fx_bytes]. rewrite Esz. simpl (4 =? 2).
  unfold abind. rewrite insert_operand_eq by (fold o; lia). fold o. rewrite Ew, Esh.
  unfold aret, put_bytes. simpl take. simpl length. rewrite (skipn_all2 bs) by (simpl; lia). rewrite app_nil_r.
  eexists _, _. split; [reflexivity|]. split; [by rewrite orb_true_r|]. split; [exact Elook|].
  rewrite <- Hfits, <- Ew, <- (check_range_exact o d) by lia. destruct (check_range _ _ _); [|done].
  split; [|done]. simpl. intros E%(f_equal (@length _)). rewrite length_app in E. simpl in E. lia.
Qed.

Lemma putb32_u32 x y : u32 x = u32 y -> bfd_putb32 x = bfd_putb32 y.
Proof.
  unfold u32, bfd_putb32, u8. intros E. rewrite !Z.shiftr_div_pow2 by lia.
  do 3 (f_equal; [zdml|]). f_equal. zdml.
Qed.

(** The word of the linker is the one of the assembler. *)
Lemma same_branch_word h w k rel x : branch_reloc h w k -> 0 <= rel < 2 ^ 32 -> 0 <= x < 2 ^ 32 ->
  field_of h w x = 0 ->
  branch_word h rel x = Z.lor x (u32 (Z.shiftl (distance rel mod 2 ^ w) (bitpos h))).
Proof.
  intros Hb Hr Hx H0. destruct (branch_reloc_fields h w k Hb) as (Hw & Hpos & Hfit & Hsrc & Hdst & _).
  assert (0 <= bitpos h) by lia. apply (word_by_field (bitpos h) w); [done|lia| | | |].
  - apply (DOIT_range h w); done || lia.
  - by apply insert_range.
  - rewrite insert_field by (done || lia). pose proof (branch_word_field h w k rel x Hb Hr Hx) as Hf.
    rewrite H0 in Hf. exact Hf.
  - intros n Hn Ho. rewrite insert_outside by lia. apply (DOIT_outside h w); done || lia.
Qed.

(** C38: The assembler and the linker agree on a branch. For the fix that the assembler
    makes for a branch in either container, [md_apply_fix3], when the target is known,
    and [bfd_perform_relocation], with the relocation that the fix stands for, write the
    same bytes; the branch in them reaches its target exactly when the distance fits the
    field. The assembler reports the distances that do not, except for 16-bit fields, the
    linker only larger ones. *)
Theorem resolve_as_link abs `{Gas} left i h w k f s e sym sec data bs :
  branch_operand left i h w k -> made_fix left i f -> fx_addsy f = None ->
  rel_howto e = h -> rel_addend e = 0 -> sym_section sym = other_section ->
  0 <= rel_address e <= in_cooked_size sec ->
  get_bytes 4 data (rel_address e) = Some bs -> 0 <= bfd_getb32 bs < 2 ^ 32 ->
  field_of h w (bfd_getb32 bs) = 0 ->
  let rel := branch_offset e sym sec in
  let fits := - 2 ^ (w - 1) <= distance rel < 2 ^ (w - 1) in
  exists f' s' bs' flag e' data',
    md_apply_fix3 abs f rel bs s = Ok (f', bs') s' /\
    fx_done f' = true /\ bfd_elf32_bfd_reloc_type_lookup (fx_reloc f') = Some h /\
    bfd_perform_relocation false e sym data sec false = Some (flag, e', data') /\
    get_bytes 4 data' (rel_address e) = Some bs' /\
    (branch_reach h w (bfd_getb32 bs') = 4 * distance rel <-> fits) /\
    (messages s' = messages s <-> w = 16 \/ fits) /\
    (flag = bfd_reloc_ok <-> - k <= distance rel < k).
Proof.
  intros Hb Hm Ha He Hadd Hs Hadr Hget Hx H0 rel fits. pose proof (branch_operand_reloc _ _ _ _ _ Hb) as Hbr.
  assert (0 <= rel < 2 ^ 32) as Hr by apply u32_range.
  assert (length bs = 4%nat) as Hlen.
  { pose proof (get_bytes_fits _ _ _ _ Hget). unfold get_bytes in Hget.
    destruct (_ && _); [|done]. injection Hget as <-. rewrite length_take, length_drop. lia. }
  destruct (apply_branch_fix abs left i h w k f rel bs s Hb Hm Ha Hlen Hr) as (f' & s' & Ef & Hd & Hl & Hmsg).
  destruct (branch_reloc_fields h w k Hbr) as (Hw & Hpos & Hfit & Hsrc & Hdst & _ & _ & _ & _ & _ & _ & Hchk).
  pose proof (perform_branch h w k e sym sec data bs Hbr He Hadd Hs Hadr Hget Hx) as Ep.
  pose proof (branch_word_field h w k rel (bfd_getb32 bs) Hbr Hr Hx) as Hfield. cbv zeta in Ep. fold rel in Ep.
  rewrite H0, Z.add_0_l in Hfield. set (y := branch_word h rel (bfd_getb32 bs)) in *.
  assert (0 <= y < 2 ^ 32) as Hy by (apply (DOIT_range h w); done || lia).
  assert (bfd_putb32 (s32 y) = bfd_putb32 y) as Ebytes by (apply putb32_u32; rewrite u32_s32; reflexivity).
  rewrite Ebytes in Ep. rewrite <- same_branch_word with (k := k) in Ef by done. fold y in Ef.
  exists f', s', (bfd_putb32 y), (branch_flag h rel), (Arelent (rel_address e) 0 h),
    (put_bytes (bfd_putb32 y) data (rel_address e)).
  split; [exact Ef|]. split; [exact Hd|]. split; [exact Hl|]. split; [exact Ep|].
  split; [apply (get_put (bfd_putb32 y)); [lia|exact (proj2 (get_bytes_fits _ _ _ _ Hget))]|].
  split; [|split; [exact Hmsg|]].
  - unfold branch_reach. rewrite bfd_getb32_putb32, u32_small, Hfield by done.
    unfold fits. rewrite <- reach_iff by lia. lia.
  - specialize (Hchk rel Hr). unfold branch_flag. by destruct (complain_on_overflow h).
Qed.

(** The branch of [link_branch_witness], 128 words ahead: the assembler reports it, the
    linker does not, and both write the branch back. *)
Definition far_fix : fix_state :=
  Fix_state None None 0 true 4 (Z.lor ANUM8 2048) false.
Lemma resolve_as_link_witness :
  exists f' s' bs' e' data',
    @md_apply_fix3 plain_gas 0 far_fix 512 (bfd_putb32 far_word) asm_start = Ok (f', bs') s' /\
    bfd_perform_relocation false far_entry far_symbol (bfd_putb32 far_word) far_section false =
      Some (bfd_reloc_ok, e', data') /\
    get_bytes 4 data' 0 = Some bs' /\ messages s' <> messages asm_start.
Proof.
  destruct (@resolve_as_link 0 plain_gas false ANUM8 howto_R 8 (2 ^ 10) far_fix asm_start far_entry
              far_symbol far_section (bfd_putb32 far_word) (bfd_putb32 far_word))
    as (f' & s' & bs' & flag & e' & data' & Ef & _ & _ & Ep & Eg & _ & Hm & Hflag).
  - left. repeat split.
  - exists zero_expr, 1, (Fix 0 4 zero_expr 1 (Z.lor ANUM8 2048)). repeat split.
  - reflexivity.
  - reflexivity.
  - reflexivity.
  - reflexivity.
  - vm_compute. split; discriminate.
  - reflexivity.
  - vm_compute. split; [discriminate|reflexivity].
  - vm_compute. reflexivity.
  - assert (flag = bfd_reloc_ok) as -> by (apply Hflag; vm_compute; split; [discriminate|reflexivity]).
    exists f', s', bs', e', data'. split; [exact Ef|]. split; [exact Ep|]. split; [exact Eg|].
    intros E. apply Hm in E as [E|[_ E]]; [discriminate E|]. vm_compute in E. discriminate E.
Defined.
