(* ===== verification/Emit.v ===== *)
(** * What the assembler writes

    An invariant of the assembler's state that [md_assemble] keeps on every line: the
    two fixup buffers stay inside their arrays, an instruction that waits for a partner
    is a short one, and every word that has been written is one in which the simulator
    finds its instructions. *)
From Stdlib Require Import Ascii.
From S2P Require Import Prelude CInt Opcodes State Memory Cregs.
From S2P Require Import SimopsAlu SimopsAcc SimopsFlow SimopsMem SimopsTrap Interp.
From S2P Require Import Logic OpRules Machine Decode Effects AluSpec AccSpec FlowSpec Cycle Step.
From S2P Require Import Elf Dis Asm AsmPack DisSpec ElfSpec AsmSpec.
#[local] Open Scope asm_scope.

(** ** Computations that only add messages and fixups *)

Definition fixups_ok (s : asm) : Prop := (length (FixUps0 s) <= 5)%nat /\ (length (FixUps1 s) <= 5)%nat.
Record extends (s s' : asm) : Prop := {
  ext_frags : frags s' = frags s;
  ext_opcode : prev_opcode s' = prev_opcode s;
  ext_insn : prev_insn s' = prev_insn s;
  ext_etype : etype s' = etype s;
  ext_fixups : fixups_ok s -> fixups_ok s'
}.
#[export] Instance extends_preorder : PreOrder extends.
Proof.
  split; [by split|]. intros s1 s2 s3 [] []. split; try congruence. auto.
Qed.

(** If [m] returns, the result is as [P] says. *)
Definition does {A} (m : A_ A) (P : A -> Prop) : Prop :=
  forall s, match m s with Ok x s' => extends s s' /\ P x | _ => True end.

Lemma does_ret {A} (x : A) (P : A -> Prop) : P x -> does (aret x) P.
Proof. intros Hx s. split; [reflexivity|exact Hx]. Qed.
Lemma does_bind {A B} (m : A_ A) (f : A -> A_ B) (P : A -> Prop) (Q : B -> Prop) :
  does m P -> (forall x, P x -> does (f x) Q) -> does (abind m f) Q.
Proof.
  intros Hm Hf s. specialize (Hm s). unfold abind. destruct (m s) as [x s1| | |]; [|done..].
  destruct Hm as [E Hx]. specialize (Hf x Hx s1). destruct (f x s1) as [y s2| | |]; [|done..].
  destruct Hf as [E' Hy]. split; [by etransitivity|done].
Qed.
Lemma does_get {B} (f : asm -> A_ B) (Q : B -> Prop) :
  (forall s, match f s s with Ok x s' => extends s s' /\ Q x | _ => True end) -> does (abind aget f) Q.
Proof. intros Hf s. exact (Hf s). Qed.
Lemma does_if {A} (c : bool) (m m' : A_ A) (P : A -> Prop) :
  (c = true -> does m P) -> (c = false -> does m' P) -> does (if c then m else m') P.
Proof. intros H1 H2. destruct c; auto. Qed.
Lemma does_fatal {A} msg (P : A -> Prop) : does (as_fatal msg) P.
Proof. intros s. exact I. Qed.
Lemma does_undef {A} (P : A -> Prop) : does undef P.
Proof. intros s. exact I. Qed.
Lemma does_bad msg : does (as_bad msg) (fun _ => True).
Proof. intros s. split; [|done]. by split. Qed.
Lemma does_mono {A} (m : A_ A) (P Q : A -> Prop) : does m P -> (forall x, P x -> Q x) -> does m Q.
Proof. intros Hm H s. specialize (Hm s). destruct (m s); try done. destruct Hm. auto. Qed.
Create HintDb does.
#[export] Hint Resolve does_ret does_fatal does_undef does_bad : does.

(** ** Instruction words *)

(** The opcode that subtracts a register pair from an accumulator: an odd register
    number is accepted, and its low bit falls on a bit that the opcode fixes. *)
Definition SUB_PAIR : Z := 0x1001.
Definition fixed_mask (d : d10v_opcode) : Z :=
  if opcode d =? SUB_PAIR then Z.land (mask d) (Z.lnot 2) else mask d.
(** The word has the bits that the opcode fixes. *)
Definition matches (d : d10v_opcode) (insn : Z) : Prop := Z.land insn (fixed_mask d) = opcode d.

(** The bits of a field that the opcode fixes to 0, when it has room for more *)
Definition open_bits (d : d10v_opcode) (sh b : Z) : Z :=
  Z.land (Z.land (Z.shiftr (fixed_mask d) sh) (Z.ones b)) (Z.lnot (Z.shiftr (opcode d) sh)).
Definition is_even (o : d10v_operand) : bool := truth (Z.land (flags o) OPERAND_EVEN).

Definition is_short (d : d10v_opcode) : bool := Z.land (format d) LONG_OPCODE =? 0.
Definition width (d : d10v_opcode) : Z := if is_short d then 15 else 30.
Lemma width_cases d : width d = 15 \/ width d = 30.
Proof. unfold width. destruct (is_short d); auto. Qed.
(** The formats in which the operands of an opcode are inserted *)
Definition formats (d : d10v_opcode) : list Z :=
  format d :: if opcode d =? OPCODE_DIVS then [LONG_R] else [].

(** The operands of the table fit the words, and only the parity of registers is
    fixed. *)
Definition operand_fits (d : d10v_opcode) (fmt i : Z) : bool :=
  let o := operand_at i in let sh := format_shift fmt o in
  (0 <=? sh) && (0 <=? bits o) && (bits o <=? 16) && (sh + bits o <=? width d) &&
  ((open_bits d sh (bits o) =? 0) || ((open_bits d sh (bits o) =? 1) && is_even o)).
Lemma operands_fit d fmt i : In d table_ops -> In fmt (formats d) ->
  In i (active (operands d)) -> operand_fits d fmt i = true.
Proof.
  assert (forallb (fun d =>
    forallb (fun fmt => forallb (operand_fits d fmt) (active (operands d))) (formats d)) table_ops = true) as Ha
    by (vm_compute; reflexivity).
  intros Hd Hf Hi. rewrite forallb_forall in Ha. specialize (Ha d Hd).
  rewrite forallb_forall in Ha. specialize (Ha fmt Hf). rewrite forallb_forall in Ha. auto.
Qed.

(** A field leaves the opcode in place. *)
Lemma matches_field d w sh b v even :
  0 <= sh -> 0 <= b -> 0 <= v < 2 ^ b -> matches d w ->
  open_bits d sh b = 0 \/ (open_bits d sh b = 1 /\ even = true) -> (even = true -> v mod 2 = 0) ->
  matches d (Z.lor w (Z.shiftl v sh)).
Proof.
  unfold matches. intros Hsh Hb Hv Hw Ho He. rewrite Z.land_lor_distr_l, Hw.
  apply Z.bits_inj'. intros n Hn. rewrite Z.lor_spec, Z.land_spec.
  destruct (Z.testbit (opcode d) n) eqn:Eo; [done|]. simpl.
  destruct (Z.testbit (fixed_mask d) n) eqn:Em; [|apply andb_false_r]. rewrite andb_true_r.
  destruct (Z.ltb_spec n sh); [by apply Z.shiftl_spec_low|]. rewrite Z.shiftl_spec by lia.
  destruct (Z.leb_spec b (n - sh)); [by apply (testbit_high v b)|].
  assert (Z.testbit (open_bits d sh b) (n - sh) = true) as Hbit.
  { unfold open_bits. rewrite !Z.land_spec, Z.lnot_spec, !Z.shiftr_spec, Z.testbit_ones_nonneg by lia.
    replace (n - sh + sh) with n by lia. rewrite Em, Eo. by destruct (Z.ltb_spec (n - sh) b); [|lia]. }
  destruct Ho as [E|[E Hev]]; rewrite E in Hbit; [by rewrite Z.bits_0 in Hbit|].
  destruct (Z.eq_dec (n - sh) 0) as [->|Hne].
  - rewrite Z.bit0_eqb, He by done. done.
  - rewrite (testbit_high 1 1 (n - sh)) in Hbit by lia. done.
Qed.

(** The operands of [exps] that are registers of a pair have even numbers. *)
Definition even_ok (i : Z) (e : expressionS) : Prop :=
  is_even (operand_at i) = true -> X_add_number e mod 2 = 0.
Definition evens (l : list Z) (exps : list expressionS) : Prop :=
  Forall (fun '(i, e) => even_ok i e) (zip l exps).

Section Build.
Context `{G : Gas}.

Lemma even_field o n : is_even o = true -> n mod 2 = 0 ->
  (if truth (Z.land (flags o) OPERAND_REG) then Z.land n REGISTER_MASK else n) mod 2 = 0.
Proof.
  intros _ Hn. destruct (truth _); [|done]. change REGISTER_MASK with (Z.ones 8).
  rewrite land_ones_mod by lia. zdml.
Qed.
Lemma even_mod n b : 0 <= b -> n mod 2 = 0 -> (n mod 2 ^ b) mod 2 = 0.
Proof.
  intros Hb Hn. destruct (Z.eq_dec b 0) as [->|Hb0]; [by rewrite Z.mod_1_r|].
  replace b with (b - 1 + 1) by lia. rewrite Z.pow_add_r by lia. zdm.
Qed.
Lemma make_fixup_number i n e : n mod 2 = 0 -> X_add_number e mod 2 = 0 ->
  let '(_, n', e') := make_fixup i n e in n' mod 2 = 0 /\ X_add_number e' mod 2 = 0.
Proof.
  intros Hn He. unfold make_fixup. cbv zeta. destruct (AT_WORD_P e); [|done]. simpl.
  unfold s32, u32, wrap_signed, AT_WORD_RIGHT_SHIFT. rewrite Z.shiftl_mul_pow2 by lia. split; zdml.
Qed.

Lemma add_fixup_extends f s : (length (cur_fixups s) < 5)%nat -> extends s (add_fixup f s).
Proof.
  intros Hl. destruct s as [o fl l0 l1 [] po pi ps pss et ns nss fr ms]; cbn in *;
    split; try done; intros [H0 H1]; cbn in *; split; cbn; rewrite ?length_app; cbn; lia.
Qed.

(** One round: the value to insert *)
Lemma fixup_step i n e :
  does (if negb (op_is O_register e) && negb (op_is O_constant e) then
          let* s := aget in
          if (MAX_INSN_FIXUPS <=? Z.of_nat (length (cur_fixups s)))
          then as_fatal "too many fixups"
          else
            let '(f, number, e) := make_fixup i n e in
            aput (add_fixup f s) >> aret (number, e)
        else aret (n, e)) (fun '(n', e') => n mod 2 = 0 -> X_add_number e mod 2 = 0 ->
                                            n' mod 2 = 0 /\ X_add_number e' mod 2 = 0).
Proof.
  apply does_if; intros _; [|by apply does_ret; auto]. apply does_get. intros s.
  destruct (Z.leb_spec MAX_INSN_FIXUPS (Z.of_nat (length (cur_fixups s)))) as [|Hl]; [done|].
  pose proof (make_fixup_number i n e) as Hn. destruct (make_fixup i n e) as [[f n'] e'].
  simpl. split; [|auto]. apply add_fixup_extends. unfold MAX_INSN_FIXUPS in Hl. lia.
Qed.

Lemma build_loop_matches d fmt : In d table_ops -> In fmt (formats d) ->
  forall ops exps w,
  (forall i, In i (active ops) -> In i (active (operands d))) ->
  evens (active ops) exps -> matches d w -> 0 <= w < 2 ^ width d ->
  does (build_insn_loop fmt ops exps w)
    (fun '(w', exps') => matches d w' /\ 0 <= w' < 2 ^ width d /\ evens (active ops) exps').
Proof.
  intros Hd Hfmt. induction ops as [|i ops IH]; intros exps w Hsub Hev Hm Hw; cbn [build_insn_loop].
  { apply does_ret. split; [done|split; [done|constructor]]. }
  cbn [active] in *. destruct (Z.eqb_spec i 0) as [->|Hi].
  { apply does_ret. split; [done|split; [done|constructor]]. }
  destruct exps as [|e exps]; [apply does_undef|]. cbv zeta.
  apply List.Forall_cons_iff in Hev as [He Hev'].
  eapply does_bind; [apply fixup_step|]. intros [n e'] Hn.
  eapply does_bind; [apply does_if; intros _; [apply does_bad|by apply does_ret]|]. intros _ _.
  fold (is_register (operand_at i)). fold (format_shift fmt (operand_at i)).
  pose proof (operands_fit d fmt i Hd Hfmt (Hsub i (or_introl eq_refl))) as Hf.
  unfold operand_fits in Hf. cbv zeta in Hf. set (sh := format_shift fmt (operand_at i)) in *.
  set (b := bits (operand_at i)) in *.
  apply andb_prop in Hf as [[[[Hsh%Z.leb_le Hb0%Z.leb_le]%andb_prop Hb1%Z.leb_le]%andb_prop
    Hfit%Z.leb_le]%andb_prop Hop].
  assert (Z.land n (bits_mask b) = n mod 2 ^ b) as ->.
  { unfold bits_mask. by rewrite bits_mask_ones, land_ones_mod by lia. }
  assert (0 <= n mod 2 ^ b < 2 ^ b) as Hv by (apply Z.mod_pos_bound; lia).
  assert (2 ^ width d <= 2 ^ 32) as Hw32.
  { apply Z.pow_le_mono_r; [lia|]. destruct (width_cases d); lia. }
  assert (0 <= Z.shiftl (n mod 2 ^ b) sh < 2 ^ width d) as Hsv.
  { assert (0 < 2 ^ sh) by (by apply Z.pow_pos_nonneg).
    rewrite Z.shiftl_mul_pow2 by lia. split; [apply Z.mul_nonneg_nonneg; lia|].
    apply Z.lt_le_trans with (2 ^ b * 2 ^ sh); [apply Z.mul_lt_mono_pos_r; lia|].
    rewrite <- Z.pow_add_r by lia. apply Z.pow_le_mono_r; lia. }
  rewrite u32_small by lia. eapply does_bind; [apply IH; [by intros; apply Hsub; right|done| |]|].
  - eapply (matches_field d w sh b _ (is_even (operand_at i))); [done..| |].
    + apply orb_prop in Hop as [->%Z.eqb_eq|[->%Z.eqb_eq ->]%andb_prop]; auto.
    + intros Hev1. apply even_mod; [done|]. specialize (He Hev1). apply Hn; [|done].
      apply even_field; [exact Hev1|]. unfold u32. zdml.
  - apply lor_lt_pow2; [|done..]. destruct (width_cases d); lia.
  - intros [w' es'] (Hm' & Hw' & Hev''). apply does_ret. split; [done|split; [done|]].
    constructor; [|exact Hev'']. intros Hev1. specialize (He Hev1). apply Hn; [|done].
    apply even_field; [exact Hev1|]. unfold u32. zdml.
Qed.

Lemma build_insn_matches d exps : In d table_ops ->
  evens (active (operands d)) exps ->
  does (build_insn d exps 0) (fun w => matches d w /\ 0 <= w < 2 ^ width d).
Proof.
  intros Hd Hev. unfold build_insn. change (truth 0) with false. cbv iota zeta.
  assert (matches d (opcode d) /\ 0 <= opcode d < 2 ^ width d) as [Hm Hw].
  { assert (forallb (fun d => (Z.land (opcode d) (fixed_mask d) =? opcode d) && (0 <=? opcode d) &&
      (opcode d <? 2 ^ width d)) table_ops = true) as Ha by (vm_compute; reflexivity).
    rewrite forallb_forall in Ha. specialize (Ha d Hd).
    by apply andb_prop in Ha as [[?%Z.eqb_eq ?%Z.leb_le]%andb_prop ?%Z.ltb_lt]. }
  eapply does_bind; [apply (build_loop_matches d (format d)); try done; by left|].
  intros [w exps'] (Hm' & Hw' & Hev').
  apply does_if; intros Hc; [|by apply does_ret]. apply andb_prop in Hc as [Hc _].
  apply (does_bind _ _ (fun '(w', exps') => matches d w' /\ 0 <= w' < 2 ^ width d /\
    evens (active (operands d)) exps')); [|intros [w2 e2] (? & ? & _); by apply does_ret].
  assert (In LONG_R (formats d)) by (unfold formats; rewrite Hc; right; by left).
  destruct (truth w) eqn:Ew; [by apply (build_loop_matches d LONG_R)|].
  apply (build_loop_matches d (format d)); try done. by left.
Qed.

(** ** Finding the opcode *)

Lemma as_bads_does l : does (as_bads l) (fun _ => True).
Proof.
  induction l as [|m l IH]; [by apply does_ret|].
  eapply does_bind; [apply does_bad|]. by intros _ _.
Qed.
Lemma get_operands_does text : does (get_operands text) (fun _ => True).
Proof.
  unfold get_operands.
  assert (forall fuel p post exps, does (get_operands_loop fuel p post exps) (fun _ => True)) as Hl.
  { induction fuel as [|fuel IH]; intros p post exps; [by intros s|]. cbn [get_operands_loop].
    destruct p; [by apply does_ret|]. destruct (operand_step _ post) as [[[[p' e] post'] msgs]|];
      [|by apply does_ret]. eapply does_bind; [apply as_bads_does|]. by intros _ _. }
  eapply does_bind; [apply Hl|]. intros [post exps] _.
  apply does_if; intros _; [apply does_undef|by apply does_ret].
Qed.

(** Entries of the table by index *)
Definition named (i : nat) : bool := match name (opcode_at i) with Some _ => true | None => false end.
Definition no_pairs (d : d10v_opcode) : bool := forallb (fun i => negb (is_even (operand_at i))) (active (operands d)).
Definition entry_ok (i : nat) : bool :=
  if negb (named i) then true
  else if format (opcode_at i) =? OPCODE_FAKE then
    forallb (fun m => is_real (opcode_at (S i + m)) && no_pairs (opcode_at (S i + m)))
      (seq 0 (length (active (tl (operands (opcode_at i))))))
    && is_real (opcode_at (S (S i))) && no_pairs (opcode_at (S (S i)))
  else is_real (opcode_at i) &&
       (negb (same_name (opcode_at (S i)) (opcode_at i)) || is_real (opcode_at (S i))).
Lemma entries_ok i : entry_ok i = true.
Proof.
  assert (forallb entry_ok (seq 0 (length d10v_opcodes)) = true) as Ha by (vm_compute; reflexivity).
  rewrite forallb_forall in Ha. destruct (Nat.lt_ge_cases i (length d10v_opcodes)) as [Hi|Hi].
  - apply Ha, in_seq. lia.
  - unfold entry_ok, named, opcode_at. by rewrite nth_overflow by done.
Qed.
Lemma real_at i : is_real (opcode_at i) = true -> In (opcode_at i) table_ops.
Proof. by apply (in_table_nth i). Qed.

Lemma no_pairs_evens d exps : no_pairs d = true -> evens (active (operands d)) exps.
Proof.
  unfold no_pairs, evens. generalize (active (operands d)). intros l. revert exps.
  induction l as [|i l IH]; intros exps; [constructor|]. simpl. intros [Hi Hl]%andb_prop.
  destruct exps as [|e exps]; [constructor|]. constructor; [|by apply IH].
  intros E. by rewrite E in Hi.
Qed.

Definition found (r : option (nat * list expressionS)) : Prop :=
  match r with
  | None => True
  | Some (j, exps) => In (opcode_at j) table_ops /\ evens (active (operands (opcode_at j))) exps
  end.

Lemma fake_loop_range l opnum e s : forall next j, fake_loop l opnum e next s = Some j ->
  exists m, (m < length (active l))%nat /\ j = (next + m)%nat.
Proof.
  induction l as [|r l IH]; intros next j; [done|]. cbn [fake_loop active].
  destruct (r =? 0); [done|]. cbv zeta. destruct (if op_is O_constant e then _ else _).
  - intros [= <-]. exists 0%nat. simpl. split; lia.
  - intros E. destruct (IH _ _ E) as (m & Hm & ->). exists (S m). simpl. split; lia.
Qed.

Lemma find_fake_does i exps : named i = true -> format (opcode_at i) = OPCODE_FAKE ->
  does (find_fake i exps) found.
Proof.
  intros Hn Hf. pose proof (entries_ok i) as He. unfold entry_ok in He. rewrite Hn, Hf in He.
  change (OPCODE_FAKE =? OPCODE_FAKE) with true in He. simpl negb in He. cbv iota in He.
  apply andb_prop in He as [[Hm Hr2]%andb_prop Hp2]. rewrite forallb_forall in Hm.
  assert (forall j exps, is_real (opcode_at j) = true -> no_pairs (opcode_at j) = true -> found (Some (j, exps)))
    as Hfound by (intros j l Hr Hp; split; [by apply real_at|by apply no_pairs_evens]).
  unfold find_fake. cbv zeta. destruct (exps !! _) as [e|]; [|apply does_undef].
  destruct (exps !! 0%nat); [|apply does_undef].
  apply does_if; intros _.
  { eapply does_bind; [apply does_bad|]. intros _ _. by apply does_ret. }
  apply does_get. intros s. destruct (_ || local_symbol _ s).
  - destruct (fake_loop _ _ _ _ s) as [j|] eqn:El; [|done].
    apply fake_loop_range in El as (m & Hlt & ->).
    assert (In m (seq 0 (length (active (tl (operands (opcode_at i))))))) as Hin by (apply in_seq; lia).
    destruct (andb_prop _ _ (Hm m Hin)). split; [reflexivity|]. by apply Hfound.
  - split; [reflexivity|]. by apply Hfound.
Qed.

Lemma match_loop_real exps fuel : forall i j, is_real (opcode_at i) = true ->
  match_loop fuel i exps = Some (Some j) -> is_real (opcode_at j) = true.
Proof.
  induction fuel as [|fuel IH]; intros i j Hi; [done|]. cbn [match_loop].
  destruct (operands_match _ exps) as [[|]|]; [|simpl|done]; [by intros [= <-]|].
  destruct (opcode (opcode_at (S i)) =? 0); [done|].
  destruct (same_name (opcode_at (S i)) (opcode_at i)) eqn:Es; [|done]. simpl. apply IH.
  pose proof (entries_ok i) as He. unfold entry_ok, named in He. unfold is_real in Hi.
  destruct (name (opcode_at i)); [|done]. simpl in He. apply negb_true_iff in Hi. rewrite Hi in He.
  apply andb_prop in He as [_ He]. by rewrite Es in He.
Qed.

Lemma fix_operands_does ops : forall exps, does (fix_operands ops exps) (fun l => evens (active ops) l).
Proof.
  induction ops as [|i ops IH]; intros exps; cbn [fix_operands active]; [by apply does_ret; constructor|].
  destruct exps as [|e exps]; [apply does_ret; destruct (i =? 0); constructor|].
  destruct (i =? 0); [by apply does_ret; constructor|]. cbv zeta.
  apply does_if; [intros _; apply does_fatal|intros Hc].
  eapply does_bind; [apply IH|]. intros rest Hr. apply does_ret. constructor; [|exact Hr].
  intros Hev. destruct (op_is O_register e && _); [done|]. unfold is_even in Hev. rewrite Hev in Hc.
  unfold truth in Hc. apply negb_false_iff, Z.eqb_eq in Hc.
  change 1 with (Z.ones 1) in Hc. by rewrite land_ones_mod in Hc by lia.
Qed.

Lemma find_opcode_does i text : named i = true -> does (find_opcode i text) found.
Proof.
  intros Hn. unfold find_opcode. eapply does_bind; [apply get_operands_does|]. intros exps _.
  apply does_if; intros Hf.
  { apply find_fake_does; [done|by apply Z.eqb_eq]. }
  destruct (match_loop _ i exps) as [[j|]|] eqn:Em; [| |apply does_undef].
  - assert (is_real (opcode_at j) = true) as Hj.
    { eapply match_loop_real; [|exact Em]. unfold is_real. unfold named in Hn. rewrite Hf.
      by destruct (name (opcode_at i)). }
    eapply does_bind; [apply fix_operands_does|]. intros l Hl. apply does_ret.
    split; [by apply real_at|exact Hl].
  - eapply does_bind; [apply does_bad|]. intros _ _. by apply does_ret.
Qed.

(** ** Assembling one instruction *)

Lemma hash_named nm i : d10v_hash !! nm = Some i -> named i = true.
Proof.
  assert (forall l prev k h, l = drop k d10v_opcodes ->
    (forall nm i, h !! nm = Some i -> named i = true) ->
    forall nm i, md_begin_loop prev k l h !! nm = Some i -> named i = true) as Hl.
  { induction l as [|op l IH]; intros prev k h El Hh; cbn [md_begin_loop]; [done|].
    assert (opcode_at k = op /\ l = drop (S k) d10v_opcodes) as [Ek El'].
    { assert (d10v_opcodes !! k = Some op) as Hk.
      { rewrite <- (Nat.add_0_r k), <- lookup_drop, <- El. done. }
      split; [unfold opcode_at; by rewrite nth_lookup, Hk|].
      rewrite (drop_S _ op k Hk) in El. by injection El. }
    destruct (name op) as [nm'|] eqn:En; [|done].
    destruct (bool_decide (prev = nm')); [by apply IH|]. apply IH; [done|].
    intros nm0 i0. destruct (h !! nm') eqn:Eh; [apply Hh|].
    destruct (decide (nm' = nm0)) as [->|Hne].
    - rewrite lookup_insert_eq. intros [= <-]. unfold named. by rewrite Ek, En.
    - rewrite lookup_insert_ne by done. apply Hh. }
  apply (Hl d10v_opcodes); [done|]. intros ? ?. by rewrite lookup_empty.
Qed.

Definition assembled (r : Z * option d10v_opcode) : Prop :=
  r.1 = invalid_insn \/
  exists d, r.2 = Some d /\ In d table_ops /\ matches d r.1 /\ 0 <= r.1 < 2 ^ width d.
Lemma do_assemble_does str : does (do_assemble str) assembled.
Proof.
  unfold do_assemble. destruct (opcode_name 20 (skip_spaces str)) as [nm rest].
  apply does_if; intros _; [apply does_undef|].
  apply does_if; intros _; [by apply does_ret; left|].
  destruct (d10v_hash !! nm) as [i|] eqn:Eh; [|apply does_fatal].
  eapply does_bind; [apply find_opcode_does; by eapply hash_named|].
  intros [[j exps]|]; [|intros _; by apply does_ret; left]. intros [Hj Hev].
  eapply does_bind; [by apply build_insn_matches|]. intros w [Hm Hw]. apply does_ret. right.
  exists (opcode_at j). exact (conj eq_refl (conj Hj (conj Hm Hw))).
Qed.
End Build.

(** ** Words of two short instructions *)

Definition short_word (i : Z) : Prop := 0 <= i < 2 ^ 15.
Lemma word_of_parts fm l r : short_word l -> short_word r -> fm = 0 \/ fm = FM01 \/ fm = FM10 ->
  Z.land (word_of fm l r) 0xC0000000 = fm /\ left_ins (word_of fm l r) = l /\ right_ins (word_of fm l r) = r.
Proof.
  unfold short_word. intros Hl Hr Hfm.
  assert (exists q, (q = 0 \/ q = 1 \/ q = 2) /\ fm = Z.shiftl q 30) as (q & Hq & ->).
  { destruct Hfm as [->|[->| ->]]; [exists 0|exists 1|exists 2]; split; auto. }
  assert (word_of (Z.shiftl q 30) l r = q * 2 ^ 30 + l * 2 ^ 15 + r) as ->.
  { unfold word_of. rewrite (u32_small (Z.shiftl l 15)) by (rewrite Z.shiftl_mul_pow2; lia).
    rewrite <- Z.lor_assoc. rewrite (lor_add_disjoint l r 15) by lia.
    by rewrite (lor_add_disjoint q (l * 2 ^ 15 + r) 30) by lia; lia. }
  unfold left_ins, right_ins. change 0xC0000000 with (Z.shiftl (Z.ones 2) 30).
  change 0x3FFF8000 with (Z.shiftl (Z.ones 15) 15). change 0x7FFF with (Z.ones 15).
  rewrite !land_field, land_ones_mod, Z.shiftr_div_pow2, Z.shiftl_mul_pow2 by lia.
  rewrite Z.div_mul by lia. destruct Hq as [->|[->| ->]]; repeat split; zdml.
Qed.


(** ** Words that the simulator decodes *)

(** The simulator finds an instruction, or it is the [sub] with the odd register. *)
Definition insn_ok (size insn : Z) : Prop :=
  find (hash_matches insn size) linear_table <> None \/ (size = 0 /\ Z.land insn 0x7EE1 = SUB_PAIR).
Definition word_ok (w : Z) : Prop :=
  if Z.land w 0xC0000000 =? 0xC0000000 then insn_ok 1 (Z.land w 0x3FFFFFFF)
  else insn_ok 0 (left_ins w) /\ insn_ok 0 (right_ins w).

Lemma matches_ok d insn : In d table_ops -> matches d insn -> insn_ok (if is_short d then 0 else 1) insn.
Proof.
  intros Hd Hm. unfold matches, fixed_mask in Hm. destruct (Z.eqb_spec (opcode d) SUB_PAIR) as [E|Hn].
  - right. assert (forallb (fun d => negb (opcode d =? SUB_PAIR) ||
      (is_short d && (Z.land (mask d) (Z.lnot 2) =? 0x7EE1))) table_ops = true) as Ha by (vm_compute; reflexivity).
    rewrite forallb_forall in Ha. specialize (Ha d Hd). rewrite E in Ha. simpl orb in Ha.
    apply andb_prop in Ha as [-> Hmask%Z.eqb_eq]. split; [done|]. by rewrite <- Hmask, <- E.
  - left. rewrite linear_table_ops. intros Hf.
    assert (hash_matches insn (if is_short d then 0 else 1) (op_entry d) = true) as Hh.
    { unfold hash_matches, op_entry, entry_of. cbn [he_mask he_opcode he_size gen_simop so_mask so_opcode so_is_long].
      rewrite Hm, Z.eqb_refl. simpl. unfold is_short. by destruct (Z.land (format d) LONG_OPCODE =? 0). }
    rewrite (find_none _ _ Hf (op_entry d)) in Hh; [done|]. by apply in_map.
Qed.

Lemma word_ok_parts fm l r : short_word l -> short_word r -> fm = 0 \/ fm = FM01 \/ fm = FM10 ->
  insn_ok 0 l -> insn_ok 0 r -> word_ok (word_of fm l r) /\ 0 <= word_of fm l r < 2 ^ 32.
Proof.
  intros Hl Hr Hfm Il Ir. destruct (word_of_parts fm l r Hl Hr Hfm) as (Efm & El & Er). split.
  - unfold word_ok. rewrite Efm, El, Er. by destruct Hfm as [->|[->| ->]].
  - unfold word_of. unfold short_word in *.
    apply lor_lt_pow2; [lia| |lia]. apply lor_lt_pow2; [lia| |apply u32_range].
    by destruct Hfm as [->|[->| ->]].
Qed.
Lemma word_ok_long insn : 0 <= insn < 2 ^ 30 -> insn_ok 1 insn ->
  word_ok (Z.lor insn FM11) /\ 0 <= Z.lor insn FM11 < 2 ^ 32.
Proof.
  intros Hi Hok. assert (Z.lor insn FM11 = 3 * 2 ^ 30 + insn) as ->.
  { rewrite Z.lor_comm. change FM11 with (Z.shiftl 3 30). by rewrite (lor_add_disjoint 3 insn 30) by lia. }
  assert (Z.land (3 * 2 ^ 30 + insn) 0x3FFFFFFF = (3 * 2 ^ 30 + insn) mod 2 ^ 30) as El
    by (by apply (land_ones_mod _ 30)).
  assert (Z.land (3 * 2 ^ 30 + insn) 0xC0000000 = ((3 * 2 ^ 30 + insn) / 2 ^ 30) mod 2 ^ 2 * 2 ^ 30) as Ef
    by (by apply (land_field _ 30 2)).
  split; [|lia]. unfold word_ok. rewrite El, Ef.
  assert (((3 * 2 ^ 30 + insn) / 2 ^ 30) mod 2 ^ 2 * 2 ^ 30 = 0xC0000000) as -> by zdml.
  rewrite Z.eqb_refl. by replace ((3 * 2 ^ 30 + insn) mod 2 ^ 30) with insn by zdml.
Qed.

(** ** The invariant *)

(** A fragment that holds one word of instructions *)
Definition frag_ok (e : emitted) : Prop :=
  exists w, em_bytes e = bfd_putb32 w /\ 0 <= w < 2 ^ 32 /\ word_ok w.
(** An instruction that can be put into a word with another one *)
Definition short_ok (d : d10v_opcode) (insn : Z) : Prop :=
  is_short d = true /\ short_word insn /\ insn_ok 0 insn.
(** The instruction that waits for its partner.  It is a long one only after a line that
    ends in a separator. *)
Definition waiting_ok (d : option d10v_opcode) (insn ety : Z) : Prop :=
  match d with
  | None => True
  | Some d => short_ok d insn \/ (is_short d = false /\ ety <> 0)
  end.
Definition asm_inv (s : asm) : Prop :=
  fixups_ok s /\ waiting_ok (prev_opcode s) (prev_insn s) (etype s).
(** The fragments between two states *)
Definition writes_words (s s' : asm) : Prop :=
  exists new, frags s' = frags s ++ new /\ Forall frag_ok new.

(** ** Rules *)

(** If [m] returns from a state as [P] says, the result is as [Q] says. *)
Definition leads {A} (P : asm -> Prop) (m : A_ A) (Q : A -> asm -> Prop) : Prop :=
  forall s, P s -> match m s with Ok x s' => Q x s' | _ => True end.
Lemma leads_bind {A B} P (m : A_ A) (f : A -> A_ B) Q R :
  leads P m Q -> (forall x, leads (Q x) (f x) R) -> leads P (abind m f) R.
Proof.
  intros Hm Hf s Hs. specialize (Hm s Hs). unfold abind. destruct (m s) as [x s'| | |]; [|done..].
  by apply Hf.
Qed.
Lemma leads_ret {A} (x : A) (P : asm -> Prop) (Q : A -> asm -> Prop) :
  (forall s, P s -> Q x s) -> leads P (aret x) Q.
Proof. intros H s. apply H. Qed.
Lemma leads_fatal {A} msg P (Q : A -> asm -> Prop) : leads P (as_fatal msg) Q.
Proof. by intros s. Qed.
Lemma leads_undef {A} P (Q : A -> asm -> Prop) : leads P undef Q.
Proof. by intros s. Qed.
Lemma leads_modify f (P : asm -> Prop) (Q : unit -> asm -> Prop) :
  (forall s, P s -> Q tt (f s)) -> leads P (amodify f) Q.
Proof. intros H s. apply H. Qed.
(** The state that is read may be any that the precondition allows. *)
Lemma leads_get {B} (f : asm -> A_ B) P R : (forall s, P s -> leads P (f s) R) -> leads P (abind aget f) R.
Proof. intros H s Hs. exact (H s Hs s Hs). Qed.
(** The state that is read is the one from which the rest runs. *)
Lemma leads_get_eq {B} (f : asm -> A_ B) P R :
  (forall s, P s -> leads (eq s) (f s) R) -> leads P (abind aget f) R.
Proof. intros H s Hs. exact (H s Hs s eq_refl). Qed.
Lemma leads_at {A} (P : asm -> Prop) (m : A_ A) Q s : leads P m Q -> P s -> leads (eq s) m Q.
Proof. intros H Hs s' E. rewrite <- E. by apply H. Qed.
Lemma leads_if {A} (c : bool) (m m' : A_ A) P Q :
  (c = true -> leads P m Q) -> (c = false -> leads P m' Q) -> leads P (if c then m else m') Q.
Proof. destruct c; auto. Qed.
Lemma leads_weaken {A} (P P' : asm -> Prop) (m : A_ A) (Q Q' : A -> asm -> Prop) :
  leads P m Q -> (forall s, P' s -> P s) -> (forall x s, Q x s -> Q' x s) -> leads P' m Q'.
Proof. intros H HP HQ s Hs. specialize (H s (HP s Hs)). destruct (m s); auto. Qed.

(** ** Writing words *)

Section Output.
Context (before : list emitted).

(** The buffers are in their bounds and what has been written since [before] is words;
    and the instruction that waits. *)
Definition output_ok (s : asm) : Prop :=
  fixups_ok s /\ exists new, frags s = before ++ new /\ Forall frag_ok new.
Record waits (d : option d10v_opcode) (insn ety : Z) (s : asm) : Prop := {
  w_output : output_ok s;
  w_opcode : prev_opcode s = d;
  w_insn : prev_insn s = insn;
  w_etype : etype s = ety
}.

Lemma waits_extends d insn ety s s' : extends s s' -> waits d insn ety s -> waits d insn ety s'.
Proof.
  intros [] [[Hf Hn] Ho Hi He]. split; [split|..]; try congruence; [auto|].
  rewrite ext_frags0. exact Hn.
Qed.
Lemma does_leads {A} (m : A_ A) (P : A -> Prop) d insn ety :
  does m P -> leads (waits d insn ety) m (fun x s => P x /\ waits d insn ety s).
Proof.
  intros Hm s Hs. specialize (Hm s). destruct (m s) as [x s'| | |]; [|done..].
  destruct Hm as [He Hp]. split; [done|]. by eapply waits_extends.
Qed.

Lemma emit_leads w fixes d insn ety : 0 <= w < 2 ^ 32 -> word_ok w ->
  leads (waits d insn ety) (emit w fixes) (fun _ => waits d insn ety).
Proof.
  intros Hw Hok. apply leads_modify. intros s [[Hf (new & En & Hn)] Ho Hi He]. split; [|done..].
  split; [exact Hf|]. eexists (new ++ [_]). simpl. split; [rewrite En, <- app_assoc; reflexivity|].
  apply Forall_app. split; [done|]. repeat constructor. by exists w.
Qed.
Lemma clear_leads fx d insn ety :
  leads (waits d insn ety) (amodify (clear_fixups fx)) (fun _ => waits d insn ety).
Proof.
  apply leads_modify. intros s [[[H0 H1] Hn] Ho Hi He].
  destruct fx; (split; [|done..]); (split; [|exact Hn]); split; simpl; (done || lia).
Qed.
Lemma subseg_leads seg sub d insn ety :
  leads (waits d insn ety) (amodify (subseg_set seg sub)) (fun _ => waits d insn ety).
Proof. apply leads_modify. by intros s [? ? ? ?]. Qed.
Lemma swap_leads d insn ety :
  leads (waits d insn ety) (amodify swap_fixups) (fun _ => waits d insn ety).
Proof. apply leads_modify. by intros s [? ? ? ?]. Qed.
Lemma set_opcode_leads o d insn ety :
  leads (waits d insn ety) (amodify (set_prev_opcode o)) (fun _ => waits o insn ety).
Proof. apply leads_modify. by intros s [? ? ? ?]. Qed.
Lemma set_insn_leads w d insn ety :
  leads (waits d insn ety) (amodify (set_prev_insn w)) (fun _ => waits d w ety).
Proof. apply leads_modify. by intros s [? ? ? ?]. Qed.
Lemma set_etype_leads e d insn ety :
  leads (waits d insn ety) (amodify (set_etype e)) (fun _ => waits d insn e).
Proof. apply leads_modify. by intros s [? ? ? ?]. Qed.
Lemma set_section_leads a b d insn ety :
  leads (waits d insn ety) (amodify (set_prev_section a b)) (fun _ => waits d insn ety).
Proof. apply leads_modify. by intros s [? ? ? ?]. Qed.

Lemma write_long_leads op insn fx d i ety : 0 <= insn < 2 ^ 30 -> insn_ok 1 insn ->
  leads (waits d i ety) (write_long op insn fx) (fun _ => waits d i ety).
Proof.
  intros Hi Hok. destruct (word_ok_long insn Hi Hok). apply leads_get. intros s Hs.
  eapply leads_bind; [by apply emit_leads|intros ?; apply clear_leads].
Qed.

Lemma nop_ok : short_word NOP /\ insn_ok 0 NOP.
Proof. split; [by vm_compute|]. left. vm_compute. discriminate. Qed.
Lemma write_1_short_leads op insn fx d i ety : short_ok op insn ->
  leads (waits d i ety) (write_1_short op insn fx) (fun _ => waits d i ety).
Proof.
  intros (_ & Hs & Hok). unfold write_1_short. apply leads_if; intros _; [apply leads_fatal|].
  destruct nop_ok as [Hns Hnok]. apply leads_get. intros s Hst.
  set (w := if unit_ op =? IU then _ else _).
  assert (exists l r, w = word_of FM00 l r /\ short_word l /\ short_word r /\ insn_ok 0 l /\ insn_ok 0 r)
    as (l & r & Ew & Hl & Hr & Ol & Or).
  { unfold w. destruct (unit_ op =? IU).
    - exists NOP, insn. split; [|done]. unfold word_of. by rewrite Z.lor_comm.
    - exists insn, NOP. done. }
  destruct (word_ok_parts FM00 l r) as [Hw Hrange]; [done|done|by left|done|done|].
  rewrite <- Ew in Hw, Hrange.
  eapply leads_bind; [by apply emit_leads|intros ?; apply clear_leads].
Qed.

Definition pair_word (w : Z) : Prop := word_ok w /\ 0 <= w < 2 ^ 32.
Lemma warn_swap_leads d insn ety :
  leads (waits d insn ety) warn_swap (fun _ => waits d insn ety).
Proof.
  apply leads_get. intros s0 _. apply leads_if; intros _; [by apply leads_ret|].
  apply leads_modify. by intros s [? ? ? ?].
Qed.
Lemma pack_2_short_leads o1 i1 o2 i2 extype d insn ety : short_ok o1 i1 -> short_ok o2 i2 ->
  leads (waits d insn ety) (pack_2_short o1 i1 o2 i2 extype)
    (fun (r : Z * bool) s => pair_word r.1 /\ waits d insn ety s).
Proof.
  intros (_ & Hs1 & Ok1) (_ & Hs2 & Ok2). apply leads_get. intros s0 _.
  assert (forall fm l r next, (l = i1 /\ r = i2) \/ (l = i2 /\ r = i1) -> fm = 0 \/ fm = FM01 \/ fm = FM10 ->
    leads (waits d insn ety) (aret (word_of fm l r, next))
      (fun (r : Z * bool) s => pair_word r.1 /\ waits d insn ety s)) as Hret.
  { intros fm l r nx Hlr Hfm. apply leads_ret. intros s Hs. split; [|done].
    destruct Hlr as [[-> ->]|[-> ->]]; by apply word_ok_parts. }
  assert (forall fm l r next, (l = i1 /\ r = i2) \/ (l = i2 /\ r = i1) -> fm = 0 \/ fm = FM01 \/ fm = FM10 ->
    leads (waits d insn ety) (warn_swap >> aret (word_of fm l r, next))%asm
      (fun (r : Z * bool) s => pair_word r.1 /\ waits d insn ety s)) as Hswap.
  { intros. eapply leads_bind; [apply warn_swap_leads|]. intros ?. by apply Hret. }
  unfold FM00 in *. repeat (apply leads_if; intros _); try apply leads_fatal; (apply Hret || apply Hswap); auto.
Qed.

(** What is left of the two instructions: none, or the second one. *)
Lemma write_2_short_leads o1 i1 o2 i2 extype fx d insn ety : short_ok o1 i1 -> short_ok o2 i2 ->
  leads (waits d insn ety) (write_2_short o1 i1 o2 i2 extype fx) (fun _ => waits d insn ety).
Proof.
  intros H1 H2. unfold write_2_short. cbv zeta.
  apply leads_if; intros _; [apply leads_fatal|]. apply leads_if; intros _; [apply leads_fatal|].
  apply leads_if; intros _.
  { eapply leads_bind; [by apply write_1_short_leads|]. intros ?. by apply leads_ret. }
  eapply leads_bind; [by apply pack_2_short_leads|]. intros [w next]. intros s [[Hw Hr] Hs]. revert s Hs.
  apply leads_get. intros s _. eapply leads_bind; [by apply emit_leads|]. intros ?.
  eapply leads_bind; [apply clear_leads|]. intros ?. eapply leads_bind; [apply clear_leads|].
  intros ?. by apply leads_ret.
Qed.

(** A long instruction is never combined with another one. *)
Lemma write_2_short_long o1 i1 o2 i2 extype fx (P : asm -> Prop) Q : is_short o1 = false ->
  leads P (write_2_short o1 i1 o2 i2 extype fx) Q.
Proof.
  unfold is_short. intros Hl. unfold write_2_short. cbv zeta. apply leads_if; intros _; [apply leads_fatal|].
  unfold truth. rewrite Hl. apply leads_fatal.
Qed.

Lemma cleanup_leads d insn ety : match d with Some o => short_ok o insn | None => True end ->
  leads (waits d insn ety) d10v_cleanup (fun _ => waits None insn ety).
Proof.
  intros Hd. apply leads_get_eq. intros s Hs. pose proof Hs as [_ Ho Hi _]. rewrite Ho.
  destruct d as [o|]; [|eapply leads_at; [by apply leads_ret|done]].
  eapply leads_at; [|exact Hs]. rewrite Hi.
  eapply leads_bind; [apply subseg_leads|]. intros ?.
  eapply leads_bind; [by apply write_1_short_leads|]. intros ?.
  eapply leads_bind; [apply subseg_leads|]. intros ?.
  eapply leads_bind; [apply set_opcode_leads|]. intros ?. by apply leads_ret.
Qed.
(** After it nothing waits. *)
Lemma cleanup_none (P : asm -> Prop) : leads P d10v_cleanup (fun _ s => prev_opcode s = None).
Proof.
  intros s _. unfold d10v_cleanup, abind, aget, amodify.
  destruct (prev_opcode s) eqn:E; [|exact E]. by destruct (write_1_short _ _ _ _).
Qed.
End Output.

(** ** The entry points *)

Section Entry.
Context `{G : Gas} (before : list emitted).

(** An instruction that has been assembled *)
Definition ready (op : d10v_opcode) (insn : Z) : Prop :=
  In op table_ops /\ matches op insn /\ 0 <= insn < 2 ^ width op.
Lemma ready_short op insn : ready op insn -> is_short op = true -> short_ok op insn.
Proof.
  intros (Hin & Hm & Hw) Hs. pose proof (matches_ok op insn Hin Hm) as Hok. unfold width in Hw.
  rewrite Hs in Hok, Hw. exact (conj Hs (conj Hw Hok)).
Qed.
Lemma ready_long op insn : ready op insn -> is_short op = false -> 0 <= insn < 2 ^ 30 /\ insn_ok 1 insn.
Proof.
  intros (Hin & Hm & Hw) Hs. pose proof (matches_ok op insn Hin Hm) as Hok. unfold width in Hw.
  by rewrite Hs in Hok, Hw.
Qed.
Lemma ready_waiting op insn ety : ready op insn -> ety <> 0 -> waiting_ok (Some op) insn ety.
Proof.
  intros Hr He. simpl. destruct (is_short op) eqn:E; [left; by apply ready_short|by right].
Qed.

(** No line is half done: the instruction that waits is a short one. *)
Definition settled (s : asm) : Prop :=
  output_ok before s /\ etype s = 0 /\ waiting_ok (prev_opcode s) (prev_insn s) 0.
Lemma waits_settled d i s : waits before d i 0 s -> waiting_ok d i 0 -> settled s.
Proof. intros [Ho Hd Hi He] Hw. split; [done|]. split; [done|]. by rewrite Hd, Hi. Qed.
Lemma waiting_short d i : waiting_ok d i 0 -> match d with Some o => short_ok o i | None => True end.
Proof. destruct d as [o|]; [|done]. by intros [|[]]. Qed.

(** With an instruction before it or not, what is left waits. *)
Lemma place_last_leads op insn extype d i : ready op insn -> is_short op = true -> waiting_ok d i extype ->
  leads (waits before d i 0)
    (let* s := aget in
     let* unwritten := match prev_opcode s with
                 | Some p => write_2_short p (prev_insn s) op insn extype (fixups_second s)
                 | None => aret 1
                 end in
    if unwritten =? 0 then amodify (set_prev_opcode None)
    else if truth extype then as_fatal "Unable to mix instructions as specified"
    else
      amodify (set_prev_opcode (Some op)) >>
      amodify (set_prev_insn insn) >>
      let* s := aget in
      amodify (set_prev_section (now_seg s) (now_subseg s)) >>
      amodify swap_fixups) (fun _ => settled).
Proof.
  intros Hr Hs Hd. pose proof (ready_short op insn Hr Hs) as Hop. apply leads_get. intros s [_ Eo Ei _].
  rewrite Eo, Ei. eapply (leads_bind _ _ _ (fun _ => waits before d i 0)).
  - destruct d as [p|]; [|by apply leads_ret].
    destruct Hd as [Hp|[Hl _]]; [by apply write_2_short_leads|by apply write_2_short_long].
  - intros unwritten. apply leads_if; intros _.
    { eapply leads_weaken; [apply set_opcode_leads|done|]. intros ? s' Hw. exact (waits_settled _ _ _ Hw I). }
    apply leads_if; intros _; [apply leads_fatal|].
    eapply leads_bind; [apply set_opcode_leads|]. intros ?.
    eapply leads_bind; [apply set_insn_leads|]. intros ?. apply leads_get. intros s' _.
    eapply leads_bind; [apply set_section_leads|]. intros ?.
    eapply leads_weaken; [apply swap_leads|done|]. intros ? s'' Hw. exact (waits_settled _ _ _ Hw (or_introl Hop)).
Qed.

(** A long instruction is written at once, after the one that waits. *)
Lemma place_leads op insn extype d i : ready op insn -> waiting_ok d i extype ->
  leads (waits before d i 0) (place op insn extype) (fun _ => settled).
Proof.
  intros Hr Hd. unfold place. apply leads_if; intros Hl.
  - assert (is_short op = false) as Hs by (unfold is_short; by apply negb_true_iff in Hl).
    destruct (ready_long op insn Hr Hs) as [Hw Hok].
    destruct (Z.eqb_spec extype 0) as [->|Hne]; [|unfold truth; apply Z.eqb_neq in Hne; rewrite Hne; apply leads_fatal].
    simpl truth. cbv iota. eapply leads_bind; [apply cleanup_leads; by apply waiting_short|]. intros ?.
    apply leads_get. intros s _. eapply leads_bind; [by apply write_long_leads|]. intros ?.
    eapply leads_weaken; [apply set_opcode_leads|done|]. intros ? s' Hw'. exact (waits_settled _ _ _ Hw' I).
  - assert (is_short op = true) as Hs by (unfold is_short; by apply negb_false_iff in Hl).
    apply leads_get. intros s [_ Eo _ _]. rewrite Eo.
    assert (leads (waits before d i 0) (aret 1) (fun _ => waits before d i 0)) as Hone by (by apply leads_ret).
    destruct d as [p|]; [|eapply leads_bind; [exact Hone|]; intros ?; by apply place_last_leads].
    destruct (_ && _); [|eapply leads_bind; [exact Hone|]; intros ?; by apply place_last_leads].
    destruct (Z.eqb_spec extype 0) as [->|Hne].
    + eapply leads_bind; [apply cleanup_leads; by apply (waiting_short (Some p))|]. intros ?. by apply place_last_leads.
    + eapply leads_bind; [apply cleanup_none|]. intros ?. apply leads_get_eq. intros s' ->.
      apply Z.eqb_neq in Hne. unfold truth. rewrite Hne. by intros s'' _.
Qed.

Lemma assemble_first_leads str :
  leads settled (assemble_first str) (fun _ s => exists op insn, ready op insn /\ waits before (Some op) insn 0 s).
Proof.
  intros s0 (Ho & Ee & Hw). revert s0 Ho Ee Hw.
  cut (forall d i, waiting_ok d i 0 -> leads (waits before d i 0) (assemble_first str)
    (fun _ s => exists op insn, ready op insn /\ waits before (Some op) insn 0 s)).
  { intros H s0 Ho Ee Hw. by apply (H _ _ Hw). }
  intros d i Hd. unfold assemble_first.
  eapply leads_bind; [apply cleanup_leads; by apply waiting_short|]. intros ?.
  eapply leads_bind; [apply does_leads, do_assemble_does|]. intros [insn op] s [Ha Hs]. revert s Hs.
  eapply leads_bind; [apply set_insn_leads|]. intros ?.
  destruct (insn =? invalid_insn) eqn:Ei.
  { destruct op; (eapply (leads_bind _ _ _ (fun _ _ => True)); [by intros s'|intros ?; apply leads_fatal]). }
  destruct Ha as [Ha|(o & Eo & Hr)]; [apply Z.eqb_neq in Ei; done|]. simpl in Eo. subst op.
  eapply leads_bind; [apply set_opcode_leads|]. intros ?.
  eapply leads_weaken; [apply swap_leads|done|]. intros ? s' Hs'. by exists o, insn.
Qed.

(** A line leaves a state in which nothing is half done, or it ends in a separator and
    its instruction waits for the next line. *)
Lemma assemble_second_leads str extype d i ety : waiting_ok d i (if truth ety then ety else extype) ->
  leads (waits before d i ety)
    (let* '(insn, op) := do_assemble str in
     if insn =? invalid_insn then
       if truth extype then amodify (set_etype extype)
       else as_fatal "can't find opcode "
     else
       match op with
       | None => undef
       | Some op =>
           let* s := aget in
           let extype := if truth (etype s) then etype s else extype in
           amodify (set_etype 0) >>
           place op insn extype
       end) (fun _ s => output_ok before s /\ waiting_ok (prev_opcode s) (prev_insn s) (etype s)).
Proof.
  intros Hd. eapply leads_bind; [apply does_leads, do_assemble_does|].
  intros [insn op] s [Ha Hs]. revert s Hs. destruct (insn =? invalid_insn) eqn:Ei.
  - apply leads_if; intros Hx; [|apply leads_fatal].
    eapply leads_weaken; [apply set_etype_leads|done|]. intros ? s [Ho -> -> ->]. split; [done|].
    destruct d as [o|]; [|done]. destruct Hd as [Hd|[Hl _]]; [by left|right].
    split; [done|]. intros ->. discriminate.
  - destruct Ha as [Ha|(o & Eo & Hr)]; [apply Z.eqb_neq in Ei; done|]. simpl in Eo. subst op.
    apply leads_get. intros s [_ _ _ Ee]. rewrite Ee. cbv zeta.
    eapply leads_bind; [apply set_etype_leads|]. intros ?.
    eapply leads_weaken; [by apply place_leads|done|].
    intros ? s' (Ho & E & Hw). split; [done|]. by rewrite E.
Qed.

Lemma separator_type str t a b : find_separator str = Some (t, a, b) -> t <> 0.
Proof.
  unfold find_separator. destruct (split_at "||" str) as [[? ?]|]; [by intros [= <- _ _]|].
  destruct (split_at "->" str) as [[? ?]|]; [by intros [= <- _ _]|].
  destruct (split_at "<-" str) as [[? ?]|]; [by intros [= <- _ _]|done].
Qed.
Lemma md_assemble_leads str d i ety : waiting_ok d i ety ->
  leads (waits before d i ety) (md_assemble str)
    (fun _ s => output_ok before s /\ waiting_ok (prev_opcode s) (prev_insn s) (etype s)).
Proof.
  intros Hd. unfold md_assemble. apply leads_get. intros s0 [_ _ _ Ee]. rewrite Ee.
  eapply (leads_bind _ _ _ (fun (r : Z * string) s => exists d i, waits before d i ety s /\
    waiting_ok d i (if truth ety then ety else r.1))).
  - assert (forall x, waiting_ok d i (if truth ety then ety else 0) ->
      leads (waits before d i ety) (aret (0, x)) (fun (r : Z * string) s => exists d i, waits before d i ety s /\
        waiting_ok d i (if truth ety then ety else r.1))) as Hret.
    { intros x Hx. apply leads_ret. intros s Hs. by exists d, i. }
    destruct (Z.eqb_spec ety 0) as [->|Hne]; [|apply Hret; apply Z.eqb_neq in Hne; unfold truth; by rewrite Hne].
    destruct (find_separator str) as [[[t a] b]|] eqn:Ef; [|by apply Hret].
    eapply leads_bind.
    + eapply leads_weaken; [apply assemble_first_leads| |done]. intros s Hs. by eapply waits_settled.
    + intros ?. apply leads_ret. intros s (op & insn & Hr & Hs). exists (Some op), insn. split; [done|].
      apply ready_waiting; [done|]. by eapply separator_type.
  - intros [extype str'] s (d' & i' & Hs & Hw). revert s Hs. by apply assemble_second_leads.
Qed.
End Entry.

(** C32: Assembling a line keeps the assembler's state well formed and writes only words
    of instructions. The two fixup buffers stay inside their five entries; the instruction
    that waits for a partner is a short one, unless the line ended in a separator; and
    everything the line has written is words in which the simulator finds its instructions
    (or the accumulator subtraction with an odd register). *)
Theorem md_assemble_well_formed `{Gas} str s s' : asm_inv s -> md_assemble str s = Ok tt s' ->
  asm_inv s' /\ writes_words s s'.
Proof.
  intros [Hf Hw] E.
  assert (leads (waits (frags s) (prev_opcode s) (prev_insn s) (etype s)) (md_assemble str)
    (fun _ s1 => output_ok (frags s) s1 /\ waiting_ok (prev_opcode s1) (prev_insn s1) (etype s1))) as Hm.
  { exact (md_assemble_leads (frags s) str _ _ _ Hw). }
  specialize (Hm s). rewrite E in Hm. destruct Hm as [[Hf' Hn] Hw'].
  - split; [|done..]. split; [exact Hf|]. exists []. split; [by rewrite app_nil_r|constructor].
  - split; [by split|exact Hn].
Qed.
Lemma md_assemble_well_formed_witness :
  exists s', @md_assemble plain_gas "mv r2, r3 -> add r4, r5" asm_start = Ok tt s' /\
    map em_bytes (frags s') = [[0x60; 0x23; 0x02; 0x8A]] /\ asm_inv s' /\ writes_words asm_start s'.
Proof.
  eexists. split; [vm_compute; reflexivity|]. split; [vm_compute; reflexivity|].
  apply (@md_assemble_well_formed plain_gas "mv r2, r3 -> add r4, r5" asm_start).
  - split; [split; simpl; lia|exact I].
  - vm_compute; reflexivity.
Defined.

(** ** What the invariant leaves out *)

(** The odd register: [sub a0, r1] is assembled without a message, and to the word of
    [sub a0, a0]. *)
Example sub_odd_register :
  exists s s', @md_assemble plain_gas "sub a0, r1" asm_start = Ok tt s /\
    @md_assemble plain_gas "sub a0, a0" asm_start = Ok tt s' /\
    prev_insn s = 0x1003 /\ prev_insn s' = 0x1003 /\ messages s = [] /\
    option_map he_opcode (find (hash_matches 0x1003 0) linear_table) = Some 0x1003.
Proof. do 2 eexists. repeat (split; [vm_compute; reflexivity|]). vm_compute; reflexivity. Qed.

(** [d10v_cleanup] after a line that ends in a separator, at a label or at the end of the
    file: a long instruction that waits is written as if it were a short one, next to a
    [nop], and without a message.  Here what is written for [add3 r2, r3, 0 ||], and for
    the instruction alone. *)
Example cleanup_long_instruction :
  exists s s', abind (@md_assemble plain_gas "add3 r2, r3, 0 ||") (fun _ => d10v_cleanup) asm_start = Ok 1 s /\
    map em_bytes (frags s) = [[0x80; 0x00; 0x5E; 0x00]] /\ messages s = [] /\
    abind (@md_assemble plain_gas "add3 r2, r3, 0") (fun _ => d10v_cleanup) asm_start = Ok 1 s' /\
    map em_bytes (frags s') = [[0xC1; 0x23; 0x00; 0x00]].
Proof. do 2 eexists. repeat (split; [vm_compute; reflexivity|]). vm_compute; reflexivity. Qed.
