(* ===== verification/GccText.v ===== *)
(** * From the compiler's text to instructions

    The lines of a prologue are read by the assembler. *)
From S2P Require Import Prelude CInt Opcodes Decode Asm DisSpec AsmSpec Emit Gcc.
From Stdlib Require Import Ascii DecimalString DecimalFacts DecimalZ.
#[local] Open Scope string_scope.
#[local] Open Scope list_scope.
#[local] Open Scope Z_scope.

(** What the text relies on of the target-independent assembler: a decimal number is a
    constant, and letters and digits do not end a statement. *)
Class GasLaws `{Gas} := {
  expression_number : forall n, - 2 ^ 31 <= n < 2 ^ 31 ->
    exists unsigned, expression (percent_d n) = (Expr None None n O_constant unsigned, "");
  word_goes_on : forall c, ((48 <= Ascii.nat_of_ascii c <= 57) \/ (97 <= Ascii.nat_of_ascii c <= 122))%nat ->
    is_end_of_line c = false
}.

Lemma append_assoc (a b c : string) : (a +:+ b) +:+ c = a +:+ (b +:+ c).
Proof.
  induction a as [|x a IH]; [done|]. change (String x ((a +:+ b) +:+ c) = String x (a +:+ (b +:+ c))). by rewrite IH.
Qed.


(** ** Numbers are not registers *)

(** The first character of a number *)
Definition starts_number (c : Ascii.ascii) : bool := (Ascii.nat_of_ascii c =? 45)%nat || ((48 <=? Ascii.nat_of_ascii c) && (Ascii.nat_of_ascii c <=? 57))%nat.
Lemma percent_d_first n : exists c rest, percent_d n = String c rest /\ starts_number c = true.
Proof.
  unfold percent_d. destruct (Z.to_int n) as [u|u].
  - destruct u; eexists _, _; (split; [reflexivity|reflexivity]).
  - eexists _, _. split; [reflexivity|reflexivity].
Qed.

Definition first_char (s : string) : option Ascii.ascii := match s with String c _ => Some c | _ => None end.
Definition register_letters : bool :=
  forallb (fun r => match Opcodes.reg_name r with String c _ => (97 <=? charmap c)%nat | EmptyString => false end)
    d10v_predefined_registers.
Lemma number_before_register c rest r : starts_number c = true -> In r d10v_predefined_registers ->
  strcasecmp (String c rest) (Opcodes.reg_name r) = Lt.
Proof.
  intros Hc Hr. assert (register_letters = true) as Ha by (vm_compute; reflexivity).
  unfold register_letters in Ha. rewrite forallb_forall in Ha. specialize (Ha r Hr).
  destruct (Opcodes.reg_name r) as [|d name]; [discriminate|]. apply Nat.leb_le in Ha. cbn [strcasecmp].
  assert (charmap c < 97)%nat as Hlt.
  { unfold starts_number in Hc. destruct c as [[] [] [] [] [] [] [] []]; vm_compute in Hc; first [discriminate | vm_compute; lia]. }
  by rewrite (proj2 (Nat.compare_lt_iff _ _)) by lia.
Qed.

Lemma register_at_listed i : 0 <= i < d10v_reg_name_cnt -> In (register_at i) d10v_predefined_registers.
Proof. intros Hi. apply nth_In. unfold d10v_reg_name_cnt in Hi. lia. Qed.
Lemma search_number c rest fuel : starts_number c = true -> forall high,
  0 <= high < d10v_reg_name_cnt -> high < Z.of_nat fuel ->
  reg_name_search_loop fuel (String c rest) 0 high = Some (-1).
Proof.
  intros Hc. induction fuel as [|fuel IH]; intros high Hh Hf; [lia|]. cbn [reg_name_search_loop].
  rewrite Z.add_0_l, Z.quot_div_nonneg by lia.
  assert (0 <= high / 2 <= high) by (split; [apply Z.div_pos; lia|apply Z.div_le_upper_bound; lia]).
  rewrite number_before_register by (try apply register_at_listed; done || lia).
  destruct (Z.leb_spec 0 (high / 2 - 1)); [|done]. apply IH; lia.
Qed.
Lemma register_number n : register_name (percent_d n) = None.
Proof.
  destruct (percent_d_first n) as (c & rest & -> & Hc). unfold register_name.
  assert (exists nm r, take_name (String c rest) = (String c nm, r)) as (nm & r & ->).
  { cbn [take_name]. assert (char_is c NL || char_is c CR || char_is c ","%char || char_is c " "%char || char_is c ")"%char = false) as ->.
    { unfold starts_number in Hc. destruct c as [[] [] [] [] [] [] [] []]; vm_compute in Hc |- *; first [discriminate | reflexivity]. }
    destruct (take_name rest) as [nm r]. by eexists _, _. }
  unfold reg_name_search. rewrite search_number; [done|exact Hc|vm_compute; split; [discriminate|reflexivity]|vm_compute; reflexivity].
Qed.

Section Lines.
Context `{GasLaws}.

(** A number as an operand *)
Lemma step_number n post : - 2 ^ 31 <= n < 2 ^ 31 -> exists unsigned,
  operand_step (percent_d n) post = Some ("", Some (Expr None None n O_constant unsigned), post, []).
Proof.
  intros Hn. destruct (expression_number n Hn) as [u E]. exists u. pose proof (register_number n) as Er.
  destruct (percent_d_first n) as (c & rest & Ep & Hc). rewrite Ep in *.
  unfold operand_step. assert (skip_separators (String c rest) = String c rest) as ->.
  { unfold starts_number in Hc. destruct c as [[] [] [] [] [] [] [] []]; vm_compute in Hc; first [discriminate | reflexivity]. }
  assert ((char_is c NL || char_is c CR) = false /\ char_is c "@"%char = false /\ char_is c ")"%char = false) as (-> & -> & ->).
  { unfold starts_number in Hc. destruct c as [[] [] [] [] [] [] [] []]; vm_compute in Hc |- *; first [discriminate | done]. }
  rewrite Er, E. done.
Qed.

(** A line of the compiler's text is assembled to an instruction: whether it is long, and
    its bits.  There is no message, and the fixups that punctuation leaves behind make no
    relocation. *)
Definition assembles (line : string) (i : bool * Z) : Prop :=
  exists text op, line = tab +:+ text +:+ newline /\ truth (Z.land (format op) LONG_OPCODE) = i.1 /\
    forall s, (length (cur_fixups s) <= 3)%nat ->
      exists extra, no_reloc extra /\ do_assemble text s = Ok (i.2, Some op) (with_fixups extra s).

(** ** The name of the instruction *)

Definition word_char (c : ascii) : bool :=
  (((48 <=? nat_of_ascii c) && (nat_of_ascii c <=? 57)) || ((97 <=? nat_of_ascii c) && (nat_of_ascii c <=? 122)))%nat.
Fixpoint word_chars (w : string) : bool :=
  match w with String c w' => word_char c && word_chars w' | EmptyString => true end.
Lemma word_char_ok c : word_char c = true -> is_end_of_line c = false /\ char_is c " "%char = false /\ tolower c = c.
Proof.
  intros Hc. split.
  - apply word_goes_on. unfold word_char in Hc. apply orb_prop in Hc as [Hc|Hc];
      apply andb_prop in Hc as [?%Nat.leb_le ?%Nat.leb_le]; lia.
  - clear - Hc. destruct c as [[] [] [] [] [] [] [] []]; vm_compute in Hc |- *; first [discriminate | done].
Qed.
Lemma opcode_name_word ops w : forall n, word_chars w = true -> (String.length w < n)%nat ->
  opcode_name n (w +:+ String " "%char ops) = (w, String " "%char ops).
Proof.
  induction w as [|c w IH]; intros n Hw Hn; (destruct n as [|n]; [simpl in Hn; lia|]).
  - change ("" +:+ String " "%char ops) with (String " "%char ops). cbn [opcode_name].
    replace (char_is " "%char " "%char) with true by reflexivity. by rewrite orb_true_r.
  - cbn [word_chars] in Hw. apply andb_prop in Hw as [Hc Hw]. destruct (word_char_ok c Hc) as (E1 & E2 & E3).
    change (String c w +:+ String " "%char ops) with (String c (w +:+ String " "%char ops)). cbn [opcode_name]. rewrite E1, E2. cbn [orb].
    rewrite IH by (done || (cbn [String.length] in Hn; lia)). by rewrite E3.
Qed.

(** The part of [do_assemble] after the name *)
Definition assemble_operands (i : nat) (ops : string) : A_ (Z * option d10v_opcode) :=
  abind (find_opcode i ops) (fun r =>
    match r with
    | None => aret (invalid_insn, None)
    | Some (j, myops) => abind (build_insn (opcode_at j) myops 0) (fun insn => aret (insn, Some (opcode_at j)))
    end).
Lemma assemble_name w ops i s :
  word_chars w = true -> (0 < String.length w < 20)%nat -> d10v_hash !! w = Some i ->
  do_assemble (w +:+ String " "%char ops) s = assemble_operands i (String " "%char ops) s.
Proof.
  intros Hw Hl Hi. unfold do_assemble.
  assert (skip_spaces (w +:+ String " "%char ops) = w +:+ String " "%char ops) as ->.
  { destruct w as [|c w]; [simpl in Hl; lia|]. cbn [word_chars] in Hw. apply andb_prop in Hw as [Hc _].
    destruct (word_char_ok c Hc) as (_ & E & _). change (String c w +:+ String " "%char ops) with (String c (w +:+ String " "%char ops)). cbn [skip_spaces]. by rewrite E. }
  rewrite (opcode_name_word ops w 20 Hw (proj2 Hl)).
  rewrite (proj2 (Nat.eqb_neq (String.length w) 20)), (proj2 (Nat.eqb_neq (String.length w) 0)) by (clear Hi; lia).
  rewrite Hi. reflexivity.
Qed.

(** ** The lines of a prologue *)

(** The index of an instruction's first entry *)
Definition entry (w : string) : nat := default 0%nat (d10v_hash !! w).
(** A line of plain operands: what [find_opcode] finds is encoded. *)
Lemma assembles_name w ops j es i :
  word_chars w = true -> (0 < String.length w < 20)%nat -> d10v_hash !! w = Some (entry w) ->
  (forall s, find_opcode (entry w) (String " "%char ops) s = Ok (Some (j, es ++ [zero_expr])) s) ->
  is_real (opcode_at j) && negb (opcode (opcode_at j) =? OPCODE_DIVS) &&
    (length (punctuation (active (operands (opcode_at j)))) <=? 2)%nat = true ->
  plain_operands (active (operands (opcode_at j))) es ->
  truth (Z.land (format (opcode_at j)) LONG_OPCODE) = i.1 ->
  encode (gen_simop (opcode_at j)) (operand_values (active (operands (opcode_at j))) es) = i.2 ->
  forall line, line = tab +:+ (w +:+ String " "%char ops) +:+ newline -> assembles line i.
Proof.
  intros Hw Hl Hi Hf Hj Hes Hlong Henc line ->. exists (w +:+ String " "%char ops), (opcode_at j).
  apply andb_prop in Hj as [[Hr Hd]%andb_prop Hp%Nat.leb_le].
  apply negb_true_iff in Hd. rewrite Z.eqb_neq in Hd.
  split; [reflexivity|split; [exact Hlong|]]. intros s Hs. rewrite (assemble_name w ops _ s Hw Hl Hi).
  destruct (build_insn_encodes (opcode_at j) es [zero_expr] s (real_at j Hr) Hd Hes) as (extra & Hx & E); [lia|].
  exists extra. split; [exact Hx|]. unfold assemble_operands, abind. rewrite Hf, E, Henc. reflexivity.
Qed.

(** Pushes *)
Definition push_operands (r : Z) : string := reg_name r +:+ "," +:+ "@-" +:+ sp_name.
Definition register_expr (nm : string) (r : Z) : expressionS :=
  Expr None (Some (Chars nm)) (OPERAND_GPR + r) O_register false.
Definition push_exprs (r : Z) : list expressionS :=
  [register_expr (reg_name r) r; absent OPERAND_ATMINUS; register_expr sp_name 15].
Lemma push_line w j r code :
  word_chars w = true -> (0 < String.length w < 20)%nat -> d10v_hash !! w = Some (entry w) ->
  (forall s, find_opcode (entry w) (String " "%char (push_operands r)) s = Ok (Some (j, push_exprs r ++ [zero_expr])) s) ->
  is_real (opcode_at j) && negb (opcode (opcode_at j) =? OPCODE_DIVS) &&
    (length (punctuation (active (operands (opcode_at j)))) <=? 2)%nat = true ->
  plain_operands (active (operands (opcode_at j))) (push_exprs r) ->
  truth (Z.land (format (opcode_at j)) LONG_OPCODE) = false ->
  encode (gen_simop (opcode_at j)) (operand_values (active (operands (opcode_at j))) (push_exprs r)) = code ->
  assembles (line2 w (reg_name r) ("@-" +:+ sp_name)) (false, code).
Proof.
  intros. apply (assembles_name w (push_operands r) j (push_exprs r)); [assumption..|].
  change (String " "%char (push_operands r)) with (" " +:+ push_operands r).
  unfold line2, push_operands. rewrite !append_assoc. reflexivity.
Qed.
Ltac push_tac j := apply (push_line _ j); [reflexivity|vm_compute; lia|vm_compute; reflexivity|
  intros s; vm_compute; reflexivity|vm_compute; reflexivity|repeat constructor; vm_compute; reflexivity|
  vm_compute; reflexivity|vm_compute; reflexivity].
Lemma st_line r : 0 <= r < 15 -> assembles (line2 "st" (reg_name r) ("@-" +:+ sp_name)) (false, 0x6C1F + r * 2 ^ 5).
Proof.
  intros Hr.
  each_below r 15%nat; push_tac 139%nat.
Qed.
Lemma st2w_line r : 0 <= r < 15 -> Z.land r 1 = 0 ->
  assembles (line2 "st2w" (reg_name r) ("@-" +:+ sp_name)) (false, 0x6E1F + r * 2 ^ 5).
Proof.
  intros Hr He. each_below r 15%nat; first [discriminate He | push_tac 144%nat].
Qed.

(** [mv r11,sp] *)
Lemma mv_line : assembles (line2 "mv" (reg_name FRAME_POINTER_REGNUM) sp_name) (false, 0x417E).
Proof.
  apply (assembles_name "mv" "r11,sp" 90 [register_expr "r11" 11; register_expr "sp" 15]);
    [reflexivity|vm_compute; lia|vm_compute; reflexivity|intros s; vm_compute; reflexivity|vm_compute; reflexivity|
     repeat constructor; vm_compute; reflexivity|vm_compute; reflexivity|vm_compute; reflexivity|reflexivity].
Qed.

(** ** Numbers as the last operand *)

Lemma number_not_at c rest : starts_number c = true -> starts_with "@word" (String c rest) = false.
Proof. intros Hc. destruct c as [[] [] [] [] [] [] [] []]; vm_compute in Hc; first [discriminate | reflexivity]. Qed.
(** The stack pointer, or the frame pointer *)
Definition base_register (nm : string) (r : Z) : Prop := (nm = "sp" /\ r = 15) \/ (nm = "r11" /\ r = 11).
Lemma step_base nm r n pre post : base_register nm r -> pre = " " \/ pre = "" ->
  operand_step (pre +:+ nm +:+ "," +:+ percent_d n) post = Some (percent_d n, Some (register_expr nm r), post, []).
Proof.
  intros Hb Hpre. destruct (percent_d_first n) as (c & rest & -> & Hc). pose proof (number_not_at c rest Hc) as Ha.
  revert Ha. generalize (String c rest). intros t Ha.
  destruct Hb as [[-> ->]|[-> ->]], Hpre as [->| ->]; lazy -[starts_with]; rewrite Ha; reflexivity.
Qed.

(** The operands [sp,n] *)
Lemma operands_sp_number n : - 2 ^ 31 <= n < 2 ^ 31 -> exists unsigned, forall s,
  get_operands (" sp," +:+ percent_d n) s =
    Ok ([register_expr "sp" 15; Expr None None n O_constant unsigned] ++ [zero_expr]) s.
Proof.
  intros Hn. destruct (step_number n 0 Hn) as [u E]. exists u. intros s. unfold get_operands.
  change (String.length (" sp," +:+ percent_d n)) with (4 + String.length (percent_d n))%nat.
  pose proof (step_base "sp" 15 n " " 0 ltac:(by left) (or_introl eq_refl)) as E1.
  change (" " +:+ "sp" +:+ "," +:+ percent_d n) with (" sp," +:+ percent_d n) in E1.
  cbn [get_operands_loop Nat.add]. change (" sp," +:+ percent_d n) with (String " "%char ("sp," +:+ percent_d n)) in *.
  rewrite E1. destruct (percent_d_first n) as (c & rest & Ep & _). rewrite Ep in *. rewrite E. reflexivity.
Qed.
(** The operands [sp,sp,n] and [sp,r11,n] *)
Lemma operands_sp_base_number nm r n : base_register nm r -> - 2 ^ 31 <= n < 2 ^ 31 -> exists unsigned, forall s,
  get_operands (" sp," +:+ nm +:+ "," +:+ percent_d n) s =
    Ok ([register_expr "sp" 15; register_expr nm r; Expr None None n O_constant unsigned] ++ [zero_expr]) s.
Proof.
  intros Hb Hn. destruct (step_number n 0 Hn) as [u E]. exists u. intros s. unfold get_operands.
  pose proof (step_base nm r n "" 0 Hb (or_intror eq_refl)) as E1. change ("" +:+ ?x) with x in E1.
  assert (operand_step (" sp," +:+ nm +:+ "," +:+ percent_d n) 0 =
    Some (nm +:+ "," +:+ percent_d n, Some (register_expr "sp" 15), 0, [])) as E0 by (by destruct Hb as [[-> _]|[-> _]]).
  destruct (percent_d_first n) as (c & rest & Ep & _). rewrite Ep in *.
  destruct Hb as [[-> ->]|[-> ->]].
  - change (String.length (" sp," +:+ "sp" +:+ "," +:+ String c rest)) with (7 + String.length (String c rest))%nat.
    cbn [get_operands_loop Nat.add]. change (" sp," +:+ "sp" +:+ "," +:+ String c rest) with (String " "%char ("sp," +:+ "sp" +:+ "," +:+ String c rest)) in *.
    rewrite E0. change ("sp" +:+ "," +:+ String c rest) with (String "s"%char ("p," +:+ String c rest)) in *.
    rewrite E1, E. reflexivity.
  - change (String.length (" sp," +:+ "r11" +:+ "," +:+ String c rest)) with (8 + String.length (String c rest))%nat.
    cbn [get_operands_loop Nat.add]. change (" sp," +:+ "r11" +:+ "," +:+ String c rest) with (String " "%char ("sp," +:+ "r11" +:+ "," +:+ String c rest)) in *.
    rewrite E0. change ("r11" +:+ "," +:+ String c rest) with (String "r"%char ("11," +:+ String c rest)) in *.
    rewrite E1, E. reflexivity.
Qed.

(** The operand of four bits, in which 16 is written as 0 *)
Lemma unum4s_plain n u : 1 <= n <= 16 -> plain_operand UNUM4S (Expr None None n O_constant u) = true.
Proof.
  intros Hn. unfold plain_operand. change (is_operand _) with true. cbv iota. cbn [op_is].
  assert (check_range (operand_number (operand_at UNUM4S) (Expr None None n O_constant u)) 4 (flags (operand_at UNUM4S)) = false) as Hc.
  { unfold check_range, operand_number. change (is_register _) with false. cbv iota.
    change (truth (Z.land (flags (operand_at UNUM4S)) OPERAND_SHIFT)) with true. cbv iota. cbn [X_add_number].
    rewrite u32_small by lia. apply Z.ltb_ge. lia. }
  exact (f_equal negb Hc).
Qed.
Ltac adjust_line w j Hn :=
  match type of Hn with 1 <= ?n <= 16 =>
    let u := fresh "u" in let E := fresh "E" in let Hc := fresh "Hc" in let s := fresh "s" in
    destruct (operands_sp_number n) as [u E]; [lia|];
    apply (assembles_name w ("sp," +:+ percent_d n) j [register_expr "sp" 15; Expr None None n O_constant u]);
    [reflexivity|vm_compute; lia|vm_compute; reflexivity| |vm_compute; reflexivity|
     repeat constructor; by apply unum4s_plain|vm_compute; reflexivity| |reflexivity];
    [intros s; unfold find_opcode, abind; change (String " "%char ("sp," +:+ percent_d n)) with (" sp," +:+ percent_d n);
     rewrite E; clear; vm_compute; reflexivity|
     clear E; each_below n 17%nat; vm_compute; reflexivity]
  end.
(** [subi sp,n] and [addi sp,n] *)
Lemma subi_line n : 1 <= n <= 16 ->
  assembles (line2 "subi" sp_name (percent_d n)) (false, 0x1E1 + 2 * (n mod 16)).
Proof. intros Hn. adjust_line "subi" 158%nat Hn. Qed.
Lemma addi_line n : 1 <= n <= 16 ->
  assembles (line2 "addi" sp_name (percent_d n)) (false, 0x3E1 + 2 * (n mod 16)).
Proof. intros Hn. adjust_line "addi" 11%nat Hn. Qed.

(** [add3 sp,sp,n] and [add3 sp,r11,n] *)
Lemma add3_base_line nm r n : base_register nm r -> - 2 ^ 15 <= n < 2 ^ 15 ->
  assembles (line3 "add3" sp_name nm (percent_d n)) (true, 0x01F00000 + r * 2 ^ 16 + n mod 2 ^ 16).
Proof.
  intros Hb Hn. destruct (operands_sp_base_number nm r n Hb) as [u E]; [lia|].
  apply (assembles_name "add3" ("sp," +:+ nm +:+ "," +:+ percent_d n) 6
    [register_expr "sp" 15; register_expr nm r; Expr None None n O_constant u]).
  - reflexivity.
  - vm_compute. lia.
  - vm_compute. reflexivity.
  - intros s. unfold find_opcode, abind. change (String " "%char ("sp," +:+ nm +:+ "," +:+ percent_d n)) with (" sp," +:+ nm +:+ "," +:+ percent_d n).
    rewrite E. clear - Hb. destruct Hb as [[-> ->]|[-> ->]]; vm_compute; reflexivity.
  - vm_compute. reflexivity.
  - destruct Hb as [[-> ->]|[-> ->]]; repeat constructor.
  - vm_compute. reflexivity.
  - assert (operand_bits NUM16 (Expr None None n O_constant u) = n mod 2 ^ 16) as Eb.
    { unfold operand_bits, operand_number. change (is_register _) with false. cbv iota.
      change (bits (operand_at NUM16)) with 16. cbn [X_add_number]. unfold u32. zdml. }
    assert (operand_values (active (operands (opcode_at 6))) [register_expr "sp" 15; register_expr nm r; Expr None None n O_constant u]
      = [15; r; operand_bits NUM16 (Expr None None n O_constant u)]) as Ev by (by destruct Hb as [[-> ->]|[-> ->]]).
    unfold encode. rewrite Ev, Eb.
    change (so_fields (gen_simop (opcode_at 6))) with [(20, 4); (16, 4); (0, 16)].
    change (so_opcode (gen_simop (opcode_at 6))) with 0x01000000. cbn [zip_with fold_right fst snd].
    rewrite Z.shiftl_0_r. pose proof (Z.mod_pos_bound n (2 ^ 16) ltac:(lia)).
    rewrite (Z.lor_comm (n mod 2 ^ 16)), !Z.lor_assoc.
    replace (Z.lor (Z.lor (Z.shiftl 15 20) (Z.shiftl r 16)) 0x01000000) with (Z.shiftl (0x01F0 + r) 16) by (by destruct Hb as [[_ ->]|[_ ->]]).
    rewrite lor_add_disjoint by lia. cbn [fst snd]. lia.
  - destruct Hb as [[-> ->]|[-> ->]]; reflexivity.
Qed.
Lemma add3_line n : - 2 ^ 15 <= n < 2 ^ 15 ->
  assembles (line3 "add3" sp_name sp_name (percent_d n)) (true, 0x01FF0000 + n mod 2 ^ 16).
Proof. intros Hn. exact (add3_base_line "sp" 15 n (or_introl (conj eq_refl eq_refl)) Hn). Qed.
End Lines.
