(* ===== verification/EpilogueText.v ===== *)
(** * Prologues and epilogues from text

    The lines that save and restore registers, those of the epilogue, and the frame plan
    that the compiler's table of saved registers stands for: the lines of a function's
    prologue and epilogue are assembled to the instructions of the plan. *)
From S2P Require Import Prelude CInt Opcodes Interp Decode SimTarget Prologue Epilogue Saving.
From S2P Require Import Asm DisSpec AsmSpec Emit Gcc GccText.
From Stdlib Require Import Ascii.
#[local] Open Scope string_scope.
#[local] Open Scope list_scope.
#[local] Open Scope Z_scope.

Section Lines.
Context `{GasLaws}.

(** A line without numbers *)
Ltac plain_line w ops j es := apply (assembles_name w ops j es);
  [reflexivity|vm_compute; lia|vm_compute; reflexivity|intros s; vm_compute; reflexivity|vm_compute; reflexivity|
   repeat constructor; vm_compute; reflexivity|vm_compute; reflexivity|vm_compute; reflexivity|reflexivity].

Definition pop_exprs (r : Z) : list expressionS :=
  [register_expr (Gcc.reg_name r) r; absent OPERAND_ATSIGN; register_expr sp_name 15; absent OPERAND_PLUS].
Definition pop_operands (r : Z) : string := Gcc.reg_name r +:+ ",@sp+".
(** [ld rN,@sp+] and [ld2w rN,@sp+] *)
Lemma ld_line r : 0 <= r < 15 -> assembles (line2 "ld" (Gcc.reg_name r) ("@" +:+ sp_name +:+ "+")) (pop_reg r).
Proof.
  intros Hr.
  each_below r 15%nat; match goal with |- context [pop_reg ?n] => plain_line "ld" (pop_operands n) 61%nat (pop_exprs n) end.
Qed.
Lemma ld2w_line r : 0 <= r < 15 -> Z.land r 1 = 0 ->
  assembles (line2 "ld2w" (Gcc.reg_name r) ("@" +:+ sp_name +:+ "+")) (pop_pair r).
Proof.
  intros Hr He.
  each_below r 15%nat; first [discriminate He |
    match goal with |- context [pop_pair ?n] => plain_line "ld2w" (pop_operands n) 65%nat (pop_exprs n) end].
Qed.
(** [mv sp,r11] and [jmp r13] *)
Lemma mv_sp_line : assembles (line2 "mv" sp_name (Gcc.reg_name FRAME_POINTER_REGNUM)) (false, 0x41F6).
Proof. plain_line "mv" "sp,r11" 90%nat [register_expr "sp" 15; register_expr "r11" 11]. Qed.
Lemma jmp_line : assembles (line1 "jmp" (Gcc.reg_name RETURN_ADDRESS_REGNUM)) (false, 0x4C1A).
Proof. plain_line "jmp" "r13" 58%nat [register_expr "r13" 13]. Qed.
(** Accumulators *)
Definition acc_expr (n : Z) : expressionS :=
  Expr None (Some (Chars (Gcc.reg_name (ACCUM_FIRST + n)))) (if n =? 0 then 1024 else 2049) O_register false.
Lemma acc_lines n : n = 0 \/ n = 1 -> let a := Gcc.reg_name (ACCUM_FIRST + n) in
  assembles (line2 "mvfacg" (Gcc.reg_name SAVE_GUARD_REGNUM) a) (acc_insn 0x1E04 5 n) /\
  assembles (line2 "mv2wfac" (Gcc.reg_name SAVE_ACC_REGNUM) a) (acc_insn 0x3E00 12 n) /\
  assembles (line2 "mv2wtac" (Gcc.reg_name SAVE_ACC_REGNUM) a) (acc_insn 0x3E01 12 n) /\
  assembles (line2 "mvtacg" (Gcc.reg_name SAVE_GUARD_REGNUM) a) (acc_insn 0x1E41 5 n).
Proof.
  intros Hn a. destruct Hn as [-> | ->]; (split; [|split; [|split]]).
  - plain_line "mvfacg" "r5,a0" 98%nat [register_expr "r5" 5; acc_expr 0].
  - plain_line "mv2wfac" "r12,a0" 92%nat [register_expr "r12" 12; acc_expr 0].
  - plain_line "mv2wtac" "r12,a0" 93%nat [register_expr "r12" 12; acc_expr 0].
  - plain_line "mvtacg" "r5,a0" 102%nat [register_expr "r5" 5; acc_expr 0].
  - plain_line "mvfacg" "r5,a1" 98%nat [register_expr "r5" 5; acc_expr 1].
  - plain_line "mv2wfac" "r12,a1" 92%nat [register_expr "r12" 12; acc_expr 1].
  - plain_line "mv2wtac" "r12,a1" 93%nat [register_expr "r12" 12; acc_expr 1].
  - plain_line "mvtacg" "r5,a1" 102%nat [register_expr "r5" 5; acc_expr 1].
Qed.

(** ** What is saved *)

(** The lines for one piece *)
Definition save_text (k : saved) : list string :=
  match k with
  | S_reg n => [line2 "st" (Gcc.reg_name n) ("@-" +:+ sp_name)]
  | S_pair n => [line2 "st2w" (Gcc.reg_name n) ("@-" +:+ sp_name)]
  | S_acc n =>
      let a := Gcc.reg_name (ACCUM_FIRST + n) in
      [line2 "mvfacg" (Gcc.reg_name SAVE_GUARD_REGNUM) a; line2 "mv2wfac" (Gcc.reg_name SAVE_ACC_REGNUM) a;
       line2 "st" (Gcc.reg_name SAVE_GUARD_REGNUM) ("@-" +:+ sp_name);
       line2 "st2w" (Gcc.reg_name SAVE_ACC_REGNUM) ("@-" +:+ sp_name)]
  end.
Definition restore_text (k : saved) : list string :=
  match k with
  | S_reg n => [line2 "ld" (Gcc.reg_name n) ("@" +:+ sp_name +:+ "+")]
  | S_pair n => [line2 "ld2w" (Gcc.reg_name n) ("@" +:+ sp_name +:+ "+")]
  | S_acc n =>
      let a := Gcc.reg_name (ACCUM_FIRST + n) in
      [line2 "ld2w" (Gcc.reg_name SAVE_ACC_REGNUM) ("@" +:+ sp_name +:+ "+");
       line2 "ld" (Gcc.reg_name SAVE_GUARD_REGNUM) ("@" +:+ sp_name +:+ "+");
       line2 "mv2wtac" (Gcc.reg_name SAVE_ACC_REGNUM) a; line2 "mvtacg" (Gcc.reg_name SAVE_GUARD_REGNUM) a]
  end.
Lemma save_text_ok k : saved_ok k -> Forall2 assembles (save_text k) (save_insns k).
Proof.
  destruct k as [n|n|n]; cbn [saved_ok save_text save_insns]; intros Hk.
  - constructor; [by apply st_line|constructor].
  - constructor; [apply st2w_line; [lia|apply Hk]|constructor].
  - destruct (acc_lines n Hk) as (L1 & L2 & _ & _). constructor; [exact L1|]. constructor; [exact L2|].
    constructor; [apply (st_line 5); lia|]. constructor; [apply (st2w_line 12); [lia|reflexivity]|constructor].
Qed.
Lemma restore_text_ok k : saved_ok k -> Forall2 assembles (restore_text k) (restore_insns k).
Proof.
  destruct k as [n|n|n]; cbn [saved_ok restore_text restore_insns]; intros Hk.
  - constructor; [by apply ld_line|constructor].
  - constructor; [apply ld2w_line; [lia|apply Hk]|constructor].
  - destruct (acc_lines n Hk) as (_ & _ & L3 & L4). constructor; [apply (ld2w_line 12); [lia|reflexivity]|].
    constructor; [apply (ld_line 5); lia|]. constructor; [exact L3|]. constructor; [exact L4|constructor].
Qed.
Lemma all_text_ok {B} (P : saved -> Prop) (f : saved -> list string) (h : saved -> list B) (R : string -> B -> Prop) l :
  (forall k, P k -> Forall2 R (f k) (h k)) -> Forall P l -> Forall2 R (flat_map f l) (flat_map h l).
Proof. intros Hf. induction 1 as [|k l Hk Hl IH]; [constructor|]. cbn [flat_map]. apply Forall2_app; [by apply Hf|exact IH]. Qed.
End Lines.

(** The registers r2j and r2j+1, and [k] such pairs from the [a]th on *)
Definition pair_pieces (save : list Z) (i : Z) : list saved :=
  if flag save i then if flag save (i + 1) then [S_pair i] else [S_reg i]
  else if flag save (i + 1) then [S_reg (i + 1)] else [].
Definition pieces (save : list Z) (a k : nat) : list saved :=
  flat_map (fun j => pair_pieces save (2 * Z.of_nat j)) (seq a k).

Lemma even_pair i : (exists j, i = 2 * j) -> 0 <= i <= 14 ->
  GPR_EVEN_P i = true /\ GPR_EVEN_P (i + 1) = false /\ GPR_ODD_P i = false /\ GPR_ODD_P (i + 1) = true.
Proof.
  intros [j ->] Hi. each_below j 8%nat; done.
Qed.
(** A round of each of the loops *)
Lemma save_gprs_round n save i total : save_gprs (S n) save i total =
  if i <=? 15 then
    if flag save i then
      if GPR_EVEN_P i && flag save (i + 1)
      then let '(out, t) := save_gprs n save (i + 1 + 1) (total - 4) in (save_text (S_pair i) ++ out, t)
      else let '(out, t) := save_gprs n save (i + 1) (total - 2) in (save_text (S_reg i) ++ out, t)
    else save_gprs n save (i + 1) total
  else ([], total).
Proof. reflexivity. Qed.
Lemma restore_gprs_round n save i : Gcc.restore_gprs (S n) save i =
  if 0 <=? i then
    if flag save i then
      if GPR_ODD_P i && flag save (i - 1) then restore_text (S_pair (i - 1)) ++ Gcc.restore_gprs n save (i - 1 - 1)
      else restore_text (S_reg i) ++ Gcc.restore_gprs n save (i - 1)
    else Gcc.restore_gprs n save (i - 1)
  else [].
Proof. reflexivity. Qed.
(** Both loops handle the registers pair by pair. *)
Lemma save_gprs_pieces save : forall k a n total, (a + k = 8)%nat -> (2 * k <= n)%nat ->
  save_gprs n save (2 * Z.of_nat a) total =
    (flat_map save_text (pieces save a k), total - total_of (pieces save a k)).
Proof.
  induction k as [|k IH]; intros a n total Ha Hn.
  { replace a with 8%nat by lia. destruct n; cbn; by rewrite Z.sub_0_r. }
  destruct n as [|[|n]]; [lia..|]. destruct (even_pair (2 * Z.of_nat a)) as (E1 & E2 & _ & _); [by eexists|lia|].
  unfold pieces. cbn [seq flat_map]. fold (pieces save (S a) k). unfold pair_pieces.
  rewrite save_gprs_round, E1, (proj2 (Z.leb_le (2 * Z.of_nat a) 15)) by lia.
  pose proof (save_gprs_round n save (2 * Z.of_nat a + 1)) as Er.
  rewrite E2, (proj2 (Z.leb_le (2 * Z.of_nat a + 1) 15)) in Er by lia.
  replace (2 * Z.of_nat a + 1 + 1) with (2 * Z.of_nat (S a)) in * by lia. rewrite !flat_map_app, !total_app.
  destruct (flag save (2 * Z.of_nat a)), (flag save (2 * Z.of_nat a + 1)); cbn [andb flat_map app] in *; rewrite ?Er, IH by lia;
    cbn [total_of fold_right bytes_of]; rewrite ?app_nil_r; f_equal; lia.
Qed.
Lemma restore_gprs_pieces save : forall k n, (k <= 8)%nat -> (2 * k <= n)%nat ->
  Gcc.restore_gprs n save (2 * Z.of_nat k - 1) = flat_map restore_text (rev (pieces save 0 k)).
Proof.
  induction k as [|k IH]; intros n Hk Hn.
  { by destruct n. }
  destruct n as [|[|n]]; [lia..|]. destruct (even_pair (2 * Z.of_nat k)) as (_ & _ & E1 & E2); [by eexists|lia|].
  unfold pieces. rewrite seq_S, flat_map_app, rev_app_distr, flat_map_app. fold (pieces save 0 k). cbn [flat_map Nat.add].
  rewrite app_nil_r. unfold pair_pieces.
  rewrite restore_gprs_round. replace (2 * Z.of_nat (S k) - 1) with (2 * Z.of_nat k + 1) by lia.
  rewrite E2, (proj2 (Z.leb_le 0 (2 * Z.of_nat k + 1))) by lia.
  replace (2 * Z.of_nat k + 1 - 1) with (2 * Z.of_nat k) by lia.
  pose proof (restore_gprs_round n save (2 * Z.of_nat k)) as Er.
  rewrite E1, (proj2 (Z.leb_le 0 (2 * Z.of_nat k))) in Er by lia.
  destruct (flag save (2 * Z.of_nat k)), (flag save (2 * Z.of_nat k + 1)); cbn [andb flat_map rev app] in *; rewrite ?Er, ?IH by lia;
    by rewrite ?app_nil_r.
Qed.
Lemma pieces_ok save : flag save 15 = false -> flag save 14 = false -> forall k a, (a + k <= 8)%nat ->
  Forall saved_ok (pieces save a k) /\ existsb is_acc (pieces save a k) = false.
Proof.
  intros H15 H14. induction k as [|k IH]; intros a Ha; [split; [constructor|done]|].
  unfold pieces. cbn [seq flat_map]. fold (pieces save (S a) k). destruct (IH (S a)) as [Hok Hac]; [lia|].
  assert (Z.land (2 * Z.of_nat a) 1 = 0) as He by (change 1 with (Z.ones 1); rewrite land_ones_mod by lia; zdml).
  assert (flag save (2 * Z.of_nat a) = true -> 2 * Z.of_nat a < 14) as B0
    by (intros E; destruct (decide (a = 7%nat)) as [->|]; [change (flag save 14 = true) in E; congruence|lia]).
  assert (flag save (2 * Z.of_nat a + 1) = true -> 2 * Z.of_nat a < 14) as B1
    by (intros E; destruct (decide (a = 7%nat)) as [->|]; [change (flag save 15 = true) in E; congruence|lia]).
  rewrite existsb_app, Hac, orb_false_r. unfold pair_pieces.
  destruct (flag save (2 * Z.of_nat a)), (flag save (2 * Z.of_nat a + 1)); cbn [app existsb is_acc orb];
    (split; [|done]); try (constructor; [|exact Hok]); try exact Hok; cbn [saved_ok];
    try specialize (B0 eq_refl); try specialize (B1 eq_refl); try split; first [exact He | lia].
Qed.
Lemma saves_app l1 l2 n : saves (l1 ++ l2) n = saves l1 n || saves l2 n.
Proof. unfold saves. by rewrite flat_map_app, existsb_app. Qed.
Lemma pair_saves save i n : saves (pair_pieces save i) n = ((n =? i) || (n =? i + 1)) && flag save n.
Proof.
  unfold pair_pieces. destruct (Z.eqb_spec n i) as [->|Hi].
  - destruct (flag save i), (flag save (i + 1)); unfold saves; cbn [flat_map regs_of app existsb orb andb];
      rewrite ?Z.eqb_refl, ?(proj2 (Z.eqb_neq i (i + 1))) by lia; done.
  - destruct (Z.eqb_spec n (i + 1)) as [->|Hi1].
    + destruct (flag save i), (flag save (i + 1)); unfold saves; cbn [flat_map regs_of app existsb orb andb];
        rewrite ?Z.eqb_refl, ?(proj2 (Z.eqb_neq (i + 1) i)) by lia; done.
    + destruct (flag save i), (flag save (i + 1)); unfold saves; cbn [flat_map regs_of app existsb orb andb];
        rewrite ?(proj2 (Z.eqb_neq _ _) Hi), ?(proj2 (Z.eqb_neq _ _) Hi1); done.
Qed.
Lemma pieces_saves save n : forall k a,
  saves (pieces save a k) n = (2 * Z.of_nat a <=? n) && (n <? 2 * Z.of_nat (a + k)) && flag save n.
Proof.
  induction k as [|k IH]; intros a.
  { replace (a + 0)%nat with a by lia. change (saves (pieces save a 0) n) with false.
    destruct (Z.leb_spec (2 * Z.of_nat a) n), (Z.ltb_spec n (2 * Z.of_nat a)); try done. lia. }
  unfold pieces. cbn [seq flat_map]. fold (pieces save (S a) k). rewrite saves_app, pair_saves, IH.
  replace (S a + k)%nat with (a + S k)%nat by lia.
  destruct (flag save n); [rewrite !andb_true_r|by rewrite !andb_false_r].
  destruct (Z.eqb_spec n (2 * Z.of_nat a)), (Z.eqb_spec n (2 * Z.of_nat a + 1)), (Z.leb_spec (2 * Z.of_nat a) n),
    (Z.leb_spec (2 * Z.of_nat (S a)) n), (Z.ltb_spec n (2 * Z.of_nat (a + S k))); cbn; first [done | lia].
Qed.
Definition acc_pieces (save : list Z) : list saved :=
  (if flag save ACCUM_FIRST then [S_acc 0] else []) ++ (if flag save ACCUM_LAST then [S_acc 1] else []).
Lemma acc_pieces_list save : acc_list (acc_pieces save).
Proof. unfold acc_pieces, acc_list. destruct (flag save ACCUM_FIRST), (flag save ACCUM_LAST); cbn; tauto. Qed.
Lemma save_accs_pieces save total : save_accs (registers_from ACCUM_FIRST ACCUM_LAST) save total =
  (flat_map save_text (acc_pieces save), total - total_of (acc_pieces save)).
Proof.
  change (registers_from ACCUM_FIRST ACCUM_LAST) with [ACCUM_FIRST; ACCUM_LAST]. unfold acc_pieces. cbn [save_accs].
  destruct (flag save ACCUM_FIRST), (flag save ACCUM_LAST); cbn [app flat_map total_of fold_right bytes_of]; rewrite ?app_nil_r;
    unfold UNITS_PER_WORD; f_equal; lia.
Qed.
Lemma restore_accs_pieces save : restore_accs (registers_from ACCUM_FIRST ACCUM_LAST) save = flat_map restore_text (acc_pieces save).
Proof.
  change (registers_from ACCUM_FIRST ACCUM_LAST) with [ACCUM_FIRST; ACCUM_LAST]. unfold acc_pieces. cbn [restore_accs].
  by destruct (flag save ACCUM_FIRST), (flag save ACCUM_LAST).
Qed.

(** ** From [d10v_stack_info] to a plan *)

(** A frame with [locals] bytes of variables and outgoing arguments, whose sizes are those of
    its parts *)
Record laid_out (info : d10v_stack_t) (locals : Z) : Prop := {
  lo_sp : flag (save_p info) 14 = false /\ flag (save_p info) 15 = false;
  lo_link : acc_pieces (save_p info) <> [] -> flag (save_p info) RETURN_ADDRESS_REGNUM = true;
  lo_locals : 0 <= locals;
  lo_varargs : varargs_size info = if truth (varargs_p info) then 8 else 0;
  lo_gprs : gpr_size info = total_of (pieces (save_p info) 0 8);
  lo_accs : accum_size info = total_of (acc_pieces (save_p info));
  lo_total : total_size info = varargs_size info + gpr_size info + accum_size info + locals;
  lo_small : total_size info < 0x8000
}.
Definition plan_of (info : d10v_stack_t) (locals fp : Z) : frame_plan :=
  Plan (truth (varargs_p info)) (pieces (save_p info) 0 8) (acc_pieces (save_p info)) locals (truth fp).
Lemma plan_of_ok info locals fp : laid_out info locals ->
  plan_ok (plan_of info locals fp) /\ frame_size (plan_of info locals fp) = total_size info.
Proof.
  intros [[H14 H15] Hlink Hl Hv Hg Ha Ht Hs]. pose proof (total_nonneg (pieces (save_p info) 0 8)).
  pose proof (total_nonneg (acc_pieces (save_p info))). split; [split; cbn [f_regs f_accs f_locals plan_of]|].
  - by apply pieces_ok.
  - apply acc_pieces_list.
  - destruct (truth (varargs_p info)); lia.
  - intros Hne. rewrite pieces_saves. exact (Hlink Hne).
  - unfold frame_size, arg_regs. cbn [f_varargs f_regs f_accs f_locals plan_of]. rewrite Ht, Hv, Hg, Ha.
    destruct (truth (varargs_p info)); cbn [total_of fold_right bytes_of]; lia.
Qed.

Section Text.
Context `{GasLaws}.
Lemma lower_text n : 0 <= n < 0x8000 ->
  Forall2 assembles (if 0 <? n then if n <=? 16 then [line2 "subi" sp_name (percent_d n)]
                                    else [line3 "add3" sp_name sp_name (percent_d (- n))] else []) (lower n).
Proof.
  intros Hn. unfold lower. destruct (Z.ltb_spec 0 n); [|constructor]. destruct (Z.leb_spec n 16).
  - constructor; [apply subi_line; lia|constructor].
  - constructor; [apply add3_line; lia|constructor].
Qed.
Lemma raise_text n : 0 <= n < 0x8000 ->
  Forall2 assembles (if 0 <? n then if n <=? 16 then [line2 "addi" sp_name (percent_d n)]
                                    else [line3 "add3" sp_name sp_name (percent_d n)] else []) (raise n).
Proof.
  intros Hn. unfold raise. destruct (Z.ltb_spec 0 n); [|constructor]. destruct (Z.leb_spec n 16).
  - constructor; [apply addi_line; lia|constructor].
  - constructor; [apply add3_line; lia|constructor].
Qed.
Lemma saves_text l : Forall saved_ok l -> Forall2 assembles (flat_map save_text l) (flat_map save_insns l).
Proof. apply all_text_ok, save_text_ok. Qed.
Lemma restores_text l : Forall saved_ok l -> Forall2 assembles (flat_map restore_text l) (flat_map restore_insns l).
Proof. apply all_text_ok, restore_text_ok. Qed.

Lemma entry_text info locals fp : laid_out info locals ->
  Forall2 assembles (prologue_lines info fp) (entry_insns (plan_of info locals fp)).
Proof.
  intros Hlo. destruct (plan_of_ok info locals fp Hlo) as [[[Hr _] Hac [Hl0 Hl] _] _]. destruct Hlo as [_ _ _ Hv Hg Ha Ht _].
  cbn [f_regs f_accs f_locals plan_of] in *. unfold prologue_lines, entry_insns, arg_regs. cbn [f_varargs f_regs f_accs f_locals f_frame plan_of].
  set (va := if truth (varargs_p info) then save_varargs 16 (ARG_LAST - 1) (total_size info) else _).
  assert (va = (flat_map save_text (if truth (varargs_p info) then [S_pair 2; S_pair 0] else []),
                total_size info - varargs_size info)) as ->.
  { unfold va. rewrite Hv. destruct (truth (varargs_p info)).
    - change (save_varargs 16 (ARG_LAST - 1) (total_size info)) with
        (save_text (S_pair 2) ++ save_text (S_pair 0), total_size info - 4 - 4). cbn [flat_map]. rewrite app_nil_r. f_equal. lia.
    - cbn [flat_map]. f_equal. lia. }
  pose proof (save_gprs_pieces (save_p info) 8 0 16 (total_size info - varargs_size info) eq_refl ltac:(lia)) as Es.
  change (2 * Z.of_nat 0) with GPR_FIRST in Es. rewrite Es, save_accs_pieces.
  replace (total_size info - varargs_size info - total_of (pieces (save_p info) 0 8) - total_of (acc_pieces (save_p info)))
    with locals by lia.
  apply Forall2_app; [apply saves_text; destruct (truth (varargs_p info)); repeat constructor; lia|].
  apply Forall2_app; [by apply saves_text|].
  apply Forall2_app; [apply saves_text; destruct Hac as [-> |[-> |[-> | ->]]]; repeat constructor; cbn [saved_ok]; lia|].
  apply Forall2_app; [by apply lower_text|].
  destruct (truth fp); [constructor; [apply mv_line|constructor]|constructor].
Qed.

Lemma exit_text info locals fp : laid_out info locals ->
  Forall2 assembles (epilogue_lines info fp) (exit_insns (plan_of info locals fp)).
Proof.
  intros Hlo. destruct (plan_of_ok info locals fp Hlo) as [[[Hr _] Hac [Hl0 Hl] _] _]. destruct Hlo as [_ _ _ Hv Hg Ha Ht Hs].
  pose proof (total_nonneg (pieces (save_p info) 0 8)) as Nr. pose proof (total_nonneg (acc_pieces (save_p info))) as Na.
  cbn [f_regs f_accs f_locals plan_of] in *. unfold epilogue_lines, exit_insns.
  set (p := plan_of info locals fp).
  assert (exists v, (if truth (varargs_size info) && negb (truth (gpr_size info))
    then (total_size info - varargs_size info + varargs_size info, 0)
    else (total_size info - varargs_size info, varargs_size info)) =
    (exit_locals p + gpr_size info + accum_size info, v) /\ exit_args p = v /\ (v = 0 \/ v = 8) /\ 0 <= exit_locals p < 0x8000)
    as (v & -> & Ev & Hv8 & Hx).
  { unfold exit_locals, exit_args, folded, arg_regs, p. cbn [f_varargs f_regs f_locals plan_of].
    destruct (pieces (save_p info) 0 8) as [|k l] eqn:Ep.
    - cbn [total_of fold_right] in Hg. rewrite Hg, Hv in *. change (negb (truth 0)) with true. rewrite andb_true_r.
      exists 0. destruct (truth (varargs_p info)); cbn [truth Z.eqb negb total_of fold_right bytes_of]; (split; [f_equal; lia|lia]).
    - assert (0 < gpr_size info) as Hpos by (rewrite Hg; cbn [total_of fold_right]; fold (total_of l); pose proof (total_nonneg l); destruct k; cbn [bytes_of]; lia).
      assert (negb (truth (gpr_size info)) = false) as -> by (unfold truth; by rewrite (proj2 (Z.eqb_neq _ _)) by lia).
      rewrite andb_false_r. exists (varargs_size info). rewrite Hv.
      destruct (truth (varargs_p info)); cbn [total_of fold_right bytes_of]; (split; [f_equal; lia|lia]). }
  cbn [f_frame f_regs f_accs]. rewrite Hg, Ha. change (f_frame p) with (truth fp). change (f_regs p) with (pieces (save_p info) 0 8).
  change (f_accs p) with (acc_pieces (save_p info)). rewrite Ev.
  rewrite restore_accs_pieces. pose proof (restore_gprs_pieces (save_p info) 8 16 ltac:(lia) ltac:(lia)) as Er.
  change (2 * Z.of_nat 8 - 1) with GPR_LAST in Er. rewrite Er.
  set (n := exit_locals p) in *. set (r := total_of (pieces (save_p info) 0 8)) in *. set (c := total_of (acc_pieces (save_p info))) in *.
  assert (Forall2 assembles (if truth v then [line2 "addi" sp_name (percent_d v)] else []) (raise v)) as Hargs.
  { destruct Hv8 as [-> | ->]; [constructor|]. constructor; [apply (addi_line 8); lia|constructor]. }
  assert (Forall2 assembles (flat_map restore_text (acc_pieces (save_p info)) ++
      flat_map restore_text (rev (pieces (save_p info) 0 8)) ++ (if truth v then [line2 "addi" sp_name (percent_d v)] else []) ++
      [line1 "jmp" (Gcc.reg_name RETURN_ADDRESS_REGNUM)])
    (flat_map restore_insns (acc_pieces (save_p info)) ++ flat_map restore_insns (rev (pieces (save_p info) 0 8)) ++ raise v ++ [(false, 0x4C1A)])) as Htail.
  { apply Forall2_app; [apply restores_text; destruct Hac as [-> |[-> |[-> | ->]]]; repeat constructor; cbn [saved_ok]; lia|].
    apply Forall2_app; [apply restores_text; by apply Forall_rev|].
    apply Forall2_app; [exact Hargs|constructor; [apply jmp_line|constructor]]. }
  destruct (truth fp).
  - destruct (Z.ltb_spec 0 (n + r + c)).
    + replace (n + r + c - r - c) with n by lia. rewrite Z.sub_diag. change (0 <? 0) with false. rewrite app_nil_l.
      apply Forall2_app; [|exact Htail]. constructor; [apply (add3_base_line "r11" 11); [by right|lia]|constructor].
    + replace (n + r + c - (r + c)) with n by lia. rewrite (proj2 (Z.ltb_ge 0 n)) by lia. rewrite app_nil_l.
      apply Forall2_app; [|exact Htail]. constructor; [apply mv_sp_line|constructor].
  - replace (n + r + c - (r + c)) with n by lia. rewrite app_nil_l. apply Forall2_app; [by apply raise_text|exact Htail].
Qed.
End Text.
