(* ===== verification/GccSpec.v ===== *)
(** * The compiler's frames

    The prologue that the compiler writes, through the assembler, is one that the debugger
    can follow and that the simulator executes as both expect. *)
From S2P Require Import Prelude CInt Opcodes State Memory Cregs Gdb Tdep GdbSpec.
From S2P Require Import SimopsAlu SimopsAcc SimopsFlow SimopsMem SimopsTrap Interp Logic OpRules.
From S2P Require Import Machine Decode MemProps Effects AluSpec AccSpec FlowSpec NumSpec MemSpec Cycle Step.
From S2P Require Import SimTarget Prologue Epilogue Saving Unwind Asm AsmSpec Gcc GccText EpilogueText.
From Stdlib Require Import Ascii DecimalString DecimalZ DecimalPos.
#[local] Open Scope gdb_scope.

(** ** Pushes *)

(** What is recorded is at or above the stack pointer. *)
Record stacked (cfa : Z) (p : prologue) : Prop := {
  sk_len : length (Tdep.regs p) = 37%nat;
  sk_next : 0 <= cfa + next_addr p /\ next_addr p <= 0;
  sk_frame : uses_frame p = 0;
  sk_above : forall m, 0 <= m < 15 -> reg m p <> 0 -> next_addr p <= s32 (reg m p) <= 0
}.
Lemma push_step cfa p n (two : bool) :
  0 <= cfa <= 0x8000 -> stacked cfa p -> 0 <= n < 15 -> (two = true -> n < 14) ->
  let bytes := if two then 4 else 2 in 0 < cfa + next_addr p - bytes ->
  let c := P_save (- bytes) n 0 two in
  step_ok cfa c p /\ stacked cfa (scan_pro c p) /\ next_addr (scan_pro c p) = next_addr p - bytes.
Proof.
  intros Hc [Hl Hnext Hf Ha] Hn Htwo bytes Hroom c. assert (2 <= bytes <= 4) as Hb by (destruct two; unfold bytes; lia).
  assert (forall m off, In (m, off) (save_slots c p) -> (m = n /\ off = next_addr p - bytes) \/
    (two = true /\ m = n + 1 /\ off = next_addr p - 2)) as Hslots.
  { intros m off Hin. unfold c, save_slots in Hin. unfold bytes. destruct two; cbn [In] in Hin.
    - destruct Hin as [[= <- <-]|[[= <- <-]|[]]]; [right|left]; lia.
    - destruct Hin as [[= <- <-]|[]]. left. lia. }
  assert (step_ok cfa c p) as Hok.
  { split; unfold c; cbn [pro_move]; [lia|lia|done| |].
    - intros m off [[-> ->]|(Ht & -> & ->)]%Hslots; [|specialize (Htwo Ht)]; (split; [lia|split; [done|lia]]).
    - intros m off k Hin Hk Hr _. destruct (Ha k Hk Hr). unfold disjoint_words. left.
      destruct (Hslots m off Hin) as [[_ ->]|(_ & _ & ->)]; lia. }
  assert (next_addr (scan_pro c p) = next_addr p - bytes) as En
    by (rewrite next_scan; unfold c; cbn [pro_move]; lia).
  split; [exact Hok|split; [|exact En]]. split; [by rewrite length_scan|rewrite En; lia|by rewrite frame_scan|].
  intros m Hm Hr. rewrite En. destruct (reg_scan cfa c p m) as [(off & Hin & E)|[_ E]];
    [done|exact Hok|unfold c; cbn [pro_move]; lia|unfold NUM_REGS; lia| |].
  - rewrite E. destruct (Hslots m off Hin) as [[_ ->]|(_ & _ & ->)]; rewrite s32_u32 by lia; lia.
  - rewrite E in *. destruct (Ha m Hm Hr). lia.
Qed.

(** Instructions that push [bytes] bytes of registers *)
Definition pushes (l : list (bool * Z)) (bytes : Z) : Prop :=
  0 <= bytes /\ Forall (fun i => 0 <= i.2 < 2 ^ 30) l /\
  forall cfa p, 0 <= cfa <= 0x8000 -> stacked cfa p -> 0 < cfa + next_addr p - bytes ->
    prologue_ok cfa l p /\
    exists p', scan_all l p = (true, p') /\ stacked cfa p' /\ next_addr p' = next_addr p - bytes.
Lemma pushes_nil : pushes [] 0.
Proof.
  split; [lia|split; [constructor|]]. intros cfa p _ Hp _. split; [done|]. exists p. split; [done|split; [done|lia]].
Qed.
Lemma pushes_cons i c n two l bytes :
  classify i = Some c -> c = P_save (- (if two : bool then 4 else 2)) n 0 two -> 0 <= i.2 < 2 ^ 30 ->
  0 <= n < 15 -> (two = true -> n < 14) -> pushes l bytes -> pushes (i :: l) ((if two then 4 else 2) + bytes).
Proof.
  intros Hi -> Hr Hn Htwo (Hb & Hl & Hp). split; [destruct two; lia|split; [by constructor|]].
  intros cfa p Hc Hs Hroom.
  destruct (push_step cfa p n two Hc Hs Hn Htwo) as (Hok & Hs' & En); [destruct two; lia|].
  destruct (Hp cfa _ Hc Hs') as (Hok' & p' & E & Hs2 & En2); [rewrite En; lia|]. split.
  - exists (P_save (- (if two then 4 else 2)) n 0 two). done.
  - exists p'. split; [|split; [exact Hs2|lia]]. cbn [scan_all]. by rewrite (scan_classified i _ p Hi Hr).
Qed.
Lemma pushes_app l1 b1 l2 b2 : pushes l1 b1 -> pushes l2 b2 -> pushes (l1 ++ l2) (b1 + b2).
Proof.
  intros (H1 & Hr1 & Hp1) (H2 & Hr2 & Hp2). split; [lia|split; [by apply Forall_app|]]. intros cfa p Hc Hs Hroom.
  destruct (Hp1 cfa p Hc Hs) as (Hok1 & p1 & E1 & Hs1 & En1); [lia|].
  destruct (Hp2 cfa p1 Hc Hs1) as (Hok2 & p2 & E2 & Hs2 & En2); [lia|]. split.
  - clear - Hok1 Hok2 E1 Hr1. revert p Hok1 E1. induction l1 as [|i l1 IH]; intros p Hok1 E1.
    + by injection E1 as ->.
    + destruct Hok1 as (c & Hi & Hstep & Hok1). apply List.Forall_cons_iff in Hr1 as [Hr Hr1].
      exists c. split; [done|split; [done|]]. apply IH; [done|done|].
      cbn [scan_all] in E1. by rewrite (scan_classified i c p Hi Hr) in E1.
  - exists p2. split; [|split; [exact Hs2|lia]]. by rewrite scan_app, E1.
Qed.

Section Text.
Context `{GasLaws}.

Lemma push_text r l out bytes : 0 <= r < 15 -> Forall2 assembles out l -> pushes l bytes ->
  exists l', Forall2 assembles (line2 "st" (reg_name r) ("@-" +:+ sp_name) :: out) l' /\ pushes l' (2 + bytes).
Proof.
  intros Hr Ho Hp. exists ((false, 0x6C1F + r * 2 ^ 5) :: l). split; [constructor; [by apply st_line|done]|].
  apply (pushes_cons _ (P_save (-2) r 0 false) r false); [by apply push_class|done|cbn [snd]; lia|done|done|done].
Qed.
Lemma push_pair_text r l out bytes : 0 <= r < 14 -> Z.land r 1 = 0 -> Forall2 assembles out l -> pushes l bytes ->
  exists l', Forall2 assembles (line2 "st2w" (reg_name r) ("@-" +:+ sp_name) :: out) l' /\ pushes l' (4 + bytes).
Proof.
  intros Hr He Ho Hp. exists ((false, 0x6E1F + r * 2 ^ 5) :: l). split; [constructor; [apply st2w_line; [lia|done]|done]|].
  apply (pushes_cons _ (P_save (-4) r 0 true) r true); [apply push_pair_class; [lia|done]|done|cbn [snd]; lia|lia|lia|done].
Qed.

(** The number of registers from [i] on that are saved *)
Fixpoint saved_from (n : nat) (save : list Z) (i : Z) : Z :=
  match n with O => 0 | S n' => Z.b2z (flag save i) + saved_from n' save (i + 1) end.
Lemma saved_from_nonneg n save : forall i, 0 <= saved_from n save i.
Proof. induction n as [|n IH]; intros i; [done|]. cbn [saved_from]. specialize (IH (i + 1)). destruct (flag save i); simpl; lia. Qed.

(** The loop over the general registers *)
Lemma save_gprs_text save : flag save 14 = false -> flag save 15 = false -> forall n i total,
  0 <= i -> 16 - i <= Z.of_nat n ->
  let '(out, total') := save_gprs n save i total in
  exists l, Forall2 assembles out l /\ pushes l (total - total') /\
    total - total' = 2 * saved_from (Z.to_nat (16 - i)) save i.
Proof.
  intros H14 H15. induction n as [|n IH]; intros i total Hi Hn.
  { cbn [save_gprs]. exists []. replace (Z.to_nat (16 - i)) with 0%nat by lia. rewrite Z.sub_diag.
    split; [constructor|split; [apply pushes_nil|done]]. }
  cbn [save_gprs]. unfold GPR_LAST, UNITS_PER_WORD. destruct (Z.leb_spec i 15) as [Hle|Hgt].
  2: { exists []. replace (Z.to_nat (16 - i)) with 0%nat by lia. rewrite Z.sub_diag.
       split; [constructor|split; [apply pushes_nil|done]]. }
  assert (Z.to_nat (16 - i) = S (Z.to_nat (16 - (i + 1)))) as E1 by lia.
  destruct (flag save i) eqn:Ef.
  2: { specialize (IH (i + 1) total ltac:(lia) ltac:(lia)). destruct (save_gprs n save (i + 1) total) as [out total'].
       rewrite E1. cbn [saved_from]. rewrite Ef. exact IH. }
  assert (i < 14) as Hi14 by (destruct (decide (i = 14)) as [->|]; [congruence|]; destruct (decide (i = 15)) as [->|]; [congruence|lia]).
  destruct (GPR_EVEN_P i && flag save (i + 1)) eqn:Ep.
  - apply andb_prop in Ep as [[_ He%Z.eqb_eq]%andb_prop Ef1]. unfold GPR_FIRST in He. rewrite Z.sub_0_r in He.
    specialize (IH (i + 1 + 1) (total - 2 * 2) ltac:(lia) ltac:(lia)).
    destruct (save_gprs n save (i + 1 + 1) (total - 2 * 2)) as [out total']. destruct IH as (l & Ho & Hp & Et).
    destruct (push_pair_text i l out _ ltac:(lia) He Ho Hp) as (l' & Ho' & Hp'). exists l'.
    assert (total - total' = 4 + (total - 2 * 2 - total')) as Ed by lia.
    split; [exact Ho'|split; [by rewrite Ed|]]. rewrite Ed, Et, E1.
    replace (Z.to_nat (16 - (i + 1))) with (S (Z.to_nat (16 - (i + 1 + 1)))) by lia.
    cbn [saved_from]. rewrite Ef, Ef1. simpl Z.b2z. lia.
  - specialize (IH (i + 1) (total - 2) ltac:(lia) ltac:(lia)).
    destruct (save_gprs n save (i + 1) (total - 2)) as [out total']. destruct IH as (l & Ho & Hp & Et).
    destruct (push_text i l out _ ltac:(lia) Ho Hp) as (l' & Ho' & Hp'). exists l'.
    assert (total - total' = 2 + (total - 2 - total')) as Ed by lia.
    split; [exact Ho'|split; [by rewrite Ed|]]. rewrite Ed, Et, E1. cbn [saved_from]. rewrite Ef. simpl Z.b2z. lia.
Qed.

(** The variable arguments *)
Lemma save_varargs_text total : let '(out, total') := save_varargs 16 (ARG_LAST - 1) total in
  exists l, Forall2 assembles out l /\ pushes l 8 /\ total - total' = 8.
Proof.
  change (save_varargs 16 (ARG_LAST - 1) total) with
    ([line2 "st2w" (reg_name 2) ("@-" +:+ sp_name); line2 "st2w" (reg_name 0) ("@-" +:+ sp_name)], total - 4 - 4).
  destruct (push_pair_text 0 [] [] 0) as (l1 & Ho1 & Hp1); [lia|done|constructor|apply pushes_nil|].
  destruct (push_pair_text 2 l1 _ _ ltac:(lia) eq_refl Ho1 Hp1) as (l & Ho & Hp).
  exists l. split; [exact Ho|split; [exact Hp|lia]].
Qed.
End Text.

(** ** The whole prologue *)

Lemma prologue_ok_app cfa l1 : forall l2 p p1, Forall (fun i => 0 <= i.2 < 2 ^ 30) l1 ->
  prologue_ok cfa l1 p -> scan_all l1 p = (true, p1) -> prologue_ok cfa l2 p1 -> prologue_ok cfa (l1 ++ l2) p.
Proof.
  induction l1 as [|i l1 IH]; intros l2 p p1 Hr Hok E Hok2; [by injection E as ->|].
  destruct Hok as (c & Hi & Hstep & Hok). apply List.Forall_cons_iff in Hr as [Hr Hr1].
  exists c. split; [done|split; [done|]]. apply (IH l2 _ p1 Hr1 Hok); [|done].
  cbn [scan_all] in E. by rewrite (scan_classified i c p Hi Hr) in E.
Qed.
(** What a piece of a prologue does: it moves the stack pointer by [bytes], and sets the
    frame pointer or not. *)
Definition piece (l : list (bool * Z)) (bytes : Z) (frame : bool) : Prop :=
  Forall (fun i => 0 <= i.2 < 2 ^ 30) l /\
  forall cfa p, 0 <= cfa <= 0x8000 -> stacked cfa p -> 0 < cfa + next_addr p - bytes ->
    prologue_ok cfa l p /\
    exists p', scan_all l p = (true, p') /\ (frame = false -> stacked cfa p') /\ next_addr p' = next_addr p - bytes /\
      uses_frame p' = Z.b2z frame.
Lemma piece_app l1 b1 l2 b2 f : 0 <= b2 -> piece l1 b1 false -> piece l2 b2 f -> piece (l1 ++ l2) (b1 + b2) f.
Proof.
  intros H2 (Hr1 & Hp1) (Hr2 & Hp2). split; [by apply Forall_app|]. intros cfa p Hc Hs Hroom.
  destruct (Hp1 cfa p Hc Hs) as (Hok1 & p1 & E1 & Hs1 & En1 & _); [lia|].
  destruct (Hp2 cfa p1 Hc (Hs1 eq_refl)) as (Hok2 & p2 & E2 & Hs2 & En2 & Ef2); [lia|]. split.
  - by eapply prologue_ok_app.
  - exists p2. split; [by rewrite scan_app, E1|]. split; [done|split; [lia|done]].
Qed.
Lemma pushes_piece l bytes : pushes l bytes -> piece l bytes false.
Proof.
  intros (Hb & Hr & Hp). split; [exact Hr|]. intros cfa p Hc Hs Hroom.
  destruct (Hp cfa p Hc Hs Hroom) as (Hok & p' & E & Hs' & En). split; [exact Hok|].
  exists p'. split; [done|split; [done|split; [done|]]]. apply Hs'.
Qed.
Lemma adjust_piece i n : classify i = Some (P_adjust (- n)) -> 0 <= i.2 < 2 ^ 30 -> 0 <= n -> piece [i] n false.
Proof.
  intros Hi Hr Hn. split; [constructor; [exact Hr|constructor]|]. intros cfa p Hc [Hl Hnext Hf Ha] Hroom.
  assert (next_addr (scan_pro (P_adjust (- n)) p) = next_addr p - n) as En
    by (rewrite next_scan; cbn [pro_move]; lia).
  split.
  - exists (P_adjust (- n)). split; [done|split; [|done]]. split; cbn [pro_move save_slots]; [lia|lia|done|done|done].
  - eexists. split; [cbn [scan_all]; by rewrite (scan_classified i _ p Hi Hr)|]. split; [|split; [exact En|done]].
    intros _. split; [done|rewrite En; lia|done|]. intros m Hm Hrm. rewrite En.
    change (next_addr p - n <= s32 (reg m p) <= 0). destruct (Ha m Hm Hrm). lia.
Qed.
Lemma frame_piece i : classify i = Some P_frame -> 0 <= i.2 < 2 ^ 30 -> piece [i] 0 true.
Proof.
  intros Hi Hr. split; [constructor; [exact Hr|constructor]|]. intros cfa p Hc [Hl Hnext Hf Ha] Hroom. split.
  - exists P_frame. split; [done|split; [|done]]. split; cbn [pro_move save_slots]; [lia|lia|done|done|done].
  - eexists. split; [cbn [scan_all]; by rewrite (scan_classified i _ p Hi Hr)|].
    split; [done|]. split; [|done]. cbn [scan_pro next_addr]. lia.
Qed.
Lemma piece_nil : piece [] 0 false.
Proof. apply pushes_piece, pushes_nil. Qed.

(** A frame without saved accumulators, whose size is that of its parts *)
Record frame_ok (info : d10v_stack_t) (locals : Z) : Prop := {
  fo_sp : flag (save_p info) 14 = false /\ flag (save_p info) 15 = false;
  fo_accs : flag (save_p info) ACCUM_FIRST = false /\ flag (save_p info) ACCUM_LAST = false;
  fo_locals : 0 <= locals;
  fo_total : total_size info =
    (if truth (varargs_p info) then 8 else 0) + 2 * saved_from 16 (save_p info) 0 + locals;
  fo_small : total_size info < 0x8000
}.

Section Text2.
Context `{GasLaws}.

Lemma locals_text n : 0 <= n < 0x8000 ->
  exists l, Forall2 assembles
    (if 0 <? n then if n <=? 16 then [line2 "subi" sp_name (percent_d n)]
                    else [line3 "add3" sp_name sp_name (percent_d (- n))] else []) l /\ piece l n false.
Proof.
  intros Hn. destruct (Z.ltb_spec 0 n) as [Hpos|]; [|assert (n = 0) as -> by lia; exists []; split; [constructor|apply piece_nil]].
  destruct (Z.leb_spec n 16).
  - eexists [_]. split; [constructor; [by apply subi_line; lia|constructor]|].
    apply adjust_piece; [apply subi_class; lia|cbn [snd]; zdml|lia].
  - eexists [_]. split; [constructor; [by apply add3_line; lia|constructor]|].
    apply adjust_piece; [apply add3_class; lia|cbn [snd]; zdml|lia].
Qed.

(** The text of a prologue: the debugger can follow it to the end, where the stack pointer
    has moved by the size of the frame. *)
Lemma prologue_text info locals fp : frame_ok info locals ->
  exists l, Forall2 assembles (prologue_lines info fp) l /\ piece l (total_size info) (truth fp).
Proof.
  intros [[H14 H15] [Ha0 Ha1] Hloc Ht Hsmall]. unfold prologue_lines.
  pose proof (saved_from_nonneg 16 (save_p info) 0) as Hsaved.
  assert (let '(out, total) := if truth (varargs_p info) then save_varargs 16 (ARG_LAST - 1) (total_size info)
                               else ([], total_size info) in
    exists l, Forall2 assembles out l /\ pushes l (if truth (varargs_p info) then 8 else 0) /\
      total_size info - total = (if truth (varargs_p info) then 8 else 0)) as Hv.
  { destruct (truth (varargs_p info)); [apply save_varargs_text|].
    exists []. split; [constructor|split; [apply pushes_nil|lia]]. }
  set (v := if truth (varargs_p info) then save_varargs 16 (ARG_LAST - 1) (total_size info) else ([], total_size info)) in *.
  destruct v as [out1 total1]. destruct Hv as (l1 & Ho1 & Hp1 & E1).
  pose proof (save_gprs_text (save_p info) H14 H15 16 GPR_FIRST total1 ltac:(unfold GPR_FIRST; lia) ltac:(unfold GPR_FIRST; lia)) as Hg.
  destruct (save_gprs 16 (save_p info) GPR_FIRST total1) as [out2 total2]. destruct Hg as (l2 & Ho2 & Hp2 & E2).
  change (Z.to_nat (16 - GPR_FIRST)) with 16%nat in E2. change GPR_FIRST with 0 in E2.
  assert (save_accs (registers_from ACCUM_FIRST ACCUM_LAST) (save_p info) total2 = ([], total2)) as ->.
  { change (registers_from ACCUM_FIRST ACCUM_LAST) with [ACCUM_FIRST; ACCUM_LAST]. cbn [save_accs]. by rewrite Ha0, Ha1. }
  assert (total2 = locals) as -> by (destruct (truth (varargs_p info)); lia).
  destruct (locals_text locals) as (l4 & Ho4 & Hp4); [destruct (truth (varargs_p info)); lia|].
  assert (exists l5, Forall2 assembles (if truth fp then [line2 "mv" (reg_name FRAME_POINTER_REGNUM) sp_name] else []) l5 /\
    piece l5 0 (truth fp)) as (l5 & Ho5 & Hp5).
  { destruct (truth fp); [|exists []; split; [constructor|apply piece_nil]].
    eexists [_]. split; [constructor; [apply mv_line|constructor]|]. apply frame_piece; [reflexivity|cbn [snd]; lia]. }
  exists (l1 ++ l2 ++ l4 ++ l5). split.
  - rewrite app_nil_l. repeat (apply Forall2_app; [assumption|]). exact Ho5.
  - replace (total_size info) with ((total_size info - total1) + ((total1 - locals) + (locals + 0))) by lia.
    rewrite E1. apply pushes_piece in Hp1, Hp2.
    repeat (apply piece_app; [lia|assumption|]). exact Hp5.
Qed.
End Text2.

(** ** [d10v_stack_info] *)

Lemma align_2 x : D10V_ALIGN x 2 = 2 * ((x + 1) / 2).
Proof.
  unfold D10V_ALIGN. replace (x + 2 - 1) with (x + 1) by lia. change (2 - 1) with (Z.ones 1).
  rewrite <- Z.ldiff_land, Z.ldiff_ones_r, Z.shiftr_div_pow2, Z.shiftl_mul_pow2 by lia.
  change (2 ^ 1) with 2. apply Z.mul_comm.
Qed.
Lemma align_even x : 0 <= x -> exists k, D10V_ALIGN x 2 = 2 * k /\ 0 <= k.
Proof. intros Hx. rewrite align_2. exists ((x + 1) / 2). split; [done|zdml]. Qed.
Lemma align_same k : D10V_ALIGN (2 * k) 2 = 2 * k.
Proof. rewrite align_2. zdml. Qed.

Definition count_of (wanted : Z -> bool) (l : list Z) : Z := fold_right (fun i n => Z.b2z (wanted i) + n) 0 l.
Lemma flag_mark save i j : 0 <= i -> 0 <= j < Z.of_nat (length save) -> flag (mark save j) i = (i =? j) || flag save i.
Proof.
  intros Hi Hj. unfold flag, mark. rewrite !nth_lookup. destruct (Z.eqb_spec i j) as [->|Hne].
  - by rewrite list_lookup_insert_eq by lia.
  - by rewrite list_lookup_insert_ne by lia.
Qed.
Lemma save_registers_eq wanted l : forall save count, Forall (fun i => 0 <= i < Z.of_nat (length save)) l ->
  let '(save', count') := save_registers wanted l save count in
  count' = count + count_of wanted l /\ length save' = length save /\
  forall i, 0 <= i -> flag save' i = (existsb (Z.eqb i) l && wanted i) || flag save i.
Proof.
  induction l as [|j l IH]; intros save count Hl; cbn [save_registers].
  { split; [simpl; lia|done]. }
  apply List.Forall_cons_iff in Hl as [Hj Hl]. cbn [count_of fold_right existsb]. destruct (wanted j) eqn:Ew.
  - specialize (IH (mark save j) (count + 1)). unfold mark at 1 in IH. rewrite length_insert in IH. specialize (IH Hl).
    destruct (save_registers wanted l (mark save j) (count + 1)) as [save' count'].
    destruct IH as (E & Hlen & Hf). unfold mark in Hlen. rewrite length_insert in Hlen.
    split; [unfold count_of in E; simpl; lia|split; [done|]]. intros i Hi. rewrite Hf, flag_mark by done.
    destruct (Z.eqb_spec i j) as [->|]; simpl; [by rewrite Ew, orb_true_r|done].
  - specialize (IH save count Hl). destruct (save_registers wanted l save count) as [save' count'].
    destruct IH as (E & Hlen & Hf). split; [unfold count_of in E; simpl; lia|split; [done|]].
    intros i Hi. rewrite Hf by done. destruct (Z.eqb_spec i j) as [->|]; simpl; [by rewrite Ew, andb_false_r|done].
Qed.

(** A function that is compiled for the D10V, after the registers have been allocated *)
Record compiled (ta : Z) (c : compiling) : Prop := {
  cd_cache : d10v_stack_cache c = None;
  cd_used : call_used_regs c = CONDITIONAL_REGISTER_USAGE ta CALL_USED_REGISTERS;
  cd_live : length (regs_ever_live c) = Z.to_nat FIRST_PSEUDO_REGISTER;
  cd_sizes : 0 <= get_frame_size c /\ 0 <= current_function_outgoing_args_size c
}.
(** One whose accumulators are not to be saved *)
Record compiles (ta : Z) (c : compiling) : Prop := {
  cp_compiled : compiled ta c;
  cp_accs : ta = 0 \/ (flag (regs_ever_live c) ACCUM_FIRST = false /\ flag (regs_ever_live c) ACCUM_LAST = false)
}.
(** The registers that a function may use without saving them *)
Lemma call_used ta i : 0 <= i < 38 ->
  flag (CONDITIONAL_REGISTER_USAGE ta CALL_USED_REGISTERS) i =
    negb (((6 <=? i) && (i <=? 11)) || (truth ta && ((i =? ACCUM_FIRST) || (i =? ACCUM_LAST)))).
Proof.
  intros Hi. assert (forallb (fun t => forallb (fun i => Bool.eqb (flag (CONDITIONAL_REGISTER_USAGE t CALL_USED_REGISTERS) i)
    (negb (((6 <=? i) && (i <=? 11)) || (truth t && ((i =? ACCUM_FIRST) || (i =? ACCUM_LAST))))))
    (registers_from 0 37)) [0; 1] = true) as Ha by (vm_compute; reflexivity).
  assert (forall t, In t [0; 1] -> flag (CONDITIONAL_REGISTER_USAGE t CALL_USED_REGISTERS) i =
    negb (((6 <=? i) && (i <=? 11)) || (truth t && ((i =? ACCUM_FIRST) || (i =? ACCUM_LAST))))) as Hb.
  { intros t Ht. rewrite forallb_forall in Ha. specialize (Ha t Ht). rewrite forallb_forall in Ha.
    apply Bool.eqb_prop, Ha, in_map_iff. exists (Z.to_nat i). split; [lia|]. apply in_seq. change (Z.to_nat (37 - 0 + 1)) with 38%nat. lia. }
  destruct (truth ta) eqn:Et.
  - specialize (Hb 1 ltac:(right; by left)). unfold CONDITIONAL_REGISTER_USAGE in *. by rewrite Et.
  - specialize (Hb 0 ltac:(by left)). unfold CONDITIONAL_REGISTER_USAGE in *. by rewrite Et.
Qed.
Lemma flag_mark_other save i j : 0 <= i -> 0 <= j -> i <> j -> flag (mark save j) i = flag save i.
Proof. intros Hi Hj Hne. unfold flag, mark. rewrite !nth_lookup. by rewrite list_lookup_insert_ne by lia. Qed.

(** The registers that [d10v_stack_info] takes to be live *)
Definition live_accs (ta : Z) (c : compiling) : bool :=
  truth ta && (flag (regs_ever_live c) ACCUM_FIRST || flag (regs_ever_live c) ACCUM_LAST).
(** The frame of a compiled function: its sizes are those of its parts; the registers r6 to
    r11 are saved if they are live, the accumulators only if they are not to be used freely,
    and the return address at least if it is live or accumulators are saved. *)
Record stack_described (ta : Z) (c : compiling) (info : d10v_stack_t) : Prop := {
  sd_layout : laid_out info (vars_size info + parm_size info);
  sd_gprs : forall n, 6 <= n <= 11 -> flag (save_p info) n = flag (regs_ever_live c) n;
  sd_free : forall n, 0 <= n < 6 \/ n = 12 -> flag (save_p info) n = false;
  sd_link : flag (save_p info) 13 = false -> flag (regs_ever_live c) 13 = false;
  sd_accs : forall i, i = ACCUM_FIRST \/ i = ACCUM_LAST -> flag (save_p info) i = truth ta && flag (regs_ever_live c) i
}.
Lemma total_pieces save : forall k a, total_of (pieces save a k) = 2 * saved_from (2 * k) save (2 * Z.of_nat a).
Proof.
  induction k as [|k IH]; intros a; [done|]. unfold pieces. cbn [seq flat_map]. fold (pieces save (S a) k).
  rewrite total_app, IH. replace (2 * S k)%nat with (S (S (2 * k))) by lia. cbn [saved_from].
  replace (2 * Z.of_nat a + 1 + 1) with (2 * Z.of_nat (S a)) by lia. unfold pair_pieces.
  destruct (flag save (2 * Z.of_nat a)), (flag save (2 * Z.of_nat a + 1)); cbn [total_of fold_right bytes_of Z.b2z]; lia.
Qed.
Lemma listed first last i : 0 <= first <= i -> i <= last -> existsb (Z.eqb i) (registers_from first last) = true.
Proof.
  intros Hf Hl. apply existsb_exists. exists i. split; [|lia]. apply in_map_iff. exists (Z.to_nat (i - first)).
  split; [lia|]. apply in_seq. lia.
Qed.
Lemma not_listed first last i : i < first \/ last < i -> existsb (Z.eqb i) (registers_from first last) = false.
Proof.
  intros Hi. apply not_true_is_false. intros (j & (k & <- & Hk%in_seq)%in_map_iff & Hj)%existsb_exists. lia.
Qed.
Lemma saves_zero i : 0 <= i -> flag (save_p zero_info) i = false.
Proof. intros Hi. unfold flag, zero_info. cbn [save_p]. by rewrite nth_repeat. Qed.
(** The flags that the two loops leave *)
Lemma fill_accs wanted : let '(save, n) := save_registers wanted (registers_from ACCUM_FIRST ACCUM_LAST) (save_p zero_info) 0 in
  n = Z.b2z (wanted ACCUM_FIRST) + Z.b2z (wanted ACCUM_LAST) /\ length save = 38%nat /\
  (forall i, 0 <= i < 16 -> flag save i = false) /\
  (forall i, i = ACCUM_FIRST \/ i = ACCUM_LAST -> flag save i = wanted i).
Proof.
  pose proof (save_registers_eq wanted (registers_from ACCUM_FIRST ACCUM_LAST) (save_p zero_info) 0) as Ha.
  destruct (save_registers wanted (registers_from ACCUM_FIRST ACCUM_LAST) (save_p zero_info) 0) as [save n].
  destruct Ha as (En & Hlen & Hf).
  { change (registers_from ACCUM_FIRST ACCUM_LAST) with [32; 33]. change (Z.of_nat (length (save_p zero_info))) with 38.
    repeat (constructor; [lia|]). constructor. }
  split; [rewrite En; change (registers_from ACCUM_FIRST ACCUM_LAST) with [ACCUM_FIRST; ACCUM_LAST]; cbn [count_of fold_right]; lia|split; [exact Hlen|split]]; intros i Hi; unfold ACCUM_FIRST, ACCUM_LAST in *; rewrite Hf, saves_zero by lia.
  - by rewrite not_listed by lia.
  - by rewrite listed, orb_false_r by lia.
Qed.
Lemma fill_gprs wanted save : length save = 38%nat -> (forall i, 0 <= i < 16 -> flag save i = false) ->
  let '(save', n) := save_registers wanted (registers_from GPR_FIRST GPR_LAST) save 0 in
  n = saved_from 16 save' 0 /\ (forall i, 0 <= i < 16 -> flag save' i = wanted i) /\
  (forall i, 16 <= i -> flag save' i = flag save i).
Proof.
  intros Hlen H0. pose proof (save_registers_eq wanted (registers_from GPR_FIRST GPR_LAST) save 0) as Hg.
  destruct (save_registers wanted (registers_from GPR_FIRST GPR_LAST) save 0) as [save' n].
  destruct Hg as (En & _ & Hf).
  { rewrite Hlen. apply List.Forall_forall. intros i (k & <- & Hk%in_seq)%in_map_iff. vm_compute in Hk. unfold GPR_FIRST. lia. }
  assert (forall i, 0 <= i < 16 -> flag save' i = wanted i) as Hw.
  { intros i Hi. rewrite Hf, listed, H0, orb_false_r by (unfold GPR_FIRST, GPR_LAST in *; lia). done. }
  split; [|split; [exact Hw|]].
  - rewrite En, Z.add_0_l. change (registers_from GPR_FIRST GPR_LAST) with [0;1;2;3;4;5;6;7;8;9;10;11;12;13;14;15].
    cbn [saved_from count_of fold_right Z.add Pos.add Pos.succ Pos.add_carry]. by rewrite !Hw by lia.
  - intros i Hi. by rewrite Hf, not_listed by (unfold GPR_FIRST, GPR_LAST in *; lia).
Qed.

Lemma stack_info_described ta c : compiled ta c -> total_size (d10v_stack_info c).1 < 0x8000 ->
  let '(info, c') := d10v_stack_info c in
  stack_described ta c info /\ frame_pointer_needed c' = frame_pointer_needed c /\ last_insn c' = last_insn c /\
  last_nonnote_insn c' = last_nonnote_insn c /\ (reload_completed c <> 0 -> d10v_stack_cache c' = Some info).
Proof.
  intros [Hcache Hu Hlen0 [Hfs Hos]]. unfold d10v_stack_info. rewrite Hcache. cbv zeta.
  set (live := if truth (profile_flag c) then _ else _).
  assert (forall j, 0 <= j -> j <> 13 -> flag live j = flag (regs_ever_live c) j) as Hlive.
  { intros j Hj Hne. unfold live. destruct (truth _); [|done]. apply flag_mark_other; unfold RETURN_ADDRESS_REGNUM, GPR_FIRST; lia. }
  assert (length live = 38%nat) as Hlenl by (unfold live, mark; destruct (truth _); by rewrite ?length_insert).
  pose proof (fill_accs (fun i => flag live i && negb (flag (call_used_regs c) i))) as Ha.
  destruct (save_registers _ (registers_from ACCUM_FIRST ACCUM_LAST) _ 0) as [save0 na]. destruct Ha as (Ena & Hlen & H0 & Hsa).
  set (live2 := if truth na then _ else live).
  assert (forall j, 0 <= j -> j <> 5 -> j <> 12 -> j <> 13 -> flag live2 j = flag (regs_ever_live c) j) as Hlive2.
  { intros j Hj H5 H12 H13. rewrite <- Hlive by done. unfold live2. destruct (truth na); [|done].
    unfold SAVE_GUARD_REGNUM, SAVE_ACC_REGNUM, GPR_FIRST. by rewrite !flag_mark_other by lia. }
  pose proof (fill_gprs (fun i => flag live2 i && (negb (flag (call_used_regs c) i) || (i =? RETURN_ADDRESS_REGNUM))) save0 Hlen H0) as Hg.
  destruct (save_registers _ (registers_from GPR_FIRST GPR_LAST) save0 0) as [save ng]. destruct Hg as (Eng & Hw & Hk).
  assert (forall i, 0 <= i < 38 -> flag (call_used_regs c) i =
    negb (((6 <=? i) && (i <=? 11)) || (truth ta && ((i =? ACCUM_FIRST) || (i =? ACCUM_LAST))))) as Hused
    by (intros i Hi; rewrite Hu; by apply call_used).
  assert (0 <= ng) as Hng by (rewrite Eng; apply saved_from_nonneg).
  assert (forall i, i = ACCUM_FIRST \/ i = ACCUM_LAST -> flag save i = truth ta && flag (regs_ever_live c) i) as Hacc.
  { intros i Hi. rewrite Hk, Hsa, Hlive, Hused by (unfold ACCUM_FIRST, ACCUM_LAST in *; lia).
    destruct Hi as [-> | ->]; cbn; destruct (truth ta), (flag (regs_ever_live c) _); done. }
  assert (6 * na = total_of (acc_pieces save)) as Hna.
  { rewrite Ena. unfold acc_pieces. rewrite !Hk, !Hsa by (unfold ACCUM_FIRST, ACCUM_LAST; lia || auto).
    destruct (_ && _), (_ && _); reflexivity. }
  cbn [fst snd vars_size parm_size save_p total_size].
  set (vargs := D10V_ALIGN (if is_varargs c then _ else _) UNITS_PER_WORD).
  assert (vargs = if is_varargs c then 8 else 0) as -> by (unfold vargs; by destruct (is_varargs c)).
  change UNITS_PER_WORD with 2. change (STACK_BOUNDARY / BITS_PER_UNIT) with 2.
  rewrite (align_same ng). replace (3 * 2 * na) with (2 * (3 * na)) by lia. rewrite (align_same (3 * na)).
  destruct (align_even _ Hfs) as (kv & -> & Hv0). destruct (align_even _ Hos) as (kp & -> & Hp0).
  replace (2 * ng + 2 * (3 * na) + 2 * kv + 2 * kp + (if is_varargs c then 8 else 0))
    with (2 * (ng + 3 * na + kv + kp + (if is_varargs c then 4 else 0))) by (destruct (is_varargs c); lia).
  rewrite align_same. intros Hsmall. split.
  2: { change (reload_completed (set_live live2 c)) with (reload_completed c). unfold truth.
       by destruct (Z.eqb_spec (reload_completed c) 0). }
  assert (forall i, 0 <= i < 16 -> i <> 13 -> ((6 <=? i) && (i <=? 11)) = false -> flag save i = false) as Hfree.
  { intros i Hi Hne Hr. rewrite Hw, Hused, Hr by lia. change ACCUM_FIRST with 32. change ACCUM_LAST with 33. change RETURN_ADDRESS_REGNUM with 13.
    rewrite (proj2 (Z.eqb_neq i 32)), (proj2 (Z.eqb_neq i 33)), (proj2 (Z.eqb_neq i 13)) by lia. cbn [orb]. rewrite andb_false_r. by rewrite andb_false_r. }
  split; cbn [save_p vars_size parm_size]; [split; cbn [save_p varargs_p varargs_size gpr_size accum_size total_size]| | | |exact Hacc].
  - by rewrite !Hfree.
  - intros Hne. change RETURN_ADDRESS_REGNUM with 13. rewrite Hw by lia. assert (truth na = true) as Ht.
    { unfold truth. apply negb_true_iff, Z.eqb_neq. intros ->. apply Hne. destruct (acc_pieces save) as [|k l] eqn:E; [done|].
      cbn [total_of fold_right] in Hna. fold (total_of l) in Hna. pose proof (total_nonneg l). destruct k; cbn [bytes_of] in Hna; lia. }
    unfold live2. rewrite Ht, flag_mark by (unfold mark; rewrite ?length_insert, ?Hlenl; vm_compute; first [discriminate | split; [discriminate|reflexivity]]). change (13 =? SAVE_ACC_REGNUM + 1) with true.
    change (13 =? RETURN_ADDRESS_REGNUM) with true. by rewrite orb_true_r.
  - lia.
  - by destruct (is_varargs c).
  - by rewrite Eng, total_pieces.
  - lia.
  - destruct (is_varargs c); lia.
  - exact Hsmall.
  - intros n Hn. rewrite Hw, Hused, Hlive2 by lia. rewrite (proj2 (Z.leb_le 6 n)), (proj2 (Z.leb_le n 11)) by lia. cbn. by rewrite andb_true_r.
  - intros n Hn. apply Hfree; [lia..|]. destruct Hn as [Hn | ->]; [|done].
    by rewrite (proj2 (Z.leb_gt 6 n)) by lia.
  - intros H13. rewrite Hw in H13 by lia. change (13 =? RETURN_ADDRESS_REGNUM) with true in H13. rewrite orb_true_r, andb_true_r in H13.
    destruct (flag (regs_ever_live c) 13) eqn:E; [|done]. rewrite <- H13. symmetry.
    assert (flag live 13 = true) as El by (unfold live; destruct (truth _); [rewrite flag_mark by (rewrite ?Hlen0; vm_compute; first [discriminate | split; [discriminate|reflexivity]]); by rewrite E, orb_true_r|done]).
    unfold live2. destruct (truth na); [|done].
    rewrite !flag_mark by (unfold mark; rewrite ?length_insert, ?Hlenl; vm_compute; first [discriminate | split; [discriminate|reflexivity]]). by rewrite El, !orb_true_r.
Qed.
Lemma stack_info_ok ta c : compiles ta c -> total_size (d10v_stack_info c).1 < 0x8000 ->
  let info := (d10v_stack_info c).1 in
  frame_ok info (vars_size info + parm_size info) /\ frame_pointer_needed (d10v_stack_info c).2 = frame_pointer_needed c.
Proof.
  intros [Hc Hnone] Hsmall. pose proof (stack_info_described ta c Hc Hsmall) as Hd.
  destruct (d10v_stack_info c) as [info c']. cbn [fst snd]. destruct Hd as ([[Hsp _ Hl Hv Hg Ha Ht Hs] _ _ _ Hacc] & Hfp & _).
  split; [|exact Hfp].
  assert (flag (save_p info) ACCUM_FIRST = false /\ flag (save_p info) ACCUM_LAST = false) as [H0 H1].
  { rewrite !Hacc by auto. destruct Hnone as [->|[-> ->]]; [done|by rewrite !andb_false_r]. }
  split; [exact Hsp|done|exact Hl| |exact Hs]. rewrite Ht, Hv, Hg, Ha, (total_pieces _ 8 0). unfold acc_pieces. rewrite H0, H1.
  change (Z.of_nat 0) with 0. cbn [app total_of fold_right]. change (2 * 8)%nat with 16%nat. change (2 * 0) with 0. lia.
Qed.

(** ** From the compiler to the debugger *)

Section Composition.
Context `{Host} (Hcalloc : forall s seg, host_calloc s seg = true) `{GasLaws}.

Lemma stacked_start cfa : 0 <= cfa -> stacked cfa scan_start.
Proof.
  intros Hc. split; [done|cbn [next_addr scan_start]; lia|done|]. intros m _ Hr. exfalso. apply Hr, nth_repeat.
Qed.

End Composition.

(** ** A witness *)

(** A target-independent assembler that reads decimal numbers *)
Definition decimal_gas : Gas := {|
  expression := fun text => match NilZero.int_of_string text with
                            | Some d => (Expr None None (Z.of_int d) O_constant true, EmptyString)
                            | None => (zero_expr, text)
                            end;
  symbol_find_or_make := Symbol;
  S_IS_DEFINED := fun _ => false;
  S_GET_SEGMENT := fun _ => 0;
  S_GET_VALUE := fun _ => 0;
  sy_value := fun _ => zero_expr;
  here := fun _ => 0;
  is_end_of_line := fun c => Ascii.eqb c NL;
  emit_expr := fun _ _ => aret tt;
  demand_empty_rest_of_line := fun text => aret text;
  atof_ieee := fun text _ => (Some text, [])
|}.
#[export] Instance decimal_gas_laws : @GasLaws decimal_gas.
Proof.
  split.
  - intros n _. exists true. cbn [expression decimal_gas]. unfold percent_d.
    rewrite NilZero.isi; [by rewrite DecimalZ.of_to|..].
    all: intros E; pose proof (DecimalZ.of_to n) as En; rewrite E in En; cbn in En; subst n; discriminate E.
  - intros c Hc. cbn [is_end_of_line decimal_gas]. apply Ascii.eqb_neq. intros ->. vm_compute in Hc. lia.
Qed.

(** A function that calls another one, with a variable in r6 and 20 bytes of locals *)
Definition small_function : compiling :=
  Compiling 0 1 1 (<[13%nat := 1]> (<[11%nat := 1]> (<[6%nat := 1]> (repeat 0 38)))) CALL_USED_REGISTERS
    (Some false) [] 20 0 (Some OTHER_INSN) (Some OTHER_INSN) None.
