(* ===== verification/Returns.v ===== *)
(** * Compiled functions return

    The prologue and the epilogue that the compiler writes for a function, assembled and
    run: whatever the body does within its rights, the function returns to its caller with
    the stack pointer and the registers that a function has to keep. *)
From S2P Require Import Prelude CInt Opcodes State Memory Cregs Gdb Tdep GdbSpec.
From S2P Require Import SimopsAlu SimopsAcc SimopsFlow SimopsMem SimopsTrap Interp Logic OpRules.
From S2P Require Import Machine Decode MemProps Effects AluSpec AccSpec FlowSpec NumSpec MemSpec Cycle Step.
From S2P Require Import SimTarget Prologue Epilogue Saving ReturnSpec Unwind Asm AsmSpec Gcc GccText EpilogueText GccSpec.

(** ** The contract of a function's body *)

(** The end of the function can be reached: the last instruction is no barrier. *)
Definition falls_through (c : compiling) : bool :=
  negb (bool_decide ((if bool_decide (last_insn c = Some NOTE) then last_nonnote_insn c else last_insn c) = Some BARRIER)).
Definition stack_register (c : compiling) : Z :=
  if truth (frame_pointer_needed c) then FP_REGNUM else SP_REGNUM.
(** [s1] is the state after the prologue, [s2] that before the epilogue: the body has kept
    the register that the epilogue finds the frame with, what is saved in the frame, and
    those of the registers to be kept that are not live in it. *)
Record body_keeps (c : compiling) (info : d10v_stack_t) (s0 s1 s2 : state) : Prop := {
  bk_inv : inv s2;
  bk_modulo : PSW_MD s2 = false;
  bk_stack : GPR s2 (stack_register c) = GPR s1 SP_REGNUM;
  bk_saved : forall b, GPR s1 SP_REGNUM + (vars_size info + parm_size info) <= b ->
    b + 2 <= GPR s0 SP_REGNUM - varargs_size info -> chip_word s2 b = chip_word s1 b;
  bk_dead : forall n, 6 <= n <= 11 \/ n = LR_REGNUM -> flag (regs_ever_live c) n = false -> GPR s2 n = GPR s1 n
}.
(** The accumulators afterwards *)
Definition accs_after (ta : Z) (c : compiling) (s0 s2 : state) (n : Z) : Z :=
  let saved n := truth ta && flag (regs_ever_live c) (ACCUM_FIRST + n) in
  if saved n then if saved (1 - n) then ACC s0 (1 - n) else ACC s0 n else ACC s2 n.
Record back_in_caller (ta : Z) (c : compiling) (s0 s2 s3 : state) : Prop := {
  bc_inv : inv s3;
  bc_pc : CREG s3 PC_CR = GPR s0 LR_REGNUM;
  bc_sp : GPR s3 SP_REGNUM = GPR s0 SP_REGNUM;
  bc_kept : forall n, 6 <= n <= 11 -> GPR s3 n = GPR s0 n;
  bc_value : forall n, 0 <= n < 5 -> GPR s3 n = GPR s2 n;
  bc_accs : forall n, 0 <= n < 2 -> ACC s3 n = accs_after ta c s0 s2 n;
  bc_chip : forall b, on_chip b -> chip_word s3 b = chip_word s2 b
}.

Section Returns.
Context `{Host} (Hcalloc : forall s seg, host_calloc s seg = true) `{GasLaws}.

Lemma plan_of_accs ta c info locals fp s0 s2 n : stack_described ta c info -> 0 <= n < 2 ->
  acc_back (f_accs (plan_of info locals fp)) (ACC s0) (ACC s2) n = accs_after ta c s0 s2 n.
Proof.
  intros [_ _ _ _ Ha] Hn. cbn [f_accs plan_of]. unfold acc_pieces, accs_after. rewrite !Ha by auto.
  assert (n = 0 \/ n = 1) as [-> | ->] by lia;
    change (ACCUM_FIRST + 0) with ACCUM_FIRST; change (ACCUM_FIRST + 1) with ACCUM_LAST;
    change (ACCUM_FIRST + (1 - 0)) with ACCUM_LAST; change (ACCUM_FIRST + (1 - 1)) with ACCUM_FIRST;
    destruct (truth ta && flag (regs_ever_live c) ACCUM_FIRST), (truth ta && flag (regs_ever_live c) ACCUM_LAST); reflexivity.
Qed.
Lemma epilogue_of_function ta c : compiled ta c -> reload_completed c <> 0 -> falls_through c = true ->
  total_size (d10v_stack_info c).1 < 0x8000 ->
  (function_prologue c).1 = prologue_lines (d10v_stack_info c).1 (frame_pointer_needed c) /\
  (function_epilogue (function_prologue c).2).1 = epilogue_lines (d10v_stack_info c).1 (frame_pointer_needed c) /\
  stack_described ta c (d10v_stack_info c).1.
Proof.
  intros Hc Hr Hf Hs. pose proof (stack_info_described ta c Hc Hs) as Hd. unfold function_prologue.
  destruct (d10v_stack_info c) as [info c']. destruct Hd as (Hd & Hfp & Hl & Hn & Hcache). cbn [fst snd].
  split; [by rewrite Hfp|split; [|exact Hd]]. unfold function_epilogue. rewrite Hl, Hn.
  unfold falls_through in Hf. apply negb_true_iff in Hf. rewrite Hf. unfold d10v_stack_info.
  rewrite (Hcache Hr). cbn [fst snd]. by rewrite Hfp.
Qed.
Lemma body_leaves ta c info s0 s1 s2 :
  let p := plan_of info (vars_size info + parm_size info) (frame_pointer_needed c) in
  stack_described ta c info -> entered p s0 s1 -> body_keeps c info s0 s1 s2 -> left_alone p s0 s1 s2.
Proof.
  intros p [Hlo _ _ Hlink _] He [B1 B2 B3 B4 B5]. split; [exact B1|exact B2| | |].
  - unfold stack_register in B3. exact B3.
  - intros b Hb0 Hb1. apply B4; [exact Hb0|]. rewrite (lo_varargs _ _ Hlo). unfold arg_regs in Hb1. cbn [f_varargs p plan_of] in Hb1.
    change (GPR s0 SP_REGNUM) with (GPR s0 15). by destruct (truth (varargs_p info)).
  - cbn [f_regs p plan_of]. rewrite pieces_saves. intros H13.
    change (flag (save_p info) 13 = false) in H13. rewrite (B5 13) by (first [by right | by apply Hlink]).
    apply (en_gpr _ _ _ He); [lia| |done]. unfold same_all. cbn [f_accs p plan_of].
    destruct (acc_pieces (save_p info)) as [|k l] eqn:Ea; [done|].
    pose proof (lo_link _ _ Hlo) as Hl. rewrite Ea in Hl. specialize (Hl ltac:(done)). change RETURN_ADDRESS_REGNUM with 13 in Hl. congruence.
Qed.
Lemma kept_by_return ta c info s0 s1 s2 s3 :
  let p := plan_of info (vars_size info + parm_size info) (frame_pointer_needed c) in
  (frame_pointer_needed c <> 0 -> flag (regs_ever_live c) FP_REGNUM = true) ->
  stack_described ta c info -> entered p s0 s1 -> body_keeps c info s0 s1 s2 -> returned p s0 s2 s3 ->
  back_in_caller ta c s0 s2 s3.
Proof.
  intros p Hfp Hd He Hb [R1 R2 R3 R4 R5 R6 R7]. pose proof Hd as [_ Hg Hfree _ _].
  assert (forall n, 0 <= n < 15 -> saves (f_regs p) n = flag (save_p info) n) as Hsv.
  { intros n Hn. unfold p. cbn [f_regs plan_of]. rewrite pieces_saves.
    rewrite (proj2 (Z.leb_le (2 * Z.of_nat 0) n)), (proj2 (Z.ltb_lt n (2 * Z.of_nat (0 + 8)))) by lia. reflexivity. }
  assert (forall n, n <> 5 -> n <> 12 -> n <> 13 -> same_all (f_accs p) n = true) as Hsame.
  { intros n H5 H12 H13. unfold same_all, not_clobbered. destruct (existsb is_acc (f_accs p)); [|done].
    by rewrite (proj2 (Z.eqb_neq n 5)), (proj2 (Z.eqb_neq n 12)), (proj2 (Z.eqb_neq n 13)). }
  split; [exact R1|exact R2|exact R3| | |intros n Hn; rewrite R6 by done; by apply plan_of_accs|exact R7].
  - intros n Hn. destruct (flag (regs_ever_live c) n) eqn:El.
    + apply R4; [lia|]. by rewrite Hsv, Hg by lia.
    + rewrite R5 by (first [lia | apply Hsame; lia | by rewrite Hsv, Hg by lia]).
      rewrite (bk_dead _ _ _ _ _ Hb n (or_introl Hn) El). apply (en_gpr _ _ _ He); [lia|apply Hsame; lia|].
      unfold p. cbn [f_frame plan_of]. intros Ht ->. unfold truth in Ht. apply negb_true_iff, Z.eqb_neq in Ht.
      specialize (Hfp Ht). unfold FP_REGNUM in Hfp. congruence.
  - intros n Hn. apply R5; [lia| |apply Hsame; lia]. rewrite Hsv by lia. apply Hfree. lia.
Qed.

(** C7: A function returns to its caller. For every function that is compiled for the D10V,
    with and without a frame pointer, with variable arguments, saved registers and saved
    accumulators, whose frame fits on-chip memory and whose end can be reached, each line
    that [function_prologue] and [function_epilogue] write is assembled to an instruction.
    When the simulator has executed the prologue, any body may run that keeps the frame's
    saved part, the register that finds the frame, and the call-saved registers that are
    not live in it; then the epilogue ends with a jump to the return address the caller
    left in r13, the stack pointer and r6 to r11 have the values they had in the caller,
    and the registers in which a value is returned those of the body. A saved accumulator
    gets its value back too, but two saved accumulators come back exchanged. *)
Theorem compiled_function_returns ta c :
  compiled ta c -> reload_completed c <> 0 -> falls_through c = true ->
  (frame_pointer_needed c <> 0 -> flag (regs_ever_live c) FP_REGNUM = true) ->
  let info := (d10v_stack_info c).1 in total_size info < 0x8000 ->
  exists entry leave, Forall2 assembles (function_prologue c).1 entry /\
    Forall2 assembles (function_epilogue (function_prologue c).2).1 leave /\
    forall s0, inv s0 -> total_size info < GPR s0 SP_REGNUM <= 0x8000 ->
    exists s1, exec_all entry s0 = Ret tt s1 /\ inv s1 /\ PSW_MD s1 = PSW_MD s0 /\
      GPR s1 SP_REGNUM = GPR s0 SP_REGNUM - total_size info /\ GPR s1 (stack_register c) = GPR s1 SP_REGNUM /\
      forall s2, body_keeps c info s0 s1 s2 ->
      exists s3, exec_all leave s2 = Ret tt s3 /\ back_in_caller ta c s0 s2 s3.
Proof.
  intros Hc Hr Hf Hfp info Hs. destruct (epilogue_of_function ta c Hc Hr Hf Hs) as (-> & -> & Hd). fold info in Hd |- *.
  pose proof (sd_layout _ _ _ Hd) as Hlo. set (locals := vars_size info + parm_size info) in *.
  destruct (plan_of_ok info locals (frame_pointer_needed c) Hlo) as [Hp Esize]. set (p := plan_of info locals (frame_pointer_needed c)) in *.
  exists (entry_insns p), (exit_insns p). split; [by apply entry_text|split; [by apply exit_text|]].
  intros s0 Hs0 Hsp. rewrite <- Esize in Hsp |- *. change (GPR s0 SP_REGNUM) with (GPR s0 15) in *.
  destruct (enter_run Hcalloc p s0 Hp Hs0 Hsp) as (s1 & E1 & He). exists s1. split; [exact E1|].
  split; [apply He|split; [apply He|split; [apply He|split]]].
  - unfold stack_register. pose proof (en_frame _ _ _ He) as Hfr. unfold p in Hfr. cbn [f_frame plan_of] in Hfr.
    destruct (truth (frame_pointer_needed c)); [by apply Hfr|done].
  - intros s2 Hb. pose proof (body_leaves ta c info s0 s1 s2 Hd He Hb) as Hla.
    destruct (return_run Hcalloc p s0 s1 s2 Hp Hs0 Hsp He Hla) as (s3 & E3 & Hret).
    exists s3. split; [exact E3|]. exact (kept_by_return ta c info s0 s1 s2 s3 Hfp Hd He Hb Hret).
Qed.
End Returns.

(** ** A witness *)

(** A function that uses r6 and both accumulators, with a frame pointer and 20 bytes of
    locals; the caller's accumulators hold 5 and 7, and its return address is 0x1234. *)
Definition accumulating_function : compiling :=
  Compiling 0 1 1 (<[33%nat := 1]> (<[32%nat := 1]> (<[13%nat := 1]> (<[11%nat := 1]> (<[6%nat := 1]> (repeat 0 38))))))
    (CONDITIONAL_REGISTER_USAGE 1 CALL_USED_REGISTERS) (Some false) [] 20 0 (Some OTHER_INSN) (Some OTHER_INSN) None.
Definition calling_state : state :=
  at_values [0; 1; 2; 3; 4; 5; 6; 7; 8; 9; 10; 11; 12; 0x1234; 14; 0x7ffe] [5; 7] [0; 0; 0; 0] 0.
Lemma compiled_function_returns_witness : exists entry leave s1 s3,
  Forall2 (@assembles decimal_gas) (function_prologue accumulating_function).1 entry /\
  Forall2 (@assembles decimal_gas) (function_epilogue (function_prologue accumulating_function).2).1 leave /\
  @exec_all plain_host entry calling_state = Ret tt s1 /\ @exec_all plain_host leave s1 = Ret tt s3 /\
  CREG s3 PC_CR = 0x1234 /\ GPR s3 SP_REGNUM = 0x7ffe /\ GPR s3 6 = 6 /\ ACC s3 0 = 7 /\ ACC s3 1 = 5.
Proof.
  assert (inv calling_state) as Hi by (apply inv_at_values; vm_compute; reflexivity).
  destruct (@compiled_function_returns plain_host (fun _ _ => eq_refl) decimal_gas decimal_gas_laws 1 accumulating_function)
    as (entry & leave & Ho & Ho' & Hl).
  - split; [reflexivity..|vm_compute; split; discriminate].
  - discriminate.
  - reflexivity.
  - reflexivity.
  - vm_compute. reflexivity.
  - destruct (Hl calling_state Hi) as (s1 & E1 & Hi1 & Emd & Esp & Est & Hb); [vm_compute; split; [reflexivity|discriminate]|].
    destruct (Hb s1) as (s3 & E3 & [_ Epc Esp3 Hk _ Ha _]).
    { split; [exact Hi1|rewrite Emd; vm_compute; reflexivity|exact Est|done|done]. }
    exists entry, leave, s1, s3. split; [exact Ho|split; [exact Ho'|split; [exact E1|split; [exact E3|]]]].
    split; [rewrite Epc; vm_compute; reflexivity|split; [rewrite Esp3; vm_compute; reflexivity|]].
    split; [rewrite Hk; [vm_compute; reflexivity|lia]|].
    rewrite !Ha by lia. split; vm_compute; reflexivity.
Defined.
