(* ===== verification/Declares.v ===== *)
(** * What an instruction declares

    The sets of registers that [parallel_ok] computes from an instruction word, by
    operand position; the short instructions whose footprint they cover; and what a row
    of the tables writes on a decoded state, as a function of the registers it reads. *)
From Stdlib Require Import Ascii.
From S2P Require Import Prelude CInt Opcodes State Memory Cregs.
From S2P Require Import SimopsAlu SimopsAcc SimopsFlow SimopsMem SimopsTrap Interp Logic OpRules.
From S2P Require Import Machine Decode Effects AluSpec AccSpec FlowSpec Cycle Step Parallel Footprint.
From S2P Require Import Elf Dis Asm AsmPack DisSpec Emit.

(** ** The sets by operand position *)

(** The operands with their positions *)
Fixpoint numbered (ops : list Z) (k : Z) : list (Z * Z) :=
  match ops with
  | [] => []
  | i :: ops' =>
      if i =? 0 then []
      else if is_operand (flags (operand_at i)) then (k, i) :: numbered ops' (k + 1)
      else numbered ops' k
  end.

Definition reg_locs (o : d10v_operand) (k : Z) : list loc :=
  let has c := truth (Z.land (flags o) c) in
  if has (Z.lor OPERAND_ACC0 OPERAND_ACC1) then []
  else if has OPERAND_CONTROL then [L_creg k]
  else if has (Z.lor OPERAND_FFLAG OPERAND_CFLAG) then [L_flags]
  else L_reg k 0 :: if has OPERAND_EVEN then [L_reg k 1] else [].

(** What [operand_sets] puts into the two sets, accumulators aside; the positions
    start from [k]. *)
Definition declared_from (dest : bool) (ops : list Z) (k : Z) : list loc :=
  flat_map (fun '(k, i) =>
    let o := operand_at i in
    if truth (Z.land (flags o) OPERAND_REG) && Bool.eqb dest (truth (Z.land (flags o) OPERAND_DEST))
    then reg_locs o k else []) (numbered ops k).
Definition declared (dest : bool) (ops : list Z) : list loc := declared_from dest ops 0.

Definition declared_mod (d : d10v_opcode) : list loc :=
  let has t := truth (Z.land (exec_type d) t) in
  (if has RMEM || has WMEM || has RF0 then [] else if has WF0 || has WCAR then [L_flags] else [])
  ++ declared true (operands d).
Definition declared_used (d : d10v_opcode) : list loc :=
  let has t := truth (Z.land (exec_type d) t) in
  (if has RMEM || has WMEM then [] else if has RF0 then [L_flags] else [])
  ++ declared false (operands d).

(** ** Their numbers *)

Definition field_of (ins i : Z) : Z :=
  Z.land (Z.shiftr ins (shift (operand_at i))) (bits_mask (bits (operand_at i))).
(** The number of a location in the sets of [parallel_ok], given the operands *)
Definition place (fv : Z -> Z) (l : loc) : Z :=
  match l with
  | L_reg k p => fv k + p
  | L_flags => 19
  | L_creg k => if fv k =? 0 then 19 else 18
  | L_accs => 16
  end.
Definition in_set (m : Z) (fv : Z -> Z) (ls : list loc) : Prop :=
  Forall (fun l => Z.testbit m (place fv l) = true) ls.

Lemma testbit_lor_l m n i : Z.testbit m i = true -> Z.testbit (Z.lor m n) i = true.
Proof. rewrite Z.lor_spec. by intros ->. Qed.
Lemma testbit_lor_r m n i : Z.testbit n i = true -> Z.testbit (Z.lor m n) i = true.
Proof. rewrite Z.lor_spec. intros ->. apply orb_true_r. Qed.
Lemma testbit_one i : 0 <= i -> Z.testbit (Z.shiftl 1 i) i = true.
Proof. intros Hi. rewrite Z.shiftl_spec, Z.sub_diag by done. done. Qed.
Create HintDb bits.
#[export] Hint Resolve testbit_lor_l testbit_lor_r testbit_one : bits.

Lemma in_set_mono m m' fv ls :
  (forall i, Z.testbit m i = true -> Z.testbit m' i = true) -> in_set m fv ls -> in_set m' fv ls.
Proof. intros Hm. apply List.Forall_impl. intros l. apply Hm. Qed.

Lemma field_nonneg ins i : 0 <= field_of ins i.
Proof.
  unfold field_of. apply Z.land_nonneg. right. unfold bits_mask. by apply Z.shiftr_nonneg.
Qed.

(** One register operand *)
Lemma reg_set i ins fv k m :
  fv k = field_of ins i ->
  let o := operand_at i in
  let r := parallel_regno (flags o) ins (shift o) (bits_mask (bits o)) in
  in_set (Z.lor m (Z.lor (Z.shiftl 1 r)
    (if truth (Z.land (flags o) OPERAND_EVEN) then Z.shiftl 1 (r + 1) else 0))) fv (reg_locs o k).
Proof.
  intros Hk o r. pose proof (field_nonneg ins i). unfold in_set, reg_locs, r, parallel_regno. cbv zeta.
  assert (Z.land (Z.shiftr ins (shift o)) (bits_mask (bits o)) = fv k) as -> by (by rewrite Hk).
  rewrite <- Hk in *.
  destruct (truth (Z.land (flags o) (Z.lor OPERAND_ACC0 OPERAND_ACC1))); [constructor|].
  destruct (truth (Z.land (flags o) OPERAND_CONTROL)).
  - repeat constructor. simpl. apply testbit_lor_r, testbit_lor_l.
    destruct (fv k =? 0); by apply testbit_one.
  - destruct (truth (Z.land (flags o) (Z.lor OPERAND_FFLAG OPERAND_CFLAG))).
    + repeat constructor. apply testbit_lor_r, testbit_lor_l. by apply testbit_one.
    + destruct (truth (Z.land (flags o) OPERAND_EVEN)); repeat constructor; simpl;
        rewrite ?Z.add_0_r; auto with bits lia.
Qed.

Definition fields_of (fv : Z -> Z) (ins : Z) (l : list (Z * Z)) : Prop :=
  Forall (fun '(k, i) => fv k = field_of ins i) l.

Lemma reg_is_operand o : truth (Z.land (flags o) OPERAND_REG) = true -> is_operand (flags o) = true.
Proof. unfold is_operand, truth. intros ->. done. Qed.

Lemma operand_sets_declared ins fv ops : forall k m u m' u',
  fields_of fv ins (numbered ops k) -> operand_sets ops ins m u = (m', u') ->
  (forall i, Z.testbit m i = true -> Z.testbit m' i = true) /\
  (forall i, Z.testbit u i = true -> Z.testbit u' i = true) /\
  in_set m' fv (declared_from true ops k) /\ in_set u' fv (declared_from false ops k).
Proof.
  induction ops as [|i ops IH]; intros k m u m' u' Hf E; cbn [operand_sets numbered] in *.
  { injection E as <- <-. by repeat split; try constructor. }
  unfold declared_from. cbn [numbered]. destruct (Z.eqb_spec i 0) as [->|Hi].
  { injection E as <- <-. by repeat split; try constructor. }
  cbv zeta in E. set (o := operand_at i) in *.
  destruct (truth (Z.land (flags o) OPERAND_REG)) eqn:Hreg.
  - rewrite (reg_is_operand o Hreg) in *. apply List.Forall_cons_iff in Hf as [Hk Hf].
    cbn [flat_map]. fold o. rewrite Hreg. simpl andb.
    pose proof (reg_set i ins fv k m Hk) as Hm. pose proof (reg_set i ins fv k u Hk) as Hu.
    cbv zeta in Hm, Hu. fold o in Hm, Hu.
    set (set := Z.lor (Z.shiftl 1 _) _) in *.
    destruct (truth (Z.land (flags o) OPERAND_DEST)); simpl Bool.eqb; cbv iota.
    + destruct (IH (k + 1) _ _ _ _ Hf E) as (Im & Iu & Dm & Du).
      split; [auto with bits|split; [done|split; [|exact Du]]].
      apply Forall_app. split; [by eapply in_set_mono|exact Dm].
    + destruct (IH (k + 1) _ _ _ _ Hf E) as (Im & Iu & Dm & Du).
      split; [|split; [auto with bits|split; [exact Dm|]]].
      * intros j Hj. apply Im. destruct (_ && _); auto with bits.
      * apply Forall_app. split; [by eapply in_set_mono|exact Du].
  - assert (exists m1 u1, operand_sets ops ins m1 u1 = (m', u') /\
      (forall i, Z.testbit m i = true -> Z.testbit m1 i = true) /\
      (forall i, Z.testbit u i = true -> Z.testbit u1 i = true)) as (m1 & u1 & E' & Hm & Hu).
    { destruct (truth (Z.land (flags o) OPERAND_ATMINUS)); eexists _, _; (split; [exact E|]);
        auto with bits. }
    destruct (is_operand (flags o)).
    + apply List.Forall_cons_iff in Hf as [_ Hf]. destruct (IH (k + 1) _ _ _ _ Hf E') as (? & ? & ? & ?).
      cbn [flat_map]. fold o. rewrite Hreg. simpl andb. cbv iota. simpl app. auto.
    + destruct (IH k _ _ _ _ Hf E') as (? & ? & ? & ?). auto.
Qed.

Lemma insn_sets_declared d ins fv m u :
  fields_of fv ins (numbered (operands d) 0) -> insn_sets d ins = (m, u) ->
  in_set m fv (declared_mod d) /\ in_set u fv (declared_used d).
Proof.
  intros Hf E. unfold insn_sets in E. cbv zeta in E.
  destruct (operand_sets _ _ _ _) as [m0 u0] eqn:E0.
  destruct (operand_sets_declared ins fv _ 0 _ _ _ _ Hf E0) as (_ & _ & Hm & Hu).
  assert (forall x b, in_set x fv (declared b (operands d)) ->
    in_set (Z.lor x (Z.shiftl 1 19)) fv (L_flags :: declared b (operands d))) as H19.
  { intros x b Hx. constructor; [by apply testbit_lor_r|].
    eapply in_set_mono; [|exact Hx]. auto with bits. }
  assert (forall x n b, in_set x fv (declared b (operands d)) ->
    in_set (Z.lor x n) fv (declared b (operands d))) as Hmono.
  { intros x n b. apply in_set_mono. auto with bits. }
  unfold declared_mod, declared_used. cbv zeta.
  repeat match type of E with (if ?c then _ else _) = _ => destruct c end;
    injection E as <- <-; simpl orb; cbv iota; simpl app; auto.
Qed.

(** ** Instructions that declare what they touch *)

Definition find_footprint (code : Z) : option footprint :=
  List.find (fun f => fp_code f =? code) footprints.
(** The accumulators are left to the units: only an IU instruction has any. *)
Definition covered (d : d10v_opcode) (ls : list loc) (l : loc) : bool :=
  match l with L_accs => unit_ d =? IU | _ => bool_decide (l ∈ ls) end.
(** A location names an operand of the instruction. *)
Definition in_range (n : Z) (l : loc) : bool :=
  match l with
  | L_reg k p => (0 <=? k) && (k <? n) && (0 <=? p)
  | L_creg k => (0 <=? k) && (k <? n)
  | _ => true
  end.
Definition declares (d : d10v_opcode) (f : footprint) : bool :=
  (fp_numops f =? gen_numops (operands d)) &&
  forallb (in_range (fp_numops f)) (fp_writes f ++ fp_reads f) &&
  forallb (covered d (declared_mod d)) (fp_writes f) &&
  forallb (covered d (declared_mod d ++ declared_used d)) (fp_reads f).

(** All short instructions of the tables declare what they touch, but [sub] of a pair
    from an accumulator, whose source is not marked as a pair, and [subi], which sets
    the carry. *)
Lemma undeclared :
  map opcode (List.filter (fun d => is_short d &&
    match find_footprint (opcode d) with Some f => negb (declares d f) | None => false end) table_ops) =
  [0x1001; 0x1].
Proof. vm_compute. reflexivity. Qed.

Definition packable (d : d10v_opcode) (f : footprint) : Prop :=
  In d table_ops /\ is_short d = true /\ find_footprint (opcode d) = Some f /\ declares d f = true.

(** ** Decoded states *)

(** Operand [k] of the word [ins] *)
Definition field_at (d : d10v_opcode) (ins k : Z) : Z :=
  (ins / 2 ^ znth (so_operands (gen_simop d)) (3 * k)) mod 2 ^ znth (so_operands (gen_simop d)) (3 * k + 1).

Lemma numbered_fields d ins : In d table_ops -> is_short d = true ->
  fields_of (field_at d ins) ins (numbered (operands d) 0).
Proof.
  intros Hin Hs.
  assert (forallb (fun d => negb (is_short d) ||
    forallb (fun '(k, i) => let o := operand_at i in let l := so_operands (gen_simop d) in
      (znth l (3 * k) =? shift o) && (znth l (3 * k + 1) =? bits o) &&
      (0 <=? shift o) && (0 <=? bits o) && (bits o <=? 4 + 4 * b2z (unit_ d =? MU)))
      (numbered (operands d) 0)) table_ops = true) as Ha by (vm_compute; reflexivity).
  rewrite forallb_forall in Ha. specialize (Ha d Hin). rewrite Hs in Ha. simpl orb in Ha.
  rewrite forallb_forall in Ha. apply List.Forall_forall. intros [k i] Hk. specialize (Ha _ Hk).
  cbv beta iota zeta in Ha. unfold field_at, field_of, bits_mask. cbn [gen_simop so_operands] in *.
  apply andb_prop in Ha as [[[[->%Z.eqb_eq ->%Z.eqb_eq]%andb_prop ?%Z.leb_le]%andb_prop
    ?%Z.leb_le]%andb_prop ?%Z.leb_le].
  assert (bits (operand_at i) <= 31) by (destruct (unit_ d =? MU); simpl in *; lia).
  by rewrite field_eq by lia.
Qed.

Definition decodes (d : d10v_opcode) (ins : Z) (s x : state) : Prop :=
  same x s /\ forall k, 0 <= k < gen_numops (operands d) -> op x k = field_at d ins k.

Lemma decodes_decoded d ins t s : In d table_ops -> decodes d ins s (decoded (gen_simop d) ins t s).
Proof.
  intros Hin. split; [apply same_decoded|]. intros k Hk.
  pose proof (numops_range (gen_simop d)) as Hn. cbn [gen_simop so_numops] in Hn.
  assert (gen_numops (operands d) <= 4) by (apply Hn; rewrite real_simops_gen; by apply in_map).
  change (op (decoded (gen_simop d) ins t s) k) with (znth (operands_of (gen_simop d) ins s) k).
  assert (znth (operands_of (gen_simop d) ins s) k = field_at d ins k); [|done].
  unfold operands_of, znth at 1. cbn [gen_simop so_numops]. fold (gen_simop d).
  assert (k = 0 \/ k = 1 \/ k = 2 \/ k = 3) as [->|[->|[->| ->]]] by lia; cbn [Z.to_nat map nth];
    match goal with |- context [?j <? gen_numops _] =>
      destruct (Z.ltb_spec j (gen_numops (operands d))); [reflexivity|lia] end.
Qed.
Lemma decodes_same d ins s x x' : decodes d ins s x -> same x' x -> OP x' = OP x -> decodes d ins s x'.
Proof.
  intros [Hs Ho] E Eo. split; [by rewrite E|]. intros k Hk. rewrite <- Ho by done. unfold op. by rewrite Eo.
Qed.

(** ** Writes of such instructions *)

(** Registers, accumulators and the three flags *)
Definition plain_write (w : write) : Prop :=
  match w with
  | W_reg n _ => 0 <= n
  | W_flag m _ => Z.land m ALL_FLAGS = m /\ 0 <= m < 2 ^ 16
  | W_acc _ _ => True
  | W_creg _ _ | W_sp _ _ => False
  end.
(** A write to a location, with the operands [fv] *)
Definition hits (fv : Z -> Z) (l : loc) (w : write) : Prop :=
  match l, w with
  | L_reg k p, W_reg n _ => n = fv k + p
  | L_flags, W_flag _ _ => True
  | L_creg k, W_flag _ _ => fv k = 0
  | L_accs, W_acc _ _ => True
  | _, _ => False
  end.
Definition misses (fv : Z -> Z) (l : loc) (ws : list write) : Prop := Forall (fun w => ~ hits fv l w) ws.

Lemma misses_regs fv k p ws : forall s, 0 <= fv k + p -> Forall plain_write ws ->
  misses fv (L_reg k p) ws -> GPR (apply_writes ws s) (fv k + p) = GPR s (fv k + p).
Proof.
  induction ws as [|w ws IH]; intros s Hn Hp Hm; [done|].
  apply List.Forall_cons_iff in Hp as [Hw Hp], Hm as [Hh Hm]. simpl. rewrite IH by done.
  destruct w as [n v|n v|m b|n v|n v]; try done. simpl in Hw, Hh. unfold GPR, znth. simpl.
  rewrite !nth_lookup, list_lookup_insert_ne; [done|lia].
Qed.
Lemma misses_cregs fv k ws : forall s, 0 <= fv k -> Forall plain_write ws ->
  misses fv (L_creg k) ws -> CREG (apply_writes ws s) (fv k) = CREG s (fv k).
Proof.
  induction ws as [|w ws IH]; intros s Hn Hp Hm; [done|].
  apply List.Forall_cons_iff in Hp as [Hw Hp], Hm as [Hh Hm]. simpl. rewrite IH by done.
  destruct w as [n v|n v|m b|n v|n v]; try done. simpl in Hh. unfold CREG, znth. simpl.
  rewrite !nth_lookup, list_lookup_insert_ne; [done|lia].
Qed.
Lemma misses_flags fv ws : forall s, Forall plain_write ws -> misses fv L_flags ws ->
  cregs (apply_writes ws s) = cregs s.
Proof.
  induction ws as [|w ws IH]; intros s Hp Hm; [done|].
  apply List.Forall_cons_iff in Hp as [Hw Hp], Hm as [Hh Hm]. simpl. rewrite IH by done.
  by destruct w.
Qed.
Lemma misses_accs fv ws : forall s, Forall plain_write ws -> misses fv L_accs ws ->
  a (apply_writes ws s) = a s.
Proof.
  induction ws as [|w ws IH]; intros s Hp Hm; [done|].
  apply List.Forall_cons_iff in Hp as [Hw Hp], Hm as [Hh Hm]. simpl. rewrite IH by done.
  by destruct w.
Qed.

(** The other control registers and the other bits of the PSW stay. *)
Lemma plain_creg_fresh n ws : 0 < n -> Forall plain_write ws -> creg_fresh n ws = true.
Proof.
  intros Hn Hp. apply forallb_forall. rewrite List.Forall_forall in Hp. intros w Hw.
  specialize (Hp w Hw). destruct w; try done. apply negb_true_iff, Nat.eqb_neq. lia.
Qed.
Lemma plain_flag_fresh m ws : Z.land m ALL_FLAGS = 0 -> Forall plain_write ws -> flag_fresh m ws = true.
Proof.
  intros Hm Hp. apply forallb_forall. rewrite List.Forall_forall in Hp. intros w Hw.
  specialize (Hp w Hw). destruct w as [| |m' b| |]; try done. destruct Hp as [E Hr].
  rewrite !andb_true_iff. repeat split; [apply Z.leb_le; lia|apply Z.ltb_lt; lia|].
  apply Z.eqb_eq. by rewrite <- E, (Z.land_comm m' _), Z.land_assoc, Hm, Z.land_0_l.
Qed.
Lemma plain_loop_fresh ws : Forall plain_write ws -> loop_fresh ws = true.
Proof.
  intros Hp. unfold loop_fresh, loop_regs. simpl.
  rewrite !(plain_creg_fresh _ ws) by done. by apply plain_flag_fresh.
Qed.
Lemma plain_CREG n ws s : 0 < n -> Forall plain_write ws -> CREG (apply_writes ws s) n = CREG s n.
Proof.
  intros Hn Hp. unfold CREG, znth. rewrite !nth_lookup. f_equal.
  by apply apply_writes_creg, plain_creg_fresh.
Qed.
Lemma plain_psw_bit m ws s : wf s -> Z.land m ALL_FLAGS = 0 -> fits 16 m -> Forall plain_write ws ->
  psw_bit (apply_writes ws s) m = psw_bit s m.
Proof.
  intros Hs Hm Hf Hp. assert (Z.land (PSW (apply_writes ws s)) m = Z.land (PSW s) m) as E.
  { apply apply_writes_psw; [by apply plain_flag_fresh| |by apply wf_fits_creg|done].
    rewrite (proj1 (wf_cregs s Hs)). lia. }
  unfold psw_bit. by rewrite E.
Qed.
Lemma no_flags_fresh fv ws : Forall plain_write ws -> misses fv L_flags ws ->
  flag_fresh ALL_FLAGS ws = true.
Proof.
  intros Hp Hm. apply forallb_forall. unfold misses in Hm. rewrite List.Forall_forall in Hp, Hm.
  intros w Hw. specialize (Hp w Hw). specialize (Hm w Hw). by destruct w.
Qed.

(** ** Two instructions that pass the test *)

Lemma packable_covers d f : packable d f ->
  fp_numops f = gen_numops (operands d) /\
  (forall l, In l (fp_writes f) -> in_range (fp_numops f) l = true /\ covered d (declared_mod d) l = true) /\
  (forall l, In l (fp_reads f) -> in_range (fp_numops f) l = true /\
     covered d (declared_mod d ++ declared_used d) l = true) /\
  In f footprints /\ fp_code f = opcode d.
Proof.
  intros (_ & _ & Hf & Hd). unfold declares in Hd.
  apply andb_prop in Hd as [[[->%Z.eqb_eq Hr]%andb_prop Hw]%andb_prop Hu].
  rewrite forallb_forall in Hr, Hw, Hu. apply find_some in Hf as [Hin Hc%Z.eqb_eq].
  split; [done|split; [|split; [|done]]]; intros l Hl; (split; [apply Hr, in_or_app|]); auto.
Qed.
Lemma covered_in d ls l : covered d ls l = true -> l <> L_accs -> l ∈ ls.
Proof. destruct l; unfold covered; intros E Hn; [by apply bool_decide_eq_true in E..|by destruct Hn]. Qed.
Lemma covered_weaken d ls ls' l : covered d ls l = true -> covered d (ls ++ ls') l = true.
Proof.
  unfold covered. intros E. destruct l; [apply bool_decide_eq_true in E..|done];
    apply bool_decide_eq_true, elem_of_app; by left.
Qed.
Lemma field_at_nonneg d f ins k : packable d f -> 0 <= k < fp_numops f -> 0 <= field_at d ins k.
Proof.
  intros Hd Hk. destruct (packable_covers d f Hd) as (Hn & _). destruct Hd as (Hin & _).
  unfold field_at. rewrite <- (Step.operand_field (gen_simop d) ins k).
  - apply u16_range.
  - rewrite real_simops_gen. by apply in_map.
  - rewrite Hn in Hk. exact Hk.
Qed.

Section Pair.
Context (d1 d2 : d10v_opcode) (f1 f2 : footprint) (i1 i2 : Z).
Context (Hd1 : packable d1 f1) (Hd2 : packable d2 f2) (Hok : parallel_ok d1 i1 d2 i2 0 = true).

Lemma parallel_ok_sets :
  exists m1 u1 m2 u2, insn_sets d1 i1 = (m1, u1) /\ insn_sets d2 i2 = (m2, u2) /\
    Z.land m1 m2 = 0 /\ Z.land m1 u2 = 0.
Proof.
  unfold parallel_ok in Hok. cbv zeta in Hok.
  repeat match type of Hok with (if ?c then false else _) = _ => destruct c; [discriminate|] end.
  destruct (insn_sets d1 i1) as [m1 u1], (insn_sets d2 i2) as [m2 u2].
  apply andb_prop in Hok as [?%Z.eqb_eq ?%Z.eqb_eq]. by exists m1, u1, m2, u2.
Qed.
Lemma parallel_ok_units : (unit_ d1 =? IU) && (unit_ d2 =? IU) = false.
Proof.
  destruct ((unit_ d1 =? IU) && (unit_ d2 =? IU)) eqn:E; [|done].
  unfold parallel_ok in Hok. cbv zeta in Hok. rewrite E, !orb_true_r in Hok. discriminate.
Qed.
Lemma parallel_ok_types : exec_type d1 <> PARONLY /\ exec_type d2 <> PARONLY.
Proof.
  unfold parallel_ok in Hok. cbv zeta in Hok.
  split; intros E; rewrite E in Hok; change (truth (Z.land PARONLY PAR)) with false in Hok;
    simpl negb in Hok; rewrite !orb_true_r in Hok; discriminate.
Qed.

(** What the first instruction writes, the second neither reads nor writes. *)
Lemma apart l1 l2 : covered d1 (declared_mod d1) l1 = true -> l1 <> L_accs ->
  covered d2 (declared_mod d2 ++ declared_used d2) l2 = true -> l2 <> L_accs ->
  place (field_at d1 i1) l1 <> place (field_at d2 i2) l2.
Proof.
  intros H1 Hn1 H2 Hn2 E. destruct parallel_ok_sets as (m1 & u1 & m2 & u2 & E1 & E2 & Hmm & Hmu).
  destruct Hd1 as (Hin1 & Hs1 & _), Hd2 as (Hin2 & Hs2 & _).
  destruct (insn_sets_declared d1 i1 _ _ _ (numbered_fields d1 i1 Hin1 Hs1) E1) as [Hm1 _].
  destruct (insn_sets_declared d2 i2 _ _ _ (numbered_fields d2 i2 Hin2 Hs2) E2) as [Hm2 Hu2].
  apply covered_in, list_elem_of_In in H1; [|done]. apply covered_in, list_elem_of_In in H2; [|done].
  unfold in_set in *. rewrite List.Forall_forall in Hm1, Hm2, Hu2. specialize (Hm1 l1 H1).
  rewrite E in Hm1. apply (f_equal (fun x => Z.testbit x (place (field_at d2 i2) l2))) in Hmm, Hmu.
  rewrite Z.land_spec, Hm1, Z.bits_0 in Hmm, Hmu. simpl in Hmm, Hmu.
  apply in_app_or in H2 as [H2|H2]; [rewrite (Hm2 l2 H2) in Hmm|rewrite (Hu2 l2 H2) in Hmu]; done.
Qed.

Lemma separate s x w l :
  decodes d1 i1 s x -> write_in x (fp_writes f1) w ->
  covered d2 (declared_mod d2 ++ declared_used d2) l = true -> ~ hits (field_at d2 i2) l w.
Proof.
  intros [_ Hx] Hw Hl. destruct (packable_covers d1 f1 Hd1) as (Hn & Hw1 & _). rewrite <- Hn in Hx.
  destruct w as [n v|n v|m b|n v|n v]; destruct l as [k p| |k|]; simpl; try tauto.
  - destruct Hw as (k1 & p1 & Hin & ->). destruct (Hw1 _ Hin) as [Hr Hc]. intros E.
    apply (apart (L_reg k1 p1) (L_reg k p)); [done..|]. simpl. rewrite <- E. simpl in Hr.
    apply andb_prop in Hr as [[?%Z.leb_le ?%Z.ltb_lt]%andb_prop _]. by rewrite Hx.
  - destruct Hw as [Hin _]. intros _. destruct (Hw1 _ Hin) as [_ Hc]. by apply (apart L_flags L_flags).
  - destruct Hw as [Hin _]. intros E. destruct (Hw1 _ Hin) as [_ Hc].
    apply (apart L_flags (L_creg k)); [done..|]. simpl. by rewrite E.
  - simpl in Hw. destruct (Hw1 _ Hw) as [_ Hc]. simpl in Hc, Hl. intros _.
    pose proof parallel_ok_units as Hu. by rewrite Hc, Hl in Hu.
Qed.
End Pair.

(** ** A row on decoded states *)

(** Two states that agree on a location, for given operands *)
Definition agree_at (fv : Z -> Z) (s s' : state) (l : loc) : Prop :=
  match l with
  | L_reg k p => GPR s (fv k + p) = GPR s' (fv k + p)
  | L_flags => PSW_F0 s = PSW_F0 s' /\ PSW_F1 s = PSW_F1 s' /\ PSW_C s = PSW_C s'
  | L_creg k => CREG s (fv k) = CREG s' (fv k)
  | L_accs => a s = a s'
  end.
Lemma same_psw_bit m s s' : same s s' -> psw_bit s m = psw_bit s' m.
Proof. apply (same_read (fun s => psw_bit s m)). done. Qed.

Section Row.
Context `{Host} (d : d10v_opcode) (f : footprint) (row : row_t) (ins : Z).
Context (Hd : packable d f) (Hrow : row_footprint row f).

Lemma decodes_op s x k : decodes d ins s x -> 0 <= k < fp_numops f -> op x k = field_at d ins k.
Proof. intros [_ Ho] Hk. apply Ho. by destruct (packable_covers d f Hd) as (<- & _). Qed.

Lemma row_plain s x : decodes d ins s x -> Forall plain_write (row.2.2 x).
Proof.
  intros Hx. destruct (packable_covers d f Hd) as (_ & Hw & _).
  eapply List.Forall_impl; [|apply (fp_writes_ok row f Hrow x)]. intros w.
  destruct w as [n v|n v|m b|n v|n v]; simpl; try tauto. intros (k & p & Hin & ->).
  destruct (Hw _ Hin) as [Hr _]. simpl in Hr.
  apply andb_prop in Hr as [[?%Z.leb_le ?%Z.ltb_lt]%andb_prop ?%Z.leb_le].
  rewrite (decodes_op s x k) by done. pose proof (field_at_nonneg d f ins k Hd). lia.
Qed.

Lemma decodes_agree s s' x x' :
  decodes d ins s x -> decodes d ins s' x' ->
  Forall (agree_at (field_at d ins) s s') (fp_reads f) -> Forall (agree x x') (fp_reads f).
Proof.
  intros Hx Hx'. destruct (packable_covers d f Hd) as (_ & _ & Hu & _).
  rewrite !List.Forall_forall. intros Ha l Hl. specialize (Ha l Hl). destruct (Hu l Hl) as [Hr _].
  destruct l as [k p| |k|]; simpl in *.
  - apply andb_prop in Hr as [[?%Z.leb_le ?%Z.ltb_lt]%andb_prop ?%Z.leb_le].
    rewrite (decodes_op s x k), (decodes_op s' x' k) by done.
    by rewrite (same_GPR _ x s), (same_GPR _ x' s') by apply Hx || apply Hx'.
  - unfold PSW_F0, PSW_F1, PSW_C in *.
    by rewrite !(same_psw_bit _ x s), !(same_psw_bit _ x' s') by apply Hx || apply Hx'.
  - apply andb_prop in Hr as [?%Z.leb_le ?%Z.ltb_lt].
    rewrite (decodes_op s x k), (decodes_op s' x' k) by done.
    by rewrite (same_CREG _ x s), (same_CREG _ x' s') by apply Hx || apply Hx'.
  - by rewrite (same_a x s), (same_a x' s') by apply Hx || apply Hx'.
Qed.

(** What a row writes is determined by the locations it reads. *)
Lemma row_determined s s' x x' :
  decodes d ins s x -> decodes d ins s' x' ->
  Forall (agree_at (field_at d ins) s s') (fp_reads f) -> same_modes s s' ->
  row.2.2 x = row.2.2 x' /\
  (exception s = exception s' -> exception (row.2.1 x) = exception (row.2.1 x')).
Proof.
  intros Hx Hx' Ha [Hst Hfx].
  assert (forall k, 0 <= k < fp_numops f -> op x k = op x' k) as Ho.
  { intros k Hk. by rewrite (decodes_op s x k), (decodes_op s' x' k). }
  pose proof (decodes_agree s s' x x' Hx Hx' Ha) as Hag. split.
  - apply (fp_reads_ok row f Hrow); [done..|]. split; unfold PSW_ST, PSW_FX in *;
      by rewrite (same_psw_bit _ x s), (same_psw_bit _ x' s') by apply Hx || apply Hx'.
  - intros E. apply (fp_state_reads row f Hrow); [done..|].
    by rewrite (same_exception x s), (same_exception x' s') by apply Hx || apply Hx'.
Qed.
Lemma row_same s x x' : decodes d ins s x -> decodes d ins s x' ->
  row.2.2 x = row.2.2 x' /\ exception (row.2.1 x) = exception (row.2.1 x').
Proof.
  intros Hx Hx'. destruct (row_determined s s x x') as [E E']; [done..| | |].
  - apply List.Forall_forall. intros [k p| |k|] _; done.
  - done.
  - by split; [|apply E'].
Qed.
End Row.

