(* ===== verification/PackSpec.v ===== *)
(** * Packing two instructions

    The assembler's test [parallel_ok] against the simulator: an instruction whose
    operands declare what it reads and writes does not touch anything that the sets
    computed from its word leave out, so that two instructions that pass the test can
    be run in parallel instead of in sequence. *)
From Stdlib Require Import Ascii.
From S2P Require Import Prelude CInt Opcodes State Memory Cregs.
From S2P Require Import SimopsAlu SimopsAcc SimopsFlow SimopsMem SimopsTrap Interp Logic OpRules.
From S2P Require Import Machine Decode Effects AluSpec AccSpec FlowSpec Cycle Step Parallel Footprint.
From S2P Require Import Elf Dis Asm AsmPack DisSpec Emit.
From S2P Require Import Declares.

(** ** A pair of rows *)

Lemma write_comm w1 w2 s :
  match w1, w2 with
  | W_reg n _, W_reg m _ => Z.to_nat n <> Z.to_nat m
  | W_flag _ _, W_flag _ _ | W_acc _ _, W_acc _ _ => False
  | _, _ => True
  end -> plain_write w1 -> plain_write w2 ->
  apply_write (apply_write s w1) w2 = apply_write (apply_write s w2) w1.
Proof.
  destruct w1, w2; simpl; intros Hne H1 H2; try done.
  unfold set_regs. simpl. by rewrite list_insert_insert_ne.
Qed.
Definition commute (ws1 ws2 : list write) : Prop :=
  forall s, apply_writes (ws2 ++ ws1) s = apply_writes (ws1 ++ ws2) s.
Lemma commute_all ws1 : forall ws2,
  (forall w1 w2 s, In w1 ws1 -> In w2 ws2 ->
     apply_write (apply_write s w1) w2 = apply_write (apply_write s w2) w1) -> commute ws1 ws2.
Proof.
  intros ws2. revert ws1. induction ws2 as [|w2 ws2 IH]; intros ws1 Hc s; [by rewrite app_nil_r|].
  change ((w2 :: ws2) ++ ws1) with (w2 :: (ws2 ++ ws1)).
  change (apply_writes (w2 :: (ws2 ++ ws1)) s) with (apply_writes (ws2 ++ ws1) (apply_write s w2)).
  rewrite IH by (intros; apply Hc; simpl; auto). rewrite !apply_writes_app. simpl. f_equal.
  clear IH. revert s. induction ws1 as [|w1 ws1 IH]; intros s; [done|]. simpl.
  rewrite <- IH by (intros; apply Hc; simpl; auto). f_equal. symmetry. apply Hc; simpl; auto.
Qed.

Section Rows.
Context `{Host} (d1 d2 : d10v_opcode) (f1 f2 : footprint) (r1 r2 : row_t) (i1 i2 : Z).
Context (Hd1 : packable d1 f1) (Hd2 : packable d2 f2) (Hok : parallel_ok d1 i1 d2 i2 0 = true).
Context (Hr1 : row_footprint r1 f1) (Hr2 : row_footprint r2 f2).

Lemma first_misses s x l : decodes d1 i1 s x ->
  covered d2 (declared_mod d2 ++ declared_used d2) l = true ->
  misses (field_at d2 i2) l (r1.2.2 x).
Proof.
  intros Hx Hl. eapply List.Forall_impl; [|apply (fp_writes_ok r1 f1 Hr1 x)]. intros w Hw.
  by eapply (separate d1 d2 f1 f2).
Qed.

Lemma second_reads s x : wf s -> decodes d1 i1 s x ->
  Forall (agree_at (field_at d2 i2) s (apply_writes (r1.2.2 x) s)) (fp_reads f2) /\
  same_modes s (apply_writes (r1.2.2 x) s).
Proof.
  intros Hs Hx. pose proof (row_plain d1 f1 r1 i1 Hd1 Hr1 s x Hx) as Hp. split.
  - apply List.Forall_forall. intros l Hl. destruct (packable_covers d2 f2 Hd2) as (_ & _ & Hu & _).
    destruct (Hu l Hl) as [Hr Hc]. pose proof (first_misses s x l Hx Hc) as Hm.
    destruct l as [k p| |k|]; simpl in *.
    + apply andb_prop in Hr as [[?%Z.leb_le ?%Z.ltb_lt]%andb_prop ?%Z.leb_le].
      symmetry. apply misses_regs; [|done|done]. pose proof (field_at_nonneg d2 f2 i2 k Hd2). lia.
    + unfold PSW_F0, PSW_F1, PSW_C, psw_bit, PSW, CREG. by rewrite (misses_flags _ _ s Hp Hm).
    + apply andb_prop in Hr as [?%Z.leb_le ?%Z.ltb_lt].
      symmetry. apply misses_cregs; [|done|done]. by apply (field_at_nonneg d2 f2 i2 k Hd2).
    + symmetry. by eapply misses_accs.
  - unfold same_modes, PSW_ST, PSW_FX. by rewrite !plain_psw_bit.
Qed.

Lemma writes_apart s x1 x2 w1 w2 : decodes d1 i1 s x1 -> decodes d2 i2 s x2 ->
  In w1 (r1.2.2 x1) -> In w2 (r2.2.2 x2) ->
  match w1, w2 with
  | W_reg n _, W_reg m _ => Z.to_nat n <> Z.to_nat m
  | W_flag _ _, W_flag _ _ | W_acc _ _, W_acc _ _ => False
  | _, _ => True
  end.
Proof.
  intros Hx1 Hx2 Hw1 Hw2. pose proof (proj1 (fp_writes_ok r2 f2 Hr2 x2)) as Hin2.
  pose proof (row_plain d1 f1 r1 i1 Hd1 Hr1 s x1 Hx1) as Hp1.
  rewrite List.Forall_forall in Hin2, Hp1. specialize (Hin2 w2 Hw2). specialize (Hp1 w1 Hw1).
  destruct (packable_covers d2 f2 Hd2) as (_ & Hc & _).
  assert (forall l, In l (fp_writes f2) -> ~ hits (field_at d2 i2) l w1) as Hm.
  { intros l Hl. destruct (Hc l Hl) as [_ Hcl]. pose proof (first_misses s x1 l Hx1
      (covered_weaken _ _ _ _ Hcl)) as Hm. unfold misses in Hm. rewrite List.Forall_forall in Hm. auto. }
  destruct w1 as [n v|n v|m b|n v|n v], w2 as [n' v'|n' v'|m' b'|n' v'|n' v']; try done; simpl in *.
  - destruct Hin2 as (k & p & Hl & ->). specialize (Hm _ Hl). destruct (Hc _ Hl) as [Hr _].
    simpl in Hm, Hr. apply andb_prop in Hr as [[?%Z.leb_le ?%Z.ltb_lt]%andb_prop ?%Z.leb_le].
    rewrite (decodes_op d2 f2 i2 Hd2 s x2 k) by done.
    pose proof (field_at_nonneg d2 f2 i2 k Hd2). lia.
  - exact (Hm L_flags (proj1 Hin2) I).
  - exact (Hm L_accs Hin2 I).
Qed.

Lemma rows_commute s x1 x2 : decodes d1 i1 s x1 -> decodes d2 i2 s x2 -> commute (r1.2.2 x1) (r2.2.2 x2).
Proof.
  intros Hx1 Hx2. apply commute_all. intros w1 w2 s' Hw1 Hw2.
  pose proof (row_plain d1 f1 r1 i1 Hd1 Hr1 s x1 Hx1) as Hp1.
  pose proof (row_plain d2 f2 r2 i2 Hd2 Hr2 s x2 Hx2) as Hp2. rewrite List.Forall_forall in Hp1, Hp2.
  apply write_comm; [by apply (writes_apart s x1 x2)|auto|auto].
Qed.

Lemma no_flags_quiet ws ws' : Forall plain_write ws -> existsb is_flag ws = false -> quiet ws ws' = true.
Proof.
  intros Hp Hf. unfold quiet. apply orb_true_iff. right. apply (no_flags_fresh (fun _ => 0)); [done|].
  apply List.Forall_forall. intros w Hw Hh. destruct w; try done.
  assert (existsb is_flag ws = true) as Ht by (apply existsb_exists; by eexists).
  by rewrite Ht in Hf.
Qed.
Lemma rows_quiet s x1 x2 : decodes d1 i1 s x1 -> decodes d2 i2 s x2 ->
  quiet (r1.2.2 x1) (r2.2.2 x2) = true /\ quiet (r2.2.2 x2) (r1.2.2 x1) = true.
Proof.
  intros Hx1 Hx2. pose proof (row_plain d1 f1 r1 i1 Hd1 Hr1 s x1 Hx1) as Hp1.
  pose proof (row_plain d2 f2 r2 i2 Hd2 Hr2 s x2 Hx2) as Hp2.
  destruct (existsb is_flag (r1.2.2 x1)) eqn:E1; [|split; [by apply no_flags_quiet|]].
  - assert (existsb is_flag (r2.2.2 x2) = false) as E2.
    { apply not_true_iff_false. intros (w2 & Hw2 & F2)%existsb_exists.
      apply existsb_exists in E1 as (w1 & Hw1 & F1).
      pose proof (writes_apart s x1 x2 w1 w2 Hx1 Hx2 Hw1 Hw2). by destruct w1, w2. }
    split; [unfold quiet; by rewrite E2|by apply no_flags_quiet].
  - unfold quiet. by rewrite E1.
Qed.
End Rows.

(** ** Running one instruction of a pair *)

Lemma apply_writes_pc ws : forall s, pc_changed (apply_writes ws s) = pc_changed s.
Proof. induction ws as [|w ws IH]; intros s; simpl; [done|]. rewrite IH. by destruct w. Qed.
Lemma apply_writes_exception ws : forall s, exception (apply_writes ws s) = exception s.
Proof. induction ws as [|w ws IH]; intros s; simpl; [done|]. rewrite IH. by destruct w. Qed.
Lemma plain_next_pc ws s : wf s -> Forall plain_write ws ->
  next_pc_writes (apply_writes ws s) = next_pc_writes s.
Proof.
  intros Hs Hp. unfold next_pc_writes, at_loop_end, next_word, PSW_RP, PC, RPT_C, RPT_S, RPT_E.
  by rewrite apply_writes_pc, !plain_CREG, plain_psw_bit.
Qed.
Lemma plain_no_break ws s : wf s -> Forall plain_write ws -> no_break s -> no_break (apply_writes ws s).
Proof.
  intros Hs Hp. unfold no_break, PSW_DB, PC, IBA. by rewrite !plain_CREG, plain_psw_bit.
Qed.
Lemma same_slot s s' : same s s' -> slot s = slot s'.
Proof. by apply same_read. Qed.

Lemma small_operand d f ins s x : packable d f -> decodes d ins s x -> 1 < fp_numops f -> op x 1 < 16.
Proof.
  intros Hd Hx Hn. rewrite (decodes_op d f ins Hd s x 1) by (done || lia).
  destruct (packable_covers d f Hd) as (En & _). rewrite En in Hn. destruct Hd as (Hin & Hs & Hf & _).
  assert (forallb (fun d => negb (is_short d) || (gen_numops (operands d) <=? 1) ||
    match find_footprint (opcode d) with None => true | Some _ =>
      (0 <=? znth (so_operands (gen_simop d)) 4) && (znth (so_operands (gen_simop d)) 4 <=? 4) end)
    table_ops = true) as Ha by (vm_compute; reflexivity).
  rewrite forallb_forall in Ha. specialize (Ha d Hin). rewrite Hs, Hf, (proj2 (Z.leb_gt _ _) Hn) in Ha.
  simpl orb in Ha. apply andb_prop in Ha as [H0%Z.leb_le H4%Z.leb_le]. unfold field_at.
  change (3 * 1 + 1) with 4. set (b := znth _ 4) in *.
  assert (2 ^ b <= 2 ^ 4) by (apply Z.pow_le_mono_r; lia).
  pose proof (Z.mod_pos_bound (ins / 2 ^ znth (so_operands (gen_simop d)) (3 * 1)) (2 ^ b)
    ltac:(by apply Z.pow_pos_nonneg)). lia.
Qed.

Section Stage.
Context `{Host} (d : d10v_opcode) (f : footprint) (row : row_t) (ins : Z).
Context (Hd : packable d f) (Hrow : row_ok row f).

Lemma run_row : run_func (gen_simop d) = row.1.
Proof.
  destruct (packable_covers d f Hd) as (_ & _ & _ & _ & Hc). unfold run_func. cbn [gen_simop so_func].
  by rewrite <- Hc, (fp_function row f (proj1 Hrow)).
Qed.
Lemma packable_real : In (gen_simop d) real_simops.
Proof. rewrite real_simops_gen. apply in_map, Hd. Qed.

(** The writes at [s], and the exception *)
Definition row_writes (s : state) : list write := row.2.2 (decoded (gen_simop d) ins INS_LEFT s).
Definition row_exception (s : state) : Z := exception (row.2.1 (decoded (gen_simop d) ins INS_LEFT s)).

Lemma decoded_at t y s : inv y -> same y s ->
  inv (decoded (gen_simop d) ins t y) /\ decodes d ins s (decoded (gen_simop d) ins t y).
Proof.
  intros Hy Es. split; [by apply decoded_inv; [apply packable_real|]|].
  destruct (decodes_decoded d ins t y) as [? Ho]; [apply Hd|]. split; [|exact Ho].
  etransitivity; [apply same_decoded|exact Es].
Qed.
Lemma stage x s : inv x -> decodes d ins s x -> row_exception s = 0 ->
  let z := row.2.1 x in
  queues (run_func (gen_simop d)) x z (row_writes s) /\ inv z /\ same z s /\ exception z = 0.
Proof.
  intros Hi Hx He z. assert (decodes d ins s (decoded (gen_simop d) ins INS_LEFT s)) as Hc by (apply decodes_decoded, Hd).
  destruct (row_same d f row ins Hd (proj1 Hrow) s _ _ Hc Hx) as [Ew Ee].
  assert (exception z = 0) as Hz by (unfold z; by rewrite <- Ee).
  pose proof (fp_state_ok row f (proj1 Hrow) x Hz) as Hzx.
  split; [|split; [|split; [|done]]].
  - unfold row_writes. rewrite Ew, run_row. apply (proj2 Hrow); [done|].
    by apply (small_operand d f ins s x Hd Hx).
  - split; [apply (fp_state_wf row f (proj1 Hrow)), Hi|]. rewrite (same_slot z x Hzx). apply Hi.
  - etransitivity; [exact Hzx|apply Hx].
Qed.

Lemma row_writes_plain s : Forall plain_write (row_writes s) /\ (length (row_writes s) <= 4)%nat.
Proof.
  split; [|apply (fp_writes_ok row f (proj1 Hrow))].
  apply (row_plain d f row ins Hd (proj1 Hrow) s). apply decodes_decoded, Hd.
Qed.

(** An instruction that ends without an exception *)
Definition no_error (s : state) : Prop :=
  wp (run_func (gen_simop d)) (decoded (gen_simop d) ins INS_LEFT s) (fun _ s' => exception s' = 0).
Lemma no_error_row s : inv s -> no_error s -> row_exception s = 0.
Proof.
  intros Hs. unfold no_error. rewrite run_row.
  assert (decodes d ins s (decoded (gen_simop d) ins INS_LEFT s)) as Hx by (apply decodes_decoded, Hd).
  assert (inv (decoded (gen_simop d) ins INS_LEFT s)) as Hi
    by (apply decoded_inv; [apply packable_real|done]).
  pose proof (queues_issues _ _ _ _ (proj2 Hrow _ Hi (small_operand d f ins s _ Hd Hx)) (proj2 Hi)) as Hq.
  revert Hq. unfold issues, wp, row_exception. destruct (row.1 _) as [[] s'| | |]; try done.
  intros Hp E. by destruct (pend_read_all _ _ _ Hp) as (l & t & ->).
Qed.
End Stage.

(** [i] is a word of the opcode [d]. *)
Definition word_for (d : d10v_opcode) (i : Z) : Prop :=
  short_word i /\ find (hash_matches i 0) linear_table = Some (entry_of (gen_simop d)).

Lemma execute_start_inv s : inv s -> inv (execute_start s).
Proof. apply inv_start. Qed.

Section Two.
Context `{Host} (d d' : d10v_opcode) (f f' : footprint) (r r' : row_t) (i i' : Z) (s : state).
Context (Hd : packable d f) (Hd' : packable d' f') (Hr : row_ok r f) (Hr' : row_ok r' f').
Context (Hi : word_for d i) (Hi' : word_for d' i') (Hs : inv s) (Hb : no_break s).
Context (Hx : row_exception d r i (execute_start s) = 0).

Let s0 : state := execute_start s.
Let ws : list write := row_writes d r i s0.

(** [d] in the left container, [d'] in the right one, in parallel *)
Lemma execute_both :
  exec_type d <> PARONLY -> exec_type d' <> PARONLY ->
  row_exception d' r' i' s0 = 0 -> quiet ws (row_writes d' r' i' s0) = true ->
  exists t z, execute (word_of FM00 i i') s =
    Ret true (set_trace_psw t (apply_writes ((ws ++ row_writes d' r' i' s0) ++ next_pc_writes z) z)) /\
    same z s0.
Proof.
  intros Hp Hp' Hx' Hq. destruct (word_of_parts FM00 i i') as (Efm & El & Er); [apply Hi|apply Hi'|by left|].
  assert (inv s0) as Hs0 by by apply execute_start_inv.
  destruct (decoded_at d f i Hd INS_LEFT_PARALLEL (counted INS_PARALLEL s0) s0) as [Hx1 Hdx1];
    [by apply inv_counted|apply same_counted|].
  set (x1 := decoded _ _ _ _) in *. set (z1 := r.2.1 x1).
  destruct (stage d f r i Hd Hr x1 s0) as (Hq1 & Hz1 & E1 & He1); [done..|]. fold z1 in Hq1, Hz1, E1, He1.
  destruct (decoded_at d' f' i' Hd' INS_RIGHT_PARALLEL z1 s0) as [Hx2 Hdx2]; [done..|].
  set (x2 := decoded _ _ _ z1) in *. set (z2 := r'.2.1 x2).
  destruct (stage d' f' r' i' Hd' Hr' x2 s0) as (Hq2 & Hz2 & E2 & He2); [done..|]. fold z2 in Hq2, Hz2, E2, He2.
  destruct (row_writes_plain d f r i Hd Hr s0) as [Hpl Hlen].
  destruct (row_writes_plain d' f' r' i' Hd' Hr' s0) as [Hpl' Hlen'].
  destruct (execute_dispatch s (word_of FM00 i i') z2 (ws ++ row_writes d' r' i' s0)) as [t E].
  - apply Hz2.
  - eapply (dispatch_both s _ (gen_simop d) (gen_simop d') z1 ws z2); rewrite ?El, ?Er;
      [apply Hs|exact Efm|apply Hi|apply Hi'|done|done| |apply Hz1|done|exact Hq2| |done].
    + apply queues_issues; [exact Hq1|]. apply Hs.
    + unfold ws. lia.
  - intros _. split; [rewrite length_app; unfold ws; lia|]. apply plain_loop_fresh.
    by apply Forall_app.
  - eapply same_no_break; [symmetry; exact E2|exact Hb].
  - exists t, z2. by rewrite E.
Qed.

(** The word that runs [d] and then [d'] *)
Definition sequence_word (lr : _leftright) : Z :=
  match lr with LEFT_FIRST => word_of FM01 i i' | RIGHT_FIRST => word_of FM10 i' i end.
Lemma sequence_word_parts lr :
  Z.land (sequence_word lr) 0xC0000000 = order_format lr /\
  first_ins lr (sequence_word lr) = i /\ second_ins lr (sequence_word lr) = i'.
Proof.
  destruct Hi as [? _], Hi' as [? _]. destruct lr; simpl.
  - by destruct (word_of_parts FM01 i i') as (? & ? & ?); auto.
  - by destruct (word_of_parts FM10 i' i) as (? & ? & ?); auto.
Qed.

Lemma execute_sequence lr :
  let s1 := apply_writes ws s0 in
  exception s0 = 0 -> row_exception d' r' i' s1 = 0 ->
  exists t z, execute (sequence_word lr) s =
    Ret true (set_trace_psw t (apply_writes (row_writes d' r' i' s1 ++ next_pc_writes z) z)) /\
    same z s1.
Proof.
  intros s1 He Hx'. destruct (sequence_word_parts lr) as (Efm & El & Er).
  assert (inv s0) as Hs0 by by apply execute_start_inv.
  destruct (decoded_at d f i Hd (first_type lr) (counted (pair_type lr) s0) s0) as [Hx1 Hdx1];
    [by apply inv_counted|apply same_counted|].
  set (x1 := decoded _ _ _ _) in *. set (z1 := r.2.1 x1).
  destruct (stage d f r i Hd Hr x1 s0) as (Hq1 & Hz1 & E1 & He1); [done..|]. fold z1 in Hq1, Hz1, E1, He1.
  assert (issues (run_func (gen_simop d)) x1 z1 ws) as Hiss
    by (apply queues_issues; [exact Hq1|apply Hs]).
  pose proof (issued_inv (gen_simop d) x1 z1 ws Hx1 Hiss) as Hm.
  assert (same (apply_writes ws z1) s1) as Em by (unfold s1; by rewrite E1).
  destruct (decoded_at d' f' i' Hd' (second_type lr) (apply_writes ws z1) s1) as [Hx2 Hdx2]; [done..|].
  apply (inv_counted INS_CYCLES) in Hx2.
  apply (decodes_same _ _ _ _ (counted INS_CYCLES (decoded (gen_simop d') i' (second_type lr)
    (apply_writes ws z1)))) in Hdx2; [|done|done].
  set (x2 := counted INS_CYCLES _) in *. set (z2 := r'.2.1 x2).
  destruct (stage d' f' r' i' Hd' Hr' x2 s1) as (Hq2 & Hz2 & E2 & He2); [done..|]. fold z2 in Hq2, Hz2, E2, He2.
  destruct (row_writes_plain d f r i Hd Hr s0) as [Hpl Hlen].
  destruct (row_writes_plain d' f' r' i' Hd' Hr' s1) as [Hpl' Hlen'].
  destruct (execute_dispatch s (sequence_word lr) z2 (row_writes d' r' i' s1)) as [t E].
  - apply Hz2.
  - eapply (dispatch_sequential s lr _ (gen_simop d) (gen_simop d') z1 ws); rewrite ?El, ?Er;
      [apply Hs|exact Efm|apply Hi|apply Hi'|exact Hiss|apply Hz1| |done|].
    + by rewrite (same_pc_changed z1 s0 E1).
    + unfold second_state. rewrite Er. apply queues_issues; [exact Hq2|apply Hx2].
  - intros _. split; [lia|by apply plain_loop_fresh].
  - eapply same_no_break; [symmetry; exact E2|]. by apply plain_no_break; [apply Hs0|..].
  - exists t, z2. by rewrite E.
Qed.
End Two.

(** ** The optimisation *)

(** [pack_2_short] with and without the option -O, for two instructions that pass the
    test *)
Lemma pack_words d1 i1 d2 i2 a a' :
  parallel_ok d1 i1 d2 i2 0 = true -> truth (Optimizing a) = true -> truth (Optimizing a') = false ->
  let swapped := (unit_ d1 =? IU) || (unit_ d2 =? MU) in
  exists nx nx',
    pack_2_short d1 i1 d2 i2 0 a = Ok (if swapped then word_of FM00 i2 i1 else word_of FM00 i1 i2, nx) a /\
    pack_2_short d1 i1 d2 i2 0 a' =
      Ok (if unit_ d1 =? IU then word_of FM10 i2 i1 else word_of FM01 i1 i2, nx') a'.
Proof.
  intros Hok Ho Ho'. unfold pack_2_short, abind, aget. cbv zeta. rewrite Ho, Ho', Hok.
  change (0 =? 0) with true. cbv iota. simpl andb.
  destruct (unit_ d1 =? IU), (unit_ d2 =? MU); by eexists _, _.
Qed.

(** The error exits look at registers only, and not at what precedes the word. *)
Lemma row_agree `{Host} d f r i y y' : packable d f -> row_ok r f ->
  Forall (agree_at (field_at d i) y y') (fp_reads f) -> same_modes y y' -> exception y = exception y' ->
  row_writes d r i y = row_writes d r i y' /\ row_exception d r i y = row_exception d r i y'.
Proof.
  intros Hd Hr Ha Hm He. unfold row_writes, row_exception.
  destruct (row_determined d f r i Hd (proj1 Hr) y y' (decoded (gen_simop d) i INS_LEFT y)
    (decoded (gen_simop d) i INS_LEFT y')) as [Ew Ee];
    [by apply decodes_decoded, Hd|by apply decodes_decoded, Hd|done|done|]. auto.
Qed.
Lemma start_no_error `{Host} d f r i s : packable d f -> row_ok r f -> inv s -> no_error d i s ->
  row_exception d r i (execute_start s) = 0.
Proof.
  intros Hd Hr Hs Hn. destruct (row_agree d f r i s (execute_start s) Hd Hr) as [_ <-]; try done.
  - apply List.Forall_forall. intros [k p| |k|] _; done.
  - by apply (no_error_row d f).
Qed.
Lemma same_writes t ws y z : same z y -> same (set_trace_psw t (apply_writes ws z)) (apply_writes ws y).
Proof. intros E. etransitivity; [apply same_trace|]. by rewrite E. Qed.

Section Optimisation.
Context `{Host} (d1 d2 : d10v_opcode) (f1 f2 : footprint) (r1 r2 : row_t) (i1 i2 : Z) (s : state).
Context (Hd1 : packable d1 f1) (Hd2 : packable d2 f2) (Hok : parallel_ok d1 i1 d2 i2 0 = true).
Context (Hr1 : row_ok r1 f1) (Hr2 : row_ok r2 f2).
Context (Hi1 : word_for d1 i1) (Hi2 : word_for d2 i2) (Hs : inv s) (Hb : no_break s).
Context (He : exception s = 0) (Hn1 : no_error d1 i1 s) (Hn2 : no_error d2 i2 s).

Let s0 : state := execute_start s.
Let ws1 : list write := row_writes d1 r1 i1 s0.
Let ws2 : list write := row_writes d2 r2 i2 s0.
(** Both results *)
Let result : state := apply_writes (ws1 ++ ws2 ++ next_pc_writes s0) s0.

Lemma decodes_start d f i : packable d f -> decodes d i s0 (decoded (gen_simop d) i INS_LEFT s0).
Proof. intros Hd. apply decodes_decoded, Hd. Qed.

Lemma parallel_result :
  exists t, execute (if (unit_ d1 =? IU) || (unit_ d2 =? MU) then word_of FM00 i2 i1 else word_of FM00 i1 i2) s
              = Ret true t /\ same t result.
Proof.
  destruct (parallel_ok_types d1 d2 i1 i2 Hok) as [Hp1 Hp2].
  pose proof (decodes_start d1 f1 i1 Hd1) as Hc1. pose proof (decodes_start d2 f2 i2 Hd2) as Hc2.
  destruct (rows_quiet d1 d2 f1 f2 r1 r2 i1 i2 Hd1 Hd2 Hok (proj1 Hr1) (proj1 Hr2) s0 _ _ Hc1 Hc2) as [Hq Hq'].
  pose proof (start_no_error d1 f1 r1 i1 s Hd1 Hr1 Hs Hn1) as Hx1.
  pose proof (start_no_error d2 f2 r2 i2 s Hd2 Hr2 Hs Hn2) as Hx2.
  destruct ((unit_ d1 =? IU) || (unit_ d2 =? MU)).
  - destruct (execute_both d2 d1 f2 f1 r2 r1 i2 i1 s) as (t & z & E & Ez); [done..|].
    eexists. split; [exact E|]. etransitivity; [by apply same_writes|].
    rewrite (same_next_pc z s0 Ez). unfold result. rewrite app_assoc, !(apply_writes_app (_ ++ _)).
    fold s0. f_equiv.
    rewrite (rows_commute d1 d2 f1 f2 r1 r2 i1 i2 Hd1 Hd2 Hok (proj1 Hr1) (proj1 Hr2) s0 _ _ Hc1 Hc2).
    done.
  - destruct (execute_both d1 d2 f1 f2 r1 r2 i1 i2 s) as (t & z & E & Ez); [done..|].
    eexists. split; [exact E|]. etransitivity; [by apply same_writes|].
    rewrite (same_next_pc z s0 Ez). unfold result. by rewrite app_assoc.
Qed.

Lemma sequence_result lr :
  exists t, execute (sequence_word i1 i2 lr) s = Ret true t /\ same t result.
Proof.
  pose proof (decodes_start d1 f1 i1 Hd1) as Hc1.
  pose proof (start_no_error d1 f1 r1 i1 s Hd1 Hr1 Hs Hn1) as Hx1.
  pose proof (start_no_error d2 f2 r2 i2 s Hd2 Hr2 Hs Hn2) as Hx2.
  assert (wf s0) as Hs0 by apply (execute_start_inv s Hs).
  destruct (second_reads d1 d2 f1 f2 r1 i1 i2 Hd1 Hd2 Hok (proj1 Hr1) s0 _ Hs0 Hc1) as [Ha Hm].
  destruct (row_agree d2 f2 r2 i2 s0 (apply_writes ws1 s0) Hd2 Hr2) as [Ew Ex];
    [done|done|by rewrite apply_writes_exception|].
  destruct (row_writes_plain d1 f1 r1 i1 Hd1 Hr1 s0) as [Hpl _].
  destruct (execute_sequence d1 d2 f1 f2 r1 r2 i1 i2 s Hd1 Hd2 Hr1 Hr2 Hi1 Hi2 Hs Hb Hx1 lr)
    as (t & z & E & Ez); [done|exact (eq_trans (eq_sym Ex) Hx2)|].
  eexists. split; [exact E|]. etransitivity; [by apply same_writes|].
  rewrite (same_next_pc _ _ Ez), plain_next_pc by done. unfold result.
  rewrite !apply_writes_app. fold s0 ws1. by rewrite <- Ew.
Qed.
End Optimisation.

(** C5: The assembler's optimisation is correct.  For two short instructions on
    registers, flags and accumulators that declare what they touch, in words that
    [parallel_ok] accepts, the word that the assembler packs with -O, where they run in
    parallel in either order of the containers, leaves the simulator in the same state
    as the word that it packs without, where they run in sequence, provided that
    neither instruction ends in an error exit: the same registers, accumulators,
    memory, PC and hardware loop; only the last operands and the counters differ. *)
Theorem packing_preserves `{Host} d1 f1 i1 d2 f2 i2 a a' s :
  packable d1 f1 -> packable d2 f2 -> word_for d1 i1 -> word_for d2 i2 ->
  parallel_ok d1 i1 d2 i2 0 = true -> truth (Optimizing a) = true -> truth (Optimizing a') = false ->
  inv s -> exception s = 0 -> no_break s -> no_error d1 i1 s -> no_error d2 i2 s ->
  exists w nx w' nx' t t',
    pack_2_short d1 i1 d2 i2 0 a = Ok (w, nx) a /\ pack_2_short d1 i1 d2 i2 0 a' = Ok (w', nx') a' /\
    execute w s = Ret true t /\ execute w' s = Ret true t' /\ same t t'.
Proof.
  intros Hd1 Hd2 Hi1 Hi2 Hok Ho Ho' Hs He Hb Hn1 Hn2.
  destruct (pack_words d1 i1 d2 i2 a a' Hok Ho Ho') as (nx & nx' & Ew & Ew').
  destruct (packable_covers d1 f1 Hd1) as (_ & _ & _ & Hf1 & _).
  destruct (packable_covers d2 f2 Hd2) as (_ & _ & _ & Hf2 & _).
  destruct (footprint_row f1 Hf1) as [r1 Hr1], (footprint_row f2 Hf2) as [r2 Hr2].
  destruct (parallel_result d1 d2 f1 f2 r1 r2 i1 i2 s) as (t & E & Et); [done..|].
  destruct (sequence_result d1 d2 f1 f2 r1 r2 i1 i2 s Hd1 Hd2 Hok Hr1 Hr2 Hi1 Hi2 Hs Hb He Hn1 Hn2
    (if unit_ d1 =? IU then RIGHT_FIRST else LEFT_FIRST)) as (t' & E' & Et').
  eexists _, nx, _, nx', t, t'. split; [exact Ew|split; [exact Ew'|split; [exact E|split]]].
  - rewrite <- E'. by destruct (unit_ d1 =? IU).
  - by etransitivity.
Qed.

(** ** Witnesses *)

Definition opcode_named (c : Z) : d10v_opcode :=
  default null_opcode (find (fun d => (opcode d =? c) && is_real d) d10v_opcodes).
Lemma opcode_named_in c : is_real (opcode_named c) = true -> In (opcode_named c) table_ops.
Proof.
  unfold opcode_named. destruct (find _ _) as [d|] eqn:E; [|discriminate].
  intros Hr. apply find_some in E as [Hin _]. apply in_table_ops. by split.
Qed.
Definition footprint_of (c : Z) : footprint := default (Footprint 0 0 [] []) (find_footprint c).
Definition packable_code (c : Z) : bool :=
  is_real (opcode_named c) && is_short (opcode_named c) && (opcode (opcode_named c) =? c) &&
  match find_footprint c with Some f => declares (opcode_named c) f | None => false end.
Lemma packable_named c : packable_code c = true -> packable (opcode_named c) (footprint_of c).
Proof.
  unfold packable_code, packable, footprint_of. intros H.
  apply andb_prop in H as [[[Hr Hs]%andb_prop Hc%Z.eqb_eq]%andb_prop Hf]. rewrite Hc.
  destruct (find_footprint c) as [f|]; [|discriminate].
  split; [exact (opcode_named_in c Hr)|done].
Qed.
Definition insn_of (c : Z) (l : list Z) : Z := encode (gen_simop (opcode_named c)) l.

(** r1 = 2, r2 = 1, r3 = 7; a0 = 100 *)
Definition pack_state : state :=
  at_values [0; 2; 1; 7; 0; 0; 0; 0; 0; 0; 0; 0; 0; 0; 0; 0] [100; 0] [0; 0; 0; 0] 0.
Lemma pack_state_inv : inv pack_state.
Proof. apply inv_at_values. vm_compute. reflexivity. Qed.
Definition with_O (opt : Z) : asm := Asm opt 0 [] [] false None 0 0 0 0 1 0 [] [].
Definition run_word {H : Host} (w : Z) : state :=
  match execute w pack_state with Ret _ s => s | _ => pack_state end.

Lemma word_for_named c l : packable_code c = true ->
  (0 <=? insn_of c l) && (insn_of c l <? 2 ^ 15) &&
  bool_decide (find (hash_matches (insn_of c l) 0) linear_table = Some (entry_of (gen_simop (opcode_named c)))) = true ->
  word_for (opcode_named c) (insn_of c l).
Proof.
  intros _ H. apply andb_prop in H as [[H0%Z.leb_le H1%Z.ltb_lt]%andb_prop Hf].
  apply bool_decide_eq_true in Hf. by split.
Qed.
(** [add r0, r1] and [mul r2, r3] *)
Lemma packing_preserves_witness : exists w nx w' nx' t t',
  pack_2_short (opcode_named 0x200) (insn_of 0x200 [0; 1]) (opcode_named 0x2E00) (insn_of 0x2E00 [2; 3]) 0
    (with_O 1) = Ok (w, nx) (with_O 1) /\
  pack_2_short (opcode_named 0x200) (insn_of 0x200 [0; 1]) (opcode_named 0x2E00) (insn_of 0x2E00 [2; 3]) 0
    (with_O 0) = Ok (w', nx') (with_O 0) /\
  @execute plain_host w pack_state = Ret true t /\ @execute plain_host w' pack_state = Ret true t' /\
  same t t'.
Proof.
  apply (@packing_preserves plain_host _ (footprint_of 0x200) _ _ (footprint_of 0x2E00)).
  - apply packable_named. vm_compute. reflexivity.
  - apply packable_named. vm_compute. reflexivity.
  - apply word_for_named; vm_compute; reflexivity.
  - apply word_for_named; vm_compute; reflexivity.
  - vm_compute. reflexivity.
  - reflexivity.
  - reflexivity.
  - exact pack_state_inv.
  - vm_compute. reflexivity.
  - vm_compute. reflexivity.
  - vm_compute. reflexivity.
  - vm_compute. reflexivity.
Defined.

(** The two instructions that do not declare what they touch make [parallel_ok]
    wrong.  It accepts [mv r3, r1] before [sub a0, r2], which also reads r3, and
    [subi r2, #1] before [mvfc r4, psw], which reads the carry; from the same state
    the word that is packed with -O then gives another accumulator, and another r4,
    than the word that is packed without. *)
Theorem undeclared_wrong :
  (parallel_ok (opcode_named 0x4000) (insn_of 0x4000 [3; 1]) (opcode_named 0x1001) (insn_of 0x1001 [0; 2]) 0
     = true /\
   a (@run_word plain_host (word_of FM00 (insn_of 0x4000 [3; 1]) (insn_of 0x1001 [0; 2]))) <>
   a (@run_word plain_host (word_of FM01 (insn_of 0x4000 [3; 1]) (insn_of 0x1001 [0; 2])))) /\
  (parallel_ok (opcode_named 0x1) (insn_of 0x1 [2; 1]) (opcode_named 0x5200) (insn_of 0x5200 [4; 0]) 0
     = true /\
   regs (@run_word plain_host (word_of FM00 (insn_of 0x5200 [4; 0]) (insn_of 0x1 [2; 1]))) <>
   regs (@run_word plain_host (word_of FM01 (insn_of 0x1 [2; 1]) (insn_of 0x5200 [4; 0])))).
Proof. repeat split; try (vm_compute; reflexivity); vm_compute; discriminate. Qed.
