(* ===== verification/Words.v ===== *)
(** * Sequences of instruction words

    Running a piece of code that is single instructions and pairs of a test and an
    instruction, in terms of the rows of [alu_table]: which registers and flags are
    written. *)
From S2P Require Import Prelude CInt Opcodes State Memory Cregs.
From S2P Require Import SimopsAlu SimopsAcc SimopsFlow SimopsMem SimopsTrap Interp Logic OpRules.
From S2P Require Import Machine Decode Effects AluSpec AccSpec FlowSpec Cycle Step Parallel Footprint NumSpec MemSpec Prologue Elf Dis Asm AsmPack DisSpec Emit.

(** A word of two short instructions in parallel *)
Inductive code := Single (i : bool * Z) | Pair (w : Z).

Section Run.
Context `{Host}.

Definition exec_code (c : code) : M unit :=
  match c with Single i => exec_insn i | Pair w => dispatch w ;; SLOT_FLUSH end.
Definition exec_codes (l : list code) : M unit := fold_right (fun c (m : M unit) => exec_code c ;; m) skip l.

(** ** States up to what the next instruction overwrites *)

(** What [same] leaves out, and the result of the last test *)
Definition akin (s s' : state) : Prop := same (set_exe 0 s) (set_exe 0 s').
#[export] Instance akin_equiv : Equivalence akin.
Proof. unfold akin. split; [by intros ?|by intros ? ? ->|by intros ? ? ? -> ->]. Qed.
Lemma set_exe_writes ws : forall s, set_exe 0 (apply_writes ws s) = apply_writes ws (set_exe 0 s).
Proof. induction ws as [|w ws IH]; intros s; simpl; [done|]. rewrite IH. by destruct w. Qed.
#[export] Instance apply_writes_akin ws : Proper (akin ==> akin) (apply_writes ws).
Proof. unfold akin. intros s s' E. rewrite !set_exe_writes. by apply apply_writes_same. Qed.
Lemma akin_trace t s : akin (set_trace_psw t s) s.
Proof. done. Qed.
Lemma akin_read {A} (f : state -> A) s s' :
  (forall s, f (erase s) = f s) -> (forall s, f (set_exe 0 s) = f s) -> akin s s' -> f s = f s'.
Proof. intros Hf He E. rewrite <- (He s), <- (He s'). by apply same_read. Qed.
Lemma akin_GPR n s s' : akin s s' -> GPR s n = GPR s' n.
Proof. by apply (akin_read (fun s => GPR s n)). Qed.
Lemma akin_psw m s s' : akin s s' -> psw_bit s m = psw_bit s' m.
Proof. by apply (akin_read (fun s => psw_bit s m)). Qed.

(** ** Instructions *)

Definition is_long (o : simops) : bool := truth (so_is_long o).
Definition single (o : simops) (vals : list Z) : code := Single (is_long o, encode o vals).

(** [o] is an instruction whose row is [row]. *)
Record regular (o : simops) (row : M unit * ((state -> state) * (state -> list write))) : Prop := {
  rg_row : In row alu_table;
  rg_in : In o real_simops;
  rg_func : run_func o = row.1;
  rg_exec : so_exec_type o <> PARONLY;
  rg_long : so_is_long o = if is_long o then 1 else 0;
  rg_found : forall vals, encodable o vals ->
    find (hash_matches (encode o vals) (so_is_long o)) linear_table = Some (entry_of o)
}.
(** For the instruction with the opcode [f] all this is computed. *)
Lemma regular_named f row : In row alu_table -> run_func (simop_named f) = row.1 ->
  (bool_decide (is_Some (find (fun o => so_opcode o =? f) real_simops)) && first_of_its_words f
   && negb (so_exec_type (simop_named f) =? PARONLY) && (so_is_long (simop_named f) =? if is_long (simop_named f) then 1 else 0)) = true ->
  regular (simop_named f) row.
Proof.
  intros Hr Hf Hc. apply andb_prop in Hc as [[[Hn%bool_decide_eq_true Hw]%andb_prop He%negb_true_iff]%andb_prop Hl%Z.eqb_eq].
  assert (In (simop_named f) real_simops) as Hin.
  { apply simop_named_in. destruct Hn as [o Ho]. rewrite Ho. discriminate. }
  split; [exact Hr|exact Hin|exact Hf|by apply Z.eqb_neq|exact Hl|].
  intros vals Hv. apply find_first_of_its_words; [exact Hw|]. by apply encode_matches.
Qed.

Lemma rows_keep row x : In row alu_table -> akin (row.2.1 x) x.
Proof.
  intros Hr. assert (Forall (fun row => forall x, akin (row.2.1 x) x) alu_table) as Ha.
  { unfold alu_table. repeat apply List.Forall_cons; [..|apply List.Forall_nil]; intros y; cbn [fst snd];
      unfold plain, with_imm16; try case_match; done. }
  rewrite List.Forall_forall in Ha. by apply Ha.
Qed.
Lemma rows_queue row x : In row alu_table -> inv x -> queues row.1 x (row.2.1 x) (row.2.2 x).
Proof. intros Hr Hx. pose proof alu_queues as Ha. rewrite List.Forall_forall in Ha. by apply Ha. Qed.

(** What an instruction sees: the state, and its operands *)
Record sees (vals : list Z) (s x : state) : Prop := {
  se_inv : inv x;
  se_same : akin x s;
  se_op : forall k v, vals !! k = Some v -> op x (Z.of_nat k) = v
}.
Lemma operands_of_encoded o vals s k v : In o real_simops -> encodable o vals -> vals !! k = Some v ->
  nth k (operands_of o (encode o vals) s) 0 = v.
Proof.
  intros Hin Hv Hk. destruct (encode_fields_ok o Hin) as (_ & _ & Hn & _).
  destruct (Forall2_lookup_r _ _ _ _ _ Hv Hk) as (f & Hf & _).
  pose proof (lookup_lt_Some _ _ _ Hf) as Hlt. pose proof (numops_range o Hin) as Hr.
  pose proof (encode_field o vals Hin Hv k f v Hf Hk) as Ev. rewrite (fields_lookup _ k f Hf) in Ev. cbn [fst snd] in Ev.
  assert (In (Z.of_nat k) [0; 1; 2; 3]) as Hk4 by (simpl; lia).
  assert (k = 0 \/ k = 1 \/ k = 2 \/ k = 3)%nat as Hc by lia. unfold operands_of.
  destruct Hc as [-> |[-> |[-> | ->]]]; cbn [map nth]; rewrite (proj2 (Z.ltb_lt _ _)) by lia; exact Ev.
Qed.
Lemma sees_decoded o vals t s : In o real_simops -> encodable o vals -> inv s ->
  sees vals s (decoded o (encode o vals) t s).
Proof.
  intros Hin Hv Hs. split; [by apply decoded_inv|done|].
  intros k v Hk. unfold op, znth. rewrite Nat2Z.id. by apply (operands_of_encoded o vals s).
Qed.
(** ** The result of running *)

(** From [s] the code [l] leads to [s'], in which the registers and flags [ws] have been
    written. *)
Definition runs_to (l : list code) (s s' : state) (ws : list write) : Prop :=
  exec_codes l s = Ret tt s' /\ inv s' /\ akin s' (apply_writes ws s).
Lemma runs_nil s : inv s -> runs_to [] s s [].
Proof. intros Hs. split; [done|split; [exact Hs|done]]. Qed.
Lemma runs_cons c l s s' s'' ws ws' : runs_to [c] s s' ws -> runs_to l s' s'' ws' -> runs_to (c :: l) s s'' (ws ++ ws').
Proof.
  intros (E & _ & Es) (E' & Hi & Es'). cbn [exec_codes fold_right] in E. unfold bind in E.
  destruct (exec_code c s) as [[] s1| | |] eqn:Ec; [|discriminate..]. unfold skip, ret in E. injection E as ->.
  split; [|split; [exact Hi|]].
  - cbn [exec_codes fold_right]. unfold bind. by rewrite Ec.
  - rewrite Es', apply_writes_app. by apply apply_writes_akin.
Qed.
Lemma exec_codes_app l l' : forall s s1, exec_codes l s = Ret tt s1 -> exec_codes (l ++ l') s = exec_codes l' s1.
Proof.
  induction l as [|c l IH]; intros s s1 E; [by injection E as ->|].
  cbn [exec_codes fold_right app] in *. unfold bind in *. destruct (exec_code c s) as [[] sc| | |]; try discriminate. by apply IH.
Qed.
Lemma runs_app l l' s s' s'' ws ws' : runs_to l s s' ws -> runs_to l' s' s'' ws' -> runs_to (l ++ l') s s'' (ws ++ ws').
Proof.
  intros (E & _ & Es) (E' & Hi & Es'). split; [by rewrite (exec_codes_app l l' s s' E)|split; [exact Hi|]].
  rewrite Es', apply_writes_app. by apply apply_writes_akin.
Qed.
Lemma runs_one c s s' ws : exec_code c s = Ret tt s' -> inv s' -> akin s' (apply_writes ws s) -> runs_to [c] s s' ws.
Proof. intros E Hi Hs. split; [|done]. cbn [exec_codes fold_right]. unfold bind. by rewrite E. Qed.

(** The writes of an instruction that has been decoded *)
Lemma row_written o row vals s x : regular o row -> sees vals s x ->
  exists t, (run_func o ;; SLOT_FLUSH) x = Ret tt (set_trace_psw t (apply_writes (row.2.2 x) (row.2.1 x))) /\
    inv (set_trace_psw t (apply_writes (row.2.2 x) (row.2.1 x))) /\
    akin (set_trace_psw t (apply_writes (row.2.2 x) (row.2.1 x))) (apply_writes (row.2.2 x) s).
Proof.
  intros Hr [Hi Hs _].
  pose proof (queues_issues _ _ _ _ (rows_queue row x (rg_row o row Hr) Hi) (proj2 Hi)) as Hq.
  apply issues_effects in Hq as [t Et]. rewrite <- (rg_func o row Hr) in Et. exists t.
  split; [exact Et|split].
  - eapply (keeps_flushed _ 6); [|unfold NR_SLOTS; lia|exact Hi|exact Et].
    eapply judge_weaken; [apply runs_run_func|lia|lia].
  - rewrite akin_trace. apply apply_writes_akin. rewrite (rows_keep row x (rg_row o row Hr)). exact Hs.
Qed.
Lemma single_runs o row vals s : regular o row -> encodable o vals -> inv s ->
  exists x s', sees vals s x /\ runs_to [single o vals] s s' (row.2.2 x).
Proof.
  intros Hr Hv Hs. pose proof (sees_decoded o vals (if is_long o then INS_LONG else INS_LEFT) s (rg_in o row Hr) Hv Hs) as Hx.
  destruct (row_written o row vals s _ Hr Hx) as (t & Et & Hi & Hsm).
  eexists _, _. split; [exact Hx|]. apply runs_one; [|exact Hi|exact Hsm].
  destruct (lookup_found _ _ _ s (rg_found o row Hr vals Hv)) as [El _]. rewrite (rg_long o row Hr) in El.
  unfold exec_code, single, exec_insn. cbn [fst snd]. unfold bind at 1. rewrite El.
  unfold bind at 1, entry_ops, entry_of at 1. cbn [he_ops]. unfold ret at 1.
  unfold bind at 1. rewrite (issue_decoded o _ _ s (rg_in o row Hr) (proj1 (wf_op s (proj1 Hs)))). exact Et.
Qed.

(** ** A test and an instruction *)

(** [exef0t], [exef0f] and [exef1t]: the test, and what it asks *)
Record tests (o : simops) (ask : state -> bool) : Prop := {
  ts_in : In o real_simops;
  ts_exec : so_exec_type o = PARONLY;
  ts_short : so_is_long o = 0;
  ts_word : 0 <= so_opcode o < 2 ^ 15;
  ts_found : find (hash_matches (so_opcode o) 0) linear_table = Some (entry_of o);
  ts_run : forall x, inv x -> issues (run_func o) x (exe_if ask x) [];
  ts_ask : forall x s, akin x s -> ask x = ask s
}.
(** The word, the test in the container that [lr] says *)
Definition guarded_word (lr : _leftright) (test i : Z) : Z :=
  match lr with LEFT_FIRST => word_of FM00 test i | RIGHT_FIRST => word_of FM00 i test end.
Lemma guarded_word_parts lr test i : short_word test -> short_word i ->
  Z.land (guarded_word lr test i) 0xC0000000 = 0 /\
  first_ins lr (guarded_word lr test i) = test /\ second_ins lr (guarded_word lr test i) = i.
Proof.
  intros Ht Hi. destruct lr; simpl.
  - destruct (word_of_parts FM00 test i) as (? & ? & ?); auto.
  - destruct (word_of_parts FM00 i test) as (? & ? & ?); auto.
Qed.

Lemma inv_exe_if c s : inv s -> inv (exe_if c s).
Proof. intros [Hw Hs]. split; [by apply wf_exe_if|exact Hs]. Qed.
Lemma akin_exe_if c s : akin (exe_if c s) s.
Proof. done. Qed.
Lemma akin_counted k s : akin (counted k s) s.
Proof. done. Qed.
Lemma dispatch_conditional lr o1 o2 w s (Q : unit -> state -> Prop) :
  Z.land w 0xC0000000 = 0 -> so_exec_type o1 = PARONLY -> so_exec_type o2 <> PARONLY ->
  find (hash_matches (first_ins lr w) 0) linear_table = Some (entry_of o1) ->
  find (hash_matches (second_ins lr w) 0) linear_table = Some (entry_of o2) ->
  wp (do_conditional o1 (first_ins lr w) (test_type lr) (entry_of o2) (second_ins lr w) (exe_type lr)) (counted INS_PARALLEL s) Q ->
  wp (dispatch w) s Q.
Proof.
  intros Hfmt Hp1 Hp2 Hf1 Hf2 Hw. rewrite dispatch_parallel by done. apply Z.eqb_eq in Hp1. apply Z.eqb_neq in Hp2.
  destruct (lookup_found _ _ _ (counted INS_PARALLEL s) Hf1) as [El1 _].
  destruct (lookup_found _ _ _ (counted INS_PARALLEL s) Hf2) as [El2 _].
  unfold do_parallel, wp. unfold bind at 1. rewrite count_eq.
  destruct lr; cbn [first_ins second_ins] in *;
    unfold bind at 1; rewrite ?El1, ?El2; unfold bind at 1; rewrite ?El1, ?El2;
    unfold bind at 1, entry_ops at 1, entry_of at 1; cbn [he_ops]; unfold ret at 1; rewrite ?Hp1, ?Hp2; [exact Hw|].
  unfold bind at 1, entry_ops at 1, entry_of at 1. cbn [he_ops]. unfold ret at 1. rewrite Hp1. exact Hw.
Qed.
(** The instruction [o] runs when the test says so. *)
Lemma pair_runs lr ot ask o row vals s : tests ot ask -> regular o row -> so_is_long o = 0 ->
  encodable o vals -> short_word (encode o vals) -> inv s ->
  exists x s', sees vals s x /\
    runs_to [Pair (guarded_word lr (so_opcode ot) (encode o vals))] s s' (if ask s then row.2.2 x else []).
Proof.
  intros Ht Hr Hl Hv Hw Hs. set (w := guarded_word lr (so_opcode ot) (encode o vals)).
  destruct (guarded_word_parts lr (so_opcode ot) (encode o vals) (ts_word ot ask Ht) Hw) as (Ew & E1 & E2). fold w in Ew, E1, E2.
  set (s0 := counted INS_PARALLEL s). assert (inv s0) as Hs0 by by apply inv_counted.
  set (x0 := decoded ot (so_opcode ot) (test_type lr) s0).
  assert (inv x0) as Hx0 by (apply decoded_inv; [apply (ts_in ot ask Ht)|exact Hs0]).
  assert (akin x0 s) as Ex0 by done. set (s1 := exe_if ask x0).
  assert (inv s1) as Hs1 by by apply inv_exe_if.
  set (x := decoded o (encode o vals) (exe_type lr) (counted INS_COND_TRUE s1)).
  assert (sees vals s x) as Hx.
  { destruct (sees_decoded o vals (exe_type lr) (counted INS_COND_TRUE s1) (rg_in o row Hr) Hv) as [? ? ?];
      [by apply inv_counted|]. split; [done|done|done]. }
  exists x. assert (ask x0 = ask s) as Ea by by apply (ts_ask ot ask Ht).
  assert (truth (exe s1) = ask s) as Eexe by (unfold s1, exe_if; rewrite Ea; by destruct (ask s)).
  set (ws := if ask s then row.2.2 x else []). set (s2 := if ask s then row.2.1 x else counted INS_COND_FALSE s1).
  assert (wp (dispatch w) s (fun _ s' => pend s2 ws s')) as Hd.
  { apply (dispatch_conditional lr ot o); [exact Ew|apply (ts_exec ot ask Ht)|apply (rg_exec o row Hr)|
      rewrite E1; apply (ts_found ot ask Ht)| |].
    - rewrite E2. rewrite <- Hl. by apply (rg_found o row Hr).
    - rewrite E1, E2. apply (wp_conditional lr ot (so_opcode ot) o (encode o vals) s0 s1 s2 ws);
        [apply (ts_in ot ask Ht)|apply (rg_in o row Hr)|exact (proj1 (wf_op s0 (proj1 Hs0)))|apply (ts_run ot ask Ht), Hx0|apply Hs1| |done].
      unfold guarded. rewrite Eexe. unfold s2, ws. destruct (ask s); [|done].
      rewrite (rg_func o row Hr). apply rows_queue; [apply (rg_row o row Hr)|apply Hx]. }
  unfold wp in Hd. destruct (dispatch w s) as [[] s'| | |] eqn:Ed; try done.
  destruct (pend_flush _ _ _ Hd) as [t Et].
  exists (set_trace_psw t (apply_writes ws s2)). split; [exact Hx|].
  assert (exec_code (Pair w) s = Ret tt (set_trace_psw t (apply_writes ws s2))) as Ec.
  { unfold exec_code, bind. by rewrite Ed. }
  apply runs_one; [exact Ec| |].
  - eapply (keeps_flushed (do_parallel (left_ins w) (right_ins w)) 10); [|unfold NR_SLOTS; lia|exact Hs|].
    + eapply judge_weaken; [apply runs_do_parallel|lia|lia].
    + rewrite <- dispatch_parallel by exact Ew. exact Ec.
  - rewrite akin_trace. apply apply_writes_akin. unfold s2. destruct (ask s); [|done].
    rewrite (rows_keep row x (rg_row o row Hr)). apply Hx.
Qed.
End Run.
