(* ===== verification/RegFile.v ===== *)
(** * What code does to registers and flags

    A piece of code as a function on the general registers and the flags F0, F1 and C:
    [does l f] says that from every state the code [l] runs to its end, changes registers
    and flags as [f] says, and changes nothing else. *)
From S2P Require Import Prelude CInt Opcodes State Memory Cregs.
From S2P Require Import SimopsAlu SimopsAcc SimopsFlow SimopsMem SimopsTrap Interp Logic OpRules.
From S2P Require Import Machine Decode Effects AluSpec AccSpec FlowSpec Cycle Step Parallel Footprint.
From S2P Require Import NumSpec MemSpec Prologue Elf Dis Asm AsmPack DisSpec Emit Words.

(** ** Registers and flags *)

Record regs := Regs { r_gpr : Z -> Z; r_f0 : bool; r_f1 : bool; r_c : bool }.
Definition put (n x : Z) (g : Z -> Z) (k : Z) : Z := if k =? n then x else g k.
Definition write_regs (v : regs) (w : write) : regs :=
  match w with
  | W_reg n x => Regs (put n x (r_gpr v)) (r_f0 v) (r_f1 v) (r_c v)
  | W_flag m b =>
      Regs (r_gpr v) (if m =? PSW_F0_BIT then b else r_f0 v) (if m =? PSW_F1_BIT then b else r_f1 v)
        (if m =? PSW_C_BIT then b else r_c v)
  | _ => v
  end.
(** A write of a general register or of a flag *)
Definition register_write (w : write) : Prop :=
  match w with
  | W_reg n _ => 0 <= n < 16
  | W_flag m _ => m = PSW_F0_BIT \/ m = PSW_F1_BIT \/ m = PSW_C_BIT
  | _ => False
  end.
Record shows (s : state) (v : regs) : Prop := {
  sh_gpr : forall k, 0 <= k < 16 -> GPR s k = r_gpr v k;
  sh_f0 : PSW_F0 s = r_f0 v;
  sh_f1 : PSW_F1 s = r_f1 v;
  sh_c : PSW_C s = r_c v
}.
Definition like (v v' : regs) : Prop :=
  (forall k, 0 <= k < 16 -> r_gpr v k = r_gpr v' k) /\ r_f0 v = r_f0 v' /\ r_f1 v = r_f1 v' /\ r_c v = r_c v'.
Lemma shows_like s v v' : shows s v -> like v v' -> shows s v'.
Proof. intros [Hg H0 H1 Hc] (Eg & E0 & E1 & Ec). split; [|congruence..]. intros k Hk. by rewrite Hg, Eg. Qed.
Definition the_regs (s : state) : regs := Regs (GPR s) (PSW_F0 s) (PSW_F1 s) (PSW_C s).
Lemma shows_self s : shows s (the_regs s). Proof. done. Qed.

(** ** Writes *)

Lemma set_flag_own psw m b : fits 16 psw -> fits 16 m -> Z.land (set_flag psw m b) m = if b then m else 0.
Proof.
  intros Hp Hm. apply Z.bits_inj'. intros i Hi. unfold set_flag.
  rewrite Z.land_spec, Z.lor_spec, Z.land_spec, u16_lnot_testbit by done.
  assert (Z.testbit (if b then m else 0) i = b && Z.testbit m i) as -> by (by destruct b; [|rewrite Z.bits_0]).
  destruct (Z.ltb_spec i 16).
  - by destruct (Z.testbit m i), (Z.testbit psw i), b.
  - rewrite (fits_testbit 16 m i) by (done || lia). by rewrite !andb_false_r.
Qed.
Lemma flag_write s m b m' : sized s -> fits 16 (PSW s) -> fits 16 m -> fits 16 m' -> 0 < m -> m' = m \/ Z.land m' m = 0 ->
  psw_bit (apply_write s (W_flag m b)) m' = if m =? m' then b else psw_bit s m'.
Proof.
  intros (_ & Hl & _) Hp Hm Hm' H0 Hd. unfold psw_bit. rewrite PSW_set_flag by lia. destruct Hd as [->|Hd].
  - rewrite Z.eqb_refl, set_flag_own by done. destruct b; [|done]. by rewrite (proj2 (Z.eqb_neq m 0)) by lia.
  - rewrite set_flag_disjoint by done. destruct (Z.eqb_spec m m') as [<-|]; [|done].
    rewrite Z.land_diag in Hd. lia.
Qed.
Definition orderly (s : state) : Prop := sized s /\ fits 16 (PSW s).
Lemma orderly_write s w : register_write w -> orderly s -> orderly (apply_write s w).
Proof.
  intros Hw [Hz Hp]. split; [by apply sized_write|]. destruct w as [n x| |m b| |]; try done.
  rewrite PSW_set_flag by (destruct Hz as (_ & Hl & _); lia). apply set_flag_fits; [done|].
  by destruct Hw as [->|[->| ->]].
Qed.
Lemma shows_write s w v : orderly s -> register_write w -> shows s v -> shows (apply_write s w) (write_regs v w).
Proof.
  intros [Hz Hp] Hw [Hg H0 H1 Hc]. destruct w as [n x| |m b| |]; try done.
  - split; [|done..]. intros k Hk. rewrite GPR_write by (done || lia). cbn [write_regs r_gpr]. unfold put. by rewrite Hg.
  - split; [intros k Hk; rewrite GPR_write by (done || lia); by apply Hg|..]; unfold PSW_F0, PSW_F1, PSW_C;
      (rewrite flag_write; [|done|done|by destruct Hw as [->|[->| ->]]|done|by destruct Hw as [->|[->| ->]]|
         destruct Hw as [->|[->| ->]]; first [left; reflexivity | right; reflexivity]]); cbn [write_regs r_f0 r_f1 r_c];
      by destruct (m =? _).
Qed.
Lemma shows_writes ws : forall s v, orderly s -> Forall register_write ws -> shows s v ->
  shows (apply_writes ws s) (fold_left write_regs ws v).
Proof.
  induction ws as [|w ws IH]; intros s v Ho Hw Hv; [done|]. inversion Hw. apply IH; [by apply orderly_write|done|].
  by apply shows_write.
Qed.
Lemma shows_akin s s' v : akin s' s -> shows s v -> shows s' v.
Proof.
  intros E [Hg H0 H1 Hc]. split.
  - intros k Hk. rewrite (akin_GPR k s' s E). by apply Hg.
  - unfold PSW_F0. by rewrite (akin_psw _ s' s E).
  - unfold PSW_F1. by rewrite (akin_psw _ s' s E).
  - unfold PSW_C. by rewrite (akin_psw _ s' s E).
Qed.

(** ** Code *)

Section Does.
Context `{Host}.

Definition does (l : list code) (f : regs -> regs) : Prop := forall s v, inv s -> shows s v ->
  exists s' ws, runs_to l s s' ws /\ Forall register_write ws /\ shows s' (f v).
Lemma does_nil : does [] (fun v => v).
Proof. intros s v Hs Hv. exists s, []. split; [by apply runs_nil|done]. Qed.
Lemma does_cons c l f f' : does [c] f -> does l f' -> does (c :: l) (fun v => f' (f v)).
Proof.
  intros Hc Hl s v Hs Hv. destruct (Hc s v Hs Hv) as (s1 & ws & R & Hw & Hv1).
  destruct (Hl s1 (f v) (proj1 (proj2 R)) Hv1) as (s2 & ws' & R' & Hw' & Hv2).
  exists s2, (ws ++ ws'). split; [by eapply runs_cons|]. split; [|done]. by apply List.Forall_app.
Qed.
Lemma does_app l l' f f' : does l f -> does l' f' -> does (l ++ l') (fun v => f' (f v)).
Proof.
  intros Hl Hl' s v Hs Hv. destruct (Hl s v Hs Hv) as (s1 & ws & R & Hw & Hv1).
  destruct (Hl' s1 (f v) (proj1 (proj2 R)) Hv1) as (s2 & ws' & R' & Hw' & Hv2).
  exists s2, (ws ++ ws'). split; [by eapply runs_app|]. split; [|done]. by apply List.Forall_app.
Qed.
Lemma does_like l f f' : (forall v, like (f v) (f' v)) -> does l f -> does l f'.
Proof.
  intros Hf Hl s v Hs Hv. destruct (Hl s v Hs Hv) as (s1 & ws & R & Hw & Hv1). exists s1, ws.
  split; [exact R|split; [exact Hw|]]. by eapply shows_like.
Qed.

(** ** Instructions *)

(** What the row of an instruction writes, as a function on registers and flags *)
Definition row_does (row : M unit * ((state -> state) * (state -> list write))) (vals : list Z) (f : regs -> regs) : Prop :=
  forall s x v, sees vals s x -> shows s v -> Forall register_write (row.2.2 x) /\ like (fold_left write_regs (row.2.2 x) v) (f v).
Lemma orderly_inv s : inv s -> orderly s.
Proof. intros Hs. split; [apply wf_sized, Hs|exact (wf_fits_creg s (proj1 Hs) 0 ltac:(lia))]. Qed.
Lemma shows_result s s' ws v v' : inv s -> shows s v -> akin s' (apply_writes ws s) ->
  Forall register_write ws -> like (fold_left write_regs ws v) v' -> shows s' v'.
Proof.
  intros Hs Hv E Hw Hl. eapply shows_akin; [exact E|]. eapply shows_like; [|exact Hl].
  apply shows_writes; [by apply orderly_inv|done|done].
Qed.
(** An instruction with its operands *)
Definition performs (o : simops) (vals : list Z) (f : regs -> regs) : Prop :=
  encodable o vals /\ exists row, regular o row /\ row_does row vals f.
Lemma single_does o vals f : performs o vals f -> does [single o vals] f.
Proof.
  intros [He (row & Hr & Hf)] s v Hs Hsv. destruct (single_runs o row vals s Hr He Hs) as (x & s' & Hx & R).
  destruct (Hf s x v Hx Hsv) as [Hw Hl]. exists s', (row.2.2 x). split; [exact R|split; [exact Hw|]].
  eapply shows_result; [exact Hs|exact Hsv|apply R|exact Hw|exact Hl].
Qed.
(** A test and an instruction: what the test asks of the registers *)
Definition guards (o : simops) (ask : regs -> bool) : Prop :=
  exists ask_s, tests o ask_s /\ forall s v, shows s v -> ask_s s = ask v.
Lemma pair_does lr ot ask o vals f : guards ot ask -> performs o vals f -> so_is_long o = 0 -> short_word (encode o vals) ->
  does [Pair (guarded_word lr (so_opcode ot) (encode o vals))] (fun v => if ask v : bool then f v else v).
Proof.
  intros (ask_s & Ht & Ha) [He (row & Hr & Hf)] Hl Hw s v Hs Hsv.
  destruct (pair_runs lr ot ask_s o row vals s Ht Hr Hl He Hw Hs) as (x & s' & Hx & R).
  destruct (Hf s x v Hx Hsv) as [Hrw Hlk]. exists s', (if ask_s s then row.2.2 x else []). split; [exact R|].
  rewrite <- (Ha s v Hsv). destruct (ask_s s).
  - split; [exact Hrw|]. eapply shows_result; [exact Hs|exact Hsv|apply R|exact Hrw|exact Hlk].
  - split; [done|]. eapply shows_akin; [apply R|exact Hsv].
Qed.
End Does.
