(* ===== verification/Insns.v ===== *)
(** * The instructions of compiled code

    The instructions that the compiler uses for comparisons, sums, differences and moves,
    each as a function on registers and flags ([does]), alone and after a test. *)
From S2P Require Import Prelude CInt Opcodes State Memory Cregs.
From S2P Require Import SimopsAlu SimopsAcc SimopsFlow SimopsMem SimopsTrap Interp Logic OpRules.
From S2P Require Import Machine Decode Effects AluSpec AccSpec FlowSpec Cycle Step Parallel Footprint.
From S2P Require Import NumSpec MemSpec Prologue Elf Dis Asm AsmPack DisSpec Emit Words RegFile.

(** ** Fields *)

Lemma free_field sh b v mask op : 0 <= sh -> 0 <= b -> 0 <= v < 2 ^ b ->
  Z.land (field_mask (sh, b)) mask = 0 -> Z.land op (field_mask (sh, b)) = 0 ->
  Z.land (Z.shiftl v sh) mask = Z.land op (field_mask (sh, b)).
Proof.
  intros Hsh Hb Hv Hm ->. apply Z.bits_inj'. intros k Hk. rewrite Z.land_spec, Z.bits_0.
  destruct (Z.testbit (Z.shiftl v sh) k) eqn:E; [|done]. simpl.
  assert (Z.testbit (field_mask (sh, b)) k = true) as Hf by (by apply (value_bit (sh, b) v)).
  assert (Z.testbit (Z.land (field_mask (sh, b)) mask) k = Z.testbit mask k) as <- by (by rewrite Z.land_spec, Hf).
  by rewrite Hm, Z.bits_0.
Qed.
Lemma encode_short o vals : 0 <= so_opcode o < 2 ^ 15 ->
  forallb (fun f => (0 <=? f.1) && (0 <=? f.2) && (f.1 + f.2 <=? 15)) (so_fields o) = true -> encodable o vals ->
  short_word (encode o vals).
Proof.
  unfold encodable, encode, short_word. intros Hop. generalize (so_fields o). intros l Hl Hv.
  induction Hv as [|f v l vals [Hr _] _ IH]; [exact Hop|]. cbn [forallb] in Hl. apply andb_prop in Hl as [Hf Hl].
  apply andb_prop in Hf as [[H1%Z.leb_le H2%Z.leb_le]%andb_prop H3%Z.leb_le]. cbn [zip_with fold_right].
  apply lor_lt_pow2; [lia| |by apply IH]. rewrite Z.shiftl_mul_pow2 by lia.
  assert (v * 2 ^ f.1 < 2 ^ f.2 * 2 ^ f.1) by (apply Z.mul_lt_mono_pos_r; lia).
  rewrite <- Z.pow_add_r in * by lia. assert (2 ^ (f.2 + f.1) <= 2 ^ 15) by (apply Z.pow_le_mono_r; lia). nia.
Qed.

(** ** Rows *)

Section Rows.
Context `{Host}.

Definition compare_regs (b : bool) (v : regs) : regs := Regs (r_gpr v) b (r_f0 v) (r_c v).
Definition pair_of (g : Z -> Z) (n : Z) : Z := g n * 2 ^ 16 + g (n + 1).
Definition put_pair (n x : Z) (g : Z -> Z) : Z -> Z := put (n + 1) (x mod 2 ^ 16) (put n (x / 2 ^ 16 mod 2 ^ 16) g).

Lemma sees_reg vals s x v k r : sees vals s x -> shows s v -> vals !! k = Some r -> 0 <= r < 16 ->
  GPR x (op x (Z.of_nat k)) = r_gpr v r.
Proof. intros [_ Es Eo] Hv Hk Hr. rewrite (Eo k r Hk), (akin_GPR r x s Es). by apply sh_gpr. Qed.
Lemma sees_rA vals s x v r : sees vals s x -> shows s v -> vals !! 0%nat = Some r -> 0 <= r < 16 -> rA x = r_gpr v r.
Proof. intros. by eapply (sees_reg vals s x v 0). Qed.
Lemma sees_rB vals s x v r : sees vals s x -> shows s v -> vals !! 1%nat = Some r -> 0 <= r < 16 -> rB x = r_gpr v r.
Proof. intros. by eapply (sees_reg vals s x v 1). Qed.
Lemma sees_op0 vals s x r : sees vals s x -> vals !! 0%nat = Some r -> op x 0 = r.
Proof. intros Hx. apply (se_op _ s x Hx 0). Qed.
Lemma sees_op1 vals s x r : sees vals s x -> vals !! 1%nat = Some r -> op x 1 = r.
Proof. intros Hx. apply (se_op _ s x Hx 1). Qed.
Lemma sees_op2 vals s x r : sees vals s x -> vals !! 2%nat = Some r -> op x 2 = r.
Proof. intros Hx. apply (se_op _ s x Hx 2). Qed.
Lemma sees_pair vals s x v n : sees vals s x -> shows s v -> 0 <= n < 15 -> rpair x n = pair_of (r_gpr v) n.
Proof.
  intros [_ Es _] Hv Hn. unfold rpair, pair_of. rewrite !(akin_GPR _ x s Es). by rewrite !(sh_gpr s v Hv) by lia.
Qed.
Lemma sees_f0 vals s x v : sees vals s x -> shows s v -> PSW_F0 x = r_f0 v.
Proof. intros [_ Es _] Hv. rewrite <- (sh_f0 s v Hv). unfold PSW_F0. by apply akin_psw. Qed.

Ltac regular_tac f k :=
  apply regular_named; [apply (List.nth_error_In alu_table k); reflexivity|
    unfold run_func; replace (so_func (simop_named f)) with (Some f) by (vm_compute; reflexivity); reflexivity|
    vm_compute; reflexivity].
(** The operands of a row, read from registers *)
Ltac row_tac :=
  let s := fresh "s" in let x := fresh "x" in let v := fresh "v" in let Hx := fresh "Hx" in let Hv := fresh "Hv" in
  intros s x v Hx Hv; cbn [fst snd];
  rewrite ?(sees_rA _ s x v _ Hx Hv eq_refl) by lia; rewrite ?(sees_rB _ s x v _ Hx Hv eq_refl) by lia;
  unfold rD, imm, imm16, imm4s; rewrite ?(sees_op0 _ s x _ Hx eq_refl); try rewrite !(sees_op1 _ s x _ Hx eq_refl);
  try rewrite !(sees_op2 _ s x _ Hx eq_refl).
(** A field that holds an even number *)
Ltac even_field :=
  match goal with Hv : 0 <= ?v < _, He : Z.land ?v 1 = 0 |- Z.land (Z.shiftl ?v _) _ = _ =>
    clear - Hv He; each_below v 16%nat; first [discriminate He | reflexivity] end.
Ltac encodable_tac :=
  match goal with |- encodable ?o _ =>
    let l := eval vm_compute in (so_fields o) in
    let m := eval vm_compute in (so_mask o) in
    let c := eval vm_compute in (so_opcode o) in
    unfold encodable; replace (so_fields o) with l by (vm_compute; reflexivity);
    replace (so_mask o) with m by (vm_compute; reflexivity); replace (so_opcode o) with c by (vm_compute; reflexivity)
  end;
  repeat (constructor; [split; [cbn [fst snd]; lia|cbn [fst snd];
    first [apply free_field; [lia|lia|lia|reflexivity|reflexivity] | even_field]]|]); constructor.

Ltac performs_tac f k :=
  split; [encodable_tac|]; eexists; split; [regular_tac f k|row_tac].

(** ** Comparisons *)

Lemma compare_row_does x v b : PSW_F0 x = r_f0 v ->
  Forall register_write (compare x b) /\ like (fold_left write_regs (compare x b) v) (compare_regs b v).
Proof.
  intros E. unfold compare. split; [repeat apply List.Forall_cons; [right; by left|by left|constructor]|]. rewrite E. done.
Qed.
Ltac compare_tac f k := performs_tac f k; apply compare_row_does; by eapply sees_f0.

Lemma cmpeq_performs a b : 0 <= a < 16 -> 0 <= b < 16 ->
  performs (simop_named 0x400) [a; b] (fun v => compare_regs (r_gpr v a =? r_gpr v b) v).
Proof. intros Ha Hb. compare_tac 0x400 24%nat. Qed.
Lemma cmp_performs a b : 0 <= a < 16 -> 0 <= b < 16 ->
  performs (simop_named 0x600) [a; b] (fun v => compare_regs (s16 (r_gpr v a) <? s16 (r_gpr v b)) v).
Proof. intros Ha Hb. compare_tac 0x600 23%nat. Qed.
Lemma cmpu_performs a b : 0 <= a < 16 -> 0 <= b < 16 ->
  performs (simop_named 0x4600) [a; b] (fun v => compare_regs (r_gpr v a <? r_gpr v b) v).
Proof. intros Ha Hb. compare_tac 0x4600 29%nat. Qed.
Lemma cmpeqi_s_performs a n : 0 <= a < 16 -> 0 <= n < 16 ->
  performs (simop_named 0x401) [a; n] (fun v => compare_regs (s16 (r_gpr v a) =? wrap_signed 4 n) v).
Proof. intros Ha Hn. compare_tac 0x401 25%nat. Qed.
Lemma cmpeqi_l_performs a n : 0 <= a < 16 -> 0 <= n < 2 ^ 16 ->
  performs (simop_named 0x2000000) [a; n] (fun v => compare_regs (r_gpr v a =? n) v).
Proof. intros Ha Hn. compare_tac 0x2000000 26%nat. Qed.
Lemma cmpi_s_performs a n : 0 <= a < 16 -> 0 <= n < 16 ->
  performs (simop_named 0x601) [a; n] (fun v => compare_regs (s16 (r_gpr v a) <? wrap_signed 4 n) v).
Proof. intros Ha Hn. compare_tac 0x601 27%nat. Qed.
Lemma cmpi_l_performs a n : 0 <= a < 16 -> 0 <= n < 2 ^ 16 ->
  performs (simop_named 0x3000000) [a; n] (fun v => compare_regs (s16 (r_gpr v a) <? s16 n) v).
Proof. intros Ha Hn. compare_tac 0x3000000 28%nat. Qed.
Lemma cmpui_performs a n : 0 <= a < 16 -> 0 <= n < 2 ^ 16 ->
  performs (simop_named 0x23000000) [a; n] (fun v => compare_regs (r_gpr v a <? n) v).
Proof. intros Ha Hn. compare_tac 0x23000000 30%nat. Qed.

(** ** Sums, differences and moves *)

Lemma sees_c vals s x v : sees vals s x -> shows s v -> PSW_C x = r_c v.
Proof. intros [_ Es _] Hv. rewrite <- (sh_c s v Hv). unfold PSW_C. by apply akin_psw. Qed.
Lemma sees_gpr vals s x v r : sees vals s x -> shows s v -> 0 <= r < 16 -> GPR x r = r_gpr v r.
Proof. intros [_ Es _] Hv Hr. rewrite (akin_GPR r x s Es). by apply sh_gpr. Qed.

(** The writes of one register, or of the carry and registers *)
Lemma put_row v d x : 0 <= d < 16 ->
  Forall register_write [W_reg d x] /\ like (fold_left write_regs [W_reg d x] v) (Regs (put d x (r_gpr v)) (r_f0 v) (r_f1 v) (r_c v)).
Proof. intros Hd. split; [by repeat constructor; lia|done]. Qed.
Lemma carry_row v d x c : 0 <= d < 16 ->
  Forall register_write [W_flag PSW_C_BIT c; W_reg d x] /\
  like (fold_left write_regs [W_flag PSW_C_BIT c; W_reg d x] v) (Regs (put d x (r_gpr v)) (r_f0 v) (r_f1 v) c).
Proof. intros Hd. split; [|done]. repeat apply List.Forall_cons; [by right; right|exact Hd|constructor]. Qed.
Lemma pair_row v d x y : 0 <= d < 15 ->
  Forall register_write [W_reg (d + 0) x; W_reg (d + 1) y] /\
  like (fold_left write_regs [W_reg (d + 0) x; W_reg (d + 1) y] v)
    (Regs (put (d + 1) y (put d x (r_gpr v))) (r_f0 v) (r_f1 v) (r_c v)).
Proof. intros Hd. rewrite Z.add_0_r. split; [repeat apply List.Forall_cons; [simpl; lia..|constructor]|done]. Qed.
Lemma carry_pair_row v d x y c : 0 <= d < 15 ->
  Forall register_write [W_flag PSW_C_BIT c; W_reg (d + 0) x; W_reg (d + 1) y] /\
  like (fold_left write_regs [W_flag PSW_C_BIT c; W_reg (d + 0) x; W_reg (d + 1) y] v)
    (Regs (put (d + 1) y (put d x (r_gpr v))) (r_f0 v) (r_f1 v) c).
Proof. intros Hd. rewrite Z.add_0_r. split; [repeat apply List.Forall_cons; [by right; right|simpl; lia..|constructor]|done]. Qed.

Definition set_carry (c : bool) (v : regs) : regs := Regs (r_gpr v) (r_f0 v) (r_f1 v) c.
Definition set_reg (d x : Z) (v : regs) : regs := Regs (put d x (r_gpr v)) (r_f0 v) (r_f1 v) (r_c v).
(** The constant of [addi] and [subi], where 0 stands for 16 *)
Definition sixteen (n : Z) : Z := if n =? 0 then 16 else n.
Lemma addi_performs d n : 0 <= d < 16 -> 0 <= n < 16 ->
  performs (simop_named 0x201) [d; n] (fun v =>
    set_carry (2 ^ 16 <=? r_gpr v d + sixteen n) (set_reg d ((r_gpr v d + sixteen n) mod 2 ^ 16) v)).
Proof. intros Hd Hn. performs_tac 0x201 4%nat. by apply carry_row. Qed.
Lemma subi_performs d n : 0 <= d < 16 -> 0 <= n < 16 ->
  performs (simop_named 0x1) [d; n] (fun v =>
    set_carry (sixteen n <=? r_gpr v d) (set_reg d ((r_gpr v d - sixteen n) mod 2 ^ 16) v)).
Proof. intros Hd Hn. performs_tac 0x1 9%nat. by apply carry_row. Qed.
Lemma add3_performs d a n : 0 <= d < 16 -> 0 <= a < 16 -> 0 <= n < 2 ^ 16 ->
  performs (simop_named 0x1000000) [d; a; n] (fun v =>
    set_carry (2 ^ 16 <=? r_gpr v a + n) (set_reg d ((r_gpr v a + n) mod 2 ^ 16) v)).
Proof. intros Hd Ha Hn. performs_tac 0x1000000 3%nat. by apply carry_row. Qed.
Lemma mv_performs d a : 0 <= d < 16 -> 0 <= a < 16 ->
  performs (simop_named 0x4000) [d; a] (fun v => set_reg d (r_gpr v a) v).
Proof. intros Hd Ha. performs_tac 0x4000 46%nat. by apply put_row. Qed.
Lemma ldi_s_performs d n : 0 <= d < 16 -> 0 <= n < 16 ->
  performs (simop_named 0x4001) [d; n] (fun v => set_reg d (wrap_signed 4 n mod 2 ^ 16) v).
Proof. intros Hd Hn. performs_tac 0x4001 44%nat. by apply put_row. Qed.
Lemma ldi_l_performs d n : 0 <= d < 16 -> 0 <= n < 2 ^ 16 ->
  performs (simop_named 0x20000000) [d; n] (fun v => set_reg d n v).
Proof. intros Hd Hn. performs_tac 0x20000000 45%nat. by apply put_row. Qed.
Lemma slli_performs d n : 0 <= d < 16 -> 0 <= n < 16 ->
  performs (simop_named 0x2201) [d; n] (fun v => set_reg d ((r_gpr v d * 2 ^ n) mod 2 ^ 16) v).
Proof. intros Hd Hn. performs_tac 0x2201 37%nat. by apply put_row. Qed.
(** [cpfg f0,c] *)
Lemma cpfg_performs : performs (simop_named 0x4E09) [0; 3] (fun v => Regs (r_gpr v) (r_c v) (r_f1 v) (r_c v)).
Proof.
  performs_tac 0x4E09 31%nat. rewrite (sees_c _ s x v Hx Hv). split; [|done].
  apply List.Forall_cons; [by left|constructor].
Qed.
(** Pairs of registers *)
Definition set_pair (d x : Z) (v : regs) : regs := Regs (put_pair d x (r_gpr v)) (r_f0 v) (r_f1 v) (r_c v).
Lemma add2w_performs d b : 0 <= d < 15 -> 0 <= b < 15 -> Z.land d 1 = 0 -> Z.land b 1 = 0 ->
  performs (simop_named 0x1200) [d; b] (fun v =>
    set_carry (2 ^ 32 <=? pair_of (r_gpr v) d + pair_of (r_gpr v) b) (set_pair d (pair_of (r_gpr v) d + pair_of (r_gpr v) b) v)).
Proof.
  intros Hd Hb Ed Eb. performs_tac 0x1200 2%nat. rewrite !(sees_pair _ s x v _ Hx Hv) by lia. unfold to_pair, rD.
  rewrite (sees_op0 _ s x _ Hx eq_refl). by apply carry_pair_row.
Qed.
Lemma sub2w_performs d b : 0 <= d < 15 -> 0 <= b < 15 -> Z.land d 1 = 0 -> Z.land b 1 = 0 ->
  performs (simop_named 0x1000) [d; b] (fun v =>
    set_carry (pair_of (r_gpr v) b <=? pair_of (r_gpr v) d) (set_pair d (pair_of (r_gpr v) d - pair_of (r_gpr v) b) v)).
Proof.
  intros Hd Hb Ed Eb. performs_tac 0x1000 8%nat. rewrite !(sees_pair _ s x v _ Hx Hv) by lia. unfold to_pair, rD.
  rewrite (sees_op0 _ s x _ Hx eq_refl). by apply carry_pair_row.
Qed.
Lemma mv2w_performs d b : 0 <= d < 15 -> 0 <= b < 15 -> Z.land d 1 = 0 -> Z.land b 1 = 0 ->
  performs (simop_named 0x5000) [d; b] (fun v =>
    Regs (put (d + 1) (r_gpr v (b + 1)) (put d (r_gpr v b) (r_gpr v))) (r_f0 v) (r_f1 v) (r_c v)).
Proof.
  intros Hd Hb Ed Eb. performs_tac 0x5000 47%nat. rewrite (sees_gpr _ s x v (b + 1) Hx Hv) by lia. by apply pair_row.
Qed.
(** Conditional moves *)
Lemma mvf_performs (t : bool) d a : 0 <= d < 16 -> 0 <= a < 16 ->
  performs (simop_named (if t then 0x4401 else 0x4400)) [d; a] (fun v => if Bool.eqb (r_f0 v) t then set_reg d (r_gpr v a) v else v).
Proof.
  intros Hd Ha. destruct t; [performs_tac 0x4401 50%nat|performs_tac 0x4400 49%nat]; rewrite (sees_f0 _ s x v Hx Hv);
    destruct (r_f0 v); cbn [Bool.eqb]; (by apply put_row) || done.
Qed.

(** ** Tests *)

Lemma exef0f_issues s : inv s -> issues (run_func (simop_named 0x4E04)) s (exe_if (fun s => negb (PSW_F0 s)) s) [].
Proof.
  intros Hs. unfold run_func. replace (so_func (simop_named 0x4E04)) with (Some 0x4E04) by (vm_compute; reflexivity).
  change (issues OP_4E04 s (exe_if (fun s => negb (PSW_F0 s)) s) []). flow_row s Hs.
Qed.
Lemma exef1t_issues s : inv s -> issues (run_func (simop_named 0x4E42)) s (exe_if PSW_F1 s) [].
Proof.
  intros Hs. unfold run_func. replace (so_func (simop_named 0x4E42)) with (Some 0x4E42) by (vm_compute; reflexivity).
  change (issues OP_4E42 s (exe_if PSW_F1 s) []). flow_row s Hs.
Qed.
Lemma test_guards f ask_s ask :
  (bool_decide (is_Some (find (fun o => so_opcode o =? f) real_simops)) && (so_exec_type (simop_named f) =? PARONLY)
   && (so_is_long (simop_named f) =? 0) && (0 <=? so_opcode (simop_named f)) && (so_opcode (simop_named f) <? 2 ^ 15)
   && bool_decide (find (hash_matches (so_opcode (simop_named f)) 0) linear_table = Some (entry_of (simop_named f)))) = true ->
  (forall s, inv s -> issues (run_func (simop_named f)) s (exe_if ask_s s) []) ->
  (forall x s, akin x s -> ask_s x = ask_s s) -> (forall s v, shows s v -> ask_s s = ask v) ->
  guards (simop_named f) ask.
Proof.
  intros Hc Hi Ha Hs. repeat (apply andb_prop in Hc as [Hc ?]).
  exists ask_s. split; [|exact Hs]. apply bool_decide_eq_true in Hc. split.
  - apply simop_named_in. destruct Hc as [o Ho]. rewrite Ho. discriminate.
  - by apply Z.eqb_eq.
  - by apply Z.eqb_eq.
  - split; [by apply Z.leb_le|by apply Z.ltb_lt].
  - match goal with H : bool_decide (find _ _ = _) = true |- _ => by apply bool_decide_eq_true in H end.
  - exact Hi.
  - exact Ha.
Qed.
Lemma exef0t_guards : guards (simop_named 0x4E24) r_f0.
Proof.
  apply (test_guards _ PSW_F0); [vm_compute; reflexivity| | |].
  - intros s Hs. unfold run_func. replace (so_func (simop_named 0x4E24)) with (Some 0x4E24) by (vm_compute; reflexivity).
    exact (exef0t_issues s Hs).
  - intros x s E. unfold PSW_F0. by apply akin_psw.
  - intros s v Hv. apply Hv.
Qed.
Lemma exef0f_guards : guards (simop_named 0x4E04) (fun v => negb (r_f0 v)).
Proof.
  apply (test_guards _ (fun s => negb (PSW_F0 s))); [vm_compute; reflexivity|exact exef0f_issues| |].
  - intros x s E. unfold PSW_F0. f_equal. by apply akin_psw.
  - intros s v Hv. f_equal. apply Hv.
Qed.
Lemma exef1t_guards : guards (simop_named 0x4E42) r_f1.
Proof.
  apply (test_guards _ PSW_F1); [vm_compute; reflexivity|exact exef1t_issues| |].
  - intros x s E. unfold PSW_F1. by apply akin_psw.
  - intros s v Hv. apply Hv.
Qed.
End Rows.
