(* ===== verification/InsnText.v ===== *)
(** * The text of the instructions of compiled code

    Each instruction that the compiler uses for comparisons, sums, differences and moves,
    as the assembler reads it from text with arbitrary registers and numbers: what
    [do_assemble] makes of the text does to registers and flags what [Insns] says. *)
From S2P Require Import Prelude CInt Opcodes State Interp Logic Machine Decode NumSpec Step Words RegFile Insns.
From S2P Require Import Asm AsmPack DisSpec AsmSpec Emit Gcc GccText.
From Stdlib Require Import Ascii.
#[local] Open Scope string_scope.
#[local] Open Scope list_scope.
#[local] Open Scope Z_scope.

Section Reading.
Context `{GasLaws}.

(** [do_assemble] makes of [text] the instruction [d] with the operands [vals]. *)
Definition reads (text : string) (d : d10v_opcode) (vals : list Z) : Prop :=
  In d table_ops /\ forall s, (length (cur_fixups s) <= 3)%nat ->
    exists extra, no_reloc extra /\ do_assemble text s = Ok (encode (gen_simop d) vals, Some d) (with_fixups extra s).
Lemma reads_space text d vals : reads text d vals -> reads (String " "%char text) d vals.
Proof. intros [Hd Hr]. split; [exact Hd|]. intros s Hs. exact (Hr s Hs). Qed.

(** ** Operands *)

(** The expression [e] is one that the operand [i] takes. *)
Definition suits (i : Z) (e : expressionS) : Prop :=
  i <> 0 /\ operand_matches (flags (operand_at i)) e = true /\
  truth (Z.land (flags (operand_at i)) OPERAND_EVEN) && truth (Z.land (X_add_number e) 1) = false /\
  op_is O_register e && negb (truth (Z.land (flags (operand_at i)) OPERAND_REG)) = false /\
  plain_operand i e = true.
Lemma suits_match ops es : Forall2 suits (active ops) es -> operands_match ops (es ++ [zero_expr]) = Some true.
Proof.
  revert es. induction ops as [|i ops IH]; intros es He; [by inversion He|].
  cbn [active] in He. destruct (Z.eqb_spec i 0) as [->|Hi].
  - by inversion He.
  - inversion He as [|? e ? es' (_ & Hm & _) Hes]; subst. cbn [operands_match app].
    rewrite (proj2 (Z.eqb_neq i 0)), Hm by done. by apply IH.
Qed.
Lemma suits_fixed ops es s : Forall2 suits (active ops) es -> fix_operands ops (es ++ [zero_expr]) s = Ok (es ++ [zero_expr]) s.
Proof.
  revert es. induction ops as [|i ops IH]; intros es He; [by inversion He|].
  cbn [active] in He. destruct (Z.eqb_spec i 0) as [->|Hi].
  - by inversion He.
  - inversion He as [|? e ? es' (_ & _ & Hv & Hr & _) Hes]; subst. cbn [fix_operands app].
    rewrite (proj2 (Z.eqb_neq i 0)), Hv, Hr by done. unfold abind. by rewrite (IH es').
Qed.
Lemma suits_plain ops es : Forall2 suits ops es -> plain_operands ops es.
Proof. induction 1 as [|i e ops es (_ & _ & _ & _ & Hp)]; constructor; done. Qed.

(** What is checked of the opcode *)
Definition usable (j : nat) : bool :=
  is_real (opcode_at j) && negb (opcode (opcode_at j) =? OPCODE_DIVS)
  && (length (punctuation (active (operands (opcode_at j)))) <=? 2)%nat.
Definition named (w : string) : bool :=
  word_chars w && (0 <? String.length w)%nat && (String.length w <? 20)%nat && bool_decide (d10v_hash !! w = Some (entry w)).
Lemma reads_found w ops j es : named w = true -> usable j = true -> Forall2 suits (active (operands (opcode_at j))) es ->
  (forall s, find_opcode (entry w) (String " "%char ops) s = Ok (Some (j, es ++ [zero_expr])) s) ->
  reads (w +:+ String " "%char ops) (opcode_at j) (operand_values (active (operands (opcode_at j))) es).
Proof.
  intros Hw Hj Hes Hf. apply andb_prop in Hw as [[[Hw Hpos%Nat.ltb_lt]%andb_prop H20%Nat.ltb_lt]%andb_prop Hh%bool_decide_eq_true].
  apply andb_prop in Hj as [[Hr Hd%negb_true_iff]%andb_prop Hp%Nat.leb_le]. rewrite Z.eqb_neq in Hd.
  split; [by apply real_at|]. intros s Hs. rewrite (assemble_name w ops _ s Hw (conj Hpos H20) Hh).
  destruct (build_insn_encodes (opcode_at j) es [zero_expr] s (real_at j Hr) Hd (suits_plain _ _ Hes)) as (extra & Hx & E); [lia|].
  exists extra. split; [exact Hx|]. unfold assemble_operands, abind. rewrite Hf, E. done.
Qed.
(** The first opcode of a name takes the operands. *)
Lemma opcode_found w text j es s : (entry w =? j)%nat && negb (format (opcode_at j) =? OPCODE_FAKE) = true ->
  Forall2 suits (active (operands (opcode_at j))) es -> get_operands text s = Ok (es ++ [zero_expr]) s ->
  find_opcode (entry w) text s = Ok (Some (j, es ++ [zero_expr])) s.
Proof.
  intros He Hes Hg. apply andb_prop in He as [He%Nat.eqb_eq Hn%negb_true_iff]. unfold find_opcode. unfold abind at 1. rewrite Hg, He, Hn.
  change (length d10v_opcodes) with (S (pred (length d10v_opcodes))). generalize (pred (length d10v_opcodes)). intros fuel.
  cbn [match_loop]. rewrite (suits_match _ _ Hes). change (Some true ≫= ?k) with (k true). cbv iota beta.
  unfold abind. by rewrite (suits_fixed _ _ s Hes).
Qed.
Lemma reads_first w ops j es : named w = true -> usable j = true -> (entry w =? j)%nat && negb (format (opcode_at j) =? OPCODE_FAKE) = true ->
  Forall2 suits (active (operands (opcode_at j))) es ->
  (forall s, get_operands (String " "%char ops) s = Ok (es ++ [zero_expr]) s) ->
  reads (w +:+ String " "%char ops) (opcode_at j) (operand_values (active (operands (opcode_at j))) es).
Proof. intros Hw Hj He Hes Hg. apply reads_found; [exact Hw|exact Hj|exact Hes|]. intros s. by apply opcode_found. Qed.

(** A name without anything after it *)
Lemma opcode_name_bare w : forall n, word_chars w = true -> (String.length w < n)%nat -> opcode_name n w = (w, "").
Proof.
  induction w as [|c w IH]; intros n Hw Hn; (destruct n as [|n]; [simpl in Hn; lia|]); [done|].
  cbn [word_chars] in Hw. apply andb_prop in Hw as [Hc Hw]. destruct (word_char_ok c Hc) as (E1 & E2 & E3).
  cbn [opcode_name]. rewrite E1, E2. cbn [orb]. rewrite IH by (done || (cbn [String.length] in Hn; lia)). by rewrite E3.
Qed.
Lemma reads_bare w j : named w = true -> usable j = true -> active (operands (opcode_at j)) = [] ->
  (forall s, find_opcode (entry w) "" s = Ok (Some (j, [zero_expr])) s) -> reads w (opcode_at j) [].
Proof.
  intros Hw Hj Ha Hf. apply andb_prop in Hw as [[[Hw Hpos%Nat.ltb_lt]%andb_prop H20%Nat.ltb_lt]%andb_prop Hh%bool_decide_eq_true].
  apply andb_prop in Hj as [[Hr Hd%negb_true_iff]%andb_prop _]. rewrite Z.eqb_neq in Hd.
  split; [by apply real_at|]. intros s Hs.
  destruct (build_insn_encodes (opcode_at j) [] [zero_expr] s (real_at j Hr) Hd) as (extra & Hx & E);
    [rewrite Ha; constructor|rewrite Ha; cbn [punctuation List.filter length]; lia|].
  exists extra. split; [exact Hx|]. unfold do_assemble.
  assert (skip_spaces w = w) as ->.
  { destruct w as [|c w]; [done|]. cbn [word_chars] in Hw. apply andb_prop in Hw as [Hc _].
    destruct (word_char_ok c Hc) as (_ & Ec & _). cbn [skip_spaces]. by rewrite Ec. }
  rewrite (opcode_name_bare w 20 Hw H20).
  rewrite (proj2 (Nat.eqb_neq (String.length w) 20)), (proj2 (Nat.eqb_neq (String.length w) 0)) by (clear Hh; lia).
  rewrite Hh. unfold abind. rewrite Hf. change ([] ++ [zero_expr]) with [zero_expr] in E. rewrite E, Ha. done.
Qed.

(** ** Registers and numbers as operands *)

Definition gpr (r : Z) : expressionS := register_expr (reg_name r) r.
Definition num (n : Z) (u : bool) : expressionS := Expr None None n O_constant u.
Lemma step_gpr r lead rest post : 0 <= r < 16 -> lead = " " \/ lead = "" -> starts_with "@word" rest = false ->
  operand_step (lead +:+ reg_name r +:+ "," +:+ rest) post = Some (rest, Some (gpr r), post, []).
Proof.
  intros Hr Hl Hw. each_below r 16%nat; (destruct Hl as [-> | ->]; lazy -[starts_with]; rewrite Hw; reflexivity).
Qed.
Lemma step_last r post : 0 <= r < 16 -> operand_step (reg_name r) post = Some ("", Some (gpr r), post, []).
Proof. intros Hr. each_below r 16%nat; reflexivity. Qed.
Lemma not_at_register r : 0 <= r < 16 -> starts_with "@word" (reg_name r) = false.
Proof. intros Hr. each_below r 16%nat; reflexivity. Qed.
Lemma not_at_register_more r rest : 0 <= r < 16 -> starts_with "@word" (reg_name r +:+ rest) = false.
Proof. intros Hr. each_below r 16%nat; reflexivity. Qed.
Lemma not_at_number n : starts_with "@word" (percent_d n) = false.
Proof. destruct (percent_d_first n) as (c & rest & -> & Hc). by apply number_not_at. Qed.
Lemma register_nonempty r : 0 <= r < 16 -> exists c t, reg_name r = String c t.
Proof. intros Hr. each_below r 16%nat; by eexists _, _. Qed.

(** The loop, step by step *)
Lemma loop_round n p p' e post post' exps s : p <> "" -> operand_step p post = Some (p', Some e, post', []) ->
  get_operands_loop (S n) p post exps s = get_operands_loop n p' post' (exps ++ [e]) s.
Proof. intros Hp E. destruct p as [|c p]; [done|]. cbn [get_operands_loop]. rewrite E. done. Qed.
Lemma loop_end n post exps s : get_operands_loop (S n) "" post exps s = Ok (post, exps) s.
Proof. done. Qed.
Lemma append_nil (a : string) : a +:+ "" = a.
Proof. induction a as [|c a IH]; [done|]. change (String c (a +:+ "") = String c a). by rewrite IH. Qed.
Lemma length_append a b : String.length (a +:+ b) = (String.length a + String.length b)%nat.
Proof. induction a as [|c a IH]; [done|]. change (String c a +:+ b) with (String c (a +:+ b)). cbn [String.length]. lia. Qed.
Lemma get_two p p' e1 e2 s : (2 <= String.length p)%nat -> operand_step p 0 = Some (p', Some e1, 0, []) ->
  p' <> "" -> operand_step p' 0 = Some ("", Some e2, 0, []) -> get_operands p s = Ok ([e1; e2] ++ [zero_expr]) s.
Proof.
  intros Hl E1 Hp' E2. assert (p <> "") as Hp by (by intros ->; simpl in Hl; lia). unfold get_operands, abind.
  destruct (String.length p) as [|[|n]]; [lia..|]. rewrite (loop_round _ _ _ _ _ _ _ _ Hp E1), (loop_round _ _ _ _ _ _ _ _ Hp' E2), loop_end. done.
Qed.
Lemma get_three p p' p'' e1 e2 e3 s : (3 <= String.length p)%nat -> operand_step p 0 = Some (p', Some e1, 0, []) ->
  p' <> "" -> operand_step p' 0 = Some (p'', Some e2, 0, []) -> p'' <> "" -> operand_step p'' 0 = Some ("", Some e3, 0, []) ->
  get_operands p s = Ok ([e1; e2; e3] ++ [zero_expr]) s.
Proof.
  intros Hl E1 Hp' E2 Hp'' E3. assert (p <> "") as Hp by (by intros ->; simpl in Hl; lia). unfold get_operands, abind.
  destruct (String.length p) as [|[|[|n]]]; [lia..|].
  rewrite (loop_round _ _ _ _ _ _ _ _ Hp E1), (loop_round _ _ _ _ _ _ _ _ Hp' E2), (loop_round _ _ _ _ _ _ _ _ Hp'' E3), loop_end. done.
Qed.
Lemma register_length r : 0 <= r < 16 -> (0 < String.length (reg_name r))%nat.
Proof. intros Hr. destruct (register_nonempty r Hr) as (c & t & ->). cbn [String.length]. lia. Qed.
Lemma number_length n : (0 < String.length (percent_d n))%nat.
Proof. destruct (percent_d_first n) as (c & t & -> & _). cbn [String.length]. lia. Qed.
Lemma nonempty_length s : (0 < String.length s)%nat -> s <> "".
Proof. by intros Hl ->; simpl in Hl; lia. Qed.
Lemma operands_two_gprs a b s : 0 <= a < 16 -> 0 <= b < 16 ->
  get_operands (" " +:+ reg_name a +:+ "," +:+ reg_name b) s = Ok ([gpr a; gpr b] ++ [zero_expr]) s.
Proof.
  intros Ha Hb. apply (get_two _ (reg_name b)).
  - rewrite !length_append. cbn [String.length]. lia.
  - apply step_gpr; [exact Ha|by left|by apply not_at_register].
  - apply nonempty_length. by apply register_length.
  - by apply step_last.
Qed.
Lemma operands_gpr_number a n : 0 <= a < 16 -> - 2 ^ 31 <= n < 2 ^ 31 -> exists u, forall s,
  get_operands (" " +:+ reg_name a +:+ "," +:+ percent_d n) s = Ok ([gpr a; num n u] ++ [zero_expr]) s.
Proof.
  intros Ha Hn. destruct (step_number n 0 Hn) as [u E]. exists u. intros s. apply (get_two _ (percent_d n)).
  - rewrite !length_append. cbn [String.length]. lia.
  - apply step_gpr; [exact Ha|by left|apply not_at_number].
  - apply nonempty_length, number_length.
  - exact E.
Qed.
Lemma operands_two_gprs_number a b n : 0 <= a < 16 -> 0 <= b < 16 -> - 2 ^ 31 <= n < 2 ^ 31 -> exists u, forall s,
  get_operands (" " +:+ reg_name a +:+ "," +:+ reg_name b +:+ "," +:+ percent_d n) s = Ok ([gpr a; gpr b; num n u] ++ [zero_expr]) s.
Proof.
  intros Ha Hb Hn. destruct (step_number n 0 Hn) as [u E]. exists u. intros s.
  apply (get_three _ (reg_name b +:+ "," +:+ percent_d n) (percent_d n)).
  - rewrite !length_append. cbn [String.length]. lia.
  - apply step_gpr; [exact Ha|by left|by apply not_at_register_more].
  - apply nonempty_length. rewrite length_append. pose proof (register_length b Hb). lia.
  - apply (step_gpr b ""); [exact Hb|by right|apply not_at_number].
  - apply nonempty_length, number_length.
  - exact E.
Qed.

(** ** Operands that suit *)

Lemma suits_gpr i r : In i [RSRC; RSRC2; RDST; RDSTE; RSRCE] -> 0 <= r < 16 ->
  (truth (Z.land (flags (operand_at i)) OPERAND_EVEN) = true -> Z.land r 1 = 0) -> suits i (gpr r) /\ operand_bits i (gpr r) = r.
Proof.
  intros Hi Hr He. repeat (destruct Hi as [<-|Hi]; [|]); try destruct Hi;
    each_below r 16%nat; (split; [|reflexivity]);
    first [by repeat split | discriminate (He eq_refl)].
Qed.
Lemma suits_number i n u : In i [NUM4; UNUM4; UNUM4S; NUM16; UNUM16] -> - 2 ^ 31 <= n < 2 ^ 31 ->
  bits (operand_at i) = 16 \/ fits_operand (operand_at i) n ->
  suits i (num n u) /\ operand_bits i (num n u) = n mod 2 ^ bits (operand_at i).
Proof.
  intros Hi Hn Hf.
  assert ((i <> 0 /\ operand_matches (flags (operand_at i)) (num n u) = true /\ 1 <= bits (operand_at i) <= 16) /\
    truth (Z.land (flags (operand_at i)) OPERAND_EVEN) = false /\ is_register (operand_at i) = false /\ is_operand (flags (operand_at i)) = true)
    as ((Hi0 & Hm & Hb) & He & Hr & Ho).
  { clear Hf. repeat (destruct Hi as [<-|Hi]; [by repeat split|]). destruct Hi. }
  assert (operand_number (operand_at i) (num n u) = u32 n) as En by (unfold operand_number; by rewrite Hr).
  split; [split; [exact Hi0|split; [exact Hm|split; [by rewrite He|split; [done|]]]]|].
  - unfold plain_operand. rewrite Ho, En. cbn [num op_is X_op]. apply negb_true_iff. by apply check_range_exact.
  - unfold operand_bits. rewrite En. unfold u32.
    assert (bits (operand_at i) = 4 \/ bits (operand_at i) = 16) as [-> | ->]; [|zdml..].
    clear - Hi. repeat (destruct Hi as [<-|Hi]; [vm_compute; tauto|]). destruct Hi.
Qed.

(** ** Lines *)

(** The instruction fits one container and can be in parallel with another. *)
Definition pairable (d : d10v_opcode) : bool :=
  is_short d && negb (truth (Z.land (exec_type d) SEQ)) && (so_is_long (gen_simop d) =? 0)
  && (0 <=? opcode d) && (opcode d <? 2 ^ 15)
  && forallb (fun f => (0 <=? f.1) && (0 <=? f.2) && (f.1 + f.2 <=? 15)) (so_fields (gen_simop d)).
(** The word of two instructions that are to run in parallel *)
Definition parallel_pair (d1 d2 : d10v_opcode) (i1 i2 : Z) : Z :=
  if (unit_ d1 =? IU) || (unit_ d2 =? MU) then word_of FM00 i2 i1 else word_of FM00 i1 i2.
Definition units_differ (d1 d2 : d10v_opcode) : bool :=
  negb ((unit_ d1 =? IU) && (unit_ d2 =? IU)) && negb ((unit_ d1 =? MU) && (unit_ d2 =? MU)).

(** A state of the assembler in which the fixups that wait make no relocation, and no
    instruction of another section waits *)
Record quiet (s : asm) : Prop := {
  qu_fixups : no_reloc (FixUps0 s) /\ no_reloc (FixUps1 s);
  qu_room : (length (FixUps0 s) <= 3)%nat /\ (length (FixUps1 s) <= 3)%nat;
  qu_section : prev_seg s = 0 \/ (prev_seg s = now_seg s /\ prev_subseg s = now_subseg s)
}.
(** A line of two instructions in parallel: what waits is written first, and then the word [w],
    without a relocation; there are at most warnings. *)
Definition pairs (line : string) (w : Z) : Prop :=
  exists text, line = tab +:+ text +:+ newline /\
    forall s n s1, etype s = 0 -> d10v_cleanup s = Ok n s1 -> quiet s1 ->
      exists s' warnings, md_assemble text s = Ok tt s' /\
        frags s' = frags s1 ++ [Emitted (now_seg s1) (now_subseg s1) (number_to_chars_bigendian w) []] /\
        messages s' = messages s1 ++ warnings /\ Forall (fun m => m.1 = Warn) warnings /\
        prev_opcode s' = None /\ etype s' = 0 /\ FixUps0 s' = [] /\ FixUps1 s' = [].

Lemma cleaned s n s1 : d10v_cleanup s = Ok n s1 -> prev_opcode s1 = None /\ etype s1 = etype s.
Proof.
  unfold d10v_cleanup, abind, aget, amodify. destruct (prev_opcode s) as [o|] eqn:Eo; [|by intros [= <- <-]].
  unfold write_1_short. destruct (truth _); [done|]. unfold emit, amodify, abind, aget. intros [= <- <-].
  split; [done|]. unfold clear_fixups, set_fixups. by destruct s.
Qed.
Lemma abind_ok {A B} (m : A_ A) (f : A -> A_ B) s x s' : m s = Ok x s' -> abind m f s = f x s'.
Proof. intros E. unfold abind. by rewrite E. Qed.
Lemma short_valid i : 0 <= i < 2 ^ 15 -> (i =? invalid_insn) = false.
Proof. intros Hi. apply Z.eqb_neq. change invalid_insn with 4294967295. lia. Qed.
(** Writing a pair *)
Lemma write_pair d1 d2 i1 i2 fx s : pairable d1 = true -> pairable d2 = true -> units_differ d1 d2 = true ->
  exists s' warnings fixes, write_2_short d1 i1 d2 i2 1 fx s = Ok 0 s' /\
    frags s' = frags s ++ [Emitted (now_seg s) (now_subseg s) (number_to_chars_bigendian (parallel_pair d1 d2 i1 i2)) fixes] /\
    (no_reloc (FixUps0 s) -> no_reloc (FixUps1 s) -> fixes = []) /\
    messages s' = messages s ++ warnings /\ Forall (fun m => m.1 = Warn) warnings /\
    etype s' = etype s /\ FixUps0 s' = [] /\ FixUps1 s' = [].
Proof.
  intros H1 H2 Hu. unfold pairable in H1, H2.
  apply andb_prop in H1 as [[[[[Hs1 Hq1%negb_true_iff]%andb_prop _]%andb_prop _]%andb_prop _]%andb_prop _].
  apply andb_prop in H2 as [[[[[Hs2 Hq2%negb_true_iff]%andb_prop _]%andb_prop _]%andb_prop _]%andb_prop _].
  unfold is_short in Hs1, Hs2. unfold write_2_short. change (negb (1 =? 1)) with false. cbn [andb]. unfold truth at 1 2. rewrite Hs1, Hs2.
  cbn [negb orb]. change (1 =? 0) with false. rewrite andb_false_r.
  assert (exists next warnings, pack_2_short d1 i1 d2 i2 1 s =
    Ok (parallel_pair d1 d2 i1 i2, next) (fold_left (fun s m => add_message m s) warnings s) /\
    (warnings = [] \/ exists m, warnings = [(Warn, m)])) as (next & warnings & E & Hw).
  { unfold units_differ in Hu. apply andb_prop in Hu as [Hu1%negb_true_iff Hu2%negb_true_iff].
    unfold pack_2_short, abind at 1, aget at 1. change (1 =? 0) with false. change (1 =? 1) with true. cbv iota.
    rewrite Hq1, Hq2. cbn [orb]. unfold parallel_pair. destruct (unit_ d1 =? IU) eqn:E1; cbn [andb orb] in *.
    - rewrite Hu1. unfold warn_swap, abind, aget, aret. destruct (truth (flag_warn_suppress_instructionswap s)).
      + exists false, []. split; [reflexivity|by left].
      + exists false, [(Warn, "Swapping instruction order")]. split; [reflexivity|right; by eexists].
    - destruct (unit_ d2 =? MU) eqn:E2.
      + rewrite andb_true_r in Hu2. rewrite Hu2. unfold warn_swap, abind, aget, aret. destruct (truth (flag_warn_suppress_instructionswap s)).
        * exists false, []. split; [reflexivity|by left].
        * exists false, [(Warn, "Swapping instruction order")]. split; [reflexivity|right; by eexists].
      + exists true, []. split; [done|by left]. }
  rewrite (abind_ok _ _ _ _ _ E). cbn beta iota.
  clear E. destruct s as [op nw f0 f1 sec po pi ps pss et ns nss fr ms].
  destruct Hw as [-> |[m ->]], next, fx; cbn [fold_left negb];
    (eexists _, _, _; split; [unfold abind, emit, amodify, aget, aret; reflexivity|]);
    (split; [reflexivity|]);
    (split; [intros Hn0 Hn1; cbn in Hn0, Hn1 |- *; unfold new_fixes; rewrite !no_reloc_filter by done; reflexivity|]);
    (split; [first [reflexivity | symmetry; apply app_nil_r]|]); (split; [by repeat constructor|done]).
Qed.
(** The state after the first of the two instructions *)
Definition first_read (d : d10v_opcode) (i : Z) (extra : list d10v_fixup) (s : asm) : asm :=
  swap_fixups (set_prev_opcode (Some d) (set_prev_insn i (with_fixups extra s))).
Lemma assemble_first_reads a d v s n s1 : reads a d v -> short_word (encode (gen_simop d) v) -> d10v_cleanup s = Ok n s1 ->
  quiet s1 -> exists extra, no_reloc extra /\ assemble_first a s = Ok tt (first_read d (encode (gen_simop d) v) extra s1).
Proof.
  intros [_ Hr] Hs Ec [_ [Hl0 Hl1] _]. destruct (Hr s1) as (extra & Hx & E); [unfold cur_fixups; by destruct (fixups_second s1)|].
  exists extra. split; [exact Hx|]. unfold assemble_first. rewrite (abind_ok _ _ _ _ _ Ec). rewrite (abind_ok _ _ _ _ _ E). cbn beta iota.
  unfold abind at 1, amodify at 1. unfold abind at 1, amodify at 1. by rewrite (short_valid _ Hs).
Qed.
Lemma with_fixups_fields l s : etype (with_fixups l s) = etype s /\ prev_opcode (with_fixups l s) = prev_opcode s /\
  prev_insn (with_fixups l s) = prev_insn s /\ prev_seg (with_fixups l s) = prev_seg s /\ prev_subseg (with_fixups l s) = prev_subseg s /\
  now_seg (with_fixups l s) = now_seg s /\ now_subseg (with_fixups l s) = now_subseg s /\ frags (with_fixups l s) = frags s /\
  messages (with_fixups l s) = messages s.
Proof. by destruct s. Qed.
Lemma with_fixups_quiet l s : no_reloc l -> no_reloc (FixUps0 s) /\ no_reloc (FixUps1 s) ->
  no_reloc (FixUps0 (with_fixups l s)) /\ no_reloc (FixUps1 (with_fixups l s)).
Proof.
  intros Hl [Hn0 Hn1]. unfold with_fixups, cur_fixups, set_fixups, no_reloc in *.
  destruct s as [? ? ? ? [] ]; cbn in *; split; try done; by apply List.Forall_app.
Qed.
Lemma md_pair text a b d1 v1 d2 v2 : find_separator text = Some (1, a, b) -> reads a d1 v1 -> reads b d2 v2 ->
  pairable d1 = true -> pairable d2 = true -> units_differ d1 d2 = true ->
  short_word (encode (gen_simop d1) v1) -> short_word (encode (gen_simop d2) v2) ->
  pairs (tab +:+ text +:+ newline) (parallel_pair d1 d2 (encode (gen_simop d1) v1) (encode (gen_simop d2) v2)).
Proof.
  intros Hf Ha Hb Hp1 Hp2 Hu Hs1 Hs2. exists text. split; [done|]. intros s n s1 Et Ec Hq.
  destruct (cleaned s n s1 Ec) as [Hno Het]. destruct (assemble_first_reads a d1 v1 s n s1 Ha Hs1 Ec Hq) as (x1 & Hx1 & Ea).
  set (i1 := encode (gen_simop d1) v1) in *. set (i2 := encode (gen_simop d2) v2) in *. set (s3 := first_read d1 i1 x1 s1) in *.
  destruct Hq as [Hn [Hl0 Hl1] Hsec].
  destruct (with_fixups_fields x1 s1) as (W1 & W2 & W3 & W4 & W5 & W6 & W7 & W8 & W9).
  destruct Hb as [_ Hb]. destruct (Hb s3) as (x2 & Hx2 & E2).
  { unfold s3, first_read, cur_fixups. unfold with_fixups, set_fixups. destruct s1 as [? ? ? ? [] ]; done. }
  fold i2 in E2. set (s4 := set_etype 0 (with_fixups x2 s3)).
  destruct (write_pair d1 d2 i1 i2 (fixups_second s4) s4 Hp1 Hp2 Hu) as (s5 & warnings & fixes & Ew & Efr & Efx & Em & Hw & Ee & F0 & F1).
  destruct (with_fixups_fields x2 s3) as (V1 & V2 & V3 & V4 & V5 & V6 & V7 & V8 & V9).
  assert (fixes = []) as ->.
  { assert (no_reloc (FixUps0 s4) /\ no_reloc (FixUps1 s4)) as [? ?]; [|by apply Efx].
    apply (with_fixups_quiet x2 s3 Hx2). apply (with_fixups_quiet x1 s1 Hx1 Hn). }
  exists (set_prev_opcode None s5), warnings. split.
  { unfold md_assemble. unfold abind at 1, aget at 1. rewrite Et. change (0 =? 0) with true. cbv iota. rewrite Hf. cbv iota beta.
    unfold abind at 1. rewrite (abind_ok _ _ _ _ _ Ea). unfold aret at 1. cbv iota beta.
    unfold abind at 1. rewrite E2. cbv iota beta. rewrite (short_valid i2 Hs2). unfold abind at 1, aget at 1.
    assert (truth (etype (with_fixups x2 s3)) = false) as -> by (rewrite ?V1; unfold s3, first_read; cbn; by rewrite ?W1, Het, Et).
    unfold abind at 1, amodify at 1. fold s4. unfold place.
    assert (truth (Z.land (format d2) LONG_OPCODE) = false) as ->.
    { unfold pairable, is_short in Hp2. repeat (apply andb_prop in Hp2 as [Hp2 _]). unfold truth. by rewrite Hp2. }
    unfold abind at 1, aget at 1. assert (prev_opcode s4 = Some d1) as Ep by (unfold s4; cbn; rewrite ?V2; done).
    assert (prev_insn s4 = i1) as Ei by (unfold s4; cbn; rewrite ?V3; done).
    rewrite Ep. assert (truth (prev_seg s4) && (negb (prev_seg s4 =? now_seg s4) || negb (prev_subseg s4 =? now_subseg s4)) = false) as ->.
    { unfold s4. cbn. rewrite ?V4, ?V5, ?V6, ?V7. unfold s3, first_read. cbn. rewrite ?W4, ?W5, ?W6, ?W7.
      destruct Hsec as [-> |[-> ->]]; [done|]. rewrite !Z.eqb_refl. cbn. apply andb_false_r. }
    unfold abind at 1, aret at 1. unfold abind at 1, aget at 1. rewrite Ep, Ei. rewrite (abind_ok _ _ _ _ _ Ew). done. }
  split; [|split; [|split; [exact Hw|split; [done|split; [|done]]]]]; cbn.
  - rewrite Efr. unfold s4. cbn. rewrite ?V6, ?V7, ?V8. unfold s3, first_read. cbn. by rewrite ?W6, ?W7, ?W8.
  - rewrite Em. unfold s4. cbn. rewrite ?V9. unfold s3, first_read. cbn. by rewrite ?W9.
  - rewrite Ee. done.
Qed.
End Reading.

(** ** Texts and what they do *)

Lemma long_formats d : In d table_ops -> truth (Z.land (format d) LONG_OPCODE) = is_long (gen_simop d).
Proof.
  assert (forallb (fun d => Bool.eqb (truth (Z.land (format d) LONG_OPCODE)) (is_long (gen_simop d))) table_ops = true) as Ha
    by (vm_compute; reflexivity).
  rewrite forallb_forall in Ha. intros Hd. by apply Bool.eqb_prop, Ha.
Qed.

Section Compiled.
Context `{Host} `{GasLaws}.

(** A line of the compiler's text and the code that it is assembled to *)
Definition assembled (line : string) (c : code) : Prop :=
  match c with Single i => assembles line i | Pair w => pairs line w end.
(** A text, line by line; an empty line is no code. *)
Inductive emitted : string -> list code -> Prop :=
  | emitted_end : emitted "" []
  | emitted_line line c text l : assembled line c -> emitted text l -> emitted (line +:+ text) (c :: l)
  | emitted_blank text l : emitted text l -> emitted (newline +:+ text) l.
Lemma emitted_app t t' l l' : emitted t l -> emitted t' l' -> emitted (t +:+ t') (l ++ l').
Proof.
  induction 1 as [|line c t l Hc _ IH|t l _ IH]; intros Ht'; [exact Ht'| |]; rewrite append_assoc; constructor; auto.
Qed.
(** From every state the code of the text runs to its end, and changes registers and flags as
    [f] says, and nothing else. *)
Definition compiles (text : string) (f : regs -> regs) : Prop := exists l, emitted text l /\ RegFile.does l f.

(** Registers that hold 16 bits *)
Definition good (v : regs) : Prop := forall k, 0 <= k < 16 -> 0 <= r_gpr v k < 2 ^ 16.
Lemma good_shows s v : inv s -> shows s v -> good v.
Proof. intros Hs Hv k Hk. rewrite <- (sh_gpr s v Hv k Hk). exact (wf_znth_regs s (proj1 Hs) k). Qed.
Lemma compiles_like t f f' : (forall v, good v -> like (f v) (f' v)) -> compiles t f -> compiles t f'.
Proof.
  intros Hf (l & Hl & Hd). exists l. split; [exact Hl|]. intros s v Hs Hv.
  destruct (Hd s v Hs Hv) as (s' & ws & R & Hw & Hv'). exists s', ws. split; [exact R|split; [exact Hw|]].
  eapply shows_like; [exact Hv'|]. by apply Hf, (good_shows s).
Qed.
Lemma compiles_app t t' f f' : compiles t f -> compiles t' f' -> compiles (t +:+ t') (fun v => f' (f v)).
Proof. intros (l & Hl & Hd) (l' & Hl' & Hd'). exists (l ++ l'). split; [by apply emitted_app|by apply does_app]. Qed.
Lemma compiles_blank t f : compiles t f -> compiles (t +:+ newline) f.
Proof.
  intros (l & Hl & Hd). exists l. split; [|exact Hd]. rewrite <- (app_nil_r l). apply emitted_app; [exact Hl|].
  apply (emitted_blank ""). constructor.
Qed.
Lemma compiles_nothing : compiles "" (fun v => v).
Proof. exists []. split; [constructor|apply does_nil]. Qed.

(** The text of one instruction that does [f]; [short]: it can follow a test.  The simulator
    may have another entry, [o], for the instruction's words. *)
Definition same_words (o o' : simops) : Prop :=
  so_opcode o = so_opcode o' /\ so_is_long o = so_is_long o' /\ so_mask o = so_mask o' /\ so_fields o = so_fields o'.
Definition insn_text (text : string) (short : bool) (f : regs -> regs) : Prop :=
  exists d vals o f0, reads text d vals /\ same_words o (gen_simop d) /\ performs o vals f0 /\
    (forall v, good v -> like (f0 v) (f v)) /\ (short = true -> pairable d = true).
Lemma same_words_encode o o' vals : same_words o o' -> encode o vals = encode o' vals /\ is_long o = is_long o' /\
  (encodable o vals -> encodable o' vals).
Proof. intros (E1 & E2 & E3 & E4). unfold encode, encodable, is_long. by rewrite E1, E2, E3, E4. Qed.
Lemma same_words_refl o : same_words o o.
Proof. done. Qed.
Lemma like_refl v : like v v.
Proof. done. Qed.
Lemma line_compiles text short f : insn_text text short f -> compiles (tab +:+ text +:+ newline) f.
Proof.
  intros (d & vals & o & f0 & [Hd Hr] & Ho & Hp & Hf & _). eapply compiles_like; [exact Hf|].
  exists [single o vals]. split; [|by apply single_does]. destruct (same_words_encode _ _ vals Ho) as (Ee & El & _). unfold single. rewrite Ee, El.
  rewrite <- (append_nil (tab +:+ _)). constructor; [|constructor]. exists text, d. split; [done|split; [|exact Hr]].
  by apply long_formats.
Qed.
Lemma pairable_short d vals : pairable d = true -> encodable (gen_simop d) vals -> short_word (encode (gen_simop d) vals) /\ so_is_long (gen_simop d) = 0.
Proof.
  intros Hp Hv. unfold pairable in Hp.
  apply andb_prop in Hp as [[[[_ Hl%Z.eqb_eq]%andb_prop Ho1%Z.leb_le]%andb_prop Ho2%Z.ltb_lt]%andb_prop Hf].
  split; [|exact Hl]. by apply encode_short.
Qed.
End Compiled.
