(* ===== verification/Mnemonics.v ===== *)
(** * The mnemonics of compiled code

    For each mnemonic that the compiler uses for comparisons, sums, differences and moves:
    its text with any registers and numbers, and what the instruction does. *)
From S2P Require Import Prelude CInt Opcodes State Interp Machine Decode NumSpec Step Words Insns.
From S2P Require Import Asm AsmPack DisSpec AsmSpec Emit Gcc GccText RegFile InsnText.
From Stdlib Require Import Ascii.
#[local] Open Scope string_scope.
#[local] Open Scope list_scope.
#[local] Open Scope Z_scope.

Section Mnemonics.
Context `{Host} `{GasLaws}.

(** ** Two registers *)

Lemma two_gprs w j a b f (short : bool) :
  named w && usable j && (entry w =? j)%nat && negb (format (opcode_at j) =? OPCODE_FAKE) = true ->
  (exists i1 i2, active (operands (opcode_at j)) = [i1; i2] /\ In i1 [RSRC; RSRC2; RDST; RDSTE; RSRCE] /\ In i2 [RSRC; RSRC2; RDST; RDSTE; RSRCE] /\
    is_operand_at i1 && is_operand_at i2 = true /\
    (truth (Z.land (flags (operand_at i1)) OPERAND_EVEN) = true -> Z.land a 1 = 0) /\
    (truth (Z.land (flags (operand_at i2)) OPERAND_EVEN) = true -> Z.land b 1 = 0)) ->
  (short = true -> pairable (opcode_at j) = true) -> 0 <= a < 16 -> 0 <= b < 16 -> performs (gen_simop (opcode_at j)) [a; b] f ->
  insn_text (w +:+ " " +:+ reg_name a +:+ "," +:+ reg_name b) short f.
Proof.
  intros Hc (i1 & i2 & Ha & Hi1 & Hi2 & Hop & He1 & He2) Hs Hra Hrb Hp.
  apply andb_prop in Hc as [[[Hw Hj]%andb_prop He]%andb_prop Hn].
  destruct (suits_gpr i1 a Hi1 Hra He1) as [S1 B1]. destruct (suits_gpr i2 b Hi2 Hrb He2) as [S2 B2].
  exists (opcode_at j), [a; b], (gen_simop (opcode_at j)), f. split; [|split; [apply same_words_refl|split; [exact Hp|split; [intros v _; apply like_refl|exact Hs]]]].
  pose proof (reads_first w (reg_name a +:+ "," +:+ reg_name b) j [gpr a; gpr b] Hw Hj) as R. rewrite Ha in R.
  apply andb_prop in Hop as [Ho1 Ho2]. cbn [operand_values] in R. rewrite Ho1, Ho2, B1, B2 in R. apply R.
  - by rewrite He, Hn.
  - exact (List.Forall2_cons _ _ S1 (List.Forall2_cons _ _ S2 (List.Forall2_nil _))).
  - intros s. by apply operands_two_gprs.
Qed.
Ltac two_gprs_tac j i1 i2 := apply (two_gprs _ j); [vm_compute; reflexivity|
  exists i1, i2; split; [vm_compute; reflexivity|split; [simpl; tauto|split; [simpl; tauto|split; [vm_compute; reflexivity|split; intros ?; first [assumption|discriminate]]]]]|
  intros _; vm_compute; reflexivity|lia|lia|].
Ltac named_tac f := match goal with |- performs (gen_simop ?d) _ _ => replace (gen_simop d) with (simop_named f) by (vm_compute; reflexivity) end.

Lemma cmpeq_text a b : 0 <= a < 16 -> 0 <= b < 16 ->
  insn_text ("cmpeq" +:+ " " +:+ reg_name a +:+ "," +:+ reg_name b) true (fun v => compare_regs (r_gpr v a =? r_gpr v b) v).
Proof. intros Ha Hb. two_gprs_tac 33%nat RSRC2 RSRC. named_tac 0x400. by apply cmpeq_performs. Qed.
Lemma cmp_text a b : 0 <= a < 16 -> 0 <= b < 16 ->
  insn_text ("cmp" +:+ " " +:+ reg_name a +:+ "," +:+ reg_name b) true (fun v => compare_regs (s16 (r_gpr v a) <? s16 (r_gpr v b)) v).
Proof. intros Ha Hb. two_gprs_tac 31%nat RSRC2 RSRC. named_tac 0x600. by apply cmp_performs. Qed.
Lemma cmpu_text a b : 0 <= a < 16 -> 0 <= b < 16 ->
  insn_text ("cmpu" +:+ " " +:+ reg_name a +:+ "," +:+ reg_name b) true (fun v => compare_regs (r_gpr v a <? r_gpr v b) v).
Proof. intros Ha Hb. two_gprs_tac 41%nat RSRC2 RSRC. named_tac 0x4600. by apply cmpu_performs. Qed.
Lemma mv_text a b : 0 <= a < 16 -> 0 <= b < 16 ->
  insn_text ("mv" +:+ " " +:+ reg_name a +:+ "," +:+ reg_name b) true (fun v => set_reg a (r_gpr v b) v).
Proof. intros Ha Hb. two_gprs_tac 90%nat RDST RSRC. named_tac 0x4000. by apply mv_performs. Qed.
Lemma mvf_text (t : bool) a b : 0 <= a < 16 -> 0 <= b < 16 ->
  insn_text ((if t then "mvf0t" else "mvf0f") +:+ " " +:+ reg_name a +:+ "," +:+ reg_name b) true
    (fun v => if Bool.eqb (r_f0 v) t then set_reg a (r_gpr v b) v else v).
Proof.
  intros Ha Hb. destruct t.
  - two_gprs_tac 97%nat RDST RSRC. named_tac 0x4401. by apply (mvf_performs true).
  - two_gprs_tac 96%nat RDST RSRC. named_tac 0x4400. by apply (mvf_performs false).
Qed.
Lemma mv2w_text a b : 0 <= a < 15 -> 0 <= b < 15 -> Z.land a 1 = 0 -> Z.land b 1 = 0 ->
  insn_text ("mv2w" +:+ " " +:+ reg_name a +:+ "," +:+ reg_name b) true
    (fun v => Regs (put (a + 1) (r_gpr v (b + 1)) (put a (r_gpr v b) (r_gpr v))) (r_f0 v) (r_f1 v) (r_c v)).
Proof. intros Ha Hb Ea Eb. two_gprs_tac 91%nat RDSTE RSRCE. named_tac 0x5000. by apply mv2w_performs. Qed.
Lemma add2w_text a b : 0 <= a < 15 -> 0 <= b < 15 -> Z.land a 1 = 0 -> Z.land b 1 = 0 ->
  insn_text ("add2w" +:+ " " +:+ reg_name a +:+ "," +:+ reg_name b) true
    (fun v => set_carry (2 ^ 32 <=? pair_of (r_gpr v) a + pair_of (r_gpr v) b) (set_pair a (pair_of (r_gpr v) a + pair_of (r_gpr v) b) v)).
Proof. intros Ha Hb Ea Eb. two_gprs_tac 5%nat RDSTE RSRCE. named_tac 0x1200. by apply add2w_performs. Qed.
Lemma sub2w_text a b : 0 <= a < 15 -> 0 <= b < 15 -> Z.land a 1 = 0 -> Z.land b 1 = 0 ->
  insn_text ("sub2w" +:+ " " +:+ reg_name a +:+ "," +:+ reg_name b) true
    (fun v => set_carry (pair_of (r_gpr v) b <=? pair_of (r_gpr v) a) (set_pair a (pair_of (r_gpr v) a - pair_of (r_gpr v) b) v)).
Proof. intros Ha Hb Ea Eb. two_gprs_tac 153%nat RDSTE RSRCE. named_tac 0x1000. by apply sub2w_performs. Qed.

(** ** A register and a number *)

Lemma gpr_number w j i1 i2 a n f0 f short :
  named w && usable j = true -> active (operands (opcode_at j)) = [i1; i2] -> In i1 [RSRC; RSRC2; RDST; RDSTE; RSRCE] ->
  In i2 [NUM4; UNUM4; UNUM4S; NUM16; UNUM16] ->
  truth (Z.land (flags (operand_at i1)) OPERAND_EVEN) = false -> bits (operand_at i2) = 16 \/ fits_operand (operand_at i2) n ->
  (forall u s, Forall2 suits [i1; i2] [gpr a; num n u] ->
     get_operands (String " "%char (reg_name a +:+ "," +:+ percent_d n)) s = Ok ([gpr a; num n u] ++ [zero_expr]) s ->
     find_opcode (entry w) (String " "%char (reg_name a +:+ "," +:+ percent_d n)) s = Ok (Some (j, [gpr a; num n u] ++ [zero_expr])) s) ->
  (short = true -> pairable (opcode_at j) = true) -> 0 <= a < 16 -> - 2 ^ 31 <= n < 2 ^ 31 ->
  performs (gen_simop (opcode_at j)) [a; n mod 2 ^ bits (operand_at i2)] f0 -> (forall v, good v -> like (f0 v) (f v)) ->
  insn_text (w +:+ " " +:+ reg_name a +:+ "," +:+ percent_d n) short f.
Proof.
  intros Hc Ha Hi1 Hi2 He Hfit Hf Hs Hra Hn Hp Hlike. apply andb_prop in Hc as [Hw Hj].
  destruct (operands_gpr_number a n Hra Hn) as [u Hg].
  destruct (suits_gpr i1 a Hi1 Hra) as [S1 B1]; [by rewrite He|]. destruct (suits_number i2 n u Hi2 Hn Hfit) as [S2 B2].
  exists (opcode_at j), [a; n mod 2 ^ bits (operand_at i2)], (gen_simop (opcode_at j)), f0.
  split; [|split; [apply same_words_refl|split; [exact Hp|split; [exact Hlike|exact Hs]]]].
  pose proof (reads_found w (reg_name a +:+ "," +:+ percent_d n) j [gpr a; num n u] Hw Hj) as R. rewrite Ha in R.
  assert (is_operand_at i1 && is_operand_at i2 = true) as [Ho1 Ho2]%andb_prop.
  { clear - Hi1 Hi2. repeat (destruct Hi1 as [<-|Hi1]; [repeat (destruct Hi2 as [<-|Hi2]; [done|]); destruct Hi2|]). destruct Hi1. }
  assert (Forall2 suits [i1; i2] [gpr a; num n u]) as Hes by exact (List.Forall2_cons _ _ S1 (List.Forall2_cons _ _ S2 (List.Forall2_nil _))).
  cbn [operand_values] in R. rewrite Ho1, Ho2, B1, B2 in R. apply R; [exact Hes|]. intros s. apply Hf; [exact Hes|apply Hg].
Qed.

(** The name stands for a short and a long form: the short one is taken for the numbers that
    it can hold. *)
Definition fake_entry (i : nat) : bool :=
  (format (opcode_at i) =? OPCODE_FAKE) && bool_decide (operands (opcode_at i) = [1; 4; 16; 0; 0; 0])
  && (operand_index (opcode_at (S i)) 1 =? NUM4) && (operand_index (opcode_at (S (S i))) 1 =? NUM16).
Lemma find_fake_number w text i a n u s i1 : (entry w =? i)%nat && fake_entry i = true -> operand_index (opcode_at (S i)) 0 = i1 ->
  suits i1 (gpr a) -> - 2 ^ 31 <= n < 2 ^ 31 -> get_operands text s = Ok ([gpr a; num n u] ++ [zero_expr]) s ->
  find_opcode (entry w) text s = Ok (Some (if (-8 <=? n) && (n <? 8) then S i else S (S i), [gpr a; num n u] ++ [zero_expr])) s.
Proof.
  intros Hc Ei (_ & Hm & _ & _ & _) Hn Hg. unfold fake_entry in Hc.
  apply andb_prop in Hc as [He%Nat.eqb_eq [[[Hf Ho%bool_decide_eq_true]%andb_prop E1%Z.eqb_eq]%andb_prop E2%Z.eqb_eq]%andb_prop].
  unfold find_opcode. unfold abind at 1. rewrite Hg, He, Hf. unfold find_fake.
  assert (operand_index (opcode_at i) 0 = 1) as E0 by (unfold operand_index; by rewrite Ho). rewrite E0.
  change (Z.to_nat 1) with 1%nat. cbn [app list_lookup lookup]. rewrite Ei.
  change (op_is O_register (num n u)) with false. cbv iota.
  assert (truth (Z.land (flags (operand_at i1)) OPERAND_REG)
    && (negb (op_is O_register (gpr a)) || wrong_class (X_add_number (gpr a)) (flags (operand_at i1))) = false) as Hr.
  { unfold operand_matches in Hm. apply andb_prop in Hm as [[_ Hm%negb_true_iff]%andb_prop _]. exact Hm. }
  change (<[1%nat := num n u]> [gpr a; num n u; zero_expr]) with [gpr a; num n u; zero_expr].
  change (default zero_expr ([gpr a; num n u; zero_expr] !! 0%nat)) with (gpr a). rewrite Hr. unfold abind at 1, aget at 1.
  change (op_is O_constant (num n u)) with true. cbn [orb]. rewrite Ho. cbn [tl fake_loop Z.eqb].
  rewrite E1, E2. change (truth (Z.land (flags (operand_at NUM4)) OPERAND_ADDR)) with false. change (truth (Z.land (flags (operand_at NUM16)) OPERAND_ADDR)) with false.
  cbv iota. change (op_is O_constant (num n u)) with true. cbv iota. change (X_add_number (num n u)) with n.
  change (bits (operand_at NUM16)) with 16. change (check_range (u32 n) 16 (flags (operand_at NUM16))) with false.
  assert (negb (check_range (u32 n) (bits (operand_at NUM4)) (flags (operand_at NUM4))) = (-8 <=? n) && (n <? 8)) as ->.
  { pose proof (check_range_exact (operand_at NUM4) n ltac:(vm_compute; split; discriminate) Hn) as Hk.
    change (fits_operand (operand_at NUM4) n) with (-8 <= n < 8) in Hk. change (bits (operand_at NUM4)) with 4 in Hk |- *.
    revert Hk. generalize (check_range (u32 n) 4 (flags (operand_at NUM4))). clear. intros b Hk.
    destruct b, (Z.leb_spec (-8) n), (Z.ltb_spec n 8); cbn [negb andb]; try reflexivity; exfalso;
      [assert (true = false) by (apply Hk; lia); discriminate|destruct (proj1 Hk eq_refl); lia..]. }
  by destruct ((-8 <=? n) && (n <? 8)).
Qed.
Lemma Forall2_inv_head {A B} {P : A -> B -> Prop} {x y l l'} : Forall2 P (x :: l) (y :: l') -> P x y.
Proof. by inversion 1. Qed.
Definition small (n : Z) : bool := (-8 <=? n) && (n <? 8).
Lemma gpr_fake w i i1 a n fs fl f :
  named w && usable (S i) && usable (S (S i)) && ((entry w =? i)%nat && fake_entry i)
    && bool_decide (active (operands (opcode_at (S i))) = [i1; NUM4]) && bool_decide (active (operands (opcode_at (S (S i)))) = [i1; NUM16])
    && negb (truth (Z.land (flags (operand_at i1)) OPERAND_EVEN)) && pairable (opcode_at (S i)) = true ->
  In i1 [RSRC; RSRC2; RDST; RDSTE; RSRCE] -> 0 <= a < 16 -> - 2 ^ 31 <= n < 2 ^ 31 ->
  performs (gen_simop (opcode_at (S i))) [a; n mod 2 ^ 4] fs -> performs (gen_simop (opcode_at (S (S i)))) [a; n mod 2 ^ 16] fl ->
  (-8 <= n < 8 -> forall v, good v -> like (fs v) (f v)) -> (forall v, good v -> like (fl v) (f v)) ->
  insn_text (w +:+ " " +:+ reg_name a +:+ "," +:+ percent_d n) (small n) f.
Proof.
  intros Hc Hi1 Ha Hn Ps Pl Ls Ll. repeat match type of Hc with _ && _ = true => apply andb_prop in Hc as [Hc ?] end.
  repeat match goal with H : bool_decide _ = true |- _ => apply bool_decide_eq_true in H end.
  match goal with E : active (operands (opcode_at (S i))) = _, E' : active (operands (opcode_at (S (S i)))) = _, Hf : _ && fake_entry i = true |- _ =>
    rename E into Es; rename E' into El; rename Hf into Hfk end.
  assert (operand_index (opcode_at (S i)) 0 = i1) as Ei.
  { unfold operand_index. revert Es. clear. intros Es. destruct (operands (opcode_at (S i))) as [|x l]; [discriminate|].
    cbn [active nth] in *. destruct (x =? 0); congruence. }
  assert (truth (Z.land (flags (operand_at i1)) OPERAND_EVEN) = false) as He by by apply negb_true_iff.
  unfold small. destruct ((-8 <=? n) && (n <? 8)) eqn:En.
  - apply andb_prop in En as [En1%Z.leb_le En2%Z.ltb_lt].
    apply (gpr_number w (S i) i1 NUM4 a n fs); [apply andb_true_intro; split; assumption|exact Es|exact Hi1|simpl; tauto|exact He|
      right; change (-8 <= n < 8); lia|..|intros _; assumption|exact Ha|exact Hn|exact Ps|apply Ls; lia].
    intros u s Hes Hg. rewrite (find_fake_number w _ i a n u s i1 Hfk Ei); [|exact (Forall2_inv_head Hes)|exact Hn|exact Hg].
    rewrite (proj2 (Z.leb_le _ _) En1), (proj2 (Z.ltb_lt _ _) En2). reflexivity.
  - apply (gpr_number w (S (S i)) i1 NUM16 a n fl); [apply andb_true_intro; split; assumption|exact El|exact Hi1|simpl; tauto|exact He|
      left; reflexivity|..|intros Hx; discriminate Hx|exact Ha|exact Hn|exact Pl|exact Ll].
    intros u s Hes Hg. rewrite (find_fake_number w _ i a n u s i1 Hfk Ei); [|exact (Forall2_inv_head Hes)|exact Hn|exact Hg]. rewrite En. reflexivity.
Qed.
Ltac fake_tac i i1 a n := eapply (gpr_fake _ i i1 a n); [vm_compute; reflexivity|simpl; tauto|lia|lia|..].
Lemma small_number n : -8 <= n < 8 -> wrap_signed 4 (n mod 2 ^ 4) = n.
Proof. intros Hn. unfold wrap_signed. zdml. Qed.
Lemma s16_mod n : s16 (n mod 2 ^ 16) = s16 n.
Proof. unfold s16, wrap_signed. zdml. Qed.
Lemma s16_equal x n : 0 <= x < 2 ^ 16 -> -8 <= n < 8 -> (s16 x =? n) = (x =? n mod 2 ^ 16).
Proof. intros Hx Hn. unfold s16, wrap_signed. destruct (Z.eqb_spec (wrap_signed 16 x) n), (Z.eqb_spec x (n mod 2 ^ 16)); unfold wrap_signed in *; zdml. Qed.
Lemma cmpeqi_text a n : 0 <= a < 16 -> - 2 ^ 31 <= n < 2 ^ 31 ->
  insn_text ("cmpeqi" +:+ " " +:+ reg_name a +:+ "," +:+ percent_d n) (small n) (fun v => compare_regs (r_gpr v a =? n mod 2 ^ 16) v).
Proof.
  intros Ha Hn. fake_tac 35%nat RSRC2 a n.
  - named_tac 0x401. apply cmpeqi_s_performs; [exact Ha|zdml].
  - named_tac 0x2000000. apply cmpeqi_l_performs; [exact Ha|zdml].
  - intros Hs v Hv. cbv beta. rewrite small_number, s16_equal by first [exact Hs | by apply Hv]. apply like_refl.
  - intros v _. apply like_refl.
Qed.
Lemma cmpi_text a n : 0 <= a < 16 -> - 2 ^ 31 <= n < 2 ^ 31 ->
  insn_text ("cmpi" +:+ " " +:+ reg_name a +:+ "," +:+ percent_d n) (small n) (fun v => compare_regs (s16 (r_gpr v a) <? s16 n) v).
Proof.
  intros Ha Hn. fake_tac 38%nat RSRC2 a n.
  - named_tac 0x601. apply cmpi_s_performs; [exact Ha|zdml].
  - named_tac 0x3000000. apply cmpi_l_performs; [exact Ha|zdml].
  - intros Hs v Hv. cbv beta. rewrite small_number by exact Hs. replace (s16 n) with n by (unfold s16, wrap_signed; zdml). apply like_refl.
  - intros v _. cbv beta. rewrite s16_mod. apply like_refl.
Qed.
Lemma ldi_text a n : 0 <= a < 16 -> - 2 ^ 31 <= n < 2 ^ 31 ->
  insn_text ("ldi" +:+ " " +:+ reg_name a +:+ "," +:+ percent_d n) (small n) (set_reg a (n mod 2 ^ 16)).
Proof.
  intros Ha Hn. fake_tac 69%nat RDST a n.
  - named_tac 0x4001. apply ldi_s_performs; [exact Ha|zdml].
  - named_tac 0x20000000. apply ldi_l_performs; [exact Ha|zdml].
  - intros Hs v Hv. cbv beta. rewrite small_number by exact Hs. apply like_refl.
  - intros v _. apply like_refl.
Qed.
Ltac number_tac j i1 i2 f := eapply (gpr_number _ j i1 i2 _ _ f);
  [vm_compute; reflexivity|reflexivity|simpl; tauto|simpl; tauto|reflexivity| |
   intros u s Hes Hg; apply opcode_found; [vm_compute; reflexivity|exact Hes|exact Hg]|
   intros E; first [discriminate E | vm_compute; reflexivity]|lia|lia| |].
Lemma cmpui_text a n : 0 <= a < 16 -> - 2 ^ 31 <= n < 2 ^ 31 ->
  insn_text ("cmpui" +:+ " " +:+ reg_name a +:+ "," +:+ percent_d n) false (fun v => compare_regs (r_gpr v a <? n mod 2 ^ 16) v).
Proof.
  intros Ha Hn. number_tac 42%nat RSRC2 UNUM16 (fun v => compare_regs (r_gpr v a <? n mod 2 ^ 16) v).
  - by left.
  - named_tac 0x23000000. apply cmpui_performs; [exact Ha|zdml].
  - intros v _. apply like_refl.
Qed.
Lemma sixteen_mod n : 1 <= n <= 16 -> sixteen (n mod 2 ^ 4) = n.
Proof. intros Hn. each_below n 17%nat; reflexivity. Qed.
Lemma addi_text a n : 0 <= a < 16 -> 1 <= n <= 16 ->
  insn_text ("addi" +:+ " " +:+ reg_name a +:+ "," +:+ percent_d n) true
    (fun v => set_carry (2 ^ 16 <=? r_gpr v a + n) (set_reg a ((r_gpr v a + n) mod 2 ^ 16) v)).
Proof.
  intros Ha Hn. number_tac 11%nat RDST UNUM4S
    (fun v => set_carry (2 ^ 16 <=? r_gpr v a + sixteen (n mod 2 ^ 4)) (set_reg a ((r_gpr v a + sixteen (n mod 2 ^ 4)) mod 2 ^ 16) v)).
  - right. change (0 <= n <= 16). lia.
  - named_tac 0x201. apply addi_performs; [exact Ha|zdml].
  - intros v _. cbv beta. rewrite sixteen_mod by exact Hn. apply like_refl.
Qed.
Lemma subi_text a n : 0 <= a < 16 -> 1 <= n <= 16 ->
  insn_text ("subi" +:+ " " +:+ reg_name a +:+ "," +:+ percent_d n) true
    (fun v => set_carry (n <=? r_gpr v a) (set_reg a ((r_gpr v a - n) mod 2 ^ 16) v)).
Proof.
  intros Ha Hn. number_tac 158%nat RDST UNUM4S
    (fun v => set_carry (sixteen (n mod 2 ^ 4) <=? r_gpr v a) (set_reg a ((r_gpr v a - sixteen (n mod 2 ^ 4)) mod 2 ^ 16) v)).
  - right. change (0 <= n <= 16). lia.
  - named_tac 0x1. apply subi_performs; [exact Ha|zdml].
  - intros v _. cbv beta. rewrite sixteen_mod by exact Hn. apply like_refl.
Qed.
Lemma slli_text a n : 0 <= a < 16 -> 0 <= n < 16 ->
  insn_text ("slli" +:+ " " +:+ reg_name a +:+ "," +:+ percent_d n) true (fun v => set_reg a ((r_gpr v a * 2 ^ n) mod 2 ^ 16) v).
Proof.
  intros Ha Hn. number_tac 125%nat RDST UNUM4 (fun v => set_reg a ((r_gpr v a * 2 ^ (n mod 2 ^ 4)) mod 2 ^ 16) v).
  - right. change (0 <= n < 16). lia.
  - named_tac 0x2201. apply slli_performs; [exact Ha|zdml].
  - intros v _. cbv beta. rewrite (Z.mod_small n) by lia. apply like_refl.
Qed.

(** ** The remaining forms *)

Lemma add3_text d a n : 0 <= d < 16 -> 0 <= a < 16 -> - 2 ^ 31 <= n < 2 ^ 31 ->
  insn_text ("add3" +:+ " " +:+ reg_name d +:+ "," +:+ reg_name a +:+ "," +:+ percent_d n) false
    (fun v => set_carry (2 ^ 16 <=? r_gpr v a + n mod 2 ^ 16) (set_reg d ((r_gpr v a + n mod 2 ^ 16) mod 2 ^ 16) v)).
Proof.
  intros Hd Ha Hn. destruct (operands_two_gprs_number d a n Hd Ha Hn) as [u Hg].
  destruct (suits_gpr RDST d ltac:(simpl; tauto) Hd ltac:(discriminate)) as [S1 B1].
  destruct (suits_gpr RSRC a ltac:(simpl; tauto) Ha ltac:(discriminate)) as [S2 B2].
  destruct (suits_number NUM16 n u ltac:(simpl; tauto) Hn ltac:(by left)) as [S3 B3].
  exists (opcode_at 6), [d; a; n mod 2 ^ 16], (gen_simop (opcode_at 6)). eexists.
  split; [|split; [apply same_words_refl|split; [named_tac 0x1000000; apply add3_performs; [exact Hd|exact Ha|zdml]|
    split; [intros v _; apply like_refl|discriminate]]]].
  pose proof (reads_first "add3" (reg_name d +:+ "," +:+ reg_name a +:+ "," +:+ percent_d n) 6 [gpr d; gpr a; num n u]) as R.
  replace (active (operands (opcode_at 6))) with [RDST; RSRC; NUM16] in R by (vm_compute; reflexivity).
  cbn [operand_values] in R. replace (is_operand_at RDST) with true in R by reflexivity.
  replace (is_operand_at RSRC) with true in R by reflexivity. replace (is_operand_at NUM16) with true in R by reflexivity.
  rewrite B1, B2, B3 in R. apply R; [vm_compute; reflexivity..| |exact Hg].
  exact (List.Forall2_cons _ _ S1 (List.Forall2_cons _ _ S2 (List.Forall2_cons _ _ S3 (List.Forall2_nil _)))).
Qed.
(** [cpfg f0,c], also with a space after it *)
Definition flag_expr (nm : string) (n : Z) : expressionS := Expr None (Some (Chars nm)) n O_register false.
Lemma cpfg_reads trail : trail = "" \/ trail = " " -> reads ("cpfg f0,c" +:+ trail) (opcode_at 44) [0; 3].
Proof.
  intros Ht.
  assert (forall s, find_opcode (entry "cpfg") (" f0,c" +:+ trail) s =
    Ok (Some (44%nat, [flag_expr "f0" OPERAND_FFLAG; flag_expr "c" (OPERAND_CFLAG + 3)] ++ [zero_expr])) s) as Hf.
  { intros s. destruct Ht as [-> | ->]; vm_compute; reflexivity. }
  pose proof (reads_found "cpfg" ("f0,c" +:+ trail) 44 [flag_expr "f0" OPERAND_FFLAG; flag_expr "c" (OPERAND_CFLAG + 3)]) as R.
  replace (operand_values (active (operands (opcode_at 44))) _) with [0; 3] in R by (vm_compute; reflexivity).
  apply R; [vm_compute; reflexivity..| |exact Hf].
  replace (active (operands (opcode_at 44))) with [FDST; CFSRC] by (vm_compute; reflexivity).
  apply List.Forall2_cons; [|apply List.Forall2_cons; [|apply List.Forall2_nil]];
    (split; [discriminate|split; [vm_compute; reflexivity|split; [vm_compute; reflexivity|split; vm_compute; reflexivity]]]).
Qed.
Lemma cpfg_text : insn_text "cpfg f0,c" true (fun v => Regs (r_gpr v) (r_c v) (r_f1 v) (r_c v)).
Proof.
  exists (opcode_at 44), [0; 3], (simop_named 0x4E09). eexists. split; [apply (cpfg_reads ""); by left|].
  split; [split; [|split; [|split]]; vm_compute; reflexivity|]. split; [exact cpfg_performs|split; [intros v _; apply like_refl|intros _; vm_compute; reflexivity]].
Qed.

(** ** Tests *)

(** The name of a test, and what it asks *)
Definition test_name (t : string) (ask : regs -> bool) : Prop :=
  exists j, named t && usable j && (entry t =? j)%nat && negb (format (opcode_at j) =? OPCODE_FAKE)
      && bool_decide (active (operands (opcode_at j)) = []) && pairable (opcode_at j) && (unit_ (opcode_at j) =? EITHER) = true /\
    guards (gen_simop (opcode_at j)) ask /\
    (forall text, find_separator (t +:+ " ||" +:+ text) = Some (1, t +:+ " ", text)).
Ltac test_tac j f := exists j; split; [vm_compute; reflexivity|split; [|intros text; reflexivity]];
  replace (gen_simop _) with (simop_named f) by (vm_compute; reflexivity).
Lemma exef0t_name : test_name "exef0t" r_f0.
Proof. test_tac 48%nat 0x4E24. exact exef0t_guards. Qed.
Lemma exef0f_name : test_name "exef0f" (fun v => negb (r_f0 v)).
Proof. test_tac 47%nat 0x4E04. exact exef0f_guards. Qed.
Lemma exef1t_name : test_name "exef1t" r_f1.
Proof. test_tac 50%nat 0x4E42. exact exef1t_guards. Qed.
(** What the text of a test is assembled to, with a space after it or before it *)
Lemma test_parts t ask : test_name t ask -> exists d,
  reads (t +:+ " ") d [] /\ reads t d [] /\ pairable d = true /\ unit_ d = EITHER /\ guards (gen_simop d) ask /\
  forall text, find_separator (t +:+ " ||" +:+ text) = Some (1, t +:+ " ", text).
Proof.
  intros (j & Hc & Hg & Hf). exists (opcode_at j).
  repeat match type of Hc with _ && _ = true => apply andb_prop in Hc as [Hc ?] end.
  match goal with E : bool_decide _ = true |- _ => apply bool_decide_eq_true in E; rename E into Ea end.
  assert ((entry t =? j)%nat && negb (format (opcode_at j) =? OPCODE_FAKE) = true) as He by (apply andb_true_intro; split; assumption).
  assert (forall s, get_operands " " s = Ok ([] ++ [zero_expr]) s) as Hsp by reflexivity.
  split; [|split; [|split; [assumption|split; [by apply Z.eqb_eq|split; [exact Hg|exact Hf]]]]].
  - pose proof (reads_first t "" j []) as R. rewrite Ea in R. apply R; [assumption..|constructor|exact Hsp].
  - apply reads_bare; [assumption..|]. intros s. apply (opcode_found t "" j []); [exact He|rewrite Ea; constructor|reflexivity].
Qed.
Lemma encode_bare d : In d table_ops -> encode (gen_simop d) [] = so_opcode (gen_simop d).
Proof. intros _. unfold encode. by destruct (so_fields (gen_simop d)). Qed.
(** A test and an instruction on a line *)
Lemma test_compiles t ask text f : test_name t ask -> insn_text text true f ->
  compiles (tab +:+ (t +:+ " || " +:+ text) +:+ newline) (fun v => if ask v : bool then f v else v).
Proof.
  intros Ht (d & vals & o & f0 & Hr & Ho & Hp & Hf & Hd). destruct (test_parts t ask Ht) as (dt & Rt & _ & Hpt & Hu & Hg & Hsep).
  specialize (Hd eq_refl). destruct (same_words_encode _ _ vals Ho) as (Ee & _ & Hev).
  destruct (pairable_short d vals Hd (Hev (proj1 Hp))) as [Hsw Hl].
  assert (encode (gen_simop dt) [] = so_opcode (gen_simop dt)) as Et by apply encode_bare, (proj1 Rt).
  assert (short_word (so_opcode (gen_simop dt))) as Hst by (destruct Hg as (? & Htest & _); apply (ts_word _ _ Htest)).
  apply (compiles_like _ (fun v => if ask v then f0 v else v)); [intros v Hv; destruct (ask v); [by apply Hf|apply like_refl]|].
  set (lr := if unit_ d =? MU then RIGHT_FIRST else LEFT_FIRST).
  exists [Pair (guarded_word lr (so_opcode (gen_simop dt)) (encode o vals))]. split.
  - rewrite <- (append_nil (tab +:+ _)). constructor; [|constructor].
    replace (guarded_word lr (so_opcode (gen_simop dt)) (encode o vals)) with (parallel_pair dt d (encode (gen_simop dt) []) (encode (gen_simop d) vals)).
    2: { rewrite Et, Ee. unfold parallel_pair, lr. rewrite Hu. change (EITHER =? IU) with false. cbn [orb]. by destruct (unit_ d =? MU). }
    apply (md_pair _ (t +:+ " ") (" " +:+ text)); [exact (Hsep (" " +:+ text))|exact Rt|by apply reads_space|exact Hpt|exact Hd| |by rewrite Et|exact Hsw].
    unfold units_differ. rewrite Hu. done.
  - apply pair_does; [exact Hg|exact Hp|rewrite (proj1 (proj2 Ho)); exact Hl|rewrite Ee; exact Hsw].
Qed.
(** [cpfg f0,c] and a test *)
Lemma cpfg_test_compiles t ask : test_name t ask ->
  compiles (tab +:+ ("cpfg f0,c || " +:+ t) +:+ newline) (fun v => if ask v : bool then Regs (r_gpr v) (r_c v) (r_f1 v) (r_c v) else v).
Proof.
  intros Ht. destruct (test_parts t ask Ht) as (dt & _ & Rt & Hpt & Hu & Hg & _).
  pose proof (cpfg_reads " " ltac:(by right)) as Rc.
  assert (encode (gen_simop dt) [] = so_opcode (gen_simop dt)) as Et by apply encode_bare, (proj1 Rt).
  assert (short_word (so_opcode (gen_simop dt))) as Hst by (destruct Hg as (? & Htest & _); apply (ts_word _ _ Htest)).
  assert (encode (gen_simop (opcode_at 44)) [0; 3] = encode (simop_named 0x4E09) [0; 3]) as Ec by (vm_compute; reflexivity).
  assert (pairable (opcode_at 44) = true) as Hpc by (vm_compute; reflexivity).
  assert (short_word (encode (simop_named 0x4E09) [0; 3])) as Hsc by (vm_compute; split; [discriminate|reflexivity]).
  exists [Pair (guarded_word RIGHT_FIRST (so_opcode (gen_simop dt)) (encode (simop_named 0x4E09) [0; 3]))]. split.
  - rewrite <- (append_nil (tab +:+ _)). constructor; [|constructor].
    replace (guarded_word RIGHT_FIRST _ _) with (parallel_pair (opcode_at 44) dt (encode (gen_simop (opcode_at 44)) [0; 3]) (encode (gen_simop dt) [])).
    2: { rewrite Et, Ec. unfold parallel_pair. rewrite Hu. reflexivity. }
    apply (md_pair _ "cpfg f0,c " (" " +:+ t)); [reflexivity|exact Rc|by apply reads_space|exact Hpc|exact Hpt| |by rewrite Ec|by rewrite Et].
    unfold units_differ. rewrite Hu. reflexivity.
  - apply pair_does; [exact Hg|exact cpfg_performs|vm_compute; reflexivity|exact Hsc].
Qed.
End Mnemonics.
