(* ===== verification/Templates.v ===== *)
(** * Templates of instructions

    What [output_asm_insn] makes of a template that is text and operands: the text with the
    operands printed.  And the operands: registers, words of registers, numbers. *)
From S2P Require Import Prelude CInt Gcc GccText InsnText Rtl.
From Stdlib Require Import Ascii DecimalString.
#[local] Open Scope string_scope.
#[local] Open Scope list_scope.
#[local] Open Scope Z_scope.

Inductive piece := Text (s : string) | Operand (letter : option ascii) (k : nat).
Definition piece_text (p : piece) : string :=
  match p with
  | Text s => s
  | Operand l k => "%" +:+ match l with Some c => putc c | None => "" end +:+ putc (ascii_of_nat (48 + k))
  end.
Fixpoint template (ps : list piece) : string := match ps with [] => "" | p :: ps => piece_text p +:+ template ps end.

(** No escapes in the text, digits and letters after the escapes, and no digit after them *)
Fixpoint no_percent (s : string) : bool :=
  match s with String c s' => negb (Ascii.eqb c "%") && no_percent s' | EmptyString => true end.
Definition no_digit_first (s : string) : bool := match s with String c _ => negb (is_digit c) | EmptyString => true end.
Definition letter_ok (l : option ascii) : bool :=
  match l with
  | Some c => is_letter c && negb (existsb (Ascii.eqb c) ["l"%char; "a"%char; "c"%char; "n"%char])
  | None => true
  end.
Fixpoint pieces_ok (ps : list piece) : bool :=
  match ps with
  | [] => true
  | Text s :: ps => no_percent s && pieces_ok ps
  | Operand l k :: ps => letter_ok l && (k <? 10)%nat && no_digit_first (template ps) && pieces_ok ps
  end.

Section Templates.
Context `{Compiler}.

Fixpoint render (ps : list piece) (operands : list rtx) : option string :=
  match ps with
  | [] => Some ""
  | Text s :: ps => t ← render ps operands; Some (s +:+ t)
  | Operand l k :: ps => x ← operands !! k; o ← output_operand (Some x) l; t ← render ps operands; Some (o +:+ t)
  end.
Lemma expand_text s rest operands : no_percent s = true -> forall fuel, (String.length (s +:+ rest) <= fuel)%nat ->
  expand fuel (s +:+ rest) operands =
    t ← expand (fuel - String.length s) rest operands; Some (s +:+ t).
Proof.
  induction s as [|c s IH]; intros Hs fuel Hf.
  - rewrite Nat.sub_0_r. change ("" +:+ rest) with rest. by destruct (expand fuel rest operands).
  - cbn [no_percent] in Hs. apply andb_prop in Hs as [Hc%negb_true_iff Hs]. change (String c s +:+ rest) with (String c (s +:+ rest)) in *.
    cbn [String.length] in *. destruct fuel as [|fuel]; [lia|].
    assert (expand (S fuel) (String c (s +:+ rest)) operands = t ← expand fuel (s +:+ rest) operands; Some (putc c +:+ t)) as ->.
    { clear - Hc. destruct c as [[] [] [] [] [] [] [] []]; try reflexivity. vm_compute in Hc. discriminate. }
    rewrite IH by (done || lia). cbn [Nat.sub]. by destruct (expand _ _ _).
Qed.
Lemma digit_value k : (k < 10)%nat -> is_digit (ascii_of_nat (48 + k)) = true /\
  10 * 0 + (Z.of_nat (nat_of_ascii (ascii_of_nat (48 + k))) - 48) = Z.of_nat k.
Proof. intros Hk. do 10 (destruct k as [|k]; [split; reflexivity|]). lia. Qed.
Lemma atoi_digit k rest : (k < 10)%nat -> no_digit_first rest = true -> atoi 0 (String (ascii_of_nat (48 + k)) rest) = (Z.of_nat k, rest).
Proof.
  intros Hk Hr. destruct (digit_value k Hk) as [Hd Hv]. cbn [atoi]. rewrite Hd, Hv.
  destruct rest as [|c rest]; [done|]. cbn [no_digit_first] in Hr. apply negb_true_iff in Hr. cbn [atoi]. by rewrite Hr.
Qed.
Lemma letter_facts c : is_letter c = true -> Ascii.eqb c "%" = false /\ Ascii.eqb c "=" = false /\ is_digit c = false.
Proof. intros Hc. destruct c as [[] [] [] [] [] [] [] []]; vm_compute in Hc; first [discriminate | done]. Qed.
Lemma digit_facts c : is_digit c = true -> Ascii.eqb c "%" = false /\ Ascii.eqb c "=" = false /\ is_letter c = false.
Proof. intros Hc. destruct c as [[] [] [] [] [] [] [] []]; vm_compute in Hc; first [discriminate | done]. Qed.
Lemma expand_operand l k rest operands fuel : letter_ok l = true -> (k < 10)%nat -> no_digit_first rest = true ->
  expand (S fuel) (piece_text (Operand l k) +:+ rest) operands =
    x ← operands !! k; o ← output_operand (Some x) l; t ← expand fuel rest operands; Some (o +:+ t).
Proof.
  intros Hl Hk Hr. destruct (digit_value k Hk) as [Hd _]. pose proof (atoi_digit k rest Hk Hr) as Ea.
  destruct l as [c|].
  - cbn [letter_ok] in Hl. apply andb_prop in Hl as [Hc Hn%negb_true_iff]. destruct (letter_facts c Hc) as (E1 & E2 & E3).
    change (piece_text (Operand (Some c) k) +:+ rest) with (String "%" (String c (String (ascii_of_nat (48 + k)) rest))).
    cbn [expand]. rewrite E1, E2, Hc, Hd, Ea, Hn. by rewrite Nat2Z.id.
  - change (piece_text (Operand None k) +:+ rest) with (String "%" (String (ascii_of_nat (48 + k)) rest)).
    destruct (digit_facts _ Hd) as (E1 & E2 & E3).
    cbn [expand]. rewrite E1, E2, E3, Hd, Ea. by rewrite Nat2Z.id.
Qed.
Lemma operand_length l k : (1 <= String.length (piece_text (Operand l k)))%nat.
Proof. unfold piece_text. rewrite length_append. simpl. lia. Qed.
Lemma expand_end fuel operands : expand fuel "" operands = Some "".
Proof. by destruct fuel. Qed.
Lemma expand_pieces ps operands : pieces_ok ps = true -> forall fuel, (String.length (template ps) <= fuel)%nat ->
  expand fuel (template ps) operands = render ps operands.
Proof.
  induction ps as [|[s|l k] ps IH]; intros Hp fuel Hf; [apply expand_end|..]; cbn [pieces_ok template render] in *.
  - apply andb_prop in Hp as [Hs Hp]. cbn [piece_text] in *. rewrite expand_text by done.
    rewrite length_append in Hf. rewrite IH by (done || lia). done.
  - apply andb_prop in Hp as [[[Hl Hk%Nat.ltb_lt]%andb_prop Hd]%andb_prop Hp]. rewrite length_append in Hf.
    pose proof (operand_length l k). destruct fuel as [|fuel]; [lia|]. rewrite expand_operand by done.
    destruct (operands !! k) as [x|]; [|done]. change (Some x ≫= ?f) with (f x). cbv beta.
    destruct (output_operand (Some x) l); [|done]. change (Some ?y ≫= ?f) with (f y). cbv beta. rewrite IH by (done || lia). done.
Qed.
(** The template [t] is the pieces [ps]. *)
Lemma output_pieces ps operands text : pieces_ok ps = true -> template ps <> "" -> render ps operands = Some text ->
  output_asm_insn (template ps) operands = Some (tab +:+ text +:+ newline).
Proof.
  intros Hp Hn Hr. unfold output_asm_insn. destruct (template ps) as [|c t] eqn:E; [done|]. rewrite <- E.
  rewrite (expand_pieces ps operands Hp) by (rewrite E; lia). by rewrite Hr.
Qed.

(** ** Operands *)

Lemma land_half y : 0 <= y < 2 ^ 15 -> Z.land y (2 ^ 15) = 0.
Proof.
  intros Hy. apply Z.bits_inj'. intros n Hn. rewrite Z.land_spec, Z.bits_0, Z.pow2_bits_eqb by lia.
  destruct (Z.eqb_spec 15 n) as [<-|]; [|apply andb_false_r]. by rewrite (testbit_high y 15 15) by lia.
Qed.
Lemma SIGN_EXTEND_SHORT_wrap v : SIGN_EXTEND_SHORT v = s16 v.
Proof.
  unfold SIGN_EXTEND_SHORT. change 0xffff with (Z.ones 16). rewrite land_ones_mod by lia. change 0x8000 with (2 ^ 15).
  pose proof (Z.mod_pos_bound v (2 ^ 16) ltac:(lia)) as Hx. set (x := v mod 2 ^ 16) in *.
  assert (Z.lxor x (2 ^ 15) = if x <? 2 ^ 15 then x + 2 ^ 15 else x - 2 ^ 15) as ->.
  { destruct (Z.ltb_spec x (2 ^ 15)).
    - symmetry. apply Z.add_nocarry_lxor, land_half. lia.
    - set (y := x - 2 ^ 15). replace x with (Z.lxor y (2 ^ 15)).
      + by rewrite Z.lxor_assoc, Z.lxor_nilpotent, Z.lxor_0_r.
      + rewrite <- Z.add_nocarry_lxor by (apply land_half; lia). lia. }
  assert (s16 v = if x <? 2 ^ 15 then x else x - 2 ^ 16) as -> by (unfold s16, wrap_signed, x; destruct (Z.ltb_spec (v mod 2 ^ 16) (2 ^ 15)); zdml).
  unfold s32. destruct (x <? 2 ^ 15) eqn:E; rewrite wrap_signed_small; lia.
Qed.
Lemma output_register m r l : 0 <= r < 16 -> output_operand (Some (REG m r)) l = print_operand (Some (REG m r)) l.
Proof. intros Hr. unfold output_operand. by rewrite (proj2 (Z.leb_gt FIRST_PSEUDO_REGISTER r)) by (unfold FIRST_PSEUDO_REGISTER; lia). Qed.
Lemma output_gpr m r : 0 <= r < 16 -> output_operand (Some (REG m r)) None = Some (reg_name r).
Proof. intros Hr. by rewrite output_register. Qed.
Lemma output_word m r c w : 0 <= r < 16 ->
  In (c, w) [("U"%char, 0); ("L"%char, 1); ("A"%char, 0); ("B"%char, 1); ("C"%char, 2); ("D"%char, 3)] ->
  output_operand (Some (REG m r)) (Some c) = Some (reg_name (r + w)).
Proof.
  intros Hr Hc. rewrite output_register by done. repeat (destruct Hc as [[= <- <-]|Hc]; [reflexivity|]). destruct Hc.
Qed.
Lemma output_number v : output_operand (Some (CONST_INT v)) None = Some (percent_d v).
Proof. done. Qed.
Lemma output_half v c w : In (c, w) [("U"%char, Z.shiftr v 16); ("L"%char, v)] ->
  output_operand (Some (CONST_INT v)) (Some c) = Some (percent_d (s16 w)).
Proof.
  assert (forall x, SIGN_EXTEND_SHORT (SIGN_EXTEND_SHORT x) = s16 x) as Hi.
  { intros x. rewrite !SIGN_EXTEND_SHORT_wrap. unfold s16. rewrite wrap_signed_small; [done|lia|]. apply (wrap_signed_range 16). lia. }
  intros Hc. repeat (destruct Hc as [[= <- <-]|Hc]; [exact (f_equal (fun x => Some (percent_d x)) (Hi _))|]). destruct Hc.
Qed.
End Templates.
