(* ===== verification/Lines.v ===== *)
(** * Templates of code

    What the text that [output_asm_insn] makes of a template does: lines of one instruction
    and of a test and an instruction, with registers and numbers as operands; and the values
    of operands. *)
From S2P Require Import Prelude CInt Opcodes State Machine NumSpec Words Insns.
From S2P Require Import Asm AsmSpec Gcc GccText RegFile InsnText Mnemonics Rtl Templates.
From Stdlib Require Import Ascii.
#[local] Open Scope string_scope.
#[local] Open Scope list_scope.
#[local] Open Scope Z_scope.

(** ** Values of operands *)

(** The value of a register, a pair or four registers, or of a constant *)
Definition quad_of (g : Z -> Z) (n : Z) : Z := pair_of g n * 2 ^ 32 + pair_of g (n + 2).
Definition width (m : machine_mode) : Z := 8 * GET_MODE_SIZE m.
Definition value (m : machine_mode) (v : regs) (x : rtx) : Z :=
  match x with
  | REG _ r =>
      if GET_MODE_SIZE m =? 2 then r_gpr v r
      else if GET_MODE_SIZE m =? 4 then pair_of (r_gpr v) r
      else quad_of (r_gpr v) r
  | CONST_INT n => n mod 2 ^ width m
  | _ => 0
  end.
(** Registers that hold their numbers *)
Definition counting : regs := Regs (fun k => k) false false false.
Lemma counting_good : good counting.
Proof. intros k Hk. cbn. lia. Qed.
(** A register, two and four registers the first of which is even *)
Definition word_register (r : Z) : Prop := 0 <= r < 16.
Definition pair_register (r : Z) : Prop := 0 <= r < 15 /\ Z.land r 1 = 0.
Definition quad_register (r : Z) : Prop := 0 <= r < 13 /\ Z.land r 1 = 0.

Section Lines.
Context `{Host} `{GasLaws} `{Compiler}.

(** ** Templates and what they do *)

Definition outputs (t : string) (operands : list rtx) (f : regs -> regs) : Prop :=
  exists text, output_asm_insn t operands = Some text /\ compiles text f.
Definition lines_do (ps : list piece) (operands : list rtx) (f : regs -> regs) : Prop :=
  exists text, render ps operands = Some text /\ compiles (tab +:+ text +:+ newline) f.
Lemma outputs_lines ps operands f : pieces_ok ps = true -> template ps <> "" -> lines_do ps operands f ->
  outputs (template ps) operands f.
Proof. intros Hp Hn (text & Hr & Hc). eexists. split; [by apply (output_pieces ps operands text)|exact Hc]. Qed.
Lemma render_app ps qs operands t t' : render ps operands = Some t -> render qs operands = Some t' ->
  render (ps ++ qs) operands = Some (t +:+ t').
Proof.
  revert t. induction ps as [|[s|l k] ps IH]; intros t Hp Hq; cbn [render app] in *.
  - by injection Hp as <-.
  - destruct (render ps operands) as [u|]; [|done]. injection Hp as <-. rewrite (IH u eq_refl Hq). cbn. by rewrite append_assoc.
  - destruct (operands !! k) as [x|]; [|done]. cbn in *. destruct (output_operand (Some x) l) as [o|]; [|done]. cbn in *.
    destruct (render ps operands) as [u|]; [|done]. injection Hp as <-. rewrite (IH u eq_refl Hq). cbn. by rewrite append_assoc.
Qed.
Lemma lines_app ps qs operands f f' : lines_do ps operands f -> lines_do qs operands f' ->
  lines_do (ps ++ Text nl :: qs) operands (fun v => f' (f v)).
Proof.
  intros (a & Ra & Ca) (b & Rb & Cb). exists (a +:+ nl +:+ b). split.
  - apply render_app; [exact Ra|]. cbn [render]. by rewrite Rb.
  - pose proof (compiles_app _ _ _ _ Ca Cb) as Hc. unfold nl. rewrite !append_assoc in *. exact Hc.
Qed.
Lemma lines_like ps operands f f' : (forall v, good v -> like (f v) (f' v)) -> lines_do ps operands f -> lines_do ps operands f'.
Proof. intros Hf (t & Ht & Hc). exists t. split; [exact Ht|]. by eapply compiles_like. Qed.

(** An operand of the template is printed as [t]. *)
Definition prints (operands : list rtx) (l : option ascii) (k : nat) (t : string) : Prop :=
  exists x, operands !! k = Some x /\ output_operand (Some x) l = Some t.
Definition two_operands (w : string) (l1 : option ascii) (k1 : nat) (l2 : option ascii) (k2 : nat) : list piece :=
  [Text (w +:+ " "); Operand l1 k1; Text ","; Operand l2 k2].
Lemma render_two w l1 k1 l2 k2 operands t1 t2 : prints operands l1 k1 t1 -> prints operands l2 k2 t2 ->
  render (two_operands w l1 k1 l2 k2) operands = Some (w +:+ " " +:+ t1 +:+ "," +:+ t2).
Proof.
  intros (x1 & E1 & O1) (x2 & E2 & O2). unfold two_operands. cbn [render]. rewrite E1, E2. cbn. rewrite O1, O2. cbn.
  rewrite append_nil. by rewrite append_assoc.
Qed.
Lemma line_two w l1 k1 l2 k2 operands t1 t2 short f : prints operands l1 k1 t1 -> prints operands l2 k2 t2 ->
  insn_text (w +:+ " " +:+ t1 +:+ "," +:+ t2) short f -> lines_do (two_operands w l1 k1 l2 k2) operands f.
Proof. intros P1 P2 Hi. eexists. split; [by apply render_two|]. by eapply line_compiles. Qed.
Lemma test_two t ask w l1 k1 l2 k2 operands t1 t2 f : test_name t ask -> prints operands l1 k1 t1 -> prints operands l2 k2 t2 ->
  insn_text (w +:+ " " +:+ t1 +:+ "," +:+ t2) true f ->
  lines_do (two_operands (t +:+ " || " +:+ w) l1 k1 l2 k2) operands (fun v => if ask v : bool then f v else v).
Proof.
  intros Ht P1 P2 Hi. eexists. split; [by apply render_two|].
  rewrite !append_assoc. pose proof (test_compiles t ask _ f Ht Hi) as Hc. rewrite !append_assoc in Hc. exact Hc.
Qed.
Lemma prints_gpr operands k m r : operands !! k = Some (REG m r) -> 0 <= r < 16 -> prints operands None k (reg_name r).
Proof. intros E Hr. exists (REG m r). split; [exact E|by apply output_gpr]. Qed.
Lemma prints_word operands k m r c w : operands !! k = Some (REG m r) -> 0 <= r < 16 ->
  In (c, w) [("U"%char, 0); ("L"%char, 1); ("A"%char, 0); ("B"%char, 1); ("C"%char, 2); ("D"%char, 3)] ->
  prints operands (Some c) k (reg_name (r + w)).
Proof. intros E Hr Hc. exists (REG m r). split; [exact E|by apply output_word]. Qed.
Lemma prints_number operands k n : operands !! k = Some (CONST_INT n) -> prints operands None k (percent_d n).
Proof. intros E. by exists (CONST_INT n). Qed.
Lemma prints_half operands k n c w : operands !! k = Some (CONST_INT n) -> In (c, w) [("U"%char, Z.shiftr n 16); ("L"%char, n)] ->
  prints operands (Some c) k (percent_d (s16 w)).
Proof. intros E Hc. exists (CONST_INT n). split; [exact E|by apply output_half]. Qed.

(** A word of the first operand and a number *)
Definition against (w : string) (l : ascii) (n : Z) : list piece := [Text (w +:+ " "); Operand (Some l) 0; Text ("," +:+ percent_d n)].
Lemma render_against w l n operands t : prints operands (Some l) 0 t -> render (against w l n) operands = Some (w +:+ " " +:+ t +:+ "," +:+ percent_d n).
Proof. intros (x & E & O). unfold against. cbn [render]. rewrite E. cbn -[percent_d]. rewrite O. cbn -[percent_d]. rewrite append_nil. by rewrite append_assoc. Qed.
Lemma line_against w l n operands t short f : prints operands (Some l) 0 t -> insn_text (w +:+ " " +:+ t +:+ "," +:+ percent_d n) short f ->
  lines_do (against w l n) operands f.
Proof. intros P Hi. eexists. split; [by apply render_against|]. by eapply line_compiles. Qed.
Lemma test_against tn ask w l n operands t f : test_name tn ask -> prints operands (Some l) 0 t ->
  insn_text (w +:+ " " +:+ t +:+ "," +:+ percent_d n) true f ->
  lines_do (against (tn +:+ " || " +:+ w) l n) operands (fun v => if ask v : bool then f v else v).
Proof.
  intros Ht P Hi. eexists. split; [by apply render_against|].
  rewrite !append_assoc. pose proof (test_compiles tn ask _ f Ht Hi) as Hc. rewrite !append_assoc in Hc. exact Hc.
Qed.
End Lines.
