(* ===== verification/Compare.v ===== *)
(** * Comparisons, compiled

    [emit_comparison] of gcc/config/d10v/d10v.c, the assembler and the simulator together:
    the text that the compiler writes for a comparison of 16-bit or 32-bit values sets F0
    when the condition holds, or when it does not, as the compiler says. *)
From S2P Require Import Prelude CInt Opcodes State Machine NumSpec Words Insns.
From S2P Require Import Asm AsmSpec Gcc GccText RegFile InsnText Mnemonics Rtl Templates Lines.
From S2P Require GccSpec.
From Stdlib Require Import Ascii.
#[local] Open Scope string_scope.
#[local] Open Scope list_scope.
#[local] Open Scope Z_scope.

(** ** Conditions on values *)

(** The condition on [w]-bit values *)
Definition holds (code : rtx_code) (w x y : Z) : bool :=
  match code with
  | EQ => x =? y
  | NE => negb (x =? y)
  | LT => wrap_signed w x <? wrap_signed w y
  | LE => wrap_signed w x <=? wrap_signed w y
  | GT => wrap_signed w y <? wrap_signed w x
  | GE => wrap_signed w y <=? wrap_signed w x
  | LTU => x <? y
  | LEU => x <=? y
  | GTU => y <? x
  | GEU => y <=? x
  | _ => false
  end.
Definition comparison_code (code : rtx_code) : bool :=
  match code with EQ | NE | LT | LE | GT | GE | LTU | LEU | GTU | GEU => true | _ => false end.
Section Compare.
Context `{Host} `{GasLaws} `{Compiler}.

(** ** What a comparison leaves *)

(** F0 is [b]; the general registers and the carry are unchanged. *)
Definition leaves (f : regs -> regs) (b : regs -> bool) : Prop := forall v, good v ->
  (forall k, r_gpr (f v) k = r_gpr v k) /\ r_c (f v) = r_c v /\ r_f0 (f v) = b v.
Definition sets_f0 (t : string) (operands : list rtx) (b : regs -> bool) : Prop := exists f, outputs t operands f /\ leaves f b.
(** The compiler's text for the comparison, and what it says about F0 *)
Definition compares (code : rtx_code) (op0 op1 temp : rtx) (mode : machine_mode) : Prop :=
  exists ret text f, emit_comparison code op0 op1 temp mode true = Some (ret, text) /\
    emit_comparison code op0 op1 temp mode false = Some (ret, "") /\ compiles text f /\
    leaves f (fun v => Bool.eqb ret (holds code (width mode) (value mode v op0) (value mode v op1))).
Lemma compares_chosen code op0 op1 temp mode t ret x b :
  (forall output_p, emit_comparison code op0 op1 temp mode output_p =
     if output_p : bool then text ← output_asm_insn t [op0; op1; temp; x]; Some (ret, text) else Some (ret, "")) ->
  sets_f0 t [op0; op1; temp; x] b ->
  (forall v, good v -> b v = Bool.eqb ret (holds code (width mode) (value mode v op0) (value mode v op1))) ->
  compares code op0 op1 temp mode.
Proof.
  intros He (f & (text & Ho & Hc) & Hf) Hb. exists ret, text, f. split; [by rewrite (He true), Ho|split; [exact (He false)|split; [exact Hc|]]].
  intros v Hv. destruct (Hf v Hv) as (E1 & E2 & E3). split; [exact E1|split; [exact E2|]]. by rewrite E3, Hb.
Qed.
Lemma sets_two w l1 k1 l2 k2 operands t1 t2 short b :
  pieces_ok (two_operands w l1 k1 l2 k2) = true -> template (two_operands w l1 k1 l2 k2) <> "" ->
  prints operands l1 k1 t1 -> prints operands l2 k2 t2 ->
  insn_text (w +:+ " " +:+ t1 +:+ "," +:+ t2) short (fun v => compare_regs (b v) v) ->
  sets_f0 (template (two_operands w l1 k1 l2 k2)) operands b.
Proof.
  intros Hp Hn P1 P2 Hi. eexists. split; [apply outputs_lines; [exact Hp|exact Hn|exact (line_two _ _ _ _ _ _ _ _ _ _ P1 P2 Hi)]|].
  intros v _. done.
Qed.

(** ** 16 bits *)

Ltac gpr_tac := apply prints_gpr with (m := HImode); [reflexivity|assumption].
Ltac chosen_tac w k1 k2 := eapply compares_chosen; [intros []; reflexivity|
  eapply (sets_two w None k1 None k2); [reflexivity|discriminate|..]|].
(** Conditions on two values from their comparison *)
Ltac holds_tac := unfold s16; cbn [Bool.eqb]; repeat match goal with
  | |- context [Z.eqb ?x ?y] => destruct (Z.eqb_spec x y)
  | |- context [Z.ltb ?x ?y] => destruct (Z.ltb_spec x y)
  | |- context [Z.leb ?x ?y] => destruct (Z.leb_spec x y) end; try reflexivity; exfalso; lia.
Ltac word_tac a b :=
  intros v Hv; change (width HImode) with 16; change (value HImode v (REG HImode a)) with (r_gpr v a);
  change (value HImode v (REG HImode b)) with (r_gpr v b); cbn [holds]; holds_tac.
Lemma words_compared code a b temp : comparison_code code = true -> word_register a -> word_register b ->
  compares code (REG HImode a) (REG HImode b) temp HImode.
Proof.
  intros Hc Ha Hb. unfold word_register in *. destruct code; try discriminate Hc.
  - chosen_tac "cmpeq" 0%nat 1%nat; [gpr_tac|gpr_tac|by apply cmpeq_text|]. word_tac a b.
  - chosen_tac "cmpeq" 0%nat 1%nat; [gpr_tac|gpr_tac|by apply cmpeq_text|]. word_tac a b.
  - chosen_tac "cmp" 0%nat 1%nat; [gpr_tac|gpr_tac|by apply cmp_text|]. word_tac a b.
  - chosen_tac "cmp" 1%nat 0%nat; [gpr_tac|gpr_tac|by apply cmp_text|]. word_tac a b.
  - chosen_tac "cmp" 1%nat 0%nat; [gpr_tac|gpr_tac|by apply cmp_text|]. word_tac a b.
  - chosen_tac "cmp" 0%nat 1%nat; [gpr_tac|gpr_tac|by apply cmp_text|]. word_tac a b.
  - chosen_tac "cmpu" 0%nat 1%nat; [gpr_tac|gpr_tac|by apply cmpu_text|]. word_tac a b.
  - chosen_tac "cmpu" 1%nat 0%nat; [gpr_tac|gpr_tac|by apply cmpu_text|]. word_tac a b.
  - chosen_tac "cmpu" 1%nat 0%nat; [gpr_tac|gpr_tac|by apply cmpu_text|]. word_tac a b.
  - chosen_tac "cmpu" 0%nat 1%nat; [gpr_tac|gpr_tac|by apply cmpu_text|]. word_tac a b.
Qed.
Lemma all_ones n : truth (Z.land (Z.lnot n) 65535) = negb (n mod 2 ^ 16 =? 65535).
Proof.
  change 65535 with (Z.ones 16) at 1. rewrite land_ones_mod by lia. unfold Z.lnot, truth. f_equal.
  destruct (Z.eqb_spec (Z.pred (- n) mod 2 ^ 16) 0), (Z.eqb_spec (n mod 2 ^ 16) 65535); zdml.
Qed.
Ltac const_tac a n Hn Ha :=
  let v := fresh "v" in let Hv := fresh "Hv" in
  intros v Hv; change (width HImode) with 16; change (value HImode v (REG HImode a)) with (r_gpr v a);
  change (value HImode v (CONST_INT n)) with (n mod 2 ^ 16); cbn [holds];
  pose proof (Hv a Ha); generalize dependent (r_gpr v a); clear v Hv; intros;
  unfold s16, wrap_signed in *; cbn [Bool.eqb];
  repeat match goal with
  | |- context [Z.eqb ?x ?y] => destruct (Z.eqb_spec x y)
  | |- context [Z.ltb ?x ?y] => destruct (Z.ltb_spec x y)
  | |- context [Z.leb ?x ?y] => destruct (Z.leb_spec x y) end; try reflexivity; exfalso; zdml.
Ltac emit_tac := unfold emit_comparison; cbn [CONSTANT_P skip_subregs]; change (bool_decide (HImode = HImode)) with true; cbn [compare_16 negb].
Ltac number_tac := apply prints_number; reflexivity.
Ltac chosen_by t ret x w k1 k2 := eapply (compares_chosen _ _ _ _ _ t ret x); [emit_tac|
  eapply (sets_two w None k1 None k2); [reflexivity|discriminate|gpr_tac|first [gpr_tac | number_tac]|]|].
(** The constant 32767 in LE is not among them: see [le_largest]. *)
Lemma constant_compared code a n temp : comparison_code code = true -> word_register a -> - 2 ^ 15 <= n < 2 ^ 15 ->
  (code = LE -> n <> 32767) -> compares code (REG HImode a) (CONST_INT n) temp HImode.
Proof.
  intros Hc Ha Hn Hle. unfold word_register in *.
  assert (s32 (n + 1) = n + 1) as En by (apply wrap_signed_small; lia).
  destruct code; try discriminate Hc.
  - chosen_tac "cmpeqi" 0%nat 1%nat; [gpr_tac|number_tac|apply cmpeqi_text; lia|]. const_tac a n Hn Ha.
  - chosen_tac "cmpeqi" 0%nat 1%nat; [gpr_tac|number_tac|apply cmpeqi_text; lia|]. const_tac a n Hn Ha.
  - chosen_tac "cmpi" 0%nat 1%nat; [gpr_tac|number_tac|apply cmpi_text; lia|]. const_tac a n Hn Ha.
  - chosen_by "cmpi %0,%3" true (CONST_INT (s32 (n + 1))) "cmpi" 0%nat 3%nat; [rewrite (proj2 (Z.eqb_neq n 32767)) by (by apply Hle); by intros []|apply cmpi_text; lia|].
    specialize (Hle eq_refl). rewrite En. const_tac a n Hn Ha.
  - destruct (Z.eqb_spec n 32767) as [->|Hm].
    + chosen_by "cmpeq %0,%0" false (CONST_INT 32767) "cmpeq" 0%nat 0%nat; [by intros []|by apply cmpeq_text|].
      const_tac a 32767 Hn Ha.
    + chosen_by "cmpi %0,%3" false (CONST_INT (s32 (n + 1))) "cmpi" 0%nat 3%nat; [rewrite (proj2 (Z.eqb_neq n 32767)) by done; by intros []|apply cmpi_text; lia|].
      rewrite En. const_tac a n Hn Ha.
  - chosen_tac "cmpi" 0%nat 1%nat; [gpr_tac|number_tac|apply cmpi_text; lia|]. const_tac a n Hn Ha.
  - chosen_tac "cmpui" 0%nat 1%nat; [gpr_tac|number_tac|apply cmpui_text; lia|]. const_tac a n Hn Ha.
  - destruct (Z.eqb_spec (n mod 2 ^ 16) 65535) as [Em|Hm].
    + chosen_by "cmpeq %0,%0" true (CONST_INT n) "cmpeq" 0%nat 0%nat; [rewrite all_ones, Em; by intros []|by apply cmpeq_text|].
      const_tac a n Hn Ha.
    + chosen_by "cmpui %0,%3" true (CONST_INT (s32 (n + 1))) "cmpui" 0%nat 3%nat; [rewrite all_ones, (proj2 (Z.eqb_neq _ _) Hm); by intros []|apply cmpui_text; lia|].
      rewrite En. const_tac a n Hn Ha.
  - destruct (Z.eqb_spec (n mod 2 ^ 16) 65535) as [Em|Hm].
    + chosen_by "cmpeq %0,%0" false (CONST_INT n) "cmpeq" 0%nat 0%nat; [rewrite all_ones, Em; by intros []|by apply cmpeq_text|].
      const_tac a n Hn Ha.
    + chosen_by "cmpui %0,%3" false (CONST_INT (s32 (n + 1))) "cmpui" 0%nat 3%nat; [rewrite all_ones, (proj2 (Z.eqb_neq _ _) Hm); by intros []|apply cmpui_text; lia|].
      rewrite En. const_tac a n Hn Ha.
  - chosen_tac "cmpui" 0%nat 1%nat; [gpr_tac|number_tac|apply cmpui_text; lia|]. const_tac a n Hn Ha.
Qed.

(** ** 32 bits *)

Definition pair_operands (a b : Z) (temp x : rtx) : list rtx := [REG SImode a; REG SImode b; temp; x].
Ltac word_print := eapply prints_word; [reflexivity|lia|simpl; tauto].
Lemma pairs_equal a b temp x : pair_register a -> pair_register b ->
  sets_f0 ("cmpeq %U0,%U1" +:+ nl +:+ "exef0t || cmpeq %L0,%L1") (pair_operands a b temp x)
    (fun v => pair_of (r_gpr v) a =? pair_of (r_gpr v) b).
Proof.
  intros [Ha _] [Hb _]. eexists. split.
  - eapply (outputs_lines (two_operands "cmpeq" (Some "U"%char) 0 (Some "U"%char) 1 ++ Text nl ::
      two_operands "exef0t || cmpeq" (Some "L"%char) 0 (Some "L"%char) 1)); [reflexivity|discriminate|].
    apply lines_app; [eapply line_two|eapply (test_two "exef0t")]; [word_print|word_print|apply cmpeq_text; lia|
      apply exef0t_name|word_print|word_print|apply cmpeq_text; lia].
  - intros v Hv. cbn [compare_regs r_f0 r_gpr r_c]. pose proof (Hv a ltac:(lia)). pose proof (Hv b). pose proof (Hv (a + 1) ltac:(lia)). pose proof (Hv (b + 1)).
    rewrite !Z.add_0_r. unfold pair_of. destruct (Z.eqb_spec (r_gpr v a) (r_gpr v b)); cbn [r_f0 r_gpr r_c]; (split; [done|split; [done|]]).
    + destruct (Z.eqb_spec (r_gpr v (a + 1)) (r_gpr v (b + 1))), (Z.eqb_spec (r_gpr v a * 2 ^ 16 + r_gpr v (a + 1)) (r_gpr v b * 2 ^ 16 + r_gpr v (b + 1))); try done; lia.
    + symmetry. apply Z.eqb_neq. lia.
Qed.
(** The three lines of an order: the high halves are compared with sign or without, the low
    halves without. *)
Definition order_lines (signed : bool) (i j : nat) : list piece :=
  two_operands "cmpeq" (Some "U"%char) i (Some "U"%char) j ++ Text nl ::
  (two_operands (if signed then "cmp" else "cmpu") (Some "U"%char) i (Some "U"%char) j ++ Text nl ::
   two_operands "exef1t || cmpu" (Some "L"%char) i (Some "L"%char) j).
Definition below (signed : bool) (w x y : Z) : bool := if signed then wrap_signed w x <? wrap_signed w y else x <? y.
Lemma below_halves signed x y x' y' : 0 <= x < 2 ^ 16 -> 0 <= y < 2 ^ 16 -> 0 <= x' < 2 ^ 16 -> 0 <= y' < 2 ^ 16 ->
  below signed 32 (x * 2 ^ 16 + x') (y * 2 ^ 16 + y') = if x =? y then x' <? y' else below signed 16 x y.
Proof.
  intros Hx Hy Hx' Hy'. unfold below, wrap_signed. destruct signed, (Z.eqb_spec x y); apply eq_true_iff_eq; rewrite !Z.ltb_lt; zdml.
Qed.
Lemma pairs_ordered signed i j p q operands : pair_register p -> pair_register q ->
  operands !! i = Some (REG SImode p) -> operands !! j = Some (REG SImode q) ->
  pieces_ok (order_lines signed i j) = true -> template (order_lines signed i j) <> "" ->
  sets_f0 (template (order_lines signed i j)) operands (fun v => below signed 32 (pair_of (r_gpr v) p) (pair_of (r_gpr v) q)).
Proof.
  intros [Hp _] [Hq _] Ei Ej Hk Hn.
  assert (forall l w, In (l, w) [("U"%char, 0); ("L"%char, 1)] -> prints operands (Some l) i (reg_name (p + w))) as P.
  { intros l w Hl. eapply prints_word; [exact Ei|lia|simpl in *; tauto]. }
  assert (forall l w, In (l, w) [("U"%char, 0); ("L"%char, 1)] -> prints operands (Some l) j (reg_name (q + w))) as Q.
  { intros l w Hl. eapply prints_word; [exact Ej|lia|simpl in *; tauto]. }
  eexists. split.
  - apply outputs_lines; [exact Hk|exact Hn|]. apply lines_app; [|apply lines_app].
    + eapply line_two; [apply P; by left|apply Q; by left|apply cmpeq_text; lia].
    + instantiate (1 := fun v => compare_regs (below signed 16 (r_gpr v (p + 0)) (r_gpr v (q + 0))) v).
      destruct signed; (eapply line_two; [apply P; by left|apply Q; by left|]); [apply cmp_text; lia|apply cmpu_text; lia].
    + eapply (test_two "exef1t"); [apply exef1t_name|apply P; by right; left|apply Q; by right; left|apply cmpu_text; lia].
  - intros v Hv. rewrite !Z.add_0_r. cbn [compare_regs r_f0 r_f1 r_gpr r_c].
    unfold pair_of. rewrite below_halves by (apply Hv; lia). by destruct (r_gpr v p =? r_gpr v q).
Qed.
Lemma pair_kind r : pair_register r -> GPR_OR_PSEUDO_P r = true /\ ACCUM_P r = false.
Proof. intros [Hr _]. each_below r 15%nat; split; reflexivity. Qed.
Ltac pair_emit a Ha := let E := fresh in let E' := fresh in destruct (pair_kind a Ha) as [E E']; unfold emit_comparison;
  cbn [CONSTANT_P skip_subregs]; change (bool_decide (SImode = HImode)) with false; change (bool_decide (SImode = SImode)) with true;
  cbn [reg_where]; rewrite E'; cbn [andb]; try rewrite E; cbn [andb].
Ltac pair_values v :=
  intros v Hv; change (width SImode) with 32; cbn [value]; change (GET_MODE_SIZE SImode =? 2) with false; change (GET_MODE_SIZE SImode =? 4) with true; cbv iota; cbn [holds].
Lemma pairs_compared code a b temp : comparison_code code = true -> pair_register a -> pair_register b ->
  compares code (REG SImode a) (REG SImode b) temp SImode.
Proof.
  intros Hc Ha Hb.
  assert (forall ret equal, compare_32 code = Some ("cmpeq %U0,%U1" +:+ nl +:+ "exef0t || cmpeq %L0,%L1", ret) ->
    (forall x y, holds code 32 x y = equal (x =? y)) -> (forall c, c = Bool.eqb ret (equal c)) -> compares code (REG SImode a) (REG SImode b) temp SImode) as Heq.
  { intros ret equal Et Eh Er. eapply compares_chosen; [|apply (pairs_equal a b temp (REG SImode b) Ha Hb)|].
    - intros []; pair_emit a Ha; rewrite (proj1 (pair_kind b Hb)), Et; reflexivity.
    - pair_values v. rewrite Eh. apply Er. }
  assert (forall signed (swap : bool) ret, compare_32 code = Some (template (if swap then order_lines signed 1 0 else order_lines signed 0 1), ret) ->
    (forall x y, below signed 32 (if swap then y else x) (if swap then x else y) = Bool.eqb ret (holds code 32 x y)) ->
    compares code (REG SImode a) (REG SImode b) temp SImode) as Hlt.
  { intros signed swap ret Et Eh.
    apply (compares_chosen _ _ _ _ _ (template (if swap then order_lines signed 1 0 else order_lines signed 0 1)) ret (REG SImode b)
      (fun v => below signed 32 (pair_of (r_gpr v) (if swap then b else a)) (pair_of (r_gpr v) (if swap then a else b)))).
    - intros []; pair_emit a Ha; rewrite (proj1 (pair_kind b Hb)), Et; reflexivity.
    - destruct swap; apply (pairs_ordered signed); try assumption; try reflexivity; by destruct signed.
    - pair_values v. rewrite <- Eh. by destruct swap. }
  destruct code; try discriminate Hc.
  - apply (Heq true (fun c => c)); [reflexivity|done|by intros []].
  - apply (Heq false negb); [reflexivity|done|by intros []].
  - apply (Hlt true false true); [reflexivity|]. intros x y. cbn. by destruct (_ <? _).
  - apply (Hlt true true false); [reflexivity|]. intros x y. cbn [holds below]. rewrite Z.leb_antisym. by destruct (_ <? _).
  - apply (Hlt true true true); [reflexivity|]. intros x y. cbn. by destruct (_ <? _).
  - apply (Hlt true false false); [reflexivity|]. intros x y. cbn [holds below]. rewrite Z.leb_antisym. by destruct (_ <? _).
  - apply (Hlt false false true); [reflexivity|]. intros x y. cbn. by destruct (_ <? _).
  - apply (Hlt false true false); [reflexivity|]. intros x y. cbn [holds below]. rewrite Z.leb_antisym. by destruct (_ <? _).
  - apply (Hlt false true true); [reflexivity|]. intros x y. cbn. by destruct (_ <? _).
  - apply (Hlt false false false); [reflexivity|]. intros x y. cbn [holds below]. rewrite Z.leb_antisym. by destruct (_ <? _).
Qed.

(** ** Constants of 32 bits *)

Lemma zero_equal a operands : pair_register a -> operands !! 0%nat = Some (REG SImode a) ->
  sets_f0 ("cmpeqi %U0,0" +:+ nl +:+ "exef0t || cmpeqi %L0,0") operands (fun v => pair_of (r_gpr v) a =? 0).
Proof.
  intros [Ha _] E. eexists. split.
  - eapply (outputs_lines (against "cmpeqi" "U" 0 ++ Text nl :: against "exef0t || cmpeqi" "L" 0)); [reflexivity|discriminate|].
    apply lines_app; [eapply line_against|eapply (test_against "exef0t")]; [eapply prints_word; [exact E|lia|simpl; tauto]|apply cmpeqi_text; lia|
      apply exef0t_name|eapply prints_word; [exact E|lia|simpl; tauto]|apply (cmpeqi_text _ 0); lia].
  - intros v Hv. rewrite Z.add_0_r. pose proof (Hv a ltac:(lia)). pose proof (Hv (a + 1) ltac:(lia)). cbn [compare_regs r_f0 r_gpr r_c]. change (0 mod 2 ^ 16) with 0.
    unfold pair_of. destruct (Z.eqb_spec (r_gpr v a) 0) as [->|Hne]; cbn [r_f0 r_gpr r_c]; (split; [done|split; [done|]]); [done|].
    symmetry. apply Z.eqb_neq. lia.
Qed.
Lemma zero_not_above a operands : pair_register a -> operands !! 0%nat = Some (REG SImode a) ->
  sets_f0 ("cmpeqi %U0,0" +:+ nl +:+ "cmpi %U0,0" +:+ nl +:+ "exef1t || cmpeqi %L0,0") operands
    (fun v => wrap_signed 32 (pair_of (r_gpr v) a) <=? 0).
Proof.
  intros [Ha _] E. eexists. split.
  - eapply (outputs_lines (against "cmpeqi" "U" 0 ++ Text nl :: (against "cmpi" "U" 0 ++ Text nl :: against "exef1t || cmpeqi" "L" 0)));
      [reflexivity|discriminate|].
    apply lines_app; [|apply lines_app]; [eapply line_against|eapply line_against|eapply (test_against "exef1t")];
      [eapply prints_word; [exact E|lia|simpl; tauto]|apply cmpeqi_text; lia|
       eapply prints_word; [exact E|lia|simpl; tauto]|apply cmpi_text; lia|
       apply exef1t_name|eapply prints_word; [exact E|lia|simpl; tauto]|apply (cmpeqi_text _ 0); lia].
  - intros v Hv. rewrite Z.add_0_r. pose proof (Hv a ltac:(lia)). pose proof (Hv (a + 1) ltac:(lia)). cbn [compare_regs r_f0 r_f1 r_gpr r_c].
    change (0 mod 2 ^ 16) with 0. change (s16 0) with 0. unfold pair_of, s16, wrap_signed.
    destruct (Z.eqb_spec (r_gpr v a) 0) as [->|Hne]; cbn [compare_regs r_f0 r_gpr r_c]; (split; [done|split; [done|]]);
      apply eq_true_iff_eq; rewrite ?Z.eqb_eq, ?Z.ltb_lt, ?Z.leb_le; zdml.
Qed.
Lemma zero_below a operands (blank : bool) : pair_register a -> operands !! 0%nat = Some (REG SImode a) ->
  sets_f0 ("cmpi %U0,0" +:+ if blank then newline else "") operands (fun v => wrap_signed 32 (pair_of (r_gpr v) a) <? 0).
Proof.
  intros [Ha _] E. exists (fun v => compare_regs (s16 (r_gpr v (a + 0)) <? s16 0) v). split.
  - assert (lines_do (against "cmpi" "U" 0) operands (fun v => compare_regs (s16 (r_gpr v (a + 0)) <? s16 0) v)) as L
      by (eapply line_against; [eapply prints_word; [exact E|lia|simpl; tauto]|apply cmpi_text; lia]).
    destruct blank; [|by apply (outputs_lines (against "cmpi" "U" 0))].
    apply (outputs_lines (against "cmpi" "U" 0 ++ [Text newline])); [reflexivity|discriminate|].
    destruct L as (t & R & C). exists (t +:+ newline). split; [by apply render_app|].
    pose proof (compiles_blank _ _ C) as Cb. rewrite !append_assoc in *. exact Cb.
  - intros v Hv. rewrite Z.add_0_r. pose proof (Hv a ltac:(lia)). pose proof (Hv (a + 1) ltac:(lia)). cbn [compare_regs r_f0 r_gpr r_c].
    split; [done|split; [done|]]. change (s16 0) with 0. unfold pair_of, s16, wrap_signed. apply eq_true_iff_eq. rewrite !Z.ltb_lt. zdml.
Qed.
Lemma register_itself a operands m : 0 <= a < 15 -> operands !! 0%nat = Some (REG m a) ->
  sets_f0 "cmpeq %U0,%U0" operands (fun _ => true).
Proof.
  intros Ha E. eexists. split.
  - eapply (outputs_lines (two_operands "cmpeq" (Some "U"%char) 0 (Some "U"%char) 0)); [reflexivity|discriminate|].
    eapply line_two; [eapply prints_word; [exact E|lia|simpl; tauto]|eapply prints_word; [exact E|lia|simpl; tauto]|apply cmpeq_text; lia].
  - intros v _. cbn [compare_regs r_f0 r_gpr r_c]. by rewrite Z.eqb_refl.
Qed.
Ltac zero_tac := match goal with Hp : forall v, good v -> _, W0 : wrap_signed 32 0 = 0 |- _ =>
  intros v Hv; specialize (Hp v Hv); cbn [holds]; rewrite ?W0; holds_tac end.
Lemma zero_compared code a temp : comparison_code code = true -> pair_register a ->
  compares code (REG SImode a) (CONST_INT 0) temp SImode.
Proof.
  intros Hc Ha.
  assert (forall t ret b, compare_zero code = Some (t, ret) -> sets_f0 t [REG SImode a; CONST_INT 0; temp; CONST_INT 0] b ->
    (forall v, good v -> b v = Bool.eqb ret (holds code 32 (pair_of (r_gpr v) a) 0)) -> compares code (REG SImode a) (CONST_INT 0) temp SImode) as Hz.
  { intros t ret b Et Hb Er. eapply compares_chosen; [|exact Hb|].
    - intros []; pair_emit a Ha; change (is_zero (CONST_INT 0)) with true; cbn [andb]; rewrite Et; reflexivity.
    - pair_values v. apply Er, Hv. }
  assert (forall v, good v -> 0 <= pair_of (r_gpr v) a) as Hp.
  { intros v Hv. destruct Ha as [Ha _]. pose proof (Hv a ltac:(lia)). pose proof (Hv (a + 1) ltac:(lia)). unfold pair_of. lia. }
  set (ops := [REG SImode a; CONST_INT 0; temp; CONST_INT 0]) in Hz.
  assert (wrap_signed 32 0 = 0) as W0 by reflexivity.
  destruct code; try discriminate Hc.
  - eapply Hz; [reflexivity|exact (zero_equal a ops Ha eq_refl)|zero_tac].
  - eapply Hz; [reflexivity|exact (zero_equal a ops Ha eq_refl)|zero_tac].
  - eapply Hz; [reflexivity|exact (zero_below a ops false Ha eq_refl)|zero_tac].
  - eapply Hz; [reflexivity|exact (zero_not_above a ops Ha eq_refl)|zero_tac].
  - eapply Hz; [reflexivity|exact (zero_not_above a ops Ha eq_refl)|zero_tac].
  - eapply Hz; [reflexivity|exact (zero_below a ops true Ha eq_refl)|zero_tac].
  - eapply Hz; [reflexivity|exact (register_itself a ops SImode (proj1 Ha) eq_refl)|zero_tac].
  - eapply Hz; [reflexivity|exact (zero_equal a ops Ha eq_refl)|zero_tac].
  - eapply Hz; [reflexivity|exact (zero_equal a ops Ha eq_refl)|zero_tac].
  - eapply Hz; [reflexivity|exact (register_itself a ops SImode (proj1 Ha) eq_refl)|zero_tac].
Qed.
Lemma small_range n : -8 <= s16 n < 8 -> IN_RANGE_P (SIGN_EXTEND_SHORT n) (-8) 7 = true.
Proof. intros Hn. rewrite SIGN_EXTEND_SHORT_wrap. unfold IN_RANGE_P. apply Z.leb_le. unfold u32. generalize dependent (s16 n). intros. zdml. Qed.
Lemma small_compared code a n temp : code = EQ \/ code = NE -> pair_register a -> n <> 0 -> -8 <= s16 n < 8 ->
  compares code (REG SImode a) (CONST_INT n) temp SImode.
Proof.
  intros Hc Ha Hn0 Hn. set (ops := [REG SImode a; CONST_INT n; temp; CONST_INT n]).
  assert (sets_f0 ("cmpeqi %U0,%U1" +:+ nl +:+ "exef0t || cmpeqi %L0,%L1") ops (fun v => pair_of (r_gpr v) a =? n mod 2 ^ 32)) as Hs.
  { destruct Ha as [Ha _]. eexists. split.
    - eapply (outputs_lines (two_operands "cmpeqi" (Some "U"%char) 0 (Some "U"%char) 1 ++ Text nl ::
        two_operands "exef0t || cmpeqi" (Some "L"%char) 0 (Some "L"%char) 1)); [reflexivity|discriminate|].
      assert (forall x, - 2 ^ 31 <= s16 x < 2 ^ 31) as Hr by (intros x; pose proof (wrap_signed_range 16 x ltac:(lia)); unfold s16; lia).
      assert (insn_text ("cmpeqi" +:+ " " +:+ reg_name (a + 1) +:+ "," +:+ percent_d (s16 n)) true
        (fun v => compare_regs (r_gpr v (a + 1) =? s16 n mod 2 ^ 16) v)) as Hi.
      { pose proof (cmpeqi_text (a + 1) (s16 n) ltac:(lia) (Hr n)) as Hi. unfold small in Hi.
        by rewrite (proj2 (Z.leb_le _ _) (proj1 Hn)), (proj2 (Z.ltb_lt _ _) (proj2 Hn)) in Hi. }
      apply lines_app.
      + eapply line_two; [word_print|eapply prints_half; [reflexivity|by left]|apply cmpeqi_text; [lia|apply Hr]].
      + eapply (test_two "exef0t"); [apply exef0t_name|word_print|eapply prints_half; [reflexivity|by right; left]|exact Hi].
    - intros v Hv. rewrite Z.add_0_r. pose proof (Hv a ltac:(lia)). pose proof (Hv (a + 1) ltac:(lia)).
      cbn [compare_regs r_f0 r_gpr r_c]. rewrite Z.shiftr_div_pow2 by lia. unfold s16. rewrite !wrap_signed_mod by lia. unfold pair_of.
      destruct (Z.eqb_spec (r_gpr v a) ((n / 2 ^ 16) mod 2 ^ 16)); cbn [compare_regs r_f0 r_gpr r_c]; (split; [done|split; [done|]]);
        [apply eq_true_iff_eq; rewrite !Z.eqb_eq|symmetry; apply Z.eqb_neq]; zdml. }
  assert (forall ret, compare_small code = Some ("cmpeqi %U0,%U1" +:+ nl +:+ "exef0t || cmpeqi %L0,%L1", ret) ->
    (forall c, c = Bool.eqb ret (match code with EQ => c | _ => negb c end)) -> compares code (REG SImode a) (CONST_INT n) temp SImode) as Hz.
  { intros ret Et Er. eapply compares_chosen; [|exact Hs|].
    - intros []; pair_emit a Ha; cbn [is_zero]; rewrite (proj2 (Z.eqb_neq n 0) Hn0), (small_range n Hn); cbn [andb]; rewrite Et; reflexivity.
    - pair_values v. rewrite (Er (_ =? _)) at 1. by destruct Hc as [-> | ->]. }
  destruct Hc as [-> | ->]; [apply (Hz true)|apply (Hz false)]; done || by intros [].
Qed.

(** ** The comparisons of the compiler *)

(** The operands that are compared in registers: two registers, a register and a constant
    that fits 16 bits, two pairs, a pair and 0, and for equality a pair and a constant whose
    low half fits four bits.  The constant 32767 is not among them for LE. *)
Definition comparable (code : rtx_code) (mode : machine_mode) (op0 op1 : rtx) : Prop :=
  match mode, op0, op1 with
  | HImode, REG HImode a, REG HImode b => word_register a /\ word_register b
  | HImode, REG HImode a, CONST_INT n => word_register a /\ - 2 ^ 15 <= n < 2 ^ 15 /\ (code = LE -> n <> 32767)
  | SImode, REG SImode a, REG SImode b => pair_register a /\ pair_register b
  | SImode, REG SImode a, CONST_INT n => pair_register a /\ (n = 0 \/ ((code = EQ \/ code = NE) /\ -8 <= s16 n < 8))
  | _, _, _ => False
  end.

Lemma comparable_compares code mode op0 op1 temp : comparison_code code = true -> comparable code mode op0 op1 -> compares code op0 op1 temp mode.
Proof.
  intros Hc Ho.
  destruct mode, op0 as [[] a| | | | | | | | | | | | | ]; try done; destruct op1 as [[] b| | |n| | | | | | | | | | ]; try done; cbn [comparable] in Ho.
  - destruct Ho. by apply words_compared.
  - destruct Ho as (? & ? & ?). by apply constant_compared.
  - destruct Ho. by apply pairs_compared.
  - destruct Ho as [Ha [->|[Hcode Hn]]]; [by apply zero_compared|].
    destruct (Z.eq_dec n 0) as [->|]; [by apply zero_compared|by apply small_compared].
Qed.



(** [x <= 32767] is not the test for equality that the compiler writes for it. *)
Lemma le_largest a temp : word_register a -> exists text f,
  emit_comparison LE (REG HImode a) (CONST_INT 32767) temp HImode true = Some (true, text) /\
  compiles text f /\ leaves f (fun v => r_gpr v a =? 32767).
Proof.
  intros Ha. unfold word_register in *.
  destruct (sets_two "cmpeqi" None 0 None 1 [REG HImode a; CONST_INT 32767; temp; CONST_INT 32767] (reg_name a) (percent_d 32767) false
    (fun v => r_gpr v a =? 32767)) as (f & (text & Ho & Hc) & Hf); [reflexivity|discriminate|gpr_tac|number_tac|apply (cmpeqi_text a 32767); lia|].
  exists text, f. split; [|by split].
  change (emit_comparison LE (REG HImode a) (CONST_INT 32767) temp HImode true) with
    (text ← output_asm_insn "cmpeqi %0,%1" [REG HImode a; CONST_INT 32767; temp; CONST_INT 32767]; Some (true, text)).
  change "cmpeqi %0,%1" with (template (two_operands "cmpeqi" None 0 None 1)). by rewrite Ho.
Qed.
End Compare.

