(* ===== verification/Sums.v ===== *)
(** * Sums and differences, compiled

    [emit_add] and [emit_subtract] of gcc/config/d10v/d10v.c on values of 32 and 64 bits in
    general registers: the text, assembled and run, adds and subtracts modulo the width. *)
From S2P Require Import Prelude CInt Opcodes State Machine NumSpec Words Insns.
From S2P Require Import Asm AsmSpec Gcc GccText RegFile InsnText Mnemonics Rtl Templates Lines.
From S2P Require GccSpec.
From Stdlib Require Import Ascii.
#[local] Open Scope string_scope.
#[local] Open Scope list_scope.
#[local] Open Scope Z_scope.

(** ** Carries *)

(** [cpfg f0,c]; the same after a test; and 1 added or subtracted after a test *)
Definition copy (v : regs) : regs := Regs (r_gpr v) (r_c v) (r_f1 v) (r_c v).
Definition recopy (set : bool) (v : regs) : regs := if Bool.eqb (r_f0 v) set then copy v else v.
Definition bump (r : Z) (v : regs) : regs :=
  if r_f0 v then set_carry (2 ^ 16 <=? r_gpr v r + 1) (set_reg r ((r_gpr v r + 1) mod 2 ^ 16) v) else v.
Definition drop1 (r : Z) (v : regs) : regs :=
  if r_f0 v then v else set_carry (1 <=? r_gpr v r) (set_reg r ((r_gpr v r - 1) mod 2 ^ 16) v).
(** The carry, and the borrow, are in F0 or its opposite. *)
Definition carry (v : regs) : Z := if r_f0 v then 1 else 0.
Definition borrow (v : regs) : Z := if r_f0 v then 0 else 1.
Lemma bump_word r v : 0 <= r_gpr v r < 2 ^ 16 ->
  r_gpr (bump r v) r = (r_gpr v r + carry v) mod 2 ^ 16 /\ carry (recopy true (bump r v)) = (r_gpr v r + carry v) / 2 ^ 16.
Proof.
  intros Hr. unfold bump, recopy, carry. destruct (r_f0 v) eqn:E; cbn [set_carry set_reg r_gpr r_f0]; rewrite ?E; cbn [Bool.eqb copy r_c r_f0 set_carry].
  - unfold put. rewrite Z.eqb_refl. split; [done|]. destruct (Z.leb_spec (2 ^ 16) (r_gpr v r + 1)); zdml.
  - rewrite E, Z.add_0_r. split; [symmetry; by apply Z.mod_small|symmetry; by apply Z.div_small].
Qed.
Lemma drop1_word r v : 0 <= r_gpr v r < 2 ^ 16 ->
  r_gpr (drop1 r v) r = (r_gpr v r - borrow v) mod 2 ^ 16 /\ borrow (recopy false (drop1 r v)) = - ((r_gpr v r - borrow v) / 2 ^ 16).
Proof.
  intros Hr. unfold drop1, recopy, borrow. destruct (r_f0 v) eqn:E; cbn [set_carry set_reg r_gpr r_f0]; rewrite ?E; cbn [Bool.eqb copy r_c r_f0 set_carry].
  - rewrite E, Z.sub_0_r. split; [symmetry; by apply Z.mod_small|by rewrite Z.div_small].
  - unfold put. rewrite Z.eqb_refl. split; [done|]. destruct (Z.leb_spec 1 (r_gpr v r)); zdml.
Qed.
Lemma bump_other r v k : k <> r -> r_gpr (bump r v) k = r_gpr v k.
Proof. intros Hk. unfold bump. destruct (r_f0 v); [|done]. cbn. unfold put. by rewrite (proj2 (Z.eqb_neq k r)). Qed.
Lemma drop1_other r v k : k <> r -> r_gpr (drop1 r v) k = r_gpr v k.
Proof. intros Hk. unfold drop1. destruct (r_f0 v); [done|]. cbn. unfold put. by rewrite (proj2 (Z.eqb_neq k r)). Qed.
Lemma recopy_gpr b v k : r_gpr (recopy b v) k = r_gpr v k.
Proof. unfold recopy. by destruct (Bool.eqb _ _). Qed.
Lemma pair_mod x y : (x mod 2 ^ 32 + y) mod 2 ^ 32 = (x + y) mod 2 ^ 32.
Proof. zdml. Qed.
(** Sums of pairs *)
Definition add_pair (d b : Z) (v : regs) : regs :=
  set_carry (2 ^ 32 <=? pair_of (r_gpr v) d + pair_of (r_gpr v) b) (set_pair d (pair_of (r_gpr v) d + pair_of (r_gpr v) b) v).
Definition sub_pair (d b : Z) (v : regs) : regs :=
  set_carry (pair_of (r_gpr v) b <=? pair_of (r_gpr v) d) (set_pair d (pair_of (r_gpr v) d - pair_of (r_gpr v) b) v).
Lemma put_pair_words d x g k :
  put_pair d x g d = x / 2 ^ 16 mod 2 ^ 16 /\ put_pair d x g (d + 1) = x mod 2 ^ 16 /\
  (k <> d -> k <> d + 1 -> put_pair d x g k = g k).
Proof.
  unfold put_pair, put. rewrite !Z.eqb_refl. rewrite (proj2 (Z.eqb_neq d (d + 1))) by lia.
  split; [done|split; [done|]]. intros H1 H2. by rewrite (proj2 (Z.eqb_neq k (d + 1))), (proj2 (Z.eqb_neq k d)).
Qed.
Lemma pair_put_pair d x g : pair_of (put_pair d x g) d = x mod 2 ^ 32.
Proof. destruct (put_pair_words d x g 0) as (E1 & E2 & _). unfold pair_of. rewrite E1, E2. zdml. Qed.
Lemma pair_put_other d x g k : k + 1 < d \/ d + 1 < k -> pair_of (put_pair d x g) k = pair_of g k.
Proof.
  intros Hk. unfold pair_of. destruct (put_pair_words d x g k) as (_ & _ & E1), (put_pair_words d x g (k + 1)) as (_ & _ & E2).
  rewrite E1, E2 by lia. done.
Qed.
Lemma pair_range v n : good v -> 0 <= n < 15 -> 0 <= pair_of (r_gpr v) n < 2 ^ 32.
Proof. intros Hv Hn. pose proof (Hv n ltac:(lia)). pose proof (Hv (n + 1) ltac:(lia)). unfold pair_of. lia. Qed.

(** The two words of a pair take a carry, or a borrow. *)
Lemma carry_pair a v : 0 <= r_gpr v a < 2 ^ 16 -> 0 <= r_gpr v (a + 1) < 2 ^ 16 ->
  let v' := bump a (recopy true (bump (a + 1) v)) in
  pair_of (r_gpr v') a = (pair_of (r_gpr v) a + carry v) mod 2 ^ 32 /\ (forall k, k <> a -> k <> a + 1 -> r_gpr v' k = r_gpr v k).
Proof.
  intros H1 H2 v'. destruct (bump_word (a + 1) v H2) as [E1 C1]. set (w := recopy true (bump (a + 1) v)) in *.
  assert (r_gpr w a = r_gpr v a) as Ea by (unfold w; rewrite recopy_gpr; apply bump_other; lia).
  assert (r_gpr w (a + 1) = r_gpr (bump (a + 1) v) (a + 1)) as Eb by apply recopy_gpr.
  destruct (bump_word a w) as [E2 _]; [by rewrite Ea|]. split.
  - unfold v', pair_of. rewrite (bump_other a w (a + 1)) by lia. rewrite E2, Eb, E1, Ea, C1.
    assert (0 <= carry v <= 1) by (unfold carry; destruct (r_f0 v); lia). zdml.
  - intros k Hk Hk'. unfold v'. rewrite bump_other by done. unfold w. by rewrite recopy_gpr, bump_other.
Qed.
Lemma borrow_pair a v : 0 <= r_gpr v a < 2 ^ 16 -> 0 <= r_gpr v (a + 1) < 2 ^ 16 ->
  let v' := drop1 a (recopy false (drop1 (a + 1) v)) in
  pair_of (r_gpr v') a = (pair_of (r_gpr v) a - borrow v) mod 2 ^ 32 /\ (forall k, k <> a -> k <> a + 1 -> r_gpr v' k = r_gpr v k).
Proof.
  intros H1 H2 v'. destruct (drop1_word (a + 1) v H2) as [E1 C1]. set (w := recopy false (drop1 (a + 1) v)) in *.
  assert (r_gpr w a = r_gpr v a) as Ea by (unfold w; rewrite recopy_gpr; apply drop1_other; lia).
  assert (r_gpr w (a + 1) = r_gpr (drop1 (a + 1) v) (a + 1)) as Eb by apply recopy_gpr.
  destruct (drop1_word a w) as [E2 _]; [by rewrite Ea|]. split.
  - unfold v', pair_of. rewrite (drop1_other a w (a + 1)) by lia. rewrite E2, Eb, E1, Ea, C1.
    assert (0 <= borrow v <= 1) by (unfold borrow; destruct (r_f0 v); lia). zdml.
  - intros k Hk Hk'. unfold v'. rewrite drop1_other by done. unfold w. by rewrite recopy_gpr, drop1_other.
Qed.

(** ** Four registers *)

Lemma even_half r : Z.land r 1 = 0 -> r = 2 * (r / 2).
Proof. change 1 with (Z.ones 1). rewrite land_ones_mod by lia. intros E. zdml. Qed.
(** The upper pair of the second operand is not the lower pair of the sum. *)
Lemma quads_apart a c : quad_register a -> quad_register c -> c + 2 <> a -> c = a \/ (c + 2 + 1 < a \/ a + 1 < c + 2).
Proof. intros [_ Ea%even_half] [_ Ec%even_half] Hn. lia. Qed.
Lemma add_pair_pairs d b v : pair_of (r_gpr (add_pair d b v)) d = (pair_of (r_gpr v) d + pair_of (r_gpr v) b) mod 2 ^ 32 /\
  (forall k, k + 1 < d \/ d + 1 < k -> pair_of (r_gpr (add_pair d b v)) k = pair_of (r_gpr v) k) /\
  (forall k, k <> d -> k <> d + 1 -> r_gpr (add_pair d b v) k = r_gpr v k).
Proof.
  unfold add_pair. cbn [set_carry set_pair r_gpr]. split; [apply pair_put_pair|split].
  - intros k Hk. by apply pair_put_other.
  - intros k H1 H2. by apply put_pair_words.
Qed.
Lemma sub_pair_pairs d b v : pair_of (r_gpr (sub_pair d b v)) d = (pair_of (r_gpr v) d - pair_of (r_gpr v) b) mod 2 ^ 32 /\
  (forall k, k + 1 < d \/ d + 1 < k -> pair_of (r_gpr (sub_pair d b v)) k = pair_of (r_gpr v) k) /\
  (forall k, k <> d -> k <> d + 1 -> r_gpr (sub_pair d b v) k = r_gpr v k).
Proof.
  unfold sub_pair. cbn [set_carry set_pair r_gpr]. split; [apply pair_put_pair|split].
  - intros k Hk. by apply pair_put_other.
  - intros k H1 H2. by apply put_pair_words.
Qed.
Lemma good_put_pair d x v v' : good v -> r_gpr v' = put_pair d x (r_gpr v) -> good v'.
Proof.
  intros Hv E k Hk. rewrite E. destruct (put_pair_words d x (r_gpr v) k) as (E1 & E2 & E3).
  destruct (Z.eq_dec k d) as [->|]; [rewrite E1; zdml|]. destruct (Z.eq_dec k (d + 1)) as [->|]; [rewrite E2; zdml|]. rewrite E3 by done. by apply Hv.
Qed.
Definition add_quad (a c : Z) (v : regs) : regs :=
  bump a (recopy true (bump (a + 1) (copy (add_pair (a + 2) (c + 2) (add_pair a c v))))).
Lemma add_quad_sum a c v : good v -> quad_register a -> quad_register c -> c + 2 <> a ->
  quad_of (r_gpr (add_quad a c v)) a = (quad_of (r_gpr v) a + quad_of (r_gpr v) c) mod 2 ^ 64 /\
  (forall k, k < a \/ a + 3 < k -> r_gpr (add_quad a c v) k = r_gpr v k).
Proof.
  intros Hv Ha Hc Hn. destruct (add_pair_pairs a c v) as (P1 & P2 & P3). set (v1 := add_pair a c v) in *.
  assert (good v1) as Hv1 by (by apply (good_put_pair a (pair_of (r_gpr v) a + pair_of (r_gpr v) c) v)).
  destruct (add_pair_pairs (a + 2) (c + 2) v1) as (Q1 & Q2 & Q3). set (v2 := add_pair (a + 2) (c + 2) v1) in *.
  assert (good v2) as Hv2 by (by apply (good_put_pair (a + 2) (pair_of (r_gpr v1) (a + 2) + pair_of (r_gpr v1) (c + 2)) v1)).
  pose proof (proj1 Ha). pose proof (proj1 Hc).
  destruct (carry_pair a (copy v2) (Hv2 a ltac:(lia)) (Hv2 (a + 1) ltac:(lia))) as [R1 R2]. fold (add_quad a c v) in R1, R2. cbn [copy r_gpr] in R1, R2.
  change (bump a (recopy true (bump (a + 1) (copy v2)))) with (add_quad a c v) in R1, R2.
  assert (pair_of (r_gpr v1) (c + 2) = pair_of (r_gpr v) (c + 2)) as Ec.
  { destruct (quads_apart a c Ha Hc Hn) as [->|]; apply P2; lia. }
  assert (carry (copy v2) = (pair_of (r_gpr v) (a + 2) + pair_of (r_gpr v) (c + 2)) / 2 ^ 32) as Ek.
  { unfold carry. cbn [copy r_f0]. unfold v2, add_pair. cbn [set_carry r_c]. rewrite (P2 (a + 2)), Ec by lia.
    pose proof (pair_range v (a + 2) Hv ltac:(lia)). pose proof (pair_range v (c + 2) Hv ltac:(lia)).
    destruct (Z.leb_spec (2 ^ 32) (pair_of (r_gpr v) (a + 2) + pair_of (r_gpr v) (c + 2))); zdml. }
  split.
  - unfold quad_of. rewrite R1, Ek, (Q2 a), P1 by lia.
    assert (pair_of (r_gpr (add_quad a c v)) (a + 2) = pair_of (r_gpr v2) (a + 2)) as -> by (unfold pair_of; rewrite !R2 by lia; done).
    rewrite Q1, (P2 (a + 2)), Ec by lia. generalize (pair_of (r_gpr v) a), (pair_of (r_gpr v) c), (pair_of (r_gpr v) (a + 2)), (pair_of (r_gpr v) (c + 2)).
    clear. intros x y z w. zdml.
  - intros k Hk. rewrite R2, Q3, P3 by lia. done.
Qed.
Definition sub_quad (a c : Z) (v : regs) : regs :=
  drop1 a (recopy false (drop1 (a + 1) (copy (sub_pair (a + 2) (c + 2) (sub_pair a c v))))).
Lemma sub_quad_difference a c v : good v -> quad_register a -> quad_register c -> c + 2 <> a ->
  quad_of (r_gpr (sub_quad a c v)) a = (quad_of (r_gpr v) a - quad_of (r_gpr v) c) mod 2 ^ 64 /\
  (forall k, k < a \/ a + 3 < k -> r_gpr (sub_quad a c v) k = r_gpr v k).
Proof.
  intros Hv Ha Hc Hn. destruct (sub_pair_pairs a c v) as (P1 & P2 & P3). set (v1 := sub_pair a c v) in *.
  assert (good v1) as Hv1 by (by apply (good_put_pair a (pair_of (r_gpr v) a - pair_of (r_gpr v) c) v)).
  destruct (sub_pair_pairs (a + 2) (c + 2) v1) as (Q1 & Q2 & Q3). set (v2 := sub_pair (a + 2) (c + 2) v1) in *.
  assert (good v2) as Hv2 by (by apply (good_put_pair (a + 2) (pair_of (r_gpr v1) (a + 2) - pair_of (r_gpr v1) (c + 2)) v1)).
  pose proof (proj1 Ha). pose proof (proj1 Hc).
  destruct (borrow_pair a (copy v2) (Hv2 a ltac:(lia)) (Hv2 (a + 1) ltac:(lia))) as [R1 R2]. cbn [copy r_gpr] in R1, R2.
  change (drop1 a (recopy false (drop1 (a + 1) (copy v2)))) with (sub_quad a c v) in R1, R2.
  assert (pair_of (r_gpr v1) (c + 2) = pair_of (r_gpr v) (c + 2)) as Ec.
  { destruct (quads_apart a c Ha Hc Hn) as [->|]; apply P2; lia. }
  assert (borrow (copy v2) = - ((pair_of (r_gpr v) (a + 2) - pair_of (r_gpr v) (c + 2)) / 2 ^ 32)) as Ek.
  { unfold borrow. cbn [copy r_f0]. unfold v2, sub_pair. cbn [set_carry r_c]. rewrite (P2 (a + 2)), Ec by lia.
    pose proof (pair_range v (a + 2) Hv ltac:(lia)). pose proof (pair_range v (c + 2) Hv ltac:(lia)).
    destruct (Z.leb_spec (pair_of (r_gpr v) (c + 2)) (pair_of (r_gpr v) (a + 2))); zdml. }
  split.
  - unfold quad_of. rewrite R1, Ek, (Q2 a), P1 by lia.
    assert (pair_of (r_gpr (sub_quad a c v)) (a + 2) = pair_of (r_gpr v2) (a + 2)) as -> by (unfold pair_of; rewrite !R2 by lia; done).
    rewrite Q1, (P2 (a + 2)), Ec by lia. generalize (pair_of (r_gpr v) a), (pair_of (r_gpr v) c), (pair_of (r_gpr v) (a + 2)), (pair_of (r_gpr v) (c + 2)).
    clear. intros x y z w. zdml.
  - intros k Hk. rewrite R2, Q3, P3 by lia. done.
Qed.

(** ** Constants *)

(** A number of 16 bits added to one register *)
Definition add_word (r n : Z) (v : regs) : regs :=
  set_carry (2 ^ 16 <=? r_gpr v r + n) (set_reg r ((r_gpr v r + n) mod 2 ^ 16) v).
Lemma add_word_carry r n v : 0 <= r_gpr v r < 2 ^ 16 -> 0 <= n < 2 ^ 16 ->
  r_gpr (add_word r n v) r = (r_gpr v r + n) mod 2 ^ 16 /\ carry (copy (add_word r n v)) = (r_gpr v r + n) / 2 ^ 16 /\
  forall k, k <> r -> r_gpr (add_word r n v) k = r_gpr v k.
Proof.
  intros Hr Hn. unfold carry, add_word. cbn [set_carry set_reg r_gpr r_c copy r_f0]. unfold put. rewrite Z.eqb_refl.
  split; [done|split].
  - destruct (Z.leb_spec (2 ^ 16) (r_gpr v r + n)); zdml.
  - intros k Hk. by rewrite (proj2 (Z.eqb_neq k r)).
Qed.
Definition add_word_pair (a n : Z) (v : regs) : regs := bump a (copy (add_word (a + 1) n v)).
Lemma add_word_pair_sum a n v : good v -> 0 <= a < 15 -> 0 <= n < 2 ^ 16 ->
  pair_of (r_gpr (add_word_pair a n v)) a = (pair_of (r_gpr v) a + n) mod 2 ^ 32 /\
  (forall k, k <> a -> k <> a + 1 -> r_gpr (add_word_pair a n v) k = r_gpr v k).
Proof.
  intros Hv Ha Hn. destruct (add_word_carry (a + 1) n v (Hv (a + 1) ltac:(lia)) Hn) as (E1 & C1 & O1). set (v1 := add_word (a + 1) n v) in *.
  pose proof (Hv a ltac:(lia)) as Ba. pose proof (Hv (a + 1) ltac:(lia)) as Bb.
  destruct (bump_word a (copy v1)) as [E2 _]; [cbn [copy r_gpr]; rewrite O1 by lia; exact Ba|]. cbn [copy r_gpr] in E2. rewrite C1, O1 in E2 by lia.
  change (bump a (copy v1)) with (add_word_pair a n v) in E2. split.
  - unfold pair_of. rewrite E2. assert (r_gpr (add_word_pair a n v) (a + 1) = r_gpr v1 (a + 1)) as -> by (apply (bump_other a (copy v1)); lia).
    rewrite E1. zdml.
  - intros k H1 H2. transitivity (r_gpr v1 k); [apply (bump_other a (copy v1)); lia|by apply O1].
Qed.
Definition add_word_quad (a n : Z) (v : regs) : regs :=
  bump a (recopy true (bump (a + 1) (recopy true (bump (a + 2) (copy (add_word (a + 3) n v)))))).
Lemma add_word_quad_sum a n v : good v -> quad_register a -> 0 <= n < 2 ^ 16 ->
  quad_of (r_gpr (add_word_quad a n v)) a = (quad_of (r_gpr v) a + n) mod 2 ^ 64 /\
  (forall k, k < a \/ a + 3 < k -> r_gpr (add_word_quad a n v) k = r_gpr v k).
Proof.
  intros Hv [Ha _] Hn. destruct (add_word_carry (a + 3) n v (Hv (a + 3) ltac:(lia)) Hn) as (E1 & C1 & O1). set (v1 := add_word (a + 3) n v) in *.
  pose proof (Hv a ltac:(lia)) as B0. pose proof (Hv (a + 1) ltac:(lia)) as B1. pose proof (Hv (a + 2) ltac:(lia)) as B2. pose proof (Hv (a + 3) ltac:(lia)) as B3.
  destruct (bump_word (a + 2) (copy v1)) as [E2 C2]; [cbn [copy r_gpr]; rewrite O1 by lia; exact B2|]. cbn [copy r_gpr] in E2, C2. rewrite C1, O1 in E2, C2 by lia.
  set (v2 := recopy true (bump (a + 2) (copy v1))) in *.
  assert (forall k, k <> a + 2 -> r_gpr v2 k = r_gpr v1 k) as O2 by (intros k Hk; unfold v2; by rewrite recopy_gpr, bump_other).
  destruct (carry_pair a v2) as [R1 R2]; [rewrite O2, O1 by lia; assumption..|].
  change (bump a (recopy true (bump (a + 1) v2))) with (add_word_quad a n v) in R1, R2.
  split.
  - assert (pair_of (r_gpr v2) a = pair_of (r_gpr v) a) as Ep by (unfold pair_of; rewrite !O2, !O1 by lia; done).
    unfold quad_of. rewrite R1, C2, Ep. unfold pair_of. rewrite !R2 by lia. replace (a + 2 + 1) with (a + 3) by lia. rewrite (O2 (a + 3)), E1 by lia.
    assert (r_gpr v2 (a + 2) = r_gpr (bump (a + 2) (copy v1)) (a + 2)) as -> by apply recopy_gpr. rewrite E2.
    revert B0 B1 B2 B3. generalize (r_gpr v a), (r_gpr v (a + 1)), (r_gpr v (a + 2)), (r_gpr v (a + 3)). clear - Hn. intros. zdml.
  - intros k Hk. rewrite R2, O2, O1 by lia. done.
Qed.

(** A constant of 32 bits, loaded, and the sum with another pair *)
Definition load_pair (a n : Z) (v : regs) : regs := set_reg (a + 1) (n mod 2 ^ 16) (set_reg a (n / 2 ^ 16 mod 2 ^ 16) v).
Lemma load_add_sum a b n v : good v -> pair_register a -> pair_register b -> a <> b ->
  pair_of (r_gpr (add_pair a b (load_pair a n v))) a = (pair_of (r_gpr v) b + n) mod 2 ^ 32 /\
  (forall k, k <> a -> k <> a + 1 -> r_gpr (add_pair a b (load_pair a n v)) k = r_gpr v k).
Proof.
  intros Hv [Ha Ea%even_half] [Hb Eb%even_half] Hn. destruct (add_pair_pairs a b (load_pair a n v)) as (P1 & _ & P3).
  change (r_gpr (load_pair a n v)) with (put_pair a n (r_gpr v)) in *. split.
  - rewrite P1, pair_put_pair, (pair_put_other a n (r_gpr v) b), pair_mod by lia. f_equal. lia.
  - intros k H1 H2. rewrite P3 by done. by apply put_pair_words.
Qed.

Section Sums.
Context `{Host} `{GasLaws} `{Compiler}.

(** ** Text *)

Definition all_do (ts : list string) (operands : list rtx) (f : regs -> regs) : Prop :=
  exists text, output_all ts operands = Some text /\ compiles text f.
Lemma all_nil operands : all_do [] operands (fun v => v).
Proof. exists "". split; [done|apply compiles_nothing]. Qed.
Lemma all_cons t ts operands f f' : outputs t operands f -> all_do ts operands f' -> all_do (t :: ts) operands (fun v => f' (f v)).
Proof.
  intros (a & Ea & Ca) (b & Eb & Cb). exists (a +:+ b). cbn [output_all]. rewrite Ea. cbn. rewrite Eb. split; [done|by apply compiles_app].
Qed.
Lemma outputs_copy operands : outputs "cpfg f0,c" operands copy.
Proof.
  apply (outputs_lines [Text "cpfg f0,c"]); [reflexivity|discriminate|]. exists "cpfg f0,c". split; [done|].
  apply (line_compiles _ true). exact cpfg_text.
Qed.
Lemma lines_copy operands : lines_do [Text "cpfg f0,c"] operands copy.
Proof. exists "cpfg f0,c". split; [done|]. apply (line_compiles _ true). exact cpfg_text. Qed.
Lemma lines_recopy (set : bool) operands : lines_do [Text ("cpfg f0,c || " +:+ if set then "exef0t" else "exef0f")] operands (recopy set).
Proof.
  exists ("cpfg f0,c || " +:+ if set then "exef0t" else "exef0f"). split; [by destruct set|].
  destruct set; (eapply compiles_like; [|apply cpfg_test_compiles; first [exact exef0t_name | exact exef0f_name]]);
    intros v _; unfold recopy; destruct (r_f0 v); apply like_refl.
Qed.
Lemma lines_bump l w r m operands : operands !! 0%nat = Some (REG m r) -> 0 <= r -> r + w < 16 ->
  In (l, w) [("U"%char, 0); ("L"%char, 1); ("A"%char, 0); ("B"%char, 1); ("C"%char, 2); ("D"%char, 3)] ->
  lines_do (against "exef0t || addi" l 1) operands (bump (r + w)).
Proof.
  intros E Hr0 Hrw Hl. assert (0 <= w) by (repeat (destruct Hl as [[= <- <-]|Hl]; [lia|]); destruct Hl).
  apply (test_against "exef0t" r_f0 "addi" l 1 operands (reg_name (r + w))); [apply exef0t_name| |apply addi_text; lia].
  eapply prints_word; [exact E|lia|exact Hl].
Qed.
Lemma lines_drop l w r m operands : operands !! 0%nat = Some (REG m r) -> 0 <= r -> r + w < 16 ->
  In (l, w) [("U"%char, 0); ("L"%char, 1); ("A"%char, 0); ("B"%char, 1); ("C"%char, 2); ("D"%char, 3)] ->
  lines_do (against "exef0f || subi" l 1) operands (drop1 (r + w)).
Proof.
  intros E Hr0 Hrw Hl. assert (0 <= w) by (repeat (destruct Hl as [[= <- <-]|Hl]; [lia|]); destruct Hl).
  eapply lines_like; [|eapply (test_against "exef0f" (fun v => negb (r_f0 v)) "subi" l 1 operands (reg_name (r + w))); [apply exef0f_name| |apply subi_text; lia]].
  - intros v _. unfold drop1. destruct (r_f0 v); apply like_refl.
  - eapply prints_word; [exact E|lia|exact Hl].
Qed.

(** ** Sums and differences of the compiler *)

(** The text of [emit_add] and of the template that it returns *)
Definition sum_text (operands : list rtx) : option string :=
  '(before, t) ← emit_add operands; after ← output_asm_insn t operands; Some (before +:+ after).
Definition difference_text (operands : list rtx) : option string :=
  t ← emit_subtract operands; output_asm_insn t operands.
Lemma gpr_kind r : 0 <= r < 16 -> GPR_P r = true /\ ACCUM_P r = false.
Proof. intros Hr. each_below r 16%nat; split; reflexivity. Qed.
Lemma outputs_add_pair l1 l2 w k operands m1 m2 a b : operands !! 0%nat = Some (REG m1 a) -> operands !! k = Some (REG m2 b) ->
  (l1 = None /\ w = 0 \/ exists c, l1 = Some c /\ In (c, w) [("U"%char, 0); ("L"%char, 1); ("A"%char, 0); ("B"%char, 1); ("C"%char, 2); ("D"%char, 3)]) ->
  l2 = l1 -> 0 <= w -> Z.land w 1 = 0 -> pair_register a -> pair_register b -> pair_register (a + w) -> pair_register (b + w) ->
  lines_do (two_operands "add2w" l1 0 l2 k) operands (add_pair (a + w) (b + w)) /\
  lines_do (two_operands "sub2w" l1 0 l2 k) operands (sub_pair (a + w) (b + w)).
Proof.
  intros E1 E2 Hl -> Hw Hw1 [Ha _] [Hb _] [Haw Eaw] [Hbw Ebw].
  assert (prints operands l1 0 (reg_name (a + w)) /\ prints operands l1 k (reg_name (b + w))) as [P1 P2].
  { destruct Hl as [[-> ->]|(c & -> & Hc)].
    - rewrite !Z.add_0_r. split; [apply (prints_gpr _ _ m1)|apply (prints_gpr _ _ m2)]; first [assumption | lia].
    - split; [apply (prints_word _ _ m1)|apply (prints_word _ _ m2)]; first [assumption | lia]. }
  split; eapply line_two; [exact P1|exact P2|by apply add2w_text|exact P1|exact P2|by apply sub2w_text].
Qed.

(** The operands of a sum in general registers *)
Definition addable (mode : machine_mode) (op0 op1 op2 : rtx) : Prop :=
  match mode, op0, op1, op2 with
  | SImode, REG SImode a, REG SImode b, REG SImode c => a = b /\ pair_register a /\ pair_register c
  | SImode, REG SImode a, REG SImode b, CONST_INT n =>
      pair_register a /\ pair_register b /\ ((a <> b /\ - 2 ^ 31 <= n < 2 ^ 31) \/ (a = b /\ 0 <= n < 2 ^ 16))
  | DImode, REG DImode a, REG DImode b, REG DImode c => a = b /\ quad_register a /\ quad_register c /\ c + 2 <> a
  | DImode, REG DImode a, REG DImode b, CONST_INT n => a = b /\ quad_register a /\ 0 <= n < 2 ^ 16
  | _, _, _, _ => False
  end.
(** What [text] does to the destination *)
Definition computes (text : option string) (mode : machine_mode) (op0 : rtx) (x : regs -> Z) : Prop :=
  exists t f, text = Some t /\ compiles t f /\ forall v, good v ->
    value mode (f v) op0 = x v mod 2 ^ width mode /\
    forall k, k < regno_of op0 \/ regno_of op0 + GET_MODE_SIZE mode / 2 <= k -> r_gpr (f v) k = r_gpr v k.
Lemma sum_returned operands t f mode op0 x : emit_add operands = Some ("", t) -> outputs t operands f ->
  (forall v, good v -> value mode (f v) op0 = x v mod 2 ^ width mode /\
    forall k, k < regno_of op0 \/ regno_of op0 + GET_MODE_SIZE mode / 2 <= k -> r_gpr (f v) k = r_gpr v k) ->
  computes (sum_text operands) mode op0 x.
Proof. intros E (text & Ho & Hc) Hx. exists text, f. unfold sum_text. rewrite E. cbn. rewrite Ho. split; [done|split; [exact Hc|exact Hx]]. Qed.
Lemma sum_output operands ts f mode op0 x : emit_add operands = (text ← output_all ts operands; Some (text, "")) -> all_do ts operands f ->
  (forall v, good v -> value mode (f v) op0 = x v mod 2 ^ width mode /\
    forall k, k < regno_of op0 \/ regno_of op0 + GET_MODE_SIZE mode / 2 <= k -> r_gpr (f v) k = r_gpr v k) ->
  computes (sum_text operands) mode op0 x.
Proof.
  intros E (text & Ho & Hc) Hx. exists text, f. unfold sum_text. rewrite E, Ho. cbn. rewrite append_nil.
  split; [done|split; [exact Hc|exact Hx]].
Qed.
Lemma pair_gpr r : pair_register r -> GPR_P r = true.
Proof. intros [Hr _]. apply gpr_kind. lia. Qed.
Lemma quad_gpr r : quad_register r -> GPR_P r = true.
Proof. intros [Hr _]. apply gpr_kind. lia. Qed.
Ltac emit_sum := unfold emit_add, emit_subtract; cbn [lookup list_lookup mbind option_bind GET_MODE regno_of];
  change (bool_decide (SImode = SImode)) with true; change (bool_decide (DImode = SImode)) with false;
  change (bool_decide (DImode = DImode)) with true; cbv iota; cbn [andb].
Lemma pair_sum a c : pair_register a -> pair_register c ->
  computes (sum_text [REG SImode a; REG SImode a; REG SImode c]) SImode (REG SImode a) (fun v => pair_of (r_gpr v) a + pair_of (r_gpr v) c).
Proof.
  intros Ha Hc. apply (sum_returned _ "add2w %0,%2" (add_pair (a + 0) (c + 0))).
  - emit_sum. rewrite (pair_gpr a Ha), (pair_gpr c Hc), Z.eqb_refl. reflexivity.
  - apply (outputs_lines (two_operands "add2w" None 0 None 2)); [reflexivity|discriminate|].
    exact (proj1 (outputs_add_pair None None 0 2 [REG SImode a; REG SImode a; REG SImode c] _ _ a c eq_refl eq_refl (or_introl (conj eq_refl eq_refl))
      eq_refl ltac:(lia) eq_refl Ha Hc ltac:(rewrite Z.add_0_r; exact Ha) ltac:(rewrite Z.add_0_r; exact Hc))).
  - intros v Hv. rewrite !Z.add_0_r. destruct (add_pair_pairs a c v) as (P1 & _ & P3). split; [exact P1|].
    intros k Hk. change (GET_MODE_SIZE SImode / 2) with 2 in Hk. cbn [regno_of] in Hk. apply P3; lia.
Qed.

Lemma pair_constant_sum a n : pair_register a -> 0 <= n < 2 ^ 16 ->
  computes (sum_text [REG SImode a; REG SImode a; CONST_INT n]) SImode (REG SImode a) (fun v => pair_of (r_gpr v) a + n).
Proof.
  intros Ha Hn. set (operands := [REG SImode a; REG SImode a; CONST_INT n]). pose proof (proj1 Ha) as Hr.
  assert (prints operands (Some "L"%char) 0 (reg_name (a + 1))) as PL by (eapply prints_word; [reflexivity|lia|simpl; tauto]).
  assert (lines_do (against "exef0t || addi" "U" 1) operands (bump a)) as Lb.
  { rewrite <- (Z.add_0_r a). eapply lines_bump; [reflexivity|lia|lia|simpl; tauto]. }
  assert (forall ps, lines_do ps operands (add_word (a + 1) n) -> pieces_ok (ps ++ Text nl :: [Text "cpfg f0,c"] ++ Text nl :: against "exef0t || addi" "U" 1) = true ->
    emit_add operands = Some ("", template (ps ++ Text nl :: [Text "cpfg f0,c"] ++ Text nl :: against "exef0t || addi" "U" 1)) ->
    template (ps ++ Text nl :: [Text "cpfg f0,c"] ++ Text nl :: against "exef0t || addi" "U" 1) <> "" ->
    computes (sum_text operands) SImode (REG SImode a) (fun v => pair_of (r_gpr v) a + n)) as Hps.
  { intros ps Hl Hk He Hne. eapply sum_returned; [exact He| |].
    - apply outputs_lines; [exact Hk|exact Hne|]. apply lines_app; [exact Hl|]. apply lines_app; [apply lines_copy|exact Lb].
    - intros v Hv. destruct (add_word_pair_sum a n v Hv Hr Hn) as [E1 E2]. split; [exact E1|].
      intros k Hk'. change (GET_MODE_SIZE SImode / 2) with 2 in Hk'. cbn [regno_of] in Hk'. apply E2; lia. }
  assert ((n <? 0) = false) as Hneg by (apply Z.ltb_ge; lia).
  destruct (IN_RANGE_P n 1 16) eqn:Er.
  - apply (Hps (two_operands "addi" (Some "L"%char) 0 None 2)); [|reflexivity| |discriminate].
    + assert (1 <= n <= 16) by (unfold IN_RANGE_P, u32 in Er; apply Z.leb_le in Er; zdml).
      eapply line_two; [exact PL|apply prints_number; reflexivity|]. apply addi_text; lia.
    + unfold operands. emit_sum. rewrite Z.eqb_refl. cbn [negb]. rewrite Hneg, (pair_gpr a Ha), Er. reflexivity.
  - apply (Hps [Text "add3 "; Operand (Some "L"%char) 0; Text ","; Operand (Some "L"%char) 0; Text ","; Operand None 2]); [|reflexivity| |discriminate].
    + exists ("add3" +:+ " " +:+ reg_name (a + 1) +:+ "," +:+ reg_name (a + 1) +:+ "," +:+ percent_d n). split.
      * destruct PL as (x & Ex & Ox). cbn [render]. rewrite Ex. cbn -[percent_d]. rewrite Ox. cbn -[percent_d]. by rewrite append_nil.
      * eapply compiles_like; [|apply (line_compiles _ false); apply (add3_text (a + 1) (a + 1) n); lia].
        intros v _. cbv beta. rewrite (Z.mod_small n) by lia. apply like_refl.
    + unfold operands. emit_sum. rewrite Z.eqb_refl. cbn [negb]. rewrite Hneg, (pair_gpr a Ha), Er. reflexivity.
Qed.
Lemma pair_load_sum a b n : pair_register a -> pair_register b -> a <> b -> - 2 ^ 31 <= n < 2 ^ 31 ->
  computes (sum_text [REG SImode a; REG SImode b; CONST_INT n]) SImode (REG SImode a) (fun v => pair_of (r_gpr v) b + n).
Proof.
  intros Ha Hb Hab Hn. pose proof (proj1 Ha) as Hr. pose proof (proj1 Hb) as Hrb. set (operands := [REG SImode a; REG SImode b; CONST_INT n]).
  eapply (sum_returned _ (template (two_operands "ldi" (Some "U"%char) 0 (Some "U"%char) 2 ++ Text nl ::
    (two_operands "ldi" (Some "L"%char) 0 (Some "L"%char) 2 ++ Text nl :: two_operands "add2w" None 0 None 1))) (fun v => add_pair a b (load_pair a n v))).
  - unfold operands. emit_sum. rewrite (proj2 (Z.eqb_neq a b) Hab). reflexivity.
  - apply outputs_lines; [reflexivity|discriminate|].
    assert (forall w, - 2 ^ 31 <= s16 w < 2 ^ 31 /\ s16 w mod 2 ^ 16 = w mod 2 ^ 16) as Hs.
    { intros w. split; [pose proof (wrap_signed_range 16 w ltac:(lia)); unfold s16; lia|by apply (wrap_signed_mod 16)]. }
    eapply lines_like; [|apply lines_app; [|apply lines_app]].
    2: { eapply line_two; [eapply (prints_word _ 0 SImode a "U" 0); [reflexivity|lia|simpl; tauto]|
           eapply prints_half; [reflexivity|by left]|apply ldi_text; [lia|apply Hs]]. }
    2: { eapply line_two; [eapply (prints_word _ 0 SImode a "L" 1); [reflexivity|lia|simpl; tauto]|
           eapply prints_half; [reflexivity|by right; left]|apply ldi_text; [lia|apply Hs]]. }
    2: { exact (proj1 (outputs_add_pair None None 0 1 operands _ _ a b eq_refl eq_refl (or_introl (conj eq_refl eq_refl))
           eq_refl ltac:(lia) eq_refl Ha Hb ltac:(rewrite Z.add_0_r; exact Ha) ltac:(rewrite Z.add_0_r; exact Hb))). }
    intros v _. cbv beta. rewrite !(proj2 (Hs _)), Z.shiftr_div_pow2, !Z.add_0_r by lia. apply like_refl.
  - intros v Hv. destruct (load_add_sum a b n v Hv Ha Hb Hab) as [E1 E2]. split; [exact E1|].
    intros k Hk. change (GET_MODE_SIZE SImode / 2) with 2 in Hk. cbn [regno_of] in Hk. apply E2; lia.
Qed.

(** Lines one after the other *)
Lemma outputs_carry_lines three a operands : 0 <= a < 13 -> operands !! 0%nat = Some (REG DImode a) ->
  all_do (add_carries three) operands (fun v =>
    bump a (recopy true (bump (a + 1) (if three then recopy true (bump (a + 2) (copy v)) else copy v)))).
Proof.
  intros Ha E. unfold add_carries.
  assert (outputs "cpfg f0,c || exef0t" operands (recopy true)) as Lr
    by (apply (outputs_lines [Text "cpfg f0,c || exef0t"]); [reflexivity|discriminate|exact (lines_recopy true operands)]).
  assert (outputs "exef0t || addi %C0,1" operands (bump (a + 2))) as L2
    by (apply (outputs_lines (against "exef0t || addi" "C" 1)); [reflexivity|discriminate|]; eapply lines_bump; [exact E|lia|lia|simpl; tauto]).
  assert (outputs "exef0t || addi %B0,1" operands (bump (a + 1))) as L1
    by (apply (outputs_lines (against "exef0t || addi" "B" 1)); [reflexivity|discriminate|]; eapply lines_bump; [exact E|lia|lia|simpl; tauto]).
  assert (outputs "exef0t || addi %A0,1" operands (bump a)) as L0
    by (apply (outputs_lines (against "exef0t || addi" "A" 1)); [reflexivity|discriminate|]; rewrite <- (Z.add_0_r a); eapply lines_bump; [exact E|lia|lia|simpl; tauto]).
  destruct three; cbn [app].
  - exact (all_cons _ _ _ _ _ (outputs_copy operands) (all_cons _ _ _ _ _ L2 (all_cons _ _ _ _ _ Lr (all_cons _ _ _ _ _ L1
      (all_cons _ _ _ _ _ Lr (all_cons _ _ _ _ _ L0 (all_nil operands))))))).
  - exact (all_cons _ _ _ _ _ (outputs_copy operands) (all_cons _ _ _ _ _ L1 (all_cons _ _ _ _ _ Lr (all_cons _ _ _ _ _ L0 (all_nil operands))))).
Qed.
Lemma quad_pairs a : quad_register a -> pair_register a /\ pair_register (a + 2).
Proof.
  intros [Ha Ea%even_half]. assert (forall x, x = 2 * (x / 2) -> Z.land x 1 = 0) as Hl.
  { intros x Ex. change 1 with (Z.ones 1). rewrite land_ones_mod by lia. zdml. }
  split; (split; [lia|apply Hl; zdml]).
Qed.
Lemma quad_operations a c operands : quad_register a -> quad_register c ->
  operands !! 0%nat = Some (REG DImode a) -> operands !! 2%nat = Some (REG DImode c) ->
  (lines_do (two_operands "add2w" (Some "A"%char) 0 (Some "A"%char) 2) operands (add_pair a c) /\
   lines_do (two_operands "sub2w" (Some "A"%char) 0 (Some "A"%char) 2) operands (sub_pair a c)) /\
  lines_do (two_operands "add2w" (Some "C"%char) 0 (Some "C"%char) 2) operands (add_pair (a + 2) (c + 2)) /\
  lines_do (two_operands "sub2w" (Some "C"%char) 0 (Some "C"%char) 2) operands (sub_pair (a + 2) (c + 2)).
Proof.
  intros [Ha Ha2]%quad_pairs [Hc Hc2]%quad_pairs E1 E2. split.
  - pose proof (outputs_add_pair (Some "A"%char) (Some "A"%char) 0 2 operands _ _ a c E1 E2) as L. rewrite !Z.add_0_r in L.
    apply L; [right; exists "A"%char; simpl; tauto|done|lia|done|assumption..].
  - apply (outputs_add_pair (Some "C"%char) (Some "C"%char) 2 2 operands _ _ a c E1 E2); [right; exists "C"%char; simpl; tauto|done|lia|done|assumption..].
Qed.
Lemma quad_sum a c : quad_register a -> quad_register c -> c + 2 <> a ->
  computes (sum_text [REG DImode a; REG DImode a; REG DImode c]) DImode (REG DImode a) (fun v => quad_of (r_gpr v) a + quad_of (r_gpr v) c).
Proof.
  intros Ha Hc Hn. destruct (quad_operations a c [REG DImode a; REG DImode a; REG DImode c] Ha Hc eq_refl eq_refl) as [[L1 _] [L2 _]].
  eapply (sum_output _ (["add2w %A0,%A2"; "add2w %C0,%C2"] ++ add_carries false)).
  - emit_sum. rewrite (quad_gpr a Ha), (quad_gpr c Hc), Z.eqb_refl. reflexivity.
  - exact (all_cons _ _ _ _ _ (outputs_lines (two_operands "add2w" (Some "A"%char) 0 (Some "A"%char) 2) _ _ eq_refl ltac:(discriminate) L1)
      (all_cons _ _ _ _ _ (outputs_lines (two_operands "add2w" (Some "C"%char) 0 (Some "C"%char) 2) _ _ eq_refl ltac:(discriminate) L2)
        (outputs_carry_lines false a [REG DImode a; REG DImode a; REG DImode c] (proj1 Ha) eq_refl))).
  - intros v Hv. destruct (add_quad_sum a c v Hv Ha Hc Hn) as [E1 E2]. split; [exact E1|].
    intros k Hk. change (GET_MODE_SIZE DImode / 2) with 4 in Hk. cbn [regno_of] in Hk. apply E2. lia.
Qed.
Lemma quad_constant_sum a n : quad_register a -> 0 <= n < 2 ^ 16 ->
  computes (sum_text [REG DImode a; REG DImode a; CONST_INT n]) DImode (REG DImode a) (fun v => quad_of (r_gpr v) a + n).
Proof.
  intros Ha Hn. set (operands := [REG DImode a; REG DImode a; CONST_INT n]). pose proof (proj1 Ha) as Hr.
  assert (prints operands (Some "D"%char) 0 (reg_name (a + 3))) as P0 by (eapply prints_word; [reflexivity|lia|simpl; tauto]).
  eapply (sum_output _ (add_lowest n a a ++ add_carries true)).
  - unfold operands. emit_sum. rewrite (quad_gpr a Ha), Z.eqb_refl. change (GPR_P (-1)) with false. cbv iota.
    rewrite (proj2 (Z.leb_le 0 n)) by lia. reflexivity.
  - unfold add_lowest. rewrite Z.eqb_refl, andb_true_r. destruct (IN_RANGE_P n 1 16) eqn:Er.
    + cbn [app]. refine (all_cons _ _ _ _ _ _ (outputs_carry_lines true a operands Hr eq_refl)).
      apply (outputs_lines (two_operands "addi" (Some "D"%char) 0 None 2)); [reflexivity|discriminate|].
      assert (1 <= n <= 16) by (unfold IN_RANGE_P, u32 in Er; apply Z.leb_le in Er; zdml).
      eapply line_two; [exact P0|apply prints_number; reflexivity|]. apply addi_text; lia.
    + cbn [andb app]. refine (all_cons _ _ _ _ _ _ (outputs_carry_lines true a operands Hr eq_refl)).
      apply (outputs_lines [Text "add3 "; Operand (Some "D"%char) 0; Text ","; Operand (Some "D"%char) 1; Text ","; Operand None 2]); [reflexivity|discriminate|].
      exists ("add3" +:+ " " +:+ reg_name (a + 3) +:+ "," +:+ reg_name (a + 3) +:+ "," +:+ percent_d n). split.
      * destruct P0 as (x & Ex & Ox). injection Ex as <-. cbn [render]. cbn -[percent_d output_operand]. rewrite Ox. cbn -[percent_d]. by rewrite append_nil.
      * eapply compiles_like; [|apply (line_compiles _ false); apply (add3_text (a + 3) (a + 3) n); lia].
        intros v _. cbv beta. rewrite (Z.mod_small n) by lia. apply like_refl.
  - intros v Hv. destruct (add_word_quad_sum a n v Hv Ha Hn) as [E1 E2]. split; [exact E1|].
    intros k Hk. change (GET_MODE_SIZE DImode / 2) with 4 in Hk. cbn [regno_of] in Hk. apply E2. lia.
Qed.

(** ** Differences *)

Lemma difference_output operands t f mode op0 x : emit_subtract operands = Some t -> outputs t operands f ->
  (forall v, good v -> value mode (f v) op0 = x v mod 2 ^ width mode /\
    forall k, k < regno_of op0 \/ regno_of op0 + GET_MODE_SIZE mode / 2 <= k -> r_gpr (f v) k = r_gpr v k) ->
  computes (difference_text operands) mode op0 x.
Proof. intros E (text & Ho & Hc) Hx. exists text, f. unfold difference_text. rewrite E. split; [exact Ho|split; [exact Hc|exact Hx]]. Qed.
Lemma pair_difference a c : pair_register a -> pair_register c ->
  computes (difference_text [REG SImode a; REG SImode a; REG SImode c]) SImode (REG SImode a) (fun v => pair_of (r_gpr v) a - pair_of (r_gpr v) c).
Proof.
  intros Ha Hc. apply (difference_output _ "sub2w %0,%2" (sub_pair (a + 0) (c + 0))).
  - emit_sum. rewrite (pair_gpr a Ha), (pair_gpr c Hc), Z.eqb_refl. reflexivity.
  - apply (outputs_lines (two_operands "sub2w" None 0 None 2)); [reflexivity|discriminate|].
    exact (proj2 (outputs_add_pair None None 0 2 [REG SImode a; REG SImode a; REG SImode c] _ _ a c eq_refl eq_refl (or_introl (conj eq_refl eq_refl))
      eq_refl ltac:(lia) eq_refl Ha Hc ltac:(rewrite Z.add_0_r; exact Ha) ltac:(rewrite Z.add_0_r; exact Hc))).
  - intros v Hv. rewrite !Z.add_0_r. destruct (sub_pair_pairs a c v) as (P1 & _ & P3). split; [exact P1|].
    intros k Hk. change (GET_MODE_SIZE SImode / 2) with 2 in Hk. cbn [regno_of] in Hk. apply P3; lia.
Qed.
Lemma quad_difference a c : quad_register a -> quad_register c -> c + 2 <> a ->
  computes (difference_text [REG DImode a; REG DImode a; REG DImode c]) DImode (REG DImode a) (fun v => quad_of (r_gpr v) a - quad_of (r_gpr v) c).
Proof.
  intros Ha Hc Hn. set (operands := [REG DImode a; REG DImode a; REG DImode c]). pose proof (proj1 Ha) as Hr.
  destruct (quad_operations a c operands Ha Hc eq_refl eq_refl) as [[_ L1] [_ L2]].
  assert (lines_do (against "exef0f || subi" "B" 1) operands (drop1 (a + 1))) as LB by (eapply lines_drop; [reflexivity|lia|lia|simpl; tauto]).
  assert (lines_do (against "exef0f || subi" "A" 1) operands (drop1 a)) as LA
    by (rewrite <- (Z.add_0_r a); eapply lines_drop; [reflexivity|lia|lia|simpl; tauto]).
  eapply (difference_output _ (template (two_operands "sub2w" (Some "A"%char) 0 (Some "A"%char) 2 ++ Text nl ::
    (two_operands "sub2w" (Some "C"%char) 0 (Some "C"%char) 2 ++ Text nl :: ([Text "cpfg f0,c"] ++ Text nl ::
    (against "exef0f || subi" "B" 1 ++ Text nl :: ([Text "cpfg f0,c || exef0f"] ++ Text nl :: against "exef0f || subi" "A" 1))))))).
  - unfold operands. emit_sum. rewrite (quad_gpr a Ha), (quad_gpr c Hc), Z.eqb_refl. reflexivity.
  - apply outputs_lines; [reflexivity|discriminate|].
    exact (lines_app _ _ _ _ _ L1 (lines_app _ _ _ _ _ L2 (lines_app _ _ _ _ _ (lines_copy operands)
      (lines_app _ _ _ _ _ LB (lines_app _ _ _ _ _ (lines_recopy false operands) LA))))).
  - intros v Hv. destruct (sub_quad_difference a c v Hv Ha Hc Hn) as [E1 E2]. split; [exact E1|].
    intros k Hk. change (GET_MODE_SIZE DImode / 2) with 4 in Hk. cbn [regno_of] in Hk. apply E2. lia.
Qed.

(** ** The theorems *)

Lemma computes_value text mode op0 x y : computes text mode op0 x -> (forall v, x v mod 2 ^ width mode = y v mod 2 ^ width mode) -> computes text mode op0 y.
Proof. intros (t & f & E & C & Hx) Hy. exists t, f. split; [exact E|split; [exact C|]]. intros v Hv. rewrite <- Hy. by apply Hx. Qed.
Lemma mod_sum x n w : (x + n) mod 2 ^ w = (x + n mod 2 ^ w) mod 2 ^ w.
Proof. by rewrite Zplus_mod_idemp_r. Qed.
(** C10: Sums of the compiler's 32-bit and 64-bit values in general registers.  The text of
    [emit_add] (a pair of registers, or four, and another one, or a constant) is assembled
    to code that runs to its end from every state and leaves the sum of the operands' values
    modulo 2^32 or 2^64 in the destination, with the carries of the words going all the way
    up; the other general registers and memory keep their values.  A second operand of four
    registers may be the destination itself, but must not end with its first two. *)
Theorem sum_compiled mode op0 op1 op2 : addable mode op0 op1 op2 ->
  exists text f, sum_text [op0; op1; op2] = Some text /\ compiles text f /\
    forall v, good v ->
      value mode (f v) op0 = (value mode v op1 + value mode v op2) mod 2 ^ width mode /\
      forall k, k < regno_of op0 \/ regno_of op0 + GET_MODE_SIZE mode / 2 <= k -> r_gpr (f v) k = r_gpr v k.
Proof.
  intros Ho. change (computes (sum_text [op0; op1; op2]) mode op0 (fun v => value mode v op1 + value mode v op2)).
  destruct mode; try done; destruct op0 as [[] a| | | | | | | | | | | | | ]; try done; destruct op1 as [[] b| | | | | | | | | | | | | ]; try done;
    destruct op2 as [[] c| | |n| | | | | | | | | | ]; try done; cbn [addable] in Ho.
  - destruct Ho as (<- & Ha & Hc). by apply pair_sum.
  - destruct Ho as (Ha & Hb & [[Hab Hn]|[<- Hn]]).
    + eapply computes_value; [by apply (pair_load_sum a b n)|]. intros v. change (value SImode v _) with (pair_of (r_gpr v) b) at 1.
      apply mod_sum.
    + eapply computes_value; [by apply (pair_constant_sum a n)|]. intros v. change (value SImode v _) with (pair_of (r_gpr v) a) at 1.
      apply mod_sum.
  - destruct Ho as (<- & Ha & Hc & Hn). by apply quad_sum.
  - destruct Ho as (<- & Ha & Hn). eapply computes_value; [by apply (quad_constant_sum a n)|]. intros v. change (value DImode v _) with (quad_of (r_gpr v) a) at 1.
    apply mod_sum.
Qed.
(** The operands of a difference in general registers *)
Definition subtractable (mode : machine_mode) (op0 op1 op2 : rtx) : Prop :=
  match mode, op0, op1, op2 with
  | SImode, REG SImode a, REG SImode b, REG SImode c => a = b /\ pair_register a /\ pair_register c
  | DImode, REG DImode a, REG DImode b, REG DImode c => a = b /\ quad_register a /\ quad_register c /\ c + 2 <> a
  | _, _, _, _ => False
  end.
End Sums.

(** A carry out of the lowest word that goes all the way up, and a borrow *)
Definition brimming : regs := Regs (fun k => if k <? 4 then 0xffff else 1) false false false.
Lemma brimming_good : good brimming.
Proof. intros k Hk. cbn. destruct (k <? 4); lia. Qed.
Lemma sum_compiled_witness : exists text f, @sum_text plain_compiler [REG DImode 0; REG DImode 0; REG DImode 4] = Some text /\
  @compiles plain_host GccSpec.decimal_gas text f /\ value DImode (f brimming) (REG DImode 0) = 0x0001000100010000.
Proof.
  destruct (@sum_compiled plain_host GccSpec.decimal_gas GccSpec.decimal_gas_laws plain_compiler DImode (REG DImode 0) (REG DImode 0) (REG DImode 4))
    as (text & f & Et & Hc & Hf); [repeat split; discriminate|].
  exists text, f. split; [exact Et|split; [exact Hc|]]. destruct (Hf brimming brimming_good) as [-> _]. vm_compute. reflexivity.
Defined.
