(* ===== verification/Moves.v ===== *)
(** * Moves, compiled

    [emit_move_word], [emit_move_2words] and [emit_move_4words] of gcc/config/d10v/d10v.c
    between general registers and from constants: the text, assembled and run, copies the
    value, also when the registers of the two operands overlap. *)
From S2P Require Import Prelude CInt Opcodes State Machine NumSpec Words Insns.
From S2P Require Import Asm AsmSpec Gcc GccText RegFile InsnText Mnemonics Rtl Templates Lines.
From S2P Require GccSpec.
From Stdlib Require Import Ascii.
#[local] Open Scope string_scope.
#[local] Open Scope list_scope.
#[local] Open Scope Z_scope.

(** The operands of a move *)
Definition movable (mode : machine_mode) (op0 op1 : rtx) : Prop :=
  match mode, op0, op1 with
  | HImode, REG HImode a, REG HImode b => word_register a /\ word_register b
  | HImode, REG HImode a, CONST_INT n => word_register a /\ - 2 ^ 31 <= n < 2 ^ 31
  | SImode, REG SImode a, REG SImode b => pair_register a /\ pair_register b
  | DImode, REG DImode a, REG DImode b => quad_register a /\ quad_register b
  | DImode, REG DImode a, CONST_INT n => quad_register a /\ - 2 ^ 31 <= n < 2 ^ 31
  | _, _, _ => False
  end.

Section Moves.
Context `{Host} `{GasLaws} `{Compiler}.

(** The text of a move, by the mode *)
Definition move_text (mode : machine_mode) (op0 op1 tmp_si tmp_hi : rtx) : option string :=
  t ← match mode with
      | HImode => emit_move_word op0 op1
      | SImode => emit_move_2words op0 op1
      | DImode => emit_move_4words op0 op1 tmp_si tmp_hi
      | _ => None
      end;
  output_asm_insn t [op0; op1; tmp_si; tmp_hi].
(** The text copies [op1] to [op0]. *)
Definition copies (text : option string) (mode : machine_mode) (op0 op1 : rtx) : Prop :=
  exists t f, text = Some t /\ compiles t f /\ forall v, good v ->
    value mode (f v) op0 = value mode v op1 /\
    forall k, k < regno_of op0 \/ regno_of op0 + GET_MODE_SIZE mode / 2 <= k -> r_gpr (f v) k = r_gpr v k.

Lemma set_reg_same d x v : r_gpr (set_reg d x v) d = x.
Proof. cbn. unfold RegFile.put. by rewrite Z.eqb_refl. Qed.
Lemma set_reg_other d x v k : k <> d -> r_gpr (set_reg d x v) k = r_gpr v k.
Proof. intros Hk. cbn. unfold RegFile.put. by rewrite (proj2 (Z.eqb_neq k d)). Qed.

(** ** One word *)

Lemma word_copied a b t1 t2 : word_register a -> word_register b ->
  copies (move_text HImode (REG HImode a) (REG HImode b) t1 t2) HImode (REG HImode a) (REG HImode b).
Proof.
  unfold word_register. intros Ha Hb. destruct (outputs_lines (two_operands "mv" None 0 None 1) [REG HImode a; REG HImode b; t1; t2] (fun v => set_reg a (r_gpr v b) v))
    as (text & Ho & Hc); [reflexivity|discriminate|eapply line_two; [by eapply prints_gpr|by eapply prints_gpr|by apply mv_text]|].
  exists text. eexists. split; [|split; [exact Hc|]].
  - unfold move_text, emit_move_word.
    assert (GPR_P a = true /\ GPR_P b = true) as [-> ->] by (split; [clear - Ha; each_below a 16%nat|clear - Hb; each_below b 16%nat]; reflexivity).
    exact Ho.
  - intros v _. split; [apply set_reg_same|]. intros k Hk. change (GET_MODE_SIZE HImode / 2) with 1 in Hk. cbn [regno_of] in Hk. apply set_reg_other. lia.
Qed.
(** The shift of a constant *)
Lemma shift_loop_spec n : forall i value, 0 <= i -> - 2 ^ 31 <= value < 2 ^ 31 -> let k := shift_loop n i value in
  k = 0 \/ (i <= k < i + Z.of_nat n /\ s32 (Z.shiftl (Z.shiftr value k) k) = value /\ -8 <= Z.shiftr value k < 8).
Proof.
  induction n as [|n IH]; intros i value Hi Hv; [by left|]. cbn [shift_loop].
  destruct (_ && _) eqn:E.
  - apply andb_prop in E as [E1%Z.eqb_eq E2]. right. split; [lia|split; [exact E1|]].
    assert (- 2 ^ 31 <= Z.shiftr value i < 2 ^ 31) as Hr.
    { rewrite Z.shiftr_div_pow2 by lia. assert (0 < 2 ^ i) by (apply Z.pow_pos_nonneg; lia).
      split; [apply Z.div_le_lower_bound; nia|apply Z.div_lt_upper_bound; nia]. }
    unfold IN_RANGE_P, u32 in E2. apply Z.leb_le in E2. zdml.
  - destruct (IH (i + 1) value ltac:(lia) Hv) as [IH0|(IH1 & IH2 & IH3)]; [by left|right]. split; [lia|by split].
Qed.
Lemma shift_value value k : 0 <= k -> s32 (Z.shiftl (Z.shiftr value k) k) = value -> (Z.shiftr value k mod 2 ^ 16 * 2 ^ k) mod 2 ^ 16 = value mod 2 ^ 16.
Proof.
  intros Hk E. rewrite Z.mul_mod_idemp_l by lia. rewrite <- Z.shiftl_mul_pow2 by done. set (x := Z.shiftl _ _) in *.
  rewrite <- E. unfold s32, wrap_signed. zdml.
Qed.
Lemma word_loaded a n t1 t2 : word_register a -> - 2 ^ 31 <= n < 2 ^ 31 ->
  copies (move_text HImode (REG HImode a) (CONST_INT n) t1 t2) HImode (REG HImode a) (CONST_INT n).
Proof.
  unfold word_register. intros Ha Hn. set (operands := [REG HImode a; CONST_INT n; t1; t2]).
  assert (GPR_P a = true) as Ga by (clear - Ha; each_below a 16%nat; reflexivity).
  assert (ldi_shift_operand (CONST_INT n) = 0 \/ (1 <= ldi_shift_operand (CONST_INT n) < 16 /\
    s32 (Z.shiftl (Z.shiftr n (ldi_shift_operand (CONST_INT n))) (ldi_shift_operand (CONST_INT n))) = n /\
    -8 <= Z.shiftr n (ldi_shift_operand (CONST_INT n)) < 8)) as Hk.
  { unfold ldi_shift_operand. destruct (_ && _); [|by left]. destruct (IN_RANGE_P n (-8) 7); [by left|].
    exact (shift_loop_spec 15 1 n ltac:(lia) Hn). }
  set (k := ldi_shift_operand (CONST_INT n)) in *.
  assert (prints operands None 0 (reg_name a)) as P0 by (by eapply prints_gpr).
  destruct Hk as [Hk|(Hk & Es & Er)].
  - destruct (outputs_lines (two_operands "ldi" None 0 None 1) operands (set_reg a (n mod 2 ^ 16)))
      as (text & Ho & Hc); [reflexivity|discriminate|eapply line_two; [exact P0|by apply prints_number|by apply ldi_text]|].
    exists text. eexists. split; [|split; [exact Hc|]].
    + unfold move_text, emit_move_word. cbn [reg_where is_mem is_zero is_const_int]. rewrite Ga. fold k. rewrite Hk. exact Ho.
    + intros v _. split; [apply set_reg_same|]. intros j Hj. change (GET_MODE_SIZE HImode / 2) with 1 in Hj. cbn [regno_of] in Hj. apply set_reg_other. lia.
  - assert (prints operands (Some "s"%char) 1 (percent_d (Z.shiftr n k)) /\ prints operands (Some "S"%char) 1 (percent_d k)) as [Ps PS].
    { assert ((0 <? k) = true) as Hpos by (apply Z.ltb_lt; lia).
      split; (exists (CONST_INT n); split; [reflexivity|]); unfold output_operand, print_operand; cbn [mbind option_bind]; fold k; by rewrite Hpos. }
    destruct (outputs_lines (two_operands "ldi" None 0 (Some "s"%char) 1 ++ Text nl :: two_operands "slli" None 0 (Some "S"%char) 1) operands
      (fun v => set_reg a ((r_gpr (set_reg a (Z.shiftr n k mod 2 ^ 16) v) a * 2 ^ k) mod 2 ^ 16) (set_reg a (Z.shiftr n k mod 2 ^ 16) v)))
      as (text & Ho & Hc); [reflexivity|discriminate|apply (lines_app _ _ _ (set_reg a (Z.shiftr n k mod 2 ^ 16))
        (fun v => set_reg a ((r_gpr v a * 2 ^ k) mod 2 ^ 16) v))|].
    { eapply line_two; [exact P0|exact Ps|apply ldi_text; lia]. }
    { eapply line_two; [exact P0|exact PS|apply slli_text; lia]. }
    exists text. eexists. split; [|split; [exact Hc|]].
    + unfold move_text, emit_move_word. cbn [reg_where is_mem is_zero is_const_int]. rewrite Ga. fold k.
      replace (truth k) with true by (unfold truth; by rewrite (proj2 (Z.eqb_neq k 0)) by lia). exact Ho.
    + intros v _. split.
      * change (value HImode ?v (REG HImode a)) with (r_gpr v a). change (value HImode ?v (CONST_INT n)) with (n mod 2 ^ 16).
        rewrite !set_reg_same. by apply shift_value; [lia|].
      * intros j Hj. change (GET_MODE_SIZE HImode / 2) with 1 in Hj. cbn [regno_of] in Hj. rewrite !set_reg_other by lia. done.
Qed.

(** ** Two and four words *)

Definition copy_pair (a b : Z) (v : regs) : regs :=
  Regs (RegFile.put (a + 1) (r_gpr v (b + 1)) (RegFile.put a (r_gpr v b) (r_gpr v))) (r_f0 v) (r_f1 v) (r_c v).
Lemma copy_pair_words a b v : r_gpr (copy_pair a b v) a = r_gpr v b /\ r_gpr (copy_pair a b v) (a + 1) = r_gpr v (b + 1) /\
  forall k, k <> a -> k <> a + 1 -> r_gpr (copy_pair a b v) k = r_gpr v k.
Proof.
  cbn [copy_pair r_gpr]. unfold RegFile.put. rewrite !Z.eqb_refl, (proj2 (Z.eqb_neq a (a + 1))) by lia. split; [done|split; [done|]].
  intros k H1' H2'. by rewrite (proj2 (Z.eqb_neq k (a + 1))), (proj2 (Z.eqb_neq k a)).
Qed.
Lemma line_copy_pair l w operands m a b : operands !! 0%nat = Some (REG m a) -> operands !! 1%nat = Some (REG m b) ->
  (l = None /\ w = 0 \/ exists c, l = Some c /\ In (c, w) [("U"%char, 0); ("L"%char, 1); ("A"%char, 0); ("B"%char, 1); ("C"%char, 2); ("D"%char, 3)]) ->
  0 <= a < 16 -> 0 <= b < 16 -> pair_register (a + w) -> pair_register (b + w) ->
  lines_do (two_operands "mv2w" l 0 l 1) operands (copy_pair (a + w) (b + w)).
Proof.
  intros E0 E1 Hl Ha Hb [Ha' Ea] [Hb' Eb].
  assert (prints operands l 0 (reg_name (a + w)) /\ prints operands l 1 (reg_name (b + w))) as [P0 P1].
  { destruct Hl as [[-> ->]|(c & -> & Hc)]; [rewrite !Z.add_0_r; split; by eapply prints_gpr|split; by eapply prints_word]. }
  eapply line_two; [exact P0|exact P1|]. by apply mv2w_text.
Qed.
Lemma pair_copied a b t1 t2 : pair_register a -> pair_register b ->
  copies (move_text SImode (REG SImode a) (REG SImode b) t1 t2) SImode (REG SImode a) (REG SImode b).
Proof.
  intros Ha Hb. pose proof (proj1 Ha). pose proof (proj1 Hb).
  destruct (outputs_lines (two_operands "mv2w" None 0 None 1) [REG SImode a; REG SImode b; t1; t2] (copy_pair (a + 0) (b + 0)))
    as (text & Ho & Hc); [reflexivity|discriminate| |].
  { eapply line_copy_pair; [reflexivity|reflexivity|by left|lia|lia|by rewrite Z.add_0_r|by rewrite Z.add_0_r]. }
  exists text. eexists. split; [|split; [exact Hc|]].
  - unfold move_text, emit_move_2words.
    assert (GPR_P a = true /\ GPR_P b = true) as [-> ->]
      by (split; [generalize dependent a|generalize dependent b]; clear; intros r Hr Hr'; each_below r 15%nat; reflexivity).
    exact Ho.
  - intros v _. rewrite !Z.add_0_r. destruct (copy_pair_words a b v) as (E0 & E1 & E2). split.
    + change (pair_of (r_gpr (copy_pair a b v)) a = pair_of (r_gpr v) b). unfold pair_of. by rewrite E0, E1.
    + intros k Hk. change (GET_MODE_SIZE SImode / 2) with 2 in Hk. cbn [regno_of] in Hk. apply E2; lia.
Qed.
(** The two pairs in the order in which the first move does not destroy the second source *)
Lemma quad_moved (low : bool) a b v : quad_register a -> quad_register b -> (if low then b <> a + 2 else a <> b + 2) ->
  let f := if low then fun v => copy_pair a b (copy_pair (a + 2) (b + 2) v) else fun v => copy_pair (a + 2) (b + 2) (copy_pair a b v) in
  quad_of (r_gpr (f v)) a = quad_of (r_gpr v) b /\ forall k, k < a \/ a + 3 < k -> r_gpr (f v) k = r_gpr v k.
Proof.
  intros [Ha Ea] [Hb Eb] Hn f.
  assert (forall x, Z.land x 1 = 0 -> x mod 2 = 0) as He by (intros x; change 1 with (Z.ones 1); by rewrite land_ones_mod by lia).
  apply He in Ea, Eb.
  unfold f. destruct low; unfold quad_of, pair_of.
  - destruct (copy_pair_words (a + 2) (b + 2) v) as (P0 & P1 & P2). set (v1 := copy_pair (a + 2) (b + 2) v) in *.
    destruct (copy_pair_words a b v1) as (Q0 & Q1 & Q2). rewrite Q0, Q1, !Q2, P0, P1 by lia. split.
    + assert (r_gpr v1 b = r_gpr v b /\ r_gpr v1 (b + 1) = r_gpr v (b + 1)) as [-> ->]; [|done]. split; apply P2; zdml.
    + intros k Hk. rewrite Q2, P2 by lia. done.
  - destruct (copy_pair_words a b v) as (P0 & P1 & P2). set (v1 := copy_pair a b v) in *.
    destruct (copy_pair_words (a + 2) (b + 2) v1) as (Q0 & Q1 & Q2). rewrite Q0, Q1, !Q2, P0, P1 by lia. split.
    + assert (r_gpr v1 (b + 2) = r_gpr v (b + 2) /\ r_gpr v1 (b + 2 + 1) = r_gpr v (b + 2 + 1)) as [-> ->]; [|done]. split; apply P2; zdml.
    + intros k Hk. rewrite Q2, P2 by lia. done.
Qed.

Lemma quad_even a : quad_register a -> 0 <= a < 16 /\ GPR_P a = true /\ pair_register (a + 0) /\ pair_register (a + 2).
Proof.
  intros [Ha Ea]. split; [lia|]. assert (Z.land (a + 2) 1 = 0) by (revert Ea; change 1 with (Z.ones 1); rewrite !land_ones_mod by lia; zdml).
  split; [clear - Ha; each_below a 13%nat; reflexivity|]. rewrite Z.add_0_r. split; split; first [assumption | lia].
Qed.
Lemma quad_copied a b t1 t2 : quad_register a -> quad_register b ->
  copies (move_text DImode (REG DImode a) (REG DImode b) t1 t2) DImode (REG DImode a) (REG DImode b).
Proof.
  intros Ha Hb. destruct (quad_even a Ha) as (Ra & Ga & A0 & A2), (quad_even b Hb) as (Rb & Gb & B0 & B2).
  set (operands := [REG DImode a; REG DImode b; t1; t2]).
  assert (lines_do (two_operands "mv2w" (Some "A"%char) 0 (Some "A"%char) 1) operands (copy_pair a b)) as LA.
  { rewrite <- (Z.add_0_r a), <- (Z.add_0_r b). eapply line_copy_pair; [reflexivity|reflexivity|right; exists "A"%char; simpl; tauto|lia|lia|exact A0|exact B0]. }
  assert (lines_do (two_operands "mv2w" (Some "C"%char) 0 (Some "C"%char) 1) operands (copy_pair (a + 2) (b + 2))) as LC.
  { eapply line_copy_pair; [reflexivity|reflexivity|right; exists "C"%char; simpl; tauto|lia|lia|exact A2|exact B2]. }
  assert (emit_move_4words (REG DImode a) (REG DImode b) t1 t2 = Some (if a =? b + 2 then "mv2w %C0,%C1" +:+ nl +:+ "mv2w %A0,%A1"
    else "mv2w %A0,%A1" +:+ nl +:+ "mv2w %C0,%C1")) as Et.
  { unfold emit_move_4words. cbn [reg_where regno_of]. rewrite Ga, Gb. cbn [andb]. by destruct (refers_to_regno_p _ _ _). }
  unfold move_text. rewrite Et. change (Some ?x ≫= ?f) with (f x). cbv beta. destruct (Z.eqb_spec a (b + 2)) as [Hab|Hab].
  - destruct (outputs_lines (two_operands "mv2w" (Some "C"%char) 0 (Some "C"%char) 1 ++ Text nl :: two_operands "mv2w" (Some "A"%char) 0 (Some "A"%char) 1)
      operands (fun v => copy_pair a b (copy_pair (a + 2) (b + 2) v)) eq_refl ltac:(discriminate) (lines_app _ _ _ _ _ LC LA)) as (text & Ho & Hc).
    exists text. eexists. split; [exact Ho|split; [exact Hc|]]. intros v _.
    destruct (quad_moved true a b v Ha Hb ltac:(cbv iota; lia)) as [E1 E2]. split; [exact E1|].
    intros k Hk. change (GET_MODE_SIZE DImode / 2) with 4 in Hk. cbn [regno_of] in Hk. apply E2. lia.
  - destruct (outputs_lines (two_operands "mv2w" (Some "A"%char) 0 (Some "A"%char) 1 ++ Text nl :: two_operands "mv2w" (Some "C"%char) 0 (Some "C"%char) 1)
      operands (fun v => copy_pair (a + 2) (b + 2) (copy_pair a b v)) eq_refl ltac:(discriminate) (lines_app _ _ _ _ _ LA LC)) as (text & Ho & Hc).
    exists text. eexists. split; [exact Ho|split; [exact Hc|]]. intros v _.
    destruct (quad_moved false a b v Ha Hb Hab) as [E1 E2]. split; [exact E1|].
    intros k Hk. change (GET_MODE_SIZE DImode / 2) with 4 in Hk. cbn [regno_of] in Hk. apply E2. lia.
Qed.

(** The words of a constant of 64 bits *)
Definition quarter (n w : Z) : Z := nth (Z.to_nat w) ((if n <? 0 then [-1; -1] else [0; 0]) ++ [s16 (Z.shiftr n 16); s16 n]) 0.
Lemma prints_quarter operands k n c w : operands !! k = Some (CONST_INT n) ->
  In (c, w) [("A"%char, 0); ("B"%char, 1); ("C"%char, 2); ("D"%char, 3)] -> prints operands (Some c) k (percent_d (quarter n w)).
Proof.
  intros E Hc. exists (CONST_INT n). split; [exact E|].
  assert (forall x, SIGN_EXTEND_SHORT x = s16 x) as Hs by exact SIGN_EXTEND_SHORT_wrap.
  unfold quarter. rewrite <- !Hs. repeat (destruct Hc as [[= <- <-]|Hc]; [reflexivity|]). destruct Hc.
Qed.
Lemma quarter_range n w : - 2 ^ 31 <= quarter n w < 2 ^ 31.
Proof.
  assert (forall x, - 2 ^ 31 <= s16 x < 2 ^ 31) as Hs by (intros x; pose proof (wrap_signed_range 16 x ltac:(lia)); unfold s16; lia).
  unfold quarter. destruct (n <? 0); cbn [app]; destruct (Z.to_nat w) as [|[|[|[|[]]]]]; cbn [nth]; first [apply Hs | lia].
Qed.
Lemma quarters_value n : - 2 ^ 31 <= n < 2 ^ 31 ->
  (quarter n 0 mod 2 ^ 16 * 2 ^ 16 + quarter n 1 mod 2 ^ 16) * 2 ^ 32 + (quarter n 2 mod 2 ^ 16 * 2 ^ 16 + quarter n 3 mod 2 ^ 16) = n mod 2 ^ 64.
Proof.
  intros Hn. unfold quarter. change (Z.to_nat 0) with 0%nat. change (Z.to_nat 1) with 1%nat. change (Z.to_nat 2) with 2%nat.
  change (Z.to_nat 3) with 3%nat. rewrite Z.shiftr_div_pow2 by lia.
  destruct (Z.ltb_spec n 0); cbn [app nth]; unfold s16; rewrite ?wrap_signed_mod by lia; zdml.
Qed.
Lemma quad_loaded a n t1 t2 : quad_register a -> - 2 ^ 31 <= n < 2 ^ 31 ->
  copies (move_text DImode (REG DImode a) (CONST_INT n) t1 t2) DImode (REG DImode a) (CONST_INT n).
Proof.
  intros Ha Hn. destruct (quad_even a Ha) as (Ra & Ga & _). pose proof (proj1 Ha).
  set (operands := [REG DImode a; CONST_INT n; t1; t2]). set (q w := quarter n w mod 2 ^ 16).
  assert (forall c w, In (c, w) [("A"%char, 0); ("B"%char, 1); ("C"%char, 2); ("D"%char, 3)] ->
    lines_do (two_operands "ldi" (Some c) 0 (Some c) 1) operands (set_reg (a + w) (q w))) as L.
  { intros c w Hc. assert (0 <= w <= 3) by (repeat (destruct Hc as [[= _ <-]|Hc]; [lia|]); destruct Hc).
    eapply line_two; [eapply (prints_word _ 0 DImode a c w); [reflexivity|lia|simpl in *; tauto]|
      by eapply prints_quarter|apply ldi_text; [lia|apply quarter_range]]. }
  pose proof (lines_app _ _ _ _ _ (L "A"%char 0 ltac:(simpl; tauto)) (lines_app _ _ _ _ _ (L "B"%char 1 ltac:(simpl; tauto))
    (lines_app _ _ _ _ _ (L "C"%char 2 ltac:(simpl; tauto)) (L "D"%char 3 ltac:(simpl; tauto))))) as Lall.
  destruct ((fun Hp Hne => outputs_lines _ _ _ Hp Hne Lall) eq_refl ltac:(discriminate)) as (text & Ho & Hc).
  exists text. eexists. split; [|split; [exact Hc|]].
  - unfold move_text, emit_move_4words. cbn [reg_where refers_to_regno_p is_mem is_number]. rewrite Ga. exact Ho.
  - intros v _. rewrite Z.add_0_r. split.
    + change (value DImode v (CONST_INT n)) with (n mod 2 ^ 64). rewrite <- quarters_value by done.
      change (value DImode ?v (REG DImode a)) with (quad_of (r_gpr v) a). unfold quad_of, pair_of. replace (a + 2 + 1) with (a + 3) by lia.
      rewrite set_reg_same, !(set_reg_other (a + 3)), set_reg_same, !(set_reg_other (a + 2)), set_reg_same, (set_reg_other (a + 1)), set_reg_same by lia. done.
    + intros k Hk. change (GET_MODE_SIZE DImode / 2) with 4 in Hk. cbn [regno_of] in Hk. rewrite !set_reg_other by lia. done.
Qed.

(** C11: The compiler's moves of 16, 32 and 64 bits between general registers, and of
    constants: the text of [emit_move_word], [emit_move_2words] and [emit_move_4words],
    assembled and run, leaves the value of the source in the destination and the other
    general registers as they were.  The registers may overlap: four words are copied in the
    order that the overlap needs.  A constant may be made with a shift. *)
Theorem move_compiled mode op0 op1 tmp_si tmp_hi : movable mode op0 op1 ->
  exists text f, move_text mode op0 op1 tmp_si tmp_hi = Some text /\ compiles text f /\
    forall v, good v ->
      value mode (f v) op0 = value mode v op1 /\
      forall k, k < regno_of op0 \/ regno_of op0 + GET_MODE_SIZE mode / 2 <= k -> r_gpr (f v) k = r_gpr v k.
Proof.
  intros Ho. change (copies (move_text mode op0 op1 tmp_si tmp_hi) mode op0 op1).
  destruct mode, op0 as [[] a| | | | | | | | | | | | | ]; try done; destruct op1 as [[] b| | |n| | | | | | | | | | ]; try done;
    destruct Ho; [by apply word_copied|by apply word_loaded|by apply pair_copied|by apply quad_copied|by apply quad_loaded].
Qed.
End Moves.

(** Four registers to ones that overlap them *)
Lemma move_compiled_witness : exists text f, @move_text plain_compiler DImode (REG DImode 4) (REG DImode 2) (CONST_INT 0) (CONST_INT 0) = Some text /\
  @compiles plain_host GccSpec.decimal_gas text f /\ value DImode (f counting) (REG DImode 4) = 0x0002000300040005.
Proof.
  destruct (@move_compiled plain_host GccSpec.decimal_gas GccSpec.decimal_gas_laws plain_compiler DImode (REG DImode 4) (REG DImode 2) (CONST_INT 0) (CONST_INT 0))
    as (text & f & Et & Hc & Hf); [repeat split; discriminate|].
  exists text, f. split; [exact Et|split; [exact Hc|]]. destruct (Hf counting counting_good) as [-> _]. vm_compute. reflexivity.
Defined.
