(* ===== verification/Conditional.v ===== *)
(** * Conditional expressions, compiled

    [expand_comparison] and [emit_cond_move] of gcc/config/d10v/d10v.c: a comparison and the
    conditional move after it give one of two values, as the condition says. *)
From S2P Require Import Prelude CInt Opcodes State Machine NumSpec Words Insns.
From S2P Require Import Asm AsmSpec Gcc GccText RegFile InsnText Mnemonics Rtl Templates Lines Compare.
From S2P Require GccSpec.
From Stdlib Require Import Ascii.
#[local] Open Scope string_scope.
#[local] Open Scope list_scope.
#[local] Open Scope Z_scope.

(** The values of a conditional move to the register [d]: registers, and constants, which
    have to fit four bits when they are loaded after the test *)
Definition selectable (mode : machine_mode) (d : Z) (x y : rtx) : Prop :=
  match mode, x, y with
  | HImode, REG HImode r, REG HImode s => word_register d /\ word_register r /\ word_register s
  | HImode, REG HImode r, CONST_INT n | HImode, CONST_INT n, REG HImode r =>
      word_register d /\ word_register r /\ - 2 ^ 31 <= n < 2 ^ 31 /\ (r = d -> -8 <= n < 8)
  | HImode, CONST_INT n, CONST_INT k => word_register d /\ -8 <= n < 8 /\ -8 <= k < 8
  | SImode, REG SImode r, REG SImode s => pair_register d /\ pair_register r /\ pair_register s
  | _, _, _ => False
  end.
Lemma selectable_swap mode d x y : selectable mode d x y -> selectable mode d y x.
Proof. destruct mode, x as [[]| | | | | | | | | | | | | ], y as [[]| | | | | | | | | | | | | ]; cbn; tauto. Qed.

Section Conditional.
Context `{Host} `{GasLaws} `{Compiler}.

(** The value [x], in the register [d] when [c] holds *)
Definition moves_when (text : option string) (set : bool) (mode : machine_mode) (d : Z) (x : rtx) : Prop :=
  exists t f, text = Some t /\ compiles t f /\ forall v, r_f0 (f v) = r_f0 v /\
    (r_f0 v = set -> value mode (f v) (REG mode d) = value mode v x /\
       forall k, k < d \/ d + GET_MODE_SIZE mode / 2 <= k -> r_gpr (f v) k = r_gpr v k) /\
    (r_f0 v <> set -> f v = v).
Lemma value_reg_word v r : value HImode v (REG HImode r) = r_gpr v r.
Proof. done. Qed.
Lemma set_reg_word d x v : value HImode (set_reg d x v) (REG HImode d) = x /\
  forall k, k < d \/ d + GET_MODE_SIZE HImode / 2 <= k -> r_gpr (set_reg d x v) k = r_gpr v k.
Proof.
  change (value HImode ?w (REG HImode d)) with (r_gpr w d). change (GET_MODE_SIZE HImode / 2) with 1. cbn [set_reg r_gpr]. unfold RegFile.put.
  rewrite Z.eqb_refl. split; [done|]. intros k Hk. by rewrite (proj2 (Z.eqb_neq k d)) by lia.
Qed.
Lemma word_when set d r : word_register d -> word_register r ->
  moves_when (move_when set HImode (REG HImode d) (REG HImode r)) set HImode d (REG HImode r).
Proof.
  unfold word_register. intros Hd Hr.
  destruct (outputs_lines (two_operands (if set then "mvf0t" else "mvf0f") None 0 None 1) [REG HImode d; REG HImode r]
    (fun v => if Bool.eqb (r_f0 v) set then set_reg d (r_gpr v r) v else v)) as (text & Ho & Hc); [by destruct set|by destruct set| |].
  { eapply line_two; [by eapply prints_gpr|by eapply prints_gpr|by apply mvf_text]. }
  exists text. eexists. split; [destruct set; exact Ho|split; [exact Hc|]]. intros v. cbv beta. destruct (Bool.eqb (r_f0 v) set) eqn:E.
  - apply Bool.eqb_prop in E. split; [done|split; [intros _; apply set_reg_word|by intros]].
  - apply Bool.eqb_false_iff in E. split; [done|split; [by intros|done]].
Qed.
Lemma test_of (set : bool) : test_name (if set then "exef0t" else "exef0f") (fun v => Bool.eqb (r_f0 v) set).
Proof.
  destruct set; [destruct exef0t_name as (j & Hc & (a & Ht & Ha) & Hs)|destruct exef0f_name as (j & Hc & (a & Ht & Ha) & Hs)];
    exists j; (split; [exact Hc|split; [|exact Hs]]); exists a; (split; [exact Ht|]); intros s v Hv; rewrite (Ha s v Hv); by destruct (r_f0 v).
Qed.
Lemma constant_when set d n : word_register d -> -8 <= n < 8 ->
  moves_when (move_when set HImode (REG HImode d) (CONST_INT n)) set HImode d (CONST_INT n).
Proof.
  unfold word_register. intros Hd Hn.
  destruct (outputs_lines (two_operands ((if set then "exef0t" else "exef0f") +:+ " || " +:+ "ldi") None 0 None 1) [REG HImode d; CONST_INT n]
    (fun v => if Bool.eqb (r_f0 v) set then set_reg d (n mod 2 ^ 16) v else v)) as (text & Ho & Hc); [by destruct set|by destruct set| |].
  { eapply test_two; [apply test_of|by eapply prints_gpr|by apply prints_number|].
    pose proof (ldi_text d n Hd ltac:(lia)) as Hi. unfold small in Hi.
    by rewrite (proj2 (Z.leb_le _ _) (proj1 Hn)), (proj2 (Z.ltb_lt _ _) (proj2 Hn)) in Hi. }
  exists text. eexists. split; [destruct set; exact Ho|split; [exact Hc|]]. intros v. cbv beta. destruct (Bool.eqb (r_f0 v) set) eqn:E.
  - apply Bool.eqb_prop in E. split; [done|split; [intros _; apply set_reg_word|by intros]].
  - apply Bool.eqb_false_iff in E. split; [done|split; [by intros|done]].
Qed.
Lemma pair_when set d r : pair_register d -> pair_register r ->
  moves_when (move_when set SImode (REG SImode d) (REG SImode r)) set SImode d (REG SImode r).
Proof.
  intros [Hd Ed] [Hr Er].
  destruct (outputs_lines (two_operands ((if set then "exef0t" else "exef0f") +:+ " || " +:+ "mv2w") None 0 None 1) [REG SImode d; REG SImode r]
    (fun v => if Bool.eqb (r_f0 v) set then Regs (RegFile.put (d + 1) (r_gpr v (r + 1)) (RegFile.put d (r_gpr v r) (r_gpr v))) (r_f0 v) (r_f1 v) (r_c v) else v))
    as (text & Ho & Hc); [by destruct set|by destruct set| |].
  { eapply test_two; [apply test_of|eapply prints_gpr; [reflexivity|lia]|eapply prints_gpr; [reflexivity|lia]|by apply mv2w_text]. }
  exists text. eexists. split; [destruct set; exact Ho|split; [exact Hc|]]. intros v. cbv beta. destruct (Bool.eqb (r_f0 v) set) eqn:E.
  - apply Bool.eqb_prop in E. split; [done|split; [intros _|by intros]]. change (GET_MODE_SIZE SImode / 2) with 2.
    change (value SImode ?w (REG SImode d)) with (pair_of (r_gpr w) d). change (value SImode ?w (REG SImode r)) with (pair_of (r_gpr w) r).
    unfold pair_of. cbn [r_gpr]. unfold RegFile.put. rewrite !Z.eqb_refl, (proj2 (Z.eqb_neq d (d + 1))) by lia. split; [done|].
    intros k Hk. by rewrite (proj2 (Z.eqb_neq k (d + 1))), (proj2 (Z.eqb_neq k d)) by lia.
  - apply Bool.eqb_false_iff in E. split; [done|split; [by intros|done]].
Qed.
(** A move of a register to itself is not written. *)
Lemma nothing_when set mode d : moves_when (Some "") set mode d (REG mode d).
Proof. exists "", (fun v => v). split; [done|split; [exact compiles_nothing|]]. by intros v. Qed.

(** ** The value of the two *)

(** One of two values in the register [d]: [x] when F0 is [set], else [y] *)
Definition picks (text : option string) (set : bool) (mode : machine_mode) (d : Z) (x y : rtx) : Prop :=
  exists t f, text = Some t /\ compiles t f /\ forall v,
    value mode (f v) (REG mode d) = value mode v (if Bool.eqb (r_f0 v) set then x else y) /\
    forall k, k < d \/ d + GET_MODE_SIZE mode / 2 <= k -> r_gpr (f v) k = r_gpr v k.
Lemma picks_swap text set mode d x y : picks text set mode d x y -> picks text (negb set) mode d y x.
Proof.
  intros (t & f & Ht & Hc & Hf). exists t, f. split; [exact Ht|split; [exact Hc|]]. intros v. destruct (Hf v) as [Hv Ho].
  split; [|exact Ho]. rewrite Hv. by destruct (r_f0 v), set.
Qed.
(** Both moves are guarded. *)
Lemma picks_guarded a b mode d x y : moves_when a false mode d y -> moves_when b true mode d x ->
  picks (t ← a; u ← b; Some (t +:+ u)) true mode d x y.
Proof.
  intros (t & f & -> & Ct & Hf) (u & g & -> & Cu & Hg). exists (t +:+ u), (fun v => g (f v)).
  split; [done|split; [by apply compiles_app|]]. intros v. destruct (Hf v) as (E0 & F1 & F2). destruct (r_f0 v) eqn:E.
  - rewrite F2 by done. destruct (Hg v) as (_ & G1 & _). by apply G1.
  - destruct (Hg (f v)) as (_ & _ & G2). rewrite G2 by (by rewrite E0). by apply F1.
Qed.
(** A constant is loaded before the guarded move of a value that is not in [d]. *)
Lemma picks_loaded m set d n x : word_register d -> - 2 ^ 31 <= n < 2 ^ 31 ->
  (forall v k, value HImode (set_reg d k v) x = value HImode v x) -> moves_when m set HImode d x ->
  picks (t ← output_asm_insn "ldi %0,%1" [REG HImode d; CONST_INT n]; u ← m; Some (t +:+ u)) set HImode d x (CONST_INT n).
Proof.
  unfold word_register. intros Hd Hn Hx (u & g & -> & Cu & Hg).
  destruct (outputs_lines (two_operands "ldi" None 0 None 1) [REG HImode d; CONST_INT n] (set_reg d (n mod 2 ^ 16)))
    as (t & Ho & Hc); [reflexivity|discriminate|eapply line_two; [by eapply prints_gpr|by apply prints_number|by apply ldi_text]|].
  change "ldi %0,%1" with (template (two_operands "ldi" None 0 None 1)). rewrite Ho.
  exists (t +:+ u), (fun v => g (set_reg d (n mod 2 ^ 16) v)). split; [done|split; [by apply compiles_app|]]. intros v.
  destruct (Hg (set_reg d (n mod 2 ^ 16) v)) as (_ & G1 & G2), (set_reg_word d (n mod 2 ^ 16) v) as [Sv So].
  change (r_f0 (set_reg d (n mod 2 ^ 16) v)) with (r_f0 v) in *. destruct (Bool.eqb (r_f0 v) set) eqn:E.
  - apply Bool.eqb_prop in E. destruct (G1 E) as [Gv Go]. rewrite Gv, Hx. split; [done|]. intros k Hk. rewrite Go by done. by apply So.
  - apply Bool.eqb_false_iff in E. rewrite G2 by done. split; [exact Sv|exact So].
Qed.

(** ** [emit_cond_move] *)

(** The values of a reversed test are exchanged. *)
Definition straight (mode : machine_mode) (d : Z) (x y : rtx) : option string :=
  emit_cond_move [REG mode d; CONST_INT 0; CONST_INT 0; x; y].
Lemma cond_move_reversed mode d test f0 x y :
  emit_cond_move [REG mode d; test; f0; x; y] =
  if bool_decide (GET_MODE test = CC_REVmode) then straight mode d y x else straight mode d x y.
Proof. unfold emit_cond_move, straight. cbn [lookup list_lookup mbind option_bind]. by destruct (bool_decide (GET_MODE test = CC_REVmode)). Qed.
Lemma refers_word d r : word_register d -> word_register r -> refers_to_regno_p d (d + 1) (REG HImode r) = (r =? d).
Proof. unfold word_register. intros Hd Hr. each_below d 16%nat; each_below r 16%nat; reflexivity. Qed.
Lemma skip_when set mode d r m : (r <> d -> moves_when m set mode d (REG mode r)) ->
  moves_when (if is_reg (REG mode r) && (regno_of (REG mode r) =? d) then Some "" else m) set mode d (REG mode r).
Proof. intros Hm. cbn [is_reg regno_of andb]. destruct (Z.eqb_spec r d) as [->|Hn]; [apply nothing_when|by apply Hm]. Qed.
Lemma elsewhere d r v k : r <> d -> value HImode (set_reg d k v) (REG HImode r) = value HImode v (REG HImode r).
Proof. intros Hn. rewrite !value_reg_word. cbn [set_reg r_gpr]. unfold RegFile.put. by rewrite (proj2 (Z.eqb_neq r d)). Qed.
Lemma straight_picks mode d x y : selectable mode d x y -> picks (straight mode d x y) true mode d x y.
Proof.
  unfold straight. destruct mode, x as [[] r| | |n| | | | | | | | | | ]; try done; destruct y as [[] q| | |k| | | | | | | | | | ]; try done; cbn [selectable]; intros Hs.
  - destruct Hs as (Hd & Hr & Hq). change (picks (t ← (if is_reg (REG HImode q) && (regno_of (REG HImode q) =? d) then Some "" else move_when false HImode (REG HImode d) (REG HImode q));
      u ← (if is_reg (REG HImode r) && (regno_of (REG HImode r) =? d) then Some "" else move_when true HImode (REG HImode d) (REG HImode r)); Some (t +:+ u))
      true HImode d (REG HImode r) (REG HImode q)).
    apply picks_guarded; apply skip_when; intros _; by apply word_when.
  - destruct Hs as (Hd & Hr & Hk & Hsmall).
    change (emit_cond_move _) with (if negb (refers_to_regno_p d (d + 1) (REG HImode r))
      then t ← output_asm_insn "ldi %0,%1" [REG HImode d; CONST_INT k]; u ← move_when true HImode (REG HImode d) (REG HImode r); Some (t +:+ u)
      else t ← move_when false HImode (REG HImode d) (CONST_INT k);
        u ← (if is_reg (REG HImode r) && (regno_of (REG HImode r) =? d) then Some "" else move_when true HImode (REG HImode d) (REG HImode r)); Some (t +:+ u)).
    rewrite refers_word by done. destruct (Z.eqb_spec r d) as [E|Hn]; cbn [negb].
    + apply picks_guarded; [by apply constant_when, Hsmall|apply skip_when; done].
    + apply picks_loaded; [done|done|intros; by apply elsewhere|by apply word_when].
  - destruct Hs as (Hd & Hr & Hk & Hsmall).
    change (emit_cond_move _) with (if negb (refers_to_regno_p d (d + 1) (REG HImode q))
      then t ← output_asm_insn "ldi %0,%1" [REG HImode d; CONST_INT n]; u ← move_when false HImode (REG HImode d) (REG HImode q); Some (t +:+ u)
      else t ← (if is_reg (REG HImode q) && (regno_of (REG HImode q) =? d) then Some "" else move_when false HImode (REG HImode d) (REG HImode q));
        u ← move_when true HImode (REG HImode d) (CONST_INT n); Some (t +:+ u)).
    rewrite refers_word by done. destruct (Z.eqb_spec q d) as [E|Hn]; cbn [negb].
    + apply picks_guarded; [apply skip_when; done|by apply constant_when, Hsmall].
    + apply (picks_swap _ false). apply picks_loaded; [done|done|intros; by apply elsewhere|by apply word_when].
  - destruct Hs as (Hd & Hn & Hk).
    change (emit_cond_move _) with (t ← output_asm_insn "ldi %0,%1" [REG HImode d; CONST_INT k]; u ← move_when true HImode (REG HImode d) (CONST_INT n); Some (t +:+ u)).
    apply picks_loaded; [done|lia|done|by apply constant_when].
  - destruct Hs as (Hd & Hr & Hq). change (picks (t ← (if is_reg (REG SImode q) && (regno_of (REG SImode q) =? d) then Some "" else move_when false SImode (REG SImode d) (REG SImode q));
      u ← (if is_reg (REG SImode r) && (regno_of (REG SImode r) =? d) then Some "" else move_when true SImode (REG SImode d) (REG SImode r)); Some (t +:+ u))
      true SImode d (REG SImode r) (REG SImode q)).
    apply picks_guarded; apply skip_when; intros _; by apply pair_when.
Qed.
(** The value is that of the third operand when F0 has the sense of the test's mode. *)
Lemma cond_move_picks mode d test f0 x y : selectable mode d x y ->
  picks (emit_cond_move [REG mode d; test; f0; x; y]) (negb (bool_decide (GET_MODE test = CC_REVmode))) mode d x y.
Proof.
  intros Hs. rewrite cond_move_reversed. destruct (bool_decide _); [|by apply straight_picks].
  apply (picks_swap _ true). by apply straight_picks, selectable_swap.
Qed.
Lemma value_selectable mode d x y v w z : selectable mode d x y -> z = x \/ z = y ->
  (forall k, r_gpr w k = r_gpr v k) -> value mode w z = value mode v z.
Proof.
  intros Hs Hz Hw. assert (match z with REG _ _ => mode = HImode \/ mode = SImode | _ => True end) as Hm.
  { destruct mode, x as [[] r| | |n| | | | | | | | | | ]; try done; destruct y as [[] q| | |k| | | | | | | | | | ]; try done; destruct Hz as [-> | ->]; tauto. }
  destruct z as [m r| | | | | | | | | | | | | ]; try done. destruct Hm as [-> | ->].
  - exact (Hw r).
  - change (pair_of (r_gpr w) r = pair_of (r_gpr v) r). unfold pair_of. by rewrite !Hw.
Qed.

(** What is returned does not depend on the text. *)
Lemma comparison_temp code op0 op1 t t' mode : emit_comparison code op0 op1 t mode false = emit_comparison code op0 op1 t' mode false.
Proof. reflexivity. Qed.
Lemma comparable_mode code mode op0 op1 : comparable code mode op0 op1 -> GET_MODE op0 = mode /\ mode <> DImode.
Proof. destruct mode, op0 as [[] a| | | | | | | | | | | | | ]; done. Qed.

End Conditional.

