(* ===== verification/Split.v ===== *)
(** * Logical operations of several words

    [d10v_split_logical_op] of gcc/config/d10v/d10v.c: the assignments to words of registers
    that it makes of an operation on 32 or 64 bits compute the operation, when no word is
    assigned before it is read. *)
From S2P Require Import Prelude CInt Gcc RegFile Insns InsnText Rtl Templates Lines Moves.
#[local] Open Scope list_scope.
#[local] Open Scope Z_scope.

(** ** What the expressions mean *)

(** The operators on [w]-bit values *)
Definition logical (code : rtx_code) (w x y : Z) : Z :=
  match code with AND => Z.land x y | IOR => Z.lor x y | XOR => Z.lxor x y | _ => 2 ^ w - 1 - x end.
Definition logical_code (code : rtx_code) : bool := match code with AND | IOR | XOR | NOT => true | _ => false end.
(** A word of a register, a constant, and an operation on them *)
Definition word_value (v : regs) (x : rtx) : Z :=
  match x with
  | SUBREG HImode (REG _ r) w => r_gpr v (r + w)
  | CONST_INT n => n mod 2 ^ 16
  | _ => 0
  end.
Definition source_value (v : regs) (x : rtx) : Z :=
  match x with
  | UNARY code HImode y => logical code 16 (word_value v y) 0
  | BINARY code HImode y z => logical code 16 (word_value v y) (word_value v z)
  | _ => word_value v x
  end.
Definition run_set (v : regs) (x : rtx) : regs :=
  match x with SET (SUBREG HImode (REG _ r) w) y => set_reg (r + w) (source_value v y) v | _ => v end.
Definition run_sets (l : list rtx) (v : regs) : regs := fold_left run_set l v.

(** ** Words of a value *)

Lemma testbit_concat l x y i : 0 <= l -> 0 <= y < 2 ^ l -> 0 <= i ->
  Z.testbit (x * 2 ^ l + y) i = if i <? l then Z.testbit y i else Z.testbit x (i - l).
Proof.
  intros Hl Hy Hi. destruct (Z.ltb_spec i l).
  - rewrite <- (Z.mod_pow2_bits_low _ l i) by lia. f_equal. rewrite Z.add_comm, Z.mod_add by lia. by apply Z.mod_small.
  - replace i with (i - l + l) at 1 by lia. rewrite <- Z.div_pow2_bits by lia. f_equal.
    rewrite Z.add_comm, Z.div_add by lia. rewrite Z.div_small by lia. lia.
Qed.
Lemma logical_range code w x y : logical_code code = true -> 0 <= w -> 0 <= x < 2 ^ w -> 0 <= y < 2 ^ w -> 0 <= logical code w x y < 2 ^ w.
Proof.
  intros Hc Hw Hx Hy.
  assert (forall z, 0 <= z -> (forall i, w <= i -> Z.testbit z i = false) -> 0 <= z < 2 ^ w) as Hb.
  { intros z Hz Hi. split; [done|]. destruct (Z.eq_dec z 0) as [->|]; [lia|]. apply Z.log2_lt_pow2; [lia|].
    destruct (Z.lt_ge_cases (Z.log2 z) w); [done|]. pose proof (Z.bit_log2 z ltac:(lia)) as B. by rewrite Hi in B. }
  destruct code; try done; cbn [logical]; [apply Hb|apply Hb|apply Hb|lia].
  1: apply Z.land_nonneg; lia. 2: apply Z.lor_nonneg; lia. 3: apply Z.lxor_nonneg; lia.
  all: intros i Hi; rewrite ?Z.land_spec, ?Z.lor_spec, ?Z.lxor_spec, !(testbit_high _ w) by lia; done.
Qed.
Lemma logical_concat code h l x1 x0 y1 y0 : logical_code code = true -> 0 <= h -> 0 <= l -> 0 <= x0 < 2 ^ l -> 0 <= y0 < 2 ^ l ->
  logical code (h + l) (x1 * 2 ^ l + x0) (y1 * 2 ^ l + y0) = logical code h x1 y1 * 2 ^ l + logical code l x0 y0.
Proof.
  intros Hc Hh Hl Hx Hy. pose proof (logical_range code l x0 y0 Hc Hl Hx Hy) as Hr.
  destruct code; try done; cbn [logical] in *; [..|rewrite Z.pow_add_r by lia; lia];
    apply Z.bits_inj'; intros i Hi; rewrite ?Z.land_spec, ?Z.lor_spec, ?Z.lxor_spec, !testbit_concat by lia;
    rewrite ?Z.land_spec, ?Z.lor_spec, ?Z.lxor_spec; by destruct (i <? l).
Qed.

(** ** The assignments *)

Section Split.
Context `{Compiler}.

(** The words of an operand, the highest first *)
Definition operand_word (mode : machine_mode) (v : regs) (x : rtx) (i : nat) : Z :=
  match x with
  | REG _ r => r_gpr v (r + Z.of_nat i)
  | CONST_INT n => match mode with DImode => nth i ((if n <? 0 then [-1; -1] else [0; 0]) ++ two_words n) 0 | _ => nth i (two_words n) 0 end mod 2 ^ 16
  | _ => 0
  end.
(** The registers of [n] words, none of which is assigned before it is read *)
Definition room (n r : Z) : Prop := 0 <= r /\ r + n <= 16.
Definition read_first (n a r : Z) : Prop := a <= r \/ r + n <= a.

Lemma run_app l l' v : run_sets (l ++ l') v = run_sets l' (run_sets l v).
Proof. apply fold_left_app. Qed.
Lemma assigned d x v k : r_gpr (set_reg d x v) k = if k =? d then x else r_gpr v k.
Proof. done. Qed.
Lemma all_ones_word n : (Z.land n 0xffff =? 0xffff) = true -> n mod 2 ^ 16 = Z.ones 16.
Proof. intros E%Z.eqb_eq. change 0xffff with (Z.ones 16) in E. by rewrite Z.land_ones in E by lia. Qed.
(** A word that the operation with a constant leaves *)
Lemma unchanged_word code x n : 0 <= x < 2 ^ 16 ->
  ((n =? 0) && bool_decide (code = IOR)) || ((Z.land n 0xffff =? 0xffff) && bool_decide (code = AND)) = true ->
  logical code 16 x (n mod 2 ^ 16) = x.
Proof.
  intros Hx [[->%Z.eqb_eq E%bool_decide_eq_true]%andb_prop|[E1%all_ones_word E%bool_decide_eq_true]%andb_prop]%orb_prop; subst code; cbn [logical].
  - apply Z.lor_0_r.
  - rewrite E1. rewrite Z.land_ones by lia. by apply Z.mod_small.
Qed.
(** One round of the loop *)
Lemma split_word_run code mode a b op2 values i v :
  logical_code code = true -> 0 <= r_gpr v (b + Z.of_nat i) < 2 ^ 16 ->
  (code <> NOT -> (exists m c, op2 = REG m c) \/ exists n, op2 = CONST_INT n /\ operand_word mode v op2 i = nth i values 0 mod 2 ^ 16) ->
  forall k, r_gpr (run_sets (split_word code (REG mode a) (REG mode b) op2 0 0 0 values (Z.of_nat i)) v) k =
    if k =? a + Z.of_nat i then logical code 16 (r_gpr v (b + Z.of_nat i)) (operand_word mode v op2 i) else r_gpr v k.
Proof.
  intros Hc Hb H2 k. unfold split_word, code_needs_op2. destruct (bool_decide_reflect (code = NOT)) as [->|Hn]; cbn [negb].
  - cbn. unfold RegFile.put. by rewrite !Z.add_0_r.
  - destruct (H2 Hn) as [(m & c & ->)|(n & -> & Hw)]; cbn [is_reg negb].
    + cbn. unfold RegFile.put. by rewrite !Z.add_0_r.
    + rewrite Nat2Z.id, Hw. cbn [regno_of]. destruct (_ || _) eqn:E.
      * rewrite (unchanged_word code) by done. rewrite andb_true_r. destruct (Z.eqb_spec (a + Z.of_nat i + 0) (b + Z.of_nat i + 0)); cbn.
        -- destruct (Z.eqb_spec k (a + Z.of_nat i)) as [->|]; [f_equal; lia|done].
        -- unfold RegFile.put. by rewrite !Z.add_0_r.
      * rewrite !andb_false_r. cbn. unfold RegFile.put. by rewrite !Z.add_0_r.
Qed.

(** The second operand: a register that is read before it is assigned, or a constant *)
Definition second_operand (mode : machine_mode) (n a : Z) (x : rtx) : Prop :=
  match x with REG m c => m = mode /\ room n c /\ read_first n a c | CONST_INT k => - 2 ^ 31 <= k < 2 ^ 31 | _ => False end.
(** The first [n] rounds *)
Lemma split_words_run code mode a b op2 values v : logical_code code = true -> good v ->
  forall n, Z.of_nat n <= GET_MODE_SIZE mode / UNITS_PER_WORD -> room (GET_MODE_SIZE mode / UNITS_PER_WORD) b ->
  read_first (GET_MODE_SIZE mode / UNITS_PER_WORD) a b ->
  (code <> NOT -> second_operand mode (GET_MODE_SIZE mode / UNITS_PER_WORD) a op2 /\
     forall i k, op2 = CONST_INT k -> operand_word mode v op2 i = nth i values 0 mod 2 ^ 16) ->
  let v' := run_sets (concat (map (fun i => split_word code (REG mode a) (REG mode b) op2 0 0 0 values (Z.of_nat i)) (seq 0 n))) v in
  (forall i, (i < n)%nat -> r_gpr v' (a + Z.of_nat i) = logical code 16 (r_gpr v (b + Z.of_nat i)) (operand_word mode v op2 i)) /\
  forall k, k < a \/ a + Z.of_nat n <= k -> r_gpr v' k = r_gpr v k.
Proof.
  intros Hc Hv n. set (N := GET_MODE_SIZE mode / UNITS_PER_WORD). intros Hn Hb Rb H2.
  induction n as [|n IH]; [by split; [lia|]|]. destruct (IH ltac:(lia)) as [IH1 IH2]. clear IH.
  rewrite seq_S, map_app, concat_app, run_app, Nat.add_0_l. cbn [map concat]. rewrite app_nil_r.
  set (v1 := run_sets _ v) in *.
  assert (r_gpr v1 (b + Z.of_nat n) = r_gpr v (b + Z.of_nat n)) as Eb by (apply IH2; unfold read_first in Rb; lia).
  assert (code <> NOT -> operand_word mode v1 op2 n = operand_word mode v op2 n) as E2.
  { intros Hnot. destruct (H2 Hnot) as [Hop _]. destruct op2 as [m c| | | | | | | | | | | | | ]; try done.
    destruct Hop as (_ & _ & Rc). apply IH2. unfold read_first in Rc. lia. }
  assert (logical code 16 (r_gpr v1 (b + Z.of_nat n)) (operand_word mode v1 op2 n) = logical code 16 (r_gpr v (b + Z.of_nat n)) (operand_word mode v op2 n)) as Ew.
  { rewrite Eb. destruct (decide (code = NOT)) as [->|Hnot]; [done|by rewrite E2]. }
  assert (forall k, r_gpr (run_sets (split_word code (REG mode a) (REG mode b) op2 0 0 0 values (Z.of_nat n)) v1) k =
    if k =? a + Z.of_nat n then logical code 16 (r_gpr v (b + Z.of_nat n)) (operand_word mode v op2 n) else r_gpr v1 k) as Hs.
  { intros k. rewrite <- Ew. apply split_word_run; [exact Hc|rewrite Eb; apply Hv; unfold room in Hb; lia|].
    intros Hnot. destruct (H2 Hnot) as [Hop Hk]. destruct op2 as [m c| | |k'| | | | | | | | | | ]; try done; [left; by eexists _, _|right].
    exists k'. split; [done|]. rewrite (E2 Hnot). by apply (Hk n k'). }
  split.
  - intros i Hi. rewrite Hs. destruct (Z.eqb_spec (a + Z.of_nat i) (a + Z.of_nat n)) as [E|]; [by replace i with n by lia|]. apply IH1. lia.
  - intros k Hk. rewrite Hs, (proj2 (Z.eqb_neq k (a + Z.of_nat n))) by lia. apply IH2. lia.
Qed.

(** A value from its words *)
Definition of_words (mode : machine_mode) (f : nat -> Z) : Z :=
  match mode with
  | SImode => f 0%nat * 2 ^ 16 + f 1%nat
  | DImode => (f 0%nat * 2 ^ 16 + f 1%nat) * 2 ^ 32 + (f 2%nat * 2 ^ 16 + f 3%nat)
  | _ => 0
  end.
Definition wide (mode : machine_mode) : Prop := mode = SImode \/ mode = DImode.
Lemma value_register mode v r : wide mode -> value mode v (REG mode r) = of_words mode (operand_word mode v (REG mode r)).
Proof.
  intros [-> | ->]; cbn [of_words operand_word]; change (Z.of_nat 0) with 0; change (Z.of_nat 1) with 1; change (Z.of_nat 2) with 2;
    change (Z.of_nat 3) with 3; rewrite Z.add_0_r; [done|].
  change (quad_of (r_gpr v) r = (r_gpr v r * 2 ^ 16 + r_gpr v (r + 1)) * 2 ^ 32 + (r_gpr v (r + 2) * 2 ^ 16 + r_gpr v (r + 3))).
  unfold quad_of, pair_of. by replace (r + 2 + 1) with (r + 3) by lia.
Qed.
Lemma value_constant mode v n : wide mode -> - 2 ^ 31 <= n < 2 ^ 31 ->
  value mode v (CONST_INT n) = of_words mode (operand_word mode v (CONST_INT n)).
Proof.
  intros [-> | ->] Hn; cbn [of_words operand_word].
  - unfold two_words. cbn [nth]. rewrite !SIGN_EXTEND_SHORT_wrap. unfold s16. rewrite !wrap_signed_mod by lia.
    change (value SImode v (CONST_INT n)) with (n mod 2 ^ 32). rewrite Z.shiftr_div_pow2 by lia. zdml.
  - change (value DImode v (CONST_INT n)) with (n mod 2 ^ 64). rewrite <- quarters_value by done. unfold quarter, two_words.
    rewrite !SIGN_EXTEND_SHORT_wrap. done.
Qed.
Lemma operand_word_range mode v x i : good v -> (forall r, x = REG mode r -> room (GET_MODE_SIZE mode / UNITS_PER_WORD) r) ->
  (forall m r, x = REG m r -> m = mode) -> Z.of_nat i < GET_MODE_SIZE mode / UNITS_PER_WORD -> 0 <= operand_word mode v x i < 2 ^ 16.
Proof.
  intros Hv Hr Hm Hi. destruct x as [m r| | |n| | | | | | | | | | ]; cbn [operand_word]; try lia.
  - pose proof (Hm m r eq_refl) as ->. destruct (Hr r eq_refl). apply Hv. lia.
  - apply Z.mod_pos_bound. lia.
Qed.
Lemma logical_words code mode f g : logical_code code = true -> wide mode ->
  (forall i, Z.of_nat i < GET_MODE_SIZE mode / UNITS_PER_WORD -> 0 <= f i < 2 ^ 16 /\ 0 <= g i < 2 ^ 16) ->
  logical code (width mode) (of_words mode f) (of_words mode g) = of_words mode (fun i => logical code 16 (f i) (g i)).
Proof.
  intros Hc [-> | ->] Hr; cbn [of_words].
  - change (width SImode) with (16 + 16). apply logical_concat; first [done | apply Hr; reflexivity].
  - change (width DImode) with (32 + 32). rewrite logical_concat; [|done|done|done|..].
    + change 32 with (16 + 16) at 1 3. rewrite !logical_concat; first [done | apply Hr; reflexivity].
    + destruct (Hr 2%nat eq_refl) as [? _], (Hr 3%nat eq_refl) as [? _]. lia.
    + destruct (Hr 2%nat eq_refl) as [_ ?], (Hr 3%nat eq_refl) as [_ ?]. lia.
Qed.
(** The text of the splitter is the sequence of the rounds. *)
Lemma split_rounds code mode a b op2 : logical_code code = true -> wide mode ->
  (code <> NOT -> second_operand mode (GET_MODE_SIZE mode / UNITS_PER_WORD) a op2) ->
  exists values, d10v_split_logical_op [REG mode a; REG mode b; op2] code =
    Some (concat (map (fun i => split_word code (REG mode a) (REG mode b) (if code_needs_op2 code then op2 else CONST_INT 0) 0 0 0 values (Z.of_nat i))
      (seq 0 (Z.to_nat (GET_MODE_SIZE mode / UNITS_PER_WORD))))) /\
    (code <> NOT -> forall v i k, op2 = CONST_INT k -> operand_word mode v op2 i = nth i values 0 mod 2 ^ 16).
Proof.
  intros Hc Hm H2. destruct (decide (code = NOT)) as [->|Hn]; [exists []; split; [by destruct Hm as [-> | ->]|done]|].
  specialize (H2 Hn). destruct op2 as [m c| | |k| | | | | | | | | | ]; try done.
  - exists []. split; [|done]. destruct code; try done; by destruct Hm as [-> | ->].
  - exists (match mode with DImode => (if k <? 0 then [-1; -1] else [0; 0]) ++ two_words k | _ => two_words k end).
    split; [destruct code; try done; by destruct Hm as [-> | ->]|]. intros _ v i k' [= <-]. cbn [operand_word]. by destruct Hm as [-> | ->].
Qed.

(** C13: A logical operation on 32 or 64 bits, split into operations on words.  For AND, IOR
    and XOR with a register or a constant, and for NOT, the assignments that
    [d10v_split_logical_op] makes, executed in their order, leave in the destination the
    operation on the whole values, and the other registers as they were, when the registers
    of each source are the destination's, begin above it or end below it.  Assignments that
    would change nothing are left out, and those that only move a word are moves. *)
Theorem logical_op_split code mode a b op2 : logical_code code = true -> wide mode ->
  room (GET_MODE_SIZE mode / UNITS_PER_WORD) a -> room (GET_MODE_SIZE mode / UNITS_PER_WORD) b ->
  read_first (GET_MODE_SIZE mode / UNITS_PER_WORD) a b ->
  (code <> NOT -> second_operand mode (GET_MODE_SIZE mode / UNITS_PER_WORD) a op2) ->
  exists sets, d10v_split_logical_op [REG mode a; REG mode b; op2] code = Some sets /\
    forall v, good v ->
      value mode (run_sets sets v) (REG mode a) = logical code (width mode) (value mode v (REG mode b)) (value mode v op2) /\
      forall k, k < a \/ a + GET_MODE_SIZE mode / UNITS_PER_WORD <= k -> r_gpr (run_sets sets v) k = r_gpr v k.
Proof.
  intros Hc Hm Ha Hb Hr H2. destruct (split_rounds code mode a b op2 Hc Hm H2) as (values & Es & Hv).
  eexists. split; [exact Es|]. intros v Hg. set (op := if code_needs_op2 code then op2 else CONST_INT 0).
  assert (code <> NOT -> op = op2) as Eop by (intros Hn; by destruct code).
  assert (0 <= GET_MODE_SIZE mode / UNITS_PER_WORD) as Hpos by (by destruct Hm as [-> | ->]).
  destruct (split_words_run code mode a b op values v Hc Hg (Z.to_nat (GET_MODE_SIZE mode / UNITS_PER_WORD)) ltac:(lia) Hb Hr) as [Hw Ho].
  { intros Hn. rewrite (Eop Hn). split; [by apply H2|]. intros i k E. by apply (Hv Hn v i k). }
  split; [|intros k Hk; apply Ho; lia].
  assert (logical code (width mode) (value mode v (REG mode b)) (value mode v op2) = logical code (width mode) (value mode v (REG mode b)) (value mode v op)) as ->
    by (destruct (decide (code = NOT)) as [->|Hn]; [done|by rewrite Eop]).
  assert (second_operand mode (GET_MODE_SIZE mode / UNITS_PER_WORD) a op) as Hop
    by (destruct (decide (code = NOT)) as [->|Hn]; [done|rewrite (Eop Hn); by apply H2]).
  assert (value mode v op = of_words mode (operand_word mode v op)) as ->.
  { destruct op as [m c| | |k| | | | | | | | | | ]; try done; [destruct Hop as (-> & _); by apply value_register|by apply value_constant]. }
  assert (forall i, Z.of_nat i < GET_MODE_SIZE mode / UNITS_PER_WORD ->
    0 <= operand_word mode v (REG mode b) i < 2 ^ 16 /\ 0 <= operand_word mode v op i < 2 ^ 16) as Hrange.
  { intros i Hi. split; apply operand_word_range; try done;
      [by intros r [= <-]|by intros m r [= <- _]|intros r E; rewrite E in Hop; apply Hop|intros m r E; rewrite E in Hop; apply Hop]. }
  rewrite !value_register, logical_words by done.
  destruct Hm as [-> | ->]; cbn [of_words operand_word]; rewrite !Hw by (vm_compute; lia); done.
Qed.

(** Four words of a second operand in the registers below are overwritten before they are read. *)
Lemma overlap_overwritten : exists sets v, good v /\ d10v_split_logical_op [REG DImode 4; REG DImode 4; REG DImode 2] AND = Some sets /\
  value DImode (run_sets sets v) (REG DImode 4) <> logical AND 64 (value DImode v (REG DImode 4)) (value DImode v (REG DImode 2)).
Proof.
  eexists. exists (Regs (fun k => k) false false false). split; [intros k Hk; cbn; lia|]. split; [reflexivity|]. by vm_compute.
Qed.
(** A word of two in a constant of 64 bits is 0 whatever the constant. *)
Lemma double_word_zero n k : -2 ^ 31 <= n < 2 ^ 31 -> k = 0 \/ k = 2 -> d10v_subword (CONST_INT n) k SImode DImode = ([], Some (CONST_INT 0)).
Proof.
  intros Hn Hk. assert (forall x y, Z.land (s32 (Z.shiftl x 16)) (Z.land y 0xffff) = 0) as Hz.
  { intros x y. apply Z.bits_inj'. intros i Hi. rewrite Z.bits_0, !Z.land_spec. change 0xffff with (Z.ones 16).
    rewrite Z.testbit_ones_nonneg by lia. destruct (Z.ltb_spec i 16); [|by rewrite !andb_false_r].
    rewrite <- (Z.mod_pow2_bits_low _ 32) by lia. unfold s32. rewrite wrap_signed_mod by lia.
    by rewrite Z.mod_pow2_bits_low, Z.shiftl_spec_low by lia. }
  assert (exists x y, d10v_subword (CONST_INT n) k SImode DImode = ([], Some (CONST_INT (Z.land (s32 (Z.shiftl x 16)) (Z.land y 0xffff))))) as (x & y & ->);
    [|by rewrite Hz].
  destruct (Z.ltb_spec n 0) as [En%Z.ltb_lt|En%Z.ltb_ge]; destruct Hk as [-> | ->]; eexists _, _;
    unfold d10v_subword, subword_of; cbn [GET_MODE_SIZE Z.eqb Pos.eqb d10v_split_constant64 mbind option_bind]; rewrite En; reflexivity.
Qed.

(** ** Words of an operand *)

(** A word of a constant of 32 or 64 bits *)
Lemma subword_constant mode n k : wide mode -> - 2 ^ 31 <= n < 2 ^ 31 -> 0 <= k < GET_MODE_SIZE mode / UNITS_PER_WORD ->
  exists x, d10v_subword (CONST_INT n) k HImode mode = ([], Some (CONST_INT x)) /\
    forall v, x mod 2 ^ 16 = operand_word mode v (CONST_INT n) (Z.to_nat k).
Proof.
  intros [-> | ->] Hn Hk.
  - change (GET_MODE_SIZE SImode / UNITS_PER_WORD) with 2 in Hk. each_below k 2%nat; (eexists; split; [reflexivity|]);
      intros v; cbn [operand_word]; unfold two_words; cbn [Z.to_nat Pos.to_nat Pos.iter_op Nat.add nth]; rewrite SIGN_EXTEND_SHORT_wrap;
      unfold s16; by rewrite wrap_signed_mod.
  - change (GET_MODE_SIZE DImode / UNITS_PER_WORD) with 4 in Hk. each_below k 4%nat; destruct (Z.ltb_spec n 0) as [En%Z.ltb_lt|En%Z.ltb_ge].
    all: eexists; split; [unfold d10v_subword, subword_of; cbn [GET_MODE_SIZE Z.eqb Pos.eqb d10v_split_constant64 mbind option_bind]; rewrite En; reflexivity|].
    all: intros v; cbn [operand_word]; rewrite En; unfold two_words; cbn [Z.to_nat Pos.to_nat Pos.iter_op Nat.add nth app]; rewrite SIGN_EXTEND_SHORT_wrap.
    all: unfold s16; by rewrite wrap_signed_mod.
Qed.
End Split.

(** Four words with a constant, in place *)
Lemma logical_op_split_witness : exists sets, @d10v_split_logical_op plain_compiler [REG DImode 2; REG DImode 2; CONST_INT 0x4fff0] IOR = Some sets /\
  length sets = 2%nat /\ value DImode (run_sets sets counting) (REG DImode 2) = 0x000200030004fff5.
Proof.
  destruct (@logical_op_split plain_compiler IOR DImode 2 2 (CONST_INT 0x4fff0)) as (sets & Es & Hv);
    [reflexivity|by right|repeat split; discriminate|repeat split; discriminate|by left|repeat split; discriminate|].
  exists sets. split; [exact Es|split]; [vm_compute in Es; injection Es as <-; reflexivity|].
  destruct (Hv counting counting_good) as [-> _]. vm_compute. reflexivity.
Defined.
